(* ===== verification/_CoqProject ===== *)
-Q . S2P
Prelude.v
PyFloat.v
Orderings.v
FloatRound.v
TickSize.v
BrokerUtils.v
WireTime.v
ExitPolicy.v
EntryModels.v
EntryTiming.v
OrderPlan.v
Candidate.v
CandidateStore.v
GatewayModels.v
OrderBoundary.v
CommandStore.v
CommandHistory.v
LiveSimModels.v
LiveSimStore.v
LiveSimEvents.v
LiveSimLedger.v
LiveSimHistory.v
SafetyGate.v
LiveSimExit.v
LiveSimRuns.v
BrokerSnapshot.v
LiveSimReconcile.v
ReconcileRuns.v
Admission.v
LiveSimBuy.v
BuyRuns.v
PipelineLineage.v
OrderPlanBinding.v
BoundPlans.v
OrderPlanRoute.v
BoundBuys.v
LiveSimSystem.v
IntentHistory.v
KiwoomOrders.v
OrderJournal.v
KiwoomRuntime.v
OrderHandling.v
BrokerMessages.v
EventStore.v
OrderJourney.v
CoreIoWorker.v
ProjectionWatermarks.v
ProjectionOutbox.v
MarketData.v
MarketHistory.v
MarketReplay.v
Subscription.v
SubscriptionRuns.v
