(* ===== verification/Prelude.v ===== *)
(** * suseok-trader-v2: a verification development

    The repository is an automated trading system for Korean stocks in
    simulation.  A core process (Python, SQLite) watches themes and candidates,
    times entries, drafts order plans and keeps the state of simulated orders; a
    gateway process on Windows talks to the Kiwoom broker API.  The two meet in
    one queue, the table [gateway_commands]: the core enqueues commands, the
    gateway polls them and reports back what became of each.  Money is at risk
    where an order could be sent twice, a sale could exceed a position, or an
    event could be applied twice; that path is what this development covers
    first, with the calculation of prices and signals that feeds it.

    ** How the parts interact

    Candidates ([Candidate], [CandidateStore]) reach entry timing
    ([EntryModels], [EntryTiming]), which evaluates the price location and makes
    order-plan drafts ([OrderPlan], prices on the KRX grid of [TickSize]).  An
    order becomes a gateway command ([GatewayModels], [CommandStore]); whether
    orders may be routed at all is decided by the order-broker boundary
    ([OrderBoundary]), which the command store and the safety gate ask through
    the class [RoutingGate], so that their theorems hold for every gate and the
    boundary's theorems discharge it.  What the gateway reports moves the command
    ([CommandStore.record_command_event]) and the live-sim tables
    ([LiveSimStore], [LiveSimEvents]): orders, executions, positions.  The core
    sells a position when the shared exit policy ([ExitPolicy]) fires and cancels
    orders that stay unfilled ([LiveSimExit]), when the safety gate
    ([SafetyGate]) lets it.  The gateway handles an order it polled in
    [KiwoomRuntime], with the requests and the rate governor of [KiwoomOrders]
    and the journal of [OrderJournal]; it calls the broker only when the core
    confirms a durable pre-ack, which it reaches through the class [CoreClient];
    [DurableCore] says what it relies on, and the event store ([EventStore])
    behind a lossy network implements it ([OrderJourney]).  Between the gateway's
    main thread and HTTP stands the event buffer of [CoreIoWorker].  What arrives is
    projected into the market tables ([MarketData]) with the progress of
    [ProjectionWatermarks]; ticks, bars and signals there are what candidates,
    timing and exits read.  Which codes the gateway streams is planned by
    [Subscription] from the same tables.

    ** Files

    - [Prelude]: exceptions and [res], the texts of the store and their order,
      lists, tactics, hint databases.  [PyFloat]: Python floats as binary64
      ([SpecFloat] at precision 53) and the int/float operations of the code.
      [FloatRound]: what division and [floor] yield.
      [Orderings]: the comparisons an [ORDER BY] is built from.
    - [TickSize]: services/entry_timing/tick_size.py, whole.
    - [BrokerUtils], [WireTime]: domain/broker/utils.py; JSON values, validation
      of broker data, timestamps and their text form, the market's clock.
    - [ExitPolicy]: domain/exit/policy.py, whole.
    - [EntryModels], [EntryTiming], [OrderPlan]: services/entry_timing/models.py,
      price_location.py, engine.py, order_plan.py, and their part of
      services/config.py.
    - [Candidate], [CandidateStore]: domain/candidate/ (data, state machine) and
      services/candidate_service.py (ingest, merge, exit, refresh).
    - [GatewayModels], [CommandStore]: domain/broker/commands.py and
      storage/gateway_command_store.py; rows of [gateway_commands] and
      [gateway_command_dedupe_keys] are finite maps, every operation is a
      function on the store.  [CommandHistory]: sequences of those operations.
    - [OrderBoundary]: storage/gateway_order_broker_boundary.py: the operations
      the command store calls and the raw boundary status.
    - [LiveSimModels]: domain/live_sim/models.py and status.py.  [LiveSimStore]:
      the tables live_sim_* of storage/sqlite.py and the row access of
      services/live_sim/live_sim_service.py.  [LiveSimEvents]: the event handlers
      of that file.  [LiveSimLedger], [LiveSimHistory]: the ledger invariant and
      histories of inserted orders and handled events.
    - [SafetyGate]: services/live_sim/safety_gate.py and daily_loss_guard.py.
    - [LiveSimExit], [LiveSimRuns]: the exit and cancel runs of
      live_sim_service.py, over a world of ledger, command store, latest ticks
      and gateway status, in a state-and-error monad that keeps the partial
      writes an exception leaves; and their properties.
    - [BrokerSnapshot]: domain/broker/account_snapshot.py (masking of account
      numbers, canonical status) and the snapshot normalisation of
      live_sim_service.py.  [LiveSimReconcile]: the reconciliation of
      live_sim_service.py with a broker snapshot, the snapshot event and request,
      the sweep of expired commands.  The evidence values stored beside a
      mismatch are left out; the mismatches, their counts and what they change
      are not.  [ReconcileRuns]: its properties.
    - [Admission]: services/admission/evaluator.py.  [LiveSimBuy]: the buy path
      of live_sim_service.py: eligibility, intents, their queueing.  The
      qualification of the execution lifecycle and the route of intents that are
      bound to an order plan are the classes [ExecutionLifecycle] and
      [PlanRoute].  [BuyRuns]: its properties, for every instance.
    - [PipelineLineage]: the lineage functions of services/pipeline_coherency.py:
      the watermark of what a candidate was derived from, read over rows of the
      pipeline's tables, and the assessments of observations and plans by it.
      [OrderPlanBinding]: services/live_sim/order_plan_binding.py, whole.
      [BoundPlans]: what a binding pins and what its validation accepts.
      [OrderPlanRoute]: order_plan_eligibility.py, order_plan_intent.py and the
      terminal check of live_sim_service.py, the instance [order_plan_route] of
      [PlanRoute].  [BoundBuys]: what a buy that is bound to a plan is.
    - [LiveSimSystem]: histories of the whole service, every live-sim operation
      above, buys included, as one step.  [IntentHistory]: what such a history
      does to an intent.
    - [KiwoomOrders]: the requests and the rate governor of
      gateway/kiwoom_command_handlers.py, with the helpers of kiwoom_client.py.
      [OrderJournal]: gateway/event_factory.py, order_pre_ack_journal.py and the
      state of the gateway process.  [KiwoomRuntime]: the order handlers,
      [handle], the registry and the command loop of kiwoom_runtime.py.
      [OrderHandling]: what handling a command can do, for every core.
    - [BrokerMessages]: the messages of domain/broker/ (ticks, conditions, TR,
      orders, executions, envelopes) and their mapping forms.  [EventStore]:
      storage/event_store.py and the answer of api/routes/gateway.py to a
      pre-ack.
    - [OrderJourney]: core, network and gateway as one transition system.
    - [CoreIoWorker]: gateway/core_io_worker.py: the event buffer, its batches and
      retries, the command queue; its two threads as interleaved actions.
    - [ProjectionWatermarks]: storage/projection_watermarks.py, its writes.
      [ProjectionOutbox]: storage/projection_outbox.py, its writes: the jobs that
      projections are owed, claimed and settled by workers.
    - [MarketData]: services/market_data_service.py, the answers of
      candidate_quote_refresh.py that become ticks, domain/market/bars.py and
      quality.py: ticks, bars, observations, signals, clearing and rebuilding.
      [MarketHistory]: the route that projects each event as it comes, and the
      bars of the states it reaches.  [MarketReplay]: the rebuild compared with it.
    - [Subscription]: services/realtime_subscription/service.py: the codes worth
      watching, the plan of what the gateway is to stream, the commands for it.
      [SubscriptionRuns]: what a run of the planner does to the command store.

    Definitions carry the names of the Python functions; a constructor with
    validation ([__post_init__]) is a function [.._post_init] into [res].

    ** What the theorems show

    - Queue safety ([CommandHistory]): an order the broker accepted is never
      handed out again; what is polled passes the validators again; a key admits
      one command while it is retained; a poll ends; dispatch takes exactly the
      ready rows in order; an uncertain order stays uncertain after the expiry
      pass; what late, repeated and unknown events do.
    - Boundary ([OrderBoundary]): routing is clear exactly when no row is
      unresolved; delivery of reports in any order gives the same row.
    - Ledger ([LiveSimHistory]): an execution is applied once; positions,
      position events, orders and executions agree in every reachable store;
      honest histories balance, a refinement of the specification [holdings].
    - Exits ([LiveSimRuns], [ExitPolicy]): a queued exit is a close-only
      simulated sale of available shares the queue's validators accept; the
      policy's triggers and their priority; a refused exit blocks its position.
    - Buys ([BuyRuns]): what a created intent was admitted under and sized to;
      what a queued order was checked against; a queueing that raises leaves
      orders, commands and accepted intents as they were.
    - Buys by plan ([BoundPlans], [BoundBuys]): a binding passes exactly if all it
      names is stored, unchanged and consistent, and pins every column of its plan;
      a plan is eligible exactly under the listed conditions; an order of an intent
      that names a plan executes that plan, at the size it has at that moment.
    - Reconciliation ([ReconcileRuns]): the verdict OK is exact, a mismatch
      blocks new buys.
    - Whole service ([LiveSimSystem], [IntentHistory]): buys, runs, events,
      reconciliations and sweeps in any order keep the ledger; the sweep expires
      exactly the commands that were never dispatched; an intent is queued once.
    - Orders end to end ([OrderJourney], [OrderHandling]): an order reaches the
      broker at most once and never without a durable pre-ack, through lost
      messages, repeated events, rate limits, full disks and restarts; every call
      passed all the guards.  Proved by a budget: the queued row, a copy handed
      out, a rate-limit report under way and the call are one right to send.
    - Events ([EventStore], [OrderJournal], [BrokerMessages]): what is delivered
      again changes nothing; the last heartbeat never goes back; the journal
      recovers exactly the orders left open; every message survives the wire.
    - Event buffer ([CoreIoWorker]): reports about commands leave in the order
      they came, none lost; the buffer stays within its limit but for what must not
      be dropped; a core that answers empties it.
    - Projections ([ProjectionWatermarks], [MarketHistory], [MarketReplay]): the
      watermark and the results tell the history of the calls; bars of different
      intervals tell the same volume and contain their ticks; clearing and
      replaying the log gives back the tables of the live run, whatever arrived
      late, twice, broken or with other clocks.
    - Outbox ([ProjectionOutbox]): every operation refines the abstract life of a
      job (who may claim, settle, retry, release or retire it, with attempts up to
      the limit); an event gets each of its jobs once, however often it is
      delivered; claims hand out the due jobs in order, each to one worker.
    - Subscriptions ([Subscription], [SubscriptionRuns]): a plan stays within the
      limit of codes and takes the best that wait; it removes exactly what nothing
      wants and no fresh tick is seen of, never an anchor; a run asks for one
      command a target and queues no order.
    - Plans and prices ([TickSize], [EntryTiming], [OrderPlan]): grid
      normalisation, tick arithmetic and distance, classification, the bounds of
      a ready draft.
    - Candidates ([Candidate], [CandidateStore]): transitions, idempotent ingest,
      the store invariant.
    - Data ([LiveSimModels], [WireTime], [EntryModels]): what constructors
      establish, round trips, the order of time texts.

    ** Bounds and fuel

    [TickSize.price_tick_distance] is a [while] loop run with fuel; more fuel
    than the larger price in won is enough, and that is proved.
    [CommandHistory]'s poll loop recurses on the list of polling attempts.
    [CoreIoWorker]'s loop that drops events has the length of the buffer for fuel;
    every round drops one.  Everything else is structural recursion on data.

    ** Parameters and limits

    Code that is not in the repository is a parameter: the SHA-256 of a payload
    ([hash_payload]), the text [str] gives a float or a container ([py_repr]),
    [json.loads] ([json_loads]), the canonical text of a mapping
    ([canonical_json]) and its hash ([sha256]), SQLite's [SUM] over floats ([sql_sum]) and
    its [julianday], fresh
    identifiers ([new_message_id], a function of a prefix and a serial), the row
    SQLite returns among those that tie in an [ORDER BY ... LIMIT 1] ([pick]), and at
    the gateway the clocks, the disk and the broker's control ([Outside]) and the
    network ([Network]).  Nothing
    is assumed of them unless a theorem names the hypothesis; the witnesses
    instantiate them.  The class [ResolutionLedger] stands for the manual
    resolution tables.  The clock is an argument, read once per operation: where
    the source reads it several times in one call, the model uses one value;
    at the gateway every reading is its own.
    Strings are ASCII; time texts are the extended ISO forms.  One operation
    runs at a time: the source serialises writers with SQLite transactions
    ([BEGIN IMMEDIATE]), and the order of operations is arbitrary in the history
    theorems.

    ** Not modelled

    FastAPI routes, the dashboard, diagnostics and ops tools (they read and
    format); the Kiwoom ActiveX client and Qt event loop (calls into a Windows
    control); the AI sidecar (calls a service); schema migration.  Of the
    gateway: login, heartbeats, realtime registration and the dead-man cancel,
    the handlers of other commands than orders (the argument [non_order]), the
    fallback of core_io_worker.py for a client that posts single events.  Of the
    market data: the queries that list and count, the run that enqueues quote
    refreshes, the routing of events to the projection outbox (the model projects
    inline, the default of the route; which events are routed is the argument
    [skips_inline]), and the worker that applies the outbox's jobs.
    Of the order-plan route: the batch over candidates, the copied evidence values
    and errors of the database itself; of pipeline_coherency.py the reports over a
    day.  Of the subscription planner: the evidence a target copies, constants and
    counts of its report.  Later components in the order of the plan: the outbox worker, the
    lifecycle inbox, risk and strategy evaluation, the Profit Lab. *)
From Stdlib Require Export Ascii String ZArith Lia Bool Sorted.
From stdpp Require Export base option list strings gmap numbers.

#[export] Set Default Goal Selector "!".
#[export] Set Warnings "-clear-no-such-hyp".

(** ** Python exceptions and fallible computations *)

Declare Scope py_scope.
Delimit Scope py_scope with py.

(** The exceptions the modelled code raises, each with the text of its message
    where the message is a literal of the source. *)
Inductive exn :=
| ValueError (msg : string)
| ZeroDivisionError
| OverflowError
| RuntimeError (msg : string)
| IntegrityError
| OtherError (tag : string).

Inductive res (A : Type) :=
| Ok (a : A)
| Err (e : exn).
Arguments Ok {A} a.
Arguments Err {A} e.

Definition res_bind {A B : Type} (x : res A) (k : A -> res B) : res B :=
  match x with Ok a => k a | Err e => Err e end.

Notation "'let*' x ':=' c 'in' k" := (res_bind c (fun x => k))
  (at level 10, x pattern, c at level 100, k at level 200) : py_scope.
#[global] Open Scope py_scope.

#[export] Instance exn_eq_dec : EqDecision exn.
Proof. solve_decision. Defined.
#[export] Instance res_eq_dec {A} `{EqDecision A} : EqDecision (res A).
Proof. solve_decision. Defined.

Definition is_ok {A} (x : res A) : bool :=
  match x with Ok _ => true | Err _ => false end.

Lemma res_bind_ok {A B} (x : res A) (k : A -> res B) b :
  res_bind x k = Ok b <-> exists a, x = Ok a /\ k a = Ok b.
Proof. destruct x; simpl; naive_solver. Qed.

Lemma res_ok_inj {A} (a b : A) : Ok a = Ok b -> a = b.
Proof. congruence. Qed.

(** [res_inv H] turns a successful sequence of binds [H] into its steps. *)
Ltac res_inv H :=
  repeat (let a := fresh "a" in let Ha := fresh "Ha" in
          apply res_bind_ok in H as (a & Ha & H)).

(** ** Stateful computations that may raise *)

(** What is written before an exception stays written. *)
Definition SE (S A : Type) : Type := S -> S * res A.

Section StateErrors.
Context {S : Type}.

Definition ret {A} (a : A) : SE S A := fun s => (s, Ok a).
Definition raise {A} (e : exn) : SE S A := fun s => (s, Err e).
Definition bind {A B} (m : SE S A) (k : A -> SE S B) : SE S B :=
  fun s => match m s with
           | (s', Ok a) => k a s'
           | (s', Err e) => (s', Err e)
           end.
Definition of_res {A} (r : res A) : SE S A := fun s => (s, r).
Definition get : SE S S := fun s => (s, Ok s).
(** [try: m except Exception as exc: handle]. *)
Definition catch {A} (m : SE S A) (handle : exn -> SE S A) : SE S A :=
  fun s => match m s with
           | (s', Ok a) => (s', Ok a)
           | (s', Err e) => handle e s'
           end.
Definition require (b : bool) (code : string) : SE S unit :=
  if b then ret tt else raise (ValueError code).

Lemma bind_ok {A B} (m : SE S A) (k : A -> SE S B) s s' b :
  bind m k s = (s', Ok b) <-> exists s1 a, m s = (s1, Ok a) /\ k a s1 = (s', Ok b).
Proof. unfold bind. destruct (m s) as [s1 [a|e]]; naive_solver. Qed.

Lemma of_res_ok {A} (r : res A) s s' a : of_res r s = (s', Ok a) <-> r = Ok a /\ s' = s.
Proof. unfold of_res. naive_solver. Qed.

Lemma require_ok b code s s' u : require b code s = (s', Ok u) <-> b = true /\ s' = s.
Proof. unfold require, ret, raise. destruct b, u; naive_solver. Qed.

(** From [P], [m] ends with [Q] of its value, or raises with [E]. *)
Definition triple {A} (P : S -> Prop) (m : SE S A) (Q : A -> S -> Prop) (E : S -> Prop) : Prop :=
  forall s s' r, P s -> m s = (s', r) -> match r with Ok a => Q a s' | Err _ => E s' end.

Lemma triple_ret {A} (P : S -> Prop) (a : A) (Q : A -> S -> Prop) E :
  (forall s, P s -> Q a s) -> triple P (ret a) Q E.
Proof. intros H s s' r Hp [= <- <-]. auto. Qed.

Lemma triple_of_res {A} (P : S -> Prop) (x : res A) (Q : A -> S -> Prop) E :
  (forall a s, x = Ok a -> P s -> Q a s) -> (forall s, P s -> E s) -> triple P (of_res x) Q E.
Proof. intros H He s s' r Hp [= <- <-]. destruct x; auto. Qed.

Lemma triple_bind {A B} (P : S -> Prop) (m : SE S A) (k : A -> SE S B) Q R E :
  triple P m Q E -> (forall a, triple (Q a) (k a) R E) -> triple P (bind m k) R E.
Proof.
  intros Hm Hk s s' r Hp. unfold bind. destruct (m s) as [s1 [a|e]] eqn:Hs.
  - intros H. exact (Hk a s1 s' r (Hm _ _ _ Hp Hs) H).
  - intros [= <- <-]. exact (Hm _ _ _ Hp Hs).
Qed.

Lemma triple_catch {A} (P : S -> Prop) (m : SE S A) h Q E E' :
  triple P m Q E' -> (forall e, triple E' (h e) Q E) -> triple P (catch m h) Q E.
Proof.
  intros Hm Hh s s' r Hp. unfold catch. destruct (m s) as [s1 [a|e]] eqn:Hs.
  - intros [= <- <-]. exact (Hm _ _ _ Hp Hs).
  - intros H. exact (Hh e s1 s' r (Hm _ _ _ Hp Hs) H).
Qed.

Lemma triple_weaken {A} (P P' : S -> Prop) (m : SE S A) (Q Q' : A -> S -> Prop) (E E' : S -> Prop) :
  triple P' m Q' E' -> (forall s, P s -> P' s) -> (forall a s, Q' a s -> Q a s) ->
  (forall s, E' s -> E s) -> triple P m Q E.
Proof. intros Hm Hp Hq He s s' r Hs H. specialize (Hm s s' r (Hp s Hs) H). destruct r; auto. Qed.

Lemma triple_and {A} (phi : Prop) (P : S -> Prop) (m : SE S A) Q E :
  (phi -> triple P m Q E) -> triple (fun s => phi /\ P s) m Q E.
Proof. intros H s s' r [Hphi Hp]. exact (H Hphi s s' r Hp). Qed.
End StateErrors.

Notation "'let!' x ':=' m 'in' k" := (bind m (fun x => k))
  (at level 10, x pattern, m at level 100, k at level 200) : py_scope.

(** [str(exc)]. *)
Definition exn_text (e : exn) : string :=
  match e with
  | ValueError m | RuntimeError m => m
  | OtherError tag => tag
  | ZeroDivisionError => "float division by zero"
  | OverflowError => "OverflowError"
  | IntegrityError => "UNIQUE constraint failed"
  end.

(** ** Lists *)

(** Elements of a list without repeated keys are determined by their keys. *)
Lemma NoDup_map_inj {A B} (g : A -> B) l a b :
  NoDup (map g l) -> a ∈ l -> b ∈ l -> g a = g b -> a = b.
Proof.
  induction l as [|c l IH]; simpl; [by intros _ ?%not_elem_of_nil|].
  rewrite list.NoDup_cons. intros [Hc Hl] [->|Ha]%elem_of_cons [->|Hb]%elem_of_cons E; [done| | |].
  - exfalso. apply Hc. rewrite E. by apply list_elem_of_fmap_2.
  - exfalso. apply Hc. rewrite <- E. by apply list_elem_of_fmap_2.
  - by apply IH.
Qed.

(** ** Python strings (ASCII) *)

Section PyString.
Local Open Scope nat_scope.

Definition ascii_upper (c : ascii) : ascii :=
  let n := nat_of_ascii c in
  if (97 <=? n) && (n <=? 122) then ascii_of_nat (n - 32) else c.

Definition ascii_lower (c : ascii) : ascii :=
  let n := nat_of_ascii c in
  if (65 <=? n) && (n <=? 90) then ascii_of_nat (n + 32) else c.

(** [str.isspace] on the ASCII range: tab to carriage return, the four
    separators 0x1c-0x1f and the space. *)
Definition ascii_space (c : ascii) : bool :=
  let n := nat_of_ascii c in
  ((9 <=? n) && (n <=? 13)) || ((28 <=? n) && (n <=? 31)) || (n =? 32).

Fixpoint string_map (f : ascii -> ascii) (s : string) : string :=
  match s with
  | EmptyString => EmptyString
  | String c s' => String (f c) (string_map f s')
  end.

(** [str.upper], [str.lower], [str.strip]. *)
Definition py_upper : string -> string := string_map ascii_upper.
Definition py_lower : string -> string := string_map ascii_lower.

Fixpoint py_lstrip (s : string) : string :=
  match s with
  | EmptyString => EmptyString
  | String c s' => if ascii_space c then py_lstrip s' else s
  end.

Fixpoint py_rstrip (s : string) : string :=
  match s with
  | EmptyString => EmptyString
  | String c s' =>
      match py_rstrip s' with
      | EmptyString => if ascii_space c then EmptyString else String c EmptyString
      | t => String c t
      end
  end.

Definition py_strip (s : string) : string := py_lstrip (py_rstrip s).

(** [t in s] for strings. *)
Fixpoint str_contains (t s : string) : bool :=
  String.prefix t s ||
  match s with
  | EmptyString => false
  | String _ s' => str_contains t s'
  end.

(** Truth value of a string: [bool(s)]. *)
Definition str_true (s : string) : bool :=
  match s with EmptyString => false | _ => true end.
End PyString.

Lemma ascii_upper_idem c : ascii_upper (ascii_upper c) = ascii_upper c.
Proof. destruct c as [[] [] [] [] [] [] [] []]; reflexivity. Qed.

Lemma ascii_lower_idem c : ascii_lower (ascii_lower c) = ascii_lower c.
Proof. destruct c as [[] [] [] [] [] [] [] []]; reflexivity. Qed.

Lemma ascii_space_upper c : ascii_space (ascii_upper c) = ascii_space c.
Proof. destruct c as [[] [] [] [] [] [] [] []]; reflexivity. Qed.

Lemma string_map_idem f s :
  (forall c, f (f c) = f c) -> string_map f (string_map f s) = string_map f s.
Proof. intros Hf; induction s; simpl; congruence. Qed.

Lemma py_upper_idem s : py_upper (py_upper s) = py_upper s.
Proof. apply string_map_idem, ascii_upper_idem. Qed.

Lemma py_lower_idem s : py_lower (py_lower s) = py_lower s.
Proof. apply string_map_idem, ascii_lower_idem. Qed.

Lemma py_lstrip_space_free c s : ascii_space c = false -> py_lstrip (String c s) = String c s.
Proof. intros H; simpl; by rewrite H. Qed.

Lemma py_rstrip_idem s : py_rstrip (py_rstrip s) = py_rstrip s.
Proof.
  induction s as [|c s IH]; simpl; [done|].
  destruct (py_rstrip s) as [|d t] eqn:E; simpl.
  - destruct (ascii_space c) eqn:Ec; simpl; [done|]. by rewrite Ec.
  - simpl in IH. by rewrite IH.
Qed.

Lemma py_rstrip_tail c s : py_rstrip (String c s) = String c s -> py_rstrip s = s.
Proof.
  simpl. destruct (py_rstrip s) as [|d t] eqn:E; [|congruence].
  destruct (ascii_space c); [done|]. by intros [= <-].
Qed.

Lemma py_rstrip_lstrip s : py_rstrip s = s -> py_rstrip (py_lstrip s) = py_lstrip s.
Proof.
  induction s as [|c s IH]; [done|]. intros H. cbn [py_lstrip].
  destruct (ascii_space c); [|done]. apply IH. by apply py_rstrip_tail in H.
Qed.

Lemma py_lstrip_idem s : py_lstrip (py_lstrip s) = py_lstrip s.
Proof.
  induction s as [|c s IH]; simpl; [done|].
  destruct (ascii_space c) eqn:E; [done|]. simpl. by rewrite E.
Qed.

Lemma py_strip_idem s : py_strip (py_strip s) = py_strip s.
Proof.
  unfold py_strip. rewrite (py_rstrip_lstrip (py_rstrip s)) by apply py_rstrip_idem.
  apply py_lstrip_idem.
Qed.

(** Case conversion keeps blanks, so it commutes with stripping. *)
Section StripMap.
Context (f : ascii -> ascii) (Hf : forall c, ascii_space (f c) = ascii_space c).

Lemma py_rstrip_map s : py_rstrip (string_map f s) = string_map f (py_rstrip s).
Proof.
  induction s as [|c s IH]; [done|]. cbn [py_rstrip string_map].
  rewrite IH, Hf. destruct (py_rstrip s); cbn; [|done]. by destruct (ascii_space c).
Qed.

Lemma py_lstrip_map s : py_lstrip (string_map f s) = string_map f (py_lstrip s).
Proof.
  induction s as [|c s IH]; [done|]. cbn [py_lstrip string_map].
  rewrite Hf. by destruct (ascii_space c).
Qed.

Lemma py_strip_map s : py_strip (string_map f s) = string_map f (py_strip s).
Proof. unfold py_strip. by rewrite py_rstrip_map, py_lstrip_map. Qed.
End StripMap.

Lemma py_strip_upper s : py_strip (py_upper s) = py_upper (py_strip s).
Proof. apply py_strip_map, ascii_space_upper. Qed.

Lemma ascii_space_lower c : ascii_space (ascii_lower c) = ascii_space c.
Proof. destruct c as [[] [] [] [] [] [] [] []]; reflexivity. Qed.

Lemma py_strip_lower s : py_strip (py_lower s) = py_lower (py_strip s).
Proof. apply py_strip_map, ascii_space_lower. Qed.

Lemma str_true_upper s : str_true (py_upper s) = str_true s.
Proof. by destruct s. Qed.

(** ** Order-preserving deduplication: [dict.fromkeys] *)

Section Dedupe.
Context {A : Type} `{EqDecision A}.

(** [merged] accumulates the values already seen, in order. *)
Fixpoint dedupe_from (seen l : list A) : list A :=
  match l with
  | [] => seen
  | x :: l' => if decide (x ∈ seen) then dedupe_from seen l'
               else dedupe_from (seen ++ [x]) l'
  end.

(** [list(dict.fromkeys(l))]: first occurrences, in order. *)
Definition dedupe (l : list A) : list A := dedupe_from [] l.

Lemma elem_of_dedupe_from x seen l :
  x ∈ dedupe_from seen l <-> x ∈ seen \/ x ∈ l.
Proof.
  revert seen; induction l as [|y l IH]; intros seen; simpl; [set_solver|].
  case_decide; rewrite IH; set_solver.
Qed.

Lemma elem_of_dedupe x l : x ∈ dedupe l <-> x ∈ l.
Proof. unfold dedupe; rewrite elem_of_dedupe_from; set_solver. Qed.

Lemma NoDup_dedupe_from seen l : NoDup seen -> NoDup (dedupe_from seen l).
Proof.
  revert seen; induction l as [|y l IH]; intros seen Hs; simpl; [done|].
  case_decide; [by apply IH|]. apply IH, list.NoDup_app; split_and!; [done|set_solver|].
  apply NoDup_singleton.
Qed.

Lemma NoDup_dedupe l : NoDup (dedupe l).
Proof. apply NoDup_dedupe_from, NoDup_nil_2. Qed.

Lemma dedupe_from_prefix seen l : exists t, dedupe_from seen l = seen ++ t.
Proof.
  revert seen; induction l as [|y l IH]; intros seen; simpl.
  - exists []. by rewrite app_nil_r.
  - case_decide; [apply IH|]. destruct (IH (seen ++ [y])) as [t ->].
    exists (y :: t). by rewrite <- app_assoc.
Qed.

Lemma dedupe_nil_iff l : dedupe l = [] <-> l = [].
Proof.
  split; [|by intros ->]. destruct l as [|x l]; [done|]. intros H.
  assert (x ∈ dedupe (x :: l)) by (apply elem_of_dedupe; set_solver).
  rewrite H in *. set_solver.
Qed.
End Dedupe.

(** ** [sorted(l, key=...)]: a stable insertion sort by a boolean order *)

Section StableSort.
Context {A : Type} (leb : A -> A -> bool).

Fixpoint sort_insert (x : A) (l : list A) : list A :=
  match l with
  | [] => [x]
  | y :: l' => if leb x y then x :: y :: l' else y :: sort_insert x l'
  end.

Fixpoint stable_sort (l : list A) : list A :=
  match l with
  | [] => []
  | x :: l' => sort_insert x (stable_sort l')
  end.

Lemma sort_insert_perm x l : sort_insert x l ≡ₚ x :: l.
Proof.
  induction l as [|y l IH]; simpl; [done|]. destruct (leb x y); [done|].
  rewrite IH. constructor.
Qed.

Lemma stable_sort_perm l : stable_sort l ≡ₚ l.
Proof. induction l as [|x l IH]; simpl; [done|]. by rewrite sort_insert_perm, IH. Qed.

Lemma elem_of_stable_sort x l : x ∈ stable_sort l <-> x ∈ l.
Proof. by rewrite stable_sort_perm. Qed.

Section Sorted.
Context (leb_total : forall x y, leb x y = false -> leb y x = true).
Context (leb_trans : forall x y z, leb x y = true -> leb y z = true -> leb x z = true).

Lemma sort_insert_sorted x l :
  StronglySorted (fun a b => leb a b = true) l ->
  StronglySorted (fun a b => leb a b = true) (sort_insert x l).
Proof.
  induction 1 as [|y l Hl IH Hy]; simpl; [by repeat constructor|].
  destruct (leb x y) eqn:E.
  - constructor; [by constructor|]. constructor; [done|].
    rewrite !list.Forall_forall in *. eauto.
  - constructor; [done|]. rewrite list.Forall_forall in Hy |- *.
    intros z [->|Hz]%(elem_of_Permutation_proper _ _ _ (sort_insert_perm x l))%elem_of_cons;
      eauto.
Qed.

Lemma stable_sort_sorted l :
  StronglySorted (fun a b => leb a b = true) (stable_sort l).
Proof. induction l as [|x l IH]; simpl; [constructor|by apply sort_insert_sorted]. Qed.
End Sorted.
End StableSort.

(** SQL's [COALESCE(a, b)]. *)
Definition coalesce {A} (a b : option A) : option A :=
  match a with Some _ => a | None => b end.

(** ** Times

    A datetime is the number of microseconds since the Unix epoch (UTC); a time
    of day is the number of microseconds since midnight. *)

Definition usec : Z := 1000000.
Definition day_usec : Z := (86400 * usec)%Z.

(** [timedelta(seconds=n)], [timedelta(milliseconds=n)]. *)
Definition seconds (n : Z) : Z := (n * usec)%Z.
Definition milliseconds (n : Z) : Z := (n * 1000)%Z.

(** The time of day in Asia/Seoul (UTC+9, no daylight saving). *)
Definition seoul_time_of_day (t : Z) : Z := ((t + 9 * 3600 * usec) mod day_usec)%Z.

(** Wire timestamps are ISO texts, compared as texts by the store: a whole
    second is written without a fraction, so ["...:05Z"] sorts after
    ["...:05.999999Z"].  [wire_key] is that order for years 1000 to 9999
    ([WireTime.wire_text_order]). *)
Definition wire_key (t : Z) : Z :=
  ((t / usec) * (usec + 1) + (if t mod usec =? 0 then usec else t mod usec))%Z.
Definition wire_le (a b : Z) : bool := (wire_key a <=? wire_key b)%Z.
Definition wire_lt (a b : Z) : bool := (wire_key a <? wire_key b)%Z.
Definition wire_max (a b : Z) : Z := if wire_lt a b then b else a.

Definition ascii_digit (c : ascii) : option Z :=
  let n := Z.of_nat (nat_of_ascii c) in
  (if (48 <=? n) && (n <=? 57) then Some (n - 48) else None)%Z.

(** A run of decimal digits read as a number. *)
Fixpoint digits_value (acc : Z) (s : string) : option Z :=
  match s with
  | EmptyString => Some acc
  | String c s' =>
      match ascii_digit c with
      | Some d => digits_value (10 * acc + d)%Z s'
      | None => None
      end
  end.

Definition two_digits (a b : ascii) : option Z :=
  digits_value 0 (String a (String b EmptyString)).

(** [time.fromisoformat] on the extended forms [HH:MM], [HH:MM:SS] and
    [HH:MM:SS.ffffff]; every other text is rejected. *)
Definition time_fromisoformat (s : string) : res Z :=
  let bad := Err (ValueError "Invalid isoformat string") in
  let build h m sec us :=
    if ((h <? 24) && (m <? 60) && (sec <? 60))%Z
    then Ok ((h * 3600 + m * 60 + sec) * usec + us)%Z else bad in
  match s with
  | String h1 (String h2 (String c1 (String m1 (String m2 rest)))) =>
      match two_digits h1 h2, Ascii.eqb c1 ":", two_digits m1 m2 with
      | Some h, true, Some m =>
          match rest with
          | EmptyString => build h m 0%Z 0%Z
          | String c2 (String s1 (String s2 frac)) =>
              match Ascii.eqb c2 ":", two_digits s1 s2 with
              | true, Some sec =>
                  match frac with
                  | EmptyString => build h m sec 0%Z
                  | String dot ds =>
                      if Ascii.eqb dot "." && (String.length ds =? 6)%nat then
                        match digits_value 0 ds with
                        | Some us => build h m sec us
                        | None => bad
                        end
                      else bad
                  end
              | _, _ => bad
              end
          | _ => bad
          end
      | _, _, _ => bad
      end
  | _ => bad
  end.

Example time_fromisoformat_eod :
  time_fromisoformat "15:15:00" = Ok ((15 * 3600 + 15 * 60) * 1000000)%Z.
Proof. reflexivity. Qed.

(** ** Membership in literal sets of strings *)

(** [s in {...}]. *)
Definition mem (s : string) (l : list string) : bool := existsb (String.eqb s) l.

Lemma mem_spec s l : mem s l = true <-> s ∈ l.
Proof.
  unfold mem. rewrite existsb_exists. split.
  - intros (x & Hx & ->%String.eqb_eq). by apply list_elem_of_In.
  - intros H%list_elem_of_In. exists s. by rewrite String.eqb_refl.
Qed.

Lemma mem_false s l : mem s l = false <-> s ∉ l.
Proof. rewrite <- mem_spec. by destruct (mem s l). Qed.

(** ** Reason codes *)

(** [require_non_empty_str(reason, "reason_code").upper()] over a sequence,
    first occurrences kept: [_normalize_reasons]. *)
Fixpoint upper_reasons (rs : list string) : res (list string) :=
  match rs with
  | [] => Ok []
  | r :: rs' =>
      if str_true (py_strip r) then
        let* t := upper_reasons rs' in Ok (py_upper (py_strip r) :: t)
      else Err (ValueError "reason_code must not be empty")
  end.

Definition _normalize_reasons (rs : list string) : res (list string) :=
  let* us := upper_reasons rs in Ok (dedupe us).

(** [[*dict.fromkeys(str(v).upper() for v in values if str(v).strip())]]. *)
Definition _dedupe (values : list string) : list string :=
  dedupe (map py_upper (List.filter (fun v => str_true (py_strip v)) values)).

(** [merge_reason_codes]: stripped, upper-cased, blanks dropped, first
    occurrences kept. *)
Definition merge_reason_codes (groups : list (list string)) : list string :=
  dedupe (List.filter str_true (map (fun v => py_upper (py_strip v)) (concat groups))).

Lemma merge_reason_codes_NoDup gs : NoDup (merge_reason_codes gs).
Proof. apply NoDup_dedupe. Qed.

Lemma merge_reason_codes_spec x gs :
  x ∈ merge_reason_codes gs <->
  str_true x = true /\ exists g v, g ∈ gs /\ v ∈ g /\ x = py_upper (py_strip v).
Proof.
  unfold merge_reason_codes. rewrite elem_of_dedupe, list_elem_of_In, filter_In, in_map_iff.
  split.
  - intros [(v & <- & Hv) Ht]. split; [done|].
    apply in_concat in Hv as (g & Hg & Hv). exists g, v.
    by rewrite !list_elem_of_In.
  - intros (Ht & g & v & Hg & Hv & ->). split; [|done]. exists v. split; [done|].
    apply in_concat. exists g. by rewrite <- !list_elem_of_In.
Qed.

Lemma upper_reasons_ok rs :
  Forall (fun r => str_true (py_strip r) = true) rs ->
  upper_reasons rs = Ok (map (fun r => py_upper (py_strip r)) rs).
Proof. induction 1 as [|r rs Hr _ IH]; simpl; [done|]. by rewrite Hr, IH. Qed.

Lemma upper_reasons_inv rs us :
  upper_reasons rs = Ok us ->
  Forall (fun r => str_true (py_strip r) = true) rs /\
  us = map (fun r => py_upper (py_strip r)) rs.
Proof.
  revert us; induction rs as [|r rs IH]; simpl; intros us H; [naive_solver|].
  destruct (str_true (py_strip r)) eqn:E; [|done].
  destruct (upper_reasons rs) as [t|]; simpl in H; [|done].
  injection H as <-. destruct (IH t eq_refl) as [HF ->]. split; [by constructor|done].
Qed.

Lemma elem_of_py_dedupe vs u :
  u ∈ _dedupe vs <-> exists v, v ∈ vs /\ str_true (py_strip v) = true /\ u = py_upper v.
Proof.
  unfold _dedupe. rewrite elem_of_dedupe, list_elem_of_In, in_map_iff.
  setoid_rewrite filter_In. setoid_rewrite <- list_elem_of_In. naive_solver.
Qed.

(** Reason codes that came out of [_dedupe] are never refused. *)
Lemma normalize_dedupe vs : exists rs, _normalize_reasons (_dedupe vs) = Ok rs.
Proof.
  unfold _normalize_reasons. rewrite upper_reasons_ok; [by eexists|].
  apply list.Forall_forall. intros r (v & _ & Hv & ->)%elem_of_py_dedupe.
  by rewrite py_strip_upper, str_true_upper.
Qed.

Lemma elem_of_normalize rs us u :
  _normalize_reasons rs = Ok us ->
  u ∈ us <-> exists r, r ∈ rs /\ u = py_upper (py_strip r).
Proof.
  unfold _normalize_reasons. intros (t & Ht & [= <-])%res_bind_ok.
  apply upper_reasons_inv in Ht as [_ ->]. rewrite elem_of_dedupe, list_elem_of_In, in_map_iff.
  setoid_rewrite list_elem_of_In. naive_solver.
Qed.

Lemma normalize_NoDup rs us : _normalize_reasons rs = Ok us -> NoDup us.
Proof. intros (t & _ & [= <-])%res_bind_ok. apply NoDup_dedupe. Qed.
