(* ===== verification/PyFloat.v ===== *)
(** * Python numbers: binary64 floats and the int/float operations of the code

    A Python [float] is an IEEE-754 binary64 number, modelled by the executable
    [spec_float] of the Standard Library at precision 53 and maximal exponent
    1024; a Python [int] is a [Z].  Every operation here computes the value
    CPython computes: rounding is to nearest, ties to even. *)
From Stdlib Require Import SpecFloat.
From S2P Require Import Prelude.
Local Open Scope Z_scope.

(** ** Operations *)

Abbreviation float := spec_float.

Definition prec : Z := 53.
Definition emax : Z := 1024.

(** [float(n)] for an int [n]. *)
Definition f_of_Z (n : Z) : float := binary_normalize prec emax n 0 false.

Definition f_add : float -> float -> float := SFadd prec emax.
Definition f_sub : float -> float -> float := SFsub prec emax.
Definition f_mul : float -> float -> float := SFmul prec emax.
Definition f_neg : float -> float := SFopp.
Definition f_abs : float -> float := SFabs.

Definition f_zero : float := S754_zero false.

Definition f_is_zero (x : float) : bool :=
  match x with S754_zero _ => true | _ => false end.

Definition f_finite (x : float) : bool :=
  match x with S754_zero _ | S754_finite _ _ _ => true | _ => false end.

Definition f_nan (x : float) : bool :=
  match x with S754_nan => true | _ => false end.

(** [x / y] on floats. *)
Definition f_div (x y : float) : res float :=
  if f_is_zero y then Err ZeroDivisionError else Ok (SFdiv prec emax x y).

(** The decimal literal [n / d] ([n], [d] below 2^53): a correctly rounded
    quotient of exact operands is the float a literal denotes. *)
Definition f_lit (n d : Z) : float := SFdiv prec emax (f_of_Z n) (f_of_Z d).

(** [<], [<=], [==] on floats; all false on NaN. *)
Definition f_lt : float -> float -> bool := SFltb.
Definition f_le : float -> float -> bool := SFleb.
Definition f_eq : float -> float -> bool := SFeqb.

(** [max(x, y)] and [min(x, y)]: the first argument unless the second beats it. *)
Definition f_max (x y : float) : float := if f_lt x y then y else x.
Definition f_min (x y : float) : float := if f_lt y x then y else x.

(** [a / b] on ints: the correctly rounded quotient. *)
Definition int_truediv (a b : Z) : res float :=
  if b =? 0 then Err ZeroDivisionError else
  match Z.abs a, Z.abs b with
  | Zpos m, Zpos d =>
      match SFdiv prec emax (S754_finite (a <? 0) m 0) (S754_finite (b <? 0) d 0) with
      | S754_infinity _ => Err OverflowError
      | r => Ok r
      end
  | _, _ => Ok (S754_zero (b <? 0))
  end.

(** [math.floor(x)] and [int(x)]. *)
Definition f_floor (x : float) : res Z :=
  match x with
  | S754_zero _ => Ok 0
  | S754_finite s m e =>
      let v := cond_Zopp s (Zpos m) in
      Ok (if 0 <=? e then v * 2 ^ e else v / 2 ^ (- e))
  | S754_infinity _ => Err OverflowError
  | S754_nan => Err (ValueError "cannot convert float NaN to integer")
  end.

Definition f_trunc (x : float) : res Z :=
  match x with
  | S754_zero _ => Ok 0
  | S754_finite s m e =>
      let v := cond_Zopp s (Zpos m) in
      Ok (if 0 <=? e then v * 2 ^ e else Z.quot v (2 ^ (- e)))
  | S754_infinity _ => Err OverflowError
  | S754_nan => Err (ValueError "cannot convert float NaN to integer")
  end.

(** [n / d] rounded to the nearest integer, ties to even ([0 < d]). *)
Definition round_half_even (n d : Z) : Z :=
  let q := n / d in
  match Z.compare (2 * (n mod d)) d with
  | Lt => q
  | Gt => q + 1
  | Eq => if Z.even q then q else q + 1
  end.

(** [round(x, k)] for [0 <= k]: the exact decimal value is rounded to [k] digits,
    ties to even, and read back as a float. *)
Definition f_round (k : Z) (x : float) : float :=
  match x with
  | S754_finite s m e =>
      let num := if 0 <=? e then Zpos m * 2 ^ e * 10 ^ k else Zpos m * 10 ^ k in
      let den := if 0 <=? e then 1 else 2 ^ (- e) in
      match round_half_even num den, 10 ^ k with
      | Zpos q, Zpos t => SFdiv prec emax (S754_finite s q 0) (S754_finite false t 0)
      | _, _ => S754_zero s
      end
  | _ => x
  end.

(** Python numbers as the code passes them: an argument annotated [float] may
    also be an int. *)
Inductive pynum :=
| PInt (n : Z)
| PFloat (x : float).

(** [float(x)]. *)
Definition num_float (x : pynum) : float :=
  match x with PInt n => f_of_Z n | PFloat f => f end.

(** Comparisons of a float with an int are exact in Python: [k <= x] and
    [x < k] through the floor of [x], [x <= k] through that of [-x]. *)
Definition f_geZ (x : float) (k : Z) : bool :=
  match x with
  | S754_infinity s => negb s
  | _ => match f_floor x with Ok n => k <=? n | Err _ => false end
  end.
Definition f_ltZ (x : float) (k : Z) : bool :=
  match x with
  | S754_infinity s => s
  | _ => match f_floor x with Ok n => n <? k | Err _ => false end
  end.
Definition f_leZ (x : float) (k : Z) : bool := f_geZ (f_neg x) (- k).
Definition f_gtZ (x : float) (k : Z) : bool := f_ltZ (f_neg x) (- k).

(** [x <= k] and [x < k] for an int [k]. *)
Definition num_leZ (x : pynum) (k : Z) : bool :=
  match x with PInt n => n <=? k | PFloat f => f_leZ f k end.
Definition num_ltZ (x : pynum) (k : Z) : bool :=
  match x with PInt n => n <? k | PFloat f => f_ltZ f k end.

(** [x / k] for a non-zero int literal [k]. *)
Definition f_divZ (x : float) (k : Z) : float := SFdiv prec emax x (f_of_Z k).

(** [x / k] for an int [k]. *)
Definition num_divZ (x : pynum) (k : Z) : res float :=
  match x with PInt n => int_truediv n k | PFloat f => f_div f (f_of_Z k) end.

(** ** The order on floats *)

(** Lexicographic key of a float: class, exponent, mantissa, with the sign
    folded in.  NaN has none. *)
Definition f_key (x : float) : option (Z * Z * Z) :=
  match x with
  | S754_zero _ => Some (0, 0, 0)
  | S754_infinity s => Some (if s then -2 else 2, 0, 0)
  | S754_nan => None
  | S754_finite s m e =>
      Some (if s then (-1, - e, - Zpos m) else (1, e, Zpos m))
  end.

Definition key_lt (k1 k2 : Z * Z * Z) : Prop :=
  let '(a1, b1, c1) := k1 in
  let '(a2, b2, c2) := k2 in
  a1 < a2 \/ (a1 = a2 /\ (b1 < b2 \/ (b1 = b2 /\ c1 < c2))).

Lemma f_compare_key x y :
  SFcompare x y =
  match f_key x, f_key y with
  | Some (a1, b1, c1), Some (a2, b2, c2) =>
      Some (match a1 ?= a2 with
            | Eq => match b1 ?= b2 with Eq => c1 ?= c2 | c => c end
            | c => c
            end)
  | _, _ => None
  end.
Proof.
  destruct x as [[]|[]| |[] m1 e1], y as [[]|[]| |[] m2 e2]; try reflexivity; cbn.
  rewrite Z.compare_opp, (Z.compare_antisym e1 e2).
  destruct (e1 ?= e2); cbn; try reflexivity.
Qed.

Lemma f_lt_key x y :
  f_lt x y = true <->
  exists kx ky, f_key x = Some kx /\ f_key y = Some ky /\ key_lt kx ky.
Proof.
  unfold f_lt, SFltb. rewrite f_compare_key.
  destruct (f_key x) as [[[a1 b1] c1]|]; [|naive_solver].
  destruct (f_key y) as [[[a2 b2] c2]|]; [|naive_solver].
  split.
  - intros H. do 2 eexists; split_and!; [reflexivity..|]. cbn.
    destruct (Z.compare_spec a1 a2), (Z.compare_spec b1 b2), (Z.compare_spec c1 c2);
      simplify_eq; lia.
  - intros (? & ? & [= <-] & [= <-] & H); cbn in H.
    destruct (Z.compare_spec a1 a2), (Z.compare_spec b1 b2), (Z.compare_spec c1 c2);
      first [reflexivity | lia].
Qed.

Lemma f_le_key x y :
  f_le x y = true <->
  exists kx ky, f_key x = Some kx /\ f_key y = Some ky /\ ~ key_lt ky kx.
Proof.
  unfold f_le, SFleb. rewrite f_compare_key.
  destruct (f_key x) as [[[a1 b1] c1]|]; [|naive_solver].
  destruct (f_key y) as [[[a2 b2] c2]|]; [|naive_solver].
  split.
  - intros H. do 2 eexists; split_and!; [reflexivity..|]. cbn.
    destruct (Z.compare_spec a1 a2), (Z.compare_spec b1 b2), (Z.compare_spec c1 c2);
      simplify_eq; lia.
  - intros (? & ? & [= <-] & [= <-] & H); cbn in H.
    destruct (Z.compare_spec a1 a2), (Z.compare_spec b1 b2), (Z.compare_spec c1 c2);
      first [reflexivity | lia].
Qed.

(** [solve_f_order] decides goals about [f_lt] and [f_le] by their keys. *)
Ltac f_order_keys :=
  repeat match goal with
  | H : f_lt _ _ = true |- _ => apply f_lt_key in H as (? & ? & ? & ? & ?)
  | H : f_le _ _ = true |- _ => apply f_le_key in H as (? & ? & ? & ? & ?)
  | H : f_lt ?x ?y = false |- _ =>
      apply not_true_iff_false in H; rewrite f_lt_key in H
  | H : f_le ?x ?y = false |- _ =>
      apply not_true_iff_false in H; rewrite f_le_key in H
  | H : context [f_lt _ _ = true] |- _ => rewrite f_lt_key in H
  end;
  repeat match goal with p : Z * Z * Z |- _ => destruct p as [[? ?] ?] end;
  simplify_eq.

Lemma f_lt_trans x y z : f_lt x y = true -> f_lt y z = true -> f_lt x z = true.
Proof.
  intros; f_order_keys. apply f_lt_key. do 2 eexists; split_and!; [done..|].
  cbn in *; lia.
Qed.

Lemma f_le_trans x y z : f_le x y = true -> f_le y z = true -> f_le x z = true.
Proof.
  intros; f_order_keys. apply f_le_key. do 2 eexists; split_and!; [done..|].
  cbn in *; lia.
Qed.

Lemma f_lt_le_trans x y z : f_lt x y = true -> f_le y z = true -> f_lt x z = true.
Proof.
  intros; f_order_keys. apply f_lt_key. do 2 eexists; split_and!; [done..|].
  cbn in *; lia.
Qed.

Lemma f_le_lt_trans x y z : f_le x y = true -> f_lt y z = true -> f_lt x z = true.
Proof.
  intros; f_order_keys. apply f_lt_key. do 2 eexists; split_and!; [done..|].
  cbn in *; lia.
Qed.

Lemma f_lt_irrefl x : f_lt x x = false.
Proof.
  apply not_true_iff_false. intros H; f_order_keys. cbn in *; lia.
Qed.

Lemma f_lt_le x y : f_lt x y = true -> f_le x y = true.
Proof.
  intros; f_order_keys. apply f_le_key. do 2 eexists; split_and!; [done..|].
  cbn in *; lia.
Qed.

Lemma f_nan_key x : f_nan x = false <-> is_Some (f_key x).
Proof. destruct x; cbn; split; try done; intros [? ?]; done. Qed.

Lemma f_le_refl x : f_nan x = false -> f_le x x = true.
Proof.
  intros [[[a b] c] H]%f_nan_key. apply f_le_key. do 2 eexists; split_and!; [done..|].
  cbn; lia.
Qed.

(** On numbers that are not NaN the order is total. *)
Lemma f_lt_false x y :
  f_nan x = false -> f_nan y = false -> f_lt x y = false -> f_le y x = true.
Proof.
  intros [[[a b] c] Hx]%f_nan_key [[[a' b'] c'] Hy]%f_nan_key H.
  apply f_le_key. do 2 eexists; split_and!; [done..|].
  intros Hlt. apply not_true_iff_false in H. apply H, f_lt_key. eauto.
Qed.

Lemma f_le_false x y :
  f_nan x = false -> f_nan y = false -> f_le x y = false -> f_lt y x = true.
Proof.
  intros Hx Hy H. destruct (f_lt y x) eqn:E; [done|].
  apply f_lt_false in E; [congruence|done..].
Qed.

Lemma f_max_nan x y : f_nan x = false -> f_nan y = false -> f_nan (f_max x y) = false.
Proof. unfold f_max; intros; by case_match. Qed.

Lemma f_max_ub x y :
  f_nan x = false -> f_nan y = false ->
  f_le x (f_max x y) = true /\ f_le y (f_max x y) = true.
Proof.
  intros Hx Hy. unfold f_max. destruct (f_lt x y) eqn:E.
  - split; [by apply f_lt_le|by apply f_le_refl].
  - split; [by apply f_le_refl|by apply f_lt_false].
Qed.

Lemma f_min_lb x y :
  f_nan x = false -> f_nan y = false ->
  f_le (f_min x y) x = true /\ f_le (f_min x y) y = true.
Proof.
  intros Hx Hy. unfold f_min. destruct (f_lt y x) eqn:E.
  - split; [by apply f_lt_le|by apply f_le_refl].
  - split; [by apply f_le_refl|by apply f_lt_false].
Qed.

(** A comparison that holds has no NaN operand. *)
Lemma f_lt_num x y : f_lt x y = true -> f_nan x = false /\ f_nan y = false.
Proof. intros (kx & ky & Hx & Hy & _)%f_lt_key. split; apply f_nan_key; eauto. Qed.
Lemma f_le_num x y : f_le x y = true -> f_nan x = false /\ f_nan y = false.
Proof. intros (kx & ky & Hx & Hy & _)%f_le_key. split; apply f_nan_key; eauto. Qed.

Lemma f_le_not_lt x y : f_le x y = true -> f_lt y x = false.
Proof.
  intros H. apply not_true_iff_false. intros Hlt.
  pose proof (f_le_lt_trans _ _ _ H Hlt). by rewrite f_lt_irrefl in *.
Qed.

Create HintDb pyfloat.
#[export] Hint Resolve f_lt_trans f_le_trans f_lt_le_trans f_le_lt_trans f_lt_le
  f_le_refl f_lt_false f_le_false f_max_nan : pyfloat.

(** [x / y] where the code has already excluded a zero divisor. *)
Definition f_quot (x y : float) : float := SFdiv prec emax x y.

(** [float(n)] with its [OverflowError]. *)
Definition float_of_int (n : Z) : res float :=
  let x := f_of_Z n in if f_finite x then Ok x else Err OverflowError.

(** ** Floor division of floats

    The number [v * 2 ^ e], correctly rounded. *)
Definition f_scaled (v e : Z) : float := binary_normalize prec emax v e false.

(** [math.fmod(x, y)] on finite operands, [y] not zero: the remainder is exact
    and has the sign of [x]. *)
Definition f_fmod (x y : float) : float :=
  match x, y with
  | S754_finite sx mx ex, S754_finite _ my ey =>
      let e := Z.min ex ey in
      let r := (Zpos mx * 2 ^ (ex - e)) mod (Zpos my * 2 ^ (ey - e)) in
      if r =? 0 then S754_zero sx else f_scaled (if sx then - r else r) e
  | S754_zero _, S754_finite _ _ _ => x
  | S754_finite _ _ _, S754_infinity _ => x
  | S754_zero _, S754_infinity _ => x
  | _, _ => S754_nan
  end.

(** [math.floor] as a float. *)
Definition f_floor_float (x : float) : float :=
  match f_floor x with Ok n => f_of_Z n | Err _ => x end.

Definition f_one : float := f_of_Z 1.
Definition f_half : float := f_lit 1 2.

(** [x // y]: CPython's [_float_div_mod]. *)
Definition f_floordiv (x y : float) : res float :=
  if f_is_zero y then Err ZeroDivisionError else
  let md := f_fmod x y in
  let d := f_quot (f_sub x md) y in
  let d :=
    if f_is_zero md || f_nan md then d
    else if Bool.eqb (f_lt y f_zero) (f_lt md f_zero) then d else f_sub d f_one in
  if f_is_zero d then Ok (S754_zero (f_lt (f_quot x y) f_zero)) else
  let fl := f_floor_float d in
  Ok (if f_lt f_half (f_sub d fl) then f_add fl f_one else fl).

Example f_floordiv_ex :
  f_floordiv (f_of_Z 100000) (f_of_Z 9810) = Ok (f_of_Z 10) /\
  f_floordiv (f_lit 75 10) (f_of_Z 2) = Ok (f_of_Z 3) /\
  f_floordiv (f_of_Z (-7)) (f_of_Z 2) = Ok (f_of_Z (-4)).
Proof. vm_compute. done. Qed.
