(* ===== verification/Orderings.v ===== *)
(** * Orders: comparisons that order, and the [ORDER BY]s built from them

    A comparison is an [Ordering] when it is antisymmetric, transitive and its
    [Eq] is an equivalence; integers, texts and floats have one, and keys,
    [DESC] and tuples of keys keep it.  [cmp_le] is what the stable sort of the
    prelude takes. *)
From S2P Require Import Prelude PyFloat.
From Stdlib Require Import SpecFloat.
Local Open Scope Z_scope.

Definition then_by (c d : comparison) : comparison := match c with Eq => d | _ => c end.

Class Ordering {A} (cmp : A -> A -> comparison) : Prop := {
  cmp_opp a b : cmp b a = CompOpp (cmp a b);
  cmp_same a b c : cmp a b = Eq -> cmp b c = cmp a c;
  cmp_trans a b c : cmp a b = Lt -> cmp b c = Lt -> cmp a c = Lt
}.

Lemma cmp_same_r {A} (cmp : A -> A -> comparison) `{!Ordering cmp} a b c :
  cmp b c = Eq -> cmp a b = cmp a c.
Proof.
  intros H. rewrite (cmp_opp (cmp := cmp) b a), (cmp_opp (cmp := cmp) c a). f_equal. symmetry.
  by apply (cmp_same (cmp := cmp)).
Qed.

#[export] Instance ordering_Z : Ordering Z.compare.
Proof.
  split.
  - intros. apply Z.compare_antisym.
  - by intros a b c ->%Z.compare_eq_iff.
  - intros a b c. rewrite !Z.compare_lt_iff. lia.
Qed.

Lemma string_compare_trans a : forall b c,
  String.compare a b = Lt -> String.compare b c = Lt -> String.compare a c = Lt.
Proof.
  induction a as [|x a IH]; intros [|y b] [|z c]; simpl; try done. unfold Ascii.compare.
  destruct (N.compare_spec (N_of_ascii x) (N_of_ascii y)) as [E|E|E]; [| |done];
    destruct (N.compare_spec (N_of_ascii y) (N_of_ascii z)) as [F|F|F]; try done;
    destruct (N.compare_spec (N_of_ascii x) (N_of_ascii z)) as [G|G|G]; try done; try lia.
  apply IH.
Qed.

#[export] Instance ordering_string : Ordering String.compare.
Proof.
  split.
  - intros a b. apply String.compare_antisym.
  - by intros a b c ->%String.compare_eq_iff.
  - intros a. apply string_compare_trans.
Qed.

Lemma ordering_key {A B} (key : A -> B) cmp `{!Ordering cmp} :
  Ordering (fun a b => cmp (key a) (key b)).
Proof.
  split; intros; [apply (cmp_opp (cmp := cmp))|by apply (cmp_same (cmp := cmp))|].
  by eapply (cmp_trans (cmp := cmp)).
Qed.

Lemma ordering_desc {A} (cmp : A -> A -> comparison) `{!Ordering cmp} :
  Ordering (fun a b => cmp b a).
Proof.
  split.
  - intros a b. apply (cmp_opp (cmp := cmp)).
  - intros a b c H. by apply (cmp_same_r cmp).
  - intros a b c H1 H2. by eapply (cmp_trans (cmp := cmp)).
Qed.

Lemma ordering_then {A} (f g : A -> A -> comparison) `{!Ordering f, !Ordering g} :
  Ordering (fun a b => then_by (f a b) (g a b)).
Proof.
  split.
  - intros a b. rewrite (cmp_opp (cmp := f) a b), (cmp_opp (cmp := g) a b). by destruct (f a b).
  - intros a b c. destruct (f a b) eqn:E; try done. simpl. intros H.
    by rewrite (cmp_same (cmp := f) a b c E), (cmp_same (cmp := g) a b c H).
  - intros a b c. destruct (f a b) eqn:E; try done; simpl; intros H.
    + rewrite (cmp_same (cmp := f) a b c E). destruct (f a c); try done. simpl.
      by apply (cmp_trans (cmp := g)).
    + destruct (f b c) eqn:F; try done; simpl; intros G.
      * by rewrite <- (cmp_same_r f a b c F), E.
      * by rewrite (cmp_trans (cmp := f) a b c E F).
Qed.

Lemma then_by_eq c d : then_by c d = Eq -> d = Eq.
Proof. by destruct c. Qed.

(** ** Floats

    The order of floats that are numbers; a NaN, which no column of SQLite holds,
    is put before them. *)
Definition key_compare (a b : Z * Z * Z) : comparison :=
  let '(a1, a2, a3) := a in
  let '(b1, b2, b3) := b in
  then_by (a1 ?= b1) (then_by (a2 ?= b2) (a3 ?= b3)).
Definition f_order (x y : float) : comparison :=
  match f_key x, f_key y with
  | None, None => Eq | None, Some _ => Lt | Some _, None => Gt | Some a, Some b => key_compare a b
  end.

Lemma key_compare_lt a b : key_compare a b = Lt <-> key_lt a b.
Proof.
  destruct a as [[a1 a2] a3], b as [[b1 b2] b3]. unfold key_compare, key_lt, then_by.
  destruct (Z.compare_spec a1 b1), (Z.compare_spec a2 b2), (Z.compare_spec a3 b3); split; intros; try done; lia.
Qed.
Lemma f_order_lt x y : f_nan x = false -> f_nan y = false -> f_order x y = Lt <-> f_lt x y = true.
Proof.
  intros [a Ha]%f_nan_key [b Hb]%f_nan_key. unfold f_order. rewrite Ha, Hb, key_compare_lt, f_lt_key.
  split; [eauto|]. intros (a' & b' & H1 & H2 & H). congruence.
Qed.

#[export] Instance ordering_triple : Ordering key_compare.
Proof.
  split.
  - intros [[a1 a2] a3] [[b1 b2] b3]. unfold key_compare.
    rewrite (Z.compare_antisym a1 b1), (Z.compare_antisym a2 b2), (Z.compare_antisym a3 b3).
    destruct (a1 ?= b1), (a2 ?= b2); done.
  - intros [[a1 a2] a3] [[b1 b2] b3] [[c1 c2] c3]. unfold key_compare, then_by.
    destruct (Z.compare_spec a1 b1), (Z.compare_spec a2 b2), (Z.compare_spec a3 b3); try done. by subst.
  - intros a b c. rewrite !key_compare_lt. destruct a as [[? ?] ?], b as [[? ?] ?], c as [[? ?] ?].
    unfold key_lt. lia.
Qed.
#[export] Instance ordering_float : Ordering f_order.
Proof.
  split; unfold f_order.
  - intros x y. destruct (f_key x), (f_key y); try done. apply (cmp_opp (cmp := key_compare)).
  - intros x y z. destruct (f_key x), (f_key y), (f_key z); try done. apply (cmp_same (cmp := key_compare)).
  - intros x y z. destruct (f_key x), (f_key y), (f_key z); try done. apply (cmp_trans (cmp := key_compare)).
Qed.

(** ** Sorting *)

Definition cmp_le {A} (cmp : A -> A -> comparison) (a b : A) : bool :=
  match cmp a b with Gt => false | _ => true end.

Lemma cmp_le_total {A} (cmp : A -> A -> comparison) `{!Ordering cmp} a b :
  cmp_le cmp a b = false -> cmp_le cmp b a = true.
Proof. unfold cmp_le. rewrite (cmp_opp (cmp := cmp) a b). by destruct (cmp a b). Qed.

Lemma cmp_le_trans {A} (cmp : A -> A -> comparison) `{!Ordering cmp} a b c :
  cmp_le cmp a b = true -> cmp_le cmp b c = true -> cmp_le cmp a c = true.
Proof.
  unfold cmp_le. destruct (cmp a b) eqn:E; try done; intros _.
  - by rewrite (cmp_same (cmp := cmp) a b c E).
  - destruct (cmp b c) eqn:F; try done; intros _.
    + by rewrite <- (cmp_same_r cmp a b c F), E.
    + by rewrite (cmp_trans (cmp := cmp) a b c E F).
Qed.

(** What is sorted by a comparison is in its order. *)
Lemma cmp_sorted {A} (cmp : A -> A -> comparison) `{!Ordering cmp} l :
  StronglySorted (fun a b => cmp_le cmp a b = true) (stable_sort (cmp_le cmp) l).
Proof. apply stable_sort_sorted; [exact (cmp_le_total cmp)|exact (cmp_le_trans cmp)]. Qed.
