(* ===== verification/FloatRound.v ===== *)
(** * Rounding facts: what float division of ints yields after [floor]

    [int_truediv_floor]: for non-negative ints below 2^52 the float quotient is
    accurate enough that [math.floor] of it is the integer quotient. *)
From Stdlib Require Import SpecFloat.
From S2P Require Import Prelude PyFloat.
Local Open Scope Z_scope.

(** Side conditions on powers of two. *)
Ltac pow2 :=
  lazymatch goal with
  | |- 0 < 2 ^ _ => apply Z.pow_pos_nonneg; lia
  | |- 2 ^ _ <> 0 => apply Z.pow_nonzero; lia
  | |- _ => lia
  end.

Lemma digits2_pos_bounds p :
  2 ^ (Zpos (digits2_pos p) - 1) <= Zpos p < 2 ^ Zpos (digits2_pos p).
Proof.
  induction p as [p IH|p IH|]; cbn [digits2_pos]; [| |done];
    rewrite Pos2Z.inj_succ;
    replace (Z.succ (Zpos (digits2_pos p)) - 1) with (Z.succ (Zpos (digits2_pos p) - 1)) by lia;
    rewrite !Z.pow_succ_r by lia; lia.
Qed.

Lemma digits_le m k : 0 < m -> 0 <= k -> m < 2 ^ k -> Zdigits2 m <= k.
Proof.
  intros Hm Hk Hlt. destruct m as [|p|p]; [lia| |lia]. cbn.
  destruct (digits2_pos_bounds p) as [Hlo _].
  destruct (Z.le_gt_cases (Zpos (digits2_pos p)) k); [done|].
  assert (2 ^ k <= 2 ^ (Zpos (digits2_pos p) - 1)) by (apply Z.pow_le_mono_r; lia). lia.
Qed.

Lemma digits_ge m k : 0 <= k -> 2 ^ k <= m -> k + 1 <= Zdigits2 m.
Proof.
  intros Hk Hle. assert (0 < 2 ^ k) by pow2.
  destruct m as [|p|p]; [lia| |lia]. cbn.
  destruct (digits2_pos_bounds p) as [_ Hhi].
  destruct (Z.le_gt_cases (k + 1) (Zpos (digits2_pos p))); [done|].
  assert (2 ^ Zpos (digits2_pos p) <= 2 ^ k) by (apply Z.pow_le_mono_r; lia). lia.
Qed.

Lemma digits_bounds m : 0 < m -> 1 <= Zdigits2 m /\ 2 ^ (Zdigits2 m - 1) <= m < 2 ^ Zdigits2 m.
Proof.
  intros Hm. destruct m as [|p|p]; [lia| |lia]. split; [cbn; lia|apply digits2_pos_bounds].
Qed.

Lemma shr_1_m mrs : 0 <= shr_m mrs -> shr_m (shr_1 mrs) = shr_m mrs / 2.
Proof.
  destruct mrs as [m r s]; cbn; intros Hm. destruct m as [|p|p]; [done| |lia].
  rewrite <- Z.div2_div. by destruct p.
Qed.

Lemma iter_shr_m p mrs :
  0 <= shr_m mrs -> shr_m (SpecFloat.iter_pos shr_1 p mrs) = shr_m mrs / 2 ^ Zpos p.
Proof.
  revert mrs; induction p as [p IH|p IH|]; intros mrs Hm; cbn [SpecFloat.iter_pos].
  - assert (H1 : 0 <= shr_m (shr_1 mrs)) by (rewrite shr_1_m by done; by apply Z.div_pos).
    assert (H2 : 0 <= shr_m (SpecFloat.iter_pos shr_1 p (shr_1 mrs)))
      by (rewrite IH by done; apply Z.div_pos; [done|pow2]).
    rewrite IH, IH, shr_1_m by done.
    rewrite !Z.div_div by pow2. f_equal.
    rewrite (Pos2Z.inj_xI p), Z.pow_add_r, Z.pow_1_r by lia.
    replace (2 * Zpos p) with (Zpos p + Zpos p) by lia. rewrite Z.pow_add_r by lia. lia.
  - assert (H1 : 0 <= shr_m (SpecFloat.iter_pos shr_1 p mrs))
      by (rewrite IH by done; apply Z.div_pos; [done|pow2]).
    rewrite IH, IH by done.
    rewrite !Z.div_div by pow2. f_equal.
    replace (Zpos p~0) with (Zpos p + Zpos p) by lia. rewrite Z.pow_add_r by lia. lia.
  - by rewrite shr_1_m.
Qed.

Lemma shr_m_of_loc m l : shr_m (shr_record_of_loc m l) = m.
Proof. by destruct l as [|[]]. Qed.

(** A shift to the exponent of the format divides the mantissa by a power of
    two. *)
Lemma shr_fexp_m m e l :
  0 <= m ->
  let k := Z.max 0 (fexp prec emax (Zdigits2 m + e) - e) in
  shr_m (fst (shr_fexp prec emax m e l)) = m / 2 ^ k /\
  snd (shr_fexp prec emax m e l) = e + k.
Proof.
  intros Hm. unfold shr_fexp, shr.
  destruct (fexp prec emax (Zdigits2 m + e) - e) as [|p|p] eqn:E; cbn [fst snd].
  - rewrite shr_m_of_loc; cbn. rewrite Z.div_1_r. lia.
  - rewrite iter_shr_m by (by rewrite shr_m_of_loc). rewrite shr_m_of_loc.
    rewrite Z.max_r by lia. lia.
  - rewrite shr_m_of_loc, Z.max_l, Z.div_1_r by lia. lia.
Qed.

Lemma round_nearest_even_bounds m l :
  m <= round_nearest_even m l <= m + 1.
Proof. destruct l as [|[]]; cbn; try case_match; lia. Qed.

(** [math.floor] of a rounded positive number whose final exponent is not
    positive: the roundings only ever add one unit in the last place. *)
Lemma binary_round_aux_floor m e l :
  0 < m ->
  let k1 := Z.max 0 (fexp prec emax (Zdigits2 m + e) - e) in
  exists b m1 k2,
    0 <= b <= 1 /\ m1 = m / 2 ^ k1 + b /\
    k2 = Z.max 0 (fexp prec emax (Zdigits2 m1 + (e + k1)) - (e + k1)) /\
    (e + k1 + k2 <= 0 ->
     f_floor (binary_round_aux prec emax false m e l) = Ok (m1 / 2 ^ (- (e + k1)))).
Proof.
  intros Hm k1. unfold binary_round_aux.
  destruct (shr_fexp_m m e l) as [H1 H2]; [lia|]. fold k1 in H1, H2.
  destruct (shr_fexp prec emax m e l) as [mrs' e'] eqn:E1; cbn in H1, H2.
  pose proof (round_nearest_even_bounds (shr_m mrs') (loc_of_shr_record mrs')) as Hb.
  exists (round_nearest_even (shr_m mrs') (loc_of_shr_record mrs') - shr_m mrs').
  eexists _, _. split; [lia|]. split; [reflexivity|]. split; [reflexivity|].
  set (m1 := m / 2 ^ k1 + (round_nearest_even _ _ - shr_m mrs')).
  set (k2 := Z.max 0 _). intros Hk.
  assert (0 <= m / 2 ^ k1) by (apply Z.div_pos; [lia|pow2]).
  replace (round_nearest_even (shr_m mrs') (loc_of_shr_record mrs')) with m1 by (unfold m1; lia).
  subst e'. destruct (shr_fexp_m m1 (e + k1) loc_Exact) as [H3 H4]; [unfold m1; lia|].
  fold k2 in H3, H4.
  destruct (shr_fexp prec emax m1 (e + k1) loc_Exact) as [mrs'' e''] eqn:E2; cbn in H3, H4.
  assert (0 <= k2) by lia.
  assert (Hfl : m1 / 2 ^ (- (e + k1)) = shr_m mrs'' / 2 ^ (- e'')).
  { rewrite H3, Z.div_div by pow2. f_equal.
    rewrite <- Z.pow_add_r by lia. f_equal; lia. }
  assert (0 <= shr_m mrs'').
  { rewrite H3. apply Z.div_pos; [unfold m1; lia|pow2]. }
  rewrite Hfl. destruct (shr_m mrs'') as [|p|p] eqn:Em; [|..|lia].
  - cbn [f_floor]. by rewrite Z.div_0_l by pow2.
  - rewrite (proj2 (Z.leb_le _ _)) by (unfold emax, prec; lia).
    cbn [f_floor cond_Zopp]. destruct (Z.leb_spec 0 e''); [|done].
    assert (e'' = 0) as -> by lia. cbn. by rewrite Z.div_1_r, Z.mul_1_r.
Qed.

Lemma div_scaled_floor a t S b :
  0 <= a -> 0 < t -> 0 <= S -> t < 2 ^ S -> 0 <= b <= 1 ->
  (a * 2 ^ S / t + b) / 2 ^ S = a / t.
Proof.
  intros Ha Ht HS Hlt Hb. set (P := 2 ^ S) in *.
  assert (Hr : 0 <= a mod t < t) by (by apply Z.mod_pos_bound).
  pose proof (Z.div_mod a t ltac:(lia)) as Hdm.
  set (n := a / t) in *. set (r := a mod t) in *.
  assert (Hq : a * P / t = n * P + r * P / t).
  { rewrite Hdm. replace ((t * n + r) * P) with (r * P + (n * P) * t) by ring.
    rewrite Z.div_add by lia. lia. }
  assert (0 <= r * P / t) by (apply Z.div_pos; nia).
  assert (r * P / t < P - 1) by (apply Z.div_lt_upper_bound; nia).
  rewrite Hq. symmetry. apply (Z.div_unique _ _ _ (r * P / t + b)); [lia|ring].
Qed.

(** The quotient computed before rounding has 53 or 54 significant digits. *)
Lemma div_mantissa_digits a t :
  0 < a -> 0 < t ->
  let s := 53 - Zdigits2 a + Zdigits2 t in
  0 <= s ->
  2 ^ 52 <= a * 2 ^ s / t < 2 ^ 54.
Proof.
  intros Ha Ht s Hs.
  destruct (digits_bounds a Ha) as (Hda & Halo & Hahi).
  destruct (digits_bounds t Ht) as (Hdt & Htlo & Hthi).
  assert (Hps : 0 < 2 ^ s) by pow2.
  split.
  - apply Z.div_le_lower_bound; [lia|].
    assert (2 ^ (Zdigits2 a - 1) * 2 ^ s = 2 ^ Zdigits2 t * 2 ^ 52).
    { rewrite <- !Z.pow_add_r by lia. f_equal; lia. }
    nia.
  - apply Z.div_lt_upper_bound; [lia|].
    assert (2 ^ Zdigits2 a * 2 ^ s = 2 ^ (Zdigits2 t - 1) * 2 ^ 54).
    { rewrite <- !Z.pow_add_r by lia. f_equal; lia. }
    nia.
Qed.

Lemma fexp_normal d : -1021 <= d -> fexp prec emax d = d - 53.
Proof. unfold fexp, emin, prec, emax. lia. Qed.

Lemma SFdiv_floor m d :
  Zpos m < 2 ^ 52 -> Zpos d < 2 ^ 52 ->
  f_floor (SFdiv prec emax (S754_finite false m 0) (S754_finite false d 0)) =
  Ok (Zpos m / Zpos d).
Proof.
  intros Hm Hd. cbn [SFdiv xorb]. unfold SFdiv_core_binary; cbv zeta.
  destruct (digits_bounds (Zpos m) ltac:(lia)) as (Hda & _ & _).
  destruct (digits_bounds (Zpos d) ltac:(lia)) as (Hdt & Htlo & Hthi).
  pose proof (digits_le (Zpos m) 52 ltac:(lia) ltac:(lia) Hm).
  pose proof (digits_le (Zpos d) 52 ltac:(lia) ltac:(lia) Hd).
  rewrite !Z.add_0_r, fexp_normal by lia.
  set (s := 53 - Zdigits2 (Zpos m) + Zdigits2 (Zpos d)).
  replace (Z.min _ (0 - 0)) with (- s) by (unfold s; lia).
  replace (0 - 0 - - s) with s by lia.
  replace (match s with Zpos _ => Z.shiftl (Zpos m) s | Z0 => Zpos m | Zneg _ => 0 end)
    with (Zpos m * 2 ^ s); cycle 1.
  { destruct s eqn:Es; [cbn; lia| |lia]. by rewrite Z.shiftl_mul_pow2. }
  pose proof (div_mantissa_digits (Zpos m) (Zpos d) ltac:(lia) ltac:(lia) ltac:(lia)) as Hq.
  fold s in Hq. destruct (Z.div_eucl (Zpos m * 2 ^ s) (Zpos d)) as [q r] eqn:Eq.
  assert (Hqd : q = Zpos m * 2 ^ s / Zpos d) by (unfold Z.div; by rewrite Eq).
  rewrite <- Hqd in Hq.
  pose proof (digits_ge q 52 ltac:(lia) ltac:(lia)).
  pose proof (digits_le q 54 ltac:(lia) ltac:(lia) ltac:(lia)).
  destruct (binary_round_aux_floor q (- s) (new_location (Zpos d) r) ltac:(lia))
    as (b & m1 & k2 & Hb & Hm1 & Hk2 & Hfl).
  assert (Hs : Zdigits2 (Zpos d) + 1 <= s <= 104) by (unfold s; lia).
  rewrite (fexp_normal (Zdigits2 q + - s)) in Hm1, Hk2, Hfl by lia.
  set (k1 := Z.max 0 (Zdigits2 q + - s - 53 - - s)) in *.
  assert (Hm1b : 0 < m1 < 2 ^ 54).
  { assert ((k1 = 0 /\ Zdigits2 q <= 53) \/ k1 = 1) as [[Hk Hq53]|Hk] by lia;
      rewrite Hk in Hm1.
    - rewrite Z.pow_0_r, Z.div_1_r in Hm1.
      destruct (digits_bounds q ltac:(lia)) as (_ & _ & Hqhi).
      assert (2 ^ Zdigits2 q <= 2 ^ 53) by (apply Z.pow_le_mono_r; lia). lia.
    - assert (2 ^ 51 <= q / 2 ^ 1 < 2 ^ 53) by (split;
        [apply Z.div_le_lower_bound|apply Z.div_lt_upper_bound]; lia). lia. }
  pose proof (digits_le m1 54 ltac:(lia) ltac:(lia) ltac:(lia)).
  pose proof (digits_bounds m1 ltac:(lia)) as (Hdm1 & _ & _).
  rewrite fexp_normal in Hk2 by lia. rewrite Hfl by lia.
  f_equal. rewrite Hm1, Hqd. replace (- (- s + k1)) with (s - k1) by lia.
  replace (Zpos m * 2 ^ s / Zpos d / 2 ^ k1) with (Zpos m * 2 ^ (s - k1) / Zpos d); cycle 1.
  { rewrite Z.div_div by pow2. replace s with (s - k1 + k1) at 2 by lia.
    rewrite Z.pow_add_r, Z.mul_assoc, Z.div_mul_cancel_r by pow2. done. }
  apply div_scaled_floor; [lia..| |done].
  apply (Z.lt_le_trans _ (2 ^ Zdigits2 (Zpos d))); [done|].
  apply Z.pow_le_mono_r; lia.
Qed.

(** [math.floor(a / t)] of two ints below 2^52, the divisor positive, is
    [a // t]. *)
Lemma int_truediv_floor a t :
  0 <= a < 2 ^ 52 -> 0 < t < 2 ^ 52 ->
  exists q, int_truediv a t = Ok q /\ f_floor q = Ok (a / t).
Proof.
  intros [Ha Ha'] [Ht Ht']. destruct a as [|m|m]; [| |lia]; destruct t as [|d|d]; try lia.
  - by exists f_zero.
  - pose proof (SFdiv_floor m d Ha' Ht') as Hfl.
    change (int_truediv (Zpos m) (Zpos d)) with
      (match SFdiv prec emax (S754_finite false m 0) (S754_finite false d 0) with
       | S754_infinity _ => Err OverflowError | r => Ok r end).
    destruct (SFdiv _ _ _ _); try done; eauto.
Qed.

(** ** Exact conversions *)

(** A mantissa of 53 digits is not rounded. *)
Lemma binary_round_aux_exact s m e :
  Zdigits2 (Zpos m) = 53 -> -1021 <= 53 + e -> e <= emax - prec ->
  binary_round_aux prec emax s (Zpos m) e loc_Exact = S754_finite s m e.
Proof.
  intros Hd He Hmax. unfold binary_round_aux.
  assert (forall l, shr_fexp prec emax (Zpos m) e l = (shr_record_of_loc (Zpos m) l, e)) as Hs.
  { intros l. unfold shr_fexp. rewrite Hd, fexp_normal by lia.
    replace (53 + e - 53 - e) with 0 by lia. done. }
  rewrite Hs. cbn -[emax prec Z.sub]. rewrite Hs. cbn -[emax prec Z.sub].
  by rewrite (proj2 (Z.leb_le _ _)).
Qed.

Lemma pos_iter_shift p k : Zpos (Pos.iter xO p k) = Zpos p * 2 ^ Zpos k.
Proof.
  induction k as [|k IH] using Pos.peano_ind; [cbn; lia|].
  rewrite Pos.iter_succ, Pos2Z.inj_succ, Z.pow_succ_r by lia.
  change (Zpos (Pos.iter xO p k)~0) with (2 * Zpos (Pos.iter xO p k)). rewrite IH. lia.
Qed.

Lemma binary_round_int s p :
  Zpos p < 2 ^ 53 -> f_trunc (binary_round prec emax s p 0) = Ok (cond_Zopp s (Zpos p)).
Proof.
  intros Hp. destruct (digits_bounds (Zpos p)) as (Hd & Hlo & Hhi); [lia|].
  assert (Zdigits2 (Zpos p) <= 53) as Hd53 by (apply digits_le; lia).
  unfold binary_round. change (Zpos (digits2_pos p)) with (Zdigits2 (Zpos p)).
  rewrite Z.add_0_r, fexp_normal by lia. unfold shl_align. rewrite Z.sub_0_r.
  set (d := Zdigits2 (Zpos p)) in *.
  destruct (d - 53) as [|k|k] eqn:E; [|lia|].
  - rewrite binary_round_aux_exact by (unfold emax, prec; lia). cbn. f_equal. destruct s; cbn; lia.
  - pose proof (pos_iter_shift p k) as Hsh.
    assert (0 < 2 ^ Zpos k) by pow2.
    rewrite binary_round_aux_exact.
    2: { apply Z.le_antisymm.
      - apply digits_le; [lia..|]. rewrite Hsh. replace 53 with (d + Zpos k) by lia.
        rewrite Z.pow_add_r by lia. nia.
      - replace 53 with (52 + 1) by lia. apply digits_ge; [lia|]. rewrite Hsh.
        replace 52 with ((d - 1) + Zpos k) by lia. rewrite Z.pow_add_r by lia. nia. }
    2,3: unfold emax, prec; lia.
    cbn -[Z.pow]. f_equal. rewrite Hsh.
    destruct s; cbn -[Z.pow]; rewrite ?Z.quot_opp_l by lia; rewrite Z.quot_mul by lia; lia.
Qed.

(** [int(float(n)) = n] below [2^53]. *)
Lemma f_trunc_of_Z n : Z.abs n < 2 ^ 53 -> f_trunc (f_of_Z n) = Ok n.
Proof.
  intros Hn. unfold f_of_Z, binary_normalize. destruct n as [|p|p]; [done|..];
    by rewrite binary_round_int by lia.
Qed.
