(* ===== verification/TickSize.v ===== *)
(** * KRX tick sizes ([services/entry_timing/tick_size.py])

    Prices are Python numbers; a price produced by these functions is an int.
    [price_tick_distance] is a [while] loop, run with fuel. *)
From S2P Require Import Prelude PyFloat FloatRound.
Local Open Scope Z_scope.

(** ** Operations *)

Definition krx_tick_size (price : pynum) : res Z :=
  if num_leZ price 0 then Err (ValueError "price must be > 0")
  else if num_ltZ price 2000 then Ok 1
  else if num_ltZ price 5000 then Ok 5
  else if num_ltZ price 20000 then Ok 10
  else if num_ltZ price 50000 then Ok 50
  else if num_ltZ price 200000 then Ok 100
  else if num_ltZ price 500000 then Ok 500
  else Ok 1000.

Definition normalize_tick_price (price : pynum) : res Z :=
  if num_leZ price 0 then Err (ValueError "price must be > 0") else
  let* tick := krx_tick_size price in
  let* quotient := num_divZ price tick in
  let* k := f_floor quotient in
  Ok (Z.max (k * tick) tick).

(** The body of [for _ in range(ticks)] in [add_ticks]. *)
Fixpoint add_ticks_loop (n : nat) (adjusted : Z) : res Z :=
  match n with
  | O => Ok adjusted
  | S n' =>
      let* tick := krx_tick_size (PInt adjusted) in
      add_ticks_loop n' (adjusted + tick)
  end.

Definition add_ticks (price : pynum) (ticks : Z) : res Z :=
  if num_leZ price 0 then Err (ValueError "price must be > 0")
  else if ticks <? 0 then Err (ValueError "ticks must be >= 0") else
  let* adjusted := normalize_tick_price price in
  add_ticks_loop (Z.to_nat ticks) adjusted.

(** The body of [for _ in range(ticks)] in [subtract_ticks], with its early
    [return 1]. *)
Fixpoint subtract_ticks_loop (n : nat) (adjusted : Z) : res Z :=
  match n with
  | O => Ok adjusted
  | S n' =>
      if adjusted <=? 1 then Ok 1 else
      let probe := adjusted - 1 in
      let* tick := krx_tick_size (PInt probe) in
      let* quotient := int_truediv probe tick in
      let* k := f_floor quotient in
      subtract_ticks_loop n' (Z.max (k * tick) tick)
  end.

Definition subtract_ticks (price : pynum) (ticks : Z) : res Z :=
  if num_leZ price 0 then Err (ValueError "price must be > 0")
  else if ticks <? 0 then Err (ValueError "ticks must be >= 0") else
  let* adjusted := normalize_tick_price price in
  subtract_ticks_loop (Z.to_nat ticks) adjusted.

(** The [while current != end] loop; [None] when the fuel runs out. *)
Fixpoint price_tick_distance_loop
    (fuel : nat) (current target distance direction : Z) : option (res Z) :=
  match fuel with
  | O => None
  | S fuel' =>
      if current =? target then Some (Ok distance) else
      match (if 0 <? direction then add_ticks (PInt current) 1
             else subtract_ticks (PInt current) 1) with
      | Err e => Some (Err e)
      | Ok next_price =>
          if ((0 <? direction) && (target <? next_price))
             || ((direction <? 0) && (next_price <? target))
          then Some (Err (ValueError "end_price must align to a KRX tick from start_price"))
          else price_tick_distance_loop fuel' next_price target
                 (distance + direction) direction
      end
  end.

Definition price_tick_distance (fuel : nat) (start_price end_price : pynum)
    : option (res Z) :=
  match normalize_tick_price start_price with
  | Err e => Some (Err e)
  | Ok start =>
      match normalize_tick_price end_price with
      | Err e => Some (Err e)
      | Ok target =>
          if start =? target then Some (Ok 0) else
          price_tick_distance_loop fuel start target 0
            (if start <? target then 1 else -1)
      end
  end.

(** ** Specification: the KRX price grid *)

(** The tick of the band an int price lies in. *)
Definition tick_of (p : Z) : Z :=
  if p <? 2000 then 1 else if p <? 5000 then 5 else if p <? 20000 then 10
  else if p <? 50000 then 50 else if p <? 200000 then 100
  else if p <? 500000 then 500 else 1000.

(** A quotable price: positive and a multiple of its band's tick. *)
Definition on_grid (p : Z) : Prop := 0 < p /\ p mod tick_of p = 0.

#[export] Instance on_grid_dec p : Decision (on_grid p).
Proof. unfold on_grid. apply _. Defined.

(** Prices the float division of the code handles exactly. *)
Definition price_bound : Z := 2 ^ 51.

Definition grid_floor (p : Z) : Z := Z.max (p / tick_of p * tick_of p) (tick_of p).
Definition grid_succ (p : Z) : Z := p + tick_of p.
Definition grid_pred (p : Z) : Z := if p <=? 1 then 1 else grid_floor (p - 1).

(** [band] splits on the bands of every [tick_of] in sight and leaves linear
    arithmetic over [/] and [mod]. *)
Ltac band :=
  unfold on_grid, grid_floor, grid_succ, grid_pred, tick_of in *;
  repeat match goal with
  | |- context [if ?b then _ else _] => destruct b eqn:?
  | H : context [if ?b then _ else _] |- _ => destruct b eqn:?
  end;
  repeat match goal with
  | H : (_ <? _) = true |- _ => apply Z.ltb_lt in H
  | H : (_ <? _) = false |- _ => apply Z.ltb_ge in H
  | H : (_ <=? _) = true |- _ => apply Z.leb_le in H
  | H : (_ <=? _) = false |- _ => apply Z.leb_gt in H
  end;
  try (Z.div_mod_to_equations; lia).

Lemma tick_of_pos p : 0 < tick_of p <= 1000.
Proof. band. Qed.

Lemma tick_of_mono p q : p <= q -> tick_of p <= tick_of q.
Proof. intros. band. Qed.

(** ** The grid *)

Lemma grid_floor_on_grid p : 0 < p -> on_grid (grid_floor p).
Proof. intros. band. Qed.

Lemma grid_floor_le p : 0 < p -> grid_floor p <= p.
Proof. intros. band. Qed.

Lemma grid_floor_greatest p g : on_grid g -> g <= p -> g <= grid_floor p.
Proof. intros. band. Qed.

Lemma grid_floor_pos p : 0 < grid_floor p.
Proof. unfold grid_floor. pose proof (tick_of_pos p). lia. Qed.

Lemma grid_floor_id p : on_grid p -> grid_floor p = p.
Proof. intros. band. Qed.

Lemma grid_succ_on_grid p : on_grid p -> on_grid (grid_succ p).
Proof. intros. band. Qed.

(** [grid_succ p] is the least grid price above [p]. *)
Lemma grid_succ_least p g : on_grid p -> on_grid g -> p < g -> grid_succ p <= g.
Proof. intros. band. Qed.

Lemma grid_pred_on_grid p : on_grid (grid_pred p).
Proof.
  unfold grid_pred. destruct (Z.leb_spec p 1); [done|]. apply grid_floor_on_grid; lia.
Qed.

Lemma grid_pred_lt p : 1 < p -> grid_pred p < p.
Proof.
  intros. unfold grid_pred. rewrite (proj2 (Z.leb_gt p 1)) by lia.
  pose proof (grid_floor_le (p - 1)). lia.
Qed.

(** [grid_pred p] is the greatest grid price below [p]. *)
Lemma grid_pred_greatest p g : on_grid g -> g < p -> g <= grid_pred p.
Proof.
  intros Hg Hlt. unfold grid_pred. destruct (Z.leb_spec p 1).
  - destruct Hg. lia.
  - apply grid_floor_greatest; [done|lia].
Qed.

Lemma grid_pred_succ p : on_grid p -> grid_pred (grid_succ p) = p.
Proof.
  intros Hp. pose proof (tick_of_pos p). apply Z.le_antisymm.
  - destruct (Z.le_gt_cases (grid_pred (grid_succ p)) p) as [|Hgt]; [done|].
    pose proof (grid_succ_least p _ Hp (grid_pred_on_grid _) Hgt).
    assert (grid_pred (grid_succ p) < grid_succ p).
    { apply grid_pred_lt. destruct Hp. unfold grid_succ. lia. }
    lia.
  - apply grid_pred_greatest; [done|unfold grid_succ; lia].
Qed.

(** ** The code on int prices *)

Lemma krx_tick_size_int p : 0 < p -> krx_tick_size (PInt p) = Ok (tick_of p).
Proof.
  intros. unfold krx_tick_size, tick_of; cbn.
  rewrite (proj2 (Z.leb_gt p 0)) by lia. by repeat case_match.
Qed.

Lemma int_floor_div a t :
  0 <= a < price_bound -> 0 < t <= 1000 ->
  (let* q := int_truediv a t in f_floor q) = Ok (a / t).
Proof.
  intros. unfold price_bound in *. destruct (int_truediv_floor a t) as (q & -> & ?); [lia..|done].
Qed.

Lemma normalize_tick_price_int p :
  0 < p < price_bound -> normalize_tick_price (PInt p) = Ok (grid_floor p).
Proof.
  intros. unfold normalize_tick_price; cbn [num_leZ num_divZ].
  rewrite (proj2 (Z.leb_gt p 0)), krx_tick_size_int by lia; cbn [res_bind].
  pose proof (int_floor_div p (tick_of p) ltac:(lia) (tick_of_pos p)) as Hq.
  destruct (int_truediv p (tick_of p)) as [q|]; [|done]; cbn in *. by rewrite Hq.
Qed.

Lemma add_ticks_loop_grid n p :
  on_grid p -> add_ticks_loop n p = Ok (Nat.iter n grid_succ p) /\
               on_grid (Nat.iter n grid_succ p).
Proof.
  revert p; induction n as [|n IH]; intros p Hp; [done|]. cbn [add_ticks_loop].
  rewrite krx_tick_size_int by (by destruct Hp); cbn [res_bind].
  change (p + tick_of p) with (grid_succ p).
  destruct (IH _ (grid_succ_on_grid p Hp)) as [-> H].
  by rewrite <- Nat.iter_succ_r in *.
Qed.

Lemma subtract_ticks_step n p :
  on_grid p -> p < price_bound ->
  subtract_ticks_loop (S n) p =
  if p <=? 1 then Ok 1 else subtract_ticks_loop n (grid_pred p).
Proof.
  intros Hp Hlt. unfold grid_pred. cbn [subtract_ticks_loop].
  destruct (Z.leb_spec p 1); [done|]. rewrite krx_tick_size_int by lia; cbn [res_bind].
  pose proof (int_floor_div (p - 1) (tick_of (p - 1)) ltac:(lia) (tick_of_pos _)) as Hq.
  destruct (int_truediv (p - 1) (tick_of (p - 1))) as [q|]; [|done]; cbn in *. by rewrite Hq.
Qed.

Lemma grid_pred_one : grid_pred 1 = 1.
Proof. reflexivity. Qed.

Lemma iter_grid_pred_one n : Nat.iter n grid_pred 1 = 1.
Proof. induction n as [|n IH]; [done|]. by rewrite Nat.iter_succ, IH. Qed.

Lemma subtract_ticks_loop_grid n p :
  on_grid p -> p < price_bound ->
  subtract_ticks_loop n p = Ok (Nat.iter n grid_pred p) /\
  on_grid (Nat.iter n grid_pred p).
Proof.
  revert p; induction n as [|n IH]; intros p Hp Hlt; [done|].
  rewrite subtract_ticks_step by done. rewrite Nat.iter_succ_r.
  destruct (Z.leb_spec p 1) as [Hle|Hgt].
  - assert (p = 1) as -> by (destruct Hp; lia).
    rewrite grid_pred_one, iter_grid_pred_one. done.
  - apply IH; [by apply grid_pred_on_grid|]. pose proof (grid_pred_lt p Hgt). lia.
Qed.

Lemma add_ticks_int p n :
  0 < p < price_bound -> 0 <= n ->
  add_ticks (PInt p) n = Ok (Nat.iter (Z.to_nat n) grid_succ (grid_floor p)).
Proof.
  intros Hp Hn. unfold add_ticks; cbn [num_leZ].
  rewrite (proj2 (Z.leb_gt p 0)), (proj2 (Z.ltb_ge n 0)) by lia.
  rewrite normalize_tick_price_int by lia; cbn [res_bind].
  apply add_ticks_loop_grid, grid_floor_on_grid; lia.
Qed.

Lemma subtract_ticks_int p n :
  0 < p < price_bound -> 0 <= n ->
  subtract_ticks (PInt p) n = Ok (Nat.iter (Z.to_nat n) grid_pred (grid_floor p)).
Proof.
  intros Hp Hn. unfold subtract_ticks; cbn [num_leZ].
  rewrite (proj2 (Z.leb_gt p 0)), (proj2 (Z.ltb_ge n 0)) by lia.
  rewrite normalize_tick_price_int by lia; cbn [res_bind].
  apply subtract_ticks_loop_grid; [apply grid_floor_on_grid; lia|].
  pose proof (grid_floor_le p ltac:(lia)). lia.
Qed.

Lemma iter_pred_succ n p : on_grid p -> Nat.iter n grid_pred (Nat.iter n grid_succ p) = p.
Proof.
  intros Hp; induction n as [|n IH]; [done|].
  rewrite (Nat.iter_succ_r n grid_pred), Nat.iter_succ.
  rewrite grid_pred_succ; [done|]. by apply add_ticks_loop_grid.
Qed.

Lemma iter_grid_succ_ge n p : p <= Nat.iter n grid_succ p.
Proof.
  induction n as [|n IH]; [done|]. rewrite Nat.iter_succ. unfold grid_succ at 1.
  pose proof (tick_of_pos (Nat.iter n grid_succ p)). lia.
Qed.

(** ** The loop of [price_tick_distance] *)

(** Climbing: from a grid price below the target, fuel above the price gap
    suffices and the counter advances by the number of ticks. *)
Lemma distance_loop_up gap current target :
  on_grid current -> on_grid target -> current <= target < price_bound ->
  target - current <= Z.of_nat gap ->
  exists n : nat, Nat.iter n grid_succ current = target /\
    forall fuel distance, (gap < fuel)%nat ->
      price_tick_distance_loop fuel current target distance 1 =
        Some (Ok (distance + Z.of_nat n)).
Proof.
  revert current; induction gap as [|gap IH]; intros current Hc Ht Hle Hgap;
    destruct (Z.eqb_spec current target) as [->|Hne]; [|lia| |].
  1,2: exists O; split; [done|]; intros [|fuel] distance Hfuel; [lia|];
    cbn [price_tick_distance_loop]; by rewrite Z.eqb_refl, Z.add_0_r.
  pose proof (proj1 Hc). pose proof (tick_of_pos current).
  pose proof (grid_succ_least current target Hc Ht ltac:(lia)) as Hs.
  destruct (IH (grid_succ current)) as (n & Hn & Hrun);
    [by apply grid_succ_on_grid|done|unfold grid_succ in *; lia..|].
  exists (S n). split; [by rewrite Nat.iter_succ_r|].
  intros [|fuel] distance Hfuel; [lia|]. cbn [price_tick_distance_loop].
  rewrite (proj2 (Z.eqb_neq _ _) Hne), add_ticks_int, grid_floor_id by (done || lia).
  cbn [Z.ltb Z.compare andb orb]. change (Nat.iter (Z.to_nat 1) grid_succ current)
    with (grid_succ current). cbv iota.
  rewrite (proj2 (Z.ltb_ge target (grid_succ current))) by lia.
  rewrite Hrun by lia. do 2 f_equal; lia.
Qed.

(** Descending, symmetrically. *)
Lemma distance_loop_down gap current target :
  on_grid current -> on_grid target -> target <= current < price_bound ->
  current - target <= Z.of_nat gap ->
  exists n : nat, Nat.iter n grid_pred current = target /\
    forall fuel distance, (gap < fuel)%nat ->
      price_tick_distance_loop fuel current target distance (-1) =
        Some (Ok (distance - Z.of_nat n)).
Proof.
  revert current; induction gap as [|gap IH]; intros current Hc Ht Hle Hgap;
    destruct (Z.eqb_spec current target) as [->|Hne]; [|lia| |].
  1,2: exists O; split; [done|]; intros [|fuel] distance Hfuel; [lia|];
    cbn [price_tick_distance_loop]; by rewrite Z.eqb_refl, Z.sub_0_r.
  pose proof (proj1 Hc). pose proof (proj1 Ht).
  pose proof (grid_pred_greatest current target Ht ltac:(lia)) as Hs.
  pose proof (grid_pred_lt current ltac:(lia)).
  destruct (IH (grid_pred current)) as (n & Hn & Hrun);
    [by apply grid_pred_on_grid|done|lia..|].
  exists (S n). split; [by rewrite Nat.iter_succ_r|].
  intros [|fuel] distance Hfuel; [lia|]. cbn [price_tick_distance_loop].
  rewrite (proj2 (Z.eqb_neq _ _) Hne), subtract_ticks_int, grid_floor_id by (done || lia).
  cbn [Z.ltb Z.compare andb orb]. change (Nat.iter (Z.to_nat 1) grid_pred current)
    with (grid_pred current). cbv iota.
  rewrite (proj2 (Z.ltb_ge (grid_pred current) target)) by lia.
  rewrite Hrun by lia. do 2 f_equal; lia.
Qed.

(** ** Properties *)

(** C37. On every int price below 2^51, [normalize_tick_price] (whose quotient is
    a float division) returns the greatest quotable KRX price that does not
    exceed it: the result is on the price grid, and no grid price lies between
    it and the argument. *)
Theorem normalize_tick_price_greatest (p : Z) (Hp : 0 < p < price_bound) :
  exists g, normalize_tick_price (PInt p) = Ok g /\ on_grid g /\ g <= p /\
            forall g', on_grid g' -> g' <= p -> g' <= g.
Proof.
  exists (grid_floor p). split_and!.
  - by apply normalize_tick_price_int.
  - apply grid_floor_on_grid; lia.
  - apply grid_floor_le; lia.
  - intros g'. apply grid_floor_greatest.
Qed.

Lemma normalize_tick_price_greatest_witness :
  exists g, normalize_tick_price (PInt 19999) = Ok g /\ on_grid g /\ g <= 19999 /\
            forall g', on_grid g' -> g' <= 19999 -> g' <= g.
Proof. apply (normalize_tick_price_greatest 19999). unfold price_bound; lia. Defined.

(** Moving a quotable price up [n] ticks and back down [n] ticks returns it,
    across every tick-size band: [subtract_ticks] inverts [add_ticks]. *)
Theorem add_subtract_ticks_roundtrip (p n q : Z)
    (Hp : on_grid p) (Hb : p < price_bound)
    (Hadd : add_ticks (PInt p) n = Ok q) (Hq : q < price_bound) :
  subtract_ticks (PInt q) n = Ok p.
Proof.
  pose proof (proj1 Hp). assert (0 <= n).
  { unfold add_ticks in Hadd. destruct (num_leZ _ _); [done|].
    destruct (Z.ltb_spec n 0); [done|lia]. }
  rewrite add_ticks_int, grid_floor_id in Hadd by (done || lia). injection Hadd as <-.
  pose proof (iter_grid_succ_ge (Z.to_nat n) p).
  rewrite subtract_ticks_int by lia.
  rewrite grid_floor_id by (by apply add_ticks_loop_grid). by rewrite iter_pred_succ.
Qed.

Lemma add_subtract_ticks_roundtrip_witness :
  add_ticks (PInt 1998) 3 = Ok 2005 /\ subtract_ticks (PInt 2005) 3 = Ok 1998.
Proof.
  split; [vm_compute; reflexivity|].
  apply (add_subtract_ticks_roundtrip 1998 3 2005); [vm_compute; done|done| |done].
  vm_compute; reflexivity.
Defined.

(** [price_tick_distance] terminates on every pair of int prices below 2^51
    (the gap between the prices bounds the number of iterations), never raises
    its alignment error, and the signed distance it returns is the number of
    ticks that lead from the normalized start price to the normalized end
    price. *)
Theorem price_tick_distance_correct (a b : Z)
    (Ha : 0 < a < price_bound) (Hb : 0 < b < price_bound) :
  exists d, (forall fuel, (Z.to_nat (Z.max a b) < fuel)%nat ->
               price_tick_distance fuel (PInt a) (PInt b) = Some (Ok d)) /\
            (0 <= d -> add_ticks (PInt a) d = normalize_tick_price (PInt b)) /\
            (d <= 0 -> subtract_ticks (PInt a) (- d) = normalize_tick_price (PInt b)).
Proof.
  pose proof (grid_floor_on_grid a ltac:(lia)) as Hga.
  pose proof (grid_floor_on_grid b ltac:(lia)) as Hgb.
  pose proof (grid_floor_le a ltac:(lia)). pose proof (grid_floor_le b ltac:(lia)).
  pose proof (grid_floor_pos a). pose proof (grid_floor_pos b).
  unfold price_tick_distance. rewrite !normalize_tick_price_int by lia.
  destruct (Z.eqb_spec (grid_floor a) (grid_floor b)) as [Heq|Hne].
  { exists 0. rewrite add_ticks_int, subtract_ticks_int by lia. cbn.
    split_and!; [done|by rewrite Heq..]. }
  destruct (Z.ltb_spec (grid_floor a) (grid_floor b)).
  - destruct (distance_loop_up (Z.to_nat (Z.max a b)) (grid_floor a) (grid_floor b))
      as (n & Hn & Hrun); [done|done|lia..|].
    exists (Z.of_nat n). split_and!; [intros; by rewrite Hrun| |].
    + intros _. rewrite add_ticks_int by lia. by rewrite Nat2Z.id, Hn.
    + intros ?. assert (n = O) as -> by lia. cbn in Hn. lia.
  - destruct (distance_loop_down (Z.to_nat (Z.max a b)) (grid_floor a) (grid_floor b))
      as (n & Hn & Hrun); [done|done|lia..|].
    exists (- Z.of_nat n). split_and!; [intros; by rewrite Hrun| |].
    + intros ?. assert (n = O) as -> by lia. cbn in Hn. lia.
    + intros _. rewrite subtract_ticks_int by lia. by rewrite Z.opp_involutive, Nat2Z.id, Hn.
Qed.

Lemma price_tick_distance_correct_witness :
  exists d, (forall fuel, (Z.to_nat (Z.max 1998 2011) < fuel)%nat ->
               price_tick_distance fuel (PInt 1998) (PInt 2011) = Some (Ok d)) /\
            (0 <= d -> add_ticks (PInt 1998) d = normalize_tick_price (PInt 2011)) /\
            (d <= 0 -> subtract_ticks (PInt 1998) (- d) = normalize_tick_price (PInt 2011)).
Proof. apply (price_tick_distance_correct 1998 2011); unfold price_bound; lia. Defined.

Example price_tick_distance_up :
  price_tick_distance 100 (PInt 1998) (PInt 2011) = Some (Ok 4).
Proof. vm_compute. reflexivity. Qed.

Example price_tick_distance_down :
  price_tick_distance 100 (PInt 2011) (PInt 1998) = Some (Ok (-4)).
Proof. vm_compute. reflexivity. Qed.

Example normalize_tick_price_float :
  normalize_tick_price (PFloat (f_lit 199995 10)) = Ok 19990.
Proof. vm_compute. reflexivity. Qed.
