(* ===== verification/BrokerUtils.v ===== *)
(** * Validation of broker data ([domain/broker/utils.py])

    The values the contracts receive are JSON values; [require_non_empty_str],
    [parse_int], [parse_float], [parse_bool], [validate_stock_code] and
    [parse_str_enum] check them and normalise them.  A [BrokerValidationError]
    is a [ValueError] with the source's message.  Strings are ASCII (the code's
    [\d] and [str.strip] also accept non-ASCII digits and blanks); a numeric
    string is read in the plain decimal grammar, without underscores or the
    words for infinity and NaN (which the code rejects a line later).  The
    message of a float below its bound does not print the bound. *)
From Stdlib Require Import SpecFloat.
From stdpp Require Import pretty.
From S2P Require Import Prelude PyFloat.
Local Open Scope Z_scope.

(** ** JSON values *)

Inductive json :=
| JNull
| JBool (b : bool)
| JInt (n : Z)
| JFloat (x : float)
| JStr (s : string)
| JList (l : list json)
| JObj (fields : list (string * json)).

(** [mapping.get(key)]: the last binding wins, as in a parsed JSON object. *)
Fixpoint jget (key : string) (fields : list (string * json)) : option json :=
  match fields with
  | [] => None
  | (k, v) :: fs =>
      match jget key fs with
      | Some w => Some w
      | None => if String.eqb k key then Some v else None
      end
  end.

(** Truth value of a JSON value: [bool(v)]. *)
Definition jtrue (v : json) : bool :=
  match v with
  | JNull => false
  | JBool b => b
  | JInt n => negb (n =? 0)
  | JFloat x => negb (f_is_zero x)
  | JStr s => str_true s
  | JList l => match l with [] => false | _ => true end
  | JObj l => match l with [] => false | _ => true end
  end.

(** [bool(mapping.get(key))]. *)
Definition truthy (v : option json) : bool :=
  match v with Some j => jtrue j | None => false end.

(** [payload.get(a) or payload.get(b)]. *)
Definition or_else (a b : option json) : option json := if truthy a then a else b.

(** [list(v)]: the items of a list, the keys of a mapping, the characters of a
    string; anything else is a [TypeError]. *)
Definition json_iter (v : json) : res (list json) :=
  match v with
  | JList l => Ok l
  | JObj l => Ok (map (fun kv => JStr kv.1) l)
  | JStr t => Ok (map (fun c => JStr (String c EmptyString)) (list_ascii_of_string t))
  | _ => Err (OtherError "TypeError")
  end.

(** [str(value)]; the text of floats and containers is the parameter
    [py_repr]. *)
Definition py_str (py_repr : json -> string) (v : json) : string :=
  match v with
  | JStr s => s
  | JInt n => pretty n
  | JBool true => "True"
  | JBool false => "False"
  | JNull => "None"
  | _ => py_repr v
  end.

(** [str(value or "")]. *)
Definition str_or_empty (py_repr : json -> string) (v : option json) : string :=
  match v with Some j => if jtrue j then py_str py_repr j else EmptyString | None => EmptyString end.

(** [_json_object] of the services: a mapping as it is, a text parsed by
    [json.loads], everything that is no mapping an empty one. *)
Definition _json_object (py_repr : json -> string) (json_loads : string -> res json)
    (v : option json) : res (list (string * json)) :=
  match v with
  | Some j =>
      if negb (jtrue j) then Ok [] else
      match j with
      | JObj fs => Ok fs
      | _ => let* loaded := json_loads (py_str py_repr j) in
             Ok (match loaded with JObj fs => fs | _ => [] end)
      end
  | None => Ok []
  end.

Definition invalid (field_name msg : string) {A} : res A :=
  Err (ValueError (field_name +:+ " " +:+ msg)).

(** ** Strings *)

(** [require_non_empty_str] on a value that is a string. *)
Definition require_non_empty (value field_name : string) : res string :=
  let normalized := py_strip value in
  if str_true normalized then Ok normalized
  else invalid field_name "must not be empty".

Definition require_non_empty_str (value : json) (field_name : string) : res string :=
  match value with
  | JStr s => require_non_empty s field_name
  | _ => invalid field_name "must be a string"
  end.

Definition optional_non_empty_str (value : json) (field_name : string)
    : res (option string) :=
  match value with
  | JNull => Ok None
  | _ => let* s := require_non_empty_str value field_name in Ok (Some s)
  end.

(** [all(c is a digit)]. *)
Fixpoint all_digits (s : string) : bool :=
  match s with
  | EmptyString => true
  | String c s' => match ascii_digit c with Some _ => all_digits s' | None => false end
  end.

(** [_CODE_RE.fullmatch(code)]. *)
Definition is_stock_code (s : string) : bool :=
  (String.length s =? 6)%nat && all_digits s.

Definition validate_code (value field_name : string) : res string :=
  let* stripped := require_non_empty value field_name in
  let code := py_upper stripped in
  let code' :=
    match code with
    | String c rest =>
        if Ascii.eqb c "A" && (String.length code =? 7)%nat then rest else code
    | EmptyString => code
    end in
  if is_stock_code code' then Ok code'
  else invalid field_name "must be a 6-digit domestic stock code".

Definition validate_stock_code (value : json) (field_name : string) : res string :=
  let* s := require_non_empty_str value field_name in validate_code s field_name.

(** ** Numbers *)

(** [value.replace(",", "")]. *)
Fixpoint drop_commas (s : string) : string :=
  match s with
  | EmptyString => EmptyString
  | String c s' => if Ascii.eqb c "," then drop_commas s' else String c (drop_commas s')
  end.

(** The sign of a numeral and its digits. *)
Definition split_sign (s : string) : bool * string :=
  match s with
  | String c s' =>
      if Ascii.eqb c "-" then (true, s')
      else if Ascii.eqb c "+" then (false, s') else (false, s)
  | EmptyString => (false, s)
  end.

(** [re.fullmatch(r"[+-]?\d+", s)] and [int(s)]. *)
Definition read_int (s : string) : option Z :=
  let '(neg, ds) := split_sign s in
  if str_true ds then
    match digits_value 0 ds with
    | Some n => Some (if neg then - n else n)
    | None => None
    end
  else None.

(** [int(v)]. *)
Definition py_int (v : json) : res Z :=
  match v with
  | JInt n => Ok n
  | JBool b => Ok (if b then 1 else 0)
  | JFloat x => f_trunc x
  | JStr s =>
      match read_int (py_strip s) with
      | Some n => Ok n
      | None => Err (ValueError "invalid literal for int() with base 10")
      end
  | _ => Err (OtherError "TypeError")
  end.

(** [x.is_integer()] on a finite float. *)
Definition f_is_integer (x : float) : bool :=
  match x with
  | S754_zero _ => true
  | S754_finite _ m e => (0 <=? e) || (Zpos m mod 2 ^ (- e) =? 0)
  | _ => false
  end.

Definition parse_int (value : json) (field_name : string) (min_value : option Z) : res Z :=
  let* parsed :=
    match value with
    | JInt n => Ok n
    | JFloat x => if f_is_integer x then f_trunc x else invalid field_name "must be an integer"
    | JStr s =>
        match read_int (drop_commas (py_strip s)) with
        | Some n => Ok n
        | None => invalid field_name "must be an integer"
        end
    | _ => invalid field_name "must be an integer"
    end in
  match min_value with
  | Some m =>
      if parsed <? m then invalid field_name ("must be >= " +:+ pretty m) else Ok parsed
  | None => Ok parsed
  end.

(** The digits before and after the point, and the exponent, of a decimal
    numeral. *)
Fixpoint take_digits (s : string) : string * string :=
  match s with
  | String c s' =>
      match ascii_digit c with
      | Some _ => let '(ds, rest) := take_digits s' in (String c ds, rest)
      | None => (EmptyString, s)
      end
  | EmptyString => (EmptyString, EmptyString)
  end.

(** The float nearest to [(-1)^neg * m * 10^e]. *)
Definition decimal_float (neg : bool) (m e : Z) : float :=
  match m with
  | Zpos p =>
      match (if 0 <=? e then (Zpos p * 10 ^ e, 1) else (Zpos p, 10 ^ (- e))) with
      | (Zpos n, Zpos d) => SFdiv prec emax (S754_finite neg n 0) (S754_finite false d 0)
      | _ => S754_zero neg
      end
  | _ => S754_zero neg
  end.

(** [float(s)] on [[+-]digits[.digits][e[+-]digits]]. *)
Definition read_float (s : string) : option float :=
  let '(neg, body) := split_sign (py_strip s) in
  let '(whole, rest) := take_digits body in
  let '(frac, rest) :=
    match rest with
    | String c r => if Ascii.eqb c "." then take_digits r else (EmptyString, rest)
    | EmptyString => (EmptyString, rest)
    end in
  let expo :=
    match rest with
    | EmptyString => Some 0
    | String c r => if Ascii.eqb (ascii_lower c) "e" then read_int r else None
    end in
  if str_true (whole +:+ frac) then
    match digits_value 0 (whole +:+ frac), expo with
    | Some m, Some e => Some (decimal_float neg m (e - Z.of_nat (String.length frac)))
    | _, _ => None
    end
  else None.

(** [s[:-1]] when [s] ends in the character [c]. *)
Fixpoint drop_suffix (c : ascii) (s : string) : option string :=
  match s with
  | EmptyString => None
  | String a EmptyString => if Ascii.eqb a c then Some EmptyString else None
  | String a s' => match drop_suffix c s' with Some t => Some (String a t) | None => None end
  end.

(** The bound check of [parse_float], on a parsed value. *)
Definition check_float (parsed : float) (field_name : string) (min_value : option float)
    : res float :=
  if negb (f_finite parsed) then invalid field_name "must be finite" else
  match min_value with
  | Some m => if f_lt parsed m then invalid field_name "must be >= min_value" else Ok parsed
  | None => Ok parsed
  end.

Definition parse_float (value : json) (field_name : string) (min_value : option float)
    : res float :=
  let* parsed :=
    match value with
    | JInt n => float_of_int n
    | JFloat x => Ok x
    | JStr s =>
        let normalized := drop_commas (py_strip s) in
        let normalized :=
          match drop_suffix "%" normalized with Some t => py_strip t | None => normalized end in
        match read_float normalized with
        | Some x => Ok x
        | None => invalid field_name "must be a number"
        end
    | _ => invalid field_name "must be a number"
    end in
  check_float parsed field_name min_value.

Definition parse_bool (value : json) (field_name : string) : res bool :=
  match value with
  | JBool b => Ok b
  | _ => invalid field_name "must be a boolean"
  end.

(** [parse_str_enum] over the members of an enumeration, each with its name
    and its value in upper case. *)
Fixpoint find_member {A} (normalized : string) (members : list (string * string * A))
    : option A :=
  match members with
  | [] => None
  | (name, value, a) :: ms =>
      if mem normalized [py_upper name; py_upper value] then Some a
      else find_member normalized ms
  end.

Definition allowed_members {A} (members : list (string * string * A)) : string :=
  "must be one of: " +:+ String.concat ", " (map (fun m => m.1.2) members).

Definition parse_str_enum {A} (members : list (string * string * A)) (value : json)
    (field_name : string) : res A :=
  match value with
  | JStr s =>
      match find_member (py_upper (py_strip s)) members with
      | Some a => Ok a
      | None => invalid field_name (allowed_members members)
      end
  | _ => invalid field_name (allowed_members members)
  end.

Definition require_mapping (data : json) (model_name : string)
    : res (list (string * json)) :=
  match data with
  | JObj fields => Ok fields
  | _ => invalid model_name "must be created from a mapping"
  end.

(** [require_fields]: every field is present. *)
Definition require_fields (data : list (string * json)) (fields : list string)
    (model_name : string) : res unit :=
  match List.filter (fun f => negb (mem f (map fst data))) fields with
  | [] => Ok tt
  | missing =>
      Err (ValueError (model_name +:+ " missing required field(s): "
                       +:+ String.concat ", " missing))
  end.

(** ** Fields of a validated record *)

(** A validator applied to a field that may be [None]. *)
Definition opt_check {A} (check : A -> res A) (v : option A) : res (option A) :=
  match v with
  | Some a => let* b := check a in Ok (Some b)
  | None => Ok None
  end.

(** [parse_int(v, field, min_value=0)] on an int. *)
Definition nat_field (field_name : string) (v : Z) : res Z :=
  parse_int (JInt v) field_name (Some 0).

(** [parse_float(v, field, min_value=0.0)] and [parse_float(v, field)] on a
    float. *)
Definition pos_field (field_name : string) (v : float) : res float :=
  check_float v field_name (Some f_zero).
Definition any_field (field_name : string) (v : float) : res float :=
  check_float v field_name None.

(** ** What the validators establish *)

Lemma require_non_empty_ok v f s :
  require_non_empty v f = Ok s <-> s = py_strip v /\ str_true s = true.
Proof. unfold require_non_empty, invalid. destruct (str_true (py_strip v)) eqn:E; intuition congruence. Qed.

Lemma validate_code_ok v f c : validate_code v f = Ok c -> is_stock_code c = true.
Proof.
  unfold validate_code. destruct (require_non_empty v f) as [s|]; simpl; [|done].
  intros H. revert H.
  generalize (match py_upper s with
    | EmptyString => py_upper s
    | String c0 rest =>
        if Ascii.eqb c0 "A" && (String.length (py_upper s) =? 7)%nat
        then rest else py_upper s
    end).
  intros t. destruct (is_stock_code t) eqn:E; [|done]. by intros [= <-].
Qed.

Lemma check_float_ok x f m y :
  check_float x f m = Ok y <->
  y = x /\ f_finite x = true /\ (forall b, m = Some b -> f_lt x b = false).
Proof.
  unfold check_float, invalid. destruct (f_finite x); simpl; [|intuition congruence].
  destruct m as [b|]; [destruct (f_lt x b) eqn:E|].
  - split; [done|]. intros (_ & _ & H). specialize (H b eq_refl). congruence.
  - split; [intros [= <-]; split_and!; [done..|congruence]|intuition congruence].
  - split; [intros [= <-]; done|intuition congruence].
Qed.

Lemma finite_not_nan x : f_finite x = true -> f_nan x = false.
Proof. by destruct x. Qed.
#[export] Hint Resolve finite_not_nan : pyfloat.

Lemma require_non_empty_idem v f g s :
  require_non_empty v f = Ok s -> require_non_empty s g = Ok s.
Proof.
  intros [-> Hs]%require_non_empty_ok. apply require_non_empty_ok.
  by rewrite py_strip_idem.
Qed.

Lemma require_non_empty_upper v f g s :
  require_non_empty v f = Ok s -> require_non_empty (py_upper s) g = Ok (py_upper s).
Proof.
  intros [-> Hs]%require_non_empty_ok. apply require_non_empty_ok.
  by rewrite py_strip_upper, py_strip_idem, str_true_upper.
Qed.

Lemma digit_not_space c d : ascii_digit c = Some d -> ascii_space c = false.
Proof. destruct c as [[] [] [] [] [] [] [] []]; vm_compute; congruence. Qed.

Lemma digit_upper c d : ascii_digit c = Some d -> ascii_upper c = c.
Proof. destruct c as [[] [] [] [] [] [] [] []]; vm_compute; congruence. Qed.

Lemma digits_upper s : all_digits s = true -> py_upper s = s.
Proof.
  induction s as [|c s IH]; simpl; [done|]. destruct (ascii_digit c) eqn:E; [|done].
  intros H. unfold py_upper in *. cbn. by rewrite (digit_upper _ _ E), IH.
Qed.

Lemma digits_strip s : all_digits s = true -> py_strip s = s.
Proof.
  intros H. unfold py_strip.
  assert (Hr : py_rstrip s = s).
  { revert H. induction s as [|c s IH]; simpl; [done|].
    destruct (ascii_digit c) eqn:E; [|done]. intros H. rewrite (IH H).
    destruct s; [by rewrite (digit_not_space _ _ E)|done]. }
  rewrite Hr. destruct s as [|c s]; [done|]. simpl in *.
  destruct (ascii_digit c) eqn:E; [|done]. by rewrite (digit_not_space _ _ E).
Qed.

Lemma validate_code_fixed c f : is_stock_code c = true -> validate_code c f = Ok c.
Proof.
  intros H. pose proof H as [Hl Hd]%andb_true_iff. unfold validate_code.
  unfold require_non_empty. rewrite (digits_strip _ Hd).
  destruct c as [|a c]; [done|]. cbn [str_true res_bind]. rewrite (digits_upper _ Hd).
  apply Nat.eqb_eq in Hl.
  replace (String.length (String a c) =? 7)%nat with false
    by (symmetry; apply Nat.eqb_neq; lia).
  by rewrite andb_false_r, H.
Qed.

Lemma nat_field_ok name v n : nat_field name v = Ok n -> n = v /\ 0 <= v.
Proof.
  unfold nat_field, parse_int. cbn [res_bind].
  destruct (Z.ltb_spec v 0); [done|]. intros [= <-]. lia.
Qed.

Lemma pos_field_ok name x y :
  pos_field name x = Ok y -> y = x /\ f_finite x = true /\ f_lt x f_zero = false.
Proof. intros (-> & Hf & Hm)%check_float_ok. split_and!; [done..|]. by apply Hm. Qed.

Lemma opt_check_pos name v o :
  opt_check (pos_field name) v = Ok o ->
  o = v /\ forall x, v = Some x -> f_finite x = true /\ f_lt x f_zero = false.
Proof.
  destruct v as [x|]; cbn; [|naive_solver]. intros H. res_inv H.
  apply check_float_ok in Ha as (-> & Hf & Hm). injection H as <-. naive_solver.
Qed.

(** ** Decimal numerals and separators *)

Lemma pretty_char_digit x : (x < 10)%N -> exists d, ascii_digit (pretty_N_char x) = Some d.
Proof.
  intros H. assert (Hx : In x [0;1;2;3;4;5;6;7;8;9]%N).
  { cbn. lia. }
  cbn in Hx. repeat destruct Hx as [<-|Hx]; try (eexists; vm_compute; reflexivity). done.
Qed.

Lemma pretty_go_digits x s : all_digits s = true -> all_digits (pretty_N_go x s) = true.
Proof.
  revert s. induction (N.lt_wf_0 x) as [x _ IH]; intros s Hs.
  destruct (decide (x = 0)%N) as [->|Hx]; [by rewrite pretty_N_go_0|].
  rewrite pretty_N_go_step by lia.
  apply IH; [apply N.div_lt; lia|]. cbn.
  destruct (pretty_char_digit (x `mod` 10)%N) as [d ->]; [by apply N.mod_lt|done].
Qed.

Lemma pretty_go_nonempty x s : (0 < x)%N \/ s <> EmptyString -> pretty_N_go x s <> EmptyString.
Proof.
  revert s. induction (N.lt_wf_0 x) as [x _ IH]; intros s Hs.
  destruct (decide (x = 0)%N) as [->|Hx].
  - rewrite pretty_N_go_0. destruct Hs; [lia|done].
  - rewrite pretty_N_go_step by lia. apply IH; [apply N.div_lt; lia|by right].
Qed.

Lemma pretty_digits n : 0 <= n -> all_digits (pretty n) = true /\ pretty n <> EmptyString.
Proof.
  intros Hn. destruct n as [|p|p]; [done| |lia].
  change (pretty (Zpos p)) with (pretty (Npos p)). unfold pretty, pretty_N.
  rewrite decide_False by done.
  split; [by apply pretty_go_digits|apply pretty_go_nonempty; left; lia].
Qed.

Lemma append_cons c a b : String c a +:+ b = String c (a +:+ b).
Proof. reflexivity. Qed.
Lemma append_nil b : EmptyString +:+ b = b.
Proof. reflexivity. Qed.
Lemma append_assoc a b c : (a +:+ b) +:+ c = a +:+ (b +:+ c).
Proof. induction a as [|x a IH]; [done|]. rewrite !append_cons. by rewrite IH. Qed.

Lemma all_digits_dash x y : all_digits (x +:+ String "-" y) = false.
Proof.
  induction x as [|c x IH]; [done|]. rewrite append_cons. cbn [all_digits].
  by destruct (ascii_digit c).
Qed.

(** The text before the last dash is determined when digits follow it. *)
Lemma dash_inj a1 a2 p1 p2 :
  all_digits p1 = true -> all_digits p2 = true ->
  a1 +:+ String "-" p1 = a2 +:+ String "-" p2 -> a1 = a2 /\ p1 = p2.
Proof.
  intros H1 H2. revert a2.
  induction a1 as [|c a1 IH]; intros [|d a2]; rewrite ?append_cons, ?append_nil; intros E.
  - by injection E.
  - injection E as <- ->. by rewrite all_digits_dash in H1.
  - injection E as -> <-. by rewrite all_digits_dash in H2.
  - injection E as -> E. destruct (IH a2 E) as [-> ->]. done.
Qed.

Lemma py_rstrip_app a b : py_rstrip b = b -> b <> EmptyString -> py_rstrip (a +:+ b) = a +:+ b.
Proof.
  intros Hb Hne. induction a as [|c a IH]; [done|].
  rewrite append_cons. cbn [py_rstrip]. rewrite IH.
  destruct (a +:+ b) eqn:E; [|done]. by destruct a, b.
Qed.

Lemma digits_rstrip s : all_digits s = true -> py_rstrip s = s.
Proof.
  induction s as [|c s IH]; simpl; [done|]. destruct (ascii_digit c) eqn:E; [|done].
  intros H. rewrite (IH H). destruct s; [by rewrite (digit_not_space _ _ E)|done].
Qed.
