(* ===== verification/WireTime.v ===== *)
(** * Timestamps on the wire ([domain/broker/utils.py])

    [datetime_to_wire] writes an aware UTC datetime as ISO text with the suffix
    [Z]; [parse_timestamp] reads it back.  The stores keep these texts and
    compare them as texts, which [Prelude.wire_key] models as an order on
    microsecond counts; [wire_text_order] proves that the two orders agree, so
    the order of the store is not an assumption.

    A datetime is the number of microseconds since the Unix epoch.  Read here:
    the extended forms [YYYY-MM-DD], a separator character, [HH:MM], [HH:MM:SS]
    or [HH:MM:SS.ffffff], and [Z] or [+HH:MM] or nothing; the basic and week
    forms [datetime.fromisoformat] also accepts are not produced by the code and
    are refused by the model. *)
From S2P Require Import Prelude BrokerUtils.
Local Open Scope Z_scope.
#[local] Ltac Zify.zify_post_hook ::= Z.to_euclidean_division_equations.

(** ** The proleptic Gregorian calendar *)

(** Days since 0000-03-01 of the civil date [(y, m, d)]: years start in March,
    so the leap day comes last. *)
Definition days_of_civil (y m d : Z) : Z :=
  let y' := if m <=? 2 then y - 1 else y in
  let era := y' / 400 in
  let yoe := y' mod 400 in
  let doy := (153 * (if m <=? 2 then m + 9 else m - 3) + 2) / 5 + d - 1 in
  era * 146097 + (yoe * 365 + yoe / 4 - yoe / 100 + doy).

(** Month and day of the [doy]-th day of a year that starts in March, and the
    year of a 400-year cycle with the day in it. *)
Definition month_day (doy : Z) : Z * Z :=
  let mp := (5 * doy + 2) / 153 in
  (if mp <? 10 then mp + 3 else mp - 9, doy - (153 * mp + 2) / 5 + 1).

Definition year_of_cycle (doe : Z) : Z * Z :=
  let n100 := Z.min (doe / 36524) 3 in
  let r := doe - 36524 * n100 in
  let n4 := r / 1461 in
  let n1 := Z.min ((r mod 1461) / 365) 3 in
  (100 * n100 + 4 * n4 + n1, r mod 1461 - 365 * n1).

Definition civil_of_days (n : Z) : Z * Z * Z :=
  let '(yoe, doy) := year_of_cycle (n mod 146097) in
  let '(m, d) := month_day doy in
  ((if m <=? 2 then yoe + 1 else yoe) + 400 * (n / 146097), m, d).

(** Days from 0000-03-01 to the epoch. *)
Definition epoch_days : Z := 719468.

Definition is_leap (y : Z) : bool :=
  (y mod 4 =? 0) && (negb (y mod 100 =? 0) || (y mod 400 =? 0)).
Definition days_in_month (y m : Z) : Z :=
  if m =? 2 then (if is_leap y then 29 else 28)
  else if existsb (Z.eqb m) [4; 6; 9; 11] then 30 else 31.
Definition valid_date (y m d : Z) : bool :=
  (1 <=? y) && (y <=? 9999) && (1 <=? m) && (m <=? 12) && (1 <=? d) &&
  (d <=? days_in_month y m).

(** A date as one number, ordered as the triple is. *)
Definition date_key (c : Z * Z * Z) : Z := let '(y, m, d) := c in (y * 12 + m) * 32 + d.

(** What is checked of each of the 366 days of a year. *)
Definition doy_ok (doy : Z) : bool :=
  let '(m, d) := month_day doy in
  (1 <=? m) && (m <=? 12) && (1 <=? d) && (d <=? 31) &&
  ((153 * (if m <=? 2 then m + 9 else m - 3) + 2) / 5 + d - 1 =? doy) &&
  ((doy =? 365) || (d <=? days_in_month 1 m)) &&
  let '(m', d') := month_day (doy + 1) in
  (doy =? 365) ||
  (date_key (if m <=? 2 then 1 else 0, m, d) <? date_key (if m' <=? 2 then 1 else 0, m', d')).

Lemma doy_table doy : 0 <= doy < 366 -> doy_ok doy = true.
Proof.
  intros H. assert (forallb (fun n => doy_ok (Z.of_nat n)) (seq 0 366) = true) as Hall
    by (vm_compute; reflexivity).
  rewrite forallb_forall in Hall. specialize (Hall (Z.to_nat doy)).
  rewrite Z2Nat.id in Hall by lia. apply Hall, in_seq. lia.
Qed.

Lemma month_day_ok doy m d :
  0 <= doy < 366 -> month_day doy = (m, d) ->
  1 <= m <= 12 /\ 1 <= d <= 31 /\ (doy = 365 \/ d <= days_in_month 1 m) /\
  (153 * (if m <=? 2 then m + 9 else m - 3) + 2) / 5 + d - 1 = doy.
Proof.
  intros H E. pose proof (doy_table doy H) as T. unfold doy_ok in T. rewrite E in T.
  destruct (month_day (doy + 1)). lia.
Qed.

(** The cycle: 97 leap days, the last at the end of the 400th year. *)
Lemma year_of_cycle_ok doe yoe doy :
  0 <= doe < 146097 -> year_of_cycle doe = (yoe, doy) ->
  0 <= yoe < 400 /\ 0 <= doy < 366 /\
  doe = yoe * 365 + yoe / 4 - yoe / 100 + doy /\
  (doy = 365 -> (yoe + 1) mod 4 = 0 /\ ((yoe + 1) mod 100 <> 0 \/ yoe = 399)).
Proof.
  unfold year_of_cycle. intros H [= <- <-].
  remember (Z.min (doe / 36524) 3) as n100 eqn:E1. assert (0 <= n100 <= 3) by lia.
  remember (doe - 36524 * n100) as r eqn:E2. assert (0 <= r <= 36524) by lia.
  assert (r = 36524 -> n100 = 3) by lia. assert (doe = 36524 * n100 + r) by lia.
  clear E1 E2. remember (r / 1461) as n4 eqn:E1. remember (r mod 1461) as r2 eqn:E2.
  assert (r = 1461 * n4 + r2) by (subst n4 r2; apply Z.div_mod; lia).
  assert (0 <= r2 < 1461) by (subst r2; apply Z.mod_pos_bound; lia).
  assert (0 <= n4 <= 24) by lia. clear E1 E2.
  remember (Z.min (r2 / 365) 3) as n1 eqn:E1.
  assert (0 <= n1 <= 3 /\ 0 <= r2 - 365 * n1 < 366) by lia.
  assert (r2 - 365 * n1 = 365 -> n1 = 3 /\ r2 = 1460) by lia.
  clear E1. assert ((100 * n100 + 4 * n4 + n1) / 4 = 25 * n100 + n4) as -> by lia.
  assert ((100 * n100 + 4 * n4 + n1) / 100 = n100) as -> by lia. lia.
Qed.

Lemma days_in_month_leap y d :
  is_leap y = true -> d <= 29 -> d <= days_in_month y 2.
Proof. unfold days_in_month. simpl. intros -> ?. lia. Qed.

Lemma days_in_month_base y m : days_in_month 1 m <= days_in_month y m.
Proof.
  unfold days_in_month. change (is_leap 1) with false. cbv iota.
  destruct (m =? 2); [destruct (is_leap y); lia|lia].
Qed.

(** Every day number is a date of the calendar, and the day of that date. *)
Lemma civil_of_days_ok n y m d :
  civil_of_days n = (y, m, d) ->
  1 <= m <= 12 /\ 1 <= d <= 31 /\ d <= days_in_month y m /\ days_of_civil y m d = n.
Proof.
  unfold civil_of_days. destruct (year_of_cycle (n mod 146097)) as [yoe doy] eqn:E1.
  destruct (month_day doy) as [m0 d0] eqn:E2. intros [= <- -> ->].
  assert (0 <= n mod 146097 < 146097) as Hn by lia.
  destruct (year_of_cycle_ok _ _ _ Hn E1) as (Hy & Hd & Hdoe & Hleap).
  destruct (month_day_ok _ _ _ Hd E2) as (Hm & Hd1 & Hdim & Hdoy).
  assert (n = 146097 * (n / 146097) + n mod 146097) as Hdiv by lia.
  remember (n mod 146097) as doe. remember (n / 146097) as era. clear Heqdoe Heqera.
  split; [lia|]. split; [lia|]. split.
  - destruct Hdim as [->|Hdim].
    2: { pose proof (days_in_month_base (if m <=? 2 then yoe + 1 + 400 * era else yoe + 400 * era) m).
         destruct (m <=? 2); lia. }
    cbv in E2. injection E2 as <- <-. cbn [Z.leb Z.compare Pos.compare Pos.compare_cont].
    apply days_in_month_leap; [|lia]. unfold is_leap. lia.
  - unfold days_of_civil. destruct (m <=? 2) eqn:Em.
    + replace (yoe + 1 + 400 * era - 1) with (yoe + era * 400) by lia.
      rewrite Z.div_add, Z.mod_add by lia. rewrite (Z.div_small yoe), (Z.mod_small yoe) by lia. lia.
    + replace (yoe + 400 * era) with (yoe + era * 400) by lia.
      rewrite Z.div_add, Z.mod_add by lia. rewrite (Z.div_small yoe), (Z.mod_small yoe) by lia. lia.
Qed.

(** Days before the [M]-th month counted from March of the year 0. *)
Definition month_start (M : Z) : Z :=
  let Y := M / 12 in
  Y * 365 + Y / 4 - Y / 100 + Y / 400 + (153 * (M mod 12) + 2) / 5.

Lemma days_of_civil_month y m d :
  1 <= m <= 12 -> days_of_civil y m d = month_start (12 * y + m - 3) + d - 1.
Proof.
  intros Hm. unfold days_of_civil, month_start. destruct (m <=? 2) eqn:E.
  - replace ((12 * y + m - 3) / 12) with (y - 1) by lia.
    replace ((12 * y + m - 3) mod 12) with (m + 9) by lia. set (Y := y - 1). lia.
  - replace ((12 * y + m - 3) / 12) with y by lia.
    replace ((12 * y + m - 3) mod 12) with (m - 3) by lia. lia.
Qed.

(** Month arithmetic at a concrete month. *)
Ltac month_case y :=
  cbn [existsb Z.eqb Pos.eqb orb];
  match goal with |- context [12 * y + ?m - 3] =>
    let k := eval cbv in ((m - 3) / 12) in let r := eval cbv in ((m - 3) mod 12) in
    let k1 := eval cbv in ((m - 2) / 12) in let r1 := eval cbv in ((m - 2) mod 12) in
    replace ((12 * y + m - 3) / 12) with (y + k) by lia;
    replace ((12 * y + m - 3) mod 12) with r by lia;
    replace ((12 * y + m - 3 + 1) / 12) with (y + k1) by lia;
    replace ((12 * y + m - 3 + 1) mod 12) with r1 by lia
  end.

Lemma month_length y m :
  1 <= m <= 12 ->
  month_start (12 * y + m - 3) + days_in_month y m = month_start (12 * y + m - 3 + 1).
Proof.
  intros Hm. unfold month_start, days_in_month, is_leap.
  assert (m = 1 \/ m = 2 \/ m = 3 \/ m = 4 \/ m = 5 \/ m = 6 \/ m = 7 \/ m = 8 \/ m = 9 \/
          m = 10 \/ m = 11 \/ m = 12) as Hcases by lia.
  destruct Hcases as [->|[->|[->|[->|[->|[->|[->|[->|[->|[->|[->| ->]]]]]]]]]]];
    month_case y; try lia.
  destruct ((y mod 4 =? 0) && _) eqn:El; lia.
Qed.

Lemma days_in_month_pos y m : 28 <= days_in_month y m.
Proof. unfold days_in_month. destruct (m =? 2), (is_leap y), (existsb (Z.eqb m) [4; 6; 9; 11]); lia. Qed.

Lemma month_start_mono M N : M <= N -> month_start M <= month_start N.
Proof.
  intros H. assert (0 <= N - M) by lia. remember (N - M) as k eqn:E. clear H.
  revert N E. pattern k. apply natlike_ind; [|clear k H0; intros k Hk IH|done].
  - intros N E. by replace N with M by lia.
  - intros N E. etransitivity; [apply (IH (N - 1)); lia|].
    pose proof (month_length ((N + 1) / 12) ((N + 1) mod 12 + 1) ltac:(lia)) as H.
    pose proof (days_in_month_pos ((N + 1) / 12) ((N + 1) mod 12 + 1)).
    replace (12 * ((N + 1) / 12) + ((N + 1) mod 12 + 1) - 3) with (N - 1) in H by lia.
    replace (N - 1 + 1) with N in H by lia. lia.
Qed.

(** Later days have later dates. *)
Lemma civil_of_days_lt n n' :
  n < n' -> date_key (civil_of_days n) < date_key (civil_of_days n').
Proof.
  intros Hlt. apply Z.nle_gt. intros Hle. apply Z.lt_nge in Hlt. apply Hlt. clear Hlt.
  destruct (civil_of_days n) as [[y m] d] eqn:E1.
  destruct (civil_of_days n') as [[y' m'] d'] eqn:E2.
  apply civil_of_days_ok in E1 as (Hm & Hd & Hl & <-).
  apply civil_of_days_ok in E2 as (Hm' & Hd' & Hl' & <-).
  unfold date_key in Hle. rewrite !days_of_civil_month by done.
  destruct (decide (12 * y + m = 12 * y' + m')) as [E|E].
  - rewrite <- E. lia.
  - pose proof (month_length y' m' Hm') as H1.
    pose proof (month_start_mono (12 * y' + m' - 3 + 1) (12 * y + m - 3) ltac:(lia)). lia.
Qed.

(** ** Writing *)

Definition digit_char (n : Z) : ascii := ascii_of_nat (48 + Z.to_nat n).

(** [n] in [w] decimal digits: ["%0{w}d"]. *)
Fixpoint pad (w : nat) (n : Z) : string :=
  match w with
  | O => EmptyString
  | S w' => String (digit_char (n / 10 ^ Z.of_nat w' mod 10)) (pad w' n)
  end.

(** The time of day, with its fraction when it is not zero. *)
Definition time_isoformat (us : Z) : string :=
  let s := us / usec in
  pad 2 (s / 3600) +:+ ":" +:+ pad 2 (s / 60 mod 60) +:+ ":" +:+ pad 2 (s mod 60) +:+
  (if us mod usec =? 0 then EmptyString else "." +:+ pad 6 (us mod usec)).

Definition date_isoformat (n : Z) : string :=
  let '(y, m, d) := civil_of_days n in pad 4 y +:+ "-" +:+ pad 2 m +:+ "-" +:+ pad 2 d.

(** [parsed.isoformat().replace("+00:00", "Z")] of an aware UTC datetime. *)
Definition datetime_to_wire (t : Z) : string :=
  date_isoformat (t / day_usec + epoch_days) +:+ "T" +:+ time_isoformat (t mod day_usec) +:+ "Z".

(** The datetimes Python has: the years 1 to 9999. *)
Definition first_day : Z := days_of_civil 1 1 1 - epoch_days.
Definition last_day : Z := days_of_civil 9999 12 31 - epoch_days.
Definition is_datetime (t : Z) : bool :=
  (first_day * day_usec <=? t) && (t <? (last_day + 1) * day_usec).

(** [market_today()] and [market_time_str()] at an instant. *)
Definition market_today (now : Z) : string :=
  date_isoformat ((now + 9 * 3600 * usec) / day_usec + epoch_days).
Definition market_time_str (now : Z) : string :=
  let s := seoul_time_of_day now / usec in
  pad 2 (s / 3600) +:+ ":" +:+ pad 2 (s / 60 mod 60) +:+ ":" +:+ pad 2 (s mod 60).

Example wire_epoch : datetime_to_wire 0 = "1970-01-01T00:00:00Z".
Proof. vm_compute. reflexivity. Qed.
Example wire_fraction :
  datetime_to_wire (seconds 1709164799 + 50) = "2024-02-28T23:59:59.000050Z".
Proof. vm_compute. reflexivity. Qed.
Example wire_leap : datetime_to_wire (seconds 1709164800) = "2024-02-29T00:00:00Z".
Proof. vm_compute. reflexivity. Qed.

(** ** Reading *)

(** [w] decimal digits at the head of a text. *)
Fixpoint take_number (w : nat) (acc : Z) (s : string) : option (Z * string) :=
  match w with
  | O => Some (acc, s)
  | S w' =>
      match s with
      | String c s' =>
          match ascii_digit c with
          | Some d => take_number w' (10 * acc + d) s'
          | None => None
          end
      | EmptyString => None
      end
  end.

Definition expect (c : ascii) (s : string) : option string :=
  match s with
  | String a s' => if Ascii.eqb a c then Some s' else None
  | EmptyString => None
  end.

Definition read_date (s : string) : option (Z * string) :=
  '(y, s) ← take_number 4 0 s; s ← expect "-" s;
  '(m, s) ← take_number 2 0 s; s ← expect "-" s;
  '(d, s) ← take_number 2 0 s;
  if valid_date y m d then Some (days_of_civil y m d, s) else None.

(** [HH:MM[:SS[.ffffff]]]. *)
Definition read_time (s : string) : option (Z * string) :=
  '(h, s) ← take_number 2 0 s; s ← expect ":" s;
  '(mi, s) ← take_number 2 0 s;
  '(sec, us, s) ←
    match expect ":" s with
    | None => Some (0, 0, s)
    | Some s =>
        '(sec, s) ← take_number 2 0 s;
        match expect "." s with
        | None => Some (sec, 0, s)
        | Some s => '(us, s) ← take_number 6 0 s; Some (sec, us, s)
        end
    end;
  if (h <? 24) && (mi <? 60) && (sec <? 60)
  then Some (((h * 60 + mi) * 60 + sec) * usec + us, s) else None.

(** The offset of the zone: nothing (read as UTC) or [+HH:MM]. *)
Definition read_offset (s : string) : option Z :=
  match s with
  | EmptyString => Some 0
  | String c s' =>
      sign ← (if Ascii.eqb c "+" then Some 1 else if Ascii.eqb c "-" then Some (-1) else None);
      '(h, s) ← take_number 2 0 s'; s ← expect ":" s;
      '(m, s) ← take_number 2 0 s;
      if String.eqb s EmptyString && (h <? 24) && (m <? 60)
      then Some (sign * (h * 60 + m) * 60 * usec) else None
  end.

(** [datetime.fromisoformat] and the conversion to UTC: a text that is no
    datetime, and one whose UTC value is out of range. *)
Definition read_datetime (s : string) : option (Z * Z) :=
  '(day, s) ← read_date s;
  match s with
  | EmptyString => Some ((day - epoch_days) * day_usec, 0)
  | String _ s =>
      '(us, s) ← read_time s; offset ← read_offset s;
      Some ((day - epoch_days) * day_usec + us, offset)
  end.

(** [parse_timestamp] of a text. *)
Definition parse_timestamp (value : json) (field_name : string) : res Z :=
  match value with
  | JStr s =>
      let normalized := py_strip s in
      if negb (str_true normalized) then invalid field_name "must not be empty" else
      let normalized :=
        match drop_suffix "Z" normalized with Some u => u +:+ "+00:00" | None => normalized end in
      match read_datetime normalized with
      | None => invalid field_name "must be an ISO-8601 timestamp"
      | Some (local, offset) =>
          if is_datetime (local - offset) then Ok (local - offset) else Err OverflowError
      end
  | _ => invalid field_name "must be a datetime or ISO-8601 string"
  end.

Example parse_offset :
  parse_timestamp (JStr " 2024-02-29 09:00:00.000050+09:00") "ts" =
  Ok (seconds 1709164800 + 50).
Proof. vm_compute. reflexivity. Qed.
Example parse_bad_day :
  parse_timestamp (JStr "2023-02-29T00:00:00Z") "ts" =
  Err (ValueError "ts must be an ISO-8601 timestamp").
Proof. vm_compute. reflexivity. Qed.

(** ** Digits *)

Lemma digit_char_cases (P : ascii -> Z -> Prop) n :
  0 <= n < 10 ->
  P "0"%char 0 -> P "1"%char 1 -> P "2"%char 2 -> P "3"%char 3 -> P "4"%char 4 ->
  P "5"%char 5 -> P "6"%char 6 -> P "7"%char 7 -> P "8"%char 8 -> P "9"%char 9 ->
  P (digit_char n) n.
Proof.
  intros H; intros. rewrite <- (Z2Nat.id n) in * by lia.
  destruct (Z.to_nat n) as [|[|[|[|[|[|[|[|[|[|k]]]]]]]]]]; [done..|lia].
Qed.

Lemma digit_char_digit n : 0 <= n < 10 -> ascii_digit (digit_char n) = Some n.
Proof. intros H. by apply (digit_char_cases (fun c n => ascii_digit c = Some n)). Qed.

Lemma digit_char_not_space n : 0 <= n < 10 -> ascii_space (digit_char n) = false.
Proof. intros H. by apply (digit_char_cases (fun c _ => ascii_space c = false)). Qed.

Lemma digit_char_compare a b :
  0 <= a < 10 -> 0 <= b < 10 -> Ascii.compare (digit_char a) (digit_char b) = (a ?= b).
Proof.
  intros Ha Hb. apply (digit_char_cases (fun c n => Ascii.compare c _ = (n ?= b))); [done|..];
    by apply (digit_char_cases (fun c n => Ascii.compare _ c = (_ ?= n))).
Qed.

Lemma pow10_pos w : 0 < 10 ^ Z.of_nat w.
Proof. apply Z.pow_pos_nonneg; lia. Qed.

Lemma pow10_S w : 10 ^ Z.of_nat (S w) = 10 * 10 ^ Z.of_nat w.
Proof. rewrite Nat2Z.inj_succ, Z.pow_succ_r; lia. Qed.

(** The leading digit and the rest of [n] modulo [10^(w+1)]. *)
Lemma mod_pow10_S w n :
  n mod 10 ^ Z.of_nat (S w) =
  (n / 10 ^ Z.of_nat w mod 10) * 10 ^ Z.of_nat w + n mod 10 ^ Z.of_nat w.
Proof.
  rewrite pow10_S, Z.mul_comm, Z.rem_mul_r by (pose proof (pow10_pos w); lia). lia.
Qed.

Lemma take_number_pad w acc n s :
  take_number w acc (pad w n +:+ s) =
  Some (acc * 10 ^ Z.of_nat w + n mod 10 ^ Z.of_nat w, s).
Proof.
  revert acc. induction w as [|w IH]; intros acc.
  - simpl. rewrite Z.mod_1_r. do 2 f_equal; lia.
  - cbn [pad]. rewrite append_cons. cbn [take_number]. rewrite digit_char_digit by (apply Z.mod_pos_bound; lia).
    rewrite IH, mod_pow10_S, pow10_S. do 2 f_equal; lia.
Qed.

Lemma take_number_pad0 w n s :
  0 <= n < 10 ^ Z.of_nat w -> take_number w 0 (pad w n +:+ s) = Some (n, s).
Proof. intros H. rewrite take_number_pad, Z.mod_small by done. done. Qed.

(** Texts that start with numbers of the same width compare as the numbers do,
    then as the rest. *)
Definition then_compare (c d : comparison) : comparison :=
  match c with Eq => d | _ => c end.

Lemma compare_pad_mod w a b s t :
  String.compare (pad w a +:+ s) (pad w b +:+ t) =
  then_compare (a mod 10 ^ Z.of_nat w ?= b mod 10 ^ Z.of_nat w) (String.compare s t).
Proof.
  induction w as [|w IH]; [by rewrite !Z.mod_1_r|].
  cbn [pad]. rewrite !append_cons. cbn [String.compare]. rewrite digit_char_compare, IH, !mod_pow10_S
    by (apply Z.mod_pos_bound; lia).
  pose proof (Z.mod_pos_bound a _ (pow10_pos w)). pose proof (Z.mod_pos_bound b _ (pow10_pos w)).
  destruct (Z.compare_spec (a / 10 ^ Z.of_nat w mod 10) (b / 10 ^ Z.of_nat w mod 10)) as [E|E|E].
  - rewrite E. f_equal. rewrite Z.add_compare_mono_l. done.
  - symmetry. assert (forall c, c = Lt -> then_compare c (String.compare s t) = Lt) as X
      by (by intros ? ->). apply X, Z.compare_lt_iff. nia.
  - symmetry. assert (forall c, c = Gt -> then_compare c (String.compare s t) = Gt) as X
      by (by intros ? ->). apply X, Z.compare_gt_iff. nia.
Qed.

Lemma compare_pad w a b s t :
  0 <= a < 10 ^ Z.of_nat w -> 0 <= b < 10 ^ Z.of_nat w ->
  String.compare (pad w a +:+ s) (pad w b +:+ t) = then_compare (a ?= b) (String.compare s t).
Proof. intros Ha Hb. by rewrite compare_pad_mod, !Z.mod_small. Qed.

Lemma compare_same u s t : String.compare (u +:+ s) (u +:+ t) = String.compare s t.
Proof.
  induction u as [|c u IH]; [done|]. rewrite !append_cons. cbn [String.compare].
  by assert (Ascii.compare c c = Eq) as -> by apply N.compare_refl.
Qed.

Lemma civil_of_days_mono n n' :
  n <= n' -> date_key (civil_of_days n) <= date_key (civil_of_days n').
Proof.
  intros H. destruct (decide (n = n')) as [->|]; [done|].
  apply Z.lt_le_incl, civil_of_days_lt. lia.
Qed.

(** ** Round trip *)

Definition day_in_range (n : Z) : Prop := days_of_civil 1 1 1 <= n <= days_of_civil 9999 12 31.

Lemma civil_in_range n y m d :
  day_in_range n -> civil_of_days n = (y, m, d) -> 1 <= y <= 9999 /\ 1 <= m <= 12 /\ 1 <= d <= 31.
Proof.
  intros [Hlo Hhi] E.
  pose proof (civil_of_days_mono _ _ Hlo) as H1. pose proof (civil_of_days_mono _ _ Hhi) as H2.
  rewrite E in H1, H2. apply civil_of_days_ok in E.
  change (date_key (civil_of_days (days_of_civil 1 1 1))) with 417 in H1.
  change (date_key (civil_of_days (days_of_civil 9999 12 31))) with 3840031 in H2.
  unfold date_key in H1, H2. clear Hlo Hhi. lia.
Qed.

Lemma read_date_wire n s :
  day_in_range n ->
  read_date (date_isoformat n +:+ s) = Some (n, s).
Proof.
  intros Hr. unfold date_isoformat. destruct (civil_of_days n) as [[y m] d] eqn:E.
  destruct (civil_in_range _ _ _ _ Hr E) as (Hy & _ & _).
  apply civil_of_days_ok in E as (Hm & Hd & Hdim & Hn).
  rewrite !append_assoc. unfold read_date.
  rewrite take_number_pad0 by (simpl; lia). cbn [mbind option_bind].
  rewrite append_cons. cbn [expect Ascii.eqb Bool.eqb]. cbn [mbind option_bind].
  rewrite append_nil, take_number_pad0 by (simpl; lia). cbn [mbind option_bind].
  rewrite append_cons. cbn [expect Ascii.eqb Bool.eqb mbind option_bind].
  rewrite append_nil, take_number_pad0 by (simpl; lia). cbn [mbind option_bind].
  assert (valid_date y m d = true) as -> by (unfold valid_date; lia). by rewrite Hn.
Qed.

Lemma read_time_wire us s :
  0 <= us < day_usec -> expect "." s = None ->
  read_time (time_isoformat us +:+ s) = Some (us, s).
Proof.
  unfold day_usec, usec. intros Hus Hd. unfold time_isoformat, usec.
  set (sec := us / 1000000). assert (0 <= sec < 86400) as Hsec by (subst sec; lia).
  assert (us = sec * 1000000 + us mod 1000000) as Hdiv by (subst sec; lia).
  assert (0 <= us mod 1000000 < 1000000) as Hfrac by lia.
  remember (us mod 1000000) as frac. clearbody sec. clear Heqfrac. subst us. clear Hus.
  rewrite !append_assoc. unfold read_time, usec.
  rewrite take_number_pad0 by (simpl; lia). cbn [mbind option_bind].
  rewrite append_cons. cbn [expect Ascii.eqb Bool.eqb mbind option_bind].
  rewrite append_nil, take_number_pad0 by (simpl; lia). cbn [mbind option_bind].
  rewrite append_cons. cbn [expect Ascii.eqb Bool.eqb mbind option_bind].
  rewrite append_nil, take_number_pad0 by (simpl; lia). cbn [mbind option_bind].
  destruct (frac =? 0) eqn:Ef.
  - rewrite append_nil, Hd. cbn [mbind option_bind].
    assert ((sec / 3600 <? 24) && (sec / 60 mod 60 <? 60) && (sec mod 60 <? 60) = true) as ->
      by lia.
    do 2 f_equal. lia.
  - rewrite !append_assoc, append_cons. cbn [expect Ascii.eqb Bool.eqb mbind option_bind].
    rewrite append_nil, take_number_pad0 by (simpl; lia). cbn [mbind option_bind].
    assert ((sec / 3600 <? 24) && (sec / 60 mod 60 <? 60) && (sec mod 60 <? 60) = true) as ->
      by lia.
    do 2 f_equal. lia.
Qed.

Lemma drop_suffix_app c s : drop_suffix c (s +:+ String c EmptyString) = Some s.
Proof.
  induction s as [|a s IH].
  - rewrite append_nil. cbn [drop_suffix]. by rewrite Ascii.eqb_refl.
  - rewrite append_cons. cbn [drop_suffix]. rewrite IH.
    destruct (s +:+ String c EmptyString) eqn:E; [by destruct s|done].
Qed.

Lemma digit_mod_not_space n : ascii_space (digit_char (n mod 10)) = false.
Proof. apply digit_char_not_space, Z.mod_pos_bound. lia. Qed.

(** A wire text starts with a digit and ends in [Z], so it has no blank to
    strip. *)
Lemma wire_strip t : py_strip (datetime_to_wire t) = datetime_to_wire t.
Proof.
  unfold datetime_to_wire. rewrite <- !append_assoc. set (u := _ +:+ time_isoformat _).
  unfold py_strip. rewrite py_rstrip_app by done. subst u. unfold date_isoformat.
  destruct (civil_of_days _) as [[y m] d]. rewrite !append_assoc. cbn [pad].
  rewrite append_cons. apply py_lstrip_space_free, digit_mod_not_space.
Qed.

(** The day number of a datetime is one of the calendar. *)
Lemma datetime_day t :
  is_datetime t = true -> day_in_range (t / day_usec + epoch_days).
Proof.
  unfold day_in_range, is_datetime, first_day, last_day. intros [Ha%Z.leb_le Hb%Z.ltb_lt]%andb_true_iff. split.
  - enough (days_of_civil 1 1 1 - epoch_days <= t / day_usec) by lia.
    apply Z.div_le_lower_bound; [done|]. lia.
  - enough (t / day_usec < days_of_civil 9999 12 31 - epoch_days + 1) by lia.
    apply Z.div_lt_upper_bound; [done|]. lia.
Qed.

Lemma parse_wire t field_name :
  is_datetime t = true ->
  parse_timestamp (JStr (datetime_to_wire t)) field_name = Ok t.
Proof.
  intros Ht. cbn [parse_timestamp]. rewrite wire_strip.
  assert (str_true (datetime_to_wire t) = true) as ->.
  { unfold datetime_to_wire, date_isoformat. by destruct (civil_of_days _) as [[y m] d]. }
  cbn [negb]. unfold datetime_to_wire at 1. rewrite <- !append_assoc, drop_suffix_app.
  unfold read_datetime. rewrite !append_assoc.
  assert (t = t / day_usec * day_usec + t mod day_usec) as Hdiv.
  { rewrite Z.mul_comm. apply Z.div_mod. by unfold day_usec, usec. }
  assert (0 <= t mod day_usec < day_usec) as Hmod by (by apply Z.mod_pos_bound).
  rewrite read_date_wire by (by apply datetime_day). cbn [mbind option_bind].
  rewrite append_cons, append_nil.
  rewrite read_time_wire by done. cbn [mbind option_bind].
  change (read_offset "+00:00") with (Some 0). cbn [mbind option_bind].
  replace ((t / day_usec + epoch_days - epoch_days) * day_usec + t mod day_usec - 0) with t by lia.
  by rewrite Ht.
Qed.

(** [parse_timestamp] reads back every text [datetime_to_wire] writes: the
    text of any datetime of the years 1 to 9999 parses to that datetime, to the
    microsecond. *)
Theorem parse_wire_roundtrip t field_name :
  is_datetime t = true ->
  parse_timestamp (JStr (datetime_to_wire t)) field_name = Ok t.
Proof. apply parse_wire. Qed.

Lemma parse_wire_roundtrip_witness :
  is_datetime 1709164800000050 = true /\
  parse_timestamp (JStr "2024-02-29T00:00:00.000050Z") "ts" = Ok 1709164800000050.
Proof.
  split; [reflexivity|].
  change "2024-02-29T00:00:00.000050Z" with (datetime_to_wire 1709164800000050).
  apply (parse_wire_roundtrip 1709164800000050 "ts"). reflexivity.
Defined.

(** ** The order of texts *)

Lemma then_compare_assoc a b c :
  then_compare (then_compare a b) c = then_compare a (then_compare b c).
Proof. by destruct a. Qed.

Lemma then_compare_lex K a b c d :
  0 <= c < K -> 0 <= d < K -> then_compare (a ?= b) (c ?= d) = (a * K + c ?= b * K + d).
Proof.
  intros Hc Hd. destruct (Z.compare_spec a b) as [->|E|E]; cbn [then_compare].
  - by rewrite Z.add_compare_mono_l.
  - symmetry. apply Z.compare_lt_iff. nia.
  - symmetry. apply Z.compare_gt_iff. nia.
Qed.

Lemma compare_add_r a b k : (a + k ?= b + k) = (a ?= b).
Proof. by rewrite !(Z.add_comm _ k), Z.add_compare_mono_l. Qed.

Lemma compare_mono (f : Z -> Z) a b :
  (forall x y, x < y -> f x < f y) -> (f a ?= f b) = (a ?= b).
Proof.
  intros Hf. destruct (Z.compare_spec a b) as [->|E|E].
  - apply Z.compare_refl.
  - by apply Z.compare_lt_iff, Hf.
  - by apply Z.compare_gt_iff, Hf.
Qed.

Lemma compare_date n n' s s' :
  day_in_range n -> day_in_range n' ->
  String.compare (date_isoformat n +:+ s) (date_isoformat n' +:+ s') =
  then_compare (n ?= n') (String.compare s s').
Proof.
  intros Hn Hn'.
  rewrite <- (compare_mono (fun n => date_key (civil_of_days n)) n n') by apply civil_of_days_lt.
  unfold date_isoformat. destruct (civil_of_days n) as [[y m] d] eqn:E.
  destruct (civil_of_days n') as [[y' m'] d'] eqn:E'.
  apply civil_in_range in E as (? & ? & ?); [|done].
  apply civil_in_range in E' as (? & ? & ?); [|done].
  rewrite !append_assoc, compare_pad by (simpl; lia).
  rewrite compare_same, compare_pad by (simpl; lia).
  rewrite compare_same, compare_pad by (simpl; lia).
  unfold date_key. rewrite <- then_compare_lex, !then_compare_assoc by lia.
  assert (y * 12 + m = (y * 12 + (m - 1)) + 1) as -> by lia.
  assert (y' * 12 + m' = (y' * 12 + (m' - 1)) + 1) as -> by lia.
  rewrite compare_add_r, <- then_compare_lex, !then_compare_assoc by lia.
  rewrite <- (compare_add_r (m - 1) (m' - 1) 1).
  by replace (m - 1 + 1) with m by lia; replace (m' - 1 + 1) with m' by lia.
Qed.

(** The text order of a time of day: by whole seconds, and within a second the
    fractions in order, then the text without a fraction. *)
Lemma compare_time us us' :
  0 <= us < day_usec -> 0 <= us' < day_usec ->
  String.compare (time_isoformat us +:+ "Z") (time_isoformat us' +:+ "Z") =
  (wire_key us ?= wire_key us').
Proof.
  unfold day_usec, wire_key, time_isoformat, usec. intros Hus Hus'.
  set (sec := us / 1000000). assert (0 <= sec < 86400) as Hsec by (subst sec; lia).
  set (sec' := us' / 1000000). assert (0 <= sec' < 86400) as Hsec' by (subst sec'; lia).
  assert (0 <= us mod 1000000 < 1000000 /\ 0 <= us' mod 1000000 < 1000000) as [Hf Hf'] by lia.
  remember (us mod 1000000) as f eqn:E. remember (us' mod 1000000) as f' eqn:E'.
  clear E E'. clearbody sec sec'. clear Hus Hus'.
  rewrite <- then_compare_lex by (destruct (f =? 0) eqn:?, (f' =? 0) eqn:?; lia).
  rewrite !append_assoc, compare_pad by (simpl; lia).
  rewrite compare_same, compare_pad by (simpl; lia).
  rewrite compare_same, compare_pad by (simpl; lia).
  rewrite <- !then_compare_assoc, (then_compare_lex 60) by lia.
  rewrite (then_compare_lex 60) by lia.
  replace ((sec / 3600 * 60 + sec / 60 mod 60) * 60 + sec mod 60) with sec by lia.
  replace ((sec' / 3600 * 60 + sec' / 60 mod 60) * 60 + sec' mod 60) with sec' by lia.
  f_equal. destruct (f =? 0) eqn:Ef, (f' =? 0) eqn:Ef'.
  - by rewrite Z.compare_refl.
  - rewrite append_nil, append_assoc, append_cons. trans Gt; [reflexivity|].
    symmetry. apply Z.compare_gt_iff. lia.
  - rewrite append_nil, append_assoc, append_cons. trans Lt; [reflexivity|].
    symmetry. apply Z.compare_lt_iff. lia.
  - rewrite !append_assoc, compare_same, compare_pad by (simpl; lia).
    by destruct (f ?= f').
Qed.

Lemma wire_key_split t :
  wire_key t = t / day_usec * (86400 * (usec + 1)) + wire_key (t mod day_usec).
Proof.
  unfold wire_key, day_usec, usec.
  assert (t / 1000000 = t / (86400 * 1000000) * 86400 + t mod (86400 * 1000000) / 1000000) as -> by lia.
  assert (t mod (86400 * 1000000) mod 1000000 = t mod 1000000) as -> by lia. lia.
Qed.

Lemma wire_key_bounds us : 0 <= us < day_usec -> 0 <= wire_key us < 86400 * (usec + 1).
Proof.
  unfold wire_key, day_usec, usec. intros H.
  assert (0 <= us / 1000000 < 86400 /\ 0 <= us mod 1000000 < 1000000) as [] by lia.
  destruct (us mod 1000000 =? 0); lia.
Qed.

(** Comparing two wire texts as texts, which is what the stores' SQL does,
    is comparing the datetimes by [wire_key]: by whole seconds, and within one
    second a whole second after every fraction of it. *)
Theorem wire_text_order t t' :
  is_datetime t = true -> is_datetime t' = true ->
  String.compare (datetime_to_wire t) (datetime_to_wire t') = (wire_key t ?= wire_key t').
Proof.
  intros Ht%datetime_day Ht'%datetime_day. unfold datetime_to_wire.
  assert (0 <= t mod day_usec < day_usec) by (by apply Z.mod_pos_bound).
  assert (0 <= t' mod day_usec < day_usec) by (by apply Z.mod_pos_bound).
  rewrite compare_date, compare_same, compare_time by done.
  rewrite (wire_key_split t), (wire_key_split t').
  rewrite <- then_compare_lex by (by apply wire_key_bounds).
  by rewrite compare_add_r.
Qed.

Lemma wire_text_order_witness :
  is_datetime (seconds 5) = true /\ is_datetime (seconds 5 + 900000) = true /\
  String.compare "1970-01-01T00:00:05Z" "1970-01-01T00:00:05.900000Z" = Gt.
Proof.
  split; [reflexivity|]. split; [reflexivity|].
  change "1970-01-01T00:00:05Z" with (datetime_to_wire (seconds 5)).
  change "1970-01-01T00:00:05.900000Z" with (datetime_to_wire (seconds 5 + 900000)).
  rewrite (wire_text_order (seconds 5) (seconds 5 + 900000)) by reflexivity. reflexivity.
Defined.
