(* ===== verification/ExitPolicy.v ===== *)
(** * The shared long-exit policy ([domain/exit/policy.py])

    The policy of the DRY_RUN exit engine, the LIVE_SIM exit evaluation and the
    Profit Lab: which exit triggers a long position fires, and which one comes
    first. *)
From S2P Require Import Prelude PyFloat FloatRound.
Local Open Scope Z_scope.

(** ** Data *)

Inductive ExitTriggerType :=
| STOP_LOSS | TAKE_PROFIT | TRAILING_STOP | MAX_HOLD | EOD_FLATTEN.

#[export] Instance ExitTriggerType_eq_dec : EqDecision ExitTriggerType.
Proof. solve_decision. Defined.

Inductive ExitOrderStyle := SELL_LIMIT | STOP_SELL.

#[export] Instance ExitOrderStyle_eq_dec : EqDecision ExitOrderStyle.
Proof. solve_decision. Defined.

Definition EXIT_TRIGGER_PRIORITY : list ExitTriggerType :=
  [STOP_LOSS; TRAILING_STOP; EOD_FLATTEN; MAX_HOLD; TAKE_PROFIT].

(** [EXIT_TRIGGER_PRIORITY.index(t)]. *)
Definition priority_index (t : ExitTriggerType) : Z :=
  match list_find (eq t) EXIT_TRIGGER_PRIORITY with
  | Some (i, _) => Z.of_nat i
  | None => -1
  end.

Record ExitPolicyConfig := {
  stop_loss_pct : float;
  take_profit_pct : float;
  trailing_activation_pct : float;
  trailing_stop_pct : float;
  minimum_hold_sec : Z;
  maximum_hold_sec : Z;
  eod_flatten_enabled : bool;
  eod_flatten_time : string;
  close_only : bool;
  allow_short : bool;
  policy_version : string
}.

(** [ExitPolicyConfig.__post_init__]. *)
Definition ExitPolicyConfig_post_init (c : ExitPolicyConfig) : res ExitPolicyConfig :=
  if f_leZ (stop_loss_pct c) 0 then Err (ValueError "stop_loss_pct must be > 0")
  else if f_leZ (take_profit_pct c) 0 then Err (ValueError "take_profit_pct must be > 0")
  else if f_leZ (trailing_stop_pct c) 0 then Err (ValueError "trailing_stop_pct must be > 0")
  else if f_ltZ (trailing_activation_pct c) 0
  then Err (ValueError "trailing_activation_pct must be >= 0")
  else if minimum_hold_sec c <? 0 then Err (ValueError "minimum_hold_sec must be >= 0")
  else if maximum_hold_sec c <? 1 then Err (ValueError "maximum_hold_sec must be >= 1")
  else if maximum_hold_sec c <? minimum_hold_sec c
  then Err (ValueError "maximum_hold_sec must be >= minimum_hold_sec") else
  let* _ := time_fromisoformat (eod_flatten_time c) in
  if negb (close_only c) then Err (ValueError "shared exit policy must remain close-only")
  else if allow_short c
  then Err (ValueError "shared exit policy does not allow short positions")
  else if negb (str_true (py_strip (policy_version c)))
  then Err (ValueError "policy_version is required")
  else Ok c.

Record LongPositionSnapshot := {
  entry_price : float;
  current_price : float;
  highest_price : float;
  quantity : Z;
  opened_at : Z;
  observed_at : Z
}.

(** [LongPositionSnapshot.__post_init__]: validation, and the high-water mark
    raised to the current price. *)
Definition LongPositionSnapshot_post_init (p : LongPositionSnapshot)
    : res LongPositionSnapshot :=
  if f_leZ (entry_price p) 0 || f_leZ (current_price p) 0 || f_leZ (highest_price p) 0
  then Err (ValueError "position prices must be > 0")
  else if quantity p <=? 0 then Err (ValueError "long position quantity must be > 0")
  else if observed_at p <? opened_at p
  then Err (ValueError "opened_at must not be after observed_at")
  else Ok {| entry_price := entry_price p;
             current_price := current_price p;
             highest_price := f_max (highest_price p) (current_price p);
             quantity := quantity p;
             opened_at := opened_at p;
             observed_at := observed_at p |}.

Inductive evidence_value :=
| EvFloat (x : float)
| EvText (s : string).

Record ExitTrigger := {
  trigger_type : ExitTriggerType;
  order_style : ExitOrderStyle;
  trigger_price : option float;
  trigger_current_price : float;
  trigger_hold_sec : float;
  evidence : list (string * evidence_value)
}.

Record ExitPolicyDecision := {
  triggers : list ExitTrigger;
  primary_trigger : option ExitTrigger;
  decision_hold_sec : float;
  decision_close_only : bool;
  decision_allow_short : bool
}.

(** ** Evaluation *)

(** [timedelta.total_seconds()]. *)
Definition total_seconds (us : Z) : res float := int_truediv us usec.

Definition _eod_due (observed : Z) (eod_time : string) : res bool :=
  let local_time := seoul_time_of_day observed in
  let* cutoff := time_fromisoformat eod_time in
  Ok ((cutoff <=? local_time) && (local_time <? day_usec - 1)).

Definition stop_price (p : LongPositionSnapshot) (c : ExitPolicyConfig) : float :=
  f_mul (entry_price p) (f_sub (f_of_Z 1) (f_divZ (stop_loss_pct c) 100)).

Definition take_profit_price (p : LongPositionSnapshot) (c : ExitPolicyConfig) : float :=
  f_mul (entry_price p) (f_add (f_of_Z 1) (f_divZ (take_profit_pct c) 100)).

Definition trailing_activated (p : LongPositionSnapshot) (c : ExitPolicyConfig) : bool :=
  f_le (f_mul (entry_price p) (f_add (f_of_Z 1) (f_divZ (trailing_activation_pct c) 100)))
       (highest_price p).

Definition trailing_stop_price (p : LongPositionSnapshot) (c : ExitPolicyConfig) : float :=
  f_mul (highest_price p) (f_sub (f_of_Z 1) (f_divZ (trailing_stop_pct c) 100)).

(** [if cond: triggers.append(t)]. *)
Definition append_if {A} (cond : bool) (t : A) (l : list A) : list A :=
  if cond then l ++ [t] else l.

Definition trigger_leb (a b : ExitTrigger) : bool :=
  priority_index (trigger_type a) <=? priority_index (trigger_type b).

Definition evaluate_long_exit_policy (p : LongPositionSnapshot) (c : ExitPolicyConfig)
    : res ExitPolicyDecision :=
  let* elapsed := total_seconds (observed_at p - opened_at p) in
  let hold_sec := f_max elapsed f_zero in
  let trigger ty style price ev :=
    {| trigger_type := ty; order_style := style; trigger_price := price;
       trigger_current_price := current_price p; trigger_hold_sec := hold_sec;
       evidence := ev |} in
  let ts := append_if (f_le (current_price p) (stop_price p c))
    (trigger STOP_LOSS STOP_SELL (Some (stop_price p c))
       [("stop_loss_pct", EvFloat (stop_loss_pct c))]) [] in
  let ts := append_if (f_le (take_profit_price p c) (current_price p))
    (trigger TAKE_PROFIT SELL_LIMIT (Some (take_profit_price p c))
       [("take_profit_pct", EvFloat (take_profit_pct c))]) ts in
  let ts := append_if
    (trailing_activated p c && f_le (current_price p) (trailing_stop_price p c))
    (trigger TRAILING_STOP STOP_SELL (Some (trailing_stop_price p c))
       [("trailing_activation_pct", EvFloat (trailing_activation_pct c));
        ("trailing_stop_pct", EvFloat (trailing_stop_pct c));
        ("highest_price", EvFloat (highest_price p))]) ts in
  let ts := append_if
    (f_geZ hold_sec (maximum_hold_sec c) && f_geZ hold_sec (minimum_hold_sec c))
    (trigger MAX_HOLD STOP_SELL None
       [("minimum_hold_sec", EvFloat (f_of_Z (minimum_hold_sec c)));
        ("maximum_hold_sec", EvFloat (f_of_Z (maximum_hold_sec c)))]) ts in
  let* eod := if eod_flatten_enabled c
              then _eod_due (observed_at p) (eod_flatten_time c) else Ok false in
  let ts := append_if eod
    (trigger EOD_FLATTEN STOP_SELL None
       [("eod_flatten_time", EvText (eod_flatten_time c))]) ts in
  let ordered := stable_sort trigger_leb ts in
  Ok {| triggers := ordered; primary_trigger := head ordered;
        decision_hold_sec := hold_sec;
        decision_close_only := true; decision_allow_short := false |}.

(** ** Specification: which triggers fire *)

(** Whole microseconds of holding time, never negative. *)
Definition hold_usec (p : LongPositionSnapshot) : Z :=
  Z.max (observed_at p - opened_at p) 0.

Definition eod_window (p : LongPositionSnapshot) (c : ExitPolicyConfig) : bool :=
  match _eod_due (observed_at p) (eod_flatten_time c) with Ok b => b | Err _ => false end.

Definition held_long_enough (p : LongPositionSnapshot) (c : ExitPolicyConfig) : bool :=
  match total_seconds (observed_at p - opened_at p) with
  | Ok s => f_geZ (f_max s f_zero) (maximum_hold_sec c) &&
            f_geZ (f_max s f_zero) (minimum_hold_sec c)
  | Err _ => false
  end.

Definition fires (p : LongPositionSnapshot) (c : ExitPolicyConfig) (t : ExitTriggerType)
    : bool :=
  match t with
  | STOP_LOSS => f_le (current_price p) (stop_price p c)
  | TAKE_PROFIT => f_le (take_profit_price p c) (current_price p)
  | TRAILING_STOP =>
      trailing_activated p c && f_le (current_price p) (trailing_stop_price p c)
  | MAX_HOLD => held_long_enough p c
  | EOD_FLATTEN => eod_flatten_enabled c && eod_window p c
  end.

(** ** Lemmas *)

Lemma total_seconds_floor us :
  0 <= us < 2 ^ 52 -> exists s, total_seconds us = Ok s /\ f_floor s = Ok (us / usec).
Proof. intros. apply int_truediv_floor; [done|unfold usec; lia]. Qed.

Lemma f_floor_geZ x n k : f_floor x = Ok n -> f_geZ x k = (k <=? n).
Proof. destruct x; cbn; intros [= <-]; done. Qed.

(** A float whose floor is not negative is not below zero. *)
Lemma f_max_zero x n : f_floor x = Ok n -> 0 <= n -> f_max x f_zero = x.
Proof.
  unfold f_max. destruct x as [[]|[]| |[] m e]; cbn; try done.
  intros [= <-] Hn. exfalso. destruct (Z.leb_spec 0 e).
  - assert (0 < 2 ^ e) by (apply Z.pow_pos_nonneg; lia). nia.
  - assert (0 < 2 ^ (- e)) by (apply Z.pow_pos_nonneg; lia).
    pose proof (Z.div_lt_upper_bound (Zneg m) (2 ^ (- e)) 0). lia.
Qed.

Lemma hold_sec_floor us :
  0 <= us < 2 ^ 52 ->
  exists s, total_seconds us = Ok s /\ f_floor (f_max s f_zero) = Ok (us / usec).
Proof.
  intros Hus. destruct (total_seconds_floor us Hus) as (s & Hs & Hfl).
  exists s. split; [done|]. rewrite (f_max_zero s (us / usec)); [done|done|].
  apply Z.div_pos; [lia|done].
Qed.

Lemma seconds_le_div k us : (k <=? us / usec) = (seconds k <=? us).
Proof.
  unfold seconds, usec. apply eq_true_iff_eq. rewrite !Z.leb_le.
  Z.div_mod_to_equations; lia.
Qed.

Lemma held_long_enough_spec p c :
  0 <= observed_at p - opened_at p < 2 ^ 52 ->
  held_long_enough p c =
    (seconds (maximum_hold_sec c) <=? observed_at p - opened_at p) &&
    (seconds (minimum_hold_sec c) <=? observed_at p - opened_at p).
Proof.
  intros H. unfold held_long_enough.
  destruct (hold_sec_floor _ H) as (s & -> & Hfl).
  by rewrite !(f_floor_geZ _ _ _ Hfl), !seconds_le_div.
Qed.

(** The validated configuration satisfies the policy's invariants. *)
Lemma post_init_policy c c' :
  ExitPolicyConfig_post_init c = Ok c' ->
  c' = c /\ close_only c = true /\ allow_short c = false /\
  0 <= minimum_hold_sec c <= maximum_hold_sec c /\ 1 <= maximum_hold_sec c /\
  is_ok (time_fromisoformat (eod_flatten_time c)) = true.
Proof.
  unfold ExitPolicyConfig_post_init. intros H.
  repeat (case_match; [done|]). apply res_bind_ok in H as (t & Ht & H).
  repeat (case_match; [done|]). injection H as <-. rewrite Ht.
  repeat match goal with
  | H : (_ <? _) = false |- _ => apply Z.ltb_ge in H
  | H : negb _ = false |- _ => apply negb_false_iff in H
  end. split_and!; done || lia.
Qed.

(** ** Properties *)

(** The triggers of a decision are exactly those whose condition holds, in
    the declared priority order and without repetition, and the primary trigger
    is the first of them: sorting the collected triggers implements filtering
    [EXIT_TRIGGER_PRIORITY]. *)
Theorem evaluate_long_exit_policy_spec (p : LongPositionSnapshot) (c : ExitPolicyConfig)
    (d : ExitPolicyDecision) (Hd : evaluate_long_exit_policy p c = Ok d) :
  map trigger_type (triggers d) = List.filter (fires p c) EXIT_TRIGGER_PRIORITY /\
  trigger_type <$> primary_trigger d =
    head (List.filter (fires p c) EXIT_TRIGGER_PRIORITY).
Proof.
  unfold evaluate_long_exit_policy in Hd.
  apply res_bind_ok in Hd as (s & Hs & Hd). apply res_bind_ok in Hd as (eod & Heod & Hd).
  assert (Hw : fires p c EOD_FLATTEN = eod).
  { cbn. unfold eod_window. destruct (eod_flatten_enabled c); cbn; [by rewrite Heod|].
    by injection Heod as <-. }
  assert (Hh : fires p c MAX_HOLD =
    f_geZ (f_max s f_zero) (maximum_hold_sec c) && f_geZ (f_max s f_zero) (minimum_hold_sec c)).
  { cbn. unfold held_long_enough. by rewrite Hs. }
  rewrite <- Hh, <- Hw in Hd. clear Hs Heod Hh Hw.
  change (f_le (current_price p) (stop_price p c)) with (fires p c STOP_LOSS) in Hd.
  change (f_le (take_profit_price p c) (current_price p)) with (fires p c TAKE_PROFIT) in Hd.
  change (trailing_activated p c && f_le (current_price p) (trailing_stop_price p c))
    with (fires p c TRAILING_STOP) in Hd.
  revert Hd. generalize (fires p c) as f. intros f [= <-]. unfold EXIT_TRIGGER_PRIORITY.
  destruct (f STOP_LOSS) eqn:E1, (f TAKE_PROFIT) eqn:E2, (f TRAILING_STOP) eqn:E3,
    (f MAX_HOLD) eqn:E4, (f EOD_FLATTEN) eqn:E5;
    cbn; rewrite E1, E2, E3, E4, E5; split; reflexivity.
Qed.

(** A validated position and policy always get a decision: no branch of the
    evaluation raises, for holding times below 2^52 microseconds (142 years). *)
Theorem evaluate_long_exit_policy_total (p p' : LongPositionSnapshot)
    (c c' : ExitPolicyConfig)
    (Hp : LongPositionSnapshot_post_init p = Ok p')
    (Hc : ExitPolicyConfig_post_init c = Ok c')
    (Hspan : observed_at p - opened_at p < 2 ^ 52) :
  exists d, evaluate_long_exit_policy p' c' = Ok d /\
            decision_close_only d = true /\ decision_allow_short d = false.
Proof.
  apply post_init_policy in Hc as (-> & _ & _ & _ & _ & Ht).
  unfold LongPositionSnapshot_post_init in Hp.
  repeat (case_match; [done|]). injection Hp as <-.
  unfold evaluate_long_exit_policy, _eod_due; cbn [observed_at opened_at].
  destruct (total_seconds_floor (observed_at p - opened_at p)) as (s & -> & _); [lia|].
  destruct (time_fromisoformat (eod_flatten_time c)); [|done].
  cbn [res_bind]. destruct (eod_flatten_enabled c); eauto.
Qed.

(** The time rules are exact despite the float conversion of the elapsed
    time: MAX_HOLD fires exactly when the whole microseconds held reach
    [maximum_hold_sec] seconds (for a validated policy), and EOD_FLATTEN exactly
    when it is enabled and the Seoul time of day lies in
    [[cutoff, 23:59:59.999999)]. *)
Theorem time_triggers_exact (p : LongPositionSnapshot) (c c' : ExitPolicyConfig) (cutoff : Z)
    (Hc : ExitPolicyConfig_post_init c = Ok c')
    (Hcut : time_fromisoformat (eod_flatten_time c) = Ok cutoff)
    (Hspan : 0 <= observed_at p - opened_at p < 2 ^ 52) :
  (fires p c MAX_HOLD = true <->
     seconds (maximum_hold_sec c) <= observed_at p - opened_at p) /\
  (fires p c EOD_FLATTEN = true <->
     eod_flatten_enabled c = true /\
     cutoff <= seoul_time_of_day (observed_at p) < day_usec - 1).
Proof.
  apply post_init_policy in Hc as (_ & _ & _ & Hmin & _ & _). cbn [fires]. split.
  - rewrite held_long_enough_spec by done. rewrite andb_true_iff, !Z.leb_le. unfold seconds, usec. lia.
  - unfold eod_window, _eod_due. rewrite Hcut; cbn [res_bind]. rewrite !andb_true_iff, Z.leb_le, Z.ltb_lt. tauto.
Qed.

(** [LongPositionSnapshot.__post_init__] establishes the high-water-mark
    invariant: the stored highest price is at least the current price and at
    least the price it was given. *)
Theorem snapshot_high_water_mark (p p' : LongPositionSnapshot)
    (Hp : LongPositionSnapshot_post_init p = Ok p')
    (Hh : f_nan (highest_price p) = false) (Hc : f_nan (current_price p) = false) :
  f_le (current_price p') (highest_price p') = true /\
  f_le (highest_price p) (highest_price p') = true /\
  0 < quantity p' /\ opened_at p' <= observed_at p'.
Proof.
  unfold LongPositionSnapshot_post_init in Hp.
  repeat (case_match; [done|]). injection Hp as <-; cbn.
  destruct (f_max_ub (highest_price p) (current_price p) Hh Hc). split_and!; done || lia.
Qed.

(** ** Witnesses *)

(** The default Profit Lab policy and a position held 31 minutes. *)
Definition sample_policy : ExitPolicyConfig :=
  {| stop_loss_pct := f_of_Z 3; take_profit_pct := f_of_Z 5;
     trailing_activation_pct := f_of_Z 2; trailing_stop_pct := f_lit 25 10;
     minimum_hold_sec := 30; maximum_hold_sec := 1800;
     eod_flatten_enabled := true; eod_flatten_time := "15:15:00";
     close_only := true; allow_short := false;
     policy_version := "shared_exit_policy/v1" |}.

(** 2026-07-08 10:00:00 KST. *)
Definition sample_open : Z := 1783472400 * usec.

Definition sample_position (price : Z) (held_sec : Z) : LongPositionSnapshot :=
  {| entry_price := f_of_Z 10000; current_price := f_of_Z price;
     highest_price := f_of_Z 10300; quantity := 10;
     opened_at := sample_open; observed_at := sample_open + seconds held_sec |}.

Lemma evaluate_long_exit_policy_spec_witness :
  exists d, evaluate_long_exit_policy (sample_position 9700 1860) sample_policy = Ok d /\
    map trigger_type (triggers d) = [STOP_LOSS; TRAILING_STOP; MAX_HOLD] /\
    trigger_type <$> primary_trigger d = Some STOP_LOSS.
Proof.
  destruct (evaluate_long_exit_policy (sample_position 9700 1860) sample_policy)
    as [d|] eqn:E; [|vm_compute in E; discriminate].
  exists d. split; [done|].
  exact (evaluate_long_exit_policy_spec (sample_position 9700 1860) sample_policy d E).
Defined.

Lemma evaluate_long_exit_policy_total_witness :
  exists d, evaluate_long_exit_policy (sample_position 10300 60) sample_policy = Ok d /\
            decision_close_only d = true /\ decision_allow_short d = false.
Proof.
  apply (evaluate_long_exit_policy_total (sample_position 10300 60) (sample_position 10300 60)
    sample_policy sample_policy); vm_compute; reflexivity.
Defined.

Lemma time_triggers_exact_witness :
  (fires (sample_position 10000 1800) sample_policy MAX_HOLD = true <->
     seconds 1800 <= observed_at (sample_position 10000 1800) - sample_open) /\
  (fires (sample_position 10000 1800) sample_policy EOD_FLATTEN = true <->
     eod_flatten_enabled sample_policy = true /\
     54900 * usec <= seoul_time_of_day (observed_at (sample_position 10000 1800)) < day_usec - 1).
Proof.
  apply (time_triggers_exact (sample_position 10000 1800) sample_policy sample_policy);
    [vm_compute; reflexivity..|vm_compute; split; congruence].
Defined.

Lemma snapshot_high_water_mark_witness :
  f_le (f_of_Z 10400) (f_of_Z 10400) = true /\ f_le (f_of_Z 10300) (f_of_Z 10400) = true /\
  0 < 10 /\ sample_open <= sample_open + seconds 60.
Proof.
  apply (snapshot_high_water_mark (sample_position 10400 60)
    {| entry_price := f_of_Z 10000; current_price := f_of_Z 10400;
       highest_price := f_of_Z 10400; quantity := 10;
       opened_at := sample_open; observed_at := sample_open + seconds 60 |});
    vm_compute; reflexivity.
Defined.
