(* ===== verification/EntryModels.v ===== *)
(** * Entry-timing data ([services/entry_timing/models.py], the entry-timing
    part of [services/config.py])

    The enumerations, the evaluation input with the validation of its
    constructor, the evaluation, the order-plan draft with the validation of its
    constructor, and the settings. *)
From S2P Require Import Prelude PyFloat BrokerUtils.
Local Open Scope Z_scope.

(** ** Enumerations *)

Module EntryTimingState.
Inductive t :=
| GOOD_PULLBACK | PULLBACK_RECLAIM | VWAP_RECLAIM | MOMENTUM_CONTINUATION
| CHASE_HIGH | VWAP_OVEREXTENDED | FAILED_BREAKOUT | NO_SETUP | DATA_WAIT
| STALE | BLOCKED_CONTEXT.
#[export] Instance eq_dec : EqDecision t.
Proof. solve_decision. Defined.

Definition value (s : t) : string :=
  match s with
  | GOOD_PULLBACK => "GOOD_PULLBACK" | PULLBACK_RECLAIM => "PULLBACK_RECLAIM"
  | VWAP_RECLAIM => "VWAP_RECLAIM" | MOMENTUM_CONTINUATION => "MOMENTUM_CONTINUATION"
  | CHASE_HIGH => "CHASE_HIGH" | VWAP_OVEREXTENDED => "VWAP_OVEREXTENDED"
  | FAILED_BREAKOUT => "FAILED_BREAKOUT" | NO_SETUP => "NO_SETUP"
  | DATA_WAIT => "DATA_WAIT" | STALE => "STALE" | BLOCKED_CONTEXT => "BLOCKED_CONTEXT"
  end.
End EntryTimingState.
#[export] Existing Instance EntryTimingState.eq_dec.

Module PriceLocationState.
Inductive t :=
| NEAR_VWAP | ABOVE_VWAP | BELOW_VWAP | NEAR_DAY_HIGH | PULLBACK_FROM_HIGH
| DEEP_PULLBACK | EXTENDED_FROM_VWAP | UNKNOWN.
#[export] Instance eq_dec : EqDecision t.
Proof. solve_decision. Defined.
End PriceLocationState.
#[export] Existing Instance PriceLocationState.eq_dec.

Module SetupType.
Inductive t :=
| THEME_LEADER_PULLBACK | VWAP_RECLAIM | BREAKOUT_RETEST | MOMENTUM_CONTINUATION
| THEME_FOLLOWER_EXPANSION | NO_SETUP.
#[export] Instance eq_dec : EqDecision t.
Proof. solve_decision. Defined.

Definition value (s : t) : string :=
  match s with
  | THEME_LEADER_PULLBACK => "THEME_LEADER_PULLBACK" | VWAP_RECLAIM => "VWAP_RECLAIM"
  | BREAKOUT_RETEST => "BREAKOUT_RETEST" | MOMENTUM_CONTINUATION => "MOMENTUM_CONTINUATION"
  | THEME_FOLLOWER_EXPANSION => "THEME_FOLLOWER_EXPANSION" | NO_SETUP => "NO_SETUP"
  end.
End SetupType.
#[export] Existing Instance SetupType.eq_dec.

Module OrderPlanStatus.
Inductive t :=
| PLAN_READY | WAIT_RETRY | DATA_WAIT | BLOCKED_CHASE | BLOCKED_OVERHEAT
| BLOCKED_STALE | BLOCKED_RISK | NO_PLAN.
#[export] Instance eq_dec : EqDecision t.
Proof. solve_decision. Defined.
End OrderPlanStatus.
#[export] Existing Instance OrderPlanStatus.eq_dec.

(** ** The settings the component reads *)

Record EntryTimingSettings := {
  entry_timing_max_plans_per_run : Z;
  entry_timing_plan_ttl_seconds : Z;
  entry_timing_pullback_min_pct : float;
  entry_timing_pullback_max_pct : float;
  entry_timing_vwap_reclaim_tolerance_pct : float;
  entry_timing_vwap_overextended_pct : float;
  entry_timing_chase_near_high_pct : float;
  entry_timing_max_spread_ticks : Z;
  entry_timing_min_turnover_krw : float;
  entry_timing_min_execution_strength : float;
  entry_timing_default_notional : float;
  entry_timing_max_notional : float;
  entry_timing_allow_market_order : bool;
  entry_timing_price_offset_ticks : Z;
  entry_timing_allow_follower_in_spreading : bool;
  entry_timing_allow_follower_in_leader_only : bool;
  entry_timing_require_risk_observe_pass : bool;
  entry_timing_require_strategy_matched : bool;
  entry_timing_stale_max_seconds : Z
}.

(** The first name of a list whose value is negative (resp. below one). *)
Fixpoint check_each {A} (bad : A -> bool) (suffix : string) (fields : list (string * A))
    : res unit :=
  match fields with
  | [] => Ok tt
  | (name, v) :: fs =>
      if bad v then Err (ValueError (name +:+ suffix)) else check_each bad suffix fs
  end.

(** The entry-timing checks of [Settings.__post_init__]. *)
Definition Settings_entry_timing_post_init (s : EntryTimingSettings) : res unit :=
  let* _ := check_each (fun v => v <? 1) " must be >= 1"
    [("ENTRY_TIMING_MAX_PLANS_PER_RUN", entry_timing_max_plans_per_run s);
     ("ENTRY_TIMING_PLAN_TTL_SECONDS", entry_timing_plan_ttl_seconds s);
     ("ENTRY_TIMING_MAX_SPREAD_TICKS", entry_timing_max_spread_ticks s);
     ("ENTRY_TIMING_STALE_MAX_SECONDS", entry_timing_stale_max_seconds s)] in
  let* _ := check_each (fun v => f_ltZ v 0) " must be >= 0"
    [("ENTRY_TIMING_PULLBACK_MIN_PCT", entry_timing_pullback_min_pct s);
     ("ENTRY_TIMING_PULLBACK_MAX_PCT", entry_timing_pullback_max_pct s);
     ("ENTRY_TIMING_VWAP_RECLAIM_TOLERANCE_PCT", entry_timing_vwap_reclaim_tolerance_pct s);
     ("ENTRY_TIMING_VWAP_OVEREXTENDED_PCT", entry_timing_vwap_overextended_pct s);
     ("ENTRY_TIMING_CHASE_NEAR_HIGH_PCT", entry_timing_chase_near_high_pct s);
     ("ENTRY_TIMING_MIN_TURNOVER_KRW", entry_timing_min_turnover_krw s);
     ("ENTRY_TIMING_MIN_EXECUTION_STRENGTH", entry_timing_min_execution_strength s);
     ("ENTRY_TIMING_DEFAULT_NOTIONAL", entry_timing_default_notional s);
     ("ENTRY_TIMING_MAX_NOTIONAL", entry_timing_max_notional s)] in
  if f_lt (entry_timing_pullback_max_pct s) (entry_timing_pullback_min_pct s)
  then Err (ValueError "ENTRY_TIMING_PULLBACK_MAX_PCT must be >= ENTRY_TIMING_PULLBACK_MIN_PCT")
  else if f_leZ (entry_timing_default_notional s) 0
  then Err (ValueError "ENTRY_TIMING_DEFAULT_NOTIONAL must be > 0")
  else if f_leZ (entry_timing_max_notional s) 0
  then Err (ValueError "ENTRY_TIMING_MAX_NOTIONAL must be > 0")
  else if f_lt (entry_timing_max_notional s) (entry_timing_default_notional s)
  then Err (ValueError "ENTRY_TIMING_DEFAULT_NOTIONAL must be <= ENTRY_TIMING_MAX_NOTIONAL")
  else if entry_timing_allow_market_order s
  then Err (ValueError "ENTRY_TIMING_ALLOW_MARKET_ORDER must remain false in PR-3")
  else if entry_timing_price_offset_ticks s <? 0
  then Err (ValueError "ENTRY_TIMING_PRICE_OFFSET_TICKS must be >= 0")
  else Ok tt.

(** ** The evaluation input *)

Record EntryTimingInput := {
  in_trade_date : string;
  in_candidate_instance_id : string;
  in_code : string;
  in_name : string;
  in_theme_id : option string;
  in_theme_name : option string;
  in_theme_state : option string;
  in_theme_rank : option Z;
  in_stock_role : option string;
  in_theme_priority_score : option float;
  in_current_price : option float;
  in_prev_close : option float;
  in_open_price : option float;
  in_day_high : option float;
  in_day_low : option float;
  in_change_rate_pct : option float;
  in_turnover_krw : option float;
  in_execution_strength : option float;
  in_momentum_1m : option float;
  in_momentum_3m : option float;
  in_momentum_5m : option float;
  in_vwap : option float;
  in_pullback_from_high_pct : option float;
  in_spread_ticks : option Z;
  in_stale : bool;
  in_vi_active : bool;
  in_upper_limit_near : bool;
  in_theme_reason_codes : list string;
  in_candidate_state : option string;
  in_strategy_observation_status : option string;
  in_strategy_setup_type : option string;
  in_strategy_score : option float;
  in_strategy_confidence : option float;
  in_risk_observation_status : option string;
  in_risk_reason_codes : list string;
  in_condition_fusion_priority_score : option float;
  in_active_condition_roles : list string;
  in_condition_risk_blocked : bool;
  in_condition_fusion_reason_codes : list string;
  in_condition_names : list string;
  in_condition_latest_hit_at : option string;
  in_premarket_gap : option float;
  in_observed_at : Z;
  in_best_bid : option float;
  in_best_ask : option float;
  in_tick_age_sec : option float;
  in_source : string;
  in_raw_context : list (string * json)
}.

(** [EntryTimingInput.__post_init__] on values of the annotated types. *)
Definition EntryTimingInput_post_init (i : EntryTimingInput) : res EntryTimingInput :=
  let text f v := require_non_empty v f in
  let otext f v := opt_check (text f) v in
  let pos f v := opt_check (pos_field f) v in
  let any f v := opt_check (any_field f) v in
  let* trade_date := text "trade_date" (in_trade_date i) in
  let* candidate_instance_id := text "candidate_instance_id" (in_candidate_instance_id i) in
  let* code := validate_code (in_code i) "code" in
  let* name := text "name" (in_name i) in
  let* theme_id := otext "theme_id" (in_theme_id i) in
  let* theme_name := otext "theme_name" (in_theme_name i) in
  let* theme_state := otext "theme_state" (in_theme_state i) in
  let* stock_role := otext "stock_role" (in_stock_role i) in
  let* candidate_state := otext "candidate_state" (in_candidate_state i) in
  let* strategy_observation_status :=
    otext "strategy_observation_status" (in_strategy_observation_status i) in
  let* strategy_setup_type := otext "strategy_setup_type" (in_strategy_setup_type i) in
  let* risk_observation_status :=
    otext "risk_observation_status" (in_risk_observation_status i) in
  let* source := text "source" (in_source i) in
  let* theme_rank := opt_check (nat_field "theme_rank") (in_theme_rank i) in
  let* spread_ticks := opt_check (nat_field "spread_ticks") (in_spread_ticks i) in
  let* theme_priority_score := pos "theme_priority_score" (in_theme_priority_score i) in
  let* current_price := pos "current_price" (in_current_price i) in
  let* prev_close := pos "prev_close" (in_prev_close i) in
  let* open_price := pos "open_price" (in_open_price i) in
  let* day_high := pos "day_high" (in_day_high i) in
  let* day_low := pos "day_low" (in_day_low i) in
  let* change_rate_pct := any "change_rate_pct" (in_change_rate_pct i) in
  let* turnover_krw := pos "turnover_krw" (in_turnover_krw i) in
  let* execution_strength := pos "execution_strength" (in_execution_strength i) in
  let* momentum_1m := any "momentum_1m" (in_momentum_1m i) in
  let* momentum_3m := any "momentum_3m" (in_momentum_3m i) in
  let* momentum_5m := any "momentum_5m" (in_momentum_5m i) in
  let* vwap := pos "vwap" (in_vwap i) in
  let* pullback_from_high_pct :=
    pos "pullback_from_high_pct" (in_pullback_from_high_pct i) in
  let* strategy_score := pos "strategy_score" (in_strategy_score i) in
  let* strategy_confidence := pos "strategy_confidence" (in_strategy_confidence i) in
  let* condition_fusion_priority_score :=
    pos "condition_fusion_priority_score" (in_condition_fusion_priority_score i) in
  let* premarket_gap := any "premarket_gap" (in_premarket_gap i) in
  let* best_bid := pos "best_bid" (in_best_bid i) in
  let* best_ask := pos "best_ask" (in_best_ask i) in
  let* tick_age_sec := pos "tick_age_sec" (in_tick_age_sec i) in
  let* theme_reason_codes := _normalize_reasons (in_theme_reason_codes i) in
  let* risk_reason_codes := _normalize_reasons (in_risk_reason_codes i) in
  let* active_condition_roles := _normalize_reasons (in_active_condition_roles i) in
  let* condition_fusion_reason_codes :=
    _normalize_reasons (in_condition_fusion_reason_codes i) in
  let* condition_latest_hit_at :=
    otext "condition_latest_hit_at" (in_condition_latest_hit_at i) in
  Ok {| in_trade_date := trade_date;
        in_candidate_instance_id := candidate_instance_id;
        in_code := code; in_name := name; in_theme_id := theme_id;
        in_theme_name := theme_name; in_theme_state := theme_state;
        in_theme_rank := theme_rank; in_stock_role := stock_role;
        in_theme_priority_score := theme_priority_score;
        in_current_price := current_price; in_prev_close := prev_close;
        in_open_price := open_price; in_day_high := day_high; in_day_low := day_low;
        in_change_rate_pct := change_rate_pct; in_turnover_krw := turnover_krw;
        in_execution_strength := execution_strength; in_momentum_1m := momentum_1m;
        in_momentum_3m := momentum_3m; in_momentum_5m := momentum_5m; in_vwap := vwap;
        in_pullback_from_high_pct := pullback_from_high_pct;
        in_spread_ticks := spread_ticks; in_stale := in_stale i;
        in_vi_active := in_vi_active i; in_upper_limit_near := in_upper_limit_near i;
        in_theme_reason_codes := theme_reason_codes;
        in_candidate_state := candidate_state;
        in_strategy_observation_status := strategy_observation_status;
        in_strategy_setup_type := strategy_setup_type;
        in_strategy_score := strategy_score; in_strategy_confidence := strategy_confidence;
        in_risk_observation_status := risk_observation_status;
        in_risk_reason_codes := risk_reason_codes;
        in_condition_fusion_priority_score := condition_fusion_priority_score;
        in_active_condition_roles := active_condition_roles;
        in_condition_risk_blocked := in_condition_risk_blocked i;
        in_condition_fusion_reason_codes := condition_fusion_reason_codes;
        in_condition_names :=
          List.filter (fun v => str_true (py_strip v)) (in_condition_names i);
        in_condition_latest_hit_at := condition_latest_hit_at;
        in_premarket_gap := premarket_gap; in_observed_at := in_observed_at i;
        in_best_bid := best_bid; in_best_ask := best_ask; in_tick_age_sec := tick_age_sec;
        in_source := source; in_raw_context := in_raw_context i |}.

(** ** The evaluation and the order-plan draft *)

(** [EntryTimingEvaluation]: the fields that carry a decision.  The identifier,
    the evaluation time and the evidence are left out. *)
Record EntryTimingEvaluation := {
  ev_trade_date : string;
  ev_candidate_instance_id : string;
  ev_code : string;
  ev_name : string;
  ev_setup_type : SetupType.t;
  ev_entry_timing_state : EntryTimingState.t;
  ev_price_location_state : PriceLocationState.t;
  ev_status : OrderPlanStatus.t;
  ev_order_plan_id : option string;
  ev_reason_codes : list string;
  ev_observe_only : bool;
  ev_not_order_intent : bool
}.

(** [EntryTimingEvaluation.__post_init__]; the two flags are forced. *)
Definition EntryTimingEvaluation_post_init (e : EntryTimingEvaluation)
    : res EntryTimingEvaluation :=
  let* trade_date := require_non_empty (ev_trade_date e) "trade_date" in
  let* candidate_instance_id :=
    require_non_empty (ev_candidate_instance_id e) "candidate_instance_id" in
  let* code := validate_code (ev_code e) "code" in
  let* name := require_non_empty (ev_name e) "name" in
  let* order_plan_id :=
    opt_check (fun v => require_non_empty v "order_plan_id") (ev_order_plan_id e) in
  let* reason_codes := _normalize_reasons (ev_reason_codes e) in
  Ok {| ev_trade_date := trade_date; ev_candidate_instance_id := candidate_instance_id;
        ev_code := code; ev_name := name; ev_setup_type := ev_setup_type e;
        ev_entry_timing_state := ev_entry_timing_state e;
        ev_price_location_state := ev_price_location_state e;
        ev_status := ev_status e; ev_order_plan_id := order_plan_id;
        ev_reason_codes := reason_codes;
        ev_observe_only := true; ev_not_order_intent := true |}.

Definition with_order_plan_id (e : EntryTimingEvaluation) (order_plan_id : option string)
    : res EntryTimingEvaluation :=
  EntryTimingEvaluation_post_init
    {| ev_trade_date := ev_trade_date e;
       ev_candidate_instance_id := ev_candidate_instance_id e;
       ev_code := ev_code e; ev_name := ev_name e; ev_setup_type := ev_setup_type e;
       ev_entry_timing_state := ev_entry_timing_state e;
       ev_price_location_state := ev_price_location_state e;
       ev_status := ev_status e; ev_order_plan_id := order_plan_id;
       ev_reason_codes := ev_reason_codes e;
       ev_observe_only := true; ev_not_order_intent := true |}.

Definition with_status (e : EntryTimingEvaluation) (status : OrderPlanStatus.t)
    (order_plan_id : option string) (reason_codes : option (list string))
    : res EntryTimingEvaluation :=
  EntryTimingEvaluation_post_init
    {| ev_trade_date := ev_trade_date e;
       ev_candidate_instance_id := ev_candidate_instance_id e;
       ev_code := ev_code e; ev_name := ev_name e; ev_setup_type := ev_setup_type e;
       ev_entry_timing_state := ev_entry_timing_state e;
       ev_price_location_state := ev_price_location_state e;
       ev_status := status; ev_order_plan_id := order_plan_id;
       ev_reason_codes := default (ev_reason_codes e) reason_codes;
       ev_observe_only := true; ev_not_order_intent := true |}.

(** [OrderPlanDraft], less the evidence. *)
Record OrderPlanDraft := {
  dr_order_plan_id : string;
  dr_trade_date : string;
  dr_candidate_instance_id : string;
  dr_code : string;
  dr_name : string;
  dr_side : string;
  dr_status : OrderPlanStatus.t;
  dr_setup_type : SetupType.t;
  dr_entry_timing_state : EntryTimingState.t;
  dr_price_location_state : PriceLocationState.t;
  dr_theme_id : option string;
  dr_theme_name : option string;
  dr_theme_state : option string;
  dr_theme_rank : option Z;
  dr_stock_role : option string;
  dr_priority_score : option float;
  dr_current_price : float;
  dr_limit_price : float;
  dr_limit_price_source : string;
  dr_limit_price_offset_ticks : Z;
  dr_suggested_quantity : Z;
  dr_suggested_notional : float;
  dr_max_notional : float;
  dr_risk_budget_source : string;
  dr_expires_at : Z;
  dr_idempotency_key : string;
  dr_reason_codes : list string;
  dr_observe_only : bool;
  dr_not_order_intent : bool;
  dr_created_at : Z
}.

(** [OrderPlanDraft.__post_init__]: BUY only, positive prices, the two flags
    forced. *)
Definition OrderPlanDraft_post_init (d : OrderPlanDraft) : res OrderPlanDraft :=
  let text f v := require_non_empty v f in
  let otext f v := opt_check (text f) v in
  let* order_plan_id := text "order_plan_id" (dr_order_plan_id d) in
  let* trade_date := text "trade_date" (dr_trade_date d) in
  let* candidate_instance_id := text "candidate_instance_id" (dr_candidate_instance_id d) in
  let* code := validate_code (dr_code d) "code" in
  let* name := text "name" (dr_name d) in
  let* side := text "side" (dr_side d) in
  if negb (String.eqb (py_upper side) "BUY")
  then Err (ValueError "entry timing order plan drafts support BUY side only") else
  let* theme_id := otext "theme_id" (dr_theme_id d) in
  let* theme_name := otext "theme_name" (dr_theme_name d) in
  let* theme_state := otext "theme_state" (dr_theme_state d) in
  let* stock_role := otext "stock_role" (dr_stock_role d) in
  let* theme_rank := opt_check (nat_field "theme_rank") (dr_theme_rank d) in
  let* priority_score := opt_check (pos_field "priority_score") (dr_priority_score d) in
  let* current_price := pos_field "current_price" (dr_current_price d) in
  let* limit_price := pos_field "limit_price" (dr_limit_price d) in
  let* suggested_notional := pos_field "suggested_notional" (dr_suggested_notional d) in
  let* max_notional := pos_field "max_notional" (dr_max_notional d) in
  if f_leZ current_price 0 || f_leZ limit_price 0
  then Err (ValueError "current_price and limit_price must be > 0") else
  let* limit_price_source := text "limit_price_source" (dr_limit_price_source d) in
  let* offset_ticks := nat_field "limit_price_offset_ticks" (dr_limit_price_offset_ticks d) in
  let* suggested_quantity := nat_field "suggested_quantity" (dr_suggested_quantity d) in
  let* risk_budget_source := text "risk_budget_source" (dr_risk_budget_source d) in
  let* idempotency_key := text "idempotency_key" (dr_idempotency_key d) in
  let* reason_codes := _normalize_reasons (dr_reason_codes d) in
  Ok {| dr_order_plan_id := order_plan_id; dr_trade_date := trade_date;
        dr_candidate_instance_id := candidate_instance_id; dr_code := code;
        dr_name := name; dr_side := py_upper side; dr_status := dr_status d;
        dr_setup_type := dr_setup_type d;
        dr_entry_timing_state := dr_entry_timing_state d;
        dr_price_location_state := dr_price_location_state d;
        dr_theme_id := theme_id; dr_theme_name := theme_name;
        dr_theme_state := theme_state; dr_theme_rank := theme_rank;
        dr_stock_role := stock_role; dr_priority_score := priority_score;
        dr_current_price := current_price; dr_limit_price := limit_price;
        dr_limit_price_source := py_upper limit_price_source;
        dr_limit_price_offset_ticks := offset_ticks;
        dr_suggested_quantity := suggested_quantity;
        dr_suggested_notional := suggested_notional; dr_max_notional := max_notional;
        dr_risk_budget_source := py_upper risk_budget_source;
        dr_expires_at := dr_expires_at d; dr_idempotency_key := idempotency_key;
        dr_reason_codes := reason_codes; dr_observe_only := true;
        dr_not_order_intent := true; dr_created_at := dr_created_at d |}.

(** ** What the constructors establish *)

(** The identity fields of a validated input pass their validators again. *)
Lemma EntryTimingInput_identity i0 i :
  EntryTimingInput_post_init i0 = Ok i ->
  (forall f, require_non_empty (in_trade_date i) f = Ok (in_trade_date i)) /\
  (forall f, require_non_empty (in_candidate_instance_id i) f
             = Ok (in_candidate_instance_id i)) /\
  is_stock_code (in_code i) = true /\
  (forall f, require_non_empty (in_name i) f = Ok (in_name i)).
Proof.
  unfold EntryTimingInput_post_init. cbv zeta. intros H. res_inv H. injection H as <-. cbn.
  split_and!; [intros f..| |intros f]; first [by eapply require_non_empty_idem
    | by eapply validate_code_ok].
Qed.

(** A validated price is a finite number that is not negative. *)
Lemma EntryTimingInput_prices i0 i :
  EntryTimingInput_post_init i0 = Ok i ->
  Forall (fun v => forall x, v = Some x -> f_finite x = true /\ f_lt x f_zero = false)
    [in_current_price i; in_day_high i; in_day_low i; in_vwap i;
     in_pullback_from_high_pct i; in_best_ask i; in_turnover_krw i;
     in_theme_priority_score i; in_condition_fusion_priority_score i].
Proof.
  unfold EntryTimingInput_post_init. cbv zeta. intros H. res_inv H. injection H as <-. cbn.
  repeat match goal with
         | H : opt_check (pos_field _) _ = Ok _ |- _ => apply opt_check_pos in H as [-> H]
         end.
  repeat (constructor; [done|]). constructor.
Qed.

Lemma settings_ttl s :
  Settings_entry_timing_post_init s = Ok tt -> 1 <= entry_timing_plan_ttl_seconds s.
Proof.
  unfold Settings_entry_timing_post_init. intros H. res_inv H. clear H Ha0.
  cbn [check_each] in Ha.
  destruct (Z.ltb_spec (entry_timing_max_plans_per_run s) 1); [done|].
  by destruct (Z.ltb_spec (entry_timing_plan_ttl_seconds s) 1).
Qed.
