(* ===== verification/EntryTiming.v ===== *)
(** * Price location and entry timing ([services/entry_timing/price_location.py],
    [services/entry_timing/engine.py])

    Where a price lies in its day and around its VWAP, and which entry setup, if
    any, that location makes for a theme member. *)
From S2P Require Import Prelude PyFloat BrokerUtils EntryModels.
Local Open Scope Z_scope.

(** ** Price location *)

(** The computed entries of the metrics mapping; the others copy the input. *)
Record PriceLocationMetrics := {
  m_pullback_from_high_pct : option float;
  m_price_vs_vwap_pct : option float;
  m_price_vs_open_pct : option float;
  m_day_range_position : option float
}.

(** [value is not None and value > 0]. *)
Definition _positive (value : option float) : bool :=
  match value with Some x => f_gtZ x 0 | None => false end.
Definition _negative (value : option float) : bool :=
  match value with Some x => f_ltZ x 0 | None => false end.

Definition hundred : float := f_of_Z 100.

(** [(current - reference) / reference * 100.0] for a positive reference. *)
Definition pct_from (current : float) (reference : option float) : option float :=
  match reference with
  | Some r =>
      if f_gtZ r 0 then Some (f_mul (f_quot (f_sub current r) r) hundred) else None
  | None => None
  end.

Definition calculate_price_location_metrics (item : EntryTimingInput)
    : PriceLocationMetrics :=
  match in_current_price item with
  | Some current =>
      if f_leZ current 0 then
        {| m_pullback_from_high_pct := in_pullback_from_high_pct item;
           m_price_vs_vwap_pct := None; m_price_vs_open_pct := None;
           m_day_range_position := None |}
      else
        {| m_pullback_from_high_pct :=
             match in_day_high item, in_pullback_from_high_pct item with
             | Some h, None =>
                 if f_gtZ h 0
                 then Some (f_max (f_mul (f_quot (f_sub h current) h) hundred) f_zero)
                 else None
             | _, given => given
             end;
           m_price_vs_vwap_pct := pct_from current (in_vwap item);
           m_price_vs_open_pct := pct_from current (in_open_price item);
           m_day_range_position :=
             match in_day_high item, in_day_low item with
             | Some h, Some l =>
                 if f_lt l h then Some (f_quot (f_sub current l) (f_sub h l)) else None
             | _, _ => None
             end |}
  | None =>
      {| m_pullback_from_high_pct := in_pullback_from_high_pct item;
         m_price_vs_vwap_pct := None; m_price_vs_open_pct := None;
         m_day_range_position := None |}
  end.

(** [item.current_price is None or item.current_price <= 0]. *)
Definition no_price (item : EntryTimingInput) : bool :=
  match in_current_price item with Some x => f_leZ x 0 | None => true end.

Record PriceLocationResult := {
  pl_state : PriceLocationState.t;
  pl_metrics : PriceLocationMetrics;
  pl_reason_codes : list string
}.

(** [value is not None and test(value)]. *)
Definition holds (value : option float) (test : float -> bool) : bool :=
  match value with Some x => test x | None => false end.

Definition classify (s : EntryTimingSettings) (item : EntryTimingInput)
    : PriceLocationResult :=
  let metrics := calculate_price_location_metrics item in
  let result st reasons :=
    {| pl_state := st; pl_metrics := metrics; pl_reason_codes := reasons |} in
  let pullback := m_pullback_from_high_pct metrics in
  let price_vs_vwap := m_price_vs_vwap_pct metrics in
  if no_price item then
    result PriceLocationState.UNKNOWN ["PRICE_MISSING"]
  else if holds price_vs_vwap (fun v => f_lt (entry_timing_vwap_overextended_pct s) v) then
    result PriceLocationState.EXTENDED_FROM_VWAP ["VWAP_OVEREXTENDED"]
  else if holds pullback (fun p => f_le p (entry_timing_chase_near_high_pct s)) then
    result PriceLocationState.NEAR_DAY_HIGH ["NEAR_DAY_HIGH"]
  else if holds price_vs_vwap
            (fun v => f_le (f_abs v) (entry_timing_vwap_reclaim_tolerance_pct s)) then
    result PriceLocationState.NEAR_VWAP ["NEAR_VWAP"]
  else if holds pullback (fun p => f_le (entry_timing_pullback_min_pct s) p
                                   && f_le p (entry_timing_pullback_max_pct s)) then
    result PriceLocationState.PULLBACK_FROM_HIGH ["PULLBACK_FROM_HIGH"]
  else if holds pullback (fun p => f_lt (entry_timing_pullback_max_pct s) p) then
    result PriceLocationState.DEEP_PULLBACK ["DEEP_PULLBACK"]
  else
    match price_vs_vwap with
    | Some v =>
        if f_gtZ v 0 then result PriceLocationState.ABOVE_VWAP ["ABOVE_VWAP"]
        else result PriceLocationState.BELOW_VWAP ["BELOW_VWAP"]
    | None => result PriceLocationState.UNKNOWN ["PRICE_LOCATION_UNKNOWN"]
    end.

(** ** Normalisation helpers of the engine *)

Definition _normalize (value : option string) : string :=
  match value with Some v => py_upper (py_strip v) | None => EmptyString end.

Definition _normalize_role (value : option string) : string :=
  let role := _normalize value in
  if String.eqb role "LEADER_CANDIDATE" then "LEADER"
  else if String.eqb role "CO_LEADER_CANDIDATE" then "CO_LEADER"
  else if String.eqb role "FOLLOWER_CANDIDATE" then "FOLLOWER"
  else if String.eqb role "LAGGARD" then "LATE_LAGGARD"
  else role.

Definition _any_number (values : list (option float)) : bool :=
  existsb (fun v => match v with Some _ => true | None => false end) values.

(** [{_normalize(r) for r in rs}], for membership tests. *)
Definition normalized_set (rs : list string) : list string :=
  map (fun r => _normalize (Some r)) rs.

Definition leader_roles : list string := ["LEADER"; "CO_LEADER"].
Definition eligible_themes : list string := ["LEADING"; "SPREADING"; "LEADER_ONLY"].
Definition blocked_roles : list string :=
  ["OVERHEATED"; "LATE_LAGGARD"; "WEAK_MEMBER"; "STALE"; "UNKNOWN"].

Definition verdict : Type :=
  EntryTimingState.t * SetupType.t * OrderPlanStatus.t * list string.

Definition _is_good_pullback (item : EntryTimingInput) (pullback : option float)
    (s : EntryTimingSettings) : bool :=
  mem (_normalize (in_theme_state item)) eligible_themes
  && holds pullback (fun p => f_le (entry_timing_pullback_min_pct s) p
                              && f_le p (entry_timing_pullback_max_pct s)).

Definition _is_pullback_reclaim (price_vs_vwap pullback : option float)
    (momentum_positive : bool) (s : EntryTimingSettings) : bool :=
  momentum_positive
  && holds pullback (fun p => negb (f_lt p (entry_timing_pullback_min_pct s))
                              && negb (f_lt (entry_timing_pullback_max_pct s) p))
  && holds price_vs_vwap
       (fun v => f_le (f_neg (entry_timing_vwap_reclaim_tolerance_pct s)) v).

Definition _is_vwap_reclaim (price_vs_vwap : option float) (momentum_positive : bool)
    (s : EntryTimingSettings) : bool :=
  momentum_positive
  && holds price_vs_vwap
       (fun v => f_le (f_neg (entry_timing_vwap_reclaim_tolerance_pct s)) v
                 && f_le v (entry_timing_vwap_reclaim_tolerance_pct s)).

Definition _is_breakout_route (item : EntryTimingInput) (normalized_role : string) : bool :=
  let condition_roles := normalized_set (in_active_condition_roles item) in
  let condition_reasons := normalized_set (in_condition_fusion_reason_codes item) in
  let strategy_setup := _normalize (in_strategy_setup_type item) in
  let has_breakout_signal :=
    mem "BREAKOUT" condition_roles
    || String.eqb strategy_setup "BREAKOUT_RETEST"
    || mem "LEADER_BREAKOUT_FUSION_PRIORITY" condition_reasons
    || mem "CONDITION_BREAKOUT_OBSERVED" condition_reasons in
  let leader_role := mem normalized_role leader_roles || mem "LEADER" condition_roles in
  has_breakout_signal && leader_role.

Definition _is_momentum_continuation (pl : PriceLocationResult)
    (pullback price_vs_vwap : option float) (momentum_positive : bool)
    (s : EntryTimingSettings) : bool :=
  if negb momentum_positive then false
  else if holds price_vs_vwap
            (fun v => f_lt v (f_neg (entry_timing_vwap_reclaim_tolerance_pct s)))
  then false
  else bool_decide (pl_state pl = PriceLocationState.NEAR_DAY_HIGH)
       || holds pullback (fun p => f_lt p (entry_timing_pullback_min_pct s)).

Definition _follower_allowed (theme_state : string) (s : EntryTimingSettings) : bool :=
  if String.eqb theme_state "SPREADING" then entry_timing_allow_follower_in_spreading s
  else if String.eqb theme_state "LEADING" then true
  else if String.eqb theme_state "LEADER_ONLY"
  then entry_timing_allow_follower_in_leader_only s
  else false.

(** ** The engine *)

Definition data_wait (reasons : list string) : verdict :=
  (EntryTimingState.DATA_WAIT, SetupType.NO_SETUP, OrderPlanStatus.DATA_WAIT, reasons).
Definition blocked_context (status : OrderPlanStatus.t) (reason : list string) : verdict :=
  (EntryTimingState.BLOCKED_CONTEXT, SetupType.NO_SETUP, status, reason).
Definition stale_context (reason : string) : verdict :=
  (EntryTimingState.STALE, SetupType.NO_SETUP, OrderPlanStatus.BLOCKED_STALE, [reason]).

(** [item.day_high is None or item.day_low is None or day_high <= day_low]. *)
Definition no_day_range (item : EntryTimingInput) : bool :=
  match in_day_high item, in_day_low item with
  | Some h, Some l => f_le h l
  | _, _ => true
  end.

Definition _hard_context_state (item : EntryTimingInput) (s : EntryTimingSettings)
    : option verdict :=
  let candidate_state := _normalize (in_candidate_state item) in
  let theme_state := _normalize (in_theme_state item) in
  let role := _normalize_role (in_stock_role item) in
  let sensor_reasons :=
    normalized_set (in_condition_fusion_reason_codes item)
    ++ normalized_set (in_theme_reason_codes item) in
  let reasons :=
    (if no_price item then ["PRICE_MISSING"] else [])
    ++ (if no_day_range item then ["DAY_RANGE_MISSING"] else []) in
  if in_condition_risk_blocked item || mem "CONDITION_RISK_BLOCKED" sensor_reasons then
    Some (blocked_context OrderPlanStatus.BLOCKED_RISK
            ["CONDITION_RISK_BLOCKED"; "CONDITION_SENSOR_NOT_BUY_SIGNAL"])
  else if mem "DISCOVERY_OBSERVATION_ONLY" sensor_reasons then
    Some (data_wait ["DISCOVERY_OBSERVATION_ONLY"; "DISCOVERY_PROMOTION_PENDING"])
  else if in_stale item
          || holds (in_tick_age_sec item)
               (fun a => f_gtZ a (entry_timing_stale_max_seconds s)) then
    Some (stale_context "TICK_STALE")
  else if mem candidate_state ["CLOSED"; "STALE"] then
    Some (stale_context ("CANDIDATE_" +:+ candidate_state))
  else if String.eqb candidate_state "BLOCKED_OBSERVATION" then
    Some (blocked_context OrderPlanStatus.NO_PLAN ["CANDIDATE_BLOCKED_OBSERVATION"])
  else if in_vi_active item then
    Some (blocked_context OrderPlanStatus.BLOCKED_OVERHEAT ["VI_ACTIVE"])
  else if in_upper_limit_near item then
    Some (blocked_context OrderPlanStatus.BLOCKED_OVERHEAT ["UPPER_LIMIT_NEAR"])
  else match reasons with
  | _ :: _ => Some (data_wait (reasons ++ ["DATA_WAIT_NEAR_MISS"]))
  | [] =>
  if negb (str_true theme_state) then
    Some (data_wait ["THEME_CONTEXT_MISSING"; "DATA_WAIT_NEAR_MISS"])
  else if negb (str_true role) then
    Some (data_wait ["STOCK_ROLE_MISSING"; "DATA_WAIT_NEAR_MISS"])
  else if String.eqb theme_state "DATA_WAIT" then
    Some (data_wait ["THEME_DATA_WAIT"; "DATA_WAIT_NEAR_MISS"])
  else if negb (mem theme_state eligible_themes) then
    Some (blocked_context OrderPlanStatus.NO_PLAN
            ["THEME_" +:+ theme_state +:+ "_NOT_ENTRY_ELIGIBLE"])
  else if mem role blocked_roles then
    let status :=
      if String.eqb role "OVERHEATED" then OrderPlanStatus.BLOCKED_OVERHEAT
      else if String.eqb role "STALE" then OrderPlanStatus.BLOCKED_STALE
      else OrderPlanStatus.NO_PLAN in
    Some (blocked_context status ["ROLE_" +:+ role +:+ "_BLOCKED"])
  else if String.eqb role "FOLLOWER" && String.eqb theme_state "LEADER_ONLY" then
    Some (blocked_context OrderPlanStatus.NO_PLAN ["LEADER_ONLY_FOLLOWER_BLOCKED"])
  else None
  end.

Definition _classify_timing (s : EntryTimingSettings) (item : EntryTimingInput)
    (pl : PriceLocationResult) : verdict :=
  match _hard_context_state item s with
  | Some hard_state => hard_state
  | None =>
  let pullback := m_pullback_from_high_pct (pl_metrics pl) in
  let price_vs_vwap := m_price_vs_vwap_pct (pl_metrics pl) in
  let momentum_ready :=
    _any_number [in_momentum_1m item; in_momentum_3m item; in_momentum_5m item] in
  let momentum_positive := _positive (in_momentum_1m item) || _positive (in_momentum_3m item) in
  let momentum_negative := _negative (in_momentum_1m item) && _negative (in_momentum_3m item) in
  let role := _normalize_role (in_stock_role item) in
  let theme_state := _normalize (in_theme_state item) in
  let breakout_route := _is_breakout_route item role in
  let leader := mem role leader_roles in
  if negb (bool_decide (is_Some (in_vwap item))) then
    data_wait ["VWAP_MISSING"; "DATA_WAIT_NEAR_MISS"]
  else if negb momentum_ready then
    data_wait ["MOMENTUM_WARMUP"; "DATA_WAIT_NEAR_MISS"]
  else if bool_decide (pl_state pl = PriceLocationState.EXTENDED_FROM_VWAP) then
    (EntryTimingState.VWAP_OVEREXTENDED, SetupType.NO_SETUP,
     OrderPlanStatus.BLOCKED_OVERHEAT, ["VWAP_OVEREXTENDED"])
  else if breakout_route
          && _is_momentum_continuation pl pullback price_vs_vwap momentum_positive s then
    (EntryTimingState.MOMENTUM_CONTINUATION, SetupType.MOMENTUM_CONTINUATION,
     OrderPlanStatus.PLAN_READY,
     ["MOMENTUM_CONTINUATION"; "BREAKOUT_NEAR_HIGH_ALLOWED"; "SIZE_REDUCED";
      "TIGHT_STOP_REQUIRED"; "SHORT_TTL_REQUIRED"; "ENTRY_TIMING_ALLOWED"])
  else if bool_decide (pl_state pl = PriceLocationState.NEAR_DAY_HIGH)
          || holds pullback (fun p => f_lt p (entry_timing_pullback_min_pct s)) then
    (EntryTimingState.CHASE_HIGH, SetupType.NO_SETUP, OrderPlanStatus.BLOCKED_CHASE,
     ["CHASE_HIGH"; "PULLBACK_TOO_SHALLOW"])
  else if holds pullback (fun p => f_lt (entry_timing_pullback_max_pct s) p)
          && momentum_negative && holds price_vs_vwap (fun v => f_ltZ v 0) then
    (EntryTimingState.FAILED_BREAKOUT, SetupType.BREAKOUT_RETEST, OrderPlanStatus.NO_PLAN,
     ["FAILED_BREAKOUT"; "MOMENTUM_WEAKENING"; "BELOW_VWAP"])
  else if _is_vwap_reclaim price_vs_vwap momentum_positive s
          && (leader || _follower_allowed theme_state s) then
    (EntryTimingState.VWAP_RECLAIM, SetupType.VWAP_RECLAIM, OrderPlanStatus.PLAN_READY,
     ["VWAP_RECLAIM"; "ENTRY_TIMING_ALLOWED"])
  else if _is_pullback_reclaim price_vs_vwap pullback momentum_positive s && leader then
    (EntryTimingState.PULLBACK_RECLAIM, SetupType.THEME_LEADER_PULLBACK,
     OrderPlanStatus.PLAN_READY, ["PULLBACK_RECLAIM"; "ENTRY_TIMING_ALLOWED"])
  else if _is_pullback_reclaim price_vs_vwap pullback momentum_positive s
          && _follower_allowed theme_state s then
    (EntryTimingState.PULLBACK_RECLAIM, SetupType.THEME_FOLLOWER_EXPANSION,
     OrderPlanStatus.PLAN_READY, ["PULLBACK_RECLAIM"; "FOLLOWER_LIMITED_ALLOWED"])
  else if _is_good_pullback item pullback s && leader then
    (EntryTimingState.GOOD_PULLBACK, SetupType.THEME_LEADER_PULLBACK,
     OrderPlanStatus.PLAN_READY, ["GOOD_PULLBACK"; "ENTRY_TIMING_ALLOWED"])
  else
    (EntryTimingState.NO_SETUP, SetupType.NO_SETUP, OrderPlanStatus.NO_PLAN,
     ["NO_ENTRY_TIMING_SETUP"])
  end.

(** [EntryTimingEngine.evaluate]. *)
Definition evaluate (s : EntryTimingSettings) (item : EntryTimingInput)
    : res EntryTimingEvaluation :=
  let price_location := classify s item in
  let '(state, setup_type, status, reasons) := _classify_timing s item price_location in
  EntryTimingEvaluation_post_init
    {| ev_trade_date := in_trade_date item;
       ev_candidate_instance_id := in_candidate_instance_id item;
       ev_code := in_code item; ev_name := in_name item;
       ev_setup_type := setup_type; ev_entry_timing_state := state;
       ev_price_location_state := pl_state price_location;
       ev_status := status; ev_order_plan_id := None;
       ev_reason_codes :=
         _dedupe (pl_reason_codes price_location ++ reasons ++ ["OBSERVE_ONLY"]);
       ev_observe_only := true; ev_not_order_intent := true |}.

(** ** What a ready evaluation guarantees *)

(** [code in sensor_reasons]. *)
Definition sensed (code : string) (item : EntryTimingInput) : bool :=
  mem code (normalized_set (in_condition_fusion_reason_codes item)
            ++ normalized_set (in_theme_reason_codes item)).

(** The context an entry needs, as a conjunction without an order. *)
Record entry_context_ok (s : EntryTimingSettings) (item : EntryTimingInput) : Prop := {
  ok_risk : in_condition_risk_blocked item = false /\
            sensed "CONDITION_RISK_BLOCKED" item = false;
  ok_discovery : sensed "DISCOVERY_OBSERVATION_ONLY" item = false;
  ok_fresh : in_stale item = false /\
             (forall a, in_tick_age_sec item = Some a ->
                        f_gtZ a (entry_timing_stale_max_seconds s) = false);
  ok_candidate : _normalize (in_candidate_state item)
                 ∉ ["CLOSED"; "STALE"; "BLOCKED_OBSERVATION"];
  ok_market : in_vi_active item = false /\ in_upper_limit_near item = false;
  ok_price : exists x, in_current_price item = Some x /\ f_leZ x 0 = false;
  ok_range : exists h l, in_day_high item = Some h /\ in_day_low item = Some l /\
                         f_le h l = false;
  ok_theme : _normalize (in_theme_state item) ∈ eligible_themes;
  ok_role : str_true (_normalize_role (in_stock_role item)) = true /\
            _normalize_role (in_stock_role item) ∉ blocked_roles;
  ok_follower : ~ (_normalize_role (in_stock_role item) = "FOLLOWER" /\
                   _normalize (in_theme_state item) = "LEADER_ONLY")
}.

(** One step through a cascade of [if]s in hypothesis [H]. *)
Ltac cascade H :=
  repeat (let E := fresh "E" in
          match type of H with context [if ?b then _ else _] => destruct b eqn:E end;
          try discriminate H).

Lemma holds_false v test : holds v test = false <-> forall x, v = Some x -> test x = false.
Proof. destruct v; simpl; naive_solver. Qed.

Lemma holds_true v test : holds v test = true <-> exists x, v = Some x /\ test x = true.
Proof. destruct v; simpl; naive_solver. Qed.

Lemma no_price_false i :
  no_price i = false <-> exists x, in_current_price i = Some x /\ f_leZ x 0 = false.
Proof. unfold no_price. destruct (in_current_price i); naive_solver. Qed.

Lemma no_day_range_false i :
  no_day_range i = false <->
  exists h l, in_day_high i = Some h /\ in_day_low i = Some l /\ f_le h l = false.
Proof. unfold no_day_range. destruct (in_day_high i), (in_day_low i); naive_solver. Qed.

(** The cascade of early returns is the conjunction of the conditions. *)
Lemma hard_context_none s i : _hard_context_state i s = None <-> entry_context_ok s i.
Proof.
  unfold _hard_context_state. fold (sensed "CONDITION_RISK_BLOCKED" i).
  fold (sensed "DISCOVERY_OBSERVATION_ONLY" i). split.
  - intros H. cbv zeta in H.
    destruct (in_condition_risk_blocked i || _) eqn:E1 in H; [done|].
    destruct (sensed "DISCOVERY_OBSERVATION_ONLY" i) eqn:E2 in H; [done|].
    destruct (in_stale i || _) eqn:E3 in H; [done|].
    destruct (mem _ ["CLOSED"; "STALE"]) eqn:E4 in H; [done|].
    destruct (String.eqb _ "BLOCKED_OBSERVATION") eqn:E5 in H; [done|].
    destruct (in_vi_active i) eqn:E6; [done|].
    destruct (in_upper_limit_near i) eqn:E7; [done|].
    destruct (no_price i) eqn:E8; [done|]. destruct (no_day_range i) eqn:E9; [done|].
    cbn [app] in H. cascade H.
    apply orb_false_iff in E1, E3. destruct E3 as [E3 E3'].
    rewrite holds_false in E3'. apply negb_false_iff in E, E0, E11.
    apply mem_false in E4, E12. apply mem_spec in E11. apply String.eqb_neq in E5.
    split; try done; try (by apply no_price_false); try (by apply no_day_range_false).
    + set_solver.
    + intros [Hr Ht]. rewrite Hr, Ht in E13. done.
  - intros [[Hr1 Hr2] Hd [Hs Ha] Hc [Hv Hu] Hp Hg Ht [Hrt Hrb] Hf].
    apply no_price_false in Hp. apply no_day_range_false in Hg. cbv zeta.
    rewrite Hr1, Hr2, Hd, Hs, Hv, Hu, Hp, Hg. cbn [orb app].
    apply holds_false in Ha. rewrite Ha.
    replace (mem _ ["CLOSED"; "STALE"]) with false by (symmetry; apply mem_false; set_solver).
    replace (String.eqb _ "BLOCKED_OBSERVATION") with false
      by (symmetry; apply String.eqb_neq; set_solver).
    rewrite Hrt. pose proof Ht as Ht'. apply mem_spec in Ht'. rewrite Ht'.
    apply mem_false in Hrb. rewrite Hrb.
    destruct (_normalize (in_theme_state i)) as [|c t] eqn:E; [by apply mem_spec in Ht|].
    cbn [str_true negb]. destruct (String.eqb (String c t) "DATA_WAIT") eqn:E2.
    { apply String.eqb_eq in E2. rewrite E2 in Ht. by apply mem_spec in Ht. }
    destruct (String.eqb _ "FOLLOWER" && _) eqn:E3; [|done].
    apply andb_true_iff in E3 as [?%String.eqb_eq ?%String.eqb_eq]. naive_solver.
Qed.

Definition READY_TIMING_STATES : list EntryTimingState.t :=
  [EntryTimingState.GOOD_PULLBACK; EntryTimingState.PULLBACK_RECLAIM;
   EntryTimingState.VWAP_RECLAIM; EntryTimingState.MOMENTUM_CONTINUATION].

Section Setup.
Context (s : EntryTimingSettings) (i : EntryTimingInput).

Definition pullback_of : option float :=
  m_pullback_from_high_pct (calculate_price_location_metrics i).
Definition vwap_gap_of : option float :=
  m_price_vs_vwap_pct (calculate_price_location_metrics i).

(** The pullback is known and lies in the configured band. *)
Definition pullback_in_band : Prop :=
  exists p, pullback_of = Some p /\
    f_lt p (entry_timing_pullback_min_pct s) = false /\
    f_lt (entry_timing_pullback_max_pct s) p = false.

(** The price is known relative to its VWAP and not too far below it. *)
Definition reclaimed : Prop :=
  exists v, vwap_gap_of = Some v /\
    f_le (f_neg (entry_timing_vwap_reclaim_tolerance_pct s)) v = true.

Definition near_vwap : Prop :=
  exists v, vwap_gap_of = Some v /\
    f_le (f_neg (entry_timing_vwap_reclaim_tolerance_pct s)) v = true /\
    f_le v (entry_timing_vwap_reclaim_tolerance_pct s) = true.

Definition momentum_up : Prop :=
  _positive (in_momentum_1m i) = true \/ _positive (in_momentum_3m i) = true.

Definition is_leader : Prop := _normalize_role (in_stock_role i) ∈ leader_roles.
Definition follower_ok : Prop :=
  _follower_allowed (_normalize (in_theme_state i)) s = true.

(** The price is neither near the day high nor above the pullback band. *)
Definition not_chasing : Prop :=
  pl_state (classify s i) <> PriceLocationState.NEAR_DAY_HIGH /\
  forall p, pullback_of = Some p -> f_lt p (entry_timing_pullback_min_pct s) = false.

(** What each ready state promises. *)
Definition setup_ok (st : EntryTimingState.t) (setup : SetupType.t) : Prop :=
  match st with
  | EntryTimingState.GOOD_PULLBACK =>
      setup = SetupType.THEME_LEADER_PULLBACK /\ is_leader /\ pullback_in_band /\ not_chasing
  | EntryTimingState.PULLBACK_RECLAIM =>
      momentum_up /\ pullback_in_band /\ reclaimed /\ not_chasing /\
      (setup = SetupType.THEME_LEADER_PULLBACK /\ is_leader \/
       setup = SetupType.THEME_FOLLOWER_EXPANSION /\ follower_ok)
  | EntryTimingState.VWAP_RECLAIM =>
      setup = SetupType.VWAP_RECLAIM /\ momentum_up /\ near_vwap /\ not_chasing /\
      (is_leader \/ follower_ok)
  | EntryTimingState.MOMENTUM_CONTINUATION =>
      setup = SetupType.MOMENTUM_CONTINUATION /\ momentum_up /\
      _is_breakout_route i (_normalize_role (in_stock_role i)) = true /\
      (forall v, vwap_gap_of = Some v ->
         f_lt v (f_neg (entry_timing_vwap_reclaim_tolerance_pct s)) = false)
  | _ => False
  end.

Lemma classify_metrics : pl_metrics (classify s i) = calculate_price_location_metrics i.
Proof. unfold classify. repeat case_match; reflexivity. Qed.

Lemma not_chasing_intro :
  bool_decide (pl_state (classify s i) = PriceLocationState.NEAR_DAY_HIGH)
  || holds pullback_of (fun p => f_lt p (entry_timing_pullback_min_pct s)) = false ->
  not_chasing.
Proof.
  intros [Hn H]%orb_false_iff. apply bool_decide_eq_false in Hn.
  rewrite holds_false in H. by split.
Qed.

Lemma pullback_reclaim_intro mp :
  _is_pullback_reclaim vwap_gap_of pullback_of mp s = true ->
  mp = true /\ pullback_in_band /\ reclaimed.
Proof.
  unfold _is_pullback_reclaim. intros [[-> Hp]%andb_true_iff Hv]%andb_true_iff.
  apply holds_true in Hp as (p & Hp & [Ha Hb]%andb_true_iff).
  apply negb_true_iff in Ha, Hb. apply holds_true in Hv as (v & Hv & Hc).
  split; [done|]. split; [by exists p|by exists v].
Qed.

Lemma good_pullback_intro : _is_good_pullback i pullback_of s = true -> pullback_in_band.
Proof.
  unfold _is_good_pullback. intros [_ Hp]%andb_true_iff.
  apply holds_true in Hp as (p & Hp & [Ha Hb]%andb_true_iff).
  exists p. split_and!; [done|by apply f_le_not_lt..].
Qed.

(** The verdict of the engine, ready or not. *)
Lemma classify_timing_ready st setup status reasons :
  _classify_timing s i (classify s i) = (st, setup, status, reasons) ->
  (status = OrderPlanStatus.PLAN_READY <-> st ∈ READY_TIMING_STATES) /\
  (status = OrderPlanStatus.PLAN_READY ->
   entry_context_ok s i /\ is_Some (in_vwap i) /\
   _any_number [in_momentum_1m i; in_momentum_3m i; in_momentum_5m i] = true /\
   pl_state (classify s i) <> PriceLocationState.EXTENDED_FROM_VWAP /\
   setup_ok st setup).
Proof.
  unfold _classify_timing. destruct (_hard_context_state i s) as [v|] eqn:Hh.
  { intros ->. revert Hh. unfold _hard_context_state, data_wait, blocked_context, stale_context.
    cbv zeta. intros Hh. cascade Hh; repeat case_match; simplify_eq/=;
      (split; [split; [done|set_solver]|done]). }
  apply hard_context_none in Hh. rewrite classify_metrics. fold pullback_of vwap_gap_of.
  unfold data_wait. cbv zeta. intros H.
  destruct (negb (bool_decide _)) eqn:E1 in H; [simplify_eq; split; [set_solver|done]|].
  destruct (negb (_any_number _)) eqn:E2 in H; [simplify_eq; split; [set_solver|done]|].
  destruct (bool_decide _) eqn:E3 in H; [simplify_eq; split; [set_solver|done]|].
  apply negb_false_iff in E1, E2. apply bool_decide_eq_true in E1.
  apply bool_decide_eq_false in E3.
  destruct (_is_breakout_route _ _ && _) eqn:E4 in H.
  { simplify_eq. split; [set_solver|]. intros _. split_and!; try done.
    apply andb_true_iff in E4 as [Hb Hm]. unfold _is_momentum_continuation in Hm.
    destruct (_positive (in_momentum_1m i) || _) eqn:Em in Hm; cbn [negb] in Hm; [|done].
    destruct (holds vwap_gap_of _) eqn:Ev in Hm; [done|].
    rewrite holds_false in Ev. apply orb_true_iff in Em. done. }
  destruct (bool_decide _ || _) eqn:E5 in H; [simplify_eq; split; [set_solver|done]|].
  apply not_chasing_intro in E5.
  destruct (holds pullback_of _ && _ && _) eqn:E6 in H; [simplify_eq; split; [set_solver|done]|].
  destruct (_is_vwap_reclaim _ _ _ && _) eqn:E7 in H.
  { simplify_eq. split; [set_solver|]. intros _. split_and!; try done.
    apply andb_true_iff in E7 as [[Hm Hv]%andb_true_iff Hl].
    apply holds_true in Hv as (v & Hv & [Ha Hb]%andb_true_iff).
    apply orb_true_iff in Hm, Hl. split_and!; try done; [by exists v|].
    destruct Hl as [Hl%mem_spec|Hl]; [by left|by right]. }
  destruct (_is_pullback_reclaim _ _ _ _ && mem _ _) eqn:E8 in H.
  { simplify_eq. split; [set_solver|]. intros _. split_and!; try done.
    apply andb_true_iff in E8 as [(Hm & Hp & Hv)%pullback_reclaim_intro Hl%mem_spec].
    apply orb_true_iff in Hm. split_and!; try done. by left. }
  destruct (_is_pullback_reclaim _ _ _ _ && _) eqn:E9 in H.
  { simplify_eq. split; [set_solver|]. intros _. split_and!; try done.
    apply andb_true_iff in E9 as [(Hm & Hp & Hv)%pullback_reclaim_intro Hl].
    apply orb_true_iff in Hm. split_and!; try done. by right. }
  destruct (_is_good_pullback _ _ _ && _) eqn:E10 in H.
  { simplify_eq. split; [set_solver|]. intros _. split_and!; try done.
    apply andb_true_iff in E10 as [Hp%good_pullback_intro Hl%mem_spec]. done. }
  simplify_eq. split; [set_solver|done].
Qed.
End Setup.

Lemma evaluate_ready s i e :
  evaluate s i = Ok e ->
  (ev_status e = OrderPlanStatus.PLAN_READY <->
   ev_entry_timing_state e ∈ READY_TIMING_STATES) /\
  (ev_status e = OrderPlanStatus.PLAN_READY ->
   entry_context_ok s i /\ is_Some (in_vwap i) /\
   _any_number [in_momentum_1m i; in_momentum_3m i; in_momentum_5m i] = true /\
   ev_price_location_state e <> PriceLocationState.EXTENDED_FROM_VWAP /\
   setup_ok s i (ev_entry_timing_state e) (ev_setup_type e)).
Proof.
  intros Hev. unfold evaluate in Hev.
  destruct (_classify_timing s i (classify s i)) as [[[st setup] status] reasons] eqn:H.
  apply classify_timing_ready in H. unfold EntryTimingEvaluation_post_init in Hev.
  cbn [ev_order_plan_id opt_check] in Hev. res_inv Hev. injection Hev as <-. exact H.
Qed.

(** ** A concrete configuration and input *)

(** The default settings of the code. *)
Definition default_settings : EntryTimingSettings :=
  {| entry_timing_max_plans_per_run := 20; entry_timing_plan_ttl_seconds := 90;
     entry_timing_pullback_min_pct := f_lit 1 1; entry_timing_pullback_max_pct := f_lit 45 10;
     entry_timing_vwap_reclaim_tolerance_pct := f_lit 7 10;
     entry_timing_vwap_overextended_pct := f_lit 3 1;
     entry_timing_chase_near_high_pct := f_lit 7 10; entry_timing_max_spread_ticks := 3;
     entry_timing_min_turnover_krw := f_of_Z 500000000;
     entry_timing_min_execution_strength := f_of_Z 100;
     entry_timing_default_notional := f_of_Z 100000;
     entry_timing_max_notional := f_of_Z 100000;
     entry_timing_allow_market_order := false; entry_timing_price_offset_ticks := 0;
     entry_timing_allow_follower_in_spreading := true;
     entry_timing_allow_follower_in_leader_only := false;
     entry_timing_require_risk_observe_pass := false;
     entry_timing_require_strategy_matched := false; entry_timing_stale_max_seconds := 60 |}.

(** A leader two percent below the high of its day, above its VWAP. *)
Definition sample_input : EntryTimingInput :=
  {| in_trade_date := "2025-01-02"; in_candidate_instance_id := "CAND-1";
     in_code := "005930"; in_name := "SAMSUNG"; in_theme_id := Some "T1";
     in_theme_name := Some "CHIPS"; in_theme_state := Some "LEADING";
     in_theme_rank := Some 1; in_stock_role := Some "LEADER_CANDIDATE";
     in_theme_priority_score := Some (f_of_Z 80); in_current_price := Some (f_of_Z 9800);
     in_prev_close := None; in_open_price := Some (f_of_Z 9500);
     in_day_high := Some (f_of_Z 10000); in_day_low := Some (f_of_Z 9400);
     in_change_rate_pct := None; in_turnover_krw := Some (f_of_Z 900000000);
     in_execution_strength := Some (f_of_Z 120); in_momentum_1m := Some (f_lit 3 10);
     in_momentum_3m := None; in_momentum_5m := None; in_vwap := Some (f_of_Z 9700);
     in_pullback_from_high_pct := None; in_spread_ticks := Some 1; in_stale := false;
     in_vi_active := false; in_upper_limit_near := false; in_theme_reason_codes := [];
     in_candidate_state := Some "CONTEXT_READY";
     in_strategy_observation_status := Some "MATCHED_OBSERVATION";
     in_strategy_setup_type := None; in_strategy_score := None;
     in_strategy_confidence := None; in_risk_observation_status := Some "OBSERVE_PASS";
     in_risk_reason_codes := []; in_condition_fusion_priority_score := None;
     in_active_condition_roles := []; in_condition_risk_blocked := false;
     in_condition_fusion_reason_codes := []; in_condition_names := [];
     in_condition_latest_hit_at := None; in_premarket_gap := None; in_observed_at := 0;
     in_best_bid := None; in_best_ask := None; in_tick_age_sec := Some (f_of_Z 2);
     in_source := "candidate"; in_raw_context := [] |}.

Definition sample_evaluation : EntryTimingEvaluation :=
  match evaluate default_settings sample_input with
  | Ok e => e
  | Err _ => {| ev_trade_date := ""; ev_candidate_instance_id := ""; ev_code := "";
                ev_name := ""; ev_setup_type := SetupType.NO_SETUP;
                ev_entry_timing_state := EntryTimingState.NO_SETUP;
                ev_price_location_state := PriceLocationState.UNKNOWN;
                ev_status := OrderPlanStatus.NO_PLAN; ev_order_plan_id := None;
                ev_reason_codes := []; ev_observe_only := true;
                ev_not_order_intent := true |}
  end.

Example sample_evaluation_ready :
  evaluate default_settings sample_input = Ok sample_evaluation /\
  ev_entry_timing_state sample_evaluation = EntryTimingState.PULLBACK_RECLAIM /\
  ev_reason_codes sample_evaluation
  = ["PULLBACK_FROM_HIGH"; "PULLBACK_RECLAIM"; "ENTRY_TIMING_ALLOWED"; "OBSERVE_ONLY"].
Proof. vm_compute. done. Qed.

(** ** Properties *)

(** An evaluation is PLAN_READY exactly when its timing state is one of the
    four ready states, and then the context is clear of every block (risk
    sensors, discovery-only, staleness, closed or blocked candidates, VI, upper
    limit, missing price or range, ineligible theme or role), the VWAP and a
    momentum are present, the price is not overextended from its VWAP, and the
    setup satisfies what its state promises: band, reclaim, leadership and, for
    every state but the breakout continuation, no chase of the day high. *)
Theorem evaluate_ready_sound (s : EntryTimingSettings) (i : EntryTimingInput)
    (e : EntryTimingEvaluation) (Hev : evaluate s i = Ok e) :
  (ev_status e = OrderPlanStatus.PLAN_READY <->
   ev_entry_timing_state e ∈ READY_TIMING_STATES) /\
  (ev_status e = OrderPlanStatus.PLAN_READY ->
   entry_context_ok s i /\ is_Some (in_vwap i) /\
   _any_number [in_momentum_1m i; in_momentum_3m i; in_momentum_5m i] = true /\
   ev_price_location_state e <> PriceLocationState.EXTENDED_FROM_VWAP /\
   setup_ok s i (ev_entry_timing_state e) (ev_setup_type e)).
Proof. exact (evaluate_ready s i e Hev). Qed.

Lemma evaluate_ready_sound_witness :
  entry_context_ok default_settings sample_input /\
  setup_ok default_settings sample_input EntryTimingState.PULLBACK_RECLAIM
    SetupType.THEME_LEADER_PULLBACK.
Proof.
  destruct (evaluate_ready_sound default_settings sample_input sample_evaluation
              ltac:(vm_compute; reflexivity)) as [_ H].
  destruct H as (Hc & _ & _ & _ & Hs); [vm_compute; reflexivity|].
  split; [exact Hc|exact Hs].
Defined.

(** The evaluation of a validated input never raises: the codes and texts it
    copies pass the constructor's checks again, and its reason codes are
    distinct and carry OBSERVE_ONLY, next to the two observe-only flags. *)
Theorem evaluate_total (s : EntryTimingSettings) (i0 i : EntryTimingInput)
    (Hi : EntryTimingInput_post_init i0 = Ok i) :
  exists e, evaluate s i = Ok e /\ ev_code e = in_code i /\
    ev_candidate_instance_id e = in_candidate_instance_id i /\
    NoDup (ev_reason_codes e) /\ "OBSERVE_ONLY" ∈ ev_reason_codes e /\
    ev_observe_only e = true /\ ev_not_order_intent e = true.
Proof.
  apply EntryTimingInput_identity in Hi as (Ht & Hc & Hk & Hn). unfold evaluate.
  destruct (_classify_timing s i (classify s i)) as [[[st setup] status] reasons].
  unfold EntryTimingEvaluation_post_init. cbn -[_dedupe _normalize_reasons].
  rewrite Ht, Hc, Hn, (validate_code_fixed _ _ Hk). cbn -[_dedupe _normalize_reasons].
  set (rs := _ ++ _).
  destruct (normalize_dedupe rs) as [us Hus]. rewrite Hus. eexists. split; [reflexivity|].
  cbn. split_and!; try done; [by eapply normalize_NoDup|].
  eapply elem_of_normalize; [exact Hus|]. exists "OBSERVE_ONLY". split; [|reflexivity].
  apply elem_of_py_dedupe. exists "OBSERVE_ONLY". split; [|done]. subst rs. set_solver.
Qed.

Lemma evaluate_total_witness :
  exists e, evaluate default_settings sample_input = Ok e /\ ev_observe_only e = true.
Proof.
  destruct (evaluate_total default_settings sample_input sample_input
              ltac:(vm_compute; reflexivity)) as (e & He & _ & _ & _ & _ & Ho & _).
  exists e. split; [exact He|exact Ho].
Defined.

(** With a price, the location is UNKNOWN exactly when the VWAP gap is
    unknown and the pullback is missing or lies strictly between the near-high
    threshold and the minimum pullback: with the default thresholds a pullback
    of 0.7 to 1.0 percent is located nowhere. *)
Theorem classify_unknown_gap (s : EntryTimingSettings) (i : EntryTimingInput)
    (Hprice : no_price i = false)
    (Hchase : f_nan (entry_timing_chase_near_high_pct s) = false)
    (Hmin : f_nan (entry_timing_pullback_min_pct s) = false)
    (Hmax : f_nan (entry_timing_pullback_max_pct s) = false)
    (Hband : f_le (entry_timing_pullback_min_pct s) (entry_timing_pullback_max_pct s) = true)
    (Hp : forall p, pullback_of i = Some p -> f_nan p = false) :
  pl_state (classify s i) = PriceLocationState.UNKNOWN <->
  vwap_gap_of i = None /\
  forall p, pullback_of i = Some p ->
    f_lt (entry_timing_chase_near_high_pct s) p = true /\
    f_lt p (entry_timing_pullback_min_pct s) = true.
Proof.
  unfold classify. rewrite Hprice. fold (pullback_of i) (vwap_gap_of i).
  set (chase := entry_timing_chase_near_high_pct s) in *.
  set (lo := entry_timing_pullback_min_pct s) in *.
  set (hi := entry_timing_pullback_max_pct s) in *.
  destruct (vwap_gap_of i) as [v|]; cbn [holds].
  { split; [|naive_solver]. intros H. exfalso. revert H. repeat case_match; done. }
  destruct (pullback_of i) as [p|]; cbn [holds]; [|naive_solver].
  specialize (Hp p eq_refl).
  destruct (f_le p chase) eqn:E1; cbn [pl_state].
  { split; [done|]. intros [_ H]. destruct (H p eq_refl) as [Hc _].
    apply f_le_not_lt in E1. congruence. }
  destruct (f_le lo p && f_le p hi) eqn:E2; cbn [pl_state].
  { apply andb_true_iff in E2 as [E2 _]. split; [done|]. intros [_ H].
    destruct (H p eq_refl) as [_ Hl]. apply f_le_not_lt in E2. congruence. }
  destruct (f_lt hi p) eqn:E3; cbn [pl_state].
  { split; [done|]. intros [_ H]. destruct (H p eq_refl) as [_ Hl].
    pose proof (f_lt_le_trans _ _ _ Hl Hband) as Hh. apply f_lt_le, f_le_not_lt in Hh.
    congruence. }
  apply f_lt_false in E3; [|done..]. rewrite E3, andb_true_r in E2.
  split; [|done]. intros _. split; [done|]. intros q [= <-].
  split; [by apply f_le_false|by apply f_le_false].
Qed.

Definition gap_input : EntryTimingInput :=
  let i := sample_input in
  {| in_trade_date := in_trade_date i; in_candidate_instance_id := in_candidate_instance_id i;
     in_code := in_code i; in_name := in_name i; in_theme_id := in_theme_id i;
     in_theme_name := in_theme_name i; in_theme_state := in_theme_state i;
     in_theme_rank := in_theme_rank i; in_stock_role := in_stock_role i;
     in_theme_priority_score := None; in_current_price := Some (f_of_Z 9915);
     in_prev_close := None; in_open_price := None; in_day_high := Some (f_of_Z 10000);
     in_day_low := Some (f_of_Z 9400); in_change_rate_pct := None; in_turnover_krw := None;
     in_execution_strength := None; in_momentum_1m := None; in_momentum_3m := None;
     in_momentum_5m := None; in_vwap := None; in_pullback_from_high_pct := None;
     in_spread_ticks := None; in_stale := false; in_vi_active := false;
     in_upper_limit_near := false; in_theme_reason_codes := []; in_candidate_state := None;
     in_strategy_observation_status := None; in_strategy_setup_type := None;
     in_strategy_score := None; in_strategy_confidence := None;
     in_risk_observation_status := None; in_risk_reason_codes := [];
     in_condition_fusion_priority_score := None; in_active_condition_roles := [];
     in_condition_risk_blocked := false; in_condition_fusion_reason_codes := [];
     in_condition_names := []; in_condition_latest_hit_at := None; in_premarket_gap := None;
     in_observed_at := 0; in_best_bid := None; in_best_ask := None; in_tick_age_sec := None;
     in_source := "candidate"; in_raw_context := [] |}.

Definition gap_pullback : float :=
  match pullback_of gap_input with Some p => p | None => f_zero end.

Lemma gap_input_pullback p :
  pullback_of gap_input = Some p -> p = gap_pullback.
Proof.
  assert (H : pullback_of gap_input = Some gap_pullback) by (vm_compute; reflexivity).
  rewrite H. congruence.
Qed.

Lemma classify_unknown_gap_witness :
  pl_state (classify default_settings gap_input) = PriceLocationState.UNKNOWN.
Proof.
  assert (Hp : forall p, pullback_of gap_input = Some p -> f_nan p = false).
  { intros p ->%gap_input_pullback. vm_compute; reflexivity. }
  refine (proj2 (classify_unknown_gap default_settings gap_input _ _ _ _ _ Hp) _);
    [vm_compute; reflexivity..|].
  split; [vm_compute; reflexivity|]. intros p ->%gap_input_pullback.
  split; vm_compute; reflexivity.
Defined.
