(* ===== verification/OrderPlan.v ===== *)
(** * Order-plan drafts ([services/entry_timing/order_plan.py])

    From an evaluation to a BUY LIMIT draft: the status after the soft checks,
    the limit price on the KRX grid, the quantity the notional allows and the
    route's size and time-to-live. *)
From stdpp Require Import pretty.
From S2P Require Import Prelude PyFloat BrokerUtils TickSize EntryModels EntryTiming.
Local Open Scope Z_scope.

(** [hashlib.sha256(text).hexdigest()], and Python's [str] of floats and
    containers. *)
Section Hash.
Context (sha256_hex : string -> string) (py_repr : json -> string).

(** ** Limit price *)

Record LimitPriceResult := {
  limit_price : option Z;
  limit_source : string;
  limit_reason_codes : list string
}.

Definition no_limit (source reason : string) : LimitPriceResult :=
  {| limit_price := None; limit_source := source; limit_reason_codes := [reason] |}.

(** [item.best_ask is not None and > 0 and spread known and within the limit]. *)
Definition usable_best_ask (s : EntryTimingSettings) (item : EntryTimingInput)
    : option float :=
  match in_best_ask item, in_spread_ticks item with
  | Some ask, Some spread =>
      if f_gtZ ask 0 && (spread <=? entry_timing_max_spread_ticks s) then Some ask else None
  | _, _ => None
  end.

Definition calculate_limit_price (s : EntryTimingSettings) (item : EntryTimingInput)
    : res LimitPriceResult :=
  if entry_timing_allow_market_order s then
    Ok (no_limit "MARKET_DISABLED" "MARKET_ORDER_DISABLED")
  else
  match in_current_price item with
  | None => Ok (no_limit "DATA_WAIT" "PRICE_MISSING")
  | Some current =>
      if f_leZ current 0 then Ok (no_limit "DATA_WAIT" "PRICE_MISSING") else
      let '(base_price, source, reason) :=
        match usable_best_ask s item with
        | Some ask => (ask, "BEST_ASK", "BEST_ASK_REFERENCE")
        | None => (current, "CURRENT_PRICE", "CURRENT_PRICE_REFERENCE")
        end in
      match add_ticks (PFloat base_price) (entry_timing_price_offset_ticks s) with
      | Err (ValueError _) => Ok (no_limit "DATA_WAIT" "PRICE_MISSING")
      | Err e => Err e
      | Ok p =>
          if p <=? 0 then Ok (no_limit "DATA_WAIT" "LIMIT_PRICE_INVALID")
          else Ok {| limit_price := Some p; limit_source := source;
                     limit_reason_codes := [reason] |}
      end
  end.

(** ** Status *)

Definition soft_reasons (s : EntryTimingSettings) (item : EntryTimingInput) : list string :=
  (match in_spread_ticks item with
   | None => ["SPREAD_MISSING"]
   | Some n => if entry_timing_max_spread_ticks s <? n then ["SPREAD_TOO_WIDE"] else []
   end)
  ++ (match in_turnover_krw item with
      | None => ["TURNOVER_WARMUP"]
      | Some x => if f_lt x (entry_timing_min_turnover_krw s) then ["TURNOVER_BELOW_MIN"] else []
      end)
  ++ (match in_execution_strength item with
      | None => ["EXECUTION_STRENGTH_WARMUP"]
      | Some x => if f_lt x (entry_timing_min_execution_strength s)
                  then ["EXECUTION_STRENGTH_BELOW_MIN"] else []
      end)
  ++ (match in_strategy_observation_status item with
      | None => ["STRATEGY_OBSERVATION_MISSING"]
      | Some st => if entry_timing_require_strategy_matched s
                      && negb (String.eqb st "MATCHED_OBSERVATION")
                   then ["STRATEGY_NOT_MATCHED"] else []
      end)
  ++ (match in_risk_observation_status item with
      | None => ["RISK_OBSERVATION_MISSING"]
      | Some st => if entry_timing_require_risk_observe_pass s
                      && negb (String.eqb st "OBSERVE_PASS")
                   then ["RISK_NOT_OBSERVE_PASS"] else []
      end).

(** The guard of the pipeline: its reason codes when it did not pass. *)
Definition coherency_block (item : EntryTimingInput) : res (option (list string)) :=
  match jget "pipeline_coherency" (in_raw_context item) with
  | Some (JObj guard) =>
      if String.eqb (py_upper (str_or_empty py_repr (jget "status" guard))) "PASS" then Ok None
      else
        let* codes :=
          match jget "reason_codes" guard with
          | None => Ok []
          | Some v => json_iter v
          end in
        let codes := map (py_str py_repr) codes in
        Ok (Some (List.filter str_true (map (fun r => py_upper (py_strip r)) codes)))
  | _ => Ok None
  end.

Definition resolve_status (s : EntryTimingSettings) (item : EntryTimingInput)
    (e : EntryTimingEvaluation) : res (OrderPlanStatus.t * list string) :=
  let* guard := coherency_block item in
  match guard with
  | Some codes =>
      Ok (OrderPlanStatus.DATA_WAIT, _dedupe (codes ++ ["PIPELINE_COHERENCY_GUARD_BLOCKED"]))
  | None =>
      let risk := default EmptyString (in_risk_observation_status item) in
      if String.eqb risk "OBSERVE_BLOCK" then
        Ok (OrderPlanStatus.BLOCKED_RISK, ["RISK_OBSERVE_BLOCK"])
      else if mem risk ["DATA_WAIT"; "INVALID_CONTEXT"] then
        Ok (OrderPlanStatus.DATA_WAIT, ["RISK_DATA_WAIT"])
      else if String.eqb risk "STALE_CONTEXT" then
        Ok (OrderPlanStatus.BLOCKED_RISK, ["RISK_STALE_CONTEXT"])
      else if negb (bool_decide (ev_entry_timing_state e ∈ READY_TIMING_STATES)) then
        Ok (ev_status e, [])
      else match soft_reasons s item with
           | [] => Ok (OrderPlanStatus.PLAN_READY, ["PLAN_READY_DRAFT_ONLY"])
           | soft => Ok (OrderPlanStatus.WAIT_RETRY, soft)
           end
  end.

(** ** Priority and route *)

Definition _order_plan_priority (item : EntryTimingInput) : option float * list string :=
  match in_theme_priority_score item with
  | None => (None, [])
  | Some score =>
      let blocked :=
        in_condition_risk_blocked item
        || mem "DISCOVERY_OBSERVATION_ONLY"
             (map py_upper (in_condition_fusion_reason_codes item)) in
      match in_condition_fusion_priority_score item with
      | Some fusion =>
          if f_gtZ fusion 0 && negb blocked then
            (Some (f_add score (f_min (f_mul fusion (f_lit 2 100)) (f_of_Z 25))),
             ["CONDITION_FUSION_PRIORITY_USED"; "CONDITION_FUSION_NOT_ORDER_APPROVAL"])
          else (Some score, [])
      | None => (Some score, [])
      end
  end.

Definition MOMENTUM_CONTINUATION_SIZE_MULTIPLIER : float := f_lit 5 10.
Definition MOMENTUM_CONTINUATION_TTL_MULTIPLIER : float := f_lit 5 10.

Record RouteControls := {
  size_multiplier : float;
  ttl_seconds : Z;
  tight_stop_required : bool;
  route_reason_codes : list string
}.

Definition _route_risk_controls (e : EntryTimingEvaluation) (s : EntryTimingSettings)
    : res RouteControls :=
  if bool_decide (ev_entry_timing_state e = EntryTimingState.MOMENTUM_CONTINUATION) then
    let* plan_ttl := float_of_int (entry_timing_plan_ttl_seconds s) in
    let* ttl := f_trunc (f_mul plan_ttl MOMENTUM_CONTINUATION_TTL_MULTIPLIER) in
    Ok {| size_multiplier := MOMENTUM_CONTINUATION_SIZE_MULTIPLIER;
          ttl_seconds := Z.max 1 ttl; tight_stop_required := true;
          route_reason_codes :=
            ["MOMENTUM_CONTINUATION_SIZE_REDUCED"; "MOMENTUM_CONTINUATION_SHORT_TTL";
             "MOMENTUM_CONTINUATION_TIGHT_STOP_REQUIRED"] |}
  else
    Ok {| size_multiplier := f_of_Z 1; ttl_seconds := entry_timing_plan_ttl_seconds s;
          tight_stop_required := false; route_reason_codes := [] |}.

(** ** The draft *)

(** [a or b] on optional strings. *)
Definition or_else (a : option string) (b : string) : string :=
  match a with Some t => if str_true t then t else b | None => b end.

Definition make_order_plan_idempotency_key (item : EntryTimingInput)
    (e : EntryTimingEvaluation) : string :=
  let theme := or_else (in_theme_id item) (or_else (in_theme_name item) "NO_THEME") in
  let setup := SetupType.value (ev_setup_type e) in
  let state := EntryTimingState.value (ev_entry_timing_state e) in
  let payload := String.concat "|"
    [in_trade_date item; in_code item; theme; setup; state; "BUY";
     in_candidate_instance_id item] in
  let digest := String.substring 0 16 (sha256_hex payload) in
  String.concat "-" ["ORDERPLAN"; in_trade_date item; in_code item; setup; state; digest].

Definition order_plan_id_from_key (idempotency_key : string) : string :=
  "OPD-" +:+ String.substring 0 20 (sha256_hex idempotency_key).

(** The quantity a notional buys, and the floor of one share of the ready
    route. *)
Definition plan_quantity (status : OrderPlanStatus.t) (configured max_notional : float)
    (limit : Z) : res (Z * bool) :=
  let* l := float_of_int limit in
  let* quotient := f_floordiv configured l in
  let* quantity := f_trunc quotient in
  let floor_applied :=
    bool_decide (status = OrderPlanStatus.PLAN_READY) && (quantity <? 1)
    && f_geZ max_notional limit in
  let quantity := if floor_applied then 1 else quantity in
  Ok (if bool_decide (status = OrderPlanStatus.PLAN_READY) then quantity else 0,
      floor_applied).

Definition draft_statuses : list OrderPlanStatus.t :=
  [OrderPlanStatus.PLAN_READY; OrderPlanStatus.WAIT_RETRY; OrderPlanStatus.DATA_WAIT].

(** [OrderPlanDraftBuilder.build] at the time [now]. *)
Definition build (s : EntryTimingSettings) (now : Z) (item : EntryTimingInput)
    (e : EntryTimingEvaluation) : res (option OrderPlanDraft) :=
  let* (status, status_reasons) := resolve_status s item e in
  if negb (bool_decide (status ∈ draft_statuses)) then Ok None else
  let* limit := calculate_limit_price s item in
  match limit_price limit with
  | None => Ok None
  | Some price =>
      let idempotency_key := make_order_plan_idempotency_key item e in
      let* route := _route_risk_controls e s in
      let max_notional := entry_timing_max_notional s in
      let configured_notional :=
        f_min (f_mul (entry_timing_default_notional s) (size_multiplier route))
          max_notional in
      let* (quantity, floor_applied) :=
        plan_quantity status configured_notional max_notional price in
      let* suggested_notional := float_of_int (quantity * price) in
      let* limit_float := float_of_int price in
      let '(priority_score, priority_reasons) := _order_plan_priority item in
      let reasons := _dedupe
        (ev_reason_codes e ++ status_reasons ++ limit_reason_codes limit
         ++ priority_reasons ++ route_reason_codes route
         ++ (if floor_applied then ["MOMENTUM_CONTINUATION_MIN_QUANTITY_FLOOR"] else [])
         ++ ["BUY_LIMIT_ONLY";
             if bool_decide (status = OrderPlanStatus.PLAN_READY)
             then "PLAN_READY_NOT_ORDER_APPROVAL" else "NEAR_MISS_RETAINED"]) in
      let* draft := OrderPlanDraft_post_init
        {| dr_order_plan_id := order_plan_id_from_key idempotency_key;
           dr_trade_date := in_trade_date item;
           dr_candidate_instance_id := in_candidate_instance_id item;
           dr_code := in_code item; dr_name := in_name item; dr_side := "BUY";
           dr_status := status; dr_setup_type := ev_setup_type e;
           dr_entry_timing_state := ev_entry_timing_state e;
           dr_price_location_state := ev_price_location_state e;
           dr_theme_id := in_theme_id item; dr_theme_name := in_theme_name item;
           dr_theme_state := in_theme_state item; dr_theme_rank := in_theme_rank item;
           dr_stock_role := in_stock_role item; dr_priority_score := priority_score;
           dr_current_price := default f_zero (in_current_price item);
           dr_limit_price := limit_float; dr_limit_price_source := limit_source limit;
           dr_limit_price_offset_ticks := entry_timing_price_offset_ticks s;
           dr_suggested_quantity := quantity;
           dr_suggested_notional := suggested_notional; dr_max_notional := max_notional;
           dr_risk_budget_source := "ENTRY_TIMING_PILOT";
           dr_expires_at := now + seconds (ttl_seconds route);
           dr_idempotency_key := idempotency_key; dr_reason_codes := reasons;
           dr_observe_only := true; dr_not_order_intent := true; dr_created_at := now |} in
      Ok (Some draft)
  end.
End Hash.

(** ** Inversion of the draft *)

(** Risk statuses that stop the plan whatever the timing says. *)
Definition risk_stops : list string :=
  ["OBSERVE_BLOCK"; "DATA_WAIT"; "INVALID_CONTEXT"; "STALE_CONTEXT"].

(** The market conditions of the soft checks. *)
Record liquid (s : EntryTimingSettings) (i : EntryTimingInput) : Prop := {
  liquid_spread : exists n, in_spread_ticks i = Some n /\ n <= entry_timing_max_spread_ticks s;
  liquid_turnover : exists x, in_turnover_krw i = Some x /\
                    f_lt x (entry_timing_min_turnover_krw s) = false;
  liquid_strength : exists x, in_execution_strength i = Some x /\
                    f_lt x (entry_timing_min_execution_strength s) = false;
  liquid_strategy : exists t, in_strategy_observation_status i = Some t /\
                    (entry_timing_require_strategy_matched s = true ->
                     t = "MATCHED_OBSERVATION");
  liquid_risk : exists t, in_risk_observation_status i = Some t /\
                (entry_timing_require_risk_observe_pass s = true -> t = "OBSERVE_PASS")
}.

Lemma require_match (req : bool) (t u : string) :
  req && negb (String.eqb t u) = false <-> (req = true -> t = u).
Proof.
  destruct req; cbn; [|intuition done].
  rewrite negb_false_iff, String.eqb_eq. intuition done.
Qed.

Lemma soft_reasons_nil s i : soft_reasons s i = [] <-> liquid s i.
Proof.
  unfold soft_reasons. split.
  - intros H. repeat match type of H with
      (if ?b then _ else _) ++ _ = [] => idtac
      | _ ++ _ = [] => apply app_nil in H as [? H] end.
    split; repeat match goal with
      | H : match ?o with Some _ => _ | None => _ end = [] |- _ =>
          let E := fresh "E" in destruct o eqn:E; [|discriminate H]
      | H : (if ?b then _ else _) = [] |- _ =>
          let E := fresh "E" in destruct b eqn:E; [discriminate H|clear H]
      end; eexists; (split; [reflexivity|]); try lia; try done; by apply require_match.
  - intros [(n & -> & Hn) (x & -> & ->) (y & -> & ->) (t & -> & Ht) (u & -> & Hu)].
    apply require_match in Ht, Hu. rewrite Ht, Hu.
    replace (entry_timing_max_spread_ticks s <? n) with false by lia. reflexivity.
Qed.

Lemma resolve_status_ready py_repr s i e st rs :
  resolve_status py_repr s i e = Ok (st, rs) ->
  st = OrderPlanStatus.PLAN_READY ->
  coherency_block py_repr i = Ok None /\
  (default EmptyString (in_risk_observation_status i) ∉ risk_stops) /\
  ((ev_entry_timing_state e ∈ READY_TIMING_STATES /\ soft_reasons s i = []) \/
   ((ev_entry_timing_state e ∉ READY_TIMING_STATES) /\
    ev_status e = OrderPlanStatus.PLAN_READY)).
Proof.
  unfold resolve_status. intros H ->. res_inv H. destruct a as [codes|]; [done|].
  split; [done|]. cbv zeta in H.
  set (risk := default EmptyString (in_risk_observation_status i)) in *.
  destruct (String.eqb risk "OBSERVE_BLOCK") eqn:E1; [done|].
  destruct (mem risk _) eqn:E2; [done|].
  destruct (String.eqb risk "STALE_CONTEXT") eqn:E3; [done|].
  split.
  { apply String.eqb_neq in E1, E3. apply mem_false in E2. unfold risk_stops. set_solver. }
  case_bool_decide; cbn [negb] in H.
  - left. split; [done|]. by destruct (soft_reasons s i).
  - right. split; [done|]. congruence.
Qed.

(** The pieces of a built draft. *)
Lemma build_inv sha256_hex py_repr s now i e d :
  build sha256_hex py_repr s now i e = Ok (Some d) ->
  exists status rs limit price route q fl sn lf raw,
    resolve_status py_repr s i e = Ok (status, rs) /\ status ∈ draft_statuses /\
    calculate_limit_price s i = Ok limit /\ limit_price limit = Some price /\
    _route_risk_controls e s = Ok route /\
    plan_quantity status
      (f_min (f_mul (entry_timing_default_notional s) (size_multiplier route))
         (entry_timing_max_notional s)) (entry_timing_max_notional s) price = Ok (q, fl) /\
    float_of_int (q * price) = Ok sn /\ float_of_int price = Ok lf /\
    OrderPlanDraft_post_init raw = Ok d /\
    dr_status raw = status /\ dr_limit_price raw = lf /\ dr_suggested_quantity raw = q /\
    dr_suggested_notional raw = sn /\ dr_created_at raw = now /\
    dr_expires_at raw = now + seconds (ttl_seconds route) /\
    dr_code raw = in_code i /\ dr_max_notional raw = entry_timing_max_notional s.
Proof.
  unfold build. intros H. res_inv H. destruct a as [status rs].
  destruct (bool_decide (status ∈ draft_statuses)) eqn:Es; cbn [negb] in H; [|done].
  apply bool_decide_eq_true in Es. res_inv H. destruct (limit_price a) as [price|] eqn:Ep; [|done].
  res_inv H. destruct a1 as [q fl]. res_inv H.
  destruct (_order_plan_priority i) as [ps pr]. cbv zeta in H. res_inv H.
  injection H as <-.
  do 10 eexists. split_and!; try eassumption; reflexivity.
Qed.

Lemma plan_quantity_inv status c m limit q fl :
  plan_quantity status c m limit = Ok (q, fl) ->
  (status <> OrderPlanStatus.PLAN_READY -> q = 0) /\
  (status = OrderPlanStatus.PLAN_READY -> f_geZ m limit = true -> 1 <= q).
Proof.
  unfold plan_quantity. intros H. res_inv H. injection H as <- _.
  case_bool_decide; [|done]. split; [done|]. intros _ Hm. rewrite Hm, andb_true_r.
  cbn [andb]. destruct (Z.ltb_spec a1 1); lia.
Qed.

Lemma route_ttl_pos e s r :
  _route_risk_controls e s = Ok r -> 1 <= entry_timing_plan_ttl_seconds s ->
  1 <= ttl_seconds r.
Proof.
  unfold _route_risk_controls. case_bool_decide; intros Hr Ht.
  - res_inv Hr. injection Hr as <-. cbn. lia.
  - by injection Hr as <-.
Qed.

Lemma limit_price_inv s i limit price :
  calculate_limit_price s i = Ok limit -> limit_price limit = Some price ->
  entry_timing_allow_market_order s = false /\ 0 < price /\
  exists base current, in_current_price i = Some current /\
    (base = current \/ usable_best_ask s i = Some base) /\
    add_ticks (PFloat base) (entry_timing_price_offset_ticks s) = Ok price.
Proof.
  unfold calculate_limit_price, no_limit.
  destruct (entry_timing_allow_market_order s); [intros [= <-]; done|].
  destruct (in_current_price i) as [current|]; [|intros [= <-]; done].
  destruct (f_leZ current 0); [intros [= <-]; done|].
  set (t := match usable_best_ask s i with Some _ => _ | None => _ end).
  destruct t as [[base source] reason] eqn:Et.
  destruct (add_ticks (PFloat base) _) as [p|[]] eqn:Ea; try done;
    [|intros [= <-]; done].
  destruct (Z.leb_spec p 0); intros [= <-]; [done|]. cbn. intros [= ->].
  split; [done|]. split; [lia|]. exists base, current. split; [done|]. split; [|done].
  unfold t in Et. destruct (usable_best_ask s i); simplify_eq; [by right|by left].
Qed.

(** What the constructor of the draft adds. *)
Lemma draft_post_init_inv r d :
  OrderPlanDraft_post_init r = Ok d ->
  dr_side d = "BUY" /\ dr_observe_only d = true /\ dr_not_order_intent d = true /\
  dr_status d = dr_status r /\ is_stock_code (dr_code d) = true /\
  dr_limit_price d = dr_limit_price r /\ f_leZ (dr_limit_price d) 0 = false /\
  dr_suggested_quantity d = dr_suggested_quantity r /\ 0 <= dr_suggested_quantity d /\
  dr_suggested_notional d = dr_suggested_notional r /\
  dr_max_notional d = dr_max_notional r /\
  dr_expires_at d = dr_expires_at r /\ dr_created_at d = dr_created_at r /\
  NoDup (dr_reason_codes d).
Proof.
  unfold OrderPlanDraft_post_init. cbv zeta. intros H. res_inv H.
  destruct (String.eqb _ "BUY") eqn:Eside; cbn [negb] in H; [|done].
  apply String.eqb_eq in Eside. res_inv H.
  destruct (f_leZ _ 0 || f_leZ _ 0) eqn:Ep in H; [done|]. apply orb_false_iff in Ep as [_ Ep].
  res_inv H. injection H as <-. cbn.
  repeat match goal with
    | H : nat_field _ _ = Ok _ |- _ => apply nat_field_ok in H as [-> H]
    | H : pos_field _ _ = Ok _ |- _ => apply pos_field_ok in H as (-> & _ & _)
    end.
  split_and!; try done; [by eapply validate_code_ok|by eapply normalize_NoDup].
Qed.

(** ** Properties *)

(** A stand-in for the hash, for the concrete runs below. *)
Definition sample_sha256 (text : string) : string := text.
Definition sample_repr (v : json) : string := "?".

Definition sample_draft : res (option OrderPlanDraft) :=
  build sample_sha256 sample_repr default_settings 0 sample_input sample_evaluation.

Definition sample_draft_value : OrderPlanDraft :=
  match sample_draft with
  | Ok (Some d) => d
  | _ => {| dr_order_plan_id := ""; dr_trade_date := ""; dr_candidate_instance_id := "";
            dr_code := ""; dr_name := ""; dr_side := ""; dr_status := OrderPlanStatus.NO_PLAN;
            dr_setup_type := SetupType.NO_SETUP;
            dr_entry_timing_state := EntryTimingState.NO_SETUP;
            dr_price_location_state := PriceLocationState.UNKNOWN; dr_theme_id := None;
            dr_theme_name := None; dr_theme_state := None; dr_theme_rank := None;
            dr_stock_role := None; dr_priority_score := None; dr_current_price := f_zero;
            dr_limit_price := f_zero; dr_limit_price_source := "";
            dr_limit_price_offset_ticks := 0; dr_suggested_quantity := 0;
            dr_suggested_notional := f_zero; dr_max_notional := f_zero;
            dr_risk_budget_source := ""; dr_expires_at := 0; dr_idempotency_key := "";
            dr_reason_codes := []; dr_observe_only := true; dr_not_order_intent := true;
            dr_created_at := 0 |}
  end.

Example sample_draft_run :
  sample_draft = Ok (Some sample_draft_value) /\
  dr_status sample_draft_value = OrderPlanStatus.PLAN_READY /\
  dr_suggested_quantity sample_draft_value = 10 /\
  dr_limit_price sample_draft_value = f_of_Z 9800 /\
  dr_expires_at sample_draft_value = 90000000.
Proof. vm_compute. done. Qed.

(** C35. End to end, a PLAN_READY draft means that the pipeline guard passed, the
    risk observation is known and not blocking, stale or invalid, the spread,
    turnover and execution strength are known and within limits, the required
    observations match, and the evaluation behind it met every condition of a
    clear context and of its setup; it asks for at least one share whenever the
    limit price fits the maximum notional. *)
Theorem plan_ready_end_to_end (sha256_hex : string -> string) (py_repr : json -> string)
    (s : EntryTimingSettings) (now : Z) (i : EntryTimingInput) (e : EntryTimingEvaluation)
    (d : OrderPlanDraft)
    (Hev : evaluate s i = Ok e)
    (Hd : build sha256_hex py_repr s now i e = Ok (Some d))
    (Hready : dr_status d = OrderPlanStatus.PLAN_READY) :
  coherency_block py_repr i = Ok None /\
  (default EmptyString (in_risk_observation_status i) ∉ risk_stops) /\
  liquid s i /\ entry_context_ok s i /\ is_Some (in_vwap i) /\
  setup_ok s i (ev_entry_timing_state e) (ev_setup_type e) /\
  exists price, float_of_int price = Ok (dr_limit_price d) /\
    (f_geZ (entry_timing_max_notional s) price = true -> 1 <= dr_suggested_quantity d).
Proof.
  apply build_inv in Hd as (st & rs & limit & price & route & q & fl & sn & lf & raw & Hst &
    _ & _ & _ & _ & Hq & _ & Hlf & Hraw & Rst & Rlf & Rq & _).
  apply draft_post_init_inv in Hraw as (_ & _ & _ & Dst & _ & Dlf & _ & Dq & _).
  assert (st = OrderPlanStatus.PLAN_READY) as -> by congruence.
  destruct (resolve_status_ready _ _ _ _ _ _ Hst eq_refl) as (Hc & Hr & Hs).
  destruct (evaluate_ready _ _ _ Hev) as [Hiff Hgo].
  assert (Hin : ev_entry_timing_state e ∈ READY_TIMING_STATES /\ soft_reasons s i = [])
    by tauto.
  destruct Hin as [Hin Hsoft].
  pose proof (proj1 (soft_reasons_nil s i) Hsoft) as Hliq.
  apply Hiff in Hin. destruct (Hgo Hin) as (Hok & Hv & _ & _ & Hsetup).
  split_and!; try done. exists price. split; [congruence|].
  rewrite Dq, Rq. apply plan_quantity_inv in Hq as [_ Hq]. by apply Hq.
Qed.

Lemma plan_ready_end_to_end_witness :
  liquid default_settings sample_input /\ entry_context_ok default_settings sample_input.
Proof.
  pose proof (plan_ready_end_to_end sample_sha256 sample_repr default_settings 0 sample_input
    sample_evaluation sample_draft_value ltac:(vm_compute; reflexivity)
    ltac:(vm_compute; reflexivity) ltac:(vm_compute; reflexivity)) as H.
  exact (conj (proj1 (proj2 (proj2 H))) (proj1 (proj2 (proj2 (proj2 H))))).
Defined.

(** Every draft, whatever its status: it is a BUY, observe-only and not an
    order intent, for a 6-digit code; its status is PLAN_READY, WAIT_RETRY or
    DATA_WAIT, and a draft that is not ready asks for zero shares; its positive
    limit price comes from [add_ticks] on the current price or a usable best
    ask, market orders being off; it expires after it is created; its reason
    codes are distinct. *)
Theorem draft_invariants (sha256_hex : string -> string) (py_repr : json -> string)
    (s : EntryTimingSettings) (now : Z) (i : EntryTimingInput) (e : EntryTimingEvaluation)
    (d : OrderPlanDraft)
    (Hs : Settings_entry_timing_post_init s = Ok tt)
    (Hd : build sha256_hex py_repr s now i e = Ok (Some d)) :
  dr_side d = "BUY" /\ dr_observe_only d = true /\ dr_not_order_intent d = true /\
  is_stock_code (dr_code d) = true /\ dr_status d ∈ draft_statuses /\
  0 <= dr_suggested_quantity d /\
  (dr_status d <> OrderPlanStatus.PLAN_READY -> dr_suggested_quantity d = 0) /\
  (exists price base current, 0 < price /\ float_of_int price = Ok (dr_limit_price d) /\
     float_of_int (dr_suggested_quantity d * price) = Ok (dr_suggested_notional d) /\
     in_current_price i = Some current /\
     (base = current \/ usable_best_ask s i = Some base) /\
     add_ticks (PFloat base) (entry_timing_price_offset_ticks s) = Ok price) /\
  dr_created_at d = now /\ dr_created_at d < dr_expires_at d /\
  NoDup (dr_reason_codes d).
Proof.
  assert (Httl : 1 <= entry_timing_plan_ttl_seconds s) by (by apply settings_ttl).
  apply build_inv in Hd as (st & rs & limit & price & route & q & fl & sn & lf & raw & _ &
    Hst & Hl & Hp & Hroute & Hq & Hsn & Hlf & Hraw & Rst & Rlf & Rq & Rsn & Rnow & Rexp & _).
  apply draft_post_init_inv in Hraw as (Dside & Do & Dn & Dst & Dcode & Dlf & _ & Dq & Dq0 &
    Dsn & _ & Dexp & Dnow & Dr).
  destruct (limit_price_inv _ _ _ _ Hl Hp) as (_ & Hpos & base & cur & Hcur & Hbase & Hadd).
  apply plan_quantity_inv in Hq as [Hq _]. apply route_ttl_pos in Hroute; [|done].
  split_and!; try done; try congruence.
  - rewrite Dst, Dq, Rst, Rq. exact Hq.
  - exists price, base, cur. split_and!; try done; congruence.
  - rewrite Dnow, Dexp, Rnow, Rexp. unfold seconds, usec. lia.
Qed.

Lemma draft_invariants_witness :
  dr_side sample_draft_value = "BUY" /\ 0 <= dr_suggested_quantity sample_draft_value.
Proof.
  pose proof (draft_invariants sample_sha256 sample_repr default_settings 0 sample_input
    sample_evaluation sample_draft_value ltac:(vm_compute; reflexivity)
    ltac:(vm_compute; reflexivity)) as (H1 & _ & _ & _ & _ & H2 & _).
  exact (conj H1 H2).
Defined.
