(* ===== verification/Candidate.v ===== *)
(** * Candidate lifecycle ([domain/candidate/])

    The data of a candidate ([models.py], [source.py], [state.py],
    [reasons.py]) and its state machine ([fsm.py]): [determine_next_state] is a
    function of the current state and of a context; [next] is the step relation
    it induces. *)
From S2P Require Import Prelude PyFloat BrokerUtils.
Local Open Scope Z_scope.

(** ** Data *)

Module CandidateState.
Inductive t :=
| DETECTED | HYDRATING | WATCHING | CONTEXT_READY | DATA_WAIT
| BLOCKED_OBSERVATION | STALE | COOLDOWN | CLOSED.
#[export] Instance eq_dec : EqDecision t.
Proof. solve_decision. Defined.
End CandidateState.
#[export] Existing Instance CandidateState.eq_dec.

Module CandidateSourceType.
Inductive t :=
| CONDITION_ENTER | CONDITION_EXIT | CONDITION_DISCOVERY | CONDITION_LEADER
| CONDITION_PULLBACK | CONDITION_BREAKOUT | CONDITION_RISK_BLOCK | THEME_LEADER
| THEME_CO_LEADER | THEME_FOLLOWER | THEME_SPREADING_MEMBER | MARKET_OBSERVED
| MANUAL_WATCH | MOCK.
#[export] Instance eq_dec : EqDecision t.
Proof. solve_decision. Defined.
End CandidateSourceType.
#[export] Existing Instance CandidateSourceType.eq_dec.

Module CandidateEventType.
Inductive t :=
| SOURCE_DETECTED | SOURCE_UPDATED | SOURCE_EXITED | CANDIDATE_CREATED
| STATE_CHANGED | CONTEXT_REFRESHED | CANDIDATE_CLOSED | CANDIDATE_STALE.
#[export] Instance eq_dec : EqDecision t.
Proof. solve_decision. Defined.
End CandidateEventType.
#[export] Existing Instance CandidateEventType.eq_dec.

Definition ACTIVE_CANDIDATE_STATES : list CandidateState.t :=
  [CandidateState.DETECTED; CandidateState.HYDRATING; CandidateState.WATCHING;
   CandidateState.CONTEXT_READY; CandidateState.DATA_WAIT;
   CandidateState.BLOCKED_OBSERVATION; CandidateState.STALE; CandidateState.COOLDOWN].

Definition THEME_SOURCE_TYPES : list CandidateSourceType.t :=
  [CandidateSourceType.THEME_LEADER; CandidateSourceType.THEME_CO_LEADER;
   CandidateSourceType.THEME_FOLLOWER; CandidateSourceType.THEME_SPREADING_MEMBER].

Definition CONDITION_SOURCE_TYPES : list CandidateSourceType.t :=
  [CandidateSourceType.CONDITION_ENTER; CandidateSourceType.CONDITION_EXIT;
   CandidateSourceType.CONDITION_DISCOVERY; CandidateSourceType.CONDITION_LEADER;
   CandidateSourceType.CONDITION_PULLBACK; CandidateSourceType.CONDITION_BREAKOUT;
   CandidateSourceType.CONDITION_RISK_BLOCK].

(** [tuple(_reason_value(r) for r in reasons)] on strings: upper-cased, blanks
    refused, duplicates kept. *)
Definition reason_values (rs : list string) : res (list string) := upper_reasons rs.

Record CandidateIdentity := {
  id_candidate_instance_id : string;
  id_trade_date : string;
  id_code : string;
  id_name : string;
  id_primary_source_type : CandidateSourceType.t;
  id_primary_source_id : string;
  id_generation : Z
}.

Definition generation_field (v : Z) : res Z := parse_int (JInt v) "generation" (Some 1).

Definition CandidateIdentity_post_init (c : CandidateIdentity) : res CandidateIdentity :=
  let* cid := require_non_empty (id_candidate_instance_id c) "candidate_instance_id" in
  let* trade_date := require_non_empty (id_trade_date c) "trade_date" in
  let* code := validate_code (id_code c) "code" in
  let* name := require_non_empty (id_name c) "name" in
  let* psid := require_non_empty (id_primary_source_id c) "primary_source_id" in
  let* generation := generation_field (id_generation c) in
  Ok {| id_candidate_instance_id := cid; id_trade_date := trade_date; id_code := code;
        id_name := name; id_primary_source_type := id_primary_source_type c;
        id_primary_source_id := psid; id_generation := generation |}.

Record CandidateSourceEvent := {
  se_source_event_id : string;
  se_trade_date : string;
  se_code : string;
  se_name : string;
  se_source_type : CandidateSourceType.t;
  se_source_id : string;
  se_action : string;
  se_event_ts : Z;
  se_observed_at : Z;
  se_candidate_instance_id : option string;
  se_theme_id : option string;
  se_theme_name : option string;
  se_condition_id : option string;
  se_condition_name : option string;
  se_payload : list (string * json);
  se_reason_codes : list string
}.

Definition opt_text (field_name : string) (v : option string) : res (option string) :=
  opt_check (fun t => require_non_empty t field_name) v.

Definition CandidateSourceEvent_post_init (e : CandidateSourceEvent)
    : res CandidateSourceEvent :=
  let* source_event_id := require_non_empty (se_source_event_id e) "source_event_id" in
  let* cid := opt_text "candidate_instance_id" (se_candidate_instance_id e) in
  let* trade_date := require_non_empty (se_trade_date e) "trade_date" in
  let* code := validate_code (se_code e) "code" in
  let* name := require_non_empty (se_name e) "name" in
  let* source_id := require_non_empty (se_source_id e) "source_id" in
  let* action := require_non_empty (se_action e) "action" in
  let* theme_id := opt_text "theme_id" (se_theme_id e) in
  let* theme_name := opt_text "theme_name" (se_theme_name e) in
  let* condition_id := opt_text "condition_id" (se_condition_id e) in
  let* condition_name := opt_text "condition_name" (se_condition_name e) in
  let* reason_codes := reason_values (se_reason_codes e) in
  Ok {| se_source_event_id := source_event_id; se_trade_date := trade_date;
        se_code := code; se_name := name; se_source_type := se_source_type e;
        se_source_id := source_id; se_action := py_upper action;
        se_event_ts := se_event_ts e; se_observed_at := se_observed_at e;
        se_candidate_instance_id := cid; se_theme_id := theme_id;
        se_theme_name := theme_name; se_condition_id := condition_id;
        se_condition_name := condition_name; se_payload := se_payload e;
        se_reason_codes := reason_codes |}.

Definition with_candidate (e : CandidateSourceEvent) (cid : option string)
    : res CandidateSourceEvent :=
  CandidateSourceEvent_post_init
    {| se_source_event_id := se_source_event_id e; se_trade_date := se_trade_date e;
       se_code := se_code e; se_name := se_name e; se_source_type := se_source_type e;
       se_source_id := se_source_id e; se_action := se_action e;
       se_event_ts := se_event_ts e; se_observed_at := se_observed_at e;
       se_candidate_instance_id := cid; se_theme_id := se_theme_id e;
       se_theme_name := se_theme_name e; se_condition_id := se_condition_id e;
       se_condition_name := se_condition_name e; se_payload := se_payload e;
       se_reason_codes := se_reason_codes e |}.

(** ** The context of a decision *)

(** The keys [determine_next_state] reads; an absent key or a [None] is [None]. *)
Record FsmContext := {
  explicit_close : option bool;
  active_source_count : option Z;
  ttl_expired : option bool;
  theme_state : option string;
  only_condition_exit_sources : option bool;
  source_stale : option bool;
  tick_stale : option bool;
  candidate_stale_requires_tick_stale : option bool;
  observation_blocked : option bool;
  market_readiness_status : option string;
  has_latest_tick : option bool;
  require_1m_bar : option bool;
  bar_1m_ready : option bool;
  require_vwap : option bool;
  vwap_ready : option bool;
  theme_source : option bool;
  theme_context_present : option bool;
  condition_source : option bool;
  condition_signal_present : option bool;
  context_reason_codes : list string
}.

Definition _bool (value : option bool) (dflt : bool) : bool := default dflt value.
Definition yes (value : option bool) : bool := _bool value false.

(** [str(context.get(key) or "").upper()] *)
Definition upper_text (value : option string) : string :=
  py_upper (default EmptyString value).

(** [int(context.get("active_source_count") or 0)] *)
Definition source_count (c : FsmContext) : Z := default 0 (active_source_count c).

Definition add_if (b : bool) (code : string) : list string := if b then [code] else [].

Definition should_close_candidate (c : FsmContext) : list string :=
  merge_reason_codes
    [add_if (yes (explicit_close c)) "SOURCE_EXITED"
     ++ add_if (source_count c <=? 0) "SOURCE_EXITED"
     ++ add_if (yes (ttl_expired c)) "EPISODE_TTL_EXPIRED"
     ++ add_if (String.eqb (upper_text (theme_state c)) "ROTATED_OUT") "THEME_ROTATED_OUT"
     ++ add_if (yes (only_condition_exit_sources c)) "CONDITION_EXITED"].

Definition should_mark_stale (c : FsmContext) : list string :=
  let requires_tick_stale := _bool (candidate_stale_requires_tick_stale c) true in
  merge_reason_codes
    [add_if (yes (source_stale c) && (yes (tick_stale c) || negb requires_tick_stale))
       "SOURCE_STALE"
     ++ add_if (yes (tick_stale c)) "TICK_STALE"].

Definition _hydration_ready (c : FsmContext) : bool :=
  let status := upper_text (market_readiness_status c) in
  yes (has_latest_tick c) && negb (mem status [""; "MISSING"; "INVALID"])
  && (0 <? source_count c).

Definition _context_ready (c : FsmContext) : bool :=
  let status := upper_text (market_readiness_status c) in
  if mem status [""; "MISSING"; "STALE"; "INVALID"] then false
  else if negb (yes (has_latest_tick c)) then false
  else if _bool (require_1m_bar c) true && negb (yes (bar_1m_ready c)) then false
  else if yes (require_vwap c) && negb (yes (vwap_ready c)) then false
  else if yes (theme_source c) && negb (yes (theme_context_present c)) then false
  else if yes (condition_source c) && negb (yes (condition_signal_present c)) then false
  else 0 <? source_count c.

Definition _data_wait_reasons (c : FsmContext) : list string :=
  let status := upper_text (market_readiness_status c) in
  merge_reason_codes
    [add_if (negb (yes (has_latest_tick c)) || String.eqb status "MISSING")
       "MARKET_READINESS_MISSING"
     ++ add_if (_bool (require_1m_bar c) true && negb (yes (bar_1m_ready c))) "BAR_MISSING"
     ++ add_if (yes (require_vwap c) && negb (yes (vwap_ready c))) "VWAP_MISSING"
     ++ add_if (yes (theme_source c) && negb (yes (theme_context_present c))) "THEME_MISSING"
     ++ add_if (source_count c <=? 0) "SOURCE_MISSING"].

(** ** The decision *)

Record CandidateStateDecision := {
  next_state : CandidateState.t;
  reason_codes : list string;
  close_candidate : bool;
  stale_candidate : bool
}.

Definition decide_to (st : CandidateState.t) (reasons : list string)
    : CandidateStateDecision :=
  {| next_state := st; reason_codes := reasons;
     close_candidate := false; stale_candidate := false |}.

Definition watching (c : FsmContext) : CandidateStateDecision :=
  decide_to CandidateState.WATCHING
    (merge_reason_codes [context_reason_codes c; ["MARKET_READINESS_READY"]]).

Definition data_wait (c : FsmContext) : CandidateStateDecision :=
  decide_to CandidateState.DATA_WAIT
    (merge_reason_codes [context_reason_codes c; _data_wait_reasons c]).

Definition nonempty {A} (l : list A) : bool := match l with [] => false | _ => true end.

Definition determine_next_state (current_state : CandidateState.t) (c : FsmContext)
    : CandidateStateDecision :=
  if bool_decide (current_state = CandidateState.CLOSED) then
    decide_to CandidateState.CLOSED []
  else
  let close_reasons := should_close_candidate c in
  if nonempty close_reasons then
    {| next_state := CandidateState.CLOSED; reason_codes := close_reasons;
       close_candidate := true; stale_candidate := false |}
  else
  let stale_reasons := should_mark_stale c in
  if nonempty stale_reasons then
    {| next_state := CandidateState.STALE; reason_codes := stale_reasons;
       close_candidate := false; stale_candidate := true |}
  else if yes (observation_blocked c) then
    decide_to CandidateState.BLOCKED_OBSERVATION ["OBSERVATION_BLOCKED"]
  else if bool_decide (current_state = CandidateState.DETECTED) then
    decide_to CandidateState.HYDRATING ["SOURCE_DETECTED"]
  else
  let data_wait_reasons := _data_wait_reasons c in
  if bool_decide (current_state = CandidateState.HYDRATING) && nonempty data_wait_reasons
  then data_wait c
  else if bool_decide (current_state = CandidateState.HYDRATING) && _hydration_ready c
  then watching c
  else if bool_decide (current_state ∈ [CandidateState.DATA_WAIT; CandidateState.STALE])
          && _hydration_ready c
  then watching c
  else if _context_ready c then
    decide_to CandidateState.CONTEXT_READY
      (merge_reason_codes [context_reason_codes c; ["CONTEXT_READY"; "MARKET_READINESS_READY"]])
  else if nonempty data_wait_reasons then data_wait c
  else if _hydration_ready c then watching c
  else decide_to current_state (merge_reason_codes [context_reason_codes c; []]).

(** ** Facts about the guards *)

Lemma nonempty_false {A} (l : list A) : nonempty l = false <-> l = [].
Proof. by destruct l. Qed.

Lemma nonempty_true {A} (l : list A) : nonempty l = true <-> l <> [].
Proof. by destruct l. Qed.

(** Literal reason codes survive [merge_reason_codes]: it is empty only on an
    empty list of them. *)
Lemma merge_nil_iff l :
  Forall (fun r => str_true (py_strip r) = true) l ->
  merge_reason_codes [l] = [] <-> l = [].
Proof.
  intros HF. unfold merge_reason_codes. rewrite dedupe_nil_iff. cbn [concat].
  rewrite app_nil_r. destruct HF as [|r l Hr _]; [done|]. split; [|done].
  cbn [map List.filter]. by rewrite str_true_upper, Hr.
Qed.

Lemma add_if_Forall b r :
  str_true (py_strip r) = true ->
  Forall (fun r => str_true (py_strip r) = true) (add_if b r).
Proof. intros Hr. destruct b; repeat constructor. exact Hr. Qed.

Lemma add_if_nil b r : add_if b r = [] <-> b = false.
Proof. by destruct b. Qed.

Ltac solve_codes := repeat (apply Forall_app_2); apply add_if_Forall; reflexivity.

(** A context that neither closes, stales nor blocks. *)
Record calm (c : FsmContext) : Prop := {
  calm_close : yes (explicit_close c) = false;
  calm_sources : 0 < source_count c;
  calm_ttl : yes (ttl_expired c) = false;
  calm_theme : upper_text (theme_state c) <> "ROTATED_OUT";
  calm_exit : yes (only_condition_exit_sources c) = false;
  calm_tick : yes (tick_stale c) = false;
  calm_source : yes (source_stale c) = false \/
                _bool (candidate_stale_requires_tick_stale c) true = true;
  calm_block : yes (observation_blocked c) = false
}.

Lemma close_nil c :
  should_close_candidate c = [] <->
  yes (explicit_close c) = false /\ 0 < source_count c /\ yes (ttl_expired c) = false /\
  upper_text (theme_state c) <> "ROTATED_OUT" /\ yes (only_condition_exit_sources c) = false.
Proof.
  unfold should_close_candidate. rewrite merge_nil_iff by solve_codes.
  rewrite !app_nil, !add_if_nil, Z.leb_gt, String.eqb_neq. tauto.
Qed.

Lemma stale_nil c :
  should_mark_stale c = [] <->
  yes (tick_stale c) = false /\
  (yes (source_stale c) = false \/
   _bool (candidate_stale_requires_tick_stale c) true = true).
Proof.
  unfold should_mark_stale. rewrite merge_nil_iff by solve_codes.
  rewrite !app_nil, !add_if_nil.
  destruct (yes (source_stale c)), (yes (tick_stale c)), (_bool _ true); cbn; intuition done.
Qed.

Lemma calm_iff c :
  calm c <->
  should_close_candidate c = [] /\ should_mark_stale c = [] /\
  yes (observation_blocked c) = false.
Proof.
  rewrite close_nil, stale_nil. split; [intros []; tauto|].
  intros ((?&?&?&?&?) & (?&?) & ?). by split.
Qed.

(** The data a ready context has. *)
Record data_ready (c : FsmContext) : Prop := {
  ready_tick : yes (has_latest_tick c) = true;
  ready_status : upper_text (market_readiness_status c) ∉ [""; "MISSING"; "STALE"; "INVALID"];
  ready_bar : _bool (require_1m_bar c) true = true -> yes (bar_1m_ready c) = true;
  ready_vwap : yes (require_vwap c) = true -> yes (vwap_ready c) = true;
  ready_theme : yes (theme_source c) = true -> yes (theme_context_present c) = true;
  ready_condition : yes (condition_source c) = true -> yes (condition_signal_present c) = true;
  ready_sources : 0 < source_count c
}.

Lemma requires_iff a b : a && negb b = false <-> (a = true -> b = true).
Proof. destruct a, b; cbn; intuition done. Qed.

Lemma context_ready_iff c : _context_ready c = true <-> data_ready c.
Proof.
  unfold _context_ready. split.
  - intros H. cbv zeta in H. destruct (mem _ _) eqn:E1; [done|]. apply mem_false in E1.
    destruct (yes (has_latest_tick c)) eqn:E2; cbn [negb] in H; [|done].
    destruct (_ && _) eqn:E3 in H; [done|]. destruct (_ && _) eqn:E4 in H; [done|].
    destruct (_ && _) eqn:E5 in H; [done|]. destruct (_ && _) eqn:E6 in H; [done|].
    rewrite requires_iff in E3, E4, E5, E6. apply Z.ltb_lt in H. by split.
  - intros [H1 H2 H3 H4 H5 H6 H7]. cbv zeta. apply mem_false in H2.
    rewrite <- requires_iff in H3, H4, H5, H6. rewrite H2, H1, H3, H4, H5, H6. cbn.
    by apply Z.ltb_lt.
Qed.

Lemma hydration_ready_iff c :
  _hydration_ready c = true <->
  yes (has_latest_tick c) = true /\
  (upper_text (market_readiness_status c) ∉ [""; "MISSING"; "INVALID"]) /\ 0 < source_count c.
Proof.
  unfold _hydration_ready. cbv zeta.
  rewrite !andb_true_iff, negb_true_iff, mem_false, Z.ltb_lt. tauto.
Qed.

Lemma data_ready_hydration c : data_ready c -> _hydration_ready c = true.
Proof. intros []. apply hydration_ready_iff. split_and!; [done|set_solver|done]. Qed.

Lemma data_wait_nil c :
  _data_wait_reasons c = [] <->
  yes (has_latest_tick c) = true /\ upper_text (market_readiness_status c) <> "MISSING" /\
  (_bool (require_1m_bar c) true = true -> yes (bar_1m_ready c) = true) /\
  (yes (require_vwap c) = true -> yes (vwap_ready c) = true) /\
  (yes (theme_source c) = true -> yes (theme_context_present c) = true) /\
  0 < source_count c.
Proof.
  unfold _data_wait_reasons. cbv zeta. rewrite merge_nil_iff by solve_codes.
  rewrite !app_nil, !add_if_nil, !requires_iff, orb_false_iff, negb_false_iff.
  rewrite String.eqb_neq, Z.leb_gt. tauto.
Qed.

Lemma data_ready_no_wait c : data_ready c -> _data_wait_reasons c = [].
Proof. intros []. apply data_wait_nil. split_and!; try done. set_solver. Qed.

(** The decision in a calm context. *)
Definition calm_next (st : CandidateState.t) (c : FsmContext) : CandidateState.t :=
  match st with
  | CandidateState.CLOSED => CandidateState.CLOSED
  | CandidateState.DETECTED => CandidateState.HYDRATING
  | CandidateState.HYDRATING =>
      if nonempty (_data_wait_reasons c) then CandidateState.DATA_WAIT
      else if _hydration_ready c then CandidateState.WATCHING else CandidateState.HYDRATING
  | CandidateState.DATA_WAIT =>
      if _hydration_ready c then CandidateState.WATCHING
      else if nonempty (_data_wait_reasons c) then CandidateState.DATA_WAIT
      else CandidateState.DATA_WAIT
  | CandidateState.STALE =>
      if _hydration_ready c then CandidateState.WATCHING
      else if nonempty (_data_wait_reasons c) then CandidateState.DATA_WAIT
      else CandidateState.STALE
  | _ =>
      if _context_ready c then CandidateState.CONTEXT_READY
      else if nonempty (_data_wait_reasons c) then CandidateState.DATA_WAIT
      else if _hydration_ready c then CandidateState.WATCHING else st
  end.

Lemma not_hydrated_not_ready c : _hydration_ready c = false -> _context_ready c = false.
Proof.
  intros H. destruct (_context_ready c) eqn:E; [|done].
  apply context_ready_iff, data_ready_hydration in E. congruence.
Qed.

Lemma determine_calm st c :
  calm c -> next_state (determine_next_state st c) = calm_next st c.
Proof.
  intros (H1 & H2 & H3)%calm_iff. unfold determine_next_state. rewrite H1, H2, H3.
  cbn [nonempty]. cbv zeta. unfold calm_next.
  destruct (nonempty (_data_wait_reasons c)), (_hydration_ready c) eqn:Eh;
    try rewrite (not_hydrated_not_ready c Eh);
    try destruct (_context_ready c); by destruct st.
Qed.

(** ** The state machine *)

(** One refresh: the state the decision moves to. *)
Definition refresh (st : CandidateState.t) (c : FsmContext) : CandidateState.t :=
  next_state (determine_next_state st c).

(** Refreshes under a sequence of contexts. *)
Definition refreshes (st : CandidateState.t) (cs : list FsmContext) : CandidateState.t :=
  fold_left refresh cs st.

(** The outcome of a context that is not calm. *)
Lemma refresh_not_calm st c :
  st <> CandidateState.CLOSED ->
  refresh st c =
    if nonempty (should_close_candidate c) then CandidateState.CLOSED
    else if nonempty (should_mark_stale c) then CandidateState.STALE
    else if yes (observation_blocked c) then CandidateState.BLOCKED_OBSERVATION
    else calm_next st c.
Proof.
  intros Hst. unfold refresh.
  destruct (nonempty (should_close_candidate c)) eqn:E1;
    [|destruct (nonempty (should_mark_stale c)) eqn:E2;
      [|destruct (yes (observation_blocked c)) eqn:E3]].
  4: { apply determine_calm, calm_iff. by rewrite <- !nonempty_false. }
  all: unfold determine_next_state; rewrite bool_decide_false by done;
    rewrite E1; try rewrite E2; try rewrite E3; done.
Qed.

Lemma refresh_closed c : refresh CandidateState.CLOSED c = CandidateState.CLOSED.
Proof. reflexivity. Qed.

(** The edges of the lifecycle. *)
Definition edges (st : CandidateState.t) : list CandidateState.t :=
  match st with
  | CandidateState.CLOSED => [CandidateState.CLOSED]
  | CandidateState.DETECTED =>
      [CandidateState.CLOSED; CandidateState.STALE; CandidateState.BLOCKED_OBSERVATION;
       CandidateState.HYDRATING]
  | CandidateState.HYDRATING =>
      [CandidateState.CLOSED; CandidateState.STALE; CandidateState.BLOCKED_OBSERVATION;
       CandidateState.DATA_WAIT; CandidateState.WATCHING; CandidateState.HYDRATING]
  | CandidateState.DATA_WAIT =>
      [CandidateState.CLOSED; CandidateState.STALE; CandidateState.BLOCKED_OBSERVATION;
       CandidateState.WATCHING; CandidateState.DATA_WAIT]
  | CandidateState.STALE =>
      [CandidateState.CLOSED; CandidateState.STALE; CandidateState.BLOCKED_OBSERVATION;
       CandidateState.WATCHING; CandidateState.DATA_WAIT]
  | _ =>
      [CandidateState.CLOSED; CandidateState.STALE; CandidateState.BLOCKED_OBSERVATION;
       CandidateState.CONTEXT_READY; CandidateState.DATA_WAIT; CandidateState.WATCHING; st]
  end.

(** Contexts that take each edge. *)
Definition sample_context (closing stale blocked : bool) (status : string)
    (tick bar : bool) : FsmContext :=
  {| explicit_close := Some closing; active_source_count := Some 1; ttl_expired := None;
     theme_state := None; only_condition_exit_sources := None; source_stale := None;
     tick_stale := Some stale; candidate_stale_requires_tick_stale := None;
     observation_blocked := Some blocked; market_readiness_status := Some status;
     has_latest_tick := Some tick; require_1m_bar := None; bar_1m_ready := Some bar;
     require_vwap := None; vwap_ready := None; theme_source := None;
     theme_context_present := None; condition_source := None;
     condition_signal_present := None; context_reason_codes := [] |}.

Definition close_context := sample_context true false false "FRESH" true true.
Definition stale_context := sample_context false true false "FRESH" true true.
Definition blocked_context := sample_context false false true "FRESH" true true.
Definition ready_context := sample_context false false false "FRESH" true true.
Definition no_bar_context := sample_context false false false "FRESH" true false.
Definition no_tick_context := sample_context false false false "FRESH" false true.
Definition old_data_context := sample_context false false false "STALE" true true.
Definition invalid_context := sample_context false false false "INVALID" true true.

Definition all_contexts : list FsmContext :=
  [close_context; stale_context; blocked_context; ready_context; no_bar_context;
   no_tick_context; old_data_context; invalid_context].

Definition all_states : list CandidateState.t :=
  CandidateState.CLOSED :: ACTIVE_CANDIDATE_STATES.

Lemma edges_taken st st' :
  st' ∈ edges st -> exists c, refresh st c = st'.
Proof.
  assert (H : forallb (fun st => forallb (fun st' =>
      existsb (fun c => bool_decide (refresh st c = st')) all_contexts) (edges st))
      all_states = true) by (vm_compute; reflexivity).
  intros Hin. rewrite forallb_forall in H. specialize (H st).
  assert (Hst : In st all_states) by (destruct st; cbn; tauto).
  specialize (H Hst). rewrite forallb_forall in H.
  apply list_elem_of_In in Hin. specialize (H st' Hin). apply existsb_exists in H as (c & _ & Hc).
  exists c. by apply bool_decide_eq_true in Hc.
Qed.

Lemma calm_next_edges st c : calm_next st c ∈ edges st.
Proof.
  apply list_elem_of_In. unfold calm_next.
  destruct st; cbn; repeat case_match; cbn; tauto.
Qed.

Lemma refresh_edges st c : refresh st c ∈ edges st.
Proof.
  destruct (decide (st = CandidateState.CLOSED)) as [->|Hst]; [by left|].
  rewrite refresh_not_calm by done.
  repeat case_match; [..|apply calm_next_edges]; apply list_elem_of_In;
    destruct st; cbn; tauto.
Qed.

(** States a ready context takes straight to CONTEXT_READY. *)
Definition promotable : list CandidateState.t :=
  [CandidateState.WATCHING; CandidateState.CONTEXT_READY;
   CandidateState.BLOCKED_OBSERVATION; CandidateState.COOLDOWN].

(** A context whose tick is known and complete but whose market status is blank or
    INVALID: neither waiting, nor hydrated, nor ready. *)
Definition undecided (c : FsmContext) : Prop :=
  _data_wait_reasons c = [] /\ _hydration_ready c = false.

Lemma calm_next_ready st c :
  calm_next st c = CandidateState.CONTEXT_READY <->
  (st ∈ promotable /\ data_ready c) \/
  (st = CandidateState.CONTEXT_READY /\ undecided c).
Proof.
  unfold undecided, promotable. rewrite <- context_ready_iff, <- nonempty_false. split.
  - unfold calm_next.
    destruct (_context_ready c), (nonempty (_data_wait_reasons c)), (_hydration_ready c);
      destruct st; intros H; try done;
      first [left; split; [set_solver|done] | by right].
  - intros [[Hst Hr]|(-> & Hw & Hh)].
    + rewrite !elem_of_cons, elem_of_nil in Hst.
      unfold calm_next. rewrite Hr. by destruct Hst as [->|[->|[->|[->|[]]]]].
    + unfold calm_next. by rewrite (not_hydrated_not_ready c Hh), Hw, Hh.
Qed.

(** ** Properties *)

(** The lifecycle graph is exactly [edges]: a refresh can move a candidate
    along every listed edge and along no other.  In particular CLOSED is
    absorbing, nothing returns to DETECTED, COOLDOWN or HYDRATING, and HYDRATING,
    DATA_WAIT and STALE candidates pass through WATCHING before CONTEXT_READY. *)
Theorem lifecycle_edges (st st' : CandidateState.t) :
  (exists c, refresh st c = st') <-> st' ∈ edges st.
Proof.
  split; [|apply edges_taken]. intros (c & <-). apply refresh_edges.
Qed.

(** A refresh ends in CONTEXT_READY exactly when the context is calm (no
    close, stale or block condition) and either the data is ready and the
    candidate was WATCHING, CONTEXT_READY, BLOCKED_OBSERVATION or COOLDOWN, or
    the candidate already was CONTEXT_READY and the context is undecided. *)
Theorem context_ready_exact (st : CandidateState.t) (c : FsmContext) :
  refresh st c = CandidateState.CONTEXT_READY <->
  calm c /\ ((st ∈ promotable /\ data_ready c) \/
             (st = CandidateState.CONTEXT_READY /\ undecided c)).
Proof.
  rewrite <- calm_next_ready. split.
  - intros H. assert (Hst : st <> CandidateState.CLOSED).
    { intros ->. by rewrite refresh_closed in H. }
    rewrite refresh_not_calm in H by done. rewrite calm_iff, <- !nonempty_false.
    repeat case_match; done.
  - intros [Hc H]. unfold refresh. by rewrite determine_calm.
Qed.

Lemma refreshes_repeat st c n :
  calm c -> refreshes st (repeat c n) = Nat.iter n (fun s => calm_next s c) st.
Proof.
  intros Hc. revert st. induction n as [|n IH]; intros st; [done|].
  change (refreshes st (repeat c (S n))) with (refreshes (refresh st c) (repeat c n)).
  rewrite IH. unfold refresh. rewrite determine_calm by done. by rewrite Nat.iter_succ_r.
Qed.

(** Under a calm context whose data is ready, every candidate that is not
    closed reaches CONTEXT_READY within three refreshes and stays there. *)
Theorem ready_context_converges (st : CandidateState.t) (c : FsmContext) (n : nat)
    (Hcalm : calm c) (Hready : data_ready c) (Hst : st <> CandidateState.CLOSED) :
  refreshes st (repeat c (3 + n)) = CandidateState.CONTEXT_READY.
Proof.
  rewrite refreshes_repeat by done. rewrite Nat.add_comm, Nat.iter_add.
  pose proof (data_ready_hydration c Hready) as Hh.
  pose proof (data_ready_no_wait c Hready) as Hw. apply context_ready_iff in Hready.
  apply nonempty_false in Hw.
  assert (H3 : Nat.iter 3 (fun s => calm_next s c) st = CandidateState.CONTEXT_READY).
  { unfold calm_next. rewrite Hw, Hh, Hready. by destruct st. }
  rewrite H3. induction n as [|n IH]; [done|]. rewrite Nat.iter_succ, IH.
  unfold calm_next. by rewrite Hready.
Qed.

Lemma ready_context_data : calm ready_context /\ data_ready ready_context.
Proof.
  split; [apply calm_iff|apply context_ready_iff]; vm_compute; done.
Qed.

Lemma ready_context_converges_witness :
  refreshes CandidateState.DETECTED (repeat ready_context 3) = CandidateState.CONTEXT_READY.
Proof.
  apply (ready_context_converges CandidateState.DETECTED ready_context 0);
    [apply ready_context_data|apply ready_context_data|discriminate].
Defined.

(** A DATA_WAIT candidate does not wait for its missing data: under a fixed
    calm context with a usable tick that still lacks a required bar, VWAP or theme
    context, refreshes alternate between WATCHING and DATA_WAIT for ever. *)
Theorem data_wait_oscillates (c : FsmContext) (n : nat)
    (Hcalm : calm c) (Hhydrated : _hydration_ready c = true)
    (Hmissing : _data_wait_reasons c <> []) :
  refreshes CandidateState.DATA_WAIT (repeat c n) =
    if Nat.even n then CandidateState.DATA_WAIT else CandidateState.WATCHING.
Proof.
  rewrite refreshes_repeat by done. apply nonempty_true in Hmissing.
  assert (Hr : _context_ready c = false).
  { destruct (_context_ready c) eqn:E; [|done].
    apply context_ready_iff, data_ready_no_wait, nonempty_false in E. congruence. }
  induction n as [|n IH]; [done|]. rewrite Nat.iter_succ, IH, Nat.even_succ.
  rewrite <- Nat.negb_even. unfold calm_next. rewrite Hr, Hmissing, Hhydrated.
  by destruct (Nat.even n).
Qed.

Lemma data_wait_oscillates_witness :
  refreshes CandidateState.DATA_WAIT (repeat no_bar_context 5) = CandidateState.WATCHING.
Proof.
  apply (data_wait_oscillates no_bar_context 5);
    [apply calm_iff; vm_compute; done|vm_compute; done|vm_compute; done].
Defined.
