(* ===== verification/CandidateStore.v ===== *)
(** * The candidate store ([services/candidate_service.py])

    The tables [candidates], [candidate_source_events],
    [candidate_sources_latest] and [candidate_state_transitions], and the
    operations that write them: [create_or_merge_candidate_from_source], the exit
    path and [refresh_candidate_context].  What the refresh reads from the market
    and theme components is an input of the operation. *)
From stdpp Require Import pretty.
From S2P Require Import Prelude PyFloat BrokerUtils ExitPolicy Candidate.
Local Open Scope Z_scope.

Module CS := CandidateState.
Module CST := CandidateSourceType.
Module CET := CandidateEventType.

(** ** Rows *)

Record candidate_row := {
  c_candidate_instance_id : string;
  c_trade_date : string;
  c_code : string;
  c_name : string;
  c_generation : Z;
  c_state : CS.t;
  c_previous_state : option CS.t;
  c_detected_at : Z;
  c_last_seen_at : Z;
  c_state_updated_at : Z;
  c_closed_at : option Z;
  c_primary_source_type : CST.t;
  c_primary_source_id : string;
  c_source_count : Z;
  c_active_source_count : Z;
  c_theme_id : option string;
  c_theme_name : option string;
  c_theme_state : option string;
  c_theme_role : option string;
  c_market_readiness_status : option string;
  c_tick_age_sec : option float;
  c_vwap_ready : bool;
  c_bar_1m_ready : bool;
  c_bar_3m_ready : bool;
  c_bar_5m_ready : bool;
  c_reason_codes : list string
}.

(** A row of [candidate_source_events], with its [active] flag. *)
Record source_event_row := {
  ser_event : CandidateSourceEvent;
  ser_active : bool
}.

(** A row of [candidate_sources_latest]; its primary key is (trade date, code,
    source type, source id). *)
Record latest_row := {
  l_trade_date : string;
  l_code : string;
  l_source_type : CST.t;
  l_source_id : string;
  l_candidate_instance_id : string;
  l_name : string;
  l_active : bool;
  l_first_seen_at : Z;
  l_last_seen_at : Z;
  l_last_event_id : string;
  l_payload : list (string * json)
}.

(** The text hashed into a transition id, before hashing. *)
Definition transition_key : Type :=
  string * option CS.t * CS.t * CET.t * (string + Z).

Record transition_row := {
  t_key : transition_key;
  t_candidate_instance_id : string;
  t_trade_date : string;
  t_code : string;
  t_from_state : option CS.t;
  t_to_state : CS.t;
  t_event_type : CET.t;
  t_source_event_id : option string;
  t_reason_codes : list string;
  t_transitioned_at : Z
}.

Record store := {
  candidates : list candidate_row;
  source_events : list source_event_row;
  sources_latest : list latest_row;
  transitions : list transition_row
}.

Definition empty_store : store :=
  {| candidates := []; source_events := []; sources_latest := []; transitions := [] |}.

(** ** SQL idioms *)

(** [UPDATE table SET row = f(row) WHERE p(row)]. *)
Definition update_where {A} (p : A -> bool) (f : A -> A) (rows : list A) : list A :=
  map (fun r => if p r then f r else r) rows.

Definition count_where {A} (p : A -> bool) (rows : list A) : Z :=
  Z.of_nat (length (List.filter p rows)).

Definition has_id (cid : string) (c : candidate_row) : bool :=
  String.eqb (c_candidate_instance_id c) cid.
Definition is_open (c : candidate_row) : bool := negb (bool_decide (c_state c = CS.CLOSED)).
Definition same_key (trade_date code : string) (c : candidate_row) : bool :=
  String.eqb (c_trade_date c) trade_date && String.eqb (c_code c) code.

Definition set_candidates (s : store) (cs : list candidate_row) : store :=
  {| candidates := cs; source_events := source_events s;
     sources_latest := sources_latest s; transitions := transitions s |}.
Definition set_events (s : store) (es : list source_event_row) : store :=
  {| candidates := candidates s; source_events := es;
     sources_latest := sources_latest s; transitions := transitions s |}.
Definition set_latest (s : store) (ls : list latest_row) : store :=
  {| candidates := candidates s; source_events := source_events s;
     sources_latest := ls; transitions := transitions s |}.
Definition set_transitions (s : store) (ts : list transition_row) : store :=
  {| candidates := candidates s; source_events := source_events s;
     sources_latest := sources_latest s; transitions := ts |}.

(** ** Queries *)

Definition _candidate_row (s : store) (cid : string) : option candidate_row :=
  List.find (has_id cid) (candidates s).

(** [ORDER BY generation DESC LIMIT 1]. *)
Definition _find_active_candidate (s : store) (trade_date code : string)
    : option candidate_row :=
  head (stable_sort (fun a b => c_generation b <=? c_generation a)
    (List.filter (fun c => same_key trade_date code c && is_open c) (candidates s))).

(** [int(MAX(generation) or 0) + 1]. *)
Definition _next_generation (s : store) (trade_date code : string) : Z :=
  fold_right Z.max 0
    (map c_generation (List.filter (same_key trade_date code) (candidates s))) + 1.

Definition _candidate_instance_id (trade_date code : string) (generation : Z) : string :=
  "CAND-" +:+ trade_date +:+ "-" +:+ code +:+ "-" +:+ pretty generation.

Definition _source_event_exists (s : store) (source_event_id : string) : bool :=
  existsb (fun r => String.eqb (se_source_event_id (ser_event r)) source_event_id)
    (source_events s).

Definition linked_active (cid : string) (r : latest_row) : bool :=
  String.eqb (l_candidate_instance_id r) cid && l_active r.

(** The value of a source type, for [ORDER BY source_type]. *)
Definition source_type_value (t : CST.t) : string :=
  match t with
  | CST.CONDITION_ENTER => "CONDITION_ENTER" | CST.CONDITION_EXIT => "CONDITION_EXIT"
  | CST.CONDITION_DISCOVERY => "CONDITION_DISCOVERY"
  | CST.CONDITION_LEADER => "CONDITION_LEADER"
  | CST.CONDITION_PULLBACK => "CONDITION_PULLBACK"
  | CST.CONDITION_BREAKOUT => "CONDITION_BREAKOUT"
  | CST.CONDITION_RISK_BLOCK => "CONDITION_RISK_BLOCK"
  | CST.THEME_LEADER => "THEME_LEADER" | CST.THEME_CO_LEADER => "THEME_CO_LEADER"
  | CST.THEME_FOLLOWER => "THEME_FOLLOWER"
  | CST.THEME_SPREADING_MEMBER => "THEME_SPREADING_MEMBER"
  | CST.MARKET_OBSERVED => "MARKET_OBSERVED" | CST.MANUAL_WATCH => "MANUAL_WATCH"
  | CST.MOCK => "MOCK"
  end.

(** [ORDER BY last_seen_at DESC, source_type ASC, source_id ASC]. *)
Definition latest_before (a b : latest_row) : bool :=
  if wire_lt (l_last_seen_at b) (l_last_seen_at a) then true
  else if wire_lt (l_last_seen_at a) (l_last_seen_at b) then false else
  let ta := source_type_value (l_source_type a) in
  let tb := source_type_value (l_source_type b) in
  if String.ltb ta tb then true else if String.ltb tb ta then false
  else String.leb (l_source_id a) (l_source_id b).

Definition _list_latest_source_rows (s : store) (cid : string) (active_only : bool)
    : list latest_row :=
  stable_sort latest_before
    (List.filter (fun r => String.eqb (l_candidate_instance_id r) cid
                           && (negb active_only || l_active r)) (sources_latest s)).

(** ** Theme attributes carried by a source payload *)

(** [_first_text(a, b)]: the first value that is a non-blank string. *)
Definition _first_text (vs : list (option json)) : option string :=
  head (omap (fun v => match v with
                       | Some (JStr t) => if str_true (py_strip t) then Some (py_strip t) else None
                       | _ => None end) vs).

Definition _source_theme_state (e : CandidateSourceEvent) : option string :=
  match _first_text [jget "state" (se_payload e); jget "theme_state" (se_payload e)] with
  | None => None
  | Some value =>
      let normalized := py_upper value in
      Some (if mem normalized ["LEADING"; "SPREADING"; "FADING"; "DATA_WAIT"]
            then normalized else "WATCH")
  end.

Definition _source_member_role (e : CandidateSourceEvent) : option string :=
  match _first_text [jget "member_role" (se_payload e); jget "stock_role" (se_payload e)] with
  | None => None
  | Some value =>
      let normalized := py_upper value in
      Some (if mem normalized ["LEADER_CANDIDATE"; "CO_LEADER_CANDIDATE";
                               "FOLLOWER_CANDIDATE"; "LAGGARD"; "STALE"; "UNKNOWN"]
            then normalized
            else if String.eqb normalized "LEADER" then "LEADER_CANDIDATE"
            else if String.eqb normalized "CO_LEADER" then "CO_LEADER_CANDIDATE"
            else if String.eqb normalized "FOLLOWER" then "FOLLOWER_CANDIDATE"
            else "LAGGARD")
  end.

(** ** Writes *)

(** [_insert_candidate]; the primary key is the candidate id. *)
Definition _insert_candidate (now : Z) (s : store) (e : CandidateSourceEvent)
    (cid : string) (generation : Z) : res store :=
  if existsb (has_id cid) (candidates s) then Err IntegrityError else
  Ok (set_candidates s (candidates s ++
    [{| c_candidate_instance_id := cid; c_trade_date := se_trade_date e;
        c_code := se_code e; c_name := se_name e; c_generation := generation;
        c_state := CS.DETECTED; c_previous_state := None;
        c_detected_at := se_observed_at e; c_last_seen_at := se_observed_at e;
        c_state_updated_at := now; c_closed_at := None;
        c_primary_source_type := se_source_type e;
        c_primary_source_id := se_source_id e;
        c_source_count := 0; c_active_source_count := 0;
        c_theme_id := se_theme_id e; c_theme_name := se_theme_name e;
        c_theme_state := _source_theme_state e; c_theme_role := _source_member_role e;
        c_market_readiness_status := None; c_tick_age_sec := None;
        c_vwap_ready := false; c_bar_1m_ready := false; c_bar_3m_ready := false;
        c_bar_5m_ready := false;
        c_reason_codes := merge_reason_codes
          [se_reason_codes e; ["CANDIDATE_CREATED"; "SOURCE_DETECTED"]] |}])).

Definition _insert_source_event (s : store) (e : CandidateSourceEvent) (active : bool)
    : res store :=
  if _source_event_exists s (se_source_event_id e) then Err IntegrityError else
  Ok (set_events s (source_events s ++ [{| ser_event := e; ser_active := active |}])).

Definition latest_key_of (e : CandidateSourceEvent) (r : latest_row) : bool :=
  String.eqb (l_trade_date r) (se_trade_date e) && String.eqb (l_code r) (se_code e)
  && bool_decide (l_source_type r = se_source_type e)
  && String.eqb (l_source_id r) (se_source_id e).

(** [INSERT ... ON CONFLICT DO UPDATE]; [candidate_instance_id] is NOT NULL. *)
Definition _upsert_latest_source (s : store) (e : CandidateSourceEvent) (active : bool)
    : res store :=
  match se_candidate_instance_id e with
  | None => Err IntegrityError
  | Some cid =>
      if existsb (latest_key_of e) (sources_latest s) then
        Ok (set_latest s (update_where (latest_key_of e)
          (fun r => {| l_trade_date := l_trade_date r; l_code := l_code r;
                       l_source_type := l_source_type r; l_source_id := l_source_id r;
                       l_candidate_instance_id := cid; l_name := se_name e;
                       l_active := active; l_first_seen_at := l_first_seen_at r;
                       l_last_seen_at := se_observed_at e;
                       l_last_event_id := se_source_event_id e;
                       l_payload := se_payload e |}) (sources_latest s)))
      else
        Ok (set_latest s (sources_latest s ++
          [{| l_trade_date := se_trade_date e; l_code := se_code e;
              l_source_type := se_source_type e; l_source_id := se_source_id e;
              l_candidate_instance_id := cid; l_name := se_name e; l_active := active;
              l_first_seen_at := se_observed_at e; l_last_seen_at := se_observed_at e;
              l_last_event_id := se_source_event_id e; l_payload := se_payload e |}]))
  end.

Definition set_counts (source_count active_count : Z) (c : candidate_row) : candidate_row :=
  {| c_candidate_instance_id := c_candidate_instance_id c; c_trade_date := c_trade_date c;
     c_code := c_code c; c_name := c_name c; c_generation := c_generation c;
     c_state := c_state c; c_previous_state := c_previous_state c;
     c_detected_at := c_detected_at c; c_last_seen_at := c_last_seen_at c;
     c_state_updated_at := c_state_updated_at c; c_closed_at := c_closed_at c;
     c_primary_source_type := c_primary_source_type c;
     c_primary_source_id := c_primary_source_id c; c_source_count := source_count;
     c_active_source_count := active_count; c_theme_id := c_theme_id c;
     c_theme_name := c_theme_name c; c_theme_state := c_theme_state c;
     c_theme_role := c_theme_role c;
     c_market_readiness_status := c_market_readiness_status c;
     c_tick_age_sec := c_tick_age_sec c; c_vwap_ready := c_vwap_ready c;
     c_bar_1m_ready := c_bar_1m_ready c; c_bar_3m_ready := c_bar_3m_ready c;
     c_bar_5m_ready := c_bar_5m_ready c; c_reason_codes := c_reason_codes c |}.

Definition event_linked (cid : string) (r : source_event_row) : bool :=
  bool_decide (se_candidate_instance_id (ser_event r) = Some cid).

Definition _sync_candidate_source_counts (s : store) (cid : string) : store :=
  set_candidates s (update_where (has_id cid)
    (set_counts (count_where (event_linked cid) (source_events s))
                (count_where (linked_active cid) (sources_latest s))) (candidates s)).

Definition _update_candidate_from_source (s : store) (cid : string)
    (e : CandidateSourceEvent) : store :=
  set_candidates s (update_where (has_id cid)
    (fun c =>
     {| c_candidate_instance_id := c_candidate_instance_id c;
        c_trade_date := c_trade_date c; c_code := c_code c; c_name := se_name e;
        c_generation := c_generation c; c_state := c_state c;
        c_previous_state := c_previous_state c; c_detected_at := c_detected_at c;
        c_last_seen_at := wire_max (c_last_seen_at c) (se_observed_at e);
        c_state_updated_at := c_state_updated_at c; c_closed_at := c_closed_at c;
        c_primary_source_type := c_primary_source_type c;
        c_primary_source_id := c_primary_source_id c;
        c_source_count := c_source_count c;
        c_active_source_count := c_active_source_count c;
        c_theme_id := coalesce (se_theme_id e) (c_theme_id c);
        c_theme_name := coalesce (se_theme_name e) (c_theme_name c);
        c_theme_state := coalesce (_source_theme_state e) (c_theme_state c);
        c_theme_role := coalesce (_source_member_role e) (c_theme_role c);
        c_market_readiness_status := c_market_readiness_status c;
        c_tick_age_sec := c_tick_age_sec c; c_vwap_ready := c_vwap_ready c;
        c_bar_1m_ready := c_bar_1m_ready c; c_bar_3m_ready := c_bar_3m_ready c;
        c_bar_5m_ready := c_bar_5m_ready c;
        c_reason_codes := se_reason_codes e |}) (candidates s)).

(** [INSERT OR IGNORE], with the number of rows written. *)
Definition _record_transition (now : Z) (s : store) (cid trade_date code : string)
    (from : option CS.t) (to : CS.t) (event_type : CET.t)
    (source_event_id : option string) (reasons : list string) : store * Z :=
  let key : transition_key :=
    (cid, from, to, event_type,
     match source_event_id with
     | Some t => if str_true t then inl t else inr now
     | None => inr now
     end) in
  if existsb (fun t => bool_decide (t_key t = key)) (transitions s) then (s, 0) else
  (set_transitions s (transitions s ++
     [{| t_key := key; t_candidate_instance_id := cid; t_trade_date := trade_date;
         t_code := code; t_from_state := from; t_to_state := to;
         t_event_type := event_type; t_source_event_id := source_event_id;
         t_reason_codes := reasons; t_transitioned_at := now |}]), 1).

(** The row after [UPDATE candidates SET previous_state = state, state = ?, ...]. *)
Definition move_to (now : Z) (next : CS.t) (reasons : list string) (c : candidate_row)
    : candidate_row :=
  {| c_candidate_instance_id := c_candidate_instance_id c; c_trade_date := c_trade_date c;
     c_code := c_code c; c_name := c_name c; c_generation := c_generation c;
     c_state := next; c_previous_state := Some (c_state c);
     c_detected_at := c_detected_at c; c_last_seen_at := c_last_seen_at c;
     c_state_updated_at := now;
     c_closed_at := if bool_decide (next = CS.CLOSED) then Some now else c_closed_at c;
     c_primary_source_type := c_primary_source_type c;
     c_primary_source_id := c_primary_source_id c; c_source_count := c_source_count c;
     c_active_source_count := c_active_source_count c; c_theme_id := c_theme_id c;
     c_theme_name := c_theme_name c; c_theme_state := c_theme_state c;
     c_theme_role := c_theme_role c;
     c_market_readiness_status := c_market_readiness_status c;
     c_tick_age_sec := c_tick_age_sec c; c_vwap_ready := c_vwap_ready c;
     c_bar_1m_ready := c_bar_1m_ready c; c_bar_3m_ready := c_bar_3m_ready c;
     c_bar_5m_ready := c_bar_5m_ready c; c_reason_codes := reasons |}.

Definition _apply_state_transition (now : Z) (s : store) (cid : string) (next : CS.t)
    (event_type : CET.t) (source_event_id : option string) (reasons : list string)
    : res (store * Z) :=
  match _candidate_row s cid with
  | None => Err (ValueError ("candidate not found: " +:+ cid))
  | Some row =>
      if bool_decide (c_state row = next) then Ok (s, 0) else
      let s := set_candidates s (update_where (has_id cid) (move_to now next reasons)
                                   (candidates s)) in
      Ok (_record_transition now s cid (c_trade_date row) (c_code row)
            (Some (c_state row)) next event_type source_event_id reasons)
  end.

(** ** Refresh *)

(** What [get_market_data_readiness] reports. *)
Record Readiness := {
  r_quality_status : option string;
  r_has_latest_tick : bool;
  r_tick_age_sec : option float;
  r_has_1m_bar : bool;
  r_has_3m_bar : bool;
  r_has_5m_bar : bool;
  r_vwap_ready : bool;
  r_reason_codes : list string
}.

(** The entries of the theme context the refresh uses; [tc_has_sources] is the
    truth value of either of its source lists. *)
Record ThemeContext := {
  tc_present : bool;
  tc_has_sources : bool;
  tc_theme_id : option string;
  tc_theme_name : option string;
  tc_theme_state : option string;
  tc_theme_role : option string
}.

Record CandidateSettings := {
  candidate_fsm_enabled : bool;
  candidate_source_stale_sec : Z;
  candidate_tick_stale_sec : Z;
  cs_stale_requires_tick_stale : bool;
  candidate_episode_ttl_sec : Z;
  candidate_context_require_1m_bar : bool;
  candidate_context_require_vwap : bool
}.

Section Operations.
Context (py_repr : json -> string) (settings : CandidateSettings).

Definition _readiness_reason_codes (r : Readiness) : list string :=
  let status := upper_text (r_quality_status r) in
  merge_reason_codes
    [(if String.eqb status "FRESH" then ["MARKET_TICK_FRESH"; "MARKET_READINESS_READY"] else [])
     ++ add_if (String.eqb status "MISSING") "MARKET_READINESS_MISSING"
     ++ flat_map (fun reason =>
          let value := py_upper reason in
          if String.prefix "BAR_MISSING" value then ["BAR_MISSING"]
          else if String.eqb value "VWAP_MISSING" then ["VWAP_MISSING"]
          else if String.eqb value "TICK_STALE" then ["TICK_STALE"]
          else if String.eqb value "TICK_MISSING" then ["MARKET_READINESS_MISSING"]
          else []) (r_reason_codes r)].

Definition _theme_reason_codes (t : ThemeContext) : list string :=
  if negb (tc_has_sources t) then [] else
  let state := upper_text (tc_theme_state t) in
  let role := upper_text (tc_theme_role t) in
  (if String.eqb state "LEADING" then ["THEME_STATE_LEADING"]
   else add_if (String.eqb state "SPREADING") "THEME_STATE_SPREADING")
  ++ (if String.eqb role "LEADER_CANDIDATE" then ["THEME_LEADING_MEMBER"]
      else if String.eqb role "CO_LEADER_CANDIDATE" then ["THEME_CO_LEADER_MEMBER"]
      else add_if (String.eqb role "FOLLOWER_CANDIDATE") "THEME_FOLLOWER_MEMBER").

(** [_condition_source_values]: every condition source but the exit. *)
Definition _condition_source_values : list CST.t :=
  [CST.CONDITION_ENTER; CST.CONDITION_DISCOVERY; CST.CONDITION_LEADER;
   CST.CONDITION_PULLBACK; CST.CONDITION_BREAKOUT; CST.CONDITION_RISK_BLOCK].

Definition condition_row (r : latest_row) : bool :=
  bool_decide (l_source_type r ∈ _condition_source_values).

(** [[str(v) for v in payload.get("reason_codes", ())]]. *)
Definition payload_reason_codes (payload : list (string * json)) : res (list string) :=
  match jget "reason_codes" payload with
  | None => Ok []
  | Some v => let* items := json_iter v in Ok (map (py_str py_repr) items)
  end.

Fixpoint fusion_reasons_of (rows : list latest_row) : res (list string) :=
  match rows with
  | [] => Ok []
  | r :: rs =>
      if condition_row r then
        let* here := payload_reason_codes (l_payload r) in
        let* rest := fusion_reasons_of rs in Ok (here ++ rest)
      else fusion_reasons_of rs
  end.

Definition _active_condition_fusion_reason_codes (rows : list latest_row)
    : res (list string) :=
  let* reasons := fusion_reasons_of rows in Ok (merge_reason_codes [reasons]).

Definition is_json_bool (b : bool) (v : option json) : bool :=
  match v with Some (JBool b') => Bool.eqb b b' | _ => false end.

Definition _active_condition_fusion_blocked (rows : list latest_row) : bool :=
  existsb (fun r =>
    condition_row r &&
    (match jget "risk_blocked" (l_payload r) with Some v => jtrue v | None => false end
     || bool_decide (l_source_type r = CST.CONDITION_RISK_BLOCK)
     || let metadata := match jget "metadata" (l_payload r) with
                        | Some (JObj m) => m | _ => [] end in
        is_json_bool false (jget "candidate_promotion_allowed" metadata)
        && negb (is_json_bool true (jget "discovery_promotion_pending" metadata)))) rows.

(** [_age_seconds(ts) > limit]. *)
Definition older_than (now ts limit : Z) : res bool :=
  let* age := total_seconds (now - ts) in
  Ok (f_gtZ (f_max age f_zero) limit).

(** [max(str(row["last_seen_at"]) ...)]: the latest by text. *)
Definition _latest_source_seen_at (rows : list latest_row) : option Z :=
  match map l_last_seen_at rows with
  | [] => None
  | t :: ts => Some (fold_left wire_max ts t)
  end.

Definition _fsm_context (now : Z) (candidate : candidate_row) (active : list latest_row)
    (r : Readiness) (t : ThemeContext) : res FsmContext :=
  let theme_src := existsb (fun x => bool_decide (l_source_type x ∈ THEME_SOURCE_TYPES)) active in
  let condition_src := existsb condition_row active in
  let* fusion_reasons := _active_condition_fusion_reason_codes active in
  let blocked := _active_condition_fusion_blocked active in
  let* src_stale :=
    match _latest_source_seen_at active with
    | Some seen => older_than now seen (candidate_source_stale_sec settings)
    | None => Ok false
    end in
  let tick_old :=
    match r_tick_age_sec r with
    | Some a => f_gtZ a (candidate_tick_stale_sec settings)
    | None => false
    end in
  let* expired := older_than now (c_detected_at candidate) (candidate_episode_ttl_sec settings) in
  Ok {| explicit_close := None;
        active_source_count := Some (Z.of_nat (length active));
        ttl_expired := Some expired; theme_state := tc_theme_state t;
        only_condition_exit_sources := None; source_stale := Some src_stale;
        tick_stale := Some tick_old;
        candidate_stale_requires_tick_stale := Some (cs_stale_requires_tick_stale settings);
        observation_blocked := Some blocked; market_readiness_status := r_quality_status r;
        has_latest_tick := Some (r_has_latest_tick r);
        require_1m_bar := Some (candidate_context_require_1m_bar settings);
        bar_1m_ready := Some (r_has_1m_bar r);
        require_vwap := Some (candidate_context_require_vwap settings);
        vwap_ready := Some (r_vwap_ready r); theme_source := Some theme_src;
        theme_context_present := Some (tc_present t);
        condition_source := Some condition_src;
        condition_signal_present := Some condition_src;
        context_reason_codes := merge_reason_codes
          [_readiness_reason_codes r; fusion_reasons; add_if src_stale "SOURCE_STALE"] |}.

Definition context_columns (active_count all_count : Z) (r : Readiness) (t : ThemeContext)
    (reasons : list string) (c : candidate_row) : candidate_row :=
  {| c_candidate_instance_id := c_candidate_instance_id c; c_trade_date := c_trade_date c;
     c_code := c_code c; c_name := c_name c; c_generation := c_generation c;
     c_state := c_state c; c_previous_state := c_previous_state c;
     c_detected_at := c_detected_at c; c_last_seen_at := c_last_seen_at c;
     c_state_updated_at := c_state_updated_at c; c_closed_at := c_closed_at c;
     c_primary_source_type := c_primary_source_type c;
     c_primary_source_id := c_primary_source_id c; c_source_count := all_count;
     c_active_source_count := active_count;
     c_theme_id := coalesce (tc_theme_id t) (c_theme_id c);
     c_theme_name := coalesce (tc_theme_name t) (c_theme_name c);
     c_theme_state := coalesce (tc_theme_state t) (c_theme_state c);
     c_theme_role := coalesce (tc_theme_role t) (c_theme_role c);
     c_market_readiness_status := r_quality_status r; c_tick_age_sec := r_tick_age_sec r;
     c_vwap_ready := r_vwap_ready r; c_bar_1m_ready := r_has_1m_bar r;
     c_bar_3m_ready := r_has_3m_bar r; c_bar_5m_ready := r_has_5m_bar r;
     c_reason_codes := reasons |}.

Definition _update_candidate_context_columns (s : store) (cid : string)
    (active_count all_count : Z) (r : Readiness) (t : ThemeContext) (reasons : list string)
    : store :=
  set_candidates s
    (update_where (has_id cid) (context_columns active_count all_count r t reasons)
       (candidates s)).

Record CandidateRefreshResult := {
  rr_context_refreshed_count : Z;
  rr_transition_count : Z;
  rr_stale_count : Z;
  rr_closed_count : Z
}.
Definition no_refresh : CandidateRefreshResult :=
  {| rr_context_refreshed_count := 0; rr_transition_count := 0; rr_stale_count := 0;
     rr_closed_count := 0 |}.

Definition event_type_of (d : CandidateStateDecision) : CET.t :=
  if close_candidate d then CET.CANDIDATE_CLOSED
  else if stale_candidate d then CET.CANDIDATE_STALE else CET.STATE_CHANGED.

Definition one_if (b : bool) : Z := if b then 1 else 0.

Definition refresh_candidate_context (now : Z) (r : Readiness) (t : ThemeContext)
    (s : store) (cid : string) : res (store * CandidateRefreshResult) :=
  let* cid := require_non_empty cid "candidate_instance_id" in
  match _candidate_row s cid with
  | None => Err (ValueError ("candidate not found: " +:+ cid))
  | Some row =>
      if bool_decide (c_state row = CS.CLOSED) then Ok (s, no_refresh) else
      let active := _list_latest_source_rows s cid true in
      let all := _list_latest_source_rows s cid false in
      let* context := _fsm_context now row active r t in
      let decision := determine_next_state (c_state row) context in
      let reasons := merge_reason_codes
        [c_reason_codes row; _readiness_reason_codes r; _theme_reason_codes t;
         context_reason_codes context; reason_codes decision] in
      let s := _update_candidate_context_columns s cid (Z.of_nat (length active))
                 (Z.of_nat (length all)) r t reasons in
      let* (s, transition_count) :=
        if bool_decide (next_state decision = c_state row) then Ok (s, 0)
        else _apply_state_transition now s cid (next_state decision)
               (event_type_of decision) None reasons in
      Ok (s, {| rr_context_refreshed_count := 1; rr_transition_count := transition_count;
                rr_stale_count := one_if (bool_decide (next_state decision = CS.STALE));
                rr_closed_count := one_if (bool_decide (next_state decision = CS.CLOSED)) |})
  end.

(** ** Source events *)

Record CandidateSourceApplyResult := {
  ar_source_event_count : Z;
  ar_candidate_created_count : Z;
  ar_candidate_updated_count : Z;
  ar_duplicate_source_count : Z;
  ar_transition_count : Z;
  ar_closed_count : Z
}.

(** The rows an exit deactivates: the CONDITION_ENTER source of the same id. *)
Definition exits (cid source_id : string) (r : latest_row) : bool :=
  String.eqb (l_candidate_instance_id r) cid
  && bool_decide (l_source_type r = CST.CONDITION_ENTER)
  && String.eqb (l_source_id r) source_id.

Definition deactivate (e : CandidateSourceEvent) (r : latest_row) : latest_row :=
  {| l_trade_date := l_trade_date r; l_code := l_code r; l_source_type := l_source_type r;
     l_source_id := l_source_id r; l_candidate_instance_id := l_candidate_instance_id r;
     l_name := l_name r; l_active := false; l_first_seen_at := l_first_seen_at r;
     l_last_seen_at := se_observed_at e; l_last_event_id := se_source_event_id e;
     l_payload := se_payload e |}.

Definition _apply_exit_source_event (now : Z) (r : Readiness) (t : ThemeContext)
    (s : store) (e : CandidateSourceEvent) : res (store * CandidateSourceApplyResult) :=
  let cid := c_candidate_instance_id <$> _find_active_candidate s (se_trade_date e) (se_code e) in
  let* linked := with_candidate e cid in
  let* s := _insert_source_event s linked false in
  match cid with
  | None =>
      Ok (s, {| ar_source_event_count := 1; ar_candidate_created_count := 0;
                ar_candidate_updated_count := 0; ar_duplicate_source_count := 0;
                ar_transition_count := 0; ar_closed_count := 0 |})
  | Some cid =>
      let s := set_latest s (update_where (exits cid (se_source_id e)) (deactivate e)
                               (sources_latest s)) in
      let s := _sync_candidate_source_counts s cid in
      let* (s, rr) := refresh_candidate_context now r t s cid in
      Ok (s, {| ar_source_event_count := 1; ar_candidate_created_count := 0;
                ar_candidate_updated_count := 1; ar_duplicate_source_count := 0;
                ar_transition_count := rr_transition_count rr;
                ar_closed_count := rr_closed_count rr |})
  end.

(** The branch that opens an episode: a new row, DETECTED and then HYDRATING. *)
Definition open_episode (now : Z) (s : store) (e : CandidateSourceEvent)
    : res (store * string * Z) :=
  let generation := _next_generation s (se_trade_date e) (se_code e) in
  let cid := _candidate_instance_id (se_trade_date e) (se_code e) generation in
  let* s := _insert_candidate now s e cid generation in
  let '(s, n1) :=
    _record_transition now s cid (se_trade_date e) (se_code e) None CS.DETECTED
      CET.CANDIDATE_CREATED (Some (se_source_event_id e))
      ["CANDIDATE_CREATED"; "SOURCE_DETECTED"] in
  let* (s, n2) := _apply_state_transition now s cid CS.HYDRATING CET.STATE_CHANGED
                    (Some (se_source_event_id e)) ["SOURCE_DETECTED"] in
  Ok (s, cid, n1 + n2).

Definition create_or_merge_candidate_from_source (now : Z) (r : Readiness)
    (t : ThemeContext) (s : store) (e : CandidateSourceEvent)
    : res (store * CandidateSourceApplyResult) :=
  let result created updated duplicate n :=
    {| ar_source_event_count := created + updated; ar_candidate_created_count := created;
       ar_candidate_updated_count := updated; ar_duplicate_source_count := duplicate;
       ar_transition_count := n; ar_closed_count := 0 |} in
  if negb (candidate_fsm_enabled settings) then Ok (s, result 0 0 0 0)
  else if _source_event_exists s (se_source_event_id e) then Ok (s, result 0 0 1 0)
  else if bool_decide (se_source_type e = CST.CONDITION_EXIT)
  then _apply_exit_source_event now r t s e
  else
  let* (s, cid, created, n) :=
    match _find_active_candidate s (se_trade_date e) (se_code e) with
    | Some active => Ok (s, c_candidate_instance_id active, false, 0)
    | None => let* (s, cid, n) := open_episode now s e in Ok (s, cid, true, n)
    end in
  let* linked := with_candidate e (Some cid) in
  let* s := _insert_source_event s linked true in
  let* s := _upsert_latest_source s linked true in
  let s := _sync_candidate_source_counts s cid in
  let s := _update_candidate_from_source s cid linked in
  Ok (s, result (one_if created) (one_if (negb created)) 0 n).
End Operations.

(** ** Facts about the SQL idioms *)

Lemma elem_of_update_where {A} (p : A -> bool) f rows y :
  y ∈ update_where p f rows <->
  exists x, x ∈ rows /\ y = if p x then f x else x.
Proof.
  unfold update_where. rewrite list_elem_of_In, in_map_iff.
  setoid_rewrite list_elem_of_In. naive_solver.
Qed.

Lemma map_update_where {A B} (p : A -> bool) f (g : A -> B) rows :
  (forall x, g (f x) = g x) -> map g (update_where p f rows) = map g rows.
Proof.
  intros Hg. unfold update_where. rewrite map_map. apply map_ext. intros x.
  destruct (p x); [apply Hg|done].
Qed.

Lemma count_where_app {A} (p : A -> bool) l1 l2 :
  count_where p (l1 ++ l2) = count_where p l1 + count_where p l2.
Proof. unfold count_where. rewrite filter_app, length_app. lia. Qed.

Lemma count_where_ext {A} (p q : A -> bool) l :
  (forall x, x ∈ l -> p x = q x) -> count_where p l = count_where q l.
Proof.
  intros H. unfold count_where. do 2 f_equal. apply filter_ext_in.
  intros x Hx%list_elem_of_In. by apply H.
Qed.

Lemma count_where_map {A B} (p : B -> bool) (f : A -> B) l :
  count_where p (map f l) = count_where (fun x => p (f x)) l.
Proof.
  unfold count_where. induction l as [|x l IH]; [done|]. cbn. destruct (p (f x)); cbn; lia.
Qed.

Lemma stable_sort_length {A} (leb : A -> A -> bool) l :
  length (stable_sort leb l) = length l.
Proof. apply Permutation_length, stable_sort_perm. Qed.

Lemma fold_max_le (l : list Z) x : x ∈ l -> x <= fold_right Z.max 0 l.
Proof.
  induction l as [|y l IH]; cbn; [set_solver|].
  intros [->|H]%elem_of_cons; [lia|]. specialize (IH H). lia.
Qed.

Lemma fold_max_nonneg (l : list Z) : 0 <= fold_right Z.max 0 l.
Proof. induction l; cbn; lia. Qed.

Lemma has_id_true cid c : has_id cid c = true <-> c_candidate_instance_id c = cid.
Proof. apply String.eqb_eq. Qed.

Lemma same_key_true d k c :
  same_key d k c = true <-> c_trade_date c = d /\ c_code c = k.
Proof. unfold same_key. by rewrite andb_true_iff, !String.eqb_eq. Qed.

Lemma is_open_true c : is_open c = true <-> c_state c <> CS.CLOSED.
Proof. unfold is_open. by rewrite negb_true_iff, bool_decide_eq_false. Qed.

Lemma candidate_row_spec s cid c :
  _candidate_row s cid = Some c -> c ∈ candidates s /\ c_candidate_instance_id c = cid.
Proof.
  unfold _candidate_row. intros [Hin Hid]%find_some.
  split; [by apply list_elem_of_In|by apply has_id_true].
Qed.

Lemma find_active_spec s d k c :
  _find_active_candidate s d k = Some c ->
  c ∈ candidates s /\ c_trade_date c = d /\ c_code c = k /\ c_state c <> CS.CLOSED.
Proof.
  unfold _find_active_candidate. intros H.
  assert (Hin : c ∈ stable_sort (fun a b => c_generation b <=? c_generation a)
    (List.filter (fun c => same_key d k c && is_open c) (candidates s))).
  { destruct (stable_sort _ _); [done|]. cbn in H. injection H as ->. set_solver. }
  rewrite elem_of_stable_sort, list_elem_of_In, filter_In in Hin.
  destruct Hin as [Hin [Hk Ho]%andb_true_iff]. apply same_key_true in Hk as [? ?].
  apply is_open_true in Ho. split_and!; try done. by apply list_elem_of_In.
Qed.

Lemma find_active_none s d k c :
  _find_active_candidate s d k = None ->
  c ∈ candidates s -> c_trade_date c = d -> c_code c = k -> c_state c = CS.CLOSED.
Proof.
  unfold _find_active_candidate. intros H Hin Hd Hk.
  destruct (decide (c_state c = CS.CLOSED)) as [|Ho]; [done|]. exfalso.
  assert (Hc : c ∈ stable_sort (fun a b => c_generation b <=? c_generation a)
    (List.filter (fun c => same_key d k c && is_open c) (candidates s))).
  { rewrite elem_of_stable_sort, list_elem_of_In, filter_In.
    split; [by apply list_elem_of_In|]. apply andb_true_iff.
    by rewrite same_key_true, is_open_true. }
  destruct (stable_sort _ _); [set_solver|done].
Qed.

(** ** The invariant *)

(** An id that [require_non_empty_str] leaves unchanged. *)
Definition clean (cid : string) : Prop := py_strip cid = cid /\ str_true cid = true.

(** A source event as its constructor leaves it. *)
Definition event_ok (e : CandidateSourceEvent) : Prop :=
  CandidateSourceEvent_post_init e = Ok e.

Definition id_of (c : candidate_row) : string :=
  _candidate_instance_id (c_trade_date c) (c_code c) (c_generation c).

(** The invariant of the candidate table alone. *)
Record table_ok (cs : list candidate_row) : Prop := {
  tb_ids : NoDup (map c_candidate_instance_id cs);
  tb_id : forall c, c ∈ cs ->
    c_candidate_instance_id c = id_of c /\ is_stock_code (c_code c) = true /\
    1 <= c_generation c;
  tb_one_open : forall c1 c2, c1 ∈ cs -> c2 ∈ cs ->
    c_trade_date c1 = c_trade_date c2 -> c_code c1 = c_code c2 ->
    c_state c1 <> CS.CLOSED -> c_state c2 <> CS.CLOSED -> c1 = c2;
  tb_open_last : forall c1 c2, c1 ∈ cs -> c2 ∈ cs ->
    c_trade_date c1 = c_trade_date c2 -> c_code c1 = c_code c2 ->
    c_state c1 <> CS.CLOSED -> c_generation c2 <= c_generation c1;
  tb_closed_at : forall c, c ∈ cs -> (is_Some (c_closed_at c) <-> c_state c = CS.CLOSED)
}.

Record store_ok (s : store) : Prop := {
  so_table : table_ok (candidates s);
  so_events : NoDup (map (fun r => se_source_event_id (ser_event r)) (source_events s));
  so_links : forall r, r ∈ sources_latest s -> exists c, c ∈ candidates s /\
    l_candidate_instance_id r = c_candidate_instance_id c /\
    l_trade_date r = c_trade_date c /\ l_code r = c_code c;
  so_counts : forall c, c ∈ candidates s -> c_state c <> CS.CLOSED ->
    c_active_source_count c
    = count_where (linked_active (c_candidate_instance_id c)) (sources_latest s)
}.

(** Every part of the invariant but the count of one candidate. *)
Record store_ok_but (cid : string) (s : store) : Prop := {
  sb_table : table_ok (candidates s);
  sb_events : NoDup (map (fun r => se_source_event_id (ser_event r)) (source_events s));
  sb_links : forall r, r ∈ sources_latest s -> exists c, c ∈ candidates s /\
    l_candidate_instance_id r = c_candidate_instance_id c /\
    l_trade_date r = c_trade_date c /\ l_code r = c_code c;
  sb_counts : forall c, c ∈ candidates s -> c_state c <> CS.CLOSED ->
    c_candidate_instance_id c <> cid ->
    c_active_source_count c
    = count_where (linked_active (c_candidate_instance_id c)) (sources_latest s)
}.

Lemma store_ok_weaken cid s : store_ok s -> store_ok_but cid s.
Proof. intros []. by split; auto. Qed.

(** The identity of a row. *)
Definition row_key (c : candidate_row) : string * string * string * Z :=
  (c_candidate_instance_id c, c_trade_date c, c_code c, c_generation c).

(** Updating the rows of one id without touching identities, reopening nothing
    and keeping [closed_at] in step preserves the table invariant. *)
Lemma table_ok_update cid f cs :
  (forall c, row_key (f c) = row_key c) ->
  (forall c, c ∈ cs -> c_candidate_instance_id c = cid ->
     (c_state c = CS.CLOSED -> c_state (f c) = CS.CLOSED) /\
     ((is_Some (c_closed_at c) <-> c_state c = CS.CLOSED) ->
      (is_Some (c_closed_at (f c)) <-> c_state (f c) = CS.CLOSED))) ->
  table_ok cs -> table_ok (update_where (has_id cid) f cs).
Proof.
  intros Hkey Hst [Hids Hid Hone Hlast Hcl].
  assert (Hrow : forall y, y ∈ update_where (has_id cid) f cs ->
    exists x, x ∈ cs /\ row_key y = row_key x /\
      (c_state x = CS.CLOSED -> c_state y = CS.CLOSED) /\
      (y = if has_id cid x then f x else x) /\
      ((is_Some (c_closed_at x) <-> c_state x = CS.CLOSED) ->
       (is_Some (c_closed_at y) <-> c_state y = CS.CLOSED))).
  { intros y (x & Hx & ->)%elem_of_update_where. exists x.
    destruct (has_id cid x) eqn:E; [|tauto].
    apply has_id_true in E. destruct (Hst x Hx E). split_and!; auto. }
  assert (Hk : forall x y, row_key y = row_key x ->
    c_candidate_instance_id y = c_candidate_instance_id x /\
    c_trade_date y = c_trade_date x /\ c_code y = c_code x /\
    c_generation y = c_generation x).
  { unfold row_key. intros x y [= -> -> -> ->]. done. }
  split.
  - rewrite map_update_where; [done|]. intros x. by destruct (Hk _ _ (Hkey x)).
  - intros y (x & Hx & (H1 & H2 & H3 & H4)%Hk & _)%Hrow. unfold id_of.
    rewrite H1, H2, H3, H4. by apply Hid.
  - intros y1 y2 (x1 & Hx1 & (_ & D1 & C1 & _)%Hk & S1 & E1 & _)%Hrow
      (x2 & Hx2 & (_ & D2 & C2 & _)%Hk & S2 & E2 & _)%Hrow Hd Hc O1 O2.
    assert (x1 = x2) as -> by (apply Hone; auto; congruence). congruence.
  - intros y1 y2 (x1 & Hx1 & (_ & D1 & C1 & G1)%Hk & S1 & _)%Hrow
      (x2 & Hx2 & (_ & D2 & C2 & G2)%Hk & _)%Hrow Hd Hc O1.
    rewrite G1, G2. apply Hlast; auto; congruence.
  - intros y (x & Hx & _ & _ & _ & Hc)%Hrow. apply Hc. by apply Hcl.
Qed.

(** [so_update]: the workhorse of every row update. *)
Lemma so_update cid f s :
  (forall c, row_key (f c) = row_key c) ->
  (forall c, c ∈ candidates s -> c_candidate_instance_id c = cid ->
     (c_state c = CS.CLOSED -> c_state (f c) = CS.CLOSED) /\
     ((is_Some (c_closed_at c) <-> c_state c = CS.CLOSED) ->
      (is_Some (c_closed_at (f c)) <-> c_state (f c) = CS.CLOSED)) /\
     (c_state (f c) <> CS.CLOSED ->
      c_active_source_count (f c) = count_where (linked_active cid) (sources_latest s))) ->
  store_ok_but cid s ->
  store_ok (set_candidates s (update_where (has_id cid) f (candidates s))).
Proof.
  intros Hkey Hst [Htab Hev Hlinks Hcounts].
  assert (Hk : forall x, c_candidate_instance_id (f x) = c_candidate_instance_id x /\
    c_trade_date (f x) = c_trade_date x /\ c_code (f x) = c_code x).
  { intros x. pose proof (Hkey x) as H. unfold row_key in H. by injection H as -> -> -> _. }
  split; cbn [candidates source_events sources_latest set_candidates]; [|done|..].
  - apply table_ok_update; [done| |done]. intros c Hc Hid.
    destruct (Hst c Hc Hid) as (? & ? & _). done.
  - intros r Hr. destruct (Hlinks r Hr) as (c & Hc & H1 & H2 & H3).
    exists (if has_id cid c then f c else c). split.
    + apply elem_of_update_where. eauto.
    + destruct (Hk c) as (E1 & E2 & E3). destruct (has_id cid c); [|done]. by rewrite E1, E2, E3.
  - intros y (x & Hx & ->)%elem_of_update_where Ho. destruct (has_id cid x) eqn:E.
    + apply has_id_true in E. destruct (Hk x) as (-> & _).
      destruct (Hst x Hx E) as (_ & _ & H). rewrite E. by apply H.
    + apply Hcounts; [done..|]. intros Hid%has_id_true. congruence.
Qed.

Lemma sync_ok cid s : store_ok_but cid s -> store_ok (_sync_candidate_source_counts s cid).
Proof.
  intros H. unfold _sync_candidate_source_counts. apply so_update; [done| |done].
  intros c Hc Hid. split_and!; done.
Qed.

Lemma update_from_source_ok cid e s :
  store_ok s -> store_ok (_update_candidate_from_source s cid e).
Proof.
  intros H. unfold _update_candidate_from_source.
  apply so_update; [done| |by apply store_ok_weaken].
  intros c Hc Hid. split_and!; [done..|]. cbn. intros Ho. rewrite <- Hid. by apply so_counts.
Qed.

Lemma record_transition_ok now s cid d k from to et sid rs :
  store_ok s -> store_ok (fst (_record_transition now s cid d k from to et sid rs)).
Proof. intros []. unfold _record_transition. case_match; by split. Qed.

Lemma record_transition_tables now s cid d k from to et sid rs :
  candidates (fst (_record_transition now s cid d k from to et sid rs)) = candidates s /\
  source_events (fst (_record_transition now s cid d k from to et sid rs)) = source_events s /\
  sources_latest (fst (_record_transition now s cid d k from to et sid rs)) = sources_latest s.
Proof. unfold _record_transition. by case_match. Qed.

(** A transition moves the one row of its id. *)
Lemma apply_transition_inv now s cid next et sid rs s' n :
  _apply_state_transition now s cid next et sid rs = Ok (s', n) ->
  exists c, _candidate_row s cid = Some c /\
    source_events s' = source_events s /\ sources_latest s' = sources_latest s /\
    ((c_state c = next /\ s' = s) \/
     (c_state c <> next /\
      candidates s' = update_where (has_id cid) (move_to now next rs) (candidates s))).
Proof.
  unfold _apply_state_transition. destruct (_candidate_row s cid) as [c|]; [|done].
  intros H. exists c. split; [done|]. case_bool_decide as Hst.
  - injection H as <- _. tauto.
  - injection H as H.
    match type of H with ?t = _ => assert (Hs : s' = fst t) by (by rewrite H) end.
    rewrite Hs. edestruct record_transition_tables as (-> & -> & ->).
    split_and!; [done..|]. by right.
Qed.

Lemma store_ok_tables s s' :
  candidates s' = candidates s -> source_events s' = source_events s ->
  sources_latest s' = sources_latest s -> store_ok s -> store_ok s'.
Proof. intros H1 H2 H3 []. split; rewrite ?H1, ?H2, ?H3; done. Qed.

Lemma apply_transition_ok now s cid next et sid rs s' n :
  _apply_state_transition now s cid next et sid rs = Ok (s', n) ->
  (forall c, _candidate_row s cid = Some c -> c_state c <> CS.CLOSED) ->
  store_ok s -> store_ok s'.
Proof.
  intros H Hopen Hok.
  apply apply_transition_inv in H as (c & Hrow & He & Hl & [[_ ->]|[Hne Hc]]); [done|].
  specialize (Hopen c Hrow). apply candidate_row_spec in Hrow as [Hin Hid].
  eapply store_ok_tables with
    (s := set_candidates s (update_where (has_id cid) (move_to now next rs) (candidates s)));
    [done..|].
  apply so_update; [done| |by apply store_ok_weaken].
  intros x Hx Hxid.
  assert (x = c) as ->.
  { apply (NoDup_map_inj c_candidate_instance_id (candidates s)); [apply Hok|..]; congruence. }
  split_and!; [done|..].
  - cbn. case_bool_decide; [naive_solver|]. intros Hc0. rewrite Hc0. naive_solver.
  - cbn. intros _. rewrite <- Hxid. by apply so_counts.
Qed.

(** ** Source events keep the invariant *)

Lemma opt_text_idem f v w : opt_text f v = Ok w -> opt_text f w = Ok w.
Proof.
  unfold opt_text, opt_check. destruct v as [t|]; [|by intros [= <-]].
  intros H. res_inv H. injection H as <-. by rewrite (require_non_empty_idem _ _ _ _ Ha).
Qed.

Lemma upper_reasons_idem rs us : upper_reasons rs = Ok us -> upper_reasons us = Ok us.
Proof.
  intros [HF ->]%upper_reasons_inv. rewrite upper_reasons_ok.
  - f_equal. rewrite map_map. apply map_ext. intros r.
    by rewrite py_strip_upper, py_strip_idem, py_upper_idem.
  - rewrite list.Forall_forall in HF |- *. intros u Hu%list_elem_of_In.
    apply in_map_iff in Hu as (r & <- & Hr%list_elem_of_In).
    rewrite py_strip_upper, str_true_upper, py_strip_idem. by apply HF.
Qed.

(** A constructed event passes its constructor again. *)
Lemma event_post_init_idem e0 e : CandidateSourceEvent_post_init e0 = Ok e -> event_ok e.
Proof.
  unfold event_ok, CandidateSourceEvent_post_init. intros H. res_inv H. injection H as <-.
  cbn [se_source_event_id se_trade_date se_code se_name se_source_type se_source_id se_action
    se_event_ts se_observed_at se_candidate_instance_id se_theme_id se_theme_name
    se_condition_id se_condition_name se_payload se_reason_codes].
  cbn [res_bind].
  repeat match goal with
    | H : opt_text _ (_ e0) = Ok _ |- _ => apply opt_text_idem in H
    | H : validate_code _ _ = Ok _ |- _ => apply validate_code_ok in H
    | H : reason_values (_ e0) = Ok _ |- _ => apply upper_reasons_idem in H
    | H : require_non_empty (se_action e0) _ = Ok _ |- _ =>
        apply (require_non_empty_upper _ _ "action") in H
    | H : require_non_empty (_ e0) ?f = Ok _ |- _ =>
        apply (require_non_empty_idem _ _ f) in H
    end.
  unfold reason_values in *.
  repeat match goal with
    | H : is_stock_code ?c = true |- context [validate_code ?c ?f] =>
        rewrite (validate_code_fixed c f H)
    | H : ?x = Ok _ |- context [res_bind ?x _] => rewrite H
    end; cbn [res_bind].
  by rewrite py_upper_idem.
Qed.

(** The event linked to a candidate. *)
Definition link (e : CandidateSourceEvent) (cid : option string) : CandidateSourceEvent :=
  {| se_source_event_id := se_source_event_id e; se_trade_date := se_trade_date e;
     se_code := se_code e; se_name := se_name e; se_source_type := se_source_type e;
     se_source_id := se_source_id e; se_action := se_action e;
     se_event_ts := se_event_ts e; se_observed_at := se_observed_at e;
     se_candidate_instance_id := cid; se_theme_id := se_theme_id e;
     se_theme_name := se_theme_name e; se_condition_id := se_condition_id e;
     se_condition_name := se_condition_name e; se_payload := se_payload e;
     se_reason_codes := se_reason_codes e |}.

Lemma clean_non_empty cid f : clean cid -> require_non_empty cid f = Ok cid.
Proof. intros [H1 H2]. apply require_non_empty_ok. by rewrite H1. Qed.

Lemma with_candidate_ok e cid :
  event_ok e -> (forall c, cid = Some c -> clean c) -> with_candidate e cid = Ok (link e cid).
Proof.
  unfold event_ok, with_candidate, CandidateSourceEvent_post_init.
  intros H Hc. destruct e. res_inv H. cbn in *. injection H as -> -> -> -> -> Ea -> -> -> -> ->.
  assert (Hcid : opt_text "candidate_instance_id" cid = Ok cid).
  { destruct cid as [c|]; [|done]. unfold opt_text, opt_check.
    by rewrite clean_non_empty by auto. }
  repeat match goal with
    | H : ?x = Ok _ |- context [res_bind ?x _] => rewrite H
    end; cbn [res_bind]. unfold link; cbn. congruence.
Qed.

(** ** Candidate ids *)

Lemma id_clean d k g : 0 <= g -> clean (_candidate_instance_id d k g).
Proof.
  intros Hg. destruct (pretty_digits g Hg) as [Hd Hne]. unfold _candidate_instance_id.
  assert (Hr : py_rstrip ("CAND-" +:+ d +:+ "-" +:+ k +:+ "-" +:+ pretty g)
               = "CAND-" +:+ d +:+ "-" +:+ k +:+ "-" +:+ pretty g).
  { assert (Happ : forall a b : string, b <> "" -> a +:+ b <> "").
    { intros a b Hb. by destruct a. }
    repeat (apply py_rstrip_app; [|repeat apply Happ; done]).
    by apply digits_rstrip. }
  split; [|done]. unfold py_strip. by rewrite Hr.
Qed.

Lemma digits_app_inj k1 k2 : is_stock_code k1 = true -> is_stock_code k2 = true ->
  all_digits k1 = true /\ all_digits k2 = true.
Proof. by intros [_ H1]%andb_true_iff [_ H2]%andb_true_iff. Qed.

(** The id determines the episode. *)
Lemma id_inj d1 k1 g1 d2 k2 g2 :
  is_stock_code k1 = true -> is_stock_code k2 = true -> 0 <= g1 -> 0 <= g2 ->
  _candidate_instance_id d1 k1 g1 = _candidate_instance_id d2 k2 g2 ->
  d1 = d2 /\ k1 = k2 /\ g1 = g2.
Proof.
  intros H1 H2 Hg1 Hg2. destruct (digits_app_inj _ _ H1 H2) as [K1 K2].
  destruct (pretty_digits g1 Hg1) as [P1 _], (pretty_digits g2 Hg2) as [P2 _].
  unfold _candidate_instance_id. intros E.
  assert (E' : d1 +:+ "-" +:+ k1 +:+ "-" +:+ pretty g1
               = d2 +:+ "-" +:+ k2 +:+ "-" +:+ pretty g2).
  { by injection E. }
  change ("-" +:+ pretty g1) with (String "-" (pretty g1)) in E'.
  change ("-" +:+ pretty g2) with (String "-" (pretty g2)) in E'.
  rewrite <- !append_assoc in E'.
  apply dash_inj in E' as [E' Eg]; [|done..].
  rewrite !append_assoc in E'.
  change ("-" +:+ k1) with (String "-" k1) in E'. change ("-" +:+ k2) with (String "-" k2) in E'.
  apply dash_inj in E' as [-> ->]; [|done..]. split_and!; [done..|].
  by apply (inj pretty).
Qed.

Lemma next_generation_fresh s d k c :
  c ∈ candidates s -> c_trade_date c = d -> c_code c = k ->
  c_generation c < _next_generation s d k.
Proof.
  intros Hc Hd Hk. unfold _next_generation.
  pose proof (fold_max_le (map c_generation (List.filter (same_key d k) (candidates s)))
    (c_generation c)) as H. cut (c_generation c <= fold_right Z.max 0
      (map c_generation (List.filter (same_key d k) (candidates s)))); [lia|].
  apply H. apply list_elem_of_In, in_map, filter_In.
  split; [by apply list_elem_of_In|]. by apply same_key_true.
Qed.

Lemma next_generation_pos s d k : 1 <= _next_generation s d k.
Proof. unfold _next_generation. pose proof (fold_max_nonneg
  (map c_generation (List.filter (same_key d k) (candidates s)))). lia. Qed.

Lemma row_clean s c : store_ok s -> c ∈ candidates s -> clean (c_candidate_instance_id c).
Proof.
  intros Hs Hc. destruct (tb_id _ (so_table _ Hs) c Hc) as (-> & _ & Hg).
  unfold id_of. apply id_clean. lia.
Qed.

(** A fresh episode has a fresh id. *)
Lemma fresh_id s d k :
  store_ok s -> is_stock_code k = true ->
  existsb (has_id (_candidate_instance_id d k (_next_generation s d k))) (candidates s) = false.
Proof.
  intros Hs Hk. apply not_true_iff_false. intros (c & Hc & Hid)%existsb_exists.
  apply list_elem_of_In in Hc. apply has_id_true in Hid.
  destruct (tb_id _ (so_table _ Hs) c Hc) as (Eid & Hck & Hg). rewrite Eid in Hid.
  pose proof (next_generation_pos s d k).
  apply id_inj in Hid as (Hd & Hk' & Hgen); [|done|done|lia|lia].
  pose proof (next_generation_fresh s d k c Hc Hd Hk'). lia.
Qed.

(** ** Each operation keeps the invariant *)

Lemma event_exists_false s i :
  _source_event_exists s i = false <->
  i ∉ map (fun r => se_source_event_id (ser_event r)) (source_events s).
Proof.
  unfold _source_event_exists. rewrite <- not_true_iff_false, existsb_exists, list_elem_of_In,
    in_map_iff. setoid_rewrite String.eqb_eq. naive_solver.
Qed.

Lemma insert_event_ok s e a s' :
  _insert_source_event s e a = Ok s' -> store_ok s ->
  store_ok s' /\ candidates s' = candidates s /\ sources_latest s' = sources_latest s.
Proof.
  unfold _insert_source_event. destruct (_source_event_exists _ _) eqn:E; [done|].
  apply event_exists_false in E. intros [= <-] []. split; [|done]. split; try done.
  cbn. rewrite map_app. apply list.NoDup_app. split_and!; [done| |apply NoDup_singleton].
  cbn. set_solver.
Qed.

Lemma insert_event_fresh s e a :
  _source_event_exists s (se_source_event_id e) = false ->
  _insert_source_event s e a
  = Ok (set_events s (source_events s ++ [{| ser_event := e; ser_active := a |}])).
Proof. unfold _insert_source_event. by intros ->. Qed.

(** Relinking a source row to an open candidate leaves the counts of the other
    open candidates alone. *)
Lemma upsert_ok s e a c s' :
  _upsert_latest_source s (link e (Some (c_candidate_instance_id c))) a = Ok s' ->
  store_ok s -> c ∈ candidates s -> c_state c <> CS.CLOSED ->
  c_trade_date c = se_trade_date e -> c_code c = se_code e ->
  store_ok_but (c_candidate_instance_id c) s' /\ candidates s' = candidates s /\
  source_events s' = source_events s.
Proof.
  unfold _upsert_latest_source. cbn [se_candidate_instance_id link].
  set (le := link e (Some (c_candidate_instance_id c))).
  intros H Hs Hc Ho Hd Hk.
  destruct (existsb (latest_key_of le) (sources_latest s)) eqn:E; injection H as <-;
    (split; [|done]); split; cbn [candidates source_events sources_latest set_latest];
    try apply Hs.
  - intros r (x & Hx & ->)%elem_of_update_where.
    destruct (latest_key_of le x) eqn:Ek; [|by apply Hs].
    exists c. apply andb_true_iff in Ek as [[[Ed%String.eqb_eq Ec%String.eqb_eq]%andb_true_iff
      _]%andb_true_iff _]. cbn in *. split_and!; congruence.
  - intros x Hx Hxo Hne. rewrite (so_counts s Hs x) by done. unfold update_where.
    rewrite count_where_map. apply count_where_ext. intros r Hr.
    destruct (latest_key_of le r) eqn:Ek; [|done]. unfold linked_active; cbn.
    apply andb_true_iff in Ek as [[[Ed%String.eqb_eq Ec%String.eqb_eq]%andb_true_iff
      _]%andb_true_iff _]. cbn in Ed, Ec.
    destruct (so_links _ Hs r Hr) as (x0 & Hx0 & L1 & L2 & L3).
    rewrite (proj2 (String.eqb_neq (c_candidate_instance_id c) (c_candidate_instance_id x)))
      by congruence.
    cbn. destruct (String.eqb (l_candidate_instance_id r) _) eqn:El; [|done].
    apply String.eqb_eq in El. exfalso. apply Hne.
    assert (x0 = x) as -> by (eapply NoDup_map_inj; [apply Hs|..]; congruence).
    f_equal. eapply tb_one_open; [apply Hs|..]; congruence.
  - intros r [Hr| ->%list_elem_of_singleton]%elem_of_app; [by apply Hs|]. exists c.
    cbn. done.
  - intros x Hx Hxo Hne. rewrite (so_counts s Hs x) by done. rewrite count_where_app.
    unfold count_where at 3. cbn. unfold linked_active. cbn.
    rewrite (proj2 (String.eqb_neq (c_candidate_instance_id c) (c_candidate_instance_id x)))
      by congruence. cbn. lia.
Qed.

Lemma filter_none {A} (p : A -> bool) l :
  (forall x, x ∈ l -> p x = false) -> List.filter p l = [].
Proof.
  induction l as [|x l IH]; [done|]. intros H. cbn. rewrite H by set_solver.
  apply IH. set_solver.
Qed.

Lemma update_none cid f (cs : list candidate_row) :
  cid ∉ map c_candidate_instance_id cs -> update_where (has_id cid) f cs = cs.
Proof.
  induction cs as [|x cs IH]; [done|]. cbn. intros H.
  destruct (has_id cid x) eqn:E; [apply has_id_true in E; set_solver|].
  f_equal. apply IH. set_solver.
Qed.

(** Opening an episode adds one HYDRATING row and nothing else. *)
Lemma insert_candidate_ok now s e s' :
  let g := _next_generation s (se_trade_date e) (se_code e) in
  let cid := _candidate_instance_id (se_trade_date e) (se_code e) g in
  _insert_candidate now s e cid g = Ok s' ->
  store_ok s -> is_stock_code (se_code e) = true ->
  _find_active_candidate s (se_trade_date e) (se_code e) = None ->
  exists c, candidates s' = candidates s ++ [c] /\ c_state c = CS.DETECTED /\
    c_candidate_instance_id c = cid /\ c_trade_date c = se_trade_date e /\
    c_code c = se_code e /\ store_ok s' /\ source_events s' = source_events s /\
    sources_latest s' = sources_latest s.
Proof.
  intros g cid H Hs Hk Hnone. unfold _insert_candidate in H.
  destruct (existsb (has_id cid) (candidates s)) eqn:Efresh; [done|].
  match type of H with Ok (set_candidates _ (_ ++ [?c0])) = _ => set (c := c0) in * end.
  injection H as <-. exists c. split_and!; try done.
  assert (Hnew : forall x, x ∈ candidates s -> c_candidate_instance_id x <> cid).
  { intros x Hx Hid. apply not_true_iff_false in Efresh. apply Efresh, existsb_exists.
    exists x. split; [by apply list_elem_of_In|by apply has_id_true]. }
  assert (Hclosed : forall x, x ∈ candidates s -> c_trade_date x = se_trade_date e ->
    c_code x = se_code e -> c_state x = CS.CLOSED).
  { intros x Hx. by apply (find_active_none s). }
  destruct Hs as [[Tids Tid Tone Tlast Tcl] Hev Hl Hc].
  split; cbn [candidates source_events sources_latest set_candidates]; [split|done|..].
  - rewrite map_app. apply list.NoDup_app. split_and!; [done| |apply NoDup_singleton].
    intros i Hi%list_elem_of_In ->%list_elem_of_singleton.
    apply in_map_iff in Hi as (x & Hx & Hi%list_elem_of_In). by apply (Hnew x).
  - intros x [Hx| ->%list_elem_of_singleton]%elem_of_app; [by apply Tid|].
    split_and!; [done..|]. apply next_generation_pos.
  - intros x y [Hx| ->%list_elem_of_singleton]%elem_of_app
      [Hy| ->%list_elem_of_singleton]%elem_of_app; cbn; intros; [by apply Tone| | |done].
    + exfalso. by apply H1, Hclosed.
    + exfalso. by apply H2, Hclosed.
  - intros x y [Hx| ->%list_elem_of_singleton]%elem_of_app
      [Hy| ->%list_elem_of_singleton]%elem_of_app; cbn; intros; [by apply Tlast| | |lia].
    + exfalso. by apply H1, Hclosed.
    + apply Z.lt_le_incl. by apply next_generation_fresh.
  - intros x [Hx| ->%list_elem_of_singleton]%elem_of_app; [by apply Tcl|].
    cbn. split; [by intros [? ?]|done].
  - intros r Hr. destruct (Hl r Hr) as (x & Hx & ?). exists x. split; [|done]. set_solver.
  - intros x [Hx| ->%list_elem_of_singleton]%elem_of_app Ho; [by apply Hc|].
    cbn. symmetry. unfold count_where.
    replace (List.filter (linked_active cid) (sources_latest s)) with (@nil latest_row); [done|].
    symmetry. apply filter_none. intros r Hr. unfold linked_active.
    destruct (Hl r Hr) as (y & Hy & -> & _).
    by rewrite (proj2 (String.eqb_neq _ _)) by (by apply Hnew).
Qed.

Lemma find_row s c :
  NoDup (map c_candidate_instance_id (candidates s)) -> c ∈ candidates s ->
  _candidate_row s (c_candidate_instance_id c) = Some c.
Proof.
  intros Hnd Hc. unfold _candidate_row.
  destruct (List.find (has_id (c_candidate_instance_id c)) (candidates s)) as [x|] eqn:E.
  - apply find_some in E as [Hx%list_elem_of_In Hid%has_id_true]. f_equal.
    by eapply NoDup_map_inj.
  - apply list_elem_of_In in Hc. apply (find_none _ _ E) in Hc.
    apply not_true_iff_false in Hc. exfalso. by apply Hc, has_id_true.
Qed.

Lemma open_episode_ok now s e s' cid n :
  open_episode now s e = Ok (s', cid, n) ->
  store_ok s -> is_stock_code (se_code e) = true ->
  _find_active_candidate s (se_trade_date e) (se_code e) = None ->
  exists c, candidates s' = candidates s ++ [c] /\ c_state c = CS.HYDRATING /\
    c_candidate_instance_id c = cid /\ c_trade_date c = se_trade_date e /\
    c_code c = se_code e /\ store_ok s' /\ source_events s' = source_events s /\
    sources_latest s' = sources_latest s.
Proof.
  unfold open_episode. cbv zeta. intros H Hs Hk Hnone. res_inv H. rename a into s1.
  destruct (insert_candidate_ok now s e s1 Ha Hs Hk Hnone)
    as (c & Hc1 & Hst & Hid & Hd & Hc & Hok1 & He1 & Hl1).
  match type of H with context [_record_transition ?a ?b ?c ?d ?e ?f ?g ?h ?i ?j] =>
    pose proof (record_transition_ok a b c d e f g h i j Hok1) as Hok2;
    pose proof (record_transition_tables a b c d e f g h i j) as (Hc2 & He2 & Hl2);
    destruct (_record_transition a b c d e f g h i j) as [s2 n1] end.
  cbn in Hok2, Hc2, He2, Hl2. res_inv H. destruct a as [s3 n2]. injection H as <- <- _.
  assert (Hin : c ∈ candidates s2) by (rewrite Hc2, Hc1; set_solver).
  assert (Hrow : _candidate_row s2 (c_candidate_instance_id c) = Some c).
  { apply find_row; [apply Hok2|done]. }
  pose proof Ha0 as Hinv.
  apply apply_transition_ok in Ha0; [|rewrite <- Hid, Hrow; naive_solver congruence|done].
  apply apply_transition_inv in Hinv as (c' & Hrow' & He3 & Hl3 & Hmv).
  rewrite <- Hid, Hrow in Hrow'. injection Hrow' as <-.
  destruct Hmv as [[Heq _]|[_ Hc3]]; [congruence|].
  exists (move_to now CS.HYDRATING ["SOURCE_DETECTED"] c).
  rewrite Hc3, Hc2, Hc1. split_and!; try done; try congruence.
  pose proof (tb_ids _ (so_table _ Hok1)) as Hnd. rewrite Hc1, map_app in Hnd.
  apply list.NoDup_app in Hnd as (_ & Hnd & _).
  change (update_where ?p ?f (?a ++ ?b)) with (map (fun r => if p r then f r else r) (a ++ b)).
  rewrite map_app. cbn [map]. rewrite (proj2 (has_id_true _ c)) by done. f_equal.
  apply update_none. intros Hin'. apply (Hnd _ Hin'). cbn. set_solver.
Qed.

(** ** How rows evolve *)

(** A row keeps its identity and its state; a closed row does not change at
    all. *)
Definition keeps (c c' : candidate_row) : Prop :=
  row_key c' = row_key c /\ c_state c' = c_state c /\ (c_state c = CS.CLOSED -> c' = c).

(** A row keeps its identity and moves along an edge of the lifecycle at most; a
    closed row does not change at all. *)
Definition evolves (c c' : candidate_row) : Prop :=
  row_key c' = row_key c /\
  (c_state c' = c_state c \/ exists context, c_state c' = refresh (c_state c) context) /\
  (c_state c = CS.CLOSED -> c' = c).

Lemma keeps_refl c : keeps c c.
Proof. done. Qed.

Lemma keeps_evolves_trans a b c : keeps a b -> evolves b c -> evolves a c.
Proof.
  intros (K1 & K2 & K3) (E1 & E2 & E3). split_and!; [congruence| |].
  - by rewrite <- K2.
  - intros Hc. assert (b = a) as -> by auto. auto.
Qed.

Lemma evolves_keeps_trans a b c : evolves a b -> keeps b c -> evolves a c.
Proof.
  intros (K1 & K2 & K3) (E1 & E2 & E3). split_and!; [congruence| |].
  - by rewrite E2.
  - intros Hc. assert (b = a) as -> by auto. auto.
Qed.

Lemma keeps_evolves a b : keeps a b -> evolves a b.
Proof. intros (?&?&?). split_and!; auto. Qed.

Lemma Forall2_compose {A} (R1 R2 R3 : A -> A -> Prop) l1 l2 l3 :
  (forall a b c, R1 a b -> R2 b c -> R3 a c) ->
  Forall2 R1 l1 l2 -> Forall2 R2 l2 l3 -> Forall2 R3 l1 l3.
Proof.
  intros H H12. revert l3. induction H12; intros l3 H23; inversion H23; subst; constructor; eauto.
Qed.

Lemma Forall2_update (R : candidate_row -> candidate_row -> Prop) cid f cs :
  (forall c, R c c) -> (forall c, c ∈ cs -> c_candidate_instance_id c = cid -> R c (f c)) ->
  Forall2 R cs (update_where (has_id cid) f cs).
Proof.
  intros Hrefl Hf. unfold update_where.
  induction cs as [|x cs IH]; constructor.
  - destruct (has_id cid x) eqn:E; [|done]. apply Hf; [set_solver|by apply has_id_true].
  - apply IH. intros c Hc. apply Hf. set_solver.
Qed.

(** The row of an open candidate is the only one of its id. *)
Lemma open_rows s c x :
  store_ok s -> c ∈ candidates s -> x ∈ candidates s ->
  c_candidate_instance_id x = c_candidate_instance_id c -> x = c.
Proof. intros Hs Hc Hx E. eapply NoDup_map_inj; [apply Hs|done..]. Qed.

Section OperationFacts.
Context (py_repr : json -> string) (settings : CandidateSettings).

(** The refresh of an open candidate. *)
Lemma refresh_open_inv now r t s c s' rr :
  store_ok s -> c ∈ candidates s -> c_state c <> CS.CLOSED ->
  refresh_candidate_context py_repr settings now r t s (c_candidate_instance_id c)
    = Ok (s', rr) ->
  store_ok s' /\ Forall2 evolves (candidates s) (candidates s') /\
  source_events s' = source_events s /\ sources_latest s' = sources_latest s.
Proof.
  intros Hs Hc Ho. unfold refresh_candidate_context.
  rewrite clean_non_empty by (by apply (row_clean s)). cbn [res_bind].
  rewrite find_row by (done || apply Hs). rewrite bool_decide_false by done.
  cbv zeta. intros H. res_inv H. rename a into context.
  set (decision := determine_next_state (c_state c) context) in *.
  set (reasons := merge_reason_codes _) in *.
  set (s1 := _update_candidate_context_columns _ _ _ _ _ _ _) in *.
  assert (Hok1 : store_ok s1).
  { unfold s1, _update_candidate_context_columns.
    apply so_update; [done| |by apply store_ok_weaken].
    intros x Hx Hid. split_and!; [done..|]. intros _. cbn.
    unfold _list_latest_source_rows. rewrite stable_sort_length.
    apply count_where_ext. intros y _. unfold linked_active. by destruct (l_active y). }
  assert (Hk1 : Forall2 keeps (candidates s) (candidates s1)).
  { apply Forall2_update; [apply keeps_refl|]. intros x Hx Hid.
    assert (x = c) as -> by (by apply (open_rows s)). split_and!; done. }
  destruct a0 as [s2 n]. injection H as <- <-.
  case_bool_decide as Hsame.
  { injection Ha0 as <- <-. split_and!; try done.
    eapply list.Forall2_impl; [exact Hk1|apply keeps_evolves]. }
  assert (Hin : exists c1, c1 ∈ candidates s1 /\ keeps c c1).
  { apply list_elem_of_lookup in Hc as [i Hi].
    destruct (Forall2_lookup_l _ _ _ _ _ Hk1 Hi) as (c1 & Hi1 & Hkeep).
    exists c1. split; [by eapply list_elem_of_lookup_2|done]. }
  destruct Hin as (c1 & Hc1 & Hkey & Hst & _).
  assert (Hid1 : c_candidate_instance_id c1 = c_candidate_instance_id c).
  { unfold row_key in Hkey. by injection Hkey. }
  assert (Hrow : _candidate_row s1 (c_candidate_instance_id c) = Some c1).
  { rewrite <- Hid1. apply find_row; [apply Hok1|done]. }
  pose proof Ha0 as Hinv. apply apply_transition_ok in Ha0; [|rewrite Hrow; intros ? [= <-]; congruence|done].
  apply apply_transition_inv in Hinv as (c1' & Hrow' & He & Hl & Hmv).
  assert (c1' = c1) as -> by congruence.
  split_and!; [done| |exact He|exact Hl].
  destruct Hmv as [[Heq ->]|[_ Hcs]].
  { eapply list.Forall2_impl; [exact Hk1|apply keeps_evolves]. }
  eapply Forall2_compose; [apply keeps_evolves_trans|exact Hk1|]. rewrite Hcs.
  apply Forall2_update; [intros x; by apply keeps_evolves|]. intros x Hx Hid.
  assert (x = c1) as -> by (apply (open_rows s1); [done..|congruence]).
  split_and!; [done| |congruence]. right. exists context. cbn. by rewrite Hst.
Qed.

Lemma refresh_ok now r t s cid s' rr :
  store_ok s -> refresh_candidate_context py_repr settings now r t s cid = Ok (s', rr) ->
  store_ok s' /\ Forall2 evolves (candidates s) (candidates s').
Proof.
  intros Hs H. pose proof H as H0. unfold refresh_candidate_context in H0. res_inv H0.
  destruct (_candidate_row s a) as [c|] eqn:Er; [|done].
  apply candidate_row_spec in Er as [Hc <-].
  case_bool_decide as Hcl.
  - injection H0 as <- _. split; [done|]. apply Forall_Forall2_diag.
    apply list.Forall_forall. intros x _. by apply keeps_evolves.
  - assert (H1 : refresh_candidate_context py_repr settings now r t s
        (c_candidate_instance_id c) = Ok (s', rr)).
    { revert H. unfold refresh_candidate_context. rewrite Ha.
      by rewrite clean_non_empty by (by apply (row_clean s)). }
    apply refresh_open_inv in H1 as (? & ? & _); done.
Qed.
Lemma event_code e : event_ok e -> is_stock_code (se_code e) = true.
Proof.
  unfold event_ok, CandidateSourceEvent_post_init. intros H. res_inv H.
  apply (f_equal (fun x => match x with Ok v => se_code v | Err _ => EmptyString end)) in H.
  cbn in H. rewrite <- H. by eapply validate_code_ok.
Qed.

Lemma set_latest_deactivate s c e :
  store_ok s -> c ∈ candidates s -> c_state c <> CS.CLOSED ->
  store_ok_but (c_candidate_instance_id c)
    (set_latest s (update_where (exits (c_candidate_instance_id c) (se_source_id e))
                     (deactivate e) (sources_latest s))).
Proof.
  intros Hs Hc Ho. split; cbn [candidates source_events sources_latest set_latest];
    try apply Hs.
  - intros r (x & Hx & ->)%elem_of_update_where.
    destruct (so_links _ Hs x Hx) as (y & Hy & ?). exists y. by case_match.
  - intros x Hx Hxo Hne. rewrite (so_counts s Hs x) by done. unfold update_where.
    rewrite count_where_map. apply count_where_ext. intros r Hr.
    destruct (exits _ _ r) eqn:E; [|done]. unfold linked_active; cbn.
    apply andb_true_iff in E as [[->%String.eqb_eq _]%andb_true_iff _].
    by rewrite (proj2 (String.eqb_neq _ _)) by congruence.
Qed.

Lemma sync_keeps s s' c :
  store_ok s -> c ∈ candidates s -> c_state c <> CS.CLOSED -> candidates s' = candidates s ->
  Forall2 keeps (candidates s)
    (candidates (_sync_candidate_source_counts s' (c_candidate_instance_id c))).
Proof.
  intros Hs Hc Ho Hss. unfold _sync_candidate_source_counts. cbn [candidates set_candidates].
  rewrite Hss. apply Forall2_update; [apply keeps_refl|]. intros x Hx Hid.
  assert (x = c) as -> by (by apply (open_rows s)). split_and!; done.
Qed.

Lemma Forall2_refl {A} (R : A -> A -> Prop) (l : list A) : (forall x, R x x) -> Forall2 R l l.
Proof. intros H. apply Forall_Forall2_diag, list.Forall_forall. auto. Qed.

(** The link of an event to the active candidate, if any. *)
Lemma exit_ok now r t s e s' res :
  store_ok s -> event_ok e -> _source_event_exists s (se_source_event_id e) = false ->
  _apply_exit_source_event py_repr settings now r t s e = Ok (s', res) ->
  store_ok s' /\ Forall2 evolves (candidates s) (candidates s').
Proof.
  intros Hs He Hfresh. unfold _apply_exit_source_event.
  destruct (_find_active_candidate s (se_trade_date e) (se_code e)) as [c|] eqn:Ef;
    cbn [fmap option_fmap option_map].
  - apply find_active_spec in Ef as (Hc & _ & _ & Ho).
    rewrite with_candidate_ok by (done || intros ? [= <-]; by apply (row_clean s)).
    cbn [res_bind]. intros H. res_inv H. rename a into s1.
    apply insert_event_ok in Ha as (Hok1 & Hc1 & Hl1); [|done].
    set (s2 := set_latest s1 _) in *. destruct a0 as [s3 rr]. injection H as <- _.
    assert (Hin1 : c ∈ candidates s1) by (by rewrite Hc1).
    assert (Hok2 : store_ok_but (c_candidate_instance_id c) s2)
      by (by apply set_latest_deactivate).
    pose proof (sync_ok _ _ Hok2) as Hok3. set (s4 := _sync_candidate_source_counts s2 _) in *.
    assert (Hk : Forall2 keeps (candidates s) (candidates s4)).
    { rewrite <- Hc1. by apply (sync_keeps s1 s2). }
    apply list_elem_of_lookup in Hc as [i Hi].
    destruct (Forall2_lookup_l _ _ _ _ _ Hk Hi) as (c4 & Hi4 & Hkey & Hst & _).
    apply list_elem_of_lookup_2 in Hi4.
    assert (Hid4 : c_candidate_instance_id c4 = c_candidate_instance_id c).
    { unfold row_key in Hkey. by injection Hkey. }
    rewrite <- Hid4 in Ha0. apply refresh_open_inv in Ha0 as (? & Hev & _); [|done..|congruence].
    split; [done|]. eapply Forall2_compose; [apply keeps_evolves_trans|exact Hk|exact Hev].
  - rewrite with_candidate_ok by done. cbn [res_bind]. intros H. res_inv H.
    injection H as <- _. apply insert_event_ok in Ha as (Hok & Hc & _); [|done].
    split; [done|]. rewrite Hc. apply Forall2_refl. intros x. by apply keeps_evolves.
Qed.

(** Linking an event to an open candidate. *)
Lemma merge_ok s e c s1 s2 :
  store_ok s -> c ∈ candidates s -> c_state c <> CS.CLOSED ->
  c_trade_date c = se_trade_date e -> c_code c = se_code e ->
  let cid := c_candidate_instance_id c in
  _insert_source_event s (link e (Some cid)) true = Ok s1 ->
  _upsert_latest_source s1 (link e (Some cid)) true = Ok s2 ->
  let s' := _update_candidate_from_source (_sync_candidate_source_counts s2 cid) cid
              (link e (Some cid)) in
  store_ok s' /\ Forall2 keeps (candidates s) (candidates s') /\
  exists c', c' ∈ candidates s' /\ row_key c' = row_key c /\ c_state c' = c_state c /\
    c_source_count c' = count_where (event_linked cid) (source_events s').
Proof.
  intros Hs Hc Ho Hd Hk cid H1 H2 s'.
  apply insert_event_ok in H1 as (Hok1 & Hc1 & Hl1); [|done].
  rewrite <- Hc1 in Hc. apply upsert_ok in H2 as (Hok2 & Hc2 & He2); [|done..].
  pose proof (sync_ok _ _ Hok2) as Hok3.
  assert (Hok' : store_ok s') by (by apply update_from_source_ok).
  assert (Hkeep : Forall2 keeps (candidates s) (candidates s')).
  { rewrite <- Hc1, <- Hc2.
    apply (Forall2_compose keeps keeps keeps _
             (candidates (_sync_candidate_source_counts s2 cid))).
    - intros x y z (A1 & A2 & A3) (B1 & B2 & B3). split_and!; [congruence..|].
      intros Hx. assert (y = x) as -> by auto. auto.
    - rewrite Hc2. by apply (sync_keeps s1 s2).
    - apply Forall2_update; [apply keeps_refl|]. intros x Hx Hid.
      split_and!; [done..|]. intros Hcl. exfalso.
      apply elem_of_update_where in Hx as (y & Hy & ->).
      assert (y = c) as ->.
      { apply (open_rows s1); [done..|congruence|]. destruct (has_id cid y); done. }
      destruct (has_id cid c); cbn in Hcl; done. }
  split_and!; [done..|].
  exists (let c0 := set_counts (count_where (event_linked cid) (source_events s2))
                      (count_where (linked_active cid) (sources_latest s2)) c in
          {| c_candidate_instance_id := c_candidate_instance_id c0;
             c_trade_date := c_trade_date c0; c_code := c_code c0; c_name := se_name e;
             c_generation := c_generation c0; c_state := c_state c0;
             c_previous_state := c_previous_state c0; c_detected_at := c_detected_at c0;
             c_last_seen_at := wire_max (c_last_seen_at c0) (se_observed_at e);
             c_state_updated_at := c_state_updated_at c0; c_closed_at := c_closed_at c0;
             c_primary_source_type := c_primary_source_type c0;
             c_primary_source_id := c_primary_source_id c0;
             c_source_count := c_source_count c0;
             c_active_source_count := c_active_source_count c0;
             c_theme_id := coalesce (se_theme_id e) (c_theme_id c0);
             c_theme_name := coalesce (se_theme_name e) (c_theme_name c0);
             c_theme_state := coalesce (_source_theme_state (link e (Some cid))) (c_theme_state c0);
             c_theme_role := coalesce (_source_member_role (link e (Some cid))) (c_theme_role c0);
             c_market_readiness_status := c_market_readiness_status c0;
             c_tick_age_sec := c_tick_age_sec c0; c_vwap_ready := c_vwap_ready c0;
             c_bar_1m_ready := c_bar_1m_ready c0; c_bar_3m_ready := c_bar_3m_ready c0;
             c_bar_5m_ready := c_bar_5m_ready c0; c_reason_codes := se_reason_codes e |}).
  split; [|done]. apply elem_of_update_where.
  exists (set_counts (count_where (event_linked cid) (source_events s2))
            (count_where (linked_active cid) (sources_latest s2)) c). split.
  - apply elem_of_update_where. exists c. split; [by rewrite Hc2|].
    by rewrite (proj2 (has_id_true _ _)).
  - by rewrite (proj2 (has_id_true cid (set_counts _ _ c))).
Qed.

(** The outcome of a source event: old rows evolve, at most one row is new. *)
Lemma ingest_ok now r t s e s' res :
  store_ok s -> event_ok e ->
  create_or_merge_candidate_from_source py_repr settings now r t s e = Ok (s', res) ->
  store_ok s' /\ exists old new, candidates s' = old ++ new /\
    Forall2 evolves (candidates s) old /\ (length new <= 1)%nat /\
    Forall (fun c => c_state c = CS.HYDRATING) new.
Proof.
  intros Hs He. unfold create_or_merge_candidate_from_source. cbv zeta.
  assert (Hrefl : Forall2 evolves (candidates s) (candidates s)).
  { apply Forall2_refl. intros x. by apply keeps_evolves. }
  destruct (candidate_fsm_enabled settings); cbn [negb].
  2: { intros [= <- _]. split; [done|]. exists (candidates s), [].
       rewrite app_nil_r. repeat split; [done|cbn; lia|constructor]. }
  destruct (_source_event_exists _ _) eqn:Ex.
  { intros [= <- _]. split; [done|]. exists (candidates s), [].
    rewrite app_nil_r. repeat split; [done|cbn; lia|constructor]. }
  case_bool_decide as Hexit.
  { intros H. apply exit_ok in H as [Hok Hev]; [|done..]. split; [done|].
    exists (candidates s'), []. rewrite app_nil_r. repeat split; [done|cbn; lia|constructor]. }
  intros H. res_inv H. destruct a as [[[s0 cid] created] n].
  assert (Hstart : exists c new, store_ok s0 /\ candidates s0 = candidates s ++ new /\
    (length new <= 1)%nat /\ Forall (fun c => c_state c = CS.HYDRATING) new /\
    c ∈ candidates s0 /\ c_state c <> CS.CLOSED /\ c_candidate_instance_id c = cid /\
    c_trade_date c = se_trade_date e /\ c_code c = se_code e).
  { destruct (_find_active_candidate s (se_trade_date e) (se_code e)) as [c|] eqn:Ef.
    - injection Ha as <- <- _ _. apply find_active_spec in Ef as (Hc & Hd & Hk & Ho).
      exists c, []. rewrite app_nil_r. split_and!; first [done|cbn; lia|constructor].
    - res_inv Ha. destruct a as [[s1 cid1] n1]. injection Ha as <- <- _ _.
      apply open_episode_ok in Ha0 as (c & Hc & Hst & Hid & Hd & Hk & Hok & _);
        [|done|by apply event_code|done].
      exists c, [c]. split_and!; try done; [repeat constructor; exact Hst| |congruence].
      rewrite Hc. set_solver. }
  destruct Hstart as (c & new & Hok0 & Hcs0 & Hlen & Hnew & Hc & Ho & <- & Hd & Hk).
  rewrite with_candidate_ok in H; [|done|intros ? [= <-]; by apply (row_clean s0)].
  cbn [res_bind] in H. res_inv H. injection H as <- _.
  destruct (merge_ok s0 e c a a0 Hok0 Hc Ho Hd Hk Ha0 Ha1) as (Hok' & Hkeep & _).
  split; [done|]. rewrite Hcs0 in Hkeep.
  apply Forall2_app_inv_l in Hkeep as (old & new' & Hold & Hnew' & ->).
  exists old, new'. split_and!; [done| | |].
  - eapply list.Forall2_impl; [exact Hold|apply keeps_evolves].
  - by rewrite <- (list.Forall2_length _ _ _ Hnew').
  - clear - Hnew Hnew'. induction Hnew'; inversion Hnew; subst; constructor; [|by apply IHHnew'].
    destruct H as (_ & -> & _). done.
Qed.
(** ** Events are stored once *)

Lemma insert_event_exists s e a s' :
  _insert_source_event s e a = Ok s' ->
  _source_event_exists s' (se_source_event_id e) = true.
Proof.
  unfold _insert_source_event. case_match; [done|]. intros [= <-].
  unfold _source_event_exists. cbn. rewrite existsb_app. cbn.
  by rewrite String.eqb_refl, orb_true_r.
Qed.

Lemma exists_tables s s' i :
  source_events s' = source_events s -> _source_event_exists s' i = _source_event_exists s i.
Proof. unfold _source_event_exists. by intros ->. Qed.

Lemma upsert_events s e a s' :
  _upsert_latest_source s e a = Ok s' -> source_events s' = source_events s.
Proof.
  unfold _upsert_latest_source. destruct (se_candidate_instance_id e); [|done].
  case_match; by intros [= <-].
Qed.

(** A refresh whatever its candidate leaves the events alone. *)
Lemma refresh_events now r t s cid s' rr :
  refresh_candidate_context py_repr settings now r t s cid = Ok (s', rr) ->
  source_events s' = source_events s.
Proof.
  unfold refresh_candidate_context. intros H. res_inv H.
  destruct (_candidate_row s a) as [c|]; [|done]. case_bool_decide; [by injection H as <- _|].
  cbv zeta in H. res_inv H. destruct a1 as [s2 n]. injection H as <- _.
  case_bool_decide; [by injection Ha1 as <- _|].
  by apply apply_transition_inv in Ha1 as (_ & _ & -> & _).
Qed.

Lemma post_init_event_id e l :
  CandidateSourceEvent_post_init e = Ok l ->
  require_non_empty (se_source_event_id e) "source_event_id" = Ok (se_source_event_id l).
Proof.
  unfold CandidateSourceEvent_post_init. intros H. res_inv H. rewrite Ha.
  by injection H as <-.
Qed.

Lemma with_candidate_event_id e cid l :
  event_ok e -> with_candidate e cid = Ok l -> se_source_event_id l = se_source_event_id e.
Proof.
  intros H1%post_init_event_id H2%post_init_event_id. cbn in H2. congruence.
Qed.

Lemma ingest_records now r t s e s' res :
  store_ok s -> event_ok e -> candidate_fsm_enabled settings = true ->
  create_or_merge_candidate_from_source py_repr settings now r t s e = Ok (s', res) ->
  _source_event_exists s' (se_source_event_id e) = true.
Proof.
  intros Hs He Hen. unfold create_or_merge_candidate_from_source. cbv zeta. rewrite Hen.
  cbn [negb]. destruct (_source_event_exists s _) eqn:Ex; [by intros [= <- _]|].
  case_bool_decide as Hexit.
  - unfold _apply_exit_source_event. intros H. res_inv H.
    apply with_candidate_event_id in Ha; [|done].
    apply insert_event_exists in Ha0. rewrite Ha in Ha0.
    destruct (c_candidate_instance_id <$> _); [|by injection H as <- _].
    res_inv H. destruct a1 as [s2 rr]. injection H as <- _.
    apply refresh_events in Ha1. by rewrite (exists_tables _ _ _ Ha1).
  - intros H. res_inv H. destruct a as [[[s0 cid] created] n].
    res_inv H. injection H as <- _.
    apply with_candidate_event_id in Ha0; [|done].
    apply insert_event_exists in Ha1. rewrite Ha0 in Ha1.
    apply upsert_events in Ha2. by rewrite <- (exists_tables _ _ _ Ha2) in Ha1.
Qed.
End OperationFacts.

(** ** Histories of the store *)

Section Histories.
Context (py_repr : json -> string) (settings : CandidateSettings).

(** One operation: a source event, or the refresh of a candidate. *)
Inductive step (s s' : store) : Prop :=
| step_ingest now r t e res :
    event_ok e ->
    create_or_merge_candidate_from_source py_repr settings now r t s e = Ok (s', res) ->
    step s s'
| step_refresh now r t cid rr :
    refresh_candidate_context py_repr settings now r t s cid = Ok (s', rr) ->
    step s s'.

Inductive reachable : store -> Prop :=
| reachable_empty : reachable empty_store
| reachable_step s s' : reachable s -> step s s' -> reachable s'.
End Histories.

Lemma empty_ok : store_ok empty_store.
Proof.
  split; [split|..]; cbn; try (apply NoDup_nil_2); intros; set_solver.
Qed.

Lemma reachable_store_ok py_repr settings s : reachable py_repr settings s -> store_ok s.
Proof.
  induction 1 as [|s s' _ IH [now r t e res He H|now r t cid rr H]]; [apply empty_ok|..].
  - by apply ingest_ok in H as [? _].
  - by apply refresh_ok in H as [? _].
Qed.

(** ** A concrete history *)

Definition sample_settings : CandidateSettings :=
  {| candidate_fsm_enabled := true; candidate_source_stale_sec := 300;
     candidate_tick_stale_sec := 90; cs_stale_requires_tick_stale := true;
     candidate_episode_ttl_sec := 1800; candidate_context_require_1m_bar := true;
     candidate_context_require_vwap := false |}.

Definition sample_repr (v : json) : string := "?".

Definition fresh_readiness : Readiness :=
  {| r_quality_status := Some "FRESH"; r_has_latest_tick := true;
     r_tick_age_sec := Some (f_of_Z 1); r_has_1m_bar := true; r_has_3m_bar := false;
     r_has_5m_bar := false; r_vwap_ready := true; r_reason_codes := [] |}.

Definition no_theme : ThemeContext :=
  {| tc_present := false; tc_has_sources := false; tc_theme_id := None;
     tc_theme_name := None; tc_theme_state := None; tc_theme_role := None |}.

Definition sample_event (id : string) (source_type : CST.t) (at_ : Z) : CandidateSourceEvent :=
  {| se_source_event_id := id; se_trade_date := "2025-01-02"; se_code := "005930";
     se_name := "SAMSUNG"; se_source_type := source_type; se_source_id := "C1";
     se_action := "ENTER"; se_event_ts := at_; se_observed_at := at_;
     se_candidate_instance_id := None; se_theme_id := None; se_theme_name := None;
     se_condition_id := None; se_condition_name := None; se_payload := [];
     se_reason_codes := ["CONDITION_ENTERED"] |}.

Definition ingest_all (es : list (Z * CandidateSourceEvent)) : res store :=
  fold_left (fun acc te =>
    let* s := acc in
    let* (s', _) := create_or_merge_candidate_from_source sample_repr sample_settings
                      (fst te) fresh_readiness no_theme s (snd te) in
    Ok s') es (Ok empty_store).

Definition enter1 : CandidateSourceEvent := sample_event "E1" CST.CONDITION_ENTER (seconds 1000).
Definition enter2 : CandidateSourceEvent := sample_event "E2" CST.CONDITION_ENTER (seconds 1010).
Definition exit1 : CandidateSourceEvent := sample_event "E3" CST.CONDITION_EXIT (seconds 1020).
Definition enter3 : CandidateSourceEvent := sample_event "E4" CST.CONDITION_ENTER (seconds 1030).

(** Enter, exit and enter again: the first episode closes and a second
    generation opens. *)
Example two_generations :
  (fun s => map (fun c => (c_candidate_instance_id c, c_state c, c_active_source_count c))
              (candidates s))
  <$> (match ingest_all [(seconds 1000, enter1); (seconds 1020, exit1); (seconds 1030, enter3)]
       with Ok s => Some s | Err _ => None end)
  = Some [("CAND-2025-01-02-005930-1", CS.CLOSED, 0);
          ("CAND-2025-01-02-005930-2", CS.HYDRATING, 1)].
Proof. vm_compute. reflexivity. Qed.

Definition store_of (r : res store) : store :=
  match r with Ok s => s | Err _ => empty_store end.

Definition one_candidate : store := store_of (ingest_all [(seconds 1000, enter1)]).
Definition two_events : store :=
  store_of (ingest_all [(seconds 1000, enter1); (seconds 1010, enter2)]).

Lemma sample_events_ok : event_ok enter1 /\ event_ok enter2 /\ event_ok exit1.
Proof. unfold event_ok. vm_compute. done. Qed.

Lemma one_candidate_reachable : reachable sample_repr sample_settings one_candidate.
Proof.
  eapply reachable_step; [apply reachable_empty|].
  eapply (step_ingest _ _ _ _ (seconds 1000) fresh_readiness no_theme enter1);
    [apply sample_events_ok|vm_compute; reflexivity].
Qed.

Definition second_delivery : CandidateSourceApplyResult :=
  {| ar_source_event_count := 1; ar_candidate_created_count := 0;
     ar_candidate_updated_count := 1; ar_duplicate_source_count := 0;
     ar_transition_count := 0; ar_closed_count := 0 |}.

Lemma second_delivery_run :
  create_or_merge_candidate_from_source sample_repr sample_settings (seconds 1010)
    fresh_readiness no_theme one_candidate enter2 = Ok (two_events, second_delivery).
Proof. vm_compute. reflexivity. Qed.

(** ** Properties *)

(** C36. In every reachable store: candidate ids are distinct and determined by
    (trade date, code, generation); an episode key has at most one open
    candidate, of the highest generation; [closed_at] is set exactly on CLOSED
    rows; source event ids are distinct; every latest source links to a candidate
    of its own key; and the active source count of every open candidate is the
    number of active sources linked to it. *)
Theorem reachable_invariant (py_repr : json -> string) (settings : CandidateSettings)
    (s : store) (Hs : reachable py_repr settings s) :
  table_ok (candidates s) /\
  NoDup (map (fun r => se_source_event_id (ser_event r)) (source_events s)) /\
  (forall r, r ∈ sources_latest s -> exists c, c ∈ candidates s /\
     l_candidate_instance_id r = c_candidate_instance_id c /\
     l_trade_date r = c_trade_date c /\ l_code r = c_code c) /\
  (forall c, c ∈ candidates s -> c_state c <> CS.CLOSED ->
     c_active_source_count c
     = count_where (linked_active (c_candidate_instance_id c)) (sources_latest s)).
Proof. apply reachable_store_ok in Hs as []. done. Qed.

Lemma reachable_invariant_witness :
  reachable sample_repr sample_settings one_candidate /\ table_ok (candidates one_candidate).
Proof.
  split; [exact one_candidate_reachable|].
  exact (proj1 (reachable_invariant sample_repr sample_settings one_candidate
                  one_candidate_reachable)).
Defined.

(** One operation on a reachable store adds at most one candidate, which
    starts HYDRATING; every other row keeps its id, key and generation and stays
    in its state or moves along one edge of the lifecycle; a CLOSED row never
    changes again in any column. *)
Theorem step_lifecycle (py_repr : json -> string) (settings : CandidateSettings)
    (s s' : store) (Hs : reachable py_repr settings s) (Hstep : step py_repr settings s s') :
  exists old new, candidates s' = old ++ new /\ (length new <= 1)%nat /\
    Forall (fun c => c_state c = CS.HYDRATING) new /\
    Forall2 (fun c c' => row_key c' = row_key c /\
      (c_state c' = c_state c \/ c_state c' ∈ edges (c_state c)) /\
      (c_state c = CS.CLOSED -> c' = c)) (candidates s) old.
Proof.
  assert (Hev : forall c c', evolves c c' -> row_key c' = row_key c /\
      (c_state c' = c_state c \/ c_state c' ∈ edges (c_state c)) /\
      (c_state c = CS.CLOSED -> c' = c)).
  { intros c c' (H1 & [H2|[ctx H2]] & H3); split_and!; auto. right. rewrite H2.
    by apply refresh_edges. }
  apply reachable_store_ok in Hs. destruct Hstep as [now r t e res He H|now r t cid rr H].
  - apply ingest_ok in H as (_ & old & new & Hc & Hf & Hl & Hn); [|done..].
    exists old, new. split_and!; try done. by eapply list.Forall2_impl.
  - apply refresh_ok in H as [_ Hf]; [|done]. exists (candidates s'), [].
    rewrite app_nil_r. split_and!; [done|cbn; lia|constructor|]. by eapply list.Forall2_impl.
Qed.

Lemma step_lifecycle_witness :
  exists old new, candidates two_events = old ++ new /\ (length new <= 1)%nat.
Proof.
  destruct (step_lifecycle sample_repr sample_settings one_candidate two_events
    one_candidate_reachable
    (step_ingest _ _ _ _ (seconds 1010) fresh_readiness no_theme enter2 _
       (proj1 (proj2 sample_events_ok)) second_delivery_run))
    as (old & new & H1 & H2 & _).
  exists old, new. split; [exact H1|exact H2].
Defined.

(** Delivering a source event twice is the same as delivering it once: the
    second delivery is counted as a duplicate and leaves the store unchanged,
    whatever happened to clocks and market data in between. *)
Theorem ingest_idempotent (py_repr : json -> string) (settings : CandidateSettings)
    (now now' : Z) (r r' : Readiness) (t t' : ThemeContext) (s s' : store)
    (e : CandidateSourceEvent) (result : CandidateSourceApplyResult)
    (Hs : reachable py_repr settings s) (He : event_ok e)
    (Hen : candidate_fsm_enabled settings = true)
    (H : create_or_merge_candidate_from_source py_repr settings now r t s e
         = Ok (s', result)) :
  exists result', ar_duplicate_source_count result' = 1 /\
    ar_source_event_count result' = 0 /\
    create_or_merge_candidate_from_source py_repr settings now' r' t' s' e
    = Ok (s', result').
Proof.
  apply reachable_store_ok in Hs. apply ingest_records in H; [|done..].
  unfold create_or_merge_candidate_from_source. rewrite Hen, H. cbn [negb].
  eexists. split; [|split]; [..|reflexivity]; reflexivity.
Qed.

Lemma ingest_idempotent_witness :
  exists result', ar_duplicate_source_count result' = 1 /\
    ar_source_event_count result' = 0 /\
    create_or_merge_candidate_from_source sample_repr sample_settings (seconds 2000)
      fresh_readiness no_theme two_events enter2 = Ok (two_events, result').
Proof.
  exact (ingest_idempotent sample_repr sample_settings (seconds 1010) (seconds 2000)
    fresh_readiness fresh_readiness no_theme no_theme one_candidate two_events enter2
    second_delivery one_candidate_reachable (proj1 (proj2 sample_events_ok)) eq_refl
    second_delivery_run).
Defined.

(** The column [source_count] means the number of source events after an
    ingest and the number of latest sources after a refresh: two events of one
    source count two, and one after the next refresh. *)
Example source_count_two_meanings :
  map c_source_count (candidates two_events) = [2] /\
  match refresh_candidate_context sample_repr sample_settings (seconds 1015)
          fresh_readiness no_theme two_events "CAND-2025-01-02-005930-1" with
  | Ok (s', _) => map c_source_count (candidates s') = [1]
  | Err _ => False
  end.
Proof. vm_compute. done. Qed.
