(* ===== verification/GatewayModels.v ===== *)
(** * Gateway commands and events ([domain/broker/commands.py],
    [domain/broker/events.py], the table [gateway_commands])

    The two envelopes and their constructors, the statuses of a stored command,
    the row of [gateway_commands], and the predicate that separates order
    commands from the others.  A payload is the JSON object the constructor
    normalised; the store keeps its canonical text, which determines it. *)
From S2P Require Import Prelude PyFloat BrokerUtils.
Local Open Scope Z_scope.

Definition payload : Type := list (string * json).

(** ** The envelope *)

Record GatewayCommand := {
  command_type : string;
  source : string;
  payload_of : payload;
  command_id : string;
  ts : Z;
  idempotency_key : option string
}.

(** [CommandEnvelope.__post_init__]; the payload and the timestamp come
    normalised. *)
Definition GatewayCommand_post_init (c : GatewayCommand) : res GatewayCommand :=
  let* cid := require_non_empty (command_id c) "command_id" in
  let* ctype := require_non_empty (command_type c) "command_type" in
  let* src := require_non_empty (source c) "source" in
  let* key :=
    match idempotency_key c with
    | None => Ok None
    | Some k => let* s := require_non_empty k "idempotency_key" in Ok (Some s)
    end in
  Ok {| command_type := ctype; source := src; payload_of := payload_of c;
        command_id := cid; ts := ts c; idempotency_key := key |}.

(** What the gateway reports. *)
Record GatewayEvent := {
  ge_event_type : string;
  ge_payload : payload;
  ge_event_id : string;
  ge_source : string;
  ge_ts : Z;
  ge_command_id : option string;
  ge_idempotency_key : option string
}.

Definition opt_non_empty (v : option string) (field_name : string) : res (option string) :=
  match v with
  | None => Ok None
  | Some k => let* s := require_non_empty k field_name in Ok (Some s)
  end.

(** [EventEnvelope.__post_init__]; the payload and the timestamp come
    normalised. *)
Definition GatewayEvent_post_init (e : GatewayEvent) : res GatewayEvent :=
  let* eid := require_non_empty (ge_event_id e) "event_id" in
  let* etype := require_non_empty (ge_event_type e) "event_type" in
  let* src := require_non_empty (ge_source e) "source" in
  let* cid := opt_non_empty (ge_command_id e) "command_id" in
  let* key := opt_non_empty (ge_idempotency_key e) "idempotency_key" in
  Ok {| ge_event_type := etype; ge_payload := ge_payload e; ge_event_id := eid; ge_source := src;
        ge_ts := ge_ts e; ge_command_id := cid; ge_idempotency_key := key |}.

(** ** Statuses *)

Module GatewayCommandStatus.
Inductive t :=
| QUEUED | DISPATCHED | CLAIMED | GATEWAY_STARTED | PRE_ACK_RECORDED | BROKER_ACCEPTED
| CHEJAN_CONFIRMED | UNCONFIRMED | ACKED | REJECTED | FAILED | EXPIRED | CANCELLED.

#[export] Instance t_eq_dec : EqDecision t.
Proof. solve_decision. Defined.
End GatewayCommandStatus.
#[export] Instance gateway_status_eq_dec : EqDecision GatewayCommandStatus.t :=
  GatewayCommandStatus.t_eq_dec.

(** ** The table *)

(** A row of [gateway_commands], keyed by its command id. *)
Record command_row := {
  gc_command_id : string;
  gc_command_type : string;
  gc_source : string;
  gc_status : GatewayCommandStatus.t;
  gc_idempotency_key : option string;
  gc_payload : payload;
  gc_created_at : Z;
  gc_available_at : option Z;
  gc_dispatched_at : option Z;
  gc_completed_at : option Z;
  gc_expires_at : option Z;
  gc_attempts : Z;
  gc_last_error : option string
}.

Definition set_status (st : GatewayCommandStatus.t) (r : command_row) : command_row :=
  {| gc_command_id := gc_command_id r; gc_command_type := gc_command_type r;
     gc_source := gc_source r; gc_status := st;
     gc_idempotency_key := gc_idempotency_key r; gc_payload := gc_payload r;
     gc_created_at := gc_created_at r; gc_available_at := gc_available_at r;
     gc_dispatched_at := gc_dispatched_at r; gc_completed_at := gc_completed_at r;
     gc_expires_at := gc_expires_at r; gc_attempts := gc_attempts r;
     gc_last_error := gc_last_error r |}.

Definition set_completed (at' : option Z) (err : option string) (r : command_row)
    : command_row :=
  {| gc_command_id := gc_command_id r; gc_command_type := gc_command_type r;
     gc_source := gc_source r; gc_status := gc_status r;
     gc_idempotency_key := gc_idempotency_key r; gc_payload := gc_payload r;
     gc_created_at := gc_created_at r; gc_available_at := gc_available_at r;
     gc_dispatched_at := gc_dispatched_at r; gc_completed_at := at';
     gc_expires_at := gc_expires_at r; gc_attempts := gc_attempts r;
     gc_last_error := err |}.

Definition set_available (at' : option Z) (r : command_row) : command_row :=
  {| gc_command_id := gc_command_id r; gc_command_type := gc_command_type r;
     gc_source := gc_source r; gc_status := gc_status r;
     gc_idempotency_key := gc_idempotency_key r; gc_payload := gc_payload r;
     gc_created_at := gc_created_at r; gc_available_at := at';
     gc_dispatched_at := gc_dispatched_at r; gc_completed_at := gc_completed_at r;
     gc_expires_at := gc_expires_at r; gc_attempts := gc_attempts r;
     gc_last_error := gc_last_error r |}.

Definition set_dispatched (at' : Z) (r : command_row) : command_row :=
  {| gc_command_id := gc_command_id r; gc_command_type := gc_command_type r;
     gc_source := gc_source r; gc_status := gc_status r;
     gc_idempotency_key := gc_idempotency_key r; gc_payload := gc_payload r;
     gc_created_at := gc_created_at r; gc_available_at := gc_available_at r;
     gc_dispatched_at := Some at'; gc_completed_at := gc_completed_at r;
     gc_expires_at := gc_expires_at r; gc_attempts := gc_attempts r + 1;
     gc_last_error := gc_last_error r |}.

Definition ORDER_COMMAND_TYPES : list string := ["send_order"; "cancel_order"].

(** [is_order_command_type] of a text. *)
Definition is_order_command_type (ctype : string) : bool :=
  mem (py_lower (py_strip ctype)) ORDER_COMMAND_TYPES.

(** [command_type IN ('send_order', 'cancel_order')], as SQL compares it. *)
Definition sql_order_type (ctype : string) : bool := mem ctype ORDER_COMMAND_TYPES.

Lemma sql_order_type_is_order ctype :
  sql_order_type ctype = true -> is_order_command_type ctype = true.
Proof.
  unfold sql_order_type. rewrite mem_spec. intros H.
  repeat (apply elem_of_cons in H as [->|H]; [reflexivity|]). by apply not_elem_of_nil in H.
Qed.
