(* ===== verification/OrderBoundary.v ===== *)
(** * The order-broker boundary ([storage/gateway_order_broker_boundary.py])

    For every order command handed to the gateway a row of
    [gateway_order_broker_boundaries] records how far the order got on its way
    to the broker.  This file models the row, the operations that write it
    ([_upsert_boundary] with its [COALESCE] columns and its unique
    idempotency index, [_update_latest_boundary_payload], and the three
    operations the command store calls), and the raw part of
    [get_order_broker_boundary_status], which decides whether new orders may
    be routed.  The resolution and fence ledgers enter the status through the
    class [ResolutionLedger]. *)
From S2P Require Import Prelude PyFloat BrokerUtils GatewayModels.
Local Open Scope Z_scope.

Module GS := GatewayCommandStatus.

(** ** States *)

Module BoundaryState.
Inductive t :=
| CLAIMED | GATEWAY_STARTED | PRE_ACK_RECORDED | BROKER_ACCEPTED | CHEJAN_CONFIRMED
| UNCONFIRMED.

#[export] Instance t_eq_dec : EqDecision t.
Proof. solve_decision. Defined.
End BoundaryState.
Module BS := BoundaryState.
#[export] Instance boundary_state_eq_dec : EqDecision BS.t := BS.t_eq_dec.

Definition _STATE_RANK (s : BS.t) : Z :=
  match s with
  | BS.CLAIMED => 10
  | BS.GATEWAY_STARTED => 20
  | BS.PRE_ACK_RECORDED => 30
  | BS.UNCONFIRMED => 35
  | BS.BROKER_ACCEPTED => 40
  | BS.CHEJAN_CONFIRMED => 50
  end.

Definition _resolve_state (current_state : option BS.t) (proposed : BS.t) : BS.t :=
  match current_state with
  | None => proposed
  | Some current =>
      if decide (current = BS.CHEJAN_CONFIRMED) then current
      else if decide (proposed = BS.CHEJAN_CONFIRMED) then proposed
      else if decide (proposed = BS.BROKER_ACCEPTED) then proposed
      else if decide (current = BS.UNCONFIRMED) then current
      else if _STATE_RANK current <=? _STATE_RANK proposed then proposed else current
  end.

(** ** Rows *)

Record boundary_row := {
  b_command_id : string;
  b_idempotency_key : option string;
  b_command_type : string;
  b_source : string;
  b_state : BS.t;
  b_attempts : Z;
  b_account_id : option string;
  b_code : option string;
  b_side : option string;
  b_broker_order_no : option string;
  b_broker_result_code : option string;
  b_broker_message : option string;
  b_claimed_at : option Z;
  b_gateway_started_at : option Z;
  b_pre_ack_recorded_at : option Z;
  b_broker_accepted_at : option Z;
  b_chejan_confirmed_at : option Z;
  b_unconfirmed_at : option Z;
  b_last_event_id : option string;
  b_pre_ack_payload : payload;
  b_latest_payload : payload;
  b_created_at : Z;
  b_updated_at : Z;
  b_live_sim_only : bool;
  b_live_real_allowed : bool
}.

Abbreviation boundary_table := (gmap string boundary_row).

Record state_timestamps := {
  st_claimed_at : option Z;
  st_gateway_started_at : option Z;
  st_pre_ack_recorded_at : option Z;
  st_broker_accepted_at : option Z;
  st_chejan_confirmed_at : option Z;
  st_unconfirmed_at : option Z
}.

Definition stamp (b : bool) (occurred_at : Z) : option Z :=
  if b then Some occurred_at else None.

Definition _state_timestamps (state : BS.t) (occurred_at : Z) (pre_ack_observed : bool)
    : state_timestamps :=
  let rank := _STATE_RANK state in
  {| st_claimed_at := stamp (10 <=? rank) occurred_at;
     st_gateway_started_at :=
       stamp ((20 <=? rank) && negb (bool_decide (state = BS.UNCONFIRMED))) occurred_at;
     st_pre_ack_recorded_at := stamp pre_ack_observed occurred_at;
     st_broker_accepted_at := stamp (40 <=? rank) occurred_at;
     st_chejan_confirmed_at :=
       stamp (bool_decide (state = BS.CHEJAN_CONFIRMED)) occurred_at;
     st_unconfirmed_at := stamp (bool_decide (state = BS.UNCONFIRMED)) occurred_at |}.

(** ** Events *)

Definition _state_from_legacy_command_status (status : GS.t) : option BS.t :=
  match status with
  | GS.DISPATCHED | GS.CLAIMED => Some BS.CLAIMED
  | GS.ACKED | GS.BROKER_ACCEPTED => Some BS.BROKER_ACCEPTED
  | GS.GATEWAY_STARTED => Some BS.GATEWAY_STARTED
  | GS.PRE_ACK_RECORDED => Some BS.PRE_ACK_RECORDED
  | GS.CHEJAN_CONFIRMED => Some BS.CHEJAN_CONFIRMED
  | GS.UNCONFIRMED => Some BS.UNCONFIRMED
  | GS.QUEUED | GS.REJECTED | GS.FAILED | GS.EXPIRED | GS.CANCELLED => None
  end.

Section Writers.
Context (py_repr : json -> string).

(** [_optional_text(value)] of a mapping's value. *)
Definition _optional_text (value : option json) : option string :=
  match value with
  | None | Some JNull => None
  | Some v => let normalized := py_strip (py_str py_repr v) in
              if str_true normalized then Some normalized else None
  end.

Fixpoint _first_text (values : list (option json)) : option string :=
  match values with
  | [] => None
  | v :: vs => match _optional_text v with Some t => Some t | None => _first_text vs end
  end.

Definition _details (p : payload) : payload :=
  match jget "details" p with Some (JObj fs) => fs | _ => [] end.

Definition _state_for_event (event_type : string) (p : payload) : option BS.t :=
  let normalized := py_lower (py_strip event_type) in
  if String.eqb normalized "command_started" then Some BS.GATEWAY_STARTED
  else if String.eqb normalized "order_pre_ack" then
    if str_contains "BROKER_ACCEPTED" (py_upper (str_or_empty py_repr (jget "status" p)))
    then Some BS.BROKER_ACCEPTED else Some BS.PRE_ACK_RECORDED
  else if String.eqb normalized "command_ack" then Some BS.BROKER_ACCEPTED
  else if String.eqb normalized "order_broker_unconfirmed" then Some BS.UNCONFIRMED
  else if mem normalized ["execution_event"; "kiwoom_order_chejan"]
  then Some BS.CHEJAN_CONFIRMED
  else None.

(** The row [INSERT] proposes ([excluded] in the conflict clause). *)
Definition proposed_row (command : command_row) (effective_state proposed_state : BS.t)
    (p : payload) (event_id : option string) (occurred_at created_at : Z)
    (pre_ack_observed : bool) : boundary_row :=
  let command_payload := gc_payload command in
  let details := _details p in
  let timestamps := _state_timestamps proposed_state occurred_at pre_ack_observed in
  {| b_command_id := gc_command_id command;
     b_idempotency_key := _optional_text (JStr <$> gc_idempotency_key command);
     b_command_type := py_lower (py_strip (gc_command_type command));
     b_source := if str_true (gc_source command) then gc_source command else "unknown";
     b_state := effective_state;
     b_attempts := gc_attempts command;
     b_account_id := _first_text [jget "account_id" p; jget "account" p;
                                  jget "account_id" command_payload;
                                  jget "account" command_payload];
     b_code := _first_text [jget "code" p; jget "code" command_payload];
     b_side := _first_text [jget "side" p; jget "side" command_payload];
     b_broker_order_no := _first_text [jget "broker_order_no" details;
                                       jget "broker_order_id" details;
                                       jget "broker_order_no" p; jget "broker_order_id" p];
     b_broker_result_code := _first_text [jget "broker_result_code" details;
                                          jget "broker_result_code" p];
     b_broker_message := _first_text [jget "broker_message" details;
                                      jget "broker_message" p; jget "message" p;
                                      jget "error_message" p];
     b_claimed_at := st_claimed_at timestamps;
     b_gateway_started_at := st_gateway_started_at timestamps;
     b_pre_ack_recorded_at := st_pre_ack_recorded_at timestamps;
     b_broker_accepted_at := st_broker_accepted_at timestamps;
     b_chejan_confirmed_at := st_chejan_confirmed_at timestamps;
     b_unconfirmed_at := st_unconfirmed_at timestamps;
     b_last_event_id := event_id;
     b_pre_ack_payload := if pre_ack_observed then p else [];
     b_latest_payload := p;
     b_created_at := created_at;
     b_updated_at := occurred_at;
     b_live_sim_only := true;
     b_live_real_allowed := false |}.

(** The [ON CONFLICT(command_id) DO UPDATE SET] clause. *)
Definition merge_row (old excluded : boundary_row) : boundary_row :=
  {| b_command_id := b_command_id old;
     b_idempotency_key := coalesce (b_idempotency_key old) (b_idempotency_key excluded);
     b_command_type := b_command_type old;
     b_source := b_source old;
     b_state := b_state excluded;
     b_attempts := Z.max (b_attempts old) (b_attempts excluded);
     b_account_id := coalesce (b_account_id old) (b_account_id excluded);
     b_code := coalesce (b_code old) (b_code excluded);
     b_side := coalesce (b_side old) (b_side excluded);
     b_broker_order_no := coalesce (b_broker_order_no excluded) (b_broker_order_no old);
     b_broker_result_code :=
       coalesce (b_broker_result_code excluded) (b_broker_result_code old);
     b_broker_message := coalesce (b_broker_message excluded) (b_broker_message old);
     b_claimed_at := coalesce (b_claimed_at old) (b_claimed_at excluded);
     b_gateway_started_at :=
       coalesce (b_gateway_started_at old) (b_gateway_started_at excluded);
     b_pre_ack_recorded_at :=
       coalesce (b_pre_ack_recorded_at old) (b_pre_ack_recorded_at excluded);
     b_broker_accepted_at :=
       coalesce (b_broker_accepted_at old) (b_broker_accepted_at excluded);
     b_chejan_confirmed_at :=
       coalesce (b_chejan_confirmed_at old) (b_chejan_confirmed_at excluded);
     b_unconfirmed_at := coalesce (b_unconfirmed_at old) (b_unconfirmed_at excluded);
     b_last_event_id := coalesce (b_last_event_id excluded) (b_last_event_id old);
     b_pre_ack_payload :=
       match b_pre_ack_payload excluded with [] => b_pre_ack_payload old | p => p end;
     b_latest_payload := b_latest_payload excluded;
     b_created_at := b_created_at old;
     b_updated_at := b_updated_at excluded;
     b_live_sim_only := b_live_sim_only old;
     b_live_real_allowed := b_live_real_allowed old |}.

(** The unique index on non-null idempotency keys admits [row]. *)
Definition idempotency_index_admits (row : boundary_row) (t : boundary_table) : bool :=
  match b_idempotency_key row with
  | None => true
  | Some k =>
      forallb (fun kv => String.eqb kv.1 (b_command_id row) ||
                         negb (bool_decide (b_idempotency_key kv.2 = Some k)))
              (map_to_list t)
  end.

Definition write_row (row : boundary_row) (t : boundary_table) : res boundary_table :=
  if idempotency_index_admits row t then Ok (<[b_command_id row := row]> t)
  else Err IntegrityError.

Definition _upsert_boundary (t : boundary_table) (command : command_row)
    (proposed_state : BS.t) (p : payload) (event_id : option string) (occurred_at : Z)
    (pre_ack_observed : bool) : res (boundary_table * BS.t) :=
  let existing := t !! gc_command_id command in
  let effective_state := _resolve_state (b_state <$> existing) proposed_state in
  let created_at :=
    match existing with Some e => b_created_at e | None => occurred_at end in
  let excluded := proposed_row command effective_state proposed_state p event_id
                    occurred_at created_at pre_ack_observed in
  let row := match existing with Some e => merge_row e excluded | None => excluded end in
  let* t' := write_row row t in Ok (t', effective_state).

(** [_update_latest_boundary_payload]: an event that names no state. *)
Definition touch_row (p : payload) (event_id : option string) (occurred_at : Z)
    (r : boundary_row) : boundary_row :=
  {| b_command_id := b_command_id r; b_idempotency_key := b_idempotency_key r;
     b_command_type := b_command_type r; b_source := b_source r; b_state := b_state r;
     b_attempts := b_attempts r; b_account_id := b_account_id r; b_code := b_code r;
     b_side := b_side r; b_broker_order_no := b_broker_order_no r;
     b_broker_result_code := b_broker_result_code r;
     b_broker_message := b_broker_message r; b_claimed_at := b_claimed_at r;
     b_gateway_started_at := b_gateway_started_at r;
     b_pre_ack_recorded_at := b_pre_ack_recorded_at r;
     b_broker_accepted_at := b_broker_accepted_at r;
     b_chejan_confirmed_at := b_chejan_confirmed_at r;
     b_unconfirmed_at := b_unconfirmed_at r;
     b_last_event_id := coalesce event_id (b_last_event_id r);
     b_pre_ack_payload := b_pre_ack_payload r; b_latest_payload := p;
     b_created_at := b_created_at r; b_updated_at := occurred_at;
     b_live_sim_only := b_live_sim_only r; b_live_real_allowed := b_live_real_allowed r |}.

Definition _update_latest_boundary_payload (t : boundary_table) (command : command_row)
    (p : payload) (event_id : option string) (occurred_at : Z)
    : boundary_table * option BS.t :=
  match t !! gc_command_id command with
  | None => (t, None)
  | Some r => (<[gc_command_id command := touch_row p event_id occurred_at r]> t,
               Some (b_state r))
  end.

(** ** The operations the command store calls *)

Definition record_order_command_claim (t : boundary_table) (command : command_row)
    (claimed_at : Z) : res (boundary_table * option BS.t) :=
  if negb (is_order_command_type (gc_command_type command)) then Ok (t, None)
  else
    let* (t', st) := _upsert_boundary t command BS.CLAIMED (gc_payload command) None
                       claimed_at false in
    Ok (t', Some st).

Definition record_order_broker_event (t : boundary_table) (command : command_row)
    (event_type : string) (p : payload) (event_id : option string) (occurred_at : Z)
    : res (boundary_table * option BS.t) :=
  if negb (is_order_command_type (gc_command_type command)) then Ok (t, None)
  else
    match _state_for_event event_type p with
    | None => Ok (_update_latest_boundary_payload t command p event_id occurred_at)
    | Some proposed_state =>
        let* (t', st) :=
          _upsert_boundary t command proposed_state p event_id occurred_at
            (String.eqb (py_lower (py_strip event_type)) "order_pre_ack") in
        Ok (t', Some st)
    end.

(** One round of [mark_order_commands_unconfirmed]'s loop. *)
Definition mark_unconfirmed_one (commands : gmap string command_row) (occurred_at : Z)
    (reason : string) (t : boundary_table) (cid : string) : res boundary_table :=
  match commands !! cid with
  | None => Ok t
  | Some command =>
      if negb (is_order_command_type (gc_command_type command)) then Ok t
      else
        let* (t', _) := _upsert_boundary t command BS.UNCONFIRMED
                          [("reason", JStr reason)] None occurred_at false in
        Ok t'
  end.

Fixpoint mark_unconfirmed_loop (commands : gmap string command_row) (occurred_at : Z)
    (reason : string) (t : boundary_table) (cids : list string) : res boundary_table :=
  match cids with
  | [] => Ok t
  | cid :: rest =>
      let* t' := mark_unconfirmed_one commands occurred_at reason t cid in
      mark_unconfirmed_loop commands occurred_at reason t' rest
  end.

Definition mark_order_commands_unconfirmed (commands : gmap string command_row)
    (t : boundary_table) (command_ids : list string) (occurred_at : Z) (reason : string)
    : res boundary_table :=
  mark_unconfirmed_loop commands occurred_at reason t
    (dedupe (List.filter str_true command_ids)).

End Writers.

(** ** Boundary status *)

(** What the resolution and fence ledgers say about one boundary row
    ([_validate_resolution_chain], [_resolution_projection],
    [_fence_event_projection]). *)
Record ledger_projection := {
  lp_chain_invalid : bool;
  lp_fence_chain_invalid : bool;
  lp_resolved : bool;
  lp_active_resolution : bool;
  lp_release_invalidated : bool;
  lp_fence_active : bool
}.

(** The ledgers and the database schema, as the status reads them. *)
Class ResolutionLedger := {
  required_indexes_present : bool;
  resolution_schema_ready : bool;
  fence_event_schema_ready : bool;
  resolution_source_schema_reason_codes : list string;
  ledger_of : boundary_row -> option ledger_projection;
  resolution_orphan : bool;
  fence_event_orphan : bool
}.

(** A migrated database in which nothing was ever resolved. *)
Definition no_resolutions : ResolutionLedger :=
  {| required_indexes_present := true; resolution_schema_ready := true;
     fence_event_schema_ready := true; resolution_source_schema_reason_codes := [];
     ledger_of := fun _ => None; resolution_orphan := false;
     fence_event_orphan := false |}.

Definition rows {A} (t : gmap string A) : list A := (map_to_list t).*2.

Definition count {A} (p : A -> bool) (l : list A) : Z := Z.of_nat (length (List.filter p l)).

(** The rows of the common table expression [expected]. *)
Definition expected_boundary (c : command_row) : bool :=
  mem (py_lower (gc_command_type c)) ORDER_COMMAND_TYPES &&
  (bool_decide (is_Some (gc_dispatched_at c)) ||
   bool_decide (gc_status c ∈ [GS.CLAIMED; GS.GATEWAY_STARTED; GS.PRE_ACK_RECORDED;
                               GS.BROKER_ACCEPTED; GS.CHEJAN_CONFIRMED; GS.UNCONFIRMED;
                               GS.DISPATCHED; GS.ACKED])).

Definition active_order_command (c : command_row) : bool :=
  mem (py_lower (gc_command_type c)) ["send_order"; "cancel_order"; "modify_order"] &&
  bool_decide (gc_status c ∈ [GS.QUEUED; GS.CLAIMED; GS.DISPATCHED; GS.GATEWAY_STARTED;
                              GS.PRE_ACK_RECORDED]).

Definition missing_boundary (t : boundary_table) (c : command_row) : bool :=
  expected_boundary c && bool_decide (t !! gc_command_id c = None).

Definition durable_pre_ack_gap (commands : gmap string command_row) (b : boundary_row)
    : bool :=
  bool_decide (b_pre_ack_recorded_at b = None) &&
  (bool_decide (b_state b ∈ [BS.PRE_ACK_RECORDED; BS.BROKER_ACCEPTED;
                             BS.CHEJAN_CONFIRMED]) ||
   match commands !! b_command_id b with
   | None => false
   | Some c => bool_decide (gc_status c ∈ [GS.PRE_ACK_RECORDED; GS.BROKER_ACCEPTED;
                                           GS.CHEJAN_CONFIRMED; GS.ACKED])
   end).

(** The boundary state a command status stands for, [NULL] for the others. *)
Definition command_state_mismatch (commands : gmap string command_row) (b : boundary_row)
    : bool :=
  match commands !! b_command_id b with
  | None => false
  | Some c =>
      match _state_from_legacy_command_status (gc_status c) with
      | None => false
      | Some s => negb (bool_decide (s = b_state b))
      end
  end.

Definition orphan_boundary (commands : gmap string command_row) (b : boundary_row) : bool :=
  bool_decide (commands !! b_command_id b = None).

Definition unexpected_boundary (commands : gmap string command_row) (b : boundary_row)
    : bool :=
  match commands !! b_command_id b with
  | None => true
  | Some c => negb (expected_boundary c)
  end.

Definition linked_command_type_invalid (commands : gmap string command_row)
    (b : boundary_row) : bool :=
  match commands !! b_command_id b with
  | None => false
  | Some c => negb (mem (py_lower (gc_command_type c)) ORDER_COMMAND_TYPES)
  end.

Definition linked_command_type_mismatch (commands : gmap string command_row)
    (b : boundary_row) : bool :=
  match commands !! b_command_id b with
  | None => false
  | Some c => negb (String.eqb (py_lower (b_command_type b)) (py_lower (gc_command_type c)))
  end.

Definition duplicate_idempotency (t : boundary_table) (b : boundary_row) : bool :=
  match b_idempotency_key b with
  | None => false
  | Some k => 1 <? count (fun b' => bool_decide (b_idempotency_key b' = Some k)) (rows t)
  end.

Definition invalid_command_type (b : boundary_row) : bool :=
  negb (mem (py_lower (b_command_type b)) ORDER_COMMAND_TYPES).

Definition invalid_scope (b : boundary_row) : bool :=
  negb (b_live_sim_only b) || b_live_real_allowed b.

Definition code_if (b : bool) (code : string) : list string := if b then [code] else [].

(** The reasons of the counting query, in the order they are reported.  A stored
    state or status outside the enumerations is not representable here. *)
Definition count_reason_codes (commands : gmap string command_row) (t : boundary_table)
    : list string :=
  let bs := rows t in
  let any p := 0 <? count p bs in
  code_if (0 <? count (missing_boundary t) (rows commands)) "ORDER_BROKER_BOUNDARY_ROW_MISSING"
  ++ code_if (any (durable_pre_ack_gap commands)) "DURABLE_PRE_ACK_GAP"
  ++ code_if (any (duplicate_idempotency t)) "ORDER_BOUNDARY_IDEMPOTENCY_DUPLICATE"
  ++ code_if (any (command_state_mismatch commands)) "ORDER_COMMAND_BOUNDARY_STATE_MISMATCH"
  ++ code_if (any (orphan_boundary commands)) "ORDER_BROKER_BOUNDARY_ORPHAN"
  ++ code_if (any (unexpected_boundary commands)) "ORDER_BROKER_BOUNDARY_UNEXPECTED"
  ++ code_if (any (linked_command_type_invalid commands))
       "ORDER_BOUNDARY_LINKED_COMMAND_TYPE_INVALID"
  ++ code_if (any (linked_command_type_mismatch commands)) "ORDER_BOUNDARY_COMMAND_TYPE_MISMATCH"
  ++ code_if (any invalid_command_type) "ORDER_BOUNDARY_COMMAND_TYPE_INVALID"
  ++ code_if (any invalid_scope) "ORDER_BOUNDARY_SCOPE_INVALID".

Section Status.
Context {ledger : ResolutionLedger}.

Definition schema_reason_codes : list string :=
  code_if (negb required_indexes_present) "ORDER_BROKER_BOUNDARY_INDEX_MISSING"
  ++ code_if (negb resolution_schema_ready) "ORDER_BROKER_BOUNDARY_RESOLUTION_SCHEMA_INVALID"
  ++ code_if (negb fence_event_schema_ready) "ORDER_BROKER_BOUNDARY_FENCE_EVENT_SCHEMA_INVALID"
  ++ match resolution_source_schema_reason_codes with
     | [] => []
     | codes => "ORDER_BROKER_BOUNDARY_RESOLUTION_SOURCE_SCHEMA_INVALID" :: codes
     end.

Definition ledgers_read : bool :=
  resolution_schema_ready &&
  match resolution_source_schema_reason_codes with [] => true | _ => false end.

(** A boundary's ledger entry, when the ledgers are read at all. *)
Definition ledger_entry (b : boundary_row) : option ledger_projection :=
  if ledgers_read then ledger_of b else None.

Definition ledger_has (p : ledger_projection -> bool) (b : boundary_row) : bool :=
  match ledger_entry b with Some l => p l | None => false end.

Definition ledger_reason_codes (t : boundary_table) : list string :=
  let any p := 0 <? count (ledger_has p) (rows t) in
  code_if (ledgers_read && resolution_orphan) "ORDER_BOUNDARY_RESOLUTION_ORPHAN"
  ++ code_if (ledgers_read && fence_event_orphan) "ORDER_BOUNDARY_FENCE_EVENT_ORPHAN"
  ++ code_if (any lp_chain_invalid) "ORDER_BOUNDARY_RESOLUTION_CHAIN_INVALID"
  ++ code_if (any lp_fence_chain_invalid) "ORDER_BOUNDARY_FENCE_EVENT_CHAIN_INVALID".

Definition is_unconfirmed (b : boundary_row) : bool :=
  bool_decide (b_state b = BS.UNCONFIRMED).

Definition unconfirmed_count (t : boundary_table) : Z := count is_unconfirmed (rows t).

Definition effective_unconfirmed_count (t : boundary_table) : Z :=
  Z.max (unconfirmed_count t -
         count (fun b => is_unconfirmed b && ledger_has lp_resolved b) (rows t)) 0.

Definition invalidated_resolution_count (t : boundary_table) : Z :=
  count (ledger_has (fun l => negb (lp_resolved l) && lp_active_resolution l)) (rows t).

Definition maintenance_fence_active_count (t : boundary_table) : Z :=
  count (ledger_has lp_fence_active) (rows t).

Record BoundaryStatus := {
  raw_status : string;
  effective_status : string;
  reason_codes : list string;
  warning_codes : list string;
  raw_block_new_order_routing : bool;
  qualification_block_new_order_routing : bool;
  effective_block_new_order_routing : bool
}.

Definition nonempty {A} (l : list A) : bool := match l with [] => false | _ => true end.

Definition get_order_broker_boundary_status (commands : gmap string command_row)
    (t : boundary_table) : BoundaryStatus :=
  let codes := dedupe (schema_reason_codes ++ count_reason_codes commands t ++
                       ledger_reason_codes t) in
  let unconfirmed := 0 <? unconfirmed_count t in
  let effective_unconfirmed := 0 <? effective_unconfirmed_count t in
  let invalidated := 0 <? invalidated_resolution_count t in
  let active := 0 <? count active_order_command (rows commands) in
  let fence := 0 <? maintenance_fence_active_count t in
  {| raw_status := if nonempty codes then "FAIL" else if unconfirmed then "WARN" else "PASS";
     effective_status :=
       if nonempty codes then "FAIL"
       else if effective_unconfirmed || invalidated || active then "WARN" else "PASS";
     reason_codes := codes;
     warning_codes :=
       code_if unconfirmed "UNCONFIRMED_ORDER_BOUNDARY_REQUIRES_RECONCILE"
       ++ code_if effective_unconfirmed "EFFECTIVE_ORDER_BOUNDARY_REQUIRES_RESOLUTION"
       ++ code_if invalidated "ORDER_BOUNDARY_RESOLUTION_INVALIDATED"
       ++ code_if (0 <? count (ledger_has lp_release_invalidated) (rows t))
            "ORDER_BOUNDARY_FENCE_RELEASE_INVALIDATED"
       ++ code_if active "ACTIVE_ORDER_COMMANDS_PRESENT";
     raw_block_new_order_routing := nonempty codes || unconfirmed;
     qualification_block_new_order_routing :=
       nonempty codes || effective_unconfirmed || invalidated || active;
     effective_block_new_order_routing :=
       nonempty codes || effective_unconfirmed || invalidated || fence |}.

End Status.

(** ** States form a chain *)

Lemma resolve_state_max current proposed :
  _resolve_state (Some current) proposed =
  if _STATE_RANK current <=? _STATE_RANK proposed then proposed else current.
Proof. by destruct current, proposed. Qed.

Lemma rank_inj s s' : _STATE_RANK s = _STATE_RANK s' -> s = s'.
Proof. by destruct s, s'. Qed.

Lemma resolve_rank current proposed :
  _STATE_RANK (_resolve_state (Some current) proposed) =
  Z.max (_STATE_RANK current) (_STATE_RANK proposed).
Proof. rewrite resolve_state_max. case_match eqn:E; lia. Qed.

Lemma resolve_confirmed s p :
  s ∈ [BS.BROKER_ACCEPTED; BS.CHEJAN_CONFIRMED] ->
  _resolve_state (Some s) p ∈ [BS.BROKER_ACCEPTED; BS.CHEJAN_CONFIRMED].
Proof. destruct s, p; set_solver. Qed.

(** ** One write of the table *)

(** What a write may do to a row: the state only climbs, a key, a timestamp, an
    account, a code or a side once set stays, and identity and scope are
    fixed. *)
Definition keeps {A} (old new : option A) : Prop := forall a, old = Some a -> new = Some a.

Record advances (b b' : boundary_row) : Prop := {
  adv_id : b_command_id b' = b_command_id b;
  adv_type : b_command_type b' = b_command_type b;
  adv_source : b_source b' = b_source b;
  adv_scope : b_live_sim_only b' = b_live_sim_only b /\
              b_live_real_allowed b' = b_live_real_allowed b;
  adv_created : b_created_at b' = b_created_at b;
  adv_state : _STATE_RANK (b_state b) <= _STATE_RANK (b_state b');
  adv_attempts : b_attempts b <= b_attempts b';
  adv_key : keeps (b_idempotency_key b) (b_idempotency_key b');
  adv_order : keeps (b_account_id b) (b_account_id b') /\ keeps (b_code b) (b_code b') /\
              keeps (b_side b) (b_side b');
  adv_times : keeps (b_claimed_at b) (b_claimed_at b') /\
              keeps (b_gateway_started_at b) (b_gateway_started_at b') /\
              keeps (b_pre_ack_recorded_at b) (b_pre_ack_recorded_at b') /\
              keeps (b_broker_accepted_at b) (b_broker_accepted_at b') /\
              keeps (b_chejan_confirmed_at b) (b_chejan_confirmed_at b') /\
              keeps (b_unconfirmed_at b) (b_unconfirmed_at b')
}.

Lemma field_keeps_refl {A} (o : option A) : keeps o o.
Proof. by intros a. Qed.
Lemma field_keeps_trans {A} (o1 o2 o3 : option A) : keeps o1 o2 -> keeps o2 o3 -> keeps o1 o3.
Proof. unfold keeps; naive_solver. Qed.
Lemma field_keeps_coalesce {A} (o o' : option A) : keeps o (coalesce o o').
Proof. by intros a ->. Qed.
#[export] Hint Resolve field_keeps_refl field_keeps_coalesce : core.

Lemma advances_refl b : advances b b.
Proof. split; auto with lia; repeat split; auto. Qed.

Lemma advances_trans b1 b2 b3 : advances b1 b2 -> advances b2 b3 -> advances b1 b3.
Proof.
  intros H1 H2. destruct H1, H2. destruct_and?.
  split; try congruence; try lia; eauto using field_keeps_trans;
    split_and!; eauto using field_keeps_trans; congruence.
Qed.

(** [t'] extends [t]: every row is still there, advanced. *)
Definition extends (t t' : boundary_table) : Prop :=
  forall cid b, t !! cid = Some b -> exists b', t' !! cid = Some b' /\ advances b b'.

#[export] Instance extends_preorder : PreOrder extends.
Proof.
  split.
  - intros t cid b H. exists b. split; [done|apply advances_refl].
  - intros t1 t2 t3 H12 H23 cid b H. destruct (H12 _ _ H) as (b' & H' & A1).
    destruct (H23 _ _ H') as (b'' & H'' & A2). eauto using advances_trans.
Qed.

(** ** The invariant of the table *)

(** The timestamps a state entails. *)
Record row_ok (b : boundary_row) : Prop := {
  ro_type : b_command_type b ∈ ORDER_COMMAND_TYPES;
  ro_scope : b_live_sim_only b = true /\ b_live_real_allowed b = false;
  ro_claimed : is_Some (b_claimed_at b);
  ro_started : b_state b ∈ [BS.GATEWAY_STARTED; BS.PRE_ACK_RECORDED; BS.BROKER_ACCEPTED;
                            BS.CHEJAN_CONFIRMED] -> is_Some (b_gateway_started_at b);
  ro_accepted : b_state b ∈ [BS.BROKER_ACCEPTED; BS.CHEJAN_CONFIRMED] ->
                is_Some (b_broker_accepted_at b);
  ro_confirmed : b_state b = BS.CHEJAN_CONFIRMED <-> is_Some (b_chejan_confirmed_at b);
  ro_unconfirmed : b_state b = BS.UNCONFIRMED -> is_Some (b_unconfirmed_at b);
  ro_accepted_inv : is_Some (b_broker_accepted_at b) ->
                    b_state b ∈ [BS.BROKER_ACCEPTED; BS.CHEJAN_CONFIRMED]
}.

Record table_ok (t : boundary_table) : Prop := {
  to_rows : map_Forall (fun cid b => b_command_id b = cid /\ row_ok b) t;
  to_unique : forall c1 c2 b1 b2 k, t !! c1 = Some b1 -> t !! c2 = Some b2 ->
    b_idempotency_key b1 = Some k -> b_idempotency_key b2 = Some k -> c1 = c2
}.

Lemma table_ok_empty : table_ok ∅.
Proof. split; [apply map_Forall_empty|]. intros c1 c2 b1 b2 k H. by rewrite lookup_empty in H. Qed.

Lemma index_admits_spec row t :
  idempotency_index_admits row t = true <->
  forall k cid b, b_idempotency_key row = Some k -> t !! cid = Some b ->
    b_idempotency_key b = Some k -> cid = b_command_id row.
Proof.
  unfold idempotency_index_admits. destruct (b_idempotency_key row) as [k|]; [|naive_solver].
  rewrite forallb_forall. split.
  - intros H k' cid b [= <-] Hb Hk. apply elem_of_map_to_list, list_elem_of_In in Hb.
    apply H in Hb. simpl in Hb. rewrite bool_decide_eq_true_2 in Hb by done.
    rewrite orb_false_r in Hb. by apply String.eqb_eq.
  - intros H [cid b] Hin. simpl. apply list_elem_of_In, elem_of_map_to_list in Hin.
    destruct (String.eqb cid (b_command_id row)) eqn:E; [done|]. apply String.eqb_neq in E.
    simpl. apply negb_true_iff, bool_decide_eq_false_2. intros Hk. naive_solver.
Qed.

Section WriterFacts.
Context (py_repr : json -> string).

Lemma write_row_spec row t t' :
  write_row row t = Ok t' <->
  idempotency_index_admits row t = true /\ t' = <[b_command_id row := row]> t.
Proof. unfold write_row. destruct (idempotency_index_admits row t); naive_solver. Qed.

Lemma write_row_err row t e : write_row row t = Err e -> e = IntegrityError.
Proof. unfold write_row. destruct (idempotency_index_admits row t); naive_solver. Qed.

(** The row an upsert leaves behind. *)
Definition upserted (t : boundary_table) (command : command_row) (proposed : BS.t)
    (p : payload) (event_id : option string) (occurred_at : Z) (pre_ack : bool)
    : boundary_row :=
  let effective := _resolve_state (b_state <$> t !! gc_command_id command) proposed in
  let created := match t !! gc_command_id command with
                 | Some e => b_created_at e | None => occurred_at end in
  let excluded := proposed_row py_repr command effective proposed p event_id occurred_at
                    created pre_ack in
  match t !! gc_command_id command with
  | Some e => merge_row e excluded
  | None => excluded
  end.

Lemma upsert_spec t command proposed p eid at' pre t' st :
  _upsert_boundary py_repr t command proposed p eid at' pre = Ok (t', st) <->
  st = _resolve_state (b_state <$> t !! gc_command_id command) proposed /\
  idempotency_index_admits (upserted t command proposed p eid at' pre) t = true /\
  t' = <[b_command_id (upserted t command proposed p eid at' pre) :=
         upserted t command proposed p eid at' pre]> t.
Proof.
  unfold _upsert_boundary, upserted. cbv zeta. rewrite res_bind_ok. setoid_rewrite write_row_spec.
  naive_solver.
Qed.

Lemma upsert_err t command proposed p eid at' pre e :
  _upsert_boundary py_repr t command proposed p eid at' pre = Err e -> e = IntegrityError.
Proof.
  unfold _upsert_boundary. cbv zeta.
  match goal with |- context [write_row ?r ?u] => destruct (write_row r u) eqn:E end; [done|].
  apply write_row_err in E. cbn. congruence.
Qed.

Lemma upserted_id t command proposed p eid at' pre :
  map_Forall (fun cid b => b_command_id b = cid /\ row_ok b) t ->
  b_command_id (upserted t command proposed p eid at' pre) = gc_command_id command.
Proof.
  intros H. unfold upserted. destruct (t !! gc_command_id command) as [e|] eqn:E; [|done].
  by destruct (H _ _ E).
Qed.

Lemma upserted_state t command proposed p eid at' pre :
  b_state (upserted t command proposed p eid at' pre) =
  _resolve_state (b_state <$> t !! gc_command_id command) proposed.
Proof. unfold upserted. by destruct (t !! gc_command_id command). Qed.

Lemma stamp_some b x : is_Some (stamp b x) <-> b = true.
Proof. destruct b; cbn; split; try done; by intros [? ?]. Qed.

Lemma coalesce_some {A} (a b : option A) : is_Some (coalesce a b) <-> is_Some a \/ is_Some b.
Proof. destruct a; cbn; [|by split; [auto|intros [[? ?]|?]]]. split; eauto. Qed.

Lemma proposed_row_ok command proposed p eid at' created pre :
  is_order_command_type (gc_command_type command) = true ->
  row_ok (proposed_row py_repr command proposed proposed p eid at' created pre).
Proof.
  unfold is_order_command_type. rewrite mem_spec. intros H.
  destruct proposed; (split; cbn -[ORDER_COMMAND_TYPES py_lower py_strip];
    first [done | set_solver | idtac]);
    rewrite ?stamp_some; try set_solver; try (by eexists); try (split; [done|by eexists]);
    try (split; [done | by intros [? ?]]).
Qed.

Lemma merge_row_ok old command proposed p eid at' created pre :
  row_ok old ->
  row_ok (merge_row old (proposed_row py_repr command
            (_resolve_state (Some (b_state old)) proposed) proposed p eid at' created pre)).
Proof.
  intros []. destruct (b_state old) eqn:Es, proposed;
    (split; cbn -[ORDER_COMMAND_TYPES]; rewrite ?coalesce_some; cbn;
     first [assumption | auto | idtac]);
    try (set_solver); try naive_solver eauto.
Qed.

Lemma upserted_ok t command proposed p eid at' pre :
  table_ok t -> is_order_command_type (gc_command_type command) = true ->
  row_ok (upserted t command proposed p eid at' pre).
Proof.
  intros Ht Hc. unfold upserted. destruct (t !! gc_command_id command) as [e|] eqn:E; cbn.
  - apply merge_row_ok. by apply (to_rows _ Ht) in E as [_ ?].
  - by apply proposed_row_ok.
Qed.

Lemma upserted_advances t command proposed p eid at' pre b :
  t !! gc_command_id command = Some b ->
  advances b (upserted t command proposed p eid at' pre).
Proof.
  intros E. unfold upserted. rewrite E. pose proof (resolve_rank (b_state b) proposed).
  split; cbn -[_STATE_RANK _resolve_state]; split_and?; auto; lia.
Qed.

(** An upsert of an order command keeps the table's invariant, advances that
    command's row and leaves the others alone. *)
Lemma upsert_boundary_ok t command proposed p eid at' pre t' st :
  table_ok t -> is_order_command_type (gc_command_type command) = true ->
  _upsert_boundary py_repr t command proposed p eid at' pre = Ok (t', st) ->
  table_ok t' /\ extends t t' /\
  (exists b, t' !! gc_command_id command = Some b /\ b_state b = st) /\
  (forall cid, cid <> gc_command_id command -> t' !! cid = t !! cid).
Proof.
  intros Ht Hc (-> & Hi & ->)%upsert_spec.
  rewrite !upserted_id by apply Ht. rewrite index_admits_spec, upserted_id in Hi by apply Ht.
  split_and!.
  - split.
    + apply map_Forall_insert_2; [|apply Ht]. split; [by apply upserted_id, Ht|].
      by apply upserted_ok.
    + intros c1 c2 b1 b2 k H1 H2 K1 K2.
      apply lookup_insert_Some in H1 as [[<- <-]|[N1 H1]];
        apply lookup_insert_Some in H2 as [[<- <-]|[N2 H2]]; [done| | |].
      * symmetry. eauto.
      * eauto.
      * by eapply (to_unique _ Ht).
  - intros cid b Hb. destruct (decide (cid = gc_command_id command)) as [->|Hne].
    + eexists. rewrite lookup_insert_eq. split; [done|by apply upserted_advances].
    + exists b. rewrite lookup_insert_ne by done. split; [done|apply advances_refl].
  - eexists. rewrite lookup_insert_eq. split; [done|apply upserted_state].
  - intros cid Hne. by rewrite lookup_insert_ne.
Qed.

(** What every writer of the table guarantees. *)
Record writes (t t' : boundary_table) : Prop := {
  w_ok : table_ok t';
  w_extends : extends t t'
}.

Lemma touch_ok t command p eid at' t' st :
  table_ok t -> _update_latest_boundary_payload t command p eid at' = (t', st) ->
  writes t t' /\ (forall cid, b_state <$> t' !! cid = b_state <$> t !! cid) /\
  (forall cid, cid <> gc_command_id command -> t' !! cid = t !! cid) /\
  st = b_state <$> t !! gc_command_id command.
Proof.
  intros Ht. unfold _update_latest_boundary_payload.
  destruct (t !! gc_command_id command) as [r|] eqn:E; intros [= <- <-]; cbn.
  - destruct (to_rows _ Ht _ _ E) as [Hid Hr]. split_and!; [|intros cid|intros cid ?; by rewrite lookup_insert_ne|done].
    + split; [split|].
      * apply map_Forall_insert_2; [|apply Ht]. split; [done|]. destruct Hr. by split.
      * intros c1 c2 b1 b2 k H1 H2 K1 K2.
        apply lookup_insert_Some in H1 as [[<- <-]|[N1 H1]];
          apply lookup_insert_Some in H2 as [[<- <-]|[N2 H2]]; [done| | |];
          eapply (to_unique _ Ht); eauto.
      * intros cid b Hb. destruct (decide (cid = gc_command_id command)) as [->|Hne].
        -- eexists. rewrite lookup_insert_eq. split; [done|].
           replace b with r by congruence. by split; cbn; auto with lia.
        -- exists b. rewrite lookup_insert_ne by done. split; [done|apply advances_refl].
    + destruct (decide (cid = gc_command_id command)) as [->|Hne];
        [by rewrite lookup_insert_eq, E|by rewrite lookup_insert_ne].
  - split_and!; [by split|done..].
Qed.

Lemma claim_ok t command at' t' st :
  table_ok t -> record_order_command_claim py_repr t command at' = Ok (t', st) ->
  writes t t' /\ (forall cid, cid <> gc_command_id command -> t' !! cid = t !! cid) /\
  (is_order_command_type (gc_command_type command) = true ->
   exists b, t' !! gc_command_id command = Some b /\
     b_state b = _resolve_state (b_state <$> t !! gc_command_id command) BS.CLAIMED).
Proof.
  intros Ht. unfold record_order_command_claim.
  destruct (is_order_command_type (gc_command_type command)) eqn:Ho; cbn.
  - intros H. res_inv H. destruct a as [t1 s1]. injection H as <- <-.
    assert (H1 := Ha). apply upsert_boundary_ok in Ha as (? & ? & Hb & ?); [|done..].
    split_and!; [by split|done|]. intros _. apply upsert_spec in H1 as (-> & _). done.
  - intros [= <- <-]. by split_and!; [split|..].
Qed.

Lemma event_ok t command event_type p eid at' t' st :
  table_ok t ->
  record_order_broker_event py_repr t command event_type p eid at' = Ok (t', st) ->
  writes t t' /\ (forall cid, cid <> gc_command_id command -> t' !! cid = t !! cid) /\
  (is_order_command_type (gc_command_type command) = true ->
   b_state <$> t' !! gc_command_id command = st /\
   st = match _state_for_event py_repr event_type p with
        | Some s => Some (_resolve_state (b_state <$> t !! gc_command_id command) s)
        | None => b_state <$> t !! gc_command_id command
        end).
Proof.
  intros Ht. unfold record_order_broker_event.
  destruct (is_order_command_type (gc_command_type command)) eqn:Ho; cbn;
    [|intros [= <- <-]; by split_and!; [split|..]].
  destruct (_state_for_event py_repr event_type p) as [s|].
  - intros H. res_inv H. destruct a as [t1 s1]. injection H as <- <-.
    assert (H1 := Ha). apply upsert_boundary_ok in Ha as (? & ? & (b & Hb & Hs) & Hne); [|done..].
    apply upsert_spec in H1 as (-> & _). split_and!; [by split|done|].
    intros _. rewrite Hb. cbn. by rewrite Hs.
  - intros [= H]. apply touch_ok in H as (? & Hs & ? & ->); [|done].
    split_and!; [done..|]. intros _. by rewrite Hs.
Qed.

Lemma mark_one_ok commands at' reason t cid t' :
  table_ok t -> mark_unconfirmed_one py_repr commands at' reason t cid = Ok t' ->
  (forall c, commands !! cid = Some c -> gc_command_id c = cid) ->
  writes t t' /\ (forall c, c <> cid -> t' !! c = t !! c) /\
  (forall c, commands !! cid = Some c -> is_order_command_type (gc_command_type c) = true ->
    b_state <$> t' !! cid = Some (_resolve_state (b_state <$> t !! cid) BS.UNCONFIRMED)).
Proof.
  intros Ht H Hid. unfold mark_unconfirmed_one in H.
  destruct (commands !! cid) as [c|] eqn:E; [|injection H as <-; by split_and!; [split|..]].
  destruct (is_order_command_type (gc_command_type c)) eqn:Ho; cbn in H;
    [|injection H as <-; split_and!; [by split|done|intros ? [= <-]; congruence]].
  res_inv H. destruct a as [t1 s1]. injection H as <-.
  assert (H1 := Ha). apply upsert_boundary_ok in Ha as (? & ? & (b & Hb & Hs) & Hne); [|done..].
  apply upsert_spec in H1 as (-> & _).
  rewrite (Hid _ eq_refl) in *. split_and!; [by split|done|].
  intros c' [= <-] _. rewrite Hb. cbn. by rewrite Hs.
Qed.

Lemma writes_trans t1 t2 t3 : writes t1 t2 -> writes t2 t3 -> writes t1 t3.
Proof. intros [] []. split; [done|]. by etransitivity. Qed.

Lemma mark_loop_ok commands at' reason cids : forall t t',
  table_ok t -> mark_unconfirmed_loop py_repr commands at' reason t cids = Ok t' ->
  (forall cid c, commands !! cid = Some c -> gc_command_id c = cid) -> NoDup cids ->
  writes t t' /\ (forall c, c ∉ cids -> t' !! c = t !! c) /\
  (forall cid c, cid ∈ cids -> commands !! cid = Some c ->
    is_order_command_type (gc_command_type c) = true ->
    b_state <$> t' !! cid = Some (_resolve_state (b_state <$> t !! cid) BS.UNCONFIRMED)).
Proof.
  induction cids as [|cid cids IH]; intros t t' Ht H Hid Hnd; cbn in H.
  - injection H as <-. split_and!; [by split|done|set_solver].
  - res_inv H. apply list.NoDup_cons in Hnd as [Hnin Hnd].
    apply mark_one_ok in Ha as (W1 & Hne1 & Hs1); [|done|naive_solver].
    apply IH in H as (W2 & Hne2 & Hs2); [|apply W1|done..].
    split_and!; [by eapply writes_trans| |].
    + intros c Hc. rewrite Hne2, Hne1; set_solver.
    + intros cid' c [->|Hin]%elem_of_cons Hc Ho.
      * rewrite Hne2 by done. by eapply Hs1.
      * rewrite (Hs2 _ c) by done. rewrite Hne1; [done|set_solver].
Qed.

End WriterFacts.

(** ** Delivering events *)

Record broker_event := {
  be_event_type : string;
  be_payload : payload;
  be_event_id : option string;
  be_occurred_at : Z
}.

(** The events of one command, recorded one after the other. *)
Fixpoint deliver (py_repr : json -> string) (command : command_row) (t : boundary_table)
    (es : list broker_event) : res boundary_table :=
  match es with
  | [] => Ok t
  | e :: rest =>
      let* (t', _) := record_order_broker_event py_repr t command (be_event_type e)
                        (be_payload e) (be_event_id e) (be_occurred_at e) in
      deliver py_repr command t' rest
  end.

Section Delivery.
Context (py_repr : json -> string) (command : command_row).
Context (Horder : is_order_command_type (gc_command_type command) = true).

(** The states the events propose. *)
Definition proposals (es : list broker_event) : list BS.t :=
  omap (fun e => _state_for_event py_repr (be_event_type e) (be_payload e)) es.

(** The command's row is there and holds its key, as after a claim. *)
Definition claimed (t : boundary_table) : Prop :=
  exists b, t !! gc_command_id command = Some b /\
    (b_idempotency_key b = None ->
     _optional_text py_repr (JStr <$> gc_idempotency_key command) = None).

Lemma upsert_claimed t proposed p eid at' pre :
  table_ok t -> claimed t ->
  exists t' st, _upsert_boundary py_repr t command proposed p eid at' pre = Ok (t', st).
Proof.
  intros Ht (b & Hb & Hk). do 2 eexists. apply upsert_spec. split_and!; [done| |done].
  apply index_admits_spec. intros k cid b' Hrow Hcid Hkey.
  rewrite upserted_id by apply Ht. unfold upserted in Hrow. rewrite Hb in Hrow.
  cbn [merge_row proposed_row b_idempotency_key] in Hrow.
  destruct (b_idempotency_key b) as [k'|] eqn:E; cbn [coalesce] in Hrow.
  - injection Hrow as ->. eapply (to_unique _ Ht); eauto.
  - specialize (Hk eq_refl). congruence.
Qed.

Lemma claimed_extends t t' : claimed t -> extends t t' -> claimed t'.
Proof.
  intros (b & Hb & Hk) He. destruct (He _ _ Hb) as (b' & Hb' & Hadv).
  exists b'. split; [done|]. intros HN. apply Hk.
  destruct (b_idempotency_key b) as [k|] eqn:E; [|done].
  apply (adv_key _ _ Hadv) in E. congruence.
Qed.

Lemma claim_claimed t at' t' st :
  table_ok t -> record_order_command_claim py_repr t command at' = Ok (t', st) -> claimed t'.
Proof.
  intros Ht H. unfold record_order_command_claim in H. rewrite Horder in H. cbn in H.
  res_inv H. destruct a as [t1 s1]. injection H as <- <-.
  apply upsert_spec in Ha as (_ & _ & ->). rewrite upserted_id by apply Ht.
  eexists. rewrite lookup_insert_eq. split; [done|]. unfold upserted.
  destruct (t !! gc_command_id command) as [e|]; cbn; [|done].
  by destruct (b_idempotency_key e).
Qed.

Definition join_state (s p : BS.t) : BS.t := _resolve_state (Some s) p.

Lemma event_claimed t e s :
  table_ok t -> claimed t -> b_state <$> t !! gc_command_id command = Some s ->
  exists t' st,
    record_order_broker_event py_repr t command (be_event_type e) (be_payload e)
      (be_event_id e) (be_occurred_at e) = Ok (t', st) /\
    table_ok t' /\ claimed t' /\
    b_state <$> t' !! gc_command_id command = Some (foldl join_state s (proposals [e])).
Proof.
  intros Ht Hc Hs.
  assert (exists t' st, record_order_broker_event py_repr t command (be_event_type e)
            (be_payload e) (be_event_id e) (be_occurred_at e) = Ok (t', st))
    as (t' & st & H).
  { unfold record_order_broker_event. rewrite Horder. cbn [negb].
    destruct (_state_for_event py_repr (be_event_type e) (be_payload e)).
    - edestruct upsert_claimed as (? & ? & ->); [done..|]. cbn. eauto.
    - destruct (_update_latest_boundary_payload _ _ _ _ _). eauto. }
  exists t', st. split; [done|]. apply event_ok in H as ([Hok He] & _ & Hst); [|done].
  specialize (Hst Horder) as [-> ->]. split_and!; [done|by eapply claimed_extends|].
  cbn. destruct (_state_for_event py_repr (be_event_type e) (be_payload e)); cbn;
    by rewrite Hs.
Qed.

Lemma deliver_claimed es : forall t s,
  table_ok t -> claimed t -> b_state <$> t !! gc_command_id command = Some s ->
  exists t', deliver py_repr command t es = Ok t' /\ table_ok t' /\
    b_state <$> t' !! gc_command_id command = Some (foldl join_state s (proposals es)).
Proof.
  induction es as [|e es IH]; intros t s Ht Hc Hs; cbn [deliver].
  - exists t. done.
  - destruct (event_claimed t e s) as (t1 & st & -> & Ht1 & Hc1 & Hs1); [done..|].
    cbn [res_bind]. destruct (IH t1 _ Ht1 Hc1 Hs1) as (t' & -> & Ht' & Hs').
    exists t'. split_and!; [done..|]. rewrite Hs'. unfold proposals. cbn.
    by destruct (_state_for_event py_repr (be_event_type e) (be_payload e)).
Qed.
End Delivery.

(** The join of a list of states is its highest one. *)
Lemma foldl_join_rank l : forall s r,
  _STATE_RANK (foldl join_state s l) <= r <->
  _STATE_RANK s <= r /\ forall p, p ∈ l -> _STATE_RANK p <= r.
Proof.
  induction l as [|p l IH]; intros s r; simpl; [split; [intros; split; [done|set_solver]|tauto]|].
  rewrite IH. unfold join_state at 1. rewrite resolve_rank.
  setoid_rewrite elem_of_cons. split.
  - intros [? H]. split; [lia|]. intros q [->|Hq]; [lia|by apply H].
  - intros [? H]. split; [|naive_solver]. specialize (H p (or_introl eq_refl)). lia.
Qed.

(** C31. Once an order command is claimed, the gateway's events about it can be
    recorded in any order and any number of times: no delivery raises, and the
    boundary's final state depends only on which events were delivered. *)
Theorem deliver_order_independent py_repr t0 t command claimed_at st es es' :
  table_ok t0 -> is_order_command_type (gc_command_type command) = true ->
  record_order_command_claim py_repr t0 command claimed_at = Ok (t, st) ->
  (forall s, s ∈ proposals py_repr es <-> s ∈ proposals py_repr es') ->
  exists t1 t2,
    deliver py_repr command t es = Ok t1 /\ deliver py_repr command t es' = Ok t2 /\
    b_state <$> t1 !! gc_command_id command = b_state <$> t2 !! gc_command_id command /\
    table_ok t1 /\ table_ok t2.
Proof.
  intros Ht0 Ho Hclaim Hsame.
  assert (Hc : claimed py_repr command t) by (by eapply claim_claimed).
  apply claim_ok in Hclaim as ([Ht _] & _ & Hb); [|done].
  destruct (Hb Ho) as (b & Hb' & _).
  assert (Hs : b_state <$> t !! gc_command_id command = Some (b_state b)) by (by rewrite Hb').
  destruct (deliver_claimed py_repr command Ho es t _ Ht Hc Hs) as (t1 & H1 & Hok1 & S1).
  destruct (deliver_claimed py_repr command Ho es' t _ Ht Hc Hs) as (t2 & H2 & Hok2 & S2).
  exists t1, t2. split_and!; try done. rewrite S1, S2. f_equal. apply rank_inj.
  apply Z.le_antisymm; apply foldl_join_rank; (split; [|intros p Hp; apply Hsame in Hp]);
    [pose proof (proj1 (foldl_join_rank (proposals py_repr es') (b_state b) _) (Z.le_refl _))
    |pose proof (proj1 (foldl_join_rank (proposals py_repr es') (b_state b) _) (Z.le_refl _))
    |pose proof (proj1 (foldl_join_rank (proposals py_repr es) (b_state b) _) (Z.le_refl _))
    |pose proof (proj1 (foldl_join_rank (proposals py_repr es) (b_state b) _) (Z.le_refl _))];
    naive_solver.
Qed.

(** Recording a broker event never loses evidence: the row's state only
    climbs the ladder CLAIMED, GATEWAY_STARTED, PRE_ACK_RECORDED, UNCONFIRMED,
    BROKER_ACCEPTED, CHEJAN_CONFIRMED, every timestamp and identifying field
    already written stays as it is, no other row changes, and the table's
    invariant (timestamps entailed by the state, one row per idempotency key,
    simulation scope) is kept; the only exception is the unique index. *)
Theorem broker_event_keeps_evidence py_repr t command event_type p event_id occurred_at :
  table_ok t -> is_order_command_type (gc_command_type command) = true ->
  match record_order_broker_event py_repr t command event_type p event_id occurred_at with
  | Ok (t', _) =>
      table_ok t' /\ extends t t' /\
      forall cid, cid <> gc_command_id command -> t' !! cid = t !! cid
  | Err e => e = IntegrityError
  end.
Proof.
  intros Ht Ho. destruct (record_order_broker_event _ _ _ _ _ _ _) as [[t' st]|e] eqn:E.
  - apply event_ok in E as ([? ?] & ? & _); done.
  - unfold record_order_broker_event in E. rewrite Ho in E. cbn [negb] in E.
    destruct (_state_for_event py_repr event_type p); [|done].
    match type of E with context [_upsert_boundary ?a ?b ?c ?d ?e ?f ?g ?h] =>
      destruct (_upsert_boundary a b c d e f g h) as [[]|] eqn:Eu end; [done|].
    apply upsert_err in Eu. cbn in E. congruence.
Qed.

(** ** When routing is clear *)

Lemma elem_of_rows {A} (t : gmap string A) a : a ∈ rows t <-> exists k, t !! k = Some a.
Proof.
  unfold rows. rewrite list_elem_of_fmap. split.
  - intros ([k a'] & -> & H). exists k. by apply elem_of_map_to_list in H.
  - intros (k & H). exists (k, a). split; [done|by apply elem_of_map_to_list].
Qed.

Lemma count_pos {A} (p : A -> bool) l : (0 <? count p l) = false <-> forall a, a ∈ l -> p a = false.
Proof.
  unfold count. rewrite Z.ltb_ge. induction l as [|a l IH]; simpl; [split; [set_solver|lia]|].
  destruct (p a) eqn:E; simpl.
  - split; [lia|]. intros H. rewrite (H a) in E; [done|by apply elem_of_cons; left].
  - rewrite IH. split.
    + intros H b [->|Hb]%elem_of_cons; auto.
    + intros H b Hb. apply H, elem_of_cons. by right.
Qed.

Lemma count_rows {A} (p : A -> bool) (t : gmap string A) :
  (0 <? count p (rows t)) = false <-> map_Forall (fun _ a => p a = false) t.
Proof.
  rewrite count_pos. setoid_rewrite elem_of_rows. unfold map_Forall. naive_solver.
Qed.

Lemma code_if_nil b c : code_if b c = [] <-> b = false.
Proof. by destruct b. Qed.

Lemma nonempty_dedupe (l : list string) : nonempty (dedupe l) = false <-> l = [].
Proof. rewrite <- (dedupe_nil_iff l). by destruct (dedupe l). Qed.

(** A boundary row that does not stand in the way of new orders. *)
Definition settled (commands : gmap string command_row) (cid : string) (b : boundary_row)
    : Prop :=
  b_state b <> BS.UNCONFIRMED /\
  exists c, commands !! cid = Some c /\ expected_boundary c = true /\
    py_lower (b_command_type b) = py_lower (gc_command_type c) /\
    (forall s, _state_from_legacy_command_status (gc_status c) = Some s -> s = b_state b) /\
    (b_pre_ack_recorded_at b = None ->
     ~ b_state b ∈ [BS.PRE_ACK_RECORDED; BS.BROKER_ACCEPTED; BS.CHEJAN_CONFIRMED] /\
     ~ gc_status c ∈ [GS.PRE_ACK_RECORDED; GS.BROKER_ACCEPTED; GS.CHEJAN_CONFIRMED; GS.ACKED]).

(** Values a key identifies occur at most once. *)
Lemma count_le_one {A B} (p : B -> bool) (l : list (A * B)) a0 :
  NoDup l.*1 -> (forall a b, (a, b) ∈ l -> p b = true -> a = a0) -> count p l.*2 <= 1.
Proof.
  induction l as [|[a b] l IH]; intros Hnd Hl; [done|].
  apply list.NoDup_cons in Hnd as [Hnin Hnd].
  assert (Hl' : forall a b, (a, b) ∈ l -> p b = true -> a = a0).
  { intros a' b' Hin. apply Hl, elem_of_cons. by right. }
  rewrite fmap_cons. unfold count. cbn [List.filter snd].
  destruct (p b) eqn:E; [|by apply IH]. cbn [length].
  assert (count p l.*2 <= 0); [|unfold count in *; lia].
  apply Z.ltb_ge, count_pos. intros b' ([a' b''] & -> & Hin)%list_elem_of_fmap.
  destruct (p b'') eqn:E'; [|done]. exfalso. apply Hnin. cbn.
  rewrite (Hl a b) by (done || apply elem_of_cons; by left).
  rewrite <- (Hl' a' b'') by done. apply list_elem_of_fmap. by exists (a', b'').
Qed.

Lemma duplicate_free t :
  table_ok t -> map_Forall (fun _ b => duplicate_idempotency t b = false) t.
Proof.
  intros Ht cid b Hb. unfold duplicate_idempotency.
  destruct (b_idempotency_key b) as [k|] eqn:E; [|done]. apply Z.ltb_ge.
  apply (count_le_one _ _ cid); [apply NoDup_fst_map_to_list|].
  intros c b' Hin%elem_of_map_to_list Hk%bool_decide_eq_true. by apply (to_unique _ Ht c cid b' b k).
Qed.

Lemma effective_unconfirmed_none t :
  (0 <? effective_unconfirmed_count (ledger := no_resolutions) t) = false <->
  map_Forall (fun _ b => is_unconfirmed b = false) t.
Proof.
  unfold effective_unconfirmed_count. rewrite Z.ltb_ge, <- count_rows, Z.ltb_ge.
  assert (H0 : count (fun b => is_unconfirmed b &&
                 ledger_has (ledger := no_resolutions) lp_resolved b) (rows t) <= 0).
  { apply Z.ltb_ge, count_pos. intros a _. by rewrite andb_false_r. }
  unfold unconfirmed_count, count in *. lia.
Qed.

(** The checks of the counting query on one row, against [settled]. *)
Lemma settled_row commands cid b :
  b_command_id b = cid -> row_ok b ->
  (durable_pre_ack_gap commands b = false /\ command_state_mismatch commands b = false /\
   unexpected_boundary commands b = false /\ linked_command_type_mismatch commands b = false /\
   is_unconfirmed b = false) <-> settled commands cid b.
Proof.
  intros Hid _. unfold durable_pre_ack_gap, command_state_mismatch, unexpected_boundary,
    linked_command_type_mismatch, is_unconfirmed, settled. rewrite Hid, bool_decide_eq_false.
  destruct (commands !! cid) as [c|]; [|split; [naive_solver|intros (_ & ? & [=] & _)]].
  rewrite !negb_false_iff, String.eqb_eq, andb_false_iff, orb_false_iff, !bool_decide_eq_false.
  split.
  - intros (Hgap & Hmis & He & Hty & Hu). split; [done|]. exists c. split_and!; try done.
    + intros s Hs. rewrite Hs in Hmis. by apply negb_false_iff, bool_decide_eq_true in Hmis.
    + intros HN. destruct Hgap; [done|tauto].
  - intros (Hu & c' & [= <-] & He & Hty & Hst & Hp). split_and!; try done.
    + destruct (b_pre_ack_recorded_at b) eqn:E; [by left|right; auto].
    + case_match; [|done]. by rewrite bool_decide_eq_true_2 by auto.
Qed.

(** What [row_ok] and [settled] leave to the other checks. *)
Lemma settled_other commands cid b :
  b_command_id b = cid -> row_ok b -> settled commands cid b ->
  orphan_boundary commands b = false /\ linked_command_type_invalid commands b = false /\
  invalid_command_type b = false /\ invalid_scope b = false.
Proof.
  intros Hid [Hty [Hl Hr] _ _ _ _ _ _] (_ & c & Hc & He & _).
  unfold orphan_boundary, linked_command_type_invalid, invalid_command_type, invalid_scope.
  rewrite Hid, Hc, Hl, Hr. unfold expected_boundary in He. apply andb_true_iff in He as [-> _].
  split_and!; [by apply bool_decide_eq_false_2|done| |done].
  repeat (apply elem_of_cons in Hty as [->|Hty]; [done|]). by apply not_elem_of_nil in Hty.
Qed.

Lemma missing_none (commands : gmap string command_row) (t : boundary_table) :
  map_Forall (fun _ c => missing_boundary t c = false) commands <->
  map_Forall (fun _ c => expected_boundary c = true -> is_Some (t !! gc_command_id c)) commands.
Proof.
  assert (H : forall c, missing_boundary t c = false <->
            (expected_boundary c = true -> is_Some (t !! gc_command_id c))).
  { intros c. unfold missing_boundary.
    rewrite andb_false_iff, bool_decide_eq_false, not_eq_None_Some.
    destruct (expected_boundary c); naive_solver. }
  split; intros Hc cid c Hcid; apply H; by eapply Hc.
Qed.

(** C33. On a consistent table in which nothing was resolved by hand, new orders
    are let through exactly when every order command handed to the gateway has
    its boundary row and every boundary row is settled: not unconfirmed, in
    agreement with its command's status and type, and with a durable pre-ack
    once the order went past it. *)
Theorem routing_clear_exact commands t :
  table_ok t ->
  effective_block_new_order_routing
    (get_order_broker_boundary_status (ledger := no_resolutions) commands t) = false <->
  map_Forall (fun _ c => expected_boundary c = true -> is_Some (t !! gc_command_id c)) commands /\
  map_Forall (settled commands) t.
Proof.
  intros Ht. unfold get_order_broker_boundary_status. cbn [effective_block_new_order_routing].
  rewrite !orb_false_iff, nonempty_dedupe. unfold count_reason_codes.
  rewrite !app_nil, !code_if_nil, effective_unconfirmed_none, !count_rows, missing_none.
  assert (Hled : ledger_reason_codes (ledger := no_resolutions) t = []).
  { unfold ledger_reason_codes. rewrite !app_nil, !code_if_nil, !count_rows. done. }
  assert (Hinv : (0 <? invalidated_resolution_count (ledger := no_resolutions) t) = false)
    by (by apply count_pos).
  assert (Hfence : (0 <? maintenance_fence_active_count (ledger := no_resolutions) t) = false)
    by (by apply count_pos).
  pose proof (to_rows _ Ht) as Hrows. pose proof (duplicate_free t Ht) as Hdup. split.
  - intros ((((_ & (Hmiss & Hgap & _ & Hmis & _ & Hunexp & _ & Hty & _) & _) & Hunc) & _) & _).
    split; [done|]. intros cid b Hb. destruct (Hrows _ _ Hb) as [Hid Hr].
    apply settled_row; [done..|]. split_and!; [by eapply Hgap|by eapply Hmis|
      by eapply Hunexp|by eapply Hty|by eapply Hunc].
  - intros [Hexp Hset].
    assert (Hs : forall cid b, t !! cid = Some b ->
      (durable_pre_ack_gap commands b = false /\ command_state_mismatch commands b = false /\
       unexpected_boundary commands b = false /\
       linked_command_type_mismatch commands b = false /\ is_unconfirmed b = false) /\
      orphan_boundary commands b = false /\ linked_command_type_invalid commands b = false /\
      invalid_command_type b = false /\ invalid_scope b = false).
    { intros cid b Hb. destruct (Hrows _ _ Hb) as [Hid Hr]. specialize (Hset _ _ Hb).
      split; [by apply (settled_row _ cid)|by apply (settled_other _ cid)]. }
    split_and!; try done; intros cid b Hb; destruct (Hs _ _ Hb) as
      ((? & ? & ? & ? & ?) & ? & ? & ? & ?); done.
Qed.

(** ** The key a row holds *)

Lemma coalesce_idem {A} (o : option A) : coalesce o o = o.
Proof. by destruct o. Qed.

Section Keys.
Context (py_repr : json -> string) (command : command_row).

Definition row_key : option string := _optional_text py_repr (JStr <$> gc_idempotency_key command).

Definition key_follows (t : boundary_table) : Prop :=
  forall b, t !! gc_command_id command = Some b -> b_idempotency_key b = row_key.

Lemma key_follows_claimed t :
  key_follows t -> is_Some (t !! gc_command_id command) -> claimed py_repr command t.
Proof. intros H [b Hb]. exists b. split; [done|]. by rewrite (H _ Hb). Qed.

Lemma upsert_key t proposed p eid at' pre t' st :
  table_ok t -> key_follows t ->
  _upsert_boundary py_repr t command proposed p eid at' pre = Ok (t', st) -> key_follows t'.
Proof.
  intros Ht Hk (_ & _ & ->)%upsert_spec b. rewrite upserted_id, lookup_insert_eq by apply Ht.
  intros [= <-]. unfold upserted. destruct (t !! gc_command_id command) as [e|] eqn:E; [|done].
  cbn [merge_row proposed_row b_idempotency_key]. rewrite (Hk _ E).
  apply coalesce_idem.
Qed.

Lemma claim_key t at' t' st :
  table_ok t -> key_follows t ->
  record_order_command_claim py_repr t command at' = Ok (t', st) -> key_follows t'.
Proof.
  intros Ht Hk. unfold record_order_command_claim. case_match; [by intros [= <- _]|].
  intros H1. res_inv H1. destruct a. injection H1 as <- <-. by eapply upsert_key.
Qed.

Lemma event_key t event_type p eid at' t' st :
  table_ok t -> key_follows t ->
  record_order_broker_event py_repr t command event_type p eid at' = Ok (t', st) ->
  key_follows t'.
Proof.
  intros Ht Hk. unfold record_order_broker_event. case_match; [by intros [= <- _]|].
  destruct (_state_for_event py_repr event_type p).
  - intros H1. res_inv H1. destruct a. injection H1 as <- <-. by eapply upsert_key.
  - unfold _update_latest_boundary_payload. intros [= H1].
    destruct (t !! gc_command_id command) as [r|] eqn:E; injection H1 as <- _; [|done].
    intros b. rewrite lookup_insert_eq. intros [= <-]. exact (Hk _ E).
Qed.
End Keys.

(** A claimed command never trips over the index again. *)
Lemma event_total py_repr t command event_type p eid at' :
  table_ok t -> claimed py_repr command t ->
  exists t' st, record_order_broker_event py_repr t command event_type p eid at' = Ok (t', st).
Proof.
  intros Ht Hc. unfold record_order_broker_event. case_match; [eauto|].
  destruct (_state_for_event py_repr event_type p).
  - edestruct upsert_claimed as (? & ? & ->); [done..|]. cbn. eauto.
  - destruct (_update_latest_boundary_payload t command p eid at'). eauto.
Qed.

Lemma mark_loop_total py_repr (commands : gmap string command_row) at' reason cids : forall t,
  table_ok t -> NoDup cids ->
  (forall cid c, commands !! cid = Some c -> gc_command_id c = cid) ->
  (forall cid c, cid ∈ cids -> commands !! cid = Some c -> claimed py_repr c t) ->
  exists t', mark_unconfirmed_loop py_repr commands at' reason t cids = Ok t'.
Proof.
  induction cids as [|cid cids IH]; intros t Ht Hnd Hid Hc; cbn [mark_unconfirmed_loop]; [eauto|].
  apply list.NoDup_cons in Hnd as [Hnin Hnd].
  assert (exists t1, mark_unconfirmed_one py_repr commands at' reason t cid = Ok t1)
    as [t1 H1].
  { unfold mark_unconfirmed_one. destruct (commands !! cid) as [c|] eqn:E; [|eauto].
    case_match; [eauto|].
    edestruct (upsert_claimed py_repr c t) as (? & ? & ->);
      [done|by eapply Hc; [apply elem_of_cons; left|]|cbn; eauto]. }
  rewrite H1. cbn [res_bind].
  apply mark_one_ok in H1 as ([Ht1 He1] & _ & _); [|done|naive_solver].
  apply IH; [done..|]. intros c' c Hin Hcc. eapply claimed_extends; [|done].
  eapply Hc; [|done]. apply elem_of_cons. by right.
Qed.

Lemma mark_loop_key py_repr (commands : gmap string command_row) at' reason c cids :
  forall t t', table_ok t ->
  (forall cid c, commands !! cid = Some c -> gc_command_id c = cid) ->
  commands !! gc_command_id c = Some c -> key_follows py_repr c t ->
  mark_unconfirmed_loop py_repr commands at' reason t cids = Ok t' -> key_follows py_repr c t'.
Proof.
  induction cids as [|cid cids IH]; intros t t' Ht Hid Hc Hk H; cbn in H; [by injection H as <-|].
  apply res_bind_ok in H as (t1 & H1 & H). assert (H1' := H1).
  apply mark_one_ok in H1' as ([Ht1 _] & Hne & _); [|done|naive_solver].
  eapply (IH t1); [done..| |done].
  destruct (decide (cid = gc_command_id c)) as [->|Hd].
  - unfold mark_unconfirmed_one in H1. rewrite Hc in H1.
    destruct (negb _); [by injection H1 as <-|].
    apply res_bind_ok in H1 as ([t2 s2] & H2 & H3). injection H3 as ->.
    eapply (upsert_key py_repr c t); [done|done|exact H2].
  - intros b Hb. rewrite Hne in Hb by done. by apply Hk.
Qed.

(** ** A sample order *)

Definition sample_repr : json -> string := fun _ => EmptyString.

Definition sample_order_payload : payload :=
  [("account_id", JStr "8012345611"); ("code", JStr "005930"); ("side", JStr "BUY")].

Definition sample_order_row : command_row :=
  {| gc_command_id := "cmd-1"; gc_command_type := "send_order"; gc_source := "live_sim";
     gc_status := GS.CLAIMED; gc_idempotency_key := Some "key-1";
     gc_payload := sample_order_payload; gc_created_at := 0; gc_available_at := None;
     gc_dispatched_at := Some (seconds 1); gc_completed_at := None; gc_expires_at := None;
     gc_attempts := 1; gc_last_error := None |}.

Definition sample_table : boundary_table :=
  match record_order_command_claim sample_repr ∅ sample_order_row (seconds 1) with
  | Ok (t, _) => t | Err _ => ∅ end.

Lemma sample_claim :
  record_order_command_claim sample_repr ∅ sample_order_row (seconds 1) =
  Ok (sample_table, Some BS.CLAIMED).
Proof. reflexivity. Qed.

Lemma sample_table_ok : table_ok sample_table.
Proof.
  pose proof sample_claim as H. apply claim_ok in H as ([H _] & _); [done|apply table_ok_empty].
Qed.

Definition sample_event (event_type : string) (at' : Z) : broker_event :=
  {| be_event_type := event_type; be_payload := [("account_id", JStr "8012345611")];
     be_event_id := None; be_occurred_at := at' |}.

(** The acknowledgement may overtake the start and the pre-ack, and arrive
    twice. *)
Definition in_order : list broker_event :=
  [sample_event "command_started" (seconds 2); sample_event "order_pre_ack" (seconds 3);
   sample_event "command_ack" (seconds 4)].
Definition out_of_order : list broker_event :=
  [sample_event "command_ack" (seconds 2); sample_event "command_started" (seconds 3);
   sample_event "command_ack" (seconds 4); sample_event "order_pre_ack" (seconds 5)].

Lemma deliver_order_independent_witness :
  exists t1 t2,
    deliver sample_repr sample_order_row sample_table in_order = Ok t1 /\
    deliver sample_repr sample_order_row sample_table out_of_order = Ok t2 /\
    b_state <$> t1 !! "cmd-1" = b_state <$> t2 !! "cmd-1" /\ table_ok t1 /\ table_ok t2.
Proof.
  apply (deliver_order_independent sample_repr ∅ sample_table sample_order_row (seconds 1)
           (Some BS.CLAIMED) in_order out_of_order);
    [apply table_ok_empty|reflexivity|exact sample_claim|].
  intros s.
  change (proposals sample_repr in_order)
    with [BS.GATEWAY_STARTED; BS.PRE_ACK_RECORDED; BS.BROKER_ACCEPTED].
  change (proposals sample_repr out_of_order)
    with [BS.BROKER_ACCEPTED; BS.GATEWAY_STARTED; BS.BROKER_ACCEPTED; BS.PRE_ACK_RECORDED].
  rewrite !elem_of_cons. tauto.
Defined.

Lemma broker_event_keeps_evidence_witness :
  match record_order_broker_event sample_repr sample_table sample_order_row "command_ack"
          sample_order_payload (Some "evt-1") (seconds 5) with
  | Ok (t', _) =>
      table_ok t' /\ extends sample_table t' /\
      forall cid, cid <> "cmd-1" -> t' !! cid = sample_table !! cid
  | Err e => e = IntegrityError
  end.
Proof.
  exact (broker_event_keeps_evidence sample_repr sample_table sample_order_row "command_ack"
           sample_order_payload (Some "evt-1") (seconds 5) sample_table_ok eq_refl).
Defined.

Definition sample_commands : gmap string command_row := {["cmd-1" := sample_order_row]}.

Lemma routing_clear_exact_witness :
  effective_block_new_order_routing
    (get_order_broker_boundary_status (ledger := no_resolutions) sample_commands sample_table)
    = false /\
  map_Forall (settled sample_commands) sample_table.
Proof.
  assert (H : effective_block_new_order_routing
    (get_order_broker_boundary_status (ledger := no_resolutions) sample_commands sample_table)
    = false) by (vm_compute; reflexivity).
  split; [exact H|].
  exact (proj2 (proj1 (routing_clear_exact sample_commands sample_table sample_table_ok) H)).
Defined.
