(* ===== verification/CommandStore.v ===== *)
(** * The gateway command store ([storage/gateway_command_store.py])

    The queue of commands between the core and the broker gateway: what may be
    enqueued ([validate_command_type_allowed] and the three LIVE_SIM
    validators), [enqueue_command] with its idempotency keys, the expiry of
    queued and dispatched commands, [_dispatch_ready_commands] and
    [poll_commands], and [record_command_event], which moves a command along as
    the gateway reports.  Whether new orders may be routed is asked through the
    class [RoutingGate], which [OrderBoundary] implements. *)
From S2P Require Import Prelude PyFloat BrokerUtils WireTime GatewayModels OrderBoundary.
From Stdlib Require Import SpecFloat.
Local Open Scope Z_scope.

(** ** What may be enqueued *)

Definition ALLOWED_COMMAND_TYPES : list string :=
  ["heartbeat_request"; "broker_snapshot_request"; "request_tr"; "register_realtime";
   "remove_realtime"; "load_conditions"; "send_condition"; "stop_condition"].

Definition FORBIDDEN_ORDER_COMMAND_TYPES : list string :=
  ["send_order"; "submit_order"; "cancel_order"; "modify_order"; "enqueue_order";
   "order_intent"; "gateway_order"; "live_order"].

Definition DEFAULT_DISPATCH_TIMEOUT_SEC : Z := 120.

Definition _normalize_command_type (command_type : string) : string :=
  py_lower (py_strip command_type).

(** [v is True], [v is False], [v == k] for a text [k]. *)
Definition is_True (v : option json) : bool :=
  match v with Some (JBool true) => true | _ => false end.
Definition is_False (v : option json) : bool :=
  match v with Some (JBool false) => true | _ => false end.
Definition is_text (v : option json) (k : string) : bool :=
  match v with Some (JStr s) => String.eqb s k | _ => false end.

Definition _mapping_value (p : payload) (key : string) : payload :=
  match jget key p with Some (JObj fs) => fs | _ => [] end.

Section Validation.
Context (py_repr : json -> string).

(** [str(payload.get(key, default))]. *)
Definition str_get (key : string) (default : option json) (p : payload) : string :=
  match jget key p with
  | Some v => py_str py_repr v
  | None => match default with Some v => py_str py_repr v | None => EmptyString end
  end.

Definition _is_simulation_like (value : option json) : bool :=
  mem (py_upper (py_strip (str_or_empty py_repr value)))
    ["SIMULATION"; "MOCK"; "PAPER"; "MOCK_TRADING"; "LIVE_SIM"].

Definition _validate_live_sim_broker_snapshot_allowed (command : option GatewayCommand)
    : option string :=
  match command with
  | None => Some "broker_snapshot_request requires LIVE_SIM command envelope validation"
  | Some c =>
      let p := payload_of c in
      if negb (String.eqb (py_lower (py_strip (source c))) "live_sim")
      then Some "broker_snapshot_request disabled except live_sim source"
      else match idempotency_key c with
      | None | Some EmptyString => Some "broker_snapshot_request requires idempotency_key"
      | Some key =>
      if negb (str_true (py_strip (str_or_empty py_repr (jget "account_id" p))))
      then Some "broker_snapshot_request requires account_id"
      else if negb (is_text (jget "idempotency_key" p) key)
      then Some "broker_snapshot_request payload idempotency_key mismatch"
      else if negb (is_True (jget "live_sim_only" p))
      then Some "broker_snapshot_request requires live_sim_only=true"
      else if negb (is_False (jget "live_real_allowed" p))
      then Some "broker_snapshot_request requires live_real_allowed=false"
      else if negb (is_True (jget "read_only" p))
      then Some "broker_snapshot_request requires read_only=true"
      else if negb (is_False (jget "automatic_local_repair" p))
      then Some "broker_snapshot_request requires automatic_local_repair=false"
      else if negb (String.eqb (py_upper (str_or_empty py_repr (jget "broker_order_path" p)))
                      "LIVE_SIM_ONLY")
      then Some "broker_snapshot_request requires broker_order_path=LIVE_SIM_ONLY"
      else
        match find (fun k => negb (_is_simulation_like (jget k p)))
                ["account_mode"; "broker_env"; "server_mode"] with
        | Some k => Some ("broker_snapshot_request " +:+ k +:+ " must be simulation-like")
        | None => None
        end
      end
  end.

(** The close-only conditions of a sell order. *)
Definition validate_sell (p metadata : payload) : option string :=
  if negb (is_True (jget "close_only" p) || is_True (jget "close_only" metadata))
  then Some "send_order LIVE_SIM SELL requires close_only=true"
  else if negb (is_False (jget "live_real_allowed" p))
  then Some "send_order SELL requires live_real_allowed=false"
  else if negb (is_True (jget "live_sim_only" p))
  then Some "send_order SELL requires live_sim_only=true"
  else if negb (String.eqb (py_upper (str_get "broker_order_path" None p)) "LIVE_SIM_ONLY")
  then Some "send_order SELL requires broker_order_path=LIVE_SIM_ONLY"
  else if negb (truthy (jget "position_id" metadata))
  then Some "send_order SELL close-only requires metadata.position_id"
  else if negb (truthy (jget "exit_intent_id" metadata)) &&
          negb (truthy (jget "exit_intent_id" p))
  then Some "send_order SELL close-only requires exit_intent_id"
  else if String.eqb (py_upper (str_get "order_type" None p)) "MARKET"
  then Some "send_order SELL market order disabled by default"
  else if mem (py_lower (str_get "allow_short" (Some (JStr "false")) p))
            ["1"; "true"; "yes"; "y"]
  then Some "send_order SELL allow_short must be false"
  else None.

Definition _validate_live_sim_send_order_allowed (command : option GatewayCommand)
    : option string :=
  match command with
  | None => Some "send_order requires LIVE_SIM command envelope validation"
  | Some c =>
      if negb (String.eqb (py_lower (py_strip (source c))) "live_sim")
      then Some "send_order disabled except live_sim source"
      else match idempotency_key c with
      | None | Some EmptyString => Some "send_order LIVE_SIM requires idempotency_key"
      | Some key =>
      let p := payload_of c in
      let metadata := _mapping_value p "metadata" in
      if negb (String.eqb (py_upper (str_get "mode" (jget "live_mode" p) p)) "LIVE_SIM")
      then Some "send_order payload mode must be LIVE_SIM"
      else if negb (String.eqb (py_upper (str_get "live_mode" (jget "mode" p) p)) "LIVE_SIM")
      then Some "send_order payload live_mode must be LIVE_SIM"
      else if negb (is_text (jget "idempotency_key" p) key)
      then Some "send_order payload idempotency_key must match command idempotency_key"
      else if negb (String.eqb (py_lower (str_get "source" (Some (JStr "live_sim")) metadata))
                      "live_sim")
      then Some "send_order metadata source must be live_sim"
      else if negb (is_True (jget "live_sim_only" metadata))
      then Some "send_order metadata.live_sim_only must be true"
      else if negb (is_False (jget "live_real_allowed" metadata))
      then Some "send_order metadata.live_real_allowed must be false"
      else if negb (truthy (jget "live_sim_intent_id" metadata)) &&
              negb (truthy (jget "live_sim_intent_id" p))
      then Some "send_order requires live_sim_intent_id"
      else if negb (is_text (jget "idempotency_key" metadata) key)
      then Some "send_order metadata idempotency_key must match command idempotency_key"
      else if negb (_is_simulation_like (jget "account_mode" p))
      then Some "send_order account_mode must be simulation-like"
      else if negb (_is_simulation_like (jget "broker_env" p))
      then Some "send_order broker_env must be simulation-like"
      else if negb (_is_simulation_like (jget "server_mode" p))
      then Some "send_order server_mode must be simulation-like"
      else
        let side := py_upper (str_get "side" None p) in
        if String.eqb side "BUY" then None
        else if String.eqb side "SELL" then validate_sell p metadata
        else Some "send_order LIVE_SIM allows BUY or close-only SELL only"
      end
  end.

Definition _validate_live_sim_cancel_order_allowed (command : option GatewayCommand)
    : option string :=
  match command with
  | None => Some "cancel_order requires LIVE_SIM command envelope validation"
  | Some c =>
      if negb (String.eqb (py_lower (py_strip (source c))) "live_sim")
      then Some "cancel_order disabled except live_sim source"
      else match idempotency_key c with
      | None | Some EmptyString => Some "cancel_order LIVE_SIM requires idempotency_key"
      | Some key =>
      let p := payload_of c in
      let metadata := _mapping_value p "metadata" in
      if negb (String.eqb (py_upper (str_get "mode" (jget "live_mode" p) p)) "LIVE_SIM")
      then Some "cancel_order payload mode must be LIVE_SIM"
      else if negb (String.eqb (py_upper (str_get "live_mode" (jget "mode" p) p)) "LIVE_SIM")
      then Some "cancel_order payload live_mode must be LIVE_SIM"
      else if negb (is_text (jget "idempotency_key" p) key)
      then Some "cancel_order payload idempotency_key must match command idempotency_key"
      else if negb (is_text (jget "idempotency_key" metadata) key)
      then Some "cancel_order metadata idempotency_key must match command idempotency_key"
      else if negb (is_True (jget "live_sim_only" p)) ||
              negb (is_True (jget "live_sim_only" metadata))
      then Some "cancel_order requires live_sim_only=true"
      else if negb (is_False (jget "live_real_allowed" p))
      then Some "cancel_order requires live_real_allowed=false"
      else if negb (is_False (jget "live_real_allowed" metadata))
      then Some "cancel_order metadata.live_real_allowed must be false"
      else if negb (String.eqb (py_upper (str_get "broker_order_path" None p)) "LIVE_SIM_ONLY")
      then Some "cancel_order requires broker_order_path=LIVE_SIM_ONLY"
      else if negb (_is_simulation_like (jget "account_mode" p))
      then Some "cancel_order account_mode must be simulation-like"
      else if negb (_is_simulation_like (jget "broker_env" p))
      then Some "cancel_order broker_env must be simulation-like"
      else if negb (_is_simulation_like (jget "server_mode" p))
      then Some "cancel_order server_mode must be simulation-like"
      else if negb (mem (py_upper (str_get "side" None p)) ["BUY_CANCEL"; "CANCEL_BUY"])
      then Some "cancel_order requires side=BUY_CANCEL"
      else if negb (truthy (jget "original_order_no" p))
      then Some "cancel_order requires original_order_no"
      else if negb (truthy (jget "cancel_intent_id" metadata))
      then Some "cancel_order requires metadata.cancel_intent_id"
      else if negb (truthy (jget "original_live_sim_order_id" metadata))
      then Some "cancel_order requires metadata.original_live_sim_order_id"
      else None
      end
  end.

Definition validate_command_type_allowed (command_type : string)
    (command : option GatewayCommand) : option string :=
  let normalized := _normalize_command_type command_type in
  if String.eqb normalized "send_order" then _validate_live_sim_send_order_allowed command
  else if String.eqb normalized "cancel_order"
  then _validate_live_sim_cancel_order_allowed command
  else if String.eqb normalized "broker_snapshot_request"
  then _validate_live_sim_broker_snapshot_allowed command
  else if String.eqb normalized "modify_order"
  then Some "modify_order is disabled for LIVE_SIM"
  else if mem normalized FORBIDDEN_ORDER_COMMAND_TYPES || str_contains "order" normalized
  then Some ("Order command_type is disabled for PR 2B: " +:+ command_type)
  else if negb (mem normalized ALLOWED_COMMAND_TYPES)
  then Some ("Unsupported gateway command_type for PR 2B: " +:+ command_type)
  else None.
End Validation.

(** ** The tables *)

Record command_event := {
  ce_command_id : string;
  ce_event_type : string;
  ce_status : option GS.t;
  ce_payload : payload;
  ce_created_at : Z
}.

(** A row of [gateway_command_dedupe_keys], keyed by its idempotency key. *)
Record dedupe_row := {
  dk_command_id : string;
  dk_command_type : string;
  dk_created_at : Z;
  dk_retained_until : option Z
}.

Record store := {
  commands : gmap string command_row;
  command_events : list command_event;
  dedupe_keys : gmap string dedupe_row;
  boundaries : boundary_table;
  command_queue_healthy : option (bool * Z)
}.

Definition empty_store : store :=
  {| commands := ∅; command_events := []; dedupe_keys := ∅; boundaries := ∅;
     command_queue_healthy := None |}.

Definition set_commands (cs : gmap string command_row) (s : store) : store :=
  {| commands := cs; command_events := command_events s; dedupe_keys := dedupe_keys s;
     boundaries := boundaries s; command_queue_healthy := command_queue_healthy s |}.
Definition set_dedupe_keys (ds : gmap string dedupe_row) (s : store) : store :=
  {| commands := commands s; command_events := command_events s; dedupe_keys := ds;
     boundaries := boundaries s; command_queue_healthy := command_queue_healthy s |}.
Definition set_boundaries (bs : boundary_table) (s : store) : store :=
  {| commands := commands s; command_events := command_events s;
     dedupe_keys := dedupe_keys s; boundaries := bs;
     command_queue_healthy := command_queue_healthy s |}.
Definition log_event (e : command_event) (s : store) : store :=
  {| commands := commands s; command_events := command_events s ++ [e];
     dedupe_keys := dedupe_keys s; boundaries := boundaries s;
     command_queue_healthy := command_queue_healthy s |}.
Definition _upsert_command_queue_health (healthy : bool) (at' : Z) (s : store) : store :=
  {| commands := commands s; command_events := command_events s;
     dedupe_keys := dedupe_keys s; boundaries := boundaries s;
     command_queue_healthy := Some (healthy, at') |}.

(** [UPDATE gateway_commands SET f WHERE p], and its [rowcount]. *)
Definition update_where (p : command_row -> bool) (f : command_row -> command_row)
    (cs : gmap string command_row) : gmap string command_row :=
  (fun r => if p r then f r else r) <$> cs.
Definition rowcount (p : command_row -> bool) (cs : gmap string command_row) : Z :=
  count p (rows cs).

(** ** Enqueueing *)

Record EnqueueCommandResult := {
  er_accepted : bool;
  er_command_id : string;
  er_status : GS.t;
  er_payload_hash : string;
  er_duplicate : bool;
  er_error_message : option string
}.

(** [_find_active_dedupe_error]: a key that is no longer retained is deleted. *)
Definition _find_active_dedupe_error (s : store) (key : string) (now : Z)
    : store * option string :=
  match dedupe_keys s !! key with
  | None => (s, None)
  | Some row =>
      if match dk_retained_until row with None => true | Some t => now <? t end
      then (s, Some ("idempotency_key already retained for command_id=" +:+
                     dk_command_id row))
      else (set_dedupe_keys (delete key (dedupe_keys s)) s, None)
  end.

(** [INSERT] into the two tables, with their primary keys. *)
Definition insert_command (r : command_row) (s : store) : res store :=
  match commands s !! gc_command_id r with
  | Some _ => Err IntegrityError
  | None => Ok (set_commands (<[gc_command_id r := r]> (commands s)) s)
  end.
Definition insert_dedupe (key : string) (r : dedupe_row) (s : store) : res store :=
  match dedupe_keys s !! key with
  | Some _ => Err IntegrityError
  | None => Ok (set_dedupe_keys (<[key := r]> (dedupe_keys s)) s)
  end.

Definition queued_row (command : GatewayCommand) (ctype : string) (expires_at : option Z)
    : command_row :=
  {| gc_command_id := command_id command; gc_command_type := ctype;
     gc_source := source command; gc_status := GS.QUEUED;
     gc_idempotency_key := idempotency_key command; gc_payload := payload_of command;
     gc_created_at := ts command; gc_available_at := None; gc_dispatched_at := None;
     gc_completed_at := None; gc_expires_at := expires_at; gc_attempts := 0;
     gc_last_error := None |}.

Section Enqueue.
Context (py_repr : json -> string) (hash_payload : payload -> string).

Definition rejected (command : GatewayCommand) (st : GS.t) (dup : bool) (msg : string)
    : EnqueueCommandResult :=
  {| er_accepted := false; er_command_id := command_id command; er_status := st;
     er_payload_hash := hash_payload (payload_of command); er_duplicate := dup;
     er_error_message := Some msg |}.

(** The body of the [try] block. *)
Definition enqueue_rows (s : store) (command : GatewayCommand) (ctype : string)
    (expires_at : option Z) (now : Z) : res store :=
  let* s1 := insert_command (queued_row command ctype expires_at) s in
  match idempotency_key command with
  | None => Ok s1
  | Some key =>
      insert_dedupe key {| dk_command_id := command_id command; dk_command_type := ctype;
                           dk_created_at := now; dk_retained_until := expires_at |} s1
  end.

(** [enqueue_command] with [manage_transaction=True]: an [IntegrityError] rolls
    everything back.  [now] is read once before the key check and [now'] in it. *)
Definition enqueue_command (s : store) (command : GatewayCommand) (expires_at : option Z)
    (now now' : Z) : store * EnqueueCommandResult :=
  let ctype := _normalize_command_type (command_type command) in
  match validate_command_type_allowed py_repr ctype (Some command) with
  | Some msg => (s, rejected command GS.REJECTED false msg)
  | None =>
  match commands s !! command_id command with
  | Some existing =>
      (s, rejected command (gc_status existing) true "command_id already exists")
  | None =>
  let '(s1, dedupe_error) :=
    match idempotency_key command with
    | Some key => _find_active_dedupe_error s key now'
    | None => (s, None)
    end in
  match dedupe_error with
  | Some msg => (s1, rejected command GS.REJECTED true msg)
  | None =>
  match enqueue_rows s1 command ctype expires_at now with
  | Ok s2 =>
      (s2, {| er_accepted := true; er_command_id := command_id command;
              er_status := GS.QUEUED; er_payload_hash := hash_payload (payload_of command);
              er_duplicate := false; er_error_message := None |})
  | Err _ => (s, rejected command GS.REJECTED true "UNIQUE constraint failed")
  end end end end.
End Enqueue.

(** ** Expiry *)

Definition expired_at (now : Z) (r : command_row) : bool :=
  match gc_expires_at r with Some e => wire_le e now | None => false end.

Definition expire_queued (now : Z) (cs : gmap string command_row) : gmap string command_row :=
  update_where (fun r => bool_decide (gc_status r = GS.QUEUED) && expired_at now r)
    (fun r => set_completed (Some now) (gc_last_error r) (set_status GS.EXPIRED r)) cs.

Definition expire_queued_commands (s : store) (now : Z) : store :=
  set_commands (expire_queued now (commands s)) s.

Definition dispatched_before (cutoff : Z) (r : command_row) : bool :=
  match gc_dispatched_at r with Some d => wire_le d cutoff | None => false end.

(** The three kinds of stale command. *)
Definition stale_queued (now : Z) (r : command_row) : bool :=
  bool_decide (gc_status r = GS.QUEUED) && expired_at now r.
Definition stale_dispatched (cutoff : Z) (r : command_row) : bool :=
  bool_decide (gc_status r = GS.DISPATCHED) && negb (sql_order_type (gc_command_type r)) &&
  dispatched_before cutoff r.
Definition stale_order (cutoff : Z) (r : command_row) : bool :=
  bool_decide (gc_status r ∈ [GS.DISPATCHED; GS.CLAIMED; GS.GATEWAY_STARTED;
                              GS.PRE_ACK_RECORDED]) &&
  sql_order_type (gc_command_type r) && dispatched_before cutoff r.

Record StaleCounts := {
  expired_queued_count : Z;
  timed_out_dispatched_count : Z;
  unconfirmed_order_count : Z
}.

Definition timeout_message : string :=
  "Gateway command dispatch timed out before ack/failure event.".
Definition order_timeout_message : string :=
  "Gateway order dispatch timed out; reconciliation required.".

Definition fail_dispatched (now cutoff : Z) : gmap string command_row -> gmap string command_row :=
  update_where (stale_dispatched cutoff)
    (fun r => set_completed (Some now) (coalesce (gc_last_error r) (Some timeout_message))
                (set_status GS.FAILED r)).

Definition unconfirm_orders (cutoff : Z) : gmap string command_row -> gmap string command_row :=
  update_where (stale_order cutoff)
    (fun r => set_completed None (coalesce (gc_last_error r) (Some order_timeout_message))
                (set_status GS.UNCONFIRMED r)).

Definition expire_stale_gateway_commands (py_repr : json -> string) (s : store)
    (dispatched_timeout_sec now now' : Z) : res (store * StaleCounts) :=
  let cutoff := now - seconds (Z.max dispatched_timeout_sec 1) in
  let counts := {| expired_queued_count := rowcount (stale_queued now) (commands s);
                   timed_out_dispatched_count := rowcount (stale_dispatched cutoff) (commands s);
                   unconfirmed_order_count := rowcount (stale_order cutoff) (commands s) |} in
  if (expired_queued_count counts =? 0) && (timed_out_dispatched_count counts =? 0) &&
     (unconfirmed_order_count counts =? 0)
  then Ok (s, counts)
  else
    let cs1 := expire_queued now (commands s) in
    let cs2 := fail_dispatched now cutoff cs1 in
    let stale_order_rows := List.filter (stale_order cutoff) (rows cs2) in
    let cs3 := unconfirm_orders cutoff cs2 in
    let* bs := mark_order_commands_unconfirmed py_repr cs3 (boundaries s)
                 (map gc_command_id stale_order_rows) now
                 "Gateway order command timed out before durable broker confirmation." in
    Ok (_upsert_command_queue_health true now' (set_boundaries bs (set_commands cs3 s)),
        {| expired_queued_count := rowcount (stale_queued now) (commands s);
           timed_out_dispatched_count := rowcount (stale_dispatched cutoff) cs1;
           unconfirmed_order_count := rowcount (stale_order cutoff) cs2 |}).

(** ** Dispatch *)

(** The order boundary decides whether new orders may go out. *)
Class RoutingGate := order_routing_blocked : gmap string command_row -> boundary_table -> bool.

(** [_order_broker_boundary_blocks_routing(get_order_broker_boundary_status(...))]. *)
#[export] Instance boundary_gate (ledger : ResolutionLedger) : RoutingGate :=
  fun cs t => effective_block_new_order_routing
                (get_order_broker_boundary_status (ledger := ledger) cs t).

(** The [WHERE] clause of the dispatch query. *)
Definition ready (now : Z) (blocked : bool) (r : command_row) : bool :=
  bool_decide (gc_status r = GS.QUEUED) &&
  match gc_available_at r with None => true | Some a => wire_le a now end &&
  match gc_expires_at r with None => true | Some e => wire_lt now e end &&
  (negb blocked || negb (String.eqb (py_lower (gc_command_type r)) "send_order")).

Definition dispatch_priority (ctype : string) : Z :=
  if sql_order_type ctype then 0
  else if mem ctype ["register_realtime"; "request_tr"] then 2 else 1.

(** [ORDER BY priority, created_at, command_id]. *)
Definition dispatch_key (r : command_row) : Z * Z * string :=
  (dispatch_priority (gc_command_type r), wire_key (gc_created_at r), gc_command_id r).
Definition dispatch_le (a b : command_row) : bool :=
  let '(p, c, i) := dispatch_key a in
  let '(p', c', i') := dispatch_key b in
  (p <? p') || ((p =? p') && ((c <? c') || ((c =? c') && String.leb i i'))).

Definition ready_rows (s : store) (now : Z) (blocked : bool) (limit : Z) : list command_row :=
  take (Z.to_nat limit)
    (stable_sort dispatch_le (List.filter (ready now blocked) (rows (commands s)))).

Definition _has_expired_queued_command (s : store) (now : Z) : bool :=
  existsb (stale_queued now) (rows (commands s)).
Definition _has_ready_queued_command (s : store) (now : Z) (blocked : bool) : bool :=
  existsb (ready now blocked) (rows (commands s)).

(** [_row_to_gateway_command]. *)
Definition _row_to_gateway_command (r : command_row) : res GatewayCommand :=
  let p := gc_payload r in
  let p :=
    match gc_expires_at r, jget "_gateway_command_expires_at" p with
    | Some e, None => p ++ [("_gateway_command_expires_at", JStr (datetime_to_wire e))]
    | _, _ => p
    end in
  GatewayCommand_post_init
    {| command_type := gc_command_type r; source := gc_source r; payload_of := p;
       command_id := gc_command_id r; ts := gc_created_at r;
       idempotency_key := gc_idempotency_key r |}.

Section Dispatch.
Context (py_repr : json -> string) {gate : RoutingGate}.

(** One row of the dispatch loop: the [UPDATE] guarded by the status, then the
    claim of an order. *)
Definition dispatch_row (now : Z) (s : store) (r : command_row) : res store :=
  let next_status :=
    if is_order_command_type (gc_command_type r) then GS.CLAIMED else GS.DISPATCHED in
  let cs := alter (fun c => if decide (gc_status c = GS.QUEUED)
                            then set_dispatched now (set_status next_status c) else c)
              (gc_command_id r) (commands s) in
  let s1 := set_commands cs s in
  if decide (next_status = GS.CLAIMED) then
    let* (bs, _) := record_order_command_claim py_repr (boundaries s1)
                      (set_dispatched now r) now in
    Ok (set_boundaries bs s1)
  else Ok s1.

Fixpoint dispatch_loop (now : Z) (s : store) (rs : list command_row) : res store :=
  match rs with
  | [] => Ok s
  | r :: rest => let* s' := dispatch_row now s r in dispatch_loop now s' rest
  end.

Fixpoint to_gateway_commands (rs : list command_row) : res (list GatewayCommand) :=
  match rs with
  | [] => Ok []
  | r :: rest =>
      let* c := _row_to_gateway_command r in
      let* cs := to_gateway_commands rest in Ok (c :: cs)
  end.

(** [now0] is read for the prechecks, [now] inside the transaction, which an
    exception rolls back. *)
Definition _dispatch_ready_commands (s : store) (limit now0 now : Z)
    : store * res (list GatewayCommand) :=
  let has_expired_queued := _has_expired_queued_command s now0 in
  if negb has_expired_queued && negb (_has_ready_queued_command s now0 false)
  then (s, Ok [])
  else
  let blocked := order_routing_blocked (commands s) (boundaries s) in
  if negb has_expired_queued && negb (_has_ready_queued_command s now0 blocked)
  then (s, Ok [])
  else
    let s1 := set_commands (expire_queued now (commands s)) s in
    let rs := ready_rows s1 now blocked limit in
    match dispatch_loop now s1 rs with
    | Ok s2 => (s2, to_gateway_commands rs)
    | Err e => (s, Err e)
    end.

(** One attempt of [poll_commands]'s loop: the instants it reads, and where a
    locked database stops it. *)
Inductive lock_point := NotLocked | LockedAtExpiry | LockedAtDispatch.
Record attempt := {
  at_lock : lock_point;
  at_expire : Z;
  at_health : Z;
  at_precheck : Z;
  at_begin : Z;
  at_monotonic : Z
}.

Definition poll_attempt (s : store) (limit : Z) (a : attempt)
    : store * res (option (list GatewayCommand)) :=
  match at_lock a with
  | LockedAtExpiry => (s, Ok None)
  | _ =>
      match expire_stale_gateway_commands py_repr s DEFAULT_DISPATCH_TIMEOUT_SEC
              (at_expire a) (at_health a) with
      | Err e => (s, Err e)
      | Ok (s1, _) =>
          match at_lock a with
          | LockedAtDispatch => (s1, Ok None)
          | _ =>
              let '(s2, r) := _dispatch_ready_commands s1 limit (at_precheck a) (at_begin a) in
              (s2, let* cs := r in Ok (Some cs))
          end
      end
  end.

(** The loop, over the attempts it makes; [deadline] is on the monotonic clock.
    [None]: the list of attempts ended before the deadline. *)
Fixpoint poll_loop (s : store) (limit deadline : Z) (attempts : list attempt)
    : store * option (res (list GatewayCommand)) :=
  match attempts with
  | [] => (s, None)
  | a :: rest =>
      let over := deadline <=? at_monotonic a in
      match poll_attempt s limit a with
      | (s', Err e) => (s', Some (Err e))
      | (s', Ok None) => if over then (s', Some (Ok [])) else poll_loop s' limit deadline rest
      | (s', Ok (Some cs)) =>
          if nonempty cs || over then (s', Some (Ok cs))
          else poll_loop s' limit deadline rest
      end
  end.

(** [poll_commands]; [wait] in microseconds, [start] the monotonic clock. *)
Definition poll_commands (s : store) (limit wait start : Z) (attempts : list attempt)
    : store * option (res (list GatewayCommand)) :=
  poll_loop s (Z.min (Z.max limit 1) 100) (start + Z.min (Z.max wait 0) (seconds 5)) attempts.
End Dispatch.

(** ** Gateway events *)

Definition _status_for_command_event (event_type : string) (order_command : bool)
    : option GS.t :=
  let normalized := py_lower (py_strip event_type) in
  if String.eqb normalized "command_started" then
    Some (if order_command then GS.GATEWAY_STARTED else GS.DISPATCHED)
  else if String.eqb normalized "order_pre_ack" && order_command then Some GS.PRE_ACK_RECORDED
  else if String.eqb normalized "command_ack" then
    Some (if order_command then GS.BROKER_ACCEPTED else GS.ACKED)
  else if String.eqb normalized "execution_event" then
    Some (if order_command then GS.CHEJAN_CONFIRMED else GS.ACKED)
  else if String.eqb normalized "kiwoom_order_chejan" && order_command
  then Some GS.CHEJAN_CONFIRMED
  else if String.eqb normalized "order_broker_unconfirmed" && order_command
  then Some GS.UNCONFIRMED
  else if String.eqb normalized "command_failed" then Some GS.FAILED
  else None.

Definition status_rank (s : GS.t) : Z :=
  match s with
  | GS.CLAIMED => 10
  | GS.GATEWAY_STARTED => 20
  | GS.PRE_ACK_RECORDED => 30
  | GS.UNCONFIRMED => 35
  | _ => 0
  end.

Definition _effective_order_command_status (current proposed : GS.t) : GS.t :=
  if decide (current = GS.CHEJAN_CONFIRMED) then GS.CHEJAN_CONFIRMED
  else if decide (proposed = GS.CHEJAN_CONFIRMED) then proposed
  else if decide (proposed = GS.BROKER_ACCEPTED) then proposed
  else if decide (current = GS.BROKER_ACCEPTED) then GS.BROKER_ACCEPTED
  else if decide (proposed ∈ [GS.FAILED; GS.REJECTED; GS.EXPIRED; GS.CANCELLED]) then proposed
  else if decide (current ∈ [GS.FAILED; GS.REJECTED; GS.EXPIRED; GS.CANCELLED]) then current
  else if decide (current = GS.UNCONFIRMED /\
                  proposed ∈ [GS.CLAIMED; GS.GATEWAY_STARTED; GS.PRE_ACK_RECORDED])
  then GS.UNCONFIRMED
  else if status_rank current <=? status_rank proposed then proposed else current.

(** [GatewayCommandStatus(boundary_state)]. *)
Definition status_of_boundary (s : BS.t) : GS.t :=
  match s with
  | BS.CLAIMED => GS.CLAIMED
  | BS.GATEWAY_STARTED => GS.GATEWAY_STARTED
  | BS.PRE_ACK_RECORDED => GS.PRE_ACK_RECORDED
  | BS.BROKER_ACCEPTED => GS.BROKER_ACCEPTED
  | BS.CHEJAN_CONFIRMED => GS.CHEJAN_CONFIRMED
  | BS.UNCONFIRMED => GS.UNCONFIRMED
  end.

Definition _COMPLETED_STATUSES : list GS.t :=
  [GS.ACKED; GS.BROKER_ACCEPTED; GS.CHEJAN_CONFIRMED; GS.REJECTED; GS.FAILED; GS.EXPIRED;
   GS.CANCELLED].

(** The first of the keys whose value is a text that is not blank. *)
Fixpoint first_message (keys : list string) (p : payload) : option string :=
  match keys with
  | [] => None
  | k :: ks =>
      match jget k p with
      | Some (JStr s) =>
          let t := py_strip s in if str_true t then Some t else first_message ks p
      | _ => first_message ks p
      end
  end.

Definition _extract_error_message : payload -> option string :=
  first_message ["error_message"; "message"; "error"].

(** [float(value)], [None] where it raises [TypeError] or [ValueError]. *)
Definition py_float (value : option json) : res (option float) :=
  match value with
  | Some (JInt n) => let* x := float_of_int n in Ok (Some x)
  | Some (JBool b) => Ok (Some (f_of_Z (if b then 1 else 0)))
  | Some (JFloat x) => Ok (Some x)
  | Some (JStr s) =>
      let '(neg, body) := split_sign (py_lower (py_strip s)) in
      if String.eqb body "nan" then Ok (Some S754_nan)
      else if mem body ["inf"; "infinity"] then Ok (Some (S754_infinity neg))
      else Ok (read_float s)
  | _ => Ok None
  end.

Fixpoint first_float (keys : list string) (p : payload) : res float :=
  match keys with
  | [] => Ok f_one
  | k :: ks =>
      let* v := py_float (jget k p) in
      match v with
      | Some w => Ok (f_min (f_max w (f_lit 1 1000)) (f_of_Z 300))
      | None => first_float ks p
      end
  end.

Definition _extract_wait_time_sec : payload -> res float :=
  first_float ["next_available_in_sec"; "wait_time_sec"; "retry_after_sec"].

(** [timedelta(seconds=x)] in microseconds: the whole seconds, and the fraction
    rounded half to even. *)
Definition timedelta_seconds (x : float) : res Z :=
  let* whole := f_trunc x in
  let* micros := f_trunc (f_round 0 (f_mul (f_sub x (f_of_Z whole)) (f_of_Z usec))) in
  Ok (seconds whole + micros).

Definition update_command (cid : string) (f : command_row -> command_row) (s : store) : store :=
  set_commands (alter f cid (commands s)) s.

Section Events.
Context (py_repr : json -> string).

(** The status an event stands for, once the order's boundary has recorded
    it. *)
Definition next_event_status (current : GS.t) (order_command : bool) (event_type : string)
    (boundary_state : option BS.t) : option GS.t :=
  let next_status := _status_for_command_event event_type order_command in
  if negb order_command then next_status
  else
    match next_status, boundary_state with
    | Some (GS.GATEWAY_STARTED | GS.PRE_ACK_RECORDED | GS.BROKER_ACCEPTED |
            GS.CHEJAN_CONFIRMED), Some st => Some (status_of_boundary st)
    | Some proposed, _ => Some (_effective_order_command_status current proposed)
    | None, _ => None
    end.

(** The [rate_limited] branch: back to the queue, unless the order is past its
    pre-ack. *)
Definition requeue (s : store) (cid : string) (command : option command_row)
    (order_command : bool) (p : payload) (now' : Z) : res (store * option GS.t) :=
  match command with
  | Some c =>
      if order_command &&
         bool_decide (gc_status c ∈ [GS.PRE_ACK_RECORDED; GS.BROKER_ACCEPTED;
                                     GS.CHEJAN_CONFIRMED; GS.UNCONFIRMED])
      then Ok (s, Some (gc_status c))
      else
        let* wait := _extract_wait_time_sec p in
        let* delta := timedelta_seconds wait in
        Ok (update_command cid
              (fun c => set_available (Some (now' + delta))
                          (set_completed None None (set_status GS.QUEUED c))) s,
            Some GS.QUEUED)
  | None =>
      let* wait := _extract_wait_time_sec p in
      let* _ := timedelta_seconds wait in
      Ok (s, Some GS.QUEUED)
  end.

Definition apply_event_status (s : store) (cid : string) (next_status : GS.t)
    (last_error : option string) (now : Z) : store :=
  update_command cid
    (fun c => set_completed
                (coalesce (if decide (next_status ∈ _COMPLETED_STATUSES)
                           then Some now else None) (gc_completed_at c))
                (coalesce last_error (gc_last_error c)) (set_status next_status c)) s.

(** [record_command_event]; [utc] is the clock it reads where [occurred_at] is
    missing, [utc'] the one the [rate_limited] branch reads. *)
Definition record_command_event (s : store) (cid event_type : string) (p : payload)
    (event_id : option string) (occurred_at : option Z) (utc utc' : Z)
    : res (store * option GS.t) :=
  let command := commands s !! cid in
  let order_command :=
    match command with Some c => is_order_command_type (gc_command_type c) | None => false end in
  let now := match occurred_at with Some t => t | None => utc end in
  let* (bs, boundary_state) :=
    match command with
    | Some c =>
        if order_command
        then record_order_broker_event py_repr (boundaries s) c event_type p event_id now
        else Ok (boundaries s, None)
    | None => Ok (boundaries s, None)
    end in
  let next_status :=
    match command with
    | Some c => next_event_status (gc_status c) order_command event_type boundary_state
    | None => _status_for_command_event event_type false
    end in
  let last_error :=
    if decide (next_status = Some GS.FAILED) then _extract_error_message p else None in
  let s1 := log_event {| ce_command_id := cid; ce_event_type := event_type;
                         ce_status := next_status; ce_payload := p; ce_created_at := now |}
              (set_boundaries bs s) in
  if String.eqb (py_lower (py_strip event_type)) "rate_limited"
  then requeue s1 cid command order_command p utc'
  else
    Ok (match next_status with
        | Some st => apply_event_status s1 cid st last_error now
        | None => s1
        end, next_status).
End Events.

(** ** Statuses and boundary states move together *)

Definition accepted_states : list BS.t := [BS.BROKER_ACCEPTED; BS.CHEJAN_CONFIRMED].

(** An order's status against its boundary's state.  Under [strict] a status on
    the way to the broker is exactly the boundary's state and a queued order has
    no boundary yet; without it, an order put back in the queue may carry a
    boundary, but never one the broker accepted. *)
Definition agrees (strict : bool) (st : GS.t) (b : option BS.t) : bool :=
  match st with
  | GS.BROKER_ACCEPTED | GS.CHEJAN_CONFIRMED =>
      match b with Some s => bool_decide (status_of_boundary s = st) | None => false end
  | GS.CLAIMED | GS.GATEWAY_STARTED | GS.PRE_ACK_RECORDED | GS.UNCONFIRMED =>
      match b with
      | Some s => bool_decide (s ∉ accepted_states) &&
                  (negb strict || bool_decide (status_of_boundary s = st))
      | None => false
      end
  | GS.DISPATCHED | GS.ACKED => false
  | GS.QUEUED =>
      match b with Some s => bool_decide (s ∉ accepted_states) && negb strict | None => true end
  | GS.REJECTED | GS.FAILED | GS.EXPIRED | GS.CANCELLED =>
      match b with Some s => bool_decide (s ∉ accepted_states) | None => true end
  end.

(** What an event proposes to an order's status and to its boundary. *)
Definition event_pair (py_repr : json -> string) (event_type : string) (p : payload)
    : option GS.t * option BS.t :=
  (_status_for_command_event event_type true, _state_for_event py_repr event_type p).

Lemma event_pairs py_repr event_type p :
  event_pair py_repr event_type p ∈
    [(Some GS.GATEWAY_STARTED, Some BS.GATEWAY_STARTED);
     (Some GS.PRE_ACK_RECORDED, Some BS.PRE_ACK_RECORDED);
     (Some GS.PRE_ACK_RECORDED, Some BS.BROKER_ACCEPTED);
     (Some GS.BROKER_ACCEPTED, Some BS.BROKER_ACCEPTED);
     (Some GS.CHEJAN_CONFIRMED, Some BS.CHEJAN_CONFIRMED);
     (Some GS.UNCONFIRMED, Some BS.UNCONFIRMED); (Some GS.FAILED, None); (None, None)].
Proof.
  unfold event_pair, _status_for_command_event, _state_for_event.
  generalize (py_lower (py_strip event_type)); intros n. cbn [mem existsb].
  rewrite !orb_false_r, !andb_true_r.
  repeat (match goal with
          | |- context [String.eqb n ?x] =>
              destruct (String.eqb n x) eqn:?;
              [repeat match goal with H : String.eqb _ _ = true |- _ =>
                        apply String.eqb_eq in H; try rewrite H end|]
          | |- context [str_contains ?a ?b] => destruct (str_contains a b)
          end; cbn [orb]); subst; cbn; set_solver.
Qed.

(** Recording an event keeps an order and its boundary together. *)
Lemma event_agrees strict py_repr event_type p current b :
  agrees strict current b = true ->
  let b' := match _state_for_event py_repr event_type p with
            | Some s => Some (_resolve_state b s) | None => b end in
  agrees strict (default current (next_event_status current true event_type b')) b' = true.
Proof.
  intros Ha. cbv zeta. unfold next_event_status.
  pose proof (event_pairs py_repr event_type p) as Hp. unfold event_pair in Hp.
  repeat (apply elem_of_cons in Hp as [[= -> ->]|Hp];
          [revert Ha; destruct strict, current, b as [[]|]; vm_compute; congruence|]).
  by apply not_elem_of_nil in Hp.
Qed.

Lemma requeue_agrees current b :
  current ∉ [GS.PRE_ACK_RECORDED; GS.BROKER_ACCEPTED; GS.CHEJAN_CONFIRMED; GS.UNCONFIRMED] ->
  agrees false current b = true -> agrees false GS.QUEUED b = true.
Proof. intros H Ha. destruct current, b as [[]|]; first [done | exfalso; set_solver]. Qed.

Lemma expired_agrees strict b :
  agrees strict GS.QUEUED b = true -> agrees strict GS.EXPIRED b = true.
Proof. destruct strict, b as [[]|]; vm_compute; congruence. Qed.

Lemma claim_agrees strict b :
  agrees strict GS.QUEUED b = true ->
  agrees strict GS.CLAIMED (Some (_resolve_state b BS.CLAIMED)) = true.
Proof. destruct strict, b as [[]|]; vm_compute; congruence. Qed.

Lemma timeout_agrees strict st b :
  st ∈ [GS.DISPATCHED; GS.CLAIMED; GS.GATEWAY_STARTED; GS.PRE_ACK_RECORDED] ->
  agrees strict st b = true ->
  is_Some b /\ agrees strict GS.UNCONFIRMED (Some (_resolve_state b BS.UNCONFIRMED)) = true.
Proof.
  intros H Ha. destruct b as [s|]; [|destruct st; try done; exfalso; set_solver].
  split; [by eexists|].
  destruct strict, st; try (exfalso; set_solver); revert Ha; destruct s; vm_compute; congruence.
Qed.

(** ** The invariant of the store *)

(** What of a row never changes after it is enqueued. *)
Definition command_of (r : command_row) : GatewayCommand :=
  {| command_type := gc_command_type r; source := gc_source r; payload_of := gc_payload r;
     command_id := gc_command_id r; ts := gc_created_at r;
     idempotency_key := gc_idempotency_key r |}.

(** A stored command passed the validators and is a fixed point of the
    constructor's normalisation. *)
Record command_ok (py_repr : json -> string) (c : GatewayCommand) : Prop := {
  co_allowed : validate_command_type_allowed py_repr (command_type c) (Some c) = None;
  co_normal : GatewayCommand_post_init c = Ok c;
  co_type : _normalize_command_type (command_type c) = command_type c
}.

Definition order_row (r : command_row) : bool := is_order_command_type (gc_command_type r).

Definition same_commands (cs cs' : gmap string command_row) : Prop :=
  forall cid, command_of <$> cs' !! cid = command_of <$> cs !! cid.

#[export] Instance same_commands_preorder : PreOrder same_commands.
Proof. split; [by intros cs cid|]. intros a b c Hab Hbc cid. by rewrite Hbc, Hab. Qed.

Lemma same_commands_some cs cs' cid c' :
  same_commands cs cs' -> cs' !! cid = Some c' ->
  exists c, cs !! cid = Some c /\ command_of c' = command_of c.
Proof.
  intros H Hc. specialize (H cid). rewrite Hc in H. cbn [fmap option_fmap option_map] in H.
  destruct (cs !! cid) as [c|]; [|done]. exists c. split; [done|]. by apply (inj Some).
Qed.

Lemma same_commands_some' cs cs' cid c :
  same_commands cs cs' -> cs !! cid = Some c ->
  exists c', cs' !! cid = Some c' /\ command_of c' = command_of c.
Proof.
  intros H Hc. specialize (H cid). rewrite Hc in H. cbn [fmap option_fmap option_map] in H.
  destruct (cs' !! cid) as [c'|]; [|done]. exists c'. split; [done|]. by apply (inj Some).
Qed.

Lemma same_update_where p f cs :
  (forall r, command_of (f r) = command_of r) -> same_commands cs (update_where p f cs).
Proof.
  intros Hf cid. unfold update_where. rewrite lookup_fmap.
  destruct (cs !! cid) as [r|]; cbn; [|done]. f_equal. by destruct (p r).
Qed.

Lemma same_alter f cid cs :
  (forall r, command_of (f r) = command_of r) -> same_commands cs (alter f cid cs).
Proof.
  intros Hf cid'. rewrite lookup_alter. case_decide; [subst|done].
  destruct (cs !! cid') as [r|]; cbn; [|done]. by rewrite Hf.
Qed.

Section Invariant.
Context (strict : bool) (py_repr : json -> string).

Record store_ok (s : store) : Prop := {
  so_commands : map_Forall (fun cid c => gc_command_id c = cid /\
                                         command_ok py_repr (command_of c)) (commands s);
  so_table : table_ok (boundaries s);
  so_links : forall cid b, boundaries s !! cid = Some b ->
    exists c, commands s !! cid = Some c /\ order_row c = true;
  so_keys : forall cid c, commands s !! cid = Some c -> key_follows py_repr c (boundaries s);
  so_agree : forall cid c, commands s !! cid = Some c -> order_row c = true ->
    agrees strict (gc_status c) (b_state <$> boundaries s !! cid) = true
}.

Lemma so_id s cid c : store_ok s -> commands s !! cid = Some c -> gc_command_id c = cid.
Proof. intros H Hc. by destruct (so_commands _ H _ _ Hc). Qed.

Lemma order_row_same c c' : command_of c' = command_of c -> order_row c' = order_row c.
Proof. intros H%(f_equal command_type). cbn in H. unfold order_row. by rewrite H. Qed.

Lemma key_follows_same c c' t :
  command_of c' = command_of c -> key_follows py_repr c t -> key_follows py_repr c' t.
Proof.
  intros Hc H b. unfold row_key.
  rewrite (f_equal command_id Hc : gc_command_id c' = gc_command_id c).
  rewrite (f_equal idempotency_key Hc : gc_idempotency_key c' = gc_idempotency_key c).
  apply H.
Qed.

(** A change of statuses only, with new boundaries that agree. *)
Lemma store_ok_change s cs bs :
  store_ok s -> same_commands (commands s) cs -> table_ok bs ->
  (forall cid b, bs !! cid = Some b -> is_Some (boundaries s !! cid) \/
     exists c, commands s !! cid = Some c /\ order_row c = true) ->
  (forall cid c, commands s !! cid = Some c -> key_follows py_repr c bs) ->
  (forall cid c c', commands s !! cid = Some c -> cs !! cid = Some c' -> order_row c = true ->
     agrees strict (gc_status c') (b_state <$> bs !! cid) = true) ->
  forall s', commands s' = cs -> boundaries s' = bs -> store_ok s'.
Proof.
  intros Hs Hsame Hbs Hlink Hkey Hagree s' <- <-. split; [|done| | |].
  - intros cid c' Hc'. destruct (same_commands_some _ _ _ _ Hsame Hc') as (c & Hc & Heq).
    destruct (so_commands _ Hs _ _ Hc) as [Hid Hok]. rewrite Heq. split; [|done].
    rewrite <- Hid. exact (f_equal command_id Heq).
  - intros cid b Hb.
    assert (exists c, commands s !! cid = Some c /\ order_row c = true) as (c & Hc & Ho).
    { destruct (Hlink _ _ Hb) as [[b0 Hb0]|?]; [by apply (so_links _ Hs) in Hb0|done]. }
    destruct (same_commands_some' _ _ _ _ Hsame Hc) as (c' & Hc' & Heq).
    exists c'. split; [done|]. by rewrite (order_row_same c).
  - intros cid c' Hc'. destruct (same_commands_some _ _ _ _ Hsame Hc') as (c & Hc & Heq).
    apply (key_follows_same c); [done|]. by eapply Hkey.
  - intros cid c' Hc' Ho. destruct (same_commands_some _ _ _ _ Hsame Hc') as (c & Hc & Heq).
    eapply Hagree; [done..|]. by rewrite <- (order_row_same c c').
Qed.

(** Boundaries untouched. *)
Lemma store_ok_status s cs :
  store_ok s -> same_commands (commands s) cs ->
  (forall cid c c', commands s !! cid = Some c -> cs !! cid = Some c' -> order_row c = true ->
     agrees strict (gc_status c) (b_state <$> boundaries s !! cid) = true ->
     agrees strict (gc_status c') (b_state <$> boundaries s !! cid) = true) ->
  forall s', commands s' = cs -> boundaries s' = boundaries s -> store_ok s'.
Proof.
  intros Hs Hsame Hag s' Hc Hb. eapply (store_ok_change s); try done; try apply Hs.
  - intros cid b Hb'. left. by eexists.
  - intros cid c c' H1 H2 Ho. eapply Hag; [done..|]. by eapply Hs.
Qed.

Lemma store_ok_empty : store_ok empty_store.
Proof.
  split; cbn; [apply map_Forall_empty|apply table_ok_empty| | |];
    intros cid c H; by rewrite lookup_empty in H.
Qed.
End Invariant.

(** ** Every operation keeps the invariant *)

Section Preservation.
Context (strict : bool) (py_repr : json -> string) (hash_payload : payload -> string).
Abbreviation ok := (store_ok strict py_repr).

Lemma find_dedupe_keeps s key now s1 e :
  _find_active_dedupe_error s key now = (s1, e) ->
  commands s1 = commands s /\ boundaries s1 = boundaries s.
Proof.
  unfold _find_active_dedupe_error. destruct (dedupe_keys s !! key) as [row|];
    [|by intros [= <- _]]. case_match; by intros [= <- _].
Qed.

Lemma enqueue_rows_spec s c ctype exp now s2 :
  enqueue_rows s c ctype exp now = Ok s2 ->
  commands s !! command_id c = None /\
  commands s2 = <[command_id c := queued_row c ctype exp]> (commands s) /\
  boundaries s2 = boundaries s.
Proof.
  unfold enqueue_rows, insert_command. cbn [gc_command_id queued_row].
  destruct (commands s !! command_id c) eqn:E; [done|]. cbn [res_bind].
  destruct (idempotency_key c) as [k|]; [|by intros [= <-]].
  unfold insert_dedupe. case_match; [done|]. by intros [= <-].
Qed.

(** The command as it is stored: its type normalised. *)
Definition normalized (c : GatewayCommand) : GatewayCommand :=
  {| command_type := _normalize_command_type (command_type c); source := source c;
     payload_of := payload_of c; command_id := command_id c; ts := ts c;
     idempotency_key := idempotency_key c |}.

Lemma validate_normalized ctype c :
  validate_command_type_allowed py_repr ctype (Some (normalized c)) =
  validate_command_type_allowed py_repr ctype (Some c).
Proof. done. Qed.

Lemma normalize_idem t :
  _normalize_command_type (_normalize_command_type t) = _normalize_command_type t.
Proof.
  unfold _normalize_command_type. by rewrite py_strip_lower, py_strip_idem, py_lower_idem.
Qed.

(** The command types that can be stored. *)
Definition storable_types : list string := ORDER_COMMAND_TYPES ++ ALLOWED_COMMAND_TYPES.

Lemma validate_types ctype c :
  validate_command_type_allowed py_repr ctype c = None ->
  _normalize_command_type ctype ∈ storable_types.
Proof.
  unfold validate_command_type_allowed. generalize (_normalize_command_type ctype); intros n.
  repeat match goal with
         | |- context [String.eqb n ?x] =>
             destruct (String.eqb n x) eqn:E; [apply String.eqb_eq in E as ->; intros ?; first [discriminate|set_solver]|clear E]
         end.
  destruct (mem n FORBIDDEN_ORDER_COMMAND_TYPES || str_contains "order" n); [discriminate 1|].
  destruct (mem n ALLOWED_COMMAND_TYPES) eqn:E; [|discriminate 1]. intros _.
  apply elem_of_app. right. by apply mem_spec.
Qed.

Lemma storable_normal t : t ∈ storable_types -> py_strip t = t /\ str_true t = true /\
  _normalize_command_type t = t.
Proof.
  intros H. repeat (apply elem_of_cons in H as [->|H]; [by vm_compute|]).
  by apply not_elem_of_nil in H.
Qed.

Lemma normalized_ok c :
  GatewayCommand_post_init c = Ok c ->
  validate_command_type_allowed py_repr (_normalize_command_type (command_type c)) (Some c) = None ->
  command_ok py_repr (normalized c).
Proof.
  intros Hn Hv. split; [by rewrite validate_normalized| |apply normalize_idem].
  apply validate_types in Hv as Ht. rewrite normalize_idem in Ht.
  apply storable_normal in Ht as (Hs & Hne & _).
  unfold GatewayCommand_post_init in *. cbn [normalized command_id command_type source
    idempotency_key payload_of ts].
  destruct (require_non_empty (command_id c) "command_id") as [i|] eqn:E1; [|done].
  cbn [res_bind] in *.
  destruct (require_non_empty (command_type c) "command_type") as [t|] eqn:E2; [|done].
  cbn [res_bind] in Hn.
  unfold require_non_empty at 1. rewrite Hs, Hne. cbn [res_bind].
  destruct (require_non_empty (source c) "source") as [sr|] eqn:E3; [|done].
  cbn [res_bind] in *. unfold normalized.
  match type of Hn with res_bind ?x _ = _ => destruct x as [k|] eqn:E4; [|done] end.
  cbn [res_bind] in *. injection Hn as Hn. rewrite <- Hn at 2 3 4 5 6. by rewrite <- Hn.
Qed.

Lemma queued_ok s c exp s2 :
  ok s -> command_ok py_repr (normalized c) ->
  commands s !! command_id c = None ->
  commands s2 =
    <[command_id c := queued_row c (_normalize_command_type (command_type c)) exp]> (commands s) ->
  boundaries s2 = boundaries s -> ok s2.
Proof.
  intros Hs Hc HN Hcs Hbs.
  assert (Hnb : boundaries s !! command_id c = None).
  { destruct (boundaries s !! command_id c) eqn:E; [|done].
    apply (so_links _ _ _ Hs) in E as (? & ? & _). congruence. }
  split; rewrite ?Hcs, ?Hbs.
  - apply map_Forall_insert_2; [|apply Hs]. done.
  - apply Hs.
  - intros cid b Hb. destruct (so_links _ _ _ Hs _ _ Hb) as (c' & Hc' & Ho). exists c'.
    rewrite lookup_insert_ne; [done|congruence].
  - intros cid c' [[<- <-]|[Hne Hc']]%lookup_insert_Some b; [cbn; congruence|].
    by eapply (so_keys _ _ _ Hs).
  - intros cid c' [[<- <-]|[Hne Hc']]%lookup_insert_Some Ho; [by rewrite Hnb|].
    by apply (so_agree _ _ _ Hs).
Qed.

Lemma enqueue_ok s c exp now now' :
  ok s -> GatewayCommand_post_init c = Ok c ->
  ok (enqueue_command py_repr hash_payload s c exp now now').1.
Proof.
  intros Hs Hn. unfold enqueue_command. cbv zeta.
  destruct (validate_command_type_allowed _ _ _) eqn:Ev; [done|].
  destruct (commands s !! command_id c) eqn:Ec; [done|].
  assert (Hf : exists s1 e, match idempotency_key c with
            | Some key => _find_active_dedupe_error s key now' | None => (s, None) end = (s1, e)
          /\ commands s1 = commands s /\ boundaries s1 = boundaries s).
  { destruct (idempotency_key c) as [k|]; [|eauto].
    destruct (_find_active_dedupe_error s k now') as [s1 e] eqn:E. exists s1, e.
    split; [done|]. by eapply find_dedupe_keeps. }
  destruct Hf as (s1 & e & -> & Hc1 & Hb1).
  assert (Hs1 : ok s1) by (by destruct Hs; split; rewrite ?Hc1, ?Hb1).
  destruct e; [done|].
  destruct (enqueue_rows s1 c _ exp now) as [s2|] eqn:E; [|done]. cbn [fst].
  apply enqueue_rows_spec in E as (HN & Hc2 & Hb2).
  eapply (queued_ok s1); [done|by apply normalized_ok|done..].
Qed.

Lemma lookup_update_where p f (cs : gmap string command_row) cid :
  update_where p f cs !! cid = (fun r => if p r then f r else r) <$> cs !! cid.
Proof. apply lookup_fmap. Qed.

Lemma lookup_update_some p f (cs : gmap string command_row) cid c c' :
  cs !! cid = Some c -> update_where p f cs !! cid = Some c' ->
  c' = if p c then f c else c.
Proof. rewrite lookup_update_where. intros ->. by intros [= <-]. Qed.

Lemma expire_queued_ok s now : ok s -> ok (set_commands (expire_queued now (commands s)) s).
Proof.
  intros Hs. eapply (store_ok_status _ _ s); [done| | |done..]; cbn [commands set_commands].
  - by apply same_update_where.
  - intros cid c c' Hc Hc' _ Ha. unfold expire_queued in Hc'.
    rewrite (lookup_update_some _ _ _ _ _ _ Hc Hc'). case_match eqn:E; [|done].
    apply andb_true_iff in E as [E%bool_decide_eq_true _].
    rewrite E in Ha. by apply expired_agrees.
Qed.

(** *** Stale commands *)

(** The updates, row by row. *)
Definition after_fail (now cutoff : Z) (r : command_row) : command_row :=
  let r1 := if stale_queued now r
            then set_completed (Some now) (gc_last_error r) (set_status GS.EXPIRED r) else r in
  if stale_dispatched cutoff r1
  then set_completed (Some now) (coalesce (gc_last_error r1) (Some timeout_message))
         (set_status GS.FAILED r1) else r1.
Definition after_stale (now cutoff : Z) (r : command_row) : command_row :=
  let r2 := after_fail now cutoff r in
  if stale_order cutoff r2
  then set_completed None (coalesce (gc_last_error r2) (Some order_timeout_message))
         (set_status GS.UNCONFIRMED r2) else r2.

Lemma fail_updates now cutoff cs cid :
  fail_dispatched now cutoff (expire_queued now cs) !! cid = after_fail now cutoff <$> cs !! cid.
Proof.
  unfold fail_dispatched, expire_queued. rewrite !lookup_update_where. by destruct (cs !! cid).
Qed.

Lemma stale_updates now cutoff cs cid :
  unconfirm_orders cutoff (fail_dispatched now cutoff (expire_queued now cs)) !! cid =
  after_stale now cutoff <$> cs !! cid.
Proof.
  unfold unconfirm_orders. rewrite lookup_update_where, fail_updates. by destruct (cs !! cid).
Qed.

Lemma after_fail_same now cutoff r : command_of (after_fail now cutoff r) = command_of r.
Proof. unfold after_fail. cbv zeta. by repeat case_match. Qed.

Lemma stale_after_fail now cutoff r :
  stale_order cutoff (after_fail now cutoff r) = stale_order cutoff r.
Proof.
  unfold after_fail. cbv zeta. destruct (stale_queued now r) eqn:Eq.
  - apply andb_true_iff in Eq as [Eq%bool_decide_eq_true _].
    unfold stale_dispatched, stale_order. cbn. by rewrite Eq.
  - destruct (stale_dispatched cutoff r) eqn:Ed; [|done].
    unfold stale_dispatched in Ed. rewrite !andb_true_iff in Ed.
    destruct Ed as [[_ Ed%negb_true_iff] _].
    unfold stale_order. cbn [gc_command_type set_completed set_status].
    by rewrite Ed, !andb_false_r.
Qed.

Lemma after_stale_same now cutoff r : command_of (after_stale now cutoff r) = command_of r.
Proof.
  unfold after_stale. cbv zeta. destruct (stale_order _ _); [|apply after_fail_same].
  exact (after_fail_same now cutoff r).
Qed.

(** An order is stale exactly when it is on its way to the broker and was
    dispatched before the cutoff. *)
Lemma after_stale_order now cutoff strict' r b :
  order_row r = true -> agrees strict' (gc_status r) b = true ->
  after_stale now cutoff r =
    if stale_order cutoff r
    then set_completed None (coalesce (gc_last_error r) (Some order_timeout_message))
           (set_status GS.UNCONFIRMED r)
    else if stale_queued now r
    then set_completed (Some now) (gc_last_error r) (set_status GS.EXPIRED r) else r.
Proof.
  intros Ho Ha. unfold after_stale. cbv zeta. rewrite stale_after_fail. unfold after_fail.
  destruct (stale_queued now r) eqn:Eq.
  - unfold stale_queued in Eq. apply andb_true_iff in Eq as [Eq%bool_decide_eq_true _].
    unfold stale_dispatched, stale_order. cbn. by rewrite Eq.
  - cbv zeta. assert (stale_dispatched cutoff r = false) as ->; [|done].
    unfold stale_dispatched. case_bool_decide as E; [|done]. rewrite E in Ha. discriminate Ha.
Qed.

Lemma stale_order_status cutoff r :
  stale_order cutoff r = true ->
  gc_status r ∈ [GS.DISPATCHED; GS.CLAIMED; GS.GATEWAY_STARTED; GS.PRE_ACK_RECORDED].
Proof. unfold stale_order. rewrite !andb_true_iff, bool_decide_eq_true. tauto. Qed.

Lemma stale_order_row cutoff r : stale_order cutoff r = true -> order_row r = true.
Proof.
  unfold stale_order. rewrite !andb_true_iff. intros [[_ H] _]. by apply sql_order_type_is_order.
Qed.

(** The ids the boundary is told about. *)
Definition stale_ids (now cutoff : Z) (cs : gmap string command_row) : list string :=
  dedupe (List.filter str_true (map gc_command_id
    (List.filter (stale_order cutoff) (rows (fail_dispatched now cutoff (expire_queued now cs)))))).

Lemma elem_of_filter_list {A} (p : A -> bool) (l : list A) x :
  x ∈ List.filter p l <-> x ∈ l /\ p x = true.
Proof. rewrite !list_elem_of_In. apply filter_In. Qed.

Lemma id_true s cid c : ok s -> commands s !! cid = Some c -> str_true cid = true.
Proof.
  intros Hs Hc. destruct (so_commands _ _ _ Hs _ _ Hc) as [<- [_ Hn]].
  unfold GatewayCommand_post_init in Hn. cbn [command_of command_id] in Hn.
  apply res_bind_ok in Hn as (i & Hi & Hn). res_inv Hn. unfold command_of in Hn.
  assert (i = gc_command_id c) as -> by congruence. apply require_non_empty_ok in Hi. naive_solver.
Qed.

Lemma elem_of_stale_ids s now cutoff cid :
  ok s ->
  cid ∈ stale_ids now cutoff (commands s) <->
  exists c, commands s !! cid = Some c /\ stale_order cutoff c = true.
Proof.
  intros Hs. unfold stale_ids.
  rewrite elem_of_dedupe, elem_of_filter_list, list_elem_of_In, in_map_iff.
  setoid_rewrite <- list_elem_of_In. setoid_rewrite elem_of_filter_list.
  setoid_rewrite elem_of_rows. setoid_rewrite fail_updates. split.
  - intros [(r & <- & [(k & Hk) Hr]) _]. apply fmap_Some in Hk as (c & Hc & ->).
    rewrite stale_after_fail in Hr.
    rewrite (f_equal command_id (after_fail_same now cutoff c) :
      gc_command_id (after_fail now cutoff c) = gc_command_id c).
    rewrite (so_id _ _ _ _ _ Hs Hc). eauto.
  - intros (c & Hc & Hst). split; [|by eapply id_true].
    exists (after_fail now cutoff c). split_and!.
    + rewrite <- (so_id _ _ _ _ _ Hs Hc).
      exact (f_equal command_id (after_fail_same now cutoff c)).
    + exists cid. by rewrite Hc.
    + by rewrite stale_after_fail.
Qed.

(** A claimed order, as the boundary facts ask for it. *)
Lemma claimed_of_ok s cid c :
  ok s -> commands s !! cid = Some c -> is_Some (boundaries s !! cid) ->
  claimed py_repr c (boundaries s).
Proof.
  intros Hs Hc Hb. apply key_follows_claimed; [by eapply (so_keys _ _ _ Hs)|].
  by rewrite (so_id _ _ _ _ _ Hs Hc).
Qed.

(** What the expiry does to the boundaries: those of the stale orders, and only
    those, are marked. *)
Record marked (s : store) (cutoff : Z) (bs : boundary_table) : Prop := {
  mk_table : table_ok bs;
  mk_extends : extends (boundaries s) bs;
  mk_fresh : forall cid c, commands s !! cid = Some c -> stale_order cutoff c = false ->
    bs !! cid = boundaries s !! cid;
  mk_none : forall cid, commands s !! cid = None -> bs !! cid = boundaries s !! cid;
  mk_stale : forall cid c, commands s !! cid = Some c -> stale_order cutoff c = true ->
    b_state <$> bs !! cid = Some (_resolve_state (b_state <$> boundaries s !! cid) BS.UNCONFIRMED);
  mk_keys : forall cid c, commands s !! cid = Some c -> key_follows py_repr c bs
}.

Lemma mark_stale s now cutoff :
  ok s -> exists bs,
    mark_order_commands_unconfirmed py_repr
      (unconfirm_orders cutoff (fail_dispatched now cutoff (expire_queued now (commands s))))
      (boundaries s)
      (map gc_command_id (List.filter (stale_order cutoff)
         (rows (fail_dispatched now cutoff (expire_queued now (commands s)))))) now
      "Gateway order command timed out before durable broker confirmation." = Ok bs /\
    marked s cutoff bs.
Proof.
  intros Hs. unfold mark_order_commands_unconfirmed. fold (stale_ids now cutoff (commands s)).
  set (cs3 := unconfirm_orders cutoff (fail_dispatched now cutoff (expire_queued now (commands s)))).
  assert (Hcs3 : forall k c3, cs3 !! k = Some c3 ->
            exists c, commands s !! k = Some c /\ c3 = after_stale now cutoff c).
  { intros k c3. unfold cs3. rewrite stale_updates. intros (c & ? & ->)%fmap_Some. eauto. }
  assert (Hid : forall c, gc_command_id (after_stale now cutoff c) = gc_command_id c)
    by (intros c; exact (f_equal command_id (after_stale_same now cutoff c))).
  assert (Hid3 : forall k c3, cs3 !! k = Some c3 -> gc_command_id c3 = k).
  { intros k c3 (c & Hc & ->)%Hcs3. by rewrite Hid, (so_id _ _ _ _ _ Hs Hc). }
  destruct (mark_loop_total py_repr cs3 now
    "Gateway order command timed out before durable broker confirmation."
    (stale_ids now cutoff (commands s)) (boundaries s)) as [bs Hbs];
    [apply Hs|apply NoDup_dedupe|done| |].
  { intros k c3 (c' & Hc' & Hst)%(elem_of_stale_ids s) (c & Hc & ->)%Hcs3; [|done].
    assert (c' = c) as -> by congruence. apply key_follows_claimed.
    - eapply key_follows_same; [apply after_stale_same|]. by eapply (so_keys _ _ _ Hs).
    - rewrite Hid, (so_id _ _ _ _ _ Hs Hc).
      pose proof (so_agree _ _ _ Hs _ _ Hc (stale_order_row _ _ Hst)) as Ha.
      apply timeout_agrees in Ha as [Hb _]; [|by eapply stale_order_status].
      by apply fmap_is_Some in Hb. }
  exists bs. split; [done|]. assert (Hmark := Hbs).
  apply mark_loop_ok in Hmark as ([Htb He] & Hout & Hin); [|apply Hs|done|apply NoDup_dedupe].
  assert (Hc3 : forall cid c, commands s !! cid = Some c -> cs3 !! cid = Some (after_stale now cutoff c))
    by (intros cid c Hc; unfold cs3; by rewrite stale_updates, Hc).
  split; [done|done| | | |].
  - intros cid c Hc Hst. apply Hout.
    intros (c1 & Hc1 & Hst1)%(elem_of_stale_ids s); [congruence|done].
  - intros cid Hc. apply Hout. intros (c1 & Hc1 & _)%(elem_of_stale_ids s); [congruence|done].
  - intros cid c Hc Hst. eapply Hin; [by apply elem_of_stale_ids; eauto|by apply Hc3|].
    change (order_row (after_stale now cutoff c) = true).
    rewrite (order_row_same c); [by eapply stale_order_row|apply after_stale_same].
  - intros cid c Hc. apply (key_follows_same _ (after_stale now cutoff c));
      [symmetry; apply after_stale_same|].
    eapply (mark_loop_key py_repr cs3); [apply Hs|done| | |done].
    + rewrite Hid, (so_id _ _ _ _ _ Hs Hc). by apply Hc3.
    + eapply key_follows_same; [apply after_stale_same|]. by eapply (so_keys _ _ _ Hs).
Qed.

Lemma none_stale now cutoff cs cid c :
  (rowcount (stale_queued now) cs =? 0) && (rowcount (stale_dispatched cutoff) cs =? 0) &&
  (rowcount (stale_order cutoff) cs =? 0) = true -> cs !! cid = Some c ->
  stale_order cutoff c = false /\ after_stale now cutoff c = c.
Proof.
  rewrite !andb_true_iff, !Z.eqb_eq. unfold rowcount. intros [[H1 H2] H3] Hc.
  assert (Hz : forall p, count p (rows cs) = 0 -> p c = false).
  { intros p Hp. assert (H : (0 <? count p (rows cs)) = false) by (apply Z.ltb_ge; lia).
    rewrite count_rows in H. by eapply H. }
  unfold after_stale, after_fail. by rewrite (Hz _ H1), (Hz _ H2), (Hz _ H3).
Qed.

(** The expiry pass never raises; row by row it is [after_stale]. *)
Lemma expire_stale_spec s timeout now now' :
  ok s -> exists s' n, expire_stale_gateway_commands py_repr s timeout now now' = Ok (s', n) /\
    let cutoff := now - seconds (Z.max timeout 1) in
    (forall cid, commands s' !! cid = after_stale now cutoff <$> commands s !! cid) /\
    marked s cutoff (boundaries s').
Proof.
  intros Hs. unfold expire_stale_gateway_commands. cbv zeta.
  set (cutoff := now - seconds (Z.max timeout 1)).
  cbn [expired_queued_count timed_out_dispatched_count unconfirmed_order_count].
  destruct (_ && _) eqn:Ez.
  - do 2 eexists. split; [done|]. split.
    + intros cid. destruct (commands s !! cid) as [c|] eqn:Hc; [|done]. cbn.
      by rewrite (proj2 (none_stale _ _ _ _ _ Ez Hc)).
    + split; try done; [apply Hs| |apply Hs].
      intros cid c Hc Hst. rewrite (proj1 (none_stale _ _ _ _ _ Ez Hc)) in Hst. done.
  - destruct (mark_stale s now cutoff Hs) as (bs & -> & Hm). cbn [res_bind].
    do 2 eexists. split; [done|]. split; [|done]. intros cid. apply stale_updates.
Qed.

(** Expiry keeps the invariant. *)
Lemma expire_stale_ok s timeout now now' :
  ok s -> exists s' n, expire_stale_gateway_commands py_repr s timeout now now' = Ok (s', n) /\
    ok s' /\ same_commands (commands s) (commands s') /\ extends (boundaries s) (boundaries s').
Proof.
  intros Hs. destruct (expire_stale_spec s timeout now now' Hs) as (s' & n & -> & Hcs & Hm).
  set (cutoff := now - seconds (Z.max timeout 1)) in *. exists s', n. split; [done|].
  assert (Hsame : same_commands (commands s) (commands s')).
  { intros k. rewrite Hcs. destruct (commands s !! k); cbn; [|done]. by rewrite after_stale_same. }
  split_and!; [|done|apply Hm].
  eapply (store_ok_change _ _ s (commands s') (boundaries s')); [done|done|apply Hm| |apply Hm| |
    done|done].
  - intros cid b Hb. destruct (commands s !! cid) as [c|] eqn:Hc.
    + destruct (stale_order cutoff c) eqn:Est; [right; eauto using stale_order_row|left].
      rewrite <- (mk_fresh _ _ _ Hm _ _ Hc Est). by eexists.
    + left. rewrite <- (mk_none _ _ _ Hm _ Hc). by eexists.
  - intros cid c c' Hc Hc' Ho. rewrite Hcs, Hc in Hc'. injection Hc' as <-.
    pose proof (so_agree _ _ _ Hs _ _ Hc Ho) as Ha.
    rewrite (after_stale_order _ _ _ _ _ Ho Ha). destruct (stale_order cutoff c) eqn:Est.
    + rewrite (mk_stale _ _ _ Hm _ _ Hc Est).
      by apply timeout_agrees in Ha as [_ Ha]; [|by eapply stale_order_status].
    + rewrite (mk_fresh _ _ _ Hm _ _ Hc Est).
      destruct (stale_queued now c) eqn:Eq; [|done].
      apply andb_true_iff in Eq as [Eq%bool_decide_eq_true _]. rewrite Eq in Ha.
      by apply expired_agrees.
Qed.

(** *** Dispatch *)

(** A row as dispatch leaves it. *)
Definition handed (now : Z) (r : command_row) : command_row :=
  set_dispatched now (set_status (if order_row r then GS.CLAIMED else GS.DISPATCHED) r).

Lemma handed_same now r : command_of (handed now r) = command_of r.
Proof. done. Qed.

Lemma dispatch_row_spec now s r s' :
  commands s !! gc_command_id r = Some r -> gc_status r = GS.QUEUED ->
  dispatch_row py_repr now s r = Ok s' ->
  commands s' = <[gc_command_id r := handed now r]> (commands s) /\
  exists st, (if order_row r
   then record_order_command_claim py_repr (boundaries s) (set_dispatched now r) now
   else Ok (boundaries s, None)) = Ok (boundaries s', st).
Proof.
  intros Hr Hq. unfold dispatch_row. cbv zeta. fold (order_row r).
  assert (Halt : forall st, alter (fun c => if decide (gc_status c = GS.QUEUED)
      then set_dispatched now (set_status st c) else c) (gc_command_id r) (commands s) =
      <[gc_command_id r := set_dispatched now (set_status st r)]> (commands s)).
  { intros st. apply map_eq. intros k. rewrite lookup_alter, lookup_insert.
    case_decide; [subst|done]. rewrite Hr. cbn. by rewrite decide_True. }
  rewrite Halt. unfold handed. destruct (order_row r).
  - rewrite decide_True by done. cbn [boundaries set_commands].
    intros H. apply res_bind_ok in H as ([bs st] & H1 & H). injection H as <-. eauto.
  - rewrite decide_False by done. intros [= <-]. eauto.
Qed.

Lemma dispatch_row_ok now s r s' :
  ok s -> commands s !! gc_command_id r = Some r -> gc_status r = GS.QUEUED ->
  dispatch_row py_repr now s r = Ok s' ->
  ok s' /\ commands s' = <[gc_command_id r := handed now r]> (commands s) /\
  extends (boundaries s) (boundaries s').
Proof.
  intros Hs Hr Hq H. apply dispatch_row_spec in H as (Hcs & st & Hb); [|done..].
  assert (Hsame : same_commands (commands s) (commands s')).
  { intros k. rewrite Hcs, lookup_insert. case_decide; [subst|done]. by rewrite Hr. }
  pose proof (so_agree _ _ _ Hs _ _ Hr) as Ha. rewrite Hq in Ha.
  destruct (order_row r) eqn:Ho.
  - assert (Hk := Hb). apply claim_key in Hk; [|apply Hs|].
    2: { apply (key_follows_same _ r); [done|]. by eapply (so_keys _ _ _ Hs). }
    apply claim_ok in Hb as ([Ht He] & Hne & Hst); [|apply Hs].
    destruct (Hst Ho) as (b & Hb & Hbst). clear Hst.
    cbn [gc_command_id set_dispatched] in *.
    split_and!; [|done|done].
    eapply (store_ok_change _ _ s (commands s') (boundaries s')); try done.
    + intros cid b' Hb'. destruct (decide (cid = gc_command_id r)) as [->|Hd];
        [right; eauto|left]. rewrite <- Hne by done. by eexists.
    + intros cid c Hc b' Hb'. pose proof (so_id _ _ _ _ _ Hs Hc) as Hid.
      destruct (decide (cid = gc_command_id r)) as [->|Hd].
      * assert (c = r) as -> by congruence. exact (Hk _ Hb').
      * eapply (so_keys _ _ _ Hs _ _ Hc). rewrite Hne in Hb' by congruence. done.
    + intros cid c c' Hc Hc' Hoc. rewrite Hcs in Hc'.
      apply lookup_insert_Some in Hc' as [[<- <-]|[Hd Hc']].
      * rewrite Hb. cbn [fmap option_fmap option_map]. rewrite Hbst.
        unfold handed. rewrite Ho. cbn [gc_status set_dispatched set_status].
        by apply claim_agrees, Ha.
      * assert (c' = c) as -> by congruence. rewrite Hne by done. by apply (so_agree _ _ _ Hs).
  - injection Hb as Hb _. split_and!; [|done|by rewrite Hb].
    eapply (store_ok_status _ _ s (commands s')); try done.
    intros cid c c' Hc Hc' Hoc Hac. rewrite Hcs in Hc'.
    apply lookup_insert_Some in Hc' as [[<- <-]|[Hd Hc']]; congruence.
Qed.

Lemma dispatch_loop_ok now rs : forall s s',
  ok s -> NoDup (map gc_command_id rs) ->
  (forall r, r ∈ rs -> commands s !! gc_command_id r = Some r /\ gc_status r = GS.QUEUED) ->
  dispatch_loop py_repr now s rs = Ok s' ->
  ok s' /\ (forall r, r ∈ rs -> commands s' !! gc_command_id r = Some (handed now r)) /\
  (forall cid, cid ∉ map gc_command_id rs -> commands s' !! cid = commands s !! cid) /\
  extends (boundaries s) (boundaries s').
Proof.
  induction rs as [|r rs IH]; intros s s' Hs Hnd Hrs H; cbn [dispatch_loop] in H.
  - injection H as <-. split_and!; [done|set_solver|done|done].
  - apply res_bind_ok in H as (s1 & H1 & H). cbn [map] in Hnd.
    apply list.NoDup_cons in Hnd as [Hnin Hnd].
    destruct (Hrs r) as [Hr Hq]; [apply elem_of_cons; by left|].
    apply dispatch_row_ok in H1 as (Hs1 & Hcs1 & He1); [|done..].
    apply IH in H as (Hs' & Hin & Hout & He); [|done..|].
    + split_and!; [done| | |by etransitivity].
      * intros r' [->|Hr']%elem_of_cons; [|by apply Hin].
        by rewrite Hout, Hcs1, lookup_insert_eq.
      * intros cid Hcid. cbn [map] in Hcid. apply not_elem_of_cons in Hcid as [Hd Hcid].
        by rewrite Hout, Hcs1, lookup_insert_ne.
    + intros r' Hr'. destruct (Hrs r') as [Hc' Hq']; [apply elem_of_cons; by right|].
      split; [|done]. rewrite Hcs1, lookup_insert_ne; [done|].
      intros Heq. apply Hnin. rewrite Heq. apply list_elem_of_In, in_map.
      by apply list_elem_of_In.
Qed.

Lemma elem_of_take_in {A} n (l : list A) x : x ∈ take n l -> x ∈ l.
Proof. intros H. rewrite <- (take_drop n l). apply elem_of_app. by left. Qed.

Lemma elem_of_ready_rows s now blocked limit r :
  r ∈ ready_rows s now blocked limit ->
  ready now blocked r = true /\ exists cid, commands s !! cid = Some r.
Proof.
  unfold ready_rows. intros H%elem_of_take_in%elem_of_stable_sort%elem_of_filter_list.
  rewrite elem_of_rows in H. tauto.
Qed.

Lemma NoDup_ids s : ok s -> NoDup (map gc_command_id (rows (commands s))).
Proof.
  intros Hs. unfold rows.
  assert (map gc_command_id (map_to_list (commands s)).*2 = (map_to_list (commands s)).*1) as ->;
    [|apply NoDup_fst_map_to_list].
  assert (H : forall kv, kv ∈ map_to_list (commands s) -> gc_command_id kv.2 = kv.1).
  { intros [k c] Hin. apply elem_of_map_to_list in Hin. by eapply so_id. }
  induction (map_to_list (commands s)) as [|kv l IH]; [done|]. cbn.
  f_equal; [apply H, elem_of_cons; by left|]. apply IH. intros kv' Hin. apply H, elem_of_cons.
  by right.
Qed.

Lemma NoDup_map_filter {A B} (f : A -> B) (p : A -> bool) l :
  NoDup (map f l) -> NoDup (map f (List.filter p l)).
Proof.
  induction l as [|a l IH]; [done|]. cbn. intros [Hn Hd]%list.NoDup_cons.
  destruct (p a); [|by apply IH]. cbn. apply list.NoDup_cons. split; [|by apply IH].
  intros H. apply Hn. apply list_elem_of_In. apply list_elem_of_In in H.
  apply in_map_iff in H as (x & <- & Hx). apply filter_In in Hx as [Hx _]. by apply in_map.
Qed.

Lemma ready_rows_NoDup s now blocked limit :
  ok s -> NoDup (map gc_command_id (ready_rows s now blocked limit)).
Proof.
  intros Hs. unfold ready_rows.
  apply (sublist_NoDup _ (map gc_command_id (stable_sort dispatch_le
           (List.filter (ready now blocked) (rows (commands s)))))).
  - rewrite (Permutation_map _ (stable_sort_perm _ _)). by apply NoDup_map_filter, NoDup_ids.
  - apply (fmap_sublist gc_command_id), sublist_take.
Qed.

Context {gate : RoutingGate}.

(** What a dispatch does. *)
Inductive dispatch_result (s : store) (limit now : Z) : store * res (list GatewayCommand) -> Prop :=
| dispatch_idle : dispatch_result s limit now (s, Ok [])
| dispatch_raised e : dispatch_result s limit now (s, Err e)
| dispatch_done s' rs :
    let s1 := set_commands (expire_queued now (commands s)) s in
    let blocked := order_routing_blocked (commands s) (boundaries s) in
    rs = ready_rows s1 now blocked limit ->
    dispatch_loop py_repr now s1 rs = Ok s' ->
    dispatch_result s limit now (s', to_gateway_commands rs).

Lemma dispatch_cases s limit now0 now :
  dispatch_result s limit now (_dispatch_ready_commands py_repr s limit now0 now).
Proof.
  unfold _dispatch_ready_commands. cbv zeta. case_match; [constructor|].
  case_match; [constructor|]. case_match; [by eapply dispatch_done|constructor].
Qed.

Lemma dispatch_rows_ready s now blocked limit r :
  ok s -> r ∈ ready_rows s now blocked limit ->
  commands s !! gc_command_id r = Some r /\ gc_status r = GS.QUEUED /\ ready now blocked r = true.
Proof.
  intros Hs (Hr & cid & Hc)%elem_of_ready_rows. rewrite (so_id _ _ _ _ _ Hs Hc).
  split_and!; [done| |done]. unfold ready in Hr. rewrite !andb_true_iff in Hr.
  by destruct Hr as [[[Hr%bool_decide_eq_true _] _] _].
Qed.

Lemma dispatch_ok s limit now0 now :
  ok s -> ok (_dispatch_ready_commands py_repr s limit now0 now).1.
Proof.
  intros Hs. destruct (dispatch_cases s limit now0 now) as [|e|s' rs s1 blocked -> H]; [done..|].
  cbn [fst]. assert (Hs1 : ok s1) by by apply expire_queued_ok.
  apply dispatch_loop_ok in H as (? & _); [done|done|by apply ready_rows_NoDup|].
  intros r Hr. apply dispatch_rows_ready in Hr; naive_solver.
Qed.

(** *** Events *)

Definition is_rate_limited (event_type : string) : bool :=
  String.eqb (py_lower (py_strip event_type)) "rate_limited".

Lemma rate_limited_neutral event_type p oc :
  is_rate_limited event_type = true ->
  _status_for_command_event event_type oc = None /\ _state_for_event py_repr event_type p = None.
Proof.
  unfold is_rate_limited, _status_for_command_event, _state_for_event.
  intros H%String.eqb_eq. rewrite H. by destruct oc.
Qed.

Lemma set_status_same st r : command_of (set_status st r) = command_of r.
Proof. done. Qed.

(** The event's first half: the boundary records it. *)
Lemma event_boundary s cid event_type p eid now bs st :
  ok s ->
  match commands s !! cid with
  | Some c =>
      if order_row c
      then record_order_broker_event py_repr (boundaries s) c event_type p eid now
      else Ok (boundaries s, None)
  | None => Ok (boundaries s, None)
  end = Ok (bs, st) ->
  table_ok bs /\ extends (boundaries s) bs /\
  (forall k, k <> cid -> bs !! k = boundaries s !! k) /\
  (forall c, commands s !! cid = Some c -> key_follows py_repr c bs) /\
  (forall c, commands s !! cid = Some c -> order_row c = false -> bs = boundaries s) /\
  (commands s !! cid = None -> bs = boundaries s) /\
  (forall c, commands s !! cid = Some c -> order_row c = true ->
     b_state <$> bs !! cid = st /\
     st = match _state_for_event py_repr event_type p with
          | Some x => Some (_resolve_state (b_state <$> boundaries s !! cid) x)
          | None => b_state <$> boundaries s !! cid
          end).
Proof.
  intros Hs H. destruct (commands s !! cid) as [c|] eqn:Hc.
  2: { injection H as <- _. split_and!; try done. apply Hs. }
  pose proof (so_keys _ _ _ Hs _ _ Hc) as Hk. pose proof (so_id _ _ _ _ _ Hs Hc) as Hid.
  destruct (order_row c) eqn:Ho.
  - assert (Hk' := H). apply event_key in Hk'; [|apply Hs|done].
    apply event_ok in H as ([? ?] & Hne & Hst); [|apply Hs]. rewrite Hid in *.
    specialize (Hst Ho) as [-> ->].
    split_and!; try done; intros c' [= <-]; first [done|intros; congruence].
  - injection H as <- _. split_and!; try done; [apply Hs|..]; intros c' [= <-]; [done|intros; congruence].
Qed.

Lemma requeue_spec s cid command oc p now' s' st :
  requeue s cid command oc p now' = Ok (s', st) ->
  s' = s \/ (exists c a, command = Some c /\
    (oc = true -> gc_status c ∉ [GS.PRE_ACK_RECORDED; GS.BROKER_ACCEPTED; GS.CHEJAN_CONFIRMED;
                                 GS.UNCONFIRMED]) /\
    s' = update_command cid (fun c => set_available a
           (set_completed None None (set_status GS.QUEUED c))) s).
Proof.
  unfold requeue. destruct command as [c|].
  - destruct (oc && _) eqn:E; [intros [= <- _]; by left|].
    intros H. apply res_bind_ok in H as (w & _ & H). apply res_bind_ok in H as (d & _ & H).
    injection H as <- _. right. exists c, (Some (now' + d)). split_and!; [done| |done].
    intros ->. by apply bool_decide_eq_false in E.
  - intros H. apply res_bind_ok in H as (w & _ & H). apply res_bind_ok in H as (d & _ & H).
    injection H as <- _. by left.
Qed.

(** A change of one command's status after an event. *)
Lemma event_change s s1 cid f bs :
  ok s -> (forall r, command_of (f r) = command_of r) ->
  table_ok bs -> (forall k, k <> cid -> bs !! k = boundaries s !! k) ->
  (forall c, commands s !! cid = Some c -> key_follows py_repr c bs) ->
  (forall c, commands s !! cid = Some c -> order_row c = false -> bs = boundaries s) ->
  (commands s !! cid = None -> bs = boundaries s) ->
  (forall c, commands s !! cid = Some c -> order_row c = true ->
     agrees strict (gc_status (f c)) (b_state <$> bs !! cid) = true) ->
  commands s1 = alter f cid (commands s) -> boundaries s1 = bs -> ok s1.
Proof.
  intros Hs Hf Ht Hne Hk Hno Hnone Ha Hc1 Hb1.
  eapply (store_ok_change _ _ s (alter f cid (commands s)) bs); try done.
  - by apply same_alter.
  - intros k b Hb. destruct (decide (k = cid)) as [->|Hd].
    + destruct (commands s !! cid) as [c|] eqn:Hc.
      * destruct (order_row c) eqn:Ho; [right; eauto|left].
        rewrite <- (Hno c) by done. by eexists.
      * left. rewrite <- Hnone by done. by eexists.
    + left. rewrite <- Hne by done. by eexists.
  - intros k c Hc b Hb. pose proof (so_id _ _ _ _ _ Hs Hc) as Hid.
    destruct (decide (k = cid)) as [->|Hd]; [by eapply Hk|].
    eapply (so_keys _ _ _ Hs _ _ Hc). rewrite Hne in Hb by congruence. done.
  - intros k c c' Hc Hc' Ho. apply lookup_alter_Some in Hc' as [(<- & c0 & Hc0 & ->)|[Hd Hc']].
    + assert (c0 = c) as -> by congruence. by apply Ha.
    + assert (c' = c) as -> by congruence. rewrite Hne by done. by apply (so_agree _ _ _ Hs).
Qed.

Lemma event_keeps s cid event_type p eid oc utc utc' s' st :
  ok s -> (strict = true -> is_rate_limited event_type = false) ->
  record_command_event py_repr s cid event_type p eid oc utc utc' = Ok (s', st) ->
  ok s' /\ same_commands (commands s) (commands s') /\ extends (boundaries s) (boundaries s').
Proof.
  intros Hs Hstrict H. unfold record_command_event in H. cbv zeta in H.
  apply res_bind_ok in H as ([bs bst] & Hb & H).
  set (now := match oc with Some t => t | None => utc end) in *.
  assert (Hb' : match commands s !! cid with
    | Some c => if order_row c
                then record_order_broker_event py_repr (boundaries s) c event_type p eid now
                else Ok (boundaries s, None)
    | None => Ok (boundaries s, None) end = Ok (bs, bst)).
  { by destruct (commands s !! cid) as [c|]. }
  apply event_boundary in Hb' as (Ht & He & Hne & Hk & Hno & Hnone & Hst); [|done].
  set (s1 := log_event _ _) in H.
  assert (Hgen : forall f s2, (forall r, command_of (f r) = command_of r) ->
    (forall c, commands s !! cid = Some c -> order_row c = true ->
       agrees strict (gc_status (f c)) (b_state <$> bs !! cid) = true) ->
    commands s2 = alter f cid (commands s) -> boundaries s2 = bs ->
    ok s2 /\ same_commands (commands s) (commands s2) /\ extends (boundaries s) (boundaries s2)).
  { intros f s2 Hf Ha Hc2 Hb2. split_and!; [by eapply (event_change s s2 cid f bs)| |].
    - rewrite Hc2. by apply same_alter.
    - by rewrite Hb2. }
  assert (Hid : commands s = alter (fun c => c) cid (commands s)).
  { symmetry. by apply alter_id. }
  assert (Hkeep : (forall c, commands s !! cid = Some c -> order_row c = true ->
     _state_for_event py_repr event_type p = None ->
       agrees strict (gc_status c) (b_state <$> bs !! cid) = true)).
  { intros c Hc Ho HN. destruct (Hst c Hc Ho) as [-> ->]. rewrite HN. by apply (so_agree _ _ _ Hs). }
  fold (is_rate_limited event_type) in H. destruct (is_rate_limited event_type) eqn:Erl.
  - destruct (rate_limited_neutral event_type p true Erl) as [_ Hneut].
    apply requeue_spec in H as [->|(c & a & Hc & Hguard & ->)].
    + apply (Hgen (fun c => c)); [done| |done|done]. intros c Hc Ho. by apply Hkeep.
    + eapply Hgen; [| |done|done]; [done|]. intros c' Hc' Ho. rewrite Hc' in Hc, Hguard.
      injection Hc as <-. cbn [gc_status set_available set_completed set_status].
      specialize (Hguard Ho). pose proof (Hkeep c' Hc' Ho Hneut) as Ha.
      destruct strict; [by specialize (Hstrict eq_refl)|]. by eapply requeue_agrees.
  - injection H as <- Hn.
    destruct (commands s !! cid) as [c|] eqn:Hc.
    2: { destruct (_status_for_command_event event_type false).
         - eapply Hgen; [| |done|done]; done.
         - apply (Hgen (fun c => c)); done. }
    assert (Hag : order_row c = true ->
      agrees strict (default (gc_status c) st) (b_state <$> bs !! cid) = true).
    { intros Ho. destruct (Hst c eq_refl Ho) as [-> Hbst]. rewrite <- Hn.
      fold (order_row c). rewrite Ho, Hbst. apply event_agrees. by apply (so_agree _ _ _ Hs). }
    rewrite Hn. destruct st as [g|]; cbn [default] in Hag.
    + eapply Hgen; [| |done|done]; [done|]. intros c' [= <-] Ho. by apply Hag.
    + apply (Hgen (fun c => c)); [done| |done|done]. intros c' [= <-] Ho. by apply Hag.
Qed.

(** The event an order cannot refuse: its row is claimed, so recording is
    total. *)
Lemma event_runs s cid c event_type p eid oc utc utc' :
  ok s -> commands s !! cid = Some c -> is_Some (boundaries s !! cid) ->
  is_rate_limited event_type = false ->
  exists s' st, record_command_event py_repr s cid event_type p eid oc utc utc' = Ok (s', st).
Proof.
  intros Hs Hc Hb Hrl. unfold record_command_event. cbv zeta. rewrite Hc.
  fold (is_rate_limited event_type). rewrite Hrl. fold (order_row c).
  destruct (order_row c).
  - edestruct (event_total py_repr (boundaries s) c) as (bs & bst & ->);
      [apply Hs|by eapply claimed_of_ok|]. cbn [res_bind]. eauto.
  - cbn [res_bind]. eauto.
Qed.
End Preservation.
