(* ===== verification/CommandHistory.v ===== *)
(** * Histories of the gateway command store

    Sequences of store operations, what every reachable store satisfies, and the
    properties of the queue: what is enqueued, what is dispatched and in which
    order, that an order the broker accepted is never handed out again, that an
    idempotency key admits one command while it is retained, that a poll ends,
    and what a late or repeated gateway event can do. *)
From S2P Require Import Prelude PyFloat BrokerUtils WireTime GatewayModels OrderBoundary CommandStore.
Local Open Scope Z_scope.

Inductive operation :=
| OpEnqueue (c : GatewayCommand) (expires_at : option Z) (now now' : Z)
| OpExpireQueued (now : Z)
| OpExpireStale (timeout now now' : Z)
| OpPoll (limit wait start : Z) (attempts : list attempt)
| OpEvent (cid event_type : string) (p : payload) (event_id : option string)
    (occurred_at : option Z) (utc utc' : Z).

(** The commands come from the constructor. *)
Definition op_ok (o : operation) : Prop :=
  match o with
  | OpEnqueue c _ _ _ => GatewayCommand_post_init c = Ok c
  | _ => True
  end.

(** No gateway reports a rate limit. *)
Definition op_strict (o : operation) : Prop :=
  match o with OpEvent _ t _ _ _ _ _ => is_rate_limited t = false | _ => True end.

Section Histories.
Context (py_repr : json -> string) (hash_payload : payload -> string).
Context {gate : RoutingGate}.

(** The store after an operation; the caller rolls back an exception. *)
Definition run_op (s : store) (o : operation) : store :=
  match o with
  | OpEnqueue c e now now' => (enqueue_command py_repr hash_payload s c e now now').1
  | OpExpireQueued now => expire_queued_commands s now
  | OpExpireStale timeout now now' =>
      match expire_stale_gateway_commands py_repr s timeout now now' with
      | Ok (s', _) => s' | Err _ => s end
  | OpPoll limit wait start attempts =>
      (poll_commands py_repr s limit wait start attempts).1
  | OpEvent cid t p eid oc utc utc' =>
      match record_command_event py_repr s cid t p eid oc utc utc' with
      | Ok (s', _) => s' | Err _ => s end
  end.

Fixpoint run_ops (s : store) (os : list operation) : store :=
  match os with [] => s | o :: rest => run_ops (run_op s o) rest end.

(** ** The invariant along a history *)

Lemma dispatch_extends strict s limit now0 now :
  store_ok strict py_repr s ->
  extends (boundaries s) (boundaries (_dispatch_ready_commands py_repr s limit now0 now).1).
Proof.
  intros Hs.
  destruct (dispatch_cases py_repr s limit now0 now) as [|e|s' rs s1 blocked -> H]; [done..|].
  assert (Hs1 : store_ok strict py_repr s1) by by apply expire_queued_ok.
  cbn [fst]. apply (dispatch_loop_ok strict) in H as (_ & _ & _ & He); [exact He|exact Hs1| |].
  - by eapply ready_rows_NoDup.
  - intros r Hr. apply (dispatch_rows_ready strict py_repr) in Hr; naive_solver.
Qed.

Lemma attempt_ok strict s limit a :
  store_ok strict py_repr s ->
  store_ok strict py_repr (poll_attempt py_repr s limit a).1 /\
  extends (boundaries s) (boundaries (poll_attempt py_repr s limit a).1).
Proof.
  intros Hs. unfold poll_attempt.
  destruct (expire_stale_ok strict py_repr s DEFAULT_DISPATCH_TIMEOUT_SEC (at_expire a)
              (at_health a) Hs) as (s1 & n & -> & Hs1 & _ & He1).
  destruct (at_lock a); cbn [fst]; [|done..].
  pose proof (dispatch_ok strict py_repr s1 limit (at_precheck a) (at_begin a) Hs1) as Hs2.
  pose proof (dispatch_extends strict s1 limit (at_precheck a) (at_begin a) Hs1) as He2.
  destruct (_dispatch_ready_commands _ _ _ _ _) as [s2 r]. cbn [fst] in *.
  split; [done|by etransitivity].
Qed.

Lemma poll_loop_ok strict limit deadline attempts : forall s,
  store_ok strict py_repr s ->
  store_ok strict py_repr (poll_loop py_repr s limit deadline attempts).1 /\
  extends (boundaries s) (boundaries (poll_loop py_repr s limit deadline attempts).1).
Proof.
  induction attempts as [|a rest IH]; intros s Hs; cbn [poll_loop]; [done|].
  destruct (attempt_ok strict s limit a Hs) as [Hs1 He1].
  destruct (poll_attempt py_repr s limit a) as [s1 [[cs|]|e]]; cbn [fst] in *; [| |done].
  - destruct (_ || _); [done|]. destruct (IH s1 Hs1). split; [done|by etransitivity].
  - destruct (deadline <=? _); [done|]. destruct (IH s1 Hs1). split; [done|by etransitivity].
Qed.

Lemma run_op_ok strict s o :
  store_ok strict py_repr s -> op_ok o -> (strict = true -> op_strict o) ->
  store_ok strict py_repr (run_op s o) /\ extends (boundaries s) (boundaries (run_op s o)).
Proof.
  intros Hs Ho Hst. destruct o as [c e now now'|now|timeout now now'|limit wait start atts|
    cid t p eid oc utc utc']; cbn [run_op].
  - split; [by apply enqueue_ok|]. unfold enqueue_command. cbv zeta.
    destruct (validate_command_type_allowed _ _ _); [done|].
    destruct (commands s !! command_id c); [done|].
    destruct (match idempotency_key c with Some k => _ | None => _ end) as [s1 er] eqn:E.
    assert (boundaries s1 = boundaries s) as Hb.
    { destruct (idempotency_key c); [by apply find_dedupe_keeps in E as [_ ?]|by injection E as <- _]. }
    destruct er; cbn [fst]; [by rewrite Hb|].
    destruct (enqueue_rows s1 c _ e now) eqn:Er; cbn [fst]; [|done].
    apply enqueue_rows_spec in Er as (_ & _ & ->). by rewrite Hb.
  - split; [|done]. by apply expire_queued_ok.
  - destruct (expire_stale_ok strict py_repr s timeout now now' Hs) as (s1 & n & -> & ? & _ & ?).
    done.
  - by apply poll_loop_ok.
  - destruct (record_command_event _ _ _ _ _ _ _ _ _) as [[s1 st]|er] eqn:E; [|done].
    apply (event_keeps strict) in E as (? & _ & ?); done.
Qed.

Lemma run_ops_ok strict os : forall s,
  store_ok strict py_repr s -> Forall op_ok os -> (strict = true -> Forall op_strict os) ->
  store_ok strict py_repr (run_ops s os) /\ extends (boundaries s) (boundaries (run_ops s os)).
Proof.
  induction os as [|o os IH]; intros s Hs Ho Hst; cbn [run_ops]; [done|].
  apply list.Forall_cons in Ho as [Ho Hos].
  destruct (run_op_ok strict s o Hs Ho) as [H1 He1].
  { intros H. by apply Hst, list.Forall_cons in H as [? _]. }
  destruct (IH (run_op s o) H1 Hos) as [H2 He2].
  { intros H. by apply Hst, list.Forall_cons in H as [_ ?]. }
  split; [done|by etransitivity].
Qed.

(** The stores the program can reach. *)
Definition reachable (s : store) : Prop :=
  exists os, Forall op_ok os /\ s = run_ops empty_store os.

Lemma reachable_ok s : reachable s -> store_ok false py_repr s.
Proof. intros (os & Hos & ->). apply run_ops_ok; [apply store_ok_empty|done|done]. Qed.

(** The broker accepted the order. *)
Definition broker_accepted (s : store) (cid : string) : Prop :=
  exists b, boundaries s !! cid = Some b /\ b_state b ∈ accepted_states.

Lemma accepted_extends s s' cid :
  extends (boundaries s) (boundaries s') -> broker_accepted s cid -> broker_accepted s' cid.
Proof.
  intros He (b & Hb & Hst). destruct (He _ _ Hb) as (b' & Hb' & Ha). exists b'. split; [done|].
  pose proof (adv_state _ _ Ha). unfold accepted_states in *.
  destruct (b_state b), (b_state b'); cbn in *; first [set_solver|lia].
Qed.

(** A poll that returns commands got them from one dispatch. *)
Lemma poll_loop_dispatch strict limit deadline attempts : forall s s' cs,
  store_ok strict py_repr s ->
  poll_loop py_repr s limit deadline attempts = (s', Some (Ok cs)) ->
  cs = [] \/ exists s1 now0 now, store_ok strict py_repr s1 /\
    extends (boundaries s) (boundaries s1) /\
    _dispatch_ready_commands py_repr s1 limit now0 now = (s', Ok cs).
Proof.
  induction attempts as [|a rest IH]; intros s s' cs Hs; cbn [poll_loop]; [done|].
  destruct (attempt_ok strict s limit a Hs) as [Hs1 He1].
  destruct (poll_attempt py_repr s limit a) as [s1 [[ds|]|e]] eqn:E; cbn [fst] in *; [| |done].
  - destruct (_ || _).
    + intros [= <- <-]. right. unfold poll_attempt in E.
      destruct (expire_stale_ok strict py_repr s DEFAULT_DISPATCH_TIMEOUT_SEC (at_expire a)
                  (at_health a) Hs) as (s0 & n & E0 & Hs0 & _ & He0). rewrite E0 in E.
      destruct (at_lock a); [|done..].
      destruct (_dispatch_ready_commands py_repr s0 limit (at_precheck a) (at_begin a))
        as [s2 r] eqn:Ed. injection E as <- Er. apply res_bind_ok in Er as (cs' & -> & [= ->]).
      eauto 10.
    + intros H. destruct (IH _ _ _ Hs1 H) as [->|(s2 & n0 & n1 & ? & ? & ?)]; [by left|].
      right. exists s2, n0, n1. split_and!; [done|by etransitivity|done].
  - destruct (deadline <=? _); [intros [= _ <-]; by left|].
    intros H. destruct (IH _ _ _ Hs1 H) as [->|(s2 & n0 & n1 & ? & ? & ?)]; [by left|].
    right. exists s2, n0, n1. split_and!; [done|by etransitivity|done].
Qed.
End Histories.

(** ** What the gateway receives *)

Section Received.
Context (py_repr : json -> string).

(** The payload handed out: the stored one, with the expiry added. *)
Definition handed_payload (r : command_row) : payload :=
  match gc_expires_at r, jget "_gateway_command_expires_at" (gc_payload r) with
  | Some e, None => gc_payload r ++ [("_gateway_command_expires_at", JStr (datetime_to_wire e))]
  | _, _ => gc_payload r
  end.

Definition handed_command (r : command_row) : GatewayCommand :=
  {| command_type := gc_command_type r; source := gc_source r;
     payload_of := handed_payload r; command_id := gc_command_id r; ts := gc_created_at r;
     idempotency_key := gc_idempotency_key r |}.

Lemma row_to_command r :
  command_ok py_repr (command_of r) -> _row_to_gateway_command r = Ok (handed_command r).
Proof.
  intros [_ Hn _]. unfold _row_to_gateway_command, handed_command.
  fold (handed_payload r). unfold GatewayCommand_post_init, command_of in *.
  cbn [command_id command_type source idempotency_key payload_of ts] in *.
  destruct (require_non_empty (gc_command_id r) _); [|done]. cbn [res_bind] in *.
  destruct (require_non_empty (gc_command_type r) _); [|done]. cbn [res_bind] in *.
  destruct (require_non_empty (gc_source r) _); [|done]. cbn [res_bind] in *.
  match type of Hn with res_bind ?x _ = _ => destruct x; [|done] end. cbn [res_bind] in *.
  congruence.
Qed.

Lemma rows_to_commands rs :
  (forall r, r ∈ rs -> command_ok py_repr (command_of r)) ->
  to_gateway_commands rs = Ok (map handed_command rs).
Proof.
  induction rs as [|r rs IH]; intros H; [done|]. cbn [to_gateway_commands map].
  rewrite row_to_command by (apply H, elem_of_cons; by left). cbn [res_bind].
  rewrite IH; [done|]. intros r' Hr'. apply H, elem_of_cons. by right.
Qed.

Lemma jget_snoc k k' p v : k <> k' -> jget k (p ++ [(k', v)]) = jget k p.
Proof.
  intros Hne. induction p as [|[k0 v0] p IH]; cbn; [|by rewrite IH].
  by destruct (String.eqb_spec k' k).
Qed.

Lemma jget_handed k r :
  k <> "_gateway_command_expires_at" -> jget k (handed_payload r) = jget k (gc_payload r).
Proof. intros H. unfold handed_payload. repeat case_match; try done. by apply jget_snoc. Qed.

(** The validators do not look at the added key. *)
Lemma handed_validates r :
  validate_command_type_allowed py_repr (gc_command_type r) (Some (handed_command r)) =
  validate_command_type_allowed py_repr (gc_command_type r) (Some (command_of r)).
Proof.
  unfold validate_command_type_allowed, _validate_live_sim_send_order_allowed,
    _validate_live_sim_cancel_order_allowed, _validate_live_sim_broker_snapshot_allowed,
    validate_sell, _mapping_value, str_get.
  cbn [handed_command command_of payload_of source idempotency_key find].
  rewrite !jget_handed by done. reflexivity.
Qed.
End Received.

(** ** The order of dispatch *)

Lemma string_lt_step c d a b :
  String.leb (String c a) (String d b) = true <->
  (N_of_ascii c < N_of_ascii d)%N \/ (c = d /\ String.leb a b = true).
Proof.
  unfold String.leb. cbn [String.compare]. unfold Ascii.compare.
  destruct (N.compare_spec (N_of_ascii c) (N_of_ascii d)) as [E|E|E].
  - assert (c = d) as -> by (by rewrite <- (ascii_N_embedding c), E, ascii_N_embedding).
    split; [auto|intros [?|[_ ?]]; [lia|done]].
  - split; auto.
  - split; [done|]. intros [?|[-> _]]; lia.
Qed.

Lemma string_leb_trans a : forall b c,
  String.leb a b = true -> String.leb b c = true -> String.leb a c = true.
Proof.
  induction a as [|x a IH]; intros b c H1 H2; [by destruct c|].
  destruct b as [|y b]; [done|]. destruct c as [|z c]; [done|].
  rewrite string_lt_step in *. destruct H1 as [H1|[-> H1]], H2 as [H2|[-> H2]];
    [left; lia|by left|by left|right; eauto].
Qed.

Lemma string_leb_total a b : String.leb a b = false -> String.leb b a = true.
Proof. destruct (String.leb_total a b); congruence. Qed.

Lemma dispatch_le_spec a b :
  dispatch_le a b = true <->
  let '(p, c, i) := dispatch_key a in
  let '(p', c', i') := dispatch_key b in
  p < p' \/ (p = p' /\ (c < c' \/ (c = c' /\ String.leb i i' = true))).
Proof.
  unfold dispatch_le. destruct (dispatch_key a) as [[p c] i], (dispatch_key b) as [[p' c'] i'].
  by rewrite orb_true_iff, andb_true_iff, orb_true_iff, andb_true_iff, !Z.ltb_lt, !Z.eqb_eq.
Qed.

Lemma dispatch_le_total a b : dispatch_le a b = false -> dispatch_le b a = true.
Proof.
  destruct (dispatch_le b a) eqn:E; [done|]. intros H. apply not_true_iff_false in E, H.
  rewrite dispatch_le_spec in E, H.
  destruct (dispatch_key a) as [[p c] i], (dispatch_key b) as [[p' c'] i'].
  exfalso. destruct (Z.lt_trichotomy p p') as [?|[->|?]]; [by apply H; left| |by apply E; left].
  destruct (Z.lt_trichotomy c c') as [?|[->|?]]; [by apply H; auto| |by apply E; auto].
  destruct (String.leb_total i i'); [apply H|apply E]; auto.
Qed.

Lemma dispatch_le_trans a b c :
  dispatch_le a b = true -> dispatch_le b c = true -> dispatch_le a c = true.
Proof.
  rewrite !dispatch_le_spec. destruct (dispatch_key a) as [[p1 c1] i1],
    (dispatch_key b) as [[p2 c2] i2], (dispatch_key c) as [[p3 c3] i3].
  pose proof (string_leb_trans i1 i2 i3).
  intros [?|(-> & [?|[-> ?]])] [?|(-> & [?|[-> ?]])];
    solve [left; lia | right; split; [done|left; lia] | right; split; [done|right; tauto]].
Qed.

(** Taking the first [n] of a sorted list leaves nothing smaller behind. *)
Lemma take_sorted_least {A} (le : A -> A -> bool) n (l : list A) x y :
  StronglySorted (fun a b => le a b = true) l -> x ∈ take n l -> y ∈ l -> y ∉ take n l ->
  (n <= length (take n l))%nat /\ le x y = true.
Proof.
  intros Hs Hx Hy Hn. rewrite <- (take_drop n l) in Hy, Hs.
  apply elem_of_app in Hy as [?|Hy]; [done|]. split.
  - rewrite length_take. destruct (Nat.le_gt_cases n (length l)); [lia|].
    rewrite drop_ge in Hy by lia. by apply not_elem_of_nil in Hy.
  - clear Hn. induction (take n l) as [|z t IH]; [by apply not_elem_of_nil in Hx|].
    cbn in Hs. inversion Hs as [|? ? Hs' Hz]; subst.
    apply elem_of_cons in Hx as [->|Hx]; [|by apply IH].
    rewrite list.Forall_forall in Hz. apply Hz, elem_of_app. by right.
Qed.

Lemma sorted_take {A} (R : A -> A -> Prop) n l : StronglySorted R l -> StronglySorted R (take n l).
Proof.
  intros H. revert n. induction H as [|x l Hl IH Hx]; intros [|n]; cbn; try constructor; [done|].
  rewrite list.Forall_forall in Hx |- *. intros y Hy. apply Hx. by eapply elem_of_take_in.
Qed.

(** A ready command left behind comes after every one taken. *)
Lemma ready_left_behind s now blocked limit r r' :
  0 <= limit -> r ∈ ready_rows s now blocked limit -> r' ∉ ready_rows s now blocked limit ->
  r' ∈ rows (commands s) -> ready now blocked r' = true ->
  Z.of_nat (length (ready_rows s now blocked limit)) = limit /\ dispatch_le r r' = true.
Proof.
  intros Hlim Hr Hr' Hrow Hrdy. unfold ready_rows in *.
  assert (Hin : r' ∈ stable_sort dispatch_le (List.filter (ready now blocked) (rows (commands s))))
    by by apply elem_of_stable_sort, elem_of_filter_list.
  destruct (take_sorted_least dispatch_le (Z.to_nat limit) _ r r'
    (stable_sort_sorted _ dispatch_le_total dispatch_le_trans _) Hr Hin Hr') as [Hl Hle].
  split; [|done]. rewrite length_take in *. lia.
Qed.

(** Expiry at the same instant does not touch a ready command. *)
Lemma ready_survives s now blocked r :
  commands s !! gc_command_id r = Some r -> ready now blocked r = true ->
  r ∈ rows (expire_queued now (commands s)).
Proof.
  intros Hc Hrdy. apply elem_of_rows. exists (gc_command_id r).
  unfold expire_queued. rewrite lookup_update_where, Hc. cbn.
  unfold ready in Hrdy. rewrite !andb_true_iff in Hrdy. destruct Hrdy as [[_ He] _].
  unfold expired_at. destruct (gc_expires_at r) as [e|]; [|by rewrite andb_false_r].
  unfold wire_lt, wire_le in *. apply Z.ltb_lt in He.
  rewrite (proj2 (Z.leb_gt _ _)) by done. by rewrite andb_false_r.
Qed.

(** Expiry invents no queued command. *)
Lemma queued_before s now cid c :
  expire_queued now (commands s) !! cid = Some c -> gc_status c = GS.QUEUED ->
  commands s !! cid = Some c.
Proof.
  unfold expire_queued. rewrite lookup_update_where.
  intros (c0 & Hc0 & ->)%fmap_Some Hq. by case_match.
Qed.

(** C32. A dispatch of a reachable store that hands commands out hands out the
    first [limit] ready ones (orders first, then control commands, then
    realtime and TR requests; oldest first): each was queued, available and not
    expired, no new order is among them while routing is blocked, the row of
    each becomes CLAIMED (orders, with a boundary) or DISPATCHED, stamped and
    with its attempts counted, and a ready command left behind comes later in
    that order and only because the limit was reached. *)
Theorem dispatch_exact py_repr hash_payload (gate : RoutingGate) s limit now0 now s' cs :
  reachable py_repr hash_payload s -> 0 <= limit ->
  _dispatch_ready_commands py_repr s limit now0 now = (s', Ok cs) -> cs <> [] ->
  exists rs, cs = map handed_command rs /\ Z.of_nat (length rs) <= limit /\
    StronglySorted (fun a b => dispatch_le a b = true) rs /\
    (forall r, r ∈ rs ->
       commands s !! gc_command_id r = Some r /\ gc_status r = GS.QUEUED /\
       (forall a, gc_available_at r = Some a -> wire_le a now = true) /\
       (forall e, gc_expires_at r = Some e -> wire_lt now e = true) /\
       (order_routing_blocked (commands s) (boundaries s) = true ->
        gc_command_type r <> "send_order") /\
       commands s' !! gc_command_id r = Some (handed now r) /\
       (order_row r = true -> is_Some (boundaries s' !! gc_command_id r))) /\
    (forall r r', r ∈ rs -> r' ∉ rs -> commands s !! gc_command_id r' = Some r' ->
       ready now (order_routing_blocked (commands s) (boundaries s)) r' = true ->
       Z.of_nat (length rs) = limit /\ dispatch_le r r' = true).
Proof.
  intros Hreach Hlim Hd Hne. apply reachable_ok in Hreach as Hs.
  pose proof (dispatch_cases py_repr s limit now0 now) as Hc. rewrite Hd in Hc.
  remember (s', Ok cs) as out eqn:Hout.
  destruct Hc as [|e|s2 rs s1 blocked Hrs Hloop]; [congruence|done|]. injection Hout as -> Hcs.
  assert (Hs1 : store_ok false py_repr s1) by by apply expire_queued_ok.
  assert (Hin : forall r, r ∈ rs -> commands s1 !! gc_command_id r = Some r /\
                 gc_status r = GS.QUEUED /\ ready now blocked r = true).
  { intros r Hr. rewrite Hrs in Hr. by eapply dispatch_rows_ready. }
  assert (Hlen : Z.of_nat (length rs) <= limit).
  { rewrite Hrs. unfold ready_rows. rewrite length_take. lia. }
  apply (dispatch_loop_ok false) in Hloop as (Hs' & Hafter & _ & _);
    [|done|rewrite Hrs; by eapply ready_rows_NoDup|naive_solver].
  rewrite (rows_to_commands py_repr) in Hcs.
  2: { intros r Hr. destruct (Hin r Hr) as (Hr1 & _).
       by destruct (so_commands _ _ _ Hs1 _ _ Hr1). }
  exists rs. split_and!; [congruence|done| | |].
  - rewrite Hrs. apply sorted_take, stable_sort_sorted; [apply dispatch_le_total|apply dispatch_le_trans].
  - intros r Hr. destruct (Hin r Hr) as (Hr1 & Hq & Hrdy). assert (Hrdy' := Hrdy).
    unfold ready in Hrdy. rewrite !andb_true_iff in Hrdy. destruct Hrdy as [[[_ Ha] He] Hb].
    split_and!; [eapply queued_before; [exact Hr1|done]|done| | | |by apply Hafter|].
    + intros a E. by rewrite E in Ha.
    + intros e E. by rewrite E in He.
    + intros Hbl Ht. unfold blocked in Hb. rewrite Hbl, Ht in Hb. discriminate Hb.
    + intros Ho. pose proof (so_agree _ _ _ Hs' _ _ (Hafter r Hr)) as Hag.
      specialize (Hag Ho). unfold handed in Hag. rewrite Ho in Hag. cbn in Hag.
      by destruct (boundaries s' !! gc_command_id r).
  - intros r r' Hr Hr' Hc' Hrdy. rewrite Hrs in *. apply ready_left_behind; try done.
    by eapply ready_survives.
Qed.

(** What a poll hands out are queued rows of a store that still agrees with its
    boundaries. *)
Lemma polled_rows py_repr (gate : RoutingGate) s limit wait start attempts s' cs :
  store_ok false py_repr s ->
  poll_commands py_repr s limit wait start attempts = (s', Some (Ok cs)) ->
  exists s1 rs, store_ok false py_repr s1 /\ extends (boundaries s) (boundaries s1) /\
    cs = map handed_command rs /\
    forall r, r ∈ rs -> commands s1 !! gc_command_id r = Some r /\ gc_status r = GS.QUEUED.
Proof.
  intros Hs Hpoll. apply (poll_loop_dispatch py_repr false) in Hpoll as
    [->|(s2 & now0 & now & Hs2 & He2 & Hd)]; [| |done].
  { exists s, []. split_and!; [done..|]. intros r Hr. by apply not_elem_of_nil in Hr. }
  pose proof (dispatch_cases py_repr s2 (Z.min (Z.max limit 1) 100) now0 now) as Hc.
  rewrite Hd in Hc. remember (s', Ok cs) as out eqn:Hout.
  destruct Hc as [|e|s3 rs s1 blocked Hrs _]; [|done|].
  { injection Hout as _ <-. exists s2, []. split_and!; [done..|]. intros r Hr.
    by apply not_elem_of_nil in Hr. }
  injection Hout as -> Hcs.
  assert (Hs1 : store_ok false py_repr s1) by by apply expire_queued_ok.
  assert (Hin : forall r, r ∈ rs -> commands s1 !! gc_command_id r = Some r /\
                 gc_status r = GS.QUEUED).
  { intros r Hr. rewrite Hrs in Hr. apply (dispatch_rows_ready false py_repr) in Hr; naive_solver. }
  rewrite (rows_to_commands py_repr) in Hcs.
  2: { intros r Hr. destruct (Hin r Hr) as (Hr1 & _).
       by destruct (so_commands _ _ _ Hs1 _ _ Hr1). }
  injection Hcs as <-. by exists s1, rs.
Qed.

Lemma elem_of_map {A B} (f : A -> B) l y : y ∈ map f l <-> exists x, f x = y /\ x ∈ l.
Proof. rewrite list_elem_of_In, in_map_iff. by setoid_rewrite list_elem_of_In. Qed.

(** C2. An order is sent at most once past acceptance: when the broker has
    accepted or executed an order, no later history, whatever events, retries
    and rate limits it contains, makes a poll hand that command out again. *)
Theorem accepted_order_never_redispatched py_repr hash_payload (gate : RoutingGate)
    s cid os limit wait start attempts s' cs :
  reachable py_repr hash_payload s -> broker_accepted s cid -> Forall op_ok os ->
  poll_commands py_repr (run_ops py_repr hash_payload s os) limit wait start attempts
    = (s', Some (Ok cs)) ->
  cid ∉ map command_id cs.
Proof.
  intros Hreach Hacc Hos Hpoll. apply reachable_ok in Hreach as Hs.
  destruct (run_ops_ok py_repr hash_payload false os s Hs Hos) as [H1 He1]; [done|].
  apply polled_rows in Hpoll as (s1 & rs & Hs1 & He2 & -> & Hin); [|done].
  assert (Hacc2 : broker_accepted s1 cid).
  { eapply accepted_extends; [|done]. by etransitivity. }
  rewrite map_map. intros (r & <- & Hr)%elem_of_map.
  destruct (Hin r Hr) as (Hr1 & Hq). destruct Hacc2 as (b & Hb & Hst).
  cbn [command_id handed_command] in Hb.
  destruct (so_links _ _ _ Hs1 _ _ Hb) as (c & Hc & Ho).
  assert (c = r) as -> by congruence.
  pose proof (so_agree _ _ _ Hs1 _ _ Hr1 Ho) as Ha. rewrite Hq, Hb in Ha. cbn in Ha.
  by rewrite bool_decide_eq_false_2 in Ha by tauto.
Qed.

(** ** Live orders are simulation orders *)

(** What an accepted [send_order] promises. *)
Record simulation_order (py_repr : json -> string) (c : GatewayCommand) : Prop := {
  sim_source : py_lower (py_strip (source c)) = "live_sim";
  sim_key : exists k, idempotency_key c = Some k /\ k <> EmptyString /\
    is_text (jget "idempotency_key" (payload_of c)) k = true /\
    is_text (jget "idempotency_key" (_mapping_value (payload_of c) "metadata")) k = true;
  sim_scope : is_True (jget "live_sim_only" (_mapping_value (payload_of c) "metadata")) = true /\
    is_False (jget "live_real_allowed" (_mapping_value (payload_of c) "metadata")) = true;
  sim_servers : forall k, k ∈ ["account_mode"; "broker_env"; "server_mode"] ->
    _is_simulation_like py_repr (jget k (payload_of c)) = true;
  sim_side : let p := payload_of c in
    let metadata := _mapping_value p "metadata" in
    py_upper (str_get py_repr "side" None p) = "BUY" \/
    (py_upper (str_get py_repr "side" None p) = "SELL" /\
     (is_True (jget "close_only" p) = true \/ is_True (jget "close_only" metadata) = true) /\
     is_False (jget "live_real_allowed" p) = true /\ is_True (jget "live_sim_only" p) = true /\
     truthy (jget "position_id" metadata) = true /\
     py_upper (str_get py_repr "order_type" None p) <> "MARKET")
}.

Lemma validate_sell_sound py_repr p metadata :
  validate_sell py_repr p metadata = None ->
  (is_True (jget "close_only" p) = true \/ is_True (jget "close_only" metadata) = true) /\
  is_False (jget "live_real_allowed" p) = true /\ is_True (jget "live_sim_only" p) = true /\
  truthy (jget "position_id" metadata) = true /\
  py_upper (str_get py_repr "order_type" None p) <> "MARKET".
Proof.
  unfold validate_sell. rewrite <- orb_true_iff.
  repeat (match goal with |- context [if ?b then _ else _] => destruct b eqn:?; [done|] end).
  intros _. repeat match goal with H : negb _ = false |- _ => apply negb_false_iff in H end.
  split_and!; try done. by apply String.eqb_neq.
Qed.

Lemma validate_send_order_sound py_repr c :
  _validate_live_sim_send_order_allowed py_repr (Some c) = None -> simulation_order py_repr c.
Proof.
  unfold _validate_live_sim_send_order_allowed. cbv zeta.
  destruct (String.eqb (py_lower _) "live_sim") eqn:Esrc; [cbn [negb]|done].
  destruct (idempotency_key c) as [[|a k]|] eqn:Ek; [done| |done].
  repeat (match goal with |- context [if ?b then Some _ else _] =>
            destruct b eqn:?; [done|] end).
  repeat match goal with H : negb _ = false |- _ => apply negb_false_iff in H end.
  intros Hside. split; cbv zeta.
  - by apply String.eqb_eq.
  - by exists (String a k).
  - done.
  - intros k' Hk. repeat (apply elem_of_cons in Hk as [->|Hk]; [done|]).
    by apply not_elem_of_nil in Hk.
  - match type of Hside with context [String.eqb ?x "BUY"] =>
      destruct (String.eqb_spec x "BUY") as [E|_]; [by left|];
      destruct (String.eqb_spec x "SELL") as [E|_]; [|done] end.
    right. split; [done|]. by apply validate_sell_sound.
Qed.
(** C4. Everything a poll hands out passed the validators when it was enqueued
    and passes them again at the gateway, which repeats the check on the
    command it receives: only the allowed types, and a [send_order] only as a
    LIVE_SIM order on simulated servers, a buy or a close-only sell that is not
    a market order. *)
Theorem polled_commands_revalidate py_repr hash_payload (gate : RoutingGate)
    s limit wait start attempts s' cs c :
  reachable py_repr hash_payload s ->
  poll_commands py_repr s limit wait start attempts = (s', Some (Ok cs)) -> c ∈ cs ->
  validate_command_type_allowed py_repr (command_type c) (Some c) = None /\
  command_type c ∈ storable_types /\
  (command_type c = "send_order" -> simulation_order py_repr c).
Proof.
  intros Hreach Hpoll Hcin. apply reachable_ok in Hreach as Hs.
  apply polled_rows in Hpoll as (s1 & rs & Hs1 & _ & -> & Hin); [|done].
  apply elem_of_map in Hcin as (r & <- & Hr). destruct (Hin r Hr) as (Hr1 & _).
  destruct (so_commands _ _ _ Hs1 _ _ Hr1) as (_ & [Hv _ Ht]).
  cbn [command_type handed_command]. rewrite handed_validates. 
  split; [exact Hv|]. split.
  2: { intros E. apply validate_send_order_sound.
       pose proof (handed_validates py_repr r) as Hh. rewrite E in Hh.
       cbn [command_type command_of] in Hv. rewrite E in Hv. by rewrite Hv in Hh. }
  change (command_type (command_of r) ∈ storable_types). rewrite <- Ht.
  by apply validate_types in Hv.
Qed.


(** ** Enqueueing *)

(** The key is still held for another command. *)
Definition retained (s : store) (key : string) (now : Z) : bool :=
  match dedupe_keys s !! key with
  | None => false
  | Some row => match dk_retained_until row with None => true | Some t => now <? t end
  end.

Lemma find_dedupe_spec s key now :
  if retained s key now then exists msg, _find_active_dedupe_error s key now = (s, Some msg)
  else exists s1, _find_active_dedupe_error s key now = (s1, None) /\ commands s1 = commands s /\
     boundaries s1 = boundaries s /\ dedupe_keys s1 = delete key (dedupe_keys s).
Proof.
  unfold _find_active_dedupe_error, retained.
  destruct (dedupe_keys s !! key) as [row|] eqn:E.
  - destruct (match dk_retained_until row with None => true | Some t => now <? t end); eauto 10.
  - exists s. split_and!; try done. by rewrite delete_id.
Qed.

(** The rows an accepted command leaves behind. *)
Lemma enqueue_rows_ok s c ctype exp now :
  commands s !! command_id c = None ->
  (forall k, idempotency_key c = Some k -> dedupe_keys s !! k = None) ->
  exists s', enqueue_rows s c ctype exp now = Ok s' /\
    commands s' = <[command_id c := queued_row c ctype exp]> (commands s) /\
    boundaries s' = boundaries s /\
    (forall k, idempotency_key c = Some k ->
       exists row, dedupe_keys s' !! k = Some row /\ dk_retained_until row = exp) /\
    (forall k, idempotency_key c <> Some k -> dedupe_keys s' !! k = dedupe_keys s !! k).
Proof.
  intros Hc Hk. unfold enqueue_rows, insert_command. cbn [gc_command_id queued_row].
  rewrite Hc. cbn [res_bind]. destruct (idempotency_key c) as [k|].
  - unfold insert_dedupe. cbn [dedupe_keys set_commands]. rewrite Hk by done.
    eexists. split; [done|]. split_and!; [done|done| |].
    + intros k' [= <-]. cbn [dedupe_keys set_dedupe_keys]. rewrite lookup_insert_eq. eauto.
    + intros k' Hne. cbn [dedupe_keys set_dedupe_keys]. rewrite lookup_insert_ne; [done|congruence].
  - eexists. split; [done|]. done.
Qed.

(** [enqueue_command] accepts a command exactly when the validators allow
    it, its id is new and its idempotency key is not retained; then the command
    is queued under its normalised type and holds its key until its expiry, and
    otherwise the queue stays as it is; the boundaries never change. *)
Theorem enqueue_exact py_repr hash_payload s c expires_at now now' :
  let r := enqueue_command py_repr hash_payload s c expires_at now now' in
  let ctype := _normalize_command_type (command_type c) in
  er_accepted r.2 =
    bool_decide (validate_command_type_allowed py_repr ctype (Some c) = None) &&
    bool_decide (commands s !! command_id c = None) &&
    match idempotency_key c with Some k => negb (retained s k now') | None => true end /\
  (commands r.1 = if er_accepted r.2
                  then <[command_id c := queued_row c ctype expires_at]> (commands s)
                  else commands s) /\
  (er_accepted r.2 = true -> forall k, idempotency_key c = Some k ->
     exists row, dedupe_keys r.1 !! k = Some row /\ dk_retained_until row = expires_at) /\
  boundaries r.1 = boundaries s.
Proof.
  cbv zeta. unfold enqueue_command. cbv zeta.
  destruct (validate_command_type_allowed _ _ _); [by split_and!|].
  destruct (commands s !! command_id c) eqn:Ec.
  { rewrite (bool_decide_eq_false_2 (Some _ = None)), andb_false_r by done. by split_and!. }
  rewrite !bool_decide_eq_true_2 by done. cbn [andb].
  assert (Hgo : forall s1, commands s1 = commands s -> boundaries s1 = boundaries s ->
    (forall k, idempotency_key c = Some k -> dedupe_keys s1 !! k = None) ->
    exists s', enqueue_rows s1 c (_normalize_command_type (command_type c)) expires_at now = Ok s'
      /\ commands s' = <[command_id c := queued_row c (_normalize_command_type (command_type c))
                                           expires_at]> (commands s)
      /\ boundaries s' = boundaries s /\
      (forall k, idempotency_key c = Some k ->
         exists row, dedupe_keys s' !! k = Some row /\ dk_retained_until row = expires_at)).
  { intros s1 H1 H2 H3.
    destruct (enqueue_rows_ok s1 c (_normalize_command_type (command_type c)) expires_at now)
      as (s' & -> & Hc' & Hb' & Hk' & _); [by rewrite H1|done|].
    exists s'. rewrite Hc', Hb', H1, H2. done. }
  destruct (idempotency_key c) as [k|] eqn:Ek.
  - pose proof (find_dedupe_spec s k now') as Hf. destruct (retained s k now').
    + destruct Hf as [msg ->]. by split_and!.
    + destruct Hf as (s1 & -> & H1 & H2 & H3).
      destruct (Hgo s1) as (s' & -> & ? & ? & ?); [done|done| |by split_and!].
      intros k' [= <-]. by rewrite H3, lookup_delete_eq.
  - destruct (Hgo s) as (s' & -> & ? & ? & ?); [done..|by split_and!].
Qed.

(** ** Idempotency keys along a history *)

(** Every enqueue of the history reads the clock before [t]. *)
Definition enqueues_before (t : option Z) (o : operation) : Prop :=
  match o, t with
  | OpEnqueue _ _ _ now', Some t => now' < t
  | _, _ => True
  end.

Section Keys.
Context (py_repr : json -> string) (hash_payload : payload -> string).
Context {gate : RoutingGate}.

Lemma enqueue_keeps_key s c e now now' k row :
  dedupe_keys s !! k = Some row ->
  match dk_retained_until row with None => True | Some t => now' < t end ->
  dedupe_keys (enqueue_command py_repr hash_payload s c e now now').1 !! k = Some row.
Proof.
  intros Hk Hr. unfold enqueue_command. cbv zeta.
  destruct (validate_command_type_allowed _ _ _); [done|].
  destruct (commands s !! command_id c) eqn:Ec; [done|].
  assert (Hret : retained s k now' = true).
  { unfold retained. rewrite Hk. destruct (dk_retained_until row); [by apply Z.ltb_lt|done]. }
  assert (Hgo : forall s1, commands s1 = commands s -> dedupe_keys s1 !! k = Some row ->
    idempotency_key c <> Some k ->
    dedupe_keys (match enqueue_rows s1 c (_normalize_command_type (command_type c)) e now with
      | Ok s2 => (s2, {| er_accepted := true; er_command_id := command_id c;
              er_status := GS.QUEUED; er_payload_hash := hash_payload (payload_of c);
              er_duplicate := false; er_error_message := None |})
      | Err _ => (s, rejected hash_payload c GS.REJECTED true "UNIQUE constraint failed")
      end).1 !! k = Some row).
  { intros s1 H1 H2 Hne. unfold enqueue_rows, insert_command. cbn [gc_command_id queued_row].
    rewrite H1, Ec. cbn [res_bind]. destruct (idempotency_key c) as [k'|]; [|done].
    unfold insert_dedupe. cbn [dedupe_keys set_commands].
    destruct (dedupe_keys s1 !! k'); cbn [fst]; [done|].
    cbn [dedupe_keys set_dedupe_keys]. rewrite lookup_insert_ne; [done|congruence]. }
  destruct (idempotency_key c) as [k'|] eqn:Ek; [|by apply Hgo].
  destruct (decide (k' = k)) as [->|Hne].
  - pose proof (find_dedupe_spec s k now') as Hf. rewrite Hret in Hf. by destruct Hf as [msg ->].
  - pose proof (find_dedupe_spec s k' now') as Hf. destruct (retained s k' now').
    + by destruct Hf as [msg ->].
    + destruct Hf as (s1 & -> & H1 & _ & H3). apply Hgo; [done| |congruence].
      by rewrite H3, lookup_delete_ne.
Qed.

Lemma dispatch_row_dedupe now s r s' :
  dispatch_row py_repr now s r = Ok s' -> dedupe_keys s' = dedupe_keys s.
Proof.
  unfold dispatch_row. cbv zeta. case_decide as Hd; [|by intros [= <-]].
  intros H. apply res_bind_ok in H as ([bs st] & _ & H). by injection H as <-.
Qed.

Lemma dispatch_loop_dedupe now rs : forall s s',
  dispatch_loop py_repr now s rs = Ok s' -> dedupe_keys s' = dedupe_keys s.
Proof.
  induction rs as [|r rs IH]; intros s s' H; cbn [dispatch_loop] in H; [by injection H as <-|].
  apply res_bind_ok in H as (s1 & H1 & H). by rewrite (IH _ _ H), (dispatch_row_dedupe _ _ _ _ H1).
Qed.

Lemma attempt_dedupe s limit a :
  dedupe_keys (poll_attempt py_repr s limit a).1 = dedupe_keys s.
Proof.
  assert (He : forall t n n' s' r,
    expire_stale_gateway_commands py_repr s t n n' = Ok (s', r) -> dedupe_keys s' = dedupe_keys s).
  { intros t n n' s' r. unfold expire_stale_gateway_commands. cbv zeta.
    destruct (_ && _); [by intros [= <- _]|].
    intros H. apply res_bind_ok in H as (bs & _ & H). by injection H as <- _. }
  unfold poll_attempt. destruct (expire_stale_gateway_commands _ _ _ _ _) as [[s1 n]|] eqn:E;
    [|by destruct (at_lock a)].
  apply He in E.
  destruct (dispatch_cases py_repr s1 limit (at_precheck a) (at_begin a))
    as [|e|s' rs s2 blocked _ Hl]; destruct (at_lock a); try done.
  apply dispatch_loop_dedupe in Hl. cbn [fst]. by rewrite Hl.
Qed.

Lemma poll_dedupe limit deadline attempts : forall s,
  dedupe_keys (poll_loop py_repr s limit deadline attempts).1 = dedupe_keys s.
Proof.
  induction attempts as [|a rest IH]; intros s; cbn [poll_loop]; [done|].
  pose proof (attempt_dedupe s limit a) as H.
  destruct (poll_attempt py_repr s limit a) as [s1 [[cs|]|e]]; cbn [fst] in *; [| |done].
  - destruct (_ || _); [done|]. by rewrite IH.
  - destruct (deadline <=? _); [done|]. by rewrite IH.
Qed.

Lemma event_dedupe s cid t p eid oc utc utc' s' st :
  record_command_event py_repr s cid t p eid oc utc utc' = Ok (s', st) ->
  dedupe_keys s' = dedupe_keys s.
Proof.
  unfold record_command_event. cbv zeta. intros H.
  apply res_bind_ok in H as ([bs bst] & _ & H). destruct (String.eqb _ _).
  - apply requeue_spec in H as [->|(c & a & _ & _ & ->)]; done.
  - injection H as <- _. by case_match.
Qed.

Lemma op_keeps_key s o k row :
  dedupe_keys s !! k = Some row -> enqueues_before (dk_retained_until row) o ->
  dedupe_keys (run_op py_repr hash_payload s o) !! k = Some row.
Proof.
  intros Hk Ho. destruct o as [c e now now'|now|timeout now now'|limit wait start atts|
    cid t p eid oc utc utc']; cbn [run_op].
  - apply enqueue_keeps_key; [done|]. cbn in Ho. by destruct (dk_retained_until row).
  - done.
  - unfold expire_stale_gateway_commands. cbv zeta. destruct (_ && _); [done|].
    by destruct (mark_order_commands_unconfirmed _ _ _ _ _ _).
  - unfold poll_commands. by rewrite poll_dedupe.
  - destruct (record_command_event _ _ _ _ _ _ _ _ _) as [[s1 st]|] eqn:E; [|done].
    by rewrite (event_dedupe _ _ _ _ _ _ _ _ _ _ E).
Qed.

Lemma ops_keep_key os : forall s k row,
  dedupe_keys s !! k = Some row -> Forall (enqueues_before (dk_retained_until row)) os ->
  dedupe_keys (run_ops py_repr hash_payload s os) !! k = Some row.
Proof.
  induction os as [|o os IH]; intros s k row Hk Ho; cbn [run_ops]; [done|].
  apply list.Forall_cons in Ho as [Ho Hos]. apply IH; [by apply op_keeps_key|done].
Qed.
End Keys.

(** C29. An idempotency key admits one command while it is retained: once a
    command with key [k] and expiry [e] is accepted, then whatever the store
    does afterwards (dispatch, events, failures, expiry of the command), a
    second command with that key is rejected as long as the clock has not
    reached [e]; without an expiry it is rejected for ever. *)
Theorem key_admits_one_command py_repr hash_payload (gate : RoutingGate)
    s c e now now' k os c2 e2 now2 now2' :
  let r := enqueue_command py_repr hash_payload s c e now now' in
  let s' := run_ops py_repr hash_payload r.1 os in
  let r2 := enqueue_command py_repr hash_payload s' c2 e2 now2 now2' in
  er_accepted r.2 = true -> idempotency_key c = Some k ->
  Forall (enqueues_before e) os -> match e with Some t => now2' < t | None => True end ->
  idempotency_key c2 = Some k ->
  er_accepted r2.2 = false /\ commands r2.1 = commands s'.
Proof.
  intros r s' r2 Hacc Hk Hos Hnow Hk2.
  destruct (enqueue_exact py_repr hash_payload s c e now now') as (_ & _ & Hded & _).
  destruct (Hded Hacc k Hk) as (row & Hrow & He).
  assert (Hrow' : dedupe_keys s' !! k = Some row).
  { apply ops_keep_key; [done|]. by rewrite He. }
  assert (Hret : retained s' k now2' = true).
  { unfold retained. rewrite Hrow', He. destruct e; [by apply Z.ltb_lt|done]. }
  destruct (enqueue_exact py_repr hash_payload s' c2 e2 now2 now2') as (Hacc2 & Hc2 & _).
  fold r2 in Hacc2, Hc2. rewrite Hk2, Hret, andb_false_r in Hacc2.
  rewrite Hacc2 in Hc2. done.
Qed.

(** ** Polling ends *)

(** C38. [poll_commands] returns by its deadline, which is at most five seconds
    away: once the clock read after an attempt has reached it, whatever the
    attempts before met (an empty queue, a locked database, an exception),
    the call has answered, with at most 100 commands and never more than the
    requested limit (or one). *)
Theorem poll_returns py_repr (gate : RoutingGate) s limit wait start attempts a :
  a ∈ attempts -> start + Z.min (Z.max wait 0) (seconds 5) <= at_monotonic a ->
  exists s' r, poll_commands py_repr s limit wait start attempts = (s', Some r) /\
    match r with
    | Ok cs => Z.of_nat (length cs) <= Z.min (Z.max limit 1) 100
    | Err _ => True
    end.
Proof.
  unfold poll_commands. generalize (start + Z.min (Z.max wait 0) (seconds 5)); intros deadline.
  generalize (Z.min (Z.max limit 1) 100) (Z.min_glb_lt (Z.max limit 1) 100 0 ltac:(lia) ltac:(lia)).
  intros lim Hlim Ha Hd. revert s. induction attempts as [|a' rest IH]; intros s;
    [by apply not_elem_of_nil in Ha|]. cbn [poll_loop].
  assert (Hlen : forall s1 cs, poll_attempt py_repr s lim a' = (s1, Ok (Some cs)) ->
            Z.of_nat (length cs) <= lim).
  { intros s1 cs. unfold poll_attempt.
    destruct (expire_stale_gateway_commands _ _ _ _ _) as [[s2 n]|]; [|by destruct (at_lock a')].
    pose proof (dispatch_cases py_repr s2 lim (at_precheck a') (at_begin a')) as Hc.
    destruct (_dispatch_ready_commands _ _ _ _ _) as [s3 r] eqn:E.
    destruct (at_lock a'); [|done..]. intros [= <- Hr]. apply res_bind_ok in Hr as (cs' & -> & [= ->]).
    remember (s3, Ok cs) as out eqn:Hout. destruct Hc as [|e|s4 rs s5 blocked Hrs _];
      [injection Hout as _ <-; cbn; lia|done|]. injection Hout as _ Hcs.
    assert (length cs = length rs) as ->.
    { clear -Hcs. revert cs Hcs. induction rs as [|r rs IH]; intros cs H; cbn in H;
        [by injection H as <-|].
      apply res_bind_ok in H as (c & _ & H). apply res_bind_ok in H as (cs' & H & [= <-]).
      cbn. by rewrite (IH _ H). }
    rewrite Hrs. unfold ready_rows. rewrite length_take. lia. }
  destruct (poll_attempt py_repr s lim a') as [s1 [[cs|]|e]]; [| |by exists s1, (Err e)].
  - destruct (nonempty cs || (deadline <=? at_monotonic a')) eqn:E.
    + exists s1, (Ok cs). split; [done|]. by eapply Hlen.
    + apply elem_of_cons in Ha as [->|Ha]; [|by apply IH].
      rewrite (proj2 (Z.leb_le _ _) Hd), orb_true_r in E. done.
  - destruct (deadline <=? at_monotonic a') eqn:E; [exists s1, (Ok []); split; [done|cbn; lia]|].
    apply elem_of_cons in Ha as [->|Ha]; [|by apply IH].
    by rewrite (proj2 (Z.leb_le _ _) Hd) in E.
Qed.

(** ** Commands and boundaries agree *)

(** As long as no gateway reports a rate limit, the status of an order
    command and the state of its boundary never disagree, so
    ORDER_COMMAND_BOUNDARY_STATE_MISMATCH is never reported: events in any
    order, repeated events, timeouts and failures keep them together. *)
Theorem no_mismatch_without_rate_limit py_repr hash_payload (gate : RoutingGate) os s :
  Forall op_ok os -> Forall op_strict os ->
  s = run_ops py_repr hash_payload empty_store os ->
  forall cid b, boundaries s !! cid = Some b ->
    command_state_mismatch (commands s) b = false /\
    exists c, commands s !! cid = Some c /\ order_row c = true.
Proof.
  intros Hos Hst -> cid b Hb.
  destruct (run_ops_ok py_repr hash_payload true os empty_store) as [Hs _];
    [apply store_ok_empty|done|done|].
  destruct (so_links _ _ _ Hs _ _ Hb) as (c & Hc & Ho). split; [|eauto].
  destruct (to_rows _ (so_table _ _ _ Hs) _ _ Hb) as [Hid _].
  unfold command_state_mismatch. rewrite Hid, Hc.
  pose proof (so_agree _ _ _ Hs _ _ Hc Ho) as Ha. rewrite Hb in Ha. cbn in Ha.
  revert Ha. destruct (gc_status c), (b_state b); vm_compute; congruence.
Qed.

(** Timeouts are conservative. On every reachable store the expiry pass
    succeeds, and an order that was handed out and not heard of since becomes
    UNCONFIRMED, with its boundary UNCONFIRMED as well, and is never failed,
    expired or put back in the queue; every other order row keeps its status
    unless it was still queued past its expiry. *)
Theorem stale_orders_unconfirmed py_repr hash_payload (gate : RoutingGate)
    s timeout now now' cid c :
  reachable py_repr hash_payload s -> commands s !! cid = Some c -> order_row c = true ->
  exists s' n c', expire_stale_gateway_commands py_repr s timeout now now' = Ok (s', n) /\
    commands s' !! cid = Some c' /\
    let cutoff := now - seconds (Z.max timeout 1) in
    if stale_order cutoff c
    then gc_status c' = GS.UNCONFIRMED /\ gc_completed_at c' = None /\
         exists b, boundaries s' !! cid = Some b /\ b_state b = BS.UNCONFIRMED
    else gc_status c' = if stale_queued now c then GS.EXPIRED else gc_status c.
Proof.
  intros Hreach Hc Ho. apply reachable_ok in Hreach as Hs.
  destruct (expire_stale_spec false py_repr s timeout now now' Hs) as (s' & n & Hrun & Hcs & Hm).
  set (cutoff := now - seconds (Z.max timeout 1)) in *.
  exists s', n, (after_stale now cutoff c). cbv zeta in *.
  pose proof (so_agree _ _ _ Hs _ _ Hc Ho) as Ha.
  rewrite (after_stale_order _ _ _ _ _ Ho Ha). split_and!; [done| |].
  - by rewrite Hcs, Hc, <- (after_stale_order _ _ _ _ _ Ho Ha).
  - destruct (stale_order cutoff c) eqn:Est; [|by destruct (stale_queued now c)].
    split_and!; [done|done|]. pose proof (mk_stale _ _ _ _ Hm _ _ Hc Est) as Hb.
    apply fmap_Some in Hb as (b & Hb & Hst). exists b. split; [done|]. rewrite <- Hst.
    apply stale_order_status in Est.
    destruct (b_state <$> boundaries s !! cid) as [[]|]; try done;
      destruct (gc_status c); cbn in Ha; first [done|set_solver].
Qed.

(** ** Late and repeated events *)

(** A rate-limited report puts a command back in the queue, due after the
    reported wait (one millisecond to five minutes), except an order whose
    status is past its pre-ack; nothing else stops it, so a report that
    arrives late re-queues a command that already failed, was rejected,
    cancelled or expired, or was acknowledged. *)
Theorem rate_limited_requeues py_repr s cid c event_type p event_id occurred_at utc utc' s' st :
  commands s !! cid = Some c -> is_rate_limited event_type = true ->
  record_command_event py_repr s cid event_type p event_id occurred_at utc utc' = Ok (s', st) ->
  exists c', commands s' !! cid = Some c' /\
    if order_row c && bool_decide (gc_status c ∈ [GS.PRE_ACK_RECORDED; GS.BROKER_ACCEPTED;
                                                  GS.CHEJAN_CONFIRMED; GS.UNCONFIRMED])
    then c' = c /\ st = Some (gc_status c)
    else gc_status c' = GS.QUEUED /\ st = Some GS.QUEUED /\ gc_completed_at c' = None /\
         gc_last_error c' = None /\ gc_attempts c' = gc_attempts c /\
         exists wait delta, _extract_wait_time_sec p = Ok wait /\
           timedelta_seconds wait = Ok delta /\ gc_available_at c' = Some (utc' + delta).
Proof.
  intros Hc Hrl H. unfold record_command_event in H. cbv zeta in H. rewrite Hc in H.
  fold (order_row c) (is_rate_limited event_type) in H. rewrite Hrl in H.
  apply res_bind_ok in H as ([bs bst] & _ & H). unfold requeue in H.
  destruct (order_row c && _) eqn:Eg.
  - injection H as <- <-. exists c. done.
  - apply res_bind_ok in H as (wait & Hw & H). apply res_bind_ok in H as (delta & Hd & H).
    injection H as <- <-. eexists. split.
    + unfold update_command. cbn [commands set_commands log_event set_boundaries].
      by rewrite lookup_alter_eq, Hc.
    + cbn [gc_status gc_completed_at gc_last_error gc_attempts gc_available_at set_available
        set_completed set_status]. eauto 10.
Qed.

(** ** Reused keys *)

Lemma dispatch_loop_err py_repr now rs : forall s e,
  dispatch_loop py_repr now s rs = Err e -> e = IntegrityError.
Proof.
  induction rs as [|r rs IH]; intros s e H; cbn [dispatch_loop] in H; [done|].
  destruct (dispatch_row py_repr now s r) as [s1|e1] eqn:E; cbn [res_bind] in H; [by eapply IH|].
  injection H as ->. unfold dispatch_row in E. cbv zeta in E. case_decide; [|done].
  destruct (record_order_command_claim _ _ _ _) as [[bs st]|e2] eqn:Ec; [done|].
  cbn [res_bind] in E. injection E as ->. unfold record_order_command_claim in Ec.
  destruct (negb _); [done|].
  match type of Ec with context [_upsert_boundary ?a ?b ?c ?d ?e ?f ?g ?h] =>
    destruct (_upsert_boundary a b c d e f g h) as [[]|] eqn:Eu end; [done|].
  apply upsert_err in Eu. cbn in Ec. congruence.
Qed.

(** The boundary table keeps an idempotency key for ever, while the
    deduplication table releases it at its expiry.  When a due order carries
    the key of another order's boundary, the dispatch raises an
    IntegrityError and is rolled back whole: nothing is handed out, neither
    that order nor any other command due with it. *)
Theorem reused_key_stops_dispatch py_repr hash_payload (gate : RoutingGate)
    s limit now0 now r other b k :
  reachable py_repr hash_payload s ->
  let blocked := order_routing_blocked (commands s) (boundaries s) in
  r ∈ ready_rows (set_commands (expire_queued now (commands s)) s) now blocked limit ->
  _has_ready_queued_command s now0 blocked = true ->
  order_row r = true -> row_key py_repr r = Some k ->
  boundaries s !! other = Some b -> other <> gc_command_id r -> b_idempotency_key b = Some k ->
  _dispatch_ready_commands py_repr s limit now0 now = (s, Err IntegrityError).
Proof.
  intros Hreach blocked Hr Hpre Ho Hk Hb Hne Hbk. apply reachable_ok in Hreach as Hs.
  unfold _dispatch_ready_commands. cbv zeta. fold blocked. rewrite Hpre.
  assert (Hpre' : _has_ready_queued_command s now0 false = true).
  { unfold _has_ready_queued_command in *. apply existsb_exists in Hpre as (x & Hx & Hrdy).
    apply existsb_exists. exists x. split; [done|]. unfold ready in *.
    rewrite !andb_true_iff in *. cbn. tauto. }
  rewrite Hpre', andb_false_r.
  set (s1 := set_commands (expire_queued now (commands s)) s) in *.
  assert (Hs1 : store_ok false py_repr s1) by by apply expire_queued_ok.
  destruct (dispatch_loop py_repr now s1 (ready_rows s1 now blocked limit)) as [s2|e] eqn:E;
    [|by apply dispatch_loop_err in E as ->].
  exfalso. apply (dispatch_loop_ok false) in E as (Hs2 & Hafter & _ & He);
    [|done|by eapply ready_rows_NoDup|].
  2: { intros r' Hr'. apply (dispatch_rows_ready false py_repr) in Hr'; naive_solver. }
  specialize (Hafter r Hr). pose proof (so_agree _ _ _ Hs2 _ _ Hafter Ho) as Ha.
  unfold handed in Ha. rewrite Ho in Ha. cbn [gc_status set_dispatched set_status] in Ha.
  destruct (boundaries s2 !! gc_command_id r) as [br|] eqn:Hbr; [|done].
  pose proof (so_keys _ _ _ Hs2 _ _ Hafter br Hbr) as Hkr.
  destruct (He _ _ Hb) as (b' & Hb' & Hadv). apply (adv_key _ _ Hadv) in Hbk.
  apply Hne. eapply (to_unique _ (so_table _ _ _ Hs2)); [done|exact Hbr|done|].
  by rewrite Hkr.
Qed.

(** ** Sample histories *)

Definition sample_gate : RoutingGate := boundary_gate no_resolutions.
Definition sample_hash : payload -> string := fun _ => "hash".

Definition sample_metadata (key : string) : json :=
  JObj [("live_sim_only", JBool true); ("live_real_allowed", JBool false);
        ("live_sim_intent_id", JStr "intent-1"); ("idempotency_key", JStr key)].

Definition buy_payload (key : string) : payload :=
  [("mode", JStr "LIVE_SIM"); ("live_mode", JStr "LIVE_SIM"); ("idempotency_key", JStr key);
   ("account_mode", JStr "SIMULATION"); ("broker_env", JStr "SIMULATION");
   ("server_mode", JStr "MOCK"); ("side", JStr "BUY"); ("code", JStr "005930");
   ("metadata", sample_metadata key)].

Definition buy (cid key : string) (at' : Z) : GatewayCommand :=
  {| command_type := "send_order"; source := "live_sim"; payload_of := buy_payload key;
     command_id := cid; ts := seconds at'; idempotency_key := Some key |}.

Definition request (cid ctype : string) (at' : Z) : GatewayCommand :=
  {| command_type := ctype; source := "core"; payload_of := []; command_id := cid;
     ts := seconds at'; idempotency_key := None |}.

Definition try_at (t : Z) : attempt :=
  {| at_lock := NotLocked; at_expire := seconds t; at_health := seconds t;
     at_precheck := seconds t; at_begin := seconds t; at_monotonic := 0 |}.

Definition enqueue_at (c : GatewayCommand) (e : option Z) (t : Z) : operation :=
  OpEnqueue c (seconds <$> e) (seconds t) (seconds t).
Definition poll_at (t : Z) : operation := OpPoll 20 0 0 [try_at t].
Definition event_at (cid event_type : string) (p : payload) (t : Z) : operation :=
  OpEvent cid event_type p None (Some (seconds t)) (seconds t) (seconds t).

Definition run (os : list operation) : store :=
  @run_ops sample_repr sample_hash sample_gate empty_store os.
Definition poll (s : store) (t : Z) : store * option (res (list GatewayCommand)) :=
  @poll_commands sample_repr sample_gate s 20 0 0 [try_at t].
Definition polled_ids (r : store * option (res (list GatewayCommand))) : option (list string) :=
  match r.2 with Some (Ok cs) => Some (map command_id cs) | _ => None end.

Definition status_at (s : store) (cid : string) : option GS.t := gc_status <$> commands s !! cid.
Definition state_at (s : store) (cid : string) : option BS.t := b_state <$> boundaries s !! cid.

Lemma run_reachable os :
  forallb (fun o => match o with OpEnqueue c _ _ _ =>
             match GatewayCommand_post_init c with Ok c' => bool_decide (command_id c' = command_id c /\
               command_type c' = command_type c /\ source c' = source c /\
               idempotency_key c' = idempotency_key c) | Err _ => false end
           | _ => true end) os = true ->
  @reachable sample_repr sample_hash sample_gate (run os) /\ Forall op_ok os.
Proof.
  intros H. assert (Hos : Forall op_ok os).
  { apply list.Forall_forall. intros o Ho. rewrite forallb_forall in H.
    specialize (H o (proj1 (list_elem_of_In _ _) Ho)). destruct o as [c e n n'| | | |]; try done.
    cbn [op_ok]. destruct (GatewayCommand_post_init c) as [c'|] eqn:E; [|done].
    apply bool_decide_eq_true in H as (H1 & H2 & H3 & H4). f_equal.
    assert (Hp : payload_of c' = payload_of c /\ ts c' = ts c).
    { unfold GatewayCommand_post_init in E. res_inv E. by injection E as <-. }
    destruct Hp, c, c'. cbn in *. congruence. }
  split; [|done]. by exists os.
Qed.

(** An order that was started, acknowledged and then reported rate limited. *)
Definition accepted_ops : list operation :=
  [enqueue_at (buy "cmd-1" "key-1" 1000) (Some 2000) 1000; poll_at 1001;
   event_at "cmd-1" "command_started" [] 1002; event_at "cmd-1" "order_pre_ack" [] 1003;
   event_at "cmd-1" "command_ack" [] 1004].
Definition late_ops : list operation :=
  [event_at "cmd-1" "rate_limited" [] 1005; event_at "cmd-1" "command_failed" [] 1006;
   event_at "cmd-1" "rate_limited" [] 1007;
   enqueue_at (request "cmd-2" "request_tr" 1007) None 1007].

Example accepted_run :
  polled_ids (poll (run [enqueue_at (buy "cmd-1" "key-1" 1000) (Some 2000) 1000]) 1001)
    = Some ["cmd-1"] /\
  status_at (run accepted_ops) "cmd-1" = Some GS.BROKER_ACCEPTED /\
  state_at (run accepted_ops) "cmd-1" = Some BS.BROKER_ACCEPTED /\
  polled_ids (poll (run (accepted_ops ++ late_ops)) 1010) = Some ["cmd-2"].
Proof. vm_compute. done. Qed.

Lemma polled_eq (r : store * option (res (list GatewayCommand))) cs :
  r.2 = Some (Ok cs) -> r = (r.1, Some (Ok cs)).
Proof. destruct r as [s o]. cbn. congruence. Qed.

Lemma state_accepted s cid :
  match state_at s cid with Some st => bool_decide (st ∈ accepted_states) | None => false end = true ->
  broker_accepted s cid.
Proof.
  unfold state_at, broker_accepted. destruct (boundaries s !! cid) as [b|]; cbn; [|done].
  intros H%bool_decide_eq_true. eauto.
Qed.

Definition request_2 : GatewayCommand := request "cmd-2" "request_tr" 1007.

Lemma late_poll : (poll (run (accepted_ops ++ late_ops)) 1010).2 = Some (Ok [request_2]).
Proof. vm_compute. reflexivity. Qed.

Lemma accepted_reachable :
  @reachable sample_repr sample_hash sample_gate (run accepted_ops).
Proof. apply run_reachable. vm_compute. reflexivity. Qed.

Lemma accepted_accepted : broker_accepted (run accepted_ops) "cmd-1".
Proof. apply state_accepted. vm_compute. reflexivity. Qed.

Lemma late_ok : Forall op_ok late_ops.
Proof. apply run_reachable. vm_compute. reflexivity. Qed.

Lemma late_split :
  @run_ops sample_repr sample_hash sample_gate (run accepted_ops) late_ops =
  run (accepted_ops ++ late_ops).
Proof. vm_compute. reflexivity. Qed.

Lemma accepted_order_never_redispatched_witness : "cmd-1" ∉ map command_id [request_2].
Proof.
  refine (accepted_order_never_redispatched sample_repr sample_hash sample_gate
    (run accepted_ops) "cmd-1" late_ops 20 0 0 [try_at 1010]
    (poll (run (accepted_ops ++ late_ops)) 1010).1 [request_2]
    accepted_reachable accepted_accepted late_ok _).
  rewrite late_split. exact (polled_eq _ _ late_poll).
Defined.

Definition first_ops : list operation :=
  [enqueue_at (buy "cmd-1" "key-1" 1000) (Some 2000) 1000;
   enqueue_at (request "cmd-2" "request_tr" 990) None 1000;
   enqueue_at (request "cmd-3" "heartbeat_request" 999) None 1000].

Lemma first_reachable : @reachable sample_repr sample_hash sample_gate (run first_ops).
Proof. apply run_reachable. vm_compute. reflexivity. Qed.

(** The order, with its expiry, as the gateway receives it. *)
Definition buy_received : GatewayCommand :=
  {| command_type := "send_order"; source := "live_sim";
     payload_of := buy_payload "key-1" ++
       [("_gateway_command_expires_at", JStr "1970-01-01T00:33:20Z")];
     command_id := "cmd-1"; ts := seconds 1000; idempotency_key := Some "key-1" |}.

Lemma first_poll :
  (poll (run first_ops) 1001).2 =
  Some (Ok [buy_received; request "cmd-3" "heartbeat_request" 999; request "cmd-2" "request_tr" 990]).
Proof. vm_compute. reflexivity. Qed.

Lemma polled_commands_revalidate_witness :
  validate_command_type_allowed sample_repr "send_order" (Some buy_received) = None /\
  "send_order" ∈ storable_types /\ ("send_order" = "send_order" -> simulation_order sample_repr buy_received).
Proof.
  refine (polled_commands_revalidate sample_repr sample_hash sample_gate
    (run first_ops) 20 0 0 [try_at 1001] (poll (run first_ops) 1001).1 _ buy_received
    first_reachable (polled_eq _ _ first_poll) _).
  apply elem_of_cons. by left.
Defined.

Definition first_dispatch : store * res (list GatewayCommand) :=
  @_dispatch_ready_commands sample_repr sample_gate (run first_ops) 2
    (seconds 1001) (seconds 1001).

Lemma first_dispatch_run :
  first_dispatch.2 = Ok [buy_received; request "cmd-3" "heartbeat_request" 999].
Proof. vm_compute. reflexivity. Qed.

Lemma dispatch_exact_witness :
  exists rs, [buy_received; request "cmd-3" "heartbeat_request" 999] =
    map handed_command rs /\ Z.of_nat (length rs) <= 2.
Proof.
  destruct (dispatch_exact sample_repr sample_hash sample_gate (run first_ops) 2
    (seconds 1001) (seconds 1001) first_dispatch.1
    [buy_received; request "cmd-3" "heartbeat_request" 999] first_reachable ltac:(lia)
    ltac:(rewrite <- first_dispatch_run; apply surjective_pairing) ltac:(discriminate 1))
    as (rs & H & Hl & _).
  exists rs. split; [exact H|exact Hl].
Defined.

(** The key stays taken after the order failed. *)
Definition between_ops : list operation :=
  [poll_at 1001; event_at "cmd-1" "command_started" [] 1002;
   event_at "cmd-1" "command_failed" [] 1003].

Definition first_enqueue : store * EnqueueCommandResult :=
  enqueue_command sample_repr sample_hash empty_store (buy "cmd-1" "key-1" 1000)
    (Some (seconds 2000)) (seconds 1000) (seconds 1000).

Lemma key_admits_one_command_witness :
  er_accepted (enqueue_command sample_repr sample_hash
    (@run_ops sample_repr sample_hash sample_gate first_enqueue.1 between_ops)
    (buy "cmd-9" "key-1" 1004) None (seconds 1004) (seconds 1004)).2 = false.
Proof.
  refine (proj1 (key_admits_one_command sample_repr sample_hash sample_gate
    empty_store (buy "cmd-1" "key-1" 1000) (Some (seconds 2000)) (seconds 1000) (seconds 1000)
    "key-1" between_ops (buy "cmd-9" "key-1" 1004) None (seconds 1004) (seconds 1004)
    _ eq_refl _ _ eq_refl)).
  - vm_compute. reflexivity.
  - repeat constructor.
  - reflexivity.
Defined.

(** A second attempt at the deadline, after a locked database. *)
Definition locked_then_free : list attempt :=
  [{| at_lock := LockedAtExpiry; at_expire := 0; at_health := 0; at_precheck := 0;
      at_begin := 0; at_monotonic := 0 |};
   {| at_lock := NotLocked; at_expire := seconds 1; at_health := seconds 1;
      at_precheck := seconds 1; at_begin := seconds 1; at_monotonic := seconds 1 |}].

Lemma poll_returns_witness :
  exists s' r, @poll_commands sample_repr sample_gate empty_store 20 (seconds 1) 0
    locked_then_free = (s', Some r).
Proof.
  destruct (poll_returns sample_repr sample_gate empty_store 20 (seconds 1) 0
    locked_then_free {| at_lock := NotLocked; at_expire := seconds 1; at_health := seconds 1;
      at_precheck := seconds 1; at_begin := seconds 1; at_monotonic := seconds 1 |})
    as (s' & r & H & _).
  - apply elem_of_cons. right. apply elem_of_cons. by left.
  - vm_compute. discriminate 1.
  - exists s', r. exact H.
Defined.

Lemma accepted_strict : Forall op_strict accepted_ops.
Proof. repeat constructor. Qed.

Lemma accepted_ops_ok : Forall op_ok accepted_ops.
Proof. apply run_reachable. vm_compute. reflexivity. Qed.

Lemma accepted_boundary : is_Some (boundaries (run accepted_ops) !! "cmd-1").
Proof. destruct accepted_accepted as (b & Hb & _). by exists b. Qed.

Lemma run_unfold os :
  run os = @run_ops sample_repr sample_hash sample_gate empty_store os.
Proof. unfold run. reflexivity. Qed.

Lemma no_mismatch_without_rate_limit_witness :
  exists b, boundaries (run accepted_ops) !! "cmd-1" = Some b /\
    command_state_mismatch (commands (run accepted_ops)) b = false.
Proof.
  destruct accepted_boundary as [b Hb]. exists b. split; [exact Hb|].
  exact (proj1 (no_mismatch_without_rate_limit sample_repr sample_hash sample_gate
    accepted_ops (run accepted_ops) accepted_ops_ok accepted_strict (run_unfold accepted_ops)
    "cmd-1" b Hb)).
Defined.

(** A claimed order that is never heard of again. *)
Definition claimed_ops : list operation :=
  [enqueue_at (buy "cmd-1" "key-1" 1000) (Some 2000) 1000; poll_at 1001].

Lemma claimed_reachable :
  @reachable sample_repr sample_hash sample_gate (run claimed_ops).
Proof. apply run_reachable. vm_compute. reflexivity. Qed.

Lemma claimed_row :
  match commands (run claimed_ops) !! "cmd-1" with
  | Some c => order_row c && stale_order (seconds 1200 - seconds (Z.max 120 1)) c
  | None => false
  end = true.
Proof. vm_compute. reflexivity. Qed.

Lemma stale_orders_unconfirmed_witness :
  exists s' n c', expire_stale_gateway_commands sample_repr (run claimed_ops) 120
      (seconds 1200) (seconds 1200) = Ok (s', n) /\
    commands s' !! "cmd-1" = Some c' /\ gc_status c' = GS.UNCONFIRMED.
Proof.
  pose proof claimed_row as H. destruct (commands (run claimed_ops) !! "cmd-1") as [c|] eqn:Hc;
    [|discriminate H].
  apply andb_true_iff in H as [Ho Hst].
  destruct (stale_orders_unconfirmed sample_repr sample_hash sample_gate
    (run claimed_ops) 120 (seconds 1200) (seconds 1200) "cmd-1" c claimed_reachable Hc Ho)
    as (s' & n & c' & He & Hc' & H).
  cbv zeta in H. rewrite Hst in H. exists s', n, c'.
  split; [exact He|]. split; [exact Hc'|]. exact (proj1 H).
Defined.

(** An order the broker rejected: it failed, and a late rate-limited report
    makes the next poll hand it out a second time. *)
Definition rejected_ops : list operation :=
  claimed_ops ++ [event_at "cmd-1" "command_started" [] 1002;
    event_at "cmd-1" "order_pre_ack" [] 1003;
    event_at "cmd-1" "command_failed" [("message", JStr "rejected")] 1004].

Example rejected_order_resent :
  status_at (run rejected_ops) "cmd-1" = Some GS.FAILED /\
  polled_ids (poll (run rejected_ops) 1010) = Some [] /\
  polled_ids (poll (run (rejected_ops ++ [event_at "cmd-1" "rate_limited" [] 1005])) 1010)
    = Some ["cmd-1"].
Proof. vm_compute. done. Qed.

Definition rejected_row : command_row :=
  match commands (run rejected_ops) !! "cmd-1" with Some c => c | None => sample_order_row end.

Lemma rejected_row_eq : commands (run rejected_ops) !! "cmd-1" = Some rejected_row.
Proof. vm_compute. reflexivity. Qed.

Lemma rejected_requeue : exists s' st,
  record_command_event sample_repr (run rejected_ops) "cmd-1" "rate_limited" [] None
    (Some (seconds 1005)) (seconds 1005) (seconds 1005) = Ok (s', st).
Proof. do 2 eexists. vm_compute. reflexivity. Qed.

Lemma rejected_failed : gc_status rejected_row = GS.FAILED.
Proof. vm_compute. reflexivity. Qed.

Lemma rate_limited_requeues_witness :
  exists s' st c', record_command_event sample_repr (run rejected_ops) "cmd-1" "rate_limited" []
      None (Some (seconds 1005)) (seconds 1005) (seconds 1005) = Ok (s', st) /\
    gc_status rejected_row = GS.FAILED /\
    commands s' !! "cmd-1" = Some c' /\ gc_status c' = GS.QUEUED.
Proof.
  destruct rejected_requeue as (s' & st & H).
  pose proof (rate_limited_requeues sample_repr (run rejected_ops) "cmd-1" rejected_row
    "rate_limited" [] None (Some (seconds 1005)) (seconds 1005) (seconds 1005) s' st
    rejected_row_eq eq_refl H) as Hreq.
  rewrite rejected_failed, andb_false_r in Hreq. destruct Hreq as (c' & Hc' & Hq & _).
  exists s', st, c'.
  split; [exact H|]. split; [exact rejected_failed|]. split; [exact Hc'|exact Hq].
Defined.

(** An order rate limited after it was started: claimed again, its status says
    CLAIMED while its boundary still says GATEWAY_STARTED; the mismatch blocks
    every other new order until the gateway reports the start. *)
Definition reclaimed_ops : list operation :=
  claimed_ops ++ [event_at "cmd-1" "command_started" [] 1002;
    event_at "cmd-1" "rate_limited" [] 1003; poll_at 1010;
    enqueue_at (buy "cmd-2" "key-2" 1011) None 1011].

Example rate_limited_order_blocks_routing :
  status_at (run reclaimed_ops) "cmd-1" = Some GS.CLAIMED /\
  state_at (run reclaimed_ops) "cmd-1" = Some BS.GATEWAY_STARTED /\
  reason_codes (get_order_broker_boundary_status (ledger := no_resolutions)
    (commands (run reclaimed_ops)) (boundaries (run reclaimed_ops)))
    = ["ORDER_COMMAND_BOUNDARY_STATE_MISMATCH"] /\
  polled_ids (poll (run reclaimed_ops) 1012) = Some [] /\
  polled_ids (poll (run (reclaimed_ops ++ [event_at "cmd-1" "command_started" [] 1012])) 1013)
    = Some ["cmd-2"].
Proof. vm_compute. done. Qed.

(** A whole second sorts after its fractions: at 1005.9 a command that expired
    at 1005 is still handed out. *)
Example expired_command_dispatched :
  let s := run [enqueue_at (buy "cmd-1" "key-1" 1000) (Some 1005) 1000] in
  let late := 1005900000 in
  polled_ids (@poll_commands sample_repr sample_gate s 20 0 0
    [{| at_lock := NotLocked; at_expire := late; at_health := late; at_precheck := late;
        at_begin := late; at_monotonic := 0 |}]) = Some ["cmd-1"] /\ seconds 1005 < late.
Proof. vm_compute. done. Qed.

(** A start report that arrives after the acknowledgement reopens a command
    that is not an order, and the timeout then fails it. *)
Example late_start_fails_acked_command :
  let os := [enqueue_at (request "cmd-1" "request_tr" 1000) None 1000; poll_at 1001;
             event_at "cmd-1" "command_ack" [] 1002;
             event_at "cmd-1" "command_started" [] 1003] in
  status_at (run os) "cmd-1" = Some GS.DISPATCHED /\
  status_at (run (os ++ [poll_at 1200])) "cmd-1" = Some GS.FAILED.
Proof. vm_compute. done. Qed.

(** A second order under a key whose retention ended: accepted, and then every
    poll raises, also for the commands due with it. *)
Definition reused_ops : list operation :=
  [enqueue_at (buy "cmd-1" "key-1" 1000) (Some 1005) 1000; poll_at 1001;
   event_at "cmd-1" "command_started" [] 1002; event_at "cmd-1" "order_pre_ack" [] 1002;
   event_at "cmd-1" "command_ack" [] 1003;
   enqueue_at (buy "cmd-2" "key-1" 1010) None 1010;
   enqueue_at (request "cmd-3" "request_tr" 1010) None 1010].

Lemma reused_reachable :
  @reachable sample_repr sample_hash sample_gate (run reused_ops).
Proof. apply run_reachable. vm_compute. reflexivity. Qed.

Definition reused_row : command_row :=
  queued_row (buy "cmd-2" "key-1" 1010) "send_order" None.

Lemma reused_ready :
  take 1 (ready_rows (set_commands (expire_queued (seconds 1011) (commands (run reused_ops)))
    (run reused_ops)) (seconds 1011)
    (@order_routing_blocked sample_gate (commands (run reused_ops)) (boundaries (run reused_ops)))
    20) = [reused_row].
Proof. vm_compute. reflexivity. Qed.

Lemma reused_pre :
  _has_ready_queued_command (run reused_ops) (seconds 1011)
    (@order_routing_blocked sample_gate (commands (run reused_ops)) (boundaries (run reused_ops)))
  = true.
Proof. vm_compute. reflexivity. Qed.

Lemma reused_boundary : exists b, boundaries (run reused_ops) !! "cmd-1" = Some b /\
  b_idempotency_key b = Some "key-1".
Proof. eexists. split; vm_compute; reflexivity. Qed.

Lemma reused_key_stops_dispatch_witness :
  @_dispatch_ready_commands sample_repr sample_gate (run reused_ops) 20
    (seconds 1011) (seconds 1011) = (run reused_ops, Err IntegrityError).
Proof.
  destruct reused_boundary as (b & Hb & Hk).
  refine (reused_key_stops_dispatch sample_repr sample_hash sample_gate
    (run reused_ops) 20 (seconds 1011) (seconds 1011) reused_row "cmd-1" b "key-1"
    reused_reachable _ reused_pre eq_refl eq_refl Hb _ Hk).
  - apply (elem_of_take_in 1). rewrite reused_ready. apply elem_of_cons. by left.
  - discriminate 1.
Defined.
