(* ===== verification/LiveSimModels.v ===== *)
(** * Live-sim records ([domain/live_sim/models.py], [status.py])

    The contract objects of the simulated-order lifecycle: statuses, sides and
    order types with their parsers, the constructors of an intent, an order, an
    execution, an eligibility result and a reconcile snapshot with the
    validation of [__post_init__], and the mapping forms [to_dict] and
    [from_dict].  A constructor takes the arguments as the JSON values callers
    pass; a datetime argument is a [moment]. *)
From S2P Require Import Prelude PyFloat BrokerUtils WireTime.
Local Open Scope Z_scope.

(** ** Enumerations *)

Module LiveSimOrderStatus.
Inductive t :=
| INTENT_CREATED | COMMAND_QUEUED | COMMAND_DISPATCHED | BROKER_ACKED | BROKER_REJECTED
| PARTIALLY_FILLED | FILLED | CANCEL_REQUESTED | CANCEL_COMMAND_QUEUED | CANCEL_ACKED
| CANCEL_REJECTED | EXIT_REQUESTED | EXIT_COMMAND_QUEUED | EXIT_FILLED | CANCELLED | FAILED
| EXPIRED | ORDER_EXPIRED | RECONCILE_MISMATCH.
#[export] Instance eq_dec : EqDecision t.
Proof. solve_decision. Defined.

Definition value (s : t) : string :=
  match s with
  | INTENT_CREATED => "INTENT_CREATED" | COMMAND_QUEUED => "COMMAND_QUEUED"
  | COMMAND_DISPATCHED => "COMMAND_DISPATCHED" | BROKER_ACKED => "BROKER_ACKED"
  | BROKER_REJECTED => "BROKER_REJECTED" | PARTIALLY_FILLED => "PARTIALLY_FILLED"
  | FILLED => "FILLED" | CANCEL_REQUESTED => "CANCEL_REQUESTED"
  | CANCEL_COMMAND_QUEUED => "CANCEL_COMMAND_QUEUED" | CANCEL_ACKED => "CANCEL_ACKED"
  | CANCEL_REJECTED => "CANCEL_REJECTED" | EXIT_REQUESTED => "EXIT_REQUESTED"
  | EXIT_COMMAND_QUEUED => "EXIT_COMMAND_QUEUED" | EXIT_FILLED => "EXIT_FILLED"
  | CANCELLED => "CANCELLED" | FAILED => "FAILED" | EXPIRED => "EXPIRED"
  | ORDER_EXPIRED => "ORDER_EXPIRED" | RECONCILE_MISMATCH => "RECONCILE_MISMATCH"
  end.
Definition all : list t :=
  [INTENT_CREATED; COMMAND_QUEUED; COMMAND_DISPATCHED; BROKER_ACKED; BROKER_REJECTED;
   PARTIALLY_FILLED; FILLED; CANCEL_REQUESTED; CANCEL_COMMAND_QUEUED; CANCEL_ACKED;
   CANCEL_REJECTED; EXIT_REQUESTED; EXIT_COMMAND_QUEUED; EXIT_FILLED; CANCELLED; FAILED;
   EXPIRED; ORDER_EXPIRED; RECONCILE_MISMATCH].
End LiveSimOrderStatus.
#[export] Existing Instance LiveSimOrderStatus.eq_dec.

Module LiveSimIntentStatus.
Inductive t := CREATED | REJECTED | COMMAND_QUEUED | EXPIRED | CANCELLED.
#[export] Instance eq_dec : EqDecision t.
Proof. solve_decision. Defined.
Definition value (s : t) : string :=
  match s with
  | CREATED => "CREATED" | REJECTED => "REJECTED" | COMMAND_QUEUED => "COMMAND_QUEUED"
  | EXPIRED => "EXPIRED" | CANCELLED => "CANCELLED"
  end.
Definition all : list t := [CREATED; REJECTED; COMMAND_QUEUED; EXPIRED; CANCELLED].
End LiveSimIntentStatus.
#[export] Existing Instance LiveSimIntentStatus.eq_dec.

Module LiveSimSide.
Inductive t := BUY | SELL.
#[export] Instance eq_dec : EqDecision t.
Proof. solve_decision. Defined.
Definition value (s : t) : string := match s with BUY => "BUY" | SELL => "SELL" end.
Definition all : list t := [BUY; SELL].
End LiveSimSide.
#[export] Existing Instance LiveSimSide.eq_dec.

Module LiveSimOrderType.
Inductive t := LIMIT | MARKET.
#[export] Instance eq_dec : EqDecision t.
Proof. solve_decision. Defined.
Definition value (s : t) : string := match s with LIMIT => "LIMIT" | MARKET => "MARKET" end.
Definition all : list t := [LIMIT; MARKET].
End LiveSimOrderType.
#[export] Existing Instance LiveSimOrderType.eq_dec.

(** The members of a [StrEnum] whose names are its values. *)
Definition members {A} (value : A -> string) (all : list A) : list (string * string * A) :=
  map (fun a => (value a, value a, a)) all.

(** ** Argument values *)

(** A timestamp argument: a datetime, or a value to parse. *)
Inductive stamp :=
| moment (t : Z)
| text (v : json).

Definition stamp_value (s : stamp) (field_name : string) : res Z :=
  match s with moment t => Ok t | text v => parse_timestamp v field_name end.

(** [v] unless it is [None]; a missing key of a mapping reads as [None]. *)
Definition unless_none {A} (check : json -> res A) (v : json) : res (option A) :=
  match v with JNull => Ok None | _ => let* a := check v in Ok (Some a) end.

Definition stamp_unless_none (s : stamp) (field_name : string) : res (option Z) :=
  match s with
  | text JNull => Ok None
  | _ => let* t := stamp_value s field_name in Ok (Some t)
  end.

(** [_reason_value] and [tuple(_reason_value(r) for r in reasons)]. *)
Definition _reason_value (reason : json) : res string :=
  let* s := require_non_empty_str reason "reason_code" in Ok (py_upper s).

Fixpoint reason_tuple_of (rs : list json) : res (list string) :=
  match rs with
  | [] => Ok []
  | r :: rs' => let* x := _reason_value r in let* xs := reason_tuple_of rs' in Ok (x :: xs)
  end.

Definition reason_tuple (reasons : json) : res (list string) :=
  let* rs := json_iter reasons in reason_tuple_of rs.

Definition non_negative_int (v : json) (field_name : string) : res Z :=
  parse_int v field_name (Some 0).
Definition non_negative_float (v : json) (field_name : string) : res float :=
  parse_float v field_name (Some f_zero).

Definition parse_side (v : json) : res LiveSimSide.t :=
  parse_str_enum (members LiveSimSide.value LiveSimSide.all) v "side".
Definition parse_order_type (v : json) : res LiveSimOrderType.t :=
  parse_str_enum (members LiveSimOrderType.value LiveSimOrderType.all) v "order_type".
Definition parse_intent_status (v : json) : res LiveSimIntentStatus.t :=
  parse_str_enum (members LiveSimIntentStatus.value LiveSimIntentStatus.all) v "status".
Definition parse_order_status (v : json) : res LiveSimOrderStatus.t :=
  parse_str_enum (members LiveSimOrderStatus.value LiveSimOrderStatus.all) v "status".

(** ** Mapping values *)

Definition opt_str (v : option string) : json :=
  match v with Some s => JStr s | None => JNull end.
Definition opt_float (v : option float) : json :=
  match v with Some x => JFloat x | None => JNull end.

(** [_optional_wire]. *)
Definition _optional_wire (v : option Z) : json :=
  match v with Some t => JStr (datetime_to_wire t) | None => JNull end.

(** [normalize_payload(dict(v))]: values are JSON values already. *)
Definition payload_dict (v : json) : res json :=
  match v with JObj fs => Ok (JObj fs) | _ => Err (OtherError "TypeError") end.

(** ** Intents *)

(** The keyword arguments of [LiveSimIntent(...)] that [__post_init__] does not
    overwrite. *)
Record LiveSimIntentArgs := {
  ia_live_sim_intent_id : json;
  ia_candidate_instance_id : json;
  ia_strategy_observation_id : json;
  ia_risk_observation_id : json;
  ia_trade_date : json;
  ia_account_id : json;
  ia_code : json;
  ia_name : json;
  ia_order_plan_id : json;
  ia_side : json;
  ia_order_type : json;
  ia_quantity : json;
  ia_limit_price : json;
  ia_notional : json;
  ia_status : json;
  ia_reason_codes : json;
  ia_evidence_json : json;
  ia_idempotency_key : json;
  ia_dry_run_intent_id : json;
  ia_dry_run_order_id : json;
  ia_created_at : stamp;
  ia_expires_at : stamp;
  ia_gateway_command_id : json;
  ia_broker_order_sent : json
}.

Record LiveSimIntent := {
  li_live_sim_intent_id : string;
  li_candidate_instance_id : string;
  li_strategy_observation_id : option string;
  li_risk_observation_id : option string;
  li_trade_date : string;
  li_account_id : string;
  li_code : string;
  li_name : string;
  li_order_plan_id : option string;
  li_side : LiveSimSide.t;
  li_order_type : LiveSimOrderType.t;
  li_quantity : Z;
  li_limit_price : option float;
  li_notional : float;
  li_status : LiveSimIntentStatus.t;
  li_reason_codes : list string;
  li_evidence_json : json;
  li_idempotency_key : string;
  li_dry_run_intent_id : option string;
  li_dry_run_order_id : option string;
  li_created_at : option Z;
  li_expires_at : option Z;
  li_gateway_command_id : option string;
  li_live_sim_only : bool;
  li_live_real_allowed : bool;
  li_broker_order_sent : bool
}.

Definition LiveSimIntent_post_init (a : LiveSimIntentArgs) : res LiveSimIntent :=
  let* intent_id := require_non_empty_str (ia_live_sim_intent_id a) "live_sim_intent_id" in
  let* candidate := require_non_empty_str (ia_candidate_instance_id a) "candidate_instance_id" in
  let* trade_date := require_non_empty_str (ia_trade_date a) "trade_date" in
  let* account := require_non_empty_str (ia_account_id a) "account_id" in
  let* name := require_non_empty_str (ia_name a) "name" in
  let* strategy :=
    optional_non_empty_str (ia_strategy_observation_id a) "strategy_observation_id" in
  let* risk := optional_non_empty_str (ia_risk_observation_id a) "risk_observation_id" in
  let* code := validate_stock_code (ia_code a) "code" in
  let* side := parse_side (ia_side a) in
  let* order_type := parse_order_type (ia_order_type a) in
  let* quantity := non_negative_int (ia_quantity a) "quantity" in
  let* limit_price :=
    unless_none (fun v => non_negative_float v "limit_price") (ia_limit_price a) in
  let* notional := non_negative_float (ia_notional a) "notional" in
  let* status := parse_intent_status (ia_status a) in
  let* reason_codes := reason_tuple (ia_reason_codes a) in
  let* key := require_non_empty_str (ia_idempotency_key a) "idempotency_key" in
  let* plan := optional_non_empty_str (ia_order_plan_id a) "order_plan_id" in
  let* dry_intent := optional_non_empty_str (ia_dry_run_intent_id a) "dry_run_intent_id" in
  let* dry_order := optional_non_empty_str (ia_dry_run_order_id a) "dry_run_order_id" in
  let* command := optional_non_empty_str (ia_gateway_command_id a) "gateway_command_id" in
  let* created_at := stamp_unless_none (ia_created_at a) "created_at" in
  let* expires_at := stamp_unless_none (ia_expires_at a) "expires_at" in
  let* sent := parse_bool (ia_broker_order_sent a) "broker_order_sent" in
  Ok {| li_live_sim_intent_id := intent_id; li_candidate_instance_id := candidate;
        li_strategy_observation_id := strategy; li_risk_observation_id := risk;
        li_trade_date := trade_date; li_account_id := account; li_code := code;
        li_name := name; li_order_plan_id := plan; li_side := side;
        li_order_type := order_type; li_quantity := quantity; li_limit_price := limit_price;
        li_notional := notional; li_status := status; li_reason_codes := reason_codes;
        li_evidence_json := ia_evidence_json a; li_idempotency_key := key;
        li_dry_run_intent_id := dry_intent; li_dry_run_order_id := dry_order;
        li_created_at := created_at; li_expires_at := expires_at;
        li_gateway_command_id := command; li_live_sim_only := true;
        li_live_real_allowed := false; li_broker_order_sent := sent |}.

Definition LiveSimIntent_to_dict (x : LiveSimIntent) : res (list (string * json)) :=
  let* evidence := payload_dict (li_evidence_json x) in
  Ok [("live_sim_intent_id", JStr (li_live_sim_intent_id x));
      ("candidate_instance_id", JStr (li_candidate_instance_id x));
      ("strategy_observation_id", opt_str (li_strategy_observation_id x));
      ("risk_observation_id", opt_str (li_risk_observation_id x));
      ("order_plan_id", opt_str (li_order_plan_id x));
      ("dry_run_intent_id", opt_str (li_dry_run_intent_id x));
      ("dry_run_order_id", opt_str (li_dry_run_order_id x));
      ("trade_date", JStr (li_trade_date x));
      ("account_id", JStr (li_account_id x));
      ("code", JStr (li_code x));
      ("name", JStr (li_name x));
      ("side", JStr (LiveSimSide.value (li_side x)));
      ("order_type", JStr (LiveSimOrderType.value (li_order_type x)));
      ("quantity", JInt (li_quantity x));
      ("limit_price", opt_float (li_limit_price x));
      ("notional", JFloat (li_notional x));
      ("status", JStr (LiveSimIntentStatus.value (li_status x)));
      ("reason_codes", JList (map JStr (li_reason_codes x)));
      ("evidence_json", evidence);
      ("idempotency_key", JStr (li_idempotency_key x));
      ("created_at", _optional_wire (li_created_at x));
      ("expires_at", _optional_wire (li_expires_at x));
      ("gateway_command_id", opt_str (li_gateway_command_id x));
      ("live_sim_only", JBool true);
      ("live_real_allowed", JBool false);
      ("broker_order_sent", JBool (li_broker_order_sent x))].

(** [mapping[key]] and [mapping.get(key, default)]. *)
Definition item (mapping : list (string * json)) (key : string) : res json :=
  match jget key mapping with Some v => Ok v | None => Err (OtherError "KeyError") end.
Definition get_or (mapping : list (string * json)) (key : string) (default : json) : json :=
  match jget key mapping with Some v => v | None => default end.

Definition LiveSimIntent_from_dict (data : json) : res LiveSimIntent :=
  let* mapping := require_mapping data "LiveSimIntent" in
  let get := get_or mapping in
  let* intent_id := item mapping "live_sim_intent_id" in
  let* candidate := item mapping "candidate_instance_id" in
  let* trade_date := item mapping "trade_date" in
  let* account := item mapping "account_id" in
  let* code := item mapping "code" in
  let* name := item mapping "name" in
  let* key := item mapping "idempotency_key" in
  LiveSimIntent_post_init
    {| ia_live_sim_intent_id := intent_id; ia_candidate_instance_id := candidate;
       ia_strategy_observation_id := get "strategy_observation_id" JNull;
       ia_risk_observation_id := get "risk_observation_id" JNull;
       ia_trade_date := trade_date; ia_account_id := account; ia_code := code;
       ia_name := name; ia_order_plan_id := get "order_plan_id" JNull;
       ia_side := get "side" (JStr "BUY"); ia_order_type := get "order_type" (JStr "LIMIT");
       ia_quantity := get "quantity" (JInt 0); ia_limit_price := get "limit_price" JNull;
       ia_notional := get "notional" (JInt 0); ia_status := get "status" (JStr "CREATED");
       ia_reason_codes := get "reason_codes" (JList []);
       ia_evidence_json := get "evidence_json" (JObj []); ia_idempotency_key := key;
       ia_dry_run_intent_id := get "dry_run_intent_id" JNull;
       ia_dry_run_order_id := get "dry_run_order_id" JNull;
       ia_created_at := text (get "created_at" JNull);
       ia_expires_at := text (get "expires_at" JNull);
       ia_gateway_command_id := get "gateway_command_id" JNull;
       ia_broker_order_sent := get "broker_order_sent" (JBool false) |}.

(** ** Orders *)

Record LiveSimOrderArgs := {
  oa_live_sim_order_id : json;
  oa_live_sim_intent_id : json;
  oa_gateway_command_id : json;
  oa_account_id : json;
  oa_code : json;
  oa_name : json;
  oa_side : json;
  oa_order_type : json;
  oa_quantity : json;
  oa_limit_price : json;
  oa_notional : json;
  oa_status : json;
  oa_broker_order_no : json;
  oa_broker_result_code : json;
  oa_broker_message : json;
  oa_filled_quantity : json;
  oa_remaining_quantity : json;
  oa_avg_fill_price : json;
  oa_idempotency_key : json;
  oa_created_at : stamp;
  oa_command_queued_at : stamp;
  oa_command_dispatched_at : stamp;
  oa_broker_acked_at : stamp;
  oa_last_event_at : stamp
}.

Record LiveSimOrderRecord := {
  lo_live_sim_order_id : string;
  lo_live_sim_intent_id : string;
  lo_gateway_command_id : option string;
  lo_account_id : string;
  lo_code : string;
  lo_name : string;
  lo_side : LiveSimSide.t;
  lo_order_type : LiveSimOrderType.t;
  lo_quantity : Z;
  lo_limit_price : option float;
  lo_notional : float;
  lo_status : LiveSimOrderStatus.t;
  lo_broker_order_no : option string;
  lo_broker_result_code : option string;
  lo_broker_message : option string;
  lo_filled_quantity : Z;
  lo_remaining_quantity : Z;
  lo_avg_fill_price : option float;
  lo_idempotency_key : string;
  lo_created_at : option Z;
  lo_command_queued_at : option Z;
  lo_command_dispatched_at : option Z;
  lo_broker_acked_at : option Z;
  lo_last_event_at : option Z;
  lo_live_sim_only : bool;
  lo_live_real_allowed : bool
}.

Definition LiveSimOrderRecord_post_init (a : LiveSimOrderArgs) : res LiveSimOrderRecord :=
  let* order_id := require_non_empty_str (oa_live_sim_order_id a) "live_sim_order_id" in
  let* intent_id := require_non_empty_str (oa_live_sim_intent_id a) "live_sim_intent_id" in
  let* account := require_non_empty_str (oa_account_id a) "account_id" in
  let* name := require_non_empty_str (oa_name a) "name" in
  let* command := optional_non_empty_str (oa_gateway_command_id a) "gateway_command_id" in
  let* code := validate_stock_code (oa_code a) "code" in
  let* side := parse_side (oa_side a) in
  let* order_type := parse_order_type (oa_order_type a) in
  let* quantity := non_negative_int (oa_quantity a) "quantity" in
  let* limit_price :=
    unless_none (fun v => non_negative_float v "limit_price") (oa_limit_price a) in
  let* notional := non_negative_float (oa_notional a) "notional" in
  let* status := parse_order_status (oa_status a) in
  let* filled := non_negative_int (oa_filled_quantity a) "filled_quantity" in
  let* remaining := non_negative_int (oa_remaining_quantity a) "remaining_quantity" in
  let* avg :=
    unless_none (fun v => non_negative_float v "avg_fill_price") (oa_avg_fill_price a) in
  let* key := require_non_empty_str (oa_idempotency_key a) "idempotency_key" in
  let* order_no := optional_non_empty_str (oa_broker_order_no a) "broker_order_no" in
  let* result_code := optional_non_empty_str (oa_broker_result_code a) "broker_result_code" in
  let* message := optional_non_empty_str (oa_broker_message a) "broker_message" in
  let* created_at := stamp_unless_none (oa_created_at a) "created_at" in
  let* queued_at := stamp_unless_none (oa_command_queued_at a) "command_queued_at" in
  let* dispatched_at := stamp_unless_none (oa_command_dispatched_at a) "command_dispatched_at" in
  let* acked_at := stamp_unless_none (oa_broker_acked_at a) "broker_acked_at" in
  let* last_at := stamp_unless_none (oa_last_event_at a) "last_event_at" in
  Ok {| lo_live_sim_order_id := order_id; lo_live_sim_intent_id := intent_id;
        lo_gateway_command_id := command; lo_account_id := account; lo_code := code;
        lo_name := name; lo_side := side; lo_order_type := order_type;
        lo_quantity := quantity; lo_limit_price := limit_price; lo_notional := notional;
        lo_status := status; lo_broker_order_no := order_no;
        lo_broker_result_code := result_code; lo_broker_message := message;
        lo_filled_quantity := filled; lo_remaining_quantity := remaining;
        lo_avg_fill_price := avg; lo_idempotency_key := key; lo_created_at := created_at;
        lo_command_queued_at := queued_at; lo_command_dispatched_at := dispatched_at;
        lo_broker_acked_at := acked_at; lo_last_event_at := last_at;
        lo_live_sim_only := true; lo_live_real_allowed := false |}.

Definition LiveSimOrderRecord_to_dict (x : LiveSimOrderRecord) : list (string * json) :=
  [("live_sim_order_id", JStr (lo_live_sim_order_id x));
   ("live_sim_intent_id", JStr (lo_live_sim_intent_id x));
   ("gateway_command_id", opt_str (lo_gateway_command_id x));
   ("account_id", JStr (lo_account_id x));
   ("code", JStr (lo_code x));
   ("name", JStr (lo_name x));
   ("side", JStr (LiveSimSide.value (lo_side x)));
   ("order_type", JStr (LiveSimOrderType.value (lo_order_type x)));
   ("quantity", JInt (lo_quantity x));
   ("limit_price", opt_float (lo_limit_price x));
   ("notional", JFloat (lo_notional x));
   ("status", JStr (LiveSimOrderStatus.value (lo_status x)));
   ("broker_order_no", opt_str (lo_broker_order_no x));
   ("broker_result_code", opt_str (lo_broker_result_code x));
   ("broker_message", opt_str (lo_broker_message x));
   ("filled_quantity", JInt (lo_filled_quantity x));
   ("remaining_quantity", JInt (lo_remaining_quantity x));
   ("avg_fill_price", opt_float (lo_avg_fill_price x));
   ("created_at", _optional_wire (lo_created_at x));
   ("command_queued_at", _optional_wire (lo_command_queued_at x));
   ("command_dispatched_at", _optional_wire (lo_command_dispatched_at x));
   ("broker_acked_at", _optional_wire (lo_broker_acked_at x));
   ("last_event_at", _optional_wire (lo_last_event_at x));
   ("idempotency_key", JStr (lo_idempotency_key x));
   ("live_sim_only", JBool true);
   ("live_real_allowed", JBool false)].

(** ** Executions *)

Record LiveSimExecutionArgs := {
  ea_live_sim_execution_id : json;
  ea_live_sim_order_id : json;
  ea_live_sim_intent_id : json;
  ea_broker_order_no : json;
  ea_account_id : json;
  ea_code : json;
  ea_side : json;
  ea_quantity : json;
  ea_price : json;
  ea_notional : json;
  ea_executed_at : stamp;
  ea_raw_event_json : json
}.

Record LiveSimExecutionRecord := {
  le_live_sim_execution_id : string;
  le_live_sim_order_id : option string;
  le_live_sim_intent_id : option string;
  le_broker_order_no : option string;
  le_account_id : string;
  le_code : string;
  le_side : LiveSimSide.t;
  le_quantity : Z;
  le_price : float;
  le_notional : float;
  le_executed_at : Z;
  le_raw_event_json : json;
  le_live_sim_only : bool
}.

Definition LiveSimExecutionRecord_post_init (a : LiveSimExecutionArgs)
    : res LiveSimExecutionRecord :=
  let* execution_id :=
    require_non_empty_str (ea_live_sim_execution_id a) "live_sim_execution_id" in
  let* order_id := optional_non_empty_str (ea_live_sim_order_id a) "live_sim_order_id" in
  let* intent_id := optional_non_empty_str (ea_live_sim_intent_id a) "live_sim_intent_id" in
  let* order_no := optional_non_empty_str (ea_broker_order_no a) "broker_order_no" in
  let* account := require_non_empty_str (ea_account_id a) "account_id" in
  let* code := validate_stock_code (ea_code a) "code" in
  let* side := parse_side (ea_side a) in
  let* quantity := parse_int (ea_quantity a) "quantity" (Some 1) in
  let* price := non_negative_float (ea_price a) "price" in
  let* notional := non_negative_float (ea_notional a) "notional" in
  let* executed_at := stamp_value (ea_executed_at a) "executed_at" in
  Ok {| le_live_sim_execution_id := execution_id; le_live_sim_order_id := order_id;
        le_live_sim_intent_id := intent_id; le_broker_order_no := order_no;
        le_account_id := account; le_code := code; le_side := side;
        le_quantity := quantity; le_price := price; le_notional := notional;
        le_executed_at := executed_at; le_raw_event_json := ea_raw_event_json a;
        le_live_sim_only := true |}.

Definition LiveSimExecutionRecord_to_dict (x : LiveSimExecutionRecord)
    : res (list (string * json)) :=
  let* raw := payload_dict (le_raw_event_json x) in
  Ok [("live_sim_execution_id", JStr (le_live_sim_execution_id x));
      ("live_sim_order_id", opt_str (le_live_sim_order_id x));
      ("live_sim_intent_id", opt_str (le_live_sim_intent_id x));
      ("broker_order_no", opt_str (le_broker_order_no x));
      ("account_id", JStr (le_account_id x));
      ("code", JStr (le_code x));
      ("side", JStr (LiveSimSide.value (le_side x)));
      ("quantity", JInt (le_quantity x));
      ("price", JFloat (le_price x));
      ("notional", JFloat (le_notional x));
      ("executed_at", _optional_wire (Some (le_executed_at x)));
      ("raw_event_json", raw);
      ("live_sim_only", JBool true);
      ("live_real_allowed", JBool false)].

(** ** Eligibility results and reconcile snapshots *)

Record LiveSimEligibilityArgs := {
  el_eligible : json;
  el_candidate_instance_id : json;
  el_strategy_observation_id : json;
  el_risk_observation_id : json;
  el_status : json;
  el_reason_codes : json;
  el_evidence_json : json;
  el_safety_gate_result : json;
  el_computed_at : stamp
}.

Record LiveSimEligibility := {
  lg_eligible : bool;
  lg_candidate_instance_id : string;
  lg_strategy_observation_id : option string;
  lg_risk_observation_id : option string;
  lg_status : string;
  lg_reason_codes : list string;
  lg_evidence_json : json;
  lg_safety_gate_result : json;
  lg_computed_at : option Z;
  lg_live_sim_only : bool;
  lg_live_real_allowed : bool
}.

Definition LiveSimEligibility_post_init (a : LiveSimEligibilityArgs) : res LiveSimEligibility :=
  let* eligible := parse_bool (el_eligible a) "eligible" in
  let* candidate := require_non_empty_str (el_candidate_instance_id a) "candidate_instance_id" in
  let* strategy :=
    optional_non_empty_str (el_strategy_observation_id a) "strategy_observation_id" in
  let* risk := optional_non_empty_str (el_risk_observation_id a) "risk_observation_id" in
  let* status := require_non_empty_str (el_status a) "status" in
  let* reason_codes := reason_tuple (el_reason_codes a) in
  let* computed_at := stamp_unless_none (el_computed_at a) "computed_at" in
  Ok {| lg_eligible := eligible; lg_candidate_instance_id := candidate;
        lg_strategy_observation_id := strategy; lg_risk_observation_id := risk;
        lg_status := py_upper status; lg_reason_codes := reason_codes;
        lg_evidence_json := el_evidence_json a;
        lg_safety_gate_result := el_safety_gate_result a; lg_computed_at := computed_at;
        lg_live_sim_only := true; lg_live_real_allowed := false |}.

Record LiveSimReconcileArgs := {
  ra_reconcile_id : json;
  ra_account_id : json;
  ra_trade_date : json;
  ra_code : json;
  ra_broker_open_order_count : json;
  ra_broker_position_count : json;
  ra_local_open_order_count : json;
  ra_local_position_count : json;
  ra_mismatch_count : json;
  ra_status : json;
  ra_snapshot_json : json;
  ra_created_at : stamp
}.

Record LiveSimReconcileSnapshot := {
  lr_reconcile_id : string;
  lr_account_id : string;
  lr_trade_date : string;
  lr_code : option string;
  lr_broker_open_order_count : Z;
  lr_broker_position_count : Z;
  lr_local_open_order_count : Z;
  lr_local_position_count : Z;
  lr_mismatch_count : Z;
  lr_status : string;
  lr_snapshot_json : json;
  lr_created_at : option Z;
  lr_live_sim_only : bool
}.

Definition LiveSimReconcileSnapshot_post_init (a : LiveSimReconcileArgs)
    : res LiveSimReconcileSnapshot :=
  let* reconcile_id := require_non_empty_str (ra_reconcile_id a) "reconcile_id" in
  let* account := require_non_empty_str (ra_account_id a) "account_id" in
  let* trade_date := require_non_empty_str (ra_trade_date a) "trade_date" in
  let* status := require_non_empty_str (ra_status a) "status" in
  let* code := unless_none (fun v => validate_stock_code v "code") (ra_code a) in
  let* bo := non_negative_int (ra_broker_open_order_count a) "broker_open_order_count" in
  let* bp := non_negative_int (ra_broker_position_count a) "broker_position_count" in
  let* lo := non_negative_int (ra_local_open_order_count a) "local_open_order_count" in
  let* lp := non_negative_int (ra_local_position_count a) "local_position_count" in
  let* mm := non_negative_int (ra_mismatch_count a) "mismatch_count" in
  let* created_at := stamp_unless_none (ra_created_at a) "created_at" in
  Ok {| lr_reconcile_id := reconcile_id; lr_account_id := account;
        lr_trade_date := trade_date; lr_code := code; lr_broker_open_order_count := bo;
        lr_broker_position_count := bp; lr_local_open_order_count := lo;
        lr_local_position_count := lp; lr_mismatch_count := mm;
        lr_status := py_upper status; lr_snapshot_json := ra_snapshot_json a;
        lr_created_at := created_at; lr_live_sim_only := true |}.

(** ** What the constructors establish *)

(** A text [require_non_empty_str] has returned, a stock code, a finite number
    that is not negative, a reason code. *)
Definition is_text_field (s : string) : Prop := py_strip s = s /\ str_true s = true.
Definition is_code_field (s : string) : Prop := is_stock_code s = true.
Definition is_amount (x : float) : Prop := f_finite x = true /\ f_lt x f_zero = false.
Definition is_reason (s : string) : Prop := is_text_field s /\ py_upper s = s.
Definition is_moment (s : stamp) : Prop :=
  match s with moment t => is_datetime t = true | text _ => True end.

Definition opt_all {A} (P : A -> Prop) (v : option A) : Prop :=
  match v with Some a => P a | None => True end.

Lemma text_field_ok v f s : require_non_empty_str v f = Ok s -> is_text_field s.
Proof.
  destruct v; simpl; try discriminate. intros [-> H]%require_non_empty_ok.
  split; [apply py_strip_idem|done].
Qed.

Lemma text_field_again s f : is_text_field s -> require_non_empty_str (JStr s) f = Ok s.
Proof. intros [Hs Ht]. apply require_non_empty_ok. by rewrite Hs. Qed.

Lemma opt_text_ok v f o : optional_non_empty_str v f = Ok o -> opt_all is_text_field o.
Proof.
  destruct v; simpl; try (intros H; res_inv H; discriminate); [by intros [= <-]|].
  intros H; res_inv H. injection H as <-. simpl. by apply (text_field_ok (JStr s) f).
Qed.

Lemma opt_text_again o f : opt_all is_text_field o -> optional_non_empty_str (opt_str o) f = Ok o.
Proof.
  destruct o as [s|]; simpl; [|done]. intros H.
  pose proof (text_field_again s f H) as E. cbn in E |- *. by rewrite E.
Qed.

Lemma int_value n f m : non_negative_int (JInt n) f = Ok m -> m = n.
Proof. unfold non_negative_int, parse_int. cbn. case_match; [done|]. by intros [= ->]. Qed.

Lemma code_field_ok v f c : validate_stock_code v f = Ok c -> is_code_field c.
Proof. intros (s & _ & H)%res_bind_ok. by apply validate_code_ok in H. Qed.

Lemma code_field_again c f : is_code_field c -> validate_stock_code (JStr c) f = Ok c.
Proof.
  intros H. unfold validate_stock_code. rewrite text_field_again; [by apply validate_code_fixed|].
  unfold is_code_field, is_stock_code in H. apply andb_true_iff in H as [Hl Hd].
  split; [by apply digits_strip|]. by destruct c.
Qed.

Lemma int_field_ok v f m n : parse_int v f (Some m) = Ok n -> m <= n.
Proof.
  intros H; res_inv H. destruct (Z.ltb_spec a m); [done|]. injection H as <-. lia.
Qed.

Lemma int_field_again f m n : m <= n -> parse_int (JInt n) f (Some m) = Ok n.
Proof. intros H. cbn. destruct (Z.ltb_spec n m); [lia|done]. Qed.

Lemma amount_ok v f x : non_negative_float v f = Ok x -> is_amount x.
Proof.
  intros H. unfold non_negative_float, parse_float in H. res_inv H.
  apply check_float_ok in H as (-> & Hf & Hm). split; [done|by apply Hm].
Qed.

Lemma amount_again f x : is_amount x -> non_negative_float (JFloat x) f = Ok x.
Proof. intros [Hf Hz]. apply check_float_ok. split_and!; [done..|by intros b [= <-]]. Qed.

Lemma opt_amount_ok v f o :
  unless_none (fun v => non_negative_float v f) v = Ok o -> opt_all is_amount o.
Proof.
  intros H. destruct v; cbn [unless_none] in H; try (injection H as <-; exact I);
    res_inv H; injection H as <-; eapply amount_ok; exact Ha.
Qed.

Lemma opt_amount_again f o :
  opt_all is_amount o -> unless_none (fun v => non_negative_float v f) (opt_float o) = Ok o.
Proof. destruct o as [x|]; cbn [unless_none opt_float opt_all]; [|done]. intros H. by rewrite amount_again. Qed.

Lemma stamp_value_ok s f t : is_moment s -> stamp_value s f = Ok t -> is_datetime t = true.
Proof.
  destruct s as [t0|v]; simpl; [by intros H [= <-]|]. intros _.
  destruct v; simpl; try discriminate.
  destruct (negb _); [discriminate|]. destruct (read_datetime _) as [[l o]|]; [|discriminate].
  destruct (is_datetime (l - o)) eqn:E; [|discriminate]. by intros [= <-].
Qed.

Lemma opt_stamp_ok s f o :
  is_moment s -> stamp_unless_none s f = Ok o -> opt_all (fun t => is_datetime t = true) o.
Proof.
  intros Hs H. assert (o = None \/ exists t, stamp_value s f = Ok t /\ o = Some t) as C.
  { destruct s as [t|[]]; simpl in H |- *; try (res_inv H; injection H as <-; eauto); naive_solver. }
  destruct C as [->|(t & Ht & ->)]; [done|]. eapply stamp_value_ok; done.
Qed.

Lemma opt_stamp_again o f :
  opt_all (fun t => is_datetime t = true) o -> stamp_unless_none (text (_optional_wire o)) f = Ok o.
Proof.
  destruct o as [t|]; cbn [opt_all _optional_wire stamp_unless_none stamp_value]; [|done].
  intros H. by rewrite parse_wire.
Qed.

Lemma reasons_ok_of rs xs : reason_tuple_of rs = Ok xs -> Forall is_reason xs.
Proof.
  revert xs; induction rs as [|r rs IH]; intros xs H; cbn in H; [by injection H as <-|].
  res_inv H. injection H as <-. constructor; [|by apply IH].
  unfold _reason_value in Ha. res_inv Ha. injection Ha as <-.
  apply text_field_ok in Ha1 as [Hs Ht]. split; [split|apply py_upper_idem].
  - by rewrite py_strip_upper, Hs.
  - by rewrite str_true_upper.
Qed.

Lemma reasons_again xs : Forall is_reason xs -> reason_tuple (JList (map JStr xs)) = Ok xs.
Proof.
  unfold reason_tuple. cbn [json_iter res_bind].
  induction 1 as [|x xs [Hx Hu] _ IH]; [done|]. cbn [map reason_tuple_of].
  unfold _reason_value at 1. rewrite text_field_again by done. cbn [res_bind].
  by rewrite IH, Hu.
Qed.

Lemma reasons_ok v xs : reason_tuple v = Ok xs -> Forall is_reason xs.
Proof. intros H; unfold reason_tuple in H; res_inv H. by apply reasons_ok_of in H. Qed.

Lemma side_again s : parse_side (JStr (LiveSimSide.value s)) = Ok s.
Proof. by destruct s. Qed.
Lemma order_type_again s : parse_order_type (JStr (LiveSimOrderType.value s)) = Ok s.
Proof. by destruct s. Qed.
Lemma intent_status_again s : parse_intent_status (JStr (LiveSimIntentStatus.value s)) = Ok s.
Proof. by destruct s. Qed.
Lemma order_status_again s : parse_order_status (JStr (LiveSimOrderStatus.value s)) = Ok s.
Proof. by destruct s. Qed.

Create HintDb livesim.
#[export] Hint Resolve text_field_ok opt_text_ok code_field_ok amount_ok opt_amount_ok
  opt_stamp_ok stamp_value_ok reasons_ok : livesim.

(** The fields of a well-formed intent, order and execution. *)
Definition intent_ok (x : LiveSimIntent) : Prop :=
  Forall is_text_field
    [li_live_sim_intent_id x; li_candidate_instance_id x; li_trade_date x; li_account_id x;
     li_name x; li_idempotency_key x] /\
  Forall (opt_all is_text_field)
    [li_strategy_observation_id x; li_risk_observation_id x; li_order_plan_id x;
     li_dry_run_intent_id x; li_dry_run_order_id x; li_gateway_command_id x] /\
  is_code_field (li_code x) /\ 0 <= li_quantity x /\
  opt_all is_amount (li_limit_price x) /\ is_amount (li_notional x) /\
  Forall is_reason (li_reason_codes x) /\
  Forall (opt_all (fun t => is_datetime t = true)) [li_created_at x; li_expires_at x] /\
  li_live_sim_only x = true /\ li_live_real_allowed x = false.

Definition order_ok (x : LiveSimOrderRecord) : Prop :=
  Forall is_text_field
    [lo_live_sim_order_id x; lo_live_sim_intent_id x; lo_account_id x; lo_name x;
     lo_idempotency_key x] /\
  Forall (opt_all is_text_field)
    [lo_gateway_command_id x; lo_broker_order_no x; lo_broker_result_code x;
     lo_broker_message x] /\
  is_code_field (lo_code x) /\
  Forall (Z.le 0) [lo_quantity x; lo_filled_quantity x; lo_remaining_quantity x] /\
  Forall (opt_all is_amount) [lo_limit_price x; lo_avg_fill_price x] /\
  is_amount (lo_notional x) /\
  Forall (opt_all (fun t => is_datetime t = true))
    [lo_created_at x; lo_command_queued_at x; lo_command_dispatched_at x;
     lo_broker_acked_at x; lo_last_event_at x] /\
  lo_live_sim_only x = true /\ lo_live_real_allowed x = false.

Definition execution_ok (x : LiveSimExecutionRecord) : Prop :=
  Forall is_text_field [le_live_sim_execution_id x; le_account_id x] /\
  Forall (opt_all is_text_field)
    [le_live_sim_order_id x; le_live_sim_intent_id x; le_broker_order_no x] /\
  is_code_field (le_code x) /\ 1 <= le_quantity x /\ is_amount (le_price x) /\
  is_amount (le_notional x) /\ is_datetime (le_executed_at x) = true /\
  le_live_sim_only x = true.

(** The datetimes among the arguments are datetimes. *)
Definition intent_args_ok (a : LiveSimIntentArgs) : Prop :=
  is_moment (ia_created_at a) /\ is_moment (ia_expires_at a).
Definition order_args_ok (a : LiveSimOrderArgs) : Prop :=
  Forall is_moment [oa_created_at a; oa_command_queued_at a; oa_command_dispatched_at a;
                    oa_broker_acked_at a; oa_last_event_at a].

Ltac bind_inv H :=
  repeat (let a := fresh "a" in let Ha := fresh "Ha" in
          lazymatch type of H with
          | res_bind _ _ = Ok _ => apply res_bind_ok in H as (a & Ha & H)
          end).

Lemma intent_post_init_ok a x :
  intent_args_ok a -> LiveSimIntent_post_init a = Ok x -> intent_ok x.
Proof.
  intros [Hc He] H. unfold LiveSimIntent_post_init in H. bind_inv H.
  injection H as <-. unfold intent_ok. cbn.
  split_and!; repeat (apply List.Forall_cons || apply List.Forall_nil); eauto with livesim.
  by eapply int_field_ok.
Qed.

Lemma order_post_init_ok a x :
  order_args_ok a -> LiveSimOrderRecord_post_init a = Ok x -> order_ok x.
Proof.
  unfold order_args_ok. rewrite !list.Forall_cons.
  intros (H1 & H2 & H3 & H4 & H5 & _) H. unfold LiveSimOrderRecord_post_init in H. bind_inv H.
  injection H as <-. unfold order_ok. cbn.
  split_and!; repeat (apply List.Forall_cons || apply List.Forall_nil); eauto with livesim;
    by eapply int_field_ok.
Qed.

Lemma execution_post_init_ok a x :
  is_moment (ea_executed_at a) -> LiveSimExecutionRecord_post_init a = Ok x -> execution_ok x.
Proof.
  intros Hm H. unfold LiveSimExecutionRecord_post_init in H. bind_inv H.
  injection H as <-. unfold execution_ok. cbn.
  split_and!; repeat (apply List.Forall_cons || apply List.Forall_nil); eauto with livesim.
  by eapply int_field_ok.
Qed.

(** C39. Whatever JSON values the constructors are given, a record they return is
    well typed: identifiers are non-empty and stripped, the code has six digits,
    quantities are not negative (at least one for an execution), prices and
    notionals are finite and not negative, reason codes are stripped upper-case
    texts, times are datetimes, and the record is marked simulation-only with
    real trading refused. *)
Theorem live_sim_records_well_typed :
  (forall a x, intent_args_ok a -> LiveSimIntent_post_init a = Ok x -> intent_ok x) /\
  (forall a x, order_args_ok a -> LiveSimOrderRecord_post_init a = Ok x -> order_ok x) /\
  (forall a x, is_moment (ea_executed_at a) ->
     LiveSimExecutionRecord_post_init a = Ok x -> execution_ok x).
Proof.
  split; [exact intent_post_init_ok|]. split; [exact order_post_init_ok|].
  exact execution_post_init_ok.
Qed.

(** A validated intent survives its mapping form: [from_dict] of its
    [to_dict] builds the same intent, timestamps, optional fields and reason
    codes included; only evidence that is no mapping has no mapping form. *)
Theorem intent_dict_roundtrip a x :
  intent_args_ok a -> LiveSimIntent_post_init a = Ok x ->
  match LiveSimIntent_to_dict x with
  | Ok d => LiveSimIntent_from_dict (JObj d) = Ok x
  | Err e => e = OtherError "TypeError" /\ forall fs, li_evidence_json x <> JObj fs
  end.
Proof.
  intros Ha H. pose proof (intent_post_init_ok _ _ Ha H) as Hok. clear a Ha H.
  destruct x as [iid cid sid rid td acc code name plan sd ot qty lp no st rs ev key di do
                 ca ea gc lso lra sent].
  unfold intent_ok in Hok. cbn -[is_datetime] in Hok. rewrite !list.Forall_cons in Hok.
  destruct Hok as ((Hiid & Hcid & Htd & Hacc & Hname & Hkey & _) &
    (Hsid & Hrid & Hplan & Hdi & Hdo & Hgc & _) & Hcode & Hqty & Hlp & Hno & Hrs &
    (Hca & Hea & _) & -> & ->).
  unfold LiveSimIntent_to_dict. destruct ev as [| | | | | |fs]; cbn [li_evidence_json payload_dict res_bind];
    try (split; [reflexivity|intros; discriminate]).
  unfold LiveSimIntent_from_dict. cbn [require_mapping res_bind]. unfold item, get_or.
  cbn [jget String.eqb Ascii.eqb Bool.eqb res_bind li_live_sim_intent_id
    li_candidate_instance_id li_strategy_observation_id li_risk_observation_id li_trade_date
    li_account_id li_code li_name li_order_plan_id li_side li_order_type li_quantity
    li_limit_price li_notional li_status li_reason_codes li_evidence_json li_idempotency_key
    li_dry_run_intent_id li_dry_run_order_id li_created_at li_expires_at li_gateway_command_id
    li_live_sim_only li_live_real_allowed li_broker_order_sent].
  unfold LiveSimIntent_post_init.
  cbn [ia_live_sim_intent_id ia_candidate_instance_id ia_strategy_observation_id
    ia_risk_observation_id ia_trade_date ia_account_id ia_code ia_name ia_order_plan_id ia_side
    ia_order_type ia_quantity ia_limit_price ia_notional ia_status ia_reason_codes
    ia_evidence_json ia_idempotency_key ia_dry_run_intent_id ia_dry_run_order_id ia_created_at
    ia_expires_at ia_gateway_command_id ia_broker_order_sent].
  rewrite !text_field_again, !opt_text_again, code_field_again, side_again, order_type_again,
    intent_status_again, opt_amount_again, amount_again, reasons_again, !opt_stamp_again by done.
  unfold non_negative_int. rewrite int_field_again by done. reflexivity.
Qed.

(** ** Sample records *)

Definition sample_intent_args : LiveSimIntentArgs :=
  {| ia_live_sim_intent_id := JStr " live_sim_intent_1 ";
     ia_candidate_instance_id := JStr "cand_1"; ia_strategy_observation_id := JStr "so_1";
     ia_risk_observation_id := JStr "ro_1"; ia_trade_date := JStr "2024-02-29";
     ia_account_id := JStr "8112345611"; ia_code := JStr "a005930"; ia_name := JStr "Samsung";
     ia_order_plan_id := JNull; ia_side := JStr "buy"; ia_order_type := JStr "LIMIT";
     ia_quantity := JStr "1,000"; ia_limit_price := JInt 70000; ia_notional := JFloat (f_of_Z 70000000);
     ia_status := JStr "CREATED"; ia_reason_codes := JList [JStr "observe_only"];
     ia_evidence_json := JObj [("source", JStr "manual")]; ia_idempotency_key := JStr "key_1";
     ia_dry_run_intent_id := JNull; ia_dry_run_order_id := JNull;
     ia_created_at := moment 1709164800000050; ia_expires_at := text (JStr "2024-02-29T00:05:00Z");
     ia_gateway_command_id := JNull; ia_broker_order_sent := JBool false |}.

Definition sample_intent : LiveSimIntent :=
  {| li_live_sim_intent_id := "live_sim_intent_1"; li_candidate_instance_id := "cand_1";
     li_strategy_observation_id := Some "so_1"; li_risk_observation_id := Some "ro_1";
     li_trade_date := "2024-02-29"; li_account_id := "8112345611"; li_code := "005930";
     li_name := "Samsung"; li_order_plan_id := None; li_side := LiveSimSide.BUY;
     li_order_type := LiveSimOrderType.LIMIT; li_quantity := 1000;
     li_limit_price := Some (f_of_Z 70000); li_notional := f_of_Z 70000000;
     li_status := LiveSimIntentStatus.CREATED; li_reason_codes := ["OBSERVE_ONLY"];
     li_evidence_json := JObj [("source", JStr "manual")]; li_idempotency_key := "key_1";
     li_dry_run_intent_id := None; li_dry_run_order_id := None;
     li_created_at := Some 1709164800000050; li_expires_at := Some (seconds 1709165100);
     li_gateway_command_id := None; li_live_sim_only := true; li_live_real_allowed := false;
     li_broker_order_sent := false |}.

Lemma sample_intent_init : LiveSimIntent_post_init sample_intent_args = Ok sample_intent.
Proof. vm_compute. reflexivity. Qed.

Lemma live_sim_records_well_typed_witness :
  LiveSimIntent_post_init sample_intent_args = Ok sample_intent /\ intent_ok sample_intent.
Proof.
  split; [exact sample_intent_init|].
  apply (proj1 live_sim_records_well_typed sample_intent_args); [by split|exact sample_intent_init].
Defined.

Lemma intent_dict_roundtrip_witness :
  LiveSimIntent_post_init sample_intent_args = Ok sample_intent /\
  match LiveSimIntent_to_dict sample_intent with
  | Ok d => LiveSimIntent_from_dict (JObj d) = Ok sample_intent
  | Err _ => False
  end.
Proof.
  split; [exact sample_intent_init|].
  exact (intent_dict_roundtrip sample_intent_args sample_intent
           (conj eq_refl I) sample_intent_init).
Defined.

(** A text amount with a thousands separator is read; a negative one, an
    unknown side and an empty account are refused with the field's name. *)
Example order_type_refused :
  parse_order_type (JStr "STOP") = Err (ValueError "order_type must be one of: LIMIT, MARKET").
Proof. reflexivity. Qed.
Example execution_needs_quantity f :
  parse_int (JInt 0) f (Some 1) = Err (ValueError (f +:+ " " +:+ "must be >= 1")).
Proof. reflexivity. Qed.
