(* ===== verification/LiveSimStore.v ===== *)
(** * The live-sim tables ([storage/sqlite.py], table access in
    [services/live_sim/live_sim_service.py])

    The rows of intents, orders, executions, positions, position events, exit
    signals and intents, cancel intents, rejections, errors and lifecycle
    events, with the single-row reads and writes the service uses.  A table is
    the list of its rows in insertion order: a query without [ORDER BY] that
    reads one row reads the first inserted of those that match, through an index
    or not.  Inserting checks the primary key and the unique columns and raises
    [IntegrityError].  The JSON evidence columns are left out: nothing reads
    them back here. *)
From S2P Require Import Prelude PyFloat BrokerUtils WireTime LiveSimModels GatewayModels.
From Stdlib Require Import SpecFloat.
From stdpp Require Import pretty.
Local Open Scope Z_scope.

Module OS := LiveSimOrderStatus.
Module IS := LiveSimIntentStatus.

(** ** Rows *)

Record order_row := {
  or_rec : LiveSimOrderRecord;
  or_trade_date : string
}.

Record execution_row := {
  ex_rec : LiveSimExecutionRecord;
  ex_broker_execution_id : string;
  ex_execution_key : string
}.

Module PositionStatus.
Inductive t := OPEN | CLOSING | CLOSED | RECONCILE_MISMATCH.
#[export] Instance eq_dec : EqDecision t.
Proof. solve_decision. Defined.
Definition value (s : t) : string :=
  match s with
  | OPEN => "OPEN" | CLOSING => "CLOSING" | CLOSED => "CLOSED"
  | RECONCILE_MISMATCH => "RECONCILE_MISMATCH"
  end.
End PositionStatus.
#[export] Existing Instance PositionStatus.eq_dec.
Module PS := PositionStatus.

Record position_row := {
  p_position_id : string;
  p_account_id : string;
  p_trade_date : string;
  p_code : string;
  p_name : string;
  p_quantity : Z;
  p_available_quantity : Z;
  p_avg_entry_price : float;
  p_total_entry_notional : float;
  p_realized_pnl : float;
  p_unrealized_pnl : float;
  p_highest_price : option float;
  p_lowest_price : option float;
  p_trailing_stop_price : option float;
  p_opened_at : string;
  p_closed_at : option string;
  p_last_price : option float;
  p_last_price_at : option string;
  p_status : PS.t;
  p_source_live_sim_order_id : string;
  p_source_live_sim_intent_id : string;
  p_updated_at : string
}.

Record position_event := {
  pe_event_id : string;
  pe_position_id : string;
  pe_event_type : string;
  pe_live_sim_order_id : string;
  pe_live_sim_execution_id : string;
  pe_code : option string;
  pe_quantity_delta : Z;
  pe_price : float;
  pe_realized_pnl : float
}.

Record exit_signal := {
  xs_exit_signal_id : string;
  xs_position_id : string;
  xs_code : string;
  xs_reason : string;
  xs_trigger_price : option float;
  xs_last_price : option float;
  xs_quantity : Z;
  xs_status : string;
  xs_created_at : string
}.

Record exit_intent := {
  xi_exit_intent_id : string;
  xi_position_id : string;
  xi_exit_signal_id : string;
  xi_live_sim_order_id : option string;
  xi_gateway_command_id : option string;
  xi_code : string;
  xi_quantity : Z;
  xi_order_type : string;
  xi_limit_price : option float;
  xi_reason : string;
  xi_status : string;
  xi_idempotency_key : string
}.

Record cancel_intent := {
  ci_cancel_intent_id : string;
  ci_live_sim_order_id : string;
  ci_gateway_command_id : option string;
  ci_code : string;
  ci_original_order_no : option string;
  ci_cancel_quantity : Z;
  ci_reason : string;
  ci_status : string;
  ci_idempotency_key : string
}.

Record rejection_row := {
  rj_candidate_instance_id : string;
  rj_code : option string;
  rj_reason_codes : list string
}.

Record error_row := {
  er_live_sim_intent_id : option string;
  er_live_sim_order_id : option string;
  er_code : option string;
  er_message : string
}.

Record lifecycle_event := {
  lv_id : string;
  lv_event_type : string;
  lv_entity_type : string;
  lv_entity_id : option string;
  lv_live_sim_order_id : option string;
  lv_position_id : option string;
  lv_status : option string;
  lv_reason : option string
}.

(** [serial] counts the identifiers drawn from [new_message_id]. *)
Record tables := {
  intents : list LiveSimIntent;
  orders : list order_row;
  executions : list execution_row;
  positions : list position_row;
  position_events : list position_event;
  exit_signals : list exit_signal;
  exit_intents : list exit_intent;
  cancel_intents : list cancel_intent;
  rejections : list rejection_row;
  errors : list error_row;
  lifecycle_events : list lifecycle_event;
  serial : nat
}.

Definition empty_tables : tables :=
  {| intents := []; orders := []; executions := []; positions := []; position_events := [];
     exit_signals := []; exit_intents := []; cancel_intents := []; rejections := [];
     errors := []; lifecycle_events := []; serial := 0 |}.

Definition set_intents v (s : tables) : tables :=
  {| intents := v; orders := orders s; executions := executions s; positions := positions s;
     position_events := position_events s; exit_signals := exit_signals s; exit_intents := exit_intents s; cancel_intents := cancel_intents s;
     rejections := rejections s; errors := errors s; lifecycle_events := lifecycle_events s; serial := serial s |}.
Definition set_orders v (s : tables) : tables :=
  {| intents := intents s; orders := v; executions := executions s; positions := positions s;
     position_events := position_events s; exit_signals := exit_signals s; exit_intents := exit_intents s; cancel_intents := cancel_intents s;
     rejections := rejections s; errors := errors s; lifecycle_events := lifecycle_events s; serial := serial s |}.
Definition set_executions v (s : tables) : tables :=
  {| intents := intents s; orders := orders s; executions := v; positions := positions s;
     position_events := position_events s; exit_signals := exit_signals s; exit_intents := exit_intents s; cancel_intents := cancel_intents s;
     rejections := rejections s; errors := errors s; lifecycle_events := lifecycle_events s; serial := serial s |}.
Definition set_positions v (s : tables) : tables :=
  {| intents := intents s; orders := orders s; executions := executions s; positions := v;
     position_events := position_events s; exit_signals := exit_signals s; exit_intents := exit_intents s; cancel_intents := cancel_intents s;
     rejections := rejections s; errors := errors s; lifecycle_events := lifecycle_events s; serial := serial s |}.
Definition set_position_events v (s : tables) : tables :=
  {| intents := intents s; orders := orders s; executions := executions s; positions := positions s;
     position_events := v; exit_signals := exit_signals s; exit_intents := exit_intents s; cancel_intents := cancel_intents s;
     rejections := rejections s; errors := errors s; lifecycle_events := lifecycle_events s; serial := serial s |}.
Definition set_exit_signals v (s : tables) : tables :=
  {| intents := intents s; orders := orders s; executions := executions s; positions := positions s;
     position_events := position_events s; exit_signals := v; exit_intents := exit_intents s; cancel_intents := cancel_intents s;
     rejections := rejections s; errors := errors s; lifecycle_events := lifecycle_events s; serial := serial s |}.
Definition set_exit_intents v (s : tables) : tables :=
  {| intents := intents s; orders := orders s; executions := executions s; positions := positions s;
     position_events := position_events s; exit_signals := exit_signals s; exit_intents := v; cancel_intents := cancel_intents s;
     rejections := rejections s; errors := errors s; lifecycle_events := lifecycle_events s; serial := serial s |}.
Definition set_cancel_intents v (s : tables) : tables :=
  {| intents := intents s; orders := orders s; executions := executions s; positions := positions s;
     position_events := position_events s; exit_signals := exit_signals s; exit_intents := exit_intents s; cancel_intents := v;
     rejections := rejections s; errors := errors s; lifecycle_events := lifecycle_events s; serial := serial s |}.
Definition set_rejections v (s : tables) : tables :=
  {| intents := intents s; orders := orders s; executions := executions s; positions := positions s;
     position_events := position_events s; exit_signals := exit_signals s; exit_intents := exit_intents s; cancel_intents := cancel_intents s;
     rejections := v; errors := errors s; lifecycle_events := lifecycle_events s; serial := serial s |}.
Definition set_errors v (s : tables) : tables :=
  {| intents := intents s; orders := orders s; executions := executions s; positions := positions s;
     position_events := position_events s; exit_signals := exit_signals s; exit_intents := exit_intents s; cancel_intents := cancel_intents s;
     rejections := rejections s; errors := v; lifecycle_events := lifecycle_events s; serial := serial s |}.
Definition set_lifecycle_events v (s : tables) : tables :=
  {| intents := intents s; orders := orders s; executions := executions s; positions := positions s;
     position_events := position_events s; exit_signals := exit_signals s; exit_intents := exit_intents s; cancel_intents := cancel_intents s;
     rejections := rejections s; errors := errors s; lifecycle_events := v; serial := serial s |}.
Definition set_serial v (s : tables) : tables :=
  {| intents := intents s; orders := orders s; executions := executions s; positions := positions s;
     position_events := position_events s; exit_signals := exit_signals s; exit_intents := exit_intents s; cancel_intents := cancel_intents s;
     rejections := rejections s; errors := errors s; lifecycle_events := lifecycle_events s; serial := v |}.

(** ** Queries and updates *)

(** [UPDATE ... SET f WHERE p]. *)
Definition update_rows {A} (p : A -> bool) (f : A -> A) (rows : list A) : list A :=
  map (fun r => if p r then f r else r) rows.

(** [INSERT]: refused when a row has the same value in a unique column. *)
Definition insert_row {A} (clash : A -> A -> bool) (r : A) (rows : list A) : res (list A) :=
  if existsb (clash r) rows then Err IntegrityError else Ok (rows ++ [r]).

Definition same {A} (key : A -> string) (a b : A) : bool := String.eqb (key a) (key b).

Definition order_id (r : order_row) : string := lo_live_sim_order_id (or_rec r).
Definition order_side (r : order_row) : LiveSimSide.t := lo_side (or_rec r).
Definition order_status (r : order_row) : OS.t := lo_status (or_rec r).

Definition is_some_text (v : option string) (k : string) : bool :=
  match v with Some s => String.eqb s k | None => false end.

Definition get_live_sim_intent (s : tables) (id : string) : option LiveSimIntent :=
  find (fun r => String.eqb (li_live_sim_intent_id r) id) (intents s).
Definition get_live_sim_order (s : tables) (id : string) : option order_row :=
  find (fun r => String.eqb (order_id r) id) (orders s).
Definition get_live_sim_position (s : tables) (id : string) : option position_row :=
  find (fun r => String.eqb (p_position_id r) id) (positions s).
Definition get_live_sim_exit_signal (s : tables) (id : string) : option exit_signal :=
  find (fun r => String.eqb (xs_exit_signal_id r) id) (exit_signals s).
Definition get_live_sim_exit_intent (s : tables) (id : string) : option exit_intent :=
  find (fun r => String.eqb (xi_exit_intent_id r) id) (exit_intents s).
Definition get_live_sim_cancel_intent (s : tables) (id : string) : option cancel_intent :=
  find (fun r => String.eqb (ci_cancel_intent_id r) id) (cancel_intents s).

(** The lookups that validate their key. *)
Definition _order_by_command_id (s : tables) (command_id : string) : res (option order_row) :=
  let* k := require_non_empty command_id "command_id" in
  Ok (find (fun r => is_some_text (lo_gateway_command_id (or_rec r)) k) (orders s)).
Definition _order_by_broker_order_no (s : tables) (broker_order_no : string)
    : res (option order_row) :=
  let* k := require_non_empty broker_order_no "broker_order_no" in
  Ok (find (fun r => is_some_text (lo_broker_order_no (or_rec r)) k) (orders s)).
Definition _cancel_intent_by_command_id (s : tables) (command_id : string)
    : res (option cancel_intent) :=
  let* k := require_non_empty command_id "command_id" in
  Ok (find (fun r => is_some_text (ci_gateway_command_id r) k) (cancel_intents s)).
Definition _exit_intent_by_order_id (s : tables) (live_sim_order_id : string)
    : res (option exit_intent) :=
  let* k := require_non_empty live_sim_order_id "live_sim_order_id" in
  Ok (find (fun r => is_some_text (xi_live_sim_order_id r) k) (exit_intents s)).

(** [ORDER BY opened_at ASC, position_id ASC]. *)
Definition opened_before (a b : position_row) : bool :=
  match String.compare (p_opened_at a) (p_opened_at b) with
  | Lt => true
  | Gt => false
  | Eq => match String.compare (p_position_id a) (p_position_id b) with Gt => false | _ => true end
  end.

Definition _position_by_account_code (s : tables) (account_id code : string)
    (include_closing : bool) : res (option position_row) :=
  let statuses := if include_closing then [PS.OPEN; PS.RECONCILE_MISMATCH; PS.CLOSING]
                  else [PS.OPEN; PS.RECONCILE_MISMATCH] in
  let* code := validate_code code "code" in
  Ok (head (stable_sort opened_before
        (List.filter (fun p => String.eqb (p_account_id p) account_id &&
                               String.eqb (p_code p) code &&
                               bool_decide (p_status p ∈ statuses)) (positions s)))).

Definition _execution_already_applied (s : tables) (execution_key : string) : res bool :=
  let* k := require_non_empty execution_key "execution_key" in
  Ok (existsb (fun e => String.eqb (ex_execution_key e) k) (executions s)).

Definition ACTIVE_CANCEL_INTENT_STATUSES : list string := ["CREATED"; "COMMAND_QUEUED"].
Definition ACTIVE_EXIT_INTENT_STATUSES : list string := ["CREATED"; "COMMAND_QUEUED"].
Definition ACTIVE_EXIT_SIGNAL_STATUSES : list string :=
  ["SIGNALLED"; "EXIT_INTENT_CREATED"; "COMMAND_QUEUED"].

Definition _active_cancel_for_order (s : tables) (live_sim_order_id : string) : res bool :=
  let* k := require_non_empty live_sim_order_id "live_sim_order_id" in
  Ok (existsb (fun c => String.eqb (ci_live_sim_order_id c) k &&
                        mem (ci_status c) ACTIVE_CANCEL_INTENT_STATUSES) (cancel_intents s)).
Definition _active_exit_intent_for_position (s : tables) (position_id : string) : res bool :=
  let* k := require_non_empty position_id "position_id" in
  Ok (existsb (fun x => String.eqb (xi_position_id x) k &&
                        mem (xi_status x) ACTIVE_EXIT_INTENT_STATUSES) (exit_intents s)).
Definition _active_exit_for_position (s : tables) (position_id : string) : res bool :=
  let* intent := _active_exit_intent_for_position s position_id in
  Ok (intent ||
      existsb (fun x => String.eqb (xs_position_id x) position_id &&
                        mem (xs_status x) ACTIVE_EXIT_SIGNAL_STATUSES) (exit_signals s)).

(** [_insert_order]; the identifier and the idempotency key are unique and
    [created_at] is not null. *)
Definition _insert_order (x : LiveSimOrderRecord) (trade_date : string) (s : tables) : res tables :=
  let* _ := match lo_created_at x with Some _ => Ok tt | None => Err IntegrityError end in
  let* rows :=
    insert_row (fun a b => same order_id a b || same (fun r => lo_idempotency_key (or_rec r)) a b)
      {| or_rec := x; or_trade_date := trade_date |} (orders s) in
  Ok (set_orders rows s).

(** ** Updates of an order *)

(** The columns of an order that change after its insertion. *)
Definition order_columns (st : OS.t) (no code msg : option string) (filled remaining : Z)
    (avg : option float) (dispatched acked last : option Z) (x : LiveSimOrderRecord)
    : LiveSimOrderRecord :=
  {| lo_live_sim_order_id := lo_live_sim_order_id x;
     lo_live_sim_intent_id := lo_live_sim_intent_id x;
     lo_gateway_command_id := lo_gateway_command_id x; lo_account_id := lo_account_id x;
     lo_code := lo_code x; lo_name := lo_name x; lo_side := lo_side x;
     lo_order_type := lo_order_type x; lo_quantity := lo_quantity x;
     lo_limit_price := lo_limit_price x; lo_notional := lo_notional x; lo_status := st;
     lo_broker_order_no := no; lo_broker_result_code := code; lo_broker_message := msg;
     lo_filled_quantity := filled; lo_remaining_quantity := remaining;
     lo_avg_fill_price := avg; lo_idempotency_key := lo_idempotency_key x;
     lo_created_at := lo_created_at x; lo_command_queued_at := lo_command_queued_at x;
     lo_command_dispatched_at := dispatched; lo_broker_acked_at := acked;
     lo_last_event_at := last; lo_live_sim_only := lo_live_sim_only x;
     lo_live_real_allowed := lo_live_real_allowed x |}.

(** [SET status = st, last_event_at = now, broker_result_code = COALESCE(code,
    broker_result_code), broker_message = COALESCE(msg, broker_message)]. *)
Definition order_report (st : OS.t) (code msg : option string) (now : Z)
    (x : LiveSimOrderRecord) : LiveSimOrderRecord :=
  order_columns st (lo_broker_order_no x) (coalesce code (lo_broker_result_code x))
    (coalesce msg (lo_broker_message x)) (lo_filled_quantity x) (lo_remaining_quantity x)
    (lo_avg_fill_price x) (lo_command_dispatched_at x) (lo_broker_acked_at x) (Some now) x.
Definition order_started (st : OS.t) (now : Z) (x : LiveSimOrderRecord) : LiveSimOrderRecord :=
  order_columns st (lo_broker_order_no x) (lo_broker_result_code x) (lo_broker_message x)
    (lo_filled_quantity x) (lo_remaining_quantity x) (lo_avg_fill_price x)
    (coalesce (lo_command_dispatched_at x) (Some now)) (lo_broker_acked_at x) (Some now) x.
Definition order_acked (st : OS.t) (no code msg : option string) (now : Z)
    (x : LiveSimOrderRecord) : LiveSimOrderRecord :=
  order_columns st (coalesce no (lo_broker_order_no x))
    (coalesce code (lo_broker_result_code x)) (coalesce msg (lo_broker_message x))
    (lo_filled_quantity x) (lo_remaining_quantity x) (lo_avg_fill_price x)
    (lo_command_dispatched_at x) (Some now) (Some now) x.
Definition order_filled (st : OS.t) (filled remaining : Z) (avg : float) (now : Z)
    (x : LiveSimOrderRecord) : LiveSimOrderRecord :=
  order_columns st (lo_broker_order_no x) (lo_broker_result_code x) (lo_broker_message x)
    filled remaining (Some avg) (lo_command_dispatched_at x) (lo_broker_acked_at x) (Some now) x.
Definition order_status_only (st : OS.t) (x : LiveSimOrderRecord) : LiveSimOrderRecord :=
  order_columns st (lo_broker_order_no x) (lo_broker_result_code x) (lo_broker_message x)
    (lo_filled_quantity x) (lo_remaining_quantity x) (lo_avg_fill_price x)
    (lo_command_dispatched_at x) (lo_broker_acked_at x) (lo_last_event_at x) x.

Definition update_order (id : string) (f : LiveSimOrderRecord -> LiveSimOrderRecord)
    (s : tables) : tables :=
  set_orders
    (update_rows (fun r => String.eqb (order_id r) id)
       (fun r => {| or_rec := f (or_rec r); or_trade_date := or_trade_date r |}) (orders s)) s.

(** ** Updates of an intent *)

Definition intent_columns (st : IS.t) (command : option string) (sent : bool)
    (x : LiveSimIntent) : LiveSimIntent :=
  {| li_live_sim_intent_id := li_live_sim_intent_id x;
     li_candidate_instance_id := li_candidate_instance_id x;
     li_strategy_observation_id := li_strategy_observation_id x;
     li_risk_observation_id := li_risk_observation_id x; li_trade_date := li_trade_date x;
     li_account_id := li_account_id x; li_code := li_code x; li_name := li_name x;
     li_order_plan_id := li_order_plan_id x; li_side := li_side x;
     li_order_type := li_order_type x; li_quantity := li_quantity x;
     li_limit_price := li_limit_price x; li_notional := li_notional x; li_status := st;
     li_reason_codes := li_reason_codes x; li_evidence_json := li_evidence_json x;
     li_idempotency_key := li_idempotency_key x;
     li_dry_run_intent_id := li_dry_run_intent_id x;
     li_dry_run_order_id := li_dry_run_order_id x; li_created_at := li_created_at x;
     li_expires_at := li_expires_at x; li_gateway_command_id := command;
     li_live_sim_only := li_live_sim_only x; li_live_real_allowed := li_live_real_allowed x;
     li_broker_order_sent := sent |}.

Definition update_intent (id : string) (p : LiveSimIntent -> bool)
    (f : LiveSimIntent -> LiveSimIntent) (s : tables) : tables :=
  set_intents (update_rows (fun r => String.eqb (li_live_sim_intent_id r) id && p r) f (intents s)) s.

(** ** Updates of exit and cancel intents *)

Definition exit_intent_status (st : string) (x : exit_intent) : exit_intent :=
  {| xi_exit_intent_id := xi_exit_intent_id x; xi_position_id := xi_position_id x;
     xi_exit_signal_id := xi_exit_signal_id x; xi_live_sim_order_id := xi_live_sim_order_id x;
     xi_gateway_command_id := xi_gateway_command_id x; xi_code := xi_code x;
     xi_quantity := xi_quantity x; xi_order_type := xi_order_type x;
     xi_limit_price := xi_limit_price x; xi_reason := xi_reason x; xi_status := st;
     xi_idempotency_key := xi_idempotency_key x |}.
Definition exit_intent_queued (command order : string) (x : exit_intent) : exit_intent :=
  {| xi_exit_intent_id := xi_exit_intent_id x; xi_position_id := xi_position_id x;
     xi_exit_signal_id := xi_exit_signal_id x; xi_live_sim_order_id := Some order;
     xi_gateway_command_id := Some command; xi_code := xi_code x;
     xi_quantity := xi_quantity x; xi_order_type := xi_order_type x;
     xi_limit_price := xi_limit_price x; xi_reason := xi_reason x;
     xi_status := "COMMAND_QUEUED"; xi_idempotency_key := xi_idempotency_key x |}.
Definition exit_signal_status (st : string) (x : exit_signal) : exit_signal :=
  {| xs_exit_signal_id := xs_exit_signal_id x; xs_position_id := xs_position_id x;
     xs_code := xs_code x; xs_reason := xs_reason x; xs_trigger_price := xs_trigger_price x;
     xs_last_price := xs_last_price x; xs_quantity := xs_quantity x; xs_status := st;
     xs_created_at := xs_created_at x |}.
Definition cancel_intent_status (st : string) (x : cancel_intent) : cancel_intent :=
  {| ci_cancel_intent_id := ci_cancel_intent_id x;
     ci_live_sim_order_id := ci_live_sim_order_id x;
     ci_gateway_command_id := ci_gateway_command_id x; ci_code := ci_code x;
     ci_original_order_no := ci_original_order_no x;
     ci_cancel_quantity := ci_cancel_quantity x; ci_reason := ci_reason x; ci_status := st;
     ci_idempotency_key := ci_idempotency_key x |}.
Definition cancel_intent_queued (command : string) (x : cancel_intent) : cancel_intent :=
  {| ci_cancel_intent_id := ci_cancel_intent_id x;
     ci_live_sim_order_id := ci_live_sim_order_id x; ci_gateway_command_id := Some command;
     ci_code := ci_code x; ci_original_order_no := ci_original_order_no x;
     ci_cancel_quantity := ci_cancel_quantity x; ci_reason := ci_reason x;
     ci_status := "COMMAND_QUEUED"; ci_idempotency_key := ci_idempotency_key x |}.

Definition update_exit_intent (id : string) (f : exit_intent -> exit_intent) (s : tables)
    : tables :=
  set_exit_intents (update_rows (fun x => String.eqb (xi_exit_intent_id x) id) f (exit_intents s)) s.
Definition update_exit_signal (id st : string) (s : tables) : tables :=
  set_exit_signals
    (update_rows (fun x => String.eqb (xs_exit_signal_id x) id) (exit_signal_status st)
       (exit_signals s)) s.
Definition update_cancel_intent (id : string) (f : cancel_intent -> cancel_intent) (s : tables)
    : tables :=
  set_cancel_intents
    (update_rows (fun x => String.eqb (ci_cancel_intent_id x) id) f (cancel_intents s)) s.
