(* ===== verification/LiveSimEvents.v ===== *)
(** * Live-sim gateway events ([services/live_sim/live_sim_service.py])

    [handle_live_sim_gateway_event] and the handlers it dispatches to: reports on
    order and cancel commands, executions (also as Kiwoom chejan events), order
    lifecycle events.  An execution is applied once per execution key; it moves
    the order's fill counters and opens, increases, reduces or closes a
    position.  A handler that raises leaves the tables as they were: its caller,
    the lifecycle consumer, rolls the transaction back.

    Parameters: [new_message_id] draws the [n]-th identifier with a prefix;
    [py_repr] is the text of a float or a container; [json_loads] reads a
    metadata text; [sql_sum] is SQLite's sum of reals.  The clock is read once
    per event. *)
From S2P Require Import Prelude PyFloat BrokerUtils WireTime.
From S2P Require Import GatewayModels LiveSimModels LiveSimStore.
From Stdlib Require Import SpecFloat.
From stdpp Require Import pretty.
Local Open Scope Z_scope.

(** ** Values of a payload *)

(** [float(v)]. *)
Definition py_float (v : json) : res float :=
  match v with
  | JInt n => float_of_int n
  | JBool b => Ok (f_of_Z (if b then 1 else 0))
  | JFloat x => Ok x
  | JStr s =>
      match read_float s with
      | Some x => Ok x
      | None => Err (ValueError "could not convert string to float")
      end
  | _ => Err (OtherError "TypeError")
  end.

(** [x or default] for a number column that may be NULL. *)
Definition float_or (v : option float) (d : float) : float :=
  match v with Some x => if f_is_zero x then d else x | None => d end.

(** [SIMULATION_LIKE_MODES] and [is_simulation_like]. *)
Definition SIMULATION_LIKE_MODES : list string :=
  ["SIMULATION"; "MOCK"; "PAPER"; "MOCK_TRADING"; "LIVE_SIM"].
Definition is_simulation_like (value : string) : bool :=
  mem (py_upper (py_strip value)) SIMULATION_LIKE_MODES.

(** The settings the event handlers read. *)
Record EventSettings := {
  live_sim_broker_env : string;
  live_sim_account_mode : string;
  live_sim_server_mode : string;
  live_sim_fee_rate : float;
  live_sim_tax_rate : float
}.

(** What a handler answers. *)
Inductive position_result :=
| position_changed (event_type position_id : string) (remaining_quantity : option Z)
| position_mismatch (position_id : option string).

Inductive outcome :=
| not_handled (reason : string)
| handled (entity : string)
| handled_duplicate (live_sim_order_id : string)
| handled_execution (live_sim_order_id live_sim_execution_id : string) (p : position_result).

Section Handlers.
Context (new_message_id : string -> nat -> string) (py_repr : json -> string)
  (json_loads : string -> res json) (sql_sum : list float -> float).

(** A value bound to a TEXT column. *)
Definition sql_text (v : option json) : res (option string) :=
  match v with
  | None | Some JNull => Ok None
  | Some (JStr s) => Ok (Some s)
  | Some (JInt n) => Ok (Some (pretty n))
  | Some (JBool b) => Ok (Some (if b then "1" else "0"))
  | Some (JFloat x) => Ok (Some (py_repr (JFloat x)))
  | Some _ => Err (OtherError "ProgrammingError")
  end.

(** [str(a or b or default)]. *)
Definition text_or (v : option json) (default : string) : string :=
  match v with Some j => if jtrue j then py_str py_repr j else default | None => default end.

Definition fresh (prefix : string) (s : tables) : string * tables :=
  (new_message_id prefix (serial s), set_serial (S (serial s)) s).

Definition _record_lifecycle_event (event_type entity_type : string)
    (entity_id live_sim_order_id position_id status reason : option string) (s : tables)
    : res tables :=
  let '(id, s) := fresh "live_sim_lifecycle" s in
  let* ty := require_non_empty event_type "event_type" in
  let* en := require_non_empty entity_type "entity_type" in
  let* rows :=
    insert_row (same lv_id)
      {| lv_id := id; lv_event_type := py_upper ty; lv_entity_type := py_upper en;
         lv_entity_id := entity_id; lv_live_sim_order_id := live_sim_order_id;
         lv_position_id := position_id; lv_status := option_map py_upper status;
         lv_reason := reason |} (lifecycle_events s) in
  Ok (set_lifecycle_events rows s).

Definition _record_error (intent_id order_id : option json) (code : option json)
    (error_message : string) (s : tables) : res tables :=
  let* intent_id := sql_text intent_id in
  let* order_id := sql_text order_id in
  let* code :=
    match code with
    | None | Some JNull => Ok None
    | Some v => let* c := validate_stock_code v "code" in Ok (Some c)
    end in
  let s := set_errors (errors s ++ [{| er_live_sim_intent_id := intent_id;
                                       er_live_sim_order_id := order_id; er_code := code;
                                       er_message := error_message |}]) s in
  _record_lifecycle_event "LIFECYCLE_ERROR" "LIVE_SIM_ERROR" None order_id None
    (Some "ERROR") (Some error_message) s.

Definition _insert_position_event (position_id event_type order_id execution_id code : string)
    (quantity_delta : Z) (price realized_pnl : float) (s : tables) : res tables :=
  let '(id, s) := fresh "live_sim_position_event" s in
  let* code :=
    if str_true code then let* c := validate_code code "code" in Ok (Some c) else Ok None in
  let* rows :=
    insert_row (same pe_event_id)
      {| pe_event_id := id; pe_position_id := position_id; pe_event_type := event_type;
         pe_live_sim_order_id := order_id; pe_live_sim_execution_id := execution_id;
         pe_code := code; pe_quantity_delta := quantity_delta; pe_price := price;
         pe_realized_pnl := realized_pnl |} (position_events s) in
  Ok (set_position_events rows s).

(** ** Fills *)

Definition _net_unrealized_pnl (quantity : Z) (avg_entry_price last_price : float)
    (settings : EventSettings) : res float :=
  if quantity <=? 0 then Ok f_zero else
  let* q := float_of_int quantity in
  let gross := f_mul (f_sub last_price avg_entry_price) q in
  let exit_notional := f_mul last_price q in
  Ok (f_sub (f_sub gross (f_mul exit_notional (live_sim_fee_rate settings)))
        (f_mul exit_notional (live_sim_tax_rate settings))).

(** The columns of a position that a fill or a mark to market writes. *)
Definition position_columns (quantity available : Z) (avg entry_notional realized unrealized : float)
    (highest lowest trailing last : option float) (last_at : option string) (st : PS.t)
    (closed_at : option string) (updated_at : string) (p : position_row) : position_row :=
  {| p_position_id := p_position_id p; p_account_id := p_account_id p;
     p_trade_date := p_trade_date p; p_code := p_code p; p_name := p_name p;
     p_quantity := quantity; p_available_quantity := available; p_avg_entry_price := avg;
     p_total_entry_notional := entry_notional; p_realized_pnl := realized;
     p_unrealized_pnl := unrealized; p_highest_price := highest; p_lowest_price := lowest;
     p_trailing_stop_price := trailing; p_opened_at := p_opened_at p; p_closed_at := closed_at;
     p_last_price := last; p_last_price_at := last_at; p_status := st;
     p_source_live_sim_order_id := p_source_live_sim_order_id p;
     p_source_live_sim_intent_id := p_source_live_sim_intent_id p; p_updated_at := updated_at |}.

Definition update_position (id : string) (f : position_row -> position_row) (s : tables)
    : tables :=
  set_positions (update_rows (fun p => String.eqb (p_position_id p) id) f (positions s)) s.

Definition position_status_only (st : PS.t) (updated_at : string) (p : position_row)
    : position_row :=
  position_columns (p_quantity p) (p_available_quantity p) (p_avg_entry_price p)
    (p_total_entry_notional p) (p_realized_pnl p) (p_unrealized_pnl p) (p_highest_price p)
    (p_lowest_price p) (p_trailing_stop_price p) (p_last_price p) (p_last_price_at p) st
    (p_closed_at p) updated_at p.

(** The row [_apply_buy_fill] inserts. *)
Definition opened_position (id : string) (o : order_row) (quantity : Z)
    (price avg entry_cost : float) (executed_at : string) : position_row :=
  {| p_position_id := id; p_account_id := lo_account_id (or_rec o);
     p_trade_date := or_trade_date o; p_code := lo_code (or_rec o);
     p_name := lo_name (or_rec o); p_quantity := quantity; p_available_quantity := quantity;
     p_avg_entry_price := avg; p_total_entry_notional := entry_cost;
     p_realized_pnl := f_zero; p_unrealized_pnl := f_zero; p_highest_price := Some price;
     p_lowest_price := Some price; p_trailing_stop_price := None; p_opened_at := executed_at;
     p_closed_at := None; p_last_price := Some price; p_last_price_at := Some executed_at;
     p_status := PS.OPEN; p_source_live_sim_order_id := order_id o;
     p_source_live_sim_intent_id := lo_live_sim_intent_id (or_rec o);
     p_updated_at := executed_at |}.

(** The row it writes over an open position; the row it read is the one with
    that primary key. *)
Definition increased_position (quantity : Z) (price avg entry_notional : float)
    (executed_at : string) (p : position_row) : position_row :=
  position_columns (p_quantity p + quantity) (p_available_quantity p + quantity) avg
    entry_notional (p_realized_pnl p) (p_unrealized_pnl p)
    (Some (f_max (float_or (p_highest_price p) price) price))
    (Some (f_min (float_or (p_lowest_price p) price) price))
    (p_trailing_stop_price p) (Some price) (Some executed_at) PS.OPEN (p_closed_at p)
    executed_at p.

Definition _apply_buy_fill (o : order_row) (execution_id : string) (quantity : Z) (price : float)
    (executed_at : string) (settings : EventSettings) (s : tables)
    : res (tables * position_result) :=
  let* position :=
    _position_by_account_code s (lo_account_id (or_rec o)) (lo_code (or_rec o)) false in
  let* q := float_of_int quantity in
  let fill_notional := f_mul q price in
  let entry_cost := f_add fill_notional (f_mul fill_notional (live_sim_fee_rate settings)) in
  let* (s, id, status) :=
    match position with
    | None =>
        let '(id, s) := fresh "live_sim_position" s in
        let* avg := f_div entry_cost q in
        let* rows :=
          insert_row (same p_position_id)
            (opened_position id o quantity price avg entry_cost executed_at) (positions s) in
        Ok (set_positions rows s, id, "POSITION_OPENED")
    | Some p =>
        let new_quantity := p_quantity p + quantity in
        let new_notional := f_add (p_total_entry_notional p) entry_cost in
        let* avg :=
          if 0 <? new_quantity
          then let* n := float_of_int new_quantity in f_div new_notional n
          else Ok f_zero in
        Ok (update_position (p_position_id p)
              (increased_position quantity price avg new_notional executed_at) s,
            p_position_id p, "POSITION_INCREASED")
    end in
  let* s := _insert_position_event id status (order_id o) execution_id (lo_code (or_rec o))
              quantity price f_zero s in
  Ok (s, position_changed status id None).

(** The row [_apply_sell_fill] writes. *)
Definition reduced_position (quantity : Z) (price realized_pnl entry_notional unrealized : float)
    (executed_at : string) (p : position_row) : position_row :=
  let new_quantity := p_quantity p - quantity in
  position_columns new_quantity (p_available_quantity p - quantity) (p_avg_entry_price p)
    entry_notional (f_add (p_realized_pnl p) realized_pnl) unrealized
    (Some (f_max (float_or (p_highest_price p) price) price))
    (Some (f_min (float_or (p_lowest_price p) price) price))
    (p_trailing_stop_price p) (Some price) (Some executed_at)
    (if new_quantity =? 0 then PS.CLOSED else PS.CLOSING)
    (if new_quantity =? 0 then Some executed_at else p_closed_at p) executed_at p.

(** The position a sell fill reduces: the one its metadata names, else the
    oldest open or closing one of the account and code. *)
Definition sell_position (s : tables) (o : order_row) (metadata : payload)
    : res (option position_row) :=
  match (if truthy (jget "position_id" metadata)
         then get_live_sim_position s (text_or (jget "position_id" metadata) "") else None) with
  | Some p => Ok (Some p)
  | None => _position_by_account_code s (lo_account_id (or_rec o)) (lo_code (or_rec o)) true
  end.

Definition _apply_sell_fill (o : order_row) (execution_id : string) (quantity : Z) (price : float)
    (executed_at : string) (settings : EventSettings) (metadata : payload) (s : tables)
    : res (tables * position_result) :=
  let intent_id := Some (JStr (lo_live_sim_intent_id (or_rec o))) in
  let code := Some (JStr (lo_code (or_rec o))) in
  let* position := sell_position s o metadata in
  match position with
  | None =>
      let* s := _record_error intent_id (Some (JStr (order_id o))) code
                  "SELL_FILL_POSITION_MISSING" s in
      Ok (s, position_mismatch None)
  | Some p =>
      let available := p_available_quantity p in
      if available <? quantity then
        let* s := _record_error intent_id (Some (JStr (order_id o))) code
                    "SELL_FILL_EXCEEDS_AVAILABLE_QUANTITY" s in
        Ok (update_position (p_position_id p)
              (position_status_only PS.RECONCILE_MISMATCH executed_at) s,
            position_mismatch (Some (p_position_id p)))
      else
        let avg_price := p_avg_entry_price p in
        let* q := float_of_int quantity in
        let gross_realized := f_mul (f_sub price avg_price) q in
        let fee := f_mul (f_mul price q) (live_sim_fee_rate settings) in
        let tax := f_mul (f_mul price q) (live_sim_tax_rate settings) in
        let realized_pnl := f_sub (f_sub gross_realized fee) tax in
        let new_quantity := p_quantity p - quantity in
        let* n := float_of_int new_quantity in
        let* unrealized := _net_unrealized_pnl new_quantity avg_price price settings in
        let s := update_position (p_position_id p)
                   (reduced_position quantity price realized_pnl (f_mul avg_price n) unrealized
                      executed_at) s in
        let event_type := if new_quantity =? 0 then "POSITION_CLOSED" else "POSITION_REDUCED" in
        let* s := _insert_position_event (p_position_id p) event_type (order_id o) execution_id
                    (lo_code (or_rec o)) (- quantity) price realized_pnl s in
        Ok (s, position_changed event_type (p_position_id p) (Some new_quantity))
  end.

(** [_mark_exit_after_sell_fill]; a mismatch carries no remaining quantity, which
    reads as zero. *)
Definition _mark_exit_after_sell_fill (o : order_row) (result : position_result)
    (order_status : OS.t) (s : tables) : res tables :=
  let* exit_intent := _exit_intent_by_order_id s (order_id o) in
  match exit_intent with
  | None => Ok s
  | Some x =>
      let closed :=
        match result with position_changed _ _ (Some n) => n =? 0 | _ => true end in
      let st := if closed then "CLOSED" else "COMMAND_QUEUED" in
      let s := update_exit_intent (xi_exit_intent_id x) (exit_intent_status st) s in
      let s := update_exit_signal (xi_exit_signal_id x) st s in
      Ok (update_order (order_id o)
            (order_status_only (if closed then OS.EXIT_FILLED else order_status)) s)
  end.

(** ** Reports on commands *)

(** [bool(details.get("accepted", True))]. *)
Definition accepted_of (details : payload) : bool :=
  match jget "accepted" details with Some v => jtrue v | None => true end.

Definition intent_in (sts : list IS.t) (x : LiveSimIntent) : bool :=
  bool_decide (li_status x ∈ sts).

Definition _mark_exit_intent_rejected (x : exit_intent) (reasons : list string) (s : tables)
    : res tables :=
  let s := update_exit_intent (xi_exit_intent_id x) (exit_intent_status "REJECTED") s in
  _record_lifecycle_event "EXIT_INTENT_REJECTED" "LIVE_SIM_EXIT_INTENT"
    (Some (xi_exit_intent_id x)) None (Some (xi_position_id x)) (Some "REJECTED")
    (Some (String.concat "," reasons)) s.

(** The reason goes through [",".join], which takes only strings. *)
Definition _mark_exit_intent_by_order_rejected (live_sim_order_id : string) (reason : json)
    (s : tables) : res tables :=
  let* x := _exit_intent_by_order_id s live_sim_order_id in
  match x, reason with
  | None, _ => Ok s
  | Some x, JStr r => _mark_exit_intent_rejected x [r] s
  | Some _, _ => Err (OtherError "TypeError")
  end.

(** [_handle_cancel_command_event]; [event_type] is the lower-case type. *)
Definition _handle_cancel_command_event (event_type : string) (p : payload)
    (c : cancel_intent) (now : Z) (s : tables) : res (tables * outcome) :=
  match get_live_sim_order s (ci_live_sim_order_id c) with
  | None => Ok (s, not_handled "cancel_original_order_missing")
  | Some o =>
      let log ty st reason s :=
        _record_lifecycle_event ty "LIVE_SIM_CANCEL_INTENT" (Some (ci_cancel_intent_id c))
          (Some (order_id o)) None (Some st) (Some reason) s in
      let* s :=
        if String.eqb event_type "command_started" then
          log "CANCEL_COMMAND_STARTED" "COMMAND_DISPATCHED" (ci_reason c) s
        else if String.eqb event_type "command_ack" then
          let* details := _json_object py_repr json_loads (jget "details" p) in
          let accepted := accepted_of details in
          let intent_status := if accepted then "ACKED" else "REJECTED" in
          let s := update_cancel_intent (ci_cancel_intent_id c)
                     (cancel_intent_status intent_status) s in
          let* code := sql_text (jget "broker_result_code" details) in
          let* msg := sql_text (jget "message" p) in
          let s := update_order (order_id o)
                     (order_report (if accepted then OS.CANCELLED else OS.CANCEL_REJECTED)
                        code msg now) s in
          let s :=
            if accepted && (lo_filled_quantity (or_rec o) =? 0)
            then update_intent (lo_live_sim_intent_id (or_rec o)) (fun _ => true)
                   (fun x => intent_columns IS.CANCELLED (li_gateway_command_id x)
                               (li_broker_order_sent x) x) s
            else s in
          log (if accepted then "CANCEL_ACK" else "CANCEL_REJECTED") intent_status
            (ci_reason c) s
        else if String.eqb event_type "command_failed" then
          let s := update_cancel_intent (ci_cancel_intent_id c)
                     (cancel_intent_status "REJECTED") s in
          let* msg := sql_text (jget "error_message" p) in
          let s := update_order (order_id o) (order_report OS.CANCEL_REJECTED None msg now) s in
          log "CANCEL_COMMAND_FAILED" "REJECTED"
            (text_or (jget "error_message" p) "COMMAND_FAILED") s
        else Ok s in
      Ok (s, handled (ci_cancel_intent_id c))
  end.

Definition _handle_live_sim_command_event (e : GatewayEvent) (now : Z) (s : tables)
    : res (tables * outcome) :=
  match ge_command_id e with
  | None => Ok (s, not_handled "missing_command_id")
  | Some command_id =>
      let event_type := py_lower (py_strip (ge_event_type e)) in
      let p := ge_payload e in
      let* order := _order_by_command_id s command_id in
      let* cancel := _cancel_intent_by_command_id s command_id in
      match order with
      | None =>
          match cancel with
          | Some c => _handle_cancel_command_event event_type p c now s
          | None => Ok (s, not_handled "command_not_live_sim")
          end
      | Some o =>
          let* s :=
            if String.eqb event_type "command_started" then
              Ok (update_order (order_id o)
                    (order_started (if decide (order_side o = LiveSimSide.SELL)
                                    then OS.EXIT_COMMAND_QUEUED else OS.COMMAND_DISPATCHED) now) s)
            else if String.eqb event_type "command_ack" then
              let* details := _json_object py_repr json_loads (jget "details" p) in
              let accepted := accepted_of details in
              let status := if accepted then OS.BROKER_ACKED else OS.BROKER_REJECTED in
              let* no := sql_text (or_else (jget "broker_order_no" details)
                                           (jget "broker_order_id" details)) in
              let* code := sql_text (jget "broker_result_code" details) in
              let* msg := sql_text (jget "message" p) in
              let s := update_order (order_id o) (order_acked status no code msg now) s in
              let s :=
                if accepted
                then update_intent (lo_live_sim_intent_id (or_rec o)) (fun _ => true)
                       (fun x => intent_columns (li_status x) (li_gateway_command_id x) true x) s
                else s in
              _record_lifecycle_event
                (if accepted then "ORDER_BROKER_ACK" else "ORDER_BROKER_REJECT") "LIVE_SIM_ORDER"
                (Some (order_id o)) (Some (order_id o)) None (Some (OS.value status))
                (Some (text_or (jget "broker_result_code" details) "")) s
            else if String.eqb event_type "command_failed" then
              let* msg := sql_text (jget "error_message" p) in
              let s := update_order (order_id o) (order_report OS.FAILED None msg now) s in
              let s :=
                if decide (order_side o = LiveSimSide.BUY)
                then update_intent (lo_live_sim_intent_id (or_rec o))
                       (intent_in [IS.CREATED; IS.COMMAND_QUEUED])
                       (fun x => intent_columns IS.REJECTED (li_gateway_command_id x) false x) s
                else s in
              let* s :=
                if decide (order_side o = LiveSimSide.SELL)
                then _mark_exit_intent_by_order_rejected (order_id o)
                       (match or_else (jget "error_message" p) None with
                        | Some v => v
                        | None => JStr "COMMAND_FAILED"
                        end) s
                else Ok s in
              _record_lifecycle_event "ORDER_COMMAND_FAILED" "LIVE_SIM_ORDER"
                (Some (order_id o)) (Some (order_id o)) None (Some "FAILED")
                (Some (text_or (jget "error_message" p) "COMMAND_FAILED")) s
            else Ok s in
          Ok (s, handled (order_id o))
      end
  end.

(** ** Executions *)

Definition _execution_key (o : order_row) (p : payload) (e : GatewayEvent) : string :=
  let explicit := or_else (or_else (jget "execution_id" p) (jget "broker_execution_id" p))
                    (jget "chejan_execution_id" p) in
  if truthy explicit
  then "broker-exec:" +:+ order_id o +:+ ":" +:+ text_or explicit ""
  else String.concat ":"
    ["broker-exec"; order_id o;
     text_or (or_else (jget "broker_order_no" p) (jget "broker_order_id" p)) "";
     text_or (jget "side" p) ""; text_or (jget "quantity" p) ""; text_or (jget "price" p) "";
     text_or (jget "executed_at" p) (datetime_to_wire (ge_ts e))].

(** The values an execution event is read into. *)
Record fill := {
  fill_quantity : Z;
  fill_price : float;
  fill_remaining : Z;
  fill_status : OS.t
}.

(** [quantity], [price], the remaining quantity (from the event, or what is left
    of the order) and the status that follows from it. *)
Definition read_fill (o : order_row) (p : payload) : res fill :=
  let* quantity := (let* v := item p "quantity" in py_int v) in
  let* price := (let* v := item p "price" in py_float v) in
  let* remaining :=
    match jget "remaining_quantity" p with
    | None | Some JNull => Ok (Z.max (lo_remaining_quantity (or_rec o) - quantity) 0)
    | Some v => py_int v
    end in
  Ok {| fill_quantity := quantity; fill_price := price; fill_remaining := remaining;
        fill_status := if remaining =? 0 then OS.FILLED else OS.PARTIALLY_FILLED |}.

(** [_average_fill_price]. *)
Definition executions_of (order : string) (s : tables) : list execution_row :=
  List.filter (fun e => is_some_text (le_live_sim_order_id (ex_rec e)) order) (executions s).
Definition sum_quantity (es : list execution_row) : Z :=
  foldr (fun e n => le_quantity (ex_rec e) + n) 0 es.
Definition _average_fill_price (order : string) (s : tables) : res float :=
  let es := executions_of order s in
  let quantity := sum_quantity es in
  if quantity =? 0 then Ok f_zero else
  let* q := float_of_int quantity in
  f_div (sql_sum (map (fun e => f_mul (le_price (ex_rec e)) (f_of_Z (le_quantity (ex_rec e)))) es)) q.

(** The execution record of the event, with its keys. *)
Definition execution_of_event (o : order_row) (e : GatewayEvent) (f : fill) (id : string)
    (broker_order_no : option json) : res execution_row :=
  let p := ge_payload e in
  let* code := item p "code" in
  let* side := item p "side" in
  let* executed_at := item p "executed_at" in
  let* q := float_of_int (fill_quantity f) in
  let* rec :=
    LiveSimExecutionRecord_post_init
      {| ea_live_sim_execution_id := JStr id; ea_live_sim_order_id := JStr (order_id o);
         ea_live_sim_intent_id := JStr (lo_live_sim_intent_id (or_rec o));
         ea_broker_order_no :=
           if truthy broker_order_no then JStr (text_or broker_order_no "")
           else opt_str (lo_broker_order_no (or_rec o));
         ea_account_id := JStr (text_or (jget "account_id" p) (lo_account_id (or_rec o)));
         ea_code := JStr (py_str py_repr code); ea_side := JStr (py_str py_repr side);
         ea_quantity := JInt (fill_quantity f); ea_price := JFloat (fill_price f);
         ea_notional := JFloat (f_mul (fill_price f) q); ea_executed_at := text executed_at;
         ea_raw_event_json := JObj p |} in
  Ok {| ex_rec := rec;
        ex_broker_execution_id :=
          text_or (or_else (jget "execution_id" p) (jget "broker_execution_id" p)) "";
        ex_execution_key := _execution_key o p e |}.

(** The mode of the event, its metadata first, then its payload, then the
    settings. *)
Definition event_mode (metadata p : payload) (key default : string) : string :=
  text_or (or_else (jget key metadata) (jget key p)) default.

(** The order an execution belongs to: by broker order number, then by
    command. *)
Definition order_of_execution (e : GatewayEvent) (metadata : payload) (s : tables)
    : res (option order_row) :=
  let p := ge_payload e in
  let broker_order_no := or_else (jget "broker_order_id" p) (jget "broker_order_no" p) in
  let* order :=
    if truthy broker_order_no
    then _order_by_broker_order_no s (text_or broker_order_no "") else Ok None in
  match order with
  | Some o => Ok (Some o)
  | None =>
      let command_id := or_else (option_map JStr (ge_command_id e))
                          (jget "gateway_command_id" metadata) in
      if truthy command_id then _order_by_command_id s (text_or command_id "") else Ok None
  end.

Definition duplicate_execution (o : order_row) (s : tables) : res (tables * outcome) :=
  let* s := _record_lifecycle_event "DUPLICATE_EXECUTION_EVENT_IGNORED" "LIVE_SIM_ORDER"
              (Some (order_id o)) (Some (order_id o)) None (Some (OS.value (order_status o)))
              (Some "DUPLICATE_EXECUTION_EVENT") s in
  Ok (s, handled_duplicate (order_id o)).

Definition result_position (r : position_result) : option string :=
  match r with position_changed _ id _ => Some id | position_mismatch id => id end.

(** The execution is new: record it, move the order's counters, then the
    position. *)
Definition apply_execution (o : order_row) (e : GatewayEvent) (metadata : payload)
    (settings : EventSettings) (now : Z) (s : tables) : res (tables * outcome) :=
  let p := ge_payload e in
  let* f := read_fill o p in
  let '(id, s) := fresh "live_sim_execution" s in
  let* x := execution_of_event o e f id
              (or_else (jget "broker_order_id" p) (jget "broker_order_no" p)) in
  let* rows :=
    insert_row (fun a b => same (fun r => le_live_sim_execution_id (ex_rec r)) a b ||
                           same ex_execution_key a b) x (executions s) in
  let s := set_executions rows s in
  let* avg := _average_fill_price (order_id o) s in
  let s := update_order (order_id o)
             (order_filled (fill_status f) (lo_filled_quantity (or_rec o) + fill_quantity f)
                (fill_remaining f) avg now) s in
  let* executed_at := (let* v := item p "executed_at" in Ok (py_str py_repr v)) in
  let* (s, r) :=
    if decide (order_side o = LiveSimSide.BUY)
    then _apply_buy_fill o id (fill_quantity f) (fill_price f) executed_at settings s
    else
      let* (s, r) := _apply_sell_fill o id (fill_quantity f) (fill_price f) executed_at settings
                       metadata s in
      let* s := _mark_exit_after_sell_fill o r (fill_status f) s in
      Ok (s, r) in
  let* s := _record_lifecycle_event "EXECUTION_EVENT_APPLIED" "LIVE_SIM_ORDER"
              (Some (order_id o)) (Some (order_id o)) (result_position r)
              (Some (OS.value (fill_status f))) (Some "FILL_EVENT_RECEIVED") s in
  Ok (s, handled_execution (order_id o) id r).

Definition _handle_live_sim_execution_event (e : GatewayEvent) (settings : EventSettings)
    (now : Z) (s : tables) : res (tables * outcome) :=
  let p := ge_payload e in
  let* metadata := _json_object py_repr json_loads (jget "metadata" p) in
  if negb (is_simulation_like (event_mode metadata p "broker_env" (live_sim_broker_env settings)) &&
           is_simulation_like (event_mode metadata p "account_mode" (live_sim_account_mode settings)) &&
           is_simulation_like (event_mode metadata p "server_mode" (live_sim_server_mode settings)))
  then
    let* s := _record_error (jget "live_sim_intent_id" metadata)
                (jget "live_sim_order_id" metadata) (jget "code" p) "ACCOUNT_NOT_SIMULATION" s in
    Ok (s, not_handled "ACCOUNT_NOT_SIMULATION")
  else
    let* order := order_of_execution e metadata s in
    match order with
    | None =>
        let* s := _record_error (jget "live_sim_intent_id" metadata) None (jget "code" p)
                    "RECONCILE_REQUIRED" s in
        Ok (s, not_handled "RECONCILE_REQUIRED")
    | Some o =>
        let* applied := _execution_already_applied s (_execution_key o p e) in
        if applied then duplicate_execution o s else apply_execution o e metadata settings now s
    end.

(** ** Order lifecycle and chejan events *)

Definition _handle_live_sim_order_lifecycle_event (e : GatewayEvent) (now : Z) (s : tables)
    : res (tables * outcome) :=
  let p := ge_payload e in
  let event_type := py_lower (py_strip (ge_event_type e)) in
  let* metadata := _json_object py_repr json_loads (jget "metadata" p) in
  let* order :=
    match ge_command_id e with
    | Some c => _order_by_command_id s c
    | None => Ok None
    end in
  let broker_order_no := or_else (jget "broker_order_no" p) (jget "broker_order_id" p) in
  let* order :=
    match order with
    | Some o => Ok (Some o)
    | None =>
        if truthy broker_order_no
        then _order_by_broker_order_no s (text_or broker_order_no "") else Ok None
    end in
  let* cancel :=
    match ge_command_id e with
    | Some c => _cancel_intent_by_command_id s c
    | None => Ok None
    end in
  match (if mem event_type ["cancel_ack"; "cancel_rejected"] then cancel else None) with
  | Some c =>
      let '(_, s) := fresh "evt" s in
      _handle_cancel_command_event
        (if String.eqb event_type "cancel_ack" then "command_ack" else "command_failed") p c now s
  | None =>
      match order with
      | None =>
          let* s := _record_error (jget "live_sim_intent_id" metadata)
                      (jget "live_sim_order_id" metadata) (jget "code" p)
                      "RECONCILE_REQUIRED" s in
          Ok (s, not_handled "RECONCILE_REQUIRED")
      | Some o =>
          let status := if mem event_type ["order_rejected"; "cancel_rejected"]
                        then OS.BROKER_REJECTED else OS.CANCELLED in
          let message := or_else (jget "broker_message" p) (jget "message" p) in
          let* code := sql_text (jget "broker_result_code" p) in
          let* msg := sql_text message in
          let s := update_order (order_id o) (order_report status code msg now) s in
          let* s := _record_lifecycle_event (py_upper event_type) "LIVE_SIM_ORDER"
                      (Some (order_id o)) (Some (order_id o)) None (Some (OS.value status))
                      (Some (text_or message event_type)) s in
          Ok (s, handled (order_id o))
      end
  end.

(** The execution event a chejan event with a fill stands for. *)
Definition chejan_execution (id : string) (e : GatewayEvent) (quantity : Z) (price : float) (now : Z)
    : GatewayEvent :=
  let p := ge_payload e in
  let pick v d := match v with Some j => if jtrue j then j else d | None => d end in
  {| ge_event_type := "execution_event";
     ge_payload :=
       p ++ [("execution_id",
              pick (or_else (or_else (jget "execution_id" p) (jget "broker_execution_id" p))
                      (jget "chejan_execution_id" p)) (JStr (ge_event_id e)));
             ("quantity", JInt quantity); ("price", JFloat price);
             ("executed_at", pick (or_else (jget "executed_at" p) (jget "event_ts" p))
                               (JStr (datetime_to_wire (ge_ts e))))];
     ge_event_id := id; ge_source := ge_source e; ge_ts := now; ge_command_id := ge_command_id e;
     ge_idempotency_key := ge_idempotency_key e |}.

Definition _handle_live_sim_chejan_event (e : GatewayEvent) (settings : EventSettings) (now : Z)
    (s : tables) : res (tables * outcome) :=
  let p := ge_payload e in
  let quantity := or_else (jget "quantity" p) (jget "execution_quantity" p) in
  let price := or_else (jget "price" p) (jget "execution_price" p) in
  let* n := if truthy quantity
            then match quantity with Some v => py_int v | None => Ok 0 end else Ok 0 in
  match (if (0 <? n) && truthy price then price else None) with
  | Some v =>
      let '(id, s) := fresh "evt" s in
      let* x := py_float v in
      _handle_live_sim_execution_event (chejan_execution id e n x now) settings now s
  | None =>
      let* s := _record_lifecycle_event "KIWOOM_ORDER_CHEJAN_OBSERVED" "CHEJAN"
                  (Some (ge_event_id e)) None None
                  (Some (py_upper (text_or (jget "order_status" p) "OBSERVED")))
                  (Some "CHEJAN_NON_FILL") s in
      Ok (s, handled (ge_event_id e))
  end.
End Handlers.
