(* ===== verification/LiveSimLedger.v ===== *)
(** * The position ledger of the live-sim store

    What the event handlers of [LiveSimEvents] keep true of orders, executions
    and positions, whatever the gateway reports and in whatever order: a position
    holds exactly the sum of its position events, all of it available, never
    negative; an order has filled what its executions add up to; executions are
    applied once.  [holdings] is the specification: what an account holds of a
    code, moved by fills. *)
From S2P Require Import Prelude PyFloat BrokerUtils WireTime.
From S2P Require Import GatewayModels LiveSimModels LiveSimStore LiveSimEvents.
From Stdlib Require Import SpecFloat.
Local Open Scope Z_scope.

(** ** Sums over a table *)

Definition zsum {A} (f : A -> Z) (l : list A) : Z := foldr (fun a n => f a + n) 0 l.

Lemma zsum_app {A} (f : A -> Z) l k : zsum f (l ++ k) = zsum f l + zsum f k.
Proof. induction l as [|a l IH]; simpl; [done|]. rewrite IH. lia. Qed.

Lemma zsum_ext {A} (f g : A -> Z) l : (forall a, a ∈ l -> f a = g a) -> zsum f l = zsum g l.
Proof.
  induction l as [|a l IH]; simpl; intros H; [done|].
  rewrite H by left. rewrite IH; [done|]. intros b Hb. apply H. by right.
Qed.

Lemma zsum_zero {A} (f : A -> Z) l : (forall a, a ∈ l -> f a = 0) -> zsum f l = 0.
Proof.
  intros H. rewrite (zsum_ext f (fun _ => 0)) by done. clear H.
  induction l; simpl; lia.
Qed.

Lemma zsum_cons {A} (f : A -> Z) a l : zsum f (a :: l) = f a + zsum f l.
Proof. done. Qed.

Lemma zsum_snoc {A} (f : A -> Z) l a : zsum f (l ++ [a]) = zsum f l + f a.
Proof. rewrite zsum_app. simpl. lia. Qed.
#[global] Arguments zsum : simpl never.

(** ** Tables as lists of rows *)

Lemma elem_of_update_rows {A} (p : A -> bool) f (l : list A) r :
  r ∈ update_rows p f l <-> exists r0, r0 ∈ l /\ r = (if p r0 then f r0 else r0).
Proof. unfold update_rows. rewrite list_elem_of_fmap. naive_solver. Qed.

Lemma map_update_rows {A B} (g : A -> B) (p : A -> bool) f (l : list A) :
  (forall r, g (f r) = g r) -> map g (update_rows p f l) = map g l.
Proof.
  intros H. unfold update_rows. rewrite map_map. apply map_ext. intros r.
  destruct (p r); [apply H|done].
Qed.

Lemma insert_row_ok {A} (clash : A -> A -> bool) r l l' :
  insert_row clash r l = Ok l' <-> l' = l ++ [r] /\ (forall r0, r0 ∈ l -> clash r r0 = false).
Proof.
  unfold insert_row. destruct (existsb (clash r) l) eqn:E.
  - split; [done|]. intros [_ H]. apply existsb_exists in E as (r0 & Hr0 & Hc).
    rewrite H in Hc; [done|]. by apply list_elem_of_In.
  - split; [intros [= <-]|intros [-> _]; done]. split; [done|]. intros r0 Hr0.
    apply not_true_iff_false. intros Hc. apply not_true_iff_false in E. apply E, existsb_exists.
    exists r0. by rewrite <- list_elem_of_In.
Qed.

Lemma find_elem {A} (p : A -> bool) (l : list A) r : find p l = Some r -> r ∈ l /\ p r = true.
Proof. intros H%find_some. by rewrite list_elem_of_In. Qed.

Lemma NoDup_map_snoc {A B} (g : A -> B) l r :
  NoDup (map g l) -> (forall r0, r0 ∈ l -> g r <> g r0) -> NoDup (map g (l ++ [r])).
Proof.
  intros Hl Hr. rewrite map_app. apply list.NoDup_app. split_and!; [done| |apply NoDup_singleton].
  intros b (r0 & -> & Hr0)%list_elem_of_fmap. simpl. rewrite list_elem_of_singleton.
  intros E. by apply (Hr r0).
Qed.

(** ** The invariant *)

(** The account and the code of an order. *)
Definition order_account (o : order_row) : string := lo_account_id (or_rec o).
Definition order_code (o : order_row) : string := lo_code (or_rec o).

(** What an order's row says of its fills, next to its identity. *)
Record order_view := {
  v_id : string;
  v_filled : Z;
  v_account : string;
  v_code : string;
  v_side : LiveSimSide.t
}.
Definition fill_view (r : order_row) : order_view :=
  {| v_id := order_id r; v_filled := lo_filled_quantity (or_rec r);
     v_account := order_account r; v_code := order_code r; v_side := order_side r |}.

Definition delta_of (id : string) (e : position_event) : Z :=
  if String.eqb (pe_position_id e) id then pe_quantity_delta e else 0.
Definition fills_of (id : string) (e : execution_row) : Z :=
  if is_some_text (le_live_sim_order_id (ex_rec e)) id then le_quantity (ex_rec e) else 0.

Record position_ok (events : list position_event) (p : position_row) : Prop := {
  position_available : p_available_quantity p = p_quantity p;
  position_not_short : 0 <= p_quantity p;
  position_closed : p_status p = PS.CLOSED -> p_quantity p = 0;
  position_live : p_status p = PS.OPEN \/ p_status p = PS.CLOSING -> 0 < p_quantity p;
  position_sum : p_quantity p = zsum (delta_of (p_position_id p)) events
}.

Record book_ok (s : tables) : Prop := {
  position_ids : NoDup (map p_position_id (positions s));
  positions_ok : forall p, p ∈ positions s -> position_ok (position_events s) p;
  events_have_position :
    forall e, e ∈ position_events s -> pe_position_id e ∈ map p_position_id (positions s)
}.

Record fills_ok (s : tables) : Prop := {
  order_ids : NoDup (map order_id (orders s));
  orders_typed :
    forall v, v ∈ map fill_view (orders s) ->
    is_text_field (v_id v) /\ is_text_field (v_account v) /\ is_code_field (v_code v);
  orders_filled :
    forall v, v ∈ map fill_view (orders s) -> v_filled v = zsum (fills_of (v_id v)) (executions s);
  executions_have_order :
    forall x, x ∈ executions s ->
    1 <= le_quantity (ex_rec x) /\
    exists id, le_live_sim_order_id (ex_rec x) = Some id /\ id ∈ map order_id (orders s);
  execution_keys : NoDup (map ex_execution_key (executions s))
}.

Definition ledger_ok (s : tables) : Prop := book_ok s /\ fills_ok s.

(** What happens to an intent: what it asks for stays; once it has left CREATED it
    does not come back, and keeps its command. *)
Definition intent_view (x : LiveSimIntent) :=
  (li_live_sim_intent_id x, li_candidate_instance_id x, li_trade_date x, li_account_id x, li_code x,
   li_order_plan_id x, li_side x, li_order_type x, li_quantity x, li_limit_price x, li_notional x,
   li_idempotency_key x, li_created_at x, li_expires_at x).
Record evolves (x y : LiveSimIntent) : Prop := {
  evolves_view : intent_view y = intent_view x;
  evolves_created : li_status y = IS.CREATED -> li_status x = IS.CREATED;
  evolves_command :
    li_status x <> IS.CREATED -> li_gateway_command_id y = li_gateway_command_id x
}.

#[export] Instance evolves_preorder : PreOrder evolves.
Proof.
  split; [by constructor|]. intros x y z [] []. constructor; [congruence|auto|].
  intros H. transitivity (li_gateway_command_id y); auto.
Qed.

(** Rows are changed in place or added; identifiers stay unique. *)
Record forward (s s' : tables) : Prop := {
  forward_rows : exists news olds, intents s' = olds ++ news /\ Forall2 evolves (intents s) olds;
  forward_ids :
    NoDup (map li_live_sim_intent_id (intents s)) -> NoDup (map li_live_sim_intent_id (intents s'))
}.

Lemma forward_same s s' : intents s' = intents s -> forward s s'.
Proof.
  intros E. constructor; rewrite E; [|done]. exists [], (intents s). by rewrite app_nil_r.
Qed.

#[export] Instance forward_preorder : PreOrder forward.
Proof.
  split; [intros s; by apply forward_same|].
  intros s1 s2 s3 [(n1 & o1 & E1 & F1) U1] [(n2 & o2 & E2 & F2) U2]. constructor; [|auto].
  rewrite E1 in F2. apply Forall2_app_inv_l in F2 as (oa & ob & Fa & Fb & ->).
  exists (ob ++ n2), oa. split; [by rewrite E2, <- app_assoc|]. by etrans.
Qed.

Lemma evolves_id x y : evolves x y -> li_live_sim_intent_id y = li_live_sim_intent_id x.
Proof. intros [H _ _]. by injection H. Qed.

(** Steps that leave the ledger alone. *)
Record keeps (s s' : tables) : Prop := {
  keeps_positions : positions s' = positions s;
  keeps_events : position_events s' = position_events s;
  keeps_executions : executions s' = executions s;
  keeps_orders : map fill_view (orders s') = map fill_view (orders s);
  keeps_forward : forward s s'
}.
(** For a step that touches none of these tables. *)
Ltac kept := constructor; [done..|by apply forward_same].

Lemma ledger_keeps_refl s : keeps s s.
Proof. kept. Qed.

Lemma keeps_trans s1 s2 s3 : keeps s1 s2 -> keeps s2 s3 -> keeps s1 s3.
Proof. intros [] []. constructor; [congruence..|by etrans]. Qed.

Lemma fill_view_ids rs : map order_id rs = map v_id (map fill_view rs).
Proof. rewrite map_map. by apply map_ext. Qed.

Lemma keeps_ok s s' : keeps s s' -> ledger_ok s -> ledger_ok s'.
Proof.
  intros [Hp He Hx Ho _] [[] []].
  split; constructor; rewrite ?Hp, ?He, ?Hx, ?fill_view_ids, ?Ho, <- ?fill_view_ids; done.
Qed.

Lemma update_order_keeps id f s :
  (forall x d, fill_view {| or_rec := f x; or_trade_date := d |} =
               fill_view {| or_rec := x; or_trade_date := d |}) ->
  keeps s (update_order id f s).
Proof.
  intros H. constructor; [done..| |by apply forward_same]. cbn. apply map_update_rows.
  intros [x d]. apply H.
Qed.

Lemma update_intent_forward id p f s :
  (forall x, p x = true -> evolves x (f x)) -> forward s (update_intent id p f s).
Proof.
  intros H. constructor; cbn; unfold update_rows.
  - eexists [], _. split; [by rewrite app_nil_r|]. induction (intents s) as [|x xs IH]; [done|].
    cbn [map]. constructor; [|done]. destruct (p x) eqn:E; rewrite ?andb_false_r; [|done].
    destruct (String.eqb _ id); cbn; [by apply H|done].
  - rewrite map_map. intros Hnd. erewrite map_ext; [exact Hnd|]. intros x. cbn beta.
    destruct (_ && p x) eqn:E; [|done]. apply andb_true_iff in E as [_ E]. by apply evolves_id, H.
Qed.

Lemma update_intent_keeps id p f s :
  (forall x, p x = true -> evolves x (f x)) -> keeps s (update_intent id p f s).
Proof. intros H. constructor; [done..|by apply update_intent_forward]. Qed.
Lemma update_exit_intent_keeps id f s : keeps s (update_exit_intent id f s).
Proof. kept. Qed.
Lemma update_exit_signal_keeps id st s : keeps s (update_exit_signal id st s).
Proof. kept. Qed.
Lemma update_cancel_intent_keeps id f s : keeps s (update_cancel_intent id f s).
Proof. kept. Qed.

(** ** Fills *)

(** What a fill leaves alone. *)
Definition same_fills (s s' : tables) : Prop :=
  map fill_view (orders s') = map fill_view (orders s) /\ executions s' = executions s.

Lemma same_fills_ok s s' : same_fills s s' -> fills_ok s -> fills_ok s'.
Proof.
  intros [Ho Hx] []. constructor; rewrite ?Hx, ?fill_view_ids, ?Ho, <- ?fill_view_ids; done.
Qed.

Lemma keeps_fills s s' : keeps s s' -> same_fills s s'.
Proof. by intros []. Qed.

Lemma same_fills_trans s1 s2 s3 : same_fills s1 s2 -> same_fills s2 s3 -> same_fills s1 s3.
Proof. intros [] []. split; congruence. Qed.

Lemma delta_of_same id e : pe_position_id e = id -> delta_of id e = pe_quantity_delta e.
Proof. unfold delta_of. intros ->. by rewrite String.eqb_refl. Qed.

Lemma delta_of_other id e : pe_position_id e <> id -> delta_of id e = 0.
Proof. unfold delta_of. intros H%String.eqb_neq. by rewrite H. Qed.

(** Changing one position and logging the change keeps the book, when the change
    keeps the row's own conditions and moves its quantity by what is logged. *)
Lemma change_position_ok s s' p f e :
  book_ok s -> p ∈ positions s -> pe_position_id e = p_position_id p ->
  positions s' = positions (update_position (p_position_id p) f s) ->
  position_events s' = position_events s ++ [e] ->
  p_position_id (f p) = p_position_id p ->
  (position_ok (position_events s) p -> position_ok (position_events s') (f p)) ->
  book_ok s'.
Proof.
  intros [Hid Hpos Hev] Hp He Hps Hes Hfid Hf.
  assert (map p_position_id (positions s') = map p_position_id (positions s)) as Hids.
  { rewrite Hps. cbn. unfold update_rows. rewrite map_map. apply map_ext_in.
    intros r Hr%list_elem_of_In. destruct (String.eqb_spec (p_position_id r) (p_position_id p)) as [E|];
      [|done].
    by rewrite (NoDup_map_inj _ _ r p Hid Hr Hp E). }
  constructor; rewrite ?Hids; [done| |].
  - intros r Hr. rewrite Hps in Hr. cbn in Hr. apply elem_of_update_rows in Hr as (r0 & Hr0 & ->).
    destruct (String.eqb_spec (p_position_id r0) (p_position_id p)) as [E|E].
    + rewrite (NoDup_map_inj _ _ r0 p Hid Hr0 Hp E). by apply Hf, Hpos.
    + destruct (Hpos r0 Hr0). constructor; try done.
      rewrite Hes, zsum_snoc, delta_of_other by congruence. lia.
  - intros x Hx. rewrite Hes in Hx. apply elem_of_app in Hx as [Hx|Hx]; [by apply Hev|].
    apply list_elem_of_singleton in Hx as ->. rewrite He. by apply list_elem_of_fmap_2.
Qed.

(** Opening a position under a new identifier. *)
Lemma open_position_ok s s' p e :
  book_ok s -> (forall r, r ∈ positions s -> p_position_id p <> p_position_id r) ->
  pe_position_id e = p_position_id p -> pe_quantity_delta e = p_quantity p ->
  positions s' = positions s ++ [p] -> position_events s' = position_events s ++ [e] ->
  p_available_quantity p = p_quantity p -> 0 < p_quantity p -> p_status p <> PS.CLOSED ->
  book_ok s'.
Proof.
  intros [Hid Hpos Hev] Hnew He Hd Hps Hes Ha Hq Hst. constructor.
  - rewrite Hps. by apply NoDup_map_snoc.
  - intros r Hr. rewrite Hps in Hr. rewrite Hes. apply elem_of_app in Hr as [Hr|Hr].
    + destruct (Hpos r Hr). constructor; try done. rewrite zsum_snoc, delta_of_other; [lia|].
      rewrite He. by apply Hnew.
    + apply list_elem_of_singleton in Hr as ->. constructor; [done|lia|done|lia|].
      rewrite zsum_snoc, delta_of_same, Hd by done.
      rewrite zsum_zero; [lia|]. intros x Hx. apply delta_of_other. intros E.
      specialize (Hev x Hx). apply list_elem_of_fmap in Hev as (r & Hr & Hr').
      apply (Hnew r Hr'). congruence.
  - intros x Hx. rewrite Hes in Hx. rewrite Hps, map_app. apply elem_of_app.
    apply elem_of_app in Hx as [Hx|Hx]; [left; by apply Hev|right].
    apply list_elem_of_singleton in Hx as ->. simpl. rewrite He. by apply list_elem_of_singleton.
Qed.

(** The row the account and code select is a row of the table with them. *)
Lemma position_by_account_code_ok s account code closing p :
  _position_by_account_code s account code closing = Ok (Some p) ->
  p ∈ positions s /\ p_account_id p = account /\ validate_code code "code" = Ok (p_code p) /\
  p_status p <> PS.CLOSED.
Proof.
  unfold _position_by_account_code. intros H. bind_inv H. injection H as H.
  apply head_Some_elem_of in H. apply elem_of_stable_sort in H.
  apply list_elem_of_In, filter_In in H as [Hin Hp]. rewrite <- list_elem_of_In in Hin.
  apply andb_true_iff in Hp as [[Hacc%String.eqb_eq Hc%String.eqb_eq]%andb_true_iff
                               Hst%bool_decide_eq_true_1].
  split_and!; [done..|congruence|]. intros E. rewrite E in Hst. destruct closing; set_solver.
Qed.

Lemma keeps_book s s' : keeps s s' -> book_ok s -> book_ok s'.
Proof. intros [Hp He _ _ _] []. by constructor; rewrite ?Hp, ?He. Qed.

(** Marking a position changes neither its quantity nor what may be sold. *)
Lemma mark_mismatch_ok id at' s :
  book_ok s -> book_ok (update_position id (position_status_only PS.RECONCILE_MISMATCH at') s).
Proof.
  intros [Hid Hpos Hev].
  assert (map p_position_id (positions (update_position id
    (position_status_only PS.RECONCILE_MISMATCH at') s)) = map p_position_id (positions s)) as Hids.
  { cbn. by apply map_update_rows. }
  constructor; rewrite ?Hids; [done| |done].
  intros r Hr. cbn in Hr. apply elem_of_update_rows in Hr as (r0 & Hr0 & ->).
  destruct (Hpos r0 Hr0) as [Ha Hn Hc Hl Hs]. destruct (String.eqb _ _); [|done].
  constructor; cbn; [done..|by intros [|]|done].
Qed.

Lemma order_by_command_ok s c o : _order_by_command_id s c = Ok (Some o) -> o ∈ orders s.
Proof.
  unfold _order_by_command_id. intros H. bind_inv H. injection H as H. by apply find_elem in H as [].
Qed.

Lemma order_by_broker_no_ok s c o : _order_by_broker_order_no s c = Ok (Some o) -> o ∈ orders s.
Proof.
  unfold _order_by_broker_order_no. intros H. bind_inv H. injection H as H.
  by apply find_elem in H as [].
Qed.

(** Recording an execution of [o] and moving its counters. *)
Lemma record_fill_ok s o x st rem avg now :
  fills_ok s -> o ∈ orders s -> 1 <= le_quantity (ex_rec x) ->
  le_live_sim_order_id (ex_rec x) = Some (order_id o) ->
  (forall x0, x0 ∈ executions s -> ex_execution_key x <> ex_execution_key x0) ->
  fills_ok (update_order (order_id o)
              (order_filled st (lo_filled_quantity (or_rec o) + le_quantity (ex_rec x)) rem avg now)
              (set_executions (executions s ++ [x]) s)).
Proof.
  intros [Hids Htyp Hfill Hex Hkeys] Ho Hq Hid Hnew.
  set (s' := update_order _ _ _).
  assert (map order_id (orders s') = map order_id (orders s)) as Hids'.
  { cbn. by apply map_update_rows. }
  assert (forall v, v ∈ map fill_view (orders s') -> exists r, r ∈ orders s /\
    v_id v = order_id r /\ v_account v = order_account r /\ v_code v = order_code r /\
    v_filled v = (if String.eqb (order_id r) (order_id o)
                  then lo_filled_quantity (or_rec o) + le_quantity (ex_rec x)
                  else lo_filled_quantity (or_rec r))) as Hview.
  { intros v (r & -> & Hr)%list_elem_of_fmap. cbn in Hr.
    apply elem_of_update_rows in Hr as (r0 & Hr0 & ->). exists r0.
    by destruct (String.eqb (order_id r0) (order_id o)). }
  constructor; rewrite ?Hids'; [exact Hids| | | |].
  - intros v (r & Hr & -> & -> & -> & _)%Hview.
    apply (Htyp (fill_view r)). by apply list_elem_of_fmap_2.
  - intros v (r & Hr & -> & _ & _ & ->)%Hview. cbn. rewrite zsum_snoc.
    unfold fills_of at 2. rewrite Hid. cbn.
    destruct (String.eqb_spec (order_id r) (order_id o)) as [E|E].
    + rewrite E, String.eqb_refl.
      pose proof (Hfill _ (list_elem_of_fmap_2 fill_view _ _ Ho)) as Hf. cbn in Hf. lia.
    + destruct (String.eqb_spec (order_id o) (order_id r)); [congruence|].
      pose proof (Hfill _ (list_elem_of_fmap_2 fill_view _ _ Hr)) as Hf. cbn in Hf. lia.
  - intros x0 Hx0. cbn in Hx0. apply elem_of_app in Hx0 as [Hx0|Hx0]; [by apply Hex|].
    apply list_elem_of_singleton in Hx0 as ->. split; [done|]. exists (order_id o).
    split; [done|]. by apply list_elem_of_fmap_2.
  - cbn. by apply NoDup_map_snoc.
Qed.

Lemma serial_keeps n s : keeps s (set_serial n s).
Proof. kept. Qed.

(** ** The handlers *)

Section Preservation.
Context (new_message_id : string -> nat -> string) (py_repr : json -> string)
  (json_loads : string -> res json) (sql_sum : list float -> float).

Abbreviation lifecycle := (_record_lifecycle_event new_message_id).

Lemma lifecycle_keeps ty en eid oid pid st rs s s' :
  lifecycle ty en eid oid pid st rs s = Ok s' -> keeps s s'.
Proof.
  unfold _record_lifecycle_event, fresh. intros H. bind_inv H. injection H as <-. kept.
Qed.

Lemma record_error_keeps i o c m s s' :
  _record_error new_message_id py_repr i o c m s = Ok s' -> keeps s s'.
Proof.
  unfold _record_error. intros H. bind_inv H. eapply keeps_trans; [|by eapply lifecycle_keeps].
  kept.
Qed.

Lemma mark_exit_rejected_keeps x rs s s' :
  _mark_exit_intent_rejected new_message_id x rs s = Ok s' -> keeps s s'.
Proof.
  unfold _mark_exit_intent_rejected. intros H%lifecycle_keeps. eapply keeps_trans; [|exact H].
  kept.
Qed.

Lemma mark_exit_by_order_rejected_keeps o r s s' :
  _mark_exit_intent_by_order_rejected new_message_id o r s = Ok s' -> keeps s s'.
Proof.
  unfold _mark_exit_intent_by_order_rejected. intros H. bind_inv H.
  destruct a as [x|]; [|injection H as <-; apply ledger_keeps_refl].
  destruct r; try discriminate. by eapply mark_exit_rejected_keeps.
Qed.

(** [keeps_tac] goes back through the updates of a handler one by one: each
    keeps the ledger. *)
Ltac keeps_step :=
  first
    [ apply update_intent_keeps; by constructor | apply update_exit_intent_keeps | apply update_exit_signal_keeps
    | apply update_cancel_intent_keeps
    | by apply update_order_keeps ].
Ltac keeps_tac :=
  repeat match goal with
  | |- keeps ?s ?s => apply ledger_keeps_refl
  | H : lifecycle _ _ _ _ _ _ _ _ = Ok ?s |- keeps _ ?s =>
      eapply keeps_trans; [|exact (lifecycle_keeps _ _ _ _ _ _ _ _ _ H)]; clear H
  | H : _record_error _ _ _ _ _ _ _ = Ok ?s |- keeps _ ?s =>
      eapply keeps_trans; [|exact (record_error_keeps _ _ _ _ _ _ H)]; clear H
  | H : _mark_exit_intent_by_order_rejected _ _ _ _ = Ok ?s |- keeps _ ?s =>
      eapply keeps_trans; [|exact (mark_exit_by_order_rejected_keeps _ _ _ _ H)]; clear H
  | |- keeps _ (if ?b then _ else _) => destruct b
  | |- keeps _ _ => eapply keeps_trans; [|keeps_step]
  end.

Lemma cancel_event_keeps ty p c now s s' out :
  _handle_cancel_command_event new_message_id py_repr json_loads ty p c now s = Ok (s', out) ->
  keeps s s'.
Proof.
  unfold _handle_cancel_command_event. intros H.
  destruct (get_live_sim_order s (ci_live_sim_order_id c)) as [o|];
    [|injection H as <- <-; apply ledger_keeps_refl].
  bind_inv H. injection H as <- <-. revert Ha.
  repeat match goal with |- context [if String.eqb ty ?k then _ else _] => destruct (String.eqb ty k) end;
    intros Ha; bind_inv Ha.
  - keeps_tac.
  - keeps_tac.
  - keeps_tac.
  - injection Ha as <-. apply ledger_keeps_refl.
Qed.

Lemma command_event_keeps e now s s' out :
  _handle_live_sim_command_event new_message_id py_repr json_loads e now s = Ok (s', out) ->
  keeps s s'.
Proof.
  unfold _handle_live_sim_command_event. intros H.
  destruct (ge_command_id e) as [cid|]; [|injection H as <- <-; apply ledger_keeps_refl].
  bind_inv H. destruct a as [o|].
  2: { destruct a0; [by eapply cancel_event_keeps|injection H as <- <-; apply ledger_keeps_refl]. }
  bind_inv H. injection H as <- <-. revert Ha1.
  repeat match goal with |- context [if String.eqb ?t ?k then _ else _] => destruct (String.eqb t k) end;
    intros Ha1.
  - injection Ha1 as <-. keeps_tac.
  - bind_inv Ha1. keeps_tac.
  - bind_inv Ha1. destruct (decide (order_side o = LiveSimSide.SELL)); [|injection Ha3 as <-];
      keeps_tac.
  - injection Ha1 as <-. apply ledger_keeps_refl.
Qed.

Lemma lifecycle_event_keeps e now s s' out :
  _handle_live_sim_order_lifecycle_event new_message_id py_repr json_loads e now s = Ok (s', out) ->
  keeps s s'.
Proof.
  unfold _handle_live_sim_order_lifecycle_event. intros H. bind_inv H.
  destruct (if mem _ _ then _ else _) as [c|].
  { cbv beta iota delta [fresh] in H. apply cancel_event_keeps in H.
    eapply keeps_trans; [|exact H]. kept. }
  destruct a1 as [o|].
  - bind_inv H. injection H as <- <-. keeps_tac.
  - bind_inv H. injection H as <- <-. keeps_tac.
Qed.

Lemma mark_exit_after_keeps o r st s s' :
  _mark_exit_after_sell_fill o r st s = Ok s' -> keeps s s'.
Proof.
  unfold _mark_exit_after_sell_fill. intros H. bind_inv H.
  destruct a; injection H as <-; keeps_tac.
Qed.

Lemma insert_position_event_ok pid ty oid xid code d price r s s' :
  _insert_position_event new_message_id pid ty oid xid code d price r s = Ok s' ->
  same_fills s s' /\ positions s' = positions s /\
  exists e, position_events s' = position_events s ++ [e] /\
            pe_position_id e = pid /\ pe_quantity_delta e = d.
Proof.
  unfold _insert_position_event, fresh. intros H. bind_inv H. injection H as <-.
  apply insert_row_ok in Ha0 as [-> _]. split; [by split|]. split; [done|].
  by eexists.
Qed.

Lemma buy_fill_ok o xid q price at' settings s s' r :
  1 <= q -> book_ok s ->
  _apply_buy_fill new_message_id o xid q price at' settings s = Ok (s', r) ->
  book_ok s' /\ same_fills s s'.
Proof.
  unfold _apply_buy_fill. intros Hq Hok H. bind_inv H. destruct a1 as [[s1 id] status].
  bind_inv H. injection H as <- <-. destruct a as [p|].
  - apply position_by_account_code_ok in Ha as (Hp & _ & _ & Hst). bind_inv Ha1.
    injection Ha1 as <- <- <-.
    apply insert_position_event_ok in Ha2 as ([Ho Hx] & Hps & e & Hes & He & Hd).
    split; [|by split].
    eapply (change_position_ok s _ p _ e); [done..|].
    intros []. constructor; cbn; [lia|lia|done|lia|].
    rewrite Hes, zsum_snoc, delta_of_same, Hd by done. cbn in *. lia.
  - unfold fresh in Ha1. bind_inv Ha1. injection Ha1 as <- <- <-.
    apply insert_row_ok in Ha4 as [-> Hnew].
    apply insert_position_event_ok in Ha2 as ([Ho Hx] & Hps & e & Hes & He & Hd).
    split; [|by split].
    eapply (open_position_ok s _ (opened_position _ o q price _ _ at') e);
      [done| |exact He|exact Hd|exact Hps|exact Hes|done|cbn; lia|done].
    intros r Hr. specialize (Hnew r Hr). by apply String.eqb_neq in Hnew.
Qed.

Lemma sell_position_ok s o metadata p :
  sell_position py_repr s o metadata = Ok (Some p) -> p ∈ positions s.
Proof.
  unfold sell_position. destruct (if truthy _ then _ else _) as [p0|] eqn:E.
  - intros [= <-]. destruct (truthy _); [|done]. by apply find_elem in E as [].
  - intros H. by apply position_by_account_code_ok in H as [].
Qed.

Lemma sell_fill_ok o xid q price at' settings metadata s s' r :
  1 <= q -> book_ok s ->
  _apply_sell_fill new_message_id py_repr o xid q price at' settings metadata s = Ok (s', r) ->
  book_ok s' /\ same_fills s s'.
Proof.
  unfold _apply_sell_fill. intros Hq Hok H. bind_inv H. destruct a as [p|].
  2: { bind_inv H. injection H as <- <-. apply record_error_keeps in Ha0.
       split; [by eapply keeps_book|by apply keeps_fills]. }
  apply sell_position_ok in Ha. cbv zeta in H. destruct (Z.ltb_spec (p_available_quantity p) q).
  - bind_inv H.  injection H as <- <-. apply record_error_keeps in Ha0. split.
    + by apply mark_mismatch_ok, (keeps_book s).
    + by apply keeps_fills in Ha0.
  - bind_inv H. injection H as <- <-.
    apply insert_position_event_ok in Ha3 as ([Ho Hx] & Hps & e & Hes & He & Hd).
    split; [|by split].
    eapply (change_position_ok s _ p _ e); [done..|].
    intros [Hav Hn Hc Hl Hs]. constructor; cbn.
    + lia.
    + lia.
    + destruct (Z.eqb_spec (p_quantity p - q) 0); [lia|done].
    + destruct (Z.eqb_spec (p_quantity p - q) 0); [by intros [|]|lia].
    + rewrite Hes, zsum_snoc, delta_of_same, Hd by done. cbn in *. lia.
Qed.

Lemma order_of_execution_ok e metadata s o :
  order_of_execution py_repr e metadata s = Ok (Some o) -> o ∈ orders s.
Proof.
  unfold order_of_execution. cbv zeta. intros H. bind_inv H. destruct a as [o'|].
  - injection H as ->.
    destruct (truthy (or_else (jget "broker_order_id" (ge_payload e)) _)); [|done].
    by eapply order_by_broker_no_ok.
  - destruct (truthy (or_else (option_map JStr (ge_command_id e)) _)); [|done].
    by eapply order_by_command_ok.
Qed.

(** What the record built from an event carries. *)
Lemma execution_of_event_ok o e f id no x :
  is_text_field (order_id o) ->
  execution_of_event py_repr o e f id no = Ok x ->
  1 <= fill_quantity f /\ le_quantity (ex_rec x) = fill_quantity f /\
  le_live_sim_order_id (ex_rec x) = Some (order_id o) /\
  ex_execution_key x = _execution_key py_repr o (ge_payload e) e.
Proof.
  unfold execution_of_event. intros Ht H. bind_inv H. injection H as <-. cbn [ex_rec ex_execution_key].
  unfold LiveSimExecutionRecord_post_init in Ha3. bind_inv Ha3. injection Ha3 as <-.
  cbn [le_quantity le_live_sim_order_id ea_quantity ea_live_sim_order_id] in *.
  pose proof (opt_text_again (Some (order_id o)) "live_sim_order_id" Ht) as E. cbn [opt_str] in E.
  rewrite E in Ha5. injection Ha5 as <-.
  pose proof (int_field_ok _ _ _ _ Ha11) as Hq. 
  assert (a11 = fill_quantity f) as ->.
  { cbn in Ha11. destruct (fill_quantity f <? 1); [done|]. by injection Ha11. }
  done.
Qed.

Lemma apply_execution_ok o e metadata settings now s s' out :
  ledger_ok s -> o ∈ orders s ->
  apply_execution new_message_id py_repr sql_sum o e metadata settings now s = Ok (s', out) ->
  ledger_ok s'.
Proof.
  intros [Hbook Hfills] Ho. unfold apply_execution, fresh. cbv zeta beta. intros H. bind_inv H.
  destruct a4 as [s1 r]. bind_inv H. injection H as <- <-.
  apply lifecycle_keeps in Ha5. apply (keeps_ok _ _ Ha5). clear Ha5.
  assert (is_text_field (order_id o)) as Ht.
  { destruct Hfills as [_ Ht _ _ _]. apply (Ht (fill_view o)). by apply list_elem_of_fmap_2. }
  apply (execution_of_event_ok _ _ _ _ _ _ Ht) in Ha0 as (Hq & Hxq & Hxo & Hxk).
  apply insert_row_ok in Ha1 as [-> Hnew].
  set (s0 := set_serial (S (serial s)) s) in *.
  pose proof (record_fill_ok s0 o a0 (fill_status a) (fill_remaining a) a2 now
    (same_fills_ok _ _ (keeps_fills _ _ (serial_keeps _ s)) Hfills) Ho ltac:(lia) Hxo) as Hrec.
  rewrite Hxq in Hrec. ospecialize (Hrec _).
  { intros x0 Hx0. specialize (Hnew x0 Hx0). apply orb_false_iff in Hnew as [_ Hk].
    by apply String.eqb_neq in Hk. }
  assert (book_ok (update_order (order_id o)
    (order_filled (fill_status a) (lo_filled_quantity (or_rec o) + fill_quantity a)
       (fill_remaining a) a2 now) (set_executions (executions s0 ++ [a0]) s0))) as Hbook2.
  { destruct Hbook. by constructor. }
  destruct (decide (order_side o = LiveSimSide.BUY)).
  - apply buy_fill_ok in Ha4 as [Hb Hf]; [|done..]. split; [done|by eapply same_fills_ok].
  - apply res_bind_ok in Ha4 as ([s3 r3] & Hsell & (s4 & Hmark & [= -> ->])%res_bind_ok).
    apply sell_fill_ok in Hsell as [Hb Hf]; [|done..]. apply mark_exit_after_keeps in Hmark.
    apply (keeps_ok _ _ Hmark). split; [done|by eapply same_fills_ok].
Qed.

Lemma execution_event_ok e settings now s s' out :
  ledger_ok s ->
  _handle_live_sim_execution_event new_message_id py_repr json_loads sql_sum e settings now s
    = Ok (s', out) -> ledger_ok s'.
Proof.
  intros Hok. unfold _handle_live_sim_execution_event. cbv zeta. intros H. bind_inv H.
  destruct (negb _).
  { bind_inv H. injection H as <- <-. by apply (keeps_ok _ _ (record_error_keeps _ _ _ _ _ _ Ha0)). }
  bind_inv H. destruct a0 as [o|].
  - bind_inv H. apply order_of_execution_ok in Ha0. destruct a0.
    + unfold duplicate_execution in H. bind_inv H. injection H as <- <-.
      by apply (keeps_ok _ _ (lifecycle_keeps _ _ _ _ _ _ _ _ _ Ha2)).
    + by eapply apply_execution_ok.
  - bind_inv H. injection H as <- <-. by apply (keeps_ok _ _ (record_error_keeps _ _ _ _ _ _ Ha1)).
Qed.

Lemma chejan_event_ok e settings now s s' out :
  ledger_ok s ->
  _handle_live_sim_chejan_event new_message_id py_repr json_loads sql_sum e settings now s
    = Ok (s', out) -> ledger_ok s'.
Proof.
  intros Hok. unfold _handle_live_sim_chejan_event, fresh. cbv zeta. intros H. bind_inv H.
  destruct (if _ && _ then _ else _).
  - bind_inv H. apply execution_event_ok in H; [done|].
    exact (keeps_ok _ _ (serial_keeps _ _) Hok).
  - bind_inv H. injection H as <- <-. by apply (keeps_ok _ _ (lifecycle_keeps _ _ _ _ _ _ _ _ _ Ha0)).
Qed.

End Preservation.

(** ** Intents under the handlers *)

Lemma insert_order_forward x d s s' : _insert_order x d s = Ok s' -> forward s s'.
Proof.
  intros H. apply forward_same. apply res_bind_ok in H as (_ & _ & (rows & _ & [= <-])%res_bind_ok). done.
Qed.

Section Intents.
Context (new_message_id : string -> nat -> string) (py_repr : json -> string)
  (json_loads : string -> res json) (sql_sum : list float -> float).

Lemma insert_position_event_intents pid ty oid xid code d price r s s' :
  _insert_position_event new_message_id pid ty oid xid code d price r s = Ok s' ->
  intents s' = intents s.
Proof. unfold _insert_position_event, fresh. intros H. bind_inv H. by injection H as <-. Qed.

Lemma buy_fill_intents o xid q price at' settings s s' r :
  _apply_buy_fill new_message_id o xid q price at' settings s = Ok (s', r) -> intents s' = intents s.
Proof.
  unfold _apply_buy_fill. intros H. bind_inv H. destruct a1 as [[s1 id] status].
  bind_inv H. injection H as <- <-. apply insert_position_event_intents in Ha2 as ->.
  destruct a as [p|]; unfold fresh in Ha1; bind_inv Ha1; by injection Ha1 as <- <- <-.
Qed.

Lemma sell_fill_forward o xid q price at' settings metadata s s' r :
  _apply_sell_fill new_message_id py_repr o xid q price at' settings metadata s = Ok (s', r) ->
  forward s s'.
Proof.
  unfold _apply_sell_fill. intros H. bind_inv H. cbv zeta in H. destruct a as [p|].
  2: { bind_inv H. injection H as <- <-. apply record_error_keeps in Ha0. by destruct Ha0. }
  destruct (p_available_quantity p <? q); bind_inv H; injection H as <- <-.
  - apply record_error_keeps in Ha0 as [_ _ _ _ Hf]. etrans; [exact Hf|]. by apply forward_same.
  - apply forward_same. match goal with H : _insert_position_event _ _ _ _ _ _ _ _ _ _ = Ok _ |- _ =>
      by apply insert_position_event_intents in H as -> end.
Qed.

Lemma apply_execution_forward o e metadata settings now s s' out :
  apply_execution new_message_id py_repr sql_sum o e metadata settings now s = Ok (s', out) ->
  forward s s'.
Proof.
  unfold apply_execution, fresh. cbv zeta beta. intros H. bind_inv H.
  destruct a4 as [s1 r]. bind_inv H. injection H as <- <-.
  apply lifecycle_keeps in Ha5 as [_ _ _ _ Hlog]. etrans; [|exact Hlog]. clear Hlog.
  destruct (decide (order_side o = LiveSimSide.BUY)).
  - apply buy_fill_intents in Ha4. by apply forward_same.
  - apply res_bind_ok in Ha4 as ([s3 r3] & Hsell & (s4 & Hmark & [= -> ->])%res_bind_ok).
    apply sell_fill_forward in Hsell. apply mark_exit_after_keeps in Hmark as [_ _ _ _ Hf].
    etrans; [|exact Hf]. etrans; [|exact Hsell]. by apply forward_same.
Qed.

Lemma execution_event_forward e settings now s s' out :
  _handle_live_sim_execution_event new_message_id py_repr json_loads sql_sum e settings now s
    = Ok (s', out) -> forward s s'.
Proof.
  unfold _handle_live_sim_execution_event. cbv zeta. intros H. bind_inv H. destruct (negb _).
  { bind_inv H. injection H as <- <-. by apply record_error_keeps in Ha0 as []. }
  bind_inv H. destruct a0 as [o|].
  - bind_inv H. destruct a0; [|by apply apply_execution_forward in H].
    unfold duplicate_execution in H. bind_inv H. injection H as <- <-.
    by apply lifecycle_keeps in Ha2 as [].
  - bind_inv H. injection H as <- <-. by apply record_error_keeps in Ha1 as [].
Qed.

Lemma chejan_event_forward e settings now s s' out :
  _handle_live_sim_chejan_event new_message_id py_repr json_loads sql_sum e settings now s
    = Ok (s', out) -> forward s s'.
Proof.
  unfold _handle_live_sim_chejan_event, fresh. cbv zeta. intros H. bind_inv H.
  destruct (if _ && _ then _ else _).
  - bind_inv H. apply execution_event_forward in H. etrans; [|exact H]. by apply forward_same.
  - bind_inv H. injection H as <- <-. apply lifecycle_keeps in Ha0 as [_ _ _ _ Hf].
    etrans; [|exact Hf]. by apply forward_same.
Qed.
End Intents.

(** ** Holdings *)

(** What an account holds of a code, over all its positions. *)
Definition held (account code : string) (p : position_row) : Z :=
  if String.eqb (p_account_id p) account && String.eqb (p_code p) code then p_quantity p else 0.
Definition holdings (s : tables) (account code : string) : Z :=
  zsum (held account code) (positions s).

(** [_net_position_quantity_from_fills]: bought minus sold. *)
Definition signed_quantity (account code : string) (x : execution_row) : Z :=
  if String.eqb (le_account_id (ex_rec x)) account && String.eqb (le_code (ex_rec x)) code
  then match le_side (ex_rec x) with
       | LiveSimSide.BUY => le_quantity (ex_rec x)
       | LiveSimSide.SELL => - le_quantity (ex_rec x)
       end
  else 0.
Definition _net_position_quantity_from_fills (s : tables) (account code : string) : Z :=
  zsum (signed_quantity account code) (executions s).

(** [n] at one account and code. *)
Definition at_key (a c : string) (n : Z) (account code : string) : Z :=
  if String.eqb a account && String.eqb c code then n else 0.

Lemma zsum_update_rows {A} (g : A -> Z) (p : A -> bool) f l k :
  (forall r, r ∈ l -> p r = true -> g (f r) = g r + k) ->
  zsum g (update_rows p f l) = zsum g l + k * zsum (fun r => if p r then 1 else 0) l.
Proof.
  induction l as [|r l IH]; intros H; [unfold zsum; simpl; lia|].
  unfold update_rows in *. cbn [map]. rewrite !zsum_cons.
  rewrite IH by (intros r' Hr'; apply H; by right).
  destruct (p r) eqn:E; [rewrite H; [lia|by left|done]|lia].
Qed.

Lemma zsum_unique {A} (key : A -> string) l r :
  NoDup (map key l) -> r ∈ l -> zsum (fun x => if String.eqb (key x) (key r) then 1 else 0) l = 1.
Proof.
  induction l as [|x l IH]; [by intros _ ?%not_elem_of_nil|]. cbn [map].
  rewrite list.NoDup_cons. intros [Hx Hl] Hr. rewrite zsum_cons.
  apply elem_of_cons in Hr as [->|Hr].
  - rewrite String.eqb_refl, zsum_zero; [done|]. intros y Hy.
    destruct (String.eqb_spec (key y) (key x)) as [E|]; [|done]. exfalso. apply Hx.
    rewrite <- E. by apply list_elem_of_fmap_2.
  - rewrite IH by done. destruct (String.eqb_spec (key x) (key r)) as [E|]; [|done].
    exfalso. apply Hx. rewrite E. by apply list_elem_of_fmap_2.
Qed.

(** Moving the quantity of one position moves the holdings of its key. *)
Lemma holdings_change s s' p f n account code :
  book_ok s -> p ∈ positions s ->
  positions s' = positions (update_position (p_position_id p) f s) ->
  (forall r, p_account_id (f r) = p_account_id r /\ p_code (f r) = p_code r /\
             p_quantity (f r) = p_quantity r + n) ->
  holdings s' account code = holdings s account code + at_key (p_account_id p) (p_code p) n account code.
Proof.
  intros [Hid _ _] Hp Hps Hf. unfold holdings. rewrite Hps. cbn.
  rewrite (zsum_update_rows _ _ _ _ (at_key (p_account_id p) (p_code p) n account code)).
  - rewrite zsum_unique by done. lia.
  - intros r Hr E%String.eqb_eq. rewrite (NoDup_map_inj _ _ r p Hid Hr Hp E).
    unfold held, at_key. destruct (Hf p) as (-> & -> & ->).
    destruct (String.eqb (p_account_id p) account && String.eqb (p_code p) code); lia.
Qed.

Lemma keeps_holdings s s' : keeps s s' -> forall a c, holdings s' a c = holdings s a c.
Proof. intros [Hp _ _ _ _] a c. unfold holdings. by rewrite Hp. Qed.

Section Holdings.
Context (new_message_id : string -> nat -> string) (py_repr : json -> string)
  (json_loads : string -> res json) (sql_sum : list float -> float).

Lemma buy_fill_holdings o xid q price at' settings s s' r a c :
  1 <= q -> book_ok s -> is_code_field (order_code o) ->
  _apply_buy_fill new_message_id o xid q price at' settings s = Ok (s', r) ->
  holdings s' a c = holdings s a c + at_key (order_account o) (order_code o) q a c /\
  exists ty id n, r = position_changed ty id n.
Proof.
  unfold _apply_buy_fill. intros Hq Hok Hcode H. bind_inv H. destruct a2 as [[s1 id] status].
  bind_inv H. injection H as <- <-. split; [|by do 3 eexists].
  apply insert_position_event_ok in Ha2 as (_ & Hps & _). destruct a0 as [p|].
  - apply position_by_account_code_ok in Ha as (Hp & Hacc & Hc & _). bind_inv Ha1.
    injection Ha1 as <- <- <-. rewrite validate_code_fixed in Hc by done. injection Hc as Hc.
    unfold order_account, order_code. rewrite <- Hacc, Hc.
    by apply (holdings_change s _ p _ q _ _ Hok Hp Hps).
  - unfold fresh in Ha1. apply res_bind_ok in Ha1 as (avg & _ & Ha1).
    apply res_bind_ok in Ha1 as (rows & Hrows & [= <- <- <-]).
    apply insert_row_ok in Hrows as [-> _]. unfold holdings. rewrite Hps. cbn.
    rewrite zsum_snoc. done.
Qed.

(** The position a sell fill picks has the order's key, when the one its
    metadata names does. *)
Definition names_own_position (s : tables) (o : order_row) (metadata : payload) : Prop :=
  forall p, truthy (jget "position_id" metadata) = true ->
  get_live_sim_position s (text_or py_repr (jget "position_id" metadata) "") = Some p ->
  p_account_id p = order_account o /\ p_code p = order_code o.

Lemma sell_fill_holdings o xid q price at' settings metadata s s' r a c :
  book_ok s -> is_code_field (order_code o) -> names_own_position s o metadata ->
  _apply_sell_fill new_message_id py_repr o xid q price at' settings metadata s = Ok (s', r) ->
  holdings s' a c = holdings s a c +
    match r with
    | position_changed _ _ _ => at_key (order_account o) (order_code o) (- q) a c
    | position_mismatch _ => 0
    end.
Proof.
  unfold _apply_sell_fill. intros Hok Hcode Hown H. bind_inv H. cbv zeta in H.
  destruct a0 as [p|].
  2: { bind_inv H. injection H as <- <-. rewrite (keeps_holdings s); [lia|].
       by eapply record_error_keeps. }
  assert (p ∈ positions s /\ p_account_id p = order_account o /\ p_code p = order_code o)
    as (Hp & Hacc & Hc).
  { split; [by eapply sell_position_ok|]. unfold sell_position in Ha.
    destruct (truthy (jget "position_id" metadata)) eqn:E;
      [destruct (get_live_sim_position _ _) as [p0|] eqn:E0|].
    - injection Ha as <-. by apply Hown.
    - apply position_by_account_code_ok in Ha as (_ & Hacc & Hc & _).
      rewrite validate_code_fixed in Hc by done. split; [done|by injection Hc].
    - apply position_by_account_code_ok in Ha as (_ & Hacc & Hc & _).
      rewrite validate_code_fixed in Hc by done. split; [done|by injection Hc]. }
  destruct (Z.ltb_spec (p_available_quantity p) q).
  - bind_inv H. injection H as <- <-.
    unfold holdings. cbn. rewrite (zsum_update_rows (held a c) _ _ _ 0)
      by (intros x _ _; rewrite Z.add_0_r; reflexivity).
    rewrite Z.mul_0_l, !Z.add_0_r. apply (keeps_holdings s a0). by eapply record_error_keeps.
  - bind_inv H. injection H as <- <-.
    apply insert_position_event_ok in Ha3 as (_ & Hps & _). rewrite <- Hacc, <- Hc.
    apply (holdings_change s _ p _ (- q) _ _ Hok Hp Hps). intros r. by split_and!.
Qed.

(** The event tells of the order it is matched with: its account (when given),
    code and side are the order's, and a position it names is the order's. *)
Record faithful (s : tables) (o : order_row) (p metadata : payload) : Prop := {
  faithful_account : text_or py_repr (jget "account_id" p) (order_account o) = order_account o;
  faithful_code :
    exists v, jget "code" p = Some v /\
      validate_stock_code (JStr (py_str py_repr v)) "code" = Ok (order_code o);
  faithful_side :
    exists v, jget "side" p = Some v /\ parse_side (JStr (py_str py_repr v)) = Ok (order_side o);
  faithful_position : names_own_position s o metadata
}.

(** Bought counts up, sold counts down. *)
Definition side_sign (side : LiveSimSide.t) (n : Z) : Z :=
  match side with LiveSimSide.BUY => n | LiveSimSide.SELL => - n end.

Lemma execution_signed s o e metadata f id no x a c :
  is_text_field (order_id o) -> is_text_field (order_account o) ->
  faithful s o (ge_payload e) metadata -> execution_of_event py_repr o e f id no = Ok x ->
  signed_quantity a c x =
  at_key (order_account o) (order_code o) (side_sign (order_side o) (fill_quantity f)) a c.
Proof.
  intros Hid Hacc [Ha (v & Hv & Hcode) (w & Hw & Hside) _] H.
  destruct (execution_of_event_ok py_repr _ _ _ _ _ _ Hid H) as (_ & Hq & _ & _).
  unfold execution_of_event in H. cbv zeta in H. unfold item in H at 1 2. rewrite Hv, Hw in H.
  bind_inv H. injection Ha0 as <-. injection Ha1 as <-. injection H as <-.
  unfold LiveSimExecutionRecord_post_init in Ha4. cbn [ea_account_id ea_code ea_side] in Ha4.
  change (lo_account_id (or_rec o)) with (order_account o) in Ha4.
  rewrite Ha, text_field_again, Hcode, Hside in Ha4 by done.
  do 4 (apply res_bind_ok in Ha4 as (? & _ & Ha4)).
  apply res_bind_ok in Ha4 as (acc & [= <-] & Ha4).
  apply res_bind_ok in Ha4 as (code & [= <-] & Ha4).
  apply res_bind_ok in Ha4 as (side & [= <-] & Ha4).
  do 4 (apply res_bind_ok in Ha4 as (? & _ & Ha4)). injection Ha4 as <-.
  cbn in Hq. subst. unfold signed_quantity, at_key, side_sign. cbn.
  by destruct (order_side o), (_ && _).
Qed.

(** What an applied execution does to the two accounts of a holding: the sum of
    the positions and the balance of the recorded executions. *)
Lemma apply_execution_holdings o e metadata settings now s s' out :
  ledger_ok s -> o ∈ orders s -> faithful s o (ge_payload e) metadata ->
  apply_execution new_message_id py_repr sql_sum o e metadata settings now s = Ok (s', out) ->
  exists f x r, read_fill o (ge_payload e) = Ok f /\ out = handled_execution (order_id o) x r /\
  forall a c,
    let n := at_key (order_account o) (order_code o)
               (side_sign (order_side o) (fill_quantity f)) a c in
    _net_position_quantity_from_fills s' a c = _net_position_quantity_from_fills s a c + n /\
    holdings s' a c = holdings s a c +
      match r with position_changed _ _ _ => n | position_mismatch _ => 0 end.
Proof.
  intros [Hbook Hfills] Ho Hf. unfold apply_execution, fresh. cbv zeta beta. intros H.
  apply res_bind_ok in H as (f & Hread & H). apply res_bind_ok in H as (x & Hx & H).
  apply res_bind_ok in H as (rows & Hrows & H). apply res_bind_ok in H as (avg & _ & H).
  apply res_bind_ok in H as (at' & _ & H). apply res_bind_ok in H as ([s1 r] & Hfill & H).
  apply res_bind_ok in H as (s2 & Hlog & [= -> <-]).
  do 3 eexists. split; [exact Hread|]. split; [done|].
  destruct (orders_typed _ Hfills _ (list_elem_of_fmap_2 fill_view _ _ Ho)) as (Hid & Hacc & Hcode).
  destruct (execution_of_event_ok py_repr _ _ _ _ _ _ Hid Hx) as (Hq & _ & _ & _).
  intros a c. cbv zeta. apply insert_row_ok in Hrows as [-> _].
  set (s0 := update_order _ _ _) in Hfill.
  assert (book_ok s0) as Hbook0 by (destruct Hbook; by constructor).
  assert (_net_position_quantity_from_fills s0 a c = _net_position_quantity_from_fills s a c +
    at_key (order_account o) (order_code o) (side_sign (order_side o) (fill_quantity f)) a c) as Hnet.
  { unfold _net_position_quantity_from_fills. cbn. rewrite zsum_snoc.
    by rewrite (execution_signed s o e metadata f _ _ x a c Hid Hacc Hf Hx). }
  assert (executions s' = executions s0 /\
          holdings s' a c = holdings s0 a c +
            match r with
            | position_changed _ _ _ =>
                at_key (order_account o) (order_code o) (side_sign (order_side o) (fill_quantity f)) a c
            | position_mismatch _ => 0
            end) as [Hex Hhold].
  { apply lifecycle_keeps in Hlog. rewrite (keeps_holdings _ _ Hlog), (keeps_executions _ _ Hlog).
    destruct (decide (order_side o = LiveSimSide.BUY)) as [E|E].
    - destruct (buy_fill_ok _ _ _ _ _ _ _ _ _ _ Hq Hbook0 Hfill) as [_ [_ ->]].
      destruct (buy_fill_holdings _ _ _ _ _ _ _ _ _ a c Hq Hbook0 Hcode Hfill)
        as (-> & ty & id & n & ->). by rewrite E.
    - apply res_bind_ok in Hfill as ([s3 r3] & Hsell & (s4 & Hmark & [= -> ->])%res_bind_ok).
      apply mark_exit_after_keeps in Hmark.
      rewrite (keeps_holdings _ _ Hmark), (keeps_executions _ _ Hmark).
      destruct (sell_fill_ok _ _ _ _ _ _ _ _ _ _ _ _ Hq Hbook0 Hsell) as [_ [_ ->]].
      split; [done|].
      rewrite (sell_fill_holdings _ _ _ _ _ _ _ _ _ _ a c Hbook0 Hcode (faithful_position _ _ _ _ Hf) Hsell).
      by destruct (order_side o). }
  unfold _net_position_quantity_from_fills in *. rewrite Hex. split; [done|]. by rewrite Hhold.
Qed.
End Holdings.
