(* ===== verification/LiveSimHistory.v ===== *)
(** * Histories of the live-sim ledger

    Orders are inserted and gateway events are handled, in any order; a handler
    that raises changes nothing.  In every state such a history reaches the
    ledger invariant of [LiveSimLedger] holds, an execution is applied to its
    order once however often it is delivered, and, as long as events tell of
    the order they are matched with and no sale is refused, the positions hold
    exactly what the recorded executions bought minus what they sold. *)
From S2P Require Import Prelude PyFloat BrokerUtils WireTime GatewayModels.
From S2P Require Import LiveSimModels LiveSimStore LiveSimEvents LiveSimLedger.
From Stdlib Require Import SpecFloat.
From stdpp Require Import pretty.
Local Open Scope Z_scope.

(** ** Inserting an order *)

Lemma order_init_fields a x :
  LiveSimOrderRecord_post_init a = Ok x ->
  is_text_field (lo_live_sim_order_id x) /\ is_text_field (lo_account_id x) /\
  is_code_field (lo_code x).
Proof.
  unfold LiveSimOrderRecord_post_init. intros H. bind_inv H. injection H as <-. cbn.
  split_and!; eauto with livesim.
Qed.

Lemma insert_order_ok a x d s s' :
  LiveSimOrderRecord_post_init a = Ok x -> lo_filled_quantity x = 0 ->
  _insert_order x d s = Ok s' -> ledger_ok s -> ledger_ok s'.
Proof.
  unfold _insert_order. intros Ha Hz H [Hbook [Hid Htyp Hfill Hex Hkeys]].
  apply res_bind_ok in H as (_ & _ & (rows & Hrows & [= <-])%res_bind_ok).
  apply insert_row_ok in Hrows as [-> Hnew]. split; [by destruct Hbook; constructor|].
  set (r := {| or_rec := x; or_trade_date := d |}) in *.
  assert (forall r0, r0 ∈ orders s -> order_id r <> order_id r0) as Hnew'.
  { intros r0 Hr0 E. specialize (Hnew r0 Hr0). apply orb_false_iff in Hnew as [Hn _].
    by apply String.eqb_neq in Hn. }
  constructor; cbn [orders set_orders executions].
  - by apply NoDup_map_snoc.
  - intros v. rewrite map_app. intros [Hv|Hv]%elem_of_app; [by apply Htyp|].
    apply list_elem_of_singleton in Hv as ->. cbn. by eapply order_init_fields.
  - intros v. rewrite map_app. intros [Hv|Hv]%elem_of_app; [by apply Hfill|].
    apply list_elem_of_singleton in Hv as ->. cbn. rewrite Hz, zsum_zero; [done|].
    intros e He. destruct (Hex e He) as (_ & id & Hoid & (r0 & -> & Hr0)%list_elem_of_fmap).
    unfold fills_of. rewrite Hoid. cbn. destruct (String.eqb_spec (order_id r0) (order_id r)); [|done].
    exfalso. by apply (Hnew' r0).
  - intros e He. destruct (Hex e He) as (Hq & id & Hoid & Hin). split; [done|]. exists id.
    split; [done|]. rewrite map_app. apply elem_of_app. by left.
  - done.
Qed.

(** ** The handlers' branches *)

Section Branches.
Context (new_message_id : string -> nat -> string) (py_repr : json -> string)
  (json_loads : string -> res json) (sql_sum : list float -> float).

Abbreviation handle_execution :=
  (_handle_live_sim_execution_event new_message_id py_repr json_loads sql_sum).
Abbreviation handle_chejan :=
  (_handle_live_sim_chejan_event new_message_id py_repr json_loads sql_sum).
Abbreviation apply_event := (apply_execution new_message_id py_repr sql_sum).
Abbreviation metadata_of e := (_json_object py_repr json_loads (jget "metadata" (ge_payload e))).

(** An execution event is not taken, found to be a redelivery, or applied. *)
Inductive execution_case e settings now (s s' : tables) : outcome -> Prop :=
| case_refused r : keeps s s' -> execution_case e settings now s s' (not_handled r)
| case_duplicate metadata o :
    metadata_of e = Ok metadata -> order_of_execution py_repr e metadata s = Ok (Some o) ->
    keeps s s' -> execution_case e settings now s s' (handled_duplicate (order_id o))
| case_applied metadata o out :
    metadata_of e = Ok metadata -> order_of_execution py_repr e metadata s = Ok (Some o) ->
    _execution_already_applied s (_execution_key py_repr o (ge_payload e) e) = Ok false ->
    apply_event o e metadata settings now s = Ok (s', out) ->
    execution_case e settings now s s' out.

Lemma execution_event_case e settings now s s' out :
  handle_execution e settings now s = Ok (s', out) -> execution_case e settings now s s' out.
Proof.
  unfold _handle_live_sim_execution_event. cbv zeta. intros H.
  apply res_bind_ok in H as (metadata & Hm & H). destruct (negb _).
  { apply res_bind_ok in H as (s1 & Herr & [= -> <-]).
    apply case_refused. by eapply record_error_keeps. }
  apply res_bind_ok in H as ([o|] & Ho & H).
  2: { apply res_bind_ok in H as (s1 & Herr & [= -> <-]).
       apply case_refused. by eapply record_error_keeps. }
  apply res_bind_ok in H as ([] & Happ & H); [|by eapply case_applied].
  unfold duplicate_execution in H. apply res_bind_ok in H as (s1 & Hlog & [= -> <-]).
  eapply case_duplicate; [done..|]. by eapply lifecycle_keeps.
Qed.

(** A chejan event without a fill is logged; one with a fill is handled as the
    execution event it stands for. *)
Lemma chejan_event_case e settings now s s' out :
  handle_chejan e settings now s = Ok (s', out) ->
  (keeps s s' /\ out = handled (ge_event_id e)) \/
  exists id n x s0, keeps s s0 /\ orders s0 = orders s /\ executions s0 = executions s /\
    positions s0 = positions s /\
    handle_execution (chejan_execution id e n x now) settings now s0 = Ok (s', out).
Proof.
  unfold _handle_live_sim_chejan_event, fresh. cbv zeta. intros H.
  apply res_bind_ok in H as (n & _ & H). destruct (if _ && _ then _ else _).
  - apply res_bind_ok in H as (x & _ & H). right. do 4 eexists.
    split; [|split; [|split; [|split; [|exact H]]]]; [apply serial_keeps|done..].
  - apply res_bind_ok in H as (s1 & Hlog & [= -> <-]). left. split; [|done].
    by eapply lifecycle_keeps.
Qed.

(** Applying an execution adds its record, under its key, and names its order. *)
Lemma apply_execution_records o e metadata settings now s s' out :
  ledger_ok s -> o ∈ orders s -> apply_event o e metadata settings now s = Ok (s', out) ->
  exists x id r, executions s' = executions s ++ [x] /\
    ex_execution_key x = _execution_key py_repr o (ge_payload e) e /\
    (forall x0, x0 ∈ executions s -> ex_execution_key x <> ex_execution_key x0) /\
    out = handled_execution (order_id o) id r.
Proof.
  intros [Hbook Hfills] Ho. unfold apply_execution, fresh. cbv zeta beta. intros H.
  apply res_bind_ok in H as (f & _ & H). apply res_bind_ok in H as (x & Hx & H).
  apply res_bind_ok in H as (rows & Hrows & H). apply res_bind_ok in H as (avg & _ & H).
  apply res_bind_ok in H as (at' & _ & H). apply res_bind_ok in H as ([s1 r] & Hfill & H).
  apply res_bind_ok in H as (s2 & Hlog & [= -> <-]). exists x. do 2 eexists.
  destruct (orders_typed _ Hfills _ (list_elem_of_fmap_2 fill_view _ _ Ho)) as (Hid & _ & _).
  destruct (execution_of_event_ok py_repr _ _ _ _ _ _ Hid Hx) as (Hq & _ & _ & Hkey).
  apply insert_row_ok in Hrows as [-> Hnew]. split_and!; [|done| |done].
  - apply lifecycle_keeps in Hlog. rewrite (keeps_executions _ _ Hlog).
    set (s0 := update_order _ _ _) in Hfill.
    assert (book_ok s0) as Hbook0 by (destruct Hbook; by constructor).
    destruct (decide (order_side o = LiveSimSide.BUY)) as [E|E].
    + by destruct (buy_fill_ok _ _ _ _ _ _ _ _ _ _ Hq Hbook0 Hfill) as [_ [_ ->]].
    + apply res_bind_ok in Hfill as ([s3 r3] & Hsell & (s4 & Hmark & [= -> ->])%res_bind_ok).
      apply mark_exit_after_keeps in Hmark. rewrite (keeps_executions _ _ Hmark).
      by destruct (sell_fill_ok _ _ _ _ _ _ _ _ _ _ _ _ Hq Hbook0 Hsell) as [_ [_ ->]].
  - intros x0 Hx0. specialize (Hnew x0 Hx0). apply orb_false_iff in Hnew as [_ Hk].
    by apply String.eqb_neq in Hk.
Qed.
End Branches.

(** ** Steps *)

Section Steps.
Context (new_message_id : string -> nat -> string) (py_repr : json -> string)
  (json_loads : string -> res json) (sql_sum : list float -> float).

Abbreviation metadata_of e := (_json_object py_repr json_loads (jget "metadata" (ge_payload e))).

(** What a step tells of a fill: the event that may be one and the answer. *)
Inductive label :=
| quiet
| reported (e : GatewayEvent) (out : outcome).

(** One operation on the store: an order is inserted as the service builds it,
    with nothing filled, or one of the handlers ran and committed. *)
Inductive step (s s' : tables) : label -> Prop :=
| step_order a x trade_date :
    LiveSimOrderRecord_post_init a = Ok x -> lo_filled_quantity x = 0 ->
    _insert_order x trade_date s = Ok s' -> step s s' quiet
| step_command e now out :
    _handle_live_sim_command_event new_message_id py_repr json_loads e now s = Ok (s', out) ->
    step s s' quiet
| step_lifecycle e now out :
    _handle_live_sim_order_lifecycle_event new_message_id py_repr json_loads e now s = Ok (s', out) ->
    step s s' quiet
| step_execution e settings now out :
    _handle_live_sim_execution_event new_message_id py_repr json_loads sql_sum e settings now s
      = Ok (s', out) -> step s s' (reported e out)
| step_chejan e settings now out :
    _handle_live_sim_chejan_event new_message_id py_repr json_loads sql_sum e settings now s
      = Ok (s', out) -> step s s' (reported e out).

Definition some_step (s s' : tables) : Prop := exists l, step s s' l.

Lemma step_ok s s' l : step s s' l -> ledger_ok s -> ledger_ok s'.
Proof.
  intros Hs Hok. destruct Hs as [a x d Ha Hz H|e now out H|e now out H|e st now out H|e st now out H].
  - by eapply insert_order_ok.
  - by apply (keeps_ok s), Hok; eapply command_event_keeps.
  - by apply (keeps_ok s), Hok; eapply lifecycle_event_keeps.
  - by eapply execution_event_ok.
  - by eapply chejan_event_ok.
Qed.

Lemma steps_ok s s' : rtc some_step s s' -> ledger_ok s -> ledger_ok s'.
Proof. induction 1 as [|s1 s2 s3 [l H] _ IH]; [done|]. intros Hok. by eapply IH, step_ok. Qed.

Lemma empty_ledger_ok : ledger_ok empty_tables.
Proof.
  split; constructor; cbn; try (by apply NoDup_nil_2); by intros ? ?%not_elem_of_nil.
Qed.

(** Executions are only added. *)
Lemma execution_event_grows e settings now s s' out :
  ledger_ok s ->
  _handle_live_sim_execution_event new_message_id py_repr json_loads sql_sum e settings now s
    = Ok (s', out) -> exists xs, executions s' = executions s ++ xs.
Proof.
  intros Hok H. apply execution_event_case in H as [r Hk|metadata o _ _ Hk|metadata o out1 _ Ho _ H].
  - exists []. by rewrite app_nil_r, (keeps_executions _ _ Hk).
  - exists []. by rewrite app_nil_r, (keeps_executions _ _ Hk).
  - apply apply_execution_records in H as (x & id & r & -> & _); [by eexists|done|].
    by eapply order_of_execution_ok.
Qed.

Lemma step_grows s s' l : ledger_ok s -> step s s' l -> exists xs, executions s' = executions s ++ xs.
Proof.
  intros Hok [a x d Ha Hz H|e now out H|e now out H|e st now out H|e st now out H].
  - apply res_bind_ok in H as (_ & _ & (rows & _ & [= <-])%res_bind_ok). exists [].
    by rewrite app_nil_r.
  - exists []. by rewrite app_nil_r, (keeps_executions _ _ (command_event_keeps _ _ _ _ _ _ _ _ H)).
  - exists []. by rewrite app_nil_r, (keeps_executions _ _ (lifecycle_event_keeps _ _ _ _ _ _ _ _ H)).
  - by eapply execution_event_grows.
  - apply chejan_event_case in H as [[Hk _]|(id & n & x & s0 & Hk & _ & He & _ & H)].
    + exists []. by rewrite app_nil_r, (keeps_executions _ _ Hk).
    + apply execution_event_grows in H as [xs ->]; [|by eapply keeps_ok].
      exists xs. by rewrite He.
Qed.

Lemma steps_grow s s' : rtc some_step s s' -> ledger_ok s -> exists xs, executions s' = executions s ++ xs.
Proof.
  induction 1 as [|s1 s2 s3 [l H] _ IH]; intros Hok; [exists []; by rewrite app_nil_r|].
  destruct (step_grows _ _ _ Hok H) as [xs Hxs]. destruct (IH (step_ok _ _ _ H Hok)) as [ys ->].
  exists (xs ++ ys). by rewrite Hxs, app_assoc.
Qed.

(** *** Honest histories *)

(** Whatever order the event is matched with, it tells of that order. *)
Definition faithful_event (e : GatewayEvent) (s : tables) : Prop :=
  forall metadata o, metadata_of e = Ok metadata ->
  order_of_execution py_repr e metadata s = Ok (Some o) ->
  faithful py_repr s o (ge_payload e) metadata.

(** No sale was refused for want of a position or of shares. *)
Definition no_mismatch (out : outcome) : Prop :=
  match out with handled_execution _ _ (position_mismatch _) => False | _ => True end.

Definition honest_step (s s' : tables) : Prop :=
  exists l, step s s' l /\
    match l with reported e out => faithful_event e s /\ no_mismatch out | quiet => True end.

Lemma jget_app_other k p l : k ∉ map fst l -> jget k (p ++ l) = jget k p.
Proof.
  intros Hk. induction p as [|[k' v] p IH]; simpl; [|by rewrite IH].
  induction l as [|[k' v] l IH]; [done|]. simpl in *. apply not_elem_of_cons in Hk as [Hne Hk].
  rewrite IH by done. destruct (String.eqb_spec k' k); congruence.
Qed.

Lemma faithful_chejan e s s0 id n x now :
  orders s0 = orders s -> positions s0 = positions s ->
  faithful_event e s -> faithful_event (chejan_execution id e n x now) s0.
Proof.
  intros Ho Hp Hf metadata o Hm Hoe.
  assert (forall k, mem k ["execution_id"; "quantity"; "price"; "executed_at"] = false ->
    jget k (ge_payload (chejan_execution id e n x now)) = jget k (ge_payload e)) as Hget.
  { intros k Hk. apply jget_app_other. cbn.
    rewrite !elem_of_cons. intros Hin. by destruct Hin as [->|[->|[->|[->|?%not_elem_of_nil]]]]. }
  rewrite Hget in Hm by done. destruct (Hf metadata o) as [H1 H2 H3 H4]; [done| |].
  - rewrite <- Hoe. unfold order_of_execution, _order_by_broker_order_no, _order_by_command_id.
    cbv zeta. by rewrite !Hget, Ho by done.
  - constructor; rewrite ?Hget by done; [done..|].
    unfold names_own_position, get_live_sim_position in *. by rewrite Hp.
Qed.

Lemma execution_event_balances e settings now s s' out a c :
  ledger_ok s -> faithful_event e s -> no_mismatch out ->
  _handle_live_sim_execution_event new_message_id py_repr json_loads sql_sum e settings now s
    = Ok (s', out) ->
  holdings s' a c - _net_position_quantity_from_fills s' a c =
  holdings s a c - _net_position_quantity_from_fills s a c.
Proof.
  intros Hok Hf Hn H. apply execution_event_case in H.
  destruct H as [r Hk|md o _ _ Hk|md o out1 Hm Ho _ H].
  1,2: unfold _net_position_quantity_from_fills;
    by rewrite (keeps_holdings _ _ Hk), (keeps_executions _ _ Hk).
  pose proof (order_of_execution_ok _ _ _ _ _ Ho) as Hin.
  destruct (apply_execution_holdings new_message_id py_repr sql_sum o e md settings now s s' out1
    Hok Hin (Hf _ _ Hm Ho) H) as (f & x & r & _ & -> & Hmove).
  destruct (Hmove a c) as [-> ->]. destruct r; [lia|done].
Qed.

Lemma keeps_balance s s' a c :
  keeps s s' ->
  holdings s' a c - _net_position_quantity_from_fills s' a c =
  holdings s a c - _net_position_quantity_from_fills s a c.
Proof.
  intros Hk. unfold _net_position_quantity_from_fills.
  by rewrite (keeps_holdings _ _ Hk), (keeps_executions _ _ Hk).
Qed.

Lemma honest_step_balances s s' a c :
  ledger_ok s -> honest_step s s' ->
  holdings s' a c - _net_position_quantity_from_fills s' a c =
  holdings s a c - _net_position_quantity_from_fills s a c.
Proof.
  intros Hok (l & Hs & Hl).
  destruct Hs as [a' x d Ha Hz H|e now out H|e now out H|e st now out H|e st now out H].
  - by apply res_bind_ok in H as (_ & _ & (rows & _ & [= <-])%res_bind_ok).
  - apply keeps_balance. by eapply command_event_keeps.
  - apply keeps_balance. by eapply lifecycle_event_keeps.
  - destruct Hl. by eapply execution_event_balances.
  - destruct Hl as [Hf Hn].
    apply chejan_event_case in H as [[Hk _]|(id & n & x & s0 & Hk & Ho & _ & Hp & H)];
      [by apply keeps_balance|].
    rewrite <- (keeps_balance s s0) by done.
    eapply execution_event_balances; [by eapply keeps_ok|by eapply faithful_chejan|done..].
Qed.

Lemma honest_steps_balance s s' a c :
  rtc honest_step s s' -> ledger_ok s ->
  holdings s' a c - _net_position_quantity_from_fills s' a c =
  holdings s a c - _net_position_quantity_from_fills s a c.
Proof.
  induction 1 as [|s1 s2 s3 H12 _ IH]; intros Hok; [done|].
  rewrite IH, (honest_step_balances s1 s2) by (done || destruct H12 as (l & Hl & _); by eapply step_ok).
  done.
Qed.
End Steps.

(** ** Properties *)

Section Properties.
Context (new_message_id : string -> nat -> string) (py_repr : json -> string)
  (json_loads : string -> res json) (sql_sum : list float -> float).

Abbreviation some_step := (some_step new_message_id py_repr json_loads sql_sum).
Abbreviation honest_step := (honest_step new_message_id py_repr json_loads sql_sum).
Abbreviation handle_execution :=
  (_handle_live_sim_execution_event new_message_id py_repr json_loads sql_sum).

(** In every state that inserting orders and handling gateway events (reports
    on commands, executions, order lifecycle and chejan events, in any order,
    with any contents, refusals included) reaches from empty tables: each
    position can sell all it holds, holds no negative quantity, is empty when
    CLOSED and not empty when OPEN or CLOSING, and its quantity is the sum of
    its position events, every one of which belongs to a position; each order's
    filled quantity is the sum of its executions, each of which belongs to an
    order; and no two executions have the same execution key. *)
Theorem histories_keep_ledger s : rtc some_step empty_tables s -> ledger_ok s.
Proof. intros H. eapply steps_ok; [exact H|exact empty_ledger_ok]. Qed.

(** C13. An execution is applied to its order once: whatever happens after the
    event was applied to an order, delivering it again while it is matched with
    that order changes no position, no execution, no position event and no fill
    counter, and is answered as a redelivery (or refused, under settings that
    no longer take it). *)
Theorem execution_applied_once e settings now settings' now' s s1 s2 s3 oid xid r md o out :
  rtc some_step empty_tables s ->
  handle_execution e settings now s = Ok (s1, handled_execution oid xid r) ->
  rtc some_step s1 s2 ->
  _json_object py_repr json_loads (jget "metadata" (ge_payload e)) = Ok md ->
  order_of_execution py_repr e md s2 = Ok (Some o) -> order_id o = oid ->
  handle_execution e settings' now' s2 = Ok (s3, out) ->
  keeps s2 s3 /\ (out = handled_duplicate oid \/ exists reason, out = not_handled reason).
Proof.
  intros Hr H1 H2 Hmd Ho <- H3.
  assert (ledger_ok s) as Hok by (eapply steps_ok; [exact Hr|exact empty_ledger_ok]).
  assert (ledger_ok s1) as Hok1 by (by eapply execution_event_ok).
  assert (ledger_ok s2) as Hok2 by (by eapply steps_ok).
  apply execution_event_case in H1. inversion H1 as [| |md1 o1 out1 _ Ho1 _ Happ]; subst.
  apply apply_execution_records in Happ as (x & id & r1 & Hx & Hkey & _ & [= Hid _ _]);
    [|done|by eapply order_of_execution_ok].
  destruct (steps_grow _ _ _ _ _ _ H2 Hok1) as [xs Hxs].
  apply execution_event_case in H3. destruct H3 as [r2 Hk|md2 o2 Hm2 Ho2 Hk|md2 o2 out2 Hm2 Ho2 _ H3].
  - eauto.
  - split; [done|]. left. congruence.
  - exfalso. apply apply_execution_records in H3 as (x2 & id2 & r2 & _ & Hkey2 & Hnew & _);
      [|done|by eapply order_of_execution_ok].
    apply (Hnew x).
    + rewrite Hxs, Hx, !elem_of_app. left. right. by apply list_elem_of_singleton.
    + rewrite Hkey, Hkey2. unfold _execution_key. by replace (order_id o2) with (order_id o1) by congruence.
Qed.

(** C28. As long as each execution tells of the account, code and side of the
    order it is matched with (and of that order's position, where it names one)
    and no sale is refused for want of shares, what an account holds of a code,
    over all its positions, is what its recorded executions bought less what
    they sold: the positions refine the balance of the executions that
    reconciliation recomputes. *)
Theorem honest_histories_balance s account code :
  rtc honest_step empty_tables s ->
  holdings s account code = _net_position_quantity_from_fills s account code.
Proof.
  intros H. eapply honest_steps_balance with (a := account) (c := code) in H; [|exact empty_ledger_ok].
  change (holdings empty_tables account code) with 0 in H.
  change (_net_position_quantity_from_fills empty_tables account code) with 0 in H. lia.
Qed.
End Properties.

(** ** A sample history *)

Definition sample_id (prefix : string) (n : nat) : string := prefix +:+ "_" +:+ pretty (N.of_nat n).
Definition sample_repr (j : json) : string := "70000.0".
Definition sample_loads (text : string) : res json := Err (ValueError "Expecting value").
Definition sample_sum (l : list float) : float := foldl f_add f_zero l.

Definition sample_settings : EventSettings :=
  {| live_sim_broker_env := "SIMULATION"; live_sim_account_mode := "MOCK";
     live_sim_server_mode := "SIMULATION"; live_sim_fee_rate := f_zero;
     live_sim_tax_rate := f_zero |}.

Definition sample_order_args : LiveSimOrderArgs :=
  {| oa_live_sim_order_id := JStr "order_1"; oa_live_sim_intent_id := JStr "intent_1";
     oa_gateway_command_id := JStr "cmd_1"; oa_account_id := JStr "8112345611";
     oa_code := JStr "005930"; oa_name := JStr "Samsung"; oa_side := JStr "BUY";
     oa_order_type := JStr "LIMIT"; oa_quantity := JInt 10; oa_limit_price := JInt 70000;
     oa_notional := JInt 700000; oa_status := JStr "COMMAND_QUEUED"; oa_broker_order_no := JNull;
     oa_broker_result_code := JNull; oa_broker_message := JNull; oa_filled_quantity := JInt 0;
     oa_remaining_quantity := JInt 10; oa_avg_fill_price := JNull;
     oa_idempotency_key := JStr "key_1"; oa_created_at := moment 1709164800000000;
     oa_command_queued_at := moment 1709164800000000; oa_command_dispatched_at := text JNull;
     oa_broker_acked_at := text JNull; oa_last_event_at := text JNull |}.

Definition sample_fill : GatewayEvent :=
  {| ge_event_type := "execution_event";
     ge_payload := [("execution_id", JStr "X1"); ("code", JStr "005930"); ("side", JStr "buy");
                    ("quantity", JInt 4); ("price", JInt 70000);
                    ("executed_at", JStr "2024-02-29T00:01:00Z")];
     ge_event_id := "evt_1"; ge_source := "gateway"; ge_ts := 1709164860000000; ge_command_id := Some "cmd_1";
     ge_idempotency_key := None |}.

Definition ok_or {A} (d : A) (r : res A) : A := match r with Ok a => a | Err _ => d end.

Definition sample_order : res LiveSimOrderRecord :=
  Eval vm_compute in LiveSimOrderRecord_post_init sample_order_args.

(** The store after the order was inserted, and after the fill was handled once
    and twice. *)
Definition sample_ordered : tables :=
  ok_or empty_tables (let* x := sample_order in _insert_order x "2024-02-29" empty_tables).
Abbreviation sample_handle s :=
  (_handle_live_sim_execution_event sample_id sample_repr sample_loads sample_sum sample_fill
    sample_settings 1709164861000000 s).
Definition sample_state (r : res (tables * outcome)) : tables := fst (ok_or (empty_tables, not_handled "") r).
Definition sample_filled : tables := Eval vm_compute in sample_state (sample_handle sample_ordered).
Definition sample_redelivered : tables := Eval vm_compute in sample_state (sample_handle sample_filled).

Definition sample_outcome : outcome :=
  handled_execution "order_1" "live_sim_execution_0"
    (position_changed "POSITION_OPENED" "live_sim_position_1" None).

Example sample_fill_applied : sample_handle sample_ordered = Ok (sample_filled, sample_outcome).
Proof. vm_compute. reflexivity. Qed.
Example sample_fill_again :
  sample_handle sample_filled = Ok (sample_redelivered, handled_duplicate "order_1").
Proof. vm_compute. reflexivity. Qed.

Abbreviation sample_step := (some_step sample_id sample_repr sample_loads sample_sum).
Abbreviation sample_honest := (honest_step sample_id sample_repr sample_loads sample_sum).

Lemma sample_insert :
  step sample_id sample_repr sample_loads sample_sum empty_tables sample_ordered quiet.
Proof.
  destruct sample_order as [x|] eqn:E; [|by vm_compute in E].
  apply (step_order _ _ _ _ _ _ sample_order_args x "2024-02-29").
  - rewrite <- E. vm_compute. reflexivity.
  - injection E as <-. reflexivity.
  - injection E as <-. vm_compute. reflexivity.
Qed.

Lemma sample_inserted : rtc sample_step empty_tables sample_ordered.
Proof. apply rtc_once. eexists. exact sample_insert. Qed.

Lemma sample_fill_step :
  step sample_id sample_repr sample_loads sample_sum sample_ordered sample_filled
    (reported sample_fill sample_outcome).
Proof. eapply step_execution. exact sample_fill_applied. Qed.

Lemma sample_faithful : faithful_event sample_repr sample_loads sample_fill sample_ordered.
Proof.
  intros md o Hm Ho. vm_compute in Hm. injection Hm as <-. vm_compute in Ho. injection Ho as <-.
  constructor.
  - vm_compute. reflexivity.
  - eexists. split; vm_compute; reflexivity.
  - eexists. split; vm_compute; reflexivity.
  - intros p Hp. by vm_compute in Hp.
Qed.

Lemma histories_keep_ledger_witness :
  rtc sample_step empty_tables sample_filled /\ ledger_ok sample_filled.
Proof.
  assert (rtc sample_step empty_tables sample_filled) as H.
  { eapply rtc_r; [exact sample_inserted|]. eexists. exact sample_fill_step. }
  split; [exact H|]. exact (histories_keep_ledger _ _ _ _ _ H).
Defined.

Lemma execution_applied_once_witness :
  sample_handle sample_ordered = Ok (sample_filled, sample_outcome) /\
  keeps sample_filled sample_redelivered /\
  map p_quantity (positions sample_redelivered) = [4].
Proof.
  split; [exact sample_fill_applied|]. split; [|reflexivity].
  destruct (_order_by_command_id sample_filled "cmd_1") as [[o|]|] eqn:Ho;
    [|by vm_compute in Ho..].
  exact (proj1 (execution_applied_once sample_id sample_repr sample_loads sample_sum sample_fill
    sample_settings 1709164861000000 sample_settings 1709164861000000 sample_ordered sample_filled
    sample_filled sample_redelivered "order_1" _ _ [] o _ sample_inserted sample_fill_applied
    (rtc_refl _ _) eq_refl Ho
    ltac:(vm_compute in Ho; injection Ho as <-; reflexivity) sample_fill_again)).
Defined.

Lemma sample_filled_honest : rtc sample_honest empty_tables sample_filled.
Proof.
  apply (rtc_l _ _ sample_ordered).
  - eexists. split; [exact sample_insert|exact I].
  - apply rtc_once. eexists. split; [exact sample_fill_step|].
    split; [exact sample_faithful|exact I].
Qed.

Lemma honest_histories_balance_witness :
  rtc sample_honest empty_tables sample_filled /\
  holdings sample_filled "8112345611" "005930" = 4 /\
  holdings sample_filled "8112345611" "005930" =
  _net_position_quantity_from_fills sample_filled "8112345611" "005930".
Proof.
  split; [exact sample_filled_honest|]. split; [reflexivity|].
  exact (honest_histories_balance _ _ _ _ _ _ _ sample_filled_honest).
Defined.

(** ** Observations on the handlers *)

(** A refused sale carries no remaining quantity, and the exit it belongs to is
    marked exactly as when the sale had emptied the position: the exit intent and
    its signal CLOSED, the order EXIT_FILLED. *)
Lemma refused_sale_closes_exit o st s pid ty id :
  _mark_exit_after_sell_fill o (position_mismatch pid) st s =
  _mark_exit_after_sell_fill o (position_changed ty id (Some 0)) st s.
Proof. reflexivity. Qed.

(** A fill of the sample order, or of another one. *)
Definition sample_event (id command side : string) (quantity : Z) : GatewayEvent :=
  {| ge_event_type := "execution_event";
     ge_payload := [("execution_id", JStr id); ("code", JStr "005930"); ("side", JStr side);
                    ("quantity", JInt quantity); ("price", JInt 70000);
                    ("executed_at", JStr "2024-02-29T00:01:00Z")];
     ge_event_id := id; ge_source := "gateway"; ge_ts := 1709164860000000; ge_command_id := Some command;
     ge_idempotency_key := None |}.
Definition sample_fill_of (id command side : string) (quantity : Z) (s : tables)
    : res (tables * outcome) :=
  _handle_live_sim_execution_event sample_id sample_repr sample_loads sample_sum
    (sample_event id command side quantity) sample_settings 1709164861000000 s.
Definition sample_started : GatewayEvent :=
  {| ge_event_type := "command_started"; ge_payload := []; ge_event_id := "evt_2";
     ge_source := "gateway"; ge_ts := 1709164860000000; ge_command_id := Some "cmd_1"; ge_idempotency_key := None |}.

Definition statuses (r : res (tables * outcome)) : res (list OS.t) :=
  let* (s, _) := r in Ok (map order_status (orders s)).

(** A report that the command was started, delivered after the order was filled,
    takes the order back to COMMAND_DISPATCHED. *)
Example late_report_reopens_filled_order :
  statuses (sample_fill_of "X1" "cmd_1" "BUY" 10 sample_ordered) = Ok [OS.FILLED] /\
  statuses
    (let* (s, _) := sample_fill_of "X1" "cmd_1" "BUY" 10 sample_ordered in
     _handle_live_sim_command_event sample_id sample_repr sample_loads sample_started
       1709164862000000 s) = Ok [OS.COMMAND_DISPATCHED].
Proof. split; vm_compute; reflexivity. Qed.

(** The sample order and a sale of the same code. *)
Definition sample_both : tables :=
  ok_or empty_tables
    (let* x := sample_order in
     _insert_order
       {| lo_live_sim_order_id := "order_2"; lo_live_sim_intent_id := "exit_1";
          lo_gateway_command_id := Some "cmd_2"; lo_account_id := lo_account_id x;
          lo_code := lo_code x; lo_name := lo_name x; lo_side := LiveSimSide.SELL;
          lo_order_type := lo_order_type x; lo_quantity := 4; lo_limit_price := lo_limit_price x;
          lo_notional := lo_notional x; lo_status := OS.EXIT_COMMAND_QUEUED;
          lo_broker_order_no := None; lo_broker_result_code := None; lo_broker_message := None;
          lo_filled_quantity := 0; lo_remaining_quantity := 4; lo_avg_fill_price := None;
          lo_idempotency_key := "key_2"; lo_created_at := lo_created_at x;
          lo_command_queued_at := lo_command_queued_at x; lo_command_dispatched_at := None;
          lo_broker_acked_at := None; lo_last_event_at := None; lo_live_sim_only := true;
          lo_live_real_allowed := false |} "2024-02-29" sample_ordered).

(** While a position is being closed, a further fill of its buy order opens a
    second position of the same account and code; neither then holds what the
    executions of that account and code add up to, which reconciliation compares
    each of them with. *)
Example fill_while_closing_opens_second_position :
  (let* (s, _) := sample_fill_of "X1" "cmd_1" "BUY" 4 sample_both in
   let* (s, _) := sample_fill_of "X2" "cmd_2" "SELL" 1 s in
   let* (s, _) := sample_fill_of "X3" "cmd_1" "BUY" 6 s in
   Ok (map (fun p => (p_status p, p_quantity p)) (positions s),
       _net_position_quantity_from_fills s "8112345611" "005930")) =
  Ok ([(PS.CLOSING, 3); (PS.OPEN, 6)], 9).
Proof. vm_compute. reflexivity. Qed.
