(* ===== verification/SafetyGate.v ===== *)
(** * The live-sim safety gate ([services/live_sim/safety_gate.py],
    [services/live_sim/daily_loss_guard.py])

    [check_live_sim_safety_gate] decides whether a new buy, or a command of the
    lifecycle (a cancel, an exit), may go to the gateway: the settings, the
    status the gateway last reported, the order-broker boundary (through the
    class [RoutingGate]), the daily order and loss limits.  Of the result the
    decision and its reasons are kept; the evidence is not. *)
From S2P Require Import Prelude PyFloat BrokerUtils WireTime GatewayModels OrderBoundary.
From S2P Require Import CommandStore LiveSimModels LiveSimStore LiveSimEvents.
From Stdlib Require Import SpecFloat.
Local Open Scope Z_scope.

(** ** Settings *)

Module TradingMode.
Inductive t := OBSERVE | LIVE_SIM | LIVE_REAL.
#[export] Instance eq_dec : EqDecision t.
Proof. solve_decision. Defined.
End TradingMode.
#[export] Existing Instance TradingMode.eq_dec.

(** The fields of [Settings] the gate reads; [live_sim_allowed] and
    [live_real_allowed] are properties over [trading_allow_live_sim] and
    [trading_allow_live_real]. *)
Record GateSettings := {
  event_settings : EventSettings;
  trading_mode : TradingMode.t;
  live_sim_enabled : bool;
  live_sim_allowed : bool;
  live_real_allowed : bool;
  live_sim_order_routing_enabled : bool;
  live_sim_gateway_command_enabled : bool;
  live_sim_kill_switch : bool;
  live_sim_account_id : string;
  live_sim_stale_tick_sec : Z;
  live_sim_entry_window_start : string;
  live_sim_entry_window_end : string;
  live_sim_order_exchange : string;
  live_sim_nxt_support_confirmed : bool;
  ai_sidecar_tools_enabled : bool;
  ai_sidecar_order_tools_enabled : bool;
  live_sim_max_daily_order_count : Z;
  live_sim_max_daily_notional : float;
  live_sim_max_daily_loss : float;
  live_sim_max_daily_loss_pct : float
}.

(** ** What the gateway reported *)

(** The table [gateway_status]. *)
Abbreviation gateway_values := (gmap string string).

(** [_bool_status]: the texts JSON reads as a bool are among the listed ones, so
    the final [json.loads] decides nothing. *)
Fixpoint _bool_status (values : gateway_values) (keys : list string) (default : bool) : bool :=
  match keys with
  | [] => default
  | key :: keys =>
      match values !! key with
      | None => _bool_status values keys default
      | Some raw =>
          let normalized := py_lower (py_strip raw) in
          if mem normalized ["1"; "true"; "yes"; "y"; "on"; "ok"; "orderable"] then true
          else if mem normalized ["0"; "false"; "no"; "n"; "off"; "blocked"] then false
          else _bool_status values keys default
      end
  end.

Definition _gateway_or_config (values : gateway_values) (key fallback : string) : string :=
  py_upper (py_strip (default fallback (values !! key))).

(** The age, in microseconds, compared with whole seconds. *)
Definition _heartbeat_is_fresh (value : option string) (s : GateSettings) (now : Z) : bool :=
  match value with
  | None | Some EmptyString => false
  | Some v =>
      match parse_timestamp (JStr v) "last_heartbeat_at" with
      | Ok t => now - t <=? seconds (live_sim_stale_tick_sec s * 4)
      | Err _ => false
      end
  end.

Definition text_le (a b : string) : bool := match String.compare a b with Gt => false | _ => true end.

Definition live_sim_entry_window_open (s : GateSettings) (now : Z) : bool :=
  text_le (live_sim_entry_window_start s) (market_time_str now) &&
  text_le (market_time_str now) (live_sim_entry_window_end s).

(** ** Daily limits *)

Definition NON_CONSUMING_LIVE_SIM_ORDER_STATUSES : list OS.t := [OS.FAILED; OS.ORDER_EXPIRED].

Definition _daily_live_sim_order_count (l : tables) (trade_date : string) (side : LiveSimSide.t)
    : Z :=
  Z.of_nat (length (List.filter (fun r =>
    String.eqb (or_trade_date r) trade_date && bool_decide (order_side r = side) &&
    bool_decide (order_status r ∉ NON_CONSUMING_LIVE_SIM_ORDER_STATUSES)) (orders l))).

(** The join of cancel intents with the orders of the day. *)
Definition _daily_live_sim_cancel_intent_count (l : tables) (trade_date : string) : Z :=
  Z.of_nat (length (List.filter (fun c =>
    match get_live_sim_order l (ci_live_sim_order_id c) with
    | Some r => String.eqb (or_trade_date r) trade_date
    | None => false
    end) (cancel_intents l))).

Section Gate.
Context (sql_sum : list float -> float) {gate : RoutingGate}.

(** [float(SUM(column) or 0.0)]. *)
Definition _sum_live_sim_positions (column : position_row -> float) (p : position_row -> bool)
    (l : tables) : float :=
  match map column (List.filter p (positions l)) with
  | [] => f_zero
  | xs => let total := sql_sum xs in if f_is_zero total then f_zero else total
  end.

Record DailyLoss := {
  realized_pnl : float;
  unrealized_pnl : float;
  daily_loss : float;
  effective_loss_limit : float;
  daily_loss_limit_exceeded : bool
}.

Definition build_live_sim_daily_loss_evidence (l : tables) (trade_date : string)
    (s : GateSettings) : DailyLoss :=
  let realized := _sum_live_sim_positions p_realized_pnl
                    (fun p => String.eqb (p_trade_date p) trade_date) l in
  let unrealized := _sum_live_sim_positions p_unrealized_pnl
    (fun p => String.eqb (p_trade_date p) trade_date &&
              bool_decide (p_status p ∈ [PS.OPEN; PS.CLOSING; PS.RECONCILE_MISMATCH]) &&
              (0 <? p_quantity p)) l in
  let daily_pnl := f_add realized unrealized in
  let pct_loss_limit :=
    if f_gtZ (live_sim_max_daily_loss_pct s) 0
    then f_divZ (f_mul (live_sim_max_daily_notional s) (live_sim_max_daily_loss_pct s)) 100
    else f_zero in
  let enabled_limits :=
    List.filter (fun x => f_gtZ x 0) [live_sim_max_daily_loss s; pct_loss_limit] in
  let effective := match enabled_limits with
                   | [] => f_zero
                   | x :: xs => foldl f_min x xs
                   end in
  let loss := f_max (f_neg daily_pnl) f_zero in
  {| realized_pnl := realized; unrealized_pnl := unrealized; daily_loss := loss;
     effective_loss_limit := effective;
     daily_loss_limit_exceeded := f_gtZ effective 0 && f_le effective loss |}.

(** ** The gate *)

Inductive purpose := NEW_BUY | LIFECYCLE.
#[export] Instance purpose_eq_dec : EqDecision purpose.
Proof. solve_decision. Defined.

Record GateResult := {
  passed : bool;
  gate_reason_codes : list string;
  history_warning : bool;
  daily_limit_remaining : Z;
  daily_order_limit_exceeded : bool;
  daily_buy_order_count : Z;
  daily_sell_order_count : Z;
  daily_cancel_intent_count : Z
}.

(** [_merge_reasons]. *)
Definition _merge_reasons (reasons : list string) : list string :=
  dedupe (map py_upper (List.filter (fun r => str_true (py_strip r)) reasons)).

Definition reason_if (b : bool) (code : string) : list string := if b then [code] else [].

Definition check_live_sim_safety_gate (l : tables) (c : store) (values : gateway_values)
    (s : GateSettings) (p : purpose) (enforce_daily_loss_limit enforce_entry_window : bool)
    (trade_date : option string) (now : Z) : GateResult :=
  let es := event_settings s in
  let trading_mode_ok := bool_decide (trading_mode s = TradingMode.LIVE_SIM) || live_sim_enabled s in
  let enabled := live_sim_enabled s && live_sim_allowed s in
  let live_real_disabled := bool_decide (trading_mode s <> TradingMode.LIVE_REAL) &&
                            negb (live_real_allowed s) in
  let gateway_heartbeat_ok := _heartbeat_is_fresh (values !! "last_heartbeat_at") s now in
  let gateway_orderable := _bool_status values ["gateway_orderable"; "orderable"] false in
  let account_mode := _gateway_or_config values "account_mode" (live_sim_account_mode es) in
  let broker_env := _gateway_or_config values "broker_env" (live_sim_broker_env es) in
  let server_mode := _gateway_or_config values "server_mode" (live_sim_server_mode es) in
  let simulation_account_confirmed :=
    str_true (py_strip (live_sim_account_id s)) && is_simulation_like account_mode &&
    is_simulation_like (live_sim_account_mode es) in
  let simulation_server_confirmed :=
    is_simulation_like broker_env && is_simulation_like server_mode &&
    is_simulation_like (live_sim_broker_env es) && is_simulation_like (live_sim_server_mode es) in
  let queue_healthy := _bool_status values ["command_queue_healthy"] true in
  let nxt_order_support_verified :=
    String.eqb (live_sim_order_exchange s) "KRX" || live_sim_nxt_support_confirmed s in
  let day := match trade_date with Some d => if str_true d then d else market_today now
             | None => market_today now end in
  let buys := _daily_live_sim_order_count l day LiveSimSide.BUY in
  let remaining := Z.max (live_sim_max_daily_order_count s - buys) 0 in
  let is_buy := bool_decide (p = NEW_BUY) in
  let codes := _merge_reasons
    (reason_if (negb trading_mode_ok || negb enabled) "LIVE_SIM_DISABLED" ++
     reason_if (negb live_real_disabled) "LIVE_REAL_NOT_ALLOWED" ++
     reason_if (negb (live_sim_order_routing_enabled s)) "ORDER_ROUTING_DISABLED" ++
     reason_if (is_buy && order_routing_blocked (commands c) (boundaries c))
       "ORDER_BROKER_BOUNDARY_BLOCKED" ++
     reason_if (negb (live_sim_gateway_command_enabled s)) "GATEWAY_COMMAND_DISABLED" ++
     reason_if (live_sim_kill_switch s) "LIVE_SIM_KILL_SWITCH_ACTIVE" ++
     reason_if (negb gateway_heartbeat_ok) "GATEWAY_HEARTBEAT_STALE" ++
     reason_if (negb gateway_orderable) "GATEWAY_NOT_ORDERABLE" ++
     reason_if (negb simulation_account_confirmed) "ACCOUNT_NOT_SIMULATION" ++
     reason_if (negb (is_simulation_like broker_env)) "BROKER_ENV_NOT_SIMULATION" ++
     reason_if (negb (is_simulation_like server_mode)) "SERVER_MODE_NOT_SIMULATION" ++
     reason_if (negb simulation_server_confirmed) "SERVER_MODE_NOT_SIMULATION" ++
     reason_if (negb queue_healthy) "GATEWAY_COMMAND_QUEUE_UNHEALTHY" ++
     reason_if (negb nxt_order_support_verified) "NXT_ORDER_SUPPORT_UNCONFIRMED" ++
     reason_if (ai_sidecar_tools_enabled s || ai_sidecar_order_tools_enabled s)
       "AI_ORDER_TOOLS_ENABLED" ++
     reason_if (enforce_entry_window && negb (live_sim_entry_window_open s now))
       "ENTRY_WINDOW_CLOSED" ++
     reason_if (enforce_daily_loss_limit &&
                daily_loss_limit_exceeded (build_live_sim_daily_loss_evidence l day s))
       "DAILY_LOSS_LIMIT_EXCEEDED" ++
     reason_if (is_buy && (remaining <=? 0)) "DAILY_ORDER_LIMIT_EXCEEDED") in
  {| passed := match codes with [] => true | _ => false end; gate_reason_codes := codes;
     history_warning :=
       existsb (fun r => bool_decide (gc_status r ∈ [GS.FAILED; GS.REJECTED])) (rows (commands c));
     daily_limit_remaining := remaining; daily_order_limit_exceeded := remaining <=? 0;
     daily_buy_order_count := buys;
     daily_sell_order_count := _daily_live_sim_order_count l day LiveSimSide.SELL;
     daily_cancel_intent_count := _daily_live_sim_cancel_intent_count l day |}.
End Gate.
