(* ===== verification/LiveSimExit.v ===== *)
(** * Exits and cancels ([services/live_sim/live_sim_service.py])

    The commands of the live-sim lifecycle that the core itself starts: selling
    an open position when the exit policy fires, and cancelling a buy order that
    is still open after its time to live.  [run_live_sim_exit_once] and
    [run_live_sim_cancel_unfilled_once] evaluate, create an intent and queue a
    gateway command; a failure is recorded and the run goes on.

    An operation is a function of the [world] (the live-sim tables, the command
    store, the latest ticks, the gateway's status) that ends in a value or an
    exception; what it wrote before an exception stays, because the runs commit
    after recording the error.  The clock is read once per run. *)
From S2P Require Import Prelude PyFloat BrokerUtils WireTime ExitPolicy GatewayModels OrderBoundary.
From S2P Require Import CommandStore LiveSimModels LiveSimStore LiveSimEvents SafetyGate.
From Stdlib Require Import SpecFloat.
From stdpp Require Import pretty.
Local Open Scope Z_scope.

(** ** State and exceptions *)

(** A row of [market_ticks_latest] of the exchange KRX. *)
Record tick := {
  tk_price : float;
  tk_event_ts : string;
  tk_spread_ticks : Z
}.

Record world := {
  ledger : tables;
  gateway : store;
  ticks : gmap string tick;
  gateway_status : gateway_values
}.

Definition set_ledger (l : tables) (w : world) : world :=
  {| ledger := l; gateway := gateway w; ticks := ticks w; gateway_status := gateway_status w |}.
Definition set_gateway (c : store) (w : world) : world :=
  {| ledger := ledger w; gateway := c; ticks := ticks w; gateway_status := gateway_status w |}.

Abbreviation M := (SE world).
Definition on_ledger (f : tables -> tables) : M unit := fun w => (set_ledger (f (ledger w)) w, Ok tt).
(** A step that writes nothing when it raises. *)
Definition try_ledger (f : tables -> res tables) : M unit :=
  fun w => match f (ledger w) with
           | Ok l => (set_ledger l w, Ok tt)
           | Err e => (w, Err e)
           end.
(** ** Settings *)

Record LifecycleSettings := {
  gate_settings : GateSettings;
  live_sim_cancel_enabled : bool;
  live_sim_cancel_unfilled_enabled : bool;
  live_sim_cancel_kill_switch : bool;
  live_sim_cancel_order_ttl_sec : Z;
  live_sim_cancel_max_commands_per_run : Z;
  live_sim_cancel_require_broker_order_no : bool;
  live_sim_cancel_allow_without_broker_order_no : bool;
  live_sim_exit_engine_enabled : bool;
  live_sim_exit_order_creation_enabled : bool;
  live_sim_exit_gateway_command_enabled : bool;
  live_sim_exit_allow_sell_close_only : bool;
  live_sim_exit_allow_short : bool;
  live_sim_exit_default_order_type : string;
  live_sim_exit_stop_loss_pct : float;
  live_sim_exit_take_profit_pct : float;
  live_sim_exit_trailing_activation_pct : float;
  live_sim_exit_trailing_stop_pct : float;
  live_sim_exit_min_hold_sec : Z;
  live_sim_exit_max_hold_sec : Z;
  live_sim_exit_eod_flatten_enabled : bool;
  live_sim_exit_eod_flatten_time : string;
  live_sim_exit_max_commands_per_run : Z;
  live_sim_exit_price_offset_ticks : Z;
  live_sim_default_hoga : string;
  live_sim_config_version : string
}.

Definition _bounded_limit (limit : Z) : Z := Z.min (Z.max limit 1) 500.

Section Operations.
Context (new_message_id : string -> nat -> string) (py_repr : json -> string)
  (hash_payload : payload -> string) (sql_sum : list float -> float) {gate : RoutingGate}.

Definition fresh_id (prefix : string) : M string :=
  fun w => let '(id, l) := LiveSimEvents.fresh new_message_id prefix (ledger w) in (set_ledger l w, Ok id).

Definition log_lifecycle (event_type entity_type : string)
    (entity_id live_sim_order_id position_id status reason : option string) : M unit :=
  try_ledger (_record_lifecycle_event new_message_id event_type entity_type entity_id
                live_sim_order_id position_id status reason).

(** [GatewayCommand(...)] and [enqueue_command]; the command's identifier. *)
Definition enqueue_until (expires_at : option Z) (command_type : string) (p : payload) (key : string)
    (now : Z) : M EnqueueCommandResult :=
  let! id := fresh_id "cmd" in
  let! c := of_res (GatewayCommand_post_init
              {| command_type := command_type; source := "live_sim"; payload_of := p;
                 command_id := id; ts := now; idempotency_key := Some key |}) in
  fun w =>
    let '(c', r) := enqueue_command py_repr hash_payload (gateway w) c expires_at now now in
    (set_gateway c' w, Ok r).
Abbreviation enqueue := (enqueue_until None).

(** ** Exits: evaluation *)

(** [_mark_position_to_market]; the values come from the row [p] that was read. *)
Definition marked_position (p : position_row) (last_price unrealized : float)
    (last_price_at : string) (s : LifecycleSettings) (now : Z) (row : position_row)
    : position_row :=
  let highest := f_max (float_or (p_highest_price p) last_price) last_price in
  let lowest := f_min (float_or (p_lowest_price p) last_price) last_price in
  let activated :=
    f_le (f_mul (p_avg_entry_price p)
            (f_add (f_of_Z 1) (f_divZ (live_sim_exit_trailing_activation_pct s) 100))) highest in
  let trailing :=
    if activated
    then Some (f_mul highest (f_sub (f_of_Z 1) (f_divZ (live_sim_exit_trailing_stop_pct s) 100)))
    else p_trailing_stop_price p in
  position_columns (p_quantity row) (p_available_quantity row) (p_avg_entry_price row)
    (p_total_entry_notional row) (p_realized_pnl row) unrealized (Some highest) (Some lowest)
    trailing (Some last_price) (Some last_price_at) (p_status row) (p_closed_at row)
    (datetime_to_wire now) row.

Definition _mark_position_to_market (p : position_row) (last_price : float)
    (last_price_at : string) (s : LifecycleSettings) (now : Z) : M unit :=
  let! unrealized := of_res (_net_unrealized_pnl (p_quantity p) (p_avg_entry_price p) last_price
                               (event_settings (gate_settings s))) in
  on_ledger (update_position (p_position_id p)
               (marked_position p last_price unrealized last_price_at s now)).

Record signal_candidate := {
  sc_position_id : string;
  sc_code : string;
  sc_reason : string;
  sc_trigger_price : option float;
  sc_last_price : float;
  sc_quantity : Z;
  sc_eligible : bool
}.

Definition trigger_name (t : ExitTriggerType) : string :=
  match t with
  | STOP_LOSS => "STOP_LOSS" | TAKE_PROFIT => "TAKE_PROFIT" | TRAILING_STOP => "TRAILING_STOP"
  | MAX_HOLD => "MAX_HOLD" | EOD_FLATTEN => "EOD_FLATTEN"
  end.

Definition _exit_signal_candidate (p : position_row) (last_price : float) (eligible : bool)
    (t : ExitTrigger) : signal_candidate :=
  {| sc_position_id := p_position_id p; sc_code := p_code p;
     sc_reason := trigger_name (trigger_type t); sc_trigger_price := trigger_price t;
     sc_last_price := last_price; sc_quantity := p_available_quantity p;
     sc_eligible := eligible |}.

(** The policy the settings describe. *)
Definition exit_policy (s : LifecycleSettings) : ExitPolicyConfig :=
  {| stop_loss_pct := live_sim_exit_stop_loss_pct s;
     take_profit_pct := live_sim_exit_take_profit_pct s;
     trailing_activation_pct := live_sim_exit_trailing_activation_pct s;
     trailing_stop_pct := live_sim_exit_trailing_stop_pct s;
     minimum_hold_sec := live_sim_exit_min_hold_sec s;
     maximum_hold_sec := live_sim_exit_max_hold_sec s;
     eod_flatten_enabled := live_sim_exit_eod_flatten_enabled s;
     eod_flatten_time := live_sim_exit_eod_flatten_time s;
     close_only := true; allow_short := false; policy_version := live_sim_config_version s |}.

Definition policy_triggers (p : position_row) (last_price : float) (s : LifecycleSettings)
    (now : Z) : res (list ExitTrigger) :=
  let* opened :=
    if str_true (p_opened_at p) then parse_timestamp (JStr (p_opened_at p)) "opened_at"
    else Ok now in
  let* snapshot := LongPositionSnapshot_post_init
    {| entry_price := p_avg_entry_price p; current_price := last_price;
       highest_price := float_or (p_highest_price p) last_price;
       quantity := p_quantity p; opened_at := opened; observed_at := now |} in
  let* config := ExitPolicyConfig_post_init (exit_policy s) in
  let* d := evaluate_long_exit_policy snapshot config in
  Ok (triggers d).

Definition data_wait (p : position_row) (reason : string) : M unit :=
  log_lifecycle "EXIT_EVALUATION_DATA_WAIT" "LIVE_SIM_POSITION" (Some (p_position_id p)) None
    (Some (p_position_id p)) (Some (PS.value (p_status p))) (Some reason).

(** One row of the evaluation. *)
Definition evaluate_position (s : LifecycleSettings) (now : Z) (row : position_row)
    : M (list signal_candidate) :=
  let! w := get in
  let! code := of_res (validate_code (p_code row) "code") in
  match ticks w !! code with
  | None => let! _ := data_wait row "LATEST_TICK_MISSING" in ret []
  | Some t =>
      let last_price := tk_price t in
      let! event_time := of_res (parse_timestamp (JStr (tk_event_ts t)) "event_ts") in
      let! _ := _mark_position_to_market row last_price (tk_event_ts t) s now in
      let! w := get in
      let p := default row (get_live_sim_position (ledger w) (p_position_id row)) in
      if seconds (live_sim_stale_tick_sec (gate_settings s)) <? Z.max (now - event_time) 0 then
        let! _ := data_wait p "LIVE_SIM_EXIT_LATEST_TICK_STALE" in ret []
      else
        let! ts := of_res (policy_triggers p last_price s now) in
        match ts with
        | [] => ret []
        | _ =>
            let! active := of_res (_active_exit_for_position (ledger w) (p_position_id p)) in
            ret (map (_exit_signal_candidate p last_price (negb active)) ts)
        end
  end.

Fixpoint collect {A B} (f : A -> M (list B)) (l : list A) : M (list B) :=
  match l with
  | [] => ret []
  | a :: l =>
      let! xs := f a in
      let! ys := collect f l in
      ret (xs ++ ys)
  end.

(** The open positions with shares to sell, oldest first, at most [limit]. *)
Definition exit_positions (l : tables) (position_id code : option string) (limit : option Z)
    : res (list position_row) :=
  let* position_id :=
    match position_id with
    | None => Ok None
    | Some v => let* v := require_non_empty v "position_id" in Ok (Some v)
    end in
  let* code :=
    match code with
    | None => Ok None
    | Some v => let* v := validate_code v "code" in Ok (Some v)
    end in
  Ok (take (Z.to_nat (_bounded_limit (match limit with
                                      | Some n => if n =? 0 then 500 else n
                                      | None => 500
                                      end)))
        (stable_sort opened_before
           (List.filter (fun p =>
              bool_decide (p_status p = PS.OPEN) && (0 <? p_quantity p) &&
              (0 <? p_available_quantity p) &&
              match position_id with Some v => String.eqb (p_position_id p) v | None => true end &&
              match code with Some v => String.eqb (p_code p) v | None => true end)
              (positions l)))).

Definition evaluate_live_sim_exit_signals (s : LifecycleSettings) (position_id code : option string)
    (limit : option Z) (now : Z) : M (list signal_candidate) :=
  let! w := get in
  let! rows := of_res (exit_positions (ledger w) position_id code limit) in
  collect (evaluate_position s now) rows.

(** ** Exits: intents and commands *)

(** [datetime('now')] of SQLite. *)
Definition sqlite_now (now : Z) : string :=
  let s := (now mod day_usec) / usec in
  date_isoformat (now / day_usec + epoch_days) +:+ " " +:+
  pad 2 (s / 3600) +:+ ":" +:+ pad 2 (s / 60 mod 60) +:+ ":" +:+ pad 2 (s mod 60).

Definition _insert_exit_signal_from_candidate (c : signal_candidate) (now : Z) : M exit_signal :=
  let! w := get in
  let! active := of_res (_active_exit_for_position (ledger w) (sc_position_id c)) in
  let! _ := require (negb active) "LIVE_SIM_EXIT_DUPLICATE" in
  let! id := fresh_id "live_sim_exit_signal" in
  let row := {| xs_exit_signal_id := id; xs_position_id := sc_position_id c; xs_code := sc_code c;
                xs_reason := sc_reason c; xs_trigger_price := sc_trigger_price c;
                xs_last_price := Some (sc_last_price c); xs_quantity := sc_quantity c;
                xs_status := "SIGNALLED"; xs_created_at := sqlite_now now |} in
  let! _ := try_ledger (fun l =>
    let* rows := insert_row (same xs_exit_signal_id) row (exit_signals l) in
    Ok (set_exit_signals rows l)) in
  let! _ := log_lifecycle "EXIT_SIGNAL_CREATED" "LIVE_SIM_EXIT_SIGNAL" (Some id) None
              (Some (sc_position_id c)) (Some "SIGNALLED") (Some (sc_reason c)) in
  ret row.

(** [ORDER BY created_at DESC, exit_signal_id DESC LIMIT 1]. *)
Definition later_signal (a b : exit_signal) : bool :=
  match String.compare (xs_created_at a) (xs_created_at b) with
  | Gt => true
  | Lt => false
  | Eq => match String.compare (xs_exit_signal_id a) (xs_exit_signal_id b) with Lt => false | _ => true end
  end.
Definition _latest_exit_signal_for_position (l : tables) (position_id : string)
    : res (option exit_signal) :=
  let* k := require_non_empty position_id "position_id" in
  Ok (head (stable_sort later_signal
        (List.filter (fun x => String.eqb (xs_position_id x) k &&
                               mem (xs_status x) ACTIVE_EXIT_SIGNAL_STATUSES) (exit_signals l)))).

(** [a or b] for nullable numbers. *)
Definition float_else (a b : option float) : option float :=
  match a with Some x => if f_is_zero x then b else a | None => b end.

Definition exit_key (position_id : string) (x : exit_signal) : string :=
  "live_sim_exit:" +:+ position_id +:+ ":" +:+ xs_exit_signal_id x +:+ ":" +:+ xs_reason x.

Definition create_live_sim_exit_intent (position_id : string) (exit_signal_id : option string)
    (s : LifecycleSettings) : M exit_intent :=
  let! w := get in
  match get_live_sim_position (ledger w) position_id with
  | None => raise (ValueError "LIVE_SIM_EXIT_POSITION_NOT_FOUND")
  | Some p =>
      let! _ := require (live_sim_exit_engine_enabled s) "LIVE_SIM_EXIT_DISABLED" in
      let! _ := require (live_sim_exit_order_creation_enabled s)
                  "LIVE_SIM_EXIT_ORDER_CREATION_DISABLED" in
      let! active := of_res (_active_exit_intent_for_position (ledger w) position_id) in
      let! _ := require (negb active) "LIVE_SIM_EXIT_DUPLICATE" in
      let! _ := require (bool_decide (p_status p ∈ [PS.OPEN; PS.RECONCILE_MISMATCH]))
                  "LIVE_SIM_EXIT_POSITION_NOT_OPEN" in
      let quantity := p_available_quantity p in
      let! _ := require (negb ((quantity <=? 0) || (p_quantity p <? quantity)))
                  "LIVE_SIM_EXIT_QUANTITY_INVALID" in
      let! signal := of_res
        match exit_signal_id with
        | Some id => Ok (get_live_sim_exit_signal (ledger w) id)
        | None => _latest_exit_signal_for_position (ledger w) position_id
        end in
      match signal with
      | None => raise (ValueError "LIVE_SIM_EXIT_SIGNAL_REQUIRED")
      | Some x =>
          let! id := fresh_id "live_sim_exit" in
          let row := {| xi_exit_intent_id := id; xi_position_id := position_id;
                        xi_exit_signal_id := xs_exit_signal_id x; xi_live_sim_order_id := None;
                        xi_gateway_command_id := None; xi_code := p_code p; xi_quantity := quantity;
                        xi_order_type := live_sim_exit_default_order_type s;
                        xi_limit_price := float_else (xs_last_price x) (p_last_price p);
                        xi_reason := xs_reason x; xi_status := "CREATED";
                        xi_idempotency_key := exit_key position_id x |} in
          let! _ := try_ledger (fun l =>
            let* rows := insert_row (fun a b => same xi_exit_intent_id a b ||
                                                same xi_idempotency_key a b) row (exit_intents l) in
            Ok (set_exit_intents rows l)) in
          let! _ := on_ledger (update_exit_signal (xs_exit_signal_id x) "EXIT_INTENT_CREATED") in
          let! _ := log_lifecycle "EXIT_INTENT_CREATED" "LIVE_SIM_EXIT_INTENT" (Some id) None
                      (Some position_id) (Some "CREATED") (Some (xs_reason x)) in
          ret row
      end
  end.

Definition _exit_safety_reasons (w : world) (p : position_row) (x : exit_intent)
    (s : LifecycleSettings) (now : Z) : list string :=
  let g := gate_settings s in
  let r := check_live_sim_safety_gate sql_sum (ledger w) (gateway w) (gateway_status w) g LIFECYCLE
             false false None now in
  _merge_reasons
    ((if passed r then [] else gate_reason_codes r) ++
     reason_if (negb (live_sim_exit_engine_enabled s)) "LIVE_SIM_EXIT_DISABLED" ++
     reason_if (negb (live_sim_exit_order_creation_enabled s)) "LIVE_SIM_EXIT_ORDER_CREATION_DISABLED" ++
     reason_if (negb (live_sim_exit_gateway_command_enabled s))
       "LIVE_SIM_EXIT_GATEWAY_COMMAND_DISABLED" ++
     reason_if (live_sim_kill_switch g) "LIVE_SIM_KILL_SWITCH_ACTIVE" ++
     reason_if (negb (live_sim_exit_allow_sell_close_only s)) "SELL_NOT_ALLOWED" ++
     reason_if (live_sim_exit_allow_short s) "LIVE_SIM_EXIT_SHORT_NOT_ALLOWED" ++
     reason_if (String.eqb (py_upper (xi_order_type x)) "MARKET")
       "LIVE_SIM_EXIT_MARKET_ORDER_NOT_ALLOWED" ++
     reason_if (bool_decide (p_status p ∉ [PS.OPEN; PS.CLOSING; PS.RECONCILE_MISMATCH]))
       "LIVE_SIM_EXIT_POSITION_NOT_OPEN" ++
     reason_if ((xi_quantity x <=? 0) || (p_available_quantity p <? xi_quantity x))
       "LIVE_SIM_EXIT_QUANTITY_INVALID" ++
     reason_if (match xi_gateway_command_id x with Some c => str_true c | None => false end)
       "LIVE_SIM_EXIT_DUPLICATE").

(** [_tick_offset_value]. *)
Definition _tick_offset_value (offset_ticks : Z) : float := f_of_Z offset_ticks.

Definition _build_gateway_exit_order_payload (p : position_row) (x : exit_intent)
    (s : LifecycleSettings) : payload :=
  let g := gate_settings s in
  let es := event_settings g in
  let key := xi_idempotency_key x in
  let price := match float_else (xi_limit_price x) (p_last_price p) with
               | Some v => if f_is_zero v then f_zero else v
               | None => f_zero
               end in
  let limit_price := f_add price (_tick_offset_value (live_sim_exit_price_offset_ticks s)) in
  [("account_id", JStr (p_account_id p)); ("account_mode", JStr (live_sim_account_mode es));
   ("broker_env", JStr (live_sim_broker_env es)); ("server_mode", JStr (live_sim_server_mode es));
   ("code", JStr (p_code p)); ("name", JStr (p_name p)); ("side", JStr "SELL");
   ("quantity", JInt (xi_quantity x)); ("price", JFloat limit_price);
   ("limit_price", JFloat limit_price); ("order_type", JStr (xi_order_type x));
   ("hoga", JStr (live_sim_default_hoga s));
   ("order_exchange", JStr (live_sim_order_exchange g)); ("mode", JStr "LIVE_SIM");
   ("live_mode", JStr "LIVE_SIM"); ("live_sim_only", JBool true);
   ("live_real_allowed", JBool false); ("broker_order_path", JStr "LIVE_SIM_ONLY");
   ("real_order_allowed", JBool false); ("close_only", JBool true); ("allow_short", JBool false);
   ("position_id", JStr (p_position_id p)); ("exit_signal_id", JStr (xi_exit_signal_id x));
   ("exit_intent_id", JStr (xi_exit_intent_id x));
   ("live_sim_intent_id", JStr (xi_exit_intent_id x)); ("idempotency_key", JStr key);
   ("metadata", JObj
     [("source", JStr "live_sim"); ("live_sim_only", JBool true);
      ("live_real_allowed", JBool false); ("broker_order_path", JStr "LIVE_SIM_ONLY");
      ("order_exchange", JStr (live_sim_order_exchange g)); ("close_only", JBool true);
      ("allow_short", JBool false); ("position_id", JStr (p_position_id p));
      ("exit_signal_id", JStr (xi_exit_signal_id x));
      ("exit_intent_id", JStr (xi_exit_intent_id x));
      ("live_sim_intent_id", JStr (xi_exit_intent_id x)); ("idempotency_key", JStr key)])].

(** The order record of a queued exit. *)
Definition exit_order_args (id command : string) (p : position_row) (x : exit_intent) (now : Z)
    : res LiveSimOrderArgs :=
  let at' := text (JStr (datetime_to_wire now)) in
  let* q := float_of_int (xi_quantity x) in
  Ok {| oa_live_sim_order_id := JStr id; oa_live_sim_intent_id := JStr (xi_exit_intent_id x);
        oa_gateway_command_id := JStr command; oa_account_id := JStr (p_account_id p);
        oa_code := JStr (p_code p); oa_name := JStr (p_name p); oa_side := JStr "SELL";
        oa_order_type := JStr (xi_order_type x); oa_quantity := JInt (xi_quantity x);
        oa_limit_price := opt_float (xi_limit_price x);
        oa_notional := JFloat (f_mul q (float_or (xi_limit_price x) f_zero));
        oa_status := JStr "EXIT_COMMAND_QUEUED"; oa_broker_order_no := JNull;
        oa_broker_result_code := JNull; oa_broker_message := JNull;
        oa_filled_quantity := JInt 0; oa_remaining_quantity := JInt (xi_quantity x);
        oa_avg_fill_price := JNull; oa_idempotency_key := JStr (xi_idempotency_key x);
        oa_created_at := at'; oa_command_queued_at := at';
        oa_command_dispatched_at := text JNull; oa_broker_acked_at := text JNull;
        oa_last_event_at := text JNull |}.

Definition reject_exit {A} (x : exit_intent) (reasons : list string) (msg : string) : M A :=
  let! _ := try_ledger (_mark_exit_intent_rejected new_message_id x reasons) in
  raise (ValueError msg).

(** What follows an accepted exit command. *)
Definition record_exit_command (command : string) (p : position_row) (x : exit_intent) (now : Z)
    : M unit :=
  let! id := fresh_id "live_sim_exit_order" in
  let! args := of_res (exit_order_args id command p x now) in
  let! o := of_res (LiveSimOrderRecord_post_init args) in
  let! _ := try_ledger (_insert_order o (p_trade_date p)) in
  let! _ := on_ledger (update_exit_intent (xi_exit_intent_id x)
                         (exit_intent_queued command (lo_live_sim_order_id o))) in
  let! _ := on_ledger (update_exit_signal (xi_exit_signal_id x) "COMMAND_QUEUED") in
  let! _ := on_ledger (update_position (p_position_id p)
                         (position_status_only PS.CLOSING (datetime_to_wire now))) in
  log_lifecycle "EXIT_COMMAND_QUEUED" "LIVE_SIM_EXIT_INTENT" (Some (xi_exit_intent_id x))
    (Some (lo_live_sim_order_id o)) (Some (p_position_id p)) (Some "COMMAND_QUEUED")
    (Some (xi_reason x)).

Definition queue_live_sim_exit_order_command (exit_intent_id : string) (s : LifecycleSettings)
    (now : Z) : M unit :=
  let! w := get in
  match get_live_sim_exit_intent (ledger w) exit_intent_id with
  | None => raise (ValueError ("LIVE_SIM exit intent not found: " +:+ exit_intent_id))
  | Some x =>
      match get_live_sim_position (ledger w) (xi_position_id x) with
      | None => raise (ValueError "LIVE_SIM_EXIT_POSITION_NOT_FOUND")
      | Some p =>
          match _exit_safety_reasons w p x s now with
          | _ :: _ as reasons => reject_exit x reasons (String.concat "," reasons)
          | [] =>
              let! r := enqueue "send_order" (_build_gateway_exit_order_payload p x s)
                          (xi_idempotency_key x) now in
              if er_accepted r then record_exit_command (er_command_id r) p x now
              else reject_exit x ["COMMAND_QUEUE_REJECTED"]
                     (match er_error_message r with
                      | Some m => if str_true m then m else "COMMAND_QUEUE_REJECTED"
                      | None => "COMMAND_QUEUE_REJECTED"
                      end)
          end
      end
  end.

(** ** A run of the exits *)

(** What a run has made so far. *)
Record run_counts := {
  rc_inserted : list exit_signal;
  rc_intents : list exit_intent;
  rc_queued : Z;
  rc_errors : list (string * string)
}.

Definition no_counts : run_counts :=
  {| rc_inserted := []; rc_intents := []; rc_queued := 0; rc_errors := [] |}.

(** The [except]. *)
Definition exit_failed (c : signal_candidate) (n : run_counts) (inserted : list exit_signal)
    (intents : list exit_intent) (e : exn) : M run_counts :=
  let! _ := try_ledger (_record_error new_message_id py_repr None None (Some (JStr (sc_code c)))
                          (exn_text e)) in
  ret {| rc_inserted := inserted; rc_intents := intents; rc_queued := rc_queued n;
         rc_errors := rc_errors n ++ [(sc_position_id c, exn_text e)] |}.

(** One signal: the body of the [try]; the lists are appended to as it goes, so
    what was made before an exception is counted. *)
Definition exit_one (c : signal_candidate) (queue_commands : bool) (s : LifecycleSettings) (now : Z)
    (n : run_counts) : M run_counts :=
  let failed := exit_failed c n in
  fun w =>
    match _insert_exit_signal_from_candidate c now w with
    | (w, Err e) => failed (rc_inserted n) (rc_intents n) e w
    | (w, Ok x) =>
        let inserted := rc_inserted n ++ [x] in
        match create_live_sim_exit_intent (sc_position_id c) (Some (xs_exit_signal_id x)) s w with
        | (w, Err e) => failed inserted (rc_intents n) e w
        | (w, Ok i) =>
            let intents := rc_intents n ++ [i] in
            if queue_commands then
              match queue_live_sim_exit_order_command (xi_exit_intent_id i) s now w with
              | (w, Err e) => failed inserted intents e w
              | (w, Ok _) => (w, Ok {| rc_inserted := inserted; rc_intents := intents;
                                       rc_queued := rc_queued n + 1; rc_errors := rc_errors n |})
              end
            else (w, Ok {| rc_inserted := inserted; rc_intents := intents; rc_queued := rc_queued n;
                           rc_errors := rc_errors n |})
        end
    end.

Fixpoint exit_loop (cs : list signal_candidate) (dry_run queue_commands : bool)
    (s : LifecycleSettings) (now : Z) (n : run_counts) : M run_counts :=
  match cs with
  | [] => ret n
  | c :: cs =>
      if negb (sc_eligible c) then exit_loop cs dry_run queue_commands s now n
      else if live_sim_exit_max_commands_per_run s <=? Z.of_nat (length (rc_intents n)) then ret n
      else if dry_run then exit_loop cs dry_run queue_commands s now n
      else
        let! n' := exit_one c queue_commands s now n in
        exit_loop cs dry_run queue_commands s now n'
  end.

(** [limit or max_commands_per_run]. *)
Definition limit_or (limit : option Z) (default : Z) : option Z :=
  match limit with Some n => if n =? 0 then Some default else Some n | None => Some default end.

Definition run_live_sim_exit_once (s : LifecycleSettings) (dry_run queue_commands : bool)
    (position_id code : option string) (limit : option Z) (now : Z) : M run_counts :=
  let! _ := fresh_id "live_sim_exit_run" in
  let! signals := evaluate_live_sim_exit_signals s position_id code
                    (limit_or limit (live_sim_exit_max_commands_per_run s)) now in
  exit_loop signals dry_run queue_commands s now no_counts.

(** ** Cancels *)

Definition ACTIVE_LIVE_SIM_ORDER_STATUSES : list OS.t :=
  [OS.INTENT_CREATED; OS.COMMAND_QUEUED; OS.COMMAND_DISPATCHED; OS.BROKER_ACKED;
   OS.PARTIALLY_FILLED; OS.CANCEL_REQUESTED; OS.CANCEL_COMMAND_QUEUED; OS.EXIT_REQUESTED;
   OS.EXIT_COMMAND_QUEUED].

(** [_age_seconds_from_wire(...) < n], in microseconds; no age is an infinite
    one. *)
Definition younger_than (created_at : option Z) (n now : Z) : bool :=
  match created_at with Some t => Z.max (now - t) 0 <? seconds n | None => false end.

Definition broker_no_missing (s : LifecycleSettings) (o : order_row) : bool :=
  live_sim_cancel_require_broker_order_no s &&
  negb (live_sim_cancel_allow_without_broker_order_no s) &&
  negb (match lo_broker_order_no (or_rec o) with Some n => str_true n | None => false end).

Definition is_buy_order (o : order_row) : bool := bool_decide (order_side o = LiveSimSide.BUY).

Record cancel_candidate := {
  cc_order : order_row;
  cc_eligible : bool;
  cc_reason_codes : list string
}.

(** [ORDER BY created_at ASC, live_sim_order_id ASC]. *)
Definition created_before (a b : order_row) : bool :=
  let key r := match lo_created_at (or_rec r) with Some t => wire_key t | None => -1 end in
  (key a <? key b) || ((key a =? key b) && text_le (order_id a) (order_id b)).

Definition cancel_orders (l : tables) (limit : option Z) : list order_row :=
  take (Z.to_nat (_bounded_limit (match limit with
                                  | Some n => if n =? 0 then 500 else n
                                  | None => 500
                                  end)))
    (stable_sort created_before
       (List.filter (fun o => is_buy_order o &&
                              bool_decide (order_status o ∈ ACTIVE_LIVE_SIM_ORDER_STATUSES) &&
                              (0 <? lo_remaining_quantity (or_rec o))) (orders l))).

Definition evaluate_cancel (s : LifecycleSettings) (now : Z) (o : order_row)
    : M (list cancel_candidate) :=
  let! w := get in
  let young := younger_than (lo_created_at (or_rec o)) (live_sim_cancel_order_ttl_sec s) now in
  let! active := of_res (_active_cancel_for_order (ledger w) (order_id o)) in
  let reasons :=
    reason_if young "LIVE_SIM_CANCEL_TTL_NOT_EXPIRED" ++
    reason_if (lo_remaining_quantity (or_rec o) <=? 0) "LIVE_SIM_CANCEL_NO_REMAINING_QUANTITY" ++
    reason_if (negb (is_buy_order o)) "LIVE_SIM_CANCEL_NOT_BUY" ++
    reason_if (broker_no_missing s o) "LIVE_SIM_CANCEL_BROKER_ORDER_NO_REQUIRED" ++
    reason_if active "LIVE_SIM_CANCEL_DUPLICATE" in
  if bool_decide (reasons = ["LIVE_SIM_CANCEL_TTL_NOT_EXPIRED"]) then ret [] else
  let item := {| cc_order := o; cc_eligible := match reasons with [] => true | _ => false end;
                 cc_reason_codes := _merge_reasons reasons |} in
  let! _ :=
    if negb (cc_eligible item) && negb young
    then log_lifecycle "CANCEL_CANDIDATE_REJECTED" "LIVE_SIM_ORDER" (Some (order_id o))
           (Some (order_id o)) None (Some (OS.value (order_status o)))
           (Some (String.concat "," (cc_reason_codes item)))
    else ret tt in
  ret [item].

Definition evaluate_live_sim_cancel_candidates (s : LifecycleSettings) (limit : option Z) (now : Z)
    : M (list cancel_candidate) :=
  let! w := get in
  collect (evaluate_cancel s now) (cancel_orders (ledger w) limit).

Definition cancel_key (live_sim_order_id reason : string) : string :=
  "live_sim_cancel:" +:+ live_sim_order_id +:+ ":" +:+ py_upper reason.

(** [SET status = st, last_event_at = now]. *)
Definition order_status_at (st : OS.t) (now : Z) (x : LiveSimOrderRecord) : LiveSimOrderRecord :=
  order_report st None None now x.

Definition create_live_sim_cancel_intent (live_sim_order_id reason : string) (now : Z)
    : M cancel_intent :=
  let! w := get in
  match get_live_sim_order (ledger w) live_sim_order_id with
  | None => raise (ValueError ("LIVE_SIM order not found: " +:+ live_sim_order_id))
  | Some o =>
      let! active := of_res (_active_cancel_for_order (ledger w) live_sim_order_id) in
      let! _ := require (negb active) "LIVE_SIM_CANCEL_DUPLICATE" in
      let cancel_quantity := lo_remaining_quantity (or_rec o) in
      let! _ := require (0 <? cancel_quantity) "LIVE_SIM_CANCEL_NO_REMAINING_QUANTITY" in
      let! id := fresh_id "live_sim_cancel" in
      let row := {| ci_cancel_intent_id := id; ci_live_sim_order_id := live_sim_order_id;
                    ci_gateway_command_id := None; ci_code := lo_code (or_rec o);
                    ci_original_order_no := lo_broker_order_no (or_rec o);
                    ci_cancel_quantity := cancel_quantity; ci_reason := py_upper reason;
                    ci_status := "CREATED";
                    ci_idempotency_key := cancel_key live_sim_order_id reason |} in
      let! _ := try_ledger (fun l =>
        let* rows := insert_row (fun a b => same ci_cancel_intent_id a b ||
                                            same ci_idempotency_key a b) row (cancel_intents l) in
        Ok (set_cancel_intents rows l)) in
      let! _ := on_ledger (update_order live_sim_order_id (order_status_at OS.CANCEL_REQUESTED now)) in
      let! _ := log_lifecycle "CANCEL_INTENT_CREATED" "LIVE_SIM_CANCEL_INTENT" (Some id)
                  (Some live_sim_order_id) None (Some "CREATED") (Some (py_upper reason)) in
      ret row
  end.

Definition _cancel_safety_reasons (w : world) (o : order_row) (c : cancel_intent)
    (s : LifecycleSettings) (now : Z) : list string :=
  let g := gate_settings s in
  let r := check_live_sim_safety_gate sql_sum (ledger w) (gateway w) (gateway_status w) g LIFECYCLE
             false false None now in
  _merge_reasons
    ((if passed r then [] else gate_reason_codes r) ++
     reason_if (negb (live_sim_cancel_enabled s)) "LIVE_SIM_CANCEL_DISABLED" ++
     reason_if (negb (live_sim_cancel_unfilled_enabled s)) "LIVE_SIM_CANCEL_UNFILLED_DISABLED" ++
     reason_if (live_sim_cancel_kill_switch s || live_sim_kill_switch g) "LIVE_SIM_KILL_SWITCH_ACTIVE" ++
     reason_if (negb (is_buy_order o)) "LIVE_SIM_CANCEL_NOT_BUY" ++
     reason_if (lo_remaining_quantity (or_rec o) <=? 0) "LIVE_SIM_CANCEL_NO_REMAINING_QUANTITY" ++
     reason_if (younger_than (lo_created_at (or_rec o)) (live_sim_cancel_order_ttl_sec s) now)
       "LIVE_SIM_CANCEL_TTL_NOT_EXPIRED" ++
     reason_if (broker_no_missing s o) "LIVE_SIM_CANCEL_BROKER_ORDER_NO_REQUIRED" ++
     reason_if (match ci_gateway_command_id c with Some k => str_true k | None => false end)
       "LIVE_SIM_CANCEL_DUPLICATE").

(** [a or b] for nullable texts. *)
Definition text_else (a b : option string) : option string :=
  match a with Some t => if str_true t then a else b | None => b end.

Definition _build_gateway_cancel_order_payload (o : order_row) (c : cancel_intent)
    (s : LifecycleSettings) : payload :=
  let g := gate_settings s in
  let es := event_settings g in
  let x := or_rec o in
  let key := ci_idempotency_key c in
  [("account_id", JStr (lo_account_id x)); ("account_mode", JStr (live_sim_account_mode es));
   ("broker_env", JStr (live_sim_broker_env es)); ("server_mode", JStr (live_sim_server_mode es));
   ("code", JStr (lo_code x)); ("name", JStr (lo_name x)); ("side", JStr "BUY_CANCEL");
   ("quantity", JInt (ci_cancel_quantity c)); ("cancel_quantity", JInt (ci_cancel_quantity c));
   ("original_order_no", opt_str (text_else (ci_original_order_no c) (lo_broker_order_no x)));
   ("original_order_id", JStr (order_id o)); ("live_sim_order_id", JStr (order_id o));
   ("reason", JStr (ci_reason c)); ("mode", JStr "LIVE_SIM"); ("live_mode", JStr "LIVE_SIM");
   ("live_sim_only", JBool true); ("live_real_allowed", JBool false);
   ("broker_order_path", JStr "LIVE_SIM_ONLY"); ("real_order_allowed", JBool false);
   ("order_exchange", JStr (live_sim_order_exchange g)); ("idempotency_key", JStr key);
   ("metadata", JObj
     [("source", JStr "live_sim"); ("live_sim_only", JBool true);
      ("live_real_allowed", JBool false); ("broker_order_path", JStr "LIVE_SIM_ONLY");
      ("order_exchange", JStr (live_sim_order_exchange g));
      ("cancel_intent_id", JStr (ci_cancel_intent_id c));
      ("original_live_sim_order_id", JStr (order_id o));
      ("live_sim_intent_id", JStr (lo_live_sim_intent_id x)); ("idempotency_key", JStr key)])].

Definition _mark_cancel_intent_rejected (c : cancel_intent) (reasons : list string) (l : tables)
    : res tables :=
  let l := update_cancel_intent (ci_cancel_intent_id c) (cancel_intent_status "REJECTED") l in
  _record_lifecycle_event new_message_id "CANCEL_INTENT_REJECTED" "LIVE_SIM_CANCEL_INTENT"
    (Some (ci_cancel_intent_id c)) (Some (ci_live_sim_order_id c)) None (Some "REJECTED")
    (Some (String.concat "," reasons)) l.

Definition reject_cancel {A} (c : cancel_intent) (reasons : list string) (msg : string) : M A :=
  let! _ := try_ledger (_mark_cancel_intent_rejected c reasons) in
  raise (ValueError msg).

Definition queue_live_sim_cancel_command (cancel_intent_id : string) (s : LifecycleSettings)
    (now : Z) : M unit :=
  let! w := get in
  match get_live_sim_cancel_intent (ledger w) cancel_intent_id with
  | None => raise (ValueError ("LIVE_SIM cancel intent not found: " +:+ cancel_intent_id))
  | Some c =>
      match get_live_sim_order (ledger w) (ci_live_sim_order_id c) with
      | None => raise (ValueError ("LIVE_SIM order not found: " +:+ ci_live_sim_order_id c))
      | Some o =>
          match _cancel_safety_reasons w o c s now with
          | _ :: _ as reasons => reject_cancel c reasons (String.concat "," reasons)
          | [] =>
              let! r := enqueue "cancel_order" (_build_gateway_cancel_order_payload o c s)
                          (ci_idempotency_key c) now in
              if er_accepted r then
                let! _ := on_ledger (update_cancel_intent cancel_intent_id
                                       (cancel_intent_queued (er_command_id r))) in
                let! _ := on_ledger (update_order (order_id o)
                                       (order_status_at OS.CANCEL_COMMAND_QUEUED now)) in
                log_lifecycle "CANCEL_COMMAND_QUEUED" "LIVE_SIM_CANCEL_INTENT"
                  (Some cancel_intent_id) (Some (order_id o)) None (Some "COMMAND_QUEUED")
                  (Some (ci_reason c))
              else reject_cancel c ["COMMAND_QUEUE_REJECTED"]
                     (match er_error_message r with
                      | Some m => if str_true m then m else "COMMAND_QUEUE_REJECTED"
                      | None => "COMMAND_QUEUE_REJECTED"
                      end)
          end
      end
  end.

(** *** A run of the cancels *)

Record cancel_counts := {
  cn_created : list cancel_intent;
  cn_queued : Z;
  cn_errors : list (string * string)
}.
Definition no_cancels : cancel_counts := {| cn_created := []; cn_queued := 0; cn_errors := [] |}.

(** The [except]. *)
Definition cancel_failed (o : order_row) (n : cancel_counts) (created : list cancel_intent)
    (e : exn) : M cancel_counts :=
  let! _ := try_ledger (_record_error new_message_id py_repr
              (Some (JStr (lo_live_sim_intent_id (or_rec o)))) (Some (JStr (order_id o)))
              (Some (JStr (lo_code (or_rec o)))) (exn_text e)) in
  ret {| cn_created := created; cn_queued := cn_queued n;
         cn_errors := cn_errors n ++ [(order_id o, exn_text e)] |}.

(** One candidate: the body of the [try]. *)
Definition cancel_one (o : order_row) (queue_commands : bool) (s : LifecycleSettings) (now : Z)
    (n : cancel_counts) : M cancel_counts :=
  let failed := cancel_failed o n in
  fun w =>
    match create_live_sim_cancel_intent (order_id o) "TTL_EXPIRED" now w with
    | (w, Err e) => failed (cn_created n) e w
    | (w, Ok c) =>
        let created := cn_created n ++ [c] in
        if queue_commands then
          match queue_live_sim_cancel_command (ci_cancel_intent_id c) s now w with
          | (w, Err e) => failed created e w
          | (w, Ok _) => (w, Ok {| cn_created := created; cn_queued := cn_queued n + 1;
                                   cn_errors := cn_errors n |})
          end
        else (w, Ok {| cn_created := created; cn_queued := cn_queued n; cn_errors := cn_errors n |})
    end.

Fixpoint cancel_loop (cs : list cancel_candidate) (dry_run queue_commands : bool)
    (s : LifecycleSettings) (now : Z) (n : cancel_counts) : M cancel_counts :=
  match cs with
  | [] => ret n
  | c :: cs =>
      if negb (cc_eligible c) then cancel_loop cs dry_run queue_commands s now n
      else if live_sim_cancel_max_commands_per_run s <=? Z.of_nat (length (cn_created n)) then ret n
      else if dry_run then cancel_loop cs dry_run queue_commands s now n
      else
        let! n' := cancel_one (cc_order c) queue_commands s now n in
        cancel_loop cs dry_run queue_commands s now n'
  end.

Definition run_live_sim_cancel_unfilled_once (s : LifecycleSettings) (dry_run queue_commands : bool)
    (limit : option Z) (now : Z) : M cancel_counts :=
  let! _ := fresh_id "live_sim_cancel_run" in
  let! candidates := evaluate_live_sim_cancel_candidates s
                       (limit_or limit (live_sim_cancel_max_commands_per_run s)) now in
  cancel_loop candidates dry_run queue_commands s now no_cancels.
End Operations.

Abbreviation enqueue new_message_id py_repr hash_payload :=
  (enqueue_until new_message_id py_repr hash_payload None).
