(* ===== verification/LiveSimRuns.v ===== *)
(** * What exit and cancel runs do ([LiveSimExit])

    An exit command that is queued sells, close-only and in a simulation, no more
    than the position has available, and what the safety reasons let through the
    command store's validators accept.  A refused exit leaves its signal active:
    no later run creates another exit for the position. *)
From S2P Require Import Prelude PyFloat BrokerUtils WireTime ExitPolicy GatewayModels OrderBoundary.
From S2P Require Import CommandStore LiveSimModels LiveSimStore LiveSimEvents SafetyGate LiveSimExit.
From S2P Require Import LiveSimLedger LiveSimHistory.
From Stdlib Require Import SpecFloat.
Local Open Scope Z_scope.

(** ** Reasons *)

Lemma merge_reasons_app l k :
  _merge_reasons (l ++ k) = [] <-> _merge_reasons l = [] /\ _merge_reasons k = [].
Proof.
  unfold _merge_reasons. rewrite !dedupe_nil_iff, List.filter_app, map_app.
  destruct (map py_upper (List.filter _ l)); naive_solver.
Qed.

Lemma merge_reason_if b code :
  str_true (py_strip code) = true -> _merge_reasons (reason_if b code) = [] -> b = false.
Proof.
  intros H. destruct b; [|done]. unfold _merge_reasons, reason_if. cbn. by rewrite H.
Qed.

Lemma merge_reasons_again l : _merge_reasons (_merge_reasons l) = [] -> _merge_reasons l = [].
Proof.
  intros H. destruct (_merge_reasons l) as [|r rs] eqn:E; [done|exfalso].
  assert (r ∈ _merge_reasons l) as Hr by (rewrite E; left).
  unfold _merge_reasons in Hr at 1.
  apply elem_of_dedupe, list_elem_of_fmap in Hr as (r0 & -> & Hr0).
  apply list_elem_of_In, filter_In in Hr0 as [_ Hr0].
  unfold _merge_reasons in H. rewrite dedupe_nil_iff in H. cbn in H.
  by rewrite py_strip_upper, str_true_upper, Hr0 in H.
Qed.

(** [no_reasons H] turns "no reasons" in [H] into what each one denies. *)
Ltac no_reasons H :=
  repeat (apply merge_reasons_app in H as [?H H]);
  repeat match goal with
  | H : _merge_reasons (reason_if _ _) = [] |- _ =>
      apply merge_reason_if in H; [|vm_compute; reflexivity]
  end.

Lemma gate_passed_nil sql_sum (gate : RoutingGate) l c v s p a b d now :
  passed (check_live_sim_safety_gate sql_sum l c v s p a b d now) = true ->
  gate_reason_codes (check_live_sim_safety_gate sql_sum l c v s p a b d now) = [].
Proof. cbn. by destruct (_merge_reasons _). Qed.

(** The gate passes when its reasons, added to others, leave none. *)
Lemma gate_reasons_nil sql_sum (gate : RoutingGate) l c v s p a b d now :
  let r := check_live_sim_safety_gate sql_sum l c v s p a b d now in
  _merge_reasons (if passed r then [] else gate_reason_codes r) = [] -> passed r = true.
Proof.
  cbv zeta. destruct (passed _) eqn:E; [done|]. intros H.
  cbn [passed gate_reason_codes check_live_sim_safety_gate] in *. cbv zeta in *.
  apply merge_reasons_again in H. by rewrite H in E.
Qed.

(** What a passed gate says of the settings. *)
Lemma gate_simulation sql_sum (gate : RoutingGate) l c v s p a b d now :
  passed (check_live_sim_safety_gate sql_sum l c v s p a b d now) = true ->
  let es := event_settings s in
  is_simulation_like (live_sim_account_mode es) = true /\
  is_simulation_like (live_sim_broker_env es) = true /\
  is_simulation_like (live_sim_server_mode es) = true /\
  live_sim_enabled s = true /\ live_real_allowed s = false /\
  trading_mode s <> TradingMode.LIVE_REAL /\ live_sim_kill_switch s = false.
Proof.
  intros H%gate_passed_nil. cbn [gate_reason_codes check_live_sim_safety_gate] in H. cbv zeta in H.
  no_reasons H.
  repeat match goal with
  | H : negb _ = false |- _ => apply negb_false_iff in H
  | H : _ && _ = true |- _ => apply andb_true_iff in H as [? H]
  | H : _ || _ = false |- _ => apply orb_false_iff in H as [? H]
  | H : bool_decide _ = true |- _ => apply bool_decide_eq_true_1 in H
  | H : negb _ = true |- _ => apply negb_true_iff in H
  end.
  by split_and!.
Qed.

(** ** The payload of an exit *)

Lemma simulation_text py_repr v :
  is_simulation_like v = true -> _is_simulation_like py_repr (Some (JStr v)) = true.
Proof.
  unfold is_simulation_like, _is_simulation_like, SIMULATION_LIKE_MODES. intros H.
  replace (str_or_empty py_repr (Some (JStr v))) with v; [done|]. by destruct v.
Qed.

(** ** Runs of the monad *)

Lemma try_ledger_ok f w w' u :
  try_ledger f w = (w', Ok u) <-> exists l, f (ledger w) = Ok l /\ w' = set_ledger l w.
Proof. unfold try_ledger. destruct (f (ledger w)), u; naive_solver. Qed.

Section Exits.
Context (new_message_id : string -> nat -> string) (py_repr : json -> string)
  (hash_payload : payload -> string) (sql_sum : list float -> float) {gate : RoutingGate}.

Abbreviation exit_reasons := (_exit_safety_reasons sql_sum).
Abbreviation queue_exit :=
  (queue_live_sim_exit_order_command new_message_id py_repr hash_payload sql_sum).

(** What no reason against an exit says of it. *)
Record exit_allowed (s : LifecycleSettings) (p : position_row) (x : exit_intent) : Prop := {
  allowed_account : is_simulation_like (live_sim_account_mode (event_settings (gate_settings s))) = true;
  allowed_broker : is_simulation_like (live_sim_broker_env (event_settings (gate_settings s))) = true;
  allowed_server : is_simulation_like (live_sim_server_mode (event_settings (gate_settings s))) = true;
  allowed_no_real : live_real_allowed (gate_settings s) = false;
  allowed_no_kill : live_sim_kill_switch (gate_settings s) = false;
  allowed_not_short : live_sim_exit_allow_short s = false;
  allowed_limit : py_upper (xi_order_type x) <> "MARKET";
  allowed_quantity : 1 <= xi_quantity x <= p_available_quantity p;
  allowed_position : p_status p <> PS.CLOSED;
  allowed_new : xi_gateway_command_id x = None \/ xi_gateway_command_id x = Some EmptyString
}.

Lemma no_exit_reasons w p x s now : exit_reasons w p x s now = [] -> exit_allowed s p x.
Proof.
  unfold _exit_safety_reasons. cbv zeta. intros H. apply merge_reasons_app in H as [Hg H].
  apply gate_reasons_nil in Hg as Hp.
  apply gate_simulation in Hp as (Ha & Hb & Hs & _ & Hr & _ & Hk). no_reasons H. clear Hg.
  repeat match goal with
  | H : _ || _ = false |- _ => apply orb_false_iff in H as [? H]
  | H : (_ <=? _) = false |- _ => apply Z.leb_gt in H
  | H : (_ <? _) = false |- _ => apply Z.ltb_ge in H
  | H : String.eqb _ _ = false |- _ => apply String.eqb_neq in H
  | H : bool_decide _ = false |- _ => apply bool_decide_eq_false_1 in H
  end.
  constructor; [done..|lia| |].
  - intros E. match goal with H : ~ (_ ∉ _) |- _ => apply H end. rewrite E. set_solver.
  - destruct (xi_gateway_command_id x) as [[]|]; [by right|done|by left].
Qed.

(** The command of an exit. *)
Definition exit_command (id : string) (now : Z) (p : position_row) (x : exit_intent)
    (s : LifecycleSettings) : GatewayCommand :=
  {| command_type := "send_order"; source := "live_sim";
     payload_of := _build_gateway_exit_order_payload p x s; command_id := id; ts := now;
     idempotency_key := Some (xi_idempotency_key x) |}.

Lemma exit_payload_validates id now p x s :
  exit_allowed s p x -> str_true (xi_idempotency_key x) = true ->
  str_true (p_position_id p) = true -> str_true (xi_exit_intent_id x) = true ->
  validate_command_type_allowed py_repr "send_order" (Some (exit_command id now p x s)) = None.
Proof.
  intros [] Hk Hp Hx.
  unfold validate_command_type_allowed. cbn -[_validate_live_sim_send_order_allowed].
  unfold _validate_live_sim_send_order_allowed, exit_command. cbv zeta.
  cbn [source idempotency_key payload_of].
  unfold _build_gateway_exit_order_payload, _mapping_value. cbv zeta.
  destruct (xi_idempotency_key x) as [|c k] eqn:Ekey; [done|].
  unfold validate_sell, str_get.
  cbn [jget String.eqb Ascii.eqb Bool.eqb].
  rewrite !simulation_text by done.
  cbn [py_str is_True is_False is_text truthy jtrue].
  rewrite !String.eqb_refl, Hx, Hp. cbn.
  destruct (String.eqb_spec (py_upper (xi_order_type x)) "MARKET"); done.
Qed.

(** An accepted command is a new row of the queue that passed the validators. *)
Lemma enqueue_accepted expires ct p key now w w' r :
  enqueue_until new_message_id py_repr hash_payload expires ct p key now w = (w', Ok r) ->
  er_accepted r = true ->
  exists c, commands (gateway w) !! gc_command_id c = None /\
    commands (gateway w') = <[gc_command_id c := c]> (commands (gateway w)) /\
    gc_payload c = p /\ gc_source c = "live_sim" /\ gc_status c = GS.QUEUED /\
    validate_command_type_allowed py_repr (gc_command_type c) (Some (command_of c)) = None /\
    er_command_id r = gc_command_id c /\ is_text_field (gc_command_id c) /\
    ledger w' = set_serial (S (serial (ledger w))) (ledger w).
Proof.
  unfold enqueue_until. intros H Hacc. apply bind_ok in H as (w1 & id & Hid & H).
  unfold fresh_id, LiveSimEvents.fresh in Hid. injection Hid as <- <-.
  apply bind_ok in H as (w2 & c & [Hc ->]%of_res_ok & H). cbn [gateway set_ledger] in H.
  apply res_bind_ok in Hc as (cid & Hcid & Hc). apply res_bind_ok in Hc as (ct' & Hct & Hc).
  apply res_bind_ok in Hc as (src & [= <-] & Hc). apply res_bind_ok in Hc as (key' & _ & [= <-]).
  revert H. unfold enqueue_command. cbv zeta. cbn [command_type command_id idempotency_key payload_of].
  destruct (validate_command_type_allowed _ _ _) eqn:Ev; [by intros [= <- <-]|].
  destruct (commands _ !! cid) eqn:Ecid; [by intros [= <- <-]|].
  destruct (match key' with Some _ => _ | None => _ end) as [s1 [m|]] eqn:Ed; [by intros [= <- <-]|].
  assert (commands s1 = commands (gateway w)) as Hs1.
  { destruct key' as [k|]; [|by injection Ed as <-]. unfold _find_active_dedupe_error in Ed.
    destruct (dedupe_keys _ !! k); [|by injection Ed as <-].
    destruct (match dk_retained_until _ with Some _ => _ | None => _ end); [done|].
    by injection Ed as <-. }
  destruct (enqueue_rows _ _ _ _ _) as [s2|e] eqn:Eq; intros [= <- <-]; [|done].
  apply enqueue_rows_spec in Eq as (Hn & Hcs & _). cbn [command_id] in *.
  exists (queued_row {| command_type := ct'; source := "live_sim"; payload_of := p; command_id := cid;
                        ts := now; idempotency_key := key' |} (_normalize_command_type ct') expires). cbn [gc_command_id queued_row gc_payload gc_source gc_status
    gc_command_type command_id payload_of source gateway set_gateway ledger set_ledger].
  split_and!; [by rewrite <- Hs1|by rewrite Hcs, Hs1|done..|exact Ev|done| |done].
  by apply (text_field_ok (JStr (new_message_id "cmd" (serial (ledger w)))) "command_id").
Qed.

(** Queueing an exit that was accepted. *)
Lemma record_exit_ok cid p x now w w' u :
  is_text_field cid ->
  record_exit_command new_message_id cid p x now w = (w', Ok u) ->
  gateway w' = gateway w /\
  exists o, orders (ledger w') = orders (ledger w) ++ [o] /\ order_side o = LiveSimSide.SELL /\
    lo_gateway_command_id (or_rec o) = Some cid /\ lo_quantity (or_rec o) = xi_quantity x /\
    lo_filled_quantity (or_rec o) = 0 /\ lo_remaining_quantity (or_rec o) = xi_quantity x.
Proof.
  unfold record_exit_command. intros Hcid H.
  apply bind_ok in H as (w1 & id & Hid & H). injection Hid as <- <-.
  apply bind_ok in H as (w2 & args & [Hargs ->]%of_res_ok & H).
  apply bind_ok in H as (w3 & o & [Ho ->]%of_res_ok & H).
  apply bind_ok in H as (w4 & [] & (l & Hl & ->)%try_ledger_ok & H).
  apply bind_ok in H as (w5 & [] & [= <-] & H). apply bind_ok in H as (w6 & [] & [= <-] & H).
  apply bind_ok in H as (w7 & [] & [= <-] & H). apply try_ledger_ok in H as (l' & Hlog & ->).
  cbn [gateway set_ledger ledger] in *. split; [done|].
  assert (orders l' = orders l) as ->.
  { revert Hlog. unfold _record_lifecycle_event, LiveSimEvents.fresh. intros H. bind_inv H.
    by injection H as <-. }
  apply res_bind_ok in Hl as (_ & _ & (rows & Hrows & [= <-])%res_bind_ok).
  apply insert_row_ok in Hrows as [-> _]. eexists. split; [done|]. cbn [order_side or_rec].
  apply res_bind_ok in Hargs as (q & _ & [= <-]).
  unfold LiveSimOrderRecord_post_init in Ho. cbn [oa_gateway_command_id oa_side oa_quantity
    oa_filled_quantity oa_remaining_quantity] in Ho.
  change (JStr cid) with (opt_str (Some cid)) in Ho. rewrite opt_text_again in Ho by done.
  bind_inv Ho. injection Ho as <-. cbn.
  repeat match goal with
  | H : Ok _ = Ok _ |- _ => injection H as <-
  | H : parse_side _ = Ok _ |- _ => vm_compute in H
  | H : non_negative_int (JInt _) _ = Ok _ |- _ => apply int_value in H
  end.
  by split_and!.
Qed.
End Exits.

(** ** Exits of one position *)

(** The exit intents made for a position, and whether a signal of it is active. *)
Definition exits_of (position_id : string) (l : tables) : list string :=
  map xi_exit_intent_id
    (List.filter (fun x => String.eqb (xi_position_id x) position_id) (exit_intents l)).
Definition signalled (position_id : string) (l : tables) : bool :=
  existsb (fun x => String.eqb (xs_position_id x) position_id &&
                    mem (xs_status x) ACTIVE_EXIT_SIGNAL_STATUSES) (exit_signals l).

(** From [l] to [l'] the position gets no exit intent and keeps its active
    signal. *)
Definition no_new_exit (position_id : string) (l l' : tables) : Prop :=
  exits_of position_id l' = exits_of position_id l /\
  (signalled position_id l = true -> signalled position_id l' = true).

Lemma no_new_exit_refl pid l : no_new_exit pid l l.
Proof. done. Qed.

Lemma no_new_exit_trans pid l1 l2 l3 :
  no_new_exit pid l1 l2 -> no_new_exit pid l2 l3 -> no_new_exit pid l1 l3.
Proof. intros [E1 H1] [E2 H2]. split; [congruence|auto]. Qed.

(** Steps that touch neither table. *)
Lemma no_new_exit_same pid l l' :
  exit_intents l' = exit_intents l -> exit_signals l' = exit_signals l -> no_new_exit pid l l'.
Proof. unfold no_new_exit, exits_of, signalled. by intros -> ->. Qed.

Lemma signal_active_status id st pid l :
  st ∈ ACTIVE_EXIT_SIGNAL_STATUSES -> no_new_exit pid l (update_exit_signal id st l).
Proof.
  intros Hst. split; [done|]. unfold signalled. cbn. intros (x & Hx & Hp)%existsb_exists.
  apply existsb_exists. exists (if String.eqb (xs_exit_signal_id x) id then exit_signal_status st x else x).
  apply list_elem_of_In in Hx. rewrite <- list_elem_of_In. split.
  - apply elem_of_update_rows. by exists x.
  - destruct (String.eqb _ id); [|done]. apply andb_true_iff in Hp as [Hp _].
    apply andb_true_intro. split; [exact Hp|exact (proj2 (mem_spec _ _) Hst)].
Qed.

Lemma exit_intent_update pid id f l :
  (forall x, xi_exit_intent_id (f x) = xi_exit_intent_id x /\ xi_position_id (f x) = xi_position_id x) ->
  no_new_exit pid l (update_exit_intent id f l).
Proof.
  intros Hf. split; [|done]. unfold exits_of. cbn. unfold update_rows.
  induction (exit_intents l) as [|x xs IH]; [done|]. cbn [map List.filter].
  set (y := if String.eqb (xi_exit_intent_id x) id then f x else x).
  assert (xi_position_id y = xi_position_id x /\ xi_exit_intent_id y = xi_exit_intent_id x) as [-> E].
  { unfold y. destruct (String.eqb _ id); [|done]. by destruct (Hf x). }
  destruct (String.eqb (xi_position_id x) pid); cbn [map]; [by rewrite E, IH|done].
Qed.

Lemma new_intent_elsewhere pid x rows l :
  xi_position_id x <> pid -> rows = exit_intents l ++ [x] ->
  no_new_exit pid l (set_exit_intents rows l).
Proof.
  intros Hne ->. split; [|done]. unfold exits_of. cbn. rewrite List.filter_app. cbn.
  apply String.eqb_neq in Hne. by rewrite Hne, app_nil_r.
Qed.

Lemma new_signal pid x rows l :
  rows = exit_signals l ++ [x] -> no_new_exit pid l (set_exit_signals rows l).
Proof.
  intros ->. split; [done|]. unfold signalled. cbn. rewrite existsb_app. by intros ->.
Qed.

(** *** Through the operations *)

(** A computation that, run on any world, makes no new exit of the position,
    whether it returns or raises. *)
Definition spares {A} (pid : string) (m : M A) : Prop :=
  forall w, no_new_exit pid (ledger w) (ledger (m w).1).

Lemma spares_bind {A B} pid (m : M A) (k : A -> M B) :
  spares pid m -> (forall a, spares pid (k a)) -> spares pid (bind m k).
Proof.
  intros Hm Hk w. unfold bind. specialize (Hm w). destruct (m w) as [w1 [a|e]]; [|done].
  eapply no_new_exit_trans; [exact Hm|apply Hk].
Qed.

Lemma spares_pure {A} pid (m : M A) : (forall w, (m w).1 = w) -> spares pid m.
Proof. intros H w. rewrite H. apply no_new_exit_refl. Qed.

Lemma spares_ledger pid f :
  (forall l, no_new_exit pid l (f l)) -> spares pid (on_ledger f).
Proof. intros H w. apply H. Qed.

Lemma spares_try pid f :
  (forall l l', f l = Ok l' -> no_new_exit pid l l') -> spares pid (try_ledger f).
Proof.
  intros H w. unfold try_ledger. destruct (f (ledger w)) eqn:E; [|apply no_new_exit_refl].
  by apply H.
Qed.

Lemma spares_get {A} pid (k : world -> M A) :
  (forall w, no_new_exit pid (ledger w) (ledger (k w w).1)) -> spares pid (bind get k).
Proof. intros H w. apply H. Qed.

Create HintDb spares.
#[export] Hint Resolve no_new_exit_refl : spares.

(** [spares_tac] goes through the steps of an operation. *)
Ltac spares_tac :=
  repeat match goal with
  | |- spares _ (bind _ _) => apply spares_bind; [|intros ?]
  | |- spares _ (of_res _) => by apply spares_pure
  | |- spares _ (ret _) => by apply spares_pure
  | |- spares _ (raise _) => by apply spares_pure
  | |- spares _ get => by apply spares_pure
  | |- spares _ (require ?b _) => destruct b; by apply spares_pure
  | |- spares _ (match ?x with _ => _ end) => destruct x
  | |- spares _ (if ?x then _ else _) => destruct x
  | |- spares _ _ => solve [eauto with spares]
  end.

Section Spares.
Context (new_message_id : string -> nat -> string) (py_repr : json -> string)
  (hash_payload : payload -> string) (sql_sum : list float -> float) {gate : RoutingGate}.

Lemma lifecycle_no_exit pid ty en eid oid p st rs l l' :
  _record_lifecycle_event new_message_id ty en eid oid p st rs l = Ok l' -> no_new_exit pid l l'.
Proof.
  unfold _record_lifecycle_event, LiveSimEvents.fresh. intros H. bind_inv H. injection H as <-.
  by apply no_new_exit_same.
Qed.

Lemma spares_log pid ty en eid oid p st rs :
  spares pid (log_lifecycle new_message_id ty en eid oid p st rs).
Proof. apply spares_try. intros l l'. apply lifecycle_no_exit. Qed.

Lemma spares_fresh pid prefix : spares pid (fresh_id new_message_id prefix).
Proof. intros w. by apply no_new_exit_same. Qed.

Lemma spares_error pid i o c m :
  spares pid (try_ledger (_record_error new_message_id py_repr i o c m)).
Proof.
  apply spares_try. intros l l' H. unfold _record_error in H. bind_inv H.
  eapply no_new_exit_trans; [|by eapply lifecycle_no_exit]. by apply no_new_exit_same.
Qed.

Lemma spares_enqueue pid e ct p key now :
  spares pid (enqueue_until new_message_id py_repr hash_payload e ct p key now).
Proof.
  apply spares_bind; [apply spares_fresh|intros id]. spares_tac. intros w.
  destruct (enqueue_command _ _ _ _ _ _ _). by apply no_new_exit_same.
Qed.

Lemma spares_order pid id f : spares pid (on_ledger (update_order id f)).
Proof. apply spares_ledger. intros l. by apply no_new_exit_same. Qed.
Lemma spares_position pid id f : spares pid (on_ledger (update_position id f)).
Proof. apply spares_ledger. intros l. by apply no_new_exit_same. Qed.
Lemma spares_signal pid id st :
  st ∈ ACTIVE_EXIT_SIGNAL_STATUSES -> spares pid (on_ledger (update_exit_signal id st)).
Proof. intros H. apply spares_ledger. intros l. by apply signal_active_status. Qed.
Lemma spares_intent_queued pid id c o :
  spares pid (on_ledger (update_exit_intent id (exit_intent_queued c o))).
Proof. apply spares_ledger. intros l. by apply exit_intent_update. Qed.
Lemma spares_reject {A} pid x rs msg : spares pid (reject_exit (A := A) new_message_id x rs msg).
Proof.
  apply spares_bind; [|intros _; by apply spares_pure]. apply spares_try. intros l l' H.
  apply lifecycle_no_exit with (pid := pid) in H. eapply no_new_exit_trans; [|exact H].
  by apply exit_intent_update.
Qed.
Lemma spares_insert_order pid x d : spares pid (try_ledger (_insert_order x d)).
Proof.
  apply spares_try. intros l l' H. apply res_bind_ok in H as (_ & _ & (r & _ & [= <-])%res_bind_ok).
  by apply no_new_exit_same.
Qed.

#[local] Hint Resolve spares_log spares_fresh spares_error spares_enqueue spares_order
  spares_position spares_intent_queued spares_reject spares_insert_order : spares.

Lemma spares_record_exit pid c p x now : spares pid (record_exit_command new_message_id c p x now).
Proof.
  unfold record_exit_command. spares_tac. apply spares_signal. by right; right; left.
Qed.
#[local] Hint Resolve spares_record_exit : spares.

Lemma spares_queue pid id s now :
  spares pid (queue_live_sim_exit_order_command new_message_id py_repr hash_payload sql_sum id s now).
Proof. unfold queue_live_sim_exit_order_command. spares_tac. Qed.

Lemma spares_insert_signal pid c now :
  spares pid (_insert_exit_signal_from_candidate new_message_id c now).
Proof.
  unfold _insert_exit_signal_from_candidate. cbv zeta. spares_tac. apply spares_try.
  intros l l' H. apply res_bind_ok in H as (r & [-> _]%insert_row_ok & [= <-]).
  by eapply new_signal.
Qed.

Lemma spares_create pid position_id xid s :
  position_id <> pid ->
  spares pid (create_live_sim_exit_intent new_message_id position_id xid s).
Proof.
  intros Hne. unfold create_live_sim_exit_intent. cbv zeta. spares_tac.
  - apply spares_try. intros l l' H. apply res_bind_ok in H as (r & [-> _]%insert_row_ok & [= <-]).
    eapply new_intent_elsewhere; [|reflexivity]. exact Hne.
  - apply spares_signal. by right; left.
Qed.
#[local] Hint Resolve spares_queue spares_insert_signal spares_create : spares.

Lemma spares_exit_one pid c q s now n :
  sc_position_id c <> pid ->
  spares pid (exit_one new_message_id py_repr hash_payload sql_sum c q s now n).
Proof.
  intros Hne w. unfold exit_one. cbv zeta.
  assert (forall a b e, spares pid (exit_failed new_message_id py_repr c n a b e)) as Hfailed
    by (intros; unfold exit_failed; spares_tac).
  pose proof (spares_insert_signal pid c now w) as H1.
  destruct (_insert_exit_signal_from_candidate _ _ _ _) as [w1 [x|e]]; cbn [fst] in H1;
    (eapply no_new_exit_trans; [exact H1|]); [|apply Hfailed].
  pose proof (spares_create pid _ (Some (xs_exit_signal_id x)) s Hne w1) as H2.
  destruct (create_live_sim_exit_intent _ _ _ _ _) as [w2 [i|e]]; cbn [fst] in H2;
    (eapply no_new_exit_trans; [exact H2|]); [|apply Hfailed].
  destruct q; [|apply no_new_exit_refl].
  pose proof (spares_queue pid (xi_exit_intent_id i) s now w2) as H3.
  destruct (queue_live_sim_exit_order_command _ _ _ _ _ _ _ _) as [w3 [[]|e]]; cbn [fst] in H3;
    (eapply no_new_exit_trans; [exact H3|]); [apply no_new_exit_refl|apply Hfailed].
Qed.

(** Creating an exit intent leaves its signal active. *)
Lemma create_signalled position_id signal_id s w w' i pid x :
  get_live_sim_exit_signal (ledger w) signal_id = Some x -> xs_position_id x = pid ->
  create_live_sim_exit_intent new_message_id position_id (Some signal_id) s w = (w', Ok i) ->
  signalled pid (ledger w') = true.
Proof.
  unfold create_live_sim_exit_intent. cbv zeta. intros Hx Hpid H.
  apply bind_ok in H as (w0 & w0' & [= <- <-] & H).
  destruct (get_live_sim_position _ _) as [p|]; [|done].
  apply bind_ok in H as (w1 & [] & [_ ->]%require_ok & H).
  apply bind_ok in H as (w1 & [] & [_ ->]%require_ok & H).
  apply bind_ok in H as (w1 & b & [_ ->]%of_res_ok & H).
  apply bind_ok in H as (w1 & [] & [_ ->]%require_ok & H).
  apply bind_ok in H as (w1 & [] & [_ ->]%require_ok & H).
  apply bind_ok in H as (w1 & [] & [_ ->]%require_ok & H).
  apply bind_ok in H as (w1 & x' & [[= <-] ->]%of_res_ok & H). rewrite Hx in H.
  apply bind_ok in H as (w1 & id & [= <- <-] & H).
  apply bind_ok in H as (w2 & [] & (l & Hl & ->)%try_ledger_ok & H).
  apply res_bind_ok in Hl as (rows & _ & [= <-]).
  apply bind_ok in H as (w3 & [] & [= <-] & H).
  apply bind_ok in H as (w4 & [] & (l & Hl & ->)%try_ledger_ok & [= <- _]).
  apply lifecycle_no_exit with (pid := pid) in Hl as [_ Hl]. apply Hl.
  apply find_elem in Hx as [Hin Hid]. apply existsb_exists.
  exists (exit_signal_status "EXIT_INTENT_CREATED" x). rewrite <- list_elem_of_In. split.
  - apply elem_of_update_rows. exists x. split; [exact Hin|]. by rewrite String.eqb_refl.
  - cbn. by rewrite Hpid, String.eqb_refl.
Qed.

(** *** A run *)

(** No eligible candidate of the position. *)
Definition ineligible (pid : string) (c : signal_candidate) : Prop :=
  sc_position_id c = pid -> sc_eligible c = false.

Lemma spares_exit_loop pid cs d q s now n :
  Forall (ineligible pid) cs ->
  spares pid (exit_loop new_message_id py_repr hash_payload sql_sum cs d q s now n).
Proof.
  intros H. revert n. induction H as [|c cs Hc _ IH]; intros n; cbn [exit_loop]; [spares_tac|].
  destruct (sc_eligible c) eqn:E; cbn [negb]; [|apply IH].
  destruct (_ <=? _); [spares_tac|]. destruct d; [apply IH|].
  apply spares_bind; [|intros n'; apply IH]. apply spares_exit_one.
  intros Hp. by rewrite (Hc Hp) in E.
Qed.

Lemma spares_evaluate_position pid s now row :
  spares pid (evaluate_position new_message_id s now row).
Proof.
  unfold evaluate_position, data_wait, _mark_position_to_market. spares_tac.
Qed.

Lemma evaluate_position_ineligible pid s now row w w' cs :
  signalled pid (ledger w) = true ->
  evaluate_position new_message_id s now row w = (w', Ok cs) -> Forall (ineligible pid) cs.
Proof.
  unfold evaluate_position. intros Hs H. apply bind_ok in H as (w0 & w0' & [= <- <-] & H).
  apply bind_ok in H as (w1 & code & [_ ->]%of_res_ok & H).
  destruct (ticks w !! code) as [t|].
  2: { apply bind_ok in H as (w2 & _ & _ & [= _ <-]). constructor. }
  apply bind_ok in H as (w2 & et & [_ ->]%of_res_ok & H).
  apply bind_ok in H as (w3 & [] & Hmark & H). apply bind_ok in H as (w4 & w4' & [= <- <-] & H).
  assert (signalled pid (ledger w3) = true) as Hs3.
  { assert (spares pid (_mark_position_to_market row (tk_price t) (tk_event_ts t) s now)) as Hsp
      by (unfold _mark_position_to_market; spares_tac).
    specialize (Hsp w). rewrite Hmark in Hsp. by apply Hsp. }
  destruct (_ <? _). { apply bind_ok in H as (w5 & _ & _ & [= _ <-]). constructor. }
  apply bind_ok in H as (w5 & ts & [_ ->]%of_res_ok & H).
  destruct ts as [|tr ts]; [injection H as _ <-; constructor|].
  apply bind_ok in H as (w6 & active & [Ha ->]%of_res_ok & [= _ <-]).
  set (p := default row _) in *. apply List.Forall_forall. intros c Hc Hpid.
  apply (in_map_iff _ (tr :: ts)) in Hc as (tr' & <- & _).
  change (negb active = false). change (p_position_id p = pid) in Hpid. rewrite <- Hpid in Hs3.
  apply res_bind_ok in Ha as (b & _ & [= <-]). by apply negb_false_iff, orb_true_iff; right.
Qed.

Lemma collect_ineligible pid s now rows w w' cs :
  signalled pid (ledger w) = true ->
  collect (evaluate_position new_message_id s now) rows w = (w', Ok cs) ->
  Forall (ineligible pid) cs.
Proof.
  revert w w' cs. induction rows as [|row rows IH]; intros w w' cs Hs H; cbn [collect] in H.
  { injection H as _ <-. constructor. }
  apply bind_ok in H as (w1 & xs & H1 & H). apply bind_ok in H as (w2 & ys & H2 & [= _ <-]).
  apply List.Forall_app. split; [by eapply evaluate_position_ineligible|].
  eapply IH; [|exact H2]. pose proof (spares_evaluate_position pid s now row w) as Hsp.
  rewrite H1 in Hsp. by apply Hsp.
Qed.

Lemma spares_collect pid s now rows :
  spares pid (collect (evaluate_position new_message_id s now) rows).
Proof.
  induction rows as [|row rows IH]; cbn [collect]; spares_tac. apply spares_evaluate_position.
Qed.

Lemma run_no_new_exit pid s d q p c limit now w :
  signalled pid (ledger w) = true ->
  no_new_exit pid (ledger w)
    (ledger (run_live_sim_exit_once new_message_id py_repr hash_payload sql_sum s d q p c limit now w).1).
Proof.
  intros Hs. unfold run_live_sim_exit_once.
  pose proof (spares_fresh pid "live_sim_exit_run" w) as H1. unfold bind at 1.
  destruct (fresh_id _ _ w) as [w1 [id|e]]; cbn [fst] in *; [|done].
  assert (spares pid (evaluate_live_sim_exit_signals new_message_id s p c
            (limit_or limit (live_sim_exit_max_commands_per_run s)) now)) as Hev.
  { unfold evaluate_live_sim_exit_signals. spares_tac. apply spares_collect. }
  specialize (Hev w1). unfold bind.
  destruct (evaluate_live_sim_exit_signals _ _ _ _ _ _ w1) as [w2 [cs|e]] eqn:E; cbn [fst] in Hev.
  2: { by eapply no_new_exit_trans. }
  unfold evaluate_live_sim_exit_signals in E. apply bind_ok in E as (w3 & w3' & [= <- <-] & E).
  apply bind_ok in E as (w4 & rows & [_ ->]%of_res_ok & E).
  eapply no_new_exit_trans; [by eapply no_new_exit_trans|].
  apply spares_exit_loop. eapply collect_ineligible; [|exact E]. by apply H1.
Qed.
End Spares.

(** ** Properties *)

Section Properties.
Context (new_message_id : string -> nat -> string) (py_repr : json -> string)
  (hash_payload : payload -> string) (sql_sum : list float -> float) {gate : RoutingGate}.

(** C8. An exit command the core queues sells what was intended and no more: it
    comes from an exit intent of an existing, not closed position, for at least
    one share and at most the shares the position has available, with no command
    of its own yet, under settings that are a simulation in all three modes,
    without the kill switch, without live trading and without short selling; it
    is one new QUEUED row that the command store's validators accept, and with it
    one SELL order of that quantity, with nothing filled, is inserted. *)
Theorem queued_exit_is_close_only exit_intent_id s now w w' :
  queue_live_sim_exit_order_command new_message_id py_repr hash_payload sql_sum exit_intent_id s now w
    = (w', Ok tt) ->
  exists x p c o,
    get_live_sim_exit_intent (ledger w) exit_intent_id = Some x /\
    get_live_sim_position (ledger w) (xi_position_id x) = Some p /\
    exit_allowed s p x /\
    commands (gateway w) !! gc_command_id c = None /\
    commands (gateway w') = <[gc_command_id c := c]> (commands (gateway w)) /\
    gc_status c = GS.QUEUED /\ gc_payload c = _build_gateway_exit_order_payload p x s /\
    validate_command_type_allowed py_repr (gc_command_type c) (Some (command_of c)) = None /\
    orders (ledger w') = orders (ledger w) ++ [o] /\
    order_side o = LiveSimSide.SELL /\ lo_gateway_command_id (or_rec o) = Some (gc_command_id c) /\
    lo_quantity (or_rec o) = xi_quantity x /\ lo_filled_quantity (or_rec o) = 0 /\
    lo_remaining_quantity (or_rec o) = xi_quantity x.
Proof.
  unfold queue_live_sim_exit_order_command. intros H.
  apply bind_ok in H as (w0 & w0' & [= <- <-] & H).
  destruct (get_live_sim_exit_intent _ _) as [x|]; [|done].
  destruct (get_live_sim_position _ _) as [p|] eqn:Ep; [|done].
  destruct (_exit_safety_reasons _ _ _ _ _ _) eqn:Er.
  2: { by apply bind_ok in H as (w1 & u & _ & H). }
  apply bind_ok in H as (w1 & r & Henq & H).
  destruct (er_accepted r) eqn:Eacc; [|by apply bind_ok in H as (w2 & u & _ & H)].
  destruct (enqueue_accepted _ _ _ _ _ _ _ _ _ _ _ Henq Eacc)
    as (c & Hn & Hcs & Hp & _ & Hst & Hv & Hid & Ht & Hl).
  rewrite Hid in H. apply record_exit_ok in H as (Hg & o & Ho & Hside & Hcmd & Hq & Hf & Hrem); [|done].
  exists x, p, c, o. rewrite Hg, Ho, Hl. split_and!; try done.
  by eapply no_exit_reasons.
Qed.

(** What the reasons of [_exit_safety_reasons] let through, the command
    store lets through: the payload built for an exit without reasons against it
    passes [validate_command_type_allowed]. *)
Theorem exit_without_reasons_validates w p x s now id at' :
  _exit_safety_reasons sql_sum w p x s now = [] ->
  str_true (xi_idempotency_key x) = true -> str_true (p_position_id p) = true ->
  str_true (xi_exit_intent_id x) = true ->
  validate_command_type_allowed py_repr "send_order" (Some (exit_command id at' p x s)) = None.
Proof. intros H. apply exit_payload_validates. by eapply no_exit_reasons. Qed.

(** What can happen between exit runs: anything that leaves the exit signals and
    intents alone (ticks, the gateway's status, commands, orders, positions). *)
Inductive later (w w' : world) : Prop :=
| later_run s dry_run queue_commands position_id code limit now :
    w' = (run_live_sim_exit_once new_message_id py_repr hash_payload sql_sum s dry_run
            queue_commands position_id code limit now w).1 -> later w w'
| later_other :
    exit_signals (ledger w') = exit_signals (ledger w) ->
    exit_intents (ledger w') = exit_intents (ledger w) -> later w w'.

(** A position gets one exit intent per signal that is never closed: once a
    signal of the position was made into an exit intent, then whatever queueing
    it answers (a refusal by the safety reasons or by the command store
    included), no number of later exit runs, under any settings and prices,
    makes another exit intent for the position. *)
Theorem exit_attempt_blocks_position position_id signal_id x s1 s2 now w w1 w2 w3 i r :
  get_live_sim_exit_signal (ledger w) signal_id = Some x -> xs_position_id x = position_id ->
  create_live_sim_exit_intent new_message_id position_id (Some signal_id) s1 w = (w1, Ok i) ->
  queue_live_sim_exit_order_command new_message_id py_repr hash_payload sql_sum
    (xi_exit_intent_id i) s2 now w1 = (w2, r) ->
  rtc later w2 w3 ->
  exits_of position_id (ledger w3) = exits_of position_id (ledger w1) /\
  signalled position_id (ledger w3) = true.
Proof.
  intros Hx Hpos Hcreate Hqueue Hlater.
  apply create_signalled with (pid := position_id) (x := x) in Hcreate; [|done..].
  pose proof (spares_queue new_message_id py_repr hash_payload sql_sum position_id
                (xi_exit_intent_id i) s2 now w1) as [H1 H2].
  rewrite Hqueue in H1, H2. cbn [fst] in H1, H2. rewrite <- H1. specialize (H2 Hcreate).
  clear H1 Hqueue.
  induction Hlater as [w2|w2 w2' w3 Hstep _ IH]; [done|].
  assert (no_new_exit position_id (ledger w2) (ledger w2')) as [H3 H4].
  { destruct Hstep as [s d q p c l n ->|Hsig Hint];
      [by apply run_no_new_exit|by apply no_new_exit_same]. }
  rewrite <- H3. by apply IH, H4.
Qed.
End Properties.

(** ** A sample exit *)

(** [kill] is the kill switch. *)
Definition sample_lifecycle (kill : bool) : LifecycleSettings :=
  {| gate_settings :=
       {| event_settings := sample_settings; trading_mode := TradingMode.LIVE_SIM;
          live_sim_enabled := true; live_sim_allowed := true; live_real_allowed := false;
          live_sim_order_routing_enabled := true; live_sim_gateway_command_enabled := true;
          live_sim_kill_switch := kill; live_sim_account_id := "8112345611";
          live_sim_stale_tick_sec := 15; live_sim_entry_window_start := "09:05:00";
          live_sim_entry_window_end := "14:30:00"; live_sim_order_exchange := "KRX";
          live_sim_nxt_support_confirmed := false; ai_sidecar_tools_enabled := false;
          ai_sidecar_order_tools_enabled := false; live_sim_max_daily_order_count := 3;
          live_sim_max_daily_notional := f_of_Z 300000; live_sim_max_daily_loss := f_zero;
          live_sim_max_daily_loss_pct := f_zero |};
     live_sim_cancel_enabled := true; live_sim_cancel_unfilled_enabled := true;
     live_sim_cancel_kill_switch := false; live_sim_cancel_order_ttl_sec := 60;
     live_sim_cancel_max_commands_per_run := 3; live_sim_cancel_require_broker_order_no := true;
     live_sim_cancel_allow_without_broker_order_no := false;
     live_sim_exit_engine_enabled := true; live_sim_exit_order_creation_enabled := true;
     live_sim_exit_gateway_command_enabled := true; live_sim_exit_allow_sell_close_only := true;
     live_sim_exit_allow_short := false; live_sim_exit_default_order_type := "LIMIT";
     live_sim_exit_stop_loss_pct := f_of_Z 3; live_sim_exit_take_profit_pct := f_of_Z 5;
     live_sim_exit_trailing_activation_pct := f_of_Z 2; live_sim_exit_trailing_stop_pct := f_lit 5 2;
     live_sim_exit_min_hold_sec := 30; live_sim_exit_max_hold_sec := 1800;
     live_sim_exit_eod_flatten_enabled := false; live_sim_exit_eod_flatten_time := "15:15:00";
     live_sim_exit_max_commands_per_run := 3; live_sim_exit_price_offset_ticks := 0;
     live_sim_default_hoga := "00"; live_sim_config_version := "v1" |}.

(** Four shares bought at 70,000, the price now 60,000, the gateway alive. *)
Definition sample_now : Z := 1709164920000000.
Definition sample_world : world :=
  {| ledger := sample_filled; gateway := empty_store;
     ticks := {["005930" := {| tk_price := f_of_Z 60000; tk_event_ts := datetime_to_wire sample_now;
                        tk_spread_ticks := 1 |}]};
     gateway_status := list_to_map
       [("last_heartbeat_at", datetime_to_wire sample_now); ("gateway_orderable", "true")] |}.

Definition sample_hash (p : payload) : string := "hash".
#[local] Instance sample_routing : RoutingGate := boundary_gate no_resolutions.

Definition sample_run (kill : bool) (w : world) : world * res run_counts :=
  run_live_sim_exit_once sample_id sample_repr sample_hash sample_sum (sample_lifecycle kill) false true
    None None None sample_now w.

(** The stop loss fires and the exit is queued. *)
Example sample_exit_queued :
  (let (w, r) := sample_run false sample_world in
   (map p_status (positions (ledger w)), map xi_status (exit_intents (ledger w)),
    map gc_status (rows (commands (gateway w))),
    match r with Ok n => Some (rc_queued n, rc_errors n) | Err _ => None end)) =
  ([PS.CLOSING], ["COMMAND_QUEUED"], [GS.QUEUED], Some (1, [])).
Proof. vm_compute. reflexivity. Qed.

(** With the kill switch on the exit is refused; with the switch off again the
    position is not sold any more. *)
Example sample_exit_refused :
  (let (w, _) := sample_run true sample_world in
   let (w', r) := sample_run false w in
   (map p_status (positions (ledger w')), map xi_status (exit_intents (ledger w')),
    map xs_status (exit_signals (ledger w')), rows (commands (gateway w')),
    match r with Ok n => Some (rc_queued n, rc_errors n) | Err _ => None end)) =
  ([PS.OPEN], ["REJECTED"], ["EXIT_INTENT_CREATED"], [], Some (0, [])).
Proof. vm_compute. reflexivity. Qed.

(** *** Witnesses *)

(** The world after a computation that answers [a], and the answer. *)
Definition outcome_of {A} (a : A) (r : world * res A) : world * A := (r.1, ok_or a r.2).

(** The first candidate, the signal made from it, the exit intent made from that,
    and the queued or refused exit. *)
Definition sample_candidates : world * list signal_candidate :=
  Eval vm_compute in
  outcome_of [] (evaluate_live_sim_exit_signals sample_id (sample_lifecycle false) None None
    (Some 3) sample_now sample_world).
Definition sample_signal : world :=
  Eval vm_compute in
  match sample_candidates with
  | (w, c :: _) => fst (_insert_exit_signal_from_candidate sample_id c sample_now w)
  | (w, []) => w
  end.
Abbreviation sample_create :=
  (create_live_sim_exit_intent sample_id "live_sim_position_1" (Some "live_sim_exit_signal_4")
     (sample_lifecycle false)).
Definition sample_intent : world := Eval vm_compute in fst (sample_create sample_signal).
Abbreviation sample_queue kill :=
  (queue_live_sim_exit_order_command sample_id sample_repr sample_hash sample_sum
     "live_sim_exit_6" (sample_lifecycle kill) sample_now sample_intent).
Definition sample_queued : world := Eval vm_compute in fst (sample_queue false).
Definition sample_refused : world := Eval vm_compute in fst (sample_queue true).

(** The exit intent made and its outcome, read from the world after them. *)
Definition sample_exit : option exit_intent :=
  Eval vm_compute in head (exit_intents (ledger sample_intent)).

Lemma queued_exit_is_close_only_witness :
  exists x c,
    sample_queue false = (sample_queued, Ok tt) /\
    get_live_sim_exit_intent (ledger sample_intent) "live_sim_exit_6" = Some x /\
    commands (gateway sample_queued) = <[gc_command_id c := c]> (commands (gateway sample_intent)).
Proof.
  assert (sample_queue false = (sample_queued, Ok tt)) as Hq by (vm_compute; reflexivity).
  destruct (queued_exit_is_close_only sample_id sample_repr sample_hash sample_sum _ _ _ _ _ Hq)
    as (x & _ & c & _ & Hx & _ & _ & _ & Hc & _).
  exists x, c. exact (conj Hq (conj Hx Hc)).
Defined.

Lemma exit_without_reasons_validates_witness :
  exists p x,
    head (positions (ledger sample_intent)) = Some p /\ sample_exit = Some x /\
    validate_command_type_allowed sample_repr "send_order"
      (Some (exit_command "cmd_9" sample_now p x (sample_lifecycle false))) = None.
Proof.
  eexists _, _. split; [vm_compute; reflexivity|]. split; [reflexivity|].
  apply (exit_without_reasons_validates sample_repr sample_sum sample_intent _ _
           (sample_lifecycle false) sample_now); vm_compute; reflexivity.
Defined.

Lemma exit_attempt_blocks_position_witness :
  let w := (sample_run false sample_refused).1 in
  exits_of "live_sim_position_1" (ledger w) = ["live_sim_exit_6"] /\
  signalled "live_sim_position_1" (ledger w) = true.
Proof.
  cbv zeta.
  assert (exists x i r, get_live_sim_exit_signal (ledger sample_signal) "live_sim_exit_signal_4" = Some x /\
    xs_position_id x = "live_sim_position_1" /\
    sample_create sample_signal = (sample_intent, Ok i) /\
    xi_exit_intent_id i = "live_sim_exit_6" /\ sample_queue true = (sample_refused, r))
    as (x & i & r & Hx & Hp & Hc & Hi & Hq).
  { do 3 eexists. split_and!; vm_compute; reflexivity. }
  assert (exits_of "live_sim_position_1" (ledger sample_intent) = ["live_sim_exit_6"]) as <-
    by (vm_compute; reflexivity).
  rewrite <- Hi in Hq.
  apply (exit_attempt_blocks_position sample_id sample_repr sample_hash sample_sum _ _ _ _ _ _ _ _ _
           (sample_run false sample_refused).1 _ _ Hx Hp Hc Hq).
  apply rtc_once. by eapply later_run.
Defined.
