(* ===== verification/BrokerSnapshot.v ===== *)
(** * Broker account snapshots ([domain/broker/account_snapshot.py], the
    normalisation of [services/live_sim/live_sim_service.py])

    What the gateway reports of the account, open orders, executions and
    holdings, arrives as a JSON object whose keys come in several spellings;
    [_normalize_broker_snapshot] reads it into a [snapshot].  The raw rows, the
    page lineage, the errors and the source, which are evidence only, are left
    out.  A number inside a text is read by [float], in the decimal grammar of
    [BrokerUtils.read_float] and the words for infinity and NaN. *)
From S2P Require Import Prelude PyFloat BrokerUtils WireTime.
From Stdlib Require Import SpecFloat.
Local Open Scope Z_scope.

Module BrokerSnapshotStatus.
Inductive t := REQUESTED | COLLECTING | COMPLETE | INCOMPLETE | FAILED | STALE.
#[export] Instance eq_dec : EqDecision t.
Proof. solve_decision. Defined.
Definition value (s : t) : string :=
  match s with
  | REQUESTED => "REQUESTED" | COLLECTING => "COLLECTING" | COMPLETE => "COMPLETE"
  | INCOMPLETE => "INCOMPLETE" | FAILED => "FAILED" | STALE => "STALE"
  end.
Definition members : list t := [REQUESTED; COLLECTING; COMPLETE; INCOMPLETE; FAILED; STALE].
End BrokerSnapshotStatus.
#[export] Existing Instance BrokerSnapshotStatus.eq_dec.
Module BS := BrokerSnapshotStatus.

(** ** Values of the object *)

Abbreviation mapping := (list (string * json)).

(** [_first_present]. *)
Fixpoint _first_present (row : mapping) (keys : list string) : option json :=
  match keys with
  | [] => None
  | key :: keys =>
      match jget key row with
      | Some JNull | None => _first_present row keys
      | Some v => Some v
      end
  end.

(** [_sequence_values] and [_mapping_list]. *)
Definition _sequence_values (v : option json) : list json :=
  match v with Some (JList l) => l | _ => [] end.
Definition _mapping_list (v : option json) : list mapping :=
  omap (fun j => match j with JObj m => Some m | _ => None end) (_sequence_values v).

(** [float(text)]. *)
Definition float_of_text (text : string) : option float :=
  let '(neg, body) := split_sign (py_strip text) in
  let word := py_lower body in
  if mem word ["inf"; "infinity"] then Some (S754_infinity neg)
  else if String.eqb word "nan" then Some S754_nan
  else read_float text.

(** [_optional_float_value]; the text of a bool or of a container is no number,
    that of a float reads back as the float. *)
Definition _optional_float_value (v : option json) : option float :=
  match v with
  | Some (JInt n) => Some (f_of_Z n)
  | Some (JFloat x) => Some x
  | Some (JStr s) => if str_true (py_strip s) then float_of_text (drop_commas s) else None
  | _ => None
  end.

(** [_optional_int_value]: [int(float(...))]; an infinity raises. *)
Definition _optional_int_value (v : option json) : res (option Z) :=
  match _optional_float_value v with
  | None => Ok None
  | Some x =>
      match f_trunc x with
      | Ok n => Ok (Some n)
      | Err (ValueError _) => Ok None
      | Err e => Err e
      end
  end.

Section Texts.
Context (py_repr : json -> string).

(** [_optional_text]. *)
Definition _optional_text (v : option json) : option string :=
  match v with
  | None | Some JNull => None
  | Some j => let text := py_strip (py_str py_repr j) in if str_true text then Some text else None
  end.

(** [_optional_stock_code]. *)
Definition _optional_stock_code (v : option json) : option string :=
  match v with
  | None | Some JNull => None
  | Some j =>
      let text := py_str py_repr j in
      if str_true (py_strip text)
      then match validate_code text "code" with Ok c => Some c | Err _ => None end
      else None
  end.

(** [_bool_like]. *)
Definition _bool_like (v : json) : bool :=
  match v with
  | JBool b => b
  | _ => negb (mem (py_lower (py_strip (py_str py_repr v))) ["0"; "false"; "no"; "n"; "off"])
  end.

(** [str.isalnum] on ASCII. *)
Definition ascii_alnum (c : ascii) : bool :=
  let n := nat_of_ascii c in
  ((48 <=? n) && (n <=? 57) || (65 <=? n) && (n <=? 90) || (97 <=? n) && (n <=? 122))%nat.

Fixpoint alnum_only (s : string) : string :=
  match s with
  | EmptyString => EmptyString
  | String c s' => if ascii_alnum c then String c (alnum_only s') else alnum_only s'
  end.

Fixpoint stars (n : nat) : string :=
  match n with O => EmptyString | S n => String "*" (stars n) end.

(** [mask_account_id] of a text. *)
Definition mask_account_text (value : string) : string :=
  let normalized := alnum_only (py_strip value) in
  let n := String.length normalized in
  if (n =? 0)%nat then "UNCONFIGURED"
  else if (n <=? 4)%nat then stars n
  else "***" +:+ substring (n - 4) 4 normalized.
Definition mask_account_id (v : option json) : string :=
  mask_account_text (str_or_empty py_repr v).

(** [canonical_snapshot_status]. *)
Definition canonical_snapshot_status (v : option json) : BS.t :=
  let text := py_upper (py_strip (str_or_empty py_repr v)) in
  default BS.INCOMPLETE (find (fun st => String.eqb (BS.value st) text) BS.members).
End Texts.

(** ** Rows *)

Record broker_order := {
  bo_broker_order_no : option string;
  bo_code : option string;
  bo_side : string;
  bo_order_status : string;
  bo_quantity : Z;
  bo_filled_quantity : Z;
  bo_remaining_quantity : Z;
  bo_price : option float
}.

Record broker_execution := {
  be_broker_execution_id : option string;
  be_broker_order_no : option string;
  be_code : option string;
  be_side : string;
  be_quantity : Z;
  be_price : option float;
  be_executed_at : string
}.

Record broker_position := {
  bp_code : string;
  bp_name : string;
  bp_quantity : Z;
  bp_available_quantity : option Z;
  bp_avg_entry_price : option float
}.

Record snapshot := {
  sn_snapshot_id : string;
  sn_snapshot_status : BS.t;
  sn_account_id_masked : string;
  sn_trade_date : string;
  sn_snapshot_at : string;
  sn_stale_after_sec : Z;
  sn_fresh : bool;
  sn_open_orders : list broker_order;
  sn_positions : list broker_position;
  sn_executions : list broker_execution;
  sn_requested_sections : list string;
  sn_completed_sections : list string;
  sn_complete : bool
}.

(** The settings the normalisation reads. *)
Record SnapshotSettings := {
  live_sim_snapshot_account_id : string;
  live_sim_broker_snapshot_stale_sec : Z
}.

Section Normalize.
Context (py_repr : json -> string) (json_loads : string -> res json).

Abbreviation text := (str_or_empty py_repr).
Abbreviation code_of row := (_optional_stock_code py_repr (_first_present row ["code"; "stock_code"; "symbol"])).
Abbreviation order_no_of row :=
  (_optional_text py_repr (_first_present row ["broker_order_no"; "order_no"; "broker_order_id"])).

(** [n or m] on ints that may be absent. *)
Definition int_or (n : option Z) (m : Z) : Z :=
  match n with Some k => if k =? 0 then m else k | None => m end.

Definition _normalize_broker_open_order (row : mapping) : res (option broker_order) :=
  let code := code_of row in
  let broker_order_no := order_no_of row in
  let* quantity := _optional_int_value (_first_present row ["quantity"; "order_quantity"; "qty"]) in
  let* remaining :=
    _optional_int_value (_first_present row ["remaining_quantity"; "unfilled_quantity"; "open_quantity"]) in
  let remaining := match remaining with None => quantity | Some _ => remaining end in
  match code, broker_order_no with
  | None, None => Ok None
  | _, _ =>
      let* filled := _optional_int_value (_first_present row ["filled_quantity"; "executed_quantity"]) in
      Ok (Some {| bo_broker_order_no := broker_order_no; bo_code := code;
                  bo_side := py_upper (text (_first_present row ["side"; "order_side"]));
                  bo_order_status := py_upper (text (_first_present row ["order_status"; "status"]));
                  bo_quantity := match quantity with Some q => q | None => int_or remaining 0 end;
                  bo_filled_quantity := int_or filled 0;
                  bo_remaining_quantity :=
                    match remaining with Some r => r | None => int_or quantity 0 end;
                  bo_price := _optional_float_value (_first_present row ["price"; "order_price"]) |})
  end.

Definition _normalize_broker_execution (row : mapping) : res (option broker_execution) :=
  let broker_order_no := order_no_of row in
  let execution_id :=
    _optional_text py_repr (_first_present row ["broker_execution_id"; "execution_id"; "fill_id"]) in
  let code := code_of row in
  let* quantity :=
    _optional_int_value (_first_present row ["quantity"; "execution_quantity"; "fill_quantity"]) in
  match broker_order_no, execution_id, code with
  | None, None, None => Ok None
  | _, _, _ =>
      Ok (Some {| be_broker_execution_id := execution_id; be_broker_order_no := broker_order_no;
                  be_code := code;
                  be_side := py_upper (text (_first_present row ["side"; "order_side"]));
                  be_quantity := default 0 quantity;
                  be_price :=
                    _optional_float_value (_first_present row ["price"; "execution_price"; "fill_price"]);
                  be_executed_at :=
                    text (_first_present row ["executed_at"; "execution_time"; "fill_time"]) |})
  end.

Definition _normalize_broker_position (row : mapping) : res (option broker_position) :=
  match code_of row with
  | None => Ok None
  | Some code =>
      let* quantity :=
        _optional_int_value (_first_present row ["quantity"; "position_quantity"; "holding_quantity"]) in
      let* available :=
        _optional_int_value (_first_present row ["available_quantity"; "sellable_quantity"; "available_qty"]) in
      Ok (Some {| bp_code := code;
                  bp_name :=
                    text (or_else (or_else (jget "name" row) (jget "stock_name" row)) (Some (JStr code)));
                  bp_quantity := default 0 quantity;
                  bp_available_quantity := match available with Some _ => available | None => quantity end;
                  bp_avg_entry_price :=
                    _optional_float_value
                      (_first_present row ["avg_entry_price"; "average_buy_price"; "avg_price"]) |})
  end.

(** [[n for row in rows if (n := f(row)) is not None]]. *)
Fixpoint collect_some {A B} (f : A -> res (option B)) (rows : list A) : res (list B) :=
  match rows with
  | [] => Ok []
  | row :: rows =>
      let* n := f row in
      let* ns := collect_some f rows in
      Ok (match n with Some b => b :: ns | None => ns end)
  end.

(** [_broker_snapshot_freshness]; a text that is no time is not fresh. *)
Definition _broker_snapshot_freshness (snapshot_at : string) (stale_after_sec now : Z) : res bool :=
  if negb (str_true (py_strip snapshot_at)) then Ok false
  else
    match parse_timestamp (JStr snapshot_at) "broker_snapshot_at" with
    | Err (ValueError _) => Ok false
    | Err e => Err e
    | Ok parsed =>
        let age := now - parsed in
        Ok (negb (age <? - seconds 5) && (age <=? seconds stale_after_sec))
    end.

Definition snapshot_keys : list string :=
  ["snapshot_id"; "snapshot_status"; "open_orders"; "unfilled_orders"; "orders";
   "open_order_snapshots"; "positions"; "holdings"; "position_snapshots"; "balances";
   "executions"; "fills"; "execution_snapshots"].

(** The status, before and after the check of its age. *)
Definition reported_status (explicit_status : option string) (complete : bool) : BS.t :=
  match explicit_status with
  | Some st => canonical_snapshot_status py_repr (Some (JStr st))
  | None => if complete then BS.COMPLETE else BS.INCOMPLETE
  end.

Definition is_complete (st : BS.t) : bool := bool_decide (st = BS.COMPLETE).

Definition _normalize_broker_snapshot (given : option json) (s : SnapshotSettings) (now : Z)
    : res (option snapshot) :=
  match given with
  | Some (JObj fields) =>
      let* nested := _json_object py_repr json_loads (jget "broker_snapshot" fields) in
      let root := match nested with [] => fields | _ => nested end in
      let open_orders_raw :=
        _mapping_list (_first_present root ["open_orders"; "unfilled_orders"; "orders"; "open_order_snapshots"]) in
      let positions_raw :=
        _mapping_list (_first_present root ["positions"; "holdings"; "position_snapshots"; "balances"]) in
      let executions_raw :=
        _mapping_list (_first_present root ["executions"; "fills"; "execution_snapshots"]) in
      if negb (existsb (fun k => mem k (map fst root)) snapshot_keys)
         && match open_orders_raw, positions_raw with [], [] => true | _, _ => false end
      then Ok None
      else
        let explicit_status :=
          _optional_text py_repr (or_else (jget "snapshot_status" root) (jget "status" root)) in
        let complete :=
          _bool_like py_repr
            (default (default (JBool true) (jget "snapshot_complete" root)) (jget "complete" root)) in
        let status := reported_status explicit_status complete in
        let given_at := text (or_else (jget "snapshot_at" root) (jget "created_at" root)) in
        let snapshot_at :=
          match explicit_status with
          | None => if str_true given_at then given_at else datetime_to_wire now
          | Some _ => given_at
          end in
        let* stale := _optional_int_value (jget "stale_after_sec" root) in
        let stale_after_sec :=
          match stale with
          | Some n => if n <? 1 then live_sim_broker_snapshot_stale_sec s else n
          | None => live_sim_broker_snapshot_stale_sec s
          end in
        let* fresh := _broker_snapshot_freshness snapshot_at stale_after_sec now in
        let status := if is_complete status && negb fresh then BS.STALE else status in
        let* open_orders := collect_some _normalize_broker_open_order open_orders_raw in
        let* positions := collect_some _normalize_broker_position positions_raw in
        let* executions := collect_some _normalize_broker_execution executions_raw in
        Ok (Some
          {| sn_snapshot_id := text (jget "snapshot_id" root);
             sn_snapshot_status := status;
             sn_account_id_masked :=
               text (or_else (jget "account_id_masked" root)
                       (Some (JStr (mask_account_id py_repr
                          (or_else (jget "account_id" root)
                             (Some (JStr (live_sim_snapshot_account_id s))))))));
             sn_trade_date := text (or_else (jget "trade_date" root) (Some (JStr (market_today now))));
             sn_snapshot_at := snapshot_at; sn_stale_after_sec := stale_after_sec;
             sn_fresh := fresh && is_complete status;
             sn_open_orders := open_orders; sn_positions := positions; sn_executions := executions;
             sn_requested_sections :=
               map (py_str py_repr) (_sequence_values (jget "requested_sections" root));
             sn_completed_sections :=
               map (py_str py_repr) (_sequence_values (jget "completed_sections" root));
             sn_complete := complete && is_complete status |})
  | _ => Ok None
  end.
End Normalize.
