(* ===== verification/LiveSimReconcile.v ===== *)
(** * Reconciliation ([services/live_sim/live_sim_service.py])

    [reconcile_live_sim_orders_and_positions] compares the live-sim tables with
    the gateway commands, with the recorded executions and with a snapshot of
    the broker's account, and stores the verdict, which decides whether new buys
    are blocked.  A check answers the mismatches it appends to the list, each
    with what it adds to the count: the count is their sum.  Of a mismatch the
    subject and the reason are kept, not the values it shows. *)
From S2P Require Import Prelude PyFloat BrokerUtils WireTime GatewayModels OrderBoundary CommandStore.
From S2P Require Import LiveSimModels.
From S2P Require Import LiveSimStore LiveSimEvents LiveSimLedger SafetyGate LiveSimExit BrokerSnapshot.
From Stdlib Require Import SpecFloat.
Local Open Scope Z_scope.

Record mismatch := {
  mm_count : Z;
  mm_subject : option string;
  mm_reason : string
}.

Definition mismatches (l : list mismatch) : list (option string * string) :=
  map (fun m => (mm_subject m, mm_reason m)) l.
Definition mismatch_count (l : list mismatch) : Z := zsum mm_count l.

(** [mismatch_count += 1; mismatches.append(...)] under a condition. *)
Definition counted (b : bool) (subject : option string) (reason : string) : list mismatch :=
  if b then [{| mm_count := 1; mm_subject := subject; mm_reason := reason |}] else [].

Record ReconcileSettings := {
  lifecycle_settings : LifecycleSettings;
  live_sim_reconcile_block_new_buy_on_mismatch : bool;
  live_sim_reconcile_allow_exit_on_mismatch : bool;
  live_sim_reconcile_stale_order_sec : Z;
  live_sim_reconcile_notional_tolerance : float;
  live_sim_reconcile_request_broker_snapshot_enabled : bool;
  broker_snapshot_stale_sec : Z
}.

Definition account_of (s : ReconcileSettings) : string :=
  live_sim_account_id (gate_settings (lifecycle_settings s)).
Definition snapshot_settings (s : ReconcileSettings) : SnapshotSettings :=
  {| live_sim_snapshot_account_id := account_of s;
     live_sim_broker_snapshot_stale_sec := broker_snapshot_stale_sec s |}.

(** ** Rows of the comparison *)

(** [ORDER BY text DESC, id DESC]. *)
Definition later_text (t1 id1 t2 id2 : string) : bool :=
  match String.compare t1 t2 with
  | Gt => true
  | Lt => false
  | Eq => text_le id2 id1
  end.

Definition is_active_order (o : order_row) : bool :=
  bool_decide (order_status o ∈ ACTIVE_LIVE_SIM_ORDER_STATUSES).

Definition created_text (o : order_row) : string :=
  match lo_created_at (or_rec o) with Some t => datetime_to_wire t | None => EmptyString end.

(** [list_live_sim_orders(trade_date=..., limit=500, open_only=True)]. *)
Definition open_orders_of (l : tables) (trade_date : string) : list order_row :=
  take 500 (stable_sort (fun a b => later_text (created_text a) (order_id a) (created_text b) (order_id b))
    (List.filter (fun o => String.eqb (or_trade_date o) trade_date && is_active_order o) (orders l))).

Definition is_active_position (p : position_row) : bool :=
  bool_decide (p_status p ∈ [PS.OPEN; PS.CLOSING; PS.RECONCILE_MISMATCH]).

(** [list_live_sim_positions(limit=500, open_only=True)]. *)
Definition open_positions_of (l : tables) : list position_row :=
  take 500 (stable_sort
    (fun a b => later_text (p_updated_at a) (p_position_id a) (p_updated_at b) (p_position_id b))
    (List.filter is_active_position (positions l))).

Definition _execution_quantity_sum (l : tables) (live_sim_order_id : string) : Z :=
  zsum (fills_of live_sim_order_id) (executions l).

(** ** The tables against each other *)

Definition order_checks (l : tables) (c : store) (o : order_row) : list mismatch :=
  let x := or_rec o in
  let id := Some (order_id o) in
  let command :=
    match lo_gateway_command_id x with Some k => commands c !! k | None => None end in
  counted (bool_decide (lo_gateway_command_id x = None)) id "missing_command" ++
  match command with
  | None => counted true id "command_missing"
  | Some k =>
      counted (bool_decide (gc_status k ∈ [GS.FAILED; GS.REJECTED; GS.EXPIRED]) &&
               bool_decide (lo_status x ∉ [OS.FAILED; OS.EXPIRED; OS.BROKER_REJECTED]))
        id "command_terminal_mismatch"
  end ++
  counted (negb (_execution_quantity_sum l (order_id o) =? lo_filled_quantity x))
    id "filled_quantity_execution_sum_mismatch" ++
  counted (lo_remaining_quantity x <? 0) id "negative_remaining_quantity" ++
  counted (lo_quantity x <? lo_filled_quantity x + lo_remaining_quantity x)
    id "order_quantity_inconsistent".

Definition _active_exit_count_for_code (l : tables) (code : string) : res Z :=
  let* k := validate_code code "code" in
  Ok (Z.of_nat (length (List.filter
        (fun x => String.eqb (xi_code x) k && mem (xi_status x) ACTIVE_EXIT_INTENT_STATUSES)
        (exit_intents l)))).

Definition position_checks (l : tables) (s : ReconcileSettings) (p : position_row)
    : res (list mismatch) :=
  let id := Some (p_position_id p) in
  let* code := validate_code (p_code p) "code" in
  let expected := f_mul (p_avg_entry_price p) (f_of_Z (p_quantity p)) in
  let delta := f_abs (f_sub (p_total_entry_notional p) expected) in
  let* exits := _active_exit_count_for_code l (p_code p) in
  Ok (counted (negb (_net_position_quantity_from_fills l (p_account_id p) code =? p_quantity p))
        id "position_quantity_fill_sum_mismatch" ++
      counted ((p_quantity p <? 0) || (p_available_quantity p <? 0))
        id "negative_position_quantity" ++
      counted (f_lt (live_sim_reconcile_notional_tolerance s) delta)
        id "position_entry_notional_mismatch" ++
      (if (0 <? exits) && bool_decide (p_status p = PS.OPEN)
       then [{| mm_count := 0; mm_subject := id; mm_reason := "active_exit_exists_for_open_position" |}]
       else [])).

(** [[r for row in rows for r in f(row)]] for an [f] that may raise. *)
Fixpoint concat_checks {A} (f : A -> res (list mismatch)) (rows : list A) : res (list mismatch) :=
  match rows with
  | [] => Ok []
  | row :: rows =>
      let* xs := f row in
      let* ys := concat_checks f rows in
      Ok (xs ++ ys)
  end.

(** [created_at <= cutoff], as texts. *)
Definition _stale_open_order_count (l : tables) (s : ReconcileSettings) (now : Z) : Z :=
  let cutoff := now - seconds (live_sim_reconcile_stale_order_sec s) in
  Z.of_nat (length (List.filter
    (fun o => is_active_order o &&
              match lo_created_at (or_rec o) with Some t => wire_le t cutoff | None => false end)
    (orders l))).

Definition stale_checks (l : tables) (s : ReconcileSettings) (now : Z) : list mismatch :=
  let n := _stale_open_order_count l s now in
  if 0 <? n then [{| mm_count := n; mm_subject := None; mm_reason := "stale_open_orders" |}] else [].

(** ** The tables against the broker *)

Section Broker.
Context (py_repr : json -> string).

(** What both sides say of a holding. *)
Record holding := {
  h_code : string;
  h_quantity : Z;
  h_available : option Z;
  h_avg_price : option float
}.
Definition holding_of_position (p : position_row) : holding :=
  {| h_code := p_code p; h_quantity := p_quantity p; h_available := Some (p_available_quantity p);
     h_avg_price := Some (p_avg_entry_price p) |}.
Definition holding_of_broker (p : broker_position) : holding :=
  {| h_code := bp_code p; h_quantity := bp_quantity p; h_available := bp_available_quantity p;
     h_avg_price := bp_avg_entry_price p |}.

Abbreviation stock_code t := (_optional_stock_code py_repr (Some (JStr t))).

Definition add_holding {V} (step : option V -> holding -> V) (m : gmap string V) (h : holding)
    : gmap string V :=
  match stock_code (h_code h) with
  | Some c => <[c := step (m !! c) h]> m
  | None => m
  end.
Definition by_code {V} (step : option V -> holding -> V) (rows : list holding) : gmap string V :=
  foldl (add_holding step) ∅ rows.

Definition _position_quantity_by_code : list holding -> gmap string Z :=
  by_code (fun v h => default 0 v + h_quantity h).
Definition _position_available_quantity_by_code : list holding -> gmap string (option Z) :=
  by_code (fun v h => match h_available h with
                      | None => default None v
                      | Some n => Some (default 0 (default None v) + n)
                      end).
(** The notional and the quantity over the rows that have a price. *)
Definition priced_holdings : list holding -> gmap string (float * Z) :=
  by_code (fun v h => let '(n, q) := default (f_zero, 0) v in
                      match h_avg_price h with
                      | None => (n, q)
                      | Some a => (f_add n (f_mul a (f_of_Z (h_quantity h))), q + h_quantity h)
                      end).
Definition _position_average_price_by_code (rows : list holding) (code : string) : option float :=
  match priced_holdings rows !! code with
  | Some (n, q) => if 0 <? q then Some (f_divZ n q) else None
  | None => None
  end.

(** [sorted(set(a) | set(b))]. *)
Definition sorted_keys {V W} (a : gmap string V) (b : gmap string W) : list string :=
  stable_sort text_le (elements (dom a ∪ dom b)).

Definition differ {A} (neq : A -> A -> bool) (a b : option A) : bool :=
  match a, b with Some x, Some y => neq x y | _, _ => false end.

Definition holding_checks (local broker : list holding) (tolerance : float) (code : string)
    : list mismatch :=
  let quantity rows := default 0 (_position_quantity_by_code rows !! code) in
  let available rows := default None (_position_available_quantity_by_code rows !! code) in
  let id := Some code in
  if negb (quantity local =? quantity broker)
  then counted true id "broker_position_quantity_mismatch"
  else
    counted (differ (fun a b => negb (a =? b)) (available local) (available broker))
      id "broker_position_available_quantity_mismatch" ++
    counted (differ (fun a b => f_lt tolerance (f_abs (f_sub a b)))
               (_position_average_price_by_code local code)
               (_position_average_price_by_code broker code))
      id "broker_position_average_price_mismatch".

Definition holdings_checks (local broker : list holding) (tolerance : float) : list mismatch :=
  mjoin (map (holding_checks local broker tolerance)
    (sorted_keys (_position_quantity_by_code local) (_position_quantity_by_code broker))).

(** *** Open orders *)

Definition _canonical_local_open_order_status (o : order_row) : string :=
  match order_status o with
  | OS.PARTIALLY_FILLED => "PARTIALLY_FILLED"
  | OS.CANCEL_REQUESTED | OS.CANCEL_COMMAND_QUEUED => "CANCEL_PENDING"
  | _ => "OPEN"
  end.

(** The UTF-8 bytes of the Korean word for "cancel". *)
Definition cancel_word : string :=
  string_of_list_ascii (map ascii_of_nat [236; 183; 168; 236; 134; 140]%nat).

Definition _canonical_broker_open_order_status (b : broker_order) : string :=
  let status := py_upper (py_strip (bo_order_status b)) in
  if str_contains cancel_word status || str_contains "CANCEL" status then "CANCEL_PENDING"
  else if (0 <? bo_filled_quantity b) && (0 <? bo_remaining_quantity b) then "PARTIALLY_FILLED"
  else if str_true status || (0 <? bo_remaining_quantity b) then "OPEN"
  else EmptyString.

Definition no_of (v : option string) : string := py_strip (default EmptyString v).

(** [{str(order["broker_order_no"]): order for order in rows if ...}]. *)
Definition add_numbered {V} (no : V -> option string) (m : gmap string V) (v : V) : gmap string V :=
  match no v with
  | Some k => if str_true (py_strip k) then <[k := v]> m else m
  | None => m
  end.
Definition by_order_no {V} (no : V -> option string) (rows : list V) : gmap string V :=
  foldl (add_numbered no) ∅ rows.

Definition int_differ (a b : Z) : res bool :=
  let* x := _optional_int_value (Some (JInt a)) in
  let* y := _optional_int_value (Some (JInt b)) in
  Ok (differ (fun a b => negb (a =? b)) x y).

Definition open_order_checks (broker : gmap string broker_order) (o : order_row)
    : res (list mismatch) :=
  let x := or_rec o in
  let id := Some (order_id o) in
  let no := no_of (lo_broker_order_no x) in
  if negb (str_true no) then Ok (counted true id "local_open_order_missing_broker_order_no")
  else
    match broker !! no with
    | None => Ok (counted true id "broker_open_order_missing_for_local_order")
    | Some b =>
        let* remaining := int_differ (lo_remaining_quantity x) (bo_remaining_quantity b) in
        let* quantity := int_differ (lo_quantity x) (bo_quantity b) in
        let status := _canonical_broker_open_order_status b in
        Ok (counted (negb (bool_decide (bo_code b = Some (lo_code x)))) id
              "broker_open_order_code_mismatch" ++
            counted remaining id "broker_open_order_remaining_quantity_mismatch" ++
            counted quantity id "broker_open_order_quantity_mismatch" ++
            counted (str_true status &&
                     negb (String.eqb (_canonical_local_open_order_status o) status)) id
              "broker_open_order_status_mismatch")
    end.

Definition broker_order_checks (local : gmap string order_row) (b : broker_order) : list mismatch :=
  let no := no_of (bo_broker_order_no b) in
  counted (negb (str_true no && bool_decide (is_Some (local !! no)))) (Some no)
    "local_order_missing_for_broker_open_order".

(** *** Executions *)

(** [_local_execution_summaries]: the quantity executed per broker order number
    and code, over the orders of the day, by number and code. *)
Definition _local_execution_summaries (l : tables) (trade_date : string) : list (string * string * Z) :=
  let numbered := List.filter (fun o => String.eqb (or_trade_date o) trade_date &&
                    str_true (no_of (lo_broker_order_no (or_rec o)))) (orders l) in
  let key o := (default EmptyString (lo_broker_order_no (or_rec o)), lo_code (or_rec o)) in
  let executed o := existsb (fun e => is_some_text (le_live_sim_order_id (ex_rec e)) (order_id o))
                      (executions l) in
  let keys := dedupe (map key (List.filter executed numbered)) in
  let before a b := match String.compare a.1 b.1 with
                    | Lt => true | Gt => false | Eq => text_le a.2 b.2
                    end in
  map (fun k => (k.1, k.2,
         zsum (fun o => _execution_quantity_sum l (order_id o))
           (List.filter (fun o => bool_decide (key o = k)) numbered)))
    (stable_sort before keys).

Definition local_execution_by_order (rows : list (string * string * Z)) : gmap string Z :=
  foldl (fun m r => <[r.1.1 := r.2]> m) ∅ rows.
Definition add_execution (m : gmap string Z) (e : broker_execution) : gmap string Z :=
  let no := no_of (be_broker_order_no e) in
  if str_true no then <[no := default 0 (m !! no) + be_quantity e]> m else m.
Definition broker_execution_by_order (rows : list broker_execution) : gmap string Z :=
  foldl add_execution ∅ rows.

Definition execution_checks (local broker : gmap string Z) : list mismatch :=
  mjoin (map (fun no => counted (negb (default 0 (local !! no) =? default 0 (broker !! no)))
                (Some no) "broker_execution_sum_mismatch") (sorted_keys local broker)).

Definition _append_broker_snapshot_mismatches (open_orders : list order_row)
    (positions : list position_row) (summaries : list (string * string * Z)) (b : snapshot)
    (tolerance : float) : res (list mismatch) :=
  let* local_orders :=
    concat_checks (open_order_checks (by_order_no bo_broker_order_no (sn_open_orders b))) open_orders in
  let local_by_no := by_order_no (fun o => lo_broker_order_no (or_rec o)) open_orders in
  Ok (local_orders ++
      mjoin (map (broker_order_checks local_by_no) (sn_open_orders b)) ++
      holdings_checks (map holding_of_position positions)
        (map holding_of_broker (sn_positions b)) tolerance ++
      mjoin (map (fun e => counted (negb (str_true (no_of (be_broker_order_no e)))) None
                             "broker_execution_missing_order_no") (sn_executions b)) ++
      execution_checks (local_execution_by_order summaries)
        (broker_execution_by_order (sn_executions b))).

(** *** The snapshot itself *)

Definition quality_reasons (b : snapshot) (account trade_date : string) : list string :=
  let status := sn_snapshot_status b in
  let requested : gset string := list_to_set (sn_requested_sections b) in
  let completed : gset string := list_to_set (sn_completed_sections b) in
  dedupe
    (reason_if (negb (is_complete status) || negb (sn_complete b))
       ("broker_snapshot_" +:+ py_lower (BS.value status)) ++
     reason_if (bool_decide (status = BS.STALE) || (is_complete status && negb (sn_fresh b)))
       "broker_snapshot_stale" ++
     reason_if (negb (bool_decide (requested = ∅)) && negb (bool_decide (completed = requested)))
       "broker_snapshot_section_incomplete" ++
     reason_if (negb (String.eqb (sn_account_id_masked b) account))
       "broker_snapshot_account_mismatch" ++
     reason_if (negb (String.eqb (sn_trade_date b) trade_date))
       "broker_snapshot_trade_date_mismatch").

Definition _append_broker_snapshot_quality_mismatches (b : snapshot) (account trade_date : string)
    : list mismatch :=
  map (fun r => {| mm_count := 1; mm_subject := Some (sn_snapshot_id b); mm_reason := r |})
    (quality_reasons b account trade_date).
End Broker.

(** ** The reconciliation *)

Record reconcile_row := {
  rr_reconcile : LiveSimReconcileSnapshot;
  rr_broker_snapshot : option snapshot;
  rr_mismatches : list (option string * string);
  rr_blocking_new_buy : bool;
  rr_allow_exit : bool
}.

Section Reconcile.
Context (new_message_id : string -> nat -> string) (py_repr : json -> string)
  (json_loads : string -> res json).

(** Every mismatch, and the normalised snapshot. *)
Definition reconcile_checks (l : tables) (c : store) (given : option json) (s : ReconcileSettings)
    (now : Z) : res (list mismatch * option snapshot) :=
  let trade_date := market_today now in
  let open_orders := open_orders_of l trade_date in
  let positions := open_positions_of l in
  let summaries := _local_execution_summaries l trade_date in
  let local_orders := mjoin (map (order_checks l c) open_orders) in
  let* local_positions := concat_checks (position_checks l s) positions in
  let local := local_orders ++ local_positions ++ stale_checks l s now in
  let* b := _normalize_broker_snapshot py_repr json_loads given (snapshot_settings s) now in
  match b with
  | None => Ok (local, None)
  | Some b =>
      let quality :=
        _append_broker_snapshot_quality_mismatches b (mask_account_text (account_of s)) trade_date in
      let* rest := _append_broker_snapshot_mismatches py_repr open_orders positions summaries b
                     (live_sim_reconcile_notional_tolerance s) in
      Ok (local ++ quality ++ rest, Some b)
  end.

Definition reconcile_status (count : Z) (b : option snapshot) : string :=
  if negb (count =? 0) then "RECONCILE_MISMATCH"
  else match b with None => "LOCAL_ONLY_WITHOUT_BROKER_SNAPSHOT" | Some _ => "OK" end.

Definition count_of {A} (l : list A) : json := JInt (Z.of_nat (length l)).

(** [reconcile_live_sim_orders_and_positions]; what the snapshot row's JSON says
    is kept as [rr_broker_snapshot] and [rr_mismatches].  The account is
    [account_id or "SIMULATION_ACCOUNT_REQUIRED"], masked. *)
Definition reconcile_live_sim_orders_and_positions (given : option json) (s : ReconcileSettings)
    (now : Z) (w : world) (rows : list reconcile_row)
    : res (world * list reconcile_row * reconcile_row) :=
  let* checked := reconcile_checks (ledger w) (gateway w) given s now in
  let '(ms, b) := checked in
  let count := mismatch_count ms in
  let blocking := (0 <? count) && live_sim_reconcile_block_new_buy_on_mismatch s in
  let allow_exit := live_sim_reconcile_allow_exit_on_mismatch s in
  let '(id, l) := fresh new_message_id "live_sim_reconcile" (ledger w) in
  let* r := LiveSimReconcileSnapshot_post_init
    {| ra_reconcile_id := JStr id;
       ra_account_id := JStr (mask_account_text
         (if str_true (account_of s) then account_of s else "SIMULATION_ACCOUNT_REQUIRED"));
       ra_trade_date := JStr (market_today now); ra_code := JNull;
       ra_broker_open_order_count := count_of (from_option sn_open_orders [] b);
       ra_broker_position_count := count_of (from_option sn_positions [] b);
       ra_local_open_order_count := count_of (open_orders_of (ledger w) (market_today now));
       ra_local_position_count := count_of (open_positions_of (ledger w));
       ra_mismatch_count := JInt count; ra_status := JStr (reconcile_status count b);
       ra_snapshot_json := JObj []; ra_created_at := moment now |} in
  let row := {| rr_reconcile := r; rr_broker_snapshot := b; rr_mismatches := mismatches ms;
                rr_blocking_new_buy := blocking; rr_allow_exit := allow_exit |} in
  let* rows := insert_row (same (fun r => lr_reconcile_id (rr_reconcile r))) row rows in
  let* l :=
    if negb (count =? 0)
    then _record_lifecycle_event new_message_id "RECONCILE_MISMATCH" "RECONCILE" (Some id) None None
           (Some (lr_status r)) (Some "RECONCILE_MISMATCH") l
    else Ok l in
  Ok (set_ledger l w, rows, row).

(** ** What a reconciliation decides *)

(** [ORDER BY created_at DESC, reconcile_id DESC LIMIT 1]. *)
Definition reconcile_text (r : reconcile_row) : string :=
  match lr_created_at (rr_reconcile r) with Some t => datetime_to_wire t | None => EmptyString end.
Definition later_reconcile (a b : reconcile_row) : bool :=
  later_text (reconcile_text a) (lr_reconcile_id (rr_reconcile a))
    (reconcile_text b) (lr_reconcile_id (rr_reconcile b)).
Definition latest_reconcile (rows : list reconcile_row) : option reconcile_row :=
  head (stable_sort later_reconcile rows).

Definition ACTIVE_SNAPSHOT_REQUEST_STATUSES : list GS.t :=
  [GS.QUEUED; GS.DISPATCHED; GS.CLAIMED; GS.GATEWAY_STARTED].

(** A [broker_snapshot_request] that is under way. *)
Definition is_snapshot_request (k : command_row) : bool :=
  String.eqb (gc_command_type k) "broker_snapshot_request".
Definition active_snapshot_requests (c : store) : list command_row :=
  List.filter (fun k => is_snapshot_request k &&
                        bool_decide (gc_status k ∈ ACTIVE_SNAPSHOT_REQUEST_STATUSES))
    (map snd (map_to_list (commands c))).

Definition _latest_reconcile_blocks_new_buy (c : store) (rows : list reconcile_row)
    (s : ReconcileSettings) (now : Z) : res bool :=
  let requests := live_sim_reconcile_request_broker_snapshot_enabled s in
  if negb (live_sim_reconcile_block_new_buy_on_mismatch s) then Ok false
  else if negb (bool_decide (active_snapshot_requests c = [])) then Ok true
  else
    match latest_reconcile rows with
    | None => Ok requests
    | Some row =>
        let r := rr_reconcile row in
        if rr_blocking_new_buy row ||
           ((0 <? lr_mismatch_count r) && String.eqb (py_upper (lr_status r)) "RECONCILE_MISMATCH")
        then Ok true
        else if negb requests then Ok false
        else
          match rr_broker_snapshot row with
          | None => Ok true
          | Some b =>
              if negb (is_complete (sn_snapshot_status b)) then Ok true
              else
                let stale := if sn_stale_after_sec b =? 0 then broker_snapshot_stale_sec s
                             else sn_stale_after_sec b in
                let* fresh := _broker_snapshot_freshness (sn_snapshot_at b) stale now in
                Ok (negb fresh)
          end
    end.

(** ** A snapshot event *)

(** [_mask_account_fields]: the account keys at the top of the payload. *)
Definition account_keys : list string :=
  ["account"; "account_id"; "account_no";
   string_of_list_ascii (map ascii_of_nat [234; 179; 132; 236; 162; 140; 235; 178; 136; 237; 152; 184]%nat)].
Definition _mask_account_fields (fields : list (string * json)) : list (string * json) :=
  map (fun kv => if mem kv.1 account_keys then (kv.1, JStr (mask_account_id py_repr (Some kv.2))) else kv)
    fields.

(** [apply_live_sim_broker_snapshot]; the reconcile row, if one was made. *)
Definition apply_live_sim_broker_snapshot (e : GatewayEvent) (s : ReconcileSettings) (now : Z)
    (w : world) (rows : list reconcile_row) : res (world * list reconcile_row * option reconcile_row) :=
  let payload := JObj (_mask_account_fields (ge_payload e)) in
  let* l := _record_lifecycle_event new_message_id "BROKER_SNAPSHOT_OBSERVED" "BROKER_SNAPSHOT"
              (Some (ge_event_id e)) None None (Some "LOCAL_ONLY_WITH_BROKER_SNAPSHOT")
              (Some (py_upper (ge_event_type e))) (ledger w) in
  let w := set_ledger l w in
  let* b := _normalize_broker_snapshot py_repr json_loads (Some payload) (snapshot_settings s) now in
  match b with
  | None => Ok (w, rows, None)
  | Some _ =>
      let* out := reconcile_live_sim_orders_and_positions (Some payload) s now w rows in
      let '(w, rows, row) := out in
      Ok (w, rows, Some row)
  end.

(** ** Asking the gateway for a snapshot *)

(** [request_live_sim_broker_snapshot]; [request_ttl] and [max_pages] are
    settings; the command's identifier is answered. *)
Definition request_live_sim_broker_snapshot (hash_payload : payload -> string) (enabled : bool)
    (request_ttl max_pages : Z) (snapshot_id : option string) (s : ReconcileSettings) (now : Z)
    (w : world) : world * res string :=
  let g := gate_settings (lifecycle_settings s) in
  let es := event_settings g in
  (let! _ := require enabled "LIVE_SIM_RECONCILE_ENABLED is false" in
   let! _ := require (live_sim_reconcile_request_broker_snapshot_enabled s)
               "LIVE_SIM_RECONCILE_REQUEST_BROKER_SNAPSHOT_ENABLED is false" in
   let! _ := require (str_true (py_strip (account_of s)))
               "LIVE_SIM_ACCOUNT_ID is required for broker snapshot" in
   let! _ := require (is_simulation_like (live_sim_account_mode es))
               "LIVE_SIM_ACCOUNT_MODE must be simulation-like" in
   let! _ := require (is_simulation_like (live_sim_broker_env es))
               "LIVE_SIM_BROKER_ENV must be simulation-like" in
   let! _ := require (is_simulation_like (live_sim_server_mode es))
               "LIVE_SIM_SERVER_MODE must be simulation-like" in
   let! w := get in
   let! _ := require (bool_decide (active_snapshot_requests (gateway w) = []))
               "BROKER_SNAPSHOT_REQUEST_ALREADY_ACTIVE" in
   let! id := match snapshot_id with
              | Some id => if str_true id then ret id else fresh_id new_message_id "live_sim_broker_snapshot"
              | None => fresh_id new_message_id "live_sim_broker_snapshot"
              end in
   let! id := of_res (require_non_empty id "snapshot_id") in
   let key := "live-sim-broker-snapshot:" +:+ id in
   let! w := get in
   let! _ := require (negb (existsb (fun k => is_snapshot_request k &&
                                              is_some_text (gc_idempotency_key k) key)
                              (map snd (map_to_list (commands (gateway w))))))
               "BROKER_SNAPSHOT_REQUEST_DUPLICATE_SNAPSHOT_ID" in
   let p := [("snapshot_id", JStr id); ("account_id", JStr (account_of s));
             ("trade_date", JStr (market_today now));
             ("account_mode", JStr (live_sim_account_mode es));
             ("broker_env", JStr (live_sim_broker_env es));
             ("server_mode", JStr (live_sim_server_mode es));
             ("stale_after_sec", JInt (broker_snapshot_stale_sec s));
             ("max_pages_per_section", JInt max_pages); ("idempotency_key", JStr key);
             ("mode", JStr "LIVE_SIM"); ("live_sim_only", JBool true);
             ("live_real_allowed", JBool false); ("broker_order_path", JStr "LIVE_SIM_ONLY");
             ("read_only", JBool true); ("automatic_local_repair", JBool false)] in
   let! id := fresh_id new_message_id "cmd" in
   let! c := of_res (GatewayCommand_post_init
               {| command_type := "broker_snapshot_request"; source := "live_sim"; payload_of := p;
                  command_id := id; ts := now; idempotency_key := Some key |}) in
   let! r := (fun w =>
     let '(c', r) := enqueue_command py_repr hash_payload (gateway w) c
                       (Some (now + seconds request_ttl)) now now in
     (set_gateway c' w, Ok r)) in
   if er_accepted r then ret id
   else raise (ValueError (match er_error_message r with
                           | Some m => if str_true m then m else "BROKER_SNAPSHOT_REQUEST_QUEUE_REJECTED"
                           | None => "BROKER_SNAPSHOT_REQUEST_QUEUE_REJECTED"
                           end))) w.
End Reconcile.

(** ** Commands that expired before they were dispatched *)

Section Sweep.
Context (new_message_id : string -> nat -> string).

(** [gc.status = 'EXPIRED' AND gc.dispatched_at IS NULL] for an order's command. *)
Definition expired_undispatched (c : store) (o : order_row) : option command_row :=
  match lo_gateway_command_id (or_rec o) with
  | Some id =>
      match commands c !! id with
      | Some k => if bool_decide (gc_status k = GS.EXPIRED) && bool_decide (gc_dispatched_at k = None)
                  then Some k else None
      | None => None
      end
  | None => None
  end.

Definition sweepable (c : store) (o : order_row) : bool :=
  bool_decide (order_status o = OS.COMMAND_QUEUED) &&
  match expired_undispatched c o with
  | Some k => String.eqb (gc_command_type k) "send_order"
  | None => false
  end.

(** [created_at ASC, live_sim_order_id ASC]. *)
Definition sweep_rows (l : tables) (c : store) (limit : Z) : list order_row :=
  take (Z.to_nat (_bounded_limit limit))
    (stable_sort (fun a b => later_text (created_text b) (order_id b) (created_text a) (order_id a))
       (List.filter (sweepable c) (orders l))).

Definition order_expired (now : Z) (x : LiveSimOrderRecord) : LiveSimOrderRecord :=
  order_columns OS.ORDER_EXPIRED (lo_broker_order_no x) (lo_broker_result_code x)
    (coalesce (lo_broker_message x) (Some "Gateway command expired before dispatch."))
    (lo_filled_quantity x) 0 (lo_avg_fill_price x) (lo_command_dispatched_at x)
    (lo_broker_acked_at x) (Some now) x.

(** One row: both updates and the event.  The guard of the first update repeats
    the condition of the query, without the command's type. *)
Definition sweep_order (c : store) (now : Z) (o : order_row) (acc : tables * list string)
    : res (tables * list string) :=
  let '(l, swept) := acc in
  match find (fun r => String.eqb (order_id r) (order_id o)) (orders l) with
  | Some r =>
      if bool_decide (order_status r = OS.COMMAND_QUEUED) &&
         bool_decide (is_Some (expired_undispatched c r))
      then
        let l := update_order (order_id o) (order_expired now) l in
        let l := update_intent (lo_live_sim_intent_id (or_rec o))
                   (fun i => bool_decide (li_status i = IS.COMMAND_QUEUED))
                   (fun i => intent_columns IS.EXPIRED (li_gateway_command_id i) false i) l in
        let* l := _record_lifecycle_event new_message_id "COMMAND_EXPIRED_BEFORE_DISPATCH"
                    "LIVE_SIM_ORDER" (Some (order_id o)) (Some (order_id o)) None
                    (Some (OS.value OS.ORDER_EXPIRED))
                    (Some "GATEWAY_COMMAND_EXPIRED_BEFORE_DISPATCH") l in
        Ok (l, swept ++ [order_id o])
      else Ok (l, swept)
  | None => Ok (l, swept)
  end.

Fixpoint sweep_loop (c : store) (now : Z) (rows : list order_row) (acc : tables * list string)
    : res (tables * list string) :=
  match rows with
  | [] => Ok acc
  | o :: rows => let* acc := sweep_order c now o acc in sweep_loop c now rows acc
  end.

(** [sweep_expired_live_sim_order_commands]; the orders it expired. *)
Definition sweep_expired_live_sim_order_commands (l : tables) (c : store) (limit now : Z)
    : res (tables * list string) :=
  sweep_loop c now (sweep_rows l c limit) (l, []).
End Sweep.
