(* ===== verification/ReconcileRuns.v ===== *)
(** * What a reconciliation says ([LiveSimReconcile])

    A verdict [OK] means, exactly, that the tables agree with themselves, with
    the gateway commands and with a complete, fresh snapshot of the broker's
    account.  A mismatch blocks new buys until a later reconciliation; ledgers
    that [LiveSimHistory] reaches give no quantity mismatch of their own. *)
From S2P Require Import Prelude PyFloat FloatRound BrokerUtils WireTime GatewayModels OrderBoundary.
From S2P Require Import CommandStore LiveSimModels LiveSimStore LiveSimEvents LiveSimLedger SafetyGate.
From S2P Require Import LiveSimExit BrokerSnapshot LiveSimReconcile LiveSimHistory LiveSimRuns.
Local Open Scope Z_scope.

(** ** Counting *)

Definition quiet (l : list mismatch) : Prop := mismatch_count l = 0.
Definition nonneg (l : list mismatch) : Prop := Forall (fun m => 0 <= mm_count m) l.

Create HintDb mismatches.

Lemma nonneg_nil : nonneg [].
Proof. constructor. Qed.
Lemma nonneg_app l k : nonneg l -> nonneg k -> nonneg (l ++ k).
Proof. intros. by apply list.Forall_app. Qed.
Lemma nonneg_counted b id r : nonneg (counted b id r).
Proof. destruct b; repeat constructor; cbn; lia. Qed.
Lemma nonneg_mjoin {A} (f : A -> list mismatch) rows :
  (forall a, nonneg (f a)) -> nonneg (mjoin (map f rows)).
Proof. intros H. induction rows; [constructor|]. cbn. by apply nonneg_app. Qed.
#[local] Hint Resolve nonneg_nil nonneg_app nonneg_counted nonneg_mjoin : mismatches.

Lemma count_nonneg l : nonneg l -> 0 <= mismatch_count l.
Proof.
  unfold mismatch_count. induction 1; [done|]. rewrite zsum_cons. lia.
Qed.

Lemma quiet_app l k : nonneg l -> nonneg k -> quiet (l ++ k) <-> quiet l /\ quiet k.
Proof.
  intros Hl%count_nonneg Hk%count_nonneg. unfold quiet, mismatch_count in *. rewrite zsum_app. lia.
Qed.

Lemma quiet_counted b id r : quiet (counted b id r) <-> b = false.
Proof. by destruct b. Qed.

Lemma quiet_mjoin {A} (f : A -> list mismatch) rows :
  (forall a, nonneg (f a)) -> quiet (mjoin (map f rows)) <-> forall a, a ∈ rows -> quiet (f a).
Proof.
  intros H. induction rows as [|a rows IH]; [split; [by intros _ a ?%not_elem_of_nil|done]|].
  cbn. rewrite quiet_app, IH by auto with mismatches.
  split; [intros [H1 H2] b [->|Hb]%elem_of_cons; auto|]. intros H1. split; [|intros b Hb]; apply H1; set_solver.
Qed.

Lemma concat_checks_ok {A} (f : A -> res (list mismatch)) rows l :
  concat_checks f rows = Ok l -> forall a, a ∈ rows -> exists xs, f a = Ok xs.
Proof.
  revert l. induction rows as [|b rows IH]; intros l; cbn; [by intros _ a ?%not_elem_of_nil|].
  intros (xs & Hb & (ys & Hys & _)%res_bind_ok)%res_bind_ok a [->|Ha]%elem_of_cons; [by exists xs|].
  by eapply IH.
Qed.

Lemma nonneg_concat {A} (f : A -> res (list mismatch)) rows l :
  (forall a xs, f a = Ok xs -> nonneg xs) -> concat_checks f rows = Ok l -> nonneg l.
Proof.
  intros H. revert l. induction rows as [|b rows IH]; intros l; cbn; [intros [= <-]; constructor|].
  intros (xs & Hb & (ys & Hys & [= <-])%res_bind_ok)%res_bind_ok. apply nonneg_app; eauto.
Qed.

Lemma quiet_concat {A} (f : A -> res (list mismatch)) rows l :
  (forall a xs, f a = Ok xs -> nonneg xs) -> concat_checks f rows = Ok l ->
  quiet l <-> forall a, a ∈ rows -> exists xs, f a = Ok xs /\ quiet xs.
Proof.
  intros H. revert l. induction rows as [|b rows IH]; intros l; cbn.
  { intros [= <-]. split; [by intros _ a ?%not_elem_of_nil|done]. }
  intros (xs & Hb & (ys & Hys & [= <-])%res_bind_ok)%res_bind_ok.
  rewrite quiet_app, (IH ys) by eauto using nonneg_concat. split.
  - intros [Hx Hy] a [->|Ha]%elem_of_cons; [by exists xs|auto].
  - intros Ha. split; [|intros a Hin; apply Ha; by right].
    destruct (Ha b ltac:(left)) as (xs' & Hb' & Hq). congruence.
Qed.

(** ** The checks, one by one *)

Lemma nonneg_order_checks l c o : nonneg (order_checks l c o).
Proof. unfold order_checks. cbv zeta. destruct (match lo_gateway_command_id _ with Some _ => _ | None => _ end); auto 10 with mismatches. Qed.

Lemma nonneg_position_checks l s p xs : position_checks l s p = Ok xs -> nonneg xs.
Proof.
  unfold position_checks. cbv zeta. intros (c & _ & (n & _ & [= <-])%res_bind_ok)%res_bind_ok.
  assert (forall b, nonneg (if b : bool then [{| mm_count := 0; mm_subject := Some (p_position_id p);
            mm_reason := "active_exit_exists_for_open_position" |}] else [])) as Hx
    by (intros []; repeat constructor; cbn; lia).
  auto 10 with mismatches.
Qed.

Lemma nonneg_stale l s now : nonneg (stale_checks l s now).
Proof. unfold stale_checks. cbv zeta. destruct (Z.ltb_spec 0 (_stale_open_order_count l s now)); repeat constructor; cbn; lia. Qed.

Lemma nonneg_open_order_checks m o xs : open_order_checks m o = Ok xs -> nonneg xs.
Proof.
  unfold open_order_checks. cbv zeta. destruct (negb _); [intros [= <-]; apply (nonneg_counted true)|].
  destruct (m !! _); [|intros [= <-]; apply (nonneg_counted true)].
  intros (r & _ & (q & _ & [= <-])%res_bind_ok)%res_bind_ok. auto 10 with mismatches.
Qed.

Lemma nonneg_holdings_checks r l b t : nonneg (holdings_checks r l b t).
Proof.
  apply nonneg_mjoin. intros c. unfold holding_checks. cbv zeta. destruct (negb _); auto with mismatches.
Qed.

Lemma nonneg_execution_checks l b : nonneg (execution_checks l b).
Proof. apply nonneg_mjoin. auto with mismatches. Qed.

Lemma nonneg_quality b a d : nonneg (_append_broker_snapshot_quality_mismatches b a d).
Proof. apply List.Forall_map, list.Forall_true. cbn. lia. Qed.

Lemma nonneg_broker_order_checks m b : nonneg (broker_order_checks m b).
Proof. apply nonneg_counted. Qed.
#[local] Hint Resolve nonneg_order_checks nonneg_stale nonneg_holdings_checks nonneg_execution_checks
  nonneg_quality nonneg_broker_order_checks : mismatches.

(** ** Agreement *)

(** An order agrees with its command and its executions. *)
Record order_agrees (l : tables) (c : store) (o : order_row) : Prop := {
  ag_command : exists id k, lo_gateway_command_id (or_rec o) = Some id /\ commands c !! id = Some k /\
    ~ (gc_status k ∈ [GS.FAILED; GS.REJECTED; GS.EXPIRED] /\
       order_status o ∉ [OS.FAILED; OS.EXPIRED; OS.BROKER_REJECTED]);
  ag_filled : lo_filled_quantity (or_rec o) = zsum (fills_of (order_id o)) (executions l);
  ag_remaining : 0 <= lo_remaining_quantity (or_rec o);
  ag_quantity : lo_filled_quantity (or_rec o) + lo_remaining_quantity (or_rec o) <= lo_quantity (or_rec o)
}.

Lemma order_checks_quiet l c o : quiet (order_checks l c o) <-> order_agrees l c o.
Proof.
  unfold order_checks. cbv zeta.
  rewrite !quiet_app by (repeat case_match; auto 10 with mismatches).
  rewrite !quiet_counted, !Z.ltb_ge, negb_false_iff, Z.eqb_eq. unfold _execution_quantity_sum.
  split.
  - intros (Hc & Hk & H1 & H2 & H3). destruct (lo_gateway_command_id (or_rec o)) as [id|] eqn:Eid.
    2: { by rewrite bool_decide_eq_true_2 in Hc. }
    destruct (commands c !! id) as [k|] eqn:Ek; [|by rewrite quiet_counted in Hk].
    apply quiet_counted, andb_false_iff in Hk. split; [|done..]. exists id, k. split; [done|].
    split; [done|]. intros [Ha Hb]. destruct Hk as [Hk|Hk]; by apply bool_decide_eq_false_1 in Hk.
  - intros [(id & k & Hid & Hk & Hn) H1 H2 H3]. rewrite Hid, Hk. split_and!; [done| |done..].
    apply quiet_counted, not_true_is_false. intros [Ha%bool_decide_eq_true Hb%bool_decide_eq_true]%andb_true_iff.
    by apply Hn.
Qed.

(** A position agrees with the executions of its account and code. *)
Record position_agrees (l : tables) (s : ReconcileSettings) (p : position_row) : Prop := {
  ag_fills : exists code, validate_code (p_code p) "code" = Ok code /\
    _net_position_quantity_from_fills l (p_account_id p) code = p_quantity p;
  ag_not_short : 0 <= p_quantity p /\ 0 <= p_available_quantity p;
  ag_notional :
    f_lt (live_sim_reconcile_notional_tolerance s)
      (f_abs (f_sub (p_total_entry_notional p) (f_mul (p_avg_entry_price p) (f_of_Z (p_quantity p))))) = false
}.

Lemma position_checks_quiet l s p xs :
  position_checks l s p = Ok xs -> quiet xs <-> position_agrees l s p.
Proof.
  unfold position_checks. cbv zeta. intros (c & Hc & (n & _ & [= <-])%res_bind_ok)%res_bind_ok.
  assert (forall b, nonneg (if b : bool then [{| mm_count := 0; mm_subject := Some (p_position_id p);
            mm_reason := "active_exit_exists_for_open_position" |}] else [])) as Hx
    by (intros []; repeat constructor; cbn; lia).
  rewrite !quiet_app, !quiet_counted, negb_false_iff, Z.eqb_eq, orb_false_iff, !Z.ltb_ge
    by auto 10 with mismatches.
  split.
  - intros (H1 & H2 & H3 & _). by split; [exists c|..].
  - intros [(c' & Hc' & H1) [H2 H2'] H3]. rewrite Hc in Hc'. injection Hc' as ->. split_and!; try done.
    by destruct (_ && _).
Qed.

(** No order that still counts as open is older than the limit. *)
Definition none_stale (l : tables) (s : ReconcileSettings) (now : Z) : Prop :=
  forall o t, o ∈ orders l -> is_active_order o = true -> lo_created_at (or_rec o) = Some t ->
  wire_le t (now - seconds (live_sim_reconcile_stale_order_sec s)) = false.

Lemma stale_checks_quiet l s now : quiet (stale_checks l s now) <-> none_stale l s now.
Proof.
  unfold stale_checks, none_stale, _stale_open_order_count. cbv zeta.
  match goal with |- context [List.filter ?g (orders l)] => set (f := g) end.
  destruct (List.filter f (orders l)) as [|o os] eqn:E.
  - split; [|done]. intros _ o t Ho Ha Ht. apply not_true_is_false. intros Hw.
    assert (In o (List.filter f (orders l))) as Hin.
    { apply filter_In. split; [by apply list_elem_of_In|]. unfold f. by rewrite Ha, Ht. }
    by rewrite E in Hin.
  - cbn [length]. destruct (Z.ltb_spec 0 (Z.of_nat (S (length os)))); [|lia]. split.
    + intros Hq. exfalso. revert Hq. unfold quiet, mismatch_count, zsum. cbn [foldr mm_count]. lia.
    + intros Hn. assert (In o (List.filter f (orders l))) as [Ho Hf]%filter_In by (rewrite E; by left).
      unfold f in Hf. apply andb_true_iff in Hf as [Ha Hf].
      destruct (lo_created_at (or_rec o)) as [t|] eqn:Et; [|done].
      apply list_elem_of_In in Ho. by rewrite (Hn o t Ho Ha Et) in Hf.
Qed.

Section Broker.
Context (py_repr : json -> string).
Abbreviation stock_code t := (_optional_stock_code py_repr (Some (JStr t))).

(** *** Holdings *)

Lemma by_code_from {V} (step : option V -> holding -> V) rows m c :
  is_Some (foldl (add_holding py_repr step) m rows !! c) <->
  is_Some (m !! c) \/ exists h, h ∈ rows /\ stock_code (h_code h) = Some c.
Proof.
  revert m. induction rows as [|h rows IH]; intros m; cbn [foldl]; [set_solver|]. rewrite IH.
  unfold add_holding at 1. destruct (stock_code (h_code h)) as [k|] eqn:E; [|set_solver].
  destruct (decide (k = c)) as [->|Hne].
  - rewrite lookup_insert_eq. split; [intros _; right; exists h; set_solver|intros _; by left].
  - rewrite lookup_insert_ne by done. set_solver.
Qed.

Lemma by_code_dom {V W} (f : option V -> holding -> V) (g : option W -> holding -> W) rows c :
  is_Some (by_code py_repr f rows !! c) <-> is_Some (by_code py_repr g rows !! c).
Proof. unfold by_code. rewrite !by_code_from, !lookup_empty. split; (intros [[? ?]|?]; [done|by right]). Qed.

(** The quantity of a code is the sum over the rows of the code. *)
Definition quantity_of (rows : list holding) (c : string) : Z :=
  zsum (fun h => if bool_decide (stock_code (h_code h) = Some c) then h_quantity h else 0) rows.

Lemma quantity_by_code rows c :
  default 0 (_position_quantity_by_code py_repr rows !! c) = quantity_of rows c.
Proof.
  unfold _position_quantity_by_code, by_code, quantity_of.
  assert (forall m : gmap string Z,
    default 0 (foldl (add_holding py_repr (fun v h => default 0 v + h_quantity h)) m rows !! c)
    = default 0 (m !! c) +
      zsum (fun h => if bool_decide (stock_code (h_code h) = Some c) then h_quantity h else 0) rows) as H.
  { induction rows as [|h rows IH]; intros m; cbn [foldl]; [by rewrite Z.add_0_r|]. rewrite IH, zsum_cons. cbv beta.
    unfold add_holding at 1. destruct (stock_code (h_code h)) as [k|] eqn:E; [|rewrite bool_decide_eq_false_2 by done; lia].
    destruct (decide (k = c)) as [->|Hne].
    - rewrite lookup_insert_eq, bool_decide_eq_true_2 by done. cbn. lia.
    - rewrite lookup_insert_ne, bool_decide_eq_false_2 by congruence. lia. }
  rewrite H. by rewrite lookup_empty.
Qed.

(** Local and broker rows agree on a code: the same quantity, and, when both
    sides say so, the same available quantity and a price within the tolerance. *)
Record holding_agrees (local broker : list holding) (tolerance : float) (c : string) : Prop := {
  ag_same_quantity : quantity_of local c = quantity_of broker c;
  ag_same_available :
    differ (fun a b => negb (a =? b))
      (default None (_position_available_quantity_by_code py_repr local !! c))
      (default None (_position_available_quantity_by_code py_repr broker !! c)) = false;
  ag_same_price :
    differ (fun a b => f_lt tolerance (f_abs (f_sub a b)))
      (_position_average_price_by_code py_repr local c)
      (_position_average_price_by_code py_repr broker c) = false
}.

Lemma holding_checks_quiet local broker t c :
  quiet (holding_checks py_repr local broker t c) <-> holding_agrees local broker t c.
Proof.
  unfold holding_checks. cbv zeta. rewrite !quantity_by_code.
  destruct (Z.eqb_spec (quantity_of local c) (quantity_of broker c)) as [E|E]; cbn [negb].
  - rewrite quiet_app, !quiet_counted by auto with mismatches. split; [by intros []|by intros []].
  - split; [by intros ?%quiet_counted|by intros []].
Qed.

Lemma elem_of_sorted_keys {V W} (a : gmap string V) (b : gmap string W) c :
  c ∈ sorted_keys a b <-> is_Some (a !! c) \/ is_Some (b !! c).
Proof.
  unfold sorted_keys. rewrite elem_of_stable_sort, elem_of_elements, elem_of_union, !elem_of_dom. done.
Qed.

Lemma holdings_checks_quiet local broker t :
  quiet (holdings_checks py_repr local broker t) <-> forall c, holding_agrees local broker t c.
Proof.
  unfold holdings_checks. rewrite quiet_mjoin.
  2: { intros c. unfold holding_checks. cbv zeta. destruct (negb _); auto with mismatches. }
  split; [|intros H c _; by apply holding_checks_quiet].
  intros H c. destruct (decide (c ∈ sorted_keys (_position_quantity_by_code py_repr local)
                                  (_position_quantity_by_code py_repr broker))) as [Hin|Hn].
  { by apply holding_checks_quiet, H. }
  rewrite elem_of_sorted_keys in Hn.
  assert (forall V (f : option V -> holding -> V) rows,
    rows = local \/ rows = broker -> by_code py_repr f rows !! c = None) as Hno.
  { intros V f rows Hr. apply eq_None_not_Some. intros Hs.
    apply (by_code_dom f (fun v h => default 0 v + h_quantity h)) in Hs.
    apply Hn. destruct Hr as [->| ->]; [by left|by right]. }
  split.
  - rewrite <- !quantity_by_code. unfold _position_quantity_by_code. rewrite !Hno by auto. done.
  - unfold _position_available_quantity_by_code. rewrite !Hno by auto. done.
  - unfold _position_average_price_by_code, priced_holdings. rewrite !Hno by auto. done.
Qed.
End Broker.

(** *** Open orders *)

Lemma by_order_no_from {V} (no : V -> option string) rows m k v :
  foldl (add_numbered no) m rows !! k = Some v ->
  m !! k = Some v \/ (v ∈ rows /\ no v = Some k).
Proof.
  revert m. induction rows as [|r rows IH]; intros m; cbn [foldl]; [by left|].
  intros [H|[H1 H2]]%IH; [|right; split; [by right|done]].
  unfold add_numbered in H. destruct (no r) as [k'|] eqn:E; [|by left]. destruct (str_true _); [|by left].
  apply lookup_insert_Some in H as [[-> ->]|[_ H]]; [|by left].
  right. split; [by left|done].
Qed.

Lemma by_order_no_elem {V} (no : V -> option string) rows k v :
  by_order_no no rows !! k = Some v -> v ∈ rows /\ no v = Some k.
Proof. intros [H|H]%by_order_no_from; [by rewrite lookup_empty in H|done]. Qed.

(** The broker's row of an open order agrees with it. *)
Record open_order_agrees (broker : gmap string broker_order) (o : order_row) : Prop := {
  ag_broker_row : exists b,
    str_true (no_of (lo_broker_order_no (or_rec o))) = true /\
    broker !! no_of (lo_broker_order_no (or_rec o)) = Some b /\
    bo_code b = Some (lo_code (or_rec o)) /\
    int_differ (lo_remaining_quantity (or_rec o)) (bo_remaining_quantity b) = Ok false /\
    int_differ (lo_quantity (or_rec o)) (bo_quantity b) = Ok false /\
    (_canonical_broker_open_order_status b = EmptyString \/
     _canonical_broker_open_order_status b = _canonical_local_open_order_status o)
}.

Lemma open_order_checks_quiet m o xs :
  open_order_checks m o = Ok xs -> quiet xs <-> open_order_agrees m o.
Proof.
  unfold open_order_checks. cbv zeta. set (no := no_of _).
  destruct (str_true no) eqn:En; cbn [negb].
  2: { intros [= <-]. split; [done|]. intros [(b & Hn & _)]. fold no in Hn. congruence. }
  destruct (m !! no) as [b|] eqn:Em.
  2: { intros [= <-]. split; [done|]. intros [(b & _ & Hb & _)]. fold no in Hb. congruence. }
  intros (r & Hr & (q & Hq & [= <-])%res_bind_ok)%res_bind_ok.
  rewrite !quiet_app, !quiet_counted by auto 10 with mismatches. split.
  - intros (H1%negb_false_iff%bool_decide_eq_true & -> & -> & H4). split. exists b. fold no.
    split_and!; try done. apply andb_false_iff in H4 as [H4|H4].
    + left. by destruct (_canonical_broker_open_order_status b).
    + right. by apply negb_false_iff, String.eqb_eq in H4.
  - intros [(b' & _ & Hb & H1 & H2 & H3 & H4)]. fold no in Hb. rewrite Em in Hb. injection Hb as <-.
    rewrite H2 in Hr. rewrite H3 in Hq. injection Hr as <-. injection Hq as <-.
    split_and!; [by rewrite bool_decide_eq_true_2|done..|].
    destruct H4 as [->| ->]; [done|]. by rewrite String.eqb_refl, andb_false_r.
Qed.

(** Below [2^53] shares the comparison is that of the numbers. *)
Lemma int_value_exact n : Z.abs n < 2 ^ 53 -> _optional_int_value (Some (JInt n)) = Ok (Some n).
Proof. intros H. unfold _optional_int_value. cbn [_optional_float_value]. by rewrite f_trunc_of_Z. Qed.

Lemma int_differ_exact a b :
  Z.abs a < 2 ^ 53 -> Z.abs b < 2 ^ 53 -> int_differ a b = Ok false <-> a = b.
Proof.
  intros Ha Hb. unfold int_differ. rewrite !int_value_exact by done. cbn.
  destruct (Z.eqb_spec a b); naive_solver.
Qed.

Definition has_local_order (local : gmap string order_row) (b : broker_order) : Prop :=
  str_true (no_of (bo_broker_order_no b)) = true /\ is_Some (local !! no_of (bo_broker_order_no b)).

Lemma broker_order_checks_quiet m b : quiet (broker_order_checks m b) <-> has_local_order m b.
Proof.
  unfold broker_order_checks, has_local_order. cbv zeta. rewrite quiet_counted, negb_false_iff, andb_true_iff.
  by rewrite bool_decide_eq_true.
Qed.

(** *** Executions *)

Definition execution_sum (rows : list broker_execution) (no : string) : Z :=
  zsum (fun e => if String.eqb (no_of (be_broker_order_no e)) no then be_quantity e else 0) rows.

Lemma broker_executions_sum rows no :
  str_true no = true -> default 0 (broker_execution_by_order rows !! no) = execution_sum rows no.
Proof.
  intros Hno. unfold broker_execution_by_order, execution_sum.
  assert (forall m : gmap string Z, default 0 (foldl add_execution m rows !! no) =
    default 0 (m !! no) +
    zsum (fun e => if String.eqb (no_of (be_broker_order_no e)) no then be_quantity e else 0) rows) as H.
  { induction rows as [|e rows IH]; intros m; cbn [foldl]; [by rewrite Z.add_0_r|].
    rewrite IH, zsum_cons. unfold add_execution at 1. cbv beta zeta.
    destruct (String.eqb_spec (no_of (be_broker_order_no e)) no) as [->|Hne].
    - rewrite Hno, lookup_insert_eq. cbn. lia.
    - destruct (str_true (no_of _)); [rewrite lookup_insert_ne by done|]; lia. }
  rewrite H. by rewrite lookup_empty.
Qed.

Lemma execution_checks_quiet l b :
  quiet (execution_checks l b) <-> forall no, default 0 (l !! no) = default 0 (b !! no).
Proof.
  unfold execution_checks. rewrite quiet_mjoin by auto with mismatches.
  split; intros H no; [|intros _; rewrite quiet_counted, negb_false_iff; by apply Z.eqb_eq].
  destruct (decide (no ∈ sorted_keys l b)) as [Hin|Hn].
  - specialize (H no Hin). by rewrite quiet_counted, negb_false_iff, Z.eqb_eq in H.
  - rewrite elem_of_sorted_keys in Hn.
    assert (l !! no = None) as -> by (apply eq_None_not_Some; tauto).
    by assert (b !! no = None) as -> by (apply eq_None_not_Some; tauto).
Qed.

(** *** The snapshot *)

Record snapshot_agrees (b : snapshot) (account trade_date : string) : Prop := {
  ag_status : sn_snapshot_status b = BS.COMPLETE;
  ag_complete : sn_complete b = true;
  ag_fresh : sn_fresh b = true;
  ag_sections : sn_requested_sections b = [] \/
    forall x, x ∈ sn_completed_sections b <-> x ∈ sn_requested_sections b;
  ag_account : sn_account_id_masked b = account;
  ag_trade_date : sn_trade_date b = trade_date
}.

Lemma quality_quiet b a d :
  quiet (_append_broker_snapshot_quality_mismatches b a d) <-> snapshot_agrees b a d.
Proof.
  unfold _append_broker_snapshot_quality_mismatches.
  trans (quality_reasons b a d = []).
  { destruct (quality_reasons b a d) as [|r rs]; [done|]. split; [|done]. intros H. exfalso. revert H.
    unfold quiet, mismatch_count. cbn [map]. rewrite zsum_cons. cbn [mm_count].
    pose proof (count_nonneg _ (nonneg_quality b a d)) as Hn. 
    assert (0 <= zsum mm_count (map (fun r => {| mm_count := 1; mm_subject := Some (sn_snapshot_id b); mm_reason := r |}) rs)).
    { apply count_nonneg, List.Forall_map, list.Forall_true. cbn. lia. }
    lia. }
  unfold quality_reasons. cbv zeta. rewrite dedupe_nil_iff.
  assert (forall c r, reason_if c r = [] <-> c = false) as Hr by (by intros [] r).
  assert (negb (bool_decide (list_to_set (C := gset string) (sn_requested_sections b) = ∅)) &&
          negb (bool_decide (list_to_set (C := gset string) (sn_completed_sections b) =
                             list_to_set (sn_requested_sections b))) = false <->
          sn_requested_sections b = [] \/
          forall x, x ∈ sn_completed_sections b <-> x ∈ sn_requested_sections b) as Hs.
  { rewrite andb_false_iff, !negb_false_iff, !bool_decide_eq_true. f_equiv.
    - destruct (sn_requested_sections b) as [|x l]; [done|]. split; [|done]. cbn. set_solver.
    - rewrite set_eq. split; intros H x; specialize (H x); by rewrite !elem_of_list_to_set in *. }
  rewrite !app_nil, !Hr, Hs, !negb_false_iff, !String.eqb_eq. unfold is_complete. split.
  - intros (H1 & H2 & H3 & H4 & H5).
    destruct (sn_snapshot_status b) eqn:E1, (sn_complete b) eqn:E2, (sn_fresh b) eqn:E3; done.
  - intros [H1 H2 H3 H4 H5 H6]. by rewrite H1, H2, H3.
Qed.

(** ** The verdict *)

Section Verdict.
Context (new_message_id : string -> nat -> string) (py_repr : json -> string)
  (json_loads : string -> res json).
Abbreviation reconcile :=
  (reconcile_live_sim_orders_and_positions new_message_id py_repr json_loads).

(** The tables agree with themselves, with the commands and with the broker. *)
Record agreement (w : world) (b : snapshot) (s : ReconcileSettings) (now : Z) : Prop := {
  ag_orders : forall o, o ∈ open_orders_of (ledger w) (market_today now) ->
    order_agrees (ledger w) (gateway w) o;
  ag_positions : forall p, p ∈ open_positions_of (ledger w) -> position_agrees (ledger w) s p;
  ag_none_stale : none_stale (ledger w) s now;
  ag_snapshot : snapshot_agrees b (mask_account_text (account_of s)) (market_today now);
  ag_broker_orders : forall o, o ∈ open_orders_of (ledger w) (market_today now) ->
    open_order_agrees (by_order_no bo_broker_order_no (sn_open_orders b)) o;
  ag_local_orders : forall r, r ∈ sn_open_orders b ->
    has_local_order (by_order_no (fun o => lo_broker_order_no (or_rec o))
                       (open_orders_of (ledger w) (market_today now))) r;
  ag_holdings : forall code,
    holding_agrees py_repr (map holding_of_position (open_positions_of (ledger w)))
      (map holding_of_broker (sn_positions b)) (live_sim_reconcile_notional_tolerance s) code;
  ag_executions_numbered : forall e, e ∈ sn_executions b -> str_true (no_of (be_broker_order_no e)) = true;
  ag_executions : forall no,
    default 0 (local_execution_by_order
                 (_local_execution_summaries (ledger w) (market_today now)) !! no) =
    default 0 (broker_execution_by_order (sn_executions b) !! no)
}.

Lemma nonneg_positions l s rows xs : concat_checks (position_checks l s) rows = Ok xs -> nonneg xs.
Proof. apply nonneg_concat, nonneg_position_checks. Qed.
Lemma nonneg_open_orders m rows xs : concat_checks (open_order_checks m) rows = Ok xs -> nonneg xs.
Proof. apply nonneg_concat, nonneg_open_order_checks. Qed.

Lemma quiet_positions l s rows xs :
  concat_checks (position_checks l s) rows = Ok xs ->
  quiet xs <-> forall p, p ∈ rows -> position_agrees l s p.
Proof.
  intros H. rewrite (quiet_concat _ _ _ (nonneg_position_checks l s) H).
  split; intros Ha p Hp.
  - destruct (Ha p Hp) as (ys & Hy & Hq). by apply (position_checks_quiet l s p ys).
  - destruct (concat_checks_ok _ _ _ H p Hp) as [ys Hy]. exists ys. split; [done|].
    by apply (position_checks_quiet l s p ys), Ha.
Qed.

Lemma quiet_open_orders m rows xs :
  concat_checks (open_order_checks m) rows = Ok xs ->
  quiet xs <-> forall o, o ∈ rows -> open_order_agrees m o.
Proof.
  intros H. rewrite (quiet_concat _ _ _ (nonneg_open_order_checks m) H).
  split; intros Ha o Ho.
  - destruct (Ha o Ho) as (ys & Hy & Hq). by apply (open_order_checks_quiet m o ys).
  - destruct (concat_checks_ok _ _ _ H o Ho) as [ys Hy]. exists ys. split; [done|].
    by apply (open_order_checks_quiet m o ys), Ha.
Qed.

Lemma nonneg_order_rows l c rows : nonneg (mjoin (map (order_checks l c) rows)).
Proof. auto with mismatches. Qed.
Lemma nonneg_missing_numbers rows :
  nonneg (mjoin (map (fun e => counted (negb (str_true (no_of (be_broker_order_no e)))) None
                               "broker_execution_missing_order_no") rows)).
Proof. auto with mismatches. Qed.
#[local] Hint Resolve nonneg_order_rows nonneg_missing_numbers nonneg_positions nonneg_open_orders
  : mismatches.

Lemma quiet_checks w given s now ms b :
  reconcile_checks py_repr json_loads (ledger w) (gateway w) given s now = Ok (ms, Some b) ->
  quiet ms <-> agreement w b s now.
Proof.
  unfold reconcile_checks. cbv zeta.
  intros (ps & Hps & (b' & _ & H)%res_bind_ok)%res_bind_ok. destruct b' as [b'|]; [|done].
  apply res_bind_ok in H as (rest & Hrest & [= <- ->]). unfold _append_broker_snapshot_mismatches in Hrest.
  apply res_bind_ok in Hrest as (os & Hos & Hrest). cbv zeta in Hrest. injection Hrest as <-.
  pose proof (nonneg_positions _ _ _ _ Hps). pose proof (nonneg_open_orders _ _ _ Hos).
  rewrite !quiet_app by auto 15 with mismatches.
  rewrite (quiet_positions _ _ _ _ Hps), (quiet_open_orders _ _ _ Hos), stale_checks_quiet, quality_quiet.
  rewrite holdings_checks_quiet, execution_checks_quiet.
  rewrite !quiet_mjoin by auto with mismatches. setoid_rewrite order_checks_quiet.
  setoid_rewrite broker_order_checks_quiet. setoid_rewrite quiet_counted. setoid_rewrite negb_false_iff.
  split; [intros ((? & ? & ?) & ? & ? & ? & ? & ? & ?); by constructor|intros []; by split_and!].
Qed.

Lemma checks_nonneg l c given s now ms b :
  reconcile_checks py_repr json_loads l c given s now = Ok (ms, b) -> nonneg ms.
Proof.
  unfold reconcile_checks. cbv zeta. intros (ps & Hps & (b' & _ & H)%res_bind_ok)%res_bind_ok.
  pose proof (nonneg_positions _ _ _ _ Hps). destruct b' as [b'|]; [|injection H as <- _; auto with mismatches].
  apply res_bind_ok in H as (rest & Hrest & [= <- _]). unfold _append_broker_snapshot_mismatches in Hrest.
  apply res_bind_ok in Hrest as (os & Hos & Hrest). cbv zeta in Hrest. injection Hrest as <-.
  pose proof (nonneg_open_orders _ _ _ Hos). auto 15 with mismatches.
Qed.

(** What a reconciliation leaves. *)
Lemma reconcile_inv given s now w rows w' rows' row :
  reconcile given s now w rows = Ok (w', rows', row) ->
  exists ms b,
    reconcile_checks py_repr json_loads (ledger w) (gateway w) given s now = Ok (ms, b) /\
    rows' = rows ++ [row] /\ gateway w' = gateway w /\ rr_broker_snapshot row = b /\
    rr_blocking_new_buy row = (0 <? mismatch_count ms) && live_sim_reconcile_block_new_buy_on_mismatch s /\
    lr_mismatch_count (rr_reconcile row) = mismatch_count ms /\
    lr_status (rr_reconcile row) = reconcile_status (mismatch_count ms) b /\
    lr_created_at (rr_reconcile row) = Some now.
Proof.
  unfold reconcile_live_sim_orders_and_positions. intros ([ms b] & Hc & H)%res_bind_ok.
  unfold fresh in H. apply res_bind_ok in H as (r & Hr & H). cbv zeta in H.
  apply res_bind_ok in H as (rows1 & [-> _]%insert_row_ok & (l & _ & [= <- <- <-])%res_bind_ok).
  exists ms, b. split; [done|]. cbn [rr_broker_snapshot rr_blocking_new_buy rr_reconcile gateway set_ledger].
  do 4 (split; [done|]). unfold LiveSimReconcileSnapshot_post_init in Hr. cbn [ra_mismatch_count ra_status ra_created_at] in Hr.
  bind_inv Hr. injection Hr as <-. cbn.
  repeat match goal with
  | H : non_negative_int _ "mismatch_count" = Ok _ |- _ => apply int_value in H; rewrite H; clear H
  | H : stamp_unless_none (moment _) _ = Ok _ |- _ => cbn in H; injection H as <-
  end.
  split; [done|]. split; [|done].
  match goal with H : require_non_empty_str _ "status" = Ok _ |- _ =>
    cbn in H; apply require_non_empty_ok in H as [-> _] end.
  unfold reconcile_status. destruct (negb _); [reflexivity|]. by destruct b.
Qed.
End Verdict.

(** ** Properties *)

(** The checks of a reachable ledger. *)
Lemma reachable_order_checks l c o :
  ledger_ok l -> o ∈ orders l ->
  "filled_quantity_execution_sum_mismatch" ∉ map mm_reason (order_checks l c o).
Proof.
  intros [_ Hf] Ho. unfold order_checks. cbv zeta.
  assert (_execution_quantity_sum l (order_id o) = lo_filled_quantity (or_rec o)) as ->.
  { symmetry. apply (orders_filled _ Hf (fill_view o)). by apply list_elem_of_fmap_2. }
  rewrite Z.eqb_refl. cbn [negb counted app]. unfold counted.
  repeat case_match; cbn; set_solver.
Qed.

Lemma holdings_of_one l p :
  ledger_ok l -> p ∈ positions l ->
  (forall q, q ∈ positions l -> is_active_position q = true ->
     p_account_id q = p_account_id p -> p_code q = p_code p -> q = p) ->
  holdings l (p_account_id p) (p_code p) = p_quantity p.
Proof.
  intros [[Hnd Hpos _] _] Hp Huniq. unfold holdings.
  assert (forall q, q ∈ positions l -> held (p_account_id p) (p_code p) q =
            if String.eqb (p_position_id q) (p_position_id p) then p_quantity p else 0) as H.
  { intros q Hq. destruct (String.eqb_spec (p_position_id q) (p_position_id p)) as [E|E].
    - apply (NoDup_map_inj _ _ _ _ Hnd Hq Hp) in E as ->. unfold held. by rewrite !String.eqb_refl.
    - unfold held. destruct (String.eqb_spec (p_account_id q) (p_account_id p)) as [Ea|]; [|done].
      destruct (String.eqb_spec (p_code q) (p_code p)) as [Ec|]; [|done]. cbn [andb].
      destruct (is_active_position q) eqn:Eact; [by rewrite (Huniq q Hq Eact Ea Ec) in E|].
      apply bool_decide_eq_false_1 in Eact. apply (position_closed _ _ (Hpos q Hq)).
      destruct (p_status q); [exfalso; apply Eact; set_solver..|done|exfalso; apply Eact; set_solver]. }
  rewrite (zsum_ext _ _ _ H). clear H Huniq Hpos.
  revert Hnd Hp. generalize (positions l). induction l0 as [|q l0 IH]; [by intros _ ?%not_elem_of_nil|].
  cbn [map]. rewrite list.NoDup_cons. intros [Hn Hnd] [->|Hp]%elem_of_cons; rewrite zsum_cons.
  - rewrite String.eqb_refl, zsum_zero; [lia|]. intros q' Hq'.
    destruct (String.eqb_spec (p_position_id q') (p_position_id q)) as [E|]; [|done].
    exfalso. apply Hn. rewrite <- E. by apply list_elem_of_fmap_2.
  - rewrite IH by done. destruct (String.eqb_spec (p_position_id q) (p_position_id p)) as [E|]; [|lia].
    exfalso. apply Hn. rewrite E. by apply list_elem_of_fmap_2.
Qed.

Lemma elem_of_open_orders l d o : o ∈ open_orders_of l d -> o ∈ orders l.
Proof.
  intros H%elem_of_take. destruct H as (i & H & _). apply list_elem_of_lookup_2, elem_of_stable_sort in H.
  by apply list_elem_of_In, filter_In in H as [H%list_elem_of_In _].
Qed.

Lemma elem_of_open_positions l p : p ∈ open_positions_of l -> p ∈ positions l.
Proof.
  intros H%elem_of_take. destruct H as (i & H & _). apply list_elem_of_lookup_2, elem_of_stable_sort in H.
  by apply list_elem_of_In, filter_In in H as [H%list_elem_of_In _].
Qed.

Section Properties.
Context (new_message_id : string -> nat -> string) (py_repr : json -> string)
  (json_loads : string -> res json).
Abbreviation reconcile :=
  (reconcile_live_sim_orders_and_positions new_message_id py_repr json_loads).

(** C25. The verdict OK is exact: a reconciliation answers OK if and only if the
    broker sent a snapshot and everything compared agrees with it and among the
    tables.  Each open order of the day has its command, not failed behind its
    back, has filled what its executions add up to, and is listed by the broker
    under its number with the same code, quantity, remaining quantity and
    status; every order the broker lists as open is one of them; each open
    position is what its executions bought less what they sold, not short, with
    the notional of its price; for every code the broker holds as many shares;
    for every order number as many shares were executed; no open order is stale;
    and the snapshot is complete, fresh, of this account and this day. *)
Theorem reconcile_ok_exact given s now w rows w' rows' row :
  reconcile given s now w rows = Ok (w', rows', row) ->
  (lr_status (rr_reconcile row) = "OK" <->
   (exists b, rr_broker_snapshot row = Some b /\ agreement py_repr w b s now)).
Proof.
  intros (ms & b & Hc & _ & _ & -> & _ & _ & -> & _)%reconcile_inv.
  unfold reconcile_status. destruct (Z.eqb_spec (mismatch_count ms) 0) as [E|E]; cbn [negb].
  - destruct b as [b|]; [|split; [done|by intros (? & ? & _)]].
    split; [|done]. intros _. exists b. split; [done|]. by apply (quiet_checks _ _ _ _ _ _ _ _ Hc).
  - split; [done|]. intros (b' & -> & Ha). exfalso. apply E.
    by apply (quiet_checks _ _ _ _ _ _ _ _ Hc).
Qed.

(** C27. What a reconciliation decides about new buys, while it is the latest:
    after a mismatch they are blocked, whatever happens to the queue and however
    much time passes; after OK they are not blocked as long as no snapshot
    request is under way and the snapshot is fresh. *)
Theorem reconcile_decides_new_buys given s now w rows w' rows' row c now' :
  reconcile given s now w rows = Ok (w', rows', row) ->
  latest_reconcile rows' = Some row ->
  live_sim_reconcile_block_new_buy_on_mismatch s = true ->
  (lr_status (rr_reconcile row) = "RECONCILE_MISMATCH" ->
   _latest_reconcile_blocks_new_buy c rows' s now' = Ok true) /\
  (lr_status (rr_reconcile row) = "OK" -> active_snapshot_requests c = [] ->
   exists b, rr_broker_snapshot row = Some b /\
     (1 <= sn_stale_after_sec b ->
      _broker_snapshot_freshness (sn_snapshot_at b) (sn_stale_after_sec b) now' = Ok true ->
      _latest_reconcile_blocks_new_buy c rows' s now' = Ok false)).
Proof.
  intros (ms & b & Hc & _ & _ & Hb & Hblock & Hcount & Hst & _)%reconcile_inv Hlatest Hset.
  pose proof (count_nonneg _ (checks_nonneg _ _ _ _ _ _ _ _ _ Hc)) as Hnn.
  unfold _latest_reconcile_blocks_new_buy. cbv zeta.
  rewrite Hlatest, Hset, Hblock, Hcount, Hst, Hset, andb_true_r. cbn [negb].
  unfold reconcile_status. destruct (Z.eqb_spec (mismatch_count ms) 0) as [E|E]; cbn [negb].
  - split; [by destruct b|]. destruct b as [b|]; [|done]. intros _ ->. exists b. split; [done|].
    intros Hsec Hfresh. rewrite bool_decide_eq_true_2 by done. rewrite E, Hb. cbn [negb Z.ltb andb orb].
    change (0 <? 0) with false. cbn [orb andb].
    destruct (live_sim_reconcile_request_broker_snapshot_enabled s); [|done]. cbn [negb].
    assert (sn_snapshot_status b = BS.COMPLETE) as ->.
    { apply (quiet_checks _ _ _ _ _ _ _ _ Hc) in E as [_ _ _ [] _ _ _ _ _]. done. }
    rewrite (proj2 (Z.eqb_neq _ _)) by lia. cbn. by rewrite Hfresh.
  - split; [|done]. intros _. rewrite (proj2 (Z.ltb_lt _ _)) by lia. cbn [orb].
    by destruct (negb (bool_decide (active_snapshot_requests c = []))).
Qed.
End Properties.

Section Ledgers.
Context (new_message_id : string -> nat -> string) (py_repr : json -> string)
  (json_loads : string -> res json) (sql_sum : list float -> float).

(** A ledger never contradicts itself: in every state a history of gateway
    events reaches, reconciliation finds no order whose filled quantity differs
    from its executions and no position short of shares; and after an honest
    history no position differs from its executions, when it is the only open
    one of its account and code. *)
Theorem reachable_ledger_reconciles s c settings trade_date :
  rtc (honest_step new_message_id py_repr json_loads sql_sum) empty_tables s ->
  (forall o, o ∈ open_orders_of s trade_date ->
     "filled_quantity_execution_sum_mismatch" ∉ map mm_reason (order_checks s c o)) /\
  (forall p xs, p ∈ open_positions_of s -> is_code_field (p_code p) ->
     (forall q, q ∈ positions s -> is_active_position q = true ->
        p_account_id q = p_account_id p -> p_code q = p_code p -> q = p) ->
     position_checks s settings p = Ok xs ->
     ("position_quantity_fill_sum_mismatch" ∉ map mm_reason xs) /\
     ("negative_position_quantity" ∉ map mm_reason xs)).
Proof.
  intros H.
  assert (ledger_ok s) as Hok.
  { eapply steps_ok; [|exact empty_ledger_ok]. eapply rtc_subrel; [|exact H].
    intros x y (l & Hs & _). by exists l. }
  split; [intros o Ho%elem_of_open_orders; by apply reachable_order_checks|].
  intros p xs Hp%elem_of_open_positions Hcode Huniq Hxs.
  pose proof (holdings_of_one _ _ Hok Hp Huniq) as Hh.
  eapply honest_steps_balance with (a := p_account_id p) (c := p_code p) in H; [|exact empty_ledger_ok].
  change (holdings empty_tables _ _) with 0 in H.
  change (_net_position_quantity_from_fills empty_tables _ _) with 0 in H.
  destruct Hok as [[_ Hpos _] _]. destruct (Hpos p Hp) as [Hav Hns _ _ _].
  unfold position_checks in Hxs. cbv zeta in Hxs. rewrite validate_code_fixed in Hxs by exact Hcode.
  apply res_bind_ok in Hxs as (code & [= <-] & (n & _ & [= <-])%res_bind_ok).
  replace (_net_position_quantity_from_fills s (p_account_id p) (p_code p)) with (p_quantity p) by lia.
  rewrite Z.eqb_refl, Hav. destruct (Z.ltb_spec (p_quantity p) 0); [lia|]. cbn [negb orb counted app].
  unfold counted. split; repeat case_match; cbn; set_solver.
Qed.
End Ledgers.

(** ** A sample reconciliation *)

(** The partly filled order of [LiveSimHistory], with its broker number and its
    command. *)
Definition sample_command : command_row :=
  {| gc_command_id := "cmd_1"; gc_command_type := "send_order"; gc_source := "live_sim";
     gc_status := GS.ACKED; gc_idempotency_key := Some "key_1"; gc_payload := [];
     gc_created_at := 1709164800000000; gc_available_at := None; gc_dispatched_at := Some 1709164801000000;
     gc_completed_at := Some 1709164802000000; gc_expires_at := None; gc_attempts := 1;
     gc_last_error := None |}.
Definition sample_numbered : tables :=
  Eval vm_compute in
  update_order "order_1"
    (fun x => order_columns (lo_status x) (Some "B7") None None (lo_filled_quantity x)
       (lo_remaining_quantity x) (lo_avg_fill_price x) (lo_command_dispatched_at x)
       (lo_broker_acked_at x) (lo_last_event_at x) x) sample_filled.
Definition sample_side (with_command : bool) : world :=
  {| ledger := sample_numbered;
     gateway := {| commands := if with_command then {["cmd_1" := sample_command]} else ∅;
                   command_events := []; dedupe_keys := ∅; boundaries := ∅;
                   command_queue_healthy := None |};
     ticks := ∅; gateway_status := ∅ |}.

Definition sample_reconcile_settings : ReconcileSettings :=
  {| lifecycle_settings := sample_lifecycle false;
     live_sim_reconcile_block_new_buy_on_mismatch := true;
     live_sim_reconcile_allow_exit_on_mismatch := true;
     live_sim_reconcile_stale_order_sec := 300; live_sim_reconcile_notional_tolerance := f_of_Z 1;
     live_sim_reconcile_request_broker_snapshot_enabled := true; broker_snapshot_stale_sec := 120 |}.

(** What the gateway reports of that account. *)
Definition sample_report : json :=
  JObj [("snapshot_id", JStr "snap_1"); ("snapshot_status", JStr "COMPLETE"); ("complete", JBool true);
        ("account_id_masked", JStr "***5611"); ("trade_date", JStr "2024-02-29");
        ("snapshot_at", JStr "2024-02-29T00:02:00Z"); ("stale_after_sec", JInt 120);
        ("requested_sections", JList [JStr "OPEN_ORDERS"; JStr "POSITIONS"]);
        ("completed_sections", JList [JStr "POSITIONS"; JStr "OPEN_ORDERS"]);
        ("open_orders", JList [JObj [("broker_order_no", JStr "B7"); ("code", JStr "A005930");
            ("quantity", JStr "10"); ("filled_quantity", JInt 4); ("remaining_quantity", JStr "6")]]);
        ("executions", JList [JObj [("order_no", JStr "B7"); ("quantity", JInt 4)]]);
        ("positions", JList [JObj [("code", JStr "005930"); ("quantity", JInt 4);
            ("avg_entry_price", JStr "70,000")]])].

Abbreviation sample_reconcile given with_command :=
  (reconcile_live_sim_orders_and_positions sample_id sample_repr sample_loads given
     sample_reconcile_settings sample_now (sample_side with_command) []).
Definition sample_row (r : res (world * list reconcile_row * reconcile_row)) : option reconcile_row :=
  match r with Ok (_, _, row) => Some row | Err _ => None end.

Example sample_reconcile_ok :
  (fun row => (lr_status (rr_reconcile row), rr_mismatches row)) <$>
    sample_row (sample_reconcile (Some sample_report) true) = Some ("OK", []).
Proof. vm_compute. reflexivity. Qed.

(** Without the command, and without a report. *)
Example sample_reconcile_mismatch :
  (fun row => (lr_status (rr_reconcile row), rr_mismatches row, rr_blocking_new_buy row)) <$>
    sample_row (sample_reconcile None false) =
  Some ("RECONCILE_MISMATCH", [(Some "order_1", "command_missing")], true).
Proof. vm_compute. reflexivity. Qed.

Lemma reconcile_ok_exact_witness :
  exists w' rows' row b,
    sample_reconcile (Some sample_report) true = Ok (w', rows', row) /\
    rr_broker_snapshot row = Some b /\
    agreement sample_repr (sample_side true) b sample_reconcile_settings sample_now.
Proof.
  destruct (sample_reconcile (Some sample_report) true) as [[[w' rows'] row]|e] eqn:E.
  2: { exfalso. assert (is_ok (sample_reconcile (Some sample_report) true) = true) as H
         by (vm_compute; reflexivity). rewrite E in H. discriminate. }
  assert (lr_status (rr_reconcile row) = "OK") as H.
  { pose proof sample_reconcile_ok as H. rewrite E in H. cbn [sample_row] in H.
    injection H as H _. exact H. }
  apply (reconcile_ok_exact _ _ _ _ _ _ _ _ _ _ _ E) in H as (b & Hb & Ha).
  exists w', rows', row, b. exact (conj eq_refl (conj Hb Ha)).
Defined.

Lemma reconcile_decides_new_buys_witness :
  exists w' row,
    sample_reconcile None false = Ok (w', [row], row) /\
    _latest_reconcile_blocks_new_buy empty_store [row] sample_reconcile_settings
      (sample_now + day_usec) = Ok true.
Proof.
  destruct (sample_reconcile None false) as [[[w' rows'] row]|e] eqn:E.
  2: { exfalso. assert (is_ok (sample_reconcile None false) = true) as H
         by (vm_compute; reflexivity). rewrite E in H. discriminate. }
  assert (lr_status (rr_reconcile row) = "RECONCILE_MISMATCH") as H.
  { pose proof sample_reconcile_mismatch as H. rewrite E in H. cbn [sample_row] in H.
    injection H as H _ _. exact H. }
  assert (rows' = [row]) as ->.
  { apply reconcile_inv in E as (ms & b & _ & E & _). exact E. }
  exists w', row. split; [reflexivity|].
  apply (proj1 (reconcile_decides_new_buys _ _ _ _ _ _ _ _ _ _ _ empty_store (sample_now + day_usec) E
                  eq_refl eq_refl) H).
Defined.

Lemma reachable_ledger_reconciles_witness :
  length (open_orders_of sample_filled "2024-02-29") = 1%nat /\
  forall o, o ∈ open_orders_of sample_filled "2024-02-29" ->
  "filled_quantity_execution_sum_mismatch" ∉ map mm_reason (order_checks sample_filled empty_store o).
Proof.
  split; [vm_compute; reflexivity|].
  apply (reachable_ledger_reconciles sample_id sample_repr sample_loads sample_sum sample_filled
           empty_store sample_reconcile_settings "2024-02-29" sample_filled_honest).
Defined.

(** ** Observations on the reconciliation *)

(** Masking is not idempotent: [apply_live_sim_broker_snapshot] masks the account
    of a payload and the normalisation masks it again, so a report that gives the
    account and no [account_id_masked] never agrees with the account. *)
Example masked_twice :
  mask_account_text "8112345611" = "***5611" /\
  mask_account_text (mask_account_text "8112345611") = "****".
Proof. split; reflexivity. Qed.

(** The latest reconciliation is found by text: one made on a whole second stays
    the latest for the rest of that second. *)
Example whole_second_stays_latest :
  let at_second := datetime_to_wire 1709164920000000 in
  let later := datetime_to_wire 1709164920900000 in
  later_text at_second "live_sim_reconcile_1" later "live_sim_reconcile_2" = true.
Proof. vm_compute. reflexivity. Qed.
