(* ===== verification/Admission.v ===== *)
(** * Trade admission ([services/admission/evaluator.py])

    Whether a candidate may be traded at all: its state, the latest strategy and
    risk observations, the latest tick and its age, the dry run that preceded
    it.  [evaluate_trade_admission] reads them under a policy and answers a
    trace: the reasons against, and what later steps need of what it read.  The
    policies of the two buy paths of the live-sim service differ only in their
    fields. *)
From S2P Require Import Prelude PyFloat BrokerUtils WireTime Candidate CandidateStore.
From S2P Require Import LiveSimModels LiveSimStore SafetyGate LiveSimExit.
Local Open Scope Z_scope.

(** ** What it reads *)

(** Rows of [strategy_observations_latest] and [risk_observations_latest], by
    candidate. *)
Record strategy_row := {
  st_strategy_observation_id : string;
  st_overall_status : string;
  st_observe_only : bool
}.
Record risk_row := {
  rk_risk_observation_id : string;
  rk_overall_status : string;
  rk_observe_only : bool
}.

(** Rows of [dry_run_intents] and [dry_run_orders]. *)
Record dry_run_intent_row := {
  di_dry_run_intent_id : string;
  di_candidate_instance_id : string;
  di_notional : float;
  di_created_at : string
}.
Record dry_run_order_row := {
  do_dry_run_order_id : string;
  do_dry_run_intent_id : string
}.

(** The tables; [candidate_context] holds the candidates that have a row in
    [candidate_context_latest]. *)
Record observations := {
  candidate_rows : CandidateStore.store;
  candidate_context : gset string;
  strategies : gmap string strategy_row;
  risks : gmap string risk_row;
  dry_run_intents : list dry_run_intent_row;
  dry_run_orders : list dry_run_order_row
}.

(** The evidence of a dry run; no row is no evidence. *)
Record dry_run_evidence := {
  dr_dry_run_intent_id : string;
  dr_dry_run_order_id : option string;
  dr_notional : float
}.

(** [ORDER BY i.created_at DESC, i.dry_run_intent_id DESC LIMIT 1], joined with
    the intent's order. *)
Definition _latest_dry_run_evidence (ob : observations) (candidate_instance_id : string)
    : option dry_run_evidence :=
  let later a b :=
    match String.compare (di_created_at a) (di_created_at b) with
    | Gt => true
    | Lt => false
    | Eq => text_le (di_dry_run_intent_id b) (di_dry_run_intent_id a)
    end in
  match head (stable_sort later (List.filter
          (fun i => String.eqb (di_candidate_instance_id i) candidate_instance_id)
          (dry_run_intents ob))) with
  | None => None
  | Some i =>
      Some {| dr_dry_run_intent_id := di_dry_run_intent_id i;
              dr_dry_run_order_id :=
                option_map do_dry_run_order_id
                  (find (fun o => String.eqb (do_dry_run_intent_id o) (di_dry_run_intent_id i))
                     (dry_run_orders ob));
              dr_notional := di_notional i |}
  end.

(** ** Policy and trace *)

Record AdmissionPolicy := {
  ap_name : string;
  require_candidate_context_ready : bool;
  require_candidate_context_row : bool;
  require_strategy_matched : bool;
  require_risk_observe_pass : bool;
  require_fresh_tick : bool;
  stale_tick_sec : Z;
  require_dry_run_evidence : bool;
  require_strategy_observe_only : option bool;
  require_risk_observe_only : option bool
}.

Record AdmissionTrace := {
  policy_name : string;
  at_candidate_instance_id : string;
  at_eligible : bool;
  at_reason_codes : list string;
  latest_tick_evidence : option tick;
  at_dry_run_evidence : option dry_run_evidence;
  at_trade_date : option string;
  at_code : option string;
  at_name : string;
  at_strategy_observation_id : option string;
  at_risk_observation_id : option string
}.

(** [tick_age_seconds] of domain/market/quality.py, in microseconds. *)
Definition tick_age_usec (event_ts : string) (now : Z) : res Z :=
  let* t := parse_timestamp (JStr event_ts) "event_ts" in
  Ok (Z.max (now - t) 0).

(** [required is not None and bool(value) != required]. *)
Definition flag_mismatch (required : option bool) (value : bool) : bool :=
  match required with Some b => negb (Bool.eqb value b) | None => false end.

(** ** The parts of the evaluation *)

(** Trade date, code and name: the candidate's, or the fallbacks'. *)
Definition admission_subject (candidate : option candidate_row)
    (fallback_trade_date fallback_code fallback_name : option string)
    : res (option string * option string * string) :=
  let* fallback :=
    match fallback_code with
    | Some v => if str_true v then let* v := validate_code v "code" in Ok (Some v) else Ok None
    | None => Ok None
    end in
  match candidate with
  | None =>
      Ok (fallback_trade_date, fallback,
          match fallback_name with Some n => if str_true n then n else "UNKNOWN" | None => "UNKNOWN" end)
  | Some c =>
      let* code := validate_code (c_code c) "code" in
      Ok (Some (c_trade_date c), Some code, c_name c)
  end.

Definition candidate_reasons (p : AdmissionPolicy) (candidate : option candidate_row)
    (has_context : bool) : list string :=
  match candidate with
  | None => ["CANDIDATE_NOT_FOUND"]
  | Some c =>
      reason_if (require_candidate_context_ready p && bool_decide (c_state c <> CS.CONTEXT_READY))
        "CANDIDATE_NOT_CONTEXT_READY"
  end ++
  reason_if (require_candidate_context_row p && negb has_context) "CANDIDATE_CONTEXT_MISSING".

Definition strategy_reasons (p : AdmissionPolicy) (strategy : option strategy_row) : list string :=
  match strategy with
  | None => ["STRATEGY_OBSERVATION_MISSING"]
  | Some r =>
      reason_if (require_strategy_matched p &&
                 negb (String.eqb (py_upper (st_overall_status r)) "MATCHED_OBSERVATION"))
        "STRATEGY_NOT_MATCHED" ++
      reason_if (flag_mismatch (require_strategy_observe_only p) (st_observe_only r))
        "STRATEGY_OBSERVE_ONLY_MISMATCH"
  end.

Definition risk_reasons (p : AdmissionPolicy) (risk : option risk_row) : list string :=
  match risk with
  | None => ["RISK_OBSERVATION_MISSING"]
  | Some r =>
      reason_if (require_risk_observe_pass p &&
                 negb (String.eqb (py_upper (rk_overall_status r)) "OBSERVE_PASS"))
        "RISK_NOT_OBSERVE_PASS" ++
      reason_if (flag_mismatch (require_risk_observe_only p) (rk_observe_only r))
        "RISK_OBSERVE_ONLY_MISMATCH"
  end.

(** The latest tick of a code on the exchange KRX. *)
Definition _latest_tick_row (ts : gmap string tick) (code : string) : res (option tick) :=
  let* code := validate_code code "code" in
  Ok (ts !! code).

Definition tick_reasons (p : AdmissionPolicy) (t : option tick) (now : Z) : res (list string) :=
  match t with
  | None => Ok ["LATEST_TICK_MISSING"]
  | Some t =>
      let* age := tick_age_usec (tk_event_ts t) now in
      Ok (reason_if (require_fresh_tick p && (seconds (stale_tick_sec p) <? age)) "LATEST_TICK_STALE")
  end.

Definition dry_run_reasons (p : AdmissionPolicy) (d : option dry_run_evidence) : list string :=
  reason_if (match d with None => true | Some _ => false end && require_dry_run_evidence p) "DRY_RUN_EVIDENCE_MISSING".

Definition evaluate_trade_admission (ob : observations) (ts : gmap string tick)
    (candidate_instance_id : string) (p : AdmissionPolicy)
    (fallback_trade_date fallback_code fallback_name : option string)
    (dry_run : option dry_run_evidence) (now : Z) : res AdmissionTrace :=
  let* id := require_non_empty candidate_instance_id "candidate_instance_id" in
  let candidate := _candidate_row (candidate_rows ob) id in
  let strategy := strategies ob !! id in
  let risk := risks ob !! id in
  let* subject := admission_subject candidate fallback_trade_date fallback_code fallback_name in
  let '(trade_date, code, name) := subject in
  let* latest :=
    match code with Some k => _latest_tick_row ts k | None => Ok None end in
  let* on_tick := tick_reasons p latest now in
  let reasons := _merge_reasons
    (candidate_reasons p candidate (bool_decide (id ∈ candidate_context ob)) ++
     strategy_reasons p strategy ++ risk_reasons p risk ++ on_tick ++
     dry_run_reasons p dry_run) in
  let* policy := require_non_empty (ap_name p) "policy.name" in
  Ok {| policy_name := policy; at_candidate_instance_id := id;
        at_eligible := match reasons with [] => true | _ => false end;
        at_reason_codes := reasons; latest_tick_evidence := latest;
        at_dry_run_evidence := dry_run; at_trade_date := trade_date; at_code := code;
        at_name := name;
        at_strategy_observation_id := option_map st_strategy_observation_id strategy;
        at_risk_observation_id := option_map rk_risk_observation_id risk |}.

(** [_map_admission_reasons]. *)
Definition _map_admission_reasons (reasons : list string) (reason_map : list (string * string))
    : list string :=
  map (fun r => default (py_upper r)
         (option_map snd (find (fun kv => String.eqb (fst kv) (py_upper r)) reason_map))) reasons.
