(* ===== verification/LiveSimBuy.v ===== *)
(** * The buy path ([services/live_sim/live_sim_service.py])

    [evaluate_live_sim_eligibility] collects the reasons against buying a
    candidate, [create_live_sim_intent] turns an eligible candidate into an
    intent, and [queue_live_sim_order_command] turns an intent into a gateway
    command and an order, in one transaction: it checks again, under the write
    lock, what may have changed since the intent was made.

    The operations are steps over the [world] of [LiveSimExit]; the observations
    and the stored reconciliations are only read.  Of the stored evidence what
    is read back is kept.  Two things the queue asks come through interfaces:
    the qualification of the execution lifecycle and the route of intents that
    are bound to an order plan. *)
From S2P Require Import Prelude PyFloat BrokerUtils WireTime TickSize GatewayModels Candidate.
From S2P Require Import CandidateStore Admission OrderBoundary CommandStore.
From S2P Require Import LiveSimModels LiveSimStore LiveSimEvents SafetyGate LiveSimExit.
From S2P Require Import BrokerSnapshot LiveSimReconcile.
From Stdlib Require Import SpecFloat.
From stdpp Require Import pretty.
Local Open Scope Z_scope.

(** ** Settings *)

Record BuySettings := {
  reconcile_settings : ReconcileSettings;
  live_sim_require_candidate_context_ready : bool;
  live_sim_require_strategy_matched : bool;
  live_sim_require_risk_observe_pass : bool;
  live_sim_require_fresh_tick : bool;
  live_sim_require_dry_run_evidence : bool;
  live_sim_default_order_type : string;
  live_sim_allow_buy : bool;
  live_sim_allow_sell : bool;
  live_sim_allow_market_order : bool;
  live_sim_allow_limit_order : bool;
  live_sim_buy_price_offset_ticks : Z;
  live_sim_max_order_notional : float;
  live_sim_max_active_orders : Z;
  live_sim_max_active_positions : Z;
  live_sim_position_allow_scale_in : bool;
  live_sim_duplicate_cooldown_sec : Z;
  live_sim_order_ttl_sec : Z
}.

Definition buy_lifecycle (s : BuySettings) : LifecycleSettings :=
  lifecycle_settings (reconcile_settings s).
Definition buy_gate (s : BuySettings) : GateSettings := gate_settings (buy_lifecycle s).

(** [LiveSimOrderType(value)]. *)
Definition order_type_member (v : string) : res LiveSimOrderType.t :=
  match find (fun t => String.eqb (LiveSimOrderType.value t) v) LiveSimOrderType.all with
  | Some t => Ok t
  | None => Err (ValueError (v +:+ " is not a valid LiveSimOrderType"))
  end.

(** ** Counting *)

Definition count_rows {A} (p : A -> bool) (rows : list A) : Z :=
  Z.of_nat (length (List.filter p rows)).

Definition ACTIVE_LIVE_SIM_INTENT_STATUSES : list IS.t := [IS.CREATED; IS.COMMAND_QUEUED].

(** [created_at >= cutoff], as texts. *)
Definition created_since (cutoff : Z) (created_at : option Z) : bool :=
  match created_at with Some t => wire_le cutoff t | None => false end.

Definition recent_active_intent (code : string) (cutoff : Z) (exclude : option string)
    (x : LiveSimIntent) : bool :=
  String.eqb (li_code x) code && bool_decide (li_status x ∈ ACTIVE_LIVE_SIM_INTENT_STATUSES) &&
  created_since cutoff (li_created_at x) &&
  match exclude with Some id => negb (String.eqb (li_live_sim_intent_id x) id) | None => true end.
Definition recent_active_order (code : string) (cutoff : Z) (o : order_row) : bool :=
  String.eqb (lo_code (or_rec o)) code && is_active_order o &&
  created_since cutoff (lo_created_at (or_rec o)).

Definition _recent_active_live_sim_count_for_code (l : tables) (code : string) (s : BuySettings)
    (exclude_intent_id : option string) (now : Z) : res Z :=
  let cutoff := now - seconds (live_sim_duplicate_cooldown_sec s) in
  let* code := validate_code code "code" in
  Ok (count_rows (recent_active_intent code cutoff exclude_intent_id) (intents l) +
      count_rows (recent_active_order code cutoff) (orders l)).

Definition consuming_order (trade_date : string) (o : order_row) : bool :=
  String.eqb (or_trade_date o) trade_date &&
  bool_decide (order_status o ∉ NON_CONSUMING_LIVE_SIM_ORDER_STATUSES).

Definition _daily_order_count (l : tables) (trade_date : string) : Z :=
  count_rows (fun o => consuming_order trade_date o && is_buy_order o) (orders l).

(** Orders of both sides. *)
Definition _daily_order_notional (sql_sum : list float -> float) (l : tables) (trade_date : string)
    : float :=
  match map (fun o => lo_notional (or_rec o)) (List.filter (consuming_order trade_date) (orders l)) with
  | [] => f_zero
  | xs => sql_sum xs
  end.

Definition _active_order_count (l : tables) : Z := count_rows is_active_order (orders l).

Definition held_position (p : position_row) : bool := is_active_position p && (0 <? p_quantity p).
(** [side = 'BUY' AND status IN ('PARTIALLY_FILLED', 'FILLED')]. *)
Definition filled_buy (o : order_row) : bool :=
  is_buy_order o && bool_decide (order_status o ∈ [OS.PARTIALLY_FILLED; OS.FILLED]).

(** [COUNT(DISTINCT code)] of the union. *)
Definition active_codes (l : tables) : list string :=
  remove_dups (map p_code (List.filter held_position (positions l)) ++
               map (fun o => lo_code (or_rec o)) (List.filter filled_buy (orders l))).
Definition _active_position_count (l : tables) : Z := Z.of_nat (length (active_codes l)).

Definition _open_position_count_for_code (l : tables) (code : string) : res Z :=
  let* code := validate_code code "code" in
  Ok (Z.of_nat (length (remove_dups
    (map p_position_id (List.filter (fun p => String.eqb (p_code p) code && held_position p)
                          (positions l)) ++
     map order_id (List.filter (fun o => String.eqb (lo_code (or_rec o)) code && filled_buy o)
                     (orders l)))))).

Definition _active_cancel_count_for_code (l : tables) (code : string) : res Z :=
  let* code := validate_code code "code" in
  Ok (count_rows (fun c => String.eqb (ci_code c) code &&
                           mem (ci_status c) ACTIVE_CANCEL_INTENT_STATUSES) (cancel_intents l)).

(** ** Price and size *)

Definition _live_sim_buy_limit_price (price : float) (s : BuySettings) : res Z :=
  add_ticks (PFloat price) (live_sim_buy_price_offset_ticks s).

(** The price is the limit price, an int, or zero. *)
Definition _calculate_live_sim_quantity_and_notional (price : Z) (s : BuySettings)
    (dry_run : option dry_run_evidence) : res (Z * Z) :=
  if price <=? 0 then Ok (0, 0) else
  let target :=
    match dry_run with
    | Some d => f_min (live_sim_max_order_notional s) (dr_notional d)
    | None => live_sim_max_order_notional s
    end in
  let* divisor := float_of_int price in
  let* quotient := f_div target divisor in
  let* quantity := f_floor quotient in
  Ok (quantity, price * quantity).

(** ** The execution lifecycle's qualification *)

(** The status [build_live_sim_execution_lifecycle_status] computes from the
    tables. *)
Class ExecutionLifecycle := {
  build_live_sim_execution_lifecycle_status : world -> res json
}.

Definition lifecycle_error (msg : string) {A} : res A :=
  Err (ValueError ("execution lifecycle " +:+ msg)).

Definition _effective_lifecycle_blocker_count (status : list (string * json)) : res Z :=
  match jget "effective_blocker_count" status with
  | Some (JInt count) =>
      if count <? 0 then lifecycle_error "effective blocker count cannot be negative" else
      match jget "qualification_status" status with
      | Some (JStr q) =>
          if negb (mem q ["PASS"; "BLOCKED"]) then lifecycle_error "qualification status is invalid"
          else if negb (match jget "status" status with
                        | Some (JStr alias) => String.eqb alias q
                        | _ => false
                        end)
          then lifecycle_error "status alias does not match qualification"
          else if String.eqb q "PASS" && negb (count =? 0)
          then Err (ValueError "passing execution lifecycle status cannot contain blockers")
          else if String.eqb q "BLOCKED" && (count <? 1)
          then Err (ValueError "blocked execution lifecycle status requires a blocker")
          else Ok count
      | _ => lifecycle_error "qualification status is invalid"
      end
  | _ => lifecycle_error "effective blocker count must be an integer"
  end.

Fixpoint consistency_flags (keys : list string) (pass : bool) (status : list (string * json))
    : res unit :=
  match keys with
  | [] => Ok tt
  | key :: keys =>
      match jget key status with
      | Some (JBool b) =>
          if pass && negb b then lifecycle_error ("PASS requires " +:+ key +:+ "=true")
          else consistency_flags keys pass status
      | _ => lifecycle_error (key +:+ " contract is invalid")
      end
  end.
Fixpoint required_flags (keys : list string) (status : list (string * json)) : res unit :=
  match keys with
  | [] => Ok tt
  | key :: keys =>
      match jget key status with
      | Some (JBool true) => required_flags keys status
      | _ => lifecycle_error (key +:+ " contract is invalid")
      end
  end.

Definition _validate_execution_lifecycle_blocker_status (status : list (string * json)) : res Z :=
  let* count := _effective_lifecycle_blocker_count status in
  let pass := match jget "qualification_status" status with
              | Some (JStr q) => String.eqb q "PASS"
              | _ => false
              end in
  let* _ := consistency_flags ["mirror_consistent"; "inventory_count_consistent"] pass status in
  let* _ := required_flags ["read_only"; "observe_only"; "no_order_side_effects"] status in
  match jget "real_order_allowed" status with
  | Some (JBool false) => Ok count
  | _ => lifecycle_error "real_order_allowed contract is invalid"
  end.

(** [_execution_lifecycle_blocker_status] and the count callers take from it. *)
Definition _unresolved_lifecycle_error_count {qualification : ExecutionLifecycle} (w : world)
    : res Z :=
  let* status := build_live_sim_execution_lifecycle_status w in
  match status with
  | JObj fields => _validate_execution_lifecycle_blocker_status fields
  | _ => Err (OtherError "TypeError")
  end.

(** ** The route of intents bound to an order plan *)

(** The reasons against queueing an intent that names an order plan, or that
    was required to match the binding [required]. *)
Class PlanRoute := {
  plan_binding_reasons : world -> list reconcile_row -> LiveSimIntent -> option json -> Z ->
    res (list string)
}.

(** ** Eligibility *)

Definition LIVE_SIM_ADMISSION_REASON_MAP : list (string * string) :=
  [("CANDIDATE_NOT_FOUND", "CANDIDATE_NOT_FOUND");
   ("CANDIDATE_NOT_CONTEXT_READY", "CANDIDATE_NOT_CONTEXT_READY");
   ("CANDIDATE_CONTEXT_MISSING", "CANDIDATE_NOT_CONTEXT_READY");
   ("STRATEGY_OBSERVATION_MISSING", "STRATEGY_OBSERVATION_MISSING");
   ("STRATEGY_NOT_MATCHED", "STRATEGY_NOT_MATCHED");
   ("STRATEGY_OBSERVE_ONLY_MISMATCH", "STRATEGY_NOT_MATCHED");
   ("RISK_OBSERVATION_MISSING", "RISK_OBSERVATION_MISSING");
   ("RISK_NOT_OBSERVE_PASS", "RISK_NOT_OBSERVE_PASS");
   ("RISK_OBSERVE_ONLY_MISMATCH", "RISK_NOT_OBSERVE_PASS");
   ("LATEST_TICK_MISSING", "LATEST_TICK_MISSING");
   ("LATEST_TICK_STALE", "LATEST_TICK_STALE");
   ("DRY_RUN_EVIDENCE_MISSING", "DRY_RUN_EVIDENCE_MISSING")].

Definition live_sim_admission_policy (s : BuySettings) : AdmissionPolicy :=
  {| ap_name := "live_sim_intent";
     require_candidate_context_ready := live_sim_require_candidate_context_ready s;
     require_candidate_context_row := false;
     require_strategy_matched := live_sim_require_strategy_matched s;
     require_risk_observe_pass := live_sim_require_risk_observe_pass s;
     require_fresh_tick := live_sim_require_fresh_tick s;
     stale_tick_sec := live_sim_stale_tick_sec (buy_gate s);
     require_dry_run_evidence := live_sim_require_dry_run_evidence s;
     require_strategy_observe_only := None; require_risk_observe_only := None |}.

(** The verdict with the entries of its evidence that are read back. *)
Record buy_evaluation := {
  be_eligibility : LiveSimEligibility;
  be_trade_date : option string;
  be_code : option string;
  be_name : string;
  be_order_type : LiveSimOrderType.t;
  be_dry_run : option dry_run_evidence
}.
Definition be_eligible (b : buy_evaluation) : bool := lg_eligible (be_eligibility b).
Definition be_reason_codes (b : buy_evaluation) : list string := lg_reason_codes (be_eligibility b).

(** The result's [LiveSimEligibility]; the evidence is the entries above. *)
Definition eligibility_args (a : AdmissionTrace) (reasons : list string) (now : Z)
    : LiveSimEligibilityArgs :=
  let eligible := match reasons with [] => true | _ => false end in
  {| el_eligible := JBool eligible;
     el_candidate_instance_id := JStr (at_candidate_instance_id a);
     el_strategy_observation_id := opt_str (at_strategy_observation_id a);
     el_risk_observation_id := opt_str (at_risk_observation_id a);
     el_status := JStr (if eligible then "ELIGIBLE" else "INELIGIBLE");
     el_reason_codes := JList (map JStr reasons); el_evidence_json := JObj [];
     el_safety_gate_result := JObj []; el_computed_at := text (JStr (datetime_to_wire now)) |}.

Section Buy.
Context (new_message_id : string -> nat -> string) (py_repr : json -> string)
  (hash_payload : payload -> string) (sql_sum : list float -> float) {gate : RoutingGate}
  {qualification : ExecutionLifecycle}.

(** What the settings say against the side and the type; the side is BUY. *)
Definition order_kind_reasons (order_type : LiveSimOrderType.t) (s : BuySettings) : list string :=
  reason_if (negb (live_sim_allow_buy s)) "SELL_NOT_ALLOWED" ++
  match order_type with
  | LiveSimOrderType.MARKET => reason_if (negb (live_sim_allow_market_order s)) "MARKET_ORDER_NOT_ALLOWED"
  | LiveSimOrderType.LIMIT => reason_if (negb (live_sim_allow_limit_order s)) "MARKET_ORDER_NOT_ALLOWED"
  end.

Definition size_reasons (quantity notional : Z) (s : BuySettings) : list string :=
  reason_if (quantity <? 1) "INVALID_QUANTITY" ++
  reason_if ((notional <=? 0) || f_ltZ (live_sim_max_order_notional s) notional)
    "MAX_ORDER_NOTIONAL_EXCEEDED".

(** What the tables say against buying a code on a day. *)
Definition code_reasons (w : world) (rows : list reconcile_row) (code trade_date : string)
    (notional : Z) (s : BuySettings) (now : Z) : res (list string) :=
  let l := ledger w in
  let* duplicates := _recent_active_live_sim_count_for_code l code s None now in
  let* mismatch := _latest_reconcile_blocks_new_buy (gateway w) rows (reconcile_settings s) now in
  let* held :=
    if live_sim_position_allow_scale_in s then Ok 0 else _open_position_count_for_code l code in
  let* exits := _active_exit_count_for_code l code in
  let* cancels := _active_cancel_count_for_code l code in
  let* blockers := _unresolved_lifecycle_error_count w in
  let* n := float_of_int notional in
  Ok (reason_if (0 <? duplicates) "DUPLICATE_LIVE_SIM_ORDER" ++
      reason_if mismatch "LIVE_SIM_RECONCILE_MISMATCH_BLOCK" ++
      reason_if (0 <? held) "LIVE_SIM_OPEN_POSITION_EXISTS" ++
      reason_if (0 <? exits) "LIVE_SIM_ACTIVE_EXIT_EXISTS" ++
      reason_if (0 <? cancels) "LIVE_SIM_ACTIVE_CANCEL_EXISTS" ++
      reason_if (0 <? blockers) "LIVE_SIM_LIFECYCLE_ERROR_BLOCK" ++
      reason_if (live_sim_max_daily_order_count (buy_gate s) <=? _daily_order_count l trade_date)
        "DAILY_ORDER_LIMIT_EXCEEDED" ++
      reason_if (f_lt (live_sim_max_daily_notional (buy_gate s))
                   (f_add (_daily_order_notional sql_sum l trade_date) n))
        "DAILY_NOTIONAL_LIMIT_EXCEEDED").

Definition limit_reasons (l : tables) (s : BuySettings) : list string :=
  reason_if (live_sim_max_active_orders s <=? _active_order_count l) "ACTIVE_ORDER_LIMIT_EXCEEDED" ++
  reason_if (live_sim_max_active_positions s <=? _active_position_count l)
    "ACTIVE_POSITION_LIMIT_EXCEEDED".

Definition evaluate_live_sim_eligibility (w : world) (ob : observations) (rows : list reconcile_row)
    (candidate_instance_id : string) (s : BuySettings) (now : Z) : res buy_evaluation :=
  let l := ledger w in
  let* id := require_non_empty candidate_instance_id "candidate_instance_id" in
  let dry_run := _latest_dry_run_evidence ob id in
  let* a := evaluate_trade_admission ob (ticks w) id (live_sim_admission_policy s)
              None None None dry_run now in
  let g := check_live_sim_safety_gate sql_sum l (gateway w) (gateway_status w) (buy_gate s) NEW_BUY
             true true (at_trade_date a) now in
  let price := match latest_tick_evidence a with Some t => tk_price t | None => f_zero end in
  let* limit_price := if f_gtZ price 0 then _live_sim_buy_limit_price price s else Ok 0 in
  let* order_type := order_type_member (live_sim_default_order_type s) in
  let* size := _calculate_live_sim_quantity_and_notional limit_price s dry_run in
  let '(quantity, notional) := size in
  let* on_code :=
    match at_code a, at_trade_date a with
    | Some code, Some trade_date => code_reasons w rows code trade_date notional s now
    | _, _ => Ok []
    end in
  let reasons := _merge_reasons
    (_map_admission_reasons (at_reason_codes a) LIVE_SIM_ADMISSION_REASON_MAP ++
     (if passed g then [] else gate_reason_codes g) ++
     order_kind_reasons order_type s ++ size_reasons quantity notional s ++ on_code ++
     limit_reasons l s) in
  let* e := LiveSimEligibility_post_init (eligibility_args a reasons now) in
  Ok {| be_eligibility := e; be_trade_date := at_trade_date a; be_code := at_code a;
        be_name := at_name a; be_order_type := order_type; be_dry_run := dry_run |}.

(** ** Intents *)

(** [_idempotency_key]. *)
Definition _idempotency_key (trade_date code candidate_instance_id : string)
    (strategy_observation_id risk_observation_id suffix : option string) : res string :=
  let or_text v (d : string) := match v with Some t => if str_true t then t else d | None => d end in
  let* trade_date := require_non_empty trade_date "trade_date" in
  let* code := validate_code code "code" in
  let* candidate := require_non_empty candidate_instance_id "candidate_instance_id" in
  let* strategy := require_non_empty (or_text strategy_observation_id "missing_strategy") "strategy" in
  let* risk := require_non_empty (or_text risk_observation_id "missing_risk") "risk" in
  let* tail :=
    match suffix with
    | None => Ok []
    | Some v => let* v := require_non_empty v "idempotency_suffix" in Ok [v]
    end in
  Ok (String.concat ":" (["live_sim"; trade_date; code; candidate; strategy; risk] ++ tail)).

(** The intent's evidence: [source], then what the caller adds to it. *)
Definition intent_evidence (source : string) (extra : list (string * json)) : json :=
  JObj (extra ++ [("source", JStr source)]).

(** [a or default]. *)
Definition text_or_default (v : option string) (d : string) : string :=
  match v with Some t => if str_true t then t else d | None => d end.

Definition nonempty_or (v d : string) : string := if str_true v then v else d.

Definition _save_rejection (candidate_instance_id : string) (code : option string)
    (reason_codes : list string) : M unit :=
  let! _ := fresh_id new_message_id "live_sim_rejection" in
  on_ledger (fun l => set_rejections (rejections l ++
    [{| rj_candidate_instance_id := candidate_instance_id; rj_code := code;
        rj_reason_codes := reason_codes |}]) l).

(** The row is refused when the identifier, the idempotency key or the order
    plan is taken, or a column that must not be NULL is. *)
Definition _insert_intent (x : LiveSimIntent) (l : tables) : res tables :=
  let* _ := LiveSimIntent_to_dict x in
  let not_null {A} (v : option A) := match v with Some _ => Ok tt | None => Err IntegrityError end in
  let* _ := not_null (li_strategy_observation_id x) in
  let* _ := not_null (li_risk_observation_id x) in
  let* _ := not_null (li_created_at x) in
  let same_plan a b :=
    match li_order_plan_id a, li_order_plan_id b with
    | Some p, Some q => String.eqb p q
    | _, _ => false
    end in
  let* rows := insert_row (fun a b => same li_live_sim_intent_id a b ||
                                      same li_idempotency_key a b || same_plan a b) x (intents l) in
  Ok (set_intents rows l).

(** The intent returned for a candidate that is not eligible; it is not stored. *)
Definition rejected_intent_args (id candidate_instance_id : string) (b : buy_evaluation)
    (key : string) (evidence : json) (s : BuySettings) (now : Z) : LiveSimIntentArgs :=
  {| ia_live_sim_intent_id := JStr id; ia_candidate_instance_id := JStr candidate_instance_id;
     ia_strategy_observation_id := opt_str (lg_strategy_observation_id (be_eligibility b));
     ia_risk_observation_id := opt_str (lg_risk_observation_id (be_eligibility b));
     ia_trade_date := JStr (text_or_default (be_trade_date b) "UNKNOWN");
     ia_account_id := JStr (nonempty_or (live_sim_account_id (buy_gate s)) "SIMULATION_ACCOUNT_REQUIRED");
     ia_code := JStr (text_or_default (be_code b) "000000");
     ia_name := JStr (nonempty_or (be_name b) "UNKNOWN"); ia_order_plan_id := JNull;
     ia_side := JStr "BUY"; ia_order_type := JStr (LiveSimOrderType.value (be_order_type b));
     ia_quantity := JInt 0; ia_limit_price := JNull; ia_notional := JInt 0;
     ia_status := JStr "REJECTED"; ia_reason_codes := JList (map JStr (be_reason_codes b));
     ia_evidence_json := evidence; ia_idempotency_key := JStr key;
     ia_dry_run_intent_id := opt_str (option_map dr_dry_run_intent_id (be_dry_run b));
     ia_dry_run_order_id := opt_str (b.(be_dry_run) ≫= dr_dry_run_order_id);
     ia_created_at := text (JStr (datetime_to_wire now)); ia_expires_at := text JNull;
     ia_gateway_command_id := JNull; ia_broker_order_sent := JBool false |}.

Definition created_intent_args (id : string) (c : candidate_row) (strategy : strategy_row)
    (risk : risk_row) (dry_run : option dry_run_evidence) (order_type : LiveSimOrderType.t)
    (quantity limit_price notional : Z) (key : string) (evidence : json) (s : BuySettings) (now : Z)
    : LiveSimIntentArgs :=
  {| ia_live_sim_intent_id := JStr id; ia_candidate_instance_id := JStr (c_candidate_instance_id c);
     ia_strategy_observation_id := JStr (st_strategy_observation_id strategy);
     ia_risk_observation_id := JStr (rk_risk_observation_id risk);
     ia_trade_date := JStr (c_trade_date c);
     ia_account_id := JStr (live_sim_account_id (buy_gate s)); ia_code := JStr (c_code c);
     ia_name := JStr (c_name c); ia_order_plan_id := JNull; ia_side := JStr "BUY";
     ia_order_type := JStr (LiveSimOrderType.value order_type); ia_quantity := JInt quantity;
     ia_limit_price := JInt limit_price; ia_notional := JInt notional;
     ia_status := JStr "CREATED";
     ia_reason_codes := JList [JStr "OBSERVE_ONLY_AI_ARTIFACT_IGNORED"];
     ia_evidence_json := evidence; ia_idempotency_key := JStr key;
     ia_dry_run_intent_id := opt_str (option_map dr_dry_run_intent_id dry_run);
     ia_dry_run_order_id := opt_str (dry_run ≫= dr_dry_run_order_id);
     ia_created_at := moment now;
     ia_expires_at := moment (now + seconds (live_sim_order_ttl_sec s));
     ia_gateway_command_id := JNull; ia_broker_order_sent := JBool false |}.

Definition reject_candidate (candidate_instance_id : string) (b : buy_evaluation)
    (suffix : option string) (evidence : json) (s : BuySettings) (now : Z) : M LiveSimIntent :=
  let! _ := _save_rejection candidate_instance_id (be_code b) (be_reason_codes b) in
  let! id := fresh_id new_message_id "live_sim_intent_rejected" in
  let! key := of_res (_idempotency_key (text_or_default (be_trade_date b) "UNKNOWN")
                (text_or_default (be_code b) "000000") candidate_instance_id
                (lg_strategy_observation_id (be_eligibility b))
                (lg_risk_observation_id (be_eligibility b)) suffix) in
  of_res (LiveSimIntent_post_init
            (rejected_intent_args id candidate_instance_id b key evidence s now)).

Definition create_live_sim_intent (ob : observations) (rows : list reconcile_row)
    (candidate_instance_id : string) (s : BuySettings) (source : string)
    (idempotency_suffix : option string) (extra_evidence : list (string * json)) (now : Z)
    : M LiveSimIntent :=
  let! w := get in
  let! b := of_res (evaluate_live_sim_eligibility w ob rows candidate_instance_id s now) in
  let evidence := intent_evidence source extra_evidence in
  if negb (be_eligible b)
  then reject_candidate candidate_instance_id b idempotency_suffix evidence s now
  else
    match _candidate_row (candidate_rows ob) candidate_instance_id,
          strategies ob !! candidate_instance_id, risks ob !! candidate_instance_id with
    | Some c, Some strategy, Some risk =>
        let! t := of_res (_latest_tick_row (ticks w) (c_code c)) in
        match t with
        | None => raise (ValueError "eligible LIVE_SIM intent requires latest tick")
        | Some t =>
            let! limit_price := of_res (_live_sim_buy_limit_price (tk_price t) s) in
            let! size := of_res (_calculate_live_sim_quantity_and_notional limit_price s (be_dry_run b)) in
            let '(quantity, notional) := size in
            let! id := fresh_id new_message_id "live_sim_intent" in
            let! order_type := of_res (order_type_member (live_sim_default_order_type s)) in
            let! key := of_res (_idempotency_key (c_trade_date c) (c_code c)
                          (c_candidate_instance_id c) (Some (st_strategy_observation_id strategy))
                          (Some (rk_risk_observation_id risk)) idempotency_suffix) in
            let! x := of_res (LiveSimIntent_post_init
                        (created_intent_args id c strategy risk (be_dry_run b) order_type quantity
                           limit_price notional key evidence s now)) in
            let! _ := try_ledger (_insert_intent x) in
            ret x
        end
    | _, _, _ =>
        raise (ValueError "eligible LIVE_SIM intent requires candidate, strategy, and risk rows")
    end.

(** ** Queueing *)

Context {plan_route : PlanRoute}.

Definition _build_gateway_send_order_payload (x : LiveSimIntent) (s : BuySettings) : payload :=
  let g := buy_gate s in
  let es := event_settings g in
  let key := li_idempotency_key x in
  [("account_id", JStr (li_account_id x)); ("account_mode", JStr (live_sim_account_mode es));
   ("broker_env", JStr (live_sim_broker_env es)); ("server_mode", JStr (live_sim_server_mode es));
   ("code", JStr (li_code x)); ("name", JStr (li_name x));
   ("side", JStr (LiveSimSide.value (li_side x))); ("quantity", JInt (li_quantity x));
   ("price", opt_float (li_limit_price x)); ("limit_price", opt_float (li_limit_price x));
   ("order_type", JStr (LiveSimOrderType.value (li_order_type x)));
   ("hoga", JStr (live_sim_default_hoga (buy_lifecycle s)));
   ("order_exchange", JStr (live_sim_order_exchange g)); ("mode", JStr "LIVE_SIM");
   ("live_mode", JStr "LIVE_SIM"); ("live_sim_only", JBool true);
   ("live_real_allowed", JBool false); ("broker_order_path", JStr "LIVE_SIM_ONLY");
   ("real_order_allowed", JBool false); ("live_sim_intent_id", JStr (li_live_sim_intent_id x));
   ("idempotency_key", JStr key);
   ("metadata", JObj
     [("source", JStr "live_sim"); ("live_sim_only", JBool true);
      ("live_real_allowed", JBool false); ("broker_order_path", JStr "LIVE_SIM_ONLY");
      ("order_exchange", JStr (live_sim_order_exchange g));
      ("candidate_instance_id", JStr (li_candidate_instance_id x));
      ("strategy_observation_id", opt_str (li_strategy_observation_id x));
      ("risk_observation_id", opt_str (li_risk_observation_id x));
      ("dry_run_intent_id", opt_str (li_dry_run_intent_id x));
      ("dry_run_order_id", opt_str (li_dry_run_order_id x));
      ("live_sim_intent_id", JStr (li_live_sim_intent_id x)); ("idempotency_key", JStr key)])].

Definition is_buy_intent (x : LiveSimIntent) : bool := bool_decide (li_side x = LiveSimSide.BUY).

(** What the gate, the reconciliation, the settings and the tables say against
    queueing the intent now. *)
Definition queue_reasons (w : world) (rows : list reconcile_row) (live_sim_intent_id : string)
    (x : LiveSimIntent) (s : BuySettings) (now : Z) : res (list string) :=
  let l := ledger w in
  let buy := is_buy_intent x in
  let g := check_live_sim_safety_gate sql_sum l (gateway w) (gateway_status w) (buy_gate s) NEW_BUY
             buy buy (Some (li_trade_date x)) now in
  let* mismatch :=
    if buy then _latest_reconcile_blocks_new_buy (gateway w) rows (reconcile_settings s) now
    else Ok false in
  let* duplicates := _recent_active_live_sim_count_for_code l (li_code x) s
                       (Some live_sim_intent_id) now in
  Ok (_merge_reasons
    (gate_reason_codes g ++
     reason_if mismatch "LIVE_SIM_RECONCILE_MISMATCH_BLOCK" ++
     reason_if (negb buy && negb (live_sim_allow_sell s)) "SELL_NOT_ALLOWED" ++
     reason_if (bool_decide (li_order_type x = LiveSimOrderType.MARKET)) "MARKET_ORDER_NOT_ALLOWED" ++
     reason_if (live_sim_max_active_orders s <=? _active_order_count l) "ACTIVE_ORDER_LIMIT_EXCEEDED" ++
     reason_if (0 <? duplicates) "DUPLICATE_LIVE_SIM_ORDER")).

(** The rejection is committed and the call raises. *)
Definition refuse {A} (x : LiveSimIntent) (reasons : list string) (msg : string) : M A :=
  let! _ := _save_rejection (li_candidate_instance_id x) (Some (li_code x)) reasons in
  raise (ValueError msg).

(** The classifier's failure counts as a blocker. *)
Definition _enforce_buy_execution_lifecycle_queue_boundary (x : LiveSimIntent) : M unit :=
  let! w := get in
  match _unresolved_lifecycle_error_count w with
  | Ok count =>
      if count <? 1 then ret tt
      else refuse x ["LIVE_SIM_LIFECYCLE_ERROR_BLOCK"] "LIVE_SIM_LIFECYCLE_ERROR_BLOCK"
  | Err _ => refuse x ["LIVE_SIM_LIFECYCLE_ERROR_BLOCK"] "LIVE_SIM_LIFECYCLE_ERROR_BLOCK"
  end.

(** [SET status = 'REJECTED', reason_codes_json = merged WHERE status = 'CREATED']. *)
Definition intent_rejected (reasons : list string) (x : LiveSimIntent) : LiveSimIntent :=
  {| li_live_sim_intent_id := li_live_sim_intent_id x;
     li_candidate_instance_id := li_candidate_instance_id x;
     li_strategy_observation_id := li_strategy_observation_id x;
     li_risk_observation_id := li_risk_observation_id x; li_trade_date := li_trade_date x;
     li_account_id := li_account_id x; li_code := li_code x; li_name := li_name x;
     li_order_plan_id := li_order_plan_id x; li_side := li_side x;
     li_order_type := li_order_type x; li_quantity := li_quantity x;
     li_limit_price := li_limit_price x; li_notional := li_notional x;
     li_status := IS.REJECTED; li_reason_codes := reasons;
     li_evidence_json := li_evidence_json x; li_idempotency_key := li_idempotency_key x;
     li_dry_run_intent_id := li_dry_run_intent_id x;
     li_dry_run_order_id := li_dry_run_order_id x; li_created_at := li_created_at x;
     li_expires_at := li_expires_at x; li_gateway_command_id := li_gateway_command_id x;
     li_live_sim_only := li_live_sim_only x; li_live_real_allowed := li_live_real_allowed x;
     li_broker_order_sent := li_broker_order_sent x |}.
Definition is_created (x : LiveSimIntent) : bool := bool_decide (li_status x = IS.CREATED).

Definition _reject_bound_order_plan_enqueue (x : LiveSimIntent) (reason_codes : list string) : M unit :=
  let merged := _merge_reasons (li_reason_codes x ++ reason_codes) in
  let! _ := on_ledger (update_intent (li_live_sim_intent_id x) is_created (intent_rejected merged)) in
  _save_rejection (li_candidate_instance_id x) (Some (li_code x)) merged.

Definition names_plan (x : LiveSimIntent) : bool :=
  match li_order_plan_id x with Some p => str_true p | None => false end.

(** The terminal check of an intent that is bound to an order plan. *)
Definition check_plan_binding (rows : list reconcile_row) (x : LiveSimIntent) (required : option json)
    (now : Z) : M unit :=
  if names_plan x || match required with Some _ => true | None => false end then
    let! w := get in
    let! binding_reasons := of_res (plan_binding_reasons w rows x required now) in
    match binding_reasons with
    | [] => ret tt
    | _ =>
        let reasons := _merge_reasons ("ORDER_PLAN_BINDING_INVALID" :: binding_reasons) in
        let! _ := _reject_bound_order_plan_enqueue x reasons in
        raise (ValueError (String.concat "," reasons))
    end
  else ret tt.

Definition buy_order_args (id command live_sim_intent_id : string) (x : LiveSimIntent) (now : Z) : LiveSimOrderArgs :=
  let at' := text (JStr (datetime_to_wire now)) in
  {| oa_live_sim_order_id := JStr id; oa_live_sim_intent_id := JStr live_sim_intent_id;
     oa_gateway_command_id := JStr command; oa_account_id := JStr (li_account_id x);
     oa_code := JStr (li_code x); oa_name := JStr (li_name x);
     oa_side := JStr (LiveSimSide.value (li_side x));
     oa_order_type := JStr (LiveSimOrderType.value (li_order_type x));
     oa_quantity := JInt (li_quantity x); oa_limit_price := opt_float (li_limit_price x);
     oa_notional := JFloat (li_notional x); oa_status := JStr "COMMAND_QUEUED";
     oa_broker_order_no := JNull; oa_broker_result_code := JNull; oa_broker_message := JNull;
     oa_filled_quantity := JInt 0; oa_remaining_quantity := JInt (li_quantity x);
     oa_avg_fill_price := JNull; oa_idempotency_key := JStr (li_idempotency_key x);
     oa_created_at := at'; oa_command_queued_at := at'; oa_command_dispatched_at := text JNull;
     oa_broker_acked_at := text JNull; oa_last_event_at := text JNull |}.

(** [SET status = 'COMMAND_QUEUED', gateway_command_id = command]. *)
Definition intent_queued (command : string) (x : LiveSimIntent) : LiveSimIntent :=
  intent_columns IS.COMMAND_QUEUED (Some command) (li_broker_order_sent x) x.

(** [SAVEPOINT ... ROLLBACK TO] on a refusal or an exception; identifiers that
    were drawn stay drawn. *)
Definition savepoint {A B} (m : M (A + B)) : M (A + B) :=
  fun w =>
    match m w with
    | (w', Ok (inr b)) => (w', Ok (inr b))
    | (w', r) => (set_ledger (set_serial (serial (ledger w')) (ledger w)) w, r)
    end.

(** The command, the order and the intent's new status; the message of a
    command that is refused. *)
Definition enqueue_intent (live_sim_intent_id : string) (x : LiveSimIntent) (s : BuySettings) (now : Z)
    : M (option string + LiveSimOrderRecord) :=
  let! r := enqueue_until new_message_id py_repr hash_payload (li_expires_at x) "send_order"
              (_build_gateway_send_order_payload x s) (li_idempotency_key x) now in
  if negb (er_accepted r) then ret (inl (er_error_message r)) else
  let! id := fresh_id new_message_id "live_sim_order" in
  let! o := of_res (LiveSimOrderRecord_post_init 
              (buy_order_args id (er_command_id r) live_sim_intent_id x now)) in
  let! _ := try_ledger (_insert_order o (li_trade_date x)) in
  let! w := get in
  let! _ := require (existsb (fun r => String.eqb (li_live_sim_intent_id r) live_sim_intent_id &&
                                       is_created r) (intents (ledger w))) "INVALID_INTENT_STATUS" in
  let! _ := on_ledger (update_intent live_sim_intent_id is_created
                         (intent_queued (er_command_id r))) in
  ret (inr o).

(** The row read under the write lock is the row read before it. *)
Definition queue_live_sim_order_command (rows : list reconcile_row) (live_sim_intent_id : string)
    (s : BuySettings) (required_plan_binding : option json) (now : Z) : M LiveSimOrderRecord :=
  let! w := get in
  let! id := of_res (require_non_empty live_sim_intent_id "live_sim_intent_id") in
  match get_live_sim_intent (ledger w) id with
  | None => raise (ValueError ("LIVE_SIM intent not found: " +:+ live_sim_intent_id))
  | Some x =>
      if negb (is_created x) then
        let! _ := try_ledger (_record_error new_message_id py_repr (Some (JStr live_sim_intent_id)) None
                                (Some (JStr (li_code x))) "INVALID_INTENT_STATUS") in
        raise (ValueError ("LIVE_SIM intent cannot be queued from status: " +:+ IS.value (li_status x)))
      else
      let! reasons := of_res (queue_reasons w rows live_sim_intent_id x s now) in
      match reasons with
      | _ :: _ => refuse x reasons (String.concat "," reasons)
      | [] =>
          let! _ :=
            if is_buy_intent x then
              let! _ := _enforce_buy_execution_lifecycle_queue_boundary x in
              check_plan_binding rows x required_plan_binding now
            else ret tt in
          let! r := savepoint (enqueue_intent live_sim_intent_id x s now) in
          match r with
          | inr o => ret o
          | inl message =>
              refuse x ["COMMAND_QUEUE_REJECTED"] (text_or_default message "COMMAND_QUEUE_REJECTED")
          end
      end
  end.
End Buy.
