(* ===== verification/BuyRuns.v ===== *)
(** * What the buy path does ([LiveSimBuy], [Admission])

    An eligible candidate is bought within the limits at a price on the KRX grid;
    an intent is queued only under the conditions checked again at that time,
    and then one command, one order and the intent's new status appear together;
    a refusal leaves queue and orders as they were. *)
From S2P Require Import Prelude PyFloat FloatRound BrokerUtils WireTime TickSize GatewayModels Candidate.
From S2P Require Import CandidateStore Admission OrderBoundary CommandStore.
From S2P Require Import LiveSimModels LiveSimStore LiveSimEvents SafetyGate LiveSimExit.
From S2P Require Import LiveSimLedger LiveSimHistory LiveSimRuns BrokerSnapshot LiveSimReconcile LiveSimBuy.
From Stdlib Require Import SpecFloat.
Local Open Scope Z_scope.

(** ** Admission *)

(** What admission asks of a candidate. *)
Record admitted (ob : observations) (ts : gmap string tick) (id : string) (p : AdmissionPolicy)
    (dry_run : option dry_run_evidence) (now : Z) : Prop := {
  admitted_candidate : exists c, _candidate_row (candidate_rows ob) id = Some c /\
    (require_candidate_context_ready p = true -> c_state c = CS.CONTEXT_READY);
  admitted_context : require_candidate_context_row p = true -> id ∈ candidate_context ob;
  admitted_strategy : exists r, strategies ob !! id = Some r /\
    (require_strategy_matched p = true -> py_upper (st_overall_status r) = "MATCHED_OBSERVATION") /\
    flag_mismatch (require_strategy_observe_only p) (st_observe_only r) = false;
  admitted_risk : exists r, risks ob !! id = Some r /\
    (require_risk_observe_pass p = true -> py_upper (rk_overall_status r) = "OBSERVE_PASS") /\
    flag_mismatch (require_risk_observe_only p) (rk_observe_only r) = false;
  admitted_tick : exists c k t at', _candidate_row (candidate_rows ob) id = Some c /\
    validate_code (c_code c) "code" = Ok k /\ ts !! k = Some t /\
    parse_timestamp (JStr (tk_event_ts t)) "event_ts" = Ok at' /\
    (require_fresh_tick p = true -> Z.max (now - at') 0 <= seconds (stale_tick_sec p));
  admitted_dry_run : require_dry_run_evidence p = true -> is_Some dry_run
}.

Lemma merge_reasons_nil_iff l :
  Forall (fun r => str_true (py_strip r) = true) l -> _merge_reasons l = [] <-> l = [].
Proof.
  intros H. split; [|by intros ->]. destruct l as [|r l]; [done|]. intros E. exfalso.
  inversion_clear H as [|? ? Hr _]. unfold _merge_reasons in E. rewrite dedupe_nil_iff in E.
  cbn in E. by rewrite Hr in E.
Qed.

Lemma reason_if_nil b code : reason_if b code = [] <-> b = false.
Proof. by destruct b. Qed.

Lemma forall_reason_if (P : string -> Prop) b code : P code -> Forall P (reason_if b code).
Proof. destruct b; [by constructor|done]. Qed.

Create HintDb reasons.
#[export] Hint Resolve forall_reason_if Forall_app_2 : reasons.

(** A list of reason codes of the source is empty when its merge is. *)
Lemma admission_reasons_named p c h st rk xs d :
  Forall (fun r => str_true (py_strip r) = true) xs ->
  Forall (fun r => str_true (py_strip r) = true)
    (candidate_reasons p c h ++ strategy_reasons p st ++ risk_reasons p rk ++ xs ++ dry_run_reasons p d).
Proof.
  intros H. unfold candidate_reasons, strategy_reasons, risk_reasons, dry_run_reasons.
  repeat apply Forall_app_2; try done; repeat case_match; repeat apply Forall_app_2;
    try apply forall_reason_if; try reflexivity; repeat constructor.
Qed.

Lemma tick_reasons_named p t now xs :
  tick_reasons p t now = Ok xs -> Forall (fun r => str_true (py_strip r) = true) xs.
Proof.
  unfold tick_reasons. destruct t as [t|]; [|intros [= <-]; by repeat constructor].
  intros (a & _ & [= <-])%res_bind_ok. by apply forall_reason_if.
Qed.

(** The verdict is exact. *)
Lemma admission_exact ob ts id p dry_run now a :
  evaluate_trade_admission ob ts id p None None None dry_run now = Ok a ->
  at_candidate_instance_id a = py_strip id /\
  (at_eligible a = true <-> admitted ob ts (py_strip id) p dry_run now).
Proof.
  unfold evaluate_trade_admission. intros (cid & Hid & H)%res_bind_ok.
  unfold require_non_empty in Hid. destruct (py_strip id) as [|ch tl] eqn:Es in Hid; [done|].
  injection Hid as <-. rewrite <- Es in *. clear Es ch tl. cbv zeta in H.
  apply res_bind_ok in H as ([[d k] n] & Hsub & H). apply res_bind_ok in H as (t & Ht & H).
  apply res_bind_ok in H as (xs & Hxs & (pol & _ & [= <-])%res_bind_ok). split; [done|].
  cbn [at_eligible]. set (rs := candidate_reasons _ _ _ ++ _).
  assert (_merge_reasons rs = [] <-> rs = []) as Hrs.
  { apply merge_reasons_nil_iff, admission_reasons_named. by eapply tick_reasons_named. }
  transitivity (rs = []).
  { rewrite <- Hrs. by destruct (_merge_reasons rs). }
  unfold rs. clear rs Hrs. rewrite !app_nil.
  unfold candidate_reasons, strategy_reasons, risk_reasons, dry_run_reasons.
  unfold admission_subject in Hsub. cbn [res_bind] in Hsub.
  split.
  - intros (Hc & Hst & Hrk & -> & Hdr).
    destruct (_candidate_row _ _) as [c|] eqn:Ec; [|done].
    apply res_bind_ok in Hsub as (k' & Hk & [= <- <- <-]).
    apply app_nil in Hc as [Hc%reason_if_nil Hx%reason_if_nil].
    destruct (strategies ob !! _) as [r|] eqn:Er; [|done]. apply app_nil in Hst as [H1%reason_if_nil H2%reason_if_nil].
    destruct (risks ob !! _) as [r'|] eqn:Er'; [|done]. apply app_nil in Hrk as [H3%reason_if_nil H4%reason_if_nil].
    apply reason_if_nil in Hdr.
    unfold _latest_tick_row in Ht. rewrite validate_code_fixed in Ht by (by eapply validate_code_ok).
    injection Ht as <-. unfold tick_reasons in Hxs.
    destruct (ts !! k') as [t|] eqn:Et; [|done].
    apply res_bind_ok in Hxs as (age & (at' & Hat & [= <-])%res_bind_ok & [= Hage%reason_if_nil]).
    split.
    + exists c. split; [done|]. intros E. rewrite E in Hc. apply bool_decide_eq_false in Hc.
      by destruct (decide (c_state c = CS.CONTEXT_READY)).
    + intros E. rewrite E in Hx. apply negb_false_iff in Hx. by apply bool_decide_eq_true_1 in Hx.
    + exists r. split_and!; [done| |done]. intros E. rewrite E in H1.
      by apply negb_false_iff, String.eqb_eq in H1.
    + exists r'. split_and!; [done| |done]. intros E. rewrite E in H3.
      by apply negb_false_iff, String.eqb_eq in H3.
    + exists c, k', t, at'. split_and!; [done..|]. intros E. rewrite E in Hage.
      apply Z.ltb_ge in Hage. lia.
    + intros E. rewrite E in Hdr. by destruct dry_run.
  - intros [(c & Ec & Hc) Hx (r & Er & H1 & H2) (r' & Er' & H3 & H4) (c' & k' & t' & at' & Ec' & Hk & Et & Hat & Hage) Hdr].
    rewrite Ec in Ec', Hsub |- *. injection Ec' as <-. rewrite Hk in Hsub. injection Hsub as <- <- <-.
    unfold _latest_tick_row in Ht. rewrite validate_code_fixed in Ht by (by eapply validate_code_ok).
    injection Ht as <-. unfold tick_reasons in Hxs. rewrite Et in Hxs.
    unfold tick_age_usec in Hxs. rewrite Hat in Hxs. injection Hxs as <-.
    rewrite Er, Er', H2, H4. split_and!.
    + apply app_nil. split; apply reason_if_nil.
      * destruct (require_candidate_context_ready p); [|done]. cbn. apply bool_decide_eq_false. auto.
      * destruct (require_candidate_context_row p); [|done]. cbn. rewrite bool_decide_true; auto.
    + destruct (require_strategy_matched p); [|done]. by rewrite H1.
    + destruct (require_risk_observe_pass p); [|done]. by rewrite H3.
    + apply reason_if_nil. destruct (require_fresh_tick p); [|done]. cbn. apply Z.ltb_ge. auto.
    + apply reason_if_nil. destruct (require_dry_run_evidence p); [|by destruct dry_run].
      by destruct (Hdr eq_refl) as [? ->].
Qed.

(** ** Eligibility *)

Section Buys.
Context (new_message_id : string -> nat -> string) (py_repr : json -> string)
  (hash_payload : payload -> string) (sql_sum : list float -> float) {gate : RoutingGate}
  {qualification : ExecutionLifecycle}.

Abbreviation new_buy_gate w s day now :=
  (check_live_sim_safety_gate sql_sum (ledger w) (gateway w) (gateway_status w) (buy_gate s) NEW_BUY
     true true day now).

(** What a buy of [quantity] shares of [code] at [limit] asks of settings,
    tables and queue. *)
Record buy_clear (w : world) (rows : list reconcile_row) (s : BuySettings) (now : Z)
    (code day : string) (order_type : LiveSimOrderType.t) (limit quantity : Z) : Prop := {
  clear_gate : passed (new_buy_gate w s (Some day) now) = true;
  clear_side : live_sim_allow_buy s = true;
  clear_type : match order_type with
               | LiveSimOrderType.MARKET => live_sim_allow_market_order s
               | LiveSimOrderType.LIMIT => live_sim_allow_limit_order s
               end = true;
  clear_quantity : 1 <= quantity;
  clear_notional : 0 < limit * quantity /\ f_ltZ (live_sim_max_order_notional s) (limit * quantity) = false;
  clear_duplicate : exists n, _recent_active_live_sim_count_for_code (ledger w) code s None now = Ok n /\ n <= 0;
  clear_reconcile : _latest_reconcile_blocks_new_buy (gateway w) rows (reconcile_settings s) now = Ok false;
  clear_position : live_sim_position_allow_scale_in s = true \/
    exists n, _open_position_count_for_code (ledger w) code = Ok n /\ n <= 0;
  clear_exits : exists n, _active_exit_count_for_code (ledger w) code = Ok n /\ n <= 0;
  clear_cancels : exists n, _active_cancel_count_for_code (ledger w) code = Ok n /\ n <= 0;
  clear_lifecycle : exists n, _unresolved_lifecycle_error_count w = Ok n /\ n <= 0;
  clear_daily_count : _daily_order_count (ledger w) day < live_sim_max_daily_order_count (buy_gate s);
  clear_daily_notional : exists n, float_of_int (limit * quantity) = Ok n /\
    f_lt (live_sim_max_daily_notional (buy_gate s))
      (f_add (_daily_order_notional sql_sum (ledger w) day) n) = false;
  clear_active_orders : _active_order_count (ledger w) < live_sim_max_active_orders s;
  clear_active_positions : _active_position_count (ledger w) < live_sim_max_active_positions s
}.

Lemma map_admission_named m rs :
  Forall (fun kv => str_true (py_strip kv.2) = true) m ->
  Forall (fun r => str_true (py_strip r) = true) rs ->
  Forall (fun r => str_true (py_strip r) = true) (_map_admission_reasons rs m).
Proof.
  intros Hm Hr. unfold _map_admission_reasons. apply List.Forall_map. eapply List.Forall_impl; [|exact Hr].
  intros r Hs. destruct (find _ m) as [kv|] eqn:E; cbn [option_map from_option].
  - apply find_some in E as [Hin _]. rewrite list.Forall_forall in Hm. apply Hm. by apply list_elem_of_In.
  - by rewrite py_strip_upper, str_true_upper.
Qed.

Lemma merge_reason_if_iff b code :
  str_true (py_strip code) = true -> _merge_reasons (reason_if b code) = [] <-> b = false.
Proof. intros H. split; [by apply merge_reason_if|by intros ->]. Qed.

(** Nothing against the code. *)
Lemma code_reasons_exact w rows code day notional s now xs :
  code_reasons sql_sum w rows code day notional s now = Ok xs ->
  _merge_reasons xs = [] <->
  (exists n, _recent_active_live_sim_count_for_code (ledger w) code s None now = Ok n /\ n <= 0) /\
  _latest_reconcile_blocks_new_buy (gateway w) rows (reconcile_settings s) now = Ok false /\
  (live_sim_position_allow_scale_in s = true \/
   exists n, _open_position_count_for_code (ledger w) code = Ok n /\ n <= 0) /\
  (exists n, _active_exit_count_for_code (ledger w) code = Ok n /\ n <= 0) /\
  (exists n, _active_cancel_count_for_code (ledger w) code = Ok n /\ n <= 0) /\
  (exists n, _unresolved_lifecycle_error_count w = Ok n /\ n <= 0) /\
  _daily_order_count (ledger w) day < live_sim_max_daily_order_count (buy_gate s) /\
  (exists n, float_of_int notional = Ok n /\
   f_lt (live_sim_max_daily_notional (buy_gate s))
     (f_add (_daily_order_notional sql_sum (ledger w) day) n) = false).
Proof.
  unfold code_reasons. intros H.
  apply res_bind_ok in H as (dup & Hdup & H). apply res_bind_ok in H as (mm & Hmm & H).
  apply res_bind_ok in H as (held & Hheld & H). apply res_bind_ok in H as (ex & Hex & H).
  apply res_bind_ok in H as (ca & Hca & H). apply res_bind_ok in H as (bl & Hbl & H).
  apply res_bind_ok in H as (n & Hn & [= <-]).
  rewrite Hdup, Hmm, Hex, Hca, Hbl, Hn.
  rewrite !merge_reasons_app, !merge_reason_if_iff by reflexivity.
  rewrite !Z.ltb_ge, Z.leb_gt.
  assert (held <= 0 <-> live_sim_position_allow_scale_in s = true \/
    exists n, _open_position_count_for_code (ledger w) code = Ok n /\ n <= 0) as ->.
  { destruct (live_sim_position_allow_scale_in s); [injection Hheld as <-; naive_solver|].
    rewrite Hheld. naive_solver. }
  split.
  - intros (H1 & -> & H3 & H4 & H5 & H6 & H7 & H8). split_and!; eauto.
  - intros ((? & [= ->] & ?) & [= ->] & H3 & (? & [= ->] & ?) & (? & [= ->] & ?) & (? & [= ->] & ?) & ? & (? & [= ->] & ?)).
    by split_and!.
Qed.

Lemma post_init_eligible a reasons now e :
  LiveSimEligibility_post_init (eligibility_args a reasons now) = Ok e ->
  (lg_eligible e = true <-> reasons = []).
Proof.
  unfold LiveSimEligibility_post_init. intros H.
  apply res_bind_ok in H as (b & Hb & H). cbn in Hb. injection Hb as <-. res_inv H.
  injection H as <-. cbn. by destruct reasons.
Qed.

Lemma gate_merges w s day now :
  let g := new_buy_gate w s day now in
  _merge_reasons (if passed g then [] else gate_reason_codes g) = [] <-> passed g = true.
Proof. cbv zeta. split; [by apply gate_reasons_nil|by intros ->]. Qed.

Lemma order_kind_merges t s :
  _merge_reasons (order_kind_reasons t s) = [] <->
  live_sim_allow_buy s = true /\
  match t with
  | LiveSimOrderType.MARKET => live_sim_allow_market_order s
  | LiveSimOrderType.LIMIT => live_sim_allow_limit_order s
  end = true.
Proof.
  unfold order_kind_reasons. destruct t;
    by rewrite merge_reasons_app, !merge_reason_if_iff, !negb_false_iff by reflexivity.
Qed.

Lemma size_merges quantity notional s :
  _merge_reasons (size_reasons quantity notional s) = [] <->
  1 <= quantity /\ 0 < notional /\ f_ltZ (live_sim_max_order_notional s) notional = false.
Proof.
  unfold size_reasons.
  rewrite merge_reasons_app, !merge_reason_if_iff, orb_false_iff, Z.ltb_ge, Z.leb_gt by reflexivity.
  done.
Qed.

Lemma limit_merges l s :
  _merge_reasons (limit_reasons l s) = [] <->
  _active_order_count l < live_sim_max_active_orders s /\
  _active_position_count l < live_sim_max_active_positions s.
Proof.
  unfold limit_reasons. by rewrite merge_reasons_app, !merge_reason_if_iff, !Z.leb_gt by reflexivity.
Qed.

(** What an admitted candidate's trace says of it. *)
Lemma admission_trace ob ts id p dry_run now a :
  evaluate_trade_admission ob ts id p None None None dry_run now = Ok a -> at_eligible a = true ->
  exists c code t, _candidate_row (candidate_rows ob) (py_strip id) = Some c /\
    validate_code (c_code c) "code" = Ok code /\ at_code a = Some code /\
    at_trade_date a = Some (c_trade_date c) /\ ts !! code = Some t /\ latest_tick_evidence a = Some t.
Proof.
  intros H He. pose proof (proj1 (proj2 (admission_exact _ _ _ _ _ _ _ H)) He) as Had.
  destruct (admitted_tick _ _ _ _ _ _ Had) as (c & k & t & at' & Ec & Hk & Et & _).
  exists c, k, t. split; [done|]. split; [done|].
  revert H. unfold evaluate_trade_admission. intros (cid & Hid & H)%res_bind_ok.
  apply require_non_empty_ok in Hid as [-> _]. cbv zeta in H. rewrite Ec in H. unfold admission_subject in H. cbn [res_bind] in H.
  rewrite Hk in H. cbn [res_bind] in H. unfold _latest_tick_row in H.
  rewrite validate_code_fixed in H by (by eapply validate_code_ok). cbn [res_bind] in H. rewrite Et in H.
  apply res_bind_ok in H as (xs & _ & (pol & _ & [= <-])%res_bind_ok). done.
Qed.

Lemma merge_reasons_named l : Forall (fun r => str_true (py_strip r) = true) (_merge_reasons l).
Proof.
  apply list.Forall_forall. intros r Hr. unfold _merge_reasons in Hr.
  apply elem_of_dedupe, list_elem_of_fmap in Hr as (r0 & -> & Hr0).
  apply list_elem_of_In, filter_In in Hr0 as [_ Hr0]. by rewrite py_strip_upper, str_true_upper.
Qed.

Lemma admission_merges ob ts id p dry_run now a :
  evaluate_trade_admission ob ts id p None None None dry_run now = Ok a ->
  _merge_reasons (_map_admission_reasons (at_reason_codes a) LIVE_SIM_ADMISSION_REASON_MAP) = [] <->
  at_eligible a = true.
Proof.
  unfold evaluate_trade_admission. intros H. res_inv H. cbv zeta in H.
  assert (exists rs, at_reason_codes a = _merge_reasons rs /\
    at_eligible a = match _merge_reasons rs with [] => true | _ => false end) as (rs & -> & ->).
  { destruct a1 as [[d k] n]. res_inv H. injection H as <-. eexists. split; done. }
  rewrite merge_reasons_nil_iff.
  - destruct (_merge_reasons rs); cbn; done.
  - apply map_admission_named, merge_reasons_named. repeat constructor.
Qed.

Lemma quantity_and_notional limit s d quantity notional :
  _calculate_live_sim_quantity_and_notional limit s d = Ok (quantity, notional) ->
  1 <= quantity -> notional = limit * quantity /\ 0 < limit.
Proof.
  unfold _calculate_live_sim_quantity_and_notional. destruct (Z.leb_spec limit 0).
  - intros [= <- <-]. lia.
  - intros H'. res_inv H'. injection H' as <- <-. done.
Qed.

(** When the evaluation succeeds its verdict is exact: the candidate is admitted
    and nothing stands against the buy, or the reasons say what does. *)
Lemma eligibility_exact w ob rows id s now b :
  evaluate_live_sim_eligibility sql_sum w ob rows id s now = Ok b ->
  be_eligible b = true <->
  admitted ob (ticks w) (py_strip id) (live_sim_admission_policy s) (be_dry_run b) now /\
  exists c code day t limit quantity,
    _candidate_row (candidate_rows ob) (py_strip id) = Some c /\
    validate_code (c_code c) "code" = Ok code /\ day = c_trade_date c /\
    be_code b = Some code /\ be_trade_date b = Some day /\ ticks w !! code = Some t /\
    f_gtZ (tk_price t) 0 = true /\ _live_sim_buy_limit_price (tk_price t) s = Ok limit /\
    _calculate_live_sim_quantity_and_notional limit s (be_dry_run b) = Ok (quantity, limit * quantity) /\
    buy_clear w rows s now code day (be_order_type b) limit quantity.
Proof.
  unfold evaluate_live_sim_eligibility. intros (cid & Hid & H)%res_bind_ok.
  apply require_non_empty_ok in Hid as [-> _].
  apply res_bind_ok in H as (a & Ha & H). cbv zeta in H.
  apply res_bind_ok in H as (limit & Hlimit & H). apply res_bind_ok in H as (ot & Hot & H).
  apply res_bind_ok in H as ([q n] & Hsize & H). apply res_bind_ok in H as (xs & Hxs & H).
  apply res_bind_ok in H as (e & He & [= <-]).
  cbn [be_eligible be_eligibility be_dry_run be_code be_trade_date be_order_type].
  destruct (admission_exact _ _ _ _ _ _ _ Ha) as [_ Hadm]. rewrite py_strip_idem in Hadm.
  unfold be_eligible. cbn [be_eligibility].
  rewrite (post_init_eligible _ _ _ _ He).
  rewrite !merge_reasons_app, (admission_merges _ _ _ _ _ _ _ Ha), gate_merges, order_kind_merges,
    size_merges, limit_merges, Hadm.
  split.
  - intros (Had & Hg & [Hbuy Htype] & (Hq & Hn & Hmax) & Hcode & Hord & Hpos). split; [done|].
    destruct (admission_trace _ _ _ _ _ _ _ Ha (proj2 Hadm Had)) as (c & code & t & Hrow & Hk & Hc & Hd & Ht & Htk).
    rewrite py_strip_idem in Hrow. rewrite Hc, Hd, Htk in *.
    destruct (f_gtZ (tk_price t) 0) eqn:Hgt; [|injection Hlimit as <-; cbn in Hsize; injection Hsize as <- <-; lia].
    destruct (quantity_and_notional _ _ _ _ _ Hsize Hq) as [-> Hl].
    apply (code_reasons_exact _ _ _ _ _ _ _ _ Hxs) in Hcode as (H1 & H2 & H3 & H4 & H5 & H6 & H7 & H8).
    exists c, code, (c_trade_date c), t, limit, q. by split_and!.
  - intros (Had & c0 & code & day & t & limit' & q' & _ & _ & _ & Hc & Hd & Ht & Hgt & Hl & Hs & []). split; [done|].
    destruct (admission_trace _ _ _ _ _ _ _ Ha (proj2 Hadm Had)) as (c & code' & t' & _ & _ & Hc' & Hd' & Ht' & Htk).
    rewrite Hc in Hc'. injection Hc' as <-. rewrite Ht in Ht'. injection Ht' as <-.
    rewrite Htk, Hgt, Hl in Hlimit. injection Hlimit as <-. rewrite Hs in Hsize. injection Hsize as <- <-.
    rewrite Hc, Hd in Hxs. rewrite Hd.
    split_and!; try done; [by destruct clear_notional0..|].
    apply (code_reasons_exact _ _ _ _ _ _ _ _ Hxs). by split_and!.
Qed.

(** ** Intents *)

Abbreviation evaluate := (evaluate_live_sim_eligibility sql_sum).
Abbreviation create := (create_live_sim_intent new_message_id sql_sum).

(** A buy that is within the limits when it is decided. *)
Record sized_buy (w : world) (ob : observations) (rows : list reconcile_row) (s : BuySettings)
    (now : Z) (b : buy_evaluation) (c : candidate_row) (limit quantity : Z) : Prop := {
  sized_candidate : _candidate_row (candidate_rows ob) (c_candidate_instance_id c) = Some c;
  sized_admitted : admitted ob (ticks w) (c_candidate_instance_id c) (live_sim_admission_policy s)
                     (be_dry_run b) now;
  sized_tick : exists code t, validate_code (c_code c) "code" = Ok code /\ ticks w !! code = Some t /\
    _live_sim_buy_limit_price (tk_price t) s = Ok limit;
  sized_quantity : _calculate_live_sim_quantity_and_notional limit s (be_dry_run b) =
                     Ok (quantity, limit * quantity);
  sized_clear : exists code, validate_code (c_code c) "code" = Ok code /\
    buy_clear w rows s now code (c_trade_date c) (be_order_type b) limit quantity
}.

Lemma candidate_row_id cs id c : _candidate_row cs id = Some c -> c_candidate_instance_id c = id.
Proof. unfold _candidate_row. intros [_ H]%find_some. by apply String.eqb_eq in H. Qed.

Lemma fresh_id_ok prefix w w' id :
  fresh_id new_message_id prefix w = (w', Ok id) ->
  id = new_message_id prefix (serial (ledger w)) /\
  w' = set_ledger (set_serial (S (serial (ledger w))) (ledger w)) w.
Proof. unfold fresh_id, LiveSimEvents.fresh. by intros [= <- <-]. Qed.

Lemma stock_code_text v f c :
  validate_stock_code (JStr v) f = Ok c -> validate_code v f = Ok c.
Proof.
  intros (t & [-> Ht]%require_non_empty_ok & H)%res_bind_ok.
  unfold validate_code in *. apply res_bind_ok in H as (t' & [-> _]%require_non_empty_ok & H).
  rewrite py_strip_idem in H. rewrite (proj2 (require_non_empty_ok v f _) (conj eq_refl Ht)). exact H.
Qed.

Lemma float_of_int_value n f x : non_negative_float (JInt n) f = Ok x -> float_of_int n = Ok x.
Proof.
  unfold non_negative_float, parse_float, check_float. intros (y & -> & H)%res_bind_ok.
  destruct (negb (f_finite y)); [done|]. destruct (f_lt y f_zero); [done|]. exact H.
Qed.

(** The row of an intent that was created. *)
Lemma created_intent_row id c st rk d ot q limit n key ev s now x :
  LiveSimIntent_post_init (created_intent_args id c st rk d ot q limit n key ev s now) = Ok x ->
  li_status x = IS.CREATED /\ li_side x = LiveSimSide.BUY /\ li_quantity x = q /\
  validate_code (c_code c) "code" = Ok (li_code x) /\
  (exists f, float_of_int limit = Ok f /\ li_limit_price x = Some f) /\
  float_of_int n = Ok (li_notional x) /\ li_live_real_allowed x = false /\
  li_order_plan_id x = None.
Proof.
  unfold LiveSimIntent_post_init. intros H. res_inv H. injection H as <-.
  cbn [created_intent_args ia_status ia_side ia_quantity ia_code ia_limit_price ia_notional
    ia_order_plan_id li_status li_side li_quantity li_code li_limit_price li_notional
    li_live_real_allowed li_order_plan_id] in *.
  repeat match goal with
  | H : parse_side _ = Ok _ |- _ => vm_compute in H; injection H as <-
  | H : parse_intent_status _ = Ok _ |- _ => vm_compute in H; injection H as <-
  | H : non_negative_int (JInt _) _ = Ok _ |- _ => apply int_value in H as ->
  | H : validate_stock_code _ _ = Ok _ |- _ => apply stock_code_text in H
  | H : non_negative_float _ _ = Ok _ |- _ => apply float_of_int_value in H
  | H : unless_none _ _ = Ok _ |- _ => apply res_bind_ok in H as (? & H%float_of_int_value & [= <-])
  | H : optional_non_empty_str JNull _ = Ok _ |- _ => injection H as <-
  end.
  split_and!; eauto.
Qed.

Lemma rejected_intent_row id cid b key ev s now x :
  LiveSimIntent_post_init (rejected_intent_args id cid b key ev s now) = Ok x ->
  li_status x = IS.REJECTED /\ li_quantity x = 0.
Proof.
  unfold LiveSimIntent_post_init. intros H. res_inv H. injection H as <-.
  cbn [rejected_intent_args ia_status ia_quantity li_status li_quantity] in *.
  repeat match goal with
  | H : parse_intent_status _ = Ok _ |- _ => vm_compute in H; injection H as <-
  | H : non_negative_int (JInt _) _ = Ok _ |- _ => apply int_value in H as ->
  end. done.
Qed.

Lemma insert_intent_ok x l l' :
  _insert_intent x l = Ok l' -> l' = set_intents (intents l ++ [x]) l.
Proof. unfold _insert_intent. intros H. bind_inv H. injection H as <-. by apply insert_row_ok in Ha3 as [-> _]. Qed.

Lemma save_rejection_ok cid code rs w w' u :
  _save_rejection new_message_id cid code rs w = (w', Ok u) ->
  gateway w' = gateway w /\ intents (ledger w') = intents (ledger w) /\
  orders (ledger w') = orders (ledger w) /\ positions (ledger w') = positions (ledger w) /\
  executions (ledger w') = executions (ledger w) /\
  rejections (ledger w') = rejections (ledger w) ++
    [{| rj_candidate_instance_id := cid; rj_code := code; rj_reason_codes := rs |}].
Proof.
  unfold _save_rejection. intros (w1 & id & [-> ->]%fresh_id_ok & H)%bind_ok. by injection H as <-.
Qed.

(** An ineligible candidate comes with reasons. *)
Lemma ineligible_reasons w ob rows id s now b :
  evaluate w ob rows id s now = Ok b -> be_eligible b = false -> be_reason_codes b <> [].
Proof.
  unfold evaluate_live_sim_eligibility. intros H He. res_inv H. cbv zeta in H. res_inv H.
  destruct a3 as [q n]. res_inv H. injection H as <-. unfold be_eligible, be_reason_codes in *.
  cbn [be_eligibility] in *. intros E. apply not_true_iff_false in He. apply He.
  revert Ha5. set (rs := _merge_reasons _). intros Hpost.
  rewrite (post_init_eligible _ _ _ _ Hpost). revert Hpost. unfold LiveSimEligibility_post_init.
  intros Hpost. res_inv Hpost. injection Hpost as <-. cbn in E, Ha10.
  destruct rs as [|r rs]; [done|]. cbn in Ha10. res_inv Ha10. injection Ha10 as <-. done.
Qed.

(** C9. A buy intent is created only for an eligible candidate, and then it is
    stored, to buy the computed quantity at the limit price, with the candidate
    admitted and every limit kept at that moment: at least one share, a notional
    within the order's and the day's maximum, fewer active orders and positions
    than allowed, no duplicate, no held position, exit or cancel of the code, a
    gate that passes.  A candidate that is not eligible leaves one rejection with
    its reasons and no intent.  Neither touches orders or the command queue. *)
Theorem created_buy_is_sized ob rows id s src suffix extra now w w' x :
  py_strip id = id -> create ob rows id s src suffix extra now w = (w', Ok x) ->
  gateway w' = gateway w /\ orders (ledger w') = orders (ledger w) /\
  exists b, evaluate w ob rows id s now = Ok b /\
  if be_eligible b then
    intents (ledger w') = intents (ledger w) ++ [x] /\ li_status x = IS.CREATED /\
    li_side x = LiveSimSide.BUY /\
    exists c limit f, c_candidate_instance_id c = id /\
      sized_buy w ob rows s now b c limit (li_quantity x) /\
      float_of_int limit = Ok f /\ li_limit_price x = Some f /\
      float_of_int (limit * li_quantity x) = Ok (li_notional x)
  else
    intents (ledger w') = intents (ledger w) /\ li_status x = IS.REJECTED /\
    be_reason_codes b <> [] /\
    rejections (ledger w') = rejections (ledger w) ++
      [{| rj_candidate_instance_id := id; rj_code := be_code b;
          rj_reason_codes := be_reason_codes b |}].
Proof.
  unfold create_live_sim_intent. intros Hid H. apply bind_ok in H as (w0 & ? & [= <- <-] & H).
  apply bind_ok in H as (w0 & b & [Hb ->]%of_res_ok & H). cbv zeta in H.
  destruct (be_eligible b) eqn:Ee; cbn [negb] in H.
  - pose proof (eligibility_exact _ _ _ _ _ _ _ Hb) as Hex. rewrite Ee, Hid in Hex.
    destruct (proj1 Hex eq_refl) 
      as (Had & c0 & code & day & t & limit & q & Hrow & Hk & -> & Hc & Hd & Ht & Hgt & Hl & Hq & Hclear).
    clear Hex.
    rewrite Hrow in H. rename c0 into c, Hrow into Ec.
    destruct (strategies ob !! id) as [st|]; [|done]. destruct (risks ob !! id) as [rk|]; [|done].
    apply bind_ok in H as (w1 & t' & [Ht' ->]%of_res_ok & H). destruct t' as [t'|]; [|done].
    apply bind_ok in H as (w1 & limit' & [Hl' ->]%of_res_ok & H).
    apply bind_ok in H as (w1 & [q' n'] & [Hq' ->]%of_res_ok & H).
    apply bind_ok in H as (w1 & iid & [-> ->]%fresh_id_ok & H).
    apply bind_ok in H as (w1 & ot & [Hot ->]%of_res_ok & H).
    apply bind_ok in H as (w1 & key & [Hkey ->]%of_res_ok & H).
    apply bind_ok in H as (w1 & x' & [Hx ->]%of_res_ok & H).
    apply bind_ok in H as (w1 & [] & (l & Hi & ->)%try_ledger_ok & [= <- <-]).
    apply insert_intent_ok in Hi as ->. cbn [gateway set_ledger ledger orders intents set_intents set_serial].
    split; [done|]. split; [done|]. exists b. split; [done|]. rewrite Ee.
    apply created_intent_row in Hx as (Hst & Hside & <- & Hcode & (f & Hf & Hlp) & Hnot & _).
    split; [done|]. split; [done|]. split; [done|].
    pose proof (candidate_row_id _ _ _ Ec) as Ecid.
    unfold _latest_tick_row in Ht'. rewrite Hk in Ht'. injection Ht' as Ht'. rewrite Ht in Ht'.
    injection Ht' as <-. rewrite Hl in Hl'. injection Hl' as <-. rewrite Hq in Hq'. injection Hq' as <- <-.
    exists c, limit, f. rewrite Ecid. split_and!; try done. constructor; rewrite ?Ecid; eauto.
  - unfold reject_candidate in H.
    apply bind_ok in H as (w1 & [] & (Hg & Hi & Ho & _ & _ & Hr)%save_rejection_ok & H).
    apply bind_ok in H as (w2 & iid & [-> ->]%fresh_id_ok & H).
    apply bind_ok in H as (w2 & key & [_ ->]%of_res_ok & [Hx ->]%of_res_ok).
    cbn [gateway set_ledger ledger orders intents rejections set_serial].
    split; [done|]. split; [done|]. exists b. rewrite Ee. split; [done|]. split; [done|].
    apply rejected_intent_row in Hx as [Hst _]. split; [done|]. split; [|done].
    by eapply ineligible_reasons.
Qed.

(** ** Queueing *)

Context {plan_route : PlanRoute}.

Abbreviation queue :=
  (queue_live_sim_order_command new_message_id py_repr hash_payload sql_sum).

(** What no reason against queueing an intent says. *)
Record queue_clear (w : world) (rows : list reconcile_row) (id : string) (x : LiveSimIntent)
    (s : BuySettings) (now : Z) : Prop := {
  queue_gate : passed (check_live_sim_safety_gate sql_sum (ledger w) (gateway w) (gateway_status w)
                 (buy_gate s) NEW_BUY (is_buy_intent x) (is_buy_intent x) (Some (li_trade_date x)) now)
               = true;
  queue_reconciled : is_buy_intent x = true ->
    _latest_reconcile_blocks_new_buy (gateway w) rows (reconcile_settings s) now = Ok false;
  queue_sell : is_buy_intent x = false -> live_sim_allow_sell s = true;
  queue_limit : li_order_type x = LiveSimOrderType.LIMIT;
  queue_active : _active_order_count (ledger w) < live_sim_max_active_orders s;
  queue_single : exists n, _recent_active_live_sim_count_for_code (ledger w) (li_code x) s (Some id) now
                   = Ok n /\ n <= 0
}.

Lemma gate_codes_passed (gt : RoutingGate) l c v s p a b d now :
  _merge_reasons (gate_reason_codes (check_live_sim_safety_gate sql_sum l c v s p a b d now)) = [] ->
  passed (check_live_sim_safety_gate sql_sum l c v s p a b d now) = true.
Proof. intros H%merge_reasons_again. cbn [passed check_live_sim_safety_gate]. cbv zeta. by rewrite H. Qed.

Lemma queue_reasons_nil w rows id x s now :
  queue_reasons sql_sum w rows id x s now = Ok [] -> queue_clear w rows id x s now.
Proof.
  unfold queue_reasons. intros (mm & Hmm & (n & Hn & [= H])%res_bind_ok)%res_bind_ok.
  rewrite !merge_reasons_app, !merge_reason_if_iff in H by reflexivity.
  destruct H as (Hg & -> & Hsell & Htype & Hact & Hdup).
  apply Z.leb_gt in Hact. apply Z.ltb_ge in Hdup. apply bool_decide_eq_false_1 in Htype.
  constructor; eauto.
  - by apply gate_codes_passed.
  - intros E. by rewrite E in Hmm.
  - intros E. rewrite E in Hsell. by apply negb_false_iff in Hsell.
  - by destruct (li_order_type x).
Qed.

(** The order record of a queued intent. *)
Lemma buy_order_row oid cid id x now o :
  is_text_field cid ->
  LiveSimOrderRecord_post_init (buy_order_args oid cid id x now) = Ok o ->
  lo_gateway_command_id o = Some cid /\ lo_side o = li_side x /\ lo_quantity o = li_quantity x /\
  lo_status o = OS.COMMAND_QUEUED /\ lo_filled_quantity o = 0 /\ lo_remaining_quantity o = li_quantity x.
Proof.
  intros Hcid. unfold LiveSimOrderRecord_post_init. cbn [buy_order_args oa_gateway_command_id oa_side
    oa_quantity oa_status oa_filled_quantity oa_remaining_quantity].
  change (JStr cid) with (opt_str (Some cid)). rewrite opt_text_again by done. intros H. res_inv H.
  injection H as <-. cbn -[parse_side].
  repeat match goal with
  | H : Ok _ = Ok _ |- _ => injection H as <-
  | H : parse_side _ = Ok _ |- _ => rewrite side_again in H
  | H : parse_order_status _ = Ok _ |- _ => vm_compute in H
  | H : non_negative_int (JInt _) _ = Ok _ |- _ => apply int_value in H as ->
  end.
  by split_and!.
Qed.

Lemma enqueue_intent_ok id x s now w w' o :
  enqueue_intent new_message_id py_repr hash_payload id x s now w = (w', Ok (inr o)) ->
  exists c, commands (gateway w) !! gc_command_id c = None /\
    commands (gateway w') = <[gc_command_id c := c]> (commands (gateway w)) /\
    gc_status c = GS.QUEUED /\ gc_payload c = _build_gateway_send_order_payload x s /\
    validate_command_type_allowed py_repr (gc_command_type c) (Some (command_of c)) = None /\
    orders (ledger w') = orders (ledger w) ++ [{| or_rec := o; or_trade_date := li_trade_date x |}] /\
    lo_gateway_command_id o = Some (gc_command_id c) /\ lo_side o = li_side x /\
    lo_quantity o = li_quantity x /\ lo_status o = OS.COMMAND_QUEUED /\ lo_filled_quantity o = 0 /\
    lo_remaining_quantity o = li_quantity x /\
    (exists r, r ∈ intents (ledger w) /\ li_live_sim_intent_id r = id /\ li_status r = IS.CREATED) /\
    intents (ledger w') = update_rows (fun r => String.eqb (li_live_sim_intent_id r) id && is_created r)
                            (intent_queued (gc_command_id c)) (intents (ledger w)) /\
    positions (ledger w') = positions (ledger w) /\ executions (ledger w') = executions (ledger w).
Proof.
  unfold enqueue_intent. intros H. apply bind_ok in H as (w1 & r & Henq & H).
  destruct (er_accepted r) eqn:Eacc; cbn [negb] in H; [|done].
  destruct (enqueue_accepted _ _ _ _ _ _ _ _ _ _ _ Henq Eacc)
    as (c & Hn & Hcs & Hp & _ & Hst & Hv & Hid & Ht & Hl).
  apply bind_ok in H as (w2 & oid & [-> ->]%fresh_id_ok & H).
  apply bind_ok in H as (w2 & o' & [Ho ->]%of_res_ok & H).
  apply bind_ok in H as (w2 & [] & (l & Hins & ->)%try_ledger_ok & H).
  apply bind_ok in H as (w2 & w3 & [= <- <-] & H).
  apply bind_ok in H as (w2 & [] & [Hex ->]%require_ok & H).
  apply bind_ok in H as (w2 & [] & [= <-] & [= <- <-]).
  rewrite Hid in *. apply buy_order_row in Ho as (? & ? & ? & ? & ? & ?); [|done].
  apply res_bind_ok in Hins as (_ & _ & (rows & Hrows & [= <-])%res_bind_ok).
  apply insert_row_ok in Hrows as [-> _].
  cbn [gateway set_ledger ledger set_orders orders intents positions executions set_intents
    update_intent] in *. rewrite Hl in *. cbn [intents orders positions executions set_serial] in *.
  exists c. split_and!; try done.
  apply existsb_exists in Hex as (r0 & Hr0%list_elem_of_In & [E1%String.eqb_eq E2%bool_decide_eq_true_1]%andb_true_iff).
  by exists r0.
Qed.

(** The checks of a buy before its command pass without writing. *)
Lemma lifecycle_boundary_ok x w w' u :
  _enforce_buy_execution_lifecycle_queue_boundary new_message_id x w = (w', Ok u) ->
  w' = w /\ exists n, _unresolved_lifecycle_error_count w = Ok n /\ n <= 0.
Proof.
  unfold _enforce_buy_execution_lifecycle_queue_boundary. intros (w1 & ? & [= <- <-] & H)%bind_ok.
  destruct (_unresolved_lifecycle_error_count w) as [n|e].
  - destruct (Z.ltb_spec n 1).
    + injection H as <-. split; [done|]. exists n. split; [done|lia].
    + by apply bind_ok in H as (w2 & ? & _ & H).
  - by apply bind_ok in H as (w2 & ? & _ & H).
Qed.

Lemma plan_binding_ok rows x required now w w' u :
  check_plan_binding new_message_id rows x required now w = (w', Ok u) ->
  w' = w /\ (names_plan x = true -> plan_binding_reasons w rows x required now = Ok []).
Proof.
  unfold check_plan_binding. destruct (names_plan x || _) eqn:E; intros H.
  - apply bind_ok in H as (w1 & ? & [= <- <-] & H).
    apply bind_ok in H as (w1 & rs & [Hrs ->]%of_res_ok & H).
    destruct rs as [|r rs]; [by injection H as <-|].
    by apply bind_ok in H as (w2 & ? & _ & H).
  - injection H as <-. split; [done|]. intros En. by rewrite En in E.
Qed.

Lemma savepoint_ok {A B} (m : M (A + B)) w w' b :
  savepoint m w = (w', Ok (inr b)) -> m w = (w', Ok (inr b)).
Proof. unfold savepoint. destruct (m w) as [w1 [[a|b']|e]]; done. Qed.

(** A queueing that succeeds passed its checks without writing and ran the
    transaction. *)
Lemma queue_ok rows id s required now w w' o :
  queue rows id s required now w = (w', Ok o) ->
  exists x, get_live_sim_intent (ledger w) (py_strip id) = Some x /\ li_status x = IS.CREATED /\
    queue_reasons sql_sum w rows id x s now = Ok [] /\
    (is_buy_intent x = true ->
     (exists n, _unresolved_lifecycle_error_count w = Ok n /\ n <= 0) /\
     (names_plan x = true -> plan_binding_reasons w rows x required now = Ok [])) /\
    enqueue_intent new_message_id py_repr hash_payload id x s now w = (w', Ok (inr o)).
Proof.
  unfold queue_live_sim_order_command. intros H. apply bind_ok in H as (w0 & ? & [= <- <-] & H).
  apply bind_ok in H as (w0 & sid & [[-> _]%require_non_empty_ok ->]%of_res_ok & H).
  destruct (get_live_sim_intent _ _) as [x|] eqn:Ex; [|done].
  destruct (is_created x) eqn:Ecr; cbn [negb] in H; [|by apply bind_ok in H as (w2 & ? & _ & H)].
  apply bind_ok in H as (w0 & rs & [Hrs ->]%of_res_ok & H).
  destruct rs as [|r rs]; [|by apply bind_ok in H as (w2 & ? & _ & H)].
  apply bind_ok in H as (w1 & u & Hpre & H).
  assert (w1 = w /\ (is_buy_intent x = true ->
     (exists n, _unresolved_lifecycle_error_count w = Ok n /\ n <= 0) /\
     (names_plan x = true -> plan_binding_reasons w rows x required now = Ok []))) as [-> Hbuy].
  { destruct (is_buy_intent x); [|by injection Hpre as <- _].
    apply bind_ok in Hpre as (w2 & ? & [-> Hlc]%lifecycle_boundary_ok & [-> Hpl]%plan_binding_ok). done. }
  apply bind_ok in H as (w1 & [msg|o'] & H1 & H); [by apply bind_ok in H as (w2 & ? & _ & H)|].
  injection H as <- <-. apply savepoint_ok in H1. apply bool_decide_eq_true_1 in Ecr.
  exists x. split_and!; done.
Qed.

(** C6. A buy that is queued was checked again at that moment: the intent was
    still CREATED; the gate passed, the last reconciliation did not block, no
    blocker of the execution lifecycle stood, the binding to its order plan (if it
    names one) held, the order is a LIMIT order, it is not a duplicate, and with it
    the active orders are at most the allowed number.  Then one new command,
    QUEUED, with the intent's quantity and price, that the queue's validators
    accept; one new order, unfilled, that names it; and the intent COMMAND_QUEUED
    appear together, and nothing else of orders, positions or executions changes. *)
Theorem queued_buy_is_checked rows id s required now w w' o :
  queue rows id s required now w = (w', Ok o) ->
  exists x c,
    get_live_sim_intent (ledger w) (py_strip id) = Some x /\ li_status x = IS.CREATED /\
    queue_clear w rows id x s now /\
    (is_buy_intent x = true ->
     (exists n, _unresolved_lifecycle_error_count w = Ok n /\ n <= 0) /\
     (names_plan x = true -> plan_binding_reasons w rows x required now = Ok [])) /\
    commands (gateway w) !! gc_command_id c = None /\
    commands (gateway w') = <[gc_command_id c := c]> (commands (gateway w)) /\
    gc_status c = GS.QUEUED /\ gc_payload c = _build_gateway_send_order_payload x s /\
    validate_command_type_allowed py_repr (gc_command_type c) (Some (command_of c)) = None /\
    orders (ledger w') = orders (ledger w) ++ [{| or_rec := o; or_trade_date := li_trade_date x |}] /\
    lo_gateway_command_id o = Some (gc_command_id c) /\ lo_side o = li_side x /\
    lo_quantity o = li_quantity x /\ lo_filled_quantity o = 0 /\
    intents (ledger w') = update_rows (fun r => String.eqb (li_live_sim_intent_id r) id && is_created r)
                            (intent_queued (gc_command_id c)) (intents (ledger w)) /\
    positions (ledger w') = positions (ledger w) /\ executions (ledger w') = executions (ledger w) /\
    _active_order_count (ledger w') <= live_sim_max_active_orders s.
Proof.
  intros (x & Hx & Hst & Hrs & Hbuy & H)%queue_ok. apply enqueue_intent_ok in H
    as (c & Hn & Hcs & Hq & Hp & Hv & Ho & Hcmd & Hside & Hqty & Hos & Hf & Hr & _ & Hi & Hpos & Hex).
  apply queue_reasons_nil in Hrs. exists x, c. split_and!; try done.
  destruct Hrs as [_ _ _ _ Hact _]. unfold _active_order_count, count_rows in *. rewrite Ho.
  rewrite List.filter_app, length_app. cbn [List.filter].
  destruct (is_active_order _); cbn [length]; lia.
Qed.

(** What a refusal leaves: queue, orders, positions and executions. *)
Definition untouched (w w' : world) : Prop :=
  gateway w' = gateway w /\ orders (ledger w') = orders (ledger w) /\
  positions (ledger w') = positions (ledger w) /\ executions (ledger w') = executions (ledger w).

Lemma untouched_refl w : untouched w w.
Proof. done. Qed.

Lemma refuse_keeps {A} x rs msg w w' (r : res A) :
  refuse new_message_id x rs msg w = (w', r) ->
  untouched w w' /\ intents (ledger w') = intents (ledger w) /\ exists e, r = Err e.
Proof. unfold refuse, _save_rejection. cbn. intros [= <- <-]. repeat split. by eexists. Qed.

Lemma record_error_same i o c m l l' :
  _record_error new_message_id py_repr i o c m l = Ok l' ->
  intents l' = intents l /\ orders l' = orders l /\ positions l' = positions l /\
  executions l' = executions l.
Proof.
  unfold _record_error, _record_lifecycle_event, LiveSimEvents.fresh. intros H. bind_inv H.
  by injection H as <-.
Qed.

Lemma lifecycle_boundary_keeps x w w' r :
  _enforce_buy_execution_lifecycle_queue_boundary new_message_id x w = (w', r) ->
  untouched w w' /\ intents (ledger w') = intents (ledger w).
Proof.
  unfold _enforce_buy_execution_lifecycle_queue_boundary, bind, get.
  destruct (_unresolved_lifecycle_error_count w) as [n|e]; [destruct (n <? 1)|].
  1: by intros [= <- _].
  all: by intros (? & ? & _)%refuse_keeps.
Qed.

Lemma savepoint_keeps {A B} (m : M (A + B)) w w' r :
  savepoint m w = (w', r) -> (forall b, r <> Ok (inr b)) ->
  untouched w w' /\ intents (ledger w') = intents (ledger w).
Proof.
  unfold savepoint. destruct (m w) as [w1 [[a|b]|e]]; intros [= <- <-] H; [done| |done].
  by destruct (H b).
Qed.

Lemma plan_binding_keeps rows x required now w w' r :
  check_plan_binding new_message_id rows x required now w = (w', r) ->
  untouched w w' /\
  (intents (ledger w') = intents (ledger w) \/
   (names_plan x = true \/ required <> None) /\ exists rs, intents (ledger w') =
     update_rows (fun i => String.eqb (li_live_sim_intent_id i) (li_live_sim_intent_id x) && is_created i)
       (intent_rejected rs) (intents (ledger w))).
Proof.
  unfold check_plan_binding. destruct (names_plan x || _) eqn:E; [|intros [= <- _]; by split; [done|left]].
  unfold bind, get, of_res. destruct (plan_binding_reasons _ _ _ _ _) as [[|b bs]|e];
    [intros [= <- _]; by split; [done|left]| |intros [= <- _]; by split; [done|left]].
  unfold _reject_bound_order_plan_enqueue, _save_rejection, bind. cbn. intros [= <- _]. split; [done|].
  right. split; [|by eexists]. apply orb_true_iff in E as [E|E]; [auto|]. right. by destruct required.
Qed.

(** C12. Queueing is all or nothing: a call that raises leaves the command queue,
    the orders, the positions and the executions as they were, whatever raised and
    wherever; the intents too, except that an intent bound to an order plan whose
    binding no longer holds becomes REJECTED. *)
Theorem refused_queue_changes_nothing rows id s required now w w' e :
  queue rows id s required now w = (w', Err e) ->
  untouched w w' /\
  (intents (ledger w') = intents (ledger w) \/
   exists x rs, get_live_sim_intent (ledger w) (py_strip id) = Some x /\
     (names_plan x = true \/ required <> None) /\
     intents (ledger w') =
       update_rows (fun i => String.eqb (li_live_sim_intent_id i) (li_live_sim_intent_id x) && is_created i)
         (intent_rejected rs) (intents (ledger w))).
Proof.
  unfold queue_live_sim_order_command. unfold bind at 1, get at 1.
  unfold of_res, bind at 1. destruct (require_non_empty id _) as [sid|] eqn:Hid; [|intros [= <- _]; split; [done|by left]].
  apply require_non_empty_ok in Hid as [-> _].
  destruct (get_live_sim_intent _ _) as [x|] eqn:Ex; [|intros [= <- _]; split; [done|by left]].
  destruct (is_created x); cbn [negb].
  2: { unfold bind, try_ledger. destruct (_record_error _ _ _ _ _ _ _) as [l|] eqn:El; intros [= <- _];
       [|by split; [done|left]]. apply record_error_same in El as (? & ? & ? & ?).
       split; [done|by left]. }
  unfold bind at 1. destruct (queue_reasons _ _ _ _ _ _ _) as [[|r rs]|] eqn:Er;
    [|intros (? & ? & _)%refuse_keeps; auto|intros [= <- _]; by split; [done|left]].
  unfold bind at 1. match goal with |- match ?m with _ => _ end = _ -> _ => destruct m as [w1 r1] eqn:E1 end.
  intros H.
  assert (untouched w w1 /\
    (intents (ledger w1) = intents (ledger w) \/
     (names_plan x = true \/ required <> None) /\ exists rs, intents (ledger w1) =
       update_rows (fun i => String.eqb (li_live_sim_intent_id i) (li_live_sim_intent_id x) && is_created i)
         (intent_rejected rs) (intents (ledger w))) /\
    (is_ok r1 = true -> w1 = w)) as (Hun & Hin & Hw1).
  { destruct (is_buy_intent x); [|injection E1 as <- <-; split_and!; [done|by left|done]].
    unfold bind in E1. destruct (_enforce_buy_execution_lifecycle_queue_boundary _ _ _) as [w2 [u|e']] eqn:E2.
    - apply lifecycle_boundary_ok in E2 as [-> _]. destruct r1 as [u'|e']; cbn.
      + apply plan_binding_ok in E1 as [-> _]. split_and!; [done|by left|done].
      + apply plan_binding_keeps in E1 as [? ?]. split_and!; done.
    - injection E1 as <- <-. apply lifecycle_boundary_keeps in E2 as [? ?]. split_and!; [done|by left|done]. }
  destruct r1 as [u|e1].
  2: { injection H as <- _. split; [done|]. destruct Hin as [|(Hr & rs & Hi)]; [by left|].
       right. by exists x, rs. }
  rewrite Hw1 in H by done. clear w1 Hun Hin Hw1 E1. unfold bind in H.
  destruct (savepoint _ _) as [w2 [[msg|o]|e2]] eqn:E2.
  - apply savepoint_keeps in E2 as [Hun Hi]; [|done]. apply refuse_keeps in H as (Hun' & Hi' & _).
    split; [|left; congruence]. unfold untouched in *. intuition congruence.
  - done.
  - injection H as <- <-. apply savepoint_keeps in E2 as [Hun Hi]; [|done]. split; [done|by left].
Qed.
End Buys.

(** ** A sample buy *)

#[local] Existing Instance sample_routing.
#[local] Instance sample_lifecycle_status : ExecutionLifecycle :=
  {| build_live_sim_execution_lifecycle_status _ := Ok (JObj
       [("effective_blocker_count", JInt 0); ("qualification_status", JStr "PASS");
        ("status", JStr "PASS"); ("mirror_consistent", JBool true);
        ("inventory_count_consistent", JBool true); ("read_only", JBool true);
        ("observe_only", JBool true); ("no_order_side_effects", JBool true);
        ("real_order_allowed", JBool false)]) |}.
#[local] Instance sample_plan_route : PlanRoute :=
  {| plan_binding_reasons _ _ _ _ _ := Ok ["ORDER_PLAN_BINDING_MISSING"] |}.

(** At most one active order and one position, 100,000 won an order. *)
Definition sample_buy_settings (kill : bool) : BuySettings :=
  {| reconcile_settings :=
       {| lifecycle_settings := sample_lifecycle kill;
          live_sim_reconcile_block_new_buy_on_mismatch := true;
          live_sim_reconcile_allow_exit_on_mismatch := true;
          live_sim_reconcile_stale_order_sec := 300;
          live_sim_reconcile_notional_tolerance := f_of_Z 1;
          live_sim_reconcile_request_broker_snapshot_enabled := false;
          broker_snapshot_stale_sec := 120 |};
     live_sim_require_candidate_context_ready := true; live_sim_require_strategy_matched := true;
     live_sim_require_risk_observe_pass := true; live_sim_require_fresh_tick := true;
     live_sim_require_dry_run_evidence := false; live_sim_default_order_type := "LIMIT";
     live_sim_allow_buy := true; live_sim_allow_sell := false; live_sim_allow_market_order := false;
     live_sim_allow_limit_order := true; live_sim_buy_price_offset_ticks := 1;
     live_sim_max_order_notional := f_of_Z 100000; live_sim_max_active_orders := 1;
     live_sim_max_active_positions := 1; live_sim_position_allow_scale_in := false;
     live_sim_duplicate_cooldown_sec := 600; live_sim_order_ttl_sec := 60 |}.

Definition buy_now : Z := sample_now + seconds 600.

Definition sample_candidate : candidate_row :=
  {| c_candidate_instance_id := "CAND-2024-02-29-005930-1"; c_trade_date := "2024-02-29";
     c_code := "005930"; c_name := "SAMSUNG"; c_generation := 1; c_state := CS.CONTEXT_READY;
     c_previous_state := Some CS.WATCHING; c_detected_at := sample_now; c_last_seen_at := sample_now;
     c_state_updated_at := sample_now; c_closed_at := None;
     c_primary_source_type := CST.CONDITION_ENTER; c_primary_source_id := "C1"; c_source_count := 1;
     c_active_source_count := 1; c_theme_id := None; c_theme_name := None; c_theme_state := None;
     c_theme_role := None; c_market_readiness_status := None; c_tick_age_sec := None;
     c_vwap_ready := true; c_bar_1m_ready := true; c_bar_3m_ready := true; c_bar_5m_ready := true;
     c_reason_codes := [] |}.

Definition sample_observations : observations :=
  {| candidate_rows := CandidateStore.set_candidates CandidateStore.empty_store [sample_candidate];
     candidate_context := ∅;
     strategies := {["CAND-2024-02-29-005930-1" := {| st_strategy_observation_id := "strategy_1";
       st_overall_status := "MATCHED_OBSERVATION"; st_observe_only := true |}]};
     risks := {["CAND-2024-02-29-005930-1" := {| rk_risk_observation_id := "risk_1";
       rk_overall_status := "OBSERVE_PASS"; rk_observe_only := true |}]};
     dry_run_intents := []; dry_run_orders := [] |}.

Definition buy_world (l : tables) : world :=
  {| ledger := l; gateway := empty_store;
     ticks := {["005930" := {| tk_price := f_of_Z 19950; tk_event_ts := datetime_to_wire buy_now;
                        tk_spread_ticks := 1 |}]};
     gateway_status := list_to_map
       [("last_heartbeat_at", datetime_to_wire buy_now); ("gateway_orderable", "true")] |}.

Abbreviation sample_create_buy kill :=
  (create_live_sim_intent sample_id sample_sum sample_observations []
     "CAND-2024-02-29-005930-1" (sample_buy_settings kill) "manual" None [] buy_now).
Abbreviation sample_queue_buy kill :=
  (queue_live_sim_order_command sample_id sample_repr sample_hash sample_sum [] "live_sim_intent_0"
     (sample_buy_settings kill) None buy_now).

Definition sample_created : world :=
  Eval vm_compute in fst (sample_create_buy false (buy_world empty_tables)).

(** Five shares at the next tick above 19,950 won. *)
Example sample_buy_created :
  map (fun x => (li_quantity x, li_limit_price x, li_notional x, li_idempotency_key x))
    (intents (ledger sample_created)) =
  [(5, Some (f_of_Z 19960), f_of_Z 99800,
    "live_sim:2024-02-29:005930:CAND-2024-02-29-005930-1:strategy_1:risk_1")].
Proof. vm_compute. reflexivity. Qed.

Definition sample_queued_buy : world := Eval vm_compute in fst (sample_queue_buy false sample_created).

Example sample_buy_queued :
  (map li_status (intents (ledger sample_queued_buy)),
   map order_status (orders (ledger sample_queued_buy)),
   map gc_status (rows (commands (gateway sample_queued_buy)))) =
  ([IS.COMMAND_QUEUED], [OS.COMMAND_QUEUED], [GS.QUEUED]).
Proof. vm_compute. reflexivity. Qed.

(** *** Witnesses *)

Definition sample_evaluation : res buy_evaluation :=
  Eval vm_compute in
  evaluate_live_sim_eligibility sample_sum (buy_world empty_tables) sample_observations []
    "CAND-2024-02-29-005930-1" (sample_buy_settings false) buy_now.

Lemma created_buy_is_sized_witness :
  exists x b c limit,
    sample_create_buy false (buy_world empty_tables) = (sample_created, Ok x) /\
    sample_evaluation = Ok b /\ be_eligible b = true /\
    sized_buy sample_sum (buy_world empty_tables) sample_observations [] (sample_buy_settings false)
      buy_now b c limit (li_quantity x).
Proof.
  assert (exists x, sample_create_buy false (buy_world empty_tables) = (sample_created, Ok x)) as [x Hx]
    by (eexists; vm_compute; reflexivity).
  destruct (created_buy_is_sized sample_id sample_sum _ _ _ _ _ _ _ _ _ _ _ eq_refl Hx)
    as (_ & _ & b & Hb & Hif).
  assert (sample_evaluation = Ok b) as Hs.
  { rewrite <- Hb. vm_compute. reflexivity. }
  assert (be_eligible b = true) as He.
  { assert (match sample_evaluation with Ok b => be_eligible b | Err _ => false end = true) as E
      by reflexivity. by rewrite Hs in E. }
  rewrite He in Hif. destruct Hif as (_ & _ & _ & c & limit & f & _ & Hsz & _).
  exists x, b, c, limit. exact (conj Hx (conj Hs (conj He Hsz))).
Defined.

Lemma queued_buy_is_checked_witness :
  exists o x c,
    sample_queue_buy false sample_created = (sample_queued_buy, Ok o) /\
    get_live_sim_intent (ledger sample_created) "live_sim_intent_0" = Some x /\
    li_status x = IS.CREATED /\
    commands (gateway sample_queued_buy) = <[gc_command_id c := c]> (commands (gateway sample_created)) /\
    _active_order_count (ledger sample_queued_buy) <= 1.
Proof.
  assert (exists o, sample_queue_buy false sample_created = (sample_queued_buy, Ok o)) as [o Ho]
    by (eexists; vm_compute; reflexivity).
  destruct (queued_buy_is_checked sample_id sample_repr sample_hash sample_sum _ _ _ _ _ _ _ _ Ho)
    as (x & c & Hx & Hst & _ & _ & _ & Hc & _ & _ & _ & _ & _ & _ & _ & _ & _ & _ & _ & Hn).
  exists o, x, c. exact (conj Ho (conj Hx (conj Hst (conj Hc Hn)))).
Defined.

(** With the kill switch on the queueing raises. *)
Definition sample_refused_buy : world := Eval vm_compute in fst (sample_queue_buy true sample_created).

Lemma refused_queue_changes_nothing_witness :
  sample_queue_buy true sample_created =
    (sample_refused_buy, Err (ValueError "LIVE_SIM_KILL_SWITCH_ACTIVE")) /\
  untouched sample_created sample_refused_buy.
Proof.
  assert (sample_queue_buy true sample_created =
    (sample_refused_buy, Err (ValueError "LIVE_SIM_KILL_SWITCH_ACTIVE"))) as H by (vm_compute; reflexivity).
  destruct (refused_queue_changes_nothing sample_id sample_repr sample_hash sample_sum _ _ _ _ _ _ _ _ H)
    as [Hu _].
  exact (conj H Hu).
Defined.

(** ** Filled buys count as positions *)

Lemma filled_buy_counts l o :
  o ∈ orders l -> filled_buy o = true -> lo_code (or_rec o) ∈ active_codes l.
Proof.
  intros Ho Hf. unfold active_codes. rewrite elem_of_remove_dups, elem_of_app. right.
  apply list_elem_of_fmap. exists o. split; [done|].
  apply list_elem_of_In, filter_In. by rewrite <- list_elem_of_In.
Qed.

(** A filled buy order counts towards the limit of active positions whatever
    became of its position: with a limit of one, no candidate of any code is
    eligible while one stands, also when the shares were sold long ago. *)
Lemma filled_buy_blocks_all (gt : RoutingGate) (lc : ExecutionLifecycle) sql_sum w ob rows id s now b o :
  o ∈ orders (ledger w) -> filled_buy o = true -> live_sim_max_active_positions s <= 1 ->
  evaluate_live_sim_eligibility sql_sum w ob rows id s now = Ok b -> be_eligible b = false.
Proof.
  intros Ho Hf Hmax Hb. apply not_true_iff_false. intros He.
  pose proof (proj1 (eligibility_exact (fun p _ => p) _ _ _ _ _ _ _ _ Hb) He)
    as (_ & ? & ? & ? & ? & ? & ? & _ & _ & _ & _ & _ & _ & _ & _ & _ & Hc).
  destruct Hc as [_ _ _ _ _ _ _ _ _ _ _ _ _ _ Hact]. unfold _active_position_count in Hact. pose proof (filled_buy_counts _ _ Ho Hf) as Hk.
  destruct (active_codes (ledger w)) as [|k ks]; [by apply elem_of_nil in Hk|].
  cbn [length] in Hact. lia.
Qed.

(** The shares bought were sold and the position closed: no buy is eligible. *)
Definition sold_out : tables :=
  update_order "order_1" (order_status_only OS.FILLED)
  (set_positions (map (fun p => position_columns 0 0 (p_avg_entry_price p) f_zero f_zero f_zero None None
    None None None PS.CLOSED (Some "2024-02-29T00:05:00Z") "2024-02-29T00:05:00Z" p)
    (positions sample_filled)) sample_filled).

Example sold_out_blocks :
  (map (fun p => (p_status p, p_quantity p)) (positions sold_out),
   map order_status (orders sold_out),
   match evaluate_live_sim_eligibility sample_sum (buy_world sold_out) sample_observations []
           "CAND-2024-02-29-005930-1" (sample_buy_settings false) (buy_now + seconds 86400) with
   | Ok b => mem "ACTIVE_POSITION_LIMIT_EXCEEDED" (be_reason_codes b)
   | Err _ => false
   end) = ([(PS.CLOSED, 0)], [OS.FILLED], true).
Proof. vm_compute. reflexivity. Qed.
