(* ===== verification/PipelineLineage.v ===== *)
(** * The lineage of an observation ([services/pipeline_coherency.py], its first
    part)

    Every stage of the buy pipeline (strategy, risk, entry timing, order plan)
    stores what it was computed from: a watermark of the source rows, the hash of
    the watermark, the run and the time of the source.  This file models how the
    watermark of a candidate is taken, how a stored lineage is read back, and the
    assessments that compare the lineages of the stages of one plan.

    A row is its columns, a JSON object ([payload]); tables are lists of rows.
    [json.loads], [str] of floats and containers, [canonical_json] as text and
    SHA-256 are parameters.  The second part of the source file, reports over the
    stages of a day, is not modelled. *)
From S2P Require Import Prelude PyFloat BrokerUtils WireTime GatewayModels LiveSimModels ExitPolicy.
From S2P Require Import SafetyGate.
From Stdlib Require Import SpecFloat.
Local Open Scope Z_scope.

(** ** Values *)

(** [d.get(key)]. *)
Definition getv (key : string) (d : payload) : json := default JNull (jget key d).

(** A number for comparison: an int, a bool as an int, or a float. *)
Definition json_number (v : json) : option pynum :=
  match v with
  | JBool b => Some (PInt (if b then 1 else 0))
  | JInt n => Some (PInt n)
  | JFloat x => Some (PFloat x)
  | _ => None
  end.
Definition num_eq (a b : pynum) : bool :=
  match a, b with
  | PInt n, PInt m => n =? m
  | PFloat x, PFloat y => f_eq x y
  | PInt n, PFloat x | PFloat x, PInt n => f_geZ x n && f_leZ x n
  end.

(** [a == b].  The fields of an object are those of a [dict]: no key twice. *)
Fixpoint py_eq (a b : json) : bool :=
  match a, b with
  | JNull, JNull => true
  | JStr s, JStr t => String.eqb s t
  | JList l, JList m =>
      (fix list_eq (l m : list json) : bool :=
         match l, m with
         | [], [] => true
         | x :: l, y :: m => py_eq x y && list_eq l m
         | _, _ => false
         end) l m
  | JObj l, JObj m =>
      (length l =? length m)%nat &&
      (fix fields_eq (l : list (string * json)) : bool :=
         match l with
         | [] => true
         | (k, v) :: l => match jget k m with Some w => py_eq v w | None => false end && fields_eq l
         end) l
  | _, _ =>
      match json_number a, json_number b with
      | Some x, Some y => num_eq x y
      | _, _ => false
      end
  end.

(** Equality of two columns in SQL; NULL equals nothing. *)
Definition sql_same (a b : json) : bool :=
  match a, b with JNull, _ | _, JNull => false | _, _ => py_eq a b end.

(** [except (TypeError, ValueError)]; [json.JSONDecodeError] is a [ValueError]. *)
Definition is_value_error (e : exn) : bool :=
  match e with
  | ValueError _ => true
  | OtherError tag => String.eqb tag "TypeError"
  | _ => false
  end.
Definition on_value_error {A} (r : res A) (d : A) : res A :=
  match r with Err e => if is_value_error e then Ok d else Err e | _ => r end.

(** ** Tables *)

Record pipeline_tables := {
  candidates : list payload;
  candidate_context_latest : list payload;
  market_ticks_latest : list payload;
  market_minute_bars : list payload;
  theme_latest_snapshots : list payload;
  candidate_condition_fusion : list payload;
  strategy_observations : list payload;
  strategy_observations_latest : list payload;
  risk_observations : list payload;
  risk_observations_latest : list payload;
  entry_timing_evaluations : list payload;
  order_plan_drafts : list payload;
  order_plan_drafts_latest : list payload
}.

(** [SELECT * FROM table WHERE key = ?], its [fetchone]; no row is the empty one,
    as [_row_dict] reads it. *)
Definition fetch_row (table : list payload) (key value : string) : payload :=
  default [] (find (fun r => sql_same (getv key r) (JStr value)) table).

Section Lineage.
Context (py_repr : json -> string) (json_loads : string -> res json)
  (canonical_json : payload -> string) (sha256 : string -> string).

(** [hashlib.sha256(canonical_json(value))]. *)
Definition hash_mapping (value : payload) : string := sha256 (canonical_json value).

(** [_json_object]: what is no JSON object is an empty one. *)
Definition json_object_or_empty (value : json) : res payload :=
  match value with
  | JObj fields => Ok fields
  | _ =>
      if negb (jtrue value) then Ok [] else
      let* loaded := on_value_error (json_loads (py_str py_repr value)) JNull in
      Ok (match loaded with JObj fields => fields | _ => [] end)
  end.

Fixpoint _first_text (values : list json) : option string :=
  match values with
  | [] => None
  | JNull :: values => _first_text values
  | value :: values =>
      let text := py_strip (py_str py_repr value) in
      if str_true text then Some text else _first_text values
  end.

(** [1e300]. *)
Definition invalid_age_sec : float := f_of_Z (10 ^ 300).

Definition _age_seconds (value : json) (now : Z) : res float :=
  if negb (jtrue value) then Ok invalid_age_sec else
  let* observed :=
    on_value_error (let* t := parse_timestamp value "source_observed_at" in Ok (Some t)) None in
  match observed with
  | None => Ok invalid_age_sec
  | Some observed =>
      let* delta_sec := total_seconds (now - observed) in
      Ok (if f_lt delta_sec (f_of_Z (-5)) then invalid_age_sec
          else f_round 3 (f_max delta_sec f_zero))
  end.

(** Stripped, upper-cased, blanks dropped, first occurrences kept: [_dedupe]. *)
Definition dedupe_reasons (values : list string) : list string :=
  dedupe (List.filter str_true (map (fun v => py_upper (py_strip v)) values)).

(** ** The watermark of a candidate's sources *)

(** [WHERE b.code = c.code AND b.exchange = 'KRX' AND b.interval_sec = ? ORDER BY
    b.bucket_start DESC LIMIT 1]; bars that start together in table order. *)
Definition latest_bar (t : pipeline_tables) (code : json) (interval_sec : Z) : payload :=
  let start b := match getv "bucket_start" b with JStr s => s | _ => EmptyString end in
  default [] (head (stable_sort (fun a b => text_le (start b) (start a))
    (List.filter (fun b => sql_same (getv "code" b) code && sql_same (getv "exchange" b) (JStr "KRX") &&
                           sql_same (getv "interval_sec" b) (JInt interval_sec))
       (market_minute_bars t)))).

(** The row of a left join: the first one that fits, or NULLs. *)
Definition joined (fits : payload -> bool) (table : list payload) : payload :=
  default [] (find fits table).

(** The row of the candidate with what is joined to it; no candidate, no row. *)
Definition candidate_source_row (t : pipeline_tables) (candidate_instance_id : string) : payload :=
  match fetch_row (candidates t) "candidate_instance_id" candidate_instance_id with
  | [] => []
  | c =>
      let x := joined (fun r => sql_same (getv "candidate_instance_id" r)
                                  (getv "candidate_instance_id" c)) (candidate_context_latest t) in
      let tick := joined (fun r => sql_same (getv "code" r) (getv "code" c) &&
                                   sql_same (getv "exchange" r) (JStr "KRX")) (market_ticks_latest t) in
      let th := joined (fun r => sql_same (getv "theme_id" r) (getv "theme_id" c))
                  (theme_latest_snapshots t) in
      let f := joined (fun r => sql_same (getv "trade_date" r) (getv "trade_date" c) &&
                                sql_same (getv "code" r) (getv "code" c))
                 (candidate_condition_fusion t) in
      let bar n := latest_bar t (getv "code" c) n in
      [("candidate_instance_id", getv "candidate_instance_id" c);
       ("trade_date", getv "trade_date" c); ("code", getv "code" c); ("state", getv "state" c);
       ("state_updated_at", getv "state_updated_at" c); ("last_seen_at", getv "last_seen_at" c);
       ("market_context_snapshot_id", getv "market_context_snapshot_id" x);
       ("market_context_json", getv "market_context_json" x);
       ("theme_context_json", getv "theme_context_json" x); ("refreshed_at", getv "refreshed_at" x);
       ("tick_event_id", getv "event_id" tick); ("tick_event_ts", getv "event_ts" tick);
       ("tick_exchange", getv "exchange" tick);
       ("bar_1m_bucket_start", getv "bucket_start" (bar 60));
       ("bar_1m_updated_at", getv "updated_at" (bar 60));
       ("bar_3m_bucket_start", getv "bucket_start" (bar 180));
       ("bar_3m_updated_at", getv "updated_at" (bar 180));
       ("bar_5m_bucket_start", getv "bucket_start" (bar 300));
       ("bar_5m_updated_at", getv "updated_at" (bar 300));
       ("theme_snapshot_id", getv "snapshot_id" th); ("theme_calculated_at", getv "calculated_at" th);
       ("condition_event_id", getv "latest_event_id" f); ("condition_updated_at", getv "updated_at" f)]
  end.

(** The watermark: what of the row a later change of a source would change. *)
Definition source_watermark_of (candidate_instance_id : string) (data market_context theme_context : payload)
    : payload :=
  let col key := getv key data in
  let bar n := JObj [("bucket_start", col ("bar_" +:+ n +:+ "_bucket_start"));
                     ("updated_at", col ("bar_" +:+ n +:+ "_updated_at"))] in
  [("candidate", JObj
     [("candidate_instance_id", JStr candidate_instance_id); ("state", col "state");
      ("state_updated_at", col "state_updated_at"); ("last_seen_at", col "last_seen_at")]);
   ("candidate_context", JObj
     [("refreshed_at", col "refreshed_at");
      ("market_context_snapshot_id", col "market_context_snapshot_id");
      ("market_context_watermark_hash", getv "source_watermark_hash" market_context)]);
   ("market_data", JObj
     [("event_id", col "tick_event_id"); ("event_ts", col "tick_event_ts");
      ("exchange", col "tick_exchange");
      ("bars", JObj [("60", bar "1m"); ("180", bar "3m"); ("300", bar "5m")])]);
   ("theme", JObj
     [("snapshot_id", opt_str (_first_text [col "theme_snapshot_id"; getv "snapshot_id" theme_context;
                                            getv "theme_snapshot_id" theme_context]));
      ("calculated_at", opt_str (_first_text [col "theme_calculated_at";
                                              getv "calculated_at" theme_context;
                                              getv "snapshot_at" theme_context]))]);
   ("condition_fusion", JObj
     [("event_id", col "condition_event_id"); ("updated_at", col "condition_updated_at")])].

Definition resolve_candidate_source_lineage (t : pipeline_tables) (candidate_instance_id : string)
    (source_run_id : option string) (generated_by : string)
    (fallback_trade_date fallback_observed_at : option string) (now : Z) : res payload :=
  let data := candidate_source_row t candidate_instance_id in
  let* market_context := json_object_or_empty (getv "market_context_json" data) in
  let* theme_context := json_object_or_empty (getv "theme_context_json" data) in
  let source_observed_at := opt_str (_first_text
    [getv "tick_event_ts" data; getv "refreshed_at" data; opt_str fallback_observed_at;
     getv "state_updated_at" data; getv "last_seen_at" data]) in
  let watermark := source_watermark_of candidate_instance_id data market_context theme_context in
  let watermark_json := canonical_json watermark in
  let watermark_hash := sha256 watermark_json in
  let resolved_run_id :=
    match _first_text [opt_str source_run_id] with
    | Some id => id
    | None => "pipeline_source:" +:+ String.substring 0 20 watermark_hash
    end in
  let* age := _age_seconds source_observed_at now in
  Ok [("source_run_id", JStr resolved_run_id); ("source_watermark", JObj watermark);
      ("source_watermark_json", JStr watermark_json);
      ("source_watermark_hash", JStr watermark_hash);
      ("source_event_id", opt_str (_first_text [getv "tick_event_id" data;
                                                getv "condition_event_id" data]));
      ("source_observed_at", source_observed_at); ("data_age_sec", JFloat age);
      ("trade_date", opt_str (_first_text [getv "trade_date" data; opt_str fallback_trade_date]));
      ("generated_by", JStr generated_by); ("candidate_instance_id", JStr candidate_instance_id);
      ("candidate_present", JBool (match data with [] => false | _ => true end))].

(** ** The lineage stored in a row *)

Definition has_text (key : string) (row : payload) : bool :=
  match _first_text [getv key row] with Some _ => true | None => false end.
Definition text_or_null (key : string) (row : payload) : json := opt_str (_first_text [getv key row]).

(** [None] where the row does not carry a whole lineage. *)
Definition lineage_from_row (row : payload) (generated_by : option string) (now : Z)
    : res (option payload) :=
  let* watermark := json_object_or_empty (getv "source_watermark" row) in
  match row, watermark with
  | [], _ | _, [] => Ok None
  | _, _ =>
      if negb (has_text "source_run_id" row && has_text "source_watermark_hash" row &&
               has_text "source_observed_at" row &&
               negb (py_eq (getv "data_age_sec" row) JNull) && has_text "generated_by" row)
      then Ok None else
      let stored := text_or_null "source_watermark_hash" row in
      let source_observed_at := text_or_null "source_observed_at" row in
      let* age := _age_seconds source_observed_at now in
      Ok (Some
        [("source_run_id", text_or_null "source_run_id" row); ("source_watermark", JObj watermark);
         ("source_watermark_json",
          JStr (let v := getv "source_watermark" row in
                if jtrue v then py_str py_repr v else "{}"));
         ("source_watermark_hash", stored);
         ("source_watermark_hash_valid", JBool (py_eq stored (JStr (hash_mapping watermark))));
         ("source_event_id", text_or_null "source_event_id" row);
         ("source_observed_at", source_observed_at); ("data_age_sec", JFloat age);
         ("trade_date", text_or_null "trade_date" row);
         ("generated_by",
          match generated_by with
          | Some g => if str_true g then JStr g else text_or_null "generated_by" row
          | None => text_or_null "generated_by" row
          end);
         ("candidate_instance_id", text_or_null "candidate_instance_id" row)])
  end.

Definition lineage_for_strategy_observation (t : pipeline_tables)
    (strategy_observation_id : option string) (generated_by : string) (now : Z)
    : res (option payload) :=
  match strategy_observation_id with
  | Some id =>
      if str_true id then
        lineage_from_row (fetch_row (strategy_observations t) "strategy_observation_id" id)
          (Some generated_by) now
      else Ok None
  | None => Ok None
  end.

(** [not lineage["source_watermark_hash_valid"]]. *)
Definition hash_invalid (lineage : payload) : bool :=
  negb (truthy (jget "source_watermark_hash_valid" lineage)).
(** The reasons of one stage: its lineage is missing, or not what was hashed. *)
Definition stage_reasons (lineage : option payload) (missing invalid_hash : string) : list string :=
  match lineage with
  | None => [missing]
  | Some l => reason_if (hash_invalid l) invalid_hash
  end.

(** ** Assessments *)

Record assessment := {
  as_status : string;
  as_reason_codes : list string;
  as_strategy_observation_id : json;
  as_risk_observation_id : json;
  as_lineage : payload
}.

Definition _lineage_assessment (status : string) (reasons : list string) (strategy risk : payload)
    (lineage : option payload) : assessment :=
  {| as_status := status; as_reason_codes := dedupe_reasons reasons;
     as_strategy_observation_id := getv "strategy_observation_id" strategy;
     as_risk_observation_id := getv "risk_observation_id" risk;
     as_lineage := default [] lineage |}.

Definition status_of (reasons : list string) : string :=
  match reasons with [] => "PASS" | _ => "FAIL" end.

(** [float(lineage["data_age_sec"] or 0.0)]; the age is a float. *)
Definition age_of (lineage : payload) : float :=
  match getv "data_age_sec" lineage with JFloat x => x | _ => f_zero end.

Definition differs (key : string) (a b : payload) : bool := negb (py_eq (getv key a) (getv key b)).

Definition assess_strategy_risk_lineage (strategy risk : payload) (max_age_sec : float)
    (expected_source_run_id : option string) (now : Z) : res assessment :=
  let missing :=
    reason_if (negb (truthy (jget "strategy_observation_id" strategy))) "STRATEGY_OBSERVATION_MISSING" ++
    reason_if (negb (truthy (jget "risk_observation_id" risk))) "RISK_OBSERVATION_MISSING" in
  match missing with
  | _ :: _ => Ok (_lineage_assessment "FAIL" missing strategy risk None)
  | [] =>
      let* strategy_lineage := lineage_from_row strategy None now in
      let* risk_lineage := lineage_from_row risk None now in
      let reasons :=
        stage_reasons strategy_lineage "STRATEGY_LINEAGE_MISSING" "STRATEGY_WATERMARK_HASH_INVALID" ++
        stage_reasons risk_lineage "RISK_LINEAGE_MISSING" "RISK_WATERMARK_HASH_INVALID" ++
        reason_if (differs "strategy_observation_id" risk strategy)
          "RISK_STRATEGY_OBSERVATION_MISMATCH" ++
        reason_if (differs "trade_date" strategy risk) "STRATEGY_RISK_TRADE_DATE_MISMATCH" ++
        match strategy_lineage, risk_lineage with
        | Some s, Some r =>
            reason_if (differs "source_watermark_hash" s r) "STRATEGY_RISK_WATERMARK_MISMATCH" ++
            reason_if (differs "source_run_id" s r) "STRATEGY_RISK_SOURCE_RUN_MISMATCH" ++
            match expected_source_run_id with
            | Some e => reason_if (str_true e && negb (py_eq (getv "source_run_id" s) (JStr e)))
                          "EXPECTED_SOURCE_RUN_MISMATCH"
            | None => []
            end ++
            reason_if (f_lt max_age_sec (age_of s)) "PIPELINE_SOURCE_STALE"
        | _, _ => []
        end in
      Ok (_lineage_assessment (status_of reasons) reasons strategy risk
            (match strategy_lineage with Some l => Some l | None => risk_lineage end))
  end.

Record candidate_assessment := {
  ca_upstream : assessment;
  ca_status : string;
  ca_reason_codes : list string;
  ca_current_lineage : payload
}.

Definition assess_candidate_pipeline_lineage (t : pipeline_tables) (candidate_instance_id : string)
    (strategy risk : payload) (max_age_sec : float) (expected_source_run_id : option string)
    (now : Z) : res candidate_assessment :=
  let* a := assess_strategy_risk_lineage strategy risk max_age_sec expected_source_run_id now in
  let upstream := as_lineage a in
  let* current := resolve_candidate_source_lineage t candidate_instance_id
    (_first_text [getv "source_run_id" upstream]) "pipeline_coherency_probe"
    (_first_text [getv "trade_date" strategy; getv "trade_date" risk]) None now in
  let reasons := dedupe_reasons (as_reason_codes a ++
    reason_if (negb (truthy (jget "candidate_present" current))) "CANDIDATE_SOURCE_MISSING" ++
    reason_if (negb (match upstream with [] => true | _ => false end) &&
               differs "source_watermark_hash" upstream current)
      "CURRENT_SOURCE_WATERMARK_MISMATCH") in
  Ok {| ca_upstream := a; ca_status := status_of reasons; ca_reason_codes := reasons;
        ca_current_lineage := current |}.

(** [d[key] = value]. *)
Definition set_item (key : string) (value : json) (d : payload) : payload := d ++ [(key, value)].

Definition lineage_for_entry_input (item_raw_context : payload) (generated_by : string) (now : Z)
    : res (option payload) :=
  let* a := json_object_or_empty (getv "pipeline_coherency" item_raw_context) in
  let* lineage := json_object_or_empty (getv "lineage" a) in
  match lineage with
  | [] => Ok None
  | _ =>
      let lineage := set_item "generated_by" (JStr generated_by) lineage in
      let* age := _age_seconds (getv "source_observed_at" lineage) now in
      let lineage := set_item "data_age_sec" (JFloat age) lineage in
      match jget "source_watermark_json" lineage with
      | Some _ => Ok (Some lineage)
      | None =>
          let* watermark := json_object_or_empty (getv "source_watermark" lineage) in
          Ok (Some (set_item "source_watermark_json" (JStr (canonical_json watermark)) lineage))
      end
  end.

Definition lineage_db_values (lineage : payload) : res (list json) :=
  let* watermark_json :=
    match getv "source_watermark_json" lineage with
    | JStr s => Ok s
    | _ => let* w := json_object_or_empty (getv "source_watermark" lineage) in Ok (canonical_json w)
    end in
  Ok [getv "source_run_id" lineage; JStr watermark_json; getv "source_watermark_hash" lineage;
      getv "source_event_id" lineage; getv "source_observed_at" lineage;
      getv "data_age_sec" lineage; getv "generated_by" lineage].

(** ** The lineage of an order plan *)

(** The identifiers the plan should name. *)
Definition expected_of (strategy risk evaluation : payload) : payload :=
  [("strategy_observation_id", getv "strategy_observation_id" strategy);
   ("risk_observation_id", getv "risk_observation_id" risk);
   ("entry_timing_evaluation_id", getv "entry_timing_evaluation_id" evaluation);
   ("source_run_id", getv "source_run_id" strategy);
   ("source_watermark_hash", getv "source_watermark_hash" strategy);
   ("source_observed_at", getv "source_observed_at" strategy);
   ("trade_date", getv "trade_date" strategy)].

Definition PLAN_LINEAGE_FIELDS : list string :=
  ["strategy_observation_id"; "risk_observation_id"; "entry_timing_evaluation_id"; "source_run_id";
   "source_watermark_hash"; "source_observed_at"; "trade_date"].
Definition EVALUATION_LINEAGE_FIELDS : list string :=
  ["strategy_observation_id"; "risk_observation_id"; "source_run_id"; "source_watermark_hash";
   "source_observed_at"; "trade_date"].

Definition plan_field_reasons (order_plan expected : payload) (field_name : string) : list string :=
  if negb (truthy (jget field_name order_plan))
  then ["ORDER_PLAN_" +:+ py_upper field_name +:+ "_MISSING"]
  else reason_if (differs field_name order_plan expected)
         ("ORDER_PLAN_" +:+ py_upper field_name +:+ "_MISMATCH").
Definition evaluation_field_reasons (evaluation expected : payload) (field_name : string)
    : list string :=
  reason_if (differs field_name evaluation expected)
    ("ENTRY_TIMING_" +:+ py_upper field_name +:+ "_MISMATCH").

(** [str(row.get(key) or "")]. *)
Definition text_of (key : string) (row : payload) : string := str_or_empty py_repr (jget key row).

Record plan_assessment := {
  pa_status : string;
  pa_reason_codes : list string;
  pa_expected : payload;
  pa_upstream : assessment
}.

Definition assess_order_plan_lineage (t : pipeline_tables) (order_plan evaluation : payload)
    (max_age_sec : float) (now : Z) : res plan_assessment :=
  let candidate_id := text_of "candidate_instance_id" order_plan in
  let strategy := fetch_row (strategy_observations_latest t) "candidate_instance_id" candidate_id in
  let risk := fetch_row (risk_observations_latest t) "candidate_instance_id" candidate_id in
  let* upstream := assess_strategy_risk_lineage strategy risk max_age_sec None now in
  let* plan_lineage := lineage_from_row order_plan None now in
  let* evaluation_lineage := lineage_from_row evaluation None now in
  let expected := expected_of strategy risk evaluation in
  let reasons := dedupe_reasons
    (as_reason_codes upstream ++
     concat (map (plan_field_reasons order_plan expected) PLAN_LINEAGE_FIELDS) ++
     match evaluation with
     | [] => ["ENTRY_TIMING_EVALUATION_MISSING"]
     | _ => concat (map (evaluation_field_reasons evaluation expected) EVALUATION_LINEAGE_FIELDS)
     end ++
     stage_reasons plan_lineage "ORDER_PLAN_LINEAGE_MISSING" "ORDER_PLAN_WATERMARK_HASH_INVALID" ++
     match evaluation with
     | [] => []
     | _ => stage_reasons evaluation_lineage "ENTRY_TIMING_LINEAGE_MISSING"
              "ENTRY_TIMING_WATERMARK_HASH_INVALID"
     end) in
  Ok {| pa_status := status_of reasons; pa_reason_codes := reasons; pa_expected := expected;
        pa_upstream := upstream |}.
End Lineage.

(** ** Equality of values *)

Lemma py_eq_str_r v s : py_eq v (JStr s) = true <-> v = JStr s.
Proof. destruct v; cbn; try (by split; [intros|intros [=]]). rewrite String.eqb_eq. naive_solver. Qed.
Lemma py_eq_str_l v s : py_eq (JStr s) v = true <-> v = JStr s.
Proof. destruct v; cbn; try (by split; [intros|intros [=]]). rewrite String.eqb_eq. naive_solver. Qed.

Lemma jget_set_last k k' v d :
  jget k (d ++ [(k', v)]) = if String.eqb k' k then Some v else jget k d.
Proof.
  induction d as [|[k1 v1] d IH]; cbn; [by destruct (String.eqb k' k)|].
  rewrite IH. by destruct (String.eqb k' k).
Qed.
Lemma getv_set_item k k' v d : getv k (set_item k' v d) = if String.eqb k' k then v else getv k d.
Proof. unfold getv, set_item. rewrite jget_set_last. by destruct (String.eqb k' k). Qed.

(** ** Reasons *)

(** A reason that is not blank. *)
Definition nonblank (r : string) : Prop := str_true (py_strip r) = true.

Lemma rstrip_nonspace c s :
  ascii_space c = false -> exists s', py_rstrip (String c s) = String c s'.
Proof. intros H. cbn. rewrite H. destruct (py_rstrip s); by eexists. Qed.

Lemma nonblank_cons c s : ascii_space c = false -> nonblank (String c s).
Proof.
  intros H. unfold nonblank, py_strip. destruct (rstrip_nonspace c s H) as [s' ->].
  by rewrite py_lstrip_space_free.
Qed.

Lemma dedupe_reasons_app l l' :
  dedupe_reasons (l ++ l') = [] <-> dedupe_reasons l = [] /\ dedupe_reasons l' = [].
Proof.
  unfold dedupe_reasons. rewrite !dedupe_nil_iff, map_app, List.filter_app. apply app_nil.
Qed.
Lemma dedupe_reasons_cons r l : nonblank r -> dedupe_reasons (r :: l) <> [].
Proof.
  unfold dedupe_reasons. rewrite dedupe_nil_iff. intros H. cbn.
  by rewrite str_true_upper, H.
Qed.
Lemma dedupe_reason_if b r : nonblank r -> dedupe_reasons (reason_if b r) = [] <-> b = false.
Proof. intros H. destruct b; cbn [reason_if]; [|done]. split; [|done]. by intros ?%dedupe_reasons_cons. Qed.

Lemma dedupe_again l : dedupe_reasons (dedupe_reasons l) = [] <-> dedupe_reasons l = [].
Proof.
  unfold dedupe_reasons. rewrite !dedupe_nil_iff. split; [|by intros ->].
  intros H. destruct (List.filter _ (map _ l)) as [|r rs] eqn:E; [done|].
  assert (Hr : r ∈ List.filter str_true (map (fun v => py_upper (py_strip v)) l)) by (rewrite E; left).
  assert (Hr' := Hr). rewrite E in Hr'. rewrite <- elem_of_dedupe in Hr'.
  apply list_elem_of_In, filter_In in Hr as [Hin Ht].
  apply in_map_iff in Hin as (v & <- & _).
  exfalso. apply (not_elem_of_nil (py_upper (py_strip v))). rewrite <- H.
  rewrite list_elem_of_In, filter_In, in_map_iff. split; [|done].
  exists (py_upper (py_strip v)). rewrite <- list_elem_of_In. split; [|done].
  by rewrite py_strip_upper, py_upper_idem, py_strip_idem.
Qed.

Lemma dedupe_concat {A} (f : A -> list string) l :
  dedupe_reasons (concat (map f l)) = [] <-> Forall (fun x => dedupe_reasons (f x) = []) l.
Proof.
  induction l as [|x l IH]; cbn [map concat]; [split; [constructor|done]|].
  by rewrite dedupe_reasons_app, list.Forall_cons, IH.
Qed.

Lemma status_pass rs : status_of rs = "PASS" <-> rs = [].
Proof. by destruct rs. Qed.

(** ** The assessment of a plan is exact *)

Section LineageProofs.
Context (py_repr : json -> string) (json_loads : string -> res json)
  (canonical_json : payload -> string) (sha256 : string -> string).

Abbreviation read_lineage := (lineage_from_row py_repr json_loads canonical_json sha256).

(** A row that carries a whole lineage, with the hash of its own watermark. *)
Definition sound_lineage (row lineage : payload) (now : Z) : Prop :=
  read_lineage row None now = Ok (Some lineage) /\ hash_invalid lineage = false.

Lemma sound_lineage_hash row l now :
  sound_lineage row l now ->
  exists w, json_object_or_empty py_repr json_loads (getv "source_watermark" row) = Ok w /\
    text_or_null py_repr "source_watermark_hash" row = JStr (hash_mapping canonical_json sha256 w) /\
    getv "source_watermark_hash" l = text_or_null py_repr "source_watermark_hash" row.
Proof.
  intros [H Hh]. apply res_bind_ok in H as (w & Hw & H). exists w. split; [done|].
  destruct row as [|kv row]; [done|]. destruct w as [|kw w]; [done|].
  destruct (negb _) in H; [done|]. apply res_bind_ok in H as (age & _ & [= <-]).
  split; [|done]. unfold hash_invalid in Hh. apply negb_false_iff in Hh.
  match type of Hh with truthy (jget _ ?l) = true =>
    change (py_eq (getv "source_watermark_hash" l) (JStr (hash_mapping canonical_json sha256 (kw :: w))) = true) in Hh end.
  by apply py_eq_str_r in Hh.
Qed.

(** The strategy and risk observations agree with each other and are fresh. *)
Record pair_ok (strategy risk : payload) (max_age_sec : float) (now : Z) : Prop := {
  pair_strategy : truthy (jget "strategy_observation_id" strategy) = true;
  pair_risk : truthy (jget "risk_observation_id" risk) = true;
  pair_names : differs "strategy_observation_id" risk strategy = false;
  pair_date : differs "trade_date" strategy risk = false;
  pair_lineage : exists s r, sound_lineage strategy s now /\ sound_lineage risk r now /\
    differs "source_watermark_hash" s r = false /\ differs "source_run_id" s r = false /\
    f_lt max_age_sec (age_of s) = false
}.

Lemma stage_reasons_nil lineage missing invalid_hash :
  nonblank missing -> nonblank invalid_hash ->
  dedupe_reasons (stage_reasons lineage missing invalid_hash) = [] <->
  exists l, lineage = Some l /\ hash_invalid l = false.
Proof.
  intros Hm Hi. destruct lineage as [l|]; cbn [stage_reasons].
  - rewrite dedupe_reason_if by done. naive_solver.
  - split; [by intros ?%dedupe_reasons_cons|]. naive_solver.
Qed.

Lemma stage_sound row l now missing invalid_hash :
  read_lineage row None now = Ok l -> nonblank missing -> nonblank invalid_hash ->
  dedupe_reasons (stage_reasons l missing invalid_hash) = [] <->
  exists x, sound_lineage row x now /\ l = Some x.
Proof. intros Hl Hm Hi. rewrite stage_reasons_nil by done. unfold sound_lineage. rewrite Hl. naive_solver. Qed.

Lemma strategy_risk_exact strategy risk max_age_sec now a :
  assess_strategy_risk_lineage py_repr json_loads canonical_json sha256 strategy risk max_age_sec None now
    = Ok a ->
  dedupe_reasons (as_reason_codes a) = [] <-> pair_ok strategy risk max_age_sec now.
Proof.
  unfold assess_strategy_risk_lineage.
  destruct (truthy (jget "strategy_observation_id" strategy)) eqn:Es; cbn [negb reason_if app].
  2: { intros [= <-]. cbn [as_reason_codes _lineage_assessment]. rewrite dedupe_again. split.
       - by intros ?%dedupe_reasons_cons.
       - intros H. destruct H. congruence. }
  destruct (truthy (jget "risk_observation_id" risk)) eqn:Er; cbn [negb reason_if app].
  2: { intros [= <-]. cbn [as_reason_codes _lineage_assessment]. rewrite dedupe_again. split.
       - by intros ?%dedupe_reasons_cons.
       - intros H. destruct H. congruence. }
  intros (s & Hs & (r & Hr & [= <-])%res_bind_ok)%res_bind_ok.
  cbn [as_reason_codes _lineage_assessment]. rewrite dedupe_again, !dedupe_reasons_app.
  rewrite (stage_sound _ _ _ _ _ Hs), (stage_sound _ _ _ _ _ Hr) by done.
  rewrite !dedupe_reason_if by done. split.
  - intros ((xs & Hxs & ->) & (xr & Hxr & ->) & Hn & Hd & H).
    cbn [app] in H. rewrite !dedupe_reasons_app, !dedupe_reason_if in H by done.
    destruct H as (? & ? & ?). constructor; eauto 10.
  - intros [_ _ Hn Hd (xs & xr & Hxs & Hxr & H1 & H2 & H3)].
    assert (s = Some xs) as -> by (destruct Hxs; congruence).
    assert (r = Some xr) as -> by (destruct Hxr; congruence).
    split_and!; eauto. cbn [app]. rewrite !dedupe_reasons_app, !dedupe_reason_if by done. done.
Qed.

(** The plan and the evaluation name the pair and its source. *)
Record plan_chain (strategy risk evaluation plan : payload) (max_age_sec : float) (now : Z) : Prop := {
  chain_pair : pair_ok strategy risk max_age_sec now;
  chain_plan : Forall (fun f => truthy (jget f plan) = true /\
                 differs f plan (expected_of strategy risk evaluation) = false) PLAN_LINEAGE_FIELDS;
  chain_evaluated : evaluation <> [];
  chain_evaluation : Forall (fun f => differs f evaluation (expected_of strategy risk evaluation) = false)
                       EVALUATION_LINEAGE_FIELDS;
  chain_lineages : exists p e, sound_lineage plan p now /\ sound_lineage evaluation e now
}.

Lemma plan_field_nil plan expected f :
  dedupe_reasons (plan_field_reasons plan expected f) = [] <->
  truthy (jget f plan) = true /\ differs f plan expected = false.
Proof.
  unfold plan_field_reasons. destruct (truthy _); cbn [negb].
  - rewrite dedupe_reason_if by (by apply nonblank_cons). naive_solver.
  - split; [|naive_solver]. intros H. exfalso. revert H. apply dedupe_reasons_cons. by apply nonblank_cons.
Qed.

#[local] Opaque PLAN_LINEAGE_FIELDS EVALUATION_LINEAGE_FIELDS.
Lemma order_plan_lineage_exact t plan evaluation max_age_sec now a :
  assess_order_plan_lineage py_repr json_loads canonical_json sha256 t plan evaluation max_age_sec now = Ok a ->
  let id := text_of py_repr "candidate_instance_id" plan in
  pa_status a = "PASS" <->
  plan_chain (fetch_row (strategy_observations_latest t) "candidate_instance_id" id)
    (fetch_row (risk_observations_latest t) "candidate_instance_id" id) evaluation plan max_age_sec now.
Proof.
  intros H id. apply res_bind_ok in H as (u & Hu & (p & Hp & (e & He & [= <-])%res_bind_ok)%res_bind_ok).
  fold id in Hu. fold id. cbn [pa_status]. rewrite status_pass, 2!dedupe_reasons_app, dedupe_concat.
  rewrite (strategy_risk_exact _ _ _ _ _ Hu).
  assert (Hf : forall f expected, dedupe_reasons (evaluation_field_reasons evaluation expected f) = [] <->
                                  differs f evaluation expected = false).
  { intros. apply dedupe_reason_if. by apply nonblank_cons. }
  destruct evaluation as [|kv evaluation].
  - split; [|by intros []]. intros (_ & _ & H). by apply dedupe_reasons_cons in H.
  - rewrite dedupe_reasons_app, dedupe_concat, dedupe_reasons_app.
    rewrite (stage_sound _ _ _ _ _ Hp), (stage_sound _ _ _ _ _ He) by done. split.
    + intros (Hpair & Hplan & Hev & (xp & ? & _) & (xe & ? & _)). constructor; [done| | | |by exists xp, xe]; [|done|].
      * eapply list.Forall_impl; [exact Hplan|]. intros f. apply plan_field_nil.
      * eapply list.Forall_impl; [exact Hev|]. intros f. apply Hf.
    + intros [Hpair Hplan _ Hev (xp & xe & Hxp & Hxe)]. split_and!; [done| | | |].
      * eapply list.Forall_impl; [exact Hplan|]. intros f. apply plan_field_nil.
      * eapply list.Forall_impl; [exact Hev|]. intros f. apply Hf.
      * exists xp. destruct Hxp. split; [done|congruence].
      * exists xe. destruct Hxe. split; [done|congruence].
Qed.
End LineageProofs.
