(* ===== verification/OrderPlanBinding.v ===== *)
(** * The binding of an order plan ([services/live_sim/order_plan_binding.py])

    A binding is a small object that names one persisted order plan, carries the
    hash of a canonical snapshot of it and a hash of itself.  It is taken when an
    intent is made from the plan ([build_order_plan_binding]) and checked against
    the tables again before the intent's order is queued
    ([validate_order_plan_binding]).  The checks read rows as [PipelineLineage]
    does and only add reasons; errors of the database itself are not modelled. *)
From S2P Require Import Prelude PyFloat BrokerUtils WireTime GatewayModels LiveSimModels.
From S2P Require Import SafetyGate PipelineLineage.
From Stdlib Require Import SpecFloat.
Local Open Scope Z_scope.

Definition ORDER_PLAN_BINDING_CONTRACT : string := "live-sim-order-plan-binding.v1".

Definition _BINDING_ID_FIELDS : list string :=
  ["order_plan_id"; "idempotency_key"; "trade_date"; "candidate_instance_id";
   "entry_timing_evaluation_id"; "strategy_observation_id"; "risk_observation_id";
   "source_run_id"; "source_watermark_hash"].

Definition _ORDER_PLAN_SNAPSHOT_FIELDS : list string :=
  ["order_plan_id"; "idempotency_key"; "trade_date"; "candidate_instance_id"; "code"; "name";
   "side"; "status"; "setup_type"; "entry_timing_state"; "price_location_state"; "theme_id";
   "theme_name"; "theme_state"; "theme_rank"; "stock_role"; "priority_score"; "current_price";
   "limit_price"; "limit_price_source"; "limit_price_offset_ticks"; "suggested_quantity";
   "suggested_notional"; "max_notional"; "risk_budget_source"; "expires_at"; "observe_only";
   "not_order_intent"; "created_at"; "entry_timing_evaluation_id"; "strategy_observation_id";
   "risk_observation_id"; "source_run_id"; "source_watermark_hash"; "source_event_id";
   "source_observed_at"; "data_age_sec"; "generated_by"].

Definition _ROW_BINDING_FIELDS : list string :=
  ["order_plan_id"; "idempotency_key"; "trade_date"; "candidate_instance_id";
   "entry_timing_evaluation_id"; "strategy_observation_id"; "risk_observation_id";
   "source_run_id"; "source_watermark_hash"; "expires_at"].

Definition _PIPELINE_BINDING_FIELDS : list string :=
  ["trade_date"; "candidate_instance_id"; "strategy_observation_id"; "risk_observation_id";
   "source_run_id"; "source_watermark_hash"].

(** The fields an observation of each stage shares with the binding. *)
Definition STRATEGY_BINDING_FIELDS : list string :=
  ["strategy_observation_id"; "trade_date"; "candidate_instance_id"; "source_run_id";
   "source_watermark_hash"].
Definition RISK_BINDING_FIELDS : list string :=
  ["risk_observation_id"; "strategy_observation_id"; "trade_date"; "candidate_instance_id";
   "source_run_id"; "source_watermark_hash"].
Definition INTENT_BINDING_FIELDS : list string :=
  ["order_plan_id"; "trade_date"; "candidate_instance_id"; "strategy_observation_id";
   "risk_observation_id"].

(** ** Values *)

Definition hex_digit (c : ascii) : bool :=
  mem (String c EmptyString) ["0"; "1"; "2"; "3"; "4"; "5"; "6"; "7"; "8"; "9";
                              "a"; "b"; "c"; "d"; "e"; "f"].
Definition hex64 (text : string) : bool :=
  (String.length text =? 64)%nat && forallb hex_digit (list_ascii_of_string text).

(** [value is True or value == 1]. *)
Definition _strict_true (value : json) : bool := py_eq value (JInt 1).
Definition _strict_bool (value : json) (field_name : string) : res bool :=
  if _strict_true value then Ok true
  else if py_eq value (JInt 0) then Ok false
  else Err (ValueError (field_name +:+ " must be boolean")).

Definition _required_text (value : json) (field_name : string) : res string :=
  match value with
  | JStr s =>
      if str_true (py_strip s) then Ok (py_strip s)
      else Err (ValueError (field_name +:+ " is required"))
  | _ => Err (ValueError (field_name +:+ " is required"))
  end.

(** A moment in the text the tables store. *)
Definition wire_text (value : json) (field_name : string) : res json :=
  let* t := parse_timestamp value field_name in Ok (JStr (datetime_to_wire t)).

Record OrderPlanBindingValidationResult := {
  vr_passed : bool;
  vr_reason_codes : list string;
  vr_binding : payload;
  vr_order_plan : payload;
  vr_lineage : option plan_assessment;
  vr_current_source : option payload
}.

Section Binding.
Context (py_repr : json -> string) (json_loads : string -> res json)
  (canonical_json : payload -> string) (sha256 : string -> string).

Abbreviation text := (text_of py_repr).
Abbreviation sha_of := (hash_mapping canonical_json sha256).

(** [None], or [str(value)]. *)
Definition _comparable (value : json) : option string :=
  match value with JNull => None | _ => Some (py_str py_repr value) end.

Definition _is_sha256 (value : json) : bool :=
  hex64 (if jtrue value then py_str py_repr value else EmptyString).

Definition same_values (left right : payload) (field_names : list string) : bool :=
  forallb (fun n => bool_decide (_comparable (getv n left) = _comparable (getv n right))) field_names.
Definition _check_same_values (left right : payload) (field_names : list string) (reason : string)
    : list string :=
  reason_if (negb (same_values left right field_names)) reason.

(** [_json_object] of this file: a text that is no object is an error. *)
Definition strict_json_object (value : json) (field_name : string) : res payload :=
  match value with
  | JObj fields => Ok fields
  | JNull => Ok []
  | _ =>
      if py_eq value (JStr EmptyString) then Ok [] else
      let* loaded := json_loads (py_str py_repr value) in
      match loaded with
      | JObj fields => Ok fields
      | _ => Err (ValueError (field_name +:+ " must be a JSON object"))
      end
  end.

Definition _reason_codes (row : payload) : res json :=
  let texts items := JList (map (fun v => JStr (py_str py_repr v)) items) in
  let value := match getv "reason_codes" row with JNull => getv "reason_codes_json" row | v => v end in
  match value with
  | JList items => Ok (texts items)
  | JNull => Ok (JList [])
  | _ =>
      let* loaded := json_loads (py_str py_repr value) in
      match loaded with
      | JList items => Ok (texts items)
      | _ => Err (ValueError "reason_codes must be a JSON array")
      end
  end.

(** ** The snapshot and the binding *)

(** [snapshot[field] = ..] for a field that may be NULL. *)
Definition opt_wire_text (field_name : string) (row : payload) : res json :=
  match getv field_name row with
  | JNull => Ok JNull
  | v => wire_text v field_name
  end.

Definition _canonical_order_plan_snapshot (row : payload) : res payload :=
  let snapshot := map (fun f => (f, getv f row)) _ORDER_PLAN_SNAPSHOT_FIELDS in
  let* expires_at := wire_text (getv "expires_at" row) "expires_at" in
  let* created_at := opt_wire_text "created_at" row in
  let* source_observed_at := opt_wire_text "source_observed_at" row in
  let* observe_only := _strict_bool (getv "observe_only" row) "observe_only" in
  let* not_order_intent := _strict_bool (getv "not_order_intent" row) "not_order_intent" in
  let* reason_codes := _reason_codes row in
  let* evidence := strict_json_object (getv "evidence_json" row) "evidence_json" in
  let* watermark := strict_json_object (getv "source_watermark" row) "source_watermark" in
  let item (kv : string * json) :=
    let '(f, v) := kv in
    (f, if String.eqb f "expires_at" then expires_at
        else if String.eqb f "created_at" then created_at
        else if String.eqb f "source_observed_at" then source_observed_at
        else if String.eqb f "observe_only" then JBool observe_only
        else if String.eqb f "not_order_intent" then JBool not_order_intent
        else v) in
  Ok (map item snapshot ++
      [("reason_codes", reason_codes); ("evidence_json", JObj evidence);
       ("source_watermark", JObj watermark)]).

Fixpoint require_texts (fields : list string) (row : payload) : res unit :=
  match fields with
  | [] => Ok tt
  | f :: fields => let* _ := _required_text (getv f row) f in require_texts fields row
  end.

(** What the binding's own hash is taken of. *)
Definition binding_payload (contract : json) (id : string -> json) (expires_at snapshot_sha256 : json)
    : payload :=
  ("contract", contract) :: map (fun f => (f, id f)) _BINDING_ID_FIELDS ++
  [("expires_at", expires_at); ("order_plan_snapshot_sha256", snapshot_sha256)].

Definition build_order_plan_binding (row : payload) : res payload :=
  match row with
  | [] => Err (ValueError "order plan is required")
  | _ =>
      let* _ := require_texts _BINDING_ID_FIELDS row in
      if negb (_is_sha256 (JStr (py_str py_repr (getv "source_watermark_hash" row))))
      then Err (ValueError "source_watermark_hash must be a lowercase SHA-256") else
      let* expires_at := wire_text (getv "expires_at" row) "expires_at" in
      let* snapshot := _canonical_order_plan_snapshot row in
      let payload := binding_payload (JStr ORDER_PLAN_BINDING_CONTRACT)
        (fun f => JStr (py_str py_repr (getv f row))) expires_at (JStr (sha_of snapshot)) in
      Ok (payload ++ [("binding_sha256", JStr (sha_of payload))])
  end.

(** ** Reading a binding *)

(** One identifier of the binding: stripped, or a reason. *)
Definition normalize_id (field_name : string) (item : payload) : payload * list string :=
  let missing := (item, ["ORDER_PLAN_BINDING_" +:+ py_upper field_name +:+ "_MISSING"]) in
  match getv field_name item with
  | JStr s => if str_true (py_strip s) then (set_item field_name (JStr (py_strip s)) item, [])
              else missing
  | _ => missing
  end.
Fixpoint normalize_ids (fields : list string) (item : payload) : payload * list string :=
  match fields with
  | [] => (item, [])
  | f :: fields =>
      let '(item, reasons) := normalize_id f item in
      let '(item, more) := normalize_ids fields item in (item, reasons ++ more)
  end.

Definition sha_reasons (item : payload) (field_name : string) : list string :=
  reason_if (negb (_is_sha256 (getv field_name item)))
    ("ORDER_PLAN_BINDING_" +:+ py_upper field_name +:+ "_INVALID").

(** The binding's own hash. *)
Definition binding_hash_reasons (item : payload) : list string :=
  let payload := binding_payload (getv "contract" item) (fun f => getv f item)
    (getv "expires_at" item) (getv "order_plan_snapshot_sha256" item) in
  reason_if (_is_sha256 (getv "binding_sha256" item) &&
             negb (py_eq (JStr (sha_of payload)) (getv "binding_sha256" item)))
    "ORDER_PLAN_BINDING_HASH_MISMATCH".

Definition _normalize_binding (binding : json) : res (payload * list string) :=
  match binding with
  | JObj item =>
      let contract := reason_if (negb (py_eq (getv "contract" item) (JStr ORDER_PLAN_BINDING_CONTRACT)))
                        "ORDER_PLAN_BINDING_CONTRACT_MISMATCH" in
      let '(item, ids) := normalize_ids _BINDING_ID_FIELDS item in
      let shas := concat (map (sha_reasons item) ["source_watermark_hash";
                                "order_plan_snapshot_sha256"; "binding_sha256"]) in
      let* expiry := on_value_error
        (let* v := wire_text (getv "expires_at" item) "expires_at" in Ok (Some v)) None in
      let '(item, expiry) :=
        match expiry with
        | Some v => (set_item "expires_at" v item, [])
        | None => (item, ["ORDER_PLAN_BINDING_EXPIRES_AT_INVALID"])
        end in
      Ok (item, contract ++ ids ++ shas ++ expiry ++ binding_hash_reasons item)
  | _ => Ok ([], ["ORDER_PLAN_BINDING_INVALID"])
  end.

(** ** The checks of a row *)

(** The stored plan's snapshot against the bound one. *)
Definition snapshot_reasons (row binding : payload) (prefix : string) : res (list string) :=
  let* snapshot_sha256 := on_value_error
    (let* s := _canonical_order_plan_snapshot row in Ok (Some (sha_of s))) None in
  match snapshot_sha256 with
  | None => Ok [prefix +:+ "_SNAPSHOT_INVALID"]
  | Some h => Ok (reason_if (negb (py_eq (JStr h) (getv "order_plan_snapshot_sha256" binding)))
                    (prefix +:+ "_SNAPSHOT_MISMATCH"))
  end.

Definition expiry_reasons (row : payload) (now : Z) : res (list string) :=
  let* expiry := on_value_error
    (let* t := parse_timestamp (getv "expires_at" row) "expires_at" in Ok (Some t)) None in
  match expiry with
  | None => Ok ["ORDER_PLAN_BINDING_EXPIRES_AT_INVALID"]
  | Some t => Ok (reason_if (t <=? now) "ORDER_PLAN_EXPIRED")
  end.

Definition _check_order_plan_row (row binding : payload) (prefix : string) (now : Z)
    : res (list string) :=
  let* on_snapshot := snapshot_reasons row binding prefix in
  let* on_expiry := expiry_reasons row now in
  Ok (_check_same_values row binding _ROW_BINDING_FIELDS (prefix +:+ "_MISMATCH") ++ on_snapshot ++
      reason_if (negb (String.eqb (text "status" row) "PLAN_READY")) "ORDER_PLAN_NOT_READY" ++
      reason_if (negb (String.eqb (py_upper (text "side" row)) "BUY")) "ORDER_PLAN_NOT_BUY" ++
      reason_if (negb (_strict_true (getv "observe_only" row)) ||
                 negb (_strict_true (getv "not_order_intent" row)))
        (prefix +:+ "_NOT_OBSERVE_ONLY") ++ on_expiry).

Definition _check_ready_observe_row (row : payload) (prefix : string)
    (require_not_order_intent : bool) : list string :=
  reason_if (negb (String.eqb (text "status" row) "PLAN_READY")) (prefix +:+ "_NOT_READY") ++
  reason_if (negb (_strict_true (getv "observe_only" row))) (prefix +:+ "_NOT_OBSERVE_ONLY") ++
  reason_if (require_not_order_intent && negb (_strict_true (getv "not_order_intent" row)))
    (prefix +:+ "_ORDER_INTENT_FLAG_INVALID").

(** The binding the intent was made with. *)
Definition intent_binding_reasons (intent binding : payload) : res (list string) :=
  let* evidence := on_value_error
    (let* e := strict_json_object (getv "evidence_json" intent) "intent.evidence_json" in
     Ok (Some e)) None in
  match evidence with
  | None => Ok ["ORDER_PLAN_BINDING_INTENT_BINDING_INVALID"]
  | Some evidence =>
      match getv "order_plan_binding" evidence with
      | JObj nested => Ok (reason_if (differs "binding_sha256" nested binding)
                             "ORDER_PLAN_BINDING_INTENT_BINDING_MISMATCH")
      | _ => Ok ["ORDER_PLAN_BINDING_INTENT_BINDING_MISSING"]
      end
  end.

Definition _check_expected_intent (intent binding order_plan : payload) : res (list string) :=
  match intent with
  | [] => Ok ["ORDER_PLAN_BINDING_INTENT_INVALID"]
  | _ =>
      let* nested := intent_binding_reasons intent binding in
      Ok (_check_same_values intent binding INTENT_BINDING_FIELDS
            "ORDER_PLAN_BINDING_INTENT_MISMATCH" ++
          reason_if (existsb (fun f => negb (String.eqb (text f intent) (text f order_plan)))
                       ["code"; "side"]) "ORDER_PLAN_BINDING_INTENT_MISMATCH" ++
          nested)
  end.

(** A row by its key; an empty key reads nothing. *)
Definition _keyed_row (table : list payload) (key_name key_value missing_reason : string)
    : payload * list string :=
  let row := if str_true key_value then fetch_row table key_name key_value else [] in
  (row, match row with [] => [missing_reason] | _ => [] end).

Definition _public_order_plan (row : payload) : res payload :=
  let* reason_codes := _reason_codes row in
  let* evidence := strict_json_object (getv "evidence_json" row) "evidence_json" in
  let* watermark := strict_json_object (getv "source_watermark" row) "source_watermark" in
  Ok (List.filter (fun kv => negb (String.eqb (fst kv) "reason_codes_json"))
        (row ++ [("observe_only", JBool (_strict_true (getv "observe_only" row)));
                 ("not_order_intent", JBool (_strict_true (getv "not_order_intent" row)));
                 ("reason_codes", reason_codes); ("evidence_json", JObj evidence);
                 ("source_watermark", JObj watermark)])).

(** The plan as the result shows it; columns that do not parse are left out. *)
Definition shown_order_plan (row : payload) : res (payload * list string) :=
  match row with
  | [] => Ok ([], [])
  | _ =>
      let* shown := on_value_error (let* p := _public_order_plan row in Ok (Some p)) None in
      match shown with
      | Some p => Ok (p, [])
      | None =>
          Ok (List.filter (fun kv => negb (mem (fst kv) ["evidence_json"; "source_watermark";
                                                         "reason_codes_json"])) row,
              ["ORDER_PLAN_BINDING_ORDER_PLAN_SNAPSHOT_INVALID"])
      end
  end.

(** [float(max_age_sec)], or zero with a reason. *)
Definition bounded_max_age (max_age_sec : float) : float * list string :=
  if negb (f_finite max_age_sec) || f_lt max_age_sec f_zero
  then (f_zero, ["ORDER_PLAN_BINDING_MAX_AGE_INVALID"]) else (max_age_sec, []).

(** ** The observations and the present source *)

Definition unless_empty (row : payload) (reasons : list string) : list string :=
  match row with [] => [] | _ => reasons end.

Definition evaluation_reasons (evaluation binding : payload) : list string :=
  unless_empty evaluation
    (_check_same_values evaluation binding ("entry_timing_evaluation_id" :: _PIPELINE_BINDING_FIELDS)
       "ORDER_PLAN_BINDING_ENTRY_TIMING_MISMATCH" ++
     reason_if (negb (String.eqb (text "order_plan_id" evaluation) (text "order_plan_id" binding)))
       "ORDER_PLAN_BINDING_ENTRY_TIMING_ORDER_PLAN_MISMATCH" ++
     _check_ready_observe_row evaluation "ORDER_PLAN_BINDING_ENTRY_TIMING" true).

(** A strategy or risk observation in the state the plan needs. *)
Definition observation_reasons (row binding : payload) (fields : list string)
    (mismatch not_observe_only status not_status : string) : list string :=
  unless_empty row
    (_check_same_values row binding fields mismatch ++
     reason_if (negb (_strict_true (getv "observe_only" row))) not_observe_only ++
     reason_if (negb (String.eqb (text "overall_status" row) status)) not_status).

Definition trade_date_reasons (expected : option string) (binding : payload) : list string :=
  match expected with
  | None => []
  | Some d => reason_if (negb (str_true (py_strip d)) ||
                         negb (py_eq (getv "trade_date" binding) (JStr (py_strip d))))
                "ORDER_PLAN_BINDING_TRADE_DATE_MISMATCH"
  end.

(** [except Exception]: any error is a reason. *)
Definition lineage_check (t : pipeline_tables) (base evaluation : payload) (max_age_sec : float)
    (now : Z) : option plan_assessment * list string :=
  match assess_order_plan_lineage py_repr json_loads canonical_json sha256 t base evaluation
          max_age_sec now with
  | Err _ => (None, ["ORDER_PLAN_BINDING_LINEAGE_CLASSIFIER_ERROR"])
  | Ok a => (Some a, if String.eqb (pa_status a) "PASS" then []
                     else "ORDER_PLAN_LINEAGE_INVALID" :: pa_reason_codes a)
  end.

Definition current_source_check (t : pipeline_tables) (binding : payload) (now : Z)
    : option payload * list string :=
  match resolve_candidate_source_lineage py_repr json_loads canonical_json sha256 t
          (text "candidate_instance_id" binding) (Some (text "source_run_id" binding))
          "order_plan_binding_terminal" (Some (text "trade_date" binding)) None now with
  | Err _ => (None, ["ORDER_PLAN_BINDING_CURRENT_SOURCE_CLASSIFIER_ERROR"])
  | Ok current =>
      (Some current,
       reason_if (negb (truthy (jget "candidate_present" current)))
         "ORDER_PLAN_BINDING_CURRENT_SOURCE_MISSING" ++
       reason_if (differs "source_watermark_hash" current binding)
         "ORDER_PLAN_BINDING_CURRENT_SOURCE_WATERMARK_MISMATCH" ++
       reason_if (differs "trade_date" current binding)
         "ORDER_PLAN_BINDING_CURRENT_SOURCE_TRADE_DATE_MISMATCH")
  end.

(** [[*dict.fromkeys(str(v) for v in values if str(v).strip())]]. *)
Definition dedupe_texts (values : list string) : list string :=
  dedupe (List.filter (fun v => str_true (py_strip v)) values).

Definition validate_order_plan_binding (t : pipeline_tables) (binding : json) (max_age_sec : float)
    (expected_trade_date : option string) (expected_intent : option payload) (now : Z)
    : res OrderPlanBindingValidationResult :=
  let* normalized := _normalize_binding binding in
  let '(b, on_binding) := normalized in
  let '(max_age_sec, on_age) := bounded_max_age max_age_sec in
  let '(base, no_base) := _keyed_row (order_plan_drafts t) "order_plan_id" (text "order_plan_id" b)
    "ORDER_PLAN_BINDING_ORDER_PLAN_NOT_FOUND" in
  let '(latest, no_latest) := _keyed_row (order_plan_drafts_latest t) "idempotency_key"
    (text "idempotency_key" b) "ORDER_PLAN_BINDING_LATEST_NOT_FOUND" in
  let '(evaluation, no_evaluation) := _keyed_row (entry_timing_evaluations t)
    "entry_timing_evaluation_id" (text "entry_timing_evaluation_id" b)
    "ORDER_PLAN_BINDING_ENTRY_TIMING_NOT_FOUND" in
  let '(strategy, no_strategy) := _keyed_row (strategy_observations t) "strategy_observation_id"
    (text "strategy_observation_id" b) "ORDER_PLAN_BINDING_STRATEGY_NOT_FOUND" in
  let '(risk, no_risk) := _keyed_row (risk_observations t) "risk_observation_id"
    (text "risk_observation_id" b) "ORDER_PLAN_BINDING_RISK_NOT_FOUND" in
  let '(strategy_latest, no_strategy_latest) := _keyed_row (strategy_observations_latest t)
    "candidate_instance_id" (text "candidate_instance_id" b)
    "ORDER_PLAN_BINDING_STRATEGY_LATEST_NOT_FOUND" in
  let '(risk_latest, no_risk_latest) := _keyed_row (risk_observations_latest t)
    "candidate_instance_id" (text "candidate_instance_id" b)
    "ORDER_PLAN_BINDING_RISK_LATEST_NOT_FOUND" in
  let* shown := shown_order_plan base in
  let '(order_plan, on_shown) := shown in
  let* on_base := match base with [] => Ok [] | _ =>
    _check_order_plan_row base b "ORDER_PLAN_BINDING_ORDER_PLAN" now end in
  let* on_latest := match latest with [] => Ok [] | _ =>
    _check_order_plan_row latest b "ORDER_PLAN_BINDING_LATEST" now end in
  let* on_intent :=
    match expected_intent with None => Ok [] | Some i => _check_expected_intent i b base end in
  let both (a c : payload) := match a, c with [], _ | _, [] => false | _, _ => true end in
  let '(lineage, on_lineage) :=
    if both base evaluation then lineage_check t base evaluation max_age_sec now else (None, []) in
  let '(current, on_current) :=
    if both base evaluation then current_source_check t b now else (None, []) in
  let reasons := dedupe_texts
    (on_binding ++ on_age ++ no_base ++ no_latest ++ no_evaluation ++ no_strategy ++ no_risk ++
     no_strategy_latest ++ no_risk_latest ++ on_shown ++ on_base ++ on_latest ++
     (if both base latest then _check_same_values base latest _ROW_BINDING_FIELDS "ORDER_PLAN_NOT_LATEST"
      else []) ++
     evaluation_reasons evaluation b ++
     observation_reasons strategy b STRATEGY_BINDING_FIELDS "ORDER_PLAN_BINDING_STRATEGY_MISMATCH"
       "ORDER_PLAN_BINDING_STRATEGY_NOT_OBSERVE_ONLY" "MATCHED_OBSERVATION"
       "ORDER_PLAN_STRATEGY_NOT_MATCHED" ++
     observation_reasons risk b RISK_BINDING_FIELDS "ORDER_PLAN_BINDING_RISK_MISMATCH"
       "ORDER_PLAN_BINDING_RISK_NOT_OBSERVE_ONLY" "OBSERVE_PASS" "ORDER_PLAN_RISK_NOT_PASS" ++
     unless_empty strategy_latest (_check_same_values strategy_latest b STRATEGY_BINDING_FIELDS
       "ORDER_PLAN_BINDING_STRATEGY_LATEST_MISMATCH") ++
     unless_empty risk_latest (_check_same_values risk_latest b RISK_BINDING_FIELDS
       "ORDER_PLAN_BINDING_RISK_LATEST_MISMATCH") ++
     trade_date_reasons expected_trade_date b ++ on_intent ++ on_lineage ++ on_current) in
  Ok {| vr_passed := match reasons with [] => true | _ => false end; vr_reason_codes := reasons;
        vr_binding := b; vr_order_plan := order_plan; vr_lineage := lineage;
        vr_current_source := current |}.
End Binding.
