(* ===== verification/BoundPlans.v ===== *)
(** * What a bound order plan is checked for

    The properties of [OrderPlanBinding]: its validation is exact, a binding
    survives its own reading, and a binding that passes pins the plan it was built
    from; with a sample plan on which the definitions run. *)
From S2P Require Import Prelude PyFloat BrokerUtils WireTime GatewayModels LiveSimModels SafetyGate.
From S2P Require Import PipelineLineage OrderPlanBinding.
From Stdlib Require Import SpecFloat.
From stdpp Require Import pretty.
Local Open Scope Z_scope.

(** ** Reasons of a validation *)

Lemma dedupe_texts_app l l' :
  dedupe_texts (l ++ l') = [] <-> dedupe_texts l = [] /\ dedupe_texts l' = [].
Proof. unfold dedupe_texts. rewrite !dedupe_nil_iff, List.filter_app. apply app_nil. Qed.
Lemma dedupe_texts_cons r l : nonblank r -> dedupe_texts (r :: l) <> [].
Proof. unfold dedupe_texts, nonblank. rewrite dedupe_nil_iff. intros H. cbn. by rewrite H. Qed.
Lemma dedupe_texts_if b r : nonblank r -> dedupe_texts (reason_if b r) = [] <-> b = false.
Proof. intros H. destruct b; cbn [reason_if]; [|done]. split; [|done]. by intros ?%dedupe_texts_cons. Qed.
Lemma dedupe_texts_if_neg b r : nonblank r -> dedupe_texts (reason_if (negb b) r) = [] <-> b = true.
Proof. intros H. rewrite dedupe_texts_if by done. apply negb_false_iff. Qed.
Lemma dedupe_texts_eqb a b r :
  nonblank r -> dedupe_texts (reason_if (negb (String.eqb a b)) r) = [] <-> a = b.
Proof. intros H. rewrite dedupe_texts_if_neg by done. apply String.eqb_eq. Qed.

Lemma on_value_error_some {A} (r : res A) (x : option A) :
  on_value_error (let* a := r in Ok (Some a)) None = Ok x ->
  (exists a, r = Ok a /\ x = Some a) \/ ((forall a, r <> Ok a) /\ x = None).
Proof.
  unfold on_value_error. destruct r as [a|e]; cbn; [intros <-%res_ok_inj; left; by eexists|].
  destruct (is_value_error e); [|done]. intros <-%res_ok_inj. by right.
Qed.

Section BindingProofs.
Context (py_repr : json -> string) (json_loads : string -> res json)
  (canonical_json : payload -> string) (sha256 : string -> string).

Abbreviation text := (text_of py_repr).
Abbreviation sha_of := (hash_mapping canonical_json sha256).
Abbreviation snapshot_of := (_canonical_order_plan_snapshot py_repr json_loads).
Abbreviation validate := (validate_order_plan_binding py_repr json_loads canonical_json sha256).
Abbreviation same := (same_values py_repr).

(** ** A plan row that may be executed *)

(** The row carries the bound identifiers and the bound snapshot, is ready, buys,
    is flagged as no order, and has not expired. *)
Record plan_row_ok (row b : payload) (now : Z) : Prop := {
  row_same : same row b _ROW_BINDING_FIELDS = true;
  row_snapshot : exists s, snapshot_of row = Ok s /\ getv "order_plan_snapshot_sha256" b = JStr (sha_of s);
  row_ready : text "status" row = "PLAN_READY";
  row_buy : py_upper (text "side" row) = "BUY";
  row_observe_only : _strict_true (getv "observe_only" row) = true;
  row_not_intent : _strict_true (getv "not_order_intent" row) = true;
  row_live : exists t, parse_timestamp (getv "expires_at" row) "expires_at" = Ok t /\ now < t
}.

Lemma snapshot_reasons_nil row b prefix rs :
  (forall s, nonblank (prefix +:+ s)) ->
  snapshot_reasons py_repr json_loads canonical_json sha256 row b prefix = Ok rs ->
  dedupe_texts rs = [] <->
  exists s, snapshot_of row = Ok s /\ getv "order_plan_snapshot_sha256" b = JStr (sha_of s).
Proof.
  intros Hp (x & Hx & H)%res_bind_ok.
  replace (let* s := snapshot_of row in Ok (Some (sha_of s))) with
    (let* h := (let* s := snapshot_of row in Ok (sha_of s)) in Ok (Some h)) in Hx by (by destruct (snapshot_of row)).
  apply on_value_error_some in Hx as [(h & Hh & ->)|[Hn ->]].
  - apply res_ok_inj in H as <-. apply res_bind_ok in Hh as (s & Hs & <-%res_ok_inj).
    rewrite dedupe_texts_if_neg by done. rewrite py_eq_str_l. split; [eauto|].
    intros (s' & Hs' & Hb). congruence.
  - apply res_ok_inj in H as <-. split.
    + intros E. by apply dedupe_texts_cons in E.
    + intros (s & Hs & _). destruct (Hn (sha_of s)). by rewrite Hs.
Qed.

Lemma expiry_reasons_nil row now rs :
  expiry_reasons row now = Ok rs ->
  dedupe_texts rs = [] <-> exists t, parse_timestamp (getv "expires_at" row) "expires_at" = Ok t /\ now < t.
Proof.
  intros (x & [(t & Ht & ->)|[Hn ->]]%on_value_error_some & H)%res_bind_ok; apply res_ok_inj in H as <-.
  - rewrite dedupe_texts_if by done. rewrite Z.leb_gt, Ht. naive_solver.
  - split; [by intros ?%dedupe_texts_cons|]. intros (t & Ht & _). by destruct (Hn t).
Qed.

Lemma check_order_plan_row_nil row b prefix now rs :
  (forall s, nonblank (prefix +:+ s)) ->
  _check_order_plan_row py_repr json_loads canonical_json sha256 row b prefix now = Ok rs ->
  dedupe_texts rs = [] <-> plan_row_ok row b now.
Proof.
  intros Hp (os & Hos & (oe & Hoe & <-%res_ok_inj)%res_bind_ok)%res_bind_ok.
  rewrite !dedupe_texts_app, (snapshot_reasons_nil _ _ _ _ Hp Hos), (expiry_reasons_nil _ _ _ Hoe).
  unfold _check_same_values.
  rewrite dedupe_texts_if_neg, !dedupe_texts_eqb, dedupe_texts_if, orb_false_iff, !negb_false_iff by done.
  split; [intros (? & ? & ? & ? & [? ?] & ?); by constructor|intros []; by split_and!].
Qed.

Lemma shown_nil row sh rs :
  shown_order_plan py_repr json_loads row = Ok (sh, rs) -> (exists s, snapshot_of row = Ok s) ->
  dedupe_texts rs = [].
Proof.
  unfold shown_order_plan. destruct row as [|kv row]; [by intros [= <- <-]|].
  intros (x & [(p & Hp & ->)|[Hn ->]]%on_value_error_some & H)%res_bind_ok Hs; injection H as <- <-; [done|].
  exfalso. destruct Hs as [s Hs]. unfold _canonical_order_plan_snapshot in Hs. res_inv Hs.
  eapply Hn. unfold _public_order_plan. 
  repeat match goal with H : _ = Ok _ |- _ => rewrite H; clear H; cbn [res_bind] end. done.
Qed.

(** ** The observations *)

Record evaluation_ok (row b : payload) : Prop := {
  ev_same : same row b ("entry_timing_evaluation_id" :: _PIPELINE_BINDING_FIELDS) = true;
  ev_plan : text "order_plan_id" row = text "order_plan_id" b;
  ev_ready : text "status" row = "PLAN_READY";
  ev_observe_only : _strict_true (getv "observe_only" row) = true;
  ev_not_intent : _strict_true (getv "not_order_intent" row) = true
}.
Record observation_ok (row b : payload) (fields : list string) (status : string) : Prop := {
  obs_same : same row b fields = true;
  obs_observe_only : _strict_true (getv "observe_only" row) = true;
  obs_status : text "overall_status" row = status
}.

Lemma evaluation_nil row b :
  row <> [] -> dedupe_texts (evaluation_reasons py_repr row b) = [] <-> evaluation_ok row b.
Proof.
  intros Hr. unfold evaluation_reasons, unless_empty, _check_ready_observe_row, _check_same_values.
  destruct row as [|kv row]; [done|]. cbn [andb].
  rewrite !dedupe_texts_app, !dedupe_texts_eqb, !dedupe_texts_if_neg by done.
  split; [intros (? & ? & ? & ? & ?); by constructor|intros []; by split_and!].
Qed.

Lemma observation_nil row b fields mismatch not_observe status not_status :
  nonblank mismatch -> nonblank not_observe -> nonblank not_status -> row <> [] ->
  dedupe_texts (observation_reasons py_repr row b fields mismatch not_observe status not_status) = [] <->
  observation_ok row b fields status.
Proof.
  intros H1 H2 H3 Hr. unfold observation_reasons, unless_empty, _check_same_values.
  destruct row as [|kv row]; [done|].
  rewrite !dedupe_texts_app, dedupe_texts_eqb, !dedupe_texts_if_neg by done.
  split; [intros (? & ? & ?); by constructor|intros []; by split_and!].
Qed.

Lemma latest_nil row b fields mismatch :
  nonblank mismatch -> row <> [] ->
  dedupe_texts (unless_empty row (_check_same_values py_repr row b fields mismatch)) = [] <->
  same row b fields = true.
Proof.
  intros H Hr. unfold unless_empty, _check_same_values. destruct row; [done|]. by apply dedupe_texts_if_neg.
Qed.

(** ** The intent *)

(** The intent names what the binding names, trades what the plan trades, and was
    made with this binding. *)
Record intent_bound (i b plan : payload) : Prop := {
  in_same : same i b INTENT_BINDING_FIELDS = true;
  in_code : text "code" i = text "code" plan;
  in_side : text "side" i = text "side" plan;
  in_binding : exists evidence nested,
    strict_json_object py_repr json_loads (getv "evidence_json" i) "intent.evidence_json" = Ok evidence /\
    getv "order_plan_binding" evidence = JObj nested /\ differs "binding_sha256" nested b = false
}.

Lemma intent_binding_nil i b rs :
  intent_binding_reasons py_repr json_loads i b = Ok rs ->
  dedupe_texts rs = [] <->
  exists evidence nested,
    strict_json_object py_repr json_loads (getv "evidence_json" i) "intent.evidence_json" = Ok evidence /\
    getv "order_plan_binding" evidence = JObj nested /\ differs "binding_sha256" nested b = false.
Proof.
  intros (x & [(e & He & ->)|[Hn ->]]%on_value_error_some & H)%res_bind_ok.
  - destruct (getv "order_plan_binding" e) eqn:En; apply res_ok_inj in H as <-.
    7: { rewrite dedupe_texts_if by done. rewrite He. split; [eauto|].
         intros (e' & n' & [= <-] & Hn & Hd). congruence. }
    all: split; [by intros ?%dedupe_texts_cons|]; intros (e' & n' & He' & Hn & _); congruence.
  - apply res_ok_inj in H as <-. split; [by intros ?%dedupe_texts_cons|].
    intros (e & n & He & _). by destruct (Hn e).
Qed.

Lemma expected_intent_nil i b plan rs :
  _check_expected_intent py_repr json_loads i b plan = Ok rs ->
  dedupe_texts rs = [] <-> i <> [] /\ intent_bound i b plan.
Proof.
  unfold _check_expected_intent. destruct i as [|kv i].
  { intros <-%res_ok_inj. split; [by intros ?%dedupe_texts_cons|naive_solver]. }
  intros (n & Hn & <-%res_ok_inj)%res_bind_ok. unfold _check_same_values. cbn [existsb].
  rewrite !dedupe_texts_app, dedupe_texts_if_neg, dedupe_texts_if, !orb_false_iff by done.
  rewrite !negb_false_iff, !String.eqb_eq, (intent_binding_nil _ _ _ Hn).
  split; [intros (? & [? [? _]] & ?); split; [done|by constructor]|intros [_ []]; by split_and!].
Qed.

(** ** Reading a binding *)

(** What reading does to an identifier. *)
Definition clean (v : json) : json :=
  match v with JStr s => if str_true (py_strip s) then JStr (py_strip s) else v | _ => v end.
Definition is_text (v : json) : Prop := exists s, v = JStr s /\ nonblank s.

Lemma normalize_id_spec f item :
  (forall k, getv k (fst (normalize_id f item)) = if String.eqb f k then clean (getv k item) else getv k item) /\
  (dedupe_texts (snd (normalize_id f item)) = [] <-> is_text (getv f item)).
Proof.
  assert (Hm : dedupe_texts ["ORDER_PLAN_BINDING_" +:+ py_upper f +:+ "_MISSING"] <> []).
  { apply dedupe_texts_cons. by apply nonblank_cons. }
  assert (Hsame : forall v, getv f item = v -> clean v = v ->
    forall k, getv k item = if String.eqb f k then clean (getv k item) else getv k item).
  { intros v Hv Hc k. destruct (String.eqb_spec f k) as [->|]; [|done]. by rewrite Hv. }
  unfold normalize_id. destruct (getv f item) as [| | | |s| |] eqn:E.
  5: { destruct (str_true (py_strip s)) eqn:Es; cbn [fst snd].
       - split; [|split; [intros _; by exists s|done]]. intros k. rewrite getv_set_item.
         destruct (String.eqb_spec f k) as [->|]; [|done]. rewrite E. unfold clean. by rewrite Es.
       - split; [apply (Hsame _ eq_refl); unfold clean; by rewrite Es|].
         split; [done|]. intros (s' & [= <-] & Hn). unfold nonblank in Hn. congruence. }
  all: cbn [fst snd]; split; [by apply (Hsame _ eq_refl)|]; split; [done|]; by intros (s' & [=] & _).
Qed.

Lemma clean_idem v : clean (clean v) = clean v.
Proof.
  destruct v as [| | | |s| |]; try done. cbn. destruct (str_true (py_strip s)) eqn:E; cbn;
    by rewrite ?py_strip_idem, ?E.
Qed.
Lemma is_text_clean v : is_text (clean v) <-> is_text v.
Proof.
  unfold is_text, nonblank. destruct v as [| | | |s| |]; try done. cbn.
  destruct (str_true (py_strip s)) eqn:E; [|done]. split; intros (s' & [= <-] & _); eexists; split; try done.
  by rewrite py_strip_idem.
Qed.

Lemma normalize_ids_spec fs item item' rs :
  normalize_ids fs item = (item', rs) ->
  (forall k, getv k item' = if mem k fs then clean (getv k item) else getv k item) /\
  (dedupe_texts rs = [] <-> Forall (fun f => is_text (getv f item)) fs).
Proof.
  revert item item' rs. induction fs as [|f fs IH]; intros item item' rs H; cbn in H.
  { injection H as <- <-. by split. }
  destruct (normalize_id_spec f item) as [Hk Hn].
  destruct (normalize_id f item) as [item1 rs1]. cbn [fst snd] in *.
  destruct (normalize_ids fs item1) as [item2 rs2] eqn:E. injection H as <- <-.
  destruct (IH _ _ _ E) as [Hk2 Hn2]. split.
  - intros k. rewrite Hk2, Hk. cbn [mem existsb]. fold (mem k fs).
    rewrite (String.eqb_sym k f). destruct (String.eqb f k), (mem k fs); cbn; auto using clean_idem.
  - rewrite dedupe_texts_app, Hn, Hn2, list.Forall_cons. split; intros [H1 H2]; (split; [done|]);
      eapply list.Forall_impl; try exact H2; intros g Hg; cbn beta in *; rewrite Hk in *;
      destruct (String.eqb f g); try done; by apply is_text_clean.
Qed.

(** The binding that was read: its contract, its identifiers without their
    blanks, well-formed hashes, a time, and the hash of all of that. *)
Record binding_read (item b : payload) : Prop := {
  read_contract : getv "contract" item = JStr ORDER_PLAN_BINDING_CONTRACT;
  read_ids : Forall (fun f => exists s, getv f item = JStr s /\ nonblank s /\
               getv f b = JStr (py_strip s)) _BINDING_ID_FIELDS;
  read_shas : Forall (fun f => _is_sha256 py_repr (getv f b) = true)
                ["source_watermark_hash"; "order_plan_snapshot_sha256"; "binding_sha256"];
  read_expiry : exists t, parse_timestamp (getv "expires_at" item) "expires_at" = Ok t /\
                  getv "expires_at" b = JStr (datetime_to_wire t);
  read_snapshot : getv "order_plan_snapshot_sha256" b = getv "order_plan_snapshot_sha256" item;
  read_own : getv "binding_sha256" b = getv "binding_sha256" item;
  read_hash : getv "binding_sha256" b =
    JStr (sha_of (binding_payload (JStr ORDER_PLAN_BINDING_CONTRACT) (fun f => getv f b)
                    (getv "expires_at" b) (getv "order_plan_snapshot_sha256" b)))
}.

Lemma wire_error_some v f x :
  on_value_error (let* w := wire_text v f in Ok (Some w)) None = Ok x ->
  (exists t, parse_timestamp v f = Ok t /\ x = Some (JStr (datetime_to_wire t))) \/
  ((forall t, parse_timestamp v f <> Ok t) /\ x = None).
Proof.
  intros [(a & Ha & ->)|[Hn ->]]%on_value_error_some.
  - left. apply res_bind_ok in Ha as (t & Ht & <-%res_ok_inj). by exists t.
  - right. split; [|done]. intros t Ht. eapply Hn. unfold wire_text. by rewrite Ht.
Qed.

Lemma normalize_binding_nil item b rs :
  _normalize_binding py_repr canonical_json sha256 (JObj item) = Ok (b, rs) ->
  dedupe_texts rs = [] <-> binding_read item b.
Proof.
  unfold _normalize_binding. destruct (normalize_ids _BINDING_ID_FIELDS item) as [i1 r1] eqn:E.
  apply normalize_ids_spec in E as [Hk Hn].
  intros (x & Hx & H)%res_bind_ok.
  assert (Hexp : getv "expires_at" i1 = getv "expires_at" item) by (by rewrite Hk).
  assert (Hc : getv "contract" i1 = getv "contract" item) by (by rewrite Hk).
  assert (Hs : getv "order_plan_snapshot_sha256" i1 = getv "order_plan_snapshot_sha256" item) by (by rewrite Hk).
  assert (Ho : getv "binding_sha256" i1 = getv "binding_sha256" item) by (by rewrite Hk).
  assert (Hcontract : dedupe_texts (reason_if (negb (py_eq (getv "contract" item)
    (JStr ORDER_PLAN_BINDING_CONTRACT))) "ORDER_PLAN_BINDING_CONTRACT_MISMATCH") = [] <->
    getv "contract" item = JStr ORDER_PLAN_BINDING_CONTRACT).
  { rewrite dedupe_texts_if_neg by done. apply py_eq_str_r. }
  apply wire_error_some in Hx as [(t & Ht & ->)|[Hnt ->]]; apply res_ok_inj, pair_equal_spec in H as [<- <-].
  2: { match goal with |- context [concat ?l] => generalize (concat l); intros shas end.
       rewrite !dedupe_texts_app. split.
       - intros (_ & _ & _ & H & _). by apply dedupe_texts_cons in H.
       - intros [_ _ _ (t & Ht & _)]. rewrite Hexp in Hnt. by destruct (Hnt t). }
  set (b := set_item "expires_at" (JStr (datetime_to_wire t)) i1).
  assert (Hb : forall k, getv k b = if String.eqb "expires_at" k then JStr (datetime_to_wire t) else getv k i1)
    by (intros; apply getv_set_item).
  assert (Hshas : dedupe_texts (concat (map (sha_reasons py_repr i1) ["source_watermark_hash";
      "order_plan_snapshot_sha256"; "binding_sha256"])) = [] <->
    Forall (fun f => _is_sha256 py_repr (getv f b) = true)
      ["source_watermark_hash"; "order_plan_snapshot_sha256"; "binding_sha256"]).
  { cbn [map concat]. unfold sha_reasons. rewrite !dedupe_texts_app, !dedupe_texts_if_neg by done.
    rewrite !list.Forall_cons, !Hb, list.Forall_nil. cbn [String.eqb Ascii.eqb]. naive_solver. }
  revert Hshas. match goal with |- context [concat ?l] => generalize (concat l); intros shas Hshas end.
  rewrite !dedupe_texts_app, Hcontract, Hn, Hshas.
  unfold binding_hash_reasons. rewrite dedupe_texts_if by done.
  assert (Hids : Forall (fun f => is_text (getv f item)) _BINDING_ID_FIELDS <->
    Forall (fun f => exists s, getv f item = JStr s /\ nonblank s /\ getv f b = JStr (py_strip s))
      _BINDING_ID_FIELDS).
  { rewrite !list.Forall_forall. split; intros HF f Hf; specialize (HF f Hf).
    - destruct HF as (s & Hv & Hnb). exists s. split; [done|]. split; [done|].
      rewrite Hb, Hk. replace (mem f _BINDING_ID_FIELDS) with true by (symmetry; by apply mem_spec).
      rewrite Hv. cbn [clean]. unfold nonblank in Hnb. rewrite Hnb.
      destruct (String.eqb_spec "expires_at" f) as [<-|]; [|done].
      exfalso. apply (proj2 (mem_spec _ _)) in Hf. vm_compute in Hf. done.
    - destruct HF as (s & Hv & Hnb & _). by exists s. }
  rewrite Hids. rewrite Hexp in Ht.
  assert (Hbc : getv "contract" b = getv "contract" item) by (by rewrite Hb).
  assert (Hbs : getv "order_plan_snapshot_sha256" b = getv "order_plan_snapshot_sha256" item) by (by rewrite Hb).
  assert (Hbo : getv "binding_sha256" b = getv "binding_sha256" item) by (by rewrite Hb).
  assert (Hbe : getv "expires_at" b = JStr (datetime_to_wire t)) by (by rewrite Hb).
  split.
  - intros (H1 & H2 & H3 & _ & H4). constructor; eauto.
    rewrite !list.Forall_cons in H3. destruct H3 as (_ & _ & H3 & _). rewrite H3 in H4. cbn [andb] in H4.
    apply negb_false_iff, py_eq_str_l in H4. by rewrite Hbc, H1 in H4.
  - intros [H1 H2 H3 _ _ _ H4]. split_and!; try done. apply andb_false_iff. right.
    apply negb_false_iff, py_eq_str_l. by rewrite Hbc, H1.
Qed.

(** ** What a binding that passes stands for *)

(** The row a binding names; an empty key names none. *)
Definition keyed (table : list payload) (key_name key_value : string) : payload :=
  if str_true key_value then fetch_row table key_name key_value else [].
Definition named (table : list payload) (key_name : string) (b : payload) : payload :=
  keyed table key_name (text key_name b).

Definition plan_of (t : pipeline_tables) (b : payload) : payload :=
  named (order_plan_drafts t) "order_plan_id" b.
Definition latest_of (t : pipeline_tables) (b : payload) : payload :=
  named (order_plan_drafts_latest t) "idempotency_key" b.
Definition evaluation_of (t : pipeline_tables) (b : payload) : payload :=
  named (entry_timing_evaluations t) "entry_timing_evaluation_id" b.
Definition strategy_of (t : pipeline_tables) (b : payload) : payload :=
  named (strategy_observations t) "strategy_observation_id" b.
Definition risk_of (t : pipeline_tables) (b : payload) : payload :=
  named (risk_observations t) "risk_observation_id" b.
Definition strategy_latest_of (t : pipeline_tables) (b : payload) : payload :=
  named (strategy_observations_latest t) "candidate_instance_id" b.
Definition risk_latest_of (t : pipeline_tables) (b : payload) : payload :=
  named (risk_observations_latest t) "candidate_instance_id" b.

(** The sources of the candidate as they are now give the bound watermark. *)
Definition source_unchanged (t : pipeline_tables) (b : payload) (now : Z) : Prop :=
  exists current, resolve_candidate_source_lineage py_repr json_loads canonical_json sha256 t
      (text "candidate_instance_id" b) (Some (text "source_run_id" b)) "order_plan_binding_terminal"
      (Some (text "trade_date" b)) None now = Ok current /\
    truthy (jget "candidate_present" current) = true /\
    differs "source_watermark_hash" current b = false /\ differs "trade_date" current b = false.

(** The bound rows exist, agree with the binding and with each other, and the
    lineage of the plan holds. *)
Record binding_stands (t : pipeline_tables) (b : payload) (max_age_sec : float) (now : Z) : Prop := {
  st_age : f_finite max_age_sec = true /\ f_lt max_age_sec f_zero = false;
  st_found : Forall (fun r => r <> []) [plan_of t b; latest_of t b; evaluation_of t b; strategy_of t b;
               risk_of t b; strategy_latest_of t b; risk_latest_of t b];
  st_plan : plan_row_ok (plan_of t b) b now;
  st_latest : plan_row_ok (latest_of t b) b now;
  st_current : same (plan_of t b) (latest_of t b) _ROW_BINDING_FIELDS = true;
  st_evaluation : evaluation_ok (evaluation_of t b) b;
  st_strategy : observation_ok (strategy_of t b) b STRATEGY_BINDING_FIELDS "MATCHED_OBSERVATION";
  st_risk : observation_ok (risk_of t b) b RISK_BINDING_FIELDS "OBSERVE_PASS";
  st_strategy_latest : same (strategy_latest_of t b) b STRATEGY_BINDING_FIELDS = true;
  st_risk_latest : same (risk_latest_of t b) b RISK_BINDING_FIELDS = true;
  st_lineage : exists a, assess_order_plan_lineage py_repr json_loads canonical_json sha256 t
                 (plan_of t b) (evaluation_of t b) max_age_sec now = Ok a /\ pa_status a = "PASS";
  st_source : source_unchanged t b now
}.

Lemma keyed_row_eq table key value reason :
  _keyed_row table key value reason =
  (keyed table key value, match keyed table key value with [] => [reason] | _ => [] end).
Proof. done. Qed.

Lemma missing_nil (row : payload) reason :
  nonblank reason -> dedupe_texts (match row with [] => [reason] | _ => [] end) = [] <-> row <> [].
Proof. intros H. destruct row; [|done]. split; [by intros ?%dedupe_texts_cons|done]. Qed.

Lemma lineage_check_nil t plan evaluation max_age_sec now :
  dedupe_texts (snd (lineage_check py_repr json_loads canonical_json sha256 t plan evaluation max_age_sec now))
    = [] <->
  exists a, assess_order_plan_lineage py_repr json_loads canonical_json sha256 t plan evaluation
              max_age_sec now = Ok a /\ pa_status a = "PASS".
Proof.
  unfold lineage_check. destruct (assess_order_plan_lineage _ _ _ _ _ _ _ _ _) as [a|e]; cbn [snd].
  - destruct (String.eqb_spec (pa_status a) "PASS") as [E|E]; [naive_solver|].
    split; [by intros ?%dedupe_texts_cons|]. intros (? & [= <-] & ?). done.
  - split; [by intros ?%dedupe_texts_cons|]. naive_solver.
Qed.

Lemma current_source_nil t b now :
  dedupe_texts (snd (current_source_check py_repr json_loads canonical_json sha256 t b now)) = [] <->
  source_unchanged t b now.
Proof.
  unfold current_source_check, source_unchanged.
  destruct (resolve_candidate_source_lineage _ _ _ _ _ _ _ _ _ _ _) as [c|e]; cbn [snd].
  - rewrite !dedupe_texts_app, dedupe_texts_if_neg, !dedupe_texts_if by done. naive_solver.
  - split; [by intros ?%dedupe_texts_cons|]. naive_solver.
Qed.

Lemma trade_date_nil d b :
  dedupe_texts (trade_date_reasons d b) = [] <->
  forall x, d = Some x -> nonblank x /\ getv "trade_date" b = JStr (py_strip x).
Proof.
  destruct d as [x|]; cbn [trade_date_reasons].
  - rewrite dedupe_texts_if, orb_false_iff, !negb_false_iff, py_eq_str_r by done. unfold nonblank. naive_solver.
  - split; [naive_solver|done].
Qed.

Lemma bounded_age_spec max_age_sec :
  dedupe_texts (snd (bounded_max_age max_age_sec)) = [] <->
  f_finite max_age_sec = true /\ f_lt max_age_sec f_zero = false.
Proof.
  unfold bounded_max_age. destruct (f_finite max_age_sec), (f_lt max_age_sec f_zero); cbn [negb orb snd];
    (split; [try by intros ?%dedupe_texts_cons|]); naive_solver.
Qed.
Lemma bounded_age_same max_age_sec :
  f_finite max_age_sec = true /\ f_lt max_age_sec f_zero = false ->
  fst (bounded_max_age max_age_sec) = max_age_sec.
Proof. unfold bounded_max_age. by intros [-> ->]. Qed.

(** The intent's side of the validation. *)
Definition intent_agrees (expected_trade_date : option string) (expected_intent : option payload)
    (t : pipeline_tables) (b : payload) : Prop :=
  (forall d, expected_trade_date = Some d -> nonblank d /\ getv "trade_date" b = JStr (py_strip d)) /\
  (forall i, expected_intent = Some i -> i <> [] /\ intent_bound i b (plan_of t b)).

Lemma passed_iff {A} (l : list A) : match l with [] => true | _ => false end = true <-> l = [].
Proof. by destruct l. Qed.
Lemma nonempty_match {A} (row : payload) (x y : A) :
  row <> [] -> match row with [] => x | _ => y end = y.
Proof. by destruct row. Qed.
Lemma both_match {A} (a c : payload) (x y : A) :
  a <> [] -> c <> [] -> (if match a, c with [], _ | _, [] => false | _, _ => true end then x else y) = x.
Proof. by destruct a, c. Qed.
Definition rows_of (t : pipeline_tables) (b : payload) : list payload :=
  [plan_of t b; latest_of t b; evaluation_of t b; strategy_of t b; risk_of t b;
   strategy_latest_of t b; risk_latest_of t b].

Lemma found_rows t b :
  Forall (fun row => row <> []) (rows_of t b) <->
  plan_of t b <> [] /\ latest_of t b <> [] /\ evaluation_of t b <> [] /\ strategy_of t b <> [] /\
  risk_of t b <> [] /\ strategy_latest_of t b <> [] /\ risk_latest_of t b <> [].
Proof.
  unfold rows_of. split; [|intros; repeat constructor; tauto].
  intros H. repeat (apply list.Forall_cons in H as [? H]). done.
Qed.

(** The parts of a validation, where every row is found. *)
Lemma validation_parts t item max_age_sec d i now r :
  validate t (JObj item) max_age_sec d i now = Ok r ->
  let b := vr_binding r in
  exists rb, _normalize_binding py_repr canonical_json sha256 (JObj item) = Ok (b, rb) /\
  (Forall (fun row => row <> []) (rows_of t b) ->
   exists sh rsh ron rol roi,
     shown_order_plan py_repr json_loads (plan_of t b) = Ok (sh, rsh) /\
     _check_order_plan_row py_repr json_loads canonical_json sha256 (plan_of t b) b
       "ORDER_PLAN_BINDING_ORDER_PLAN" now = Ok ron /\
     _check_order_plan_row py_repr json_loads canonical_json sha256 (latest_of t b) b
       "ORDER_PLAN_BINDING_LATEST" now = Ok rol /\
     match i with None => Ok [] | Some i => _check_expected_intent py_repr json_loads i b (plan_of t b) end
       = Ok roi /\
     (vr_passed r = true <->
      dedupe_texts rb = [] /\ (f_finite max_age_sec = true /\ f_lt max_age_sec f_zero = false) /\
      dedupe_texts rsh = [] /\ dedupe_texts ron = [] /\ dedupe_texts rol = [] /\
      same (plan_of t b) (latest_of t b) _ROW_BINDING_FIELDS = true /\
      evaluation_ok (evaluation_of t b) b /\
      observation_ok (strategy_of t b) b STRATEGY_BINDING_FIELDS "MATCHED_OBSERVATION" /\
      observation_ok (risk_of t b) b RISK_BINDING_FIELDS "OBSERVE_PASS" /\
      same (strategy_latest_of t b) b STRATEGY_BINDING_FIELDS = true /\
      same (risk_latest_of t b) b RISK_BINDING_FIELDS = true /\
      (forall x, d = Some x -> nonblank x /\ getv "trade_date" b = JStr (py_strip x)) /\
      dedupe_texts roi = [] /\
      (exists a, assess_order_plan_lineage py_repr json_loads canonical_json sha256 t
         (plan_of t b) (evaluation_of t b) (fst (bounded_max_age max_age_sec)) now = Ok a /\
         pa_status a = "PASS") /\
      source_unchanged t b now)) /\
  (vr_passed r = true -> Forall (fun row => row <> []) (rows_of t b)).
Proof.
  unfold validate_order_plan_binding. intros ([b rb] & Hb & H)%res_bind_ok.
  rewrite !keyed_row_eq in H. cbv beta iota zeta in H.
  rewrite (surjective_pairing (bounded_max_age max_age_sec)) in H. cbv beta iota in H.
  change (keyed (order_plan_drafts t) "order_plan_id" (text "order_plan_id" b)) with (plan_of t b) in H.
  change (keyed (order_plan_drafts_latest t) "idempotency_key" (text "idempotency_key" b))
    with (latest_of t b) in H.
  change (keyed (entry_timing_evaluations t) "entry_timing_evaluation_id"
    (text "entry_timing_evaluation_id" b)) with (evaluation_of t b) in H.
  change (keyed (strategy_observations t) "strategy_observation_id" (text "strategy_observation_id" b))
    with (strategy_of t b) in H.
  change (keyed (risk_observations t) "risk_observation_id" (text "risk_observation_id" b))
    with (risk_of t b) in H.
  change (keyed (strategy_observations_latest t) "candidate_instance_id" (text "candidate_instance_id" b))
    with (strategy_latest_of t b) in H.
  change (keyed (risk_observations_latest t) "candidate_instance_id" (text "candidate_instance_id" b))
    with (risk_latest_of t b) in H.
  apply res_bind_ok in H as ([sh rsh] & Hsh & H).
  apply res_bind_ok in H as (ron & Hon & H). apply res_bind_ok in H as (rol & Hol & H).
  apply res_bind_ok in H as (roi & Hoi & H).
  match type of H with context [if ?c then lineage_check ?a1 ?a2 ?a3 ?a4 ?a5 ?a6 ?a7 ?a8 ?a9 else ?e] =>
    destruct (if c then lineage_check a1 a2 a3 a4 a5 a6 a7 a8 a9 else e) as [lin onl] eqn:El end.
  match type of H with context [if ?c then current_source_check ?a1 ?a2 ?a3 ?a4 ?a5 ?a6 ?a7 else ?e] =>
    destruct (if c then current_source_check a1 a2 a3 a4 a5 a6 a7 else e) as [cur onc] eqn:Ec end.
  apply res_ok_inj in H as <-. cbn [vr_binding vr_passed].
  exists rb. split; [done|]. rewrite found_rows. split.
  - intros (N1 & N2 & N3 & N4 & N5 & N6 & N7).
    rewrite nonempty_match in Hon by done. rewrite nonempty_match in Hol by done.
    rewrite both_match in El by done. rewrite both_match in Ec by done.
    exists sh, rsh, ron, rol, roi. do 4 (split; [done|]).
    rewrite passed_iff, !dedupe_texts_app, both_match, bounded_age_spec, evaluation_nil, !observation_nil, !latest_nil, trade_date_nil by done.
    unfold _check_same_values. rewrite dedupe_texts_if_neg, !missing_nil by done.
    replace onl with (snd (lin, onl)) by done. replace onc with (snd (cur, onc)) by done.
    rewrite <- El, <- Ec, lineage_check_nil, current_source_nil. tauto.
  - rewrite passed_iff, !dedupe_texts_app, !missing_nil by done. tauto.
Qed.

Lemma plan_prefix s : nonblank ("ORDER_PLAN_BINDING_ORDER_PLAN" +:+ s).
Proof. by apply nonblank_cons. Qed.
Lemma latest_prefix s : nonblank ("ORDER_PLAN_BINDING_LATEST" +:+ s).
Proof. by apply nonblank_cons. Qed.

(** The check of an intent that may be given. *)
Lemma given_intent_nil i b plan roi :
  match i with None => Ok [] | Some i => _check_expected_intent py_repr json_loads i b plan end = Ok roi ->
  dedupe_texts roi = [] <-> (forall x, i = Some x -> x <> [] /\ intent_bound x b plan).
Proof.
  destruct i as [i|]; intros Hroi.
  - rewrite (expected_intent_nil _ _ _ _ Hroi). split; [by intros H x [= <-]|auto].
  - apply res_ok_inj in Hroi as <-. by split; [intros _ x [=]|].
Qed.

(** What a binding that passes had. *)
Lemma validation_sound t item max_age_sec d i now r :
  validate t (JObj item) max_age_sec d i now = Ok r -> vr_passed r = true ->
  binding_read item (vr_binding r) /\ binding_stands t (vr_binding r) max_age_sec now /\
  intent_agrees d i t (vr_binding r).
Proof.
  intros (rb & Hb & Hparts & Hfound)%validation_parts Hp. apply normalize_binding_nil in Hb.
  specialize (Hfound Hp). destruct (Hparts Hfound) as
    (sh & rsh & ron & rol & roi & _ & Hon & Hol & Hroi & Heq).
  apply Heq in Hp as (? & Hage & _ & H1 & H2 & ? & ? & ? & ? & ? & ? & ? & H3 & Hl & ?).
  rewrite bounded_age_same in Hl by done.
  rewrite (check_order_plan_row_nil _ _ _ _ _ plan_prefix Hon) in H1.
  rewrite (check_order_plan_row_nil _ _ _ _ _ latest_prefix Hol) in H2.
  rewrite (given_intent_nil _ _ _ _ Hroi) in H3. split; [by apply Hb|]. by split; [constructor|].
Qed.

(** The validation of a binding is exact: it passes if and only if the binding
    reads as one (contract, identifiers, well-formed hashes, its own hash), the
    plan, its latest version, the evaluation and the strategy and risk observations
    it names are all stored and agree with it and with each other, both plan rows
    have the bound snapshot and are ready, buying and unexpired, the strategy
    matched and the risk passed, the lineage of the plan holds, the candidate's
    sources still give the bound watermark, and the intent, if one is given, was
    made with this binding. *)
Theorem validation_exact t item max_age_sec d i now r :
  validate t (JObj item) max_age_sec d i now = Ok r ->
  vr_passed r = true <->
  binding_read item (vr_binding r) /\ binding_stands t (vr_binding r) max_age_sec now /\
  intent_agrees d i t (vr_binding r).
Proof.
  intros Hv. split; [by apply validation_sound|].
  apply validation_parts in Hv as (rb & Hb & Hparts & _). apply normalize_binding_nil in Hb.
  intros (Hread & [Hage Hf H1 H2 ? ? ? ? ? ? Hl ?] & Hd & H3). destruct (Hparts Hf) as
    (sh & rsh & ron & rol & roi & Hsh & Hon & Hol & Hroi & Heq). apply Heq.
  rewrite bounded_age_same, (given_intent_nil _ _ _ _ Hroi) by done.
  rewrite (check_order_plan_row_nil _ _ _ _ _ plan_prefix Hon).
  rewrite (check_order_plan_row_nil _ _ _ _ _ latest_prefix Hol).
  split_and!; try done; [by apply Hb|apply Hage|apply Hage|]. eapply shown_nil; [done|].
  destruct (row_snapshot _ _ _ H1) as (x & ? & _). by exists x.
Qed.

(** ** What was bound is what passes *)

(** The columns a snapshot takes over in another form. *)
Definition RENDERED_FIELDS : list string :=
  ["expires_at"; "created_at"; "source_observed_at"; "observe_only"; "not_order_intent"].

Lemma jget_fields (h : string -> json) fs tail f :
  f ∈ fs -> jget f tail = None -> jget f (map (fun g => (g, h g)) fs ++ tail) = Some (h f).
Proof.
  induction fs as [|g fs IH]; intros Hf Ht; [by apply not_elem_of_nil in Hf|]. cbn.
  destruct (decide (f ∈ fs)) as [Hin|Hout]; [by rewrite IH|].
  assert (jget f (map (fun g => (g, h g)) fs ++ tail) = None) as ->.
  { clear IH Hf. induction fs as [|g' fs IH]; cbn; [done|].
    apply not_elem_of_cons in Hout as [Hne Hout]. rewrite IH by done.
    destruct (String.eqb_spec g' f); [by subst|done]. }
  apply elem_of_cons in Hf as [->|]; [|done]. by rewrite String.eqb_refl.
Qed.

Lemma snapshot_field row s f :
  snapshot_of row = Ok s -> f ∈ _ORDER_PLAN_SNAPSHOT_FIELDS -> f ∉ RENDERED_FIELDS ->
  getv f s = getv f row.
Proof.
  unfold _canonical_order_plan_snapshot. intros H Hf Hn. res_inv H. apply res_ok_inj in H as <-.
  unfold getv at 1. rewrite map_map.
  match goal with |- context [map ?g _ ++ ?tl] =>
    change (map g _ORDER_PLAN_SNAPSHOT_FIELDS) with
      (map (fun x => (x, snd (g x))) _ORDER_PLAN_SNAPSHOT_FIELDS); rewrite (jget_fields (fun x => snd (g x))) end.
  - cbn [default snd]. unfold RENDERED_FIELDS in Hn. rewrite !not_elem_of_cons in Hn.
    destruct Hn as (H1 & H2 & H3 & H4 & H5 & _).
    by rewrite !(proj2 (String.eqb_neq _ _)) by done.
  - done.
  - unfold _ORDER_PLAN_SNAPSHOT_FIELDS in Hf.
    repeat (apply elem_of_cons in Hf as [->|Hf]; [done|]). by apply not_elem_of_nil in Hf.
Qed.

(** A built binding names the row it was built from. *)
Lemma build_spec row bd :
  build_order_plan_binding py_repr json_loads canonical_json sha256 row = Ok bd ->
  exists s t, snapshot_of row = Ok s /\ parse_timestamp (getv "expires_at" row) "expires_at" = Ok t /\
    Forall (fun f => is_text (getv f row)) _BINDING_ID_FIELDS /\
    _is_sha256 py_repr (getv "source_watermark_hash" row) = true /\
    let payload := binding_payload (JStr ORDER_PLAN_BINDING_CONTRACT)
      (fun f => JStr (py_str py_repr (getv f row))) (JStr (datetime_to_wire t)) (JStr (sha_of s)) in
    bd = payload ++ [("binding_sha256", JStr (sha_of payload))].
Proof.
  unfold build_order_plan_binding. destruct row as [|kv row0]; [done|].
  generalize (kv :: row0). clear kv row0. intros row ([] & Ht & H)%res_bind_ok.
  assert (Hids : Forall (fun f => is_text (getv f row)) _BINDING_ID_FIELDS).
  { revert Ht. generalize _BINDING_ID_FIELDS. intros fs. induction fs as [|f fs IH]; [constructor|].
    cbn. intros (x & Hx & H')%res_bind_ok. constructor; [|by apply IH].
    destruct (getv f row) as [| | | |s| |]; try done. exists s. split; [done|].
    cbn in Hx. unfold nonblank. by destruct (str_true (py_strip s)). }
  destruct (negb _) eqn:Esha in H; [done|]. apply negb_false_iff in Esha.
  apply res_bind_ok in H as (e & (t & Hpt & <-%res_ok_inj)%res_bind_ok & (s & Hs & <-%res_ok_inj)%res_bind_ok).
  exists s, t. split_and!; try done.
  assert (Hw : is_text (getv "source_watermark_hash" row)).
  { rewrite list.Forall_forall in Hids. apply Hids. by apply mem_spec. }
  destruct Hw as (x & Hx & _). by rewrite Hx in *.
Qed.

Lemma parsed_datetime v f t : parse_timestamp v f = Ok t -> is_datetime t = true.
Proof.
  unfold parse_timestamp, invalid. destruct v; try done. destruct (negb _); [done|].
  destruct (read_datetime _) as [[a b]|]; [|done]. destruct (is_datetime (a - b)) eqn:E; [|done].
  by intros <-%res_ok_inj.
Qed.

Lemma sha_text h : hex64 h = true -> _is_sha256 py_repr (JStr h) = true.
Proof.
  unfold _is_sha256. cbn [jtrue py_str]. intros H. destruct h as [|c h]; [done|]. done.
Qed.

(** The identifiers of the row carry no blanks around them. *)
Definition ids_clean (row : payload) : Prop :=
  Forall (fun f => exists s, getv f row = JStr s /\ py_strip s = s) _BINDING_ID_FIELDS.

(** A binding survives its own reading: what [build_order_plan_binding] makes
    of a row without blanks around its identifiers is read back unchanged and
    without a reason against it, and carries the row's identifiers, its expiry and
    the hash of its snapshot. *)
Theorem built_binding_reads_back row bd :
  (forall s, hex64 (sha256 s) = true) -> ids_clean row ->
  build_order_plan_binding py_repr json_loads canonical_json sha256 row = Ok bd ->
  (exists s t, snapshot_of row = Ok s /\ getv "order_plan_snapshot_sha256" bd = JStr (sha_of s) /\
     parse_timestamp (getv "expires_at" row) "expires_at" = Ok t /\
     getv "expires_at" bd = JStr (datetime_to_wire t) /\
     Forall (fun f => getv f bd = getv f row) _BINDING_ID_FIELDS) /\
  exists b rs, _normalize_binding py_repr canonical_json sha256 (JObj bd) = Ok (b, rs) /\
    dedupe_texts rs = [] /\ forall k, getv k b = getv k bd.
Proof.
  unfold ids_clean. intros Hsha Hclean (s & t & Hs & Ht & Hids & Hw & ->)%build_spec. set (bd := _ ++ [_]).
  assert (Hid : forall f, f ∈ _BINDING_ID_FIELDS -> getv f bd = getv f row /\ clean (getv f bd) = getv f bd).
  { intros f Hf. assert (getv f bd = JStr (py_str py_repr (getv f row))) as ->.
    { unfold _BINDING_ID_FIELDS in Hf. repeat (apply elem_of_cons in Hf as [->|Hf]; [done|]).
      by apply not_elem_of_nil in Hf. }
    rewrite list.Forall_forall in Hclean. destruct (Hclean f Hf) as (x & Hx & Hst).
    rewrite Hx. split; [done|]. cbn [clean py_str]. rewrite Hst. by destruct (str_true x). }
  split.
  { exists s, t. split_and!; try done. apply list.Forall_forall. intros f Hf. by apply Hid. }
  destruct (normalize_ids _BINDING_ID_FIELDS bd) as [i1 r1] eqn:E.
  assert (Hsame : forall k, getv k i1 = getv k bd).
  { intros k. apply normalize_ids_spec in E as [Hk _]. rewrite Hk.
    destruct (mem k _BINDING_ID_FIELDS) eqn:Em; [|done]. apply mem_spec in Em. by apply Hid. }
  assert (Hexp : getv "expires_at" i1 = JStr (datetime_to_wire t)) by (by rewrite Hsame).
  assert (exists b rs, _normalize_binding py_repr canonical_json sha256 (JObj bd) = Ok (b, rs) /\
    b = set_item "expires_at" (JStr (datetime_to_wire t)) i1) as (b & rs & Hb & Heq).
  { unfold _normalize_binding. rewrite E, Hexp. unfold wire_text.
    rewrite parse_wire by (by eapply parsed_datetime). cbn [res_bind on_value_error]. by eexists _, _. }
  assert (Hbk : forall k, getv k b = getv k bd).
  { intros k. rewrite Heq, getv_set_item, Hsame.
    destruct (String.eqb_spec "expires_at" k) as [<-|]; [|done]. done. }
  exists b, rs. split; [done|]. split; [|done]. apply (normalize_binding_nil _ _ _ Hb). constructor.
  - done.
  - apply list.Forall_forall. intros f Hf. rewrite Hbk. destruct (Hid f Hf) as [Hfr Hcl].
    rewrite list.Forall_forall in Hids, Hclean. destruct (Hids f Hf) as (x & Hx & Hn).
    destruct (Hclean f Hf) as (x' & Hx' & Hst). assert (x' = x) as -> by congruence.
    exists x. rewrite Hfr, Hx, Hst. done.
  - rewrite !list.Forall_cons, !Hbk. split_and!; [|apply sha_text, Hsha|apply sha_text, Hsha|constructor].
    destruct (Hid "source_watermark_hash") as [-> _]; [by apply mem_spec|done].
  - exists t. rewrite Hbk. split; [|done]. apply parse_wire. by eapply parsed_datetime.
  - by rewrite Hbk.
  - by rewrite Hbk.
  - rewrite Hbk. cbn [bd]. f_equal. unfold bd at 1.
    assert (Hp : binding_payload (JStr ORDER_PLAN_BINDING_CONTRACT) (fun f => getv f b)
      (getv "expires_at" b) (getv "order_plan_snapshot_sha256" b) =
      binding_payload (JStr ORDER_PLAN_BINDING_CONTRACT) (fun f => getv f bd)
      (getv "expires_at" bd) (getv "order_plan_snapshot_sha256" bd)).
    { unfold binding_payload. rewrite !Hbk. do 2 f_equal. apply map_ext. intros f. by rewrite Hbk. }
    by rewrite Hp.
Qed.

(** C11. A binding pins the plan it was built from.  If the binding of a plan passes
    later, and the hash tells that plan's snapshot from those of the two rows now
    stored under the bound keys, then the snapshots are equal: both rows still hold
    every column of the plan that was bound (its code, side, prices, quantity,
    notional and all others), so that no column was changed in between. *)
Theorem bound_plan_unchanged row bd t max_age_sec d i now r :
  build_order_plan_binding py_repr json_loads canonical_json sha256 row = Ok bd ->
  validate t (JObj bd) max_age_sec d i now = Ok r -> vr_passed r = true ->
  (forall stored s s', stored ∈ [plan_of t (vr_binding r); latest_of t (vr_binding r)] ->
     snapshot_of row = Ok s -> snapshot_of stored = Ok s' -> sha_of s' = sha_of s -> s' = s) ->
  forall stored, stored ∈ [plan_of t (vr_binding r); latest_of t (vr_binding r)] ->
    snapshot_of stored = snapshot_of row /\
    forall f, f ∈ _ORDER_PLAN_SNAPSHOT_FIELDS -> f ∉ RENDERED_FIELDS -> getv f stored = getv f row.
Proof.
  intros (s & et & Hs & _ & _ & _ & Hbd)%build_spec Hv Hp Hinj stored Hin.
  apply validation_parts in Hv as Hparts. destruct Hparts as (rb & Hb & Hparts & Hfound).
  destruct (Hparts (Hfound Hp)) as (sh & rsh & ron & rol & roi & _ & Hon & Hol & _ & Heq).
  apply Heq in Hp as (Hrb & _ & _ & H1 & H2 & _).
  apply (normalize_binding_nil _ _ _ Hb) in Hrb.
  rewrite (check_order_plan_row_nil _ _ _ _ _ plan_prefix Hon) in H1.
  rewrite (check_order_plan_row_nil _ _ _ _ _ latest_prefix Hol) in H2.
  assert (Hok : plan_row_ok stored (vr_binding r) now).
  { apply elem_of_cons in Hin as [->|[->|[]%not_elem_of_nil]%elem_of_cons]; done. }
  destruct (row_snapshot _ _ _ Hok) as (s' & Hs' & Hsha).
  rewrite (read_snapshot _ _ Hrb), Hbd in Hsha. cbv in Hsha.
  assert (s' = s) as ->.
  { apply (Hinj stored); [done|done|done|]. by injection Hsha. }
  split; [congruence|]. intros f Hf Hn.
  by rewrite <- (snapshot_field stored s f), <- (snapshot_field row s f).
Qed.
End BindingProofs.

(** ** A sample plan *)

Module Sample.
(** A printer of JSON, without escapes and with single quotes. *)
Fixpoint render (v : json) : string :=
  match v with
  | JNull => "null"
  | JBool true => "true"
  | JBool false => "false"
  | JInt n => pretty n
  | JFloat x => match f_floor x with Ok n => pretty n +:+ ".0" | Err _ => "nan" end
  | JStr s => "'" +:+ s +:+ "'"
  | JList l =>
      "[" +:+ (fix items (l : list json) : string :=
                 match l with [] => "]" | v :: l => render v +:+ "," +:+ items l end) l
  | JObj l =>
      "{" +:+ (fix fields (l : list (string * json)) : string :=
                 match l with
                 | [] => "}"
                 | (k, v) :: l => k +:+ ":" +:+ render v +:+ "," +:+ fields l
                 end) l
  end.
Definition canonical (p : payload) : string := render (JObj p).

(** 64 hexadecimal digits of a polynomial of the text. *)
Definition hex_char (n : Z) : ascii :=
  ascii_of_nat (Z.to_nat (if n <? 10 then 48 + n else 87 + n)).
Fixpoint hex_digits (w : nat) (n : Z) : string :=
  match w with O => EmptyString | S w => String (hex_char (n mod 16)) (hex_digits w (n / 16)) end.
Definition sha (s : string) : string :=
  hex_digits 64 (foldl (fun h c => (h * 131 + Z.of_nat (nat_of_ascii c)) mod 4294967291) 7
                   (list_ascii_of_string s)).

Lemma sha_hex s : hex64 (sha s) = true.
Proof.
  unfold sha. generalize (foldl (fun h c => (h * 131 + Z.of_nat (nat_of_ascii c)) mod 4294967291) 7
                   (list_ascii_of_string s)). intros n.
  assert (Hc : forall m, 0 <= m < 16 -> hex_digit (hex_char m) = true).
  { intros m Hm. assert (m = 0 \/ m = 1 \/ m = 2 \/ m = 3 \/ m = 4 \/ m = 5 \/ m = 6 \/ m = 7 \/
      m = 8 \/ m = 9 \/ m = 10 \/ m = 11 \/ m = 12 \/ m = 13 \/ m = 14 \/ m = 15) by lia.
    naive_solver. }
  assert (Hw : forall w m, (String.length (hex_digits w m) = w) /\
    forallb hex_digit (list_ascii_of_string (hex_digits w m)) = true).
  { induction w as [|w IH]; intros m; [done|]. cbn [hex_digits String.length list_ascii_of_string forallb].
    destruct (IH (m / 16)) as [-> ->]. rewrite Hc by (by apply Z.mod_pos_bound). done. }
  unfold hex64. destruct (Hw 64%nat n) as [-> ->]. done.
Qed.

Definition now : Z := 1709165520000000.
Definition wire (ago : Z) : json := JStr (datetime_to_wire (now - seconds ago)).
Definition candidate_id : string := "CAND-2024-02-29-005930-1".

Definition candidate : payload :=
  [("candidate_instance_id", JStr candidate_id); ("trade_date", JStr "2024-02-29");
   ("code", JStr "005930"); ("state", JStr "CONTEXT_READY"); ("state_updated_at", wire 60);
   ("last_seen_at", wire 30); ("theme_id", JNull)].
Definition tick_row : payload :=
  [("code", JStr "005930"); ("exchange", JStr "KRX"); ("event_id", JStr "evt_1"); ("event_ts", wire 2)].
Definition context : payload :=
  [("candidate_instance_id", JStr candidate_id); ("market_context_snapshot_id", JNull);
   ("market_context_json", JStr "{}"); ("theme_context_json", JStr "{}"); ("refreshed_at", wire 20)].

Definition sources (seen : payload) : pipeline_tables :=
  {| candidates := [seen]; candidate_context_latest := [context]; market_ticks_latest := [tick_row];
     market_minute_bars := []; theme_latest_snapshots := []; candidate_condition_fusion := [];
     strategy_observations := []; strategy_observations_latest := []; risk_observations := [];
     risk_observations_latest := []; entry_timing_evaluations := []; order_plan_drafts := [];
     order_plan_drafts_latest := [] |}.

Definition watermark : payload :=
  Eval vm_compute in
  source_watermark_of (fun _ => "?") candidate_id (candidate_source_row (sources candidate) candidate_id) [] [].
Definition watermark_text : string := Eval vm_compute in canonical watermark.

(** The texts the sample rows hold. *)
Definition loads (s : string) : res json :=
  if String.eqb s "{}" then Ok (JObj [])
  else if String.eqb s "[]" then Ok (JList [])
  else if String.eqb s watermark_text then Ok (JObj watermark)
  else Err (ValueError "Expecting value").

(** The columns that carry a lineage. *)
Definition lineage_columns (generated_by : string) : payload :=
  [("source_run_id", JStr "run_1"); ("source_watermark", JStr watermark_text);
   ("source_watermark_hash", JStr (sha watermark_text)); ("source_event_id", JStr "evt_1");
   ("source_observed_at", wire 2); ("data_age_sec", JFloat (f_of_Z 0));
   ("generated_by", JStr generated_by)].
Definition common (generated_by : string) : payload :=
  [("trade_date", JStr "2024-02-29"); ("candidate_instance_id", JStr candidate_id);
   ("code", JStr "005930"); ("name", JStr "SAMSUNG"); ("observe_only", JInt 1)] ++
  lineage_columns generated_by.
Definition strategy : payload :=
  [("strategy_observation_id", JStr "strategy_1"); ("overall_status", JStr "MATCHED_OBSERVATION")] ++
  common "strategy".
Definition risk : payload :=
  [("risk_observation_id", JStr "risk_1"); ("strategy_observation_id", JStr "strategy_1");
   ("overall_status", JStr "OBSERVE_PASS")] ++ common "risk".
Definition evaluation : payload :=
  [("entry_timing_evaluation_id", JStr "entry_1"); ("strategy_observation_id", JStr "strategy_1");
   ("risk_observation_id", JStr "risk_1"); ("status", JStr "PLAN_READY"); ("evaluated_at", wire 1);
   ("order_plan_id", JStr "plan_1"); ("not_order_intent", JInt 1)] ++ common "entry_timing".

(** Five shares at 19,950 won. *)
Definition plan (quantity : Z) : payload :=
  [("order_plan_id", JStr "plan_1"); ("idempotency_key", JStr "key_1"); ("side", JStr "BUY");
   ("status", JStr "PLAN_READY"); ("setup_type", JStr "PULLBACK");
   ("entry_timing_state", JStr "GOOD_PULLBACK"); ("price_location_state", JStr "NEAR_VWAP");
   ("current_price", JFloat (f_of_Z 19950)); ("limit_price", JFloat (f_of_Z 19950));
   ("limit_price_source", JStr "CURRENT"); ("limit_price_offset_ticks", JInt 0);
   ("suggested_quantity", JInt quantity); ("suggested_notional", JFloat (f_of_Z 99750));
   ("max_notional", JFloat (f_of_Z 100000)); ("risk_budget_source", JStr "SETTINGS");
   ("expires_at", wire (-60)); ("reason_codes_json", JStr "[]"); ("evidence_json", JStr "{}");
   ("not_order_intent", JInt 1); ("created_at", wire 1);
   ("entry_timing_evaluation_id", JStr "entry_1"); ("strategy_observation_id", JStr "strategy_1");
   ("risk_observation_id", JStr "risk_1")] ++ common "entry_timing".

Definition tables (seen stored : payload) : pipeline_tables :=
  {| candidates := [seen]; candidate_context_latest := [context]; market_ticks_latest := [tick_row];
     market_minute_bars := []; theme_latest_snapshots := []; candidate_condition_fusion := [];
     strategy_observations := [strategy]; strategy_observations_latest := [strategy];
     risk_observations := [risk]; risk_observations_latest := [risk];
     entry_timing_evaluations := [evaluation]; order_plan_drafts := [stored];
     order_plan_drafts_latest := [stored] |}.

Definition repr (v : json) : string := "?".
Definition max_age : float := f_of_Z 60.

Definition binding : payload :=
  Eval vm_compute in
  match build_order_plan_binding repr loads canonical sha (plan 5) with Ok b => b | Err _ => [] end.

Definition verdict (t : pipeline_tables) (at' : Z) : res (list string) :=
  let* r := validate_order_plan_binding repr loads canonical sha t (JObj binding) max_age
              (Some "2024-02-29") None at' in
  Ok (vr_reason_codes r).
End Sample.

(** The binding passes; with one share more in the stored plan, with the candidate
    seen again, or two minutes later it does not. *)
Example sample_verdicts :
  Sample.verdict (Sample.tables Sample.candidate (Sample.plan 5)) Sample.now = Ok [] /\
  Sample.verdict (Sample.tables Sample.candidate (Sample.plan 6)) Sample.now =
    Ok ["ORDER_PLAN_BINDING_ORDER_PLAN_SNAPSHOT_MISMATCH"; "ORDER_PLAN_BINDING_LATEST_SNAPSHOT_MISMATCH"] /\
  Sample.verdict (Sample.tables (Sample.candidate ++ [("last_seen_at", Sample.wire 0)]) (Sample.plan 5))
    Sample.now = Ok ["ORDER_PLAN_BINDING_CURRENT_SOURCE_WATERMARK_MISMATCH"] /\
  Sample.verdict (Sample.tables Sample.candidate (Sample.plan 5)) (Sample.now + seconds 120) =
    Ok ["ORDER_PLAN_EXPIRED"; "ORDER_PLAN_LINEAGE_INVALID"; "PIPELINE_SOURCE_STALE"].
Proof. vm_compute. done. Qed.

(** *** Witnesses *)

Module SampleRun.
Definition tables : pipeline_tables := Sample.tables Sample.candidate (Sample.plan 5).
Definition result : OrderPlanBindingValidationResult :=
  Eval vm_compute in
  match validate_order_plan_binding Sample.repr Sample.loads Sample.canonical Sample.sha tables
          (JObj Sample.binding) Sample.max_age (Some "2024-02-29") None Sample.now with
  | Ok r => r
  | Err _ => {| vr_passed := false; vr_reason_codes := []; vr_binding := []; vr_order_plan := [];
                vr_lineage := None; vr_current_source := None |}
  end.
End SampleRun.

Lemma sample_validates :
  validate_order_plan_binding Sample.repr Sample.loads Sample.canonical Sample.sha SampleRun.tables
    (JObj Sample.binding) Sample.max_age (Some "2024-02-29") None Sample.now = Ok SampleRun.result.
Proof. vm_compute. reflexivity. Qed.
Lemma sample_builds :
  build_order_plan_binding Sample.repr Sample.loads Sample.canonical Sample.sha (Sample.plan 5) =
  Ok Sample.binding.
Proof. vm_compute. reflexivity. Qed.

Lemma validation_exact_witness :
  vr_passed SampleRun.result = true /\
  binding_stands Sample.repr Sample.loads Sample.canonical Sample.sha SampleRun.tables
    (vr_binding SampleRun.result) Sample.max_age Sample.now.
Proof.
  assert (vr_passed SampleRun.result = true) as Hp by reflexivity.
  split; [exact Hp|].
  exact (proj1 (proj2 (proj1 (validation_exact Sample.repr Sample.loads Sample.canonical Sample.sha
    _ _ _ _ _ _ _ sample_validates) Hp))).
Defined.

Lemma sample_ids_clean : ids_clean (Sample.plan 5).
Proof. unfold ids_clean. repeat constructor; eexists; (split; [reflexivity|reflexivity]). Qed.

Lemma built_binding_reads_back_witness :
  exists b rs, _normalize_binding Sample.repr Sample.canonical Sample.sha (JObj Sample.binding) = Ok (b, rs) /\
    dedupe_texts rs = [] /\ getv "order_plan_id" b = JStr "plan_1".
Proof.
  destruct (built_binding_reads_back Sample.repr Sample.loads Sample.canonical Sample.sha (Sample.plan 5)
    Sample.binding Sample.sha_hex sample_ids_clean sample_builds) as (_ & b & rs & Hb & Hrs & Hk).
  exists b, rs. split; [exact Hb|]. split; [exact Hrs|]. rewrite (Hk "order_plan_id"). reflexivity.
Defined.

Lemma sample_rows stored :
  stored ∈ [plan_of Sample.repr SampleRun.tables (vr_binding SampleRun.result);
            latest_of Sample.repr SampleRun.tables (vr_binding SampleRun.result)] ->
  stored = Sample.plan 5.
Proof. intros [->|[->|[]%not_elem_of_nil]%elem_of_cons]%elem_of_cons; vm_compute; reflexivity. Qed.

Lemma bound_plan_unchanged_witness :
  getv "suggested_quantity"
    (plan_of Sample.repr SampleRun.tables (vr_binding SampleRun.result)) = JInt 5.
Proof.
  assert (Hf : "suggested_quantity" ∈ _ORDER_PLAN_SNAPSHOT_FIELDS) by (apply mem_spec; reflexivity).
  assert (Hn : "suggested_quantity" ∉ RENDERED_FIELDS) by (apply mem_false; reflexivity).
  assert (Hin : plan_of Sample.repr SampleRun.tables (vr_binding SampleRun.result) ∈
    [plan_of Sample.repr SampleRun.tables (vr_binding SampleRun.result);
     latest_of Sample.repr SampleRun.tables (vr_binding SampleRun.result)]) by (apply elem_of_cons; auto).
  assert (Hinj : forall stored s s',
    stored ∈ [plan_of Sample.repr SampleRun.tables (vr_binding SampleRun.result);
              latest_of Sample.repr SampleRun.tables (vr_binding SampleRun.result)] ->
    _canonical_order_plan_snapshot Sample.repr Sample.loads (Sample.plan 5) = Ok s ->
    _canonical_order_plan_snapshot Sample.repr Sample.loads stored = Ok s' ->
    hash_mapping Sample.canonical Sample.sha s' = hash_mapping Sample.canonical Sample.sha s -> s' = s).
  { intros stored s s' ->%sample_rows H1 H2 _. congruence. }
  destruct (bound_plan_unchanged Sample.repr Sample.loads Sample.canonical Sample.sha (Sample.plan 5)
    Sample.binding SampleRun.tables Sample.max_age (Some "2024-02-29") None Sample.now SampleRun.result
    sample_builds sample_validates eq_refl Hinj _ Hin) as [_ Hsame].
  rewrite (Hsame _ Hf Hn). reflexivity.
Defined.
