(* ===== verification/OrderPlanRoute.v ===== *)
(** * From order plan to order ([services/live_sim/order_plan_eligibility.py],
    [order_plan_intent.py], and the terminal check of live_sim_service.py)

    [evaluate_live_sim_order_plan_eligibility] collects the reasons against turning
    a stored plan into an intent and sizes it at the latest price;
    [create_live_sim_intent_from_order_plan] makes the intent, with the binding of
    the plan in its evidence; [plan_execution_reasons] is what
    [queue_live_sim_order_command] asks before the order of such an intent is
    queued: the binding again, the eligibility again, and that the intent says what
    the plan is sized to now.  It is the instance [order_plan_route] of the class
    [PlanRoute] of [LiveSimBuy].

    The tables of the pipeline are rows ([PipelineLineage]); what the admission
    reads of the observations is taken from the same rows.  The latest tick and the
    candidate the admission reads are those of the world and of [observations].  Of
    the evidence of an intent what is read back is kept: the plan and its binding. *)
From S2P Require Import Prelude PyFloat BrokerUtils WireTime TickSize GatewayModels Candidate.
From S2P Require Import CandidateStore Admission OrderBoundary CommandStore.
From S2P Require Import LiveSimModels LiveSimStore LiveSimEvents SafetyGate LiveSimExit.
From S2P Require Import BrokerSnapshot LiveSimReconcile LiveSimBuy PipelineLineage OrderPlanBinding.
From Stdlib Require Import SpecFloat.
From stdpp Require Import pretty.
Local Open Scope Z_scope.

(** ** Settings *)

Record PlanSettings := {
  plan_buy : BuySettings;
  live_sim_order_plan_allowed : bool;
  live_sim_order_plan_routing_enabled : bool;
  live_sim_order_plan_require_fresh_tick : bool;
  live_sim_order_plan_stale_sec : Z;
  live_sim_order_plan_max_price_drift_pct : float;
  live_sim_order_plan_require_strategy_matched : bool;
  live_sim_order_plan_require_risk_observe_pass : bool;
  live_sim_order_plan_require_candidate_context_ready : bool;
  live_sim_order_plan_require_dry_run_evidence : bool;
  live_sim_order_plan_min_notional : float;
  live_sim_order_plan_max_notional : float;
  live_sim_order_plan_allow_market_order : bool;
  entry_timing_max_spread_ticks : Z;
  live_sim_pilot_pipeline_enabled : bool;
  live_sim_pilot_auto_queue_command : bool
}.

Definition plan_gate (s : PlanSettings) : GateSettings := buy_gate (plan_buy s).

Definition READY_ENTRY_TIMING_STATES : list string :=
  ["GOOD_PULLBACK"; "PULLBACK_RECLAIM"; "VWAP_RECLAIM"; "MOMENTUM_CONTINUATION"].
Definition BLOCKED_ORDER_PLAN_REASON_TOKENS : list string := ["BLOCKED"; "CHASE"; "OVERHEAT"; "STALE"].

Definition ORDER_PLAN_ADMISSION_REASON_MAP : list (string * string) :=
  [("CANDIDATE_NOT_FOUND", "CANDIDATE_NOT_FOUND");
   ("CANDIDATE_NOT_CONTEXT_READY", "ORDER_PLAN_CANDIDATE_NOT_CONTEXT_READY");
   ("CANDIDATE_CONTEXT_MISSING", "ORDER_PLAN_CANDIDATE_NOT_CONTEXT_READY");
   ("STRATEGY_OBSERVATION_MISSING", "ORDER_PLAN_STRATEGY_NOT_MATCHED");
   ("STRATEGY_NOT_MATCHED", "ORDER_PLAN_STRATEGY_NOT_MATCHED");
   ("STRATEGY_OBSERVE_ONLY_MISMATCH", "ORDER_PLAN_STRATEGY_NOT_MATCHED");
   ("RISK_OBSERVATION_MISSING", "ORDER_PLAN_RISK_NOT_PASS");
   ("RISK_NOT_OBSERVE_PASS", "ORDER_PLAN_RISK_NOT_PASS");
   ("RISK_OBSERVE_ONLY_MISMATCH", "ORDER_PLAN_RISK_NOT_PASS");
   ("LATEST_TICK_MISSING", "ORDER_PLAN_LATEST_TICK_MISSING");
   ("LATEST_TICK_STALE", "ORDER_PLAN_LATEST_TICK_STALE");
   ("DRY_RUN_EVIDENCE_MISSING", "ORDER_PLAN_DRY_RUN_EVIDENCE_MISSING")].

Definition plan_admission_policy (s : PlanSettings) : AdmissionPolicy :=
  {| ap_name := "live_sim_order_plan";
     require_candidate_context_ready := live_sim_order_plan_require_candidate_context_ready s;
     require_candidate_context_row := live_sim_order_plan_require_candidate_context_ready s;
     require_strategy_matched := live_sim_order_plan_require_strategy_matched s;
     require_risk_observe_pass := live_sim_order_plan_require_risk_observe_pass s;
     require_fresh_tick := live_sim_order_plan_require_fresh_tick s;
     stale_tick_sec := live_sim_order_plan_stale_sec s;
     require_dry_run_evidence := live_sim_order_plan_require_dry_run_evidence s;
     require_strategy_observe_only := Some true; require_risk_observe_only := Some true |}.

(** ** Rows the admission reads *)

(** A column that is a text. *)
Definition column (key : string) (row : payload) : string :=
  match getv key row with JStr s => s | _ => EmptyString end.
Definition by_candidate {A} (f : payload -> A) (table : list payload) : gmap string A :=
  list_to_map (map (fun r => (column "candidate_instance_id" r, f r)) table).

(** The observations with the rows of the pipeline's tables. *)
Definition stage_observations (t : pipeline_tables) (ob : observations) : observations :=
  {| candidate_rows := candidate_rows ob;
     candidate_context := list_to_set (map (column "candidate_instance_id") (candidate_context_latest t));
     strategies := by_candidate (fun r =>
       {| st_strategy_observation_id := column "strategy_observation_id" r;
          st_overall_status := column "overall_status" r;
          st_observe_only := jtrue (getv "observe_only" r) |}) (strategy_observations_latest t);
     risks := by_candidate (fun r =>
       {| rk_risk_observation_id := column "risk_observation_id" r;
          rk_overall_status := column "overall_status" r;
          rk_observe_only := jtrue (getv "observe_only" r) |}) (risk_observations_latest t);
     dry_run_intents := dry_run_intents ob; dry_run_orders := dry_run_orders ob |}.

(** [WHERE order_plan_id = ? ORDER BY evaluated_at DESC, entry_timing_evaluation_id
    DESC LIMIT 1]. *)
Definition _entry_timing_evaluation_row (t : pipeline_tables) (order_plan_id : string) : payload :=
  let later a b :=
    match String.compare (column "evaluated_at" a) (column "evaluated_at" b) with
    | Gt => true
    | Lt => false
    | Eq => text_le (column "entry_timing_evaluation_id" b) (column "entry_timing_evaluation_id" a)
    end in
  default [] (head (stable_sort later
    (List.filter (fun r => sql_same (getv "order_plan_id" r) (JStr order_plan_id))
       (entry_timing_evaluations t)))).

(** [find_live_sim_intent_by_order_plan]. *)
Definition find_live_sim_intent_by_order_plan (l : tables) (order_plan_id : string)
    : res (option LiveSimIntent) :=
  let* id := require_non_empty order_plan_id "order_plan_id" in
  Ok (find (fun x => match li_order_plan_id x with Some p => String.eqb p id | None => false end)
        (intents l)).

(** ** Values *)

(** [_float] and [_int]: zero where the conversion raises. *)
Definition _float (v : json) : res float :=
  let* x := CommandStore.py_float (Some v) in Ok (default f_zero x).
Definition _int (v : json) : res Z := on_value_error (py_int v) 0.

Definition _is_expired (value : json) (now : Z) : res bool :=
  match parse_timestamp value "expires_at" with
  | Ok t => Ok (t <=? now)
  | Err (ValueError _) => Ok true
  | Err e => Err e
  end.

Definition _has_blocked_order_plan_reason (reasons : list string) : bool :=
  existsb (fun r => String.prefix "RISK_" (py_upper r) ||
                    existsb (fun token => str_contains token (py_upper r))
                      BLOCKED_ORDER_PLAN_REASON_TOKENS) reasons.

(** What a plan is sized to. *)
Record plan_sizing := {
  sz_quantity : Z;
  sz_notional : float;
  sz_limit_price : float
}.

Record LiveSimOrderPlanEligibility := {
  oe_eligible : bool;
  oe_order_plan_id : string;
  oe_candidate_instance_id : option string;
  oe_code : option string;
  oe_name : option string;
  oe_strategy_observation_id : option string;
  oe_risk_observation_id : option string;
  oe_reason_codes : list string;
  oe_order_plan : payload;
  oe_sizing : option plan_sizing;
  oe_dry_run : option dry_run_evidence
}.

Section Route.
Context (new_message_id : string -> nat -> string) (py_repr : json -> string)
  (json_loads : string -> res json) (canonical_json : payload -> string) (sha256 : string -> string)
  (sql_sum : list float -> float) {gate : RoutingGate} {qualification : ExecutionLifecycle}.

Abbreviation hash_payload := (hash_mapping canonical_json sha256).

(** [_json_array]: a text that is no JSON is one reason. *)
Definition _json_array (value : json) : res (list string) :=
  let texts items :=
    map py_upper (List.filter (fun s => str_true (py_strip s)) (map (py_str py_repr) items)) in
  let of_loaded v := match v with JList items => texts items | _ => [] end in
  if negb (jtrue value) then Ok [] else
  match value with
  | JStr s =>
      match json_loads s with
      | Ok v => Ok (of_loaded v)
      | Err (ValueError _) => Ok (if str_true (py_strip s) then [py_upper s] else [])
      | Err e => Err e
      end
  | v => Ok (of_loaded v)
  end.

Definition drop_item (key : string) (row : payload) : payload :=
  List.filter (fun kv => negb (String.eqb (fst kv) key)) row.

(** [_order_plan_dict]. *)
Definition _order_plan_dict (row : payload) : res payload :=
  let* reason_codes := _json_array (getv "reason_codes_json" row) in
  let* evidence := json_object_or_empty py_repr json_loads (getv "evidence_json" row) in
  Ok (drop_item "evidence_json" (drop_item "reason_codes_json" row) ++
      [("observe_only", JBool (jtrue (getv "observe_only" row)));
       ("not_order_intent", JBool (jtrue (getv "not_order_intent" row)));
       ("reason_codes", JList (map JStr reason_codes)); ("evidence_json", JObj evidence)]).

Definition _order_plan_row (table : list payload) (order_plan_id : string) : res (option payload) :=
  match fetch_row table "order_plan_id" order_plan_id with
  | [] => Ok None
  | row => let* plan := _order_plan_dict row in Ok (Some plan)
  end.

(** ** Price and size *)

Definition _live_sim_buy_limit_price_for_plan (order_plan : payload) (s : PlanSettings)
    (latest_price : option float) : res float :=
  let* base_price :=
    match latest_price with
    | Some p => if f_gtZ p 0 then Ok p else _float (getv "limit_price" order_plan)
    | None => _float (getv "limit_price" order_plan)
    end in
  if f_leZ base_price 0 then Ok f_zero else
  match add_ticks (PFloat base_price) (live_sim_buy_price_offset_ticks (plan_buy s)) with
  | Ok n => float_of_int n
  | Err (ValueError _) => Ok f_zero
  | Err e => Err e
  end.

Definition max_plan_notional (s : PlanSettings) : float :=
  f_min (live_sim_order_plan_max_notional s) (live_sim_max_order_notional (plan_buy s)).

Definition _sizing (order_plan : payload) (s : PlanSettings) (latest_price : option float)
    : res plan_sizing :=
  let* limit_price := _live_sim_buy_limit_price_for_plan order_plan s latest_price in
  let* planned_quantity := _int (getv "suggested_quantity" order_plan) in
  let* max_quantity :=
    if f_gtZ limit_price 0
    then let* q := f_floordiv (max_plan_notional s) limit_price in f_trunc q
    else Ok 0 in
  let quantity := Z.max (Z.min planned_quantity max_quantity) 0 in
  let* q := float_of_int quantity in
  Ok {| sz_quantity := quantity; sz_notional := f_mul q limit_price; sz_limit_price := limit_price |}.

(** ** Eligibility *)

(** The switches of the route and the gate. *)
Definition switch_reasons (s : PlanSettings) : list string :=
  reason_if (negb (live_sim_order_plan_allowed s)) "ORDER_PLAN_ROUTING_DISABLED" ++
  reason_if (negb (live_sim_order_plan_routing_enabled s)) "ORDER_PLAN_ROUTING_DISABLED".
Definition gate_reasons (g : GateResult) : list string :=
  if passed g then [] else gate_reason_codes g ++ ["ORDER_PLAN_SAFETY_GATE_FAILED"].

(** What the plan itself says against it. *)
Definition plan_reasons (order_plan : payload) (latest_plan : option payload)
    (order_plan_reasons : list string) (s : PlanSettings) (now : Z) : res (list string) :=
  let evidence := match getv "evidence_json" order_plan with JObj e => e | _ => [] end in
  let side := py_upper (py_str py_repr (getv "side" order_plan)) in
  let order_type := py_upper (py_str py_repr (default (JStr "LIMIT") (jget "order_type" evidence))) in
  let* expired := _is_expired (getv "expires_at" order_plan) now in
  let* current_price := _float (getv "current_price" order_plan) in
  let* limit_price := _float (getv "limit_price" order_plan) in
  let* quantity := _int (getv "suggested_quantity" order_plan) in
  let* notional := _float (getv "suggested_notional" order_plan) in
  Ok (reason_if (match latest_plan with
                 | None => true
                 | Some l => differs "order_plan_id" l order_plan
                 end) "ORDER_PLAN_NOT_LATEST" ++
      reason_if (negb (py_eq (getv "status" order_plan) (JStr "PLAN_READY"))) "ORDER_PLAN_NOT_READY" ++
      reason_if (negb (truthy (jget "observe_only" order_plan)) ||
                 negb (truthy (jget "not_order_intent" order_plan))) "ORDER_PLAN_NOT_READY" ++
      reason_if expired "ORDER_PLAN_EXPIRED" ++
      reason_if (negb (String.eqb side "BUY")) "ORDER_PLAN_NOT_BUY" ++
      reason_if ((String.eqb order_type "MARKET" && negb (live_sim_order_plan_allow_market_order s)) ||
                 negb (mem order_type ["LIMIT"; "MARKET"])) "ORDER_PLAN_MARKET_ORDER_NOT_ALLOWED" ++
      reason_if (f_leZ current_price 0 || f_leZ limit_price 0) "ORDER_PLAN_INVALID_PRICE" ++
      reason_if (quantity <? 1) "ORDER_PLAN_INVALID_QUANTITY" ++
      reason_if (f_leZ notional 0) "INVALID_NOTIONAL" ++
      reason_if (f_lt notional (live_sim_order_plan_min_notional s)) "INVALID_NOTIONAL" ++
      reason_if (f_lt (max_plan_notional s) notional) "MAX_ORDER_NOTIONAL_EXCEEDED" ++
      reason_if (String.eqb (py_upper (py_str py_repr (getv "setup_type" order_plan))) "NO_SETUP")
        "ORDER_PLAN_ENTRY_TIMING_NOT_ALLOWED" ++
      reason_if (negb (mem (py_upper (py_str py_repr (getv "entry_timing_state" order_plan)))
                         READY_ENTRY_TIMING_STATES)) "ORDER_PLAN_ENTRY_TIMING_NOT_ALLOWED" ++
      reason_if (_has_blocked_order_plan_reason order_plan_reasons) "ORDER_PLAN_BLOCKED_REASON").

(** What the latest tick says against the plan. *)
Definition price_reasons (order_plan : payload) (latest : option tick) (s : PlanSettings)
    : res (list string) :=
  match latest with
  | None => Ok []
  | Some k =>
      let latest_price := tk_price k in
      let limit := live_sim_order_plan_max_price_drift_pct s in
      let* draft_price := _float (getv "current_price" order_plan) in
      let* drift :=
        if f_gtZ draft_price 0
        then let* q := f_div (f_abs (f_sub latest_price draft_price)) draft_price in
             Ok (f_lt limit (f_mul q (f_of_Z 100)))
        else Ok false in
      let* limit_price := _live_sim_buy_limit_price_for_plan order_plan s (Some latest_price) in
      Ok (reason_if (f_leZ latest_price 0) "ORDER_PLAN_INVALID_PRICE" ++
          reason_if drift "ORDER_PLAN_PRICE_DRIFT_EXCEEDED" ++
          reason_if (f_gtZ limit_price 0 &&
                     f_lt (f_mul limit_price (f_add f_one (f_divZ limit 100))) latest_price)
            "ORDER_PLAN_PRICE_DRIFT_EXCEEDED" ++
          reason_if (entry_timing_max_spread_ticks s <? tk_spread_ticks k) "ORDER_PLAN_BLOCKED_REASON")
  end.

(** What the ledger says against another order of the code. *)
Definition plan_code_reasons (w : world) (rows : list reconcile_row) (order_plan_id code : string)
    (s : PlanSettings) (ignore : option string) (now : Z) : res (list string) :=
  let l := ledger w in
  let b := plan_buy s in
  let* existing := find_live_sim_intent_by_order_plan l order_plan_id in
  let* duplicates := _recent_active_live_sim_count_for_code l code b ignore now in
  let* mismatch := _latest_reconcile_blocks_new_buy (gateway w) rows (reconcile_settings b) now in
  let* held := if live_sim_position_allow_scale_in b then Ok 0 else _open_position_count_for_code l code in
  let* exits := _active_exit_count_for_code l code in
  let* cancels := _active_cancel_count_for_code l code in
  let* blockers := _unresolved_lifecycle_error_count w in
  Ok (reason_if (match existing with
                 | None => false
                 | Some x => negb (bool_decide (Some (li_live_sim_intent_id x) = ignore))
                 end) "ORDER_PLAN_DUPLICATE_INTENT" ++
      reason_if (0 <? duplicates) "DUPLICATE_LIVE_SIM_ORDER" ++
      reason_if mismatch "LIVE_SIM_RECONCILE_MISMATCH_BLOCK" ++
      reason_if (0 <? held) "LIVE_SIM_OPEN_POSITION_EXISTS" ++
      reason_if (0 <? exits) "LIVE_SIM_ACTIVE_EXIT_EXISTS" ++
      reason_if (0 <? cancels) "LIVE_SIM_ACTIVE_CANCEL_EXISTS" ++
      reason_if (0 <? blockers) "LIVE_SIM_LIFECYCLE_ERROR_BLOCK").

(** The limits of the day and of the moment. *)
Definition plan_limit_reasons (l : tables) (trade_date : string) (z : plan_sizing) (s : PlanSettings)
    : list string :=
  reason_if (live_sim_max_daily_order_count (plan_gate s) <=? _daily_order_count l trade_date)
    "DAILY_ORDER_LIMIT_EXCEEDED" ++
  reason_if (f_lt (live_sim_max_daily_notional (plan_gate s))
               (f_add (_daily_order_notional sql_sum l trade_date) (sz_notional z)))
    "DAILY_NOTIONAL_LIMIT_EXCEEDED" ++
  limit_reasons l (plan_buy s).

(** [_eligibility_result] of a plan that is not stored. *)
Definition missing_plan (order_plan_id : string) (reasons : list string) : LiveSimOrderPlanEligibility :=
  {| oe_eligible := false; oe_order_plan_id := order_plan_id; oe_candidate_instance_id := None;
     oe_code := None; oe_name := None; oe_strategy_observation_id := None;
     oe_risk_observation_id := None;
     oe_reason_codes := _merge_reasons (reasons ++ ["ORDER_PLAN_NOT_FOUND"]);
     oe_order_plan := []; oe_sizing := None; oe_dry_run := None |}.

(** The price the sizing takes. *)
Definition sizing_price (latest : option tick) : option float :=
  match latest with
  | Some k => if f_gtZ (tk_price k) 0 then Some (tk_price k) else None
  | None => None
  end.

(** The evaluation of a stored plan. *)
Definition evaluate_stored_plan (w : world) (t : pipeline_tables) (ob : observations)
    (rows : list reconcile_row) (id : string) (order_plan : payload) (latest_plan : option payload)
    (s : PlanSettings) (ignore : option string) (now : Z) : res LiveSimOrderPlanEligibility :=
  let l := ledger w in
  let trade_date := py_str py_repr (getv "trade_date" order_plan) in
  let side := py_upper (py_str py_repr (getv "side" order_plan)) in
  let g := check_live_sim_safety_gate sql_sum l (gateway w) (gateway_status w) (plan_gate s) NEW_BUY
             true (String.eqb side "BUY") (Some trade_date) now in
  let candidate_id := py_str py_repr (getv "candidate_instance_id" order_plan) in
  let* code := validate_stock_code (getv "code" order_plan) "code" in
  let name := py_str py_repr (getv "name" order_plan) in
  let* order_plan_reasons := _json_array (getv "reason_codes" order_plan) in
  let* on_plan := plan_reasons order_plan latest_plan order_plan_reasons s now in
  let ob := stage_observations t ob in
  let dry_run := _latest_dry_run_evidence ob candidate_id in
  let* a := evaluate_trade_admission ob (ticks w) candidate_id (plan_admission_policy s)
              (Some trade_date) (Some code) (Some name) dry_run now in
  let* on_price := price_reasons order_plan (latest_tick_evidence a) s in
  let* lineage := assess_order_plan_lineage py_repr json_loads canonical_json sha256 t order_plan
                    (_entry_timing_evaluation_row t id) (f_of_Z (live_sim_order_plan_stale_sec s)) now in
  let* on_code := plan_code_reasons w rows id code s ignore now in
  let* z := _sizing order_plan s (sizing_price (latest_tick_evidence a)) in
  let reasons := _merge_reasons
    (gate_reasons g ++ switch_reasons s ++ on_plan ++
     _map_admission_reasons (at_reason_codes a) ORDER_PLAN_ADMISSION_REASON_MAP ++ on_price ++
     reason_if (negb (String.eqb (pa_status lineage) "PASS")) "ORDER_PLAN_LINEAGE_INVALID" ++
     on_code ++ plan_limit_reasons l trade_date z s) in
  Ok {| oe_eligible := match reasons with [] => true | _ => false end; oe_order_plan_id := id;
        oe_candidate_instance_id := Some candidate_id; oe_code := Some code; oe_name := Some name;
        oe_strategy_observation_id := at_strategy_observation_id a;
        oe_risk_observation_id := at_risk_observation_id a; oe_reason_codes := reasons;
        oe_order_plan := order_plan; oe_sizing := Some z; oe_dry_run := dry_run |}.

Definition evaluate_live_sim_order_plan_eligibility (w : world) (t : pipeline_tables)
    (ob : observations) (rows : list reconcile_row) (order_plan_id : string) (s : PlanSettings)
    (ignore_live_sim_intent_id : option string) (now : Z) : res LiveSimOrderPlanEligibility :=
  let* id := require_non_empty order_plan_id "order_plan_id" in
  let* order_plan := _order_plan_row (order_plan_drafts t) id in
  let* latest_plan := _order_plan_row (order_plan_drafts_latest t) id in
  match order_plan with
  | None =>
      let g := check_live_sim_safety_gate sql_sum (ledger w) (gateway w) (gateway_status w) (plan_gate s)
                 NEW_BUY false false None now in
      Ok (missing_plan id (gate_reasons g ++ switch_reasons s))
  | Some order_plan =>
      evaluate_stored_plan w t ob rows id order_plan latest_plan s ignore_live_sim_intent_id now
  end.

(** ** The terminal check *)

(** The row of an intent as a mapping. *)
Definition intent_row (x : LiveSimIntent) : payload :=
  [("live_sim_intent_id", JStr (li_live_sim_intent_id x));
   ("candidate_instance_id", JStr (li_candidate_instance_id x));
   ("strategy_observation_id", opt_str (li_strategy_observation_id x));
   ("risk_observation_id", opt_str (li_risk_observation_id x));
   ("order_plan_id", opt_str (li_order_plan_id x)); ("trade_date", JStr (li_trade_date x));
   ("account_id", JStr (li_account_id x)); ("code", JStr (li_code x)); ("name", JStr (li_name x));
   ("side", JStr (LiveSimSide.value (li_side x)));
   ("order_type", JStr (LiveSimOrderType.value (li_order_type x)));
   ("quantity", JInt (li_quantity x)); ("limit_price", opt_float (li_limit_price x));
   ("notional", JFloat (li_notional x)); ("status", JStr (IS.value (li_status x)));
   ("reason_codes", JList (map JStr (li_reason_codes x))); ("evidence_json", li_evidence_json x);
   ("idempotency_key", JStr (li_idempotency_key x));
   ("created_at", _optional_wire (li_created_at x)); ("expires_at", _optional_wire (li_expires_at x));
   ("gateway_command_id", opt_str (li_gateway_command_id x))].

Definition BINDING_MATCH_FIELDS : list string :=
  ["binding_sha256"; "order_plan_snapshot_sha256"; "order_plan_id"].

(** [build_order_plan_binding] under [except Exception]. *)
Definition frozen_plan_binding (evidence : payload) : option payload * list string :=
  match getv "order_plan_binding" evidence with
  | JObj b => (Some b, [])
  | _ =>
      match getv "order_plan_draft" evidence with
      | JObj plan =>
          match build_order_plan_binding py_repr json_loads canonical_json sha256 plan with
          | Ok b => (Some b, [])
          | Err _ => (None, ["ORDER_PLAN_FROZEN_SNAPSHOT_INVALID"])
          end
      | _ => (None, ["ORDER_PLAN_FROZEN_SNAPSHOT_MISSING"])
      end
  end.

Definition _resolve_intent_order_plan_binding (x : LiveSimIntent) (required_plan_binding : option json)
    : res (option payload * list string) :=
  let* evidence := _json_object py_repr json_loads (Some (li_evidence_json x)) in
  let '(frozen, on_frozen) := frozen_plan_binding evidence in
  let required :=
    match required_plan_binding with Some (JObj (kv :: fields)) => Some (kv :: fields) | _ => None end in
  let on_required :=
    match required_plan_binding, required with
    | Some _, None => ["ORDER_PLAN_REQUIRED_BINDING_INVALID"]
    | _, _ => []
    end in
  let mismatches :=
    match required, frozen with
    | Some r, Some f =>
        concat (map (fun k => reason_if (differs k r f)
                                ("ORDER_PLAN_INTENT_" +:+ py_upper k +:+ "_MISMATCH")) BINDING_MATCH_FIELDS)
    | _, _ => []
    end in
  let selected := match required with Some r => Some r | None => frozen end in
  let missing := match selected with None => ["ORDER_PLAN_BINDING_MISSING"] | Some _ => [] end in
  Ok (selected, _merge_reasons (on_frozen ++ on_required ++ mismatches ++ missing)).

(** Both are finite numbers at most [1e-9] apart. *)
Definition _same_execution_number (left right : option float) : bool :=
  match left, right with
  | Some a, Some b =>
      f_finite a && f_finite b && (f_eq a b || f_le (f_abs (f_sub b a)) (f_lit 1 (10 ^ 9)))
  | _, _ => false
  end.

(** [str(int(p) if float(p).is_integer() else p)]. *)
Definition price_text (p : float) : res string :=
  if f_is_integer p then let* n := f_trunc p in Ok (pretty n) else Ok (py_repr (JFloat p)).

Definition make_live_sim_order_plan_idempotency_key (trade_date account_id order_plan_id code side : string)
    (limit_price : float) (quantity : Z) : res string :=
  let* code := validate_code code "code" in
  let* price := price_text limit_price in
  Ok (String.concat ":" ["live_sim"; "order_plan"; trade_date; account_id; order_plan_id; code;
                         py_upper side; price; pretty quantity]).

(** The intent expires after now and not after the plan. *)
Definition intent_expiry_ok (x : LiveSimIntent) (binding : payload) (now : Z) : res bool :=
  match li_expires_at x with
  | None => Ok false
  | Some intent_expiry =>
      let* plan_expiry := on_value_error
        (let* t := parse_timestamp (getv "expires_at" binding) "binding.expires_at" in Ok (Some t)) None in
      Ok (match plan_expiry with
          | None => false
          | Some plan_expiry => (now <? intent_expiry) && (intent_expiry <=? plan_expiry)
          end)
  end.

(** The idempotency key is that of the plan at this size; [KeyError] for a binding
    without a plan. *)
Definition intent_key_ok (x : LiveSimIntent) (binding : payload) (z : plan_sizing)
    (expected_account_id : string) : res bool :=
  match jget "order_plan_id" binding with
  | None => Ok false
  | Some p =>
      let key := make_live_sim_order_plan_idempotency_key (li_trade_date x) expected_account_id
                   (py_str py_repr p) (li_code x) "BUY" (sz_limit_price z) (sz_quantity z) in
      match key with
      | Ok k => Ok (String.eqb (li_idempotency_key x) k)
      | Err OverflowError => Ok false
      | Err e => if is_value_error e then Ok false else Err e
      end
  end.

Definition _bound_order_plan_intent_execution_reasons (x : LiveSimIntent) (binding : payload)
    (z : plan_sizing) (expected_account_id : string) (now : Z) : res (list string) :=
  let* expiry := intent_expiry_ok x binding now in
  let* key := intent_key_ok x binding z expected_account_id in
  Ok (reason_if (negb (bool_decide (li_side x = LiveSimSide.BUY) &&
                       bool_decide (li_order_type x = LiveSimOrderType.LIMIT) &&
                       str_true (py_strip expected_account_id) &&
                       String.eqb (li_account_id x) expected_account_id &&
                       (li_quantity x =? sz_quantity z) &&
                       _same_execution_number (li_limit_price x) (Some (sz_limit_price z)) &&
                       _same_execution_number (Some (li_notional x)) (Some (sz_notional z)) &&
                       expiry && key)) "ORDER_PLAN_INTENT_EXECUTION_MISMATCH").

(** The eligibility at this moment, and the intent against its size. *)
Definition terminal_reasons (w : world) (t : pipeline_tables) (ob : observations)
    (rows : list reconcile_row) (x : LiveSimIntent) (binding : payload) (s : PlanSettings) (now : Z)
    : res (list string) :=
  let* e := evaluate_live_sim_order_plan_eligibility w t ob rows (text_or_default (li_order_plan_id x) "None")
              s (Some (li_live_sim_intent_id x)) now in
  if negb (oe_eligible e) then Ok (oe_reason_codes e) else
  match oe_sizing e with
  | None => Ok ["ORDER_PLAN_INTENT_EXECUTION_MISMATCH"]
  | Some z => _bound_order_plan_intent_execution_reasons x binding z (live_sim_account_id (plan_gate s)) now
  end.

(** The reasons against queueing an intent that is bound to a plan. *)
Definition plan_execution_reasons (t : pipeline_tables) (ob : observations) (s : PlanSettings)
    (w : world) (rows : list reconcile_row) (x : LiveSimIntent) (required : option json) (now : Z)
    : res (list string) :=
  let* resolved := _resolve_intent_order_plan_binding x required in
  let '(binding, reasons) := resolved in
  let reasons := reasons ++ reason_if (negb (names_plan x)) "ORDER_PLAN_INTENT_PLAN_ID_MISSING" in
  match binding, reasons with
  | Some b, [] =>
      let* r := validate_order_plan_binding py_repr json_loads canonical_json sha256 t (JObj b)
                  (f_of_Z (live_sim_order_plan_stale_sec s)) (Some (li_trade_date x))
                  (Some (intent_row x)) now in
      if negb (vr_passed r) then Ok (vr_reason_codes r)
      else terminal_reasons w t ob rows x b s now
  | _, _ => Ok reasons
  end.

#[local] Instance order_plan_route (t : pipeline_tables) (ob : observations) (s : PlanSettings)
    : PlanRoute :=
  {| plan_binding_reasons := plan_execution_reasons t ob s |}.

(** ** Intents from plans *)

Definition _bindings_match (first second : payload) : bool :=
  truthy (jget "binding_sha256" first) && negb (existsb (fun k => differs k first second) BINDING_MATCH_FIELDS).

(** [except (TypeError, ValueError)]. *)
Definition _intent_binding_matches (x : LiveSimIntent) (expected : payload) : res bool :=
  let* evidence := json_object_or_empty py_repr json_loads (li_evidence_json x) in
  match getv "order_plan_binding" evidence with
  | JObj frozen => Ok (_bindings_match frozen expected)
  | _ =>
      match getv "order_plan_draft" evidence with
      | JObj plan =>
          on_value_error (let* b := build_order_plan_binding py_repr json_loads canonical_json sha256 plan in
                          Ok (_bindings_match b expected)) false
      | _ => Ok false
      end
  end.

Definition plan_intent_args (id : string) (e : LiveSimOrderPlanEligibility) (quantity : Z)
    (limit_price notional : float) (key : string) (binding : payload) (expires_at : Z) (source : string)
    (s : PlanSettings) (now : Z) : LiveSimIntentArgs :=
  {| ia_live_sim_intent_id := JStr id;
     ia_candidate_instance_id := opt_str (oe_candidate_instance_id e);
     ia_strategy_observation_id := opt_str (oe_strategy_observation_id e);
     ia_risk_observation_id := opt_str (oe_risk_observation_id e);
     ia_trade_date := JStr (py_str py_repr (getv "trade_date" (oe_order_plan e)));
     ia_account_id := JStr (live_sim_account_id (plan_gate s)); ia_code := opt_str (oe_code e);
     ia_name := opt_str (oe_name e);
     ia_order_plan_id := JStr (py_str py_repr (getv "order_plan_id" (oe_order_plan e)));
     ia_side := JStr "BUY"; ia_order_type := JStr "LIMIT"; ia_quantity := JInt quantity;
     ia_limit_price := JFloat limit_price; ia_notional := JFloat notional;
     ia_status := JStr "CREATED";
     ia_reason_codes := JList [JStr "OBSERVE_ONLY_AI_ARTIFACT_IGNORED"];
     ia_evidence_json := JObj [("source", JStr source); ("order_plan_draft", JObj (oe_order_plan e));
                               ("order_plan_binding", JObj binding)];
     ia_idempotency_key := JStr key;
     ia_dry_run_intent_id := opt_str (option_map dr_dry_run_intent_id (oe_dry_run e));
     ia_dry_run_order_id := opt_str (oe_dry_run e ≫= dr_dry_run_order_id);
     ia_created_at := moment now; ia_expires_at := moment expires_at;
     ia_gateway_command_id := JNull; ia_broker_order_sent := JBool false |}.

Definition _build_intent_from_eligibility (e : LiveSimOrderPlanEligibility) (z : plan_sizing)
    (binding : payload) (source : string) (s : PlanSettings) (now : Z) : M LiveSimIntent :=
  let! code := of_res (validate_code (text_or_default (oe_code e) "None") "code") in
  let! ratio := of_res (f_div (max_plan_notional s) (sz_limit_price z)) in
  let! most := of_res (f_floor ratio) in
  let quantity := Z.min (sz_quantity z) most in
  let! q := of_res (float_of_int quantity) in
  let notional := f_mul q (sz_limit_price z) in
  let! plan_expiry := of_res (parse_timestamp (getv "expires_at" (oe_order_plan e)) "expires_at") in
  let expires_at := Z.min (now + seconds (live_sim_order_ttl_sec (plan_buy s))) plan_expiry in
  let! key := of_res (make_live_sim_order_plan_idempotency_key
                (py_str py_repr (getv "trade_date" (oe_order_plan e))) (live_sim_account_id (plan_gate s))
                (py_str py_repr (getv "order_plan_id" (oe_order_plan e))) code "BUY" (sz_limit_price z) quantity) in
  let! id := fresh_id new_message_id "live_sim_intent" in
  of_res (LiveSimIntent_post_init
            (plan_intent_args id e quantity (sz_limit_price z) notional key binding expires_at source s now)).

(** [_rejected_intent]; it is not stored. *)
Definition rejected_plan_intent_args (id : string) (e : LiveSimOrderPlanEligibility)
    (trade_date code candidate name key : string) (s : PlanSettings) (now : Z) : LiveSimIntentArgs :=
  {| ia_live_sim_intent_id := JStr id; ia_candidate_instance_id := JStr candidate;
     ia_strategy_observation_id := opt_str (oe_strategy_observation_id e);
     ia_risk_observation_id := opt_str (oe_risk_observation_id e); ia_trade_date := JStr trade_date;
     ia_account_id := JStr (nonempty_or (live_sim_account_id (plan_gate s)) "SIMULATION_ACCOUNT_REQUIRED");
     ia_code := JStr code; ia_name := JStr name; ia_order_plan_id := JStr (oe_order_plan_id e);
     ia_side := JStr "BUY"; ia_order_type := JStr "LIMIT"; ia_quantity := JInt 0;
     ia_limit_price := JNull; ia_notional := JInt 0; ia_status := JStr "REJECTED";
     ia_reason_codes := JList (map JStr (oe_reason_codes e)); ia_evidence_json := JObj [];
     ia_idempotency_key := JStr key; ia_dry_run_intent_id := JNull; ia_dry_run_order_id := JNull;
     ia_created_at := text (JStr (datetime_to_wire now)); ia_expires_at := text JNull;
     ia_gateway_command_id := JNull; ia_broker_order_sent := JBool false |}.

Definition _rejected_intent (e : LiveSimOrderPlanEligibility) (s : PlanSettings) (now : Z)
    : M LiveSimIntent :=
  let plan_or key (v : option string) d :=
    match v with
    | Some x => if str_true x then x else nonempty_or (text_of py_repr key (oe_order_plan e)) d
    | None => nonempty_or (text_of py_repr key (oe_order_plan e)) d
    end in
  let trade_date := nonempty_or (text_of py_repr "trade_date" (oe_order_plan e)) "UNKNOWN" in
  let code := plan_or "code" (oe_code e) "000000" in
  let candidate := plan_or "candidate_instance_id" (oe_candidate_instance_id e) "ORDER_PLAN_MISSING" in
  let! id := fresh_id new_message_id "live_sim_intent_rejected" in
  let! key := of_res (make_live_sim_order_plan_idempotency_key trade_date
                (nonempty_or (live_sim_account_id (plan_gate s)) "SIMULATION_ACCOUNT_REQUIRED")
                (oe_order_plan_id e) code "BUY" f_zero 0) in
  of_res (LiveSimIntent_post_init
            (rejected_plan_intent_args id e trade_date code candidate (plan_or "name" (oe_name e) "UNKNOWN")
               key s now)).

(** [record_live_sim_order_plan_rejection]. *)
Definition record_live_sim_order_plan_rejection (e : LiveSimOrderPlanEligibility) : M unit :=
  _save_rejection new_message_id (text_or_default (oe_candidate_instance_id e) EmptyString)
    (oe_code e) (oe_reason_codes e).

Definition invalid_binding {A} : M A := raise (ValueError "ORDER_PLAN_BINDING_INVALID").

(** The expected binding, checked before anything is read. *)
Definition check_expected_binding (t : pipeline_tables) (order_plan_id : string) (expected : json)
    (s : PlanSettings) (now : Z) : M payload :=
  match expected with
  | JObj [] => invalid_binding
  | JObj fields =>
      let! r := of_res (validate_order_plan_binding py_repr json_loads canonical_json sha256 t (JObj fields)
                          (f_of_Z (live_sim_order_plan_stale_sec s)) None None now) in
      if negb (vr_passed r)
      then raise (ValueError (String.concat "," ("ORDER_PLAN_BINDING_INVALID" :: vr_reason_codes r)))
      else if negb (py_eq (getv "order_plan_id" (vr_binding r)) (JStr order_plan_id)) then invalid_binding
      else ret fields
  | _ => raise (OtherError "TypeError")
  end.

Definition is_live_intent (x : LiveSimIntent) : bool :=
  bool_decide (li_status x = IS.CREATED) || bool_decide (li_status x = IS.COMMAND_QUEUED).

(** [LiveSimIntent.from_dict(existing)]. *)
Definition read_back (x : LiveSimIntent) : M LiveSimIntent :=
  of_res (let* d := LiveSimIntent_to_dict x in LiveSimIntent_from_dict (JObj d)).

(** The intent of a plan that already has a live one. *)
Definition existing_plan_intent (t : pipeline_tables) (ob : observations) (rows : list reconcile_row)
    (order_plan_id : string) (x : LiveSimIntent) (expected : option payload) (s : PlanSettings) (now : Z)
    : M LiveSimIntent :=
  let! ok := match expected with
             | None => ret true
             | Some e => of_res (_intent_binding_matches x e)
             end in
  if negb ok then invalid_binding else
  let! w := get in
  let! e := of_res (evaluate_live_sim_order_plan_eligibility w t ob rows order_plan_id s None now) in
  let! _ := if mem "ORDER_PLAN_DUPLICATE_INTENT" (oe_reason_codes e)
            then record_live_sim_order_plan_rejection e else ret tt in
  read_back x.

(** The intent of an eligible plan, unless its key is taken. *)
Definition new_plan_intent (e : LiveSimOrderPlanEligibility) (z : plan_sizing) (expected : option payload)
    (source : string) (s : PlanSettings) (now : Z) : M LiveSimIntent :=
  let! binding := of_res (build_order_plan_binding py_repr json_loads canonical_json sha256 (oe_order_plan e)) in
  if match expected with Some x => negb (_bindings_match binding x) | None => false end
  then invalid_binding else
  let! x := _build_intent_from_eligibility e z binding source s now in
  let! w := get in
  match find (fun y => same li_idempotency_key x y) (intents (ledger w)) with
  | Some y =>
      let! _ := _save_rejection new_message_id (text_or_default (oe_candidate_instance_id e) EmptyString)
                  (oe_code e) ["ORDER_PLAN_DUPLICATE_INTENT"] in
      read_back y
  | None =>
      let! _ := try_ledger (_insert_intent x) in
      ret x
  end.

Definition create_live_sim_intent_from_order_plan (t : pipeline_tables) (ob : observations)
    (rows : list reconcile_row) (order_plan_id : string) (s : PlanSettings) (source : string)
    (expected_binding : option json) (now : Z) : M LiveSimIntent :=
  let! expected := match expected_binding with
                   | None => ret None
                   | Some j => let! b := check_expected_binding t order_plan_id j s now in ret (Some b)
                   end in
  let! w := get in
  let! existing := of_res (find_live_sim_intent_by_order_plan (ledger w) order_plan_id) in
  match option_map (fun x => (is_live_intent x, x)) existing with
  | Some (true, x) => existing_plan_intent t ob rows order_plan_id x expected s now
  | _ =>
      let! e := of_res (evaluate_live_sim_order_plan_eligibility w t ob rows order_plan_id s None now) in
      if negb (oe_eligible e) then
        let! _ := record_live_sim_order_plan_rejection e in
        _rejected_intent e s now
      else
        match oe_sizing e with
        | Some z => new_plan_intent e z expected source s now
        | None => raise (OtherError "KeyError")
        end
  end.

(** [find_live_sim_order_by_intent]: the latest one. *)
Definition find_live_sim_order_by_intent (l : tables) (live_sim_intent_id : string)
    : res (option order_row) :=
  let* id := require_non_empty live_sim_intent_id "live_sim_intent_id" in
  let created o := match lo_created_at (or_rec o) with Some t => datetime_to_wire t | None => EmptyString end in
  let later a b :=
    match String.compare (created a) (created b) with
    | Gt => true
    | Lt => false
    | Eq => text_le (order_id b) (order_id a)
    end in
  Ok (head (stable_sort later
    (List.filter (fun o => String.eqb (lo_live_sim_intent_id (or_rec o)) id) (orders l)))).

Definition queue_live_sim_order_command_from_order_plan (t : pipeline_tables) (ob : observations)
    (rows : list reconcile_row) (order_plan_id : string) (s : PlanSettings) (source : string) (now : Z)
    : M LiveSimOrderRecord :=
  let! x := create_live_sim_intent_from_order_plan t ob rows order_plan_id s source None now in
  let! w := get in
  let! queued := of_res (if bool_decide (li_status x = IS.COMMAND_QUEUED)
                         then find_live_sim_order_by_intent (ledger w) (li_live_sim_intent_id x)
                         else Ok None) in
  match queued with
  | Some o => ret (or_rec o)
  | None =>
      if negb (is_created x) then
        raise (ValueError (nonempty_or (String.concat "," (li_reason_codes x)) (IS.value (li_status x))))
      else
      let disabled := reason_if (negb (live_sim_pilot_pipeline_enabled s)) "PILOT_PIPELINE_DISABLED" ++
                      reason_if (negb (live_sim_pilot_auto_queue_command s)) "PILOT_AUTO_QUEUE_DISABLED" in
      match disabled with
      | [] => queue_live_sim_order_command new_message_id py_repr hash_payload sql_sum rows
                (li_live_sim_intent_id x) (plan_buy s) None now (plan_route := order_plan_route t ob s)
      | _ => refuse new_message_id x disabled (String.concat "," disabled)
      end
  end.
End Route.
