(* ===== verification/BoundBuys.v ===== *)
(** * What a buy that is bound to a plan is ([OrderPlanRoute])

    A plan is eligible exactly under the listed conditions; an order of an intent
    that names a plan is queued only if the binding of the plan still stands, the
    plan is eligible at that moment, and the intent says exactly what the plan is
    sized to. *)
From S2P Require Import Prelude PyFloat FloatRound BrokerUtils WireTime TickSize GatewayModels Candidate.
From S2P Require Import CandidateStore Admission OrderBoundary CommandStore.
From S2P Require Import LiveSimModels LiveSimStore LiveSimEvents SafetyGate LiveSimExit.
From S2P Require Import LiveSimLedger LiveSimHistory LiveSimRuns BrokerSnapshot LiveSimReconcile LiveSimBuy.
From S2P Require Import BuyRuns PipelineLineage OrderPlanBinding BoundPlans OrderPlanRoute.
From Stdlib Require Import SpecFloat.
Local Open Scope Z_scope.

Lemma order_type_fit t b :
  ((String.eqb t "MARKET" && negb b) || negb (mem t ["LIMIT"; "MARKET"])) = false <->
  t = "LIMIT" \/ t = "MARKET" /\ b = true.
Proof.
  cbn [mem existsb]. destruct (String.eqb_spec t "LIMIT") as [->|H1]; [by split; [left|]|].
  destruct (String.eqb_spec t "MARKET") as [->|H2]; destruct b; cbn; naive_solver.
Qed.

Lemma not_latest {A} (o : option A) (p : A -> bool) :
  match o with None => true | Some l => p l end = false <-> exists l, o = Some l /\ p l = false.
Proof. destruct o; naive_solver. Qed.

Lemma other_intent (o : option LiveSimIntent) ignore :
  match o with None => false | Some x => negb (bool_decide (Some (li_live_sim_intent_id x) = ignore)) end = false
  <-> forall x, o = Some x -> Some (li_live_sim_intent_id x) = ignore.
Proof.
  destruct o as [x|]; [|naive_solver]. rewrite negb_false_iff, bool_decide_eq_true. naive_solver.
Qed.

Lemma counted_unless (b : bool) (r : res Z) n :
  (if b then Ok 0 else r) = Ok n -> n <= 0 <-> b = true \/ exists m, r = Ok m /\ m <= 0.
Proof.
  destruct b; [intros <-%res_ok_inj; naive_solver|]. intros ->. split; [intros; right; by exists n|].
  intros [|(m & [= <-] & ?)]; done.
Qed.

Lemma guarded_drift (b r : bool) (v : res float) (f : float -> bool) :
  (if b then let* q := v in Ok (f q) else Ok false) = Ok r ->
  r = false <-> (b = true -> exists q, v = Ok q /\ f q = false).
Proof.
  destruct b; [|by intros <-%res_ok_inj]. intros (q & -> & <-%res_ok_inj)%res_bind_ok.
  split; [eauto|]. intros H. destruct (H eq_refl) as (q' & [= <-] & ?). done.
Qed.

Set Default Proof Using "Type".
Section PlanBuys.
Context (new_message_id : string -> nat -> string) (py_repr : json -> string)
  (json_loads : string -> res json) (canonical_json : payload -> string) (sha256 : string -> string)
  (sql_sum : list float -> float) {gate : RoutingGate} {qualification : ExecutionLifecycle}.

Abbreviation str_of := (py_str py_repr).

(** ** The plan *)

(** The plan itself may be executed. *)
Record plan_fit (plan : payload) (latest : option payload) (reasons : list string) (s : PlanSettings)
    (now : Z) : Prop := {
  fit_latest : exists l, latest = Some l /\ differs "order_plan_id" l plan = false;
  fit_ready : getv "status" plan = JStr "PLAN_READY";
  fit_flags : truthy (jget "observe_only" plan) = true /\ truthy (jget "not_order_intent" plan) = true;
  fit_live : _is_expired (getv "expires_at" plan) now = Ok false;
  fit_buy : py_upper (str_of (getv "side" plan)) = "BUY";
  fit_type : let evidence := match getv "evidence_json" plan with JObj e => e | _ => [] end in
    let type := py_upper (str_of (default (JStr "LIMIT") (jget "order_type" evidence))) in
    type = "LIMIT" \/ type = "MARKET" /\ live_sim_order_plan_allow_market_order s = true;
  fit_price : exists c l, _float (getv "current_price" plan) = Ok c /\ f_leZ c 0 = false /\
    _float (getv "limit_price" plan) = Ok l /\ f_leZ l 0 = false;
  fit_quantity : exists q, _int (getv "suggested_quantity" plan) = Ok q /\ 1 <= q;
  fit_notional : exists n, _float (getv "suggested_notional" plan) = Ok n /\ f_leZ n 0 = false /\
    f_lt n (live_sim_order_plan_min_notional s) = false /\ f_lt (max_plan_notional s) n = false;
  fit_setup : py_upper (str_of (getv "setup_type" plan)) <> "NO_SETUP";
  fit_timing : py_upper (str_of (getv "entry_timing_state" plan)) ∈ READY_ENTRY_TIMING_STATES;
  fit_reasons : _has_blocked_order_plan_reason reasons = false
}.

Lemma plan_merges plan latest rs s now xs :
  plan_reasons py_repr plan latest rs s now = Ok xs ->
  _merge_reasons xs = [] <-> plan_fit plan latest rs s now.
Proof.
  unfold plan_reasons. intros H.
  apply res_bind_ok in H as (ex & Hex & H). apply res_bind_ok in H as (c & Hc & H).
  apply res_bind_ok in H as (l & Hl & H). apply res_bind_ok in H as (q & Hq & H).
  apply res_bind_ok in H as (n & Hn & H). apply res_ok_inj in H as <-.
  rewrite !merge_reasons_app, !merge_reason_if_iff by reflexivity.
  rewrite order_type_fit, !orb_false_iff, !negb_false_iff, !String.eqb_eq, py_eq_str_r, Z.ltb_ge, mem_spec.
  rewrite not_latest, String.eqb_neq. split.
  - intros (? & ? & ? & -> & ? & ? & [? ?] & ? & ? & ? & ? & ? & ? & ?). constructor; eauto 10.
  - intros [? ? [? ?] Hlive ? ? (c' & l' & Hc' & ? & Hl' & ?) (q' & Hq' & ?) (n' & Hn' & ? & ? & ?) ? ? ?].
    rewrite Hex in Hlive. rewrite Hc in Hc'. rewrite Hl in Hl'. rewrite Hq in Hq'. rewrite Hn in Hn'.
    apply res_ok_inj in Hlive as ->. apply res_ok_inj in Hc' as <-. apply res_ok_inj in Hl' as <-.
    apply res_ok_inj in Hq' as <-. apply res_ok_inj in Hn' as <-. by split_and!.
Qed.

(** ** Price, code and limits *)

(** The latest price is positive and has not drifted, and the spread is narrow. *)
Record price_fit (plan : payload) (k : tick) (s : PlanSettings) : Prop := {
  price_positive : f_leZ (tk_price k) 0 = false;
  price_drift : exists d, _float (getv "current_price" plan) = Ok d /\
    (f_gtZ d 0 = true -> exists q, f_div (f_abs (f_sub (tk_price k) d)) d = Ok q /\
       f_lt (live_sim_order_plan_max_price_drift_pct s) (f_mul q (f_of_Z 100)) = false);
  price_limit : exists p, _live_sim_buy_limit_price_for_plan plan s (Some (tk_price k)) = Ok p /\
    (f_gtZ p 0 && f_lt (f_mul p (f_add f_one (f_divZ (live_sim_order_plan_max_price_drift_pct s) 100)))
                    (tk_price k)) = false;
  price_spread : tk_spread_ticks k <= entry_timing_max_spread_ticks s
}.

Lemma price_merges plan k s xs :
  price_reasons plan (Some k) s = Ok xs -> _merge_reasons xs = [] <-> price_fit plan k s.
Proof.
  unfold price_reasons. intros H.
  apply res_bind_ok in H as (d & Hd & H). apply res_bind_ok in H as (dr & Hdr & H).
  apply res_bind_ok in H as (p & Hp & H). apply res_ok_inj in H as <-.
  rewrite !merge_reasons_app, !merge_reason_if_iff, Z.ltb_ge by reflexivity.
  assert (dr = false <-> (f_gtZ d 0 = true -> exists q, f_div (f_abs (f_sub (tk_price k) d)) d = Ok q /\
       f_lt (live_sim_order_plan_max_price_drift_pct s) (f_mul q (f_of_Z 100)) = false)) as ->
    by exact (guarded_drift _ _ _ _ Hdr).
  split.
  - intros (? & ? & ? & ?). constructor; eauto.
  - intros [? (d' & Hd' & ?) (p' & Hp' & ?) ?]. rewrite Hd in Hd'. rewrite Hp in Hp'.
    apply res_ok_inj in Hd' as <-. apply res_ok_inj in Hp' as <-. by split_and!.
Qed.

(** No order of the code is under way and no other intent has the plan. *)
Record code_clear (w : world) (rows : list reconcile_row) (id code : string) (s : PlanSettings)
    (ignore : option string) (now : Z) : Prop := {
  cc_plan : exists e, find_live_sim_intent_by_order_plan (ledger w) id = Ok e /\
    (forall x, e = Some x -> Some (li_live_sim_intent_id x) = ignore);
  cc_single : exists n, _recent_active_live_sim_count_for_code (ledger w) code (plan_buy s) ignore now
    = Ok n /\ n <= 0;
  cc_reconcile : _latest_reconcile_blocks_new_buy (gateway w) rows (reconcile_settings (plan_buy s)) now = Ok false;
  cc_position : live_sim_position_allow_scale_in (plan_buy s) = true \/
    exists n, _open_position_count_for_code (ledger w) code = Ok n /\ n <= 0;
  cc_exits : exists n, _active_exit_count_for_code (ledger w) code = Ok n /\ n <= 0;
  cc_cancels : exists n, _active_cancel_count_for_code (ledger w) code = Ok n /\ n <= 0;
  cc_lifecycle : exists n, _unresolved_lifecycle_error_count w = Ok n /\ n <= 0
}.

Lemma plan_code_merges w rows id code s ignore now xs :
  plan_code_reasons w rows id code s ignore now = Ok xs ->
  _merge_reasons xs = [] <-> code_clear w rows id code s ignore now.
Proof.
  unfold plan_code_reasons. intros H.
  apply res_bind_ok in H as (e & He & H). apply res_bind_ok in H as (dup & Hdup & H).
  apply res_bind_ok in H as (mm & Hmm & H). apply res_bind_ok in H as (held & Hheld & H).
  apply res_bind_ok in H as (ex & Hex & H). apply res_bind_ok in H as (ca & Hca & H).
  apply res_bind_ok in H as (bl & Hbl & H). apply res_ok_inj in H as <-.
  rewrite !merge_reasons_app, !merge_reason_if_iff, !Z.ltb_ge by reflexivity.
  rewrite other_intent, (counted_unless _ _ _ Hheld).
  split.
  - intros (? & ? & -> & ? & ? & ? & ?). constructor; eauto.
  - intros [(e' & He' & ?) (? & H2 & ?) H3 ? (? & H5 & ?) (? & H6 & ?) (? & H7 & ?)].
    rewrite He in He'. rewrite Hdup in H2. rewrite Hmm in H3. rewrite Hex in H5. rewrite Hca in H6. rewrite Hbl in H7.
    apply res_ok_inj in H3 as ->.
    repeat match goal with E : Ok _ = Ok _ |- _ => apply res_ok_inj in E as <- end. by split_and!.
Qed.

(** ** Eligibility *)

Lemma gate_reasons_merge (w : world) g p a b day now :
  let r := check_live_sim_safety_gate sql_sum (ledger w) (gateway w) (gateway_status w) g p a b day now in
  _merge_reasons (gate_reasons r) = [] <-> passed r = true.
Proof.
  cbv zeta. unfold gate_reasons. destruct (passed _) eqn:E; [done|]. split; [|done].
  rewrite merge_reasons_app. by intros [_ H].
Qed.

Lemma switches_merge s :
  _merge_reasons (switch_reasons s) = [] <->
  live_sim_order_plan_allowed s = true /\ live_sim_order_plan_routing_enabled s = true.
Proof.
  unfold switch_reasons. by rewrite merge_reasons_app, !merge_reason_if_iff, !negb_false_iff by reflexivity.
Qed.

(** The reasons of a trace: those of the candidate and others. *)
Lemma trace_reasons ob ts id p day code name d now a :
  evaluate_trade_admission ob ts id p day code name d now = Ok a ->
  at_candidate_instance_id a = py_strip id /\
  (at_eligible a = true <-> at_reason_codes a = []) /\
  exists rs, at_reason_codes a = _merge_reasons
    (candidate_reasons p (_candidate_row (candidate_rows ob) (py_strip id))
       (bool_decide (py_strip id ∈ candidate_context ob)) ++ rs).
Proof.
  unfold evaluate_trade_admission. intros (cid & [-> _]%require_non_empty_ok & H)%res_bind_ok.
  cbv zeta in H. apply res_bind_ok in H as ([[x k] n] & _ & H). res_inv H. apply res_ok_inj in H as <-.
  cbn [at_candidate_instance_id at_eligible at_reason_codes]. split; [done|]. split; [apply passed_iff|].
  by eexists.
Qed.

(** With a stored candidate nothing is fallen back on. *)
Lemma no_fallback ob ts id p day code name d now c :
  is_stock_code code = true -> _candidate_row (candidate_rows ob) (py_strip id) = Some c ->
  evaluate_trade_admission ob ts id p day (Some code) name d now =
  evaluate_trade_admission ob ts id p None None None d now.
Proof.
  intros Hcode Hc. unfold evaluate_trade_admission.
  destruct (require_non_empty id _) as [cid|e] eqn:E; [|done]. apply require_non_empty_ok in E as [-> _].
  cbn [res_bind]. unfold admission_subject. rewrite Hc, validate_code_fixed by done.
  replace (str_true code) with true by (by destruct code). done.
Qed.

(** The admission with the plan's date, code and name to fall back on. *)
Lemma fallback_admission ob ts id p day code name d now a :
  is_stock_code code = true ->
  evaluate_trade_admission ob ts id p day (Some code) name d now = Ok a ->
  _merge_reasons (_map_admission_reasons (at_reason_codes a) ORDER_PLAN_ADMISSION_REASON_MAP) = [] <->
  admitted ob ts (py_strip id) p d now.
Proof.
  intros Hcode H. destruct (trace_reasons _ _ _ _ _ _ _ _ _ _ H) as (_ & He & rs & Hrs).
  assert (_merge_reasons (_map_admission_reasons (at_reason_codes a) ORDER_PLAN_ADMISSION_REASON_MAP) = [] <->
          at_reason_codes a = []) as ->.
  { rewrite merge_reasons_nil_iff.
    - unfold _map_admission_reasons. by destruct (at_reason_codes a).
    - rewrite Hrs. apply map_admission_named, merge_reasons_named. by repeat constructor. }
  destruct (_candidate_row (candidate_rows ob) (py_strip id)) as [c|] eqn:Ec.
  - rewrite <- He. rewrite (no_fallback _ _ _ _ _ _ _ _ _ c) in H by done. by apply (admission_exact _ _ _ _ _ _ _ H).
  - split.
    + intros E. exfalso. rewrite Hrs in E. apply merge_reasons_app in E as [E _].
      unfold candidate_reasons in E. by apply merge_reasons_app in E as [E _].
    + intros Hadm. destruct (admitted_candidate _ _ _ _ _ _ Hadm) as (c & Hc & _). congruence.
Qed.

(** The tick an admitted candidate's trace carries is that of its code. *)
Lemma fallback_tick ob ts id p day code name d now a :
  is_stock_code code = true ->
  evaluate_trade_admission ob ts id p day (Some code) name d now = Ok a ->
  admitted ob ts (py_strip id) p d now ->
  exists c k t, _candidate_row (candidate_rows ob) (py_strip id) = Some c /\
    validate_code (c_code c) "code" = Ok k /\ ts !! k = Some t /\ latest_tick_evidence a = Some t.
Proof.
  intros Hcode H Hadm. destruct (admitted_candidate _ _ _ _ _ _ Hadm) as (c & Hc & _).
  rewrite (no_fallback _ _ _ _ _ _ _ _ _ c) in H by done.
  pose proof (proj2 (proj2 (admission_exact _ _ _ _ _ _ _ H)) Hadm) as He.
  destruct (admission_trace _ _ _ _ _ _ _ H He) as (c' & k & t & Hc' & Hk & _ & _ & Ht & Hl).
  exists c', k, t. done.
Qed.

(** A stored plan that may be bought: by its own columns, its candidate, the latest
    tick, its lineage, the ledger and the limits. *)
Record plan_buyable (w : world) (t : pipeline_tables) (ob : observations) (rows : list reconcile_row)
    (id : string) (plan : payload) (latest : option payload) (s : PlanSettings) (ignore : option string)
    (now : Z) (z : plan_sizing) : Prop := {
  by_gate : passed (check_live_sim_safety_gate sql_sum (ledger w) (gateway w) (gateway_status w)
              (plan_gate s) NEW_BUY true (String.eqb (py_upper (str_of (getv "side" plan))) "BUY")
              (Some (str_of (getv "trade_date" plan))) now) = true;
  by_switches : live_sim_order_plan_allowed s = true /\ live_sim_order_plan_routing_enabled s = true;
  by_fit : exists rs, _json_array py_repr json_loads (getv "reason_codes" plan) = Ok rs /\
    plan_fit plan latest rs s now;
  by_admission : admitted (stage_observations t ob) (ticks w)
    (py_strip (str_of (getv "candidate_instance_id" plan))) (plan_admission_policy s)
    (_latest_dry_run_evidence (stage_observations t ob) (str_of (getv "candidate_instance_id" plan))) now;
  by_price : exists c code k,
    _candidate_row (candidate_rows ob) (py_strip (str_of (getv "candidate_instance_id" plan))) = Some c /\
    validate_code (c_code c) "code" = Ok code /\ ticks w !! code = Some k /\ price_fit plan k s /\
    _sizing plan s (sizing_price (Some k)) = Ok z;
  by_lineage :
    let cid := text_of py_repr "candidate_instance_id" plan in
    plan_chain py_repr json_loads canonical_json sha256
      (fetch_row (strategy_observations_latest t) "candidate_instance_id" cid)
      (fetch_row (risk_observations_latest t) "candidate_instance_id" cid)
      (_entry_timing_evaluation_row t id) plan (f_of_Z (live_sim_order_plan_stale_sec s)) now;
  by_code : exists code, validate_stock_code (getv "code" plan) "code" = Ok code /\
    code_clear w rows id code s ignore now;
  by_day : _daily_order_count (ledger w) (str_of (getv "trade_date" plan)) <
             live_sim_max_daily_order_count (plan_gate s) /\
    f_lt (live_sim_max_daily_notional (plan_gate s))
      (f_add (_daily_order_notional sql_sum (ledger w) (str_of (getv "trade_date" plan))) (sz_notional z))
    = false;
  by_active : _active_order_count (ledger w) < live_sim_max_active_orders (plan_buy s) /\
    _active_position_count (ledger w) < live_sim_max_active_positions (plan_buy s)
}.

Lemma plan_limits_merge l day z s :
  _merge_reasons (plan_limit_reasons sql_sum l day z s) = [] <->
  (_daily_order_count l day < live_sim_max_daily_order_count (plan_gate s) /\
   f_lt (live_sim_max_daily_notional (plan_gate s)) (f_add (_daily_order_notional sql_sum l day) (sz_notional z))
   = false) /\
  _active_order_count l < live_sim_max_active_orders (plan_buy s) /\
  _active_position_count l < live_sim_max_active_positions (plan_buy s).
Proof.
  unfold plan_limit_reasons.
  rewrite !merge_reasons_app, !merge_reason_if_iff, limit_merges, Z.leb_gt by reflexivity.
  apply and_assoc.
Qed.

Lemma stock_code_ok v f c : validate_stock_code v f = Ok c -> is_stock_code c = true.
Proof.
  unfold validate_stock_code. intros (x & _ & H)%res_bind_ok. by eapply validate_code_ok.
Qed.

(** A stored plan is eligible exactly if it may be bought. *)
Lemma stored_plan_exact w t ob rows id plan latest s ignore now e :
  evaluate_stored_plan py_repr json_loads canonical_json sha256 sql_sum
    w t ob rows id plan latest s ignore now = Ok e ->
  oe_eligible e = true <->
  exists z, oe_sizing e = Some z /\ plan_buyable w t ob rows id plan latest s ignore now z.
Proof.
  unfold evaluate_stored_plan. cbv zeta. intros H.
  apply res_bind_ok in H as (code & Hcode & H). apply res_bind_ok in H as (rs & Hrs & H).
  apply res_bind_ok in H as (xp & Hxp & H). apply res_bind_ok in H as (a & Ha & H).
  apply res_bind_ok in H as (xk & Hxk & H). apply res_bind_ok in H as (li & Hli & H).
  apply res_bind_ok in H as (xc & Hxc & H). apply res_bind_ok in H as (z & Hz & H).
  apply res_ok_inj in H as <-. cbn [oe_eligible oe_sizing].
  rewrite passed_iff, !merge_reasons_app.
  rewrite gate_reasons_merge, switches_merge, (plan_merges _ _ _ _ _ _ Hxp).
  rewrite (fallback_admission _ _ _ _ _ _ _ _ _ _ (stock_code_ok _ _ _ Hcode) Ha).
  rewrite merge_reason_if_iff, negb_false_iff, String.eqb_eq by reflexivity.
  rewrite (order_plan_lineage_exact _ _ _ _ _ _ _ _ _ _ Hli), (plan_code_merges _ _ _ _ _ _ _ _ Hxc).
  rewrite plan_limits_merge. split.
  - intros (Hg & Hsw & Hfit & Hadm & Hpr & Hlin & Hcc & Hday & Hact). exists z. split; [done|].
    destruct (fallback_tick _ _ _ _ _ _ _ _ _ _ (stock_code_ok _ _ _ Hcode) Ha Hadm)
      as (c & k & tk & Hc & Hk & Htk & Hlast).
    rewrite Hlast in Hxk, Hz. rewrite (price_merges _ _ _ _ Hxk) in Hpr.
    constructor; eauto 10.
  - intros (z' & [= <-] & [? ? (rs' & Hrs' & ?) Hadm (c & k & tk & Hc & Hk & Htk & Hpf & _) ?
      (code' & Hcode' & ?) ? ?]).
    rewrite Hrs in Hrs'. apply res_ok_inj in Hrs' as <-. rewrite Hcode in Hcode'. apply res_ok_inj in Hcode' as <-.
    destruct (fallback_tick _ _ _ _ _ _ _ _ _ _ (stock_code_ok _ _ _ Hcode) Ha Hadm)
      as (c' & k' & tk' & Hc' & Hk' & Htk' & Hlast).
    cbn [candidate_rows stage_observations] in Hc'.
    assert (tk' = tk) as -> by congruence.
    rewrite Hlast in Hxk. apply (price_merges _ _ _ _ Hxk) in Hpf.
    repeat (split; [assumption|]). assumption.
Qed.

Lemma stored_plan_reasons w t ob rows id plan latest s ignore now e :
  evaluate_stored_plan py_repr json_loads canonical_json sha256 sql_sum
    w t ob rows id plan latest s ignore now = Ok e ->
  oe_eligible e = true <-> oe_reason_codes e = [].
Proof.
  unfold evaluate_stored_plan. cbv zeta. intros H. res_inv H. apply res_ok_inj in H as <-. apply passed_iff.
Qed.

(** The stored rows an evaluation reads. *)
Definition plan_rows (t : pipeline_tables) (id : string) (plan latest : option payload) : Prop :=
  _order_plan_row py_repr json_loads (order_plan_drafts t) id = Ok plan /\
  _order_plan_row py_repr json_loads (order_plan_drafts_latest t) id = Ok latest.

Lemma evaluation_cases w t ob rows id s ignore now e :
  evaluate_live_sim_order_plan_eligibility py_repr json_loads canonical_json sha256 sql_sum
    w t ob rows id s ignore now = Ok e ->
  exists plan latest, plan_rows t (py_strip id) plan latest /\
    (oe_eligible e = true <-> oe_reason_codes e = []) /\
    match plan with
    | Some p => evaluate_stored_plan py_repr json_loads canonical_json sha256 sql_sum
                  w t ob rows (py_strip id) p latest s ignore now = Ok e
    | None => oe_eligible e = false
    end.
Proof.
  unfold evaluate_live_sim_order_plan_eligibility, plan_rows.
  intros (i & [-> _]%require_non_empty_ok & (plan & Hp & (latest & Hl & H)%res_bind_ok)%res_bind_ok)%res_bind_ok.
  exists plan, latest. split; [done|]. destruct plan as [p|].
  - split; [by apply (stored_plan_reasons _ _ _ _ _ _ _ _ _ _ _ H)|done].
  - apply res_ok_inj in H as <-. split; [|done]. cbn [oe_eligible oe_reason_codes missing_plan].
    split; [done|]. intros E. by apply merge_reasons_app in E as [_ E].
Qed.

(** C10. A plan is eligible to be bought exactly if: the gate for new buys passes;
    both switches of the route are on; the plan is the latest of its key, ready,
    unexpired, of type BUY and LIMIT (or MARKET if allowed), with positive prices, at
    least one share, a notional between the limits, an allowed setup and timing and
    no blocking reason; the candidate is admitted; its latest price has drifted no
    more than allowed, with a narrow spread; the plan's lineage passes; no other
    intent has the plan and the ledger has nothing under way for its code; and the
    limits of the day and of active orders and positions leave room for the size at
    that price. *)
Theorem plan_eligible_exact w t ob rows id s ignore now e :
  evaluate_live_sim_order_plan_eligibility py_repr json_loads canonical_json sha256 sql_sum
    w t ob rows id s ignore now = Ok e ->
  oe_eligible e = true <->
  exists plan latest z, plan_rows t (py_strip id) (Some plan) latest /\ oe_sizing e = Some z /\
    plan_buyable w t ob rows (py_strip id) plan latest s ignore now z.
Proof.
  intros (plan & latest & [Hp Hl] & _ & H)%evaluation_cases. destruct plan as [p|].
  - rewrite (stored_plan_exact _ _ _ _ _ _ _ _ _ _ _ H). split.
    + intros (z & Hz & Hb). by exists p, latest, z.
    + intros (p' & l' & z & [Hp' Hl'] & Hz & Hb). exists z.
      assert (p' = p) as -> by congruence. assert (l' = latest) as -> by congruence. done.
  - split; [congruence|]. intros (p' & l' & z & [Hp' _] & _). congruence.
Qed.

(** ** The binding an intent is queued under *)

(** The evidence of the intent carries a binding, or a plan that gives one. *)
Definition carries_binding (x : LiveSimIntent) (frozen : payload) : Prop :=
  exists evidence, _json_object py_repr json_loads (Some (li_evidence_json x)) = Ok evidence /\
    frozen_plan_binding py_repr json_loads canonical_json sha256 evidence = (Some frozen, []).

(** A binding the caller requires takes the place of the carried one it agrees with. *)
Definition bound_under (x : LiveSimIntent) (required : option json) (b : payload) : Prop :=
  exists frozen, carries_binding x frozen /\
    match required with
    | None => b = frozen
    | Some j => j = JObj b /\ b <> [] /\ Forall (fun k => differs k b frozen = false) BINDING_MATCH_FIELDS
    end.

Lemma mismatch_named k : str_true (py_strip ("ORDER_PLAN_INTENT_" +:+ k)) = true.
Proof. by apply nonblank_cons. Qed.

Lemma frozen_reasons evidence f rs :
  frozen_plan_binding py_repr json_loads canonical_json sha256 evidence = (f, rs) ->
  _merge_reasons rs = [] -> exists b, f = Some b /\ rs = [].
Proof.
  unfold frozen_plan_binding. intros H E.
  destruct (getv "order_plan_binding" evidence), (getv "order_plan_draft" evidence);
    try (destruct (build_order_plan_binding _ _ _ _ _)); apply pair_equal_spec in H as [<- <-]; try done;
    by eexists.
Qed.

Lemma resolve_bound x required b :
  _resolve_intent_order_plan_binding py_repr json_loads canonical_json sha256 x required = Ok (Some b, []) ->
  bound_under x required b.
Proof.
  unfold _resolve_intent_order_plan_binding. intros (ev & Hev & H)%res_bind_ok.
  destruct (frozen_plan_binding _ _ _ _ ev) as [f rs] eqn:Ef. apply res_ok_inj in H.
  apply pair_equal_spec in H as [Hsel Hrs]. rewrite !merge_reasons_app in Hrs. destruct Hrs as (H1 & H2 & H3 & _).
  destruct (frozen_reasons _ _ _ Ef H1) as (frozen & -> & ->). exists frozen. split; [by exists ev|].
  destruct required as [j|]; [|by injection Hsel].
  destruct j as [| | | | | |fields]; try done. destruct fields as [|kv fields]; [done|].
  injection Hsel as <-. split; [done|]. split; [done|]. revert H3. generalize (kv :: fields). intros r.
  unfold BINDING_MATCH_FIELDS. cbn [map concat]. rewrite !merge_reasons_app, !merge_reason_if_iff by apply mismatch_named.
  intros (? & ? & ? & _). by repeat constructor.
Qed.

(** The intent says what the plan is sized to. *)
Record intent_executes (x : LiveSimIntent) (b : payload) (z : plan_sizing) (s : PlanSettings) (now : Z)
    : Prop := {
  ie_buy : li_side x = LiveSimSide.BUY;
  ie_limit : li_order_type x = LiveSimOrderType.LIMIT;
  ie_account : nonblank (live_sim_account_id (plan_gate s)) /\
    li_account_id x = live_sim_account_id (plan_gate s);
  ie_quantity : li_quantity x = sz_quantity z;
  ie_price : _same_execution_number (li_limit_price x) (Some (sz_limit_price z)) = true;
  ie_notional : _same_execution_number (Some (li_notional x)) (Some (sz_notional z)) = true;
  ie_expiry : exists mine plans, li_expires_at x = Some mine /\
    parse_timestamp (getv "expires_at" b) "binding.expires_at" = Ok plans /\ now < mine <= plans;
  ie_key : exists p, jget "order_plan_id" b = Some p /\
    make_live_sim_order_plan_idempotency_key py_repr (li_trade_date x) (live_sim_account_id (plan_gate s))
      (py_str py_repr p) (li_code x) "BUY" (sz_limit_price z) (sz_quantity z) = Ok (li_idempotency_key x)
}.

Lemma intent_expiry_true x b now :
  intent_expiry_ok x b now = Ok true ->
  exists mine plans, li_expires_at x = Some mine /\
    parse_timestamp (getv "expires_at" b) "binding.expires_at" = Ok plans /\ now < mine <= plans.
Proof.
  unfold intent_expiry_ok. destruct (li_expires_at x) as [mine|]; [|done].
  intros (p & Hp & H)%res_bind_ok. apply on_value_error_some in Hp as [(t & Ht & ->)|(_ & ->)]; [|done].
  apply res_ok_inj in H. apply andb_true_iff in H as [H1%Z.ltb_lt H2%Z.leb_le]. by exists mine, t.
Qed.

Lemma intent_key_true x b z account :
  intent_key_ok py_repr x b z account = Ok true ->
  exists p, jget "order_plan_id" b = Some p /\
    make_live_sim_order_plan_idempotency_key py_repr (li_trade_date x) account
      (py_str py_repr p) (li_code x) "BUY" (sz_limit_price z) (sz_quantity z) = Ok (li_idempotency_key x).
Proof.
  unfold intent_key_ok. destruct (jget "order_plan_id" b) as [p|]; [|done]. cbv zeta.
  destruct (make_live_sim_order_plan_idempotency_key _ _ _ _ _ _ _ _) as [k|[]] eqn:Ek; cbn; try done.
  2: by destruct (String.eqb _ _).
  intros H. apply res_ok_inj in H. apply String.eqb_eq in H as <-. by exists p.
Qed.

Lemma execution_reasons_nil x b z s now :
  _bound_order_plan_intent_execution_reasons py_repr x b z (live_sim_account_id (plan_gate s)) now = Ok [] ->
  intent_executes x b z s now.
Proof.
  unfold _bound_order_plan_intent_execution_reasons.
  intros (ex & Hex & (key & Hkey & H)%res_bind_ok)%res_bind_ok. apply res_ok_inj, reason_if_nil in H.
  apply negb_false_iff in H. rewrite !andb_true_iff, !bool_decide_eq_true, String.eqb_eq, Z.eqb_eq in H.
  destruct H as ((((((((? & ?) & ?) & ?) & ?) & ?) & ?) & ->) & ->).
  apply intent_expiry_true in Hex. apply intent_key_true in Hkey. by constructor.
Qed.

(** ** The buy *)

Lemma terminal_nil w t ob rows x b s now id :
  names_plan x = true -> li_order_plan_id x = Some id ->
  terminal_reasons py_repr json_loads canonical_json sha256 sql_sum w t ob rows x b s now = Ok [] ->
  exists e z, evaluate_live_sim_order_plan_eligibility py_repr json_loads canonical_json sha256 sql_sum
      w t ob rows id s (Some (li_live_sim_intent_id x)) now = Ok e /\
    oe_eligible e = true /\ oe_sizing e = Some z /\ intent_executes x b z s now.
Proof.
  unfold names_plan, terminal_reasons. intros Hn Hid. rewrite Hid in *. cbn [text_or_default]. rewrite Hn.
  intros (e & He & H)%res_bind_ok. exists e. destruct (oe_eligible e) eqn:Eel; cbn [negb] in H.
  - destruct (oe_sizing e) as [z|]; [|by apply res_ok_inj in H].
    apply execution_reasons_nil in H. by exists z.
  - apply res_ok_inj in H. apply evaluation_cases in He as (? & ? & _ & Hr & _). apply Hr in H. congruence.
Qed.

Lemma resolve_some x required :
  _resolve_intent_order_plan_binding py_repr json_loads canonical_json sha256 x required <> Ok (None, []).
Proof.
  unfold _resolve_intent_order_plan_binding. destruct (_json_object _ _ _) as [ev|]; cbn [res_bind]; [|done].
  destruct (frozen_plan_binding _ _ _ _ ev) as [f rs]. intros H. apply res_ok_inj, pair_equal_spec in H as [Hs H].
  rewrite Hs, !merge_reasons_app in H. by destruct H as (_ & _ & _ & H).
Qed.

Lemma failed_has_reasons t v age d i now r :
  validate_order_plan_binding py_repr json_loads canonical_json sha256 t v age d i now = Ok r ->
  vr_reason_codes r = [] -> vr_passed r = true.
Proof.
  unfold validate_order_plan_binding. intros ([b rb] & _ & H)%res_bind_ok.
  repeat match type of H with context [let '(_, _) := ?p in _] =>
    rewrite (surjective_pairing p) in H; cbv beta iota in H end.
  cbv zeta in H.
  apply res_bind_ok in H as ([sh rsh] & _ & H).
  apply res_bind_ok in H as (ron & _ & H). apply res_bind_ok in H as (rol & _ & H).
  apply res_bind_ok in H as (roi & _ & H).
  repeat match type of H with context [let '(_, _) := ?p in _] =>
    rewrite (surjective_pairing p) in H; cbv beta iota in H end.
  apply res_ok_inj in H as <-. apply passed_iff.
Qed.

(** What an order of an intent that names the plan [id] is queued under: the binding
    [b], as it reads back in [bound], the stored plan and its size. *)
Record plan_stands (w : world) (t : pipeline_tables) (ob : observations) (rows : list reconcile_row)
    (x : LiveSimIntent) (required : option json) (id : string) (s : PlanSettings) (now : Z)
    (b bound plan : payload) (z : plan_sizing) : Prop := {
  ps_bound : bound_under x required b;
  ps_read : binding_read py_repr canonical_json sha256 b bound;
  ps_stands : binding_stands py_repr json_loads canonical_json sha256 t bound
                (f_of_Z (live_sim_order_plan_stale_sec s)) now;
  ps_date : getv "trade_date" bound = JStr (py_strip (li_trade_date x));
  ps_intent : intent_bound py_repr json_loads (intent_row x) bound (plan_of py_repr t bound);
  ps_buyable : exists latest, plan_rows t (py_strip id) (Some plan) latest /\
    plan_buyable w t ob rows (py_strip id) plan latest s (Some (li_live_sim_intent_id x)) now z;
  ps_executes : intent_executes x b z s now
}.

Lemma route_stands w t ob rows x required id s now :
  names_plan x = true -> li_order_plan_id x = Some id ->
  plan_execution_reasons py_repr json_loads canonical_json sha256 sql_sum t ob s w rows x required now = Ok [] ->
  exists b bound plan z, plan_stands w t ob rows x required id s now b bound plan z.
Proof.
  unfold plan_execution_reasons. intros Hn Hid ([binding rs] & Hres & H)%res_bind_ok.
  rewrite Hn in H. cbn [negb reason_if] in H. rewrite app_nil_r in H.
  destruct binding as [b|].
  2: { apply res_ok_inj in H as ->. by apply resolve_some in Hres. }
  destruct rs; [|by apply res_ok_inj in H].
  apply res_bind_ok in H as (r & Hr & H). destruct (vr_passed r) eqn:Ep; cbn [negb] in H.
  - destruct (terminal_nil _ _ _ _ _ _ _ _ _ Hn Hid H) as (e & z & He & Hel & Hz & Hx).
    apply evaluation_cases in He as (plan & latest & Hrows & _ & He). destruct plan as [plan|]; [|congruence].
    apply (stored_plan_exact _ _ _ _ _ _ _ _ _ _ _ He) in Hel as (z' & Hz' & Hb).
    assert (z' = z) as -> by congruence. apply resolve_bound in Hres.
    destruct (validation_sound _ _ _ _ _ _ _ _ _ _ _ Hr Ep) as (Hread & Hst & Hdate & Hint).
    exists b, (vr_binding r), plan, z. constructor; try done; [by apply Hdate|by apply Hint|by exists latest].
  - apply res_ok_inj in H. apply failed_has_reasons in Hr; [congruence|done].
Qed.

(** The size is at most the plan's, and as many shares as its notional buys. *)
Record size_within (plan : payload) (s : PlanSettings) (quantity : Z) (price : float) : Prop := {
  sw_planned : exists q, _int (getv "suggested_quantity" plan) = Ok q /\ 0 <= quantity <= Z.max q 0;
  sw_notional : 0 < quantity -> f_gtZ price 0 = true /\
    exists m n, f_floordiv (max_plan_notional s) price = Ok m /\ f_trunc m = Ok n /\ quantity <= n
}.

Lemma sizing_within plan s p z :
  _sizing plan s p = Ok z -> size_within plan s (sz_quantity z) (sz_limit_price z).
Proof.
  unfold _sizing. intros (l & _ & H)%res_bind_ok. apply res_bind_ok in H as (q & Hq & H).
  apply res_bind_ok in H as (n & Hn & (f & _ & H)%res_bind_ok). apply res_ok_inj in H as <-.
  cbn [sz_quantity sz_limit_price]. constructor; [exists q; split; [done|lia]|]. intros Hpos.
  destruct (f_gtZ l 0); [|apply res_ok_inj in Hn; lia].
  apply res_bind_ok in Hn as (m & Hm & Hn). split; [done|]. exists m, n. split_and!; [done|done|lia].
Qed.

(** C7. A buy that names an order plan executes that plan.  If its order is queued,
    then at that moment: the binding it is queued under reads as one, and every row
    it names is stored, unchanged and consistent, with the snapshot that was bound;
    the intent was made with that binding; the plan may still be bought, with no
    other intent of the code counted but this one; the intent says exactly what the
    plan is sized to at the latest price (a LIMIT buy on the configured account, the
    same quantity, price and notional, not expired and not outliving the plan, its
    own key); and the one order has that quantity, which is at most the plan's and
    at most what the allowed notional buys. *)
Theorem plan_bound_buy_executes_plan w t ob rows id x p required s now w' o :
  queue_live_sim_order_command new_message_id py_repr (hash_mapping canonical_json sha256) sql_sum
    rows id (plan_buy s) required now
    (plan_route := order_plan_route py_repr json_loads canonical_json sha256 sql_sum t ob s) w = (w', Ok o) ->
  get_live_sim_intent (ledger w) (py_strip id) = Some x ->
  is_buy_intent x = true -> names_plan x = true -> li_order_plan_id x = Some p ->
  exists b bound plan z,
    plan_stands w t ob rows x required p s now b bound plan z /\
    orders (ledger w') = orders (ledger w) ++ [{| or_rec := o; or_trade_date := li_trade_date x |}] /\
    lo_side o = LiveSimSide.BUY /\ lo_quantity o = sz_quantity z /\
    size_within plan s (lo_quantity o) (sz_limit_price z).
Proof.
  intros H Hx Hbuy Hn Hp. apply queue_ok in H as (x' & Hx' & _ & _ & Hb & He).
  assert (x' = x) as -> by congruence. destruct (Hb Hbuy) as [_ Hroute]. specialize (Hroute Hn).
  apply enqueue_intent_ok in He as (c & _ & _ & _ & _ & _ & Ho & _ & Hside & Hq & _).
  destruct (route_stands _ _ _ _ _ _ _ _ _ Hn Hp Hroute) as (b & bound & plan & z & Hst).
  exists b, bound, plan, z. split; [done|]. split; [done|].
  pose proof (ps_executes _ _ _ _ _ _ _ _ _ _ _ _ _ Hst) as [Hs _ _ Hqty _ _ _ _].
  rewrite Hside, Hq, Hs, Hqty. split; [done|]. split; [done|].
  destruct (ps_buyable _ _ _ _ _ _ _ _ _ _ _ _ _ Hst) as (latest & _ & Hby).
  destruct (by_price _ _ _ _ _ _ _ _ _ _ _ Hby) as (? & ? & ? & _ & _ & _ & _ & Hz).
  exact (sizing_within _ _ _ _ Hz).
Qed.
End PlanBuys.

(** ** A sample plan, bought *)

#[local] Existing Instance sample_routing.

Module PlanSample.
#[local] Instance lifecycle_status : ExecutionLifecycle :=
  {| build_live_sim_execution_lifecycle_status _ := Ok (JObj
       [("effective_blocker_count", JInt 0); ("qualification_status", JStr "PASS");
        ("status", JStr "PASS"); ("mirror_consistent", JBool true);
        ("inventory_count_consistent", JBool true); ("read_only", JBool true);
        ("observe_only", JBool true); ("no_order_side_effects", JBool true);
        ("real_order_allowed", JBool false)]) |}.

(** Notionals between 10,000 won and [most]. *)
Definition settings (most : Z) : PlanSettings :=
  {| plan_buy := sample_buy_settings false;
     live_sim_order_plan_allowed := true; live_sim_order_plan_routing_enabled := true;
     live_sim_order_plan_require_fresh_tick := true; live_sim_order_plan_stale_sec := 30;
     live_sim_order_plan_max_price_drift_pct := f_lit 8 10;
     live_sim_order_plan_require_strategy_matched := true;
     live_sim_order_plan_require_risk_observe_pass := true;
     live_sim_order_plan_require_candidate_context_ready := true;
     live_sim_order_plan_require_dry_run_evidence := false;
     live_sim_order_plan_min_notional := f_of_Z 10000; live_sim_order_plan_max_notional := f_of_Z most;
     live_sim_order_plan_allow_market_order := false; entry_timing_max_spread_ticks := 3;
     live_sim_pilot_pipeline_enabled := true; live_sim_pilot_auto_queue_command := true |}.


Abbreviation evaluation w t most :=
  (evaluate_live_sim_order_plan_eligibility Sample.repr Sample.loads Sample.canonical Sample.sha sample_sum
     w t sample_observations [] "plan_1" (settings most) None buy_now).
Abbreviation create t most :=
  (create_live_sim_intent_from_order_plan sample_id Sample.repr Sample.loads Sample.canonical Sample.sha
     sample_sum t sample_observations [] "plan_1" (settings most) "order_plan_pipeline" None buy_now).
Abbreviation queue t most :=
  (queue_live_sim_order_command sample_id Sample.repr (hash_mapping Sample.canonical Sample.sha) sample_sum
     [] "live_sim_intent_0" (plan_buy (settings most)) None buy_now
     (plan_route := order_plan_route Sample.repr Sample.loads Sample.canonical Sample.sha sample_sum
        t sample_observations (settings most))).

Definition world0 : world := buy_world empty_tables.
Definition world1 : world := Eval vm_compute in fst (create SampleRun.tables 100000 world0).
Definition world2 : world := Eval vm_compute in fst (queue SampleRun.tables 100000 world1).

Definition verdict : res LiveSimOrderPlanEligibility :=
  Eval vm_compute in evaluation world0 SampleRun.tables 100000.
Definition eligible : LiveSimOrderPlanEligibility :=
  Eval vm_compute in match verdict with Ok e => e | Err _ => missing_plan EmptyString [] end.
Definition order : option LiveSimOrderRecord :=
  option_map or_rec (head (orders (ledger world2))).

(** One share at 19,950 won, with 19,955 won to spend. *)
Definition one_share : pipeline_tables :=
  Sample.tables Sample.candidate (Sample.plan 1 ++ [("suggested_notional", JFloat (f_of_Z 19950))]).
End PlanSample.
#[local] Existing Instance PlanSample.lifecycle_status.

(** The plan of five shares is bought at the tick above the latest price. *)
Example sample_plan_order :
  option_map (fun o => (lo_quantity o, lo_limit_price o, lo_idempotency_key o)) PlanSample.order =
  Some (5, Some (f_of_Z 19960), "live_sim:order_plan:2024-02-29:8112345611:plan_1:005930:BUY:19960:5").
Proof. vm_compute. done. Qed.

(** The route has no floor on the size.  A plan of one share whose notional is
    within the limit is eligible, yet the tick the order adds to the price takes the
    share out of the limit: the intent is made for zero shares, and the order command
    of zero shares is queued and counts as an active order of the code.  (The other
    buy path refuses a size below one share.) *)
Example eligible_plan_queues_zero_shares :
  exists e w1 x w2 o,
    PlanSample.evaluation PlanSample.world0 PlanSample.one_share 19955 = Ok e /\ oe_eligible e = true /\
    PlanSample.create PlanSample.one_share 19955 PlanSample.world0 = (w1, Ok x) /\ li_quantity x = 0 /\
    PlanSample.queue PlanSample.one_share 19955 w1 = (w2, Ok o) /\ lo_quantity o = 0 /\
    lo_status o = LiveSimOrderStatus.COMMAND_QUEUED /\ _active_order_count (ledger w2) = 1.
Proof.
  do 5 eexists. split; [vm_compute; reflexivity|]. split; [vm_compute; reflexivity|].
  split; [vm_compute; reflexivity|]. split; [vm_compute; reflexivity|].
  split; [vm_compute; reflexivity|]. split; [vm_compute; reflexivity|].
  split; vm_compute; reflexivity.
Qed.

(** *** Witnesses *)

Lemma sample_verdict :
  PlanSample.evaluation PlanSample.world0 SampleRun.tables 100000 = Ok PlanSample.eligible.
Proof. vm_compute. reflexivity. Qed.

Lemma plan_eligible_exact_witness :
  oe_eligible PlanSample.eligible = true /\
  exists plan latest z,
    plan_rows Sample.repr Sample.loads SampleRun.tables "plan_1" (Some plan) latest /\
    oe_sizing PlanSample.eligible = Some z /\ sz_quantity z = 5.
Proof.
  split; [vm_compute; reflexivity|].
  destruct (proj1 (plan_eligible_exact Sample.repr Sample.loads Sample.canonical Sample.sha sample_sum
    _ _ _ _ _ _ _ _ _ sample_verdict) eq_refl) as (plan & latest & z & Hrows & Hz & _).
  exists plan, latest, z. split; [exact Hrows|]. split; [exact Hz|].
  assert (option_map sz_quantity (oe_sizing PlanSample.eligible) = Some 5) as H by (vm_compute; reflexivity).
  rewrite Hz in H. injection H as H. exact H.
Defined.

Lemma sample_queued :
  exists o, PlanSample.queue SampleRun.tables 100000 PlanSample.world1 = (PlanSample.world2, Ok o) /\
    lo_quantity o = 5.
Proof. eexists. split; [vm_compute; reflexivity|]. vm_compute. reflexivity. Qed.

Lemma sample_intent_buys :
  exists x, get_live_sim_intent (ledger PlanSample.world1) (py_strip "live_sim_intent_0") = Some x /\
    is_buy_intent x = true /\ names_plan x = true /\ li_order_plan_id x = Some "plan_1".
Proof.
  eexists. split; [vm_compute; reflexivity|]. split; [vm_compute; reflexivity|].
  split; vm_compute; reflexivity.
Qed.

Lemma plan_bound_buy_executes_plan_witness :
  exists plan z, sz_quantity z = 5 /\
    size_within plan (PlanSample.settings 100000) 5 (sz_limit_price z) /\
    exists latest, plan_rows Sample.repr Sample.loads SampleRun.tables "plan_1" (Some plan) latest.
Proof.
  destruct sample_queued as (o & Hq & Hqty).
  destruct sample_intent_buys as (x & Hx & Hbuy & Hn & Hp).
  destruct (plan_bound_buy_executes_plan sample_id Sample.repr Sample.loads Sample.canonical Sample.sha
    sample_sum _ _ _ _ _ _ _ _ _ _ _ _ Hq Hx Hbuy Hn Hp)
    as (b & bound & plan & z & Hst & _ & _ & Hz & Hsize).
  rewrite Hqty in *. exists plan, z. split; [symmetry; exact Hz|]. split; [exact Hsize|].
  destruct (ps_buyable _ _ _ _ _ _ _ _ _ _ _ _ _ _ _ _ _ _ Hst) as (latest & Hrows & _).
  exists latest. exact Hrows.
Defined.
