(* ===== verification/LiveSimSystem.v ===== *)
(** * The live-sim service as a whole

    Gateway events, the making and queueing of buys, exit and cancel runs, the
    operations they consist of, the sweep of expired commands, reconciliations
    and snapshot requests, in any order and under any settings and prices:
    whatever sequence of them happened, the ledger invariant of [LiveSimLedger]
    holds and the intents have only gone forward.  An operation that raises
    leaves what it had written (the caller commits it). *)
From S2P Require Import Prelude PyFloat BrokerUtils WireTime GatewayModels OrderBoundary CommandStore.
From S2P Require Import CandidateStore Admission.
From S2P Require Import LiveSimModels LiveSimStore LiveSimEvents LiveSimLedger LiveSimHistory SafetyGate.
From S2P Require Import LiveSimExit LiveSimRuns BrokerSnapshot LiveSimReconcile ReconcileRuns.
From S2P Require Import LiveSimBuy BuyRuns.
Local Open Scope Z_scope.

(** ** Steps that keep the ledger *)

(** Whatever the answer, intents go forward, and: the ledger stays good; it stays
    good and the positions are untouched; it stays good as long as [p] is a
    position with shares. *)
Definition good (l l' : tables) : Prop := (ledger_ok l -> ledger_ok l') /\ forward l l'.
Definition safe {A} (m : M A) : Prop := forall w, good (ledger w) (ledger (m w).1).
Definition calm {A} (m : M A) : Prop :=
  forall w, (ledger_ok (ledger w) -> ledger_ok (ledger (m w).1)) /\
            positions (ledger (m w).1) = positions (ledger w) /\
            forward (ledger w) (ledger (m w).1).
Definition closes {A} (p : position_row) (m : M A) : Prop :=
  forall w, (ledger_ok (ledger w) -> p ∈ positions (ledger w) -> 0 < p_quantity p ->
             ledger_ok (ledger (m w).1)) /\
            forward (ledger w) (ledger (m w).1).

#[export] Instance good_preorder : PreOrder good.
Proof.
  split; [by intros l|]. intros l1 l2 l3 [H1 F1] [H2 F2]. split; [auto|by etrans].
Qed.

Lemma keeps_good l l' : keeps l l' -> good l l'.
Proof. intros H. split; [by apply keeps_ok|by destruct H]. Qed.

Lemma calm_safe {A} (m : M A) : calm m -> safe m.
Proof. intros H w. destruct (H w) as (? & _ & ?). done. Qed.

Lemma safe_closes {A} p (m : M A) : safe m -> closes p m.
Proof. intros H w. destruct (H w). by split; auto. Qed.

Lemma safe_get {A} (k : world -> M A) :
  (forall w, good (ledger w) (ledger (k w w).1)) -> safe (bind get k).
Proof. done. Qed.

Lemma safe_bind {A B} (m : M A) (k : A -> M B) :
  safe m -> (forall a, safe (k a)) -> safe (bind m k).
Proof.
  intros Hm Hk w. unfold bind. specialize (Hm w). destruct (m w) as [w1 [a|e]]; [|done].
  etrans; [exact Hm|apply Hk].
Qed.

Lemma calm_bind {A B} (m : M A) (k : A -> M B) :
  calm m -> (forall a, calm (k a)) -> calm (bind m k).
Proof.
  intros Hm Hk w. unfold bind. destruct (Hm w) as (H1 & H2 & H3). destruct (m w) as [w1 [a|e]]; [|done].
  destruct (Hk a w1) as (H4 & H5 & H6). split_and!; [auto|by rewrite H5|by etrans].
Qed.

Lemma closes_bind {A B} p (m : M A) (k : A -> M B) :
  calm m -> (forall a, closes p (k a)) -> closes p (bind m k).
Proof.
  intros Hm Hk w. unfold bind. destruct (Hm w) as (H1 & H2 & H3).
  destruct (m w) as [w1 [a|e]]; [|by auto]. cbn [fst] in *. destruct (Hk a w1) as [H4 H5].
  split; [|by etrans]. intros Hok Hp Hq. apply H4; [auto| |done]. by rewrite H2.
Qed.

Lemma closes_of_res {A B} p (r : res A) (k : A -> M B) :
  (forall a, r = Ok a -> closes p (k a)) -> closes p (bind (of_res r) k).
Proof. intros H w. unfold bind, of_res. destruct r; [by apply H|done]. Qed.

Lemma safe_of_res {A B} (r : res A) (k : A -> M B) :
  (forall a, r = Ok a -> safe (k a)) -> safe (bind (of_res r) k).
Proof. intros H w. unfold bind, of_res. destruct r; [by apply H|done]. Qed.

Lemma calm_pure {A} (m : M A) : (forall w, (m w).1 = w) -> calm m.
Proof. intros H w. by rewrite H. Qed.

Lemma keeps_calm l l' :
  keeps l l' -> (ledger_ok l -> ledger_ok l') /\ positions l' = positions l /\ forward l l'.
Proof. intros H. split_and!; [by apply keeps_ok|by destruct H..]. Qed.

Lemma calm_keeps f : (forall l, keeps l (f l)) -> calm (on_ledger f).
Proof. intros H w. apply keeps_calm, H. Qed.

Lemma calm_try f : (forall l l', f l = Ok l' -> keeps l l') -> calm (try_ledger f).
Proof.
  intros H w. unfold try_ledger. destruct (f (ledger w)) as [l|e] eqn:E; [|done].
  by apply keeps_calm, H.
Qed.

Create HintDb system.
#[export] Hint Resolve calm_safe : system.

(** [calm_tac] goes through the steps of an operation. *)
Ltac calm_tac :=
  repeat match goal with
  | |- calm (bind _ _) => apply calm_bind; [|intros ?]
  | |- safe (bind _ _) => apply safe_bind; [|intros ?]
  | |- calm (of_res _) => by apply calm_pure
  | |- calm (ret _) => by apply calm_pure
  | |- calm (raise _) => by apply calm_pure
  | |- calm get => by apply calm_pure
  | |- calm (require ?b _) => destruct b; by apply calm_pure
  | |- safe (of_res _) => by apply calm_safe, calm_pure
  | |- safe (ret _) => by apply calm_safe, calm_pure
  | |- safe (raise _) => by apply calm_safe, calm_pure
  | |- safe get => by apply calm_safe, calm_pure
  | |- safe (require ?b _) => destruct b; by apply calm_safe, calm_pure
  | |- calm (match ?x with _ => _ end) => destruct x
  | |- safe (match ?x with _ => _ end) => destruct x
  | |- calm _ => solve [eauto with system]
  | |- safe _ => solve [eauto with system]
  end.

(** A change of a position's row that leaves its identity, its shares and
    whether it is closed alone. *)
Lemma change_row_ok id f l :
  (forall p, p ∈ positions l -> p_position_id p = id ->
     p_position_id (f p) = p_position_id p /\ p_quantity (f p) = p_quantity p /\
     p_available_quantity (f p) = p_available_quantity p /\
     (p_status (f p) = p_status p \/ (p_status (f p) = PS.CLOSING /\ 0 < p_quantity p))) ->
  ledger_ok l -> ledger_ok (update_position id f l).
Proof.
  intros Hf [[Hid Hpos Hev] Hfills]. split; [|by destruct Hfills; constructor].
  assert (map p_position_id (positions (update_position id f l)) = map p_position_id (positions l)) as Hids.
  { cbn. unfold update_rows. rewrite map_map. apply map_ext_in. intros r Hr%list_elem_of_In.
    destruct (String.eqb_spec (p_position_id r) id); [by apply Hf|done]. }
  constructor; rewrite ?Hids; [done| |done].
  intros r Hr. cbn in Hr. apply elem_of_update_rows in Hr as (r0 & Hr0 & ->).
  destruct (Hpos r0 Hr0) as [Ha Hn Hc Hl Hs].
  destruct (String.eqb_spec (p_position_id r0) id) as [E|]; [|done].
  destruct (Hf r0 Hr0 E) as (H1 & H2 & H3 & H4).
  constructor; rewrite ?H1, ?H2, ?H3; try done.
  - intros Hst. destruct H4 as [H4|[H4 _]]; [apply Hc; congruence|congruence].
  - intros Hst. destruct H4 as [H4|[_ H4]]; [apply Hl; by rewrite <- H4|done].
Qed.

(** The tables of the service and the stored reconciliations. *)
Record system := {
  sy_world : world;
  sy_reconciles : list reconcile_row
}.
Abbreviation sy_ledger y := (ledger (sy_world y)).

Section System.
Context (new_message_id : string -> nat -> string) (py_repr : json -> string)
  (hash_payload : payload -> string) (sql_sum : list float -> float)
  (json_loads : string -> res json) {gate : RoutingGate} {qualification : ExecutionLifecycle}
  {plan_route : PlanRoute}.

Lemma calm_log ty en eid oid p st rs : calm (log_lifecycle new_message_id ty en eid oid p st rs).
Proof. apply calm_try. intros l l'. apply lifecycle_keeps. Qed.
Lemma calm_fresh prefix : calm (fresh_id new_message_id prefix).
Proof. intros w. apply keeps_calm, serial_keeps. Qed.
Lemma calm_error i o c m : calm (try_ledger (_record_error new_message_id py_repr i o c m)).
Proof. apply calm_try. intros l l'. apply record_error_keeps. Qed.
Lemma calm_signal id st : calm (on_ledger (update_exit_signal id st)).
Proof. apply calm_keeps. intros l. apply update_exit_signal_keeps. Qed.
Lemma calm_exit_intent id f : calm (on_ledger (update_exit_intent id f)).
Proof. apply calm_keeps. intros l. apply update_exit_intent_keeps. Qed.
Lemma calm_cancel_intent id f : calm (on_ledger (update_cancel_intent id f)).
Proof. apply calm_keeps. intros l. apply update_cancel_intent_keeps. Qed.
Lemma calm_order_status id st now : calm (on_ledger (update_order id (order_status_at st now))).
Proof. apply calm_keeps. intros l. by apply update_order_keeps. Qed.
Lemma calm_reject_exit {A} x rs msg : calm (reject_exit (A := A) new_message_id x rs msg).
Proof.
  apply calm_bind; [|intros _; by apply calm_pure]. apply calm_try. intros l l'. apply mark_exit_rejected_keeps.
Qed.
Lemma calm_reject_cancel {A} x rs msg : calm (reject_cancel (A := A) new_message_id x rs msg).
Proof.
  apply calm_bind; [|intros _; by apply calm_pure]. apply calm_try. intros l l' H.
  apply lifecycle_keeps in H. eapply keeps_trans; [apply update_cancel_intent_keeps|exact H].
Qed.
#[local] Hint Resolve calm_log calm_fresh calm_error calm_signal calm_exit_intent calm_cancel_intent
  calm_order_status calm_reject_exit calm_reject_cancel : system.

Lemma calm_enqueue e ct p key now :
  calm (enqueue_until new_message_id py_repr hash_payload e ct p key now).
Proof. unfold enqueue_until. calm_tac. intros w. by destruct (enqueue_command _ _ _ _ _ _ _). Qed.
#[local] Hint Resolve calm_enqueue : system.

(** ** Exits *)

Lemma calm_insert_signal c now : calm (_insert_exit_signal_from_candidate new_message_id c now).
Proof.
  unfold _insert_exit_signal_from_candidate. cbv zeta. calm_tac. apply calm_try.
  intros l l' (r & _ & [= <-])%res_bind_ok. kept.
Qed.

Lemma calm_create_exit id xid s : calm (create_live_sim_exit_intent new_message_id id xid s).
Proof.
  unfold create_live_sim_exit_intent. cbv zeta. calm_tac. apply calm_try.
  intros l l' (r & _ & [= <-])%res_bind_ok. kept.
Qed.

Lemma exit_order_unfilled id c p x now a o :
  exit_order_args id c p x now = Ok a -> LiveSimOrderRecord_post_init a = Ok o ->
  lo_filled_quantity o = 0.
Proof.
  unfold exit_order_args. intros (q & _ & [= <-])%res_bind_ok H.
  unfold LiveSimOrderRecord_post_init in H. cbn [oa_filled_quantity] in H. bind_inv H. injection H as <-.
  cbn. match goal with H : non_negative_int (JInt 0) _ = Ok _ |- _ => by apply int_value in H end.
Qed.

Lemma closing_ok p now l :
  p ∈ positions l -> 0 < p_quantity p -> ledger_ok l ->
  ledger_ok (update_position (p_position_id p) (position_status_only PS.CLOSING now) l).
Proof.
  intros Hp Hq Hok. apply change_row_ok; [|done]. intros r Hr E.
  destruct Hok as [[Hid _ _] _]. apply (NoDup_map_inj _ _ r p Hid Hr Hp) in E as ->. cbn.
  split_and!; [done..|by right].
Qed.

Lemma record_exit_closes c p x now :
  closes p (record_exit_command new_message_id c p x now).
Proof.
  unfold record_exit_command. apply closes_bind; [auto with system|intros id].
  apply closes_of_res. intros a Ha. apply closes_of_res. intros o Ho.
  apply closes_bind.
  { intros w. unfold try_ledger. destruct (_insert_order o (p_trade_date p) (ledger w)) as [l|e] eqn:E; [|done].
    cbn. split_and!; [by eapply insert_order_ok; [|eapply exit_order_unfilled|]| |by eapply insert_order_forward].
    apply res_bind_ok in E as (_ & _ & (rows & _ & [= <-])%res_bind_ok). done. }
  intros _. apply closes_bind; [auto with system|intros _]. apply closes_bind; [auto with system|intros _].
  intros w. unfold bind, on_ledger. split.
  - intros Hok Hp Hq. apply (calm_safe _ (calm_log _ _ _ _ _ _ _)). by apply closing_ok.
  - etrans; [|apply (calm_safe _ (calm_log _ _ _ _ _ _ _))]. by apply forward_same.
Qed.

Lemma safe_queue_exit id s now :
  safe (queue_live_sim_exit_order_command new_message_id py_repr hash_payload sql_sum id s now).
Proof.
  apply safe_get. intros w.
  destruct (get_live_sim_exit_intent _ _) as [x|]; [|done].
  destruct (get_live_sim_position _ _) as [p|] eqn:Ep; [|done].
  apply find_elem in Ep as [Hp _].
  destruct (_exit_safety_reasons _ _ _ _ _ _) eqn:Er; [|apply (calm_safe _ (calm_reject_exit _ _ _))].
  apply no_exit_reasons in Er as [_ _ _ _ _ _ _ [Hq1 Hq2] _ _].
  match goal with |- context [(?m w).1] => assert (closes p m) as H end.
  { apply closes_bind; [auto with system|]. intros r. destruct (er_accepted r); [apply record_exit_closes|].
    apply safe_closes. auto with system. }
  destruct (H w) as [H1 H2]. split; [|done]. intros Hok. apply H1; [done..|].
  destruct Hok as [[_ Hpos _] _]. rewrite <- (position_available _ _ (Hpos p Hp)). lia.
Qed.

Lemma safe_mark p price at' s now : safe (_mark_position_to_market p price at' s now).
Proof.
  unfold _mark_position_to_market. calm_tac. intros w. split; [|by apply forward_same].
  intros Hok. cbn. apply change_row_ok; [|done]. intros r _ _. unfold marked_position. cbn. auto.
Qed.
#[local] Hint Resolve calm_insert_signal calm_create_exit safe_queue_exit safe_mark : system.

Lemma safe_evaluate s now row : safe (evaluate_position new_message_id s now row).
Proof. unfold evaluate_position, data_wait. cbv zeta. calm_tac. Qed.

Lemma safe_collect {A B} (f : A -> M (list B)) rows : (forall a, safe (f a)) -> safe (collect f rows).
Proof. intros H. induction rows; cbn [collect]; calm_tac; auto. Qed.

Lemma safe_exit_failed c n i j e : safe (exit_failed new_message_id py_repr c n i j e).
Proof. unfold exit_failed. calm_tac. Qed.

Lemma safe_exit_one c q s now n :
  safe (exit_one new_message_id py_repr hash_payload sql_sum c q s now n).
Proof.
  intros w. unfold exit_one. cbv zeta.
  pose proof (calm_safe _ (calm_insert_signal c now) w) as H1.
  destruct (_insert_exit_signal_from_candidate _ _ _ _) as [w1 [x|e]]; (etrans; [exact H1|]);
    [|apply safe_exit_failed].
  pose proof (calm_safe _ (calm_create_exit (sc_position_id c) (Some (xs_exit_signal_id x)) s) w1) as H2.
  destruct (create_live_sim_exit_intent _ _ _ _ _) as [w2 [i|e]]; (etrans; [exact H2|]);
    [|apply safe_exit_failed].
  destruct q; [|done]. pose proof (safe_queue_exit (xi_exit_intent_id i) s now w2) as H3.
  destruct (queue_live_sim_exit_order_command _ _ _ _ _ _ _ _) as [w3 [[]|e]]; (etrans; [exact H3|]);
    [done|apply safe_exit_failed].
Qed.

Lemma safe_exit_loop cs d q s now n :
  safe (exit_loop new_message_id py_repr hash_payload sql_sum cs d q s now n).
Proof.
  revert n. induction cs as [|c cs IH]; intros n; cbn [exit_loop]; [calm_tac|].
  destruct (negb _); [apply IH|]. destruct (_ <=? _); [calm_tac|]. destruct d; [apply IH|].
  apply safe_bind; [apply safe_exit_one|done].
Qed.

Lemma safe_exit_run s d q p c limit now :
  safe (run_live_sim_exit_once new_message_id py_repr hash_payload sql_sum s d q p c limit now).
Proof.
  unfold run_live_sim_exit_once. apply safe_bind; [auto with system|intros _].
  apply safe_bind; [|intros cs; apply safe_exit_loop]. unfold evaluate_live_sim_exit_signals.
  calm_tac. apply safe_collect. intros row. apply safe_evaluate.
Qed.

(** ** Cancels *)

Lemma calm_create_cancel id reason now : calm (create_live_sim_cancel_intent new_message_id id reason now).
Proof.
  unfold create_live_sim_cancel_intent. cbv zeta. calm_tac. apply calm_try.
  intros l l' (r & _ & [= <-])%res_bind_ok. kept.
Qed.

Lemma calm_queue_cancel id s now :
  calm (queue_live_sim_cancel_command new_message_id py_repr hash_payload sql_sum id s now).
Proof.
  unfold queue_live_sim_cancel_command. cbv zeta. calm_tac.
Qed.

Lemma safe_evaluate_cancel s now o : safe (evaluate_cancel new_message_id s now o).
Proof. unfold evaluate_cancel. cbv zeta. calm_tac. Qed.

Lemma safe_cancel_failed o n cs e : safe (cancel_failed new_message_id py_repr o n cs e).
Proof. unfold cancel_failed. calm_tac. Qed.

Lemma safe_cancel_one o q s now n :
  safe (cancel_one new_message_id py_repr hash_payload sql_sum o q s now n).
Proof.
  intros w. unfold cancel_one. cbv zeta.
  pose proof (calm_safe _ (calm_create_cancel (order_id o) "TTL_EXPIRED" now) w) as H1.
  destruct (create_live_sim_cancel_intent _ _ _ _ _) as [w1 [c|e]]; (etrans; [exact H1|]);
    [|apply safe_cancel_failed].
  destruct q; [|done]. pose proof (calm_safe _ (calm_queue_cancel (ci_cancel_intent_id c) s now) w1) as H2.
  destruct (queue_live_sim_cancel_command _ _ _ _ _ _ _ _) as [w2 [[]|e]]; (etrans; [exact H2|]);
    [done|apply safe_cancel_failed].
Qed.

Lemma safe_cancel_loop cs d q s now n :
  safe (cancel_loop new_message_id py_repr hash_payload sql_sum cs d q s now n).
Proof.
  revert n. induction cs as [|c cs IH]; intros n; cbn [cancel_loop]; [calm_tac|].
  destruct (negb _); [apply IH|]. destruct (_ <=? _); [calm_tac|]. destruct d; [apply IH|].
  apply safe_bind; [apply safe_cancel_one|done].
Qed.

Lemma safe_cancel_run s d q limit now :
  safe (run_live_sim_cancel_unfilled_once new_message_id py_repr hash_payload sql_sum s d q limit now).
Proof.
  unfold run_live_sim_cancel_unfilled_once. apply safe_bind; [auto with system|intros _].
  apply safe_bind; [|intros cs; apply safe_cancel_loop]. unfold evaluate_live_sim_cancel_candidates.
  calm_tac. apply safe_collect. intros o. apply safe_evaluate_cancel.
Qed.

(** ** Buys *)

Lemma insert_intent_kept x l l' : _insert_intent x l = Ok l' -> keeps l l'.
Proof.
  intros (_ & _ & (_ & _ & (_ & _ & (_ & _ & (rows & Hrows & [= <-])%res_bind_ok)%res_bind_ok)%res_bind_ok)%res_bind_ok)%res_bind_ok.
  apply insert_row_ok in Hrows as [-> Hnew]. constructor; [done..|]. constructor; cbn.
  - by exists [x], (intents l).
  - intros Hnd. apply NoDup_map_snoc; [done|]. intros r Hr E. specialize (Hnew r Hr).
    apply orb_false_iff in Hnew as [[Hid _]%orb_false_iff _]. unfold same in Hid.
    by apply String.eqb_neq in Hid.
Qed.

Lemma calm_rejection i c rs : calm (_save_rejection new_message_id i c rs).
Proof. unfold _save_rejection. calm_tac. apply calm_keeps. intros l. kept. Qed.
#[local] Hint Resolve calm_rejection : system.

Lemma calm_refuse {A} x rs msg : calm (refuse (A := A) new_message_id x rs msg).
Proof. unfold refuse. calm_tac. Qed.
#[local] Hint Resolve calm_refuse : system.

Lemma calm_create_buy ob rows id s source suffix extra now :
  calm (create_live_sim_intent new_message_id sql_sum ob rows id s source suffix extra now).
Proof.
  unfold create_live_sim_intent, reject_candidate. cbv zeta. calm_tac. apply calm_try.
  intros l l'. apply insert_intent_kept.
Qed.

(** What a savepoint rolls back to is what was there. *)
Lemma safe_savepoint {A B} (m : M (A + B)) : safe m -> safe (savepoint m).
Proof.
  intros H w. specialize (H w). unfold savepoint. destruct (m w) as [w1 [[a|b]|e]]; [|exact H|];
    apply keeps_good, serial_keeps.
Qed.

Lemma safe_enqueue_intent id x s now :
  safe (enqueue_intent new_message_id py_repr hash_payload id x s now).
Proof.
  unfold enqueue_intent. apply safe_bind; [auto with system|intros r]. destruct (negb _); [calm_tac|].
  apply safe_bind; [auto with system|intros oid]. apply safe_of_res. intros o Ho.
  apply safe_bind; [|intros _; calm_tac; apply calm_safe, calm_keeps; intros l;
                     apply update_intent_keeps; intros y Hy].
  - intros w. unfold try_ledger. destruct (_insert_order _ _ _) as [l|e] eqn:E; [|done]. split.
    + intros Hok. eapply insert_order_ok; [exact Ho| |exact E|exact Hok].
      unfold LiveSimOrderRecord_post_init in Ho. cbn [buy_order_args oa_filled_quantity] in Ho. bind_inv Ho.
      injection Ho as <-. cbn.
      match goal with H : non_negative_int (JInt 0) _ = Ok _ |- _ => by apply int_value in H end.
    + by eapply insert_order_forward.
  - apply bool_decide_eq_true_1 in Hy. by constructor.
Qed.

Lemma safe_reject_bound x rs : safe (_reject_bound_order_plan_enqueue new_message_id x rs).
Proof.
  unfold _reject_bound_order_plan_enqueue. cbv zeta. calm_tac. apply calm_safe, calm_keeps. intros l.
  apply update_intent_keeps. intros y Hy. apply bool_decide_eq_true_1 in Hy. by constructor.
Qed.
#[local] Hint Resolve safe_enqueue_intent safe_savepoint safe_reject_bound : system.

Lemma safe_queue_buy rows id s required now :
  safe (queue_live_sim_order_command new_message_id py_repr hash_payload sql_sum rows id s required now).
Proof.
  unfold queue_live_sim_order_command, _enforce_buy_execution_lifecycle_queue_boundary, check_plan_binding.
  cbv zeta. calm_tac.
Qed.

(** ** The sweep *)

Definition expire_row (now : Z) (r : order_row) : order_row :=
  {| or_rec := order_expired now (or_rec r); or_trade_date := or_trade_date r |}.

Lemma sweep_order_ok c now o l swept acc :
  NoDup (map order_id (orders l)) -> o ∈ orders l -> sweepable c o = true ->
  sweep_order new_message_id c now o (l, swept) = Ok acc ->
  acc.2 = swept ++ [order_id o] /\ keeps l acc.1 /\
  orders acc.1 = update_rows (fun r => String.eqb (order_id r) (order_id o)) (expire_row now) (orders l).
Proof.
  intros Hnd Ho Hs. unfold sweep_order.
  destruct (find _ (orders l)) as [r|] eqn:Ef.
  2: { apply list_elem_of_In in Ho. pose proof (find_none _ _ Ef o Ho) as Hn. cbn in Hn.
       by rewrite String.eqb_refl in Hn. }
  apply find_elem in Ef as [Hr E%String.eqb_eq].
  apply (NoDup_map_inj _ _ r o Hnd Hr Ho) in E as ->.
  unfold sweepable in Hs. apply andb_true_iff in Hs as [-> Hs].
  destruct (expired_undispatched c o) as [k|]; [|done].
  rewrite bool_decide_eq_true_2 by done. cbn [andb]. cbv zeta.
  intros (l' & Hl & [= <-])%res_bind_ok. cbn [fst snd]. pose proof (lifecycle_keeps _ _ _ _ _ _ _ _ _ _ Hl) as Hk.
  split; [done|]. split.
  - eapply keeps_trans; [|exact Hk]. eapply keeps_trans; [|apply update_intent_keeps].
    { by apply update_order_keeps. }
    intros x _. by constructor.
  - unfold _record_lifecycle_event, LiveSimEvents.fresh in Hl. bind_inv Hl. injection Hl as <-. done.
Qed.

Lemma update_rows_ids now o rows :
  map order_id (update_rows (fun r => String.eqb (order_id r) (order_id o)) (expire_row now) rows) =
  map order_id rows.
Proof. apply map_update_rows. by intros []. Qed.

Lemma sweep_loop_ok c now rows l swept acc :
  NoDup (map order_id (orders l)) -> NoDup (map order_id rows) ->
  (forall o, o ∈ rows -> o ∈ orders l /\ sweepable c o = true) ->
  sweep_loop new_message_id c now rows (l, swept) = Ok acc ->
  acc.2 = swept ++ map order_id rows /\ keeps l acc.1 /\
  orders acc.1 = update_rows (fun r => bool_decide (order_id r ∈ map order_id rows)) (expire_row now) (orders l).
Proof.
  revert l swept. induction rows as [|o rows IH]; intros l swept Hnd Hnd' Hrows; cbn [sweep_loop].
  { intros [= <-]. cbn. rewrite app_nil_r. split; [done|]. split; [apply ledger_keeps_refl|].
    unfold update_rows. by rewrite map_id. }
  intros ([l1 sw1] & H1 & H)%res_bind_ok. cbn [map] in Hnd'. apply list.NoDup_cons in Hnd' as [Hn Hnd'].
  destruct (Hrows o ltac:(left)) as [Ho Hs].
  apply sweep_order_ok in H1 as (E1 & K1 & O1); [|done..]. cbn [fst snd] in E1, K1, O1. subst sw1.
  apply IH in H as (E2 & K2 & O2); [|by rewrite O1, update_rows_ids|done|].
  - rewrite E2. split; [by rewrite <- app_assoc|]. split; [by eapply keeps_trans|].
    rewrite O2, O1. unfold update_rows. rewrite map_map. apply map_ext_in. intros r _. cbn [map].
    destruct (String.eqb_spec (order_id r) (order_id o)) as [E|E].
    + change (order_id (expire_row now r)) with (order_id r). rewrite E.
      rewrite bool_decide_eq_false_2 by done. by rewrite bool_decide_eq_true_2 by left.
    + rewrite (bool_decide_ext (order_id r ∈ order_id o :: map order_id rows)
                 (order_id r ∈ map order_id rows)); [done|].
      rewrite elem_of_cons. naive_solver.
  - intros o' Ho'. destruct (Hrows o' ltac:(by right)) as [Hin Hs']. split; [|done].
    rewrite O1. apply elem_of_update_rows. exists o'. split; [done|].
    destruct (String.eqb_spec (order_id o') (order_id o)) as [E|]; [|done].
    exfalso. apply Hn. rewrite <- E. by apply list_elem_of_fmap_2.
Qed.

Lemma sweep_rows_ok l c limit o : o ∈ sweep_rows l c limit -> o ∈ orders l /\ sweepable c o = true.
Proof.
  intros (i & H & _)%elem_of_take. apply list_elem_of_lookup_2, elem_of_stable_sort in H.
  apply list_elem_of_In, filter_In in H as [H Hs]. by rewrite list_elem_of_In.
Qed.

Lemma sweep_rows_nodup l c limit :
  NoDup (map order_id (orders l)) -> NoDup (map order_id (sweep_rows l c limit)).
Proof.
  intros H. unfold sweep_rows. change (map order_id) with (fmap (M := list) order_id). 
  rewrite fmap_take. eapply sublist_NoDup; [|apply sublist_take].
  rewrite stable_sort_perm. revert H. induction (orders l) as [|o os IH]; [done|]. cbn.
  rewrite list.NoDup_cons. intros [Hn Hnd]. specialize (IH Hnd). destruct (sweepable c o); [|done].
  cbn. rewrite list.NoDup_cons. split; [|done]. intros (o' & E & Ho')%list_elem_of_fmap.
  apply Hn. rewrite E. apply list_elem_of_In, filter_In in Ho' as [Ho' _]. apply list_elem_of_fmap_2.
  by apply list_elem_of_In.
Qed.

(** ** Reconciliations *)

Lemma reconcile_keeps given s now w rows w' rows' row :
  reconcile_live_sim_orders_and_positions new_message_id py_repr json_loads given s now w rows =
    Ok (w', rows', row) -> keeps (ledger w) (ledger w').
Proof.
  unfold reconcile_live_sim_orders_and_positions. intros ([ms b] & _ & H)%res_bind_ok.
  unfold LiveSimEvents.fresh in H. apply res_bind_ok in H as (r & _ & H). cbv zeta in H.
  apply res_bind_ok in H as (rows1 & _ & (l & Hl & [= <- _ _])%res_bind_ok). cbn.
  eapply keeps_trans; [apply serial_keeps|]. destruct (negb _); [|injection Hl as <-; apply ledger_keeps_refl].
  by apply lifecycle_keeps in Hl.
Qed.

Lemma snapshot_event_keeps e s now w rows w' rows' row :
  apply_live_sim_broker_snapshot new_message_id py_repr json_loads e s now w rows = Ok (w', rows', row) ->
  keeps (ledger w) (ledger w').
Proof.
  unfold apply_live_sim_broker_snapshot. intros (l & Hl & (b & _ & H)%res_bind_ok)%res_bind_ok.
  apply lifecycle_keeps in Hl. destruct b as [b|]; [|by injection H as <- _ _].
  apply res_bind_ok in H as ([[w1 rows1] row1] & H & [= <- _ _]).
  apply reconcile_keeps in H. eapply keeps_trans; [exact Hl|exact H].
Qed.

Lemma calm_request enabled ttl pages id s now :
  calm (request_live_sim_broker_snapshot new_message_id py_repr hash_payload enabled ttl pages id s now).
Proof.
  intros w. unfold request_live_sim_broker_snapshot. cbv zeta.
  match goal with |- context [(?m w).1] => assert (calm m) as H; [|exact (H w)] end.
  calm_tac. intros w'. cbv beta. by case_match.
Qed.

(** ** Histories of the service *)

(** One operation, under any settings, arguments and clock.  [outside] is
    whatever leaves the live-sim tables alone: ticks, the gateway's status, the
    command queue, the reconcile table. *)
Inductive system_step (y y' : system) : Prop :=
| outside : sy_ledger y' = sy_ledger y -> system_step y y'
| gateway_event : some_step new_message_id py_repr json_loads sql_sum (sy_ledger y) (sy_ledger y') ->
    system_step y y'
| exit_run s d q p c limit now :
    sy_world y' = (run_live_sim_exit_once new_message_id py_repr hash_payload sql_sum
                     s d q p c limit now (sy_world y)).1 -> system_step y y'
| exit_create id xid s :
    sy_world y' = (create_live_sim_exit_intent new_message_id id xid s (sy_world y)).1 ->
    system_step y y'
| exit_queue id s now :
    sy_world y' = (queue_live_sim_exit_order_command new_message_id py_repr hash_payload sql_sum
                     id s now (sy_world y)).1 -> system_step y y'
| cancel_run s d q limit now :
    sy_world y' = (run_live_sim_cancel_unfilled_once new_message_id py_repr hash_payload sql_sum
                     s d q limit now (sy_world y)).1 -> system_step y y'
| cancel_create id reason now :
    sy_world y' = (create_live_sim_cancel_intent new_message_id id reason now (sy_world y)).1 ->
    system_step y y'
| cancel_queue id s now :
    sy_world y' = (queue_live_sim_cancel_command new_message_id py_repr hash_payload sql_sum
                     id s now (sy_world y)).1 -> system_step y y'
| sweep c limit now swept :
    sweep_expired_live_sim_order_commands new_message_id (sy_ledger y) c limit now =
      Ok (sy_ledger y', swept) -> system_step y y'
| reconciliation given s now row :
    reconcile_live_sim_orders_and_positions new_message_id py_repr json_loads given s now
      (sy_world y) (sy_reconciles y) = Ok (sy_world y', sy_reconciles y', row) -> system_step y y'
| snapshot_event e s now row :
    apply_live_sim_broker_snapshot new_message_id py_repr json_loads e s now
      (sy_world y) (sy_reconciles y) = Ok (sy_world y', sy_reconciles y', row) -> system_step y y'
| snapshot_request enabled ttl pages id s now :
    sy_world y' = (request_live_sim_broker_snapshot new_message_id py_repr hash_payload
                     enabled ttl pages id s now (sy_world y)).1 -> system_step y y'
| buy_create ob id s source suffix extra now :
    sy_world y' = (create_live_sim_intent new_message_id sql_sum ob (sy_reconciles y) id s source
                     suffix extra now (sy_world y)).1 -> system_step y y'
| buy_queue id s required now :
    sy_world y' = (queue_live_sim_order_command new_message_id py_repr hash_payload sql_sum
                     (sy_reconciles y) id s required now (sy_world y)).1 -> system_step y y'.

Lemma sweep_ok c limit now l l' swept :
  NoDup (map order_id (orders l)) ->
  sweep_expired_live_sim_order_commands new_message_id l c limit now = Ok (l', swept) ->
  swept = map order_id (sweep_rows l c limit) /\ keeps l l' /\
  orders l' = update_rows (fun r => bool_decide (order_id r ∈ swept)) (expire_row now) (orders l).
Proof.
  intros Hnd H. apply sweep_loop_ok in H; [|done|by apply sweep_rows_nodup|apply sweep_rows_ok].
  cbn [fst snd app] in H. destruct H as (-> & Hk & Ho). done.
Qed.

Lemma some_step_forward l l' :
  some_step new_message_id py_repr json_loads sql_sum l l' -> forward l l'.
Proof.
  intros [lb [a x d Ha Hz H|e now out H|e now out H|e st now out H|e st now out H]].
  - by eapply insert_order_forward.
  - by apply command_event_keeps in H as [].
  - by apply lifecycle_event_keeps in H as [].
  - by eapply execution_event_forward.
  - by eapply chejan_event_forward.
Qed.

Lemma sweep_order_forward c now o acc acc' :
  sweep_order new_message_id c now o acc = Ok acc' -> forward acc.1 acc'.1.
Proof.
  destruct acc as [l swept]. unfold sweep_order. destruct (find _ _) as [r|]; [|by intros [= <-]].
  destruct (_ && _); [|by intros [= <-]]. cbv zeta. intros (l1 & Hl & [= <-])%res_bind_ok.
  apply lifecycle_keeps in Hl as [_ _ _ _ Hf]. cbn [fst] in *. etrans; [|exact Hf].
  etrans; [|apply update_intent_forward; intros x _; by constructor]. by apply forward_same.
Qed.

Lemma sweep_forward c limit now l l' swept :
  sweep_expired_live_sim_order_commands new_message_id l c limit now = Ok (l', swept) -> forward l l'.
Proof.
  unfold sweep_expired_live_sim_order_commands. intros H.
  change (forward (l, @nil string).1 (l', swept).1). revert H.
  generalize (l, @nil string), (l', swept). generalize (sweep_rows l c limit). clear.
  intros rows. induction rows as [|o rows IH]; intros a b; cbn [sweep_loop]; [by intros [= <-]|].
  intros (a1 & H1 & H)%res_bind_ok. etrans; [by eapply sweep_order_forward|by apply IH].
Qed.

Lemma system_step_good y y' : system_step y y' -> good (sy_ledger y) (sy_ledger y').
Proof.
  intros Hs. destruct Hs as [E|[l Hs]|s d q p c limit now E|id xid s E|id s now E|s d q limit now E
    |id reason now E|id s now E|c limit now swept H|given s now row H|e s now row H|en ttl pg id s now E
    |ob id s source suffix extra now E|id s required now E].
  - by rewrite E.
  - split; [by eapply step_ok|]. apply some_step_forward. by exists l.
  - rewrite E. apply safe_exit_run.
  - rewrite E. apply (calm_safe _ (calm_create_exit _ _ _)).
  - rewrite E. apply safe_queue_exit.
  - rewrite E. apply safe_cancel_run.
  - rewrite E. apply (calm_safe _ (calm_create_cancel _ _ _)).
  - rewrite E. apply (calm_safe _ (calm_queue_cancel _ _ _)).
  - split; [|by eapply sweep_forward]. intros [Hb Hf].
    apply sweep_ok in H as (_ & Hk & _); [|by destruct Hf]. by apply (keeps_ok _ _ Hk).
  - by eapply keeps_good, reconcile_keeps.
  - by eapply keeps_good, snapshot_event_keeps.
  - rewrite E. apply (calm_safe _ (calm_request _ _ _ _ _ _)).
  - rewrite E. apply (calm_safe _ (calm_create_buy _ _ _ _ _ _ _ _)).
  - rewrite E. apply safe_queue_buy.
Qed.

Lemma system_steps_good y y' : rtc system_step y y' -> good (sy_ledger y) (sy_ledger y').
Proof. induction 1 as [|y1 y2 y3 Hs _ IH]; [done|]. etrans; [by apply system_step_good|done]. Qed.

Lemma system_steps_ok y y' :
  rtc system_step y y' -> ledger_ok (sy_ledger y) -> ledger_ok (sy_ledger y').
Proof. intros H. apply (system_steps_good _ _ H). Qed.

(** ** Properties *)

(** C14. The service as a whole keeps its ledger: after any sequence of gateway
    events, buys made and queued, exit and cancel runs (or their operations one by
    one), sweeps, reconciliations and snapshot requests, under any settings, prices, clocks
    and whatever the command queue did meanwhile, positions, position events,
    orders and executions agree; and an exit that is then queued sells at least
    one share and at most what the position holds. *)
Theorem system_keeps_ledger y y' exit_intent_id s now w :
  sy_ledger y = empty_tables -> rtc system_step y y' ->
  ledger_ok (sy_ledger y') /\
  (queue_live_sim_exit_order_command new_message_id py_repr hash_payload sql_sum
     exit_intent_id s now (sy_world y') = (w, Ok tt) ->
   exists x p, get_live_sim_exit_intent (sy_ledger y') exit_intent_id = Some x /\
     get_live_sim_position (sy_ledger y') (xi_position_id x) = Some p /\
     1 <= xi_quantity x <= p_quantity p).
Proof.
  intros E H. apply system_steps_ok in H; [|rewrite E; apply empty_ledger_ok]. split; [done|].
  unfold queue_live_sim_exit_order_command. intros Hq.
  apply bind_ok in Hq as (w0 & w0' & [= <- <-] & Hq).
  destruct (get_live_sim_exit_intent _ _) as [x|]; [|done].
  destruct (get_live_sim_position _ _) as [p|] eqn:Ep; [|done].
  destruct (_exit_safety_reasons _ _ _ _ _ _) eqn:Er.
  2: { by apply bind_ok in Hq as (w1 & u & _ & Hq). }
  exists x, p. split; [done|]. split; [done|].
  apply no_exit_reasons in Er as [_ _ _ _ _ _ _ Hx _ _]. apply find_elem in Ep as [Hp _].
  destruct H as [[_ Hpos _] _]. by rewrite <- (position_available _ _ (Hpos p Hp)).
Qed.

(** C26. The sweep expires exactly the orders that cannot have reached the
    broker: of the orders still COMMAND_QUEUED whose send_order command EXPIRED
    and was never dispatched, the oldest up to the limit become ORDER_EXPIRED
    with nothing remaining and their fills as they were; every other order, every
    execution and every position stays as it is. *)
Theorem sweep_expires_undispatched y y' c limit now l' swept :
  sy_ledger y = empty_tables -> rtc system_step y y' ->
  sweep_expired_live_sim_order_commands new_message_id (sy_ledger y') c limit now = Ok (l', swept) ->
  keeps (sy_ledger y') l' /\
  orders l' = update_rows (fun r => bool_decide (order_id r ∈ swept)) (expire_row now)
                (orders (sy_ledger y')) /\
  (forall id, id ∈ swept <-> exists o, o ∈ sweep_rows (sy_ledger y') c limit /\ order_id o = id) /\
  (forall o, o ∈ sweep_rows (sy_ledger y') c limit ->
   o ∈ orders (sy_ledger y') /\ order_status o = OS.COMMAND_QUEUED /\
   exists id k, lo_gateway_command_id (or_rec o) = Some id /\ commands c !! id = Some k /\
     gc_command_type k = "send_order" /\ gc_status k = GS.EXPIRED /\ gc_dispatched_at k = None).
Proof.
  intros E H Hs. apply system_steps_ok in H as [_ [Hnd _ _ _ _]]; [|rewrite E; apply empty_ledger_ok].
  apply sweep_ok in Hs as (-> & Hk & Ho); [|done]. split_and!; [done..| |].
  - intros id. rewrite list_elem_of_fmap. naive_solver.
  - intros o [Hin Hsw]%sweep_rows_ok. split; [done|]. unfold sweepable, expired_undispatched in Hsw.
    apply andb_true_iff in Hsw as [Hst%bool_decide_eq_true Hc]. split; [done|].
    destruct (lo_gateway_command_id (or_rec o)) as [id|]; [|done].
    destruct (commands c !! id) as [k|] eqn:Ek; [|done]. exists id, k.
    destruct (bool_decide (gc_status k = GS.EXPIRED)) eqn:E1; [|done].
    destruct (bool_decide (gc_dispatched_at k = None)) eqn:E2; [|done].
    apply bool_decide_eq_true in E1, E2. apply String.eqb_eq in Hc. done.
Qed.
End System.

(** ** A sample history *)

#[local] Existing Instances sample_routing sample_lifecycle_status sample_plan_route.
Abbreviation sample_system_step := (system_step sample_id sample_repr sample_hash sample_sum sample_loads).

Definition start : system :=
  {| sy_world := {| ledger := empty_tables; gateway := CommandStore.empty_store; ticks := ∅; gateway_status := ∅ |};
     sy_reconciles := [] |}.
Definition with_ledger (l : tables) : system :=
  {| sy_world := {| ledger := l; gateway := CommandStore.empty_store; ticks := ∅; gateway_status := ∅ |};
     sy_reconciles := [] |}.
Definition in_world (w : world) : system := {| sy_world := w; sy_reconciles := [] |}.

(** The order was inserted, filled, and an exit intent made for the position. *)
Definition sample_ran : world :=
  Eval vm_compute in
  fst (run_live_sim_exit_once sample_id sample_repr sample_hash sample_sum (sample_lifecycle false)
         false false None None None sample_now sample_world).

Lemma sample_ordered_history : rtc sample_system_step start (with_ledger sample_ordered).
Proof. apply rtc_once. apply gateway_event. eexists. exact sample_insert. Qed.

Lemma sample_ran_history : rtc sample_system_step start (in_world sample_ran).
Proof.
  etrans; [exact sample_ordered_history|].
  apply (rtc_l _ _ (in_world sample_world)).
  { apply gateway_event. eexists. exact sample_fill_step. }
  apply rtc_once.
  apply (exit_run _ _ _ _ _ _ _ (sample_lifecycle false) false false None None None sample_now).
  vm_compute. reflexivity.
Qed.

Lemma system_keeps_ledger_witness :
  ledger_ok (ledger sample_ran) /\
  exists x p, get_live_sim_exit_intent (ledger sample_ran) "live_sim_exit_7" = Some x /\
    get_live_sim_position (ledger sample_ran) (xi_position_id x) = Some p /\
    1 <= xi_quantity x <= p_quantity p.
Proof.
  destruct (system_keeps_ledger sample_id sample_repr sample_hash sample_sum sample_loads start
    (in_world sample_ran) "live_sim_exit_7" (sample_lifecycle false) sample_now
    (fst (queue_live_sim_exit_order_command sample_id sample_repr sample_hash sample_sum
            "live_sim_exit_7" (sample_lifecycle false) sample_now sample_ran))
    eq_refl sample_ran_history) as [Hok Hq].
  split; [exact Hok|]. apply Hq. vm_compute. reflexivity.
Defined.

Definition sample_expired_store : CommandStore.store :=
  {| commands := {["cmd_1" :=
       {| gc_command_id := "cmd_1"; gc_command_type := "send_order"; gc_source := "live_sim";
          gc_status := GS.EXPIRED; gc_idempotency_key := Some "key_1"; gc_payload := [];
          gc_created_at := 1709164800000000; gc_available_at := None; gc_dispatched_at := None;
          gc_completed_at := Some 1709164802000000; gc_expires_at := Some 1709164801000000;
          gc_attempts := 0; gc_last_error := None |}]};
     command_events := []; dedupe_keys := ∅; boundaries := ∅; command_queue_healthy := None |}.

Lemma sweep_expires_undispatched_witness :
  exists l', sweep_expired_live_sim_order_commands sample_id sample_ordered sample_expired_store 500
    sample_now = Ok (l', ["order_1"]) /\
  keeps sample_ordered l' /\ map order_status (orders l') = [OS.ORDER_EXPIRED].
Proof.
  eexists. assert (sweep_expired_live_sim_order_commands sample_id sample_ordered sample_expired_store
    500 sample_now = Ok _) as H by (vm_compute; reflexivity).
  split; [exact H|].
  destruct (sweep_expires_undispatched sample_id sample_repr sample_hash sample_sum sample_loads start
    (with_ledger sample_ordered) sample_expired_store 500 sample_now _ _ eq_refl sample_ordered_history H)
    as (Hk & Ho & _).
  split; [exact Hk|]. rewrite Ho. vm_compute. reflexivity.
Defined.
