(* ===== verification/IntentHistory.v ===== *)
(** * The life of an intent in the service

    The service's histories ([LiveSimSystem]) move an intent forward only: what
    it asks for is fixed when it is made, and once it has left CREATED it never
    returns.  So the command that an intent was queued with is the only one it
    ever has, whatever the gateway reports, and however often it is queued. *)
From S2P Require Import Prelude PyFloat BrokerUtils WireTime GatewayModels OrderBoundary CommandStore.
From S2P Require Import Admission LiveSimModels LiveSimStore LiveSimEvents LiveSimLedger LiveSimHistory SafetyGate.
From S2P Require Import LiveSimExit LiveSimRuns BrokerSnapshot LiveSimReconcile LiveSimBuy BuyRuns LiveSimSystem.
Local Open Scope Z_scope.

(** ** Rows over a history *)

Lemma forward_row s s' x :
  forward s s' -> x ∈ intents s -> exists y, y ∈ intents s' /\ evolves x y.
Proof.
  intros [(news & olds & -> & Hf) _] Hx. apply list_elem_of_lookup in Hx as [i Hi].
  destruct (Forall2_lookup_l _ _ _ _ _ Hf Hi) as (y & Hy & He). exists y. split; [|done].
  apply elem_of_app. left. by eapply list_elem_of_lookup_2.
Qed.

(** With unique identifiers a row is found under its own. *)
Lemma intent_found s x :
  NoDup (map li_live_sim_intent_id (intents s)) -> x ∈ intents s ->
  get_live_sim_intent s (li_live_sim_intent_id x) = Some x.
Proof.
  unfold get_live_sim_intent. intros Hnd Hx. destruct (find _ (intents s)) as [y|] eqn:E.
  - apply find_elem in E as [Hy E%String.eqb_eq]. f_equal. by eapply NoDup_map_inj.
  - apply list_elem_of_In in Hx. pose proof (find_none _ _ E x Hx) as H. cbn in H.
    by rewrite String.eqb_refl in H.
Qed.

Section Life.
Context (new_message_id : string -> nat -> string) (py_repr : json -> string)
  (hash_payload : payload -> string) (sql_sum : list float -> float)
  (json_loads : string -> res json) {gate : RoutingGate} {qualification : ExecutionLifecycle}
  {plan_route : PlanRoute}.

Abbreviation queue := (queue_live_sim_order_command new_message_id py_repr hash_payload sql_sum).
Abbreviation steps :=
  (rtc (system_step new_message_id py_repr hash_payload sql_sum json_loads)).

(** What a queueing did to its intent. *)
Lemma queued_intent rows id s required now w w' o :
  NoDup (map li_live_sim_intent_id (intents (ledger w))) ->
  queue rows id s required now w = (w', Ok o) -> py_strip id = id ->
  exists x, x ∈ intents (ledger w) /\ li_live_sim_intent_id x = id /\
    lo_side o = li_side x /\ lo_quantity o = li_quantity x /\
    exists c, lo_gateway_command_id o = Some c /\ intent_queued c x ∈ intents (ledger w').
Proof.
  intros Hnd (x & Hx & Hst & _ & _ & H)%queue_ok Hid. rewrite Hid in Hx.
  assert (x ∈ intents (ledger w) /\ li_live_sim_intent_id x = id) as [Hin Hxid].
  { unfold get_live_sim_intent in Hx. by apply find_elem in Hx as [? ?%String.eqb_eq]. }
  apply enqueue_intent_ok in H
    as (c & _ & _ & _ & _ & _ & _ & Hcmd & Hside & Hqty & _ & _ & _ & _ & Hi & _).
  exists x. split_and!; try done. exists (gc_command_id c). split; [done|]. rewrite Hi.
  apply elem_of_update_rows. exists x. split; [done|].
  rewrite Hxid, String.eqb_refl. unfold is_created. by rewrite bool_decide_eq_true_2.
Qed.

(** C5. An intent is queued at most once.  Take any history of the service, a
    queueing in it that succeeded, and any history after that: the intent is still
    there, asks for what the order asks for, has the order's command and no other,
    is not CREATED, and queueing it again never succeeds, under no settings and at
    no time. *)
Theorem intent_queued_at_most_once y y1 y2 y3 rows id s required now w o :
  sy_ledger y = empty_tables -> steps y y1 -> py_strip id = id ->
  queue rows id s required now (sy_world y1) = (w, Ok o) ->
  sy_ledger y2 = ledger w -> steps y2 y3 ->
  (exists x, get_live_sim_intent (sy_ledger y3) id = Some x /\ li_status x <> IS.CREATED /\
     li_gateway_command_id x = lo_gateway_command_id o /\
     li_side x = lo_side o /\ li_quantity x = lo_quantity o) /\
  (forall rows' s' required' now' w' o',
     queue rows' id s' required' now' (sy_world y3) <> (w', Ok o')).
Proof.
  intros E H1 Hid Hq E2 H3. apply system_steps_good in H1 as [_ [_ Hu1]], H3 as [_ H3].
  rewrite E in Hu1. specialize (Hu1 NoDup_nil_2).
  assert (forward (sy_ledger y1) (ledger w)) as Hq'.
  { pose proof (safe_queue_buy new_message_id py_repr hash_payload sql_sum rows id s required now
      (sy_world y1)) as [_ Hf]. by rewrite Hq in Hf. }
  rewrite E2 in H3.
  assert (NoDup (map li_live_sim_intent_id (intents (sy_ledger y3)))) as Hu3.
  { by apply H3, Hq'. }
  apply queued_intent in Hq as (x & Hx & Hxid & Hside & Hqty & c & Hc & Hxq); [|done..].
  destruct (forward_row _ _ _ H3 Hxq) as (x3 & Hx3 & [Hv Hcr Hcmd]).
  assert (li_live_sim_intent_id x3 = id) as Hid3 by (by injection Hv; intros; subst).
  assert (get_live_sim_intent (sy_ledger y3) id = Some x3) as Hg.
  { rewrite <- Hid3. by apply intent_found. }
  assert (li_status x3 <> IS.CREATED) as Hn by (intros Hs; by apply Hcr in Hs).
  split.
  - exists x3. split_and!; try done; [by rewrite Hcmd, Hc|..];
      injection Hv; intros; subst; cbn in *; congruence.
  - intros rows' s' required' now' w' o' (x' & Hx' & Hst & _)%queue_ok. rewrite Hid in Hx'. congruence.
Qed.
End Life.

(** ** A sample life *)

#[local] Existing Instances sample_routing sample_lifecycle_status sample_plan_route.

(** The intent is made, queued, and its order reported as failed. *)
Lemma intent_queued_at_most_once_witness :
  exists o x,
    sample_queue_buy false sample_created = (sample_queued_buy, Ok o) /\
    get_live_sim_intent (ledger sample_queued_buy) "live_sim_intent_0" = Some x /\
    li_gateway_command_id x = lo_gateway_command_id o /\ li_quantity x = lo_quantity o /\
    (forall w' o', sample_queue_buy false sample_queued_buy <> (w', Ok o')).
Proof.
  assert (exists o, sample_queue_buy false sample_created = (sample_queued_buy, Ok o)) as [o Ho]
    by (eexists; vm_compute; reflexivity).
  assert (rtc (system_step sample_id sample_repr sample_hash sample_sum sample_loads)
            (in_world (buy_world empty_tables)) (in_world sample_created)) as H1.
  { apply rtc_once.
    apply (buy_create _ _ _ _ _ _ _ sample_observations "CAND-2024-02-29-005930-1"
             (sample_buy_settings false) "manual" None [] buy_now).
    vm_compute. reflexivity. }
  destruct (intent_queued_at_most_once sample_id sample_repr sample_hash sample_sum sample_loads
    (in_world (buy_world empty_tables)) (in_world sample_created) (in_world sample_queued_buy)
    (in_world sample_queued_buy) [] "live_sim_intent_0"
    (sample_buy_settings false) None buy_now _ o eq_refl H1 eq_refl Ho eq_refl (rtc_refl _ _))
    as [(x & Hx & _ & Hc & _ & Hq) Hn].
  exists o, x. exact (conj Ho (conj Hx (conj Hc (conj Hq (Hn _ _ _ _))))).
Defined.
