(* ===== verification/KiwoomOrders.v ===== *)
(** * Orders at the broker gateway ([gateway/kiwoom_command_handlers.py],
    [gateway/order_pre_ack_journal.py], [gateway/event_factory.py])

    What the gateway process does with an order command it polled: it checks it
    again, asks the rate governor, has the core confirm a durable pre-ack, and
    only then calls the broker, once; around the call it writes a local journal.
    Everything that can fail in between is an argument: the server the control
    is logged in to, the core's answer, the broker's answer, the disk.

    Non-order commands go through [handle] too; what their handlers answer is an
    argument.  Of a payload sent to the core, all keys are kept. *)
From S2P Require Import Prelude PyFloat BrokerUtils WireTime GatewayModels OrderBoundary CommandStore.
From Stdlib Require Import SpecFloat.
Local Open Scope Z_scope.

(** ** Values ([gateway/kiwoom_client.py] and the helpers of the handlers) *)

Fixpoint only_digits (s : string) : string :=
  match s with
  | EmptyString => EmptyString
  | String c s =>
      let n := nat_of_ascii c in
      if ((48 <=? n) && (n <=? 57))%nat then String c (only_digits s) else only_digits s
  end.

(** [digits[-6:].zfill(6)]. *)
Definition last_six (s : string) : string :=
  let n := String.length s in
  if (n <=? 6)%nat then substring 0 (6 - n) "000000" +:+ s else substring (n - 6) 6 s.

Section Values.
Context (py_repr : json -> string).

Definition normalize_code (value : option json) : res string :=
  let text := py_upper (py_strip (str_or_empty py_repr value)) in
  let text :=
    match text with
    | String "A" rest => if (String.length rest =? 6)%nat then rest else text
    | _ => text
    end in
  let digits := only_digits text in
  if str_true digits then Ok (last_six digits) else validate_code text "code".

Definition EXCHANGE_ALIASES : list (string * string) :=
  [("", "KRX"); ("K", "KRX"); ("KRX", "KRX"); ("N", "NXT"); ("NX", "NXT"); ("NXT", "NXT");
   ("S", "SOR"); ("SO", "SOR"); ("SOR", "SOR"); ("A", "SOR"); ("AL", "SOR"); ("ALL", "SOR");
   ("INTEGRATED", "SOR")].

(** [str(value or "KRX")]. *)
Definition normalize_order_exchange (value : option json) : res string :=
  let text :=
    if truthy value then py_upper (py_strip (str_or_empty py_repr value)) else "KRX" in
  match find (fun kv => String.eqb (fst kv) text) EXCHANGE_ALIASES with
  | Some (_, exchange) => Ok exchange
  | None => Err (ValueError "unsupported order exchange")
  end.

Definition broker_env_from_server_gubun (value : json) : string :=
  let text := py_upper (py_strip (str_or_empty py_repr (Some value))) in
  if mem text ["1"; "SIM"; "SIMULATION"; "MOCK"; "PAPER"; "PAPER_TRADING"; "LIVE_SIM"; "TEST"]
  then "SIMULATION"
  else if mem text ["0"; "REAL"; "LIVE"; "PROD"; "PRODUCTION"; "LIVE_REAL"] then "REAL"
  else "UNKNOWN".

Definition _string_value (p : payload) (key default : string) : string :=
  match jget key p with
  | None | Some JNull => default
  | Some v => py_str py_repr v
  end.

(** [int(a or b or 0)]. *)
Definition int_or_zero (v : option json) : res Z :=
  if truthy v then match v with Some j => py_int j | None => Ok 0 end else Ok 0.

Definition trimmed_upper (v : option json) : string := py_upper (py_strip (str_or_empty py_repr v)).

Definition _order_price (p : payload) : res Z :=
  if String.eqb (trimmed_upper (jget "order_type" p)) "MARKET" then Ok 0
  else int_or_zero (or_else (jget "price" p) (jget "limit_price" p)).

Definition _kiwoom_hoga (p : payload) : string :=
  let explicit := py_strip (str_or_empty py_repr (jget "hoga" p)) in
  if str_true explicit then explicit
  else if String.eqb (trimmed_upper (jget "order_type" p)) "MARKET" then "03" else "00".

Definition _kiwoom_order_type (p : payload) : res Z :=
  let side := trimmed_upper (jget "side" p) in
  if String.eqb side "BUY" then Ok 1
  else if String.eqb side "SELL" then Ok 2
  else if mem side ["BUY_CANCEL"; "CANCEL_BUY"] then Ok 3
  else Err (ValueError "Kiwoom LIVE_SIM adapter allows BUY, close-only SELL, or BUY_CANCEL").

(** A timestamp that cannot be read does not expire the command. *)
Definition _command_expired (c : GatewayCommand) (now : Z) : bool :=
  let p := payload_of c in
  match or_else (or_else (jget "_gateway_command_expires_at" p) (jget "gateway_command_expires_at" p))
          (jget "expires_at" p) with
  | Some v =>
      if jtrue v
      then match parse_timestamp v "expires_at" with Ok t => t <=? now | Err _ => false end
      else false
  | None => false
  end.
End Values.

(** ** Requests *)

Record KiwoomOrderRequest := {
  kr_account : string;
  kr_code : string;
  kr_quantity : Z;
  kr_price : Z;
  kr_side : string;
  kr_tag : string;
  kr_order_type : Z;
  kr_hoga : string;
  kr_original_order_no : string;
  kr_command_id : string;
  kr_idempotency_key : string;
  kr_order_exchange : string;
  kr_metadata : payload
}.

Record KiwoomOrderResult := {
  ko_ok : bool;
  ko_code : Z;
  ko_message : string;
  ko_order_no : string
}.

Definition text_of (v : option string) : string := default EmptyString v.

Section Requests.
Context (py_repr : json -> string).
Abbreviation string_value := (_string_value py_repr).

(** The request of [_handle_send_order]; the arguments are evaluated in the
    order of the call. *)
Definition send_request (c : GatewayCommand) : res KiwoomOrderRequest :=
  let p := payload_of c in
  let* code := normalize_code py_repr (jget "code" p) in
  let* quantity := int_or_zero (jget "quantity" p) in
  let* price := _order_price py_repr p in
  let* order_type := _kiwoom_order_type py_repr p in
  let* exchange := normalize_order_exchange py_repr (jget "order_exchange" p) in
  Ok {| kr_account := string_value p "account_id" (string_value p "account" "");
        kr_code := code; kr_quantity := quantity; kr_price := price;
        kr_side := py_upper (string_value p "side" "BUY");
        kr_tag := string_value p "tag" (command_id c); kr_order_type := order_type;
        kr_hoga := _kiwoom_hoga py_repr p; kr_original_order_no := "";
        kr_command_id := command_id c; kr_idempotency_key := text_of (idempotency_key c);
        kr_order_exchange := exchange; kr_metadata := _mapping_value p "metadata" |}.

(** The request of [_handle_cancel_order]. *)
Definition cancel_request (c : GatewayCommand) : res KiwoomOrderRequest :=
  let p := payload_of c in
  let* code := normalize_code py_repr (jget "code" p) in
  let* quantity := int_or_zero (or_else (jget "cancel_quantity" p) (jget "quantity" p)) in
  let* order_type := _kiwoom_order_type py_repr p in
  let* exchange := normalize_order_exchange py_repr (jget "order_exchange" p) in
  Ok {| kr_account := string_value p "account_id" (string_value p "account" "");
        kr_code := code; kr_quantity := quantity; kr_price := 0; kr_side := "BUY_CANCEL";
        kr_tag := string_value p "tag" (command_id c); kr_order_type := order_type;
        kr_hoga := _kiwoom_hoga py_repr p;
        kr_original_order_no := string_value p "original_order_no" "";
        kr_command_id := command_id c; kr_idempotency_key := text_of (idempotency_key c);
        kr_order_exchange := exchange; kr_metadata := _mapping_value p "metadata" |}.
End Requests.

(** ** The rate governor *)

Record RateLimitDecision := {
  rl_allowed : bool;
  rl_wait_time_sec : float;
  rl_reason : string
}.

Record governor_limits := {
  global_per_second : float;
  hourly_limit : float;
  min_interval_sec : list (string * float);
  type_weights : list (string * float)
}.

(** The calls made: the last of each type, and those of the last second and the
    last hour, each with its instant (of the monotonic clock) and weight. *)
Record governor := {
  last_call_at : gmap string float;
  second_calls : list (float * float);
  hourly_calls : list (float * float)
}.
Definition new_governor : governor :=
  {| last_call_at := ∅; second_calls := []; hourly_calls := [] |}.

(** The defaults of the constructor. *)
Definition default_limits : governor_limits :=
  {| global_per_second := f_of_Z 5; hourly_limit := f_of_Z 900;
     min_interval_sec :=
       [("request_tr", f_one); ("broker_snapshot_request", f_one); ("load_conditions", f_one);
        ("send_condition", f_lit 2 10); ("send_order", f_lit 2 10); ("cancel_order", f_lit 2 10)];
     type_weights :=
       [("heartbeat_request", f_zero); ("register_realtime", f_one); ("remove_realtime", f_one);
        ("request_tr", f_one); ("broker_snapshot_request", f_of_Z 3); ("load_conditions", f_one);
        ("send_condition", f_one); ("stop_condition", f_one); ("send_order", f_one);
        ("cancel_order", f_one)] |}.

Definition lookup_text {A} (key : string) (default : A) (l : list (string * A)) : A :=
  match find (fun kv => String.eqb (fst kv) key) l with Some (_, v) => v | None => default end.

(** [sum] over floats. *)
Definition py_sum (l : list float) : float := fold_left f_add l f_zero.

Fixpoint drop_old (cutoff : float) (calls : list (float * float)) : list (float * float) :=
  match calls with
  | [] => []
  | (t, w) :: rest => if f_le t cutoff then drop_old cutoff rest else calls
  end.

Definition _trim (now : float) (g : governor) : governor :=
  {| last_call_at := last_call_at g;
     second_calls := drop_old (f_sub now f_one) (second_calls g);
     hourly_calls := drop_old (f_sub now (f_of_Z 3600)) (hourly_calls g) |}.

Definition weight_of (lim : governor_limits) (ctype : string) : float :=
  f_max (lookup_text ctype f_one (type_weights lim)) f_zero.

(** A window that the weight would overfill, and when its oldest call leaves
    it. *)
Definition window_wait (weight limit span now : float) (reason : string)
    (calls : list (float * float)) : list (float * string) :=
  match calls with
  | (t, _) :: _ =>
      if f_lt limit (f_add (py_sum (map snd calls)) weight)
      then [(f_sub (f_add t span) now, reason)] else []
  | [] => []
  end.

Definition interval_wait (interval now : float) (last : option float) : list (float * string) :=
  match last with
  | Some t =>
      let wait := f_sub interval (f_sub now t) in
      if f_lt f_zero interval && f_lt f_zero wait then [(wait, "type_min_interval")] else []
  | None => []
  end.

(** [max(waits, key=...)]: the first of the longest. *)
Fixpoint longest (best : float * string) (waits : list (float * string)) : float * string :=
  match waits with
  | [] => best
  | w :: rest => longest (if f_lt (fst best) (fst w) then w else best) rest
  end.

Definition allowed_decision : RateLimitDecision :=
  {| rl_allowed := true; rl_wait_time_sec := f_zero; rl_reason := "" |}.

Definition check (lim : governor_limits) (command_type : string) (now : float) (g : governor)
    : governor * RateLimitDecision :=
  let normalized := py_lower (py_strip command_type) in
  let weight := weight_of lim normalized in
  if f_le weight f_zero then (g, allowed_decision) else
  let g := _trim now g in
  let interval := f_max (lookup_text normalized f_zero (min_interval_sec lim)) f_zero in
  let waits :=
    interval_wait interval now (last_call_at g !! normalized) ++
    window_wait weight (global_per_second lim) f_one now "global_per_second" (second_calls g) ++
    window_wait weight (hourly_limit lim) (f_of_Z 3600) now "hourly_rolling_limit" (hourly_calls g) in
  let waits := map (fun w => (f_max (fst w) (f_lit 1 1000), snd w))
                 (List.filter (fun w => f_lt f_zero (fst w)) waits) in
  match waits with
  | [] => (g, allowed_decision)
  | w :: rest =>
      let '(wait, reason) := longest w rest in
      (g, {| rl_allowed := false; rl_wait_time_sec := wait; rl_reason := reason |})
  end.

Definition record_call (lim : governor_limits) (command_type : string) (now : float) (g : governor)
    : governor :=
  let normalized := py_lower (py_strip command_type) in
  let weight := weight_of lim normalized in
  if f_le weight f_zero then g else
  let g := _trim now g in
  {| last_call_at := <[normalized := now]> (last_call_at g);
     second_calls := second_calls g ++ [(now, weight)];
     hourly_calls := hourly_calls g ++ [(now, weight)] |}.
