(* ===== verification/OrderJournal.v ===== *)
(** * Gateway events and the pre-ack journal ([gateway/event_factory.py],
    [gateway/order_pre_ack_journal.py])

    The state of the gateway process, the events it makes about a command, and
    the append-only file that outlives the process: one line before an order is
    sent, one after, and, at the next start, the events that report what was
    left open.

    Each reading of a clock, of the login, of the disk or of the broker, and each
    new message id, is numbered; [Outside] says what each gives. *)
From S2P Require Import Prelude PyFloat BrokerUtils WireTime GatewayModels OrderBoundary CommandStore KiwoomOrders.
Local Open Scope Z_scope.

(** ** Outside the process *)

(** How an append to the file ends: the line is written, nothing is, or part of
    it is.  The last two raise. *)
Inductive append_outcome := Written | NotWritten | Torn.

(** The arguments of the control's [SendOrder]. *)
Record ocx_order := {
  ocx_tag : string;
  ocx_account : string;
  ocx_order_type : Z;
  ocx_code : string;
  ocx_quantity : Z;
  ocx_price : Z;
  ocx_hoga : string;
  ocx_original_order_no : string
}.

Class Outside := {
  new_message_id : nat -> string;
  utc_now : nat -> Z;
  monotonic : nat -> float;
  append_result : nat -> append_outcome;
  GetServerGubun : nat -> res string;
  SendOrder : nat -> ocx_order -> res Z
}.

Record gateway_config := {
  cfg_source : string;
  cfg_journal_path : option string;
  cfg_posting_enabled : bool;
  cfg_limits : governor_limits
}.

(** ** The journal's file *)

Record OrderPreAckRecord := {
  jr_command_id : string;
  jr_idempotency_key : string;
  jr_command_type : string;
  jr_status : string;
  jr_payload : payload;
  jr_recorded_at : string
}.

(** The lines of the file, [None] for one that is not JSON; [j_open] when the
    last of them lacks its newline. *)
Record journal := { j_lines : list (option OrderPreAckRecord); j_open : bool }.
Definition empty_journal : journal := {| j_lines := []; j_open := false |}.

(** A line appended to an unfinished one reads as one line with it. *)
Definition append_line (r : OrderPreAckRecord) (outcome : append_outcome) (j : journal) : journal :=
  match outcome, j_open j with
  | NotWritten, _ => j
  | Written, false => {| j_lines := j_lines j ++ [Some r]; j_open := false |}
  | Written, true => {| j_lines := j_lines j; j_open := false |}
  | Torn, false => {| j_lines := j_lines j ++ [None]; j_open := true |}
  | Torn, true => j
  end.

Definition _read_records (j : journal) : list OrderPreAckRecord := omap id (j_lines j).

(** [latest[record.command_id] = record], in a dict. *)
Fixpoint latest_set (r : OrderPreAckRecord) (latest : list OrderPreAckRecord)
    : list OrderPreAckRecord :=
  match latest with
  | [] => [r]
  | r' :: rest =>
      if String.eqb (jr_command_id r') (jr_command_id r) then r :: rest
      else r' :: latest_set r rest
  end.

Definition latest_records (rs : list OrderPreAckRecord) : list OrderPreAckRecord :=
  fold_left (fun latest r => latest_set r latest) rs [].

Definition pending_status (r : OrderPreAckRecord) : bool :=
  mem (jr_status r) ["PRE_ACK"; "BROKER_ACCEPTED"].

Definition pending_records (j : journal) : list OrderPreAckRecord :=
  List.filter pending_status (latest_records (_read_records j)).

(** ** The state of the process *)

Record PendingOrderRecord := {
  po_command_id : string;
  po_idempotency_key : string;
  po_account_id : string;
  po_code : string;
  po_side : string;
  po_quantity : Z;
  po_live_sim_intent_id : string;
  po_account_mode : string;
  po_broker_env : string;
  po_server_mode : string;
  po_order_exchange : string
}.

Record PendingOrderRegistry := {
  by_command_id : gmap string PendingOrderRecord;
  by_signature : gmap (string * string * string) (list PendingOrderRecord);
  by_broker_order_no : gmap string PendingOrderRecord
}.

(** [g_step]: how many readings were made; [g_calls]: the requests [SendOrder]
    was called with, oldest first; [g_emitted]: every event the process queued
    for the core. *)
Record gateway := {
  g_step : nat;
  g_journal : journal;
  g_governor : governor;
  g_pending : PendingOrderRegistry;
  g_claimed : gmap string GatewayCommand;
  g_emitted : list GatewayEvent;
  g_calls : list KiwoomOrderRequest
}.
Definition new_gateway : gateway :=
  {| g_step := 0; g_journal := empty_journal; g_governor := new_governor;
     g_pending := {| by_command_id := ∅; by_signature := ∅; by_broker_order_no := ∅ |};
     g_claimed := ∅; g_emitted := []; g_calls := [] |}.

Definition set_step (n : nat) (g : gateway) : gateway :=
  {| g_step := n; g_journal := g_journal g; g_governor := g_governor g; g_pending := g_pending g;
     g_claimed := g_claimed g; g_emitted := g_emitted g; g_calls := g_calls g |}.
Definition set_journal (j : journal) (g : gateway) : gateway :=
  {| g_step := g_step g; g_journal := j; g_governor := g_governor g; g_pending := g_pending g;
     g_claimed := g_claimed g; g_emitted := g_emitted g; g_calls := g_calls g |}.
Definition set_governor (v : governor) (g : gateway) : gateway :=
  {| g_step := g_step g; g_journal := g_journal g; g_governor := v; g_pending := g_pending g;
     g_claimed := g_claimed g; g_emitted := g_emitted g; g_calls := g_calls g |}.
Definition set_pending (v : PendingOrderRegistry) (g : gateway) : gateway :=
  {| g_step := g_step g; g_journal := g_journal g; g_governor := g_governor g; g_pending := v;
     g_claimed := g_claimed g; g_emitted := g_emitted g; g_calls := g_calls g |}.
Definition set_claimed (v : gmap string GatewayCommand) (g : gateway) : gateway :=
  {| g_step := g_step g; g_journal := g_journal g; g_governor := g_governor g;
     g_pending := g_pending g; g_claimed := v; g_emitted := g_emitted g; g_calls := g_calls g |}.
Definition add_emitted (e : GatewayEvent) (g : gateway) : gateway :=
  {| g_step := g_step g; g_journal := g_journal g; g_governor := g_governor g;
     g_pending := g_pending g; g_claimed := g_claimed g; g_emitted := g_emitted g ++ [e];
     g_calls := g_calls g |}.
Definition add_call (r : KiwoomOrderRequest) (g : gateway) : gateway :=
  {| g_step := g_step g; g_journal := g_journal g; g_governor := g_governor g;
     g_pending := g_pending g; g_claimed := g_claimed g; g_emitted := g_emitted g;
     g_calls := g_calls g ++ [r] |}.

(** What runs at the gateway can reach the core, whose state is [X]. *)
Section World.
Context {X : Type}.
Abbreviation M := (SE (X * gateway)).

Definition gate : M gateway := fun w => (w, Ok w.2).
Definition modify_gate (f : gateway -> gateway) : M unit := fun w => ((w.1, f w.2), Ok tt).
(** The number of the reading about to be made. *)
Definition reading : M nat :=
  let! g := gate in
  let! _ := modify_gate (set_step (S (g_step g))) in ret (g_step g).

Context {outside : Outside} (cfg : gateway_config).

(** [GatewayEvent(...)], with the default event id and timestamp. *)
Definition new_event (etype : string) (cid key : option string) (p : payload) : M GatewayEvent :=
  let! n := reading in
  of_res (GatewayEvent_post_init
    {| ge_event_type := etype; ge_payload := p; ge_event_id := new_message_id n;
       ge_source := cfg_source cfg; ge_ts := utc_now n; ge_command_id := cid;
       ge_idempotency_key := key |}).

Definition event_about (etype : string) (c : GatewayCommand) (p : payload) : M GatewayEvent :=
  new_event etype (Some (command_id c)) (idempotency_key c) p.

(** ** [event_factory.py] *)

Definition _command_payload (c : GatewayCommand) (status : string) : payload :=
  [("command_id", JStr (command_id c)); ("command_type", JStr (command_type c));
   ("status", JStr status)].

Definition make_command_started_event (c : GatewayCommand) : M GatewayEvent :=
  event_about "command_started" c (_command_payload c "started").

Definition make_command_ack_event (c : GatewayCommand) (message : string)
    (details : option payload) : M GatewayEvent :=
  event_about "command_ack" c
    (_command_payload c "acked" ++ [("message", JStr message)] ++
     match details with Some d => [("details", JObj d)] | None => [] end).

Definition make_command_failed_event (c : GatewayCommand) (error_message : string)
    : M GatewayEvent :=
  event_about "command_failed" c
    (_command_payload c "failed" ++ [("error_message", JStr error_message)]).

(** ** [order_pre_ack_journal.py] *)

Definition text_or_null (o : option string) : json :=
  match o with Some s => JStr s | None => JNull end.

Definition pre_ack_payload (c : GatewayCommand) (r : KiwoomOrderRequest) (broker_env : string)
    : payload :=
  [("command_id", JStr (command_id c)); ("command_type", JStr (command_type c));
   ("idempotency_key", text_or_null (idempotency_key c)); ("status", JStr "PRE_ACK");
   ("broker_env", JStr broker_env); ("account_id", JStr (kr_account r));
   ("code", JStr (kr_code r)); ("side", JStr (kr_side r)); ("quantity", JInt (kr_quantity r));
   ("price", JInt (kr_price r)); ("order_type", JInt (kr_order_type r));
   ("hoga", JStr (kr_hoga r)); ("original_order_no", JStr (kr_original_order_no r));
   ("metadata", JObj (kr_metadata r))].

Definition make_order_pre_ack_event (c : GatewayCommand) (r : KiwoomOrderRequest)
    (broker_env : string) : M GatewayEvent :=
  event_about "order_pre_ack" c (pre_ack_payload c r broker_env).

Definition _append (c : GatewayCommand) (status : string) (p : payload) : M unit :=
  let! n := reading in
  let! g := gate in
  let row := {| jr_command_id := command_id c; jr_idempotency_key := text_of (idempotency_key c);
                jr_command_type := command_type c; jr_status := status; jr_payload := p;
                jr_recorded_at := datetime_to_wire (utc_now n) |} in
  let! _ := modify_gate (set_journal (append_line row (append_result n) (g_journal g))) in
  match append_result n with
  | Written => ret tt
  | NotWritten | Torn => raise (OtherError "OSError")
  end.

Definition journal_payload (c : GatewayCommand) (status : string) (rest : payload) : payload :=
  [("command_id", JStr (command_id c)); ("command_type", JStr (command_type c));
   ("idempotency_key", text_or_null (idempotency_key c)); ("status", JStr status)] ++ rest.

Definition record_pre_ack (c : GatewayCommand) (r : KiwoomOrderRequest) (broker_env : string)
    : M GatewayEvent :=
  let! event := make_order_pre_ack_event c r broker_env in
  let! _ := _append c "PRE_ACK" (ge_payload event) in ret event.

Definition mark_broker_result (c : GatewayCommand) (result : KiwoomOrderResult) : M unit :=
  let status := if ko_ok result then "BROKER_ACCEPTED" else "BROKER_REJECTED" in
  _append c status
    (journal_payload c status
       [("broker_result_code", JInt (ko_code result)); ("broker_message", JStr (ko_message result));
        ("broker_order_no", JStr (ko_order_no result))]).

Definition mark_failed (c : GatewayCommand) (error_message : string) : M unit :=
  _append c "SEND_FAILED"
    (journal_payload c "SEND_FAILED" [("error_message", JStr error_message)]).

Definition mark_unconfirmed (c : GatewayCommand) (error_message : string) : M unit :=
  _append c "UNCONFIRMED"
    (journal_payload c "UNCONFIRMED"
       [("broker_call_attempted", JBool true); ("broker_acceptance_unknown", JBool true);
        ("error_message", JStr error_message)]).

(** [dict(payload)] with the keys set. *)
Definition recovered_payload (path : string) (r : OrderPreAckRecord) : payload :=
  jr_payload r ++
  [("status", JStr ("RECOVERED_" +:+ jr_status r)); ("journal_path", JStr path);
   ("journal_recorded_at", JStr (jr_recorded_at r))].

Fixpoint events_of (path : string) (rs : list OrderPreAckRecord) : M (list GatewayEvent) :=
  match rs with
  | [] => ret []
  | r :: rest =>
      let key := if str_true (jr_idempotency_key r) then Some (jr_idempotency_key r) else None in
      let! e := new_event "order_pre_ack" (Some (jr_command_id r)) key (recovered_payload path r) in
      let! es := events_of path rest in ret (e :: es)
  end.

Definition recovery_events (path : string) : M (list GatewayEvent) :=
  let! g := gate in events_of path (pending_records (g_journal g)).
End World.

(** ** What the journal recovers *)

(** The last record of its command among [rs]. *)
Definition last_record (r : OrderPreAckRecord) (rs : list OrderPreAckRecord) : Prop :=
  exists before after, rs = before ++ r :: after /\
    forall r', r' ∈ after -> jr_command_id r' <> jr_command_id r.

Lemma last_record_snoc r rs x :
  last_record r (rs ++ [x]) <->
  r = x \/ (last_record r rs /\ jr_command_id x <> jr_command_id r).
Proof.
  split.
  - intros (before & after & H & Hlast). destruct after as [|y after' _] using rev_ind.
    + left. by apply app_inj_tail in H as [_ ->].
    + rewrite app_comm_cons, app_assoc in H. apply app_inj_tail in H as [-> ->]. right.
      split; [|apply Hlast, elem_of_app; right; by apply list_elem_of_singleton].
      exists before, after'. split; [done|]. intros r' Hr'. apply Hlast, elem_of_app. by left.
  - intros [->|[(before & after & -> & Hlast) Hx]].
    + exists rs, []. split; [done|]. intros r' H. by apply not_elem_of_nil in H.
    + exists before, (after ++ [x]). rewrite app_comm_cons, app_assoc. split; [done|].
      intros r' [H|H%list_elem_of_singleton]%elem_of_app; [by apply Hlast|by subst].
Qed.

Lemma elem_of_latest_set x r latest :
  NoDup (map jr_command_id latest) ->
  r ∈ latest_set x latest <-> r = x \/ (r ∈ latest /\ jr_command_id x <> jr_command_id r).
Proof.
  induction latest as [|y latest IH]; cbn [latest_set map]; intros Hnd.
  - rewrite list_elem_of_singleton. split; [by left|]. intros [?|[H _]]; [done|by apply not_elem_of_nil in H].
  - apply list.NoDup_cons in Hnd as [Hy Hnd]. specialize (IH Hnd).
    destruct (String.eqb_spec (jr_command_id y) (jr_command_id x)) as [He|He]; rewrite !elem_of_cons.
    + split; [|naive_solver congruence]. intros [?|Hr]; [by left|]. right. split; [by right|].
      intros Hx. apply Hy. rewrite He, Hx. apply list_elem_of_In, in_map. by apply list_elem_of_In.
    + rewrite IH. naive_solver congruence.
Qed.

Lemma latest_set_ids x latest :
  NoDup (map jr_command_id latest) ->
  NoDup (map jr_command_id (latest_set x latest)) /\
  forall k, k ∈ map jr_command_id (latest_set x latest) -> k = jr_command_id x \/ k ∈ map jr_command_id latest.
Proof.
  induction latest as [|y latest IH]; cbn [latest_set map]; intros Hnd.
  - split; [apply list.NoDup_singleton|]. intros k H%list_elem_of_singleton. by left.
  - apply list.NoDup_cons in Hnd as [Hy Hnd]. destruct (IH Hnd) as [H1 H2].
    destruct (String.eqb_spec (jr_command_id y) (jr_command_id x)) as [He|He]; cbn [map].
    + split; [apply list.NoDup_cons; by rewrite <- He|]. intros k [->|H]%elem_of_cons; [by left|].
      right. apply elem_of_cons. by right.
    + split.
      * apply list.NoDup_cons. split; [|done]. intros H. destruct (H2 _ H); congruence.
      * intros k [->|H]%elem_of_cons; [right; apply elem_of_cons; by left|].
        destruct (H2 _ H); [by left|right; apply elem_of_cons; by right].
Qed.

Lemma latest_records_spec rs :
  NoDup (map jr_command_id (latest_records rs)) /\
  forall r, r ∈ latest_records rs <-> last_record r rs.
Proof.
  unfold latest_records. induction rs as [|x rs [IHn IHs]] using rev_ind.
  - split; [constructor|]. intros r. cbn. split; [by intros ?%not_elem_of_nil|].
    intros (b & a & H & _). by destruct b.
  - rewrite List.fold_left_app. cbn [fold_left]. split; [by apply latest_set_ids|].
    intros r. rewrite elem_of_latest_set, last_record_snoc, IHs by done. done.
Qed.

(** C30. The journal recovers exactly the orders left open: after a restart an
    order is reported if and only if the last readable line the file holds for
    it says that it was about to be sent or that the broker accepted it, with
    that line's content, and no order is reported twice. *)
Theorem journal_recovers_open_orders j :
  (forall r, r ∈ pending_records j <->
     last_record r (_read_records j) /\ jr_status r ∈ ["PRE_ACK"; "BROKER_ACCEPTED"]) /\
  NoDup (map jr_command_id (pending_records j)).
Proof.
  destruct (latest_records_spec (_read_records j)) as [Hn Hs]. unfold pending_records. split.
  - intros r. rewrite elem_of_filter_list, Hs. unfold pending_status. by rewrite mem_spec.
  - by apply NoDup_map_filter.
Qed.

(** A line cut short takes the next one with it: that record was appended
    without an error and is not read back. *)
Lemma torn_line_swallows_the_next r r' j :
  j_open j = false ->
  _read_records (append_line r' Written (append_line r Torn j)) = _read_records j.
Proof.
  intros H. unfold append_line. rewrite H. unfold _read_records. cbn [j_lines j_open].
  rewrite omap_app. cbn. by rewrite app_nil_r.
Qed.
