(* ===== verification/KiwoomRuntime.v ===== *)
(** * Handling an order command ([gateway/kiwoom_command_handlers.py],
    [gateway/kiwoom_runtime.py], [gateway/kiwoom_client.py])

    [KiwoomGatewayCommandHandler.handle] with the two order handlers, what the
    runtime wires into it (the registry of acknowledged orders, the synchronous
    post of the pre-ack, the event queue), and [handle_commands] around it.

    The core is reached through [CoreClient].  The handlers of the other commands
    are an argument, [non_order]; the checks [handle_commands] makes for realtime
    registrations are part of it. *)
From S2P Require Import Prelude PyFloat FloatRound BrokerUtils WireTime GatewayModels OrderBoundary CommandStore KiwoomOrders OrderJournal.
From stdpp Require Import pretty.
Local Open Scope Z_scope.

(** [core_client.post_event]: what the core does, and its answer or what the
    transport raises. *)
Class CoreClient (X : Type) := post_event : GatewayEvent -> SE X json.

Definition ALLOWED_KIWOOM_COMMAND_TYPES : list string :=
  ["heartbeat_request"; "broker_snapshot_request"; "request_tr"; "register_realtime";
   "remove_realtime"; "load_conditions"; "send_condition"; "stop_condition"; "send_order";
   "cancel_order"].

Definition FORBIDDEN_KIWOOM_COMMAND_TYPES : list string :=
  ["modify_order"; "submit_order"; "enqueue_order"; "order_intent"; "gateway_order"; "live_order"].

(** The exchange as a realtime code names it, and its suffix. *)
Definition REALTIME_EXCHANGES : list (string * string) :=
  [("", ""); ("K", ""); ("KRX", ""); ("N", "_NX"); ("NX", "_NX"); ("NXT", "_NX"); ("A", "_AL");
   ("AL", "_AL"); ("ALL", "_AL"); ("SOR", "_AL"); ("INTEGRATED", "_AL")].

Definition realtime_code_for_exchange (py_repr : json -> string) (code exchange : string)
    : res string :=
  let* base := normalize_code py_repr (Some (JStr code)) in
  let text := py_upper (py_strip (if str_true exchange then exchange else "KRX")) in
  match find (fun kv => String.eqb (fst kv) text) REALTIME_EXCHANGES with
  | Some (_, suffix) => Ok (base +:+ suffix)
  | None => Err (ValueError "unsupported realtime exchange")
  end.

Definition ERROR_MESSAGES : list (Z * string) :=
  [(0, "정상처리"); (-10, "실패"); (-100, "사용자정보교환실패"); (-101, "서버접속실패");
   (-102, "버전처리실패"); (-103, "개인방화벽실패"); (-104, "메모리보호실패");
   (-105, "함수입력값오류"); (-106, "통신연결종료"); (-200, "시세조회과부하");
   (-201, "전문작성초기화실패"); (-202, "전문작성입력값오류"); (-203, "데이터없음");
   (-204, "조회가능한종목수초과"); (-205, "데이터수신실패"); (-206, "조회가능한FID수초과");
   (-207, "실시간해제오류"); (-300, "주문 입력값오류"); (-301, "계좌비밀번호없음");
   (-302, "타인계좌사용오류"); (-303, "주문가격 20억원 초과"); (-304, "주문가격 50억원 초과");
   (-305, "주문수량 총발행주수 1% 초과"); (-306, "주문수량 총발행주수 3% 초과");
   (-307, "주문전송실패"); (-308, "주문전송과부하"); (-309, "주문수량 300계약 초과");
   (-310, "주문수량 500계약 초과"); (-340, "계좌정보없음"); (-500, "종목코드없음")].

Definition error_message (code : Z) : string :=
  match find (fun kv => fst kv =? code) ERROR_MESSAGES with
  | Some (_, m) => m
  | None => pretty code
  end.

Section Runtime.
Context (py_repr : json -> string).
Context {X : Type} {outside : Outside} {core : CoreClient X} (cfg : gateway_config).
Abbreviation M := (SE (X * gateway)).

(** ** The client *)

(** What raises before [SendOrder] is not a call. *)
Definition send_order (r : KiwoomOrderRequest) : M KiwoomOrderResult :=
  let! code := of_res (realtime_code_for_exchange py_repr (kr_code r) (kr_order_exchange r)) in
  let! n := reading in
  let! _ := modify_gate (add_call r) in
  let! result_code := of_res (SendOrder n
    {| ocx_tag := kr_tag r; ocx_account := kr_account r; ocx_order_type := kr_order_type r;
       ocx_code := code; ocx_quantity := kr_quantity r; ocx_price := kr_price r;
       ocx_hoga := kr_hoga r; ocx_original_order_no := kr_original_order_no r |}) in
  ret {| ko_ok := result_code =? 0; ko_code := result_code;
         ko_message := error_message result_code; ko_order_no := "" |}.

(** A control that cannot be asked is on no known server. *)
Definition _actual_broker_env : M string :=
  let! n := reading in
  ret match GetServerGubun n with
      | Ok text => broker_env_from_server_gubun py_repr (JStr (py_strip text))
      | Err _ => "UNKNOWN"
      end.

(** ** The registry of acknowledged orders *)

Definition _signature (account code side : string) : res (string * string * string) :=
  let* code := normalize_code py_repr (Some (JStr code)) in Ok (account, code, py_upper side).

(** [str(a or default).upper()]. *)
Definition mode_of (p : payload) (key : string) : string :=
  py_upper (let s := str_or_empty py_repr (jget key p) in if str_true s then s else "SIMULATION").

Definition record_ack (c : GatewayCommand) (r : KiwoomOrderRequest) (result : KiwoomOrderResult)
    (reg : PendingOrderRegistry) : res PendingOrderRegistry :=
  let* code := normalize_code py_repr (Some (JStr (kr_code r))) in
  let p := payload_of c in
  let record :=
    {| po_command_id := command_id c;
       po_idempotency_key :=
         let key := text_of (idempotency_key c) in
         if str_true key then key else kr_idempotency_key r;
       po_account_id := kr_account r; po_code := code; po_side := py_upper (kr_side r);
       po_quantity := kr_quantity r;
       po_live_sim_intent_id :=
         str_or_empty py_repr (or_else (jget "live_sim_intent_id" (kr_metadata r))
                                 (jget "live_sim_intent_id" p));
       po_account_mode := mode_of p "account_mode"; po_broker_env := mode_of p "broker_env";
       po_server_mode := mode_of p "server_mode"; po_order_exchange := kr_order_exchange r |} in
  let* signature := _signature (po_account_id record) (po_code record) (po_side record) in
  let records := default [] (by_signature reg !! signature) in
  Ok {| by_command_id := <[command_id c := record]> (by_command_id reg);
        by_signature :=
          <[signature := if existsb (fun e => String.eqb (po_command_id e) (command_id c)) records
                         then records else records ++ [record]]> (by_signature reg);
        by_broker_order_no :=
          if str_true (ko_order_no result)
          then <[ko_order_no result := record]> (by_broker_order_no reg)
          else by_broker_order_no reg |}.

Definition on_order_ack (c : GatewayCommand) (r : KiwoomOrderRequest) (result : KiwoomOrderResult)
    : M unit :=
  let! g := gate in
  let! reg := of_res (record_ack c r result (g_pending g)) in
  modify_gate (set_pending reg).

(** ** The rate governor *)

Definition check_rate (ctype : string) : M RateLimitDecision :=
  let! n := reading in
  let! g := gate in
  let '(governor, decision) := check (cfg_limits cfg) ctype (monotonic n) (g_governor g) in
  let! _ := modify_gate (set_governor governor) in ret decision.

Definition _record_rate_limit (ctype : string) : M unit :=
  let! n := reading in
  modify_gate (fun g => set_governor (record_call (cfg_limits cfg) ctype (monotonic n)
                                        (g_governor g)) g).

Definition _rate_limited_event (c : GatewayCommand) (d : RateLimitDecision) : M GatewayEvent :=
  event_about cfg "rate_limited" c
    [("command_id", JStr (command_id c)); ("command_type", JStr (command_type c));
     ("wait_time_sec", JFloat (f_round 3 (rl_wait_time_sec d)));
     ("next_available_in_sec", JFloat (f_round 3 (rl_wait_time_sec d)));
     ("reason", JStr (rl_reason d)); ("status", JStr "rate_limited")].

(** ** The durable pre-ack *)

Definition emit_event (e : GatewayEvent) : M unit := modify_gate (add_emitted e).

(** [_emit_before_blocking_call], with [emit_events_immediately]. *)
Definition emit_started (c : GatewayCommand) : M unit :=
  let! e := make_command_started_event cfg c in emit_event e.

Definition post_to_core (e : GatewayEvent) : M json :=
  fun w => let '(x, r) := post_event e w.1 in ((x, w.2), r).

Definition _persist_order_pre_ack (e : GatewayEvent) : M json :=
  if negb (cfg_posting_enabled cfg) then ret (JObj [])
  else let! response := post_to_core e in
       ret match response with JObj _ => response | _ => JObj [] end.

Definition pre_ack_error (response : json) : option string :=
  match response with
  | JObj fields =>
      if negb (is_True (jget "accepted" fields))
      then Some "DURABLE_DB_PRE_ACK_FAILED: Core did not accept pre-ack event"
      else if negb (is_True (jget "durable_pre_ack_recorded" fields))
      then Some "DURABLE_DB_PRE_ACK_FAILED: Core did not confirm durable pre-ack"
      else None
  | _ => Some "DURABLE_DB_PRE_ACK_FAILED: Core returned an invalid response"
  end.

Definition has_journal : bool := match cfg_journal_path cfg with Some _ => true | None => false end.
Definition when (b : bool) (m : M unit) : M unit := if b then m else ret tt.

Definition pre_ack_event (c : GatewayCommand) (r : KiwoomOrderRequest) (broker_env : string)
    : M GatewayEvent :=
  if has_journal then record_pre_ack cfg c r broker_env
  else make_order_pre_ack_event cfg c r broker_env.

Definition _record_durable_pre_ack (c : GatewayCommand) (r : KiwoomOrderRequest)
    (broker_env : string) : M (option string) :=
  let! event := pre_ack_event c r broker_env in
  catch (let! response := _persist_order_pre_ack event in ret (pre_ack_error response))
        (fun e => ret (Some ("DURABLE_DB_PRE_ACK_FAILED: " +:+ exn_text e))).

Definition _order_broker_unconfirmed_event (c : GatewayCommand) (e : exn) : M GatewayEvent :=
  event_about cfg "order_broker_unconfirmed" c
    [("command_id", JStr (command_id c)); ("command_type", JStr (command_type c));
     ("idempotency_key", text_or_null (idempotency_key c)); ("status", JStr "UNCONFIRMED");
     ("broker_call_attempted", JBool true); ("broker_acceptance_unknown", JBool true);
     ("error_message", JStr (exn_text e)); ("live_sim_only", JBool true);
     ("live_real_allowed", JBool false)].

(** ** The order handlers *)

Definition failed_with (c : GatewayCommand) (msg : string) : M (list GatewayEvent) :=
  let! e := make_command_failed_event cfg c msg in ret [e].

(** The details of an acknowledgement, without the keys of one kind of order. *)
Definition ack_details (r : KiwoomOrderRequest) (result : KiwoomOrderResult) (broker_env : string)
    (extra : payload) : payload :=
  [("accepted", JBool (ko_ok result)); ("broker_result_code", JStr (pretty (ko_code result)));
   ("broker_message", JStr (ko_message result))] ++ extra ++
  [("live_sim_only", JBool true); ("live_real_allowed", JBool false);
   ("broker_env", JStr broker_env); ("account_mode", JStr broker_env);
   ("server_mode", JStr broker_env); ("order_exchange", JStr (kr_order_exchange r))].

(** The call and the journal line after it; [inl] is what the broker answered,
    [inr] the event for a call whose outcome is not known. *)
Definition call_broker (ctype : string) (c : GatewayCommand) (r : KiwoomOrderRequest)
    : M (KiwoomOrderResult + GatewayEvent) :=
  catch
    (let! result := send_order r in
     let! _ := _record_rate_limit ctype in
     let! _ := when has_journal (mark_broker_result c result) in ret (inl result))
    (fun e =>
       let! _ := when has_journal (mark_unconfirmed c (exn_text e)) in
       let! event := _order_broker_unconfirmed_event c e in ret (inr event)).

(** What [_handle_send_order] and [_handle_cancel_order] have in common: they
    differ in the request, the texts and what follows an answer. *)
Definition run_order (ctype : string) (request : GatewayCommand -> res KiwoomOrderRequest)
    (answer : KiwoomOrderRequest -> KiwoomOrderResult -> string -> M GatewayEvent)
    (c : GatewayCommand) : M (list GatewayEvent) :=
  match validate_command_type_allowed py_repr ctype (Some c) with
  | Some safety_error => failed_with c safety_error
  | None =>
  let! env := _actual_broker_env in
  if negb (String.eqb env "SIMULATION")
  then failed_with c ("Kiwoom " +:+ ctype +:+ " requires simulation server, got " +:+ env)
  else
  let! decision := check_rate ctype in
  if negb (rl_allowed decision) then
    let! _ := emit_started c in
    let! e := _rate_limited_event c decision in ret [e]
  else
  let! r := of_res (request c) in
  let! _ := emit_started c in
  let! pre_ack := _record_durable_pre_ack c r env in
  match pre_ack with
  | Some error =>
      let! _ := when has_journal (mark_failed c error) in failed_with c error
  | None =>
      let! outcome := call_broker ctype c r in
      match outcome with
      | inr unconfirmed => ret [unconfirmed]
      | inl result => let! e := answer r result env in ret [e]
      end
  end
  end.

Definition order_no_details (result : KiwoomOrderResult) : payload :=
  if str_true (ko_order_no result)
  then [("broker_order_no", JStr (ko_order_no result)); ("broker_order_id", JStr (ko_order_no result))]
  else [].

Definition send_answer (c : GatewayCommand) (r : KiwoomOrderRequest) (result : KiwoomOrderResult)
    (env : string) : M GatewayEvent :=
  if ko_ok result then
    let! _ := on_order_ack c r result in
    make_command_ack_event cfg c "Kiwoom LIVE_SIM order accepted"
      (Some (ack_details r result env [] ++ order_no_details result))
  else make_command_failed_event cfg c ("Kiwoom SendOrder rejected: " +:+ ko_message result).

Definition cancel_answer (c : GatewayCommand) (r : KiwoomOrderRequest) (result : KiwoomOrderResult)
    (env : string) : M GatewayEvent :=
  if ko_ok result then
    make_command_ack_event cfg c "Kiwoom LIVE_SIM cancel accepted"
      (Some (ack_details r result env
               [("original_order_no", JStr (kr_original_order_no r))]))
  else make_command_failed_event cfg c ("Kiwoom cancel_order rejected: " +:+ ko_message result).

Definition _handle_send_order (c : GatewayCommand) : M (list GatewayEvent) :=
  run_order "send_order" (send_request py_repr) (send_answer c) c.
Definition _handle_cancel_order (c : GatewayCommand) : M (list GatewayEvent) :=
  run_order "cancel_order" (cancel_request py_repr) (cancel_answer c) c.

(** ** [handle] *)

(** [_handle_non_order]. *)
Context (_handle_non_order : string -> GatewayCommand -> M (list GatewayEvent)).

Definition handle_other (ctype : string) (c : GatewayCommand) : M (list GatewayEvent) :=
  let! started := make_command_started_event cfg c in
  let! decision := check_rate ctype in
  if negb (rl_allowed decision)
  then let! e := _rate_limited_event c decision in ret [started; e]
  else
    catch (let! es := _handle_non_order ctype c in
           let! _ := _record_rate_limit ctype in ret (started :: es))
          (fun e => let! failed := failed_with c (exn_text e) in ret (started :: failed)).

Definition handle (c : GatewayCommand) : M (list GatewayEvent) :=
  let ctype := py_lower (py_strip (command_type c)) in
  let order := is_order_command_type (command_type c) in
  if mem ctype FORBIDDEN_KIWOOM_COMMAND_TYPES || (str_contains "order" ctype && negb order)
  then failed_with c (command_type c +:+ " is disabled in the real Kiwoom Gateway adapter")
  else if negb (mem ctype ALLOWED_KIWOOM_COMMAND_TYPES)
  then failed_with c ("unsupported Kiwoom gateway command: " +:+ command_type c)
  else
  let! expired :=
    if order then let! n := reading in ret (_command_expired c (utc_now n)) else ret false in
  if expired then failed_with c "EXPIRED_BEFORE_EXECUTION"
  else if String.eqb ctype "send_order" then _handle_send_order c
  else if String.eqb ctype "cancel_order" then _handle_cancel_order c
  else handle_other ctype c.

(** ** The runtime *)

(** The event of [c] that clears its claim. *)
Definition clears_claim (c : GatewayCommand) (e : GatewayEvent) : bool :=
  String.eqb (text_of (ge_command_id e)) (command_id c) &&
  mem (py_lower (py_strip (ge_event_type e)))
    ["command_started"; "command_ack"; "command_failed"; "rate_limited";
     "order_broker_unconfirmed"].

Definition _clear_claimed_command_if_started_or_terminal (c : GatewayCommand)
    (events : list GatewayEvent) : M unit :=
  if existsb (clears_claim c) events
  then modify_gate (fun g => set_claimed (delete (command_id c) (g_claimed g)) g) else ret tt.

Fixpoint emit_all (es : list GatewayEvent) : M unit :=
  match es with
  | [] => ret tt
  | e :: rest => let! _ := emit_event e in emit_all rest
  end.

(** The body of the loop of [handle_commands]. *)
Definition handle_one (c : GatewayCommand) : M unit :=
  let! _ := modify_gate (fun g => set_claimed (<[command_id c := c]> (g_claimed g)) g) in
  catch
    (let! events := handle c in
     let! _ := _clear_claimed_command_if_started_or_terminal c events in
     emit_all events)
    (fun e =>
       let! _ := modify_gate (fun g => set_claimed (delete (command_id c) (g_claimed g)) g) in
       let! failed := make_command_failed_event cfg c (exn_text e) in
       let! _ := emit_event failed in
       let! error := new_event cfg "gateway_error" None None
         [("message", JStr "COMMAND_HANDLE_FAILED"); ("command_id", JStr (command_id c));
          ("command_type", JStr (command_type c)); ("error", JStr (exn_text e))] in
       emit_event error).

Fixpoint handle_commands (cs : list GatewayCommand) : M unit :=
  match cs with
  | [] => ret tt
  | c :: rest => let! _ := handle_one c in handle_commands rest
  end.

(** What [start] does with the journal of an earlier run. *)
Definition replay_order_pre_ack_journal : M unit :=
  match cfg_journal_path cfg with
  | None => ret tt
  | Some path => let! es := recovery_events cfg path in emit_all es
  end.
End Runtime.
