(* ===== verification/OrderHandling.v ===== *)
(** * What handling an order command can do

    Handling is followed through a budget: a call of the broker and a
    [rate_limited] report both cost one credit, and a command has one credit to
    spend.  The rules of [keeps] carry the budget, an invariant of the core and
    a condition on the calls made through the handlers of [KiwoomRuntime].

    [DurableCore] is what the handlers rely on the core for. *)
From S2P Require Import Prelude PyFloat BrokerUtils WireTime GatewayModels OrderBoundary CommandStore CommandHistory KiwoomOrders OrderJournal KiwoomRuntime.
From stdpp Require Import pretty.
Local Open Scope Z_scope.

(** What the core confirms it has recorded stays recorded, as long as its state
    is one it can reach. *)
Class DurableCore (X : Type) {core : CoreClient X} := {
  core_ok : X -> Prop;
  durable : string -> X -> Prop;
  core_ok_kept e x x' r : post_event e x = (x', r) -> core_ok x -> core_ok x';
  durable_kept e x x' r cid :
    post_event e x = (x', r) -> core_ok x -> durable cid x -> durable cid x';
  durable_confirmed e x x' fields cid :
    post_event e x = (x', Ok (JObj fields)) -> core_ok x -> ge_event_type e = "order_pre_ack" ->
    ge_command_id e = Some cid -> is_True (jget "accepted" fields) = true ->
    is_True (jget "durable_pre_ack_recorded" fields) = true -> durable cid x'
}.

Create HintDb budget.

Definition count_if {A} (p : A -> bool) (l : list A) : nat := length (List.filter p l).

Lemma count_if_app {A} (p : A -> bool) l l' : count_if p (l ++ l') = (count_if p l + count_if p l')%nat.
Proof. unfold count_if. by rewrite List.filter_app, length_app. Qed.

Lemma count_if_cons {A} (p : A -> bool) a l :
  count_if p (a :: l) = ((if p a then 1 else 0) + count_if p l)%nat.
Proof. unfold count_if. cbn. by destruct (p a). Qed.

(** A report, still [live], that puts the command [cid] back in the queue. *)
Definition limits (live : GatewayEvent -> bool) (cid : string) (e : GatewayEvent) : bool :=
  is_rate_limited (ge_event_type e) && String.eqb (text_of (ge_command_id e)) cid && live e.
Definition calls_for (cid : string) (r : KiwoomOrderRequest) : bool :=
  String.eqb (kr_command_id r) cid.

Definition cost (live : GatewayEvent -> bool) (cid : string) (es : list GatewayEvent) : nat :=
  count_if (limits live cid) es.
(** What the process has spent on [cid]. *)
Definition spent (live : GatewayEvent -> bool) (cid : string) (g : gateway) : nat :=
  (count_if (calls_for cid) (g_calls g) + cost live cid (g_emitted g))%nat.

Section Budget.
Context {X : Type} (live : GatewayEvent -> bool) (cid : string) (bound : nat) (good_call : KiwoomOrderRequest -> X -> Prop).
Abbreviation M := (SE (X * gateway)).

(** [n] credits are left; [J] holds of the core. *)
Definition within (J : X -> Prop) (n : nat) (w : X * gateway) : Prop :=
  J w.1 /\ (spent live cid w.2 + n <= bound)%nat /\ forall r, r ∈ g_calls w.2 -> good_call r w.1.

(** With [n] credits, [m] leaves those its value needs; with an exception, none
    are counted on. *)
Definition keeps {A} (J : X -> Prop) (n : nat) (m : M A) (f : A -> nat) : Prop :=
  triple (within J n) m (fun a => within J (f a)) (within J 0).

(** [m] spends nothing. *)
Definition quiet {A} (m : M A) : Prop := forall J n, keeps J n m (fun _ => n).

(** Whatever [m] returns satisfies [phi]. *)
Definition yields {A} (m : M A) (phi : A -> Prop) : Prop :=
  forall w w' a, m w = (w', Ok a) -> phi a.

Lemma within_le J n n' w : within J n w -> (n' <= n)%nat -> within J n' w.
Proof. unfold within. intros (? & ? & ?) ?. split_and!; [done|lia|done]. Qed.

Lemma keeps_ret {A} J n (a : A) f : (f a <= n)%nat -> keeps J n (ret a) f.
Proof. intros H. apply triple_ret. intros s Hs. eapply within_le; [exact Hs|exact H]. Qed.

Lemma keeps_le {A} J n (m : M A) f n' f' :
  keeps J n' m f' -> (n' <= n)%nat -> (forall a, f a <= f' a)%nat -> keeps J n m f.
Proof.
  intros Hm Hn Hf. eapply triple_weaken; [exact Hm| | |done].
  - intros s Hs. eapply within_le; [exact Hs|exact Hn].
  - intros a s Hs. eapply within_le; [exact Hs|apply Hf].
Qed.

Lemma keeps_bind {A B} J n (m : M A) (k : A -> M B) f g phi :
  keeps J n m f -> yields m phi -> (forall a, phi a -> keeps J (f a) (k a) g) ->
  keeps J n (bind m k) g.
Proof.
  intros Hm Hy Hk. eapply (triple_bind _ _ _ (fun a w => phi a /\ within J (f a) w)).
  - intros s s' r Hs H. specialize (Hm s s' r Hs H). destruct r; [|done]. split; [by eapply Hy|done].
  - intros a. apply triple_and. exact (Hk a).
Qed.

Lemma yields_any {A} (m : M A) : yields m (fun _ => True).
Proof. by intros w w' a _. Qed.

Lemma keeps_catch {A} J n (m : M A) h f :
  keeps J n m f -> (forall e, keeps J 0 (h e) f) -> keeps J n (catch m h) f.
Proof. intros Hm Hh. by eapply triple_catch. Qed.

Lemma keeps_quiet {A} J n (m : M A) f : quiet m -> (forall a, f a <= n)%nat -> keeps J n m f.
Proof. intros Hm Hf. by eapply keeps_le; [apply (Hm J n)|..]. Qed.

Lemma quiet_ret {A} (a : A) : quiet (ret a).
Proof. intros J n. by apply keeps_ret. Qed.

Lemma quiet_bind {A B} (m : M A) (k : A -> M B) :
  quiet m -> (forall a, quiet (k a)) -> quiet (bind m k).
Proof. intros Hm Hk J n. eapply keeps_bind; [apply Hm|apply yields_any|]. intros a _. apply Hk. Qed.

Lemma quiet_res {A} (x : res A) : quiet (of_res x).
Proof. intros J n. apply triple_of_res; [done|]. intros s Hs. eapply within_le; [done|lia]. Qed.

Lemma quiet_raise {A} e : quiet (raise e : M A).
Proof. apply (quiet_res (Err e)). Qed.

Lemma quiet_gate : quiet gate.
Proof. intros J n w w' r Hw [= <- <-]. exact Hw. Qed.

Lemma quiet_modify f :
  (forall g, g_calls (f g) = g_calls g /\ g_emitted (f g) = g_emitted g) -> quiet (modify_gate f).
Proof.
  intros Hf J n [x g] w' r Hw [= <- <-]. destruct (Hf g) as [Hc He].
  unfold within, spent in *. cbn [fst snd] in *. by rewrite Hc, He.
Qed.

Lemma quiet_catch {A} (m : M A) h : quiet m -> (forall e, quiet (h e)) -> forall J, keeps J 0 (catch m h) (fun _ => 0%nat).
Proof. intros Hm Hh J. apply keeps_catch; [apply Hm|]. intros e. apply Hh. Qed.

Lemma yields_bind {A B} (m : M A) (k : A -> M B) phi :
  (forall a, yields (k a) phi) -> yields (bind m k) phi.
Proof. intros Hk w w' b H. apply bind_ok in H as (s1 & a & _ & H). by eapply Hk. Qed.

Lemma yields_ret {A} (a : A) (phi : A -> Prop) : phi a -> yields (ret a) phi.
Proof. by intros H w w' b [= _ <-]. Qed.
End Budget.

#[export] Hint Resolve quiet_ret quiet_res quiet_raise quiet_gate : budget.
#[export] Hint Extern 2 (quiet _ _ _ _ (bind _ _)) => apply quiet_bind; [|intros ?] : budget.
#[export] Hint Extern 2 (quiet _ _ _ _ (modify_gate _)) => apply quiet_modify; by intros ? : budget.

(** ** The steps of the handlers *)

Section Steps.
Context (py_repr : json -> string).
Context {X : Type} {outside : Outside} {core : CoreClient X} (cfg : gateway_config).
Context (live : GatewayEvent -> bool) (cid : string) (bound : nat) (good_call : KiwoomOrderRequest -> X -> Prop).
Abbreviation M := (SE (X * gateway)).
Abbreviation quiet := (quiet live cid bound good_call).
Abbreviation keeps := (keeps live cid bound good_call).
Abbreviation within := (within live cid bound good_call).

Lemma quiet_reading : quiet reading.
Proof. unfold reading. auto 6 with budget. Qed.

Lemma quiet_new_event etype c key p : quiet (new_event cfg etype c key p).
Proof. unfold new_event. apply quiet_bind; [apply quiet_reading|]. auto with budget. Qed.

Lemma quiet_append c st p : quiet (_append c st p).
Proof.
  unfold _append. apply quiet_bind; [apply quiet_reading|]. intros n.
  apply quiet_bind; [auto with budget|]. intros g. apply quiet_bind; [auto with budget|].
  intros _. case_match; auto with budget.
Qed.

Lemma quiet_when b m : quiet m -> quiet (when b m).
Proof. intros H. unfold when. destruct b; auto with budget. Qed.

(** What an event made about the command [c] says. *)
Definition about (etype : string) (c : GatewayCommand) (e : GatewayEvent) : Prop :=
  ge_event_type e = etype /\ ge_command_id e = Some (py_strip (command_id c)).

Lemma post_init_type e e' :
  GatewayEvent_post_init e = Ok e' ->
  ge_event_type e' = py_strip (ge_event_type e) /\
  ge_command_id e' = py_strip <$> ge_command_id e.
Proof.
  unfold GatewayEvent_post_init. intros H. res_inv H. injection H as <-. cbn.
  apply require_non_empty_ok in Ha0 as [-> _]. split; [done|].
  destruct (ge_command_id e) as [k|]; cbn in Ha2; [|by injection Ha2 as <-].
  apply res_bind_ok in Ha2 as (k' & Hk & Ha2). injection Ha2 as <-.
  by apply require_non_empty_ok in Hk as [-> _].
Qed.

Lemma yields_command_event etype c p :
  py_strip etype = etype -> yields (X := X) (event_about cfg etype c p) (about etype c).
Proof.
  intros He. apply yields_bind. intros n w w' e H. apply of_res_ok in H as [H _].
  apply post_init_type in H as [Ht Hc]. split; [by rewrite Ht|by rewrite Hc].
Qed.

Lemma about_free etype c e : about etype c e -> is_rate_limited etype = false -> cost live cid [e] = 0%nat.
Proof. intros [Ht _] Hr. unfold cost. rewrite count_if_cons. unfold limits. by rewrite Ht, Hr. Qed.

(** The credit of the command [c]. *)
Definition share (c : GatewayCommand) : nat := if String.eqb (py_strip (command_id c)) cid then 1%nat else 0%nat.

Lemma about_share etype c e : about etype c e -> (cost live cid [e] <= share c)%nat.
Proof.
  intros [_ Hc]. unfold cost, share. rewrite count_if_cons. unfold limits. rewrite Hc. cbn.
  destruct (is_rate_limited _), (String.eqb _ _), (live e); cbn; lia.
Qed.

(** An event that costs nothing is returned, or queued, for nothing. *)
Lemma keeps_event etype c p J n :
  py_strip etype = etype -> is_rate_limited etype = false ->
  keeps J n (let! e := event_about cfg etype c p in ret [e]) (cost live cid).
Proof.
  intros He Hr. eapply keeps_bind; [apply quiet_new_event|by apply yields_command_event|].
  intros e Ha. apply keeps_ret. rewrite (about_free _ _ _ Ha Hr). lia.
Qed.

Lemma keeps_emit J n e : (cost live cid [e] <= n)%nat -> keeps J n (emit_event e) (fun _ => n - cost live cid [e])%nat.
Proof.
  intros He [x g] w' r (Hj & Hs & Hg) [= <- <-]. split_and!; [done| |done].
  unfold spent in *. cbn [snd g_calls g_emitted add_emitted] in *.
  unfold cost in *. rewrite count_if_app. lia.
Qed.

Lemma keeps_emit_all J es : forall n, (cost live cid es <= n)%nat -> keeps J n (emit_all es) (fun _ => 0%nat).
Proof.
  induction es as [|e es IH]; intros n Hn; cbn [emit_all]; [apply keeps_ret; lia|].
  assert (Hc : cost live cid (e :: es) = (cost live cid [e] + cost live cid es)%nat).
  { change (e :: es) with ([e] ++ es). apply count_if_app. }
  eapply keeps_bind; [apply keeps_emit; lia|apply yields_any|].
  intros u _. apply IH. lia.
Qed.

Lemma quiet_emit_started c : quiet (emit_started cfg c).
Proof.
  intros J n. unfold emit_started. eapply keeps_bind;
    [apply quiet_new_event|by apply yields_command_event|].
  intros e Ha. pose proof (about_free _ _ _ Ha eq_refl) as H0.
  eapply keeps_le; [apply (keeps_emit _ n); lia|done|]. intros u. cbn beta. lia.
Qed.

Lemma keeps_failed J n c msg : keeps J n (failed_with cfg c msg) (cost live cid).
Proof. by apply keeps_event. Qed.

Lemma quiet_check_rate ctype : quiet (check_rate cfg ctype).
Proof.
  unfold check_rate. apply quiet_bind; [apply quiet_reading|]. intros n.
  apply quiet_bind; [auto with budget|]. intros g. case_match. auto with budget.
Qed.

Lemma quiet_record_rate ctype : quiet (_record_rate_limit cfg ctype).
Proof. unfold _record_rate_limit. apply quiet_bind; [apply quiet_reading|]. auto with budget. Qed.

Lemma quiet_broker_env : quiet (_actual_broker_env py_repr).
Proof. unfold _actual_broker_env. apply quiet_bind; [apply quiet_reading|]. auto with budget. Qed.

Lemma quiet_order_ack c r result : quiet (on_order_ack py_repr c r result).
Proof. unfold on_order_ack. auto 6 with budget. Qed.

Lemma yields_broker_env :
  yields (X := X) (_actual_broker_env py_repr)
    (fun env => env = "UNKNOWN" \/ exists n text, GetServerGubun n = Ok text /\
       env = broker_env_from_server_gubun py_repr (JStr (py_strip text))).
Proof.
  apply yields_bind. intros n. apply yields_ret. destruct (GetServerGubun n) as [text|] eqn:Hs; eauto.
Qed.

Lemma yields_check_rate ctype :
  yields (X := X) (check_rate cfg ctype)
    (fun d => exists now g, d = (check (cfg_limits cfg) ctype now g).2).
Proof.
  apply yields_bind. intros n. apply yields_bind. intros g.
  destruct (check _ _ _ _) as [g' d] eqn:Hc. apply yields_bind. intros _. apply yields_ret.
  eexists _, _. by rewrite Hc.
Qed.

(** The call: it costs the credit of its command. *)
Lemma keeps_send_order J c r :
  kr_command_id r = py_strip (command_id c) ->
  (forall x, J x -> good_call r x) ->
  keeps J (share c) (send_order py_repr r) (fun _ => 0%nat).
Proof.
  intros Hr Hgood. unfold send_order.
  eapply keeps_bind; [apply quiet_res|apply yields_any|]. intros code _.
  eapply keeps_bind; [apply quiet_reading|apply yields_any|]. intros n _.
  eapply (keeps_bind _ _ _ _ _ _ _ _ (fun _ => 0%nat)); [|apply yields_any|].
  - intros [x g] w' u (Hj & Hs & Hg) [= <- <-]. split_and!; [done| |].
    + unfold spent in *. cbn [snd g_calls g_emitted add_call] in *. rewrite count_if_app.
      unfold share in Hs. unfold count_if at 2. cbn. unfold calls_for at 2. rewrite Hr.
      destruct (String.eqb _ _); cbn; lia.
    + intros r' [H|H%list_elem_of_singleton]%elem_of_app; [by apply Hg|subst; by apply Hgood].
  - intros ? _. apply keeps_quiet; [auto with budget|done].
Qed.

Definition outcome_cost (o : KiwoomOrderResult + GatewayEvent) : nat :=
  match o with inl _ => 0%nat | inr e => cost live cid [e] end.

Lemma keeps_call_broker J ctype c r :
  kr_command_id r = py_strip (command_id c) ->
  (forall x, J x -> good_call r x) ->
  keeps J (share c) (call_broker py_repr cfg ctype c r) outcome_cost.
Proof.
  intros Hr Hgood. unfold call_broker. apply keeps_catch.
  - eapply keeps_bind; [by apply keeps_send_order|apply yields_any|]. intros result _.
    eapply keeps_bind; [apply quiet_record_rate|apply yields_any|]. intros ? _.
    eapply keeps_bind; [apply quiet_when, quiet_append|apply yields_any|]. intros ? _.
    by apply keeps_ret.
  - intros e. eapply keeps_bind; [apply quiet_when, quiet_append|apply yields_any|]. intros ? _.
    eapply keeps_bind; [apply quiet_new_event|by apply yields_command_event|].
    intros e' Ha. apply keeps_ret. unfold outcome_cost. by rewrite (about_free _ _ _ Ha eq_refl).
Qed.
End Steps.

(** ** The handlers *)

Section Handlers.
Context (py_repr : json -> string).
Context {X : Type} {outside : Outside} {core : CoreClient X} {dc : DurableCore X}.
Context (cfg : gateway_config).
Context (_handle_non_order : string -> GatewayCommand -> SE (X * gateway) (list GatewayEvent)).

(** The request an order command asks for. *)
Definition request_of (c : GatewayCommand) : res KiwoomOrderRequest :=
  if String.eqb (_normalize_command_type (command_type c)) "send_order"
  then send_request py_repr c else cancel_request py_repr c.

(** All that stands between a command and the broker. *)
Record call_guard (c : GatewayCommand) (r : KiwoomOrderRequest) : Prop := {
  guard_live : exists n, _command_expired c (utc_now n) = false;
  guard_valid :
    validate_command_type_allowed py_repr (_normalize_command_type (command_type c)) (Some c) = None;
  guard_server : exists n text, GetServerGubun n = Ok text /\
    broker_env_from_server_gubun py_repr (JStr (py_strip text)) = "SIMULATION";
  guard_rate : exists now g,
    rl_allowed (check (cfg_limits cfg) (_normalize_command_type (command_type c)) now g).2 = true;
  guard_request : request_of c = Ok r
}.

Context (live : GatewayEvent -> bool) (cid : string) (bound : nat) (good_call : KiwoomOrderRequest -> X -> Prop) (J : X -> Prop).
Abbreviation keeps := (keeps live cid bound good_call).
Abbreviation within := (within live cid bound good_call).

Hypothesis J_core : forall x, J x -> core_ok x.
Hypothesis J_kept : forall e x x' r,
  is_rate_limited (ge_event_type e) = false -> post_event e x = (x', r) -> J x -> J x'.
Hypothesis calls_kept : forall e x x' r q,
  post_event e x = (x', r) -> core_ok x -> good_call q x -> good_call q x'.

Definition confirmed (c : GatewayCommand) (x : X) : Prop := J x /\ durable (py_strip (command_id c)) x.

Lemma quiet_pre_ack_event c r env : quiet live cid bound good_call (pre_ack_event (X := X) cfg c r env).
Proof.
  unfold pre_ack_event. destruct (has_journal cfg); [|apply quiet_new_event].
  apply quiet_bind; [apply quiet_new_event|]. intros e.
  apply quiet_bind; [apply quiet_append|auto with budget].
Qed.

Lemma yields_pre_ack_event c r env :
  yields (pre_ack_event (X := X) cfg c r env) (about "order_pre_ack" c).
Proof.
  unfold pre_ack_event. destruct (has_journal cfg); [|by apply yields_command_event].
  intros w w' e H. apply bind_ok in H as (s1 & e1 & H1 & H).
  apply bind_ok in H as (s2 & u & _ & [= _ <-]). by eapply yields_command_event.
Qed.

Lemma keeps_durable_pre_ack n c r env :
  triple (within J n) (_record_durable_pre_ack cfg c r env)
    (fun o => match o with None => within (confirmed c) n | Some _ => within J 0 end) (within J 0).
Proof.
  unfold _record_durable_pre_ack.
  eapply (triple_bind _ _ _ (fun e w => about "order_pre_ack" c e /\ within J n w)).
  { intros s s' o Hs H. pose proof (quiet_pre_ack_event c r env J n s s' o Hs H).
    destruct o; [|done]. split; [by eapply yields_pre_ack_event|done]. }
  intros e. apply triple_and. intros [Ht Hc].
  eapply triple_catch with (E' := within J 0).
    + eapply (triple_bind _ _ _ (fun v w => within J n w /\
          (pre_ack_error v = None -> durable (py_strip (command_id c)) w.1))).
      * unfold _persist_order_pre_ack. destruct (cfg_posting_enabled cfg); cbn [negb];
          [|by apply triple_ret].
        intros [x g] w' o (Hj & Hsp & Hg). unfold post_to_core, bind. cbn [fst snd].
        destruct (post_event e x) as [x' a] eqn:Hp.
        assert (Hw : within J n (x', g)).
        { split_and!; [eapply J_kept; [by rewrite Ht|done..]|done|].
          intros q Hq. eapply calls_kept; [done|by apply J_core|by apply Hg]. }
        destruct a as [v|ex]; intros [= <- <-].
        -- split; [done|]. intros He. destruct v; try discriminate. cbn in He.
           destruct (is_True (jget "accepted" fields)) eqn:H1; [|discriminate].
           destruct (is_True (jget "durable_pre_ack_recorded" fields)) eqn:H2; [|discriminate].
           eapply durable_confirmed; eauto.
        -- eapply within_le; [done|lia].
      * intros v. apply triple_ret. intros w [Hw Hd]. destruct (pre_ack_error v).
        -- eapply within_le; [done|lia].
        -- destruct Hw as (Hj & Hsp & Hg). split_and!; [split; [done|by apply Hd]|done|done].
    + intros ex. by apply triple_ret.
Qed.

Lemma keeps_settled {A} c n (m : SE (X * gateway) A) f :
  keeps (confirmed c) n m f ->
  triple (within (confirmed c) n) m (fun a => within J (f a)) (within J 0).
Proof.
  intros H. eapply triple_weaken; [exact H|done| |]; cbn beta.
  - intros a s ([Hj _] & ? & ?). by split_and!.
  - intros s ([Hj _] & ? & ?). by split_and!.
Qed.

(** A report that puts no command back in the queue. *)
Definition harmless (e : GatewayEvent) : Prop := is_rate_limited (ge_event_type e) = false.

Lemma harmless_cost e : harmless e -> cost live cid [e] = 0%nat.
Proof. unfold harmless, cost. intros H. rewrite count_if_cons. unfold limits. by rewrite H. Qed.

Lemma keeps_run_order ctype request answer c :
  (forall r, request c = Ok r -> kr_command_id r = py_strip (command_id c)) ->
  (forall r result env, quiet live cid bound good_call (answer r result env)) ->
  (forall r result env, yields (answer r result env) harmless) ->
  (forall r x,
     validate_command_type_allowed py_repr ctype (Some c) = None ->
     (exists n text, GetServerGubun n = Ok text /\
        broker_env_from_server_gubun py_repr (JStr (py_strip text)) = "SIMULATION") ->
     (exists now g, rl_allowed (check (cfg_limits cfg) ctype now g).2 = true) ->
     request c = Ok r -> confirmed c x -> good_call r x) ->
  keeps J (share cid c) (run_order py_repr cfg ctype request answer c) (cost live cid).
Proof.
  intros Hreq Hans Hharm Hgood. unfold run_order.
  destruct (validate_command_type_allowed _ _ _) eqn:Hv; [apply keeps_failed|].
  eapply keeps_bind; [apply quiet_broker_env|apply yields_broker_env|]. intros env Henv.
  destruct (String.eqb env "SIMULATION") eqn:Hsim; cbn [negb]; [|apply keeps_failed].
  apply String.eqb_eq in Hsim as ->.
  destruct Henv as [?|(n & text & Htext & Henv)]; [discriminate|].
  eapply keeps_bind; [apply quiet_check_rate|apply yields_check_rate|].
  intros d (now & g & ->). destruct (rl_allowed _) eqn:Hd; cbn [negb].
  2: { eapply keeps_bind; [apply quiet_emit_started|apply yields_any|]. intros ? _.
       eapply keeps_bind; [apply quiet_new_event|by apply yields_command_event|].
       intros e Ha. apply keeps_ret. by eapply about_share. }
  eapply (keeps_bind _ _ _ _ _ _ _ _ _ _ (fun r => request c = Ok r));
    [apply quiet_res|by intros w w' r [H _]%of_res_ok|]. intros r Hr.
  eapply keeps_bind; [apply quiet_emit_started|apply yields_any|]. intros ? _.
  eapply triple_bind; [apply keeps_durable_pre_ack|]. intros [error|].
  - eapply keeps_bind; [apply quiet_when, quiet_append|apply yields_any|]. intros ? _.
    apply keeps_failed.
  - apply keeps_settled. eapply keeps_bind.
    + apply keeps_call_broker; [by apply Hreq|]. intros x Hx. eapply Hgood; eauto.
    + apply yields_any.
    + intros [result|unconfirmed] _; cbn [outcome_cost].
      * eapply keeps_bind; [apply Hans|apply Hharm|]. intros e He. apply keeps_ret.
        by rewrite harmless_cost.
      * by apply keeps_ret.
Qed.

Lemma request_id c r :
  request_of c = Ok r -> kr_command_id r = command_id c.
Proof.
  unfold request_of, send_request, cancel_request. intros H.
  case_match; cbv zeta in H; res_inv H; by injection H as <-.
Qed.

Lemma answers_harmless c (cancel : bool) r result env :
  quiet live cid bound good_call
    (if cancel then cancel_answer cfg c r result env else send_answer py_repr cfg c r result env) /\
  yields (X := X)
    (if cancel then cancel_answer cfg c r result env else send_answer py_repr cfg c r result env)
    harmless.
Proof.
  assert (Hy : forall etype p, py_strip etype = etype -> is_rate_limited etype = false ->
    yields (X := X) (event_about cfg etype c p) harmless).
  { intros etype p He Hr w w' e H. apply yields_command_event in H as [Ht _]; [|done].
    unfold harmless. by rewrite Ht. }
  unfold cancel_answer, send_answer. destruct cancel, (ko_ok result); split;
    try apply quiet_new_event; try by apply Hy.
  - apply quiet_bind; [apply quiet_order_ack|]. intros ?. apply quiet_new_event.
  - apply yields_bind. intros ?. by apply Hy.
Qed.

Definition order_of (c : GatewayCommand) : Prop :=
  is_order_command_type (command_type c) = true /\ py_strip (command_id c) = command_id c.

Lemma order_type c :
  is_order_command_type (command_type c) = true ->
  _normalize_command_type (command_type c) = "send_order" \/
  _normalize_command_type (command_type c) = "cancel_order".
Proof.
  unfold is_order_command_type, _normalize_command_type. rewrite mem_spec.
  unfold ORDER_COMMAND_TYPES. rewrite !elem_of_cons, elem_of_nil. tauto.
Qed.

Lemma keeps_handle c :
  order_of c ->
  (forall r x, call_guard c r -> confirmed c x -> good_call r x) ->
  keeps J (share cid c) (handle py_repr cfg _handle_non_order c) (cost live cid).
Proof.
  intros [Ho Hid] Hgood. unfold handle. cbv zeta. rewrite Ho.
  case_match; [apply keeps_failed|]. case_match; [apply keeps_failed|].
  eapply (keeps_bind _ _ _ _ _ _ _ _ _ _ (fun b => exists n, b = _command_expired c (utc_now n)));
    [apply quiet_bind; [apply quiet_reading|auto with budget]
    |apply yields_bind; intros n; apply yields_ret; eauto|].
  intros expired [n Hexp]. destruct expired; [apply keeps_failed|].
  assert (Hrun : forall answer request,
    request c = request_of c ->
    (forall r result env, quiet live cid bound good_call (answer r result env) /\
                          yields (answer r result env) harmless) ->
    keeps J (share cid c)
      (run_order py_repr cfg (_normalize_command_type (command_type c)) request answer c) (cost live cid)).
  { intros answer request Hrq Ha. apply keeps_run_order; [|apply Ha..|].
    - intros r Hr. rewrite Hrq in Hr. by rewrite (request_id _ _ Hr).
    - intros r x Hv Hs Hd Hr. apply Hgood. rewrite Hrq in Hr. constructor; eauto. }
  destruct (order_type c Ho) as [Ht|Ht]; unfold _normalize_command_type in Ht; rewrite Ht;
    cbn [String.eqb Ascii.eqb Bool.eqb].
  - unfold _handle_send_order. rewrite <- Ht. apply Hrun.
    + unfold request_of, _normalize_command_type. by rewrite Ht.
    + intros r result env. apply (answers_harmless c false).
  - unfold _handle_cancel_order. rewrite <- Ht. apply Hrun.
    + unfold request_of, _normalize_command_type. by rewrite Ht.
    + intros r result env. apply (answers_harmless c true).
Qed.

(** An order command costs its credit at most. *)
Lemma keeps_handle_one c :
  order_of c ->
  (forall r x, call_guard c r -> confirmed c x -> good_call r x) ->
  keeps J (share cid c) (handle_one py_repr cfg _handle_non_order c) (fun _ => 0%nat).
Proof.
  intros Ho Hgood. unfold handle_one.
  eapply keeps_bind; [by apply quiet_modify|apply yields_any|]. intros ? _. apply keeps_catch.
  - eapply keeps_bind; [by apply keeps_handle|apply yields_any|]. intros es _.
    eapply (keeps_bind _ _ _ _ _ _ _ _ (fun _ => cost live cid es)); [|apply yields_any|].
    + unfold _clear_claimed_command_if_started_or_terminal. case_match.
      * apply (quiet_modify live cid bound good_call); by intros.
      * by apply keeps_ret.
    + intros ? _. by apply keeps_emit_all.
  - intros e. eapply keeps_bind; [by apply quiet_modify|apply yields_any|]. intros ? _.
    eapply keeps_bind; [apply quiet_new_event|by apply yields_command_event|]. intros f Hf.
    pose proof (about_free live cid _ _ _ Hf eq_refl) as H0.
    eapply keeps_bind; [apply keeps_emit; lia|apply yields_any|]. intros ? _.
    eapply (keeps_bind _ _ _ _ _ _ _ _ _ _ harmless); [apply quiet_new_event| |].
    + intros w w' e' H. apply bind_ok in H as (s1 & n & _ & H). apply of_res_ok in H as [H _].
      apply post_init_type in H as [Ht _]. unfold harmless. by rewrite Ht.
    + intros e' He'. pose proof (harmless_cost _ He') as H1.
      eapply keeps_le; [apply (keeps_emit _ _ _ _ _ _ _); lia|done|]. intros u. cbn beta. lia.
Qed.
End Handlers.


(** ** A sample run *)

(** A core that confirms every pre-ack. *)
Definition agreeing_core : CoreClient unit :=
  fun _ x => (x, Ok (JObj [("accepted", JBool true); ("durable_pre_ack_recorded", JBool true)])).

Definition agreeing_durable : @DurableCore unit agreeing_core :=
  {| core_ok := fun _ => True; durable := fun _ _ => True; core_ok_kept _ _ _ _ _ H := H;
     durable_kept _ _ _ _ _ _ _ H := H; durable_confirmed _ _ _ _ _ _ _ _ _ _ _ := I |}.

(** A simulation server whose broker accepts, and a disk that works. *)
Definition sample_outside : Outside :=
  {| new_message_id n := "evt-" +:+ pretty (Z.of_nat n); utc_now n := seconds (1002 + Z.of_nat n);
     monotonic n := f_of_Z (Z.of_nat n); append_result _ := Written;
     GetServerGubun _ := Ok "1"; SendOrder _ _ := Ok 0 |}.

Definition sample_config : gateway_config :=
  {| cfg_source := "kiwoom_gateway"; cfg_journal_path := Some "pre_ack.jsonl";
     cfg_posting_enabled := true; cfg_limits := default_limits |}.

Definition sample_non_order (_ : string) (_ : GatewayCommand) : SE (unit * gateway) (list GatewayEvent) :=
  ret [].

Definition sample_command : GatewayCommand := buy "cmd-1" "key-1" 1000.

Definition sample_handled : (unit * gateway) * res unit :=
  @handle_one sample_repr unit sample_outside agreeing_core sample_config sample_non_order
    sample_command (tt, new_gateway).

Lemma sample_order : order_of sample_command.
Proof. split; vm_compute; reflexivity. Qed.


(** The disk fills up after the pre-ack: the broker accepted the order, and the
    gateway reports that the command failed. *)
Definition full_disk : Outside :=
  {| new_message_id n := "evt-" +:+ pretty (Z.of_nat n); utc_now n := seconds (1002 + Z.of_nat n);
     monotonic n := f_of_Z (Z.of_nat n);
     append_result n := if (n <? 7)%nat then Written else NotWritten;
     GetServerGubun _ := Ok "1"; SendOrder _ _ := Ok 0 |}.

Definition full_disk_handled : gateway :=
  (@handle_one sample_repr unit full_disk agreeing_core sample_config sample_non_order
     sample_command (tt, new_gateway)).1.2.

Lemma full_disk_reports_failure :
  length (g_calls full_disk_handled) = 1%nat /\
  map ge_event_type (g_emitted full_disk_handled) =
    ["command_started"; "command_failed"; "gateway_error"].
Proof. split; vm_compute; reflexivity. Qed.
