(* ===== verification/BrokerMessages.v ===== *)
(** * Broker messages ([domain/broker/market.py], [market_index.py],
    [conditions.py], [tr.py], [orders.py], [commands.py], [events.py])

    What the gateway and the core send each other: each message is built from a
    mapping by [from_dict], which checks every field, and written as a mapping by
    [to_dict].  A [from_dict] is the class method together with the
    [__post_init__] it calls, the conversions in the order they run; [now] is the
    clock it reads where a message carries no timestamp, and [new_id] the id it
    makes where one has none.  A payload is already a JSON value, which
    [normalize_payload] leaves as it is. *)
From S2P Require Import Prelude PyFloat BrokerUtils WireTime GatewayModels LiveSimModels.
Local Open Scope Z_scope.

(** ** Fields *)

Definition positive_int (v : json) (field_name : string) : res Z :=
  parse_int v field_name (Some 1).
Definition any_float (v : json) (field_name : string) : res float := parse_float v field_name None.

(** [mapping[key]] once the key is known to be there, [mapping.get(key)]. *)
Definition field (m : payload) (key : string) : json := get_or m key JNull.

(** [normalize_payload(mapping.get(key, {}))]. *)
Definition object_field (m : payload) (key : string) : res payload :=
  match get_or m key (JObj []) with
  | JObj fields => Ok fields
  | _ => Err (ValueError "payload must normalize to a JSON object")
  end.

(** [parse_timestamp(mapping["ts"], "ts") if "ts" in mapping else utc_now()]. *)
Definition ts_field (m : payload) (now : Z) : res Z :=
  match jget "ts" m with Some v => parse_timestamp v "ts" | None => Ok now end.

Definition optional_entry (key : string) (v : option json) : payload :=
  match v with Some j => [(key, j)] | None => [] end.

(** ** Price ticks *)

Record BrokerPriceTick := {
  bt_code : string;
  bt_name : string;
  bt_price : Z;
  bt_change_rate : float;
  bt_volume : Z;
  bt_trade_value : Z;
  bt_execution_strength : float;
  bt_best_bid : Z;
  bt_best_ask : Z;
  bt_spread_ticks : Z;
  bt_day_high : Z;
  bt_day_low : Z;
  bt_trade_time : Z;
  bt_ts : Z
}.

(** The checks across fields that end [__post_init__]. *)
Definition tick_consistent (t : BrokerPriceTick) : res BrokerPriceTick :=
  if negb (bt_best_bid t =? 0) && negb (bt_best_ask t =? 0) && (bt_best_ask t <? bt_best_bid t)
  then Err (ValueError "best_ask must be >= best_bid when both are present")
  else if bt_day_high t <? bt_day_low t then Err (ValueError "day_high must be >= day_low")
  else Ok t.

Definition BrokerPriceTick_from_dict (now : Z) (data : json) : res BrokerPriceTick :=
  let* m := require_mapping data "BrokerPriceTick" in
  let* _ := require_fields m
    ["code"; "name"; "price"; "change_rate"; "volume"; "trade_value"; "execution_strength";
     "best_bid"; "best_ask"; "spread_ticks"; "day_high"; "day_low"; "trade_time"]
    "BrokerPriceTick" in
  let* trade_time := parse_timestamp (field m "trade_time") "trade_time" in
  let* ts := ts_field m now in
  let* code := validate_stock_code (field m "code") "code" in
  let* name := require_non_empty_str (field m "name") "name" in
  let* price := positive_int (field m "price") "price" in
  let* change_rate := any_float (field m "change_rate") "change_rate" in
  let* volume := non_negative_int (field m "volume") "volume" in
  let* trade_value := non_negative_int (field m "trade_value") "trade_value" in
  let* strength := non_negative_float (field m "execution_strength") "execution_strength" in
  let* best_bid := non_negative_int (field m "best_bid") "best_bid" in
  let* best_ask := non_negative_int (field m "best_ask") "best_ask" in
  let* spread := non_negative_int (field m "spread_ticks") "spread_ticks" in
  let* day_high := positive_int (field m "day_high") "day_high" in
  let* day_low := positive_int (field m "day_low") "day_low" in
  tick_consistent
    {| bt_code := code; bt_name := name; bt_price := price; bt_change_rate := change_rate;
       bt_volume := volume; bt_trade_value := trade_value; bt_execution_strength := strength;
       bt_best_bid := best_bid; bt_best_ask := best_ask; bt_spread_ticks := spread;
       bt_day_high := day_high; bt_day_low := day_low; bt_trade_time := trade_time;
       bt_ts := ts |}.

Definition BrokerPriceTick_to_dict (t : BrokerPriceTick) : payload :=
  [("code", JStr (bt_code t)); ("name", JStr (bt_name t)); ("price", JInt (bt_price t));
   ("change_rate", JFloat (bt_change_rate t)); ("volume", JInt (bt_volume t));
   ("trade_value", JInt (bt_trade_value t));
   ("execution_strength", JFloat (bt_execution_strength t));
   ("best_bid", JInt (bt_best_bid t)); ("best_ask", JInt (bt_best_ask t));
   ("spread_ticks", JInt (bt_spread_ticks t)); ("day_high", JInt (bt_day_high t));
   ("day_low", JInt (bt_day_low t)); ("trade_time", JStr (datetime_to_wire (bt_trade_time t)));
   ("ts", JStr (datetime_to_wire (bt_ts t)))].

(** ** Index ticks *)

Definition DEFAULT_ALLOWED_INDEX_CODES : list string := ["KOSPI"; "KOSDAQ"; "KOSPI200"].

Record BrokerMarketIndexTick := {
  bi_index_code : string;
  bi_index_name : string;
  bi_price : float;
  bi_change_rate : float;
  bi_change_value : float;
  bi_trade_time : Z;
  bi_ts : Z;
  bi_metadata : payload
}.

Definition BrokerMarketIndexTick_from_dict (now : Z) (data : json) : res BrokerMarketIndexTick :=
  let* m := require_mapping data "BrokerMarketIndexTick" in
  let* _ := require_fields m
    ["index_code"; "index_name"; "price"; "change_rate"; "change_value"; "trade_time"]
    "BrokerMarketIndexTick" in
  let* trade_time := parse_timestamp (field m "trade_time") "trade_time" in
  let* ts := ts_field m now in
  let* index_text := require_non_empty_str (field m "index_code") "index_code" in
  let code := py_upper index_text in
  if negb (mem code DEFAULT_ALLOWED_INDEX_CODES)
  then Err (ValueError "index_code must be one of: KOSDAQ, KOSPI, KOSPI200") else
  let* name := require_non_empty_str (field m "index_name") "index_name" in
  let* price := non_negative_float (field m "price") "price" in
  if f_le price f_zero then Err (ValueError "price must be > 0") else
  let* change_rate := any_float (field m "change_rate") "change_rate" in
  let* change_value := any_float (field m "change_value") "change_value" in
  let* metadata := object_field m "metadata" in
  Ok {| bi_index_code := code; bi_index_name := name; bi_price := price;
        bi_change_rate := change_rate; bi_change_value := change_value;
        bi_trade_time := trade_time; bi_ts := ts; bi_metadata := metadata |}.

Definition BrokerMarketIndexTick_to_dict (t : BrokerMarketIndexTick) : payload :=
  [("index_code", JStr (bi_index_code t)); ("index_name", JStr (bi_index_name t));
   ("price", JFloat (bi_price t)); ("change_rate", JFloat (bi_change_rate t));
   ("change_value", JFloat (bi_change_value t));
   ("trade_time", JStr (datetime_to_wire (bi_trade_time t)));
   ("ts", JStr (datetime_to_wire (bi_ts t))); ("metadata", JObj (bi_metadata t))].

(** ** Condition events *)

Module ConditionEventAction.
Inductive t := ENTER | EXIT.
Definition value (s : t) : string := match s with ENTER => "ENTER" | EXIT => "EXIT" end.
Definition all : list t := [ENTER; EXIT].
End ConditionEventAction.

Definition parse_action (v : json) : res ConditionEventAction.t :=
  parse_str_enum (members ConditionEventAction.value ConditionEventAction.all) v "action".

Record BrokerConditionEvent := {
  bc_condition_id : string;
  bc_condition_name : string;
  bc_code : string;
  bc_name : string;
  bc_action : ConditionEventAction.t;
  bc_price : option Z;
  bc_metadata : payload;
  bc_ts : Z
}.

Definition BrokerConditionEvent_from_dict (now : Z) (data : json) : res BrokerConditionEvent :=
  let* m := require_mapping data "BrokerConditionEvent" in
  let* _ := require_fields m ["condition_id"; "condition_name"; "code"; "name"; "action"]
    "BrokerConditionEvent" in
  let* action := parse_action (field m "action") in
  let* metadata := object_field m "metadata" in
  let* ts := ts_field m now in
  let* condition_id := require_non_empty_str (field m "condition_id") "condition_id" in
  let* condition_name := require_non_empty_str (field m "condition_name") "condition_name" in
  let* code := validate_stock_code (field m "code") "code" in
  let* name := require_non_empty_str (field m "name") "name" in
  let* price := unless_none (fun v => positive_int v "price") (field m "price") in
  Ok {| bc_condition_id := condition_id; bc_condition_name := condition_name; bc_code := code;
        bc_name := name; bc_action := action; bc_price := price; bc_metadata := metadata;
        bc_ts := ts |}.

Definition BrokerConditionEvent_to_dict (t : BrokerConditionEvent) : payload :=
  [("condition_id", JStr (bc_condition_id t)); ("condition_name", JStr (bc_condition_name t));
   ("code", JStr (bc_code t)); ("name", JStr (bc_name t));
   ("action", JStr (ConditionEventAction.value (bc_action t))); ("metadata", JObj (bc_metadata t));
   ("ts", JStr (datetime_to_wire (bc_ts t)))] ++
  optional_entry "price" (JInt <$> bc_price t).

(** ** Requests and answers of the TR interface *)

Record BrokerTrRequest := {
  tq_request_id : string;
  tq_tr_code : string;
  tq_request_name : string;
  tq_params : payload;
  tq_continuation_key : option string;
  tq_ts : Z
}.

Definition BrokerTrRequest_from_dict (new_id : string) (now : Z) (data : json)
    : res BrokerTrRequest :=
  let* m := require_mapping data "BrokerTrRequest" in
  let* _ := require_fields m ["tr_code"; "request_name"; "params"] "BrokerTrRequest" in
  let* params := object_field m "params" in
  let* ts := ts_field m now in
  let* request_id := require_non_empty_str (get_or m "request_id" (JStr new_id)) "request_id" in
  let* tr_code := require_non_empty_str (field m "tr_code") "tr_code" in
  let* request_name := require_non_empty_str (field m "request_name") "request_name" in
  let* key := optional_non_empty_str (field m "continuation_key") "continuation_key" in
  Ok {| tq_request_id := request_id; tq_tr_code := py_upper tr_code;
        tq_request_name := request_name; tq_params := params; tq_continuation_key := key;
        tq_ts := ts |}.

Definition BrokerTrRequest_to_dict (t : BrokerTrRequest) : payload :=
  [("request_id", JStr (tq_request_id t)); ("tr_code", JStr (tq_tr_code t));
   ("request_name", JStr (tq_request_name t)); ("params", JObj (tq_params t));
   ("ts", JStr (datetime_to_wire (tq_ts t)))] ++
  optional_entry "continuation_key" (JStr <$> tq_continuation_key t).

Fixpoint objects (rows : list json) : res (list payload) :=
  match rows with
  | [] => Ok []
  | JObj row :: rest => let* rs := objects rest in Ok (row :: rs)
  | _ :: _ => Err (ValueError "each row must be an object")
  end.

Definition _normalize_rows (rows : json) : res (list payload) :=
  match rows with
  | JList l => objects l
  | _ => Err (ValueError "rows must be a list of objects")
  end.

Record BrokerTrResponse := {
  tp_request_id : string;
  tp_tr_code : string;
  tp_request_name : string;
  tp_success : bool;
  tp_rows : list payload;
  tp_message : option string;
  tp_continuation_key : option string;
  tp_metadata : payload;
  tp_ts : Z
}.

Definition BrokerTrResponse_from_dict (now : Z) (data : json) : res BrokerTrResponse :=
  let* m := require_mapping data "BrokerTrResponse" in
  let* _ := require_fields m ["request_id"; "tr_code"; "request_name"; "success"; "rows"]
    "BrokerTrResponse" in
  let* rows := _normalize_rows (field m "rows") in
  let* metadata := object_field m "metadata" in
  let* ts := ts_field m now in
  let* request_id := require_non_empty_str (field m "request_id") "request_id" in
  let* tr_code := require_non_empty_str (field m "tr_code") "tr_code" in
  let* request_name := require_non_empty_str (field m "request_name") "request_name" in
  let* success := parse_bool (field m "success") "success" in
  let* message := optional_non_empty_str (field m "message") "message" in
  let* key := optional_non_empty_str (field m "continuation_key") "continuation_key" in
  Ok {| tp_request_id := request_id; tp_tr_code := py_upper tr_code;
        tp_request_name := request_name; tp_success := success; tp_rows := rows;
        tp_message := message; tp_continuation_key := key; tp_metadata := metadata;
        tp_ts := ts |}.

Definition BrokerTrResponse_to_dict (t : BrokerTrResponse) : payload :=
  [("request_id", JStr (tp_request_id t)); ("tr_code", JStr (tp_tr_code t));
   ("request_name", JStr (tp_request_name t)); ("success", JBool (tp_success t));
   ("rows", JList (map JObj (tp_rows t))); ("ts", JStr (datetime_to_wire (tp_ts t)))] ++
  optional_entry "message" (JStr <$> tp_message t) ++
  optional_entry "continuation_key" (JStr <$> tp_continuation_key t) ++
  optional_entry "metadata" (match tp_metadata t with [] => None | m => Some (JObj m) end).

(** ** Orders and executions *)

Module OrderSide.
Inductive t := BUY | SELL.
Definition value (s : t) : string := match s with BUY => "BUY" | SELL => "SELL" end.
Definition all : list t := [BUY; SELL].
End OrderSide.

Module OrderType.
Inductive t := LIMIT | MARKET.
Definition value (s : t) : string := match s with LIMIT => "LIMIT" | MARKET => "MARKET" end.
Definition all : list t := [LIMIT; MARKET].
End OrderType.

Module OrderResultStatus.
Inductive t := ACCEPTED | REJECTED.
Definition value (s : t) : string :=
  match s with ACCEPTED => "ACCEPTED" | REJECTED => "REJECTED" end.
Definition all : list t := [ACCEPTED; REJECTED].
End OrderResultStatus.

Definition broker_side (v : json) : res OrderSide.t :=
  parse_str_enum (members OrderSide.value OrderSide.all) v "side".
Definition broker_order_type (v : json) : res OrderType.t :=
  parse_str_enum (members OrderType.value OrderType.all) v "order_type".
Definition result_status (v : json) : res OrderResultStatus.t :=
  parse_str_enum (members OrderResultStatus.value OrderResultStatus.all) v "status".

Record BrokerOrderRequest := {
  bq_client_order_id : string;
  bq_code : string;
  bq_side : OrderSide.t;
  bq_quantity : Z;
  bq_price : option Z;
  bq_order_type : OrderType.t;
  bq_account_id : option string;
  bq_idempotency_key : option string;
  bq_ts : Z
}.

(** A limit order has a price, and not zero. *)
Definition limit_price_check (order_type : OrderType.t) (price : option Z) : res unit :=
  match order_type, price with
  | OrderType.LIMIT, None => Err (ValueError "price is required for LIMIT orders")
  | OrderType.LIMIT, Some 0 => Err (ValueError "price must be > 0 for LIMIT orders")
  | _, _ => Ok tt
  end.

Definition BrokerOrderRequest_from_dict (new_id : string) (now : Z) (data : json)
    : res BrokerOrderRequest :=
  let* m := require_mapping data "BrokerOrderRequest" in
  let* _ := require_fields m ["code"; "side"; "quantity"] "BrokerOrderRequest" in
  let* side := broker_side (field m "side") in
  let* order_type := broker_order_type (get_or m "order_type" (JStr "LIMIT")) in
  let* ts := ts_field m now in
  let* id := require_non_empty_str (get_or m "client_order_id" (JStr new_id)) "client_order_id" in
  let* code := validate_stock_code (field m "code") "code" in
  let* quantity := positive_int (field m "quantity") "quantity" in
  let* price := unless_none (fun v => non_negative_int v "price") (field m "price") in
  let* _ := limit_price_check order_type price in
  let* account := optional_non_empty_str (field m "account_id") "account_id" in
  let* key := optional_non_empty_str (field m "idempotency_key") "idempotency_key" in
  Ok {| bq_client_order_id := id; bq_code := code; bq_side := side; bq_quantity := quantity;
        bq_price := price; bq_order_type := order_type; bq_account_id := account;
        bq_idempotency_key := key; bq_ts := ts |}.

Definition int_or_null (o : option Z) : json := match o with Some n => JInt n | None => JNull end.

Definition BrokerOrderRequest_to_dict (t : BrokerOrderRequest) : payload :=
  [("client_order_id", JStr (bq_client_order_id t)); ("code", JStr (bq_code t));
   ("side", JStr (OrderSide.value (bq_side t)));
   ("order_type", JStr (OrderType.value (bq_order_type t))); ("quantity", JInt (bq_quantity t));
   ("price", int_or_null (bq_price t)); ("ts", JStr (datetime_to_wire (bq_ts t)))] ++
  optional_entry "account_id" (JStr <$> bq_account_id t) ++
  optional_entry "idempotency_key" (JStr <$> bq_idempotency_key t).

Record BrokerOrderResult := {
  br_client_order_id : string;
  br_code : string;
  br_accepted : bool;
  br_status : OrderResultStatus.t;
  br_broker_order_id : option string;
  br_reason : option string;
  br_command_id : option string;
  br_idempotency_key : option string;
  br_ts : Z
}.

Definition BrokerOrderResult_from_dict (now : Z) (data : json) : res BrokerOrderResult :=
  let* m := require_mapping data "BrokerOrderResult" in
  let* _ := require_fields m ["client_order_id"; "code"; "accepted"; "status"]
    "BrokerOrderResult" in
  let* status := result_status (field m "status") in
  let* ts := ts_field m now in
  let* id := require_non_empty_str (field m "client_order_id") "client_order_id" in
  let* code := validate_stock_code (field m "code") "code" in
  let* accepted := parse_bool (field m "accepted") "accepted" in
  let* broker_order_id := optional_non_empty_str (field m "broker_order_id") "broker_order_id" in
  let* reason := optional_non_empty_str (field m "reason") "reason" in
  let* command_id := optional_non_empty_str (field m "command_id") "command_id" in
  let* key := optional_non_empty_str (field m "idempotency_key") "idempotency_key" in
  Ok {| br_client_order_id := id; br_code := code; br_accepted := accepted; br_status := status;
        br_broker_order_id := broker_order_id; br_reason := reason; br_command_id := command_id;
        br_idempotency_key := key; br_ts := ts |}.

Definition BrokerOrderResult_to_dict (t : BrokerOrderResult) : payload :=
  [("client_order_id", JStr (br_client_order_id t)); ("code", JStr (br_code t));
   ("accepted", JBool (br_accepted t)); ("status", JStr (OrderResultStatus.value (br_status t)));
   ("ts", JStr (datetime_to_wire (br_ts t)))] ++
  optional_entry "broker_order_id" (JStr <$> br_broker_order_id t) ++
  optional_entry "reason" (JStr <$> br_reason t) ++
  optional_entry "command_id" (JStr <$> br_command_id t) ++
  optional_entry "idempotency_key" (JStr <$> br_idempotency_key t).

Record BrokerExecutionEvent := {
  bx_execution_id : string;
  bx_broker_order_id : string;
  bx_code : string;
  bx_side : OrderSide.t;
  bx_quantity : Z;
  bx_price : Z;
  bx_executed_at : Z;
  bx_client_order_id : option string;
  bx_account_id : option string;
  bx_remaining_quantity : option Z;
  bx_commission : option float;
  bx_tax : option float;
  bx_ts : Z
}.

Definition BrokerExecutionEvent_from_dict (now : Z) (data : json) : res BrokerExecutionEvent :=
  let* m := require_mapping data "BrokerExecutionEvent" in
  let* _ := require_fields m
    ["execution_id"; "broker_order_id"; "code"; "side"; "quantity"; "price"; "executed_at"]
    "BrokerExecutionEvent" in
  let* side := broker_side (field m "side") in
  let* executed_at := parse_timestamp (field m "executed_at") "executed_at" in
  let* ts := ts_field m now in
  let* execution_id := require_non_empty_str (field m "execution_id") "execution_id" in
  let* broker_order_id := require_non_empty_str (field m "broker_order_id") "broker_order_id" in
  let* code := validate_stock_code (field m "code") "code" in
  let* quantity := positive_int (field m "quantity") "quantity" in
  let* price := positive_int (field m "price") "price" in
  let* client := optional_non_empty_str (field m "client_order_id") "client_order_id" in
  let* account := optional_non_empty_str (field m "account_id") "account_id" in
  let* remaining := unless_none (fun v => non_negative_int v "remaining_quantity")
                      (field m "remaining_quantity") in
  let* commission := unless_none (fun v => non_negative_float v "commission")
                       (field m "commission") in
  let* tax := unless_none (fun v => non_negative_float v "tax") (field m "tax") in
  Ok {| bx_execution_id := execution_id; bx_broker_order_id := broker_order_id; bx_code := code;
        bx_side := side; bx_quantity := quantity; bx_price := price; bx_executed_at := executed_at;
        bx_client_order_id := client; bx_account_id := account; bx_remaining_quantity := remaining;
        bx_commission := commission; bx_tax := tax; bx_ts := ts |}.

Definition BrokerExecutionEvent_to_dict (t : BrokerExecutionEvent) : payload :=
  [("execution_id", JStr (bx_execution_id t)); ("broker_order_id", JStr (bx_broker_order_id t));
   ("code", JStr (bx_code t)); ("side", JStr (OrderSide.value (bx_side t)));
   ("quantity", JInt (bx_quantity t)); ("price", JInt (bx_price t));
   ("executed_at", JStr (datetime_to_wire (bx_executed_at t)));
   ("ts", JStr (datetime_to_wire (bx_ts t)))] ++
  optional_entry "client_order_id" (JStr <$> bx_client_order_id t) ++
  optional_entry "account_id" (JStr <$> bx_account_id t) ++
  optional_entry "remaining_quantity" (JInt <$> bx_remaining_quantity t) ++
  optional_entry "commission" (JFloat <$> bx_commission t) ++
  optional_entry "tax" (JFloat <$> bx_tax t).

(** ** The envelopes on the wire *)

Definition GatewayEvent_to_dict (e : GatewayEvent) : payload :=
  [("event_id", JStr (ge_event_id e)); ("event_type", JStr (ge_event_type e));
   ("source", JStr (ge_source e)); ("ts", JStr (datetime_to_wire (ge_ts e)));
   ("payload", JObj (ge_payload e))] ++
  optional_entry "command_id" (JStr <$> ge_command_id e) ++
  optional_entry "idempotency_key" (JStr <$> ge_idempotency_key e).

Definition GatewayEvent_from_dict (new_id : string) (now : Z) (data : json) : res GatewayEvent :=
  let* m := require_mapping data "GatewayEvent" in
  let* _ := require_fields m ["event_type"; "source"; "payload"] "GatewayEvent" in
  let* ts := ts_field m now in
  let* body := object_field m "payload" in
  let* event_id := require_non_empty_str (get_or m "event_id" (JStr new_id)) "event_id" in
  let* event_type := require_non_empty_str (field m "event_type") "event_type" in
  let* source := require_non_empty_str (field m "source") "source" in
  let* command_id := optional_non_empty_str (field m "command_id") "command_id" in
  let* key := optional_non_empty_str (field m "idempotency_key") "idempotency_key" in
  Ok {| ge_event_type := event_type; ge_payload := body; ge_event_id := event_id;
        ge_source := source; ge_ts := ts; ge_command_id := command_id;
        ge_idempotency_key := key |}.

Definition GatewayCommand_to_dict (c : GatewayCommand) : payload :=
  [("command_id", JStr (command_id c)); ("command_type", JStr (command_type c));
   ("source", JStr (source c)); ("ts", JStr (datetime_to_wire (ts c)));
   ("payload", JObj (payload_of c))] ++
  optional_entry "idempotency_key" (JStr <$> idempotency_key c).

Definition GatewayCommand_from_dict (new_id : string) (now : Z) (data : json)
    : res GatewayCommand :=
  let* m := require_mapping data "GatewayCommand" in
  let* _ := require_fields m ["command_type"; "source"; "payload"] "GatewayCommand" in
  let* ts := ts_field m now in
  let* body := object_field m "payload" in
  let* command_id := require_non_empty_str (get_or m "command_id" (JStr new_id)) "command_id" in
  let* command_type := require_non_empty_str (field m "command_type") "command_type" in
  let* source := require_non_empty_str (field m "source") "source" in
  let* key := optional_non_empty_str (field m "idempotency_key") "idempotency_key" in
  Ok {| command_type := command_type; source := source; payload_of := body;
        command_id := command_id; ts := ts; idempotency_key := key |}.

(** ** Round trips *)

Lemma timestamp_ok v f t : parse_timestamp v f = Ok t -> is_datetime t = true.
Proof. intros H. by apply (stamp_value_ok (text v) f). Qed.

Lemma ts_field_ok m now t : is_datetime now = true -> ts_field m now = Ok t -> is_datetime t = true.
Proof.
  intros Hn. unfold ts_field. case_match; [apply timestamp_ok|by intros [= <-]].
Qed.

Lemma positive_again n f : 1 <= n -> positive_int (JInt n) f = Ok n.
Proof. apply int_field_again. Qed.
Lemma non_negative_again n f : 0 <= n -> non_negative_int (JInt n) f = Ok n.
Proof. apply int_field_again. Qed.

Lemma any_float_ok v f x : any_float v f = Ok x -> f_finite x = true.
Proof. intros H. unfold any_float, parse_float in H. res_inv H. apply check_float_ok in H. naive_solver. Qed.
Lemma any_float_again x f : f_finite x = true -> any_float (JFloat x) f = Ok x.
Proof. intros H. apply check_float_ok. split_and!; [done..|discriminate]. Qed.

Lemma opt_int_ok m v f o :
  unless_none (fun v => parse_int v f (Some m)) v = Ok o -> opt_all (Z.le m) o.
Proof.
  intros H. destruct v; cbn [unless_none] in H; try (injection H as <-; exact I);
    apply res_bind_ok in H as (k & Hk & H); injection H as <-; by eapply int_field_ok.
Qed.

Lemma broker_side_again s : broker_side (JStr (OrderSide.value s)) = Ok s.
Proof. by destruct s. Qed.
Lemma broker_order_type_again s : broker_order_type (JStr (OrderType.value s)) = Ok s.
Proof. by destruct s. Qed.
Lemma result_status_again s : result_status (JStr (OrderResultStatus.value s)) = Ok s.
Proof. by destruct s. Qed.
Lemma action_again s : parse_action (JStr (ConditionEventAction.value s)) = Ok s.
Proof. by destruct s. Qed.

Lemma objects_again rows : objects (map JObj rows) = Ok rows.
Proof. induction rows as [|r rows IH]; [done|]. cbn. by rewrite IH. Qed.

Lemma upper_text_ok v f s : require_non_empty_str v f = Ok s -> is_text_field (py_upper s).
Proof.
  intros [Hs Ht]%text_field_ok. split; [by rewrite py_strip_upper, Hs|by rewrite str_true_upper].
Qed.

(** What the checks of a field establish, by the parser that made it. *)
Ltac field_facts :=
  repeat match goal with
  | H : require_non_empty_str _ _ = Ok ?s |- _ =>
      let U := fresh "U" in pose proof (upper_text_ok _ _ _ H) as U; apply text_field_ok in H
  | H : optional_non_empty_str _ _ = Ok _ |- _ => apply opt_text_ok in H
  | H : validate_stock_code _ _ = Ok _ |- _ => apply code_field_ok in H
  | H : positive_int _ _ = Ok _ |- _ => apply int_field_ok in H
  | H : non_negative_int _ _ = Ok _ |- _ => apply int_field_ok in H
  | H : non_negative_float _ _ = Ok _ |- _ => apply amount_ok in H
  | H : any_float _ _ = Ok _ |- _ => apply any_float_ok in H
  | H : parse_timestamp _ _ = Ok _ |- _ => apply timestamp_ok in H
  | H : ts_field _ _ = Ok _ |- _ => apply ts_field_ok in H; [|done]
  | H : unless_none (fun v => non_negative_float v _) _ = Ok _ |- _ => apply opt_amount_ok in H
  | H : unless_none (fun v => _ v _) _ = Ok _ |- _ => apply opt_int_ok in H
  end.

(** The fields read back, one after the other. *)
Ltac read_back :=
  repeat match goal with
  | |- context [res_bind (Ok _) _] => cbn [res_bind]
  | |- context [parse_timestamp (JStr (datetime_to_wire _)) _] => rewrite parse_wire by done
  | |- context [require_non_empty_str (JStr _) _] => rewrite text_field_again by done
  | |- context [validate_stock_code (JStr _) _] => rewrite code_field_again by done
  | |- context [positive_int (JInt _) _] => rewrite positive_again by done
  | |- context [non_negative_int (JInt _) _] => rewrite non_negative_again by done
  | |- context [non_negative_float (JFloat _) _] => rewrite amount_again by done
  | |- context [any_float (JFloat _) _] => rewrite any_float_again by done
  | |- context [broker_side _] => rewrite broker_side_again
  | |- context [broker_order_type _] => rewrite broker_order_type_again
  | |- context [result_status _] => rewrite result_status_again
  | |- context [parse_action _] => rewrite action_again
  | |- context [optional_non_empty_str (JStr ?s) _] =>
      rewrite (opt_text_again (Some s)) by done
  | |- context [optional_non_empty_str JNull _] => cbn [optional_non_empty_str]
  end.

Ltac lookups :=
  unfold ts_field, field, object_field, get_or, optional_entry; cbn [jget app String.eqb Ascii.eqb Bool.eqb
    fmap option_fmap option_map].

Lemma tick_consistent_same t t' : tick_consistent t = Ok t' -> t' = t.
Proof. unfold tick_consistent. repeat case_match; naive_solver. Qed.

Lemma tick_again now now' v t :
  is_datetime now = true -> BrokerPriceTick_from_dict now v = Ok t ->
  BrokerPriceTick_from_dict now' (JObj (BrokerPriceTick_to_dict t)) = Ok t.
Proof.
  intros Hn H. unfold BrokerPriceTick_from_dict in H. bind_inv H.
  pose proof (tick_consistent_same _ _ H) as Ht. assert (Hc := H). rewrite <- Ht in Hc at 1.
  subst t. clear H. field_facts.
  unfold BrokerPriceTick_from_dict, BrokerPriceTick_to_dict. cbn [require_mapping res_bind].
  unfold require_fields. cbn [map fst List.filter mem existsb String.eqb Ascii.eqb Bool.eqb orb negb res_bind].
  lookups. read_back. exact Hc.
Qed.

(** Compute the presence check and the lookups of a mapping whose keys are
    known. *)
Ltac on_mapping :=
  cbn [require_mapping res_bind]; unfold require_fields; unfold optional_entry;
  cbn [app map fst List.filter mem existsb String.eqb Ascii.eqb Bool.eqb orb negb res_bind fmap
       option_fmap option_map];
  lookups; cbn [opt_all] in *; cbn [unless_none].

Lemma execution_again now now' v t :
  is_datetime now = true -> BrokerExecutionEvent_from_dict now v = Ok t ->
  BrokerExecutionEvent_from_dict now' (JObj (BrokerExecutionEvent_to_dict t)) = Ok t.
Proof.
  intros Hn H. unfold BrokerExecutionEvent_from_dict in H. bind_inv H. injection H as <-.
  field_facts. unfold BrokerExecutionEvent_from_dict, BrokerExecutionEvent_to_dict.
  cbn [bx_execution_id bx_broker_order_id bx_code bx_side bx_quantity bx_price bx_executed_at
       bx_client_order_id bx_account_id bx_remaining_quantity bx_commission bx_tax bx_ts].
  repeat match goal with o : option _ |- _ => destruct o end; on_mapping; read_back; reflexivity.
Qed.

Lemma order_request_again id id' now now' v t :
  is_datetime now = true -> BrokerOrderRequest_from_dict id now v = Ok t ->
  BrokerOrderRequest_from_dict id' now' (JObj (BrokerOrderRequest_to_dict t)) = Ok t.
Proof.
  intros Hn H. unfold BrokerOrderRequest_from_dict in H. bind_inv H. injection H as <-.
  field_facts. unfold BrokerOrderRequest_from_dict, BrokerOrderRequest_to_dict.
  cbn [bq_client_order_id bq_code bq_side bq_quantity bq_price bq_order_type bq_account_id
       bq_idempotency_key bq_ts].
  repeat match goal with o : option _ |- _ => destruct o end; cbn [int_or_null]; on_mapping;
    read_back; match goal with H : limit_price_check _ _ = Ok _ |- _ => rewrite H end;
    read_back; reflexivity.
Qed.

Lemma order_result_again now now' v t :
  is_datetime now = true -> BrokerOrderResult_from_dict now v = Ok t ->
  BrokerOrderResult_from_dict now' (JObj (BrokerOrderResult_to_dict t)) = Ok t.
Proof.
  intros Hn H. unfold BrokerOrderResult_from_dict in H. bind_inv H. injection H as <-.
  field_facts. unfold BrokerOrderResult_from_dict, BrokerOrderResult_to_dict.
  cbn [br_client_order_id br_code br_accepted br_status br_broker_order_id br_reason
       br_command_id br_idempotency_key br_ts].
  repeat match goal with o : option _ |- _ => destruct o end; on_mapping; cbn [parse_bool];
    read_back; reflexivity.
Qed.

Lemma condition_again now now' v t :
  is_datetime now = true -> BrokerConditionEvent_from_dict now v = Ok t ->
  BrokerConditionEvent_from_dict now' (JObj (BrokerConditionEvent_to_dict t)) = Ok t.
Proof.
  intros Hn H. unfold BrokerConditionEvent_from_dict in H. bind_inv H. injection H as <-.
  field_facts. unfold BrokerConditionEvent_from_dict, BrokerConditionEvent_to_dict.
  cbn [bc_condition_id bc_condition_name bc_code bc_name bc_action bc_price bc_metadata bc_ts].
  repeat match goal with o : option _ |- _ => destruct o end; on_mapping; read_back; reflexivity.
Qed.

Lemma tr_request_again id id' now now' v t :
  is_datetime now = true -> BrokerTrRequest_from_dict id now v = Ok t ->
  BrokerTrRequest_from_dict id' now' (JObj (BrokerTrRequest_to_dict t)) = Ok t.
Proof.
  intros Hn H. unfold BrokerTrRequest_from_dict in H. bind_inv H. injection H as <-.
  field_facts. unfold BrokerTrRequest_from_dict, BrokerTrRequest_to_dict.
  cbn [tq_request_id tq_tr_code tq_request_name tq_params tq_continuation_key tq_ts].
  repeat match goal with o : option _ |- _ => destruct o end; on_mapping; read_back;
    by rewrite py_upper_idem.
Qed.

Lemma tr_response_again now now' v t :
  is_datetime now = true -> BrokerTrResponse_from_dict now v = Ok t ->
  BrokerTrResponse_from_dict now' (JObj (BrokerTrResponse_to_dict t)) = Ok t.
Proof.
  intros Hn H. unfold BrokerTrResponse_from_dict in H. bind_inv H. injection H as <-.
  field_facts. unfold BrokerTrResponse_from_dict, BrokerTrResponse_to_dict.
  cbn [tp_request_id tp_tr_code tp_request_name tp_success tp_rows tp_message
       tp_continuation_key tp_metadata tp_ts].
  match goal with |- context [optional_entry "metadata" (match ?m with _ => _ end)] => destruct m end;
    repeat match goal with o : option _ |- _ => destruct o end; on_mapping; cbn [_normalize_rows parse_bool];
    rewrite objects_again; cbn [res_bind]; read_back; by rewrite py_upper_idem.
Qed.

Lemma index_tick_again now now' v t :
  is_datetime now = true -> BrokerMarketIndexTick_from_dict now v = Ok t ->
  BrokerMarketIndexTick_from_dict now' (JObj (BrokerMarketIndexTick_to_dict t)) = Ok t.
Proof.
  intros Hn H. unfold BrokerMarketIndexTick_from_dict in H. bind_inv H. cbv zeta in H.
  case_match eqn:Hc; [done|]. bind_inv H. case_match eqn:Hp; [done|]. bind_inv H. injection H as <-.
  field_facts. unfold BrokerMarketIndexTick_from_dict, BrokerMarketIndexTick_to_dict.
  cbn [bi_index_code bi_index_name bi_price bi_change_rate bi_change_value bi_trade_time bi_ts
       bi_metadata].
  on_mapping. read_back. cbv zeta. rewrite py_upper_idem, Hc. read_back. rewrite Hp. read_back.
  reflexivity.
Qed.

Lemma event_again id id' now now' v e :
  is_datetime now = true -> GatewayEvent_from_dict id now v = Ok e ->
  GatewayEvent_from_dict id' now' (JObj (GatewayEvent_to_dict e)) = Ok e.
Proof.
  intros Hn H. unfold GatewayEvent_from_dict in H. bind_inv H. injection H as <-.
  field_facts. unfold GatewayEvent_from_dict, GatewayEvent_to_dict.
  cbn [ge_event_id ge_event_type ge_source ge_ts ge_payload ge_command_id ge_idempotency_key].
  repeat match goal with o : option _ |- _ => destruct o end; on_mapping; read_back; reflexivity.
Qed.

Lemma command_again id id' now now' v c :
  is_datetime now = true -> GatewayCommand_from_dict id now v = Ok c ->
  GatewayCommand_from_dict id' now' (JObj (GatewayCommand_to_dict c)) = Ok c.
Proof.
  intros Hn H. unfold GatewayCommand_from_dict in H. bind_inv H. injection H as <-.
  field_facts. unfold GatewayCommand_from_dict, GatewayCommand_to_dict.
  cbn [command_id command_type source ts payload_of idempotency_key].
  repeat match goal with o : option _ |- _ => destruct o end; on_mapping; read_back; reflexivity.
Qed.

(** C40. Every message the gateway and the core exchange survives the wire: what
    [from_dict] accepts, whatever its spelling (codes with an [A], lower-case
    enums, grouped digits, missing timestamps), is written by [to_dict] as a
    mapping that [from_dict] reads back as the same message, whenever it is read.
    So a message that was validated once is validated for good. *)
Theorem messages_survive_the_wire id id' now now' :
  is_datetime now = true ->
  (forall v t, BrokerExecutionEvent_from_dict now v = Ok t ->
     BrokerExecutionEvent_from_dict now' (JObj (BrokerExecutionEvent_to_dict t)) = Ok t) /\
  (forall v t, BrokerPriceTick_from_dict now v = Ok t ->
     BrokerPriceTick_from_dict now' (JObj (BrokerPriceTick_to_dict t)) = Ok t) /\
  (forall v t, BrokerMarketIndexTick_from_dict now v = Ok t ->
     BrokerMarketIndexTick_from_dict now' (JObj (BrokerMarketIndexTick_to_dict t)) = Ok t) /\
  (forall v t, BrokerConditionEvent_from_dict now v = Ok t ->
     BrokerConditionEvent_from_dict now' (JObj (BrokerConditionEvent_to_dict t)) = Ok t) /\
  (forall v t, BrokerTrRequest_from_dict id now v = Ok t ->
     BrokerTrRequest_from_dict id' now' (JObj (BrokerTrRequest_to_dict t)) = Ok t) /\
  (forall v t, BrokerTrResponse_from_dict now v = Ok t ->
     BrokerTrResponse_from_dict now' (JObj (BrokerTrResponse_to_dict t)) = Ok t) /\
  (forall v t, BrokerOrderRequest_from_dict id now v = Ok t ->
     BrokerOrderRequest_from_dict id' now' (JObj (BrokerOrderRequest_to_dict t)) = Ok t) /\
  (forall v t, BrokerOrderResult_from_dict now v = Ok t ->
     BrokerOrderResult_from_dict now' (JObj (BrokerOrderResult_to_dict t)) = Ok t) /\
  (forall v e, GatewayEvent_from_dict id now v = Ok e ->
     GatewayEvent_from_dict id' now' (JObj (GatewayEvent_to_dict e)) = Ok e) /\
  (forall v c, GatewayCommand_from_dict id now v = Ok c ->
     GatewayCommand_from_dict id' now' (JObj (GatewayCommand_to_dict c)) = Ok c).
Proof.
  intros Hn. repeat split; intros v t; eauto using execution_again, tick_again, index_tick_again, condition_again,
    tr_request_again, tr_response_again, order_request_again, order_result_again, event_again,
    command_again.
Qed.

Definition sample_execution_fields : json :=
  JObj [("execution_id", JStr " exec-1 "); ("broker_order_id", JStr "0001"); ("code", JStr "a005930");
        ("side", JStr "buy"); ("quantity", JStr "1,000"); ("price", JInt 70000);
        ("executed_at", JStr "2024-02-29T09:00:00.000050+09:00"); ("remaining_quantity", JInt 0);
        ("tax", JStr "0.5")].

Definition sample_execution : BrokerExecutionEvent :=
  {| bx_execution_id := "exec-1"; bx_broker_order_id := "0001"; bx_code := "005930";
     bx_side := OrderSide.BUY; bx_quantity := 1000; bx_price := 70000;
     bx_executed_at := 1709164800000050; bx_client_order_id := None; bx_account_id := None;
     bx_remaining_quantity := Some 0; bx_commission := None; bx_tax := Some (f_lit 5 10);
     bx_ts := seconds 1709164801 |}.

Lemma messages_survive_the_wire_witness :
  BrokerExecutionEvent_from_dict (seconds 1709164801) sample_execution_fields = Ok sample_execution /\
  BrokerExecutionEvent_from_dict 0 (JObj (BrokerExecutionEvent_to_dict sample_execution)) =
    Ok sample_execution.
Proof.
  split; [vm_compute; reflexivity|].
  apply (proj1 (messages_survive_the_wire "a" "b" (seconds 1709164801) 0 eq_refl)
           sample_execution_fields).
  vm_compute. reflexivity.
Defined.
