(* ===== verification/EventStore.v ===== *)
(** * The event store ([storage/event_store.py], [api/routes/gateway.py])

    Every event the gateway posts is recorded under its event id, in [raw_events]
    and [gateway_events]; the first time, in the same transaction, it is applied
    to the command it is about.  A repeated event is recognised by its id and the
    hash of its payload.  Heartbeats also write [gateway_status], of which the
    column [updated_at] is left out.

    [post_gateway_event] is the route's answer to an [order_pre_ack]; the
    projections the route runs for market events are not modelled.  [json_dumps]
    is the serializer of the standard library, [hash_payload] the hash of a
    payload's canonical text. *)
From S2P Require Import Prelude PyFloat BrokerUtils WireTime GatewayModels OrderBoundary CommandStore LiveSimModels BrokerMessages.
Local Open Scope Z_scope.

(** ** The tables *)

Record raw_event := {
  re_event_type : string;
  re_source : string;
  re_command_id : option string;
  re_idempotency_key : option string;
  re_event_ts : string;
  re_received_at : string;
  re_payload : payload;
  re_payload_hash : string;
  re_duplicate_count : Z
}.

Record gateway_event_row := {
  gr_event_type : string;
  gr_source : string;
  gr_command_id : option string;
  gr_idempotency_key : option string;
  gr_event_ts : string;
  gr_received_at : string;
  gr_payload : payload;
  gr_status : string;
  gr_error_message : option string
}.

Record event_store := {
  ev_commands : CommandStore.store;
  raw_events : gmap string raw_event;
  gateway_events : gmap string gateway_event_row;
  gateway_status : gmap string string
}.

Definition set_ev_commands (v : CommandStore.store) (s : event_store) : event_store :=
  {| ev_commands := v; raw_events := raw_events s; gateway_events := gateway_events s;
     gateway_status := gateway_status s |}.
Definition set_raw_events (v : gmap string raw_event) (s : event_store) : event_store :=
  {| ev_commands := ev_commands s; raw_events := v; gateway_events := gateway_events s;
     gateway_status := gateway_status s |}.
Definition set_gateway_status (v : gmap string string) (s : event_store) : event_store :=
  {| ev_commands := ev_commands s; raw_events := raw_events s; gateway_events := gateway_events s;
     gateway_status := v |}.

Record AppendGatewayEventResult := {
  ar_accepted : bool;
  ar_event_id : string;
  ar_duplicate : bool;
  ar_status : string;
  ar_payload_hash : string;
  ar_error_message : option string
}.

(** ** Classification *)

Definition SUPPORTED_GATEWAY_EVENT_TYPES : list string :=
  ["heartbeat"; "login_status"; "orderability"; "price_tick"; "quote_tick"; "condition_event";
   "condition_load_result"; "condition_loaded"; "tr_response"; "execution_event";
   "order_rejected"; "cancel_ack"; "cancel_rejected"; "balance_snapshot"; "account_snapshot";
   "order_pre_ack"; "order_broker_unconfirmed"; "command_started"; "command_ack";
   "command_failed"; "rate_limited"; "gateway_error"; "gateway_log"; "market_symbols";
   "market_index_tick"; "kiwoom_order_chejan"; "kiwoom_balance_chejan"; "kiwoom_special_chejan"].

(** [_PAYLOAD_VALIDATORS], what a validator builds forgotten. *)
Definition _PAYLOAD_VALIDATORS (event_type : string) (now : Z) (p : payload) : res unit :=
  let checked {A} (r : res A) : res unit := let* _ := r in Ok tt in
  if String.eqb event_type "price_tick" then checked (BrokerPriceTick_from_dict now (JObj p))
  else if String.eqb event_type "condition_event"
  then checked (BrokerConditionEvent_from_dict now (JObj p))
  else if String.eqb event_type "tr_response" then checked (BrokerTrResponse_from_dict now (JObj p))
  else if String.eqb event_type "execution_event"
  then checked (BrokerExecutionEvent_from_dict now (JObj p))
  else Ok tt.

(** Only a [ValueError] rejects an event; another exception is raised. *)
Definition _classify_event (event_type : string) (now : Z) (p : payload)
    : res (string * option string) :=
  if negb (mem event_type SUPPORTED_GATEWAY_EVENT_TYPES)
  then Ok ("UNKNOWN_EVENT_TYPE", Some ("Unknown gateway event_type: " +:+ event_type))
  else
    match _PAYLOAD_VALIDATORS event_type now p with
    | Ok _ => Ok ("ACCEPTED", None)
    | Err (ValueError m) => Ok ("REJECTED", Some m)
    | Err e => Err e
    end.

Definition boundary_state_value (s : BS.t) : string :=
  match s with
  | BS.CLAIMED => "CLAIMED" | BS.GATEWAY_STARTED => "GATEWAY_STARTED"
  | BS.PRE_ACK_RECORDED => "PRE_ACK_RECORDED" | BS.BROKER_ACCEPTED => "BROKER_ACCEPTED"
  | BS.CHEJAN_CONFIRMED => "CHEJAN_CONFIRMED" | BS.UNCONFIRMED => "UNCONFIRMED"
  end.

(** ** Heartbeats *)

Definition status_keys : list (string * string) :=
  [("kiwoom_logged_in", "kiwoom_logged_in"); ("gateway_logged_in", "kiwoom_logged_in");
   ("gateway_orderable", "orderable"); ("orderable", "orderable"); ("broker_name", "broker_name");
   ("broker_env", "broker_env"); ("server_mode", "server_mode"); ("account_mode", "account_mode");
   ("server_gubun", "server_gubun"); ("account", "account"); ("login_threaded", "login_threaded");
   ("comm_connect_state", "comm_connect_state");
   ("latest_comm_connect_call_at", "latest_comm_connect_call_at");
   ("latest_comm_connect_result_at", "latest_comm_connect_result_at");
   ("latest_comm_connect_result_code", "latest_comm_connect_result_code");
   ("latest_on_event_connect_timeout_at", "latest_on_event_connect_timeout_at");
   ("login_block_reason_codes", "login_block_reason_codes");
   ("core_io_enabled", "core_io_enabled"); ("command_polling_enabled", "command_polling_enabled");
   ("event_posting_enabled", "event_posting_enabled");
   ("core_io_worker_enabled", "core_io_worker_enabled");
   ("core_io_worker_running", "core_io_worker_running");
   ("core_io_worker_thread_id", "core_io_worker_thread_id");
   ("core_io_worker_event_queue_size", "core_io_worker_event_queue_size");
   ("core_io_worker_command_queue_size", "core_io_worker_command_queue_size");
   ("core_io_worker_last_error", "core_io_worker_last_error");
   ("core_io_worker_coalesced_event_count", "core_io_worker_coalesced_event_count");
   ("core_io_worker_coalesce_after_size", "core_io_worker_coalesce_after_size");
   ("core_io_worker_dropped_event_count", "core_io_worker_dropped_event_count");
   ("core_io_worker_max_buffer_size", "core_io_worker_max_buffer_size");
   ("core_io_worker_batch_size", "core_io_worker_batch_size");
   ("core_io_worker_batch_post_count", "core_io_worker_batch_post_count");
   ("core_io_worker_latest_batch_size", "core_io_worker_latest_batch_size");
   ("core_io_worker_rejected_event_count", "core_io_worker_rejected_event_count");
   ("core_io_worker_consecutive_post_error_count", "core_io_worker_consecutive_post_error_count");
   ("core_io_worker_market_event_queue_size", "core_io_worker_market_event_queue_size");
   ("core_io_worker_durable_event_queue_size", "core_io_worker_durable_event_queue_size");
   ("core_io_worker_oldest_event_age_sec", "core_io_worker_oldest_event_age_sec");
   ("core_io_worker_oldest_market_event_age_sec", "core_io_worker_oldest_market_event_age_sec");
   ("core_io_data_plane_health", "core_io_data_plane_health");
   ("durable_pre_ack_posted_count", "durable_pre_ack_posted_count");
   ("last_durable_pre_ack_at", "last_durable_pre_ack_at");
   ("last_durable_pre_ack_error", "last_durable_pre_ack_error");
   ("local_event_count", "local_event_count"); ("condition_load_state", "condition_load_state");
   ("condition_load_requested_at", "condition_load_requested_at");
   ("condition_load_retry_count", "condition_load_retry_count");
   ("condition_load_timeout_count", "condition_load_timeout_count");
   ("condition_callback_health", "condition_callback_health");
   ("latest_condition_ver_callback_at", "latest_condition_ver_callback_at");
   ("latest_condition_ver_result", "latest_condition_ver_result");
   ("registered_realtime_code_count", "registered_realtime_code_count");
   ("realtime_max_total", "realtime_max_total");
   ("realtime_registered_codes", "realtime_registered_codes");
   ("realtime_exchange", "realtime_exchange");
   ("realtime_registered_kiwoom_codes", "realtime_registered_kiwoom_codes");
   ("latest_price_tick_at", "latest_price_tick_at"); ("latest_quote_at", "latest_quote_at");
   ("latest_realtime_callback_at", "latest_realtime_callback_at");
   ("raw_realtime_callback_count", "raw_realtime_callback_count");
   ("realtime_callback_count", "realtime_callback_count");
   ("unregistered_realtime_callback_count", "unregistered_realtime_callback_count");
   ("latest_unregistered_realtime_callback", "latest_unregistered_realtime_callback");
   ("parsed_price_tick_count", "parsed_price_tick_count");
   ("realtime_parse_error_count", "realtime_parse_error_count");
   ("latest_realtime_parse_error", "latest_realtime_parse_error");
   ("latest_realtime_registration_at", "latest_realtime_registration_at");
   ("latest_realtime_registration_result", "latest_realtime_registration_result");
   ("realtime_registration_requested_count", "realtime_registration_requested_count");
   ("realtime_registration_success_count", "realtime_registration_success_count");
   ("realtime_registration_budget_skip_count", "realtime_registration_budget_skip_count");
   ("market_index_enabled", "market_index_enabled");
   ("market_index_realtime_enabled", "market_index_realtime_enabled");
   ("market_index_tr_bootstrap_enabled", "market_index_tr_bootstrap_enabled");
   ("market_index_codes", "market_index_codes");
   ("market_index_screen_no", "market_index_screen_no");
   ("market_index_poll_sec", "market_index_poll_sec");
   ("market_index_registered_codes", "market_index_registered_codes");
   ("market_index_callback_count", "market_index_callback_count");
   ("parsed_market_index_tick_count", "parsed_market_index_tick_count");
   ("market_index_parse_error_count", "market_index_parse_error_count");
   ("latest_market_index_callback_at", "latest_market_index_callback_at");
   ("latest_market_index_tick_at", "latest_market_index_tick_at");
   ("latest_market_index_parse_error", "latest_market_index_parse_error");
   ("latest_market_index_registration_result", "latest_market_index_registration_result");
   ("latest_market_index_registration_at", "latest_market_index_registration_at");
   ("market_index_adapter_health", "market_index_adapter_health");
   ("market_index_recover_count", "market_index_recover_count");
   ("latest_market_index_recover_at", "latest_market_index_recover_at");
   ("market_index_recover_error", "market_index_recover_error");
   ("realtime_subscription_health", "realtime_subscription_health");
   ("realtime_recover_count", "realtime_recover_count");
   ("realtime_recover_error", "realtime_recover_error");
   ("raw_callback_counts", "raw_callback_counts");
   ("latest_callback_at_by_method", "latest_callback_at_by_method");
   ("latest_active_x_thread_audit", "latest_active_x_thread_audit");
   ("command_queue_healthy", "command_queue_healthy")].

Definition _heartbeat_is_fresh (status : gmap string string) (event_ts : string) : res bool :=
  match status !! "last_heartbeat_at" with
  | None | Some EmptyString => Ok true
  | Some value =>
      match parse_timestamp (JStr event_ts) "heartbeat_event_ts",
            parse_timestamp (JStr value) "last_heartbeat_at" with
      | Ok incoming, Ok current => Ok (current <=? incoming)
      | Err (ValueError _), _ | Ok _, Err (ValueError _) => Ok (String.leb value event_ts)
      | Err e, _ | _, Err e => Err e
      end
  end.

Section Appending.
Context (py_repr : json -> string) (json_dumps : json -> string)
  (hash_payload : payload -> string).

Definition _status_value (value : json) : string :=
  match value with JStr s => s | _ => json_dumps value end.

Definition upsert_one (p : payload) (status : gmap string string) (key : string * string)
    : gmap string string :=
  match jget (snd key) p with
  | Some v => <[fst key := _status_value v]> status
  | None => status
  end.

Definition _upsert_heartbeat_status (p : payload) (status : gmap string string)
    : gmap string string := fold_left (upsert_one p) status_keys status.

(** What a first event writes to [gateway_status]. *)
Definition status_after (event_type event_ts received_at : string) (p : payload)
    (status : gmap string string) : res (gmap string string) :=
  let status := <["last_event_received_at" := received_at]> status in
  if String.eqb event_type "heartbeat" then
    let* fresh := _heartbeat_is_fresh status event_ts in
    Ok (if fresh
        then _upsert_heartbeat_status p (<["last_heartbeat_at" := event_ts]> status)
        else status)
  else Ok status.

(** ** Appending an event *)

Definition COMMAND_EVENT_TYPES : list string :=
  ["command_started"; "command_ack"; "command_failed"; "rate_limited"; "execution_event";
   "order_pre_ack"; "order_broker_unconfirmed"; "kiwoom_order_chejan"].

Definition command_of_event (e : GatewayEvent) : string := default EmptyString (ge_command_id e).

Definition is_command_event (event_type : string) (e : GatewayEvent) : bool :=
  mem event_type COMMAND_EVENT_TYPES && str_true (command_of_event e).

(** One attempt of the transaction, which an exception rolls back; [received]
    is the clock it reads, [utc'] the one the requeueing of a command reads. *)
Definition _append_gateway_event_once (s : event_store) (e : GatewayEvent) (received utc' : Z)
    : res (event_store * AppendGatewayEventResult) :=
  let event_type := py_lower (py_strip (ge_event_type e)) in
  let hash := hash_payload (ge_payload e) in
  match raw_events s !! ge_event_id e with
  | Some existing =>
      if String.eqb (re_payload_hash existing) hash then
        let row := gateway_events s !! ge_event_id e in
        Ok (set_raw_events
              (<[ge_event_id e :=
                   {| re_event_type := re_event_type existing; re_source := re_source existing;
                      re_command_id := re_command_id existing;
                      re_idempotency_key := re_idempotency_key existing;
                      re_event_ts := re_event_ts existing;
                      re_received_at := re_received_at existing;
                      re_payload := re_payload existing;
                      re_payload_hash := re_payload_hash existing;
                      re_duplicate_count := re_duplicate_count existing + 1 |}]> (raw_events s)) s,
            {| ar_accepted := true; ar_event_id := ge_event_id e; ar_duplicate := true;
               ar_status := match row with Some r => gr_status r | None => "ACCEPTED" end;
               ar_payload_hash := hash;
               ar_error_message := match row with Some r => gr_error_message r | None => None end |})
      else
        Ok (s, {| ar_accepted := false; ar_event_id := ge_event_id e; ar_duplicate := false;
                  ar_status := "CONFLICT"; ar_payload_hash := hash;
                  ar_error_message :=
                    Some "event_id already exists with a different payload_hash" |})
  | None =>
      let* (status, error_message) := _classify_event event_type received (ge_payload e) in
      let event_ts := datetime_to_wire (ge_ts e) in
      let received_at := datetime_to_wire received in
      let* statuses := status_after event_type event_ts received_at (ge_payload e)
                         (gateway_status s) in
      let* commands :=
        if is_command_event event_type e
        then let* (cs, _) := record_command_event py_repr (ev_commands s)
                               (command_of_event e) event_type (ge_payload e)
                               (Some (ge_event_id e)) (Some received) received utc' in Ok cs
        else Ok (ev_commands s) in
      Ok ({| ev_commands := commands;
             raw_events :=
               <[ge_event_id e :=
                   {| re_event_type := event_type; re_source := ge_source e;
                      re_command_id := ge_command_id e;
                      re_idempotency_key := ge_idempotency_key e; re_event_ts := event_ts;
                      re_received_at := received_at; re_payload := ge_payload e;
                      re_payload_hash := hash; re_duplicate_count := 0 |}]> (raw_events s);
             gateway_events :=
               <[ge_event_id e :=
                   {| gr_event_type := event_type; gr_source := ge_source e;
                      gr_command_id := ge_command_id e;
                      gr_idempotency_key := ge_idempotency_key e; gr_event_ts := event_ts;
                      gr_received_at := received_at; gr_payload := ge_payload e;
                      gr_status := status; gr_error_message := error_message |}]>
                 (gateway_events s);
             gateway_status := statuses |},
          {| ar_accepted := negb (String.eqb status "REJECTED"); ar_event_id := ge_event_id e;
             ar_duplicate := false; ar_status := status; ar_payload_hash := hash;
             ar_error_message := error_message |})
  end.

(** [append_gateway_event] over its attempts, each with whether the database is
    locked and the clocks it reads; after the last delay the lock is raised. *)
Fixpoint append_attempts (s : event_store) (e : GatewayEvent) (attempts : list (bool * Z * Z))
    : res (event_store * AppendGatewayEventResult) :=
  match attempts with
  | [] => Err (OtherError "database is locked")
  | (locked, received, utc') :: rest =>
      if (locked : bool) then append_attempts s e rest
      else _append_gateway_event_once s e received utc'
  end.

(** The five delays and the attempt after the last. *)
Definition append_gateway_event (s : event_store) (e : GatewayEvent)
    (attempts : list (bool * Z * Z)) : res (event_store * AppendGatewayEventResult) :=
  append_attempts s e (take 6 attempts).

(** The answer to a posted [order_pre_ack]: what an exception of the append or
    a refusal raises, or the body; the store as it is then. *)
Definition post_order_pre_ack (s : event_store) (e : GatewayEvent)
    (attempts : list (bool * Z * Z)) : event_store * res json :=
  match append_gateway_event s e attempts with
  | Err x => (s, Err x)
  | Ok (s', result) =>
      let boundary :=
        match ge_command_id e with
        | Some cid => boundaries (ev_commands s') !! cid
        | None => None
        end in
      (s',
       if String.eqb (ar_status result) "CONFLICT" then Err (OtherError "HTTP 409")
       else if String.eqb (ar_status result) "REJECTED" then Err (OtherError "HTTP 422")
       else
         Ok (JObj
           [("accepted", JBool (ar_accepted result)); ("event_id", JStr (ar_event_id result));
            ("duplicate", JBool (ar_duplicate result)); ("status", JStr (ar_status result));
            ("broker_boundary_state",
               match boundary with Some b => JStr (boundary_state_value (b_state b)) | None => JNull end);
            ("durable_pre_ack_recorded",
               JBool match boundary with
                     | Some b => bool_decide (is_Some (b_pre_ack_recorded_at b))
                     | None => false
                     end)]))
  end.
End Appending.

(** ** What an append does *)

Section Appends.
Context (py_repr : json -> string) (json_dumps : json -> string)
  (hash_payload : payload -> string).
Abbreviation append := (append_gateway_event py_repr json_dumps hash_payload).

Definition seen (s : event_store) (eid : string) : Prop := is_Some (raw_events s !! eid).

(** An event already seen changes nothing but its counter; a new one is applied
    and recorded. *)
Inductive appended (s : event_store) (e : GatewayEvent) (s' : event_store) : Prop :=
| append_again :
    seen s (ge_event_id e) -> ev_commands s' = ev_commands s ->
    gateway_events s' = gateway_events s -> gateway_status s' = gateway_status s ->
    appended s e s'
| append_first received utc' :
    raw_events s !! ge_event_id e = None ->
    (let event_type := py_lower (py_strip (ge_event_type e)) in
     if is_command_event event_type e
     then exists st, record_command_event py_repr (ev_commands s) (command_of_event e) event_type
            (ge_payload e) (Some (ge_event_id e)) (Some received) received utc' =
            Ok (ev_commands s', st)
     else ev_commands s' = ev_commands s) ->
    status_after json_dumps (py_lower (py_strip (ge_event_type e))) (datetime_to_wire (ge_ts e))
      (datetime_to_wire received) (ge_payload e) (gateway_status s) = Ok (gateway_status s') ->
    appended s e s'.

Lemma append_once_spec s e received utc' s' r :
  _append_gateway_event_once py_repr json_dumps hash_payload s e received utc' = Ok (s', r) ->
  appended s e s' /\ seen s' (ge_event_id e) /\ (forall k, seen s k -> seen s' k).
Proof.
  unfold _append_gateway_event_once. cbv zeta.
  assert (Hins : forall (m : gmap string raw_event) row k,
    is_Some (m !! k) -> is_Some (<[ge_event_id e := row]> m !! k)).
  { intros m row k Hk. rewrite lookup_insert. by case_decide; [eexists|]. }
  destruct (raw_events s !! ge_event_id e) as [ex|] eqn:Hex.
  - assert (Hs : seen s (ge_event_id e)) by by exists ex.
    destruct (String.eqb _ _); intros [= <- _].
    + split_and!; [by apply append_again| |intros k Hk; by apply Hins].
      unfold seen. cbn. rewrite lookup_insert_eq. by eexists.
    + split_and!; [by apply append_again|done|done].
  - intros H. apply res_bind_ok in H as ([status msg] & _ & H).
    apply res_bind_ok in H as (statuses & Hst & H). apply res_bind_ok in H as (cs & Hcs & H).
    injection H as <- _. split_and!.
    + eapply append_first; [done| |exact Hst]. cbv zeta. cbn [ev_commands].
      destruct (is_command_event _ _); [|by injection Hcs as <-].
      apply res_bind_ok in Hcs as ([cs' st] & Hr & Hcs). injection Hcs as <-. by exists st.
    + unfold seen. cbn. rewrite lookup_insert_eq. by eexists.
    + intros k Hk. by apply Hins.
Qed.

Lemma append_spec s e attempts s' r :
  append s e attempts = Ok (s', r) ->
  appended s e s' /\ seen s' (ge_event_id e) /\ (forall k, seen s k -> seen s' k).
Proof.
  unfold append_gateway_event. generalize (take 6 attempts). intros l. revert s' r.
  induction l as [|[[locked received] utc'] l IH]; intros s' r; cbn [append_attempts]; [done|].
  destruct locked; [apply IH|apply append_once_spec].
Qed.

(** Deliveries one after the other, each with the attempts it takes; what an
    exception undoes is undone. *)
Definition delivery : Type := GatewayEvent * list (bool * Z * Z).

Definition deliver_one (s : event_store) (d : delivery) : event_store :=
  match append s d.1 d.2 with Ok (s', _) => s' | Err _ => s end.
Definition deliver_all : event_store -> list delivery -> event_store := foldl deliver_one.

Lemma deliver_one_seen s d k : seen s k -> seen (deliver_one s d) k.
Proof.
  intros Hk. unfold deliver_one. destruct (append s d.1 d.2) as [[s' r]|] eqn:H; [|done].
  apply append_spec in H as (_ & _ & H). by apply H.
Qed.

Lemma deliver_one_again s d :
  seen s (ge_event_id d.1) ->
  ev_commands (deliver_one s d) = ev_commands s /\
  gateway_events (deliver_one s d) = gateway_events s /\
  gateway_status (deliver_one s d) = gateway_status s.
Proof.
  intros Hs. unfold deliver_one. destruct (append s d.1 d.2) as [[s' r]|] eqn:H; [|done].
  apply append_spec in H as ([? ? ? ?|? ? Hn ? ?] & _ & _); [done|].
  unfold seen in Hs. rewrite Hn in Hs. by destruct Hs.
Qed.

Lemma deliver_all_again ds : forall s,
  Forall (fun d => seen s (ge_event_id d.1)) ds ->
  ev_commands (deliver_all s ds) = ev_commands s /\
  gateway_events (deliver_all s ds) = gateway_events s /\
  gateway_status (deliver_all s ds) = gateway_status s.
Proof.
  induction ds as [|d ds IH]; intros s H; cbn; [done|].
  apply list.Forall_cons in H as [Hd Hds].
  destruct (deliver_one_again s d Hd) as (H1 & H2 & H3).
  destruct (IH (deliver_one s d)) as (H4 & H5 & H6).
  { eapply list.Forall_impl; [exact Hds|]. intros d' ?. by apply deliver_one_seen. }
  by rewrite H4, H5, H6.
Qed.

(** ** The last heartbeat *)

(** What a status table says of the last heartbeat. *)
Definition heartbeat_of (status : gmap string string) : option Z :=
  match status !! "last_heartbeat_at" with
  | Some v => match parse_timestamp (JStr v) "last_heartbeat_at" with Ok t => Some t | Err _ => None end
  | None => None
  end.
Definition last_heartbeat (s : event_store) : option Z := heartbeat_of (gateway_status s).

(** It holds a timestamp the store wrote. *)
Definition heartbeat_ok (status : gmap string string) : Prop :=
  forall v, status !! "last_heartbeat_at" = Some v ->
  exists t, is_datetime t = true /\ v = datetime_to_wire t.

Lemma upsert_one_other p status key :
  fst key <> "last_heartbeat_at" ->
  upsert_one json_dumps p status key !! "last_heartbeat_at" = status !! "last_heartbeat_at".
Proof. intros H. unfold upsert_one. destruct (jget _ _); [|done]. by rewrite lookup_insert_ne. Qed.

Lemma heartbeat_keys_other :
  Forall (fun key => fst key <> "last_heartbeat_at") status_keys.
Proof. apply (bool_decide_unpack _). vm_compute. exact I. Qed.

Lemma upsert_heartbeat_other p status :
  _upsert_heartbeat_status json_dumps p status !! "last_heartbeat_at" =
  status !! "last_heartbeat_at".
Proof.
  unfold _upsert_heartbeat_status. pose proof heartbeat_keys_other as H. revert status.
  induction H as [|key keys Hk _ IH]; intros status; cbn [fold_left]; [done|].
  by rewrite IH, upsert_one_other.
Qed.

Lemma wire_not_empty t : exists c s, datetime_to_wire t = String c s.
Proof.
  unfold datetime_to_wire, date_isoformat. destruct (civil_of_days _) as [[y m] d].
  by eexists _, _.
Qed.

Lemma heartbeat_of_wire status t :
  is_datetime t = true -> status !! "last_heartbeat_at" = Some (datetime_to_wire t) ->
  heartbeat_of status = Some t.
Proof. intros Ht Hs. unfold heartbeat_of. by rewrite Hs, parse_wire. Qed.

Lemma status_after_heartbeat event_type ts received_at p status status' :
  heartbeat_ok status -> is_datetime ts = true ->
  status_after json_dumps event_type (datetime_to_wire ts) received_at p status = Ok status' ->
  heartbeat_ok status' /\
  forall t, heartbeat_of status = Some t -> exists t', heartbeat_of status' = Some t' /\ t <= t'.
Proof.
  intros Hok Hts. unfold status_after. cbv zeta.
  set (st1 := <["last_event_received_at" := received_at]> status).
  assert (Hsame : st1 !! "last_heartbeat_at" = status !! "last_heartbeat_at")
    by (unfold st1; by rewrite lookup_insert_ne).
  assert (Hkeep : forall st, st !! "last_heartbeat_at" = status !! "last_heartbeat_at" ->
    heartbeat_ok st /\
    forall t, heartbeat_of status = Some t -> exists t', heartbeat_of st = Some t' /\ t <= t').
  { intros st Hst. split; [intros v Hv; apply Hok; congruence|]. intros t Ht. exists t.
    unfold heartbeat_of in *. rewrite Hst. split; [done|lia]. }
  destruct (String.eqb event_type "heartbeat"); [|intros [= <-]; by apply Hkeep].
  intros H. apply res_bind_ok in H as (fresh & Hf & H). injection H as <-.
  destruct fresh; [|by apply Hkeep].
  set (st2 := _upsert_heartbeat_status _ _ _).
  assert (Hst2 : st2 !! "last_heartbeat_at" = Some (datetime_to_wire ts)).
  { unfold st2. by rewrite upsert_heartbeat_other, lookup_insert_eq. }
  split; [intros v Hv; exists ts; split; [done|congruence]|].
  intros t Ht. exists ts. split; [by apply heartbeat_of_wire|].
  destruct (status !! "last_heartbeat_at") as [v|] eqn:Hv; [|unfold heartbeat_of in Ht; by rewrite Hv in Ht].
  destruct (Hok v Hv) as (t0 & Ht0 & ->).
  rewrite (heartbeat_of_wire status t0) in Ht by done. injection Ht as <-.
  unfold _heartbeat_is_fresh in Hf. rewrite Hsame in Hf.
  destruct (wire_not_empty t0) as (c & w & Hw). rewrite Hw in Hf. rewrite <- Hw in Hf.
  rewrite !parse_wire in Hf by done. injection Hf as Hf. by apply Z.leb_le in Hf.
Qed.

Lemma deliver_one_heartbeat s d :
  heartbeat_ok (gateway_status s) -> is_datetime (ge_ts d.1) = true ->
  heartbeat_ok (gateway_status (deliver_one s d)) /\
  forall t, last_heartbeat s = Some t -> exists t', last_heartbeat (deliver_one s d) = Some t' /\ t <= t'.
Proof.
  intros Hok Hts. unfold deliver_one, last_heartbeat.
  destruct (append s d.1 d.2) as [[s' r]|] eqn:H; [|eauto with lia].
  apply append_spec in H as ([_ _ _ ->|received utc' _ _ Hst] & _ & _); [eauto with lia|].
  by eapply status_after_heartbeat.
Qed.

Lemma deliver_all_seen ds : forall s k, seen s k -> seen (deliver_all s ds) k.
Proof. induction ds as [|d ds IH]; intros s k Hk; cbn; [done|]. by apply IH, deliver_one_seen. Qed.

Lemma deliver_all_heartbeat ds : forall s,
  heartbeat_ok (gateway_status s) -> Forall (fun d => is_datetime (ge_ts d.1) = true) ds ->
  heartbeat_ok (gateway_status (deliver_all s ds)) /\
  forall t, last_heartbeat s = Some t -> exists t', last_heartbeat (deliver_all s ds) = Some t' /\ t <= t'.
Proof.
  induction ds as [|d ds IH]; intros s Hok Hds; cbn; [eauto with lia|].
  apply list.Forall_cons in Hds as [Hd Hds].
  destruct (deliver_one_heartbeat s d Hok Hd) as [Hok1 Hle1].
  destruct (IH _ Hok1 Hds) as [Hok2 Hle2]. split; [done|].
  intros t Ht. destruct (Hle1 _ Ht) as (t1 & Ht1 & ?). destruct (Hle2 _ Ht1) as (t2 & ? & ?).
  exists t2. split; [done|lia].
Qed.
End Appends.


(** C15. At-least-once delivery is applied exactly once: after any deliveries,
    delivering again events that were recorded among them, in any order, any
    number of times and however often the database is locked meanwhile, changes
    no command, no boundary, no recorded event and no gateway status. *)
Theorem redelivery_changes_nothing py_repr json_dumps hash_payload s ds again :
  (forall d, d ∈ again -> exists before d0 after,
     ds = before ++ d0 :: after /\ ge_event_id d0.1 = ge_event_id d.1 /\
     is_ok (append_gateway_event py_repr json_dumps hash_payload
              (deliver_all py_repr json_dumps hash_payload s before) d0.1 d0.2) = true) ->
  let s1 := deliver_all py_repr json_dumps hash_payload s ds in
  let s2 := deliver_all py_repr json_dumps hash_payload s (ds ++ again) in
  ev_commands s2 = ev_commands s1 /\ gateway_events s2 = gateway_events s1 /\
  gateway_status s2 = gateway_status s1.
Proof.
  intros H. cbv zeta. unfold deliver_all. rewrite foldl_app.
  apply deliver_all_again, list.Forall_forall. intros d Hd.
  destruct (H d Hd) as (before & d0 & after & -> & <- & Hok).
  rewrite foldl_app. cbn [foldl]. apply deliver_all_seen. unfold deliver_one.
  fold (deliver_all py_repr json_dumps hash_payload s before).
  destruct (append_gateway_event _ _ _ _ _ _) as [[s' r]|] eqn:Ha; [|done].
  by apply append_spec in Ha as (_ & Hs & _).
Qed.

(** The last heartbeat never goes back: whatever events arrive, in whatever
    order and however often, the time the status table gives for the gateway's
    last heartbeat is at least the one it gave before. *)
Theorem last_heartbeat_never_goes_back py_repr json_dumps hash_payload s ds ds' t :
  gateway_status s !! "last_heartbeat_at" = None ->
  Forall (fun d => is_datetime (ge_ts d.1) = true) (ds ++ ds') ->
  last_heartbeat (deliver_all py_repr json_dumps hash_payload s ds) = Some t ->
  exists t', last_heartbeat (deliver_all py_repr json_dumps hash_payload s (ds ++ ds')) = Some t' /\
             t <= t'.
Proof.
  intros Hn [Hds Hds']%list.Forall_app Ht.
  destruct (deliver_all_heartbeat py_repr json_dumps hash_payload ds s) as [Hok _];
    [intros v Hv; congruence|done|].
  unfold deliver_all in *. rewrite foldl_app.
  by apply (deliver_all_heartbeat py_repr json_dumps hash_payload ds').
Qed.

(** ** Sample events *)

Definition empty_events : event_store :=
  {| ev_commands := empty_store; raw_events := ∅; gateway_events := ∅; gateway_status := ∅ |}.

Definition heartbeat_at (eid : string) (t : Z) : GatewayEvent :=
  {| ge_event_type := "heartbeat"; ge_payload := [("broker_env", JStr "SIMULATION")];
     ge_event_id := eid; ge_source := "kiwoom_gateway"; ge_ts := t; ge_command_id := None;
     ge_idempotency_key := None |}.

(** Delivered at the second attempt. *)
Definition delivered (e : GatewayEvent) (t : Z) : delivery := (e, [(true, t, t); (false, t, t)]).

Definition sample_deliver : event_store -> list delivery -> event_store :=
  deliver_all (fun _ => "") (fun _ => "") (fun _ => "hash").

Lemma redelivery_changes_nothing_witness :
  let d := delivered (heartbeat_at "evt-1" (seconds 5)) (seconds 6) in
  let d' := delivered (heartbeat_at "evt-2" (seconds 9)) (seconds 10) in
  gateway_status (sample_deliver empty_events ([d; d'] ++ [d; d])) =
  gateway_status (sample_deliver empty_events [d; d']).
Proof.
  cbv zeta. unfold sample_deliver.
  eapply (redelivery_changes_nothing (fun _ => "") (fun _ => "") (fun _ => "hash") empty_events
            [delivered (heartbeat_at "evt-1" (seconds 5)) (seconds 6);
             delivered (heartbeat_at "evt-2" (seconds 9)) (seconds 10)]).
  intros d Hd. assert (d = delivered (heartbeat_at "evt-1" (seconds 5)) (seconds 6)) as -> by set_solver.
  exists [], (delivered (heartbeat_at "evt-1" (seconds 5)) (seconds 6)),
    [delivered (heartbeat_at "evt-2" (seconds 9)) (seconds 10)].
  split; [reflexivity|]. split; [reflexivity|]. vm_compute. reflexivity.
Defined.

(** An older heartbeat arrives late. *)
Lemma last_heartbeat_never_goes_back_witness :
  exists t', last_heartbeat (sample_deliver empty_events
    ([delivered (heartbeat_at "evt-2" (seconds 9)) (seconds 10)] ++
     [delivered (heartbeat_at "evt-1" (seconds 5)) (seconds 11)])) = Some t' /\ seconds 9 <= t'.
Proof.
  unfold sample_deliver.
  apply (last_heartbeat_never_goes_back (fun _ => "") (fun _ => "") (fun _ => "hash") empty_events).
  - reflexivity.
  - repeat constructor.
  - vm_compute. reflexivity.
Defined.
