(* ===== verification/OrderJourney.v ===== *)
(** * The journey of an order: core, network and gateway together

    The core's command store behind its event store, the gateway process, and
    what is between them: commands handed out and not yet handled, events
    emitted and not yet recorded.  Answers and requests are lost, events arrive
    late, repeatedly or not at all, the gateway restarts with nothing but its
    journal, and every clock, disk and broker answer is arbitrary.

    The theorems follow one right to send an order through the whole service:
    the queued row, a copy handed out, a rate-limit report on its way back, or
    the call of the broker. *)
From S2P Require Import Prelude PyFloat BrokerUtils WireTime GatewayModels OrderBoundary CommandStore CommandHistory LiveSimModels BrokerMessages EventStore KiwoomOrders OrderJournal KiwoomRuntime OrderHandling.
From stdpp Require Import pretty.
Local Open Scope Z_scope.

(** ** The right of a command to be sent again *)

Definition queued (cid : string) (s : store) : nat :=
  match commands s !! cid with
  | Some c => if decide (gc_status c = GS.QUEUED) then 1%nat else 0%nat
  | None => 0%nat
  end.

Definition for_command (cid : string) (c : GatewayCommand) : bool := String.eqb (command_id c) cid.
Definition copies (cid : string) (cs : list GatewayCommand) : nat := count_if (for_command cid) cs.

Section Queue.
Context (py_repr : json -> string) (hash_payload : payload -> string).
Context {gate : RoutingGate}.
Abbreviation ok := (store_ok false py_repr).

(** No row is put in the queue. *)
Definition unqueued (s s' : store) : Prop := forall cid, (queued cid s' <= queued cid s)%nat.

#[export] Instance unqueued_preorder : PreOrder unqueued.
Proof. split; [by intros s cid|]. intros a b c Hab Hbc cid. specialize (Hab cid). specialize (Hbc cid). lia. Qed.

(** Row by row: a row that is queued after was queued before. *)
Lemma unqueued_rows s s' :
  (forall cid c', commands s' !! cid = Some c' -> gc_status c' = GS.QUEUED ->
     exists c, commands s !! cid = Some c /\ gc_status c = GS.QUEUED) ->
  unqueued s s'.
Proof.
  intros H cid. unfold queued. destruct (commands s' !! cid) as [c'|] eqn:Hc'; [|lia].
  destruct (decide (gc_status c' = GS.QUEUED)) as [Hq|]; [|lia].
  destruct (H _ _ Hc' Hq) as (c & -> & Hc). by rewrite decide_True.
Qed.

Lemma unqueued_expire now s : unqueued s (expire_queued_commands s now).
Proof.
  apply unqueued_rows. intros cid c'. unfold expire_queued_commands. cbn [commands set_commands].
  unfold expire_queued, update_where. rewrite lookup_fmap.
  destruct (commands s !! cid) as [c|]; cbn; [|done]. intros [= <-].
  case_match; [done|]. eauto.
Qed.

Lemma unqueued_stale s timeout now now' s' n :
  ok s -> expire_stale_gateway_commands py_repr s timeout now now' = Ok (s', n) -> unqueued s s'.
Proof.
  intros Hs H. destruct (expire_stale_spec false py_repr s timeout now now' Hs) as (s2 & n2 & H2 & Hr & _).
  rewrite H in H2. injection H2 as <- _. apply unqueued_rows. intros cid c'. rewrite Hr.
  destruct (commands s !! cid) as [c|]; cbn; [|done]. intros [= <-].
  unfold after_stale, after_fail. cbv zeta. intros Hq. exists c. split; [done|].
  revert Hq. repeat case_match; cbn; congruence.
Qed.


(** A dispatch spends the queue's right on the copies it hands out. *)
Lemma dispatch_spends s limit now0 now s' cs cid :
  ok s -> _dispatch_ready_commands py_repr s limit now0 now = (s', Ok cs) ->
  (queued cid s' + copies cid cs <= queued cid s)%nat.
Proof.
  intros Hs Hd. pose proof (dispatch_cases py_repr s limit now0 now) as Hc. rewrite Hd in Hc.
  remember (s', Ok cs) as out eqn:Hout.
  destruct Hc as [|e|s2 rs s1 blocked Hrs Hl]; [injection Hout as -> <-; cbn; lia|done|].
  injection Hout as -> Hcs.
  assert (Hs1 : ok s1) by by apply expire_queued_ok.
  assert (Hnd : NoDup (map gc_command_id rs)) by (subst rs; by eapply ready_rows_NoDup).
  assert (Hin : forall r, r ∈ rs -> commands s1 !! gc_command_id r = Some r /\ gc_status r = GS.QUEUED).
  { intros r Hr. rewrite Hrs in Hr. apply (dispatch_rows_ready false py_repr) in Hr; naive_solver. }
  rewrite (rows_to_commands py_repr) in Hcs.
  2: { intros r Hr. destruct (Hin r Hr) as (Hr1 & _). by destruct (so_commands _ _ _ Hs1 _ _ Hr1). }
  injection Hcs as <-.
  apply (dispatch_loop_ok false) in Hl as (_ & Hh & Hout & _); [|done..].
  assert (Hle : (queued cid s1 <= queued cid s)%nat) by exact (unqueued_expire now s cid).
  assert (Hcount : forall l, NoDup (map gc_command_id l) ->
    (copies cid (map handed_command l) <= 1)%nat /\
    (cid ∉ map gc_command_id l -> copies cid (map handed_command l) = 0%nat)).
  { clear. induction l as [|r l IH]; intros Hnd; [cbn; split; [lia|done]|].
    cbn [map] in *. apply list.NoDup_cons in Hnd as [Hn Hnd]. destruct (IH Hnd) as [H1 H2].
    unfold copies in *. rewrite count_if_cons. unfold for_command at 1 3. cbn [handed_command command_id].
    destruct (String.eqb_spec (gc_command_id r) cid) as [Heq|Hne].
    - rewrite H2 by (by rewrite <- Heq). rewrite Heq. split; [lia|]. intros Hx. exfalso. apply Hx, elem_of_cons. by left.
    - split; [lia|]. intros Hx. apply H2. intros ?. apply Hx, elem_of_cons. by right. }
  destruct (Hcount rs Hnd) as [H1 H2].
  destruct (decide (cid ∈ map gc_command_id rs)) as [Hx|Hx].
  - apply elem_of_map in Hx as (r & <- & Hr). destruct (Hin r Hr) as [Hr1 Hq].
    assert (queued (gc_command_id r) s1 = 1%nat) as Hq1.
    { unfold queued. rewrite Hr1. by rewrite decide_True. }
    assert (queued (gc_command_id r) s' = 0%nat) as ->.
    { unfold queued. rewrite (Hh r Hr). unfold handed. cbn [gc_status set_dispatched set_status].
      destruct (order_row r); by case_decide. }
    lia.
  - rewrite (H2 Hx). assert (queued cid s' = queued cid s1) as ->; [|lia].
    unfold queued. by rewrite Hout.
Qed.

Lemma dispatch_err s limit now0 now s' e :
  ok s -> _dispatch_ready_commands py_repr s limit now0 now = (s', Err e) -> s' = s.
Proof.
  intros Hs Hd. pose proof (dispatch_cases py_repr s limit now0 now) as Hc. rewrite Hd in Hc.
  remember (s', Err e) as out eqn:Hout.
  destruct Hc as [|e'|s2 rs s1 blocked Hrs Hl]; [done|by injection Hout as <- _|].
  injection Hout as -> Hcs. exfalso. rewrite (rows_to_commands py_repr) in Hcs; [done|].
  assert (Hs1 : ok s1) by by apply expire_queued_ok.
  intros r Hr. rewrite Hrs in Hr. apply (dispatch_rows_ready false py_repr) in Hr as (Hr & _); [|done].
  by destruct (so_commands _ _ _ Hs1 _ _ Hr).
Qed.

(** What an answer to a poll hands out. *)
Definition handed_out (r : option (res (list GatewayCommand))) : list GatewayCommand :=
  match r with Some (Ok cs) => cs | _ => [] end.

Lemma attempt_spends s limit a s' r cid :
  ok s -> poll_attempt py_repr s limit a = (s', r) ->
  (queued cid s' + copies cid (match r with Ok (Some cs) => cs | _ => [] end) <= queued cid s)%nat.
Proof.
  intros Hs. unfold poll_attempt.
  destruct (expire_stale_ok false py_repr s DEFAULT_DISPATCH_TIMEOUT_SEC (at_expire a)
              (at_health a) Hs) as (s1 & n & E & Hs1 & _ & _). rewrite E.
  pose proof (unqueued_stale _ _ _ _ _ _ Hs E cid) as Hle.
  destruct (at_lock a); [|intros [= <- <-]; cbn; lia..].
  destruct (_dispatch_ready_commands py_repr s1 limit (at_precheck a) (at_begin a)) as [s2 [cs|e]] eqn:Hd;
    intros [= <- <-]; cbn [res_bind].
  - pose proof (dispatch_spends _ _ _ _ _ _ cid Hs1 Hd). lia.
  - apply dispatch_err in Hd as ->; [|done]. cbn. lia.
Qed.

Lemma poll_spends limit deadline attempts cid : forall s s' r,
  ok s -> poll_loop py_repr s limit deadline attempts = (s', r) ->
  (queued cid s' + copies cid (handed_out r) <= queued cid s)%nat.
Proof.
  induction attempts as [|a rest IH]; intros s s' r Hs; cbn [poll_loop].
  { intros [= <- <-]. cbn. lia. }
  destruct (attempt_ok py_repr false s limit a Hs) as [Hs1 _].
  destruct (poll_attempt py_repr s limit a) as [s1 o] eqn:E.
  pose proof (attempt_spends _ _ _ _ _ cid Hs E) as Hle. cbn [fst] in Hs1.
  destruct o as [[cs|]|e].
  - destruct (_ || _); [by intros [= <- <-]|]. intros H. pose proof (IH _ _ _ Hs1 H). lia.
  - destruct (deadline <=? _); [by intros [= <- <-]|]. intros H. pose proof (IH _ _ _ Hs1 H).
    unfold copies, count_if in Hle. cbn in Hle. lia.
  - by intros [= <- <-].
Qed.

Lemma queued_le cid s : (queued cid s <= 1)%nat.
Proof. unfold queued. destruct (commands s !! cid); [case_decide|]; lia. Qed.

Lemma queued_none cid s : commands s !! cid = None -> queued cid s = 0%nat.
Proof. unfold queued. by intros ->. Qed.

(** Enqueueing puts only a new command in the queue. *)
Lemma enqueue_queues s c e now now' cid :
  commands s !! cid <> None \/ cid <> command_id c ->
  queued cid (enqueue_command py_repr hash_payload s c e now now').1 = queued cid s.
Proof.
  intros Hcid. unfold enqueue_command. cbv zeta.
  destruct (validate_command_type_allowed _ _ _); [done|].
  destruct (commands s !! command_id c) eqn:Hc; [done|].
  destruct (match idempotency_key c with Some k => _ | None => _ end) as [s1 er] eqn:E.
  assert (Hs1 : commands s1 = commands s).
  { destruct (idempotency_key c); [by apply find_dedupe_keeps in E as [? _]|by injection E as <- _]. }
  assert (Hq1 : queued cid s1 = queued cid s) by (unfold queued; by rewrite Hs1).
  destruct er; cbn [fst]; [done|].
  destruct (enqueue_rows s1 c _ e now) eqn:Er; cbn [fst]; [|done].
  apply enqueue_rows_spec in Er as (_ & Hcs & _). unfold queued. rewrite Hcs, Hs1.
  rewrite lookup_insert_ne; [done|]. intros <-. destruct Hcid; congruence.
Qed.

Lemma status_of_boundary_queued s : status_of_boundary s <> GS.QUEUED.
Proof. by destruct s. Qed.

Lemma next_status_queued current oc t b :
  next_event_status current oc t b = Some GS.QUEUED -> current = GS.QUEUED.
Proof.
  assert (Hs : forall oc', _status_for_command_event t oc' <> Some GS.QUEUED).
  { intros oc'. unfold _status_for_command_event. repeat case_match; congruence. }
  unfold next_event_status. destruct oc; cbn [negb]; [|intros H; by apply Hs in H].
  destruct (_status_for_command_event t true) as [st|] eqn:E; [|done].
  assert (Heff : _effective_order_command_status current st = GS.QUEUED -> current = GS.QUEUED \/ st = GS.QUEUED).
  { unfold _effective_order_command_status. repeat case_match; subst; naive_solver. }
  assert (Hst : st <> GS.QUEUED) by (intros ->; by apply (Hs true)).
  destruct b as [b|]; destruct st; intros [= H];
    try (by apply status_of_boundary_queued in H); destruct (Heff H); congruence.
Qed.

Lemma event_requeues s cid t p eid oc utc utc' s' st :
  record_command_event py_repr s cid t p eid oc utc utc' = Ok (s', st) ->
  (is_rate_limited t = false -> unqueued s s') /\
  (forall k, k <> cid -> queued k s' = queued k s).
Proof.
  unfold record_command_event. cbv zeta. intros H. apply res_bind_ok in H as ([bs bst] & _ & H).
  set (s1 := log_event _ _) in H.
  assert (Hs1 : commands s1 = commands s) by done.
  assert (Halter : forall f, (forall k, k <> cid -> queued k (update_command cid f s1) = queued k s)).
  { intros f k Hk. unfold queued, update_command. cbn [commands set_commands].
    by rewrite Hs1, lookup_alter_ne by congruence. }
  assert (Hsame : forall k, queued k s1 = queued k s) by (intros k; unfold queued; by rewrite Hs1).
  fold (is_rate_limited t) in H. destruct (is_rate_limited t).
  - split; [done|]. intros k Hk. apply requeue_spec in H as [->|(c & a & _ & _ & ->)]; [done|by apply Halter].
  - injection H as <- _. split.
    + intros _ k. destruct (match commands s !! cid with Some c => _ | None => _ end) as [n|] eqn:Hn.
      2: { by rewrite Hsame. }
      destruct (decide (k = cid)) as [->|Hk]; [|unfold apply_event_status; by rewrite Halter].
      unfold queued, apply_event_status, update_command. cbn [commands set_commands].
      rewrite Hs1, lookup_alter_eq. destruct (commands s !! cid) as [c|]; cbn; [|lia].
      case_decide as Hd; [|lia]. subst n. apply next_status_queued in Hn. rewrite decide_True by done. lia.
    + intros k Hk. case_match; [unfold apply_event_status; by rewrite Halter|by rewrite Hsame].
Qed.
End Queue.

(** ** The core behind the network *)

Record core := { co_events : event_store; co_step : nat }.

(** Whether the request numbered [n] reaches the core, whether its answer comes
    back, and how the append goes. *)
Class Network := {
  arrives : nat -> bool;
  answered : nat -> bool;
  append_tries : nat -> list (bool * Z * Z)
}.

Section Core.
Context (py_repr : json -> string) (json_dumps : json -> string)
  (hash_payload : payload -> string) {network : Network}.
Abbreviation ok := (store_ok false py_repr).

#[export] Instance core_client : CoreClient core :=
  fun e c =>
    let n := co_step c in
    if arrives n then
      let '(s, r) := post_order_pre_ack py_repr json_dumps hash_payload (co_events c) e
                       (append_tries n) in
      ({| co_events := s; co_step := S n |},
       if answered n then r else Err (OtherError "GatewayTransportError"))
    else ({| co_events := co_events c; co_step := S n |}, Err (OtherError "GatewayTransportError")).

Definition core_store (c : core) : store := ev_commands (co_events c).

Definition pre_acked (cid : string) (s : store) : Prop :=
  exists b, boundaries s !! cid = Some b /\ is_Some (b_pre_ack_recorded_at b).

Lemma pre_acked_extends cid s s' :
  extends (boundaries s) (boundaries s') -> pre_acked cid s -> pre_acked cid s'.
Proof.
  intros He (b & Hb & [t Ht]). destruct (He _ _ Hb) as (b' & Hb' & Ha). exists b'. split; [done|].
  exists t. destruct (adv_times _ _ Ha) as (_ & _ & Hk & _). by apply Hk.
Qed.

(** What an append can do to the commands. *)
Record follows (s s' : store) : Prop := {
  fo_ok : ok s';
  fo_same : same_commands (commands s) (commands s');
  fo_extends : extends (boundaries s) (boundaries s')
}.

Lemma follows_refl s : ok s -> follows s s.
Proof. by split. Qed.

Lemma rate_limited_norm t : is_rate_limited (py_lower (py_strip t)) = is_rate_limited t.
Proof. unfold is_rate_limited. by rewrite py_strip_lower, py_strip_idem, py_lower_idem. Qed.

Lemma appended_follows s e s' :
  ok (ev_commands s) -> appended py_repr json_dumps s e s' ->
  follows (ev_commands s) (ev_commands s') /\
  (is_rate_limited (ge_event_type e) = false -> unqueued (ev_commands s) (ev_commands s')) /\
  (forall cid, cid <> command_of_event e -> queued cid (ev_commands s') = queued cid (ev_commands s)) /\
  (seen s (ge_event_id e) -> ev_commands s' = ev_commands s).
Proof.
  intros Hs [Hseen -> _ _|received utc' Hn Hc _].
  - split_and!; [by apply follows_refl|done|done|done].
  - cbv zeta in Hc. destruct (is_command_event _ _).
    + destruct Hc as [st Hc]. assert (Hk := Hc).
      apply (event_keeps false) in Hk as (? & ? & ?); [|done|done].
      apply event_requeues in Hc as [Hu Hne]. rewrite rate_limited_norm in Hu.
      split_and!; [by split|done|done|]. intros [row Hrow]. congruence.
    + rewrite Hc. split_and!; [by apply follows_refl|done|done|done].
Qed.

Lemma post_spec e c c' r :
  post_event e c = (c', r) ->
  (co_events c' = co_events c \/
   (appended py_repr json_dumps (co_events c) e (co_events c') /\
    seen (co_events c') (ge_event_id e) /\
    forall k, seen (co_events c) k -> seen (co_events c') k)) /\
  forall fields cid, r = Ok (JObj fields) -> ge_command_id e = Some cid ->
    is_True (jget "durable_pre_ack_recorded" fields) = true -> pre_acked cid (core_store c').
Proof.
  unfold post_event, core_client, post_order_pre_ack. cbv zeta. destruct (arrives (co_step c)).
  2: { intros [= <- <-]. split; [by left|done]. }
  destruct (append_gateway_event _ _ _ _ _ _) as [[s' res]|x] eqn:Ha.
  2: { intros [= <- <-]. split; [by left|]. intros fields cid H. by destruct (answered _). }
  apply append_spec in Ha as (Ha & Hseen & Hmono). intros [= <- <-].
  split; [by right|]. intros fields cid Hr Hcid. destruct (answered _); [|done].
  rewrite Hcid in Hr. case_match; [done|]. case_match; [done|]. injection Hr as <-.
  unfold core_store. cbn [co_events].
  destruct (boundaries (ev_commands s') !! cid) as [b|] eqn:Hb; cbn; [|done].
  case_bool_decide as Hp; [|done]. intros _. by exists b.
Qed.

#[export, refine] Instance durable_core : DurableCore core :=
  {| core_ok c := ok (core_store c); durable cid c := pre_acked cid (core_store c) |}.
Proof.
  - intros e x x' r H Hok. apply post_spec in H as [[H|(H & _)] _]; unfold core_store in *;
      [by rewrite H|]. by apply appended_follows in H as [[? _ _] _].
  - intros e x x' r cid H Hok Hd. apply post_spec in H as [[H|(H & _)] _]; unfold core_store in *;
      [by rewrite H|]. apply appended_follows in H as [[_ _ He] _]; [|done].
    by eapply pre_acked_extends.
  - intros e x x' fields cid H _ _ Hcid _ Hd. apply post_spec in H as [_ H]. by eapply H.
Defined.
End Core.

(** ** The whole service *)

Section Journey.
Context (py_repr : json -> string) (json_dumps : json -> string)
  (hash_payload : payload -> string) {network : Network} {gate : RoutingGate}
  {outside : Outside} (cfg : gateway_config)
  (non_order : string -> GatewayCommand -> SE (core * gateway) (list GatewayEvent)).
Abbreviation ok := (store_ok false py_repr).
Abbreviation core_of := (@core_client py_repr json_dumps hash_payload network).

Record journey := {
  jo_core : core;
  jo_gateway : gateway;
  jo_inbox : list GatewayCommand
}.
Definition jo_store (j : journey) : store := core_store (jo_core j).

Definition with_store (s : store) (j : journey) : journey :=
  {| jo_core := {| co_events := set_ev_commands s (co_events (jo_core j));
                   co_step := co_step (jo_core j) |};
     jo_gateway := jo_gateway j; jo_inbox := jo_inbox j |}.
Definition with_inbox (cs : list GatewayCommand) (j : journey) : journey :=
  {| jo_core := jo_core j; jo_gateway := jo_gateway j; jo_inbox := cs |}.
Definition with_world (w : core * gateway) (cs : list GatewayCommand) : journey :=
  {| jo_core := w.1; jo_gateway := w.2; jo_inbox := cs |}.
Definition with_events (s : event_store) (j : journey) : journey :=
  {| jo_core := {| co_events := s; co_step := co_step (jo_core j) |};
     jo_gateway := jo_gateway j; jo_inbox := jo_inbox j |}.

(** A new process: the journal is all it has; what the old one emitted may still
    arrive. *)
Definition restarted (g : gateway) : gateway :=
  {| g_step := g_step g; g_journal := g_journal g; g_governor := new_governor;
     g_pending := {| by_command_id := ∅; by_signature := ∅; by_broker_order_no := ∅ |};
     g_claimed := ∅; g_emitted := g_emitted g; g_calls := g_calls g |}.

(** The events that may arrive: those the gateway emitted, and, from its other
    parts, any that reports no rate limit of an order. *)
Definition may_arrive (j : journey) (e : GatewayEvent) : Prop :=
  e ∈ g_emitted (jo_gateway j) \/ is_rate_limited (ge_event_type e) = false \/
  exists c, commands (jo_store j) !! command_of_event e = Some c /\ order_row c = false.

Inductive journey_step : journey -> journey -> Prop :=
| journey_enqueue j c expires_at now now' :
    GatewayCommand_post_init c = Ok c ->
    journey_step j (with_store
      (enqueue_command py_repr hash_payload (jo_store j) c expires_at now now').1 j)
| journey_expire_queued j now :
    journey_step j (with_store (expire_queued_commands (jo_store j) now) j)
| journey_expire_stale j timeout now now' s n :
    expire_stale_gateway_commands py_repr (jo_store j) timeout now now' = Ok (s, n) ->
    journey_step j (with_store s j)
| journey_poll j limit wait start attempts s r :
    poll_commands py_repr (jo_store j) limit wait start attempts = (s, r) ->
    journey_step j (with_inbox (jo_inbox j ++ handed_out r) (with_store s j))
| journey_lose j before c after :
    jo_inbox j = before ++ c :: after -> journey_step j (with_inbox (before ++ after) j)
| journey_handle j before c after :
    jo_inbox j = before ++ c :: after -> order_of c ->
    journey_step j (with_world
      (handle_one (core := core_of) py_repr cfg non_order c (jo_core j, jo_gateway j)).1
      (before ++ after))
| journey_deliver j e attempts s r :
    may_arrive j e ->
    append_gateway_event py_repr json_dumps hash_payload (co_events (jo_core j)) e attempts =
      Ok (s, r) ->
    journey_step j (with_events s j)
| journey_restart j :
    journey_step j (with_world
      (replay_order_pre_ack_journal cfg (jo_core j, restarted (jo_gateway j))).1 (jo_inbox j)).

(** Nothing enqueued, handed out, emitted or sent; the journal may hold what an
    earlier run left. *)
Definition journey_start (journal : OrderJournal.journal) : journey :=
  {| jo_core := {| co_events := empty_events; co_step := 0 |};
     jo_gateway := set_journal journal new_gateway; jo_inbox := [] |}.

Definition journey_reachable (j : journey) : Prop :=
  exists journal, rtc journey_step (journey_start journal) j.

(** ** The right to send, in all its forms *)

(** A report not yet recorded. *)
Definition unseen (s : event_store) (e : GatewayEvent) : bool :=
  bool_decide (raw_events s !! ge_event_id e = None).

Definition rights (cid : string) (j : journey) : nat :=
  (queued cid (jo_store j) + copies cid (jo_inbox j) +
   spent (unseen (co_events (jo_core j))) cid (jo_gateway j))%nat.

Definition is_order (cid : string) (s : store) : Prop :=
  forall c, commands s !! cid = Some c -> order_row c = true.

Record journey_ok (j : journey) : Prop := {
  jok_store : ok (jo_store j);
  jok_calls : forall r, r ∈ g_calls (jo_gateway j) -> pre_acked (kr_command_id r) (jo_store j);
  jok_rights : forall cid, is_order cid (jo_store j) -> (rights cid j <= 1)%nat;
  jok_known : forall cid, commands (jo_store j) !! cid = None -> rights cid j = 0%nat
}.

Lemma same_none cs cs' cid : same_commands cs cs' -> cs' !! cid = None -> cs !! cid = None.
Proof. intros H Hn. specialize (H cid). rewrite Hn in H. by destruct (cs !! cid). Qed.

Lemma same_is_order s s' cid :
  same_commands (commands s) (commands s') -> is_order cid s' -> is_order cid s.
Proof.
  intros Hsame H c Hc. destruct (same_commands_some' _ _ _ _ Hsame Hc) as (c' & Hc' & Heq).
  rewrite <- (order_row_same c c') by done. by apply H.
Qed.

Lemma same_is_order' s s' cid :
  same_commands (commands s) (commands s') -> is_order cid s -> is_order cid s'.
Proof.
  intros Hsame H c' Hc'. destruct (same_commands_some _ _ _ _ Hsame Hc') as (c & Hc & Heq).
  rewrite (order_row_same c c') by done. by apply H.
Qed.

(** A step that adds no command and no right. *)
Lemma journey_ok_step j j' :
  journey_ok j -> follows py_repr (jo_store j) (jo_store j') ->
  (forall r, r ∈ g_calls (jo_gateway j') -> pre_acked (kr_command_id r) (jo_store j')) ->
  (forall cid, is_order cid (jo_store j) -> (rights cid j' <= rights cid j)%nat) -> journey_ok j'.
Proof.
  intros Hj [Hok Hsame _] Hcalls Hle. split; [done|done| |].
  - intros cid Ho. assert (Ho' := same_is_order _ _ _ Hsame Ho).
    pose proof (jok_rights _ Hj _ Ho'). pose proof (Hle _ Ho'). lia.
  - intros cid Hn. assert (Hn' := same_none _ _ _ Hsame Hn). pose proof (jok_known _ Hj _ Hn').
    assert (is_order cid (jo_store j)) as Ho by (intros c Hc; congruence).
    pose proof (Hle _ Ho). lia.
Qed.

Lemma calls_extends j s' :
  journey_ok j -> extends (boundaries (jo_store j)) (boundaries s') ->
  forall r, r ∈ g_calls (jo_gateway j) -> pre_acked (kr_command_id r) s'.
Proof. intros Hj He r Hr. eapply pre_acked_extends; [done|]. by apply (jok_calls _ Hj). Qed.

(** ** Every step keeps it *)

Lemma copies_app cid cs cs' : copies cid (cs ++ cs') = (copies cid cs + copies cid cs')%nat.
Proof. apply count_if_app. Qed.

Lemma copies_drop cid before c after :
  copies cid (before ++ c :: after) =
  ((if for_command cid c then 1 else 0) + copies cid (before ++ after))%nat.
Proof. unfold copies. rewrite !count_if_app, count_if_cons. lia. Qed.

Lemma enqueue_follows s c e now now' cid :
  ok s -> GatewayCommand_post_init c = Ok c ->
  let s' := (enqueue_command py_repr hash_payload s c e now now').1 in
  ok s' /\ boundaries s' = boundaries s /\
  (commands s !! cid <> None \/ cid <> command_id c -> commands s' !! cid = commands s !! cid).
Proof.
  intros Hs Hc. cbv zeta. split; [by apply enqueue_ok|]. unfold enqueue_command. cbv zeta.
  destruct (validate_command_type_allowed _ _ _); [done|].
  destruct (commands s !! command_id c) eqn:Hcc; [done|].
  destruct (match idempotency_key c with Some k => _ | None => _ end) as [s1 er] eqn:E.
  assert (commands s1 = commands s /\ boundaries s1 = boundaries s) as [Hs1 Hb1].
  { destruct (idempotency_key c); [by apply find_dedupe_keeps in E|by injection E as <- _]. }
  destruct er; cbn [fst]; [by rewrite Hs1, Hb1|].
  destruct (enqueue_rows s1 c _ e now) eqn:Er; cbn [fst]; [|done].
  apply enqueue_rows_spec in Er as (_ & -> & ->). rewrite Hs1, Hb1. split; [done|].
  intros Hcid. rewrite lookup_insert_ne; [done|]. intros <-. destruct Hcid; congruence.
Qed.

Lemma enqueue_keeps j c e now now' :
  journey_ok j -> GatewayCommand_post_init c = Ok c ->
  journey_ok (with_store (enqueue_command py_repr hash_payload (jo_store j) c e now now').1 j).
Proof.
  intros Hj Hc. pose proof (jok_store _ Hj) as Hs.
  set (s' := (enqueue_command py_repr hash_payload (jo_store j) c e now now').1).
  assert (Hspec : forall cid, ok s' /\ boundaries s' = boundaries (jo_store j) /\
    (commands (jo_store j) !! cid <> None \/ cid <> command_id c ->
     commands s' !! cid = commands (jo_store j) !! cid /\
     queued cid s' = queued cid (jo_store j))).
  { intros cid. destruct (enqueue_follows (jo_store j) c e now now' cid Hs Hc) as (H1 & H2 & H3).
    split_and!; [done|done|]. intros H. split; [by apply H3|by apply enqueue_queues]. }
  destruct (Hspec "") as (Hok & Hb & _).
  assert (Hrest : forall cid, rights cid (with_store s' j) =
    (queued cid s' + copies cid (jo_inbox j) +
     spent (unseen (co_events (jo_core j))) cid (jo_gateway j))%nat) by done.
  assert (Hr0 : forall cid, rights cid j = (queued cid (jo_store j) + copies cid (jo_inbox j) +
     spent (unseen (co_events (jo_core j))) cid (jo_gateway j))%nat) by done.
  split; [exact Hok| | |].
  - intros r Hr. apply (jok_calls _ Hj) in Hr as (b & Hbd & Hp). exists b. split; [|done].
    change (boundaries s' !! kr_command_id r = Some b). by rewrite Hb.
  - intros cid Ho. rewrite Hrest. change (is_order cid s') in Ho.
    destruct (commands (jo_store j) !! cid) as [row|] eqn:Hrow.
    + destruct (Hspec cid) as (_ & _ & H). destruct H as [Hcs Hq]; [left; congruence|].
      rewrite Hq, <- Hr0. apply (jok_rights _ Hj). intros c' Hc'. apply Ho. congruence.
    + pose proof (jok_known _ Hj _ Hrow) as Hz. rewrite Hr0 in Hz.
      pose proof (queued_le cid s'). lia.
  - intros cid Hn. rewrite Hrest. change (commands s' !! cid = None) in Hn.
    rewrite queued_none by done.
    assert (commands (jo_store j) !! cid = None) as Hrow.
    { destruct (commands (jo_store j) !! cid) as [row|] eqn:Hrow; [|done].
      destruct (Hspec cid) as (_ & _ & H). destruct H as [Hcs _]; [left; congruence|]. congruence. }
    pose proof (jok_known _ Hj _ Hrow) as Hz. rewrite Hr0 in Hz. lia.
Qed.

Lemma expire_follows s now : ok s -> follows py_repr s (expire_queued_commands s now).
Proof.
  intros Hs. split; [by apply expire_queued_ok| |done].
  apply same_update_where. by intros r.
Qed.

Lemma stale_follows s timeout now now' s' n :
  ok s -> expire_stale_gateway_commands py_repr s timeout now now' = Ok (s', n) ->
  follows py_repr s s'.
Proof.
  intros Hs H. destruct (expire_stale_ok false py_repr s timeout now now' Hs) as (s2 & n2 & H2 & ? & ? & ?).
  rewrite H in H2. injection H2 as <- _. by split.
Qed.

Lemma dispatch_same s limit now0 now :
  ok s -> same_commands (commands s) (commands (_dispatch_ready_commands py_repr s limit now0 now).1).
Proof.
  intros Hs. destruct (dispatch_cases py_repr s limit now0 now) as [|e|s' rs s1 blocked Hrs Hl]; [done..|].
  cbn [fst]. assert (Hs1 : ok s1) by by apply expire_queued_ok.
  transitivity (commands s1); [apply (expire_follows s now Hs)|].
  assert (Hin : forall r, r ∈ rs -> commands s1 !! gc_command_id r = Some r /\ gc_status r = GS.QUEUED).
  { intros r Hr. rewrite Hrs in Hr. apply (dispatch_rows_ready false py_repr) in Hr; naive_solver. }
  apply (dispatch_loop_ok false) in Hl as (_ & Hh & Hout & _);
    [|exact Hs1|subst rs; by eapply ready_rows_NoDup|exact Hin].
  intros cid. destruct (decide (cid ∈ map gc_command_id rs)) as [Hx|Hx]; [|by rewrite Hout].
  apply elem_of_map in Hx as (r & <- & Hr). destruct (Hin r Hr) as [Hr1 _].
  by rewrite Hr1, (Hh r Hr).
Qed.

Lemma poll_same limit deadline attempts : forall s,
  ok s -> same_commands (commands s) (commands (poll_loop py_repr s limit deadline attempts).1).
Proof.
  induction attempts as [|a rest IH]; intros s Hs; cbn [poll_loop]; [done|].
  assert (Ha : ok (poll_attempt py_repr s limit a).1 /\
               same_commands (commands s) (commands (poll_attempt py_repr s limit a).1)).
  { split; [apply (attempt_ok py_repr false s limit a Hs)|]. unfold poll_attempt.
    destruct (expire_stale_ok false py_repr s DEFAULT_DISPATCH_TIMEOUT_SEC (at_expire a)
                (at_health a) Hs) as (s1 & n & -> & Hs1 & Hsame & _).
    destruct (at_lock a); [|done..].
    pose proof (dispatch_same s1 limit (at_precheck a) (at_begin a) Hs1) as Hd.
    destruct (_dispatch_ready_commands _ _ _ _ _). by transitivity (commands s1). }
  destruct Ha as [Hs1 Hsame].
  destruct (poll_attempt py_repr s limit a) as [s1 [[cs|]|e]]; cbn [fst] in *; [| |done].
  - destruct (_ || _); [done|]. transitivity (commands s1); [done|by apply IH].
  - destruct (deadline <=? _); [done|]. transitivity (commands s1); [done|by apply IH].
Qed.

Lemma poll_follows s limit wait start attempts :
  ok s -> follows py_repr s (poll_commands py_repr s limit wait start attempts).1.
Proof.
  intros Hs. unfold poll_commands.
  destruct (poll_loop_ok py_repr false (Z.min (Z.max limit 1) 100)
    (start + Z.min (Z.max wait 0) (seconds 5)) attempts s Hs) as [? ?].
  split; [done|by apply poll_same|done].
Qed.

(** An event recorded is a report used up. *)
Lemma count_if_mono {A} (p p' : A -> bool) l :
  (forall a, a ∈ l -> p' a = true -> p a = true) -> (count_if p' l <= count_if p l)%nat.
Proof.
  induction l as [|a l IH]; intros H; [done|]. rewrite !count_if_cons.
  assert (count_if p' l <= count_if p l)%nat by (apply IH; intros b Hb; apply H, elem_of_cons; by right).
  destruct (p' a) eqn:E; [rewrite (H a) by (done || (apply elem_of_cons; by left))|]; lia.
Qed.

Lemma count_if_drop {A} (p p' : A -> bool) l x :
  (forall a, a ∈ l -> p' a = true -> p a = true) -> x ∈ l -> p x = true -> p' x = false ->
  (count_if p' l + 1 <= count_if p l)%nat.
Proof.
  intros H Hx Hp Hp'. induction Hx as [x l|x a l Hx IH].
  - rewrite !count_if_cons, Hp, Hp'.
    assert (count_if p' l <= count_if p l)%nat; [|lia].
    apply count_if_mono. intros b Hb. apply H, elem_of_cons. by right.
  - rewrite !count_if_cons. assert (count_if p' l + 1 <= count_if p l)%nat.
    { apply IH; [|done..]. intros b Hb. apply H, elem_of_cons. by right. }
    destruct (p' a) eqn:E; [rewrite (H a) by (done || (apply elem_of_cons; by left))|]; lia.
Qed.

Lemma unseen_mono s s' e :
  (forall k, seen s k -> seen s' k) -> unseen s' e = true -> unseen s e = true.
Proof.
  unfold unseen, seen. intros H Hu%bool_decide_eq_true. apply bool_decide_eq_true.
  destruct (raw_events s !! ge_event_id e) eqn:E; [|done].
  destruct (H (ge_event_id e)) as [x Hx]; [by eexists|]. congruence.
Qed.

Lemma limits_mono s s' cid e :
  (forall k, seen s k -> seen s' k) -> limits (unseen s') cid e = true -> limits (unseen s) cid e = true.
Proof.
  unfold limits. rewrite !andb_true_iff. intros H [? Hu]. split; [done|]. by eapply unseen_mono.
Qed.

Lemma spent_mono s s' cid g :
  (forall k, seen s k -> seen s' k) -> (spent (unseen s') cid g <= spent (unseen s) cid g)%nat.
Proof.
  intros H. unfold spent, cost.
  assert (count_if (limits (unseen s') cid) (g_emitted g) <=
          count_if (limits (unseen s) cid) (g_emitted g))%nat; [|lia].
  apply count_if_mono. intros e _. by apply limits_mono.
Qed.

Lemma deliver_rights j e attempts s r cid :
  journey_ok j -> may_arrive j e -> is_order cid (jo_store j) ->
  append_gateway_event py_repr json_dumps hash_payload (co_events (jo_core j)) e attempts = Ok (s, r) ->
  (rights cid (with_events s j) <= rights cid j)%nat.
Proof.
  intros Hj Hmay Ho Ha. apply append_spec in Ha as (Ha & Hseen & Hmono).
  pose proof (appended_follows _ _ _ _ _ (jok_store _ Hj) Ha) as (_ & Hu & Hne & Hold).
  pose proof (spent_mono _ _ cid (jo_gateway j) Hmono) as Hsp.
  unfold rights, with_events. unfold jo_store, core_store in *. cbn [jo_core jo_gateway jo_inbox co_events] in *.
  destruct (is_rate_limited (ge_event_type e)) eqn:Hrl; [|pose proof (Hu eq_refl cid); lia].
  destruct (decide (cid = command_of_event e)) as [->|Hcid]; [|rewrite Hne by done; lia].
  destruct (unseen (co_events (jo_core j)) e) eqn:Hun.
  2: { rewrite Hold; [lia|]. unfold unseen in Hun. apply bool_decide_eq_false in Hun.
       unfold seen. by destruct (raw_events _ !! _); [eexists|]. }
  destruct Hmay as [Hin|[?|(c & Hc & Hno)]]; [|congruence|].
  2: { specialize (Ho c Hc). congruence. }
  pose proof (queued_le (command_of_event e) (ev_commands s)).
  assert (count_if (limits (unseen s) (command_of_event e)) (g_emitted (jo_gateway j)) + 1 <=
          count_if (limits (unseen (co_events (jo_core j))) (command_of_event e))
            (g_emitted (jo_gateway j)))%nat.
  { apply (count_if_drop _ _ _ e); [intros a _; by apply limits_mono|done| |].
    - unfold limits. rewrite Hrl, Hun. unfold command_of_event, text_of. by rewrite String.eqb_refl.
    - unfold limits, unseen. rewrite bool_decide_false; [by rewrite andb_false_r|].
      intros Hn. unfold seen in Hseen. rewrite Hn in Hseen. by destruct Hseen. }
  unfold spent, cost in *. lia.
Qed.

(** What the core's state keeps while the gateway works on one command. *)
Definition core_after (x0 x : core) : Prop :=
  follows py_repr (core_store x0) (core_store x) /\ unqueued (core_store x0) (core_store x) /\
  forall k, seen (co_events x0) k -> seen (co_events x) k.

Lemma follows_trans s1 s2 s3 : follows py_repr s1 s2 -> follows py_repr s2 s3 -> follows py_repr s1 s3.
Proof. intros [? ? ?] [? ? ?]. split; [done|by etransitivity|by etransitivity]. Qed.

Lemma core_after_kept x0 e x x' r :
  is_rate_limited (ge_event_type e) = false -> post_event (CoreClient := core_of) e x = (x', r) ->
  core_after x0 x -> core_after x0 x'.
Proof.
  intros Hrl Hp (Hf & Hu & Hs). apply post_spec in Hp as [[Hx|(Ha & _ & Hm)] _].
  - unfold core_after, core_store in *. by rewrite Hx.
  - apply appended_follows in Ha as (Hf' & Hu' & _); [|apply Hf].
    split_and!; [by eapply follows_trans|transitivity (core_store x); [done|by apply Hu']|auto].
Qed.

Section Kept.
Context (x0 : core) (live : GatewayEvent -> bool) (cid : string) (bound : nat).
Definition durable_call (q : KiwoomOrderRequest) (x : core) : Prop := pre_acked (kr_command_id q) (core_store x).
Abbreviation keeps := (keeps live cid bound durable_call).

Lemma keeps_emit_harmless J n es :
  Forall harmless es -> keeps J n (emit_all (X := core) es) (fun _ => 0%nat).
Proof.
  intros He. apply keeps_emit_all.
  assert (cost live cid es = 0%nat) as ->; [|lia].
  induction He as [|e es He _ IH]; [done|].
  assert (cost live cid (e :: es) = (cost live cid [e] + cost live cid es)%nat) as ->
    by (change (e :: es) with ([e] ++ es); apply count_if_app).
  rewrite (harmless_cost live cid e He), IH. done.
Qed.

Lemma quiet_events_of path rs :
  quiet live cid bound durable_call (events_of (X := core) cfg path rs) /\
  yields (events_of (X := core) cfg path rs) (Forall harmless).
Proof.
  induction rs as [|r rs [IHq IHy]]; cbn [events_of].
  - split; [auto with budget|by apply yields_ret].
  - split.
    + apply quiet_bind; [apply quiet_new_event|]. intros e. apply quiet_bind; [done|auto with budget].
    + intros w w' es H. apply bind_ok in H as (w1 & e & H1 & H).
      apply bind_ok in H as (w2 & es' & H2 & [= _ <-]). constructor; [|by eapply IHy].
      apply bind_ok in H1 as (w3 & n & _ & H1). apply of_res_ok in H1 as [H1 _].
      apply post_init_type in H1 as [Ht _]. unfold harmless. by rewrite Ht.
Qed.

Lemma keeps_replay J : keeps J 0 (replay_order_pre_ack_journal cfg) (fun _ => 0%nat).
Proof.
  unfold replay_order_pre_ack_journal. destruct (cfg_journal_path cfg) as [path|]; [|by apply keeps_ret].
  eapply (keeps_bind live cid bound durable_call _ _ _ _ _ _ (Forall harmless)).
  - unfold recovery_events. apply (quiet_bind live cid bound durable_call OrderJournal.gate); [auto with budget|].
    intros g. apply quiet_events_of.
  - unfold recovery_events. apply yields_bind. intros g. apply quiet_events_of.
  - intros es Hes. by apply keeps_emit_harmless.
Qed.
End Kept.

Lemma restart_ok j :
  journey_ok j ->
  journey_ok (with_world (replay_order_pre_ack_journal cfg (jo_core j, restarted (jo_gateway j))).1
                (jo_inbox j)).
Proof.
  intros Hj. pose proof (jok_store _ Hj) as Hs.
  assert (H : forall cid, within (unseen (co_events (jo_core j))) cid
    (spent (unseen (co_events (jo_core j))) cid (jo_gateway j)) durable_call
    (fun x => x = jo_core j) 0 (replay_order_pre_ack_journal cfg (jo_core j, restarted (jo_gateway j))).1).
  { intros cid. destruct (replay_order_pre_ack_journal cfg (jo_core j, restarted (jo_gateway j)))
      as [w u] eqn:E.
    assert (Hw : within (unseen (co_events (jo_core j))) cid
      (spent (unseen (co_events (jo_core j))) cid (jo_gateway j)) durable_call
      (fun x => x = jo_core j) 0 (jo_core j, restarted (jo_gateway j))).
    { split_and!; [done|apply Nat.eq_le_incl, Nat.add_0_r|exact (jok_calls _ Hj)]. }
    pose proof (keeps_replay _ _ _ _ _ _ _ Hw E) as K.
    by destruct u. }
  destruct (H "") as (Hx & _ & Hc). eapply journey_ok_step; [exact Hj| |exact Hc|].
  - unfold jo_store, with_world. cbn [jo_core]. rewrite Hx. by apply follows_refl.
  - intros cid _. destruct (H cid) as (_ & Hsp & _). unfold rights, jo_store, with_world.
    cbn [jo_core jo_gateway jo_inbox]. rewrite Hx. lia.
Qed.

Lemma handle_step_ok j before c after :
  journey_ok j -> jo_inbox j = before ++ c :: after -> order_of c ->
  journey_ok (with_world
    (handle_one (core := core_of) py_repr cfg non_order c (jo_core j, jo_gateway j)).1
    (before ++ after)).
Proof.
  intros Hj Hin Ho. pose proof (jok_store _ Hj) as Hs.
  assert (H : forall cid, within (unseen (co_events (jo_core j))) cid
    (spent (unseen (co_events (jo_core j))) cid (jo_gateway j) + share cid c) durable_call
    (core_after (jo_core j)) 0
    (handle_one (core := core_of) py_repr cfg non_order c (jo_core j, jo_gateway j)).1).
  { intros cid. destruct (handle_one (core := core_of) py_repr cfg non_order c (jo_core j, jo_gateway j))
      as [w u] eqn:E.
    assert (Hw : within (unseen (co_events (jo_core j))) cid
      (spent (unseen (co_events (jo_core j))) cid (jo_gateway j) + share cid c) durable_call
      (core_after (jo_core j)) (share cid c) (jo_core j, jo_gateway j)).
    { split_and!; [split_and!; [by apply follows_refl|done|done]|cbn; lia|exact (jok_calls _ Hj)]. }
    pose proof (keeps_handle_one (dc := durable_core py_repr json_dumps hash_payload) py_repr cfg
      non_order (unseen (co_events (jo_core j))) cid
      (spent (unseen (co_events (jo_core j))) cid (jo_gateway j) + share cid c) durable_call
      (core_after (jo_core j)) (fun x Hx => fo_ok _ _ _ (proj1 Hx))
      (core_after_kept (jo_core j))
      ltac:(intros e x x' r q Hp Hx; exact (durable_kept e x x' r (kr_command_id q) Hp Hx))
      c Ho) as K.
    specialize (K ltac:(intros r x Hg [_ Hd]; unfold durable_call;
      destruct Hg as [_ _ _ _ Hg]; apply request_id in Hg as ->;
      destruct Ho as [_ Ho]; rewrite <- Ho; exact Hd) _ _ _ Hw E).
    by destruct u. }
  destruct (H "") as ((Hf & _ & _) & _ & Hc). eapply journey_ok_step; [exact Hj|exact Hf|exact Hc|].
  intros cid _. destruct (H cid) as ((_ & Hu & Hm) & Hsp & _).
  unfold rights, jo_store, with_world. cbn [jo_core jo_gateway jo_inbox].
  rewrite Hin, copies_drop. pose proof (Hu cid).
  pose proof (spent_mono _ _ cid (handle_one (core := core_of) py_repr cfg non_order c
    (jo_core j, jo_gateway j)).1.2 Hm).
  assert (share cid c = if for_command cid c then 1%nat else 0%nat) as Hsh.
  { unfold share, for_command. by destruct Ho as [_ ->]. }
  lia.
Qed.

Lemma step_keeps j j' : journey_ok j -> journey_step j j' -> journey_ok j'.
Proof.
  intros Hj Hstep. pose proof (jok_store _ Hj) as Hs.
  destruct Hstep as [j c e now now' Hc|j now|j timeout now now' s n H|j limit wait start tries s r H|
    j before c after Hin|j before c after Hin Ho|j e tries s r Hmay H|j].
  - by apply enqueue_keeps.
  - pose proof (expire_follows _ now Hs) as Hf.
    eapply journey_ok_step; [exact Hj|exact Hf|exact (calls_extends _ _ Hj (fo_extends _ _ _ Hf))|].
    intros cid _. pose proof (unqueued_expire now (jo_store j) cid).
    unfold rights, with_store, jo_store, core_store in *. cbn [jo_core jo_gateway jo_inbox co_events ev_commands set_ev_commands] in *.
    change (unseen (set_ev_commands (expire_queued_commands (ev_commands (co_events (jo_core j))) now) (co_events (jo_core j)))) with (unseen (co_events (jo_core j))).
    lia.
  - pose proof (stale_follows _ _ _ _ _ _ Hs H) as Hf.
    eapply journey_ok_step; [exact Hj|exact Hf|exact (calls_extends _ _ Hj (fo_extends _ _ _ Hf))|].
    intros cid _. pose proof (unqueued_stale _ _ _ _ _ _ _ Hs H cid).
    change (rights cid (with_store s j)) with
      (queued cid s + copies cid (jo_inbox j) + spent (unseen (co_events (jo_core j))) cid (jo_gateway j))%nat.
    unfold rights. lia.
  - pose proof (poll_follows _ limit wait start tries Hs) as Hf. rewrite H in Hf. cbn [fst] in Hf.
    eapply journey_ok_step; [exact Hj|exact Hf|exact (calls_extends _ _ Hj (fo_extends _ _ _ Hf))|].
    intros cid _. pose proof (poll_spends _ _ _ _ cid _ _ _ Hs H) as Hle.
    change (rights cid (with_inbox (jo_inbox j ++ handed_out r) (with_store s j))) with
      (queued cid s + copies cid (jo_inbox j ++ handed_out r) +
       spent (unseen (co_events (jo_core j))) cid (jo_gateway j))%nat.
    rewrite copies_app. unfold rights. lia.
  - eapply journey_ok_step; [exact Hj|by apply follows_refl|exact (jok_calls _ Hj)|].
    intros cid _. unfold rights, with_inbox. cbn [jo_core jo_gateway jo_inbox].
    rewrite Hin, copies_drop. change (jo_store {| jo_core := jo_core j; jo_gateway := jo_gateway j; jo_inbox := before ++ after |}) with (jo_store j). lia.
  - by apply handle_step_ok.
  - assert (Ha := H). apply append_spec in Ha as (Ha & _ & _).
    apply appended_follows in Ha as (Hf & _); [|done].
    eapply journey_ok_step; [exact Hj|exact Hf|exact (calls_extends _ _ Hj (fo_extends _ _ _ Hf))|].
    intros cid Hcid. by eapply deliver_rights.
  - by apply restart_ok.
Qed.

Lemma reachable_journey_ok j : journey_reachable j -> journey_ok j.
Proof.
  intros [journal Hr]. remember (journey_start journal) as j0 eqn:E.
  assert (Hj0 : journey_ok j0).
  { subst j0. split; [apply store_ok_empty| | |].
    - intros r Hr'. by apply not_elem_of_nil in Hr'.
    - intros cid _. change (0 <= 1)%nat. lia.
    - intros cid _. reflexivity. }
  clear E. induction Hr as [|j0 j1 j2 Hstep _ IH]; [done|]. apply IH. by eapply step_keeps.
Qed.
End Journey.

Lemma count_if_pos {A} (p : A -> bool) l a : a ∈ l -> p a = true -> (1 <= count_if p l)%nat.
Proof.
  intros Ha. induction Ha as [a l|a b l Ha IH]; intros Hp; rewrite count_if_cons; [rewrite Hp; lia|].
  pose proof (IH Hp). lia.
Qed.

(** C1. An order reaches the broker at most once, and never without a durable
    pre-ack: in every state the service can reach, through enqueueing, polling,
    expiry, lost requests and answers, rate limits, repeated and reordered
    events, disk failures and restarts of the gateway, an order that was handed
    to the broker was handed to it once, waits in no queue, travels in no answer
    to a poll, and the core holds its pre-ack. *)
Theorem order_reaches_broker_at_most_once py_repr json_dumps hash_payload (network : Network)
    (gate : RoutingGate) (outside : Outside) cfg non_order j r :
  journey_reachable py_repr json_dumps hash_payload cfg non_order j ->
  r ∈ g_calls (jo_gateway j) ->
  let cid := kr_command_id r in
  count_if (calls_for cid) (g_calls (jo_gateway j)) = 1%nat /\
  queued cid (jo_store j) = 0%nat /\ (cid ∉ map command_id (jo_inbox j)) /\
  pre_acked cid (jo_store j).
Proof.
  intros Hj Hr. apply reachable_journey_ok in Hj. cbv zeta. set (cid := kr_command_id r).
  pose proof (jok_calls _ _ Hj r Hr) as Hp. fold cid in Hp.
  assert (Ho : is_order cid (jo_store j)).
  { destruct Hp as (b & Hb & _). destruct (so_links _ _ _ (jok_store _ _ Hj) _ _ Hb) as (c & Hc & Ho).
    intros c' Hc'. congruence. }
  pose proof (jok_rights _ _ Hj cid Ho) as Hle. unfold rights, spent in Hle.
  assert (1 <= count_if (calls_for cid) (g_calls (jo_gateway j)))%nat.
  { apply (count_if_pos _ _ r); [done|]. unfold calls_for, cid. apply String.eqb_refl. }
  split_and!; [lia|lia| |done].
  intros Hin. apply elem_of_map in Hin as (c & Hc & Hin).
  assert (1 <= copies cid (jo_inbox j))%nat; [|lia].
  apply (count_if_pos _ _ c); [done|]. unfold for_command. rewrite Hc. apply String.eqb_refl.
Qed.

(** ** A sample journey *)

Definition good_network : Network :=
  {| arrives _ := true; answered _ := true;
     append_tries _ := [(true, seconds 1002, seconds 1002); (false, seconds 1003, seconds 1003)] |}.
#[local] Existing Instance good_network.
#[local] Existing Instance sample_gate.
#[local] Existing Instance sample_outside.

Definition no_dumps (_ : json) : string := "".
Definition quiet_non_order (_ : string) (_ : GatewayCommand)
    : SE (core * gateway) (list GatewayEvent) := ret [].

Definition journey_1 : journey :=
  with_store (enqueue_command sample_repr sample_hash (jo_store (journey_start empty_journal))
                sample_command None (seconds 1000) (seconds 1000)).1 (journey_start empty_journal).
Definition journey_poll_1 : store * option (res (list GatewayCommand)) :=
  poll_commands sample_repr (jo_store journey_1) 20 0 0 [try_at 1001].
Definition journey_2 : journey :=
  with_inbox (jo_inbox journey_1 ++ handed_out journey_poll_1.2) (with_store journey_poll_1.1 journey_1).
Definition handed_1 : GatewayCommand := default sample_command (head (jo_inbox journey_2)).
Definition journey_3 : journey :=
  with_world (handle_one (core := core_client sample_repr no_dumps sample_hash) sample_repr
                sample_config quiet_non_order handed_1 (jo_core journey_2, jo_gateway journey_2)).1 [].

Lemma journey_3_reachable :
  journey_reachable sample_repr no_dumps sample_hash sample_config quiet_non_order journey_3.
Proof.
  exists empty_journal. eapply rtc_l; [|eapply rtc_l; [|eapply rtc_l; [|apply rtc_refl]]].
  - apply (journey_enqueue sample_repr no_dumps sample_hash sample_config quiet_non_order _
             sample_command None (seconds 1000) (seconds 1000)). vm_compute. reflexivity.
  - apply (journey_poll sample_repr no_dumps sample_hash sample_config quiet_non_order journey_1
             20 0 0 [try_at 1001] journey_poll_1.1 journey_poll_1.2). apply surjective_pairing.
  - apply (journey_handle sample_repr no_dumps sample_hash sample_config quiet_non_order journey_2
             [] handed_1 []); [vm_compute; reflexivity|]. split; vm_compute; reflexivity.
Qed.

Lemma order_reaches_broker_at_most_once_witness :
  map kr_command_id (g_calls (jo_gateway journey_3)) = ["cmd-1"] /\
  forall r, r ∈ g_calls (jo_gateway journey_3) ->
    count_if (calls_for (kr_command_id r)) (g_calls (jo_gateway journey_3)) = 1%nat /\
    pre_acked (kr_command_id r) (jo_store journey_3).
Proof.
  split; [vm_compute; reflexivity|]. intros r Hr.
  destruct (order_reaches_broker_at_most_once sample_repr no_dumps sample_hash good_network
    sample_gate sample_outside sample_config quiet_non_order journey_3 r journey_3_reachable Hr)
    as (H1 & _ & _ & H2).
  exact (conj H1 H2).
Defined.
