(* ===== verification/CoreIoWorker.v ===== *)
(** * The core I/O worker ([gateway/core_io_worker.py], [gateway/core_client.py])

    The thread that moves the HTTP traffic with the core off the gateway's main
    thread: a queue of events to post, with priorities, coalescing and a bound,
    and a queue of polled commands to run.

    An object in the queue is an event with its identity, since the code selects
    and removes with [id] and [is].  A post leaves the lock while the request is
    in flight: [arrivals] are the events other threads enqueue meanwhile.  Each
    reading of the monotonic clock is an argument, as is the transport's answer.
    [snapshot], which reads the counters, and the wake-up deadline of
    [_wait_for_work] are left out. *)
From stdpp Require Import pretty.
From S2P Require Import Prelude PyFloat BrokerUtils WireTime GatewayModels.
Local Open Scope Z_scope.

(** ** The client *)

(** [post_events]: what the transport answered, checked against the batch. *)
Definition post_events {A} (events : list A) (transport : res payload) : res payload :=
  let* _ := if (length events =? 0)%nat then Err (ValueError "events must not be empty") else Ok tt in
  let* _ := if (200 <? length events)%nat
            then Err (ValueError "events batch must contain at most 200 events") else Ok tt in
  let* response := transport in
  match jget "results" response with
  | Some (JList results) =>
      if (length results =? length events)%nat then Ok response
      else Err (RuntimeError "Core batch event response missing matching results list")
  | _ => Err (RuntimeError "Core batch event response missing matching results list")
  end.

(** ** The worker *)

Record queued := { q_id : nat; q_event : GatewayEvent }.

Record worker_config := {
  wc_command_limit : Z;
  wc_command_polling_enabled : bool;
  wc_event_posting_enabled : bool;
  wc_retry_sleep_sec : float;
  wc_coalesce_after_size : Z;
  wc_command_poll_interval_sec : float;
  wc_max_buffer_size : Z;
  wc_event_batch_size : Z;
  wc_market_batch_share : Z
}.

Definition CoreIoWorker_config (command_limit : Z) (command_polling_enabled event_posting_enabled : bool)
    (retry_sleep_sec : float) (coalesce_after_size : Z) (command_poll_interval_sec : float)
    (max_buffer_size event_batch_size market_batch_share : Z) : worker_config :=
  let batch := Z.min (Z.max event_batch_size 1) 200 in
  {| wc_command_limit := Z.max command_limit 1;
     wc_command_polling_enabled := command_polling_enabled;
     wc_event_posting_enabled := event_posting_enabled;
     wc_retry_sleep_sec := f_max retry_sleep_sec (f_lit 5 100);
     wc_coalesce_after_size := Z.max coalesce_after_size 1;
     wc_command_poll_interval_sec := f_max command_poll_interval_sec (f_lit 5 100);
     wc_max_buffer_size := Z.max max_buffer_size 1;
     wc_event_batch_size := batch;
     wc_market_batch_share := Z.min (Z.max market_batch_share 1) batch |}.

Record worker := {
  w_events : list queued;
  w_commands : list GatewayCommand;
  w_posted_count : Z;
  w_poll_count : Z;
  w_coalesced_count : Z;
  w_dropped_count : Z;
  w_last_error : string;
  w_latest_poll_at : option float;
  w_latest_poll_error_at : option float;
  w_latest_post_at : option float;
  w_next_post_retry_at : float;
  w_next_command_poll_at : float;
  w_consecutive_poll_error_count : Z;
  w_batch_post_count : Z;
  w_latest_batch_size : Z;
  w_last_successful_batch_fast : option bool;
  w_rejected_event_count : Z;
  w_consecutive_post_error_count : Z
}.

Definition new_worker : worker :=
  {| w_events := []; w_commands := []; w_posted_count := 0; w_poll_count := 0;
     w_coalesced_count := 0; w_dropped_count := 0; w_last_error := ""; w_latest_poll_at := None;
     w_latest_poll_error_at := None; w_latest_post_at := None; w_next_post_retry_at := f_zero;
     w_next_command_poll_at := f_zero; w_consecutive_poll_error_count := 0;
     w_batch_post_count := 0; w_latest_batch_size := 0; w_last_successful_batch_fast := None;
     w_rejected_event_count := 0; w_consecutive_post_error_count := 0 |}.

(** The queue with its counters of coalesced and dropped events. *)
Definition set_queue (events : list queued) (coalesced dropped : Z) (w : worker) : worker :=
  {| w_events := events; w_commands := w_commands w; w_posted_count := w_posted_count w;
     w_poll_count := w_poll_count w; w_coalesced_count := w_coalesced_count w + coalesced;
     w_dropped_count := w_dropped_count w + dropped; w_last_error := w_last_error w;
     w_latest_poll_at := w_latest_poll_at w; w_latest_poll_error_at := w_latest_poll_error_at w;
     w_latest_post_at := w_latest_post_at w; w_next_post_retry_at := w_next_post_retry_at w;
     w_next_command_poll_at := w_next_command_poll_at w;
     w_consecutive_poll_error_count := w_consecutive_poll_error_count w;
     w_batch_post_count := w_batch_post_count w; w_latest_batch_size := w_latest_batch_size w;
     w_last_successful_batch_fast := w_last_successful_batch_fast w;
     w_rejected_event_count := w_rejected_event_count w;
     w_consecutive_post_error_count := w_consecutive_post_error_count w |}.

Definition set_commands (commands : list GatewayCommand) (w : worker) : worker :=
  {| w_events := w_events w; w_commands := commands; w_posted_count := w_posted_count w;
     w_poll_count := w_poll_count w; w_coalesced_count := w_coalesced_count w;
     w_dropped_count := w_dropped_count w; w_last_error := w_last_error w;
     w_latest_poll_at := w_latest_poll_at w; w_latest_poll_error_at := w_latest_poll_error_at w;
     w_latest_post_at := w_latest_post_at w; w_next_post_retry_at := w_next_post_retry_at w;
     w_next_command_poll_at := w_next_command_poll_at w;
     w_consecutive_poll_error_count := w_consecutive_poll_error_count w;
     w_batch_post_count := w_batch_post_count w; w_latest_batch_size := w_latest_batch_size w;
     w_last_successful_batch_fast := w_last_successful_batch_fast w;
     w_rejected_event_count := w_rejected_event_count w;
     w_consecutive_post_error_count := w_consecutive_post_error_count w |}.

Definition set_next_command_poll_at (t : float) (w : worker) : worker :=
  {| w_events := w_events w; w_commands := w_commands w; w_posted_count := w_posted_count w;
     w_poll_count := w_poll_count w; w_coalesced_count := w_coalesced_count w;
     w_dropped_count := w_dropped_count w; w_last_error := w_last_error w;
     w_latest_poll_at := w_latest_poll_at w; w_latest_poll_error_at := w_latest_poll_error_at w;
     w_latest_post_at := w_latest_post_at w; w_next_post_retry_at := w_next_post_retry_at w;
     w_next_command_poll_at := t;
     w_consecutive_poll_error_count := w_consecutive_poll_error_count w;
     w_batch_post_count := w_batch_post_count w; w_latest_batch_size := w_latest_batch_size w;
     w_last_successful_batch_fast := w_last_successful_batch_fast w;
     w_rejected_event_count := w_rejected_event_count w;
     w_consecutive_post_error_count := w_consecutive_post_error_count w |}.

(** ** Kinds of events *)

Definition _COMMAND_CRITICAL_EVENT_TYPES : list string :=
  ["command_started"; "command_ack"; "command_failed"; "rate_limited"; "execution_event";
   "order_pre_ack"; "order_broker_unconfirmed"; "kiwoom_order_chejan"; "kiwoom_balance_chejan";
   "kiwoom_special_chejan"].
Definition _DROPPABLE_EVENT_TYPES : list string :=
  ["heartbeat"; "price_tick"; "quote_tick"; "market_index_tick"; "gateway_log"].
Definition _DROP_PROTECTED_EVENT_TYPES : list string :=
  ["command_started"; "command_ack"; "command_failed"; "rate_limited"; "tr_response";
   "execution_event"; "order_pre_ack"; "order_broker_unconfirmed"; "kiwoom_order_chejan";
   "kiwoom_balance_chejan"; "kiwoom_special_chejan"].
Definition _CORE_FAST_BATCH_EVENT_TYPES : list string := ["price_tick"; "condition_event"].

(** [str(event.event_type or "").strip().lower()]. *)
Definition kind (q : queued) : string := py_lower (py_strip (ge_event_type (q_event q))).

Definition _is_command_critical_event (q : queued) : bool :=
  mem (kind q) _COMMAND_CRITICAL_EVENT_TYPES.
Definition _is_droppable_event (q : queued) : bool := mem (kind q) _DROPPABLE_EVENT_TYPES.
Definition _is_drop_protected_event (q : queued) : bool :=
  mem (kind q) _DROP_PROTECTED_EVENT_TYPES.
Definition _is_core_fast_batch_event (q : queued) : bool :=
  mem (kind q) _CORE_FAST_BATCH_EVENT_TYPES.
Definition _is_priority_event (q : queued) : bool :=
  mem (kind q) ["heartbeat"; "market_index_tick"; "tr_response"].
Definition _is_market_refresh_event (q : queued) : bool :=
  mem (kind q) ["price_tick"; "quote_tick"; "market_index_tick"].

Section Worker.
Context (py_repr : json -> string) (cfg : worker_config).

Definition _coalescing_key (q : queued) : option (string * string) :=
  let p := ge_payload (q_event q) in
  let keyed code := if str_true code then Some (kind q, code) else None in
  if String.eqb (kind q) "heartbeat" then Some (kind q, ge_source (q_event q))
  else if mem (kind q) ["price_tick"; "quote_tick"]
  then keyed (py_strip (str_or_empty py_repr (jget "code" p)))
  else if String.eqb (kind q) "market_index_tick"
  then keyed (py_strip (str_or_empty py_repr (or_else (jget "index_code" p) (jget "code" p))))
  else None.

(** Two events with the same key, when they have one. *)
Definition same_key (q q' : queued) : bool :=
  match _coalescing_key q with
  | Some k => bool_decide (_coalescing_key q' = Some k)
  | None => false
  end.

(** ** Enqueueing *)

(** [del events[index]] for the first event satisfying [p], if there is one. *)
Fixpoint delete_first (p : queued -> bool) (l : list queued) : option (list queued) :=
  match l with
  | [] => None
  | q :: l' =>
      if p q then Some l'
      else match delete_first p l' with Some r => Some (q :: r) | None => None end
  end.

(** The same with the event replaced in its place. *)
Fixpoint replace_first (p : queued -> bool) (x : queued) (l : list queued) : option (list queued) :=
  match l with
  | [] => None
  | q :: l' =>
      if p q then Some (x :: l')
      else match replace_first p x l' with Some r => Some (q :: r) | None => None end
  end.

(** The index after the last command-critical event, and the insertion there. *)
Fixpoint after_critical (i at' : nat) (l : list queued) : nat :=
  match l with
  | [] => at'
  | q :: l' => after_critical (S i) (if _is_command_critical_event q then S i else at') l'
  end.
Definition _insert_after_command_critical (q : queued) (l : list queued) : list queued :=
  let at' := after_critical 0 0 l in take at' l ++ q :: drop at' l.

Fixpoint enforce_loop (fuel : nat) (l : list queued) (dropped : Z) : list queued * Z :=
  match fuel with
  | O => (l, dropped)
  | S fuel' =>
      if Z.of_nat (length l) <=? wc_max_buffer_size cfg then (l, dropped) else
      match delete_first _is_droppable_event l with
      | Some l' => enforce_loop fuel' l' (dropped + 1)
      | None =>
          match delete_first (fun q => negb (_is_drop_protected_event q)) l with
          | Some l' => enforce_loop fuel' l' (dropped + 1)
          | None => (l, dropped)
          end
      end
  end.

(** Each round shortens the queue, so its length is fuel enough. *)
Definition _enforce_buffer_limit (w : worker) : worker :=
  let (l, dropped) := enforce_loop (S (length (w_events w))) (w_events w) 0 in
  set_queue l 0 dropped w.

Definition _enqueue_command_critical_event (q : queued) (w : worker) : worker :=
  set_queue (_insert_after_command_critical q (w_events w)) 0 0 w.

Definition _enqueue_priority_event (q : queued) (w : worker) : worker :=
  match delete_first (same_key q) (w_events w) with
  | Some l => set_queue (_insert_after_command_critical q l) 1 0 w
  | None => set_queue (_insert_after_command_critical q (w_events w)) 0 0 w
  end.

Definition _coalesce_event (q : queued) (w : worker) : option worker :=
  match replace_first (same_key q) q (w_events w) with
  | Some l => Some (set_queue l 1 0 w)
  | None => None
  end.

Definition append_event (q : queued) (w : worker) : worker :=
  _enforce_buffer_limit (set_queue (w_events w ++ [q]) 0 0 w).

Definition enqueue_event (q : queued) (w : worker) : worker :=
  if negb (wc_event_posting_enabled cfg) then w
  else if _is_command_critical_event q
  then _enforce_buffer_limit (_enqueue_command_critical_event q w)
  else if _is_priority_event q then _enforce_buffer_limit (_enqueue_priority_event q w)
  else if wc_coalesce_after_size cfg <=? Z.of_nat (length (w_events w)) then
    match _coalesce_event q w with
    | Some w' => w'
    | None => append_event q w
    end
  else append_event q w.

Definition enqueue_all (qs : list queued) (w : worker) : worker :=
  fold_left (fun w q => enqueue_event q w) qs w.

(** ** The next batch *)

Definition first_with (p : queued -> bool) (l : list queued) : option queued := List.find p l.

Definition _select_batch_fast_group (w : worker) : bool :=
  let l := w_events w in
  if negb (existsb _is_core_fast_batch_event l) then false
  else if negb (existsb (fun q => negb (_is_core_fast_batch_event q)) l) then true
  else
    match first_with _is_command_critical_event l with
    | Some q => _is_core_fast_batch_event q
    | None =>
        match w_last_successful_batch_fast w with
        | Some fast => negb fast
        | None =>
            match first_with _is_priority_event l with
            | Some q => _is_core_fast_batch_event q
            | None =>
                match first_with _is_market_refresh_event l with
                | Some q => _is_core_fast_batch_event q
                | None => match l with q :: _ => _is_core_fast_batch_event q | [] => false end
                end
            end
        end
    end.

(** [add_matching(predicate, item_limit=...)]: one pass over the queue. *)
Fixpoint add_matching (target_fast : bool) (limit : Z) (predicate : queued -> bool)
    (events : list queued) (selected : list queued) (item_limit : Z) : list queued :=
  match events with
  | [] => selected
  | q :: rest =>
      if (limit <=? Z.of_nat (length selected)) || (item_limit <=? 0) then selected
      else if existsb (fun s => (q_id s =? q_id q)%nat) selected
              || negb (Bool.eqb (_is_core_fast_batch_event q) target_fast)
              || negb (predicate q)
      then add_matching target_fast limit predicate rest selected item_limit
      else add_matching target_fast limit predicate rest (selected ++ [q]) (item_limit - 1)
  end.

Definition _select_event_batch (w : worker) : list queued :=
  let l := w_events w in
  let limit := Z.min (wc_event_batch_size cfg) (Z.of_nat (length l)) in
  if limit <=? 0 then [] else
  let fast := _select_batch_fast_group w in
  let room (s : list queued) := limit - Z.of_nat (length s) in
  let s1 := add_matching fast limit _is_command_critical_event l [] limit in
  let s2 := add_matching fast limit
              (fun q => _is_priority_event q && negb (_is_command_critical_event q))
              l s1 (Z.min 16 (room s1)) in
  let s3 := add_matching fast limit _is_market_refresh_event l s2
              (Z.min (wc_market_batch_share cfg) (room s2)) in
  add_matching fast limit (fun _ => true) l s3 (room s3).

Definition _remove_event_by_identity (q : queued) (l : list queued) : list queued :=
  match delete_first (fun q' => (q_id q' =? q_id q)%nat) l with Some l' => l' | None => l end.

(** ** Posting *)

Definition _post_retry_delay_sec (errors : Z) : float :=
  let exponent := Z.min (Z.max (errors - 1) 0) 10 in
  f_min (f_mul (wc_retry_sleep_sec cfg) (f_of_Z (2 ^ exponent))) (f_of_Z 5).

(** A request that raised: nothing leaves the queue. *)
Definition post_failed (e : exn) (clock : float) (w : worker) : worker :=
  let errors := w_consecutive_post_error_count w + 1 in
  {| w_events := w_events w; w_commands := w_commands w; w_posted_count := w_posted_count w;
     w_poll_count := w_poll_count w; w_coalesced_count := w_coalesced_count w;
     w_dropped_count := w_dropped_count w; w_last_error := exn_text e;
     w_latest_poll_at := w_latest_poll_at w; w_latest_poll_error_at := w_latest_poll_error_at w;
     w_latest_post_at := w_latest_post_at w;
     w_next_post_retry_at := f_add clock (_post_retry_delay_sec errors);
     w_next_command_poll_at := w_next_command_poll_at w;
     w_consecutive_poll_error_count := w_consecutive_poll_error_count w;
     w_batch_post_count := w_batch_post_count w; w_latest_batch_size := w_latest_batch_size w;
     w_last_successful_batch_fast := w_last_successful_batch_fast w;
     w_rejected_event_count := w_rejected_event_count w;
     w_consecutive_post_error_count := errors |}.

(** A batch the core answered: every event of it leaves the queue, the rejected
    ones too. *)
Definition batch_posted (batch : list queued) (rejected : Z) (clock : float) (w : worker) : worker :=
  {| w_events := fold_left (fun l q => _remove_event_by_identity q l) batch (w_events w);
     w_commands := w_commands w;
     w_posted_count := w_posted_count w + Z.of_nat (length batch);
     w_poll_count := w_poll_count w; w_coalesced_count := w_coalesced_count w;
     w_dropped_count := w_dropped_count w;
     w_last_error :=
       if rejected =? 0 then EmptyString
       else "Core rejected " +:+ pretty rejected +:+ " event(s) from latest batch";
     w_latest_poll_at := w_latest_poll_at w; w_latest_poll_error_at := w_latest_poll_error_at w;
     w_latest_post_at := Some clock; w_next_post_retry_at := w_next_post_retry_at w;
     w_next_command_poll_at := w_next_command_poll_at w;
     w_consecutive_poll_error_count := w_consecutive_poll_error_count w;
     w_batch_post_count := w_batch_post_count w + 1;
     w_latest_batch_size := Z.of_nat (length batch);
     w_last_successful_batch_fast :=
       match batch with q :: _ => Some (_is_core_fast_batch_event q)
       | [] => w_last_successful_batch_fast w end;
     w_rejected_event_count := w_rejected_event_count w + rejected;
     w_consecutive_post_error_count := 0 |}.

(** [int(response.get("failed_count") or 0)], which raises on a value that is no
    number. *)
Definition failed_count (response : payload) : res Z :=
  match jget "failed_count" response with
  | Some v => if jtrue v then py_int v else Ok 0
  | None => Ok 0
  end.

(** The batch answered, and whether one was.  [now] is read first, [clock] after
    the request. *)
Definition _post_next_event_batch (now clock : float) (arrivals : list queued)
    (transport : res payload) (w : worker) : res (worker * list queued * bool) :=
  if f_lt now (w_next_post_retry_at w) then Ok (enqueue_all arrivals w, [], false) else
  let events := _select_event_batch w in
  match events with
  | [] => Ok (enqueue_all arrivals w, [], false)
  | _ =>
      match post_events events transport with
      | Err e => Ok (post_failed e clock (enqueue_all arrivals w), [], false)
      | Ok response =>
          let* rejected := failed_count response in
          Ok (batch_posted events rejected clock (enqueue_all arrivals w), events, true)
      end
  end.

(** ** Commands *)

Definition drain_commands (limit : Z) (w : worker) : list GatewayCommand * worker :=
  let n := Z.to_nat (Z.max limit 1) in
  (take n (w_commands w), set_commands (drop n (w_commands w)) w).

Definition poll_failed (e : exn) (clock : float) (w : worker) : worker :=
  {| w_events := w_events w; w_commands := w_commands w; w_posted_count := w_posted_count w;
     w_poll_count := w_poll_count w; w_coalesced_count := w_coalesced_count w;
     w_dropped_count := w_dropped_count w; w_last_error := exn_text e;
     w_latest_poll_at := w_latest_poll_at w; w_latest_poll_error_at := Some clock;
     w_latest_post_at := w_latest_post_at w; w_next_post_retry_at := w_next_post_retry_at w;
     w_next_command_poll_at := w_next_command_poll_at w;
     w_consecutive_poll_error_count := w_consecutive_poll_error_count w + 1;
     w_batch_post_count := w_batch_post_count w; w_latest_batch_size := w_latest_batch_size w;
     w_last_successful_batch_fast := w_last_successful_batch_fast w;
     w_rejected_event_count := w_rejected_event_count w;
     w_consecutive_post_error_count := w_consecutive_post_error_count w |}.

Definition polled (commands : list GatewayCommand) (clock : float) (w : worker) : worker :=
  {| w_events := w_events w; w_commands := w_commands w ++ commands;
     w_posted_count := w_posted_count w; w_poll_count := w_poll_count w + 1;
     w_coalesced_count := w_coalesced_count w; w_dropped_count := w_dropped_count w;
     w_last_error := EmptyString; w_latest_poll_at := Some clock;
     w_latest_poll_error_at := w_latest_poll_error_at w; w_latest_post_at := w_latest_post_at w;
     w_next_post_retry_at := w_next_post_retry_at w;
     w_next_command_poll_at := w_next_command_poll_at w; w_consecutive_poll_error_count := 0;
     w_batch_post_count := w_batch_post_count w; w_latest_batch_size := w_latest_batch_size w;
     w_last_successful_batch_fast := w_last_successful_batch_fast w;
     w_rejected_event_count := w_rejected_event_count w;
     w_consecutive_post_error_count := w_consecutive_post_error_count w |}.

Definition _poll_commands (clock : float) (answer : res (list GatewayCommand)) (w : worker) : worker :=
  match answer with
  | Err e => poll_failed e clock w
  | Ok commands => polled commands clock w
  end.

(** ** One round of the thread's loop

    A poll when one is due, else a post. *)
Record round := {
  rd_now : float;
  rd_post_now : float;
  rd_clock : float;
  rd_arrivals : list queued;
  rd_poll : res (list GatewayCommand);
  rd_post : res payload
}.

Definition _run_round (r : round) (w : worker) : res (worker * list queued * bool) :=
  if wc_command_polling_enabled cfg && f_le (w_next_command_poll_at w) (rd_now r) then
    let w1 := _poll_commands (rd_clock r) (rd_poll r) (enqueue_all (rd_arrivals r) w) in
    Ok (set_next_command_poll_at (f_add (rd_clock r) (wc_command_poll_interval_sec cfg)) w1, [], true)
  else _post_next_event_batch (rd_post_now r) (rd_clock r) (rd_arrivals r) (rd_post r) w.

(** What the process does with the worker: the main thread enqueues and drains,
    the worker's thread runs rounds. *)
Inductive action := Enqueue (q : queued) | Drain (limit : Z) | Round (r : round).

Definition act (a : action) (w : worker) : res (worker * list queued) :=
  match a with
  | Enqueue q => Ok (enqueue_event q w, [])
  | Drain limit => Ok ((drain_commands limit w).2, [])
  | Round r => let* t := _run_round r w in let '(w', posted, _) := t in Ok (w', posted)
  end.

(** The events the core answered for, in order, over a run. *)
Fixpoint run (actions : list action) (w : worker) : res (worker * list queued) :=
  match actions with
  | [] => Ok (w, [])
  | a :: rest =>
      let* t := act a w in let (w', posted) := t in
      let* u := run rest w' in let (w'', later) := u in
      Ok (w'', posted ++ later)
  end.

(** The events that reached the worker, in order. *)
Definition arrived (a : action) : list queued :=
  match a with Enqueue q => [q] | Drain _ => [] | Round r => rd_arrivals r end.
End Worker.

(** ** Passes over the queue *)

Abbreviation crit := (List.filter _is_command_critical_event).
Abbreviation ids := (map q_id).

(** A core that answers for every event of a batch. *)
Definition honest (core : list queued -> payload) : Prop :=
  forall batch, exists results,
    jget "results" (core batch) = Some (JList results) /\ length results = length batch /\
    is_ok (failed_count (core batch)) = true.

(** Rounds that only post, with nothing arriving. *)
Fixpoint post_rounds (py_repr : json -> string) (cfg : worker_config) (core : list queued -> payload)
    (now clock : float) (n : nat) (w : worker) : res (worker * list queued) :=
  match n with
  | O => Ok (w, [])
  | S n' =>
      let* t := _post_next_event_batch py_repr cfg now clock []
                  (Ok (core (_select_event_batch cfg w))) w in
      let '(w', posted, _) := t in
      let* u := post_rounds py_repr cfg core now clock n' w' in
      let (w'', later) := u in Ok (w'', posted ++ later)
  end.

Lemma delete_first_spec p l l' :
  delete_first p l = Some l' ->
  exists a q b, l = a ++ q :: b /\ l' = a ++ b /\ p q = true /\ Forall (fun x => p x = false) a.
Proof.
  revert l'; induction l as [|x l IH]; simpl; [done|]. intros l'. destruct (p x) eqn:Hp.
  - intros [= <-]. by exists [], x, l.
  - destruct (delete_first p l) as [r|]; [|done]. intros [= <-].
    destruct (IH r eq_refl) as (a & q & b & -> & -> & Hq & Ha).
    exists (x :: a), q, b. repeat split; [done|]. by constructor.
Qed.

Lemma delete_first_none p l : delete_first p l = None -> Forall (fun x => p x = false) l.
Proof.
  induction l as [|x l IH]; simpl; [by constructor|]. destruct (p x) eqn:Hp; [done|].
  destruct (delete_first p l); [done|]. intros _. constructor; [done|]. by apply IH.
Qed.

Lemma replace_first_spec p x l l' :
  replace_first p x l = Some l' ->
  exists a q b, l = a ++ q :: b /\ l' = a ++ x :: b /\ p q = true.
Proof.
  revert l'; induction l as [|y l IH]; simpl; [done|]. intros l'. destruct (p y) eqn:Hp.
  - intros [= <-]. by exists [], y, l.
  - destruct (replace_first p x l) as [r|]; [|done]. intros [= <-].
    destruct (IH r eq_refl) as (a & q & b & -> & -> & Hq). by exists (y :: a), q, b.
Qed.

Lemma filter_false {A} (f : A -> bool) l : Forall (fun x => f x = false) l -> List.filter f l = [].
Proof. induction 1 as [|x l Hx _ IH]; simpl; [done|]. by rewrite Hx. Qed.

(** The command-critical types are protected, and neither droppable, fast,
    coalesced nor of the priority group. *)
Lemma mem_disjoint k l1 l2 :
  forallb (fun x => negb (mem x l2)) l1 = true -> mem k l1 = true -> mem k l2 = false.
Proof.
  intros H Hk%mem_spec%list_elem_of_In. rewrite forallb_forall in H.
  by apply negb_true_iff, H.
Qed.

Lemma mem_incl k l1 l2 :
  forallb (fun x => mem x l2) l1 = true -> mem k l1 = true -> mem k l2 = true.
Proof. intros H Hk%mem_spec%list_elem_of_In. rewrite forallb_forall in H. by apply H. Qed.

Lemma critical_protected q : _is_command_critical_event q = true -> _is_drop_protected_event q = true.
Proof. by apply mem_incl. Qed.
Lemma critical_not_fast q : _is_command_critical_event q = true -> _is_core_fast_batch_event q = false.
Proof. by apply mem_disjoint. Qed.
Lemma critical_not_refresh q : _is_command_critical_event q = true -> _is_market_refresh_event q = false.
Proof. by apply mem_disjoint. Qed.
Lemma protected_not_droppable q : _is_drop_protected_event q = true -> _is_droppable_event q = false.
Proof. by apply mem_disjoint. Qed.

Lemma keyed_droppable py_repr q k : _coalescing_key py_repr q = Some k -> _is_droppable_event q = true.
Proof.
  unfold _coalescing_key, _is_droppable_event.
  destruct (String.eqb_spec (kind q) "heartbeat") as [->|_]; [done|].
  destruct (mem (kind q) ["price_tick"; "quote_tick"]) eqn:E.
  - intros _. by apply (mem_incl _ ["price_tick"; "quote_tick"]).
  - by destruct (String.eqb_spec (kind q) "market_index_tick") as [->|_].
Qed.

Lemma same_key_droppable py_repr q q' :
  same_key py_repr q q' = true -> _is_droppable_event q = true /\ _is_droppable_event q' = true.
Proof.
  unfold same_key. destruct (_coalescing_key py_repr q) as [k|] eqn:E; [|done].
  intros H%bool_decide_eq_true_1. split; by eapply keyed_droppable.
Qed.

Lemma crit_delete p l l' :
  (forall q, p q = true -> _is_command_critical_event q = false) ->
  delete_first p l = Some l' -> crit l' = crit l.
Proof.
  intros Hp (a & q & b & -> & -> & Hq & _)%delete_first_spec.
  rewrite !List.filter_app. simpl. by rewrite (Hp q Hq).
Qed.

Lemma after_critical_spec l i at' :
  (crit l = [] /\ after_critical i at' l = at') \/
  (exists k, after_critical i at' l = (i + k)%nat /\ crit (drop k l) = []).
Proof.
  revert i at'. induction l as [|q l IH]; intros i at'; simpl; [by left|].
  destruct (_is_command_critical_event q).
  - right. destruct (IH (S i) (S i)) as [[Hl ->]|(k & -> & Hk)].
    + exists 1%nat. split; [lia|]. done.
    + exists (S k). split; [lia|done].
  - destruct (IH (S i) at') as [[Hl ->]|(k & -> & Hk)]; [by left|].
    right. exists (S k). split; [lia|done].
Qed.

Lemma crit_insert q l :
  crit (_insert_after_command_critical q l) =
  crit l ++ (if _is_command_critical_event q then [q] else []).
Proof.
  unfold _insert_after_command_critical.
  assert (Hd : crit (drop (after_critical 0 0 l) l) = []).
  { by destruct (after_critical_spec l 0 0) as [[Hl ->]|(k & -> & Hk)]. }
  assert (Ht : crit l = crit (take (after_critical 0 0 l) l)).
  { rewrite <- (take_drop (after_critical 0 0 l) l) at 1.
    by rewrite List.filter_app, Hd, app_nil_r. }
  rewrite List.filter_app, Ht. simpl. rewrite Hd.
  by destruct (_is_command_critical_event q).
Qed.

Lemma insert_perm q l : _insert_after_command_critical q l ≡ₚ q :: l.
Proof.
  unfold _insert_after_command_critical. rewrite <- Permutation_middle.
  by rewrite take_drop.
Qed.

(** Deleting an event that is not critical. *)
Lemma delete_keeps p l l' :
  (forall q, p q = true -> _is_command_critical_event q = false) ->
  delete_first p l = Some l' -> crit l' = crit l /\ l' ⊆+ l /\ length l = S (length l').
Proof.
  intros Hp H. split_and!; [by eapply crit_delete| |];
    apply delete_first_spec in H as (a & q & b & -> & -> & _ & _).
  - apply submseteq_app; [done|]. by apply submseteq_cons.
  - rewrite !length_app. simpl. lia.
Qed.

Lemma droppable_not_critical q : _is_droppable_event q = true -> _is_command_critical_event q = false.
Proof. by apply mem_disjoint. Qed.
Lemma unprotected_not_critical q :
  negb (_is_drop_protected_event q) = true -> _is_command_critical_event q = false.
Proof.
  intros Hq%negb_true_iff. destruct (_is_command_critical_event q) eqn:Hk; [|done].
  by rewrite (critical_protected q Hk) in Hq.
Qed.

Section Queue.
Context (py_repr : json -> string) (cfg : worker_config).

(** Within the bound, or nothing left that may be dropped. *)
Definition bounded (l : list queued) : Prop :=
  Z.of_nat (length l) <= wc_max_buffer_size cfg \/
  Forall (fun q => _is_drop_protected_event q = true) l.

Lemma enforce_loop_spec fuel l d :
  let l' := (enforce_loop cfg fuel l d).1 in
  crit l' = crit l /\ l' ⊆+ l /\ ((length l < fuel)%nat -> bounded l').
Proof.
  revert l d; induction fuel as [|fuel IH]; intros l d; simpl; [split_and!; [done..|lia]|].
  destruct (Z.leb_spec (Z.of_nat (length l)) (wc_max_buffer_size cfg)) as [Hle|Hgt].
  { split_and!; [done..|]. by left. }
  destruct (delete_first _is_droppable_event l) as [l1|] eqn:E1.
  - apply delete_keeps in E1 as (E & Hs1 & El); [|exact droppable_not_critical].
    destruct (IH l1 (d + 1)) as (Hc & Hs & Hb).
    split_and!; [congruence|by etrans|intros; apply Hb; lia].
  - destruct (delete_first (fun q => negb (_is_drop_protected_event q)) l) as [l1|] eqn:E2.
    + apply delete_keeps in E2 as (E & Hs1 & El); [|exact unprotected_not_critical].
      destruct (IH l1 (d + 1)) as (Hc & Hs & Hb).
      split_and!; [congruence|by etrans|intros; apply Hb; lia].
    + split_and!; [done..|]. intros _. right. apply delete_first_none in E2.
      eapply list.Forall_impl; [exact E2|]. intros q Hq. cbn beta in Hq. by apply negb_false_iff.
Qed.

Lemma enforce_spec w :
  let w' := _enforce_buffer_limit cfg w in
  crit (w_events w') = crit (w_events w) /\ w_events w' ⊆+ w_events w /\ bounded (w_events w').
Proof.
  unfold _enforce_buffer_limit.
  pose proof (enforce_loop_spec (S (length (w_events w))) (w_events w) 0) as H.
  destruct (enforce_loop cfg _ _ 0) as [l d]. simpl in *. naive_solver lia.
Qed.

(** An enqueue appends a critical event to the critical ones, adds at most the
    event, and keeps the queue bounded. *)
Lemma enqueue_spec q w :
  wc_event_posting_enabled cfg = true -> bounded (w_events w) ->
  let w' := enqueue_event py_repr cfg q w in
  crit (w_events w') = crit (w_events w) ++ crit [q] /\
  w_events w' ⊆+ q :: w_events w /\ bounded (w_events w').
Proof.
  intros Hp Hb. unfold enqueue_event. rewrite Hp. simpl.
  destruct (_is_command_critical_event q) eqn:Hc.
  { destruct (enforce_spec (_enqueue_command_critical_event q w)) as (H1 & H2 & H3).
    split_and!; [|etrans; [exact H2|]|done].
    - rewrite H1. simpl. rewrite crit_insert. by rewrite Hc.
    - simpl. by rewrite insert_perm. }
  assert (Happ : let w' := append_event cfg q w in
            crit (w_events w') = crit (w_events w) ++ [] /\
            w_events w' ⊆+ q :: w_events w /\ bounded (w_events w')).
  { unfold append_event. destruct (enforce_spec (set_queue (w_events w ++ [q]) 0 0 w)) as (H1 & H2 & H3).
    split_and!; [|etrans; [exact H2|]|done].
    - rewrite H1. simpl. rewrite List.filter_app. simpl. by rewrite Hc.
    - simpl. by rewrite Permutation_app_comm. }
  destruct (_is_priority_event q).
  { destruct (enforce_spec (_enqueue_priority_event py_repr q w)) as (H1 & H2 & H3).
    split_and!; [| |done].
    - rewrite H1. unfold _enqueue_priority_event.
      destruct (delete_first (same_key py_repr q) (w_events w)) as [l|] eqn:E; simpl;
        rewrite crit_insert, Hc; [|done].
      apply delete_keeps in E as (-> & _); [done|].
      intros q' [_ Hq']%same_key_droppable. by apply droppable_not_critical.
    - etrans; [exact H2|]. unfold _enqueue_priority_event.
      destruct (delete_first (same_key py_repr q) (w_events w)) as [l|] eqn:E; simpl;
        rewrite insert_perm; [|done].
      apply submseteq_skip. apply delete_keeps in E as (_ & E & _); [done|].
      intros q' [_ Hq']%same_key_droppable. by apply droppable_not_critical. }
  destruct (_ <=? _); [|exact Happ]. unfold _coalesce_event.
  destruct (replace_first (same_key py_repr q) q (w_events w)) as [l|] eqn:E; [|exact Happ].
  apply replace_first_spec in E as (a & q' & b & E & -> & Hk). simpl. rewrite E in Hb |- *.
  apply same_key_droppable in Hk as [_ Hq'].
  pose proof (droppable_not_critical q' Hq') as Hc'.
  split_and!.
  - rewrite !List.filter_app. simpl. by rewrite Hc, Hc', app_nil_r.
  - rewrite <- !Permutation_middle. apply submseteq_skip, submseteq_cons. done.
  - destruct Hb as [Hb|Hb].
    + left. rewrite length_app in *. exact Hb.
    + exfalso. rewrite list.Forall_app, list.Forall_cons in Hb. destruct Hb as (_ & Hb & _).
      by rewrite (protected_not_droppable q' Hb) in Hq'.
Qed.

Lemma enqueue_all_spec qs w :
  wc_event_posting_enabled cfg = true -> bounded (w_events w) ->
  let w' := enqueue_all py_repr cfg qs w in
  crit (w_events w') = crit (w_events w) ++ crit qs /\
  w_events w' ⊆+ qs ++ w_events w /\ bounded (w_events w').
Proof.
  intros Hp. revert w. induction qs as [|q qs IH]; intros w Hb w'.
  { unfold w'. simpl. by rewrite app_nil_r. }
  change w' with (enqueue_all py_repr cfg qs (enqueue_event py_repr cfg q w)). clear w'.
  destruct (enqueue_spec q w Hp Hb) as (H1 & H2 & H3).
  destruct (IH _ H3) as (G1 & G2 & G3). split_and!; [| |done].
  - rewrite G1, H1, <- app_assoc. f_equal. simpl. by destruct (_is_command_critical_event q).
  - etrans; [exact G2|]. etrans; [by apply submseteq_app, H2|].
    by rewrite <- Permutation_middle.
Qed.
End Queue.

(** ** Batches *)

(** What a pass may still select. *)
Definition eligible (fast : bool) (p : queued -> bool) (sel : list queued) (q : queued) : bool :=
  negb (existsb (fun s => (q_id s =? q_id q)%nat) sel) &&
  (Bool.eqb (_is_core_fast_batch_event q) fast && p q).

Lemma filter_ext_in {A} (f g : A -> bool) l :
  Forall (fun x => f x = g x) l -> List.filter f l = List.filter g l.
Proof. induction 1 as [|x l Hx _ IH]; simpl; [done|]. by rewrite Hx, IH. Qed.

Lemma existsb_id q l : existsb (fun s => (q_id s =? q_id q)%nat) l = true <-> q_id q ∈ ids l.
Proof.
  rewrite existsb_exists. split.
  - intros (x & Hx & E%Nat.eqb_eq). rewrite <- E. apply list_elem_of_In, in_map, Hx.
  - intros (x & E & Hx)%list_elem_of_In%in_map_iff. exists x. by rewrite E, Nat.eqb_refl.
Qed.

Lemma add_matching_spec fast limit p l sel n :
  NoDup (ids l) ->
  add_matching fast limit p l sel n =
  sel ++ take (Z.to_nat (Z.min (limit - Z.of_nat (length sel)) n))
           (List.filter (eligible fast p sel) l).
Proof.
  revert sel n; induction l as [|q l IH]; intros sel n Hd; cbn [add_matching List.filter].
  { by rewrite take_nil, app_nil_r. }
  cbn [map] in Hd. apply list.NoDup_cons in Hd as [Hq Hd].
  destruct ((limit <=? Z.of_nat (length sel)) || (n <=? 0)) eqn:Hfull.
  { replace (Z.to_nat _) with 0%nat by lia. by rewrite app_nil_r. }
  unfold eligible at 1.
  destruct (existsb (fun s => (q_id s =? q_id q)%nat) sel); simpl; [by apply IH|].
  destruct (Bool.eqb (_is_core_fast_batch_event q) fast); simpl; [|by apply IH].
  destruct (p q); simpl; [|by apply IH].
  rewrite IH by done. rewrite <- app_assoc. f_equal.
  replace (Z.to_nat (Z.min (limit - Z.of_nat (length sel)) n))
    with (S (Z.to_nat (Z.min (limit - Z.of_nat (length (sel ++ [q]))) (n - 1))))
    by (rewrite length_app; simpl; lia).
  simpl. do 2 f_equal. apply filter_ext_in, list.Forall_forall. intros x Hx.
  unfold eligible. rewrite existsb_app. simpl.
  destruct (Nat.eqb_spec (q_id q) (q_id x)) as [E|E]; [|by rewrite !orb_false_r].
  exfalso. apply Hq. rewrite E. by apply list_elem_of_fmap_2.
Qed.

Lemma elem_of_ids x l : x ∈ ids l <-> exists q, q ∈ l /\ q_id q = x.
Proof.
  rewrite list_elem_of_In, in_map_iff. setoid_rewrite <- list_elem_of_In. naive_solver.
Qed.

Lemma elem_of_lfilter {A} (f : A -> bool) l x : x ∈ List.filter f l <-> x ∈ l /\ f x = true.
Proof. by rewrite list_elem_of_In, filter_In, <- list_elem_of_In. Qed.

Lemma elem_of_pass fast p sel l n x :
  x ∈ take n (List.filter (eligible fast p sel) l) ->
  x ∈ l /\ _is_core_fast_batch_event x = fast /\ (q_id x ∉ ids sel) /\ p x = true.
Proof.
  intros (i & H%list_elem_of_lookup_2 & _)%elem_of_take. apply elem_of_lfilter in H as [H He].
  unfold eligible in He. rewrite !andb_true_iff in He. destruct He as (Hi & Hf & Hp).
  split_and!; [done|by apply eqb_prop| |done]. rewrite <- existsb_id. by destruct (existsb _ _).
Qed.

Lemma NoDup_filter_ids f l : NoDup (ids l) -> NoDup (ids (List.filter f l)).
Proof.
  induction l as [|q l IH]; simpl; [done|]. intros [Hq Hd]%list.NoDup_cons.
  destruct (f q); [|by apply IH]. simpl. apply list.NoDup_cons. split; [|by apply IH].
  intros (x & Hx & E)%elem_of_ids. apply elem_of_lfilter in Hx as [Hx _].
  apply Hq, elem_of_ids. eauto.
Qed.

(** A selection from the queue [l], all of one group, nothing twice. *)
Definition selection (fast : bool) (l sel : list queued) : Prop :=
  NoDup (ids sel) /\ Forall (fun q => q ∈ l /\ _is_core_fast_batch_event q = fast) sel.

Section Select.
Context (fast : bool) (limit : Z) (l : list queued) (Hd : NoDup (ids l)).

Lemma selection_pass p sel n :
  selection fast l sel -> selection fast l (add_matching fast limit p l sel n).
Proof.
  intros [Hs Hl]. rewrite add_matching_spec by done. split.
  - rewrite map_app. apply list.NoDup_app. split_and!; [done| |].
    + intros x Hx (q & Hq & <-)%elem_of_ids. by apply elem_of_pass in Hq as (_ & _ & Hq & _).
    + rewrite <- firstn_map. eapply sublist_NoDup; [|apply sublist_take]. by apply NoDup_filter_ids.
  - apply list.Forall_app. split; [done|]. apply list.Forall_forall.
    intros x Hx. apply elem_of_pass in Hx. naive_solver.
Qed.

Lemma length_pass p sel n :
  Z.of_nat (length sel) <= limit -> Z.of_nat (length (add_matching fast limit p l sel n)) <= limit.
Proof. intros H. rewrite add_matching_spec by done. rewrite length_app, length_take. lia. Qed.

Lemma pass_prefix p sel n : exists t, add_matching fast limit p l sel n = sel ++ t.
Proof. rewrite add_matching_spec by done. eauto. Qed.

(** A pass whose predicate no unselected critical event satisfies. *)
Lemma crit_pass p sel n :
  (forall q, q ∈ l -> _is_command_critical_event q = true -> p q = true -> q_id q ∈ ids sel) ->
  crit (add_matching fast limit p l sel n) = crit sel.
Proof.
  intros H. rewrite add_matching_spec by done. rewrite List.filter_app.
  rewrite (filter_false _ (take _ _)); [by rewrite app_nil_r|].
  apply list.Forall_forall. intros x Hx. apply elem_of_pass in Hx as (Hx & _ & Hi & Hp).
  destruct (_is_command_critical_event x) eqn:E; [|done]. by destruct (Hi (H x Hx E Hp)).
Qed.
End Select.

(** While a command-critical event waits, the batch is of its group. *)
Lemma group_of_critical w :
  crit (w_events w) <> [] -> _select_batch_fast_group w = false.
Proof.
  intros H. unfold _select_batch_fast_group.
  destruct (existsb _is_core_fast_batch_event (w_events w)); [|done]. simpl.
  assert (exists q, first_with _is_command_critical_event (w_events w) = Some q /\
            _is_command_critical_event q = true) as (q & E & Hq).
  { clear -H. induction (w_events w) as [|q l IH]; simpl in *; [done|].
    destruct (_is_command_critical_event q) eqn:Hq; [by exists q|by apply IH]. }
  rewrite E. rewrite (critical_not_fast q Hq).
  assert (Hin : q ∈ w_events w) by (apply List.find_some in E as [E _]; by apply list_elem_of_In).
  enough (existsb (fun q => negb (_is_core_fast_batch_event q)) (w_events w) = true) as -> by done.
  apply existsb_exists. exists q. rewrite <- list_elem_of_In. by rewrite (critical_not_fast q Hq).
Qed.

Lemma group_available w :
  w_events w <> [] ->
  exists q, q ∈ w_events w /\ _is_core_fast_batch_event q = _select_batch_fast_group w.
Proof.
  intros H. destruct (existsb _is_core_fast_batch_event (w_events w)) eqn:Ef;
    destruct (existsb (fun q => negb (_is_core_fast_batch_event q)) (w_events w)) eqn:En.
  - apply existsb_exists in Ef as (a & Ha%list_elem_of_In & Hfa).
    apply existsb_exists in En as (b & Hb%list_elem_of_In & Hfb%negb_true_iff).
    destruct (_select_batch_fast_group w); eauto.
  - unfold _select_batch_fast_group. rewrite Ef, En. simpl.
    apply existsb_exists in Ef as (a & Ha%list_elem_of_In & Hfa). eauto.
  - unfold _select_batch_fast_group. rewrite Ef. simpl.
    apply existsb_exists in En as (b & Hb%list_elem_of_In & Hfb%negb_true_iff). eauto.
  - exfalso. destruct (w_events w) as [|q l]; [done|]. simpl in *.
    by destruct (_is_core_fast_batch_event q).
Qed.

(** The passes that make a batch, [n2] and [n3] the shares of the two middle
    ones. *)
Section Passes.
Context (fast : bool) (limit n2 n3 : Z) (l : list queued) (Hd : NoDup (ids l)).
Context (Hlimit : 0 < limit) (Hgroup : crit l <> [] -> fast = false).

Abbreviation pass p sel n := (add_matching fast limit p l sel n).
Abbreviation s1 := (pass _is_command_critical_event [] limit).
Abbreviation s2 :=
  (pass (fun q => _is_priority_event q && negb (_is_command_critical_event q)) s1 n2).
Abbreviation s3 := (pass _is_market_refresh_event s2 n3).
Abbreviation s4 := (pass (fun _ => true) s3 (limit - Z.of_nat (length s3))).

Lemma passes_selection : selection fast l s4.
Proof. do 4 (apply selection_pass; [done|]). split; constructor. Qed.

Lemma passes_length : Z.of_nat (length s4) <= limit.
Proof. do 4 (apply length_pass; [done|]). simpl. lia. Qed.

Lemma first_pass : s1 = take (Z.to_nat limit) (crit l).
Proof.
  rewrite add_matching_spec by done. simpl. f_equal; [lia|].
  apply filter_ext_in, list.Forall_forall. intros x Hx. unfold eligible. simpl.
  destruct (_is_command_critical_event x) eqn:Hc; [|by rewrite andb_false_r].
  rewrite (critical_not_fast x Hc), Hgroup; [done|].
  intros E. assert (Hin : x ∈ crit l) by (by apply elem_of_lfilter).
  rewrite E in Hin. by apply not_elem_of_nil in Hin.
Qed.

Lemma middle_passes : crit s3 = s1.
Proof.
  rewrite crit_pass; [rewrite crit_pass|..]; try done.
  - rewrite first_pass. generalize (Z.to_nat limit) as n. clear. induction l as [|q l' IH]; intros n; simpl.
    + by rewrite take_nil.
    + destruct (_is_command_critical_event q) eqn:Hq; [|apply IH].
      destruct n as [|n]; [done|]. simpl. rewrite Hq. by f_equal.
  - intros q _ Hq Hp. by rewrite Hq, andb_false_r in Hp.
  - intros q _ Hq Hp. by rewrite (critical_not_refresh q Hq) in Hp.
Qed.

Lemma crit_passes : crit s4 = take (Z.to_nat limit) (crit l).
Proof.
  transitivity (crit s3); [|by rewrite middle_passes, first_pass].
  destruct (Z.leb_spec limit (Z.of_nat (length s1))) as [Hfull|Hroom].
  - assert (length s1 <= length s3)%nat as H.
    { rewrite <- middle_passes at 1. apply List.filter_length_le. }
    set (s := s3) in *. rewrite add_matching_spec by done.
    replace (Z.to_nat _) with 0%nat by lia. simpl. by rewrite app_nil_r.
  - apply crit_pass; [done|]. intros q Hq Hc _. apply elem_of_ids. exists q. split; [|done].
    assert (Hin : q ∈ crit s3); [|by apply elem_of_lfilter in Hin as [? _]].
    rewrite middle_passes, first_pass. rewrite first_pass, length_take in Hroom.
    rewrite take_ge by lia. by apply elem_of_lfilter.
Qed.

Lemma passes_nonempty q : q ∈ l -> _is_core_fast_batch_event q = fast -> s4 <> [].
Proof.
  intros Hq Hf. destruct s3 as [|x t] eqn:E.
  - rewrite add_matching_spec by done. simpl.
    assert (Hin : q ∈ List.filter (eligible fast (fun _ => true) []) l).
    { apply elem_of_lfilter. split; [done|]. unfold eligible. simpl. by rewrite Hf, eqb_reflx. }
    destruct (List.filter (eligible fast (fun _ => true) []) l) as [|y t];
      [by apply not_elem_of_nil in Hin|].
    by replace (Z.to_nat _) with (S (Z.to_nat (limit - 1))) by lia.
  - destruct (pass_prefix fast limit l Hd (fun _ => true) (x :: t)
                (limit - Z.of_nat (length (x :: t)))) as [u ->]. done.
Qed.
End Passes.

(** The batch: of one group, within its limit, not empty unless the queue is,
    its command-critical events the oldest of the queue. *)
Lemma batch_spec cfg w :
  1 <= wc_event_batch_size cfg -> NoDup (ids (w_events w)) ->
  let sel := _select_event_batch cfg w in
  selection (_select_batch_fast_group w) (w_events w) sel /\
  Z.of_nat (length sel) <= wc_event_batch_size cfg /\
  (w_events w <> [] -> sel <> []) /\
  exists n, crit sel = take n (crit (w_events w)).
Proof.
  intros Hb Hd. unfold _select_event_batch.
  set (limit := Z.min (wc_event_batch_size cfg) (Z.of_nat (length (w_events w)))).
  destruct (Z.leb_spec limit 0) as [Hl|Hl].
  { split_and!; [by split; constructor|simpl; lia| |by exists 0%nat].
    intros H. destruct (w_events w); [done|]. simpl in *. lia. }
  split_and!.
  - by apply passes_selection.
  - etrans; [by apply passes_length|lia].
  - intros Hne. destruct (group_available w Hne) as (q & Hq & Hf). by eapply passes_nonempty.
  - eexists. apply crit_passes; [done..|]. apply group_of_critical.
Qed.

(** ** Removal *)

Definition outside_batch (batch : list queued) (q : queued) : bool :=
  negb (existsb (fun s => (q_id s =? q_id q)%nat) batch).

Lemma remove_filter q l :
  NoDup (ids l) ->
  _remove_event_by_identity q l = List.filter (fun x => negb (q_id x =? q_id q)%nat) l.
Proof.
  unfold _remove_event_by_identity. induction l as [|x l IH]; simpl; [done|].
  intros [Hx Hd]%list.NoDup_cons. destruct (Nat.eqb_spec (q_id x) (q_id q)) as [E|E]; simpl.
  - symmetry. rewrite <- (List.filter_true l) at 2. apply filter_ext_in, list.Forall_forall.
    intros y Hy. apply negb_true_iff, Nat.eqb_neq. intros E'. apply Hx, elem_of_ids.
    exists y. split; [done|congruence].
  - rewrite <- IH by done. by destruct (delete_first _ l).
Qed.

Lemma filter_twice {A} (f g : A -> bool) l :
  List.filter f (List.filter g l) = List.filter (fun x => g x && f x) l.
Proof.
  induction l as [|x l IH]; simpl; [done|]. destruct (g x); simpl; [|done].
  by destruct (f x); rewrite IH.
Qed.

Lemma remove_batch batch l :
  NoDup (ids l) ->
  fold_left (fun l q => _remove_event_by_identity q l) batch l =
  List.filter (outside_batch batch) l.
Proof.
  revert l; induction batch as [|q batch IH]; intros l Hd; simpl.
  - symmetry. apply List.filter_true.
  - rewrite remove_filter, IH by (try apply NoDup_filter_ids; done).
    rewrite filter_twice. apply filter_ext_in, list.Forall_forall. intros x _.
    unfold outside_batch. simpl. by rewrite negb_orb, (Nat.eqb_sym (q_id q)).
Qed.

Lemma filter_all {A} (f : A -> bool) l : Forall (fun x => f x = true) l -> List.filter f l = l.
Proof. induction 1 as [|x l Hx _ IH]; simpl; [done|]. by rewrite Hx, IH. Qed.

Lemma outside_batch_spec batch q : outside_batch batch q = true <-> q_id q ∉ ids batch.
Proof. unfold outside_batch. rewrite <- existsb_id. by destruct (existsb _ _). Qed.

Lemma filter_comm {A} (f g : A -> bool) l :
  List.filter f (List.filter g l) = List.filter g (List.filter f l).
Proof. rewrite !filter_twice. apply List.filter_ext. intros x. apply andb_comm. Qed.

(** What is left of the command-critical events when a batch leaves a queue into
    which [late] events came meanwhile. *)
Lemma crit_removed fast l sel l' late n :
  selection fast l sel -> crit sel = take n (crit l) ->
  NoDup (ids (l ++ late)) -> NoDup (ids l') -> crit l' = crit l ++ crit late ->
  crit sel ++ crit (fold_left (fun l q => _remove_event_by_identity q l) sel l') = crit l'.
Proof.
  intros [_ Hsel] Hn Hd Hd' Hc. rewrite remove_batch by done.
  rewrite filter_comm, Hc, <- (take_drop n (crit l)), !List.filter_app, <- Hn.
  rewrite map_app in Hd. apply list.NoDup_app in Hd as (Hl & Hdis & _).
  rewrite list.Forall_forall in Hsel.
  rewrite (filter_false (outside_batch sel) (crit sel)), (filter_all _ (drop n _)),
    (filter_all _ (crit late)); [by simpl; rewrite app_assoc|..];
    apply list.Forall_forall; intros x Hx.
  - apply elem_of_lfilter in Hx as [Hx _]. apply outside_batch_spec.
    intros (s & Hs & E)%elem_of_ids. apply (Hdis (q_id x)).
    + apply elem_of_ids. exists s. split; [|done]. by apply Hsel.
    + apply elem_of_ids. eauto.
  - apply outside_batch_spec. intros (s & Hs & E)%elem_of_ids.
    assert (Hxl : x ∈ crit l) by (rewrite <- (take_drop n (crit l)); apply elem_of_app; by right).
    apply elem_of_lfilter in Hxl as [Hxl Hxc].
    assert (s = x) as -> by (apply (NoDup_map_inj q_id l); naive_solver).
    assert (Hin : x ∈ crit sel) by (by apply elem_of_lfilter). rewrite Hn in Hin.
    assert (Hnd : NoDup (crit l)).
    { apply (NoDup_fmap_1 q_id). by apply NoDup_filter_ids. }
    rewrite <- (take_drop n (crit l)), list.NoDup_app in Hnd. naive_solver.
  - apply elem_of_lfilter in Hx as [Hx _]. apply not_true_iff_false.
    rewrite outside_batch_spec, elem_of_ids. naive_solver.
Qed.

Lemma lfilter_submseteq {A} (f : A -> bool) l : List.filter f l ⊆+ l.
Proof.
  apply sublist_submseteq. induction l as [|x l IH]; simpl; [constructor|].
  destruct (f x); by constructor.
Qed.

(** ** Runs *)

Lemma submseteq_ids l l' : l ⊆+ l' -> ids l ⊆+ ids l'.
Proof. apply fmap_submseteq. Qed.

Lemma NoDup_submseteq_ids l l' : l ⊆+ l' -> NoDup (ids l') -> NoDup (ids l).
Proof.
  intros H%submseteq_ids Hd. apply submseteq_Permutation in H as [k H].
  rewrite H in Hd. by apply list.NoDup_app in Hd as [? _].
Qed.

Section Runs.
Context (py_repr : json -> string) (cfg : worker_config).
Context (Hposting : wc_event_posting_enabled cfg = true) (Hbatch : 1 <= wc_event_batch_size cfg).

(** What one action does to the command-critical events, the queue's content and
    its bound. *)
Definition keeps_critical (w : worker) (came : list queued) (w' : worker) (posted : list queued) : Prop :=
  crit posted ++ crit (w_events w') = crit (w_events w) ++ crit came /\
  w_events w' ⊆+ w_events w ++ came /\ bounded cfg (w_events w').

Lemma enqueued_keeps qs w :
  bounded cfg (w_events w) -> keeps_critical w qs (enqueue_all py_repr cfg qs w) [].
Proof.
  intros Hb. destruct (enqueue_all_spec py_repr cfg qs w Hposting Hb) as (H1 & H2 & H3).
  split_and!; [done| |done]. by rewrite Permutation_app_comm.
Qed.

Lemma bounded_filter f l :
  bounded cfg l -> bounded cfg (List.filter f l).
Proof.
  intros [H|H]; [left|right].
  - pose proof (List.filter_length_le f l). lia.
  - rewrite list.Forall_forall in *. intros x Hx. apply elem_of_lfilter in Hx as [Hx _]. auto.
Qed.

Lemma post_keeps now clock arrivals transport w w' posted ok :
  NoDup (ids (w_events w ++ arrivals)) -> bounded cfg (w_events w) ->
  _post_next_event_batch py_repr cfg now clock arrivals transport w = Ok (w', posted, ok) ->
  keeps_critical w arrivals w' posted.
Proof.
  intros Hd Hb. destruct (enqueued_keeps arrivals w Hb) as (H1 & H2 & H3).
  unfold _post_next_event_batch. destruct (f_lt now _); [by intros [= <- <- <-]|].
  assert (Hdw : NoDup (ids (w_events w))).
  { eapply NoDup_submseteq_ids, Hd. by apply submseteq_inserts_r. }
  destruct (batch_spec cfg w Hbatch Hdw) as (Hs & _ & _ & n & Hn).
  destruct (_select_event_batch cfg w) as [|q sel] eqn:E; [by intros [= <- <- <-]|].
  rewrite <- E in Hs, Hn |- *. destruct (post_events _ transport) as [response|e].
  - intros H. res_inv H. injection H as <- <- <-. simpl.
    set (l' := w_events (enqueue_all py_repr cfg arrivals w)) in *.
    assert (Hd' : NoDup (ids l')) by (by eapply NoDup_submseteq_ids).
    unfold keeps_critical. simpl. split_and!.
    + rewrite <- H1. by eapply crit_removed.
    + rewrite remove_batch by done. etrans; [apply lfilter_submseteq|exact H2].
    + rewrite remove_batch by done. by apply bounded_filter.
  - by intros [= <- <- <-].
Qed.

Lemma act_keeps a w w' posted :
  NoDup (ids (w_events w ++ arrived a)) -> bounded cfg (w_events w) ->
  act py_repr cfg a w = Ok (w', posted) -> keeps_critical w (arrived a) w' posted.
Proof.
  intros Hd Hb. destruct a as [q|limit|r]; simpl.
  - intros [= <- <-]. exact (enqueued_keeps [q] w Hb).
  - intros [= <- <-]. unfold keeps_critical. simpl. by rewrite !app_nil_r.
  - intros H. res_inv H. destruct a as [[w1 p] ok]. injection H as <- <-.
    unfold _run_round in Ha. destruct (_ && _); [|by eapply post_keeps].
    injection Ha as <- <- <-. unfold _poll_commands.
    destruct (enqueued_keeps (rd_arrivals r) w Hb) as (H1 & H2 & H3). by destruct (rd_poll r).
Qed.

Lemma run_keeps actions w w' posted :
  NoDup (ids (w_events w ++ concat (map arrived actions))) -> bounded cfg (w_events w) ->
  run py_repr cfg actions w = Ok (w', posted) ->
  keeps_critical w (concat (map arrived actions)) w' posted.
Proof.
  revert w posted. induction actions as [|a rest IH]; intros w posted Hd Hb; simpl.
  { intros [= <- <-]. unfold keeps_critical. by rewrite !app_nil_r. }
  intros H. res_inv H. destruct a0 as [w1 p1]. res_inv H. destruct a0 as [w2 p2].
  injection H as <- <-. simpl in Hd. rewrite app_assoc in Hd.
  assert (Hd1 : NoDup (ids (w_events w ++ arrived a))).
  { eapply NoDup_submseteq_ids, Hd. by apply submseteq_inserts_r. }
  destruct (act_keeps a w w1 p1 Hd1 Hb Ha) as (H1 & H2 & H3).
  destruct (IH w1 p2) as (G1 & G2 & G3); [|done|done|].
  { eapply NoDup_submseteq_ids, Hd. by apply submseteq_app. }
  split_and!; [| |done].
  - rewrite !List.filter_app, <- app_assoc, G1, app_assoc, H1. by rewrite app_assoc.
  - etrans; [exact G2|]. rewrite app_assoc. by apply submseteq_app.
Qed.

Lemma new_worker_bounded : bounded cfg (w_events new_worker).
Proof. right. constructor. Qed.
End Runs.

(** C17. No order report is lost or overtaken on its way to the core: whatever the
    main thread enqueues, however the requests fail, whatever arrives while they
    are in flight and however full the queue, the reports about commands and
    executions the core has answered for, followed by those still queued, are
    exactly those that were enqueued, in that order. *)
Theorem critical_events_fifo py_repr cfg actions w posted :
  wc_event_posting_enabled cfg = true -> 1 <= wc_event_batch_size cfg ->
  NoDup (ids (concat (map arrived actions))) ->
  run py_repr cfg actions new_worker = Ok (w, posted) ->
  crit posted ++ crit (w_events w) = crit (concat (map arrived actions)).
Proof.
  intros Hp Hb Hd H.
  exact (proj1 (run_keeps py_repr cfg Hp Hb actions new_worker _ _ Hd (new_worker_bounded cfg) H)).
Qed.

(** The queue is bounded: after any run it holds at most the configured
    number of events, unless every event in it is one that must not be dropped. *)
Theorem queue_bounded py_repr cfg actions w posted :
  wc_event_posting_enabled cfg = true -> 1 <= wc_event_batch_size cfg ->
  NoDup (ids (concat (map arrived actions))) ->
  run py_repr cfg actions new_worker = Ok (w, posted) ->
  Z.of_nat (length (w_events w)) <= wc_max_buffer_size cfg \/
  Forall (fun q => _is_drop_protected_event q = true) (w_events w).
Proof.
  intros Hp Hb Hd H.
  exact (proj2 (proj2 (run_keeps py_repr cfg Hp Hb actions new_worker _ _ Hd (new_worker_bounded cfg) H))).
Qed.

(** *** With nothing arriving *)

Lemma selection_split fast l sel :
  NoDup (ids l) -> selection fast l sel -> l ≡ₚ sel ++ List.filter (outside_batch sel) l.
Proof.
  intros Hd [Hs Hl]. rewrite list.Forall_forall in Hl.
  apply NoDup_Permutation.
  - by apply (NoDup_fmap_1 q_id).
  - apply list.NoDup_app. split_and!; [by apply (NoDup_fmap_1 q_id)| |].
    + intros x Hx [_ Hx']%elem_of_lfilter. apply outside_batch_spec in Hx'.
      apply Hx', elem_of_ids. eauto.
    + apply (NoDup_fmap_1 q_id). by apply NoDup_filter_ids.
  - intros x. rewrite elem_of_app, elem_of_lfilter, outside_batch_spec. split.
    + intros Hx. destruct (decide (q_id x ∈ ids sel)) as [(s & Hs' & E)%elem_of_ids|]; [|by right].
      left. assert (s = x) as <-; [|done]. apply (NoDup_map_inj q_id l); naive_solver.
    + intros [Hx|[Hx _]]; [by apply Hl|done].
Qed.

Lemma post_answered py_repr cfg core now clock w :
  honest core -> 1 <= wc_event_batch_size cfg <= 200 -> NoDup (ids (w_events w)) ->
  f_lt now (w_next_post_retry_at w) = false ->
  exists w' ok,
    _post_next_event_batch py_repr cfg now clock [] (Ok (core (_select_event_batch cfg w))) w =
      Ok (w', _select_event_batch cfg w, ok) /\
    w_events w' = List.filter (outside_batch (_select_event_batch cfg w)) (w_events w) /\
    w_next_post_retry_at w' = w_next_post_retry_at w.
Proof.
  intros Hcore [Hb1 Hb2] Hd Hnow. unfold _post_next_event_batch. rewrite Hnow.
  destruct (batch_spec cfg w Hb1 Hd) as (_ & Hlen & _).
  destruct (_select_event_batch cfg w) as [|q sel] eqn:E.
  { exists w, false. split_and!; [done|by rewrite List.filter_true|done]. }
  rewrite <- E in *. unfold post_events.
  destruct (Nat.eqb_spec (length (_select_event_batch cfg w)) 0) as [E0|_]; [by rewrite E in E0|].
  destruct (Nat.ltb_spec 200 (length (_select_event_batch cfg w))) as [?|_]; [lia|].
  destruct (Hcore (_select_event_batch cfg w)) as (results & Hr & Hl & Hf). simpl. rewrite Hr, Hl.
  rewrite Nat.eqb_refl. destruct (failed_count _) as [n|]; [|done]. simpl.
  eexists _, true. split_and!; [done| |done]. simpl. by rewrite remove_batch.
Qed.

(** C34. The queue empties: with nothing arriving and a core that answers, at most
    as many requests as there are events queued post every one of them. *)
Theorem queue_drains py_repr cfg core now clock w :
  honest core -> 1 <= wc_event_batch_size cfg <= 200 -> NoDup (ids (w_events w)) ->
  f_lt now (w_next_post_retry_at w) = false ->
  exists w' posted,
    post_rounds py_repr cfg core now clock (length (w_events w)) w = Ok (w', posted) /\
    w_events w' = [] /\ posted ≡ₚ w_events w.
Proof.
  intros Hcore Hb. assert (length (w_events w) <= length (w_events w))%nat as Hn by lia.
  revert Hn. generalize (length (w_events w)) at 2 3 as n. intros n. revert w.
  induction n as [|n IH]; intros w Hn Hd Hnow.
  { exists w, []. destruct (w_events w); [done|simpl in Hn; lia]. }
  destruct (post_answered py_repr cfg core now clock w Hcore Hb Hd Hnow) as (w1 & ok & E & He & Hr).
  destruct (batch_spec cfg w (proj1 Hb) Hd) as (Hs & _ & Hne & _).
  pose proof (selection_split _ _ _ Hd Hs) as Hp. rewrite <- He in Hp.
  assert (Hlen : (length (w_events w1) <= n)%nat).
  { apply Permutation_length in Hp. rewrite length_app in Hp.
    destruct (w_events w); [simpl in Hp; lia|].
    destruct (_select_event_batch cfg w); [by destruct (Hne ltac:(done))|]. simpl in *. lia. }
  destruct (IH w1) as (w2 & later & E2 & He2 & Hp2); [done| |by rewrite Hr|].
  { rewrite He. by apply NoDup_filter_ids. }
  exists w2, (_select_event_batch cfg w ++ later). split_and!; [|done|by rewrite Hp2, <- Hp].
  simpl. rewrite E. simpl. by rewrite E2.
Qed.

(** ** An afternoon *)

Definition event_of (etype : string) (p : payload) : GatewayEvent :=
  {| ge_event_type := etype; ge_payload := p; ge_event_id := "evt"; ge_source := "kiwoom";
     ge_ts := 0; ge_command_id := None; ge_idempotency_key := None |}.

Definition afternoon_config : worker_config :=
  CoreIoWorker_config 20 true true (f_lit 2 10) 2 (f_lit 2 10) 4 3 2.

Definition tick_of (n : nat) (code : string) : queued :=
  {| q_id := n; q_event := event_of "price_tick" [("code", JStr code)] |}.
Definition report (n : nat) (etype : string) : queued :=
  {| q_id := n; q_event := event_of etype [] |}.

Definition answer (n : nat) : res payload :=
  Ok [("results", JList (repeat JNull n)); ("failed_count", JInt 0)].

Definition posting (at' : Z) (arrivals : list queued) (transport : res payload) : action :=
  Round {| rd_now := f_neg (f_of_Z 1); rd_post_now := f_of_Z at'; rd_clock := f_of_Z at';
           rd_arrivals := arrivals; rd_poll := Ok []; rd_post := transport |}.

(** Ticks coalesce, a report overtakes them, a request fails, one is answered
    while another report arrives, and the queue overflows. *)
Definition afternoon : list action :=
  [Enqueue (tick_of 1 "005930"); Enqueue (tick_of 2 "000660"); Enqueue (tick_of 3 "005930");
   Enqueue (report 4 "command_started");
   posting 1 [report 5 "order_pre_ack"] (Err (RuntimeError "timeout"));
   Enqueue (report 6 "heartbeat"); Enqueue (report 7 "gateway_log");
   posting 2 [report 8 "command_ack"; tick_of 9 "035720"] (answer 3);
   Enqueue (report 10 "kiwoom_order_chejan"); Enqueue (report 11 "rate_limited");
   Enqueue (report 12 "command_failed")].

Example afternoon_run :
  exists w posted,
    run (fun _ => EmptyString) afternoon_config afternoon new_worker = Ok (w, posted) /\
    ids posted = [4; 5; 7]%nat /\ ids (w_events w) = [8; 10; 11; 12]%nat /\
    w_coalesced_count w = 1 /\ w_dropped_count w = 5 /\ w_next_post_retry_at w = f_lit 12 10.
Proof. eexists _, _. vm_compute. repeat split. Qed.

Lemma critical_events_fifo_witness :
  exists w posted,
    run (fun _ => EmptyString) afternoon_config afternoon new_worker = Ok (w, posted) /\
    crit posted ++ crit (w_events w) = crit (concat (map arrived afternoon)).
Proof.
  destruct (run (fun _ => EmptyString) afternoon_config afternoon new_worker) as [[w posted]|] eqn:E;
    [|vm_compute in E; discriminate E].
  exists w, posted. split; [reflexivity|].
  apply (critical_events_fifo (fun _ => EmptyString) afternoon_config afternoon w posted);
    [reflexivity|vm_compute; discriminate|apply (bool_decide_unpack _); vm_compute; exact I|exact E].
Defined.

Lemma queue_bounded_witness :
  exists w posted,
    run (fun _ => EmptyString) afternoon_config afternoon new_worker = Ok (w, posted) /\
    (Z.of_nat (length (w_events w)) <= 4 \/
     Forall (fun q => _is_drop_protected_event q = true) (w_events w)).
Proof.
  destruct (run (fun _ => EmptyString) afternoon_config afternoon new_worker) as [[w posted]|] eqn:E;
    [|vm_compute in E; discriminate E].
  exists w, posted. split; [reflexivity|].
  apply (queue_bounded (fun _ => EmptyString) afternoon_config afternoon w posted);
    [reflexivity|vm_compute; discriminate|apply (bool_decide_unpack _); vm_compute; exact I|exact E].
Defined.

Definition evening : worker :=
  enqueue_all (fun _ => EmptyString) afternoon_config
    [tick_of 1 "005930"; report 2 "command_ack"; tick_of 3 "000660"; report 4 "tr_response"] new_worker.

Lemma queue_drains_witness :
  exists w' posted,
    post_rounds (fun _ => EmptyString) afternoon_config
      (fun batch => [("results", JList (repeat JNull (length batch)))])
      (f_of_Z 1) (f_of_Z 1) 4 evening = Ok (w', posted) /\
    w_events w' = [] /\ posted ≡ₚ w_events evening.
Proof.
  apply (queue_drains (fun _ => EmptyString) afternoon_config
    (fun batch => [("results", JList (repeat JNull (length batch)))]) (f_of_Z 1) (f_of_Z 1) evening).
  - intros batch. exists (repeat JNull (length batch)). split; [reflexivity|].
    split; [apply repeat_length|reflexivity].
  - split; vm_compute; discriminate.
  - apply (bool_decide_unpack _). vm_compute. exact I.
  - reflexivity.
Defined.
