(* ===== verification/ProjectionWatermarks.v ===== *)
(** * Projection watermarks ([storage/projection_watermarks.py])

    What every projection of the gateway's events keeps about its progress: the
    last result of each event, and one row with the furthest event applied and the
    furthest that failed.  [pr_log] is the table [gateway_events] in the order of
    its row ids; a time is its wire text, [now] the one reading of the clock a call
    makes.  The JSON columns are kept as the mappings they hold. *)
From S2P Require Import Prelude PyFloat BrokerUtils GatewayModels.
Local Open Scope Z_scope.

(** ** The tables *)

Record logged_event := {
  le_rowid : Z;
  le_event_id : string;
  le_event_type : string;
  le_source : string;
  le_command_id : option string;
  le_idempotency_key : option string;
  le_event_ts : string;
  le_received_at : string;
  le_payload : payload;
  le_status : string
}.

Record ProjectionWatermark := {
  wm_last_event_rowid : Z;
  wm_last_event_id : option string;
  wm_last_event_received_at : option string;
  wm_last_processed_at : string;
  wm_updated_at : string;
  wm_metadata : payload;
  wm_last_success_event_rowid : Z;
  wm_last_success_event_id : option string;
  wm_last_success_event_received_at : option string;
  wm_last_success_processed_at : option string;
  wm_last_error_event_rowid : Z;
  wm_last_error_event_id : option string;
  wm_last_error_event_received_at : option string;
  wm_last_error_processed_at : option string;
  wm_last_error_message : option string
}.

Module ResultStatus.
Inductive t := SUCCESS | ERROR.
Definition value (s : t) : string := match s with SUCCESS => "SUCCESS" | ERROR => "ERROR" end.
End ResultStatus.

Record ProjectionEventResult := {
  er_event_rowid : Z;
  er_event_type : string;
  er_status : ResultStatus.t;
  er_outcome : string;
  er_error_message : option string;
  er_first_processed_at : string;
  er_processed_at : string;
  er_attempt_count : Z;
  er_metadata : payload
}.

Record projections := {
  pr_log : list logged_event;
  pr_watermarks : gmap string ProjectionWatermark;
  pr_results : gmap (string * string) ProjectionEventResult
}.

Definition set_watermarks (m : gmap string ProjectionWatermark) (p : projections) : projections :=
  {| pr_log := pr_log p; pr_watermarks := m; pr_results := pr_results p |}.
Definition set_results (m : gmap (string * string) ProjectionEventResult) (p : projections)
    : projections :=
  {| pr_log := pr_log p; pr_watermarks := pr_watermarks p; pr_results := m |}.

(** [SELECT ... FROM gateway_events WHERE event_id = ?]. *)
Definition find_event (id : string) (log : list logged_event) : option logged_event :=
  List.find (fun e => String.eqb (le_event_id e) id) log.

(** ** Names *)

Definition _normalize_projection_name (name : string) : res string :=
  let normalized := py_lower (py_strip name) in
  if str_true normalized then Ok normalized
  else Err (ValueError "projection_name must not be empty").

Definition _require_non_empty (value field_name : string) : res string :=
  require_non_empty value field_name.

(** ** Watermarks *)

Definition new_watermark (now : string) : ProjectionWatermark :=
  {| wm_last_event_rowid := 0; wm_last_event_id := None; wm_last_event_received_at := None;
     wm_last_processed_at := now; wm_updated_at := now; wm_metadata := [];
     wm_last_success_event_rowid := 0; wm_last_success_event_id := None;
     wm_last_success_event_received_at := None; wm_last_success_processed_at := None;
     wm_last_error_event_rowid := 0; wm_last_error_event_id := None;
     wm_last_error_event_received_at := None; wm_last_error_processed_at := None;
     wm_last_error_message := None |}.

(** The row, inserted first when it is missing. *)
Definition _ensure_watermark_row (name now : string) (p : projections) : ProjectionWatermark :=
  default (new_watermark now) (pr_watermarks p !! name).

Definition advanced (rowid : Z) (id received_at : option string) (metadata : payload) (now : string)
    (w : ProjectionWatermark) : ProjectionWatermark :=
  let ahead {A} (new old : A) := if wm_last_event_rowid w <? rowid then new else old in
  let further {A} (new old : A) := if wm_last_success_event_rowid w <? rowid then new else old in
  {| wm_last_event_rowid := ahead rowid (wm_last_event_rowid w);
     wm_last_event_id := ahead id (wm_last_event_id w);
     wm_last_event_received_at := ahead received_at (wm_last_event_received_at w);
     wm_last_processed_at := now; wm_updated_at := now;
     wm_metadata := ahead metadata (wm_metadata w);
     wm_last_success_event_rowid := further rowid (wm_last_success_event_rowid w);
     wm_last_success_event_id := further id (wm_last_success_event_id w);
     wm_last_success_event_received_at :=
       further received_at (wm_last_success_event_received_at w);
     wm_last_success_processed_at := further (Some now) (wm_last_success_processed_at w);
     wm_last_error_event_rowid := wm_last_error_event_rowid w;
     wm_last_error_event_id := wm_last_error_event_id w;
     wm_last_error_event_received_at := wm_last_error_event_received_at w;
     wm_last_error_processed_at := wm_last_error_processed_at w;
     wm_last_error_message := wm_last_error_message w |}.

Definition advance_projection_watermark (name : string) (last_event_rowid : Z)
    (id received_at : option string) (metadata : payload) (now : string) (p : projections)
    : res projections :=
  let* normalized := _normalize_projection_name name in
  let rowid := Z.max last_event_rowid 0 in
  let w := _ensure_watermark_row normalized now p in
  Ok (set_watermarks (<[normalized := advanced rowid id received_at metadata now w]>
        (pr_watermarks p)) p).

Definition error_advanced (rowid : Z) (id received_at : option string) (error_message now : string)
    (w : ProjectionWatermark) : ProjectionWatermark :=
  let ahead {A} (new old : A) := if wm_last_error_event_rowid w <=? rowid then new else old in
  {| wm_last_event_rowid := wm_last_event_rowid w; wm_last_event_id := wm_last_event_id w;
     wm_last_event_received_at := wm_last_event_received_at w;
     wm_last_processed_at := now; wm_updated_at := now; wm_metadata := wm_metadata w;
     wm_last_success_event_rowid := wm_last_success_event_rowid w;
     wm_last_success_event_id := wm_last_success_event_id w;
     wm_last_success_event_received_at := wm_last_success_event_received_at w;
     wm_last_success_processed_at := wm_last_success_processed_at w;
     wm_last_error_event_rowid := ahead rowid (wm_last_error_event_rowid w);
     wm_last_error_event_id := ahead id (wm_last_error_event_id w);
     wm_last_error_event_received_at := ahead received_at (wm_last_error_event_received_at w);
     wm_last_error_processed_at := ahead (Some now) (wm_last_error_processed_at w);
     wm_last_error_message := ahead (Some error_message) (wm_last_error_message w) |}.

Definition advance_projection_error_watermark (name : string) (last_event_rowid : Z)
    (id received_at : option string) (error_message now : string) (p : projections)
    : res projections :=
  let* normalized := _normalize_projection_name name in
  let rowid := Z.max last_event_rowid 0 in
  let w := _ensure_watermark_row normalized now p in
  Ok (set_watermarks (<[normalized := error_advanced rowid id received_at error_message now w]>
        (pr_watermarks p)) p).

(** ** Results of events *)

Record event_position := { ep_rowid : Z; ep_event_type : string; ep_received_at : string }.

(** A text given and not empty. *)
Definition given (o : option string) : option string :=
  match o with Some s => if str_true s then Some s else None | None => None end.

Definition _resolve_event_position (event_id : string) (event_rowid : option Z)
    (event_type event_received_at : option string) (p : projections) : option event_position :=
  match event_rowid, given event_type, given event_received_at with
  | Some rowid, Some etype, Some received_at =>
      Some {| ep_rowid := rowid; ep_event_type := py_lower (py_strip etype);
              ep_received_at := received_at |}
  | _, etype, received_at =>
      match find_event event_id (pr_log p) with
      | None => None
      | Some e =>
          Some {| ep_rowid := match event_rowid with
                              | Some n => if n =? 0 then le_rowid e else n
                              | None => le_rowid e end;
                  ep_event_type := py_lower (py_strip (default (le_event_type e) etype));
                  ep_received_at := default (le_received_at e) received_at |}
      end
  end.

(** The arguments of [record_projection_event_result]. *)
Record result_call := {
  rc_projection_name : string;
  rc_event_id : string;
  rc_status : ResultStatus.t;
  rc_outcome : string;
  rc_event_rowid : option Z;
  rc_event_type : option string;
  rc_event_received_at : option string;
  rc_error_message : option string;
  rc_metadata : payload
}.

Definition upsert_result (c : result_call) (outcome now : string) (position : event_position)
    (existing : option ProjectionEventResult) : ProjectionEventResult :=
  {| er_event_rowid := ep_rowid position; er_event_type := ep_event_type position;
     er_status := rc_status c; er_outcome := outcome; er_error_message := rc_error_message c;
     er_first_processed_at :=
       match existing with Some r => er_first_processed_at r | None => now end;
     er_processed_at := now;
     er_attempt_count := match existing with Some r => er_attempt_count r + 1 | None => 1 end;
     er_metadata := rc_metadata c |}.

Definition result_metadata (position : event_position) (outcome : string) : payload :=
  [("event_type", JStr (ep_event_type position)); ("outcome", JStr outcome)].

Definition record_projection_event_result (c : result_call) (now : string) (p : projections)
    : res projections :=
  let* name := _normalize_projection_name (rc_projection_name c) in
  let* id := _require_non_empty (rc_event_id c) "event_id" in
  let* outcome_text := _require_non_empty (rc_outcome c) "outcome" in
  let outcome := py_upper outcome_text in
  match _resolve_event_position id (rc_event_rowid c) (rc_event_type c) (rc_event_received_at c) p with
  | None => Ok p
  | Some position =>
      let error := default EmptyString (rc_error_message c) in
      let* _ := match rc_status c with
                | ResultStatus.ERROR =>
                    if str_true (py_strip error) then Ok tt
                    else Err (ValueError "error_message is required for ERROR projection result")
                | ResultStatus.SUCCESS => Ok tt end in
      let row := upsert_result c outcome now position (pr_results p !! (name, id)) in
      let p := set_results (<[(name, id) := row]> (pr_results p)) p in
      match rc_status c with
      | ResultStatus.SUCCESS =>
          advance_projection_watermark name (ep_rowid position) (Some id)
            (Some (ep_received_at position)) (result_metadata position outcome) now p
      | ResultStatus.ERROR =>
          advance_projection_error_watermark name (ep_rowid position) (Some id)
            (Some (ep_received_at position)) error now p
      end
  end.

Definition reset_projection_watermark (name : string) (p : projections) : res projections :=
  let* normalized := _normalize_projection_name name in
  Ok {| pr_log := pr_log p; pr_watermarks := base.delete normalized (pr_watermarks p);
        pr_results := filter (fun kv => kv.1.1 <> normalized) (pr_results p) |}.

Definition last_event_rowid (name : string) (p : projections) : Z :=
  match pr_watermarks p !! name with Some w => wm_last_event_rowid w | None => 0 end.

(** A sequence of calls. *)
Fixpoint record_all (calls : list (result_call * string)) (p : projections) : res projections :=
  match calls with
  | [] => Ok p
  | (c, now) :: rest =>
      let* p' := record_projection_event_result c now p in record_all rest p'
  end.

(** ** Progress

    What a history of calls says about one projection. *)

(** The position at which a call counts for the projection [name]. *)
Definition counts_at (name : string) (p : projections) (c : result_call) : option (string * event_position) :=
  match _normalize_projection_name (rc_projection_name c), _require_non_empty (rc_event_id c) "event_id" with
  | Ok n, Ok id =>
      if String.eqb n name then
        match _resolve_event_position id (rc_event_rowid c) (rc_event_type c)
                (rc_event_received_at c) p with
        | Some position => Some (id, position)
        | None => None
        end
      else None
  | _, _ => None
  end.

Definition succeeded (name : string) (p : projections) (c : result_call) : option (string * event_position) :=
  match rc_status c with ResultStatus.SUCCESS => counts_at name p c | ResultStatus.ERROR => None end.

(** The calls about one event. *)
Definition about (name id : string) (p : projections) (c : result_call) : bool :=
  match counts_at name p c with Some (id', _) => String.eqb id' id | None => false end.

Definition furthest (l : list (string * event_position)) : Z :=
  fold_right (fun x n => Z.max (ep_rowid x.2) n) 0 l.

Lemma furthest_nonneg l : 0 <= furthest l.
Proof. induction l as [|x l IH]; simpl; lia. Qed.

Lemma furthest_app l l' : furthest (l ++ l') = Z.max (furthest l) (furthest l').
Proof.
  induction l as [|x l IH]; simpl; [|lia]. pose proof (furthest_nonneg l'). lia.
Qed.

(** Where the watermark of [name] stands. *)
Definition watermark_state (name : string) (p : projections) : Z * option string * option string :=
  match pr_watermarks p !! name with
  | Some w => (wm_last_event_rowid w, wm_last_event_id w, wm_last_event_received_at w)
  | None => (0, None, None)
  end.

Definition stands_at (name : string) (p : projections) (done : list (string * event_position)) : Prop :=
  let '(rowid, id, received_at) := watermark_state name p in
  rowid = furthest done /\
  (0 < rowid -> exists e, e ∈ done /\ ep_rowid e.2 = rowid /\ id = Some e.1 /\
                          received_at = Some (ep_received_at e.2)).

Lemma resolve_log id r t v p p' :
  pr_log p' = pr_log p -> _resolve_event_position id r t v p' = _resolve_event_position id r t v p.
Proof. intros H. unfold _resolve_event_position. by rewrite H. Qed.

Lemma counted_log name p p' c : pr_log p' = pr_log p -> counts_at name p' c = counts_at name p c.
Proof. intros H. unfold counts_at. by repeat case_match; try (rewrite (resolve_log _ _ _ _ _ _ H) in *; simplify_eq). Qed.

Lemma advance_ok name rowid id received metadata now p p' :
  advance_projection_watermark name rowid id received metadata now p = Ok p' ->
  exists n, _normalize_projection_name name = Ok n /\
    p' = set_watermarks (<[n := advanced (Z.max rowid 0) id received metadata now
                                  (_ensure_watermark_row n now p)]> (pr_watermarks p)) p.
Proof. unfold advance_projection_watermark. intros H. res_inv H. injection H as <-. eauto. Qed.

Lemma projection_name_idem name n : _normalize_projection_name name = Ok n -> _normalize_projection_name n = Ok n.
Proof.
  unfold _normalize_projection_name. destruct (str_true _) eqn:E; [|done]. intros [= <-].
  rewrite py_strip_lower, py_strip_idem, py_lower_idem. by rewrite E.
Qed.

(** One call: the log stays, the projection it names moves, the others do not. *)
Lemma record_step name c now p p' done :
  record_projection_event_result c now p = Ok p' -> stands_at name p done ->
  pr_log p' = pr_log p /\
  stands_at name p' (done ++ option_list (succeeded name p c)).
Proof.
  unfold record_projection_event_result. intros H Hd.
  apply res_bind_ok in H as (n & Hn & H). apply res_bind_ok in H as (id & Hid & H).
  apply res_bind_ok in H as (outcome & _ & H).
  assert (Hc : counts_at name p c =
    if String.eqb n name then
      match _resolve_event_position id (rc_event_rowid c) (rc_event_type c) (rc_event_received_at c) p with
      | Some position => Some (id, position) | None => None end
    else None).
  { unfold counts_at. by rewrite Hn, Hid. }
  destruct (_resolve_event_position _ _ _ _ p) as [position|].
  2:{ injection H as <-. split; [done|]. unfold succeeded. rewrite Hc.
      destruct (rc_status c); [|by rewrite app_nil_r].
      by destruct (String.eqb n name); rewrite app_nil_r. }
  apply res_bind_ok in H as (_ & _ & H).
  apply projection_name_idem in Hn.
  unfold succeeded. destruct (rc_status c).
  - apply advance_ok in H as (n' & Hn' & ->). rewrite Hn in Hn'. injection Hn' as <-.
    split; [done|]. rewrite Hc. unfold stands_at, watermark_state in *. simpl.
    destruct (String.eqb_spec n name) as [->|Hne]; simpl.
    + rewrite lookup_insert_eq, furthest_app. unfold _ensure_watermark_row. simpl.
      destruct (pr_watermarks p !! name) as [w|]; simpl;
        destruct Hd as [Hr He]; rewrite ?Hr in *; simpl.
      * case_match; (split; [lia|]); intros Hpos.
        -- exists (id, position). rewrite elem_of_app, list_elem_of_singleton. simpl.
           split_and!; [by right|lia|done|done].
        -- destruct He as (e & He & H1 & H2 & H3); [lia|]. exists e.
           rewrite elem_of_app. naive_solver lia.
      * case_match; (split; [lia|]); intros Hpos; [|lia].
        exists (id, position). rewrite elem_of_app, list_elem_of_singleton. simpl.
        split_and!; [by right|lia|done|done].
    + by rewrite lookup_insert_ne, app_nil_r by done.
  - rewrite app_nil_r. unfold advance_projection_error_watermark in H. rewrite Hn in H.
    injection H as <-. split; [done|]. unfold stands_at, watermark_state in *. simpl.
    destruct (decide (n = name)) as [->|Hne].
    + rewrite lookup_insert_eq. unfold _ensure_watermark_row. simpl.
      by destruct (pr_watermarks p !! name).
    + by rewrite lookup_insert_ne by done.
Qed.

(** The row of results for one event. *)
Lemma record_result name id c now p p' :
  record_projection_event_result c now p = Ok p' ->
  match pr_results p' !! (name, id) with
  | Some r' =>
      if about name id p c
      then er_status r' = rc_status c /\ er_processed_at r' = now /\
           match pr_results p !! (name, id) with
           | Some r => er_attempt_count r' = er_attempt_count r + 1 /\
                       er_first_processed_at r' = er_first_processed_at r
           | None => er_attempt_count r' = 1 /\ er_first_processed_at r' = now
           end
      else pr_results p !! (name, id) = Some r'
  | None => about name id p c = false /\ pr_results p !! (name, id) = None
  end.
Proof.
  unfold record_projection_event_result. intros H.
  apply res_bind_ok in H as (n & Hn & H). apply res_bind_ok in H as (i & Hid & H).
  apply res_bind_ok in H as (outcome & _ & H).
  unfold about, counts_at. rewrite Hn, Hid.
  destruct (_resolve_event_position _ _ _ _ p) as [position|].
  2:{ injection H as <-. replace (match (if String.eqb n name then None else None) with
        | Some (id', _) => String.eqb id' id | None => false end) with false
        by (by destruct (String.eqb n name)). by destruct (pr_results p !! (name, id)). }
  apply res_bind_ok in H as (_ & _ & H).
  assert (Hr : exists ws, p' = set_watermarks ws (set_results (<[(n, i) :=
    upsert_result c (py_upper outcome) now position (pr_results p !! (n, i))]> (pr_results p)) p)).
  { destruct (rc_status c).
    - apply advance_ok in H as (? & _ & ->). eauto.
    - unfold advance_projection_error_watermark in H. res_inv H. injection H as <-. eauto. }
  destruct Hr as [ws ->]. simpl. clear H.
  destruct (String.eqb_spec n name) as [->|Hne].
  - destruct (String.eqb_spec i id) as [->|Hne].
    + rewrite lookup_insert_eq. split_and!; [done..|]. simpl. by destruct (pr_results p !! (name, id)).
    + rewrite lookup_insert_ne by congruence. by destruct (pr_results p !! (name, id)).
  - rewrite lookup_insert_ne by congruence. by destruct (pr_results p !! (name, id)).
Qed.

Lemma record_log c now p p' : record_projection_event_result c now p = Ok p' -> pr_log p' = pr_log p.
Proof.
  unfold record_projection_event_result. intros H. do 3 (apply res_bind_ok in H as (? & _ & H)).
  destruct (_resolve_event_position _ _ _ _ p); [|by injection H as <-].
  apply res_bind_ok in H as (_ & _ & H). destruct (rc_status c).
  - by apply advance_ok in H as (? & _ & ->).
  - unfold advance_projection_error_watermark in H. res_inv H. by injection H as <-.
Qed.

Lemma about_log name id p p' c : pr_log p' = pr_log p -> about name id p' c = about name id p c.
Proof. intros H. unfold about. by rewrite (counted_log name p p' c H). Qed.

Lemma filter_ext_about name id p p' (calls : list (result_call * string)) :
  pr_log p' = pr_log p ->
  List.filter (fun x => about name id p' x.1) calls = List.filter (fun x => about name id p x.1) calls.
Proof. intros H. apply List.filter_ext. intros x. by apply about_log. Qed.

(** A database whose projections have not started. *)
Definition fresh_projections (log : list logged_event) : projections :=
  {| pr_log := log; pr_watermarks := ∅; pr_results := ∅ |}.

Lemma record_all_stands name calls p p' done :
  record_all calls p = Ok p' -> stands_at name p done ->
  pr_log p' = pr_log p /\ stands_at name p' (done ++ omap (succeeded name p) (map fst calls)).
Proof.
  revert p done; induction calls as [|[c now] calls IH]; intros p done; simpl.
  { intros [= <-] ?. by rewrite app_nil_r. }
  intros (p1 & H1 & H)%res_bind_ok Hd.
  destruct (record_step name c now p p1 done H1 Hd) as [Hl H2].
  destruct (IH p1 _ H H2) as [Hl' H3]. split; [congruence|].
  rewrite <- app_assoc in H3.
  replace (omap (succeeded name p1) (map fst calls)) with (omap (succeeded name p) (map fst calls)) in H3.
  - by destruct (succeeded name p c).
  - apply list_omap_ext, Forall_Forall2_diag, list.Forall_forall. intros x _. unfold succeeded.
    by rewrite (counted_log name p p1 x Hl).
Qed.

Lemma record_all_results name id calls p p' :
  record_all calls p = Ok p' ->
  let attempts := List.filter (fun x => about name id p x.1) calls in
  match pr_results p' !! (name, id) with
  | Some r =>
      er_attempt_count r =
        (match pr_results p !! (name, id) with Some r0 => er_attempt_count r0 | None => 0 end) +
        Z.of_nat (length attempts) /\
      match list.last attempts with
      | Some (c, now) => er_status r = rc_status c /\ er_processed_at r = now
      | None => pr_results p !! (name, id) = Some r
      end
  | None => attempts = [] /\ pr_results p !! (name, id) = None
  end.
Proof.
  revert p; induction calls as [|[c now] calls IH]; intros p; cbn [record_all List.filter fst].
  { intros [= <-]. simpl. destruct (pr_results p !! (name, id)); [|done]. split; [lia|done]. }
  intros (p1 & H1 & H)%res_bind_ok. specialize (IH p1 H). cbv zeta in IH.
  pose proof (record_result name id c now p p1 H1) as Hr.
  rewrite (filter_ext_about name id p p1 calls) in IH by (by eapply record_log).
  destruct (pr_results p' !! (name, id)) as [r|].
  - destruct IH as [Hn Hlast]. destruct (pr_results p1 !! (name, id)) as [r1|] eqn:E1.
    + destruct (about name id p c).
      * destruct Hr as (Hs & Hp & Hr). cbn [length]. rewrite list.last_cons. split.
        -- destruct (pr_results p !! (name, id)); destruct Hr as [Hr _]; lia.
        -- destruct (list.last _) as [[c' now']|]; [done|]. injection Hlast as <-. done.
      * by rewrite Hr.
    + destruct Hr as [-> ->]. done.
  - destruct IH as [Hnil E1]. rewrite E1 in Hr. destruct Hr as [-> ->]. done.
Qed.

(** C24. The progress a projection reports is its history: after any sequence of
    recorded results, its watermark stands at the furthest row among the events it
    applied, with that event's id and time, however late or out of order the
    results came; and every event's row counts its attempts and carries the last
    result. *)
Theorem progress_is_history log calls p name :
  record_all calls (fresh_projections log) = Ok p ->
  let p0 := fresh_projections log in
  stands_at name p (omap (succeeded name p0) (map fst calls)) /\
  forall id,
    let attempts := List.filter (fun x => about name id p0 x.1) calls in
    match pr_results p !! (name, id) with
    | Some r => er_attempt_count r = Z.of_nat (length attempts) /\
        exists c now, list.last attempts = Some (c, now) /\
          er_status r = rc_status c /\ er_processed_at r = now
    | None => attempts = []
    end.
Proof.
  intros H. cbv zeta. split.
  - destruct (record_all_stands name calls _ _ [] H) as [_ Hs]; [|exact Hs].
    unfold stands_at, watermark_state. simpl. rewrite lookup_empty. split; [done|lia].
  - intros id. pose proof (record_all_results name id calls _ _ H) as Hr. cbv zeta in Hr.
    destruct (pr_results p !! (name, id)) as [r|]; [|by destruct Hr].
    simpl in Hr. rewrite lookup_empty in Hr. destruct Hr as [Hn Hl]. split; [lia|].
    destruct (list.last _) as [[c now]|]; [|done]. by exists c, now.
Qed.

(** ** An example *)

Definition example_log : list logged_event :=
  map (fun '(n, id) =>
         {| le_rowid := n; le_event_id := id; le_event_type := "price_tick"; le_source := "kiwoom";
            le_command_id := None; le_idempotency_key := None;
            le_event_ts := "2026-01-05T00:00:00Z"; le_received_at := "2026-01-05T00:00:01Z";
            le_payload := []; le_status := "ACCEPTED" |})
    [(1, "evt1"); (2, "evt2"); (3, "evt3")].

Definition example_call (id : string) (status : ResultStatus.t) : result_call :=
  {| rc_projection_name := " Market_Data"; rc_event_id := id; rc_status := status;
     rc_outcome := "applied"; rc_event_rowid := None; rc_event_type := None;
     rc_event_received_at := None; rc_error_message := Some "late"; rc_metadata := [] |}.

(** Out of order, one failing first. *)
Definition example_calls : list (result_call * string) :=
  [(example_call "evt3" ResultStatus.SUCCESS, "t1"); (example_call "evt1" ResultStatus.ERROR, "t2");
   (example_call "evt2" ResultStatus.SUCCESS, "t3"); (example_call "evt1" ResultStatus.SUCCESS, "t4")].

Lemma progress_is_history_witness :
  exists p, record_all example_calls (fresh_projections example_log) = Ok p /\
    stands_at "market_data" p
      (omap (succeeded "market_data" (fresh_projections example_log)) (map fst example_calls)).
Proof.
  destruct (record_all example_calls (fresh_projections example_log)) as [p|] eqn:E;
    [|vm_compute in E; discriminate E].
  exists p. split; [reflexivity|].
  exact (proj1 (progress_is_history example_log example_calls p "market_data" E)).
Defined.

Example progress_example :
  match record_all example_calls (fresh_projections example_log) with
  | Ok p => watermark_state "market_data" p = (3, Some "evt3", Some "2026-01-05T00:00:01Z") /\
      (er_attempt_count <$> pr_results p !! ("market_data", "evt1")) = Some 2
  | Err _ => False
  end.
Proof. vm_compute. done. Qed.
