(* ===== verification/ProjectionOutbox.v ===== *)
(** * The projection outbox ([storage/projection_outbox.py])

    One job per event and projection: enqueued with the event, claimed by a worker
    that then holds it, settled by the worker, retried or given up after a failure,
    freed again when the worker went silent, or retired when the route itself has
    projected the event.

    The JSON column is kept as the mapping it holds.  [julianday] is SQLite's
    function of that name: [None] for a text it cannot read; [skips_inline] tells of
    an event whether a row of market_data_projection_routing_decisions says that its
    inline projection is skipped. *)
From stdpp Require Import sorting.
From S2P Require Import Prelude PyFloat Orderings BrokerUtils WireTime GatewayModels LiveSimModels BrokerMessages ProjectionWatermarks.
Local Open Scope Z_scope.

(** ** Jobs *)

Module OutboxStatus.
Inductive t := PENDING | PROCESSING | APPLIED | SKIPPED | ERROR | DEAD_LETTER.
Definition value (s : t) : string :=
  match s with
  | PENDING => "PENDING" | PROCESSING => "PROCESSING" | APPLIED => "APPLIED"
  | SKIPPED => "SKIPPED" | ERROR => "ERROR" | DEAD_LETTER => "DEAD_LETTER"
  end.

#[export] Instance t_eq_dec : EqDecision t.
Proof. solve_decision. Defined.
End OutboxStatus.
#[export] Instance outbox_status_eq_dec : EqDecision OutboxStatus.t := OutboxStatus.t_eq_dec.
Module OB := OutboxStatus.

Record outbox_job := {
  oj_outbox_id : string;
  oj_projection_name : string;
  oj_event_id : string;
  oj_event_type : string;
  oj_event_rowid : option Z;
  oj_source : string;
  oj_status : OB.t;
  oj_priority : Z;
  oj_attempts : Z;
  oj_last_error : option string;
  oj_available_at : option string;
  oj_locked_by : option string;
  oj_locked_at : option string;
  oj_created_at : string;
  oj_updated_at : string;
  oj_processed_at : option string;
  oj_metadata : payload
}.

(** The columns an operation writes; the others never change. *)
Definition with_columns (status : OB.t) (attempts : Z) (last_error available_at locked_by locked_at : option string)
    (updated_at : string) (processed_at : option string) (metadata : payload) (j : outbox_job)
    : outbox_job :=
  {| oj_outbox_id := oj_outbox_id j; oj_projection_name := oj_projection_name j;
     oj_event_id := oj_event_id j; oj_event_type := oj_event_type j;
     oj_event_rowid := oj_event_rowid j; oj_source := oj_source j; oj_status := status;
     oj_priority := oj_priority j; oj_attempts := attempts; oj_last_error := last_error;
     oj_available_at := available_at; oj_locked_by := locked_by; oj_locked_at := locked_at;
     oj_created_at := oj_created_at j; oj_updated_at := updated_at; oj_processed_at := processed_at;
     oj_metadata := metadata |}.

(** The table by its primary key, and what the projections report. *)
Record outbox_db := { ox_jobs : gmap string outbox_job; ox_projections : projections }.

Definition set_jobs (m : gmap string outbox_job) : SE outbox_db unit :=
  fun db => ({| ox_jobs := m; ox_projections := ox_projections db |}, Ok tt).
Definition update_job (id : string) (f : outbox_job -> outbox_job) : SE outbox_db unit :=
  fun db => ({| ox_jobs := alter f id (ox_jobs db); ox_projections := ox_projections db |}, Ok tt).
Definition record_result (c : result_call) (now : string) : SE outbox_db unit :=
  fun db => match record_projection_event_result c now (ox_projections db) with
            | Ok p => ({| ox_jobs := ox_jobs db; ox_projections := p |}, Ok tt)
            | Err e => (db, Err e)
            end.

(** ** The jobs of an event *)

Record ProjectionJobSpec := {
  sp_projection_name : string;
  sp_priority : Z;
  sp_metadata : payload
}.

Definition spec_of (name : string) : ProjectionJobSpec :=
  {| sp_projection_name := name; sp_priority := 0; sp_metadata := [] |}.

Definition _DIRECT_EVENT_PROJECTIONS : list (string * list string) :=
  [("price_tick", ["market_data"]); ("condition_event", ["market_data"; "condition_fusion"]);
   ("tr_response", ["market_data"]); ("market_symbols", ["market_reference"]);
   ("market_index_tick", ["market_index"; "market_regime"])].

Definition _EXCLUDED_EVENT_TYPES : list string :=
  ["heartbeat"; "gateway_log"; "command_started"; "command_ack"; "command_failed"; "rate_limited";
   "order_pre_ack"; "execution_event"; "kiwoom_order_chejan"; "kiwoom_balance_chejan";
   "kiwoom_special_chejan"].

Definition _normalize_event_type (event_type : string) : string := py_lower (py_strip event_type).

Definition _is_scan_event_type (event_type : string) : bool :=
  String.eqb event_type "market_scan" || String.prefix "market_scan_" event_type.

Definition projection_jobs_for_gateway_event (event_type : string) : list ProjectionJobSpec :=
  let normalized := _normalize_event_type event_type in
  if mem normalized _EXCLUDED_EVENT_TYPES then [] else
  match List.find (fun kv => String.eqb kv.1 normalized) _DIRECT_EVENT_PROJECTIONS with
  | Some (_, names) => map spec_of names
  | None => if _is_scan_event_type normalized then [spec_of "market_scan"] else []
  end.

Definition _append_projection_job (specs : list ProjectionJobSpec) (name : string)
    : list ProjectionJobSpec :=
  if existsb (fun s => String.eqb (sp_projection_name s) name) specs then specs
  else specs ++ [spec_of name].

Definition _outbox_id (projection_name event_id : string) : string :=
  projection_name +:+ ":" +:+ event_id.

Definition text_or_null (o : option string) : json :=
  match o with Some s => JStr s | None => JNull end.

Definition _job_metadata (e : GatewayEvent) (spec : ProjectionJobSpec) : payload :=
  sp_metadata spec ++
  [("shadow_mode", JBool true); ("worker_enabled", JBool false);
   ("source_event_id", JStr (ge_event_id e));
   ("source_event_type", JStr (_normalize_event_type (ge_event_type e)));
   ("source_command_id", text_or_null (ge_command_id e));
   ("source_idempotency_key", text_or_null (ge_idempotency_key e))].

(** [history[-20:]]. *)
Definition last_20 {A} (l : list A) : list A := drop (length l - 20) l.

Definition _merge_metadata_json (metadata : payload) (status : OB.t) (evidence : payload)
    (marked_at : string) (error_message : option string) : payload :=
  let history := match jget "worker_history" metadata with Some (JList h) => h | _ => [] end in
  let error key := match error_message with Some m => [(key, JStr m)] | None => [] end in
  let entry := [("status", JStr (OB.value status)); ("marked_at", JStr marked_at);
                ("evidence", JObj evidence)] ++ error "error_message" in
  metadata ++
  [("worker_history", JList (last_20 (history ++ [JObj entry])));
   ("last_worker_status", JStr (OB.value status)); ("last_worker_evidence", JObj evidence)] ++
  error "last_worker_error".

Section Outbox.
Context (py_repr : json -> string) (julianday : string -> option Z) (skips_inline : string -> bool).

Definition lower_text (p : payload) (key : string) : string :=
  py_lower (py_strip (str_or_empty py_repr (jget key p))).

Definition _is_scan_related_tr_response (e : GatewayEvent) : bool :=
  if negb (String.eqb (_normalize_event_type (ge_event_type e)) "tr_response") then false else
  let p := ge_payload e in
  String.prefix "market_scan:" (lower_text p "request_id") ||
  String.prefix "market_scan_" (lower_text p "request_name") ||
  match jget "metadata" p with
  | Some (JObj m) => String.eqb (str_or_empty py_repr (jget "source" m)) "market_scan"
  | _ => false
  end.

Definition _is_market_index_bootstrap_tr_response (e : GatewayEvent) : bool :=
  if negb (String.eqb (_normalize_event_type (ge_event_type e)) "tr_response") then false else
  let p := ge_payload e in
  if negb (String.prefix "market_index_tr_bootstrap:" (lower_text p "request_id")) then false else
  match jget "metadata" p with
  | Some (JObj m) =>
      let source := py_upper (py_strip (str_or_empty py_repr
                      (or_else (jget "projection_source" m) (jget "source" m)))) in
      String.eqb source "KIWOOM_TR_BOOTSTRAP_MARKET_INDEX" &&
      String.eqb (lower_text m "tr_bootstrap_contract_version") "v1"
  | _ => false
  end.

Definition _projection_jobs_for_event (e : GatewayEvent) : list ProjectionJobSpec :=
  let specs := projection_jobs_for_gateway_event (ge_event_type e) in
  let specs := if _is_scan_related_tr_response e then _append_projection_job specs "market_scan"
               else specs in
  if _is_market_index_bootstrap_tr_response e
  then _append_projection_job (_append_projection_job specs "market_index") "market_regime"
  else specs.

(** ** Enqueueing *)

Definition new_job (e : GatewayEvent) (rowid : option Z) (now : string) (spec : ProjectionJobSpec)
    : outbox_job :=
  {| oj_outbox_id := _outbox_id (sp_projection_name spec) (ge_event_id e);
     oj_projection_name := sp_projection_name spec; oj_event_id := ge_event_id e;
     oj_event_type := _normalize_event_type (ge_event_type e); oj_event_rowid := rowid;
     oj_source := ge_source e; oj_status := OB.PENDING; oj_priority := sp_priority spec;
     oj_attempts := 0; oj_last_error := None; oj_available_at := Some now; oj_locked_by := None;
     oj_locked_at := None; oj_created_at := now; oj_updated_at := now; oj_processed_at := None;
     oj_metadata := _job_metadata e spec |}.

(** [INSERT ... ON CONFLICT(projection_name, event_id) DO NOTHING], and whether a
    row was written.  An id taken by another projection and event is a violation of
    the primary key. *)
Definition insert_job (j : outbox_job) : SE outbox_db bool :=
  let! db := get in
  match ox_jobs db !! oj_outbox_id j with
  | None => let! _ := set_jobs (<[oj_outbox_id j := j]> (ox_jobs db)) in ret true
  | Some row =>
      if String.eqb (oj_projection_name row) (oj_projection_name j) &&
         String.eqb (oj_event_id row) (oj_event_id j)
      then ret false else raise IntegrityError
  end.

Fixpoint insert_jobs (jobs : list outbox_job) : SE outbox_db (list (outbox_job * bool)) :=
  match jobs with
  | [] => ret []
  | j :: rest => let! created := insert_job j in
                 let! later := insert_jobs rest in ret ((j, created) :: later)
  end.

Record ProjectionOutboxEnqueueResult := {
  eq_status : string;
  eq_job_count : Z;
  eq_created_count : Z;
  eq_duplicate_count : Z;
  eq_jobs : list (outbox_job * bool)
}.

Definition enqueue_projection_jobs_for_gateway_event (e : GatewayEvent) (event_rowid : option Z)
    (now : Z) : SE outbox_db ProjectionOutboxEnqueueResult :=
  match _projection_jobs_for_event e with
  | [] => ret {| eq_status := "NOOP"; eq_job_count := 0; eq_created_count := 0;
                 eq_duplicate_count := 0; eq_jobs := [] |}
  | specs =>
      let! db := get in
      let rowid := match event_rowid with
                   | Some n => Some n
                   | None => le_rowid <$> find_event (ge_event_id e) (pr_log (ox_projections db))
                   end in
      let! jobs := insert_jobs (map (new_job e rowid (datetime_to_wire now)) specs) in
      let created := Z.of_nat (length (List.filter snd jobs)) in
      let total := Z.of_nat (length specs) in
      ret {| eq_status := if created =? 0 then "DUPLICATE" else "ENQUEUED"; eq_job_count := total;
             eq_created_count := created; eq_duplicate_count := total - created; eq_jobs := jobs |}
  end.

(** ** Retiring a job the route has projected *)

Definition retire_inline_projection_outbox_job (event_id projection_name terminal_status : string)
    (evidence : payload) (now : Z) : SE outbox_db bool :=
  let! event := of_res (_require_non_empty event_id "event_id") in
  let! name := of_res (_require_non_empty projection_name "projection_name") in
  let name := py_lower name in
  let! status_text := of_res (_require_non_empty terminal_status "terminal_status") in
  let! status :=
    if String.eqb (py_upper status_text) "APPLIED" then ret OB.APPLIED
    else if String.eqb (py_upper status_text) "SKIPPED" then ret OB.SKIPPED
    else raise (ValueError "terminal_status must be APPLIED or SKIPPED") in
  let! db := get in
  let pending (kj : string * outbox_job) :=
    String.eqb (oj_event_id kj.2) event && String.eqb (oj_projection_name kj.2) name &&
    bool_decide (oj_status kj.2 = OB.PENDING) in
  match List.find pending (map_to_list (ox_jobs db)) with
  | None => ret false
  | Some (id, _) =>
      if skips_inline event then ret false else
      let wire := datetime_to_wire now in
      let inline_evidence :=
        [("source", JStr "gateway_batch_inline_projection"); ("inline_projection_terminal", JBool true);
         ("no_trading_side_effects", JBool true)] ++ evidence in
      let! _ := update_job id (fun j =>
        with_columns status (oj_attempts j) None (oj_available_at j) None None wire (Some wire)
          (_merge_metadata_json (oj_metadata j) status inline_evidence wire None) j) in
      ret true
  end.

(** ** Claiming *)

Definition not_after (a b : string) : bool :=
  match julianday a, julianday b with Some x, Some y => x <=? y | _, _ => false end.

(** The [WHERE] of the claim. *)
Definition claimable (now min_created_at : string) (j : outbox_job) : bool :=
  bool_decide (oj_status j = OB.PENDING) &&
  match oj_available_at j with None => true | Some a => not_after a now end &&
  not_after (oj_created_at j) min_created_at.

Definition for_projection (name : option string) (j : outbox_job) : bool :=
  match name with None => true | Some n => String.eqb (oj_projection_name j) n end.

(** A null sorts first. *)
Definition rowid_before (a b : option Z) : comparison :=
  match a, b with
  | None, None => Eq | None, Some _ => Lt | Some _, None => Gt | Some m, Some n => m ?= n
  end.

Definition dependent_rank (j : outbox_job) : Z :=
  if mem (oj_projection_name j) ["condition_fusion"; "market_regime"; "market_scan"] then 1 else 0.


(** [ORDER BY priority DESC, event_rowid, ..., created_at, outbox_id]. *)
Definition claim_compare (a b : outbox_job) : comparison :=
  then_by (oj_priority b ?= oj_priority a)
  (then_by (rowid_before (oj_event_rowid a) (oj_event_rowid b))
  (then_by (dependent_rank a ?= dependent_rank b)
  (then_by (String.compare (oj_created_at a) (oj_created_at b))
           (String.compare (oj_outbox_id a) (oj_outbox_id b))))).
Definition claim_le (a b : outbox_job) : bool :=
  match claim_compare a b with Gt => false | _ => true end.

Definition claim_candidates (now min_created_at : string) (name : option string)
    (jobs : gmap string outbox_job) : list outbox_job :=
  stable_sort claim_le
    (List.filter (fun j => claimable now min_created_at j && for_projection name j)
       (map snd (map_to_list jobs))).

Definition claimed_by (owner now : string) (j : outbox_job) : outbox_job :=
  with_columns OB.PROCESSING (oj_attempts j) (oj_last_error j) (oj_available_at j) (Some owner)
    (Some now) now (oj_processed_at j) (oj_metadata j) j.

Fixpoint claim_each (owner now min_created_at : string) (candidates : list outbox_job)
    : SE outbox_db (list outbox_job) :=
  match candidates with
  | [] => ret []
  | candidate :: rest =>
      let! db := get in
      match ox_jobs db !! oj_outbox_id candidate with
      | Some j =>
          if claimable now min_created_at j then
            let! _ := update_job (oj_outbox_id candidate) (claimed_by owner now) in
            let! later := claim_each owner now min_created_at rest in
            ret (claimed_by owner now j :: later)
          else claim_each owner now min_created_at rest
      | None => claim_each owner now min_created_at rest
      end
  end.

(** [min_age] is the age as a [timedelta], in microseconds. *)
Definition claim_projection_outbox_jobs (owner_id : string) (limit min_age : Z)
    (projection_name : option string) (now : Z) : SE outbox_db (list outbox_job) :=
  let! owner := of_res (_require_non_empty owner_id "owner_id") in
  let bounded_limit := Z.min (Z.max limit 1) 500 in
  let oldest := now - Z.max min_age 0 in
  let! _ := if is_datetime oldest then ret tt else raise OverflowError in
  let! name :=
    match projection_name with
    | None => ret None
    | Some n => let! n' := of_res (_require_non_empty n "projection_name") in ret (Some (py_lower n'))
    end in
  let! db := get in
  claim_each owner (datetime_to_wire now) (datetime_to_wire oldest)
    (take (Z.to_nat bounded_limit)
       (claim_candidates (datetime_to_wire now) (datetime_to_wire oldest) name (ox_jobs db))).

(** ** Marking *)

(** [SELECT ... WHERE outbox_id = ? AND locked_by = ?]. *)
Definition held_job (id owner : string) (db : outbox_db) : option outbox_job :=
  match ox_jobs db !! id with
  | Some j => if bool_decide (oj_locked_by j = Some owner) then Some j else None
  | None => None
  end.

Definition job_result (j : outbox_job) (status : ResultStatus.t) (outcome : string)
    (error_message : option string) (evidence : payload) : result_call :=
  {| rc_projection_name := oj_projection_name j; rc_event_id := oj_event_id j; rc_status := status;
     rc_outcome := outcome; rc_event_rowid := oj_event_rowid j;
     rc_event_type := Some (oj_event_type j); rc_event_received_at := None;
     rc_error_message := error_message;
     rc_metadata := [("source", JStr "projection_outbox"); ("evidence", JObj evidence)] |}.

Definition _mark_projection_outbox_terminal (outbox_id owner_id : string) (status : OB.t)
    (evidence : payload) (now : Z) : SE outbox_db unit :=
  let! id := of_res (_require_non_empty outbox_id "outbox_id") in
  let! owner := of_res (_require_non_empty owner_id "owner_id") in
  let wire := datetime_to_wire now in
  let! db := get in
  match held_job id owner db with
  | None => ret tt
  | Some j =>
      let! _ :=
        if bool_decide (status = OB.APPLIED)
        then record_result (job_result j ResultStatus.SUCCESS "OUTBOX_APPLIED" None evidence) wire
        else ret tt in
      update_job id (fun j =>
        with_columns status (oj_attempts j) None (oj_available_at j) None None wire (Some wire)
          (_merge_metadata_json (oj_metadata j) status evidence wire None) j)
  end.

Definition mark_projection_outbox_applied (outbox_id owner_id : string) (evidence : payload)
    : Z -> SE outbox_db unit :=
  _mark_projection_outbox_terminal outbox_id owner_id OB.APPLIED evidence.

Definition mark_projection_outbox_skipped (outbox_id owner_id reason : string) (evidence : payload)
    (now : Z) : SE outbox_db unit :=
  let! reason := of_res (_require_non_empty reason "reason") in
  _mark_projection_outbox_terminal outbox_id owner_id OB.SKIPPED
    (evidence ++ [("reason", JStr reason)]) now.

Definition mark_projection_outbox_error (outbox_id owner_id error_message : string)
    (retry_limit : Z) (evidence : payload) (now : Z) : SE outbox_db unit :=
  let! id := of_res (_require_non_empty outbox_id "outbox_id") in
  let! owner := of_res (_require_non_empty owner_id "owner_id") in
  let! error := of_res (_require_non_empty error_message "error_message") in
  let wire := datetime_to_wire now in
  let! db := get in
  match held_job id owner db with
  | None => ret tt
  | Some j =>
      let attempts := oj_attempts j + 1 in
      let status := if retry_limit <=? attempts then OB.DEAD_LETTER else OB.ERROR in
      let! _ := record_result
        (job_result j ResultStatus.ERROR (OB.value status) (Some error) evidence) wire in
      update_job id (fun j =>
        with_columns status attempts (Some error) (oj_available_at j) None None wire
          (if retry_limit <=? attempts then Some wire else oj_processed_at j)
          (_merge_metadata_json (oj_metadata j) status evidence wire (Some error)) j)
  end.

Definition mark_projection_outbox_retryable_error (outbox_id owner_id error_message : string)
    (retry_limit : Z) (evidence : payload) (now : Z) : SE outbox_db unit :=
  let! id := of_res (_require_non_empty outbox_id "outbox_id") in
  let! owner := of_res (_require_non_empty owner_id "owner_id") in
  let! error := of_res (_require_non_empty error_message "error_message") in
  let wire := datetime_to_wire now in
  let! db := get in
  match held_job id owner db with
  | None => ret tt
  | Some j =>
      let attempts := oj_attempts j + 1 in
      let dead := retry_limit <=? attempts in
      let status := if dead then OB.DEAD_LETTER else OB.PENDING in
      let! _ := record_result
        (job_result j ResultStatus.ERROR (if dead then "DEAD_LETTER" else "RETRY_PENDING")
           (Some error) evidence) wire in
      update_job id (fun j =>
        with_columns status attempts (Some error) (Some wire) None None wire
          (if dead then Some wire else None)
          (_merge_metadata_json (oj_metadata j) status evidence wire (Some error)) j)
  end.

(** ** Workers that went silent *)

Definition is_stale (cutoff : string) (j : outbox_job) : bool :=
  bool_decide (oj_status j = OB.PROCESSING) &&
  match oj_locked_at j with Some t => not_after t cutoff | None => false end.

Definition released (now : string) (j : outbox_job) : outbox_job :=
  with_columns OB.PENDING (oj_attempts j) (oj_last_error j) (oj_available_at j) None None now
    (oj_processed_at j) (oj_metadata j) j.

Definition reset_stale_projection_outbox_processing (stale_sec now : Z) : SE outbox_db Z :=
  let oldest := now - seconds (Z.max stale_sec 0) in
  let! _ := if is_datetime oldest then ret tt else raise OverflowError in
  let cutoff := datetime_to_wire oldest in
  let! db := get in
  let! _ := set_jobs ((fun j => if is_stale cutoff j then released (datetime_to_wire now) j else j)
                        <$> ox_jobs db) in
  ret (Z.of_nat (length (List.filter (is_stale cutoff) (map snd (map_to_list (ox_jobs db)))))).

(** ** Histories *)

Inductive outbox_action :=
| EnqueueJobs (e : GatewayEvent) (event_rowid : option Z)
| RetireJob (event_id projection_name terminal_status : string) (evidence : payload)
| ClaimJobs (owner_id : string) (limit min_age : Z) (projection_name : option string)
| MarkApplied (outbox_id owner_id : string) (evidence : payload)
| MarkSkipped (outbox_id owner_id reason : string) (evidence : payload)
| MarkError (outbox_id owner_id error_message : string) (evidence : payload)
| MarkRetryable (outbox_id owner_id error_message : string) (evidence : payload)
| ResetStale (stale_sec : Z).

Definition ignore {A} (m : SE outbox_db A) : SE outbox_db unit := let! _ := m in ret tt.

Definition perform (retry_limit : Z) (a : outbox_action) (now : Z) : SE outbox_db unit :=
  match a with
  | EnqueueJobs e rowid => ignore (enqueue_projection_jobs_for_gateway_event e rowid now)
  | RetireJob event name status evidence =>
      ignore (retire_inline_projection_outbox_job event name status evidence now)
  | ClaimJobs owner limit min_age name =>
      ignore (claim_projection_outbox_jobs owner limit min_age name now)
  | MarkApplied id owner evidence => mark_projection_outbox_applied id owner evidence now
  | MarkSkipped id owner reason evidence =>
      mark_projection_outbox_skipped id owner reason evidence now
  | MarkError id owner error evidence =>
      mark_projection_outbox_error id owner error retry_limit evidence now
  | MarkRetryable id owner error evidence =>
      mark_projection_outbox_retryable_error id owner error retry_limit evidence now
  | ResetStale stale_sec => ignore (reset_stale_projection_outbox_processing stale_sec now)
  end.

(** Operations in any order; one that raises is one of them. *)
Fixpoint perform_all (retry_limit : Z) (l : list (outbox_action * Z)) (db : outbox_db) : outbox_db :=
  match l with
  | [] => db
  | (a, now) :: rest => perform_all retry_limit rest (perform retry_limit a now db).1
  end.
End Outbox.

(** ** The life of a job

    What the table promises about one job: it waits, a worker holds it, it is
    settled; who may move it, and how its attempts count. *)

Inductive phase :=
| Waiting (attempts : Z)
| Held (owner : string) (attempts : Z)
| Settled (status : OB.t) (attempts : Z).

Definition phase_of (j : outbox_job) : option phase :=
  match oj_status j, oj_locked_by j, oj_locked_at j with
  | OB.PENDING, None, None => Some (Waiting (oj_attempts j))
  | OB.PROCESSING, Some owner, Some _ => Some (Held owner (oj_attempts j))
  | (OB.PENDING | OB.PROCESSING), _, _ => None
  | s, None, None => Some (Settled s (oj_attempts j))
  | _, _, _ => None
  end.

(** Who acts: the route, a worker under its name, the sweep of silent workers. *)
Inductive actor := Route | Worker (owner : string) | Sweeper.

Definition actor_of (a : outbox_action) : actor :=
  match a with
  | EnqueueJobs _ _ | RetireJob _ _ _ _ => Route
  | ClaimJobs owner _ _ _ | MarkApplied _ owner _ | MarkSkipped _ owner _ _
  | MarkError _ owner _ _ | MarkRetryable _ owner _ _ => Worker (py_strip owner)
  | ResetStale _ => Sweeper
  end.

Inductive life (retry_limit : Z) : actor -> phase -> phase -> Prop :=
| L_claim o n : life retry_limit (Worker o) (Waiting n) (Held o n)
| L_finish o n s : s = OB.APPLIED \/ s = OB.SKIPPED ->
    life retry_limit (Worker o) (Held o n) (Settled s n)
| L_fail o n : n + 1 < retry_limit ->
    life retry_limit (Worker o) (Held o n) (Settled OB.ERROR (n + 1))
| L_retry o n : n + 1 < retry_limit ->
    life retry_limit (Worker o) (Held o n) (Waiting (n + 1))
| L_dead o n : n + 1 = retry_limit ->
    life retry_limit (Worker o) (Held o n) (Settled OB.DEAD_LETTER (n + 1))
| L_release o n : life retry_limit Sweeper (Held o n) (Waiting n)
| L_retire n s : s = OB.APPLIED \/ s = OB.SKIPPED ->
    life retry_limit Route (Waiting n) (Settled s n).

(** What no operation changes. *)
Definition identity (j : outbox_job) : string * string * string * string * option Z * Z * string :=
  (oj_outbox_id j, oj_projection_name j, oj_event_id j, oj_event_type j, oj_event_rowid j,
   oj_priority j, oj_created_at j).

Definition moves (retry_limit : Z) (who : actor) (j j' : outbox_job) : Prop :=
  j' = j \/
  identity j' = identity j /\
  exists p p', phase_of j = Some p /\ phase_of j' = Some p' /\ life retry_limit who p p'.

(** The jobs there were moved as the life of a job says; the new ones are the
    route's, and wait. *)
Definition lives (retry_limit : Z) (who : actor) (m m' : gmap string outbox_job) : Prop :=
  (forall id j, m !! id = Some j -> exists j', m' !! id = Some j' /\ moves retry_limit who j j') /\
  (forall id j', m !! id = None -> m' !! id = Some j' -> who = Route /\ phase_of j' = Some (Waiting 0)).

Definition phase_ok (retry_limit : Z) (p : phase) : Prop :=
  match p with
  | Waiting n | Held _ n => 0 <= n < retry_limit
  | Settled OB.DEAD_LETTER n => n = retry_limit
  | Settled (OB.APPLIED | OB.SKIPPED | OB.ERROR) n => 0 <= n < retry_limit
  | Settled _ _ => False
  end.

Definition outbox_projections : list string :=
  ["market_data"; "condition_fusion"; "market_reference"; "market_index"; "market_regime"; "market_scan"].

Record job_ok (retry_limit : Z) (id : string) (j : outbox_job) : Prop := {
  jo_id : oj_outbox_id j = id;
  jo_key : id = _outbox_id (oj_projection_name j) (oj_event_id j);
  jo_name : oj_projection_name j ∈ outbox_projections;
  jo_phase : exists p, phase_of j = Some p /\ phase_ok retry_limit p
}.

Abbreviation jobs_ok l m := (map_Forall (job_ok l) m).

Inductive outbox_reachable (py_repr : json -> string) (julianday : string -> option Z)
    (skips_inline : string -> bool) (retry_limit : Z) : outbox_db -> Prop :=
| OR_empty p : outbox_reachable py_repr julianday skips_inline retry_limit
                 {| ox_jobs := ∅; ox_projections := p |}
| OR_perform db a now db' r :
    outbox_reachable py_repr julianday skips_inline retry_limit db ->
    perform py_repr julianday skips_inline retry_limit a now db = (db', r) ->
    outbox_reachable py_repr julianday skips_inline retry_limit db'
| OR_others db p : (** events logged and results recorded by others *)
    outbox_reachable py_repr julianday skips_inline retry_limit db ->
    outbox_reachable py_repr julianday skips_inline retry_limit
      {| ox_jobs := ox_jobs db; ox_projections := p |}.

(** *** Ids *)

Lemma outbox_id_inj n n' e e' :
  n ∈ outbox_projections -> n' ∈ outbox_projections ->
  _outbox_id n e = _outbox_id n' e' -> n = n' /\ e = e'.
Proof.
  unfold outbox_projections. intros Hn Hn' H.
  repeat (apply elem_of_cons in Hn as [->|Hn]); try by apply not_elem_of_nil in Hn.
  all: repeat (apply elem_of_cons in Hn' as [->|Hn']); try by apply not_elem_of_nil in Hn'.
  all: cbv [_outbox_id String.append] in H; first [discriminate H|by injection H as ->].
Qed.

Lemma spec_names_event etype s :
  s ∈ projection_jobs_for_gateway_event etype -> sp_projection_name s ∈ outbox_projections /\ sp_priority s = 0.
Proof.
  unfold projection_jobs_for_gateway_event. destruct (mem _ _); [by intros ?%not_elem_of_nil|].
  destruct (List.find _ _) as [[k names]|] eqn:E.
  - apply find_some in E as [E _]. simpl in E. intros (n & -> & Hn)%list_elem_of_fmap.
    unfold outbox_projections. simpl.
    repeat destruct E as [E|E]; try done; injection E as <- <-; set_solver.
  - destruct (_is_scan_event_type _); [|by intros ?%not_elem_of_nil].
    intros ->%list_elem_of_singleton. unfold outbox_projections. simpl. set_solver.
Qed.

Lemma append_job_names specs name s :
  name ∈ outbox_projections ->
  (forall x, x ∈ specs -> sp_projection_name x ∈ outbox_projections) ->
  s ∈ _append_projection_job specs name -> sp_projection_name s ∈ outbox_projections.
Proof.
  intros Hn H. unfold _append_projection_job. destruct (existsb _ _); [apply H|].
  intros [Hs| ->%list_elem_of_singleton]%elem_of_app; [by apply H|done].
Qed.

Lemma spec_names py_repr e s :
  s ∈ _projection_jobs_for_event py_repr e -> sp_projection_name s ∈ outbox_projections.
Proof.
  unfold _projection_jobs_for_event. cbv zeta.
  set (scan := if _is_scan_related_tr_response py_repr e then _ else _).
  assert (Hs : forall x, x ∈ scan -> sp_projection_name x ∈ outbox_projections).
  { unfold scan. intros x. destruct (_is_scan_related_tr_response _ _).
    - apply append_job_names; [unfold outbox_projections; set_solver|].
      intros y Hy. by apply spec_names_event in Hy as [? _].
    - intros Hx. by apply spec_names_event in Hx as [? _]. }
  destruct (_is_market_index_bootstrap_tr_response _ _); [|apply Hs].
  apply append_job_names; [unfold outbox_projections; set_solver|]. intros x.
  apply append_job_names; [unfold outbox_projections; set_solver|]. apply Hs.
Qed.

(** *** Steps *)

Lemma lives_refl l who m : lives l who m m.
Proof. split; [|by intros id j -> [=]]. intros id j H. exists j. split; [done|by left]. Qed.

Lemma lives_alter l who m id f j :
  m !! id = Some j -> moves l who j (f j) -> lives l who m (alter f id m).
Proof.
  intros Hj Hm. split.
  - intros i x Hx. destruct (decide (id = i)) as [<-|Hi].
    + rewrite lookup_alter_eq, Hj. simplify_eq. eauto.
    + rewrite lookup_alter_ne by done. exists x. split; [done|by left].
  - intros i x Hx. destruct (decide (id = i)) as [<-|Hi]; [congruence|].
    rewrite lookup_alter_ne by done. congruence.
Qed.

Lemma life_ok l who p p' : life l who p p' -> phase_ok l p -> phase_ok l p'.
Proof. destruct 1 as [| ? ? ? [->| ->] | | | | | ? ? [->| ->]]; simpl; lia. Qed.

Lemma moves_ok l who id j j' : moves l who j j' -> job_ok l id j -> job_ok l id j'.
Proof.
  intros [->|(Hi & p & p' & Hp & Hp' & Hl)]; [done|]. intros [H1 H2 H3 (q & Hq & Hok)].
  unfold identity in Hi. injection Hi as Hi1 Hi2 Hi3 _ _ _ _. split; [congruence|congruence|congruence|].
  exists p'. split; [done|]. eapply life_ok; [done|congruence].
Qed.

Lemma outbox_step_ok l who m m' :
  lives l who m m' ->
  (forall id j', m !! id = None -> m' !! id = Some j' -> job_ok l id j') ->
  jobs_ok l m -> jobs_ok l m'.
Proof.
  intros [Hl _] Hn Hm id j' Hj'. destruct (m !! id) as [j|] eqn:Hj; [|by apply Hn].
  destruct (Hl id j Hj) as (j'' & Hj'' & Hmv). replace j' with j'' by congruence.
  eapply moves_ok; [done|]. by apply Hm.
Qed.

(** [acts l who m c]: from the table [m], [c] moves jobs as [who] may, whatever it
    answers. *)
Definition acts (l : Z) (who : actor) (m : gmap string outbox_job) {A} (c : SE outbox_db A) : Prop :=
  jobs_ok l m -> forall p db' r, c {| ox_jobs := m; ox_projections := p |} = (db', r) ->
  lives l who m (ox_jobs db') /\ jobs_ok l (ox_jobs db').

Definition quiet_jobs {A} (c : SE outbox_db A) : Prop :=
  forall db db' r, c db = (db', r) -> ox_jobs db' = ox_jobs db.

Section Acts.
Context (l : Z) (who : actor) (m : gmap string outbox_job).

Lemma acts_quiet {A} (c : SE outbox_db A) : quiet_jobs c -> acts l who m c.
Proof. intros Hc Hm p db' r H. rewrite (Hc _ _ _ H). split; [apply lives_refl|done]. Qed.

Lemma acts_after {A B} (c : SE outbox_db A) (k : A -> SE outbox_db B) :
  quiet_jobs c -> (forall a, acts l who m (k a)) -> acts l who m (bind c k).
Proof.
  intros Hc Hk Hm p db' r. unfold bind. destruct (c _) as [db1 [a|e]] eqn:E; apply Hc in E; simpl in E.
  - destruct db1 as [m1 p1]. simpl in E. subst m1. by apply Hk.
  - intros [= <- _]. rewrite E. split; [apply lives_refl|done].
Qed.

Lemma acts_get {A} (k : outbox_db -> SE outbox_db A) :
  (forall p, acts l who m (k {| ox_jobs := m; ox_projections := p |})) -> acts l who m (bind get k).
Proof. intros Hk Hm p db' r H. exact (Hk p Hm p db' r H). Qed.

Lemma acts_then {A B} (c : SE outbox_db A) (k : A -> SE outbox_db B) :
  acts l who m c -> (forall a, quiet_jobs (k a)) -> acts l who m (bind c k).
Proof.
  intros Hc Hk Hm p db' r. unfold bind. destruct (c _) as [db1 [a|e]] eqn:E.
  - intros H. rewrite (Hk _ _ _ _ H). by eapply Hc.
  - intros [= <- _]. by eapply Hc.
Qed.

Lemma acts_update id f j :
  m !! id = Some j -> moves l who j (f j) -> acts l who m (update_job id f).
Proof.
  intros Hj Hmv Hm p db' r [= <- _]. simpl.
  assert (Hl : lives l who m (alter f id m)) by by eapply lives_alter.
  split; [done|]. eapply outbox_step_ok; [done| |done]. intros i j' Hi Hi'.
  destruct (decide (id = i)) as [<-|Hne]; [congruence|]. rewrite lookup_alter_ne in Hi' by done. congruence.
Qed.

Lemma quiet_jobs_ret {A} (a : A) : quiet_jobs (ret a).
Proof. by intros db db' r [= <- _]. Qed.
Lemma quiet_jobs_raise {A} e : quiet_jobs (@raise _ A e).
Proof. by intros db db' r [= <- _]. Qed.
Lemma quiet_jobs_res {A} (x : res A) : quiet_jobs (of_res x).
Proof. by intros db db' r [= <- _]. Qed.
Lemma quiet_jobs_record c now : quiet_jobs (record_result c now).
Proof. intros db db' r. unfold record_result. by destruct (record_projection_event_result _ _ _); intros [= <- _]. Qed.
Lemma quiet_jobs_bind {A B} (c : SE outbox_db A) (k : A -> SE outbox_db B) :
  quiet_jobs c -> (forall a, quiet_jobs (k a)) -> quiet_jobs (bind c k).
Proof.
  intros Hc Hk db db' r. unfold bind. destruct (c db) as [db1 [a|e]] eqn:E; intros H.
  - by rewrite (Hk _ _ _ _ H), (Hc _ _ _ E).
  - injection H as <- _. by rewrite (Hc _ _ _ E).
Qed.
End Acts.

Create HintDb outbox.
#[export] Hint Resolve quiet_jobs_ret quiet_jobs_raise quiet_jobs_res quiet_jobs_record : outbox.

(** *** Marks *)

Lemma held_phase l m p id owner j :
  jobs_ok l m -> held_job id owner {| ox_jobs := m; ox_projections := p |} = Some j ->
  m !! id = Some j /\ exists n, phase_of j = Some (Held owner n) /\ n = oj_attempts j /\ 0 <= n < l.
Proof.
  intros Hm. unfold held_job. simpl. destruct (m !! id) as [x|] eqn:E; [|done].
  destruct (bool_decide _) eqn:Ho; [|done]. apply bool_decide_eq_true in Ho. intros [= ->].
  split; [done|]. destruct (Hm _ _ E) as [_ _ _ (q & Hq & Hok)]. unfold phase_of in *. rewrite Ho in Hq |- *.
  destruct (oj_status j), (oj_locked_at j); try done. injection Hq as <-. simpl in Hok. eauto.
Qed.

Lemma clean_id s f v : _require_non_empty s f = Ok v -> v = py_strip s.
Proof. unfold _require_non_empty, require_non_empty. by destruct (str_true _); intros [= <-]. Qed.

Lemma acts_when l who m {A} (b : bool) (c d : SE outbox_db A) :
  acts l who m c -> acts l who m d -> acts l who m (if b then c else d).
Proof. by destruct b. Qed.

(** An operation that starts by validating a text goes on with the stripped one. *)
Lemma acts_text l who m {A} s f (k : string -> SE outbox_db A) :
  acts l who m (k (py_strip s)) -> acts l who m (bind (of_res (_require_non_empty s f)) k).
Proof.
  intros Hk Hm p db' r. unfold bind, of_res. destruct (_require_non_empty s f) as [v|e] eqn:E.
  - rewrite (clean_id _ _ _ E). by apply Hk.
  - intros [= <- _]. split; [apply lives_refl|done].
Qed.

Lemma acts_held l who m {A} id owner (d : A) (k : outbox_job -> SE outbox_db A) :
  (forall j, m !! id = Some j -> phase_of j = Some (Held owner (oj_attempts j)) ->
     0 <= oj_attempts j < l -> acts l who m (k j)) ->
  acts l who m (let! db := get in match held_job id owner db with None => ret d | Some j => k j end).
Proof.
  intros Hk Hm. revert Hm. apply acts_get. intros p Hm.
  destruct (held_job id owner _) as [j|] eqn:E; [|by apply acts_quiet; auto with outbox].
  destruct (held_phase _ _ _ _ _ _ Hm E) as (Hj & n & Hp & -> & Hn). by apply (Hk j Hj Hp Hn Hm).
Qed.

Lemma acts_terminal l m id owner status evidence now :
  status = OB.APPLIED \/ status = OB.SKIPPED ->
  acts l (Worker (py_strip owner)) m (_mark_projection_outbox_terminal id owner status evidence now).
Proof.
  intros Hs. unfold _mark_projection_outbox_terminal. do 2 apply acts_text. cbv zeta. apply acts_held.
  intros j Hj Hp Hn. apply acts_after.
  { destruct (bool_decide _); auto with outbox. }
  intros _. eapply acts_update; [exact Hj|]. right. split; [done|]. eexists _, _. split; [exact Hp|].
  split; [|by apply L_finish]. unfold phase_of. simpl. by destruct Hs as [-> | ->].
Qed.

Lemma acts_error l m id owner error evidence now :
  acts l (Worker (py_strip owner)) m (mark_projection_outbox_error id owner error l evidence now).
Proof.
  unfold mark_projection_outbox_error. do 3 apply acts_text. cbv zeta. apply acts_held.
  intros j Hj Hp Hn. apply acts_after; [auto with outbox|]. intros _.
  eapply acts_update; [exact Hj|]. right. split; [done|]. eexists. unfold phase_of at 2. simpl.
  destruct (Z.leb_spec l (oj_attempts j + 1)); eexists; (split; [exact Hp|]).
  - split; [reflexivity|]. apply L_dead. lia.
  - split; [reflexivity|]. by apply L_fail.
Qed.

Lemma acts_retryable l m id owner error evidence now :
  acts l (Worker (py_strip owner)) m (mark_projection_outbox_retryable_error id owner error l evidence now).
Proof.
  unfold mark_projection_outbox_retryable_error. do 3 apply acts_text. cbv zeta. apply acts_held.
  intros j Hj Hp Hn. apply acts_after; [auto with outbox|]. intros _.
  eapply acts_update; [exact Hj|]. right. split; [done|]. eexists. unfold phase_of at 2. simpl.
  destruct (Z.leb_spec l (oj_attempts j + 1)); eexists; (split; [exact Hp|]).
  - split; [reflexivity|]. apply L_dead. lia.
  - split; [reflexivity|]. by apply L_retry.
Qed.

(** *** Retiring, releasing *)

Lemma find_in_map (f : string * outbox_job -> bool) (m : gmap string outbox_job) id j :
  List.find f (map_to_list m) = Some (id, j) -> m !! id = Some j /\ f (id, j) = true.
Proof.
  intros H. apply find_some in H as [Hin Hf]. split; [|done].
  by apply elem_of_map_to_list, list_elem_of_In.
Qed.

Lemma pending_phase l id j :
  job_ok l id j -> oj_status j = OB.PENDING -> phase_of j = Some (Waiting (oj_attempts j)).
Proof.
  intros [_ _ _ (q & Hq & _)] Hs. unfold phase_of in *. rewrite Hs in *.
  by destruct (oj_locked_by j), (oj_locked_at j).
Qed.

Lemma acts_retire skips l m event name status evidence now :
  acts l Route m (retire_inline_projection_outbox_job skips event name status evidence now).
Proof.
  unfold retire_inline_projection_outbox_job. do 2 apply acts_text. cbv zeta. apply acts_text.
  assert (Hs : forall k : OB.t -> SE outbox_db bool,
    (forall s, s = OB.APPLIED \/ s = OB.SKIPPED -> acts l Route m (k s)) ->
    acts l Route m (bind
      (if String.eqb (py_upper (py_strip status)) "APPLIED" then ret OB.APPLIED
       else if String.eqb (py_upper (py_strip status)) "SKIPPED" then ret OB.SKIPPED
       else raise (ValueError "terminal_status must be APPLIED or SKIPPED")) k)).
  { intros k Hk Hm p db' r. unfold bind. repeat case_match; simplify_eq/=.
    all: match goal with H : _ = (_, Ok ?s) |- _ => injection H as <- <- | H : _ = (_, Err _) |- _ =>
      injection H as <- <- end.
    all: first [apply Hk; [auto|done]|intros [= <- _]; split; [apply lives_refl|done]]. }
  apply Hs. clear Hs. intros s Hs. intros Hm. revert Hm. apply acts_get. intros p Hm. cbn [ox_jobs].
  destruct (List.find _ _) as [[id j]|] eqn:E; [|by apply acts_quiet; auto with outbox].
  apply find_in_map in E as [Hj Hf]. destruct (skips _); [by apply acts_quiet; auto with outbox|].
  simpl in Hf. apply andb_true_iff in Hf as [_ Hf]. apply bool_decide_eq_true in Hf.
  pose proof (pending_phase _ _ _ (Hm _ _ Hj) Hf) as Hp. revert Hm.
  apply acts_then; [|auto with outbox]. eapply acts_update; [exact Hj|]. right. split; [done|].
  eexists _, (Settled s (oj_attempts j)). split; [exact Hp|]. split; [|by apply L_retire].
  unfold phase_of. simpl. by destruct Hs as [-> | ->].
Qed.

(** A column written in every row that asks for it. *)
Lemma acts_rows l who (m m' : gmap string outbox_job) :
  (forall id, exists f : outbox_job -> outbox_job, m' !! id = f <$> m !! id /\
     forall j, m !! id = Some j -> job_ok l id j -> moves l who j (f j)) ->
  jobs_ok l m -> lives l who m m' /\ jobs_ok l m'.
Proof.
  intros Hf Hm. assert (Hl : lives l who m m').
  { split; intros id; destruct (Hf id) as (f & E & Hmv); intros j Hj.
    - exists (f j). rewrite E, Hj. split; [done|]. by apply Hmv, Hm.
    - intros Hj'. by rewrite E, Hj in Hj'. }
  split; [done|]. eapply outbox_step_ok; [done| |done]. intros id j' Hid Hj'.
  destruct (Hf id) as (f & E & _). by rewrite E, Hid in Hj'.
Qed.

Lemma acts_reset julianday l m stale now :
  acts l Sweeper m (reset_stale_projection_outbox_processing julianday stale now).
Proof.
  unfold reset_stale_projection_outbox_processing. cbv zeta. apply acts_after.
  { destruct (is_datetime _); auto with outbox. }
  intros _. apply acts_get. intros p. apply acts_then; [|auto with outbox].
  intros Hm p' db' r [= <- _]. simpl. apply acts_rows; [|done]. intros id.
  eexists. split; [apply lookup_fmap|]. intros j Hj Hok. simpl.
  destruct (is_stale _ _ j) eqn:Hs; [|by left]. right. split; [done|].
  unfold is_stale in Hs. apply andb_true_iff in Hs as [Hs Ht]. apply bool_decide_eq_true in Hs.
  destruct Hok as [_ _ _ (q & Hq & _)]. unfold phase_of in Hq. rewrite Hs in Hq.
  destruct (oj_locked_by j) as [o|] eqn:Ho, (oj_locked_at j) eqn:Hl; try done.
  exists (Held o (oj_attempts j)), (Waiting (oj_attempts j)).
  split; [unfold phase_of; by rewrite Hs, Ho, Hl|]. split; [done|]. apply L_release.
Qed.

(** *** Claiming *)

Definition claim_row (julianday : string -> option Z) (owner now min_created : string)
    (ids : list string) (j : outbox_job) : outbox_job :=
  if bool_decide (oj_outbox_id j ∈ ids) && claimable julianday now min_created j
  then claimed_by owner now j else j.

Lemma claimed_not_claimable julianday owner now n m j : claimable julianday n m (claimed_by owner now j) = false.
Proof. reflexivity. Qed.

Lemma claim_row_cons julianday owner now min_created c cs x :
  oj_outbox_id x <> c \/ claimable julianday now min_created x = false ->
  claim_row julianday owner now min_created (c :: cs) x =
  claim_row julianday owner now min_created cs x.
Proof.
  unfold claim_row. intros [H| ->]; [|by rewrite !andb_false_r].
  by rewrite (bool_decide_ext (oj_outbox_id x ∈ c :: cs) (oj_outbox_id x ∈ cs)) by set_solver.
Qed.

Lemma claim_each_rows julianday owner now min_created cs : forall db,
  map_Forall (fun id j => oj_outbox_id j = id) (ox_jobs db) ->
  (claim_each julianday owner now min_created cs db).1 =
    {| ox_jobs := claim_row julianday owner now min_created (map oj_outbox_id cs) <$> ox_jobs db;
       ox_projections := ox_projections db |}.
Proof.
  induction cs as [|c cs IH]; intros db Hid.
  { destruct db as [m p]. simpl. f_equal. symmetry. etransitivity; [|apply map_fmap_id].
    apply map_fmap_ext. intros i x _. done. }
  cbn [claim_each]. unfold bind at 1, get.
  destruct (ox_jobs db !! oj_outbox_id c) as [j|] eqn:E; [destruct (claimable _ _ _ j) eqn:Ec|].
  - unfold bind, update_job.
    set (db1 := {| ox_jobs := _; ox_projections := _ |}).
    assert (Hid1 : map_Forall (fun id j => oj_outbox_id j = id) (ox_jobs db1)).
    { intros i x Hx. unfold db1 in Hx. simpl in Hx.
      destruct (decide (oj_outbox_id c = i)) as [<-|Hne].
      - rewrite lookup_alter_eq, E in Hx. injection Hx as <-. by apply (Hid _ _ E).
      - rewrite lookup_alter_ne in Hx by done. by apply Hid. }
    specialize (IH db1 Hid1). destruct (claim_each _ _ _ _ cs db1) as [db2 [l|e]]; simpl in IH |- *.
    all: rewrite IH; unfold db1; simpl; f_equal; apply map_eq; intros i; rewrite !lookup_fmap.
    all: destruct (decide (oj_outbox_id c = i)) as [<-|Hne];
      [rewrite lookup_alter_eq, E; simpl; unfold claim_row; rewrite claimed_not_claimable, andb_false_r, Ec;
       rewrite bool_decide_eq_true_2; [done|rewrite (Hid _ _ E); by left]|].
    all: rewrite lookup_alter_ne by done; destruct (ox_jobs db !! i) as [x|] eqn:Ex; [|done]; simpl;
      f_equal; symmetry; apply claim_row_cons; left; by rewrite (Hid _ _ Ex).
  - rewrite IH by done. f_equal. apply map_fmap_ext. intros i x Hx. symmetry. apply claim_row_cons.
    destruct (decide (i = oj_outbox_id c)) as [->|Hne]; [right; congruence|left]. by rewrite (Hid _ _ Hx).
  - rewrite IH by done. f_equal. apply map_fmap_ext. intros i x Hx. symmetry. apply claim_row_cons.
    left. rewrite (Hid _ _ Hx). congruence.
Qed.

Lemma jobs_ok_ids l (m : gmap string outbox_job) : jobs_ok l m -> map_Forall (fun id j => oj_outbox_id j = id) m.
Proof. intros Hm id j Hj. by destruct (Hm id j Hj). Qed.

Lemma claim_row_moves julianday l owner now min_created ids id j :
  job_ok l id j -> moves l (Worker owner) j (claim_row julianday owner now min_created ids j).
Proof.
  intros Hok. unfold claim_row. destruct (bool_decide _ && _) eqn:E; [|by left].
  apply andb_true_iff in E as [_ E]. unfold claimable in E. rewrite !andb_true_iff in E.
  destruct E as [[E _] _]. apply bool_decide_eq_true in E. right. split; [done|].
  exists (Waiting (oj_attempts j)), (Held owner (oj_attempts j)).
  split; [by eapply pending_phase|]. split; [done|]. apply L_claim.
Qed.

Lemma acts_claim julianday l m owner limit min_age name now :
  acts l (Worker (py_strip owner)) m
    (claim_projection_outbox_jobs julianday owner limit min_age name now).
Proof.
  unfold claim_projection_outbox_jobs. apply acts_text. cbv zeta. apply acts_after.
  { destruct (is_datetime _); auto with outbox. }
  intros _. apply acts_after.
  { destruct name; [apply quiet_jobs_bind|]; auto with outbox. }
  intros name'. apply acts_get. intros p Hm p' db' r H.
  pose proof (claim_each_rows julianday (py_strip owner) (datetime_to_wire now)
    (datetime_to_wire (now - Z.max min_age 0))
    (take (Z.to_nat (Z.min (Z.max limit 1) 500))
      (claim_candidates julianday (datetime_to_wire now) (datetime_to_wire (now - Z.max min_age 0))
        name' m)) {| ox_jobs := m; ox_projections := p' |} (jobs_ok_ids _ _ Hm)) as Hr.
  cbn [ox_jobs] in *. rewrite H in Hr. simpl in Hr. subst db'. cbn [ox_jobs].
  apply acts_rows; [|done]. intros id. eexists. split; [apply lookup_fmap|].
  intros j Hj Hok. by eapply claim_row_moves.
Qed.

(** *** Enqueueing *)

Lemma new_job_ok l py_repr e rowid now spec :
  0 < l -> spec ∈ _projection_jobs_for_event py_repr e ->
  let j := new_job e rowid now spec in job_ok l (oj_outbox_id j) j /\ phase_of j = Some (Waiting 0).
Proof.
  intros Hl Hs. split; [|done]. split; [done|done|by eapply spec_names|].
  exists (Waiting 0). split; [done|]. simpl. lia.
Qed.

Lemma insert_job_ok l j db :
  jobs_ok l (ox_jobs db) -> job_ok l (oj_outbox_id j) j ->
  insert_job j db = (match ox_jobs db !! oj_outbox_id j with
                     | Some _ => (db, Ok false)
                     | None => ({| ox_jobs := <[oj_outbox_id j := j]> (ox_jobs db);
                                   ox_projections := ox_projections db |}, Ok true) end).
Proof.
  intros Hm [_ Hk Hn _]. unfold insert_job, bind, get.
  destruct (ox_jobs db !! oj_outbox_id j) as [row|] eqn:E; [|done].
  destruct (Hm _ _ E) as [_ Hk' Hn' _].
  rewrite Hk in Hk'. apply outbox_id_inj in Hk' as [<- <-]; [|done..]. by rewrite !String.eqb_refl.
Qed.

(** What inserting does: nothing to the rows there were. *)
Record inserted (jobs : list outbox_job) (m m' : gmap string outbox_job) (created : Z) : Prop := {
  in_kept : forall id j, m !! id = Some j -> m' !! id = Some j;
  in_new : forall id j, m !! id = None -> m' !! id = Some j -> j ∈ jobs /\ id = oj_outbox_id j;
  in_all : forall j, j ∈ jobs -> is_Some (m' !! oj_outbox_id j);
  in_count : Z.of_nat (size m') = Z.of_nat (size m) + created
}.

Lemma insert_jobs_ok l jobs : forall db,
  jobs_ok l (ox_jobs db) -> Forall (fun j => job_ok l (oj_outbox_id j) j) jobs ->
  exists m' out, insert_jobs jobs db = ({| ox_jobs := m'; ox_projections := ox_projections db |}, Ok out) /\
    map fst out = jobs /\ jobs_ok l m' /\
    inserted jobs (ox_jobs db) m' (Z.of_nat (length (List.filter snd out))).
Proof.
  induction jobs as [|j jobs IH]; intros [m p] Hm Hj; cbn [ox_jobs] in *.
  { exists m, []. split; [done|]. split; [done|]. split; [done|].
    split; [done|congruence|by intros j ?%not_elem_of_nil|simpl; lia]. }
  apply Forall_cons_1 in Hj as [Hj Hjs]. cbn [insert_jobs]. unfold bind at 1.
  rewrite (insert_job_ok l) by done. cbn [ox_jobs ox_projections].
  destruct (m !! oj_outbox_id j) as [row|] eqn:E.
  - destruct (IH {| ox_jobs := m; ox_projections := p |} Hm Hjs) as (m' & out & H & Hf & Hok & Hi). unfold bind. cbn [ox_jobs] in *. rewrite H.
    exists m', ((j, false) :: out). split; [done|]. split; [by simpl; f_equal|]. split; [done|].
    destruct Hi as [H1 H2 H3 H4]. split; [done| | |done].
    + intros id x Hx Hx'. destruct (H2 id x Hx Hx') as [? ->]. split; [by right|done].
    + intros x [->|Hx]%elem_of_cons; [|by apply H3]. exists row. by apply H1.
  - set (db1 := {| ox_jobs := _; ox_projections := p |}).
    assert (Hm1 : jobs_ok l (ox_jobs db1)) by (by apply map_Forall_insert_2).
    destruct (IH _ Hm1 Hjs) as (m' & out & H & Hf & Hok & Hi). unfold bind. rewrite H.
    exists m', ((j, true) :: out). split; [done|]. split; [by simpl; f_equal|]. split; [done|].
    unfold db1 in Hi. cbn [ox_jobs] in Hi. destruct Hi as [H1 H2 H3 H4].
    assert (Hjj : m' !! oj_outbox_id j = Some j) by (apply H1, lookup_insert_eq).
    split.
    + intros id x Hx. apply H1. by rewrite lookup_insert_ne by congruence.
    + intros id x Hx Hx'. destruct (decide (oj_outbox_id j = id)) as [<-|Hne].
      * replace x with j by congruence. split; [by left|done].
      * destruct (H2 id x) as [? ->]; [by rewrite lookup_insert_ne|done|]. split; [by right|done].
    + intros x [->|Hx]%elem_of_cons; [by eexists|by apply H3].
    + rewrite H4, map_size_insert_None by done. simpl. lia.
Qed.

Lemma outbox_enqueue_ok py_repr l e rowid now db :
  0 < l -> jobs_ok l (ox_jobs db) ->
  exists m' result,
    enqueue_projection_jobs_for_gateway_event py_repr e rowid now db =
      ({| ox_jobs := m'; ox_projections := ox_projections db |}, Ok result) /\
    jobs_ok l m' /\
    exists new, map oj_projection_name new = map sp_projection_name (_projection_jobs_for_event py_repr e) /\
      Forall (fun j => oj_event_id j = ge_event_id e /\ oj_outbox_id j = _outbox_id (oj_projection_name j) (ge_event_id e) /\
                       phase_of j = Some (Waiting 0)) new /\
      inserted new (ox_jobs db) m' (eq_created_count result) /\
      eq_status result = if bool_decide (new = []) then "NOOP"
                         else if eq_created_count result =? 0 then "DUPLICATE" else "ENQUEUED".
Proof.
  intros Hl Hm. unfold enqueue_projection_jobs_for_gateway_event.
  destruct (_projection_jobs_for_event py_repr e) as [|s specs] eqn:Es.
  - destruct db as [m p]. eexists m, _. split; [reflexivity|]. split; [done|]. exists [].
    split; [done|]. split; [done|]. split; [|done].
    split; [done|cbn [ox_jobs]; congruence|by intros j ?%not_elem_of_nil|simpl; lia].
  - unfold bind at 1, get. set (rid := match rowid with Some n => Some n | None => _ end).
    set (new := map (new_job e rid (datetime_to_wire now)) (s :: specs)).
    assert (Hnew : Forall (fun j => job_ok l (oj_outbox_id j) j) new).
    { apply Forall_forall. intros j Hj. apply list_elem_of_In, list_elem_of_fmap in Hj as (x & -> & Hx).
      eapply new_job_ok; [done|]. by rewrite Es. }
    destruct (insert_jobs_ok l new db Hm Hnew) as (m' & out & H & _ & Hok & Hi).
    unfold bind. cbv zeta. rewrite H. eexists m', _. split; [reflexivity|]. split; [done|].
    exists new. split; [unfold new; by rewrite map_map|]. split.
    { apply Forall_forall. intros j Hj. apply list_elem_of_In, list_elem_of_fmap in Hj as (x & -> & Hx). done. }
    split; [exact Hi|]. rewrite bool_decide_eq_false_2 by done. reflexivity.
Qed.

Lemma acts_enqueue py_repr l m e rowid now :
  0 < l -> acts l Route m (enqueue_projection_jobs_for_gateway_event py_repr e rowid now).
Proof.
  intros Hl Hm p db' r H.
  destruct (outbox_enqueue_ok py_repr l e rowid now {| ox_jobs := m; ox_projections := p |} Hl Hm)
    as (m' & result & H' & Hok & new & _ & Hnew & Hi & _).
  rewrite H in H'. injection H' as -> _. cbn [ox_jobs] in *. split; [|done].
  destruct Hi as [H1 H2 _ _]. split.
  - intros id j Hj. exists j. split; [by apply H1|by left].
  - intros id j Hj Hj'. split; [done|]. destruct (H2 id j Hj Hj') as [Hin _].
    rewrite list.Forall_forall in Hnew. by destruct (Hnew j Hin) as (_ & _ & ?).
Qed.

(** *** Histories *)

Lemma acts_perform py_repr julianday skips l m a now :
  0 < l -> acts l (actor_of a) m (perform py_repr julianday skips l a now).
Proof.
  intros Hl. destruct a; simpl; unfold ignore.
  - apply acts_then; [by apply acts_enqueue|auto with outbox].
  - apply acts_then; [by apply acts_retire|auto with outbox].
  - apply acts_then; [by apply acts_claim|auto with outbox].
  - apply acts_terminal. by left.
  - unfold mark_projection_outbox_skipped. apply acts_text. apply acts_terminal. by right.
  - apply acts_error.
  - apply acts_retryable.
  - apply acts_then; [apply acts_reset|auto with outbox].
Qed.

Lemma reachable_jobs_ok py_repr julianday skips l db :
  0 < l -> outbox_reachable py_repr julianday skips l db -> jobs_ok l (ox_jobs db).
Proof.
  intros Hl. induction 1 as [p|[m p] a now db' r _ IH H|db p _ IH]; [apply map_Forall_empty| |done].
  by destruct (acts_perform py_repr julianday skips l m a now Hl IH p db' r H).
Qed.

(** C18. The table implements the life of a job: whatever routes, workers and sweeps
    do in whatever order, also when an operation raises, every job there stays the
    same job, and either is untouched or makes one move that its phase and the
    acting party allow: only the worker that holds a job settles it or hands it
    back, only the sweep takes it away, a settled job never moves again; new jobs
    come from the route and wait.  In every state the attempts of a job are below
    the limit, and at it exactly when the job is a dead letter. *)
Theorem outbox_implements_life py_repr julianday skips retry_limit db a now db' r :
  0 < retry_limit -> outbox_reachable py_repr julianday skips retry_limit db ->
  perform py_repr julianday skips retry_limit a now db = (db', r) ->
  lives retry_limit (actor_of a) (ox_jobs db) (ox_jobs db') /\
  forall id j, ox_jobs db' !! id = Some j ->
    oj_outbox_id j = id /\ 0 <= oj_attempts j <= retry_limit /\
    (oj_attempts j = retry_limit <-> oj_status j = OB.DEAD_LETTER) /\
    (oj_status j = OB.PROCESSING <-> is_Some (oj_locked_by j)).
Proof.
  intros Hl Hr H. pose proof (reachable_jobs_ok _ _ _ _ _ Hl Hr) as Hm. destruct db as [m p].
  destruct (acts_perform py_repr julianday skips retry_limit m a now Hl Hm p db' r H) as [Hlv Hok].
  split; [exact Hlv|]. intros id j Hj. destruct (Hok id j Hj) as [Hid _ _ (q & Hq & Hp)].
  split; [done|]. unfold phase_of in Hq.
  destruct (oj_status j), (oj_locked_by j), (oj_locked_at j); simplify_eq/=.
  all: split_and!; try lia; split; try done; try lia; try (by intros [? [=]]).
Qed.

(** A job once settled is settled for good: no later history, of any length, changes
    anything in its row. *)
Lemma settled_stays py_repr julianday skips l history : forall db id j,
  0 < l -> jobs_ok l (ox_jobs db) -> ox_jobs db !! id = Some j ->
  oj_status j <> OB.PENDING -> oj_status j <> OB.PROCESSING ->
  ox_jobs (perform_all py_repr julianday skips l history db) !! id = Some j.
Proof.
  induction history as [|[a now] history IH]; intros db id j Hl Hm Hj H1 H2; [done|]. simpl.
  destruct (perform _ _ _ _ a now db) as [db' r] eqn:E. destruct db as [m p]. simpl.
  destruct (acts_perform py_repr julianday skips l m a now Hl Hm p db' r E) as [[Hlv _] Hok].
  apply IH; [done..| |done|done]. destruct (Hlv id j Hj) as (j' & Hj' & [->|(_ & q & q' & Hq & _ & Hlife)]); [done|].
  exfalso. unfold phase_of in Hq. destruct Hlife; by repeat case_match; simplify_eq.
Qed.

(** After enqueueing every projection of the event has its row. *)
Lemma enqueued_names py_repr l e new m m' created :
  jobs_ok l m' -> map oj_projection_name new = map sp_projection_name (_projection_jobs_for_event py_repr e) ->
  Forall (fun j => oj_event_id j = ge_event_id e /\
                   oj_outbox_id j = _outbox_id (oj_projection_name j) (ge_event_id e) /\
                   phase_of j = Some (Waiting 0)) new ->
  inserted new m m' created ->
  forall name, name ∈ map sp_projection_name (_projection_jobs_for_event py_repr e) ->
  exists j, m' !! _outbox_id name (ge_event_id e) = Some j /\
            oj_projection_name j = name /\ oj_event_id j = ge_event_id e.
Proof.
  intros Hok Hnames Hnew [_ _ H3 _] name Hname.
  assert (Hn : name ∈ outbox_projections).
  { apply list_elem_of_fmap in Hname as (s & -> & Hs). by eapply spec_names. }
  rewrite <- Hnames in Hname. apply list_elem_of_fmap in Hname as (x & -> & Hx).
  rewrite list.Forall_forall in Hnew. destruct (H3 x Hx) as [j Hj]. destruct (Hnew x Hx) as (_ & Hid & _).
  rewrite Hid in Hj. exists j. split; [done|]. destruct (Hok _ _ Hj) as [_ Hk Hnj _].
  by apply outbox_id_inj in Hk as [-> ->].
Qed.

Lemma enqueue_again l py_repr e rowid now m p :
  0 < l -> jobs_ok l m ->
  (forall name, name ∈ map sp_projection_name (_projection_jobs_for_event py_repr e) ->
   exists j, m !! _outbox_id name (ge_event_id e) = Some j /\
             oj_projection_name j = name /\ oj_event_id j = ge_event_id e) ->
  exists result,
    enqueue_projection_jobs_for_gateway_event py_repr e rowid now {| ox_jobs := m; ox_projections := p |} =
      ({| ox_jobs := m; ox_projections := p |}, Ok result) /\
    eq_created_count result = 0 /\
    eq_status result = (if bool_decide (_projection_jobs_for_event py_repr e = []) then "NOOP" else "DUPLICATE").
Proof.
  intros Hl Hm Hall.
  destruct (outbox_enqueue_ok py_repr l e rowid now {| ox_jobs := m; ox_projections := p |} Hl Hm)
    as (m2 & result & H & _ & new & Hnames & Hnew & [G1 G2 _ G4] & Hs). cbn [ox_jobs ox_projections] in *.
  rewrite list.Forall_forall in Hnew.
  assert (Heq : m2 = m).
  { apply map_eq. intros id. destruct (m !! id) as [j|] eqn:Hj; [by apply G1|].
    destruct (m2 !! id) as [j|] eqn:Hj2; [|done]. exfalso.
    destruct (G2 id j Hj Hj2) as [Hin ->]. destruct (Hnew j Hin) as (_ & Hid & _).
    destruct (Hall (oj_projection_name j)) as (j' & Hj' & _); [|congruence].
    rewrite <- Hnames. by apply list_elem_of_fmap_2. }
  subst m2. assert (Hz : eq_created_count result = 0) by lia. exists result. split_and!; [done|done|].
  rewrite Hs, Hz. simpl. rewrite (bool_decide_ext (new = []) (_projection_jobs_for_event py_repr e = [])); [done|].
  apply (f_equal length) in Hnames. rewrite !length_map in Hnames.
  by destruct new, (_projection_jobs_for_event py_repr e).
Qed.

(** An accepted event gets its jobs, however often it is delivered: enqueueing
    never raises, leaves every row there was as it is, adds a waiting job for each
    projection that lacks one and no other row, and says how many; repeated, it
    answers DUPLICATE and changes nothing. *)
Theorem event_gets_its_jobs py_repr julianday skips retry_limit db e rowid now :
  0 < retry_limit -> outbox_reachable py_repr julianday skips retry_limit db ->
  exists m' result,
    enqueue_projection_jobs_for_gateway_event py_repr e rowid now db =
      ({| ox_jobs := m'; ox_projections := ox_projections db |}, Ok result) /\
    (forall id j, ox_jobs db !! id = Some j -> m' !! id = Some j) /\
    (forall id j, ox_jobs db !! id = None -> m' !! id = Some j ->
       oj_event_id j = ge_event_id e /\ phase_of j = Some (Waiting 0) /\
       oj_projection_name j ∈ map sp_projection_name (_projection_jobs_for_event py_repr e)) /\
    (forall name, name ∈ map sp_projection_name (_projection_jobs_for_event py_repr e) ->
       exists j, m' !! _outbox_id name (ge_event_id e) = Some j /\
                 oj_projection_name j = name /\ oj_event_id j = ge_event_id e) /\
    Z.of_nat (size m') = Z.of_nat (size (ox_jobs db)) + eq_created_count result /\
    (forall rowid' now', exists result',
       enqueue_projection_jobs_for_gateway_event py_repr e rowid' now'
         {| ox_jobs := m'; ox_projections := ox_projections db |} =
         ({| ox_jobs := m'; ox_projections := ox_projections db |}, Ok result') /\
       eq_created_count result' = 0 /\
       eq_status result' = (if bool_decide (_projection_jobs_for_event py_repr e = []) then "NOOP"
                            else "DUPLICATE")).
Proof.
  intros Hl Hr. pose proof (reachable_jobs_ok _ _ _ _ _ Hl Hr) as Hm.
  destruct (outbox_enqueue_ok py_repr retry_limit e rowid now db Hl Hm)
    as (m' & result & H & Hok & new & Hnames & Hnew & Hi & _).
  pose proof (enqueued_names py_repr retry_limit e new _ _ _ Hok Hnames Hnew Hi) as Hall.
  destruct Hi as [H1 H2 _ H4]. rewrite list.Forall_forall in Hnew.
  exists m', result. split; [exact H|]. split; [exact H1|]. split_and!; [|exact Hall|exact H4|].
  - intros id j Hj Hj'. destruct (H2 id j Hj Hj') as [Hin _].
    destruct (Hnew j Hin) as (? & _ & ?). split_and!; [done..|]. rewrite <- Hnames. by apply list_elem_of_fmap_2.
  - intros rowid' now'. by apply (enqueue_again retry_limit).
Qed.

(** ** The order of claims

    The [ORDER BY] of the candidates, built from its keys ([Orderings]). *)

#[export] Instance ordering_rowid : Ordering rowid_before.
Proof.
  split; [intros [a|] [b|]|intros [a|] [b|] [c|]|intros [a|] [b|] [c|]]; simpl; try done.
  - apply (cmp_opp (cmp := Z.compare)).
  - apply (cmp_same (cmp := Z.compare)).
  - apply (cmp_trans (cmp := Z.compare)).
Qed.

#[export] Instance ordering_claim : Ordering claim_compare.
Proof.
  unfold claim_compare. repeat apply ordering_then.
  - exact (ordering_desc _ (Ordering0 := ordering_key oj_priority Z.compare)).
  - apply (ordering_key oj_event_rowid rowid_before).
  - apply (ordering_key dependent_rank Z.compare).
  - apply (ordering_key oj_created_at String.compare).
  - apply (ordering_key oj_outbox_id String.compare).
Qed.

Lemma claim_le_total a b : claim_le a b = false -> claim_le b a = true.
Proof. exact (cmp_le_total claim_compare a b). Qed.

Lemma claim_le_trans a b c : claim_le a b = true -> claim_le b c = true -> claim_le a c = true.
Proof. exact (cmp_le_trans claim_compare a b c). Qed.

Lemma claim_le_antisym a b : claim_le a b = true -> claim_le b a = true -> oj_outbox_id a = oj_outbox_id b.
Proof.
  unfold claim_le. rewrite (cmp_opp (cmp := claim_compare) a b).
  destruct (claim_compare a b) eqn:E; try done. intros _ _.
  unfold claim_compare in E. do 4 apply then_by_eq in E. by apply String.compare_eq_iff.
Qed.

(** *** Turns *)

(** Workers that claim one after the other. *)
Fixpoint claim_turns (julianday : string -> option Z) (owners : list string) (limit min_age : Z)
    (name : option string) (now : Z) : SE outbox_db (list outbox_job) :=
  match owners with
  | [] => ret []
  | owner :: rest =>
      let! claimed := claim_projection_outbox_jobs julianday owner limit min_age name now in
      let! later := claim_turns julianday rest limit min_age name now in ret (claimed ++ later)
  end.

Lemma elem_of_boolean_filter {A} (f : A -> bool) l x : x ∈ List.filter f l <-> x ∈ l /\ f x = true.
Proof. by rewrite list_elem_of_In, filter_In, <- list_elem_of_In. Qed.

Lemma NoDup_map_bfilter {A B} (g : A -> B) (f : A -> bool) l :
  NoDup (map g l) -> NoDup (map g (List.filter f l)).
Proof.
  induction l as [|x l IH]; simpl; [done|]. intros [Hx Hl]%list.NoDup_cons.
  destruct (f x); [|by apply IH]. simpl. apply list.NoDup_cons. split; [|by apply IH].
  intros (y & Hy & Hin)%list_elem_of_fmap. apply elem_of_boolean_filter in Hin as [Hin _].
  apply Hx. rewrite Hy. by apply list_elem_of_fmap_2.
Qed.

Section Turns.
Context (julianday : string -> option Z) (now min_created : string) (name : option string) (l : Z).

Abbreviation due m := (claim_candidates julianday now min_created name m).
Abbreviation chosen j := (claimable julianday now min_created j && for_projection name j).
Abbreviation ids_of := (map oj_outbox_id).

Lemma job_values (m : gmap string outbox_job) j : jobs_ok l m -> (j ∈ map snd (map_to_list m) <-> m !! oj_outbox_id j = Some j).
Proof.
  intros Hm. split.
  - intros ([id x] & -> & Hx)%list_elem_of_fmap. apply elem_of_map_to_list in Hx. simpl.
    by destruct (Hm _ _ Hx) as [-> _ _ _].
  - intros Hj. apply elem_of_map_to_list in Hj. by apply (list_elem_of_fmap_2 snd) in Hj.
Qed.

Lemma elem_of_due (m : gmap string outbox_job) j : jobs_ok l m -> (j ∈ due m <-> m !! oj_outbox_id j = Some j /\ chosen j = true).
Proof.
  intros Hm. unfold claim_candidates. by rewrite elem_of_stable_sort, elem_of_boolean_filter, job_values.
Qed.

Lemma due_sorted m : StronglySorted (fun a b => claim_le a b = true) (due m).
Proof. apply stable_sort_sorted; [exact claim_le_total|exact claim_le_trans]. Qed.

Lemma due_NoDup (m : gmap string outbox_job) : jobs_ok l m -> NoDup (ids_of (due m)).
Proof.
  intros Hm. unfold claim_candidates. rewrite (Permutation_map oj_outbox_id (stable_sort_perm _ _)).
  apply NoDup_map_bfilter. rewrite map_map.
  rewrite (map_ext_in _ fst); [apply NoDup_fst_map_to_list|].
  intros [id j] Hin. apply list_elem_of_In, elem_of_map_to_list in Hin. by destruct (Hm _ _ Hin).
Qed.

Lemma claim_each_out owner cs : forall db,
  NoDup (ids_of cs) ->
  (forall c, c ∈ cs -> ox_jobs db !! oj_outbox_id c = Some c /\ claimable julianday now min_created c = true) ->
  (claim_each julianday owner now min_created cs db).2 = Ok (map (claimed_by owner now) cs).
Proof.
  induction cs as [|c cs IH]; intros db Hd Hc; [done|]. apply list.NoDup_cons in Hd as [Hn Hd].
  destruct (Hc c) as [Hj Hcl]; [by left|]. cbn [claim_each]. unfold bind at 1, get. rewrite Hj, Hcl.
  unfold bind, update_job.
  set (db1 := {| ox_jobs := _; ox_projections := _ |}).
  assert (H1 : (claim_each julianday owner now min_created cs db1).2 = Ok (map (claimed_by owner now) cs)).
  { apply IH; [done|]. intros x Hx. unfold db1. simpl. rewrite lookup_alter_ne; [by apply Hc; right|].
    intros E. apply Hn. rewrite E. by apply list_elem_of_fmap_2. }
  destruct (claim_each _ _ _ _ cs db1) as [db2 r]. simpl in H1. by subst r.
Qed.

(** What a claim leaves due is the rest of what was due. *)
Lemma due_after owner k (m : gmap string outbox_job) :
  jobs_ok l m ->
  due (claim_row julianday owner now min_created (ids_of (take k (due m))) <$> m) = drop k (due m).
Proof.
  intros Hm. set (ids := ids_of (take k (due m))).
  assert (Hm' : jobs_ok l (claim_row julianday owner now min_created ids <$> m)).
  { apply (acts_rows l (Worker owner) m); [|done]. intros id. eexists. split; [apply lookup_fmap|].
    intros j _ Hok. by eapply claim_row_moves. }
  pose proof (due_NoDup m Hm) as Hd. pose proof (due_NoDup _ Hm') as Hd'.
  assert (Hsplit : NoDup (ids ++ ids_of (drop k (due m)))).
  { unfold ids. by rewrite <- map_app, take_drop. }
  apply (StronglySorted_unique_strong (fun a b => claim_le a b = true)).
  - intros a b Ha Hb H1 H2. apply claim_le_antisym in H1; [|done].
    apply elem_of_due in Ha as [Ha Hca]; [|done].
    assert (Hb' : b ∈ due m) by (rewrite <- (take_drop k (due m)); set_solver).
    apply elem_of_due in Hb' as [Hb' _]; [|done]. rewrite lookup_fmap, <- H1, Hb' in Ha. simpl in Ha.
    injection Ha as Ha. unfold claim_row in Ha. destruct (_ && _) in Ha; [|done].
    by rewrite <- Ha, claimed_not_claimable in Hca.
  - apply due_sorted.
  - pose proof (due_sorted m) as Hs. rewrite <- (take_drop k (due m)) in Hs.
    by apply StronglySorted_app_1_r in Hs.
  - apply list.NoDup_Permutation; [by eapply NoDup_fmap_1| |].
    { apply list.NoDup_app in Hsplit as (_ & _ & H). by eapply NoDup_fmap_1. }
    intros j. rewrite elem_of_due by done. rewrite lookup_fmap. split.
    + intros [Hj Hc]. destruct (m !! oj_outbox_id j) as [x|] eqn:Hx; [|done]. injection Hj as Hj.
      destruct (Hm _ _ Hx) as [Hid _ _ _].
      assert (j = x /\ oj_outbox_id j ∉ ids) as [-> Hn].
      { unfold claim_row in Hj. apply andb_true_iff in Hc as [Hc _].
        destruct (claimable _ _ _ x) eqn:Ec;
          [|rewrite andb_false_r in Hj; split; [done|]; subst x; congruence].
        rewrite andb_true_r in Hj. destruct (bool_decide _) eqn:Eb.
        - by rewrite <- Hj, claimed_not_claimable in Hc.
        - apply bool_decide_eq_false in Eb. split; [done|congruence]. }
      assert (Hin : x ∈ due m) by by apply elem_of_due.
      rewrite <- (take_drop k (due m)), elem_of_app in Hin. destruct Hin as [Hin|Hin]; [|done].
      exfalso. apply Hn. by apply list_elem_of_fmap_2.
    + intros Hj. assert (Hin : j ∈ due m) by (rewrite <- (take_drop k (due m)); set_solver).
      apply elem_of_due in Hin as [Hin Hc]; [|done]. split; [|done]. rewrite Hin. simpl. f_equal.
      unfold claim_row. rewrite bool_decide_eq_false_2; [done|]. intros Hi.
      apply list.NoDup_app in Hsplit as (_ & Hdis & _). apply (Hdis _ Hi). by apply list_elem_of_fmap_2.
Qed.
End Turns.

Definition normalized_name (name : option string) : option string :=
  (fun n => py_lower (py_strip n)) <$> name.
Definition name_given (name : option string) : bool :=
  match name with Some n => str_true (py_strip n) | None => true end.
Definition claim_limit (limit : Z) : nat := Z.to_nat (Z.min (Z.max limit 1) 500).

(** The jobs that are due at [now], in the order of the claim. *)
Definition due_jobs (julianday : string -> option Z) (min_age : Z) (name : option string) (now : Z)
    (m : gmap string outbox_job) : list outbox_job :=
  claim_candidates julianday (datetime_to_wire now) (datetime_to_wire (now - Z.max min_age 0))
    (normalized_name name) m.

Lemma claim_turn julianday l owner limit min_age name now m p :
  jobs_ok l m -> str_true (py_strip owner) = true -> name_given name = true ->
  is_datetime (now - Z.max min_age 0) = true ->
  let batch := take (claim_limit limit) (due_jobs julianday min_age name now m) in
  claim_projection_outbox_jobs julianday owner limit min_age name now
    {| ox_jobs := m; ox_projections := p |} =
  ({| ox_jobs := claim_row julianday (py_strip owner) (datetime_to_wire now)
                   (datetime_to_wire (now - Z.max min_age 0)) (map oj_outbox_id batch) <$> m;
      ox_projections := p |},
   Ok (map (claimed_by (py_strip owner) (datetime_to_wire now)) batch)).
Proof.
  intros Hm Ho Hn Ht batch. unfold claim_projection_outbox_jobs, _require_non_empty, require_non_empty.
  rewrite Ho. unfold bind at 1, of_res. cbv zeta. rewrite Ht.
  assert (Hname : forall k : option string -> SE outbox_db (list outbox_job),
    (let! name' := match name with
                   | None => ret None
                   | Some n => let! n' := of_res (if str_true (py_strip n) then Ok (py_strip n)
                                                  else invalid "projection_name" "must not be empty") in
                               ret (Some (py_lower n'))
                   end in k name') = k (normalized_name name)).
  { intros k. destruct name as [n|]; [|done]. simpl in Hn |- *. by rewrite Hn. }
  unfold bind at 1, ret at 1. rewrite Hname. unfold bind, get. cbn [ox_jobs].
  change (claim_candidates _ _ _ (normalized_name name) m) with (due_jobs julianday min_age name now m).
  change (take _ (due_jobs julianday min_age name now m)) with batch.
  pose proof (claim_each_rows julianday (py_strip owner) (datetime_to_wire now)
    (datetime_to_wire (now - Z.max min_age 0)) batch {| ox_jobs := m; ox_projections := p |}
    (jobs_ok_ids _ _ Hm)) as H1.
  assert (H2 : (claim_each julianday (py_strip owner) (datetime_to_wire now)
    (datetime_to_wire (now - Z.max min_age 0)) batch {| ox_jobs := m; ox_projections := p |}).2 =
    Ok (map (claimed_by (py_strip owner) (datetime_to_wire now)) batch)).
  { apply claim_each_out.
    - pose proof (due_NoDup julianday (datetime_to_wire now) (datetime_to_wire (now - Z.max min_age 0))
        (normalized_name name) l m Hm) as Hd.
      unfold due_jobs in batch. rewrite <- (take_drop (claim_limit limit) (claim_candidates _ _ _ _ m)) in Hd.
      rewrite map_app in Hd. by apply list.NoDup_app in Hd as [Hd _].
    - intros c Hc. assert (Hin : c ∈ due_jobs julianday min_age name now m).
      { rewrite <- (take_drop (claim_limit limit) (due_jobs _ _ _ _ _)). set_solver. }
      apply (elem_of_due _ _ _ _ l) in Hin as [Hj Hcl]; [|done].
      by apply andb_true_iff in Hcl as [Hcl _]. }
  by rewrite (surjective_pairing (claim_each _ _ _ _ _ _)), H1, H2.
Qed.

Lemma claim_row_lookup julianday owner now mc ids l (m : gmap string outbox_job) id :
  jobs_ok l m -> id ∉ ids -> (claim_row julianday owner now mc ids <$> m) !! id = m !! id.
Proof.
  intros Hm Hid. rewrite lookup_fmap. destruct (m !! id) as [x|] eqn:Hx; [|done]. simpl. f_equal.
  unfold claim_row. destruct (Hm _ _ Hx) as [-> _ _ _]. by rewrite bool_decide_eq_false_2.
Qed.

Lemma batch_claimed julianday l owner k min_age name now (m : gmap string outbox_job) x :
  jobs_ok l m ->
  let batch := take k (due_jobs julianday min_age name now m) in
  x ∈ batch ->
  (claim_row julianday owner (datetime_to_wire now) (datetime_to_wire (now - Z.max min_age 0))
     (map oj_outbox_id batch) <$> m) !! oj_outbox_id x = Some (claimed_by owner (datetime_to_wire now) x).
Proof.
  intros Hm batch Hx. assert (Hin : x ∈ due_jobs julianday min_age name now m).
  { rewrite <- (take_drop k (due_jobs _ _ _ _ _)). set_solver. }
  apply (elem_of_due _ _ _ _ l) in Hin as [Hxm Hc]; [|done]. rewrite lookup_fmap, Hxm. simpl. f_equal.
  unfold claim_row. apply andb_true_iff in Hc as [Hc _]. rewrite Hc, bool_decide_eq_true_2; [done|].
  by apply list_elem_of_fmap_2.
Qed.

Lemma NoDup_ids_take k (jobs : list outbox_job) :
  NoDup (map oj_outbox_id jobs) -> NoDup (map oj_outbox_id (take k jobs)).
Proof.
  rewrite <- (take_drop k jobs) at 1. rewrite map_app. by intros [H _]%list.NoDup_app.
Qed.

(** C20. Claims are served in order, each job to one worker: however many workers
    claim one after the other, together they get exactly the first due jobs, by
    priority, then by the event's row, projections that build on others last; each
    one is held by a worker that claimed it, no job is handed out twice, nothing
    else changes; so enough turns claim everything that is due. *)
Theorem claims_in_order py_repr julianday skips retry_limit owners limit min_age name now db :
  0 < retry_limit -> outbox_reachable py_repr julianday skips retry_limit db ->
  Forall (fun o => str_true (py_strip o) = true) owners -> name_given name = true ->
  is_datetime (now - Z.max min_age 0) = true ->
  let due := due_jobs julianday min_age name now (ox_jobs db) in
  StronglySorted (fun a b => claim_le a b = true) due /\
  exists db' claimed,
    claim_turns julianday owners limit min_age name now db = (db', Ok claimed) /\
    map oj_outbox_id claimed = map oj_outbox_id (take (length owners * claim_limit limit) due) /\
    NoDup (map oj_outbox_id claimed) /\
    (forall j, j ∈ claimed -> ox_jobs db' !! oj_outbox_id j = Some j /\
       exists owner, owner ∈ owners /\ phase_of j = Some (Held (py_strip owner) (oj_attempts j))) /\
    (forall id, id ∉ map oj_outbox_id claimed -> ox_jobs db' !! id = ox_jobs db !! id).
Proof.
  intros Hl Hr Ho Hn Ht due. split; [apply due_sorted|].
  pose proof (reachable_jobs_ok _ _ _ _ _ Hl Hr) as Hm. clear Hr. destruct db as [m p]. cbn [ox_jobs] in *.
  subst due. revert m Hm. induction owners as [|o owners IH]; intros m Hm.
  { eexists _, []. split; [reflexivity|]. split_and!; [done|constructor|by intros j ?%not_elem_of_nil|done]. }
  apply Forall_cons_1 in Ho as [Ho Hos]. cbn [claim_turns]. unfold bind at 1.
  rewrite (claim_turn julianday retry_limit) by done. cbv zeta.
  set (batch := take (claim_limit limit) (due_jobs julianday min_age name now m)).
  set (m1 := claim_row _ _ _ _ _ <$> m).
  assert (Hm1 : jobs_ok retry_limit m1).
  { apply (acts_rows retry_limit (Worker (py_strip o)) m); [|done]. intros id. eexists.
    split; [apply lookup_fmap|]. intros j _ Hok. by eapply claim_row_moves. }
  assert (Hdue : due_jobs julianday min_age name now m1 = drop (claim_limit limit) (due_jobs julianday min_age name now m))
    by by apply (due_after _ _ _ _ retry_limit).
  destruct (IH Hos m1 Hm1) as (db' & later & H & Hids & Hnd & Hheld & Hrest).
  unfold bind. rewrite H. eexists _, _. split; [reflexivity|].
  pose proof (due_NoDup julianday (datetime_to_wire now) (datetime_to_wire (now - Z.max min_age 0))
    (normalized_name name) retry_limit m Hm) as Hd.
  change (claim_candidates _ _ _ _ m) with (due_jobs julianday min_age name now m) in Hd.
  assert (Hb : map oj_outbox_id (map (claimed_by (py_strip o) (datetime_to_wire now)) batch) =
               map oj_outbox_id batch) by (by rewrite map_map).
  assert (Hall : map oj_outbox_id (map (claimed_by (py_strip o) (datetime_to_wire now)) batch ++ later) =
    map oj_outbox_id (take (length (o :: owners) * claim_limit limit) (due_jobs julianday min_age name now m))).
  { rewrite map_app, Hb, Hids, Hdue. simpl.
    rewrite <- (take_take_drop _ (claim_limit limit) (length owners * claim_limit limit)), map_app. done. }
  split_and!; [exact Hall| | |].
  - rewrite Hall. by apply NoDup_ids_take.
  - intros j [Hj|Hj]%elem_of_app.
    + apply list_elem_of_fmap in Hj as (x & -> & Hx). split.
      * change (oj_outbox_id (claimed_by _ _ x)) with (oj_outbox_id x).
        rewrite Hrest; [by apply (batch_claimed _ retry_limit)|].
        rewrite map_app, Hb in Hall. intros Hl2. pose proof (NoDup_ids_take (length (o :: owners) * claim_limit limit) _ Hd) as Hn2.
        rewrite <- Hall in Hn2. apply list.NoDup_app in Hn2 as (_ & Hdis & _).
        apply (Hdis (oj_outbox_id x)); [|done]. by apply list_elem_of_fmap_2.
      * exists o. split; [by left|]. done.
    + destruct (Hheld j Hj) as (? & o' & Ho' & ?). split; [done|]. exists o'. split; [by right|done].
  - intros id Hid. rewrite map_app, not_elem_of_app in Hid. destruct Hid as [Hid1 Hid2].
    rewrite Hrest by done. unfold m1. apply (claim_row_lookup _ _ _ _ _ retry_limit); [done|].
    by rewrite Hb in Hid1.
Qed.

(** ** A morning at the outbox *)

Definition example_julianday (s : string) : option Z :=
  match parse_timestamp (JStr s) "time" with Ok t => Some t | Err _ => None end.

Definition outbox_event (id etype : string) : GatewayEvent :=
  {| ge_event_type := etype; ge_payload := []; ge_event_id := id; ge_source := "kiwoom";
     ge_ts := 0; ge_command_id := None; ge_idempotency_key := None |}.

Definition example_db : outbox_db := {| ox_jobs := ∅; ox_projections := fresh_projections [] |}.

Definition outbox_morning : list (outbox_action * Z) :=
  [(EnqueueJobs (outbox_event "evt1" "condition_event") (Some 1), seconds 100);
   (EnqueueJobs (outbox_event "evt2" "price_tick") (Some 2), seconds 101);
   (EnqueueJobs (outbox_event "evt1" "condition_event") (Some 1), seconds 102);
   (ClaimJobs " w1 " 2 0 None, seconds 103);
   (MarkApplied "market_data:evt1" "w1" [], seconds 104);
   (MarkApplied "condition_fusion:evt1" "w2" [], seconds 104);
   (MarkRetryable "condition_fusion:evt1" "w1" "database is locked" [], seconds 105);
   (RetireJob "evt2" "market_data" "applied" [], seconds 106);
   (ClaimJobs "w2" 5 0 None, seconds 107);
   (ResetStale 60, seconds 300);
   (ClaimJobs "w1" 5 0 None, seconds 301);
   (MarkRetryable "condition_fusion:evt1" "w2" "late" [], seconds 302);
   (MarkRetryable "condition_fusion:evt1" "w1" "database is locked" [], seconds 303)].

Abbreviation example_perform := (perform (fun _ => EmptyString) example_julianday (fun _ => false)).
Abbreviation example_reachable := (outbox_reachable (fun _ => EmptyString) example_julianday (fun _ => false)).

Definition morning_db (retry_limit : Z) (n : nat) : outbox_db :=
  perform_all (fun _ => EmptyString) example_julianday (fun _ => false) retry_limit
    (take n outbox_morning) example_db.

Example outbox_morning_result :
  (fun j => (phase_of j, length (match jget "worker_history" (oj_metadata j) with
                                 | Some (JList h) => h | _ => [] end))) <$>
    ox_jobs (morning_db 2 13) =
  list_to_map
    [("market_data:evt1", (Some (Settled OB.APPLIED 0), 1%nat));
     ("condition_fusion:evt1", (Some (Settled OB.DEAD_LETTER 2), 2%nat));
     ("market_data:evt2", (Some (Settled OB.APPLIED 0), 1%nat))].
Proof. vm_compute. reflexivity. Qed.

Lemma perform_all_reachable py_repr julianday skips l history : forall db,
  outbox_reachable py_repr julianday skips l db ->
  outbox_reachable py_repr julianday skips l (perform_all py_repr julianday skips l history db).
Proof.
  induction history as [|[a now] history IH]; intros db H; [done|]. simpl. apply IH.
  eapply OR_perform; [exact H|]. apply surjective_pairing.
Qed.

Lemma morning_db_reachable l n : example_reachable l (morning_db l n).
Proof. apply perform_all_reachable, OR_empty. Qed.

Lemma outbox_implements_life_witness :
  0 < 2 /\ example_reachable 2 (morning_db 2 8) /\
  lives 2 (Worker "w2") (ox_jobs (morning_db 2 8))
    (ox_jobs (example_perform 2 (ClaimJobs "w2" 5 0 None) (seconds 107) (morning_db 2 8)).1).
Proof.
  split; [lia|]. split; [apply morning_db_reachable|].
  exact (proj1 (outbox_implements_life (fun _ => EmptyString) example_julianday (fun _ => false) 2
    (morning_db 2 8) (ClaimJobs "w2" 5 0 None) (seconds 107) _ _ ltac:(lia)
    (morning_db_reachable 2 8) (surjective_pairing _))).
Defined.

Lemma event_gets_its_jobs_witness :
  0 < 2 /\ example_reachable 2 (morning_db 2 0) /\
  exists m' result,
    enqueue_projection_jobs_for_gateway_event (fun _ => EmptyString)
      (outbox_event "evt1" "condition_event") (Some 1) (seconds 100) (morning_db 2 0) =
      ({| ox_jobs := m'; ox_projections := ox_projections (morning_db 2 0) |}, Ok result) /\
    is_Some (m' !! "condition_fusion:evt1").
Proof.
  split; [lia|]. split; [apply morning_db_reachable|].
  destruct (event_gets_its_jobs (fun _ => EmptyString) example_julianday (fun _ => false) 2
    (morning_db 2 0) (outbox_event "evt1" "condition_event") (Some 1) (seconds 100) ltac:(lia)
    (morning_db_reachable 2 0)) as (m' & result & H & _ & _ & Hall & _).
  exists m', result. split; [exact H|].
  destruct (Hall "condition_fusion") as (j & Hj & _); [|by exists j].
  apply (bool_decide_unpack _). vm_compute. exact I.
Defined.

Lemma claims_in_order_witness :
  0 < 2 /\ example_reachable 2 (morning_db 2 3) /\
  exists db' claimed,
    claim_turns example_julianday ["w1"; "w2"] 2 0 None (seconds 103) (morning_db 2 3) = (db', Ok claimed) /\
    map oj_outbox_id claimed = ["market_data:evt1"; "condition_fusion:evt1"; "market_data:evt2"].
Proof.
  split; [lia|]. split; [apply morning_db_reachable|].
  destruct (claims_in_order (fun _ => EmptyString) example_julianday (fun _ => false) 2 ["w1"; "w2"] 2 0
    None (seconds 103) (morning_db 2 3) ltac:(lia) (morning_db_reachable 2 3)
    ltac:(repeat constructor) eq_refl eq_refl) as (_ & db' & claimed & H & Hids & _).
  exists db', claimed. split; [exact H|]. rewrite Hids. vm_compute. reflexivity.
Defined.
