(* ===== verification/MarketData.v ===== *)
(** * The market-data projection ([services/market_data_service.py],
    [services/candidate_quote_refresh.py], [domain/market/])

    From the gateway's events to the tables the strategy reads: the latest tick of
    every code and exchange, the samples, the bars of every configured interval,
    the premarket and cross-exchange observations, the condition signals and the
    TR rows; and the replay of the whole event log into them.

    The columns [updated_at] and [created_at], the metadata of constants of the two
    observation tables and the row ids are left out; the JSON columns are kept as
    the mappings they hold.  [pick] is the row SQLite returns among those that tie
    in an [ORDER BY ... LIMIT 1]. *)
From stdpp Require Import pretty.
From S2P Require Import Prelude PyFloat FloatRound BrokerUtils WireTime GatewayModels LiveSimModels BrokerMessages ProjectionWatermarks.
Local Open Scope Z_scope.

(** ** Bars and quality ([bars.py], [quality.py], [models.py]) *)

Module MarketDataQualityStatus.
Inductive t := MISSING | FRESH | STALE | DEGRADED | INVALID.
Definition value (s : t) : string :=
  match s with
  | MISSING => "MISSING" | FRESH => "FRESH" | STALE => "STALE" | DEGRADED => "DEGRADED"
  | INVALID => "INVALID"
  end.

#[export] Instance t_eq_dec : EqDecision t.
Proof. solve_decision. Defined.
End MarketDataQualityStatus.
#[export] Instance quality_eq_dec : EqDecision MarketDataQualityStatus.t :=
  MarketDataQualityStatus.t_eq_dec.
Module QS := MarketDataQualityStatus.

(** The start of the interval a time falls in, on the clock of the epoch. *)
Definition bucket_start_for (timestamp interval_sec : Z) : res Z :=
  if interval_sec <=? 0 then Err (ValueError "interval_sec must be positive") else
  let* q := int_truediv timestamp usec in
  let* epoch := f_trunc q in
  let bucket := seconds (epoch - epoch mod interval_sec) in
  if is_datetime bucket then Ok bucket else Err (ValueError "year is out of range").

Definition calculate_vwap (cumulative_trade_value : float) (cumulative_volume : Z)
    (bar_trade_value_delta : float) (bar_volume_delta : Z) : res (option float) :=
  if (0 <? cumulative_volume) && f_lt f_zero cumulative_trade_value then
    let* v := float_of_int cumulative_volume in Ok (Some (f_quot cumulative_trade_value v))
  else if (0 <? bar_volume_delta) && f_lt f_zero bar_trade_value_delta then
    let* v := float_of_int bar_volume_delta in Ok (Some (f_quot bar_trade_value_delta v))
  else Ok None.

(** [tuple(sorted(set(intervals)))], all positive and aligned to a minute. *)
Definition normalize_interval_list (intervals : list Z) : res (list Z) :=
  let normalized := stable_sort Z.leb (dedupe intervals) in
  match normalized with
  | [] => Err (ValueError "MARKET_DATA_BAR_INTERVALS_SEC must contain at least one interval")
  | _ =>
      if existsb (fun i => i <=? 0) normalized
      then Err (ValueError "MARKET_DATA_BAR_INTERVALS_SEC values must be positive")
      else if existsb (fun i => negb (i mod 60 =? 0)) normalized
      then Err (ValueError "MARKET_DATA_BAR_INTERVALS_SEC values must be minute-aligned")
      else Ok normalized
  end.

Definition assess_price_tick_quality (t : BrokerPriceTick) : QS.t :=
  let both := negb (bt_best_bid t =? 0) && negb (bt_best_ask t =? 0) in
  if (bt_price t <=? 1) || (bt_volume t <? 0) || (bt_trade_value t <? 0) then QS.INVALID
  else if both && (bt_best_ask t <? bt_best_bid t) then QS.INVALID
  else if bt_day_high t <? bt_day_low t then QS.INVALID
  else if (bt_spread_ticks t =? 0) && both && (bt_best_bid t <? bt_best_ask t) then QS.DEGRADED
  else QS.FRESH.

(** [max((now - event_ts).total_seconds(), 0.0)]. *)
Definition tick_age_seconds (event_ts now : Z) : res float :=
  let* age := int_truediv (now - event_ts) usec in Ok (f_max age f_zero).

Definition freshness_status (event_ts : option Z) (stale_sec degraded_sec now : Z) (base_status : QS.t)
    : res QS.t :=
  match event_ts with
  | None => Ok QS.MISSING
  | Some ts =>
      match base_status with
      | QS.INVALID => Ok QS.INVALID
      | QS.DEGRADED => Ok QS.DEGRADED
      | _ =>
          let* age := tick_age_seconds ts now in
          Ok (if f_leZ age stale_sec then QS.FRESH
              else if f_leZ age degraded_sec then QS.STALE else QS.DEGRADED)
      end
  end.

(** ** Exchanges and sessions *)

Definition exchange_aliases : list (string * string) :=
  [("", "KRX"); ("K", "KRX"); ("KR", "KRX"); ("KRX", "KRX"); ("N", "NXT"); ("NX", "NXT");
   ("NXT", "NXT"); ("A", "ALL"); ("AL", "ALL"); ("ALL", "ALL"); ("SOR", "ALL");
   ("INTEGRATED", "ALL")].

Definition at_time (h m : Z) : Z := (h * 3600 + m * 60) * usec.

Definition market_session (exchange : string) (trade_time : Z) : string :=
  let local := seoul_time_of_day trade_time in
  let within from upto := (from <=? local) && (local <? upto) in
  if within (at_time 9 0) (at_time 15 30) then "REGULAR"
  else if String.eqb exchange "NXT" && within (at_time 8 0) (at_time 8 50) then "PREMARKET_NXT"
  else if String.eqb exchange "NXT" && within (at_time 15 30) (at_time 20 0) then "AFTERMARKET_NXT"
  else "OFF_HOURS".

Record market_settings := {
  market_data_enabled : bool;
  market_data_bar_intervals_sec : list Z;
  market_data_premarket_snapshot_enabled : bool
}.

(** ** The tables *)

Record latest_tick := {
  lt_session : string;
  lt_name : string;
  lt_price : Z;
  lt_change_rate : float;
  lt_cumulative_volume : Z;
  lt_cumulative_trade_value : float;
  lt_execution_strength : float;
  lt_best_bid : Z;
  lt_best_ask : Z;
  lt_spread_ticks : Z;
  lt_day_high : Z;
  lt_day_low : Z;
  lt_trade_time : string;
  lt_event_ts : string;
  lt_received_at : string;
  lt_source : string;
  lt_event_id : string;
  lt_quality_status : QS.t
}.

Record tick_sample := {
  ts_code : string;
  ts_exchange : string;
  ts_session : string;
  ts_price : Z;
  ts_cumulative_volume : Z;
  ts_cumulative_trade_value : float;
  ts_volume_delta : Z;
  ts_trade_value_delta : float;
  ts_execution_strength : float;
  ts_event_ts : string;
  ts_received_at : string;
  ts_source : string;
  ts_metadata : payload
}.

Record minute_bar := {
  mb_open : Z;
  mb_high : Z;
  mb_low : Z;
  mb_close : Z;
  mb_volume_delta : Z;
  mb_trade_value_delta : float;
  mb_tick_count : Z;
  mb_vwap : option float
}.

Record premarket_snapshot := {
  ps_name : string;
  ps_first_price : Z;
  ps_first_trade_time : string;
  ps_first_event_id : string;
  ps_last_price : Z;
  ps_last_trade_time : string;
  ps_last_event_id : string;
  ps_prev_krx_close : option Z;
  ps_gap_pct : option float;
  ps_volume : Z;
  ps_trade_value : float;
  ps_tick_count : Z
}.

Record cross_observation := {
  co_krx_last_price : option Z;
  co_nxt_last_price : option Z;
  co_divergence_bp : option float;
  co_krx_volume : Z;
  co_nxt_volume : Z;
  co_krx_volume_share : option float;
  co_nxt_volume_share : option float;
  co_krx_tick_count : Z;
  co_nxt_tick_count : Z
}.

Record condition_signal := {
  cs_condition_id : string;
  cs_condition_name : string;
  cs_code : string;
  cs_name : string;
  cs_action : ConditionEventAction.t;
  cs_price : option Z;
  cs_event_ts : string;
  cs_received_at : string;
  cs_source : string;
  cs_event_id : string;
  cs_metadata : payload
}.

Record tr_snapshot := {
  tr_event_id : string;
  tr_request_id : string;
  tr_tr_code : string;
  tr_request_name : string;
  tr_code : option string;
  tr_row : payload;
  tr_event_ts : string;
  tr_received_at : string;
  tr_source : string
}.

Record projection_error := {
  pe_event_id : string;
  pe_event_type : string;
  pe_code : option string;
  pe_error_message : string;
  pe_payload : payload
}.

(** The key of a bar: code, exchange, session, interval and start. *)
Definition bar_key : Type := string * string * string * Z * string.

(** The tables [MARKET_PROJECTION_TABLES]. *)
Record market_tables := {
  ticks_latest : gmap (string * string) latest_tick;
  tick_samples : gmap string tick_sample;
  minute_bars : gmap bar_key minute_bar;
  premarket_snapshots : gmap (string * string) premarket_snapshot;
  cross_observations : gmap (string * string) cross_observation;
  condition_signals : gmap string condition_signal;
  condition_latest : gmap (string * string) condition_signal;
  tr_snapshots : list tr_snapshot;
  projection_errors : list projection_error
}.

Definition empty_tables : market_tables :=
  {| ticks_latest := ∅; tick_samples := ∅; minute_bars := ∅; premarket_snapshots := ∅;
     cross_observations := ∅; condition_signals := ∅; condition_latest := ∅; tr_snapshots := [];
     projection_errors := [] |}.

Definition put_latest (k : string * string) (v : latest_tick) (m : market_tables) : market_tables :=
  {| ticks_latest := <[k := v]> (ticks_latest m); tick_samples := tick_samples m;
     minute_bars := minute_bars m; premarket_snapshots := premarket_snapshots m;
     cross_observations := cross_observations m; condition_signals := condition_signals m;
     condition_latest := condition_latest m; tr_snapshots := tr_snapshots m;
     projection_errors := projection_errors m |}.
Definition put_sample (k : string) (v : tick_sample) (m : market_tables) : market_tables :=
  {| ticks_latest := ticks_latest m; tick_samples := <[k := v]> (tick_samples m);
     minute_bars := minute_bars m; premarket_snapshots := premarket_snapshots m;
     cross_observations := cross_observations m; condition_signals := condition_signals m;
     condition_latest := condition_latest m; tr_snapshots := tr_snapshots m;
     projection_errors := projection_errors m |}.
Definition put_bar (k : bar_key) (v : minute_bar) (m : market_tables) : market_tables :=
  {| ticks_latest := ticks_latest m; tick_samples := tick_samples m;
     minute_bars := <[k := v]> (minute_bars m); premarket_snapshots := premarket_snapshots m;
     cross_observations := cross_observations m; condition_signals := condition_signals m;
     condition_latest := condition_latest m; tr_snapshots := tr_snapshots m;
     projection_errors := projection_errors m |}.
Definition put_premarket (k : string * string) (v : premarket_snapshot) (m : market_tables)
    : market_tables :=
  {| ticks_latest := ticks_latest m; tick_samples := tick_samples m;
     minute_bars := minute_bars m; premarket_snapshots := <[k := v]> (premarket_snapshots m);
     cross_observations := cross_observations m; condition_signals := condition_signals m;
     condition_latest := condition_latest m; tr_snapshots := tr_snapshots m;
     projection_errors := projection_errors m |}.
Definition put_cross (k : string * string) (v : cross_observation) (m : market_tables)
    : market_tables :=
  {| ticks_latest := ticks_latest m; tick_samples := tick_samples m;
     minute_bars := minute_bars m; premarket_snapshots := premarket_snapshots m;
     cross_observations := <[k := v]> (cross_observations m);
     condition_signals := condition_signals m;
     condition_latest := condition_latest m; tr_snapshots := tr_snapshots m;
     projection_errors := projection_errors m |}.
Definition put_condition (k : string) (k' : string * string) (v : condition_signal)
    (m : market_tables) : market_tables :=
  {| ticks_latest := ticks_latest m; tick_samples := tick_samples m;
     minute_bars := minute_bars m; premarket_snapshots := premarket_snapshots m;
     cross_observations := cross_observations m;
     condition_signals := <[k := v]> (condition_signals m);
     condition_latest := <[k' := v]> (condition_latest m); tr_snapshots := tr_snapshots m;
     projection_errors := projection_errors m |}.
Definition put_tr (v : tr_snapshot) (m : market_tables) : market_tables :=
  {| ticks_latest := ticks_latest m; tick_samples := tick_samples m;
     minute_bars := minute_bars m; premarket_snapshots := premarket_snapshots m;
     cross_observations := cross_observations m; condition_signals := condition_signals m;
     condition_latest := condition_latest m; tr_snapshots := tr_snapshots m ++ [v];
     projection_errors := projection_errors m |}.
Definition put_error (v : projection_error) (m : market_tables) : market_tables :=
  {| ticks_latest := ticks_latest m; tick_samples := tick_samples m;
     minute_bars := minute_bars m; premarket_snapshots := premarket_snapshots m;
     cross_observations := cross_observations m; condition_signals := condition_signals m;
     condition_latest := condition_latest m; tr_snapshots := tr_snapshots m;
     projection_errors := projection_errors m ++ [v] |}.

Abbreviation M := (SE market_tables).
Definition write (f : market_tables -> market_tables) : M unit := fun m => (f m, Ok tt).

(** ** Payloads *)

Section MarketData.
Context (py_repr : json -> string) (pick : list Z -> option Z).

(** [payload.get(key)], [None] for a null. *)
Definition get_value (m : payload) (key : string) : option json :=
  match jget key m with Some JNull => None | o => o end.

(** [metadata if isinstance(metadata, Mapping) else {}]. *)
Definition metadata_of (p : payload) : option payload :=
  match jget "metadata" p with Some (JObj m) => Some m | _ => None end.

(** [dict(m)] with the keys of [updates] set. *)
Definition dict_update (m updates : payload) : payload := m ++ updates.

(** [m.pop(key, None)]. *)
Definition dict_pop (key : string) (m : payload) : payload :=
  List.filter (fun kv => negb (String.eqb kv.1 key)) m.

(** [str(value or "KRX").strip().upper()] and its alias. *)
Definition normalize_market_data_exchange_filter (value : option json) : res string :=
  let raw := match value with Some v => if jtrue v then py_str py_repr v else "KRX" | None => "KRX" end in
  let text := py_upper (py_strip raw) in
  match List.find (fun kv => String.eqb kv.1 text) exchange_aliases with
  | Some (_, exchange) => Ok exchange
  | None => Err (ValueError ("unsupported market data exchange: " +:+
                             match value with Some v => py_str py_repr v | None => "None" end))
  end.

Definition normalize_market_data_exchange (value : option json) : res string :=
  let* exchange := normalize_market_data_exchange_filter value in
  Ok (if String.eqb exchange "ALL" then "KRX" else exchange).

Definition market_session_for_tick (trade_time : Z) (exchange : string) : res string :=
  let* normalized := normalize_market_data_exchange (Some (JStr exchange)) in
  Ok (market_session normalized trade_time).

Definition _price_tick_payload_reason_codes (p : payload) : list string :=
  match metadata_of p with
  | Some m =>
      match jget "reason_codes" m with
      | Some (JList codes) =>
          List.filter str_true (map (fun c => py_upper (py_strip (py_str py_repr c))) codes)
      | _ => []
      end
  | None => []
  end.

Definition _price_tick_payload_real_type (p : payload) : string :=
  match metadata_of p with
  | Some m => py_strip (str_or_empty py_repr (jget "real_type" m))
  | None => EmptyString
  end.

Definition QUOTE_ONLY_REAL_TYPES : list string := ["주식우선호가"].

Definition _price_tick_payload_exchange (p : payload) : res string :=
  match (match metadata_of p with Some m => get_value m "exchange" | None => None end) with
  | Some v => normalize_market_data_exchange (Some v)
  | None =>
      match get_value p "exchange" with
      | Some v => normalize_market_data_exchange (Some v)
      | None => Ok "KRX"
      end
  end.

Definition _payload_code (p : payload) : option string :=
  match get_value p "code" with
  | None => None
  | Some v => match validate_stock_code v "code" with
              | Ok code => Some code
              | Err _ => Some (py_str py_repr v)
              end
  end.

Fixpoint row_code_of (keys : list string) (row : payload) : option string :=
  match keys with
  | [] => None
  | key :: rest =>
      match get_value row key with
      | None => row_code_of rest row
      | Some v => match validate_stock_code v "code" with Ok code => Some code | Err _ => None end
      end
  end.
Definition _extract_row_code : payload -> option string :=
  row_code_of ["code"; "stock_code"; "종목코드"].

(** ** Reading the tables *)

Definition _projection_exists (event_type event_id : string) (m : market_tables) : bool :=
  if String.eqb event_type "price_tick" then
    bool_decide (is_Some (tick_samples m !! event_id)) ||
    existsb (fun e => String.eqb (pe_event_id e) event_id) (projection_errors m)
  else if String.eqb event_type "condition_event" then
    bool_decide (is_Some (condition_signals m !! event_id))
  else if String.eqb event_type "tr_response" then
    existsb (fun r => String.eqb (tr_event_id r) event_id) (tr_snapshots m)
  else false.

(** [ORDER BY id DESC LIMIT 1]. *)
Definition _projection_error_message (event_id : string) (m : market_tables) : option string :=
  pe_error_message <$>
    List.find (fun e => String.eqb (pe_event_id e) event_id) (rev (projection_errors m)).

Definition _event_store_times (log : list logged_event) (now : Z) (e : GatewayEvent)
    : string * string :=
  match find_event (ge_event_id e) log with
  | Some row => (le_event_ts row, le_received_at row)
  | None =>
      let own := (datetime_to_wire (ge_ts e), datetime_to_wire now) in
      match (match metadata_of (ge_payload e) with Some m => jget "parent_event_id" m | None => None end) with
      | Some parent =>
          if jtrue parent then
            match find_event (py_str py_repr parent) log with
            | Some row => (le_event_ts row, le_received_at row)
            | None => own
            end
          else own
      | None => own
      end
  end.

Definition _timestamp_is_before (incoming current : string) : res bool :=
  let as_texts := Ok (match String.compare incoming current with Lt => true | _ => false end) in
  match parse_timestamp (JStr incoming) "incoming_event_ts" with
  | Ok a =>
      match parse_timestamp (JStr current) "current_event_ts" with
      | Ok b => Ok (a <? b)
      | Err (ValueError _) => as_texts
      | Err e => Err e
      end
  | Err (ValueError _) => as_texts
  | Err e => Err e
  end.

Definition _is_older_than_latest_price_tick (log : list logged_event) (now : Z) (e : GatewayEvent)
    (m : market_tables) : res bool :=
  let p := ge_payload e in
  if mem (_price_tick_payload_real_type p) QUOTE_ONLY_REAL_TYPES then Ok false else
  match validate_stock_code (field p "code") "code", _price_tick_payload_exchange p with
  | Ok code, Ok exchange =>
      match ticks_latest m !! (code, exchange) with
      | None => Ok false
      | Some row => _timestamp_is_before (_event_store_times log now e).1 (lt_event_ts row)
      end
  | Err (ValueError _), _ | Ok _, Err (ValueError _) => Ok false
  | Err err, _ | _, Err err => Err err
  end.

(** ** Writing a tick *)

Definition _record_projection_error (e : GatewayEvent) (error_message : string) : M unit :=
  write (put_error {| pe_event_id := ge_event_id e;
                      pe_event_type := py_lower (py_strip (ge_event_type e));
                      pe_code := _payload_code (ge_payload e);
                      pe_error_message := error_message; pe_payload := ge_payload e |}).

(** The bar after the tick, from the row there was. *)
Definition bar_after (t : BrokerPriceTick) (trade_value : float) (volume_delta : Z)
    (trade_value_delta : float) (existing : option minute_bar) : res minute_bar :=
  let '(bar_open, high, low, volume, value, count) :=
    match existing with
    | None => (bt_price t, bt_price t, bt_price t, volume_delta, trade_value_delta, 1)
    | Some b =>
        (mb_open b, Z.max (mb_high b) (bt_price t), Z.min (mb_low b) (bt_price t),
         mb_volume_delta b + volume_delta, f_add (mb_trade_value_delta b) trade_value_delta,
         mb_tick_count b + 1)
    end in
  let* vwap := calculate_vwap trade_value (bt_volume t) value volume in
  Ok {| mb_open := bar_open; mb_high := high; mb_low := low; mb_close := bt_price t;
        mb_volume_delta := volume; mb_trade_value_delta := value; mb_tick_count := count;
        mb_vwap := vwap |}.

Definition _upsert_minute_bar (t : BrokerPriceTick) (exchange session : string) (volume_delta : Z)
    (trade_value_delta : float) (interval_sec : Z) : M unit :=
  let! bucket := of_res (bucket_start_for (bt_trade_time t) interval_sec) in
  let key := (bt_code t, exchange, session, interval_sec, datetime_to_wire bucket) in
  let! m := get in
  let! trade_value := of_res (float_of_int (bt_trade_value t)) in
  let! bar := of_res (bar_after t trade_value volume_delta trade_value_delta (minute_bars m !! key)) in
  write (put_bar key bar).

Fixpoint upsert_bars (t : BrokerPriceTick) (exchange session : string) (volume_delta : Z)
    (trade_value_delta : float) (intervals : list Z) : M unit :=
  match intervals with
  | [] => ret tt
  | interval_sec :: rest =>
      let! _ := _upsert_minute_bar t exchange session volume_delta trade_value_delta interval_sec in
      upsert_bars t exchange session volume_delta trade_value_delta rest
  end.

(** The day in Seoul, and its midnight. *)
Definition seoul_day (t : Z) : Z := (t + 9 * 3600 * usec) / day_usec.
Definition _trade_date_for_timestamp (t : Z) : string := date_isoformat (seoul_day t + epoch_days).
Definition seoul_midnight (day : Z) : Z := day * day_usec - 9 * 3600 * usec.

(** The closes of the regular KRX bars of the latest start before the day. *)
Definition previous_closes (code start : string) (m : market_tables) : list Z :=
  let before (s : string) := match String.compare s start with Lt => true | _ => false end in
  let rows := List.filter
    (fun kb => let '(c, x, s, _, b) := kb.1 in
               String.eqb c code && String.eqb x "KRX" && String.eqb s "REGULAR" && before b)
    (map_to_list (minute_bars m)) in
  let latest (b : string) :=
    forallb (fun kb => match String.compare kb.1.2 b with Gt => false | _ => true end) rows in
  map (fun kb => mb_close kb.2) (List.filter (fun kb => latest kb.1.2) rows).

Definition _previous_krx_close (code : string) (day : Z) (m : market_tables) : option Z :=
  pick (previous_closes code (datetime_to_wire (seoul_midnight day)) m).

Definition _gap_pct (price : Z) (prev_close : option Z) : res (option float) :=
  match prev_close with
  | None => Ok None
  | Some c =>
      if c <=? 0 then Ok None else
      let* p := float_of_int price in
      let* q := float_of_int c in
      Ok (Some (f_mul (f_quot (f_sub p q) q) (f_of_Z 100)))
  end.

Definition _upsert_premarket_snapshot_if_needed (settings : market_settings) (t : BrokerPriceTick)
    (exchange session : string) (e : GatewayEvent) (volume_delta : Z) (trade_value_delta : float)
    : M Z :=
  if negb (market_data_premarket_snapshot_enabled settings) then ret 0
  else if negb (String.eqb exchange "NXT" && String.eqb session "PREMARKET_NXT") then ret 0 else
  let! m := get in
  let day := seoul_day (bt_trade_time t) in
  let trade_date := _trade_date_for_timestamp (bt_trade_time t) in
  let prev_close := _previous_krx_close (bt_code t) day m in
  let! gap := of_res (_gap_pct (bt_price t) prev_close) in
  let trade_time := datetime_to_wire (bt_trade_time t) in
  let volume := Z.max volume_delta 0 in
  let value := f_max trade_value_delta f_zero in
  let '(first_price, first_time, first_id, total, total_value, count) :=
    match premarket_snapshots m !! (trade_date, bt_code t) with
    | None => (bt_price t, trade_time, ge_event_id e, volume, value, 1)
    | Some r => (ps_first_price r, ps_first_trade_time r, ps_first_event_id r,
                 ps_volume r + volume, f_add (ps_trade_value r) value, ps_tick_count r + 1)
    end in
  let! _ := write (put_premarket (trade_date, bt_code t)
    {| ps_name := bt_name t; ps_first_price := first_price; ps_first_trade_time := first_time;
       ps_first_event_id := first_id; ps_last_price := bt_price t;
       ps_last_trade_time := trade_time; ps_last_event_id := ge_event_id e;
       ps_prev_krx_close := prev_close; ps_gap_pct := gap; ps_volume := total;
       ps_trade_value := total_value; ps_tick_count := count |}) in
  ret 1.

Definition _cross_exchange_divergence_bp (krx nxt : option Z) : res (option float) :=
  match krx, nxt with
  | Some k, Some n =>
      if k <=? 0 then Ok None else
      let* x := float_of_int n in
      let* y := float_of_int k in
      Ok (Some (f_mul (f_quot (f_sub x y) y) (f_of_Z 10000)))
  | _, _ => Ok None
  end.

Definition _share (value total : Z) : res (option float) :=
  if total <=? 0 then Ok None else
  let* x := float_of_int value in
  let* y := float_of_int total in Ok (Some (f_quot x y)).

Definition _upsert_cross_exchange_observation_if_needed (t : BrokerPriceTick)
    (exchange session : string) : M Z :=
  if negb (mem exchange ["KRX"; "NXT"] && String.eqb session "REGULAR") then ret 0 else
  let! bucket := of_res (bucket_start_for (bt_trade_time t) 60) in
  let bucket_start := datetime_to_wire bucket in
  let! m := get in
  let bar x := minute_bars m !! (bt_code t, x, "REGULAR", 60, bucket_start) in
  let krx := bar "KRX" in
  let nxt := bar "NXT" in
  match krx, nxt with
  | None, None => ret 0
  | _, _ =>
      let count (b : option minute_bar) := match b with Some b => mb_tick_count b | None => 0 end in
      let volume (b : option minute_bar) := match b with Some b => mb_volume_delta b | None => 0 end in
      let total := volume krx + volume nxt in
      let! divergence := of_res (_cross_exchange_divergence_bp (mb_close <$> krx) (mb_close <$> nxt)) in
      let! krx_share := of_res (_share (volume krx) total) in
      let! nxt_share := of_res (_share (volume nxt) total) in
      let! _ := write (put_cross (bt_code t, bucket_start)
        {| co_krx_last_price := mb_close <$> krx; co_nxt_last_price := mb_close <$> nxt;
           co_divergence_bp := divergence; co_krx_volume := volume krx; co_nxt_volume := volume nxt;
           co_krx_volume_share := krx_share; co_nxt_volume_share := nxt_share;
           co_krx_tick_count := count krx; co_nxt_tick_count := count nxt |}) in
      ret 1
  end.

(** What the tick adds to the totals of the day. *)
Definition tick_deltas (t : BrokerPriceTick) (trade_value : float) (previous : option latest_tick)
    : Z * float :=
  match previous with
  | None => (bt_volume t, trade_value)
  | Some p => (Z.max (bt_volume t - lt_cumulative_volume p) 0,
               f_max (f_sub trade_value (lt_cumulative_trade_value p)) f_zero)
  end.

Definition INVALID_PRICE_TICK_REASON_CODES : list string := ["PRICE_MISSING"].

(** [sorted(set(reason_codes) & INVALID_PRICE_TICK_REASON_CODES)]. *)
Definition invalid_reasons (p : payload) : list string :=
  List.filter (fun r => mem r (_price_tick_payload_reason_codes p)) INVALID_PRICE_TICK_REASON_CODES.

(** The sample of a valid tick, and, unless it is late, everything else. *)
Definition store_tick (log : list logged_event) (now : Z) (settings : market_settings)
    (e : GatewayEvent) (t : BrokerPriceTick) (exchange session : string) (quality : QS.t) : M Z :=
  let '(event_ts, received_at) := _event_store_times log now e in
  let! m := get in
  let! older := of_res (_is_older_than_latest_price_tick log now e m) in
  let! trade_value := of_res (float_of_int (bt_trade_value t)) in
  let '(volume_delta, trade_value_delta) :=
    tick_deltas t trade_value (ticks_latest m !! (bt_code t, exchange)) in
  let! _ :=
    match tick_samples m !! ge_event_id e with Some _ => raise IntegrityError | None => ret tt end in
  let! _ := write (put_sample (ge_event_id e)
    {| ts_code := bt_code t; ts_exchange := exchange; ts_session := session;
       ts_price := bt_price t; ts_cumulative_volume := bt_volume t;
       ts_cumulative_trade_value := trade_value; ts_volume_delta := volume_delta;
       ts_trade_value_delta := trade_value_delta;
       ts_execution_strength := bt_execution_strength t; ts_event_ts := event_ts;
       ts_received_at := received_at; ts_source := ge_source e;
       ts_metadata := default [] (metadata_of (ge_payload e)) |}) in
  if older then ret 1 else
  let! _ := write (put_latest (bt_code t, exchange)
    {| lt_session := session; lt_name := bt_name t; lt_price := bt_price t;
       lt_change_rate := bt_change_rate t; lt_cumulative_volume := bt_volume t;
       lt_cumulative_trade_value := trade_value;
       lt_execution_strength := bt_execution_strength t; lt_best_bid := bt_best_bid t;
       lt_best_ask := bt_best_ask t; lt_spread_ticks := bt_spread_ticks t;
       lt_day_high := bt_day_high t; lt_day_low := bt_day_low t;
       lt_trade_time := datetime_to_wire (bt_trade_time t); lt_event_ts := event_ts;
       lt_received_at := received_at; lt_source := ge_source e; lt_event_id := ge_event_id e;
       lt_quality_status := quality |}) in
  let intervals := market_data_bar_intervals_sec settings in
  let! _ := upsert_bars t exchange session volume_delta trade_value_delta intervals in
  let! premarket := _upsert_premarket_snapshot_if_needed settings t exchange session e
                      volume_delta trade_value_delta in
  let! cross := _upsert_cross_exchange_observation_if_needed t exchange session in
  ret (1 + Z.of_nat (length intervals) + premarket + cross).

Definition _process_price_tick (log : list logged_event) (now : Z) (settings : market_settings)
    (e : GatewayEvent) : M Z :=
  let p := ge_payload e in
  if mem (_price_tick_payload_real_type p) QUOTE_ONLY_REAL_TYPES then ret 0 else
  let! t := of_res (BrokerPriceTick_from_dict now (JObj p)) in
  let! exchange := of_res (_price_tick_payload_exchange p) in
  let! session := of_res (market_session_for_tick (bt_trade_time t) exchange) in
  let quality := assess_price_tick_quality t in
  let reasons := invalid_reasons p in
  if match reasons with [] => bool_decide (quality = QS.INVALID) | _ => true end then
    let what := match reasons with [] => QS.value quality | _ => String.concat "," reasons end in
    let! _ := _record_projection_error e ("INVALID_PRICE_TICK:" +:+ what) in ret 0
  else store_tick log now settings e t exchange session quality.

(** ** Condition events and TR responses *)

Definition _process_condition_event (log : list logged_event) (now : Z) (e : GatewayEvent) : M Z :=
  let! c := of_res (BrokerConditionEvent_from_dict now (JObj (ge_payload e))) in
  let '(event_ts, received_at) := _event_store_times log now e in
  let row := {| cs_condition_id := bc_condition_id c; cs_condition_name := bc_condition_name c;
                cs_code := bc_code c; cs_name := bc_name c; cs_action := bc_action c;
                cs_price := bc_price c; cs_event_ts := event_ts; cs_received_at := received_at;
                cs_source := ge_source e; cs_event_id := ge_event_id e;
                cs_metadata := bc_metadata c |} in
  let! m := get in
  let! _ := match condition_signals m !! ge_event_id e with
            | Some _ => raise IntegrityError | None => ret tt end in
  let! _ := write (put_condition (ge_event_id e) (bc_condition_id c, bc_code c) row) in
  ret 2.

(** [candidate_quote_refresh.py]: the quotes of an answer as ticks. *)
Definition CANDIDATE_QUOTE_REFRESH_SOURCE : string := "candidate_quote_refresh".

Definition is_candidate_quote_refresh_payload (p : payload) : bool :=
  String.prefix (CANDIDATE_QUOTE_REFRESH_SOURCE +:+ ":") (str_or_empty py_repr (jget "request_id" p)) ||
  match metadata_of p with
  | Some m => match jget "source" m with
              | Some (JStr s) => String.eqb s CANDIDATE_QUOTE_REFRESH_SOURCE
              | _ => false end
  | None => false
  end.

Definition row_objects (rows : list json) : list payload :=
  omap (fun r => match r with JObj row => Some row | _ => None end) rows.

Definition _rows_from_payload (p : payload) : list payload :=
  match jget "rows" p with
  | Some (JList rows) => row_objects rows
  | _ => match jget "row" p with Some (JObj row) => [row] | _ => [] end
  end.

Fixpoint _row_text (row : payload) (keys : list string) : string :=
  match keys with
  | [] => EmptyString
  | key :: rest =>
      match get_value row key with
      | None => _row_text row rest
      | Some v =>
          let text := py_strip (py_str py_repr v) in
          if str_true text then text else _row_text row rest
      end
  end.

(** [text.replace(",", "").replace("%", "").replace("+", "").strip()]. *)
Fixpoint drop_marks (s : string) : string :=
  match s with
  | EmptyString => EmptyString
  | String c s' =>
      if existsb (Ascii.eqb c) [","%char; "%"%char; "+"%char] then drop_marks s'
      else String c (drop_marks s')
  end.

Definition _row_float (row : payload) (keys : list string) : float :=
  let text := _row_text row keys in
  if str_true text then default f_zero (read_float (py_strip (drop_marks text))) else f_zero.

Definition _row_int (row : payload) (keys : list string) : res Z :=
  let text := _row_text row keys in
  if str_true text then
    match read_float (py_strip (drop_marks text)) with
    | None => Ok 0
    | Some x =>
        match f_trunc x with
        | Ok n => Ok (Z.abs n)
        | Err (ValueError _) => Ok 0
        | Err e => Err e
        end
    end
  else Ok 0.

(** [normalized[1:]] when it starts with an A and is long enough. *)
Definition without_market_letter (s : string) : string :=
  match s with
  | String "A" rest => if (7 <=? String.length s)%nat then rest else s
  | _ => s
  end.

Definition _row_code (row : payload) : option string :=
  let raw := _row_text row ["종목코드"; "code"; "stock_code"] in
  if str_true raw then
    match validate_stock_code (JStr (without_market_letter (py_strip raw))) "code" with
    | Ok code => Some code
    | Err _ => None
    end
  else None.

(** [x or y] on ints. *)
Definition or_int (x y : Z) : Z := if x =? 0 then y else x.

Definition _tick_payload_from_row (row : payload) (event_ts : string) : res (option payload) :=
  match _row_code row with
  | None => Ok None
  | Some code =>
      let* price := _row_int row ["현재가"; "price"; "current_price"] in
      if price <=? 0 then Ok None else
      let name_text := _row_text row ["종목명"; "name"; "stock_name"] in
      let name := if str_true name_text then name_text else code in
      let* volume := _row_int row ["거래량"; "volume"; "accumulated_volume"] in
      let* trade_value := _row_int row ["거래대금"; "trade_value"; "accumulated_trade_value"] in
      let* high := _row_int row ["고가"; "high"; "day_high"] in
      let* low := _row_int row ["저가"; "low"; "day_low"] in
      let day_high := or_int high price in
      let day_low := or_int low price in
      let strength := _row_float row ["체결강도"; "execution_strength"] in
      let* best_bid := _row_int row ["매수호가"; "best_bid"] in
      let* best_ask := _row_int row ["매도호가"; "best_ask"] in
      let* spread := _row_int row ["spread_ticks"] in
      let* ts := parse_timestamp (JStr event_ts) "event_ts" in
      Ok (Some
        [("code", JStr code); ("name", JStr name); ("price", JInt price);
         ("change_rate", JFloat (_row_float row ["등락율"; "등락률"; "change_rate"]));
         ("volume", JInt (Z.max volume 0)); ("trade_value", JInt (Z.max trade_value 0));
         ("execution_strength", JFloat (if f_is_zero strength then f_of_Z 100 else strength));
         ("best_bid", JInt (or_int best_bid price)); ("best_ask", JInt (or_int best_ask price));
         ("spread_ticks", JInt spread);
         ("day_high", JInt (Z.max (Z.max day_high day_low) price));
         ("day_low", JInt (Z.min (Z.min day_high day_low) price));
         ("trade_time", JStr (datetime_to_wire ts)); ("ts", JStr (datetime_to_wire ts));
         ("metadata", JObj
           [("source", JStr CANDIDATE_QUOTE_REFRESH_SOURCE); ("snapshot_only", JBool true);
            ("reason_codes", JList [JStr "CANDIDATE_QUOTE_REFRESH_TR_RESPONSE"])])])
  end.

Fixpoint tick_payloads (rows : list payload) (event_ts : string) : res (list payload) :=
  match rows with
  | [] => Ok []
  | row :: rest =>
      let* tick := _tick_payload_from_row row event_ts in
      let* ticks := tick_payloads rest event_ts in
      Ok (match tick with Some t => t :: ticks | None => ticks end)
  end.

Definition candidate_quote_refresh_tick_payloads_from_tr_response (p : payload) (event_ts : string)
    : res (list payload) :=
  if is_candidate_quote_refresh_payload p then tick_payloads (_rows_from_payload p) event_ts else Ok [].

(** The rows of the payload with their indices, each turned into its ticks. *)
Fixpoint indexed_tick_payloads (p : payload) (event_ts : string) (row_index : Z) (rows : list json)
    : res (list (Z * payload)) :=
  match rows with
  | [] => Ok []
  | JObj row :: rest =>
      let single := dict_pop "row" (dict_update p [("rows", JList [JObj row])]) in
      let* ticks := candidate_quote_refresh_tick_payloads_from_tr_response single event_ts in
      let* later := indexed_tick_payloads p event_ts (row_index + 1) rest in
      Ok (map (fun t => (row_index, t)) ticks ++ later)
  | _ :: rest => indexed_tick_payloads p event_ts (row_index + 1) rest
  end.

Definition _candidate_quote_refresh_tick_payloads_with_row_index (p : payload) (event_ts : string)
    : res (list (Z * payload)) :=
  let rows := match jget "rows" p with
              | Some (JList rows) => rows
              | _ => match jget "row" p with Some (JObj row) => [JObj row] | _ => [] end
              end in
  indexed_tick_payloads p event_ts 0 rows.

Definition _synthetic_price_tick_event_id (parent_event_id : string) (row_index : Z)
    (code exchange : string) : res string :=
  let* c := validate_stock_code (JStr code) "code" in
  let* x := normalize_market_data_exchange (Some (JStr exchange)) in
  Ok (parent_event_id +:+ ":synthetic_price_tick:" +:+ pretty row_index +:+ ":" +:+ c +:+ ":" +:+ x).

Definition opt_text (o : option string) : json := match o with Some s => JStr s | None => JNull end.

Definition _with_synthetic_price_tick_metadata (p : payload) (parent : GatewayEvent)
    (response : BrokerTrResponse) (row_index : Z) : payload :=
  dict_update p
    [("metadata", JObj (dict_update (default [] (metadata_of p))
       [("parent_event_id", JStr (ge_event_id parent));
        ("parent_command_id", opt_text (ge_command_id parent));
        ("parent_tr_code", JStr (tp_tr_code response));
        ("parent_request_name", JStr (tp_request_name response));
        ("synthetic_event", JBool true); ("row_index", JInt row_index)]))].

Fixpoint insert_tr_rows (e : GatewayEvent) (r : BrokerTrResponse) (event_ts received_at : string)
    (rows : list payload) : M unit :=
  match rows with
  | [] => ret tt
  | row :: rest =>
      let! _ := write (put_tr
        {| tr_event_id := ge_event_id e; tr_request_id := tp_request_id r;
           tr_tr_code := tp_tr_code r; tr_request_name := tp_request_name r;
           tr_code := _extract_row_code row; tr_row := row; tr_event_ts := event_ts;
           tr_received_at := received_at; tr_source := ge_source e |}) in
      insert_tr_rows e r event_ts received_at rest
  end.

Definition process_synthetic (log : list logged_event) (now : Z) (settings : market_settings)
    (e : GatewayEvent) (r : BrokerTrResponse) (event_ts : string) (row_index : Z) (tick : payload)
    : M Z :=
  let! t := of_res (BrokerPriceTick_from_dict now (JObj tick)) in
  let! exchange := of_res (_price_tick_payload_exchange tick) in
  let! child := of_res (_synthetic_price_tick_event_id (ge_event_id e) row_index (bt_code t) exchange) in
  let! m := get in
  if _projection_exists "price_tick" child m then ret 0 else
  let! ts := of_res (parse_timestamp (JStr event_ts) "event_ts") in
  let! tick_event := of_res (GatewayEvent_post_init
    {| ge_event_type := "price_tick";
       ge_payload := _with_synthetic_price_tick_metadata tick e r row_index;
       ge_event_id := child; ge_source := ge_source e; ge_ts := ts;
       ge_command_id := ge_command_id e; ge_idempotency_key := ge_idempotency_key e |}) in
  _process_price_tick log now settings tick_event.

Fixpoint process_synthetics (log : list logged_event) (now : Z) (settings : market_settings)
    (e : GatewayEvent) (r : BrokerTrResponse) (event_ts : string) (ticks : list (Z * payload)) : M Z :=
  match ticks with
  | [] => ret 0
  | (row_index, tick) :: rest =>
      let! n := process_synthetic log now settings e r event_ts row_index tick in
      let! k := process_synthetics log now settings e r event_ts rest in ret (n + k)
  end.

Definition _process_tr_response (log : list logged_event) (now : Z) (settings : market_settings)
    (e : GatewayEvent) : M Z :=
  let! r := of_res (BrokerTrResponse_from_dict now (JObj (ge_payload e))) in
  let '(event_ts, received_at) := _event_store_times log now e in
  let! _ := insert_tr_rows e r event_ts received_at (tp_rows r) in
  let! ticks := of_res (_candidate_quote_refresh_tick_payloads_with_row_index (ge_payload e) event_ts) in
  let! n := process_synthetics log now settings e r event_ts ticks in
  ret (Z.of_nat (length (tp_rows r)) + n).

(** ** The handler *)

Record MarketDataProcessResult := {
  mr_status : string;
  mr_applied_count : Z;
  mr_ignored_count : Z;
  mr_error_count : Z;
  mr_error_message : option string
}.

Definition ignored_as (status : string) : MarketDataProcessResult :=
  {| mr_status := status; mr_applied_count := 0; mr_ignored_count := 1; mr_error_count := 0;
     mr_error_message := None |}.

(** The tables, and the log and progress of every projection. *)
Record market_db := { md_tables : market_tables; md_projections : projections }.

Definition progress (f : projections -> res projections) : SE market_db unit :=
  fun db => match f (md_projections db) with
            | Ok p => ({| md_tables := md_tables db; md_projections := p |}, Ok tt)
            | Err e => (db, Err e)
            end.
Definition on_tables {A} (m : M A) : SE market_db A :=
  fun db => let (t, r) := m (md_tables db) in
            ({| md_tables := t; md_projections := md_projections db |}, r).
(** [connection.rollback()] before [handle]. *)
Definition rolled_back {A} (m : SE market_db A) (handle : exn -> SE market_db A) : SE market_db A :=
  fun db => match m db with (db', Ok a) => (db', Ok a) | (_, Err e) => handle e db end.

Definition result_of (e : GatewayEvent) (status : ResultStatus.t) (outcome : string)
    (error_message : option string) : result_call :=
  {| rc_projection_name := "market_data"; rc_event_id := ge_event_id e; rc_status := status;
     rc_outcome := outcome; rc_event_rowid := None; rc_event_type := None;
     rc_event_received_at := None; rc_error_message := error_message;
     rc_metadata := [("event_type", JStr (py_lower (py_strip (ge_event_type e))))] |}.

Definition MARKET_DATA_EVENT_TYPES : list string := ["price_tick"; "condition_event"; "tr_response"].

Definition _advance_market_data_watermark_for_event (e : GatewayEvent) (now : Z) (p : projections)
    : res projections :=
  let event_type := py_lower (py_strip (ge_event_type e)) in
  if negb (mem event_type MARKET_DATA_EVENT_TYPES) then Ok p else
  match find_event (ge_event_id e) (pr_log p) with
  | None => Ok p
  | Some row =>
      advance_projection_watermark "market_data" (le_rowid row) (Some (ge_event_id e))
        (Some (le_received_at row)) [("event_type", JStr event_type)] (datetime_to_wire now) p
  end.

Definition _with_market_data_watermark (e : GatewayEvent) (now : Z) (r : MarketDataProcessResult)
    : SE market_db MarketDataProcessResult :=
  let! _ := progress (record_projection_event_result
              (result_of e ResultStatus.SUCCESS (mr_status r) None) (datetime_to_wire now)) in
  let! _ := progress (_advance_market_data_watermark_for_event e now) in
  ret r.

(** The rows of the event, and the results they are recorded under. *)
Definition project_event (log : list logged_event) (settings : market_settings) (e : GatewayEvent)
    (now : Z) : SE market_db Z :=
  let event_type := py_lower (py_strip (ge_event_type e)) in
  let wire := datetime_to_wire now in
  let! applied := on_tables
    (if String.eqb event_type "price_tick" then _process_price_tick log now settings e
     else if String.eqb event_type "condition_event" then _process_condition_event log now e
     else _process_tr_response log now settings e) in
  let! db := get in
  let! _ :=
    match _projection_error_message (ge_event_id e) (md_tables db) with
    | None =>
        let outcome := if applied =? 0 then "IGNORED" else "APPLIED" in
        let! _ := progress (record_projection_event_result
                    (result_of e ResultStatus.SUCCESS outcome None) wire) in
        progress (_advance_market_data_watermark_for_event e now)
    | Some message =>
        progress (record_projection_event_result
          (result_of e ResultStatus.ERROR "INLINE_PROJECTION_ERROR" (Some message)) wire)
    end in
  ret applied.

Definition process_gateway_event (settings : market_settings) (commit : bool) (e : GatewayEvent)
    (now : Z) : SE market_db MarketDataProcessResult :=
  let event_type := py_lower (py_strip (ge_event_type e)) in
  if negb (market_data_enabled settings) then ret (ignored_as "DISABLED")
  else if negb (mem event_type MARKET_DATA_EVENT_TYPES) then ret (ignored_as "IGNORED") else
  let! db := get in
  if _projection_exists event_type (ge_event_id e) (md_tables db)
  then _with_market_data_watermark e now (ignored_as "DUPLICATE") else
  let done applied :=
    if String.eqb event_type "price_tick" && (applied =? 0) then ignored_as "IGNORED"
    else {| mr_status := "APPLIED"; mr_applied_count := applied; mr_ignored_count := 0;
            mr_error_count := 0; mr_error_message := None |} in
  let body := let! applied := project_event (pr_log (md_projections db)) settings e now in
              ret (done applied) in
  if negb commit then body else
  rolled_back body (fun exc =>
    let! _ := on_tables (_record_projection_error e (exn_text exc)) in
    let! _ := progress (record_projection_event_result
                (result_of e ResultStatus.ERROR "INLINE_PROJECTION_EXCEPTION" (Some (exn_text exc)))
                (datetime_to_wire now)) in
    ret {| mr_status := "ERROR"; mr_applied_count := 0; mr_ignored_count := 0; mr_error_count := 1;
           mr_error_message := Some (exn_text exc) |}).

(** ** Replay *)

Definition clear_market_data_projection : SE market_db unit :=
  let! _ := on_tables (write (fun _ => empty_tables)) in
  progress (reset_projection_watermark "market_data").

Definition _list_replayable_gateway_events (limit : option Z) (after_event_rowid : Z)
    (log : list logged_event) : list logged_event :=
  let rows := List.filter
    (fun e => String.eqb (le_status e) "ACCEPTED" && mem (le_event_type e) MARKET_DATA_EVENT_TYPES &&
              (Z.max after_event_rowid 0 <? le_rowid e)) log in
  match limit with Some n => take (Z.to_nat (Z.max n 1)) rows | None => rows end.

Definition event_of_row (row : logged_event) : res GatewayEvent :=
  let* ts := parse_timestamp (JStr (le_event_ts row)) "event_ts" in
  GatewayEvent_post_init
    {| ge_event_type := le_event_type row; ge_payload := le_payload row;
       ge_event_id := le_event_id row; ge_source := le_source row; ge_ts := ts;
       ge_command_id := le_command_id row; ge_idempotency_key := le_idempotency_key row |}.

(** The clock of the [n]th event replayed is [now n]. *)
Fixpoint replay (settings : market_settings) (now : nat -> Z) (n : nat) (rows : list logged_event)
    : SE market_db (list MarketDataProcessResult) :=
  match rows with
  | [] => ret []
  | row :: rest =>
      let! e := of_res (event_of_row row) in
      let! r := process_gateway_event settings true e (now n) in
      let! rs := replay settings now (S n) rest in ret (r :: rs)
  end.

Record MarketDataRebuildResult := {
  rb_processed_count : Z;
  rb_applied_count : Z;
  rb_ignored_count : Z;
  rb_error_count : Z;
  rb_from_event_rowid : Z;
  rb_last_event_rowid : Z
}.

Definition sum_of {A} (f : A -> Z) (l : list A) : Z := fold_right (fun x n => f x + n) 0 l.

Definition rebuild_market_data_projection (settings : market_settings)
    (clear_projection require_clear incremental : bool) (limit : option Z) (now : nat -> Z)
    : SE market_db MarketDataRebuildResult :=
  if clear_projection && negb require_clear
  then raise (ValueError "clear_projection requires require_clear=True")
  else if clear_projection && incremental
  then raise (ValueError "incremental rebuild cannot clear projection") else
  let! _ := if clear_projection then clear_market_data_projection else ret tt in
  let! db := get in
  let start := if incremental then last_event_rowid "market_data" (md_projections db) else 0 in
  let rows := _list_replayable_gateway_events limit start (pr_log (md_projections db)) in
  let! rs := replay settings now 0 rows in
  let! db' := get in
  ret {| rb_processed_count := Z.of_nat (length rows);
         rb_applied_count := sum_of mr_applied_count rs;
         rb_ignored_count := sum_of mr_ignored_count rs;
         rb_error_count := sum_of mr_error_count rs;
         rb_from_event_rowid := start;
         rb_last_event_rowid := last_event_rowid "market_data" (md_projections db') |}.
End MarketData.
