(* ===== verification/MarketHistory.v ===== *)
(** * Histories of the market-data projection

    Bars: well formed, in agreement across their intervals and with the day's
    cumulative volume, at the bucket of their tick.  Replay: the tables rebuilt from
    the event log are the ones the events were projected into as they came. *)
From S2P Require Import Prelude PyFloat FloatRound BrokerUtils WireTime GatewayModels LiveSimModels BrokerMessages EventStore ProjectionWatermarks MarketData.
Local Open Scope Z_scope.

(** ** The route

    An event as the route receives it: appended to the log with its
    classification, projected when it is accepted and new. *)
Definition log_row (e : GatewayEvent) (rowid received_at : Z) (status : string) : logged_event :=
  {| le_rowid := rowid; le_event_id := ge_event_id e;
     le_event_type := py_lower (py_strip (ge_event_type e)); le_source := ge_source e;
     le_command_id := ge_command_id e; le_idempotency_key := ge_idempotency_key e;
     le_event_ts := datetime_to_wire (ge_ts e); le_received_at := datetime_to_wire received_at;
     le_payload := ge_payload e; le_status := status |}.

Definition append_log (row : logged_event) : SE market_db unit :=
  progress (fun p => Ok {| pr_log := pr_log p ++ [row]; pr_watermarks := pr_watermarks p;
                           pr_results := pr_results p |}).

Section Route.
Context (py_repr : json -> string) (pick : list Z -> option Z) (settings : market_settings).

Definition receive (e : GatewayEvent) (now : Z) : SE market_db unit :=
  let event_type := py_lower (py_strip (ge_event_type e)) in
  let! db := get in
  let log := pr_log (md_projections db) in
  match find_event (ge_event_id e) log with
  | Some _ => ret tt
  | None =>
      let! (status, _) := of_res (_classify_event event_type now (ge_payload e)) in
      let! _ := append_log (log_row e (Z.of_nat (length log) + 1) now status) in
      if String.eqb status "ACCEPTED" && mem event_type MARKET_DATA_EVENT_TYPES then
        let! _ := process_gateway_event py_repr pick settings true e now in ret tt
      else ret tt
  end.

Fixpoint receive_all (events : list (GatewayEvent * Z)) : SE market_db unit :=
  match events with
  | [] => ret tt
  | (e, now) :: rest => let! _ := receive e now in receive_all rest
  end.
End Route.

Definition empty_market_db : market_db :=
  {| md_tables := empty_tables; md_projections := fresh_projections [] |}.

(** ** Sums over the bars *)

Section MapSum.
Context {K V : Type} `{EqDecision K} `{!Countable K} (f : K -> V -> Z).

Definition map_sum (m : gmap K V) : Z := map_fold (fun k v n => f k v + n) 0 m.

Lemma map_sum_empty : map_sum ∅ = 0.
Proof. apply map_fold_empty. Qed.

Lemma map_sum_insert m k v :
  map_sum (<[k := v]> m) = map_sum m - from_option (f k) 0 (m !! k) + f k v.
Proof.
  unfold map_sum.
  assert (Hins : forall m, m !! k = None -> map_fold (fun k v n => f k v + n) 0 (<[k := v]> m) =
    f k v + map_fold (fun k v n => f k v + n) 0 m).
  { intros m' H. rewrite map_fold_insert_L; [done| |done]. intros. lia. }
  destruct (m !! k) as [v0|] eqn:E; simpl.
  - rewrite <- insert_delete_eq. rewrite Hins by apply lookup_delete_eq.
    rewrite <- (insert_id m k v0 E) at 2. rewrite <- (insert_delete_eq m k v0).
    rewrite (map_fold_insert_L _ _ k v0 (base.delete k m)); [lia| |apply lookup_delete_eq].
    intros. lia.
  - rewrite Hins by done. lia.
Qed.
End MapSum.

(** The bars of one code and exchange at one interval. *)
Definition of_series (code exchange : string) (interval : Z) (k : bar_key) : bool :=
  let '(c, x, _, i, _) := k in String.eqb c code && String.eqb x exchange && (i =? interval).

Definition bar_volume (code exchange : string) (interval : Z) (m : market_tables) : Z :=
  map_sum (fun k b => if of_series code exchange interval k then mb_volume_delta b else 0)
    (minute_bars m).
Definition bar_ticks (code exchange : string) (interval : Z) (m : market_tables) : Z :=
  map_sum (fun k b => if of_series code exchange interval k then mb_tick_count b else 0)
    (minute_bars m).

Definition bar_ok (b : minute_bar) : Prop :=
  mb_low b <= mb_open b <= mb_high b /\ mb_low b <= mb_close b <= mb_high b /\
  1 <= mb_low b /\ 1 <= mb_tick_count b /\ 0 <= mb_volume_delta b.

(** The day's volume in the bars of every configured interval. *)
Record bars_agree (settings : market_settings) (m : market_tables) : Prop := {
  ba_bars : map_Forall (fun _ b => bar_ok b) (minute_bars m);
  ba_same : forall code exchange i j,
    i ∈ market_data_bar_intervals_sec settings -> j ∈ market_data_bar_intervals_sec settings ->
    bar_volume code exchange i m = bar_volume code exchange j m /\
    bar_ticks code exchange i m = bar_ticks code exchange j m;
  ba_cumulative : forall code exchange t i,
    i ∈ market_data_bar_intervals_sec settings -> ticks_latest m !! (code, exchange) = Some t ->
    0 <= lt_cumulative_volume t <= bar_volume code exchange i m
}.

(** ** One bar *)

Lemma write_spec (f : market_tables -> market_tables) m m' r : write f m = (m', r) -> m' = f m /\ r = Ok tt.
Proof. intros [= <- <-]. done. Qed.

Lemma bar_after_ok t value dv dt existing b :
  1 <= bt_price t -> 0 <= dv -> (forall b0, existing = Some b0 -> bar_ok b0) ->
  bar_after t value dv dt existing = Ok b ->
  bar_ok b /\
  mb_volume_delta b = from_option mb_volume_delta 0 existing + dv /\
  mb_tick_count b = from_option mb_tick_count 0 existing + 1.
Proof.
  intros Hp Hv He. unfold bar_after, bar_ok. destruct existing as [b0|]; intros H; res_inv H;
    injection H as <-; simpl.
  - destruct (He b0 eq_refl) as (? & ? & ? & ? & ?). lia.
  - lia.
Qed.

Section Series.
Context (code exchange : string) (interval : Z).

Lemma series_same session bucket :
  of_series code exchange interval (code, exchange, session, interval, bucket) = true.
Proof. simpl. by rewrite !String.eqb_refl, Z.eqb_refl. Qed.

Lemma series_iff c x s i b :
  of_series code exchange interval (c, x, s, i, b) = true <-> c = code /\ x = exchange /\ i = interval.
Proof. simpl. rewrite !andb_true_iff, !String.eqb_eq, Z.eqb_eq. tauto. Qed.
End Series.

(** What a put bar does to the sums. *)
Lemma put_bar_volume key b m code exchange i :
  bar_volume code exchange i (put_bar key b m) = bar_volume code exchange i m +
    (if of_series code exchange i key
     then mb_volume_delta b - from_option mb_volume_delta 0 (minute_bars m !! key) else 0).
Proof.
  unfold bar_volume. simpl. rewrite map_sum_insert.
  destruct (minute_bars m !! key); simpl; destruct (of_series _ _ _ _); lia.
Qed.

Lemma put_bar_ticks key b m code exchange i :
  bar_ticks code exchange i (put_bar key b m) = bar_ticks code exchange i m +
    (if of_series code exchange i key
     then mb_tick_count b - from_option mb_tick_count 0 (minute_bars m !! key) else 0).
Proof.
  unfold bar_ticks. simpl. rewrite map_sum_insert.
  destruct (minute_bars m !! key); simpl; destruct (of_series _ _ _ _); lia.
Qed.

Lemma map_sum_nonneg {K V} `{EqDecision K} `{!Countable K} (f : K -> V -> Z) (m : gmap K V) :
  map_Forall (fun k v => 0 <= f k v) m -> 0 <= map_sum f m.
Proof.
  induction m as [|k v m Hk IH] using map_ind.
  - rewrite map_sum_empty. lia.
  - rewrite map_sum_insert, Hk. simpl. intros [Hv Hm]%map_Forall_insert; [|done].
    specialize (IH Hm). lia.
Qed.

Lemma bar_volume_nonneg code exchange i m :
  map_Forall (fun _ b => bar_ok b) (minute_bars m) -> 0 <= bar_volume code exchange i m.
Proof.
  intros H. apply map_sum_nonneg. intros k b Hb. specialize (H k b Hb). cbn beta in *.
  destruct (of_series _ _ _ _); [|lia]. by destruct H as (_ & _ & _ & _ & H).
Qed.

(** ** All the bars of a tick *)

(** The sums of [m'] are those of [m] and the tick's, for the code, the exchange
    and the intervals [ivs]. *)
Definition added (code exchange : string) (ivs : list Z) (dv : Z) (m m' : market_tables) : Prop :=
  ticks_latest m' = ticks_latest m /\
  map_Forall (fun _ b => bar_ok b) (minute_bars m') /\
  forall c x i,
    let hit := bool_decide (c = code /\ x = exchange /\ i ∈ ivs) in
    bar_volume c x i m' = bar_volume c x i m + (if hit then dv else 0) /\
    bar_ticks c x i m' = bar_ticks c x i m + (if hit then 1 else 0).

Lemma upsert_one t exchange session dv dt i m m' :
  1 <= bt_price t -> 0 <= dv -> map_Forall (fun _ b => bar_ok b) (minute_bars m) ->
  _upsert_minute_bar t exchange session dv dt i m = (m', Ok tt) ->
  added (bt_code t) exchange [i] dv m m'.
Proof.
  intros Hp Hv Hm H. unfold _upsert_minute_bar in H.
  apply bind_ok in H as (m1 & bucket & [Hb ->]%of_res_ok & H).
  apply bind_ok in H as (m2 & m0 & [= <- <-] & H).
  apply bind_ok in H as (m3 & value & [Hvalue ->]%of_res_ok & H).
  apply bind_ok in H as (m4 & b & [Hbar ->]%of_res_ok & H).
  injection H as <-.
  set (key := (bt_code t, exchange, session, i, datetime_to_wire bucket)) in *.
  apply bar_after_ok in Hbar as (Hok & Hdv & Hn); [|done..|].
  2:{ intros b0 H0. by apply (Hm key). }
  split_and!; [done| |].
  - simpl. by apply map_Forall_insert_2.
  - intros c x j. cbv zeta. rewrite put_bar_volume, put_bar_ticks, Hdv, Hn.
    destruct (of_series c x j key) eqn:E.
    + apply series_iff in E as (<- & <- & <-).
      rewrite bool_decide_eq_true_2 by (by rewrite list_elem_of_singleton). unfold bar_key in *. lia.
    + unfold bar_key in *. rewrite bool_decide_eq_false_2; [lia|]. rewrite list_elem_of_singleton.
      intros (-> & -> & ->). unfold key in E. by rewrite series_same in E.
Qed.

Lemma upsert_bars_added t exchange session dv dt ivs m m' :
  1 <= bt_price t -> 0 <= dv -> NoDup ivs -> map_Forall (fun _ b => bar_ok b) (minute_bars m) ->
  upsert_bars t exchange session dv dt ivs m = (m', Ok tt) ->
  added (bt_code t) exchange ivs dv m m'.
Proof.
  intros Hp Hv Hd. revert m. induction Hd as [|i ivs Hi _ IH]; intros m Hm; simpl.
  { intros [= <-]. split_and!; [done..|]. intros c x i. cbv zeta. rewrite bool_decide_eq_false_2; [lia|].
    intros (_ & _ & H). by apply not_elem_of_nil in H. }
  intros H. apply bind_ok in H as (m1 & [] & H1 & H).
  apply upsert_one in H1 as (Hl1 & Hb1 & Hs1); [|done..].
  destruct (IH m1 Hb1 H) as (Hl2 & Hb2 & Hs2). split_and!; [congruence|done|].
  intros c x j. cbv zeta. destruct (Hs1 c x j) as [V1 T1]. destruct (Hs2 c x j) as [V2 T2]. cbv zeta in *.
  rewrite V2, T2, V1, T1. clear -Hi.
  destruct (decide (c = bt_code t /\ x = exchange)) as [[-> ->]|Hn].
  - destruct (decide (j = i)) as [->|Hj].
    + rewrite (bool_decide_eq_true_2 (_ /\ _ /\ i ∈ [i])) by (by rewrite list_elem_of_singleton).
      rewrite (bool_decide_eq_false_2 (_ /\ _ /\ i ∈ ivs)) by tauto.
      rewrite bool_decide_eq_true_2 by (rewrite elem_of_cons; tauto). lia.
    + rewrite (bool_decide_eq_false_2 (_ /\ _ /\ j ∈ [i])) by (rewrite list_elem_of_singleton; tauto).
      rewrite (bool_decide_ext (_ /\ _ /\ j ∈ i :: ivs) (bt_code t = bt_code t /\ exchange = exchange /\ j ∈ ivs))
        by (rewrite elem_of_cons; tauto). lia.
  - rewrite !bool_decide_eq_false_2 by tauto. lia.
Qed.

(** ** The whole tick *)

(** A step that leaves the bars and the latest ticks. *)
Definition same_bars (m m' : market_tables) : Prop :=
  minute_bars m' = minute_bars m /\ ticks_latest m' = ticks_latest m.

Lemma same_bars_agree settings m m' : same_bars m m' -> bars_agree settings m -> bars_agree settings m'.
Proof.
  intros [Hb Hl] [H1 H2 H3]. split; unfold bar_volume, bar_ticks in *; rewrite Hb, ?Hl; done.
Qed.

Lemma agree_same settings {A} (c : SE market_tables A) :
  (forall m, same_bars m (c m).1) ->
  triple (bars_agree settings) c (fun _ => bars_agree settings) (bars_agree settings).
Proof.
  intros H m m' r Hm E. specialize (H m). rewrite E in H. simpl in H.
  destruct r; by eapply same_bars_agree.
Qed.

Lemma agree_write settings (f : market_tables -> market_tables) :
  (forall m, same_bars m (f m)) ->
  triple (bars_agree settings) (write f) (fun _ => bars_agree settings) (bars_agree settings).
Proof. intros H. by apply agree_same. Qed.

Lemma valid_quality t :
  assess_price_tick_quality t <> QS.INVALID -> 1 <= bt_price t /\ 0 <= bt_volume t.
Proof.
  unfold assess_price_tick_quality. destruct (Z.leb_spec (bt_price t) 1); [done|].
  destruct (Z.ltb_spec (bt_volume t) 0); [done|]. lia.
Qed.

Section Tick.
Context (py_repr : json -> string) (pick : list Z -> option Z) (settings : market_settings).
Context (Hivs : NoDup (market_data_bar_intervals_sec settings)).

Lemma premarket_same t exchange session e dv dt m :
  same_bars m (_upsert_premarket_snapshot_if_needed pick settings t exchange session e dv dt m).1.
Proof.
  unfold _upsert_premarket_snapshot_if_needed.
  destruct (negb _); [done|]. destruct (negb _); [done|]. unfold bind, get, of_res, write, ret.
  destruct (_gap_pct _ _); [|done].
  by destruct (premarket_snapshots m !! _).
Qed.

Lemma cross_same t exchange session m :
  same_bars m (_upsert_cross_exchange_observation_if_needed t exchange session m).1.
Proof.
  unfold _upsert_cross_exchange_observation_if_needed. destruct (negb _); [done|].
  unfold bind, get, of_res, write, ret. destruct (bucket_start_for _ _) as [b|]; [|done].
  destruct (minute_bars m !! (_, "KRX", _, _, _)), (minute_bars m !! (_, "NXT", _, _, _)); try done;
    repeat (destruct (_cross_exchange_divergence_bp _ _); [|done]);
    do 2 (destruct (_share _ _); [|done]); done.
Qed.

Lemma latest_agree t exchange l dv m m' :
  bars_agree settings m -> 0 <= bt_volume t ->
  dv = match ticks_latest m !! (bt_code t, exchange) with
       | None => bt_volume t | Some p => Z.max (bt_volume t - lt_cumulative_volume p) 0 end ->
  lt_cumulative_volume l = bt_volume t ->
  added (bt_code t) exchange (market_data_bar_intervals_sec settings) dv
    (put_latest (bt_code t, exchange) l m) m' ->
  bars_agree settings m'.
Proof.
  intros [H1 H2 H3] Hv Hdv Hl (Hlatest & Hb & Hs). cbv zeta in Hs.
  change (bar_volume ?c ?x ?i (put_latest ?k ?v m)) with (bar_volume c x i m) in Hs.
  split; [done| |].
  - intros c x i j Hi Hj. destruct (H2 c x i j Hi Hj) as [V T].
    destruct (Hs c x i) as [Vi Ti], (Hs c x j) as [Vj Tj].
    change (bar_volume c x ?i (put_latest _ _ m)) with (bar_volume c x i m) in *.
    change (bar_ticks c x ?i (put_latest _ _ m)) with (bar_ticks c x i m) in *.
    rewrite Vi, Vj, Ti, Tj, V, T.
    rewrite (bool_decide_ext (_ /\ _ /\ i ∈ _) (c = bt_code t /\ x = exchange /\ j ∈ market_data_bar_intervals_sec settings))
      by tauto. done.
  - intros c x p i Hi Hp. destruct (Hs c x i) as [Vi _].
    change (bar_volume c x i (put_latest _ _ m)) with (bar_volume c x i m) in Vi.
    rewrite Vi. rewrite Hlatest in Hp. simpl in Hp.
    destruct (decide (c = bt_code t /\ x = exchange)) as [[-> ->]|Hn].
    + rewrite lookup_insert_eq in Hp. injection Hp as <-. rewrite Hl.
      rewrite bool_decide_eq_true_2 by done.
      destruct (ticks_latest m !! (bt_code t, exchange)) as [p0|] eqn:E.
      * specialize (H3 _ _ _ i Hi E). lia.
      * pose proof (bar_volume_nonneg (bt_code t) exchange i m H1). lia.
    + rewrite lookup_insert_ne in Hp by (intros E; apply Hn; injection E; auto). specialize (H3 c x p i Hi Hp).
      rewrite bool_decide_eq_false_2 by tauto. lia.
Qed.

Lemma store_tick_agree log now e t exchange session q m m' n :
  1 <= bt_price t -> 0 <= bt_volume t -> bars_agree settings m ->
  store_tick py_repr pick log now settings e t exchange session q m = (m', Ok n) ->
  bars_agree settings m'.
Proof.
  intros Hp Hv Hm H. unfold store_tick in H.
  destruct (_event_store_times _ _ _ _) as [event_ts received_at].
  apply bind_ok in H as (m1 & m0 & [= <- <-] & H).
  apply bind_ok in H as (m1 & older & [_ ->]%of_res_ok & H).
  apply bind_ok in H as (m1 & value & [_ ->]%of_res_ok & H).
  destruct (tick_deltas _ _ _) as [dv dt] eqn:Hd.
  apply bind_ok in H as (m1 & [] & Hs & H).
  destruct (tick_samples m !! _); [done|]. injection Hs as <-.
  apply bind_ok in H as (m2 & [] & [= <-] & H).
  destruct older.
  { injection H as <- _. by apply (same_bars_agree _ m). }
  apply bind_ok in H as (m3 & [] & [= <-] & H).
  apply bind_ok in H as (m4 & [] & Hbars & H).
  apply bind_ok in H as (m5 & a & Hpre & H).
  apply bind_ok in H as (m6 & b & Hcross & [= <- _]).
  pose proof (cross_same t exchange session m5) as C. rewrite Hcross in C.
  eapply same_bars_agree; [exact C|].
  pose proof (premarket_same t exchange session e dv dt m4) as P. rewrite Hpre in P.
  eapply same_bars_agree; [exact P|].
  assert (Hdv : dv = match ticks_latest m !! (bt_code t, exchange) with
       | None => bt_volume t | Some p => Z.max (bt_volume t - lt_cumulative_volume p) 0 end).
  { unfold tick_deltas in Hd. destruct (ticks_latest m !! _); by injection Hd as <- _. }
  apply upsert_bars_added in Hbars; [|done| |done|].
  - eapply (latest_agree t exchange); [|done|exact Hdv| |exact Hbars]; [|done].
    by apply (same_bars_agree _ m).
  - rewrite Hdv. destruct (ticks_latest m !! _); lia.
  - apply Hm.
Qed.

Lemma tick_agree log now e m m' n :
  bars_agree settings m -> _process_price_tick py_repr pick log now settings e m = (m', Ok n) ->
  bars_agree settings m'.
Proof.
  intros Hm H. unfold _process_price_tick in H.
  destruct (mem _ _); [by injection H as <- _|].
  apply bind_ok in H as (m1 & t & [_ ->]%of_res_ok & H).
  apply bind_ok in H as (m1 & exchange & [_ ->]%of_res_ok & H).
  apply bind_ok in H as (m1 & session & [_ ->]%of_res_ok & H).
  destruct (match invalid_reasons _ _ with [] => _ | _ => true end) eqn:Hinv.
  { apply bind_ok in H as (m1 & [] & [= <-] & [= <- _]). by apply (same_bars_agree _ m). }
  destruct (invalid_reasons _ _); [|done]. apply bool_decide_eq_false_1 in Hinv.
  apply valid_quality in Hinv as [Hp Hv]. by eapply store_tick_agree.
Qed.
End Tick.

(** ** Every operation *)

Section Safe.
Context (py_repr : json -> string) (pick : list Z -> option Z) (settings : market_settings).
Context (Hivs : NoDup (market_data_bar_intervals_sec settings)).

Definition good_db (db : market_db) : Prop := bars_agree settings (md_tables db).

(** Whether it raises or not. *)
Definition safe {A} (m : SE market_db A) : Prop := triple good_db m (fun _ => good_db) good_db.

Lemma safe_ret {A} (a : A) : safe (ret a).
Proof. by apply triple_ret. Qed.
Lemma safe_market_of_res {A} (x : res A) : safe (of_res x).
Proof. by apply triple_of_res. Qed.
Lemma safe_market_bind {A B} (m : SE market_db A) (k : A -> SE market_db B) :
  safe m -> (forall a, safe (k a)) -> safe (bind m k).
Proof. apply triple_bind. Qed.
Lemma safe_market_get : safe (@get market_db).
Proof. by intros db db' r H [= <- <-]. Qed.
Lemma safe_progress f : safe (progress f).
Proof.
  intros db db' r H E. unfold progress in E. destruct (f _); injection E as <- <-; exact H.
Qed.
Lemma safe_raise {A} e : safe (raise (A := A) e).
Proof. by intros db db' r H [= <- <-]. Qed.
Lemma safe_error e text : safe (on_tables (_record_projection_error py_repr e text)).
Proof. intros db db' r H [= <- <-]. by apply (same_bars_agree _ (md_tables db)). Qed.

Lemma tr_rows_same e r a b rows m : same_bars m (insert_tr_rows e r a b rows m).1.
Proof.
  revert m. induction rows as [|row rows IH]; intros m; [done|]. simpl. unfold bind, write.
  destruct (IH (put_tr {| tr_event_id := ge_event_id e; tr_request_id := tp_request_id r;
           tr_tr_code := tp_tr_code r; tr_request_name := tp_request_name r;
           tr_code := _extract_row_code row; tr_row := row; tr_event_ts := a;
           tr_received_at := b; tr_source := ge_source e |} m)) as [H1 H2].
  by split.
Qed.

Lemma synthetics_agree log now e r event_ts ticks m m' n :
  bars_agree settings m ->
  process_synthetics py_repr pick log now settings e r event_ts ticks m = (m', Ok n) ->
  bars_agree settings m'.
Proof.
  revert m n. induction ticks as [|[i tick] ticks IH]; intros m n Hm; simpl.
  { by intros [= <- _]. }
  intros H. apply bind_ok in H as (m1 & k & H1 & H). apply bind_ok in H as (m2 & k' & H2 & H).
  injection H as <- _. apply (IH m1 k'); [|done]. clear IH H2.
  unfold process_synthetic in H1.
  apply bind_ok in H1 as (m2' & t & [_ ->]%of_res_ok & H).
  apply bind_ok in H as (m2' & x & [_ ->]%of_res_ok & H).
  apply bind_ok in H as (m2' & child & [_ ->]%of_res_ok & H).
  apply bind_ok in H as (m2' & m0 & [= <- <-] & H).
  destruct (_projection_exists _ _ _); [by injection H as <- _|].
  apply bind_ok in H as (m2' & ts & [_ ->]%of_res_ok & H).
  apply bind_ok in H as (m2' & ev & [_ ->]%of_res_ok & H).
  by eapply tick_agree.
Qed.

Lemma project_good log e now db db' n :
  good_db db -> project_event py_repr pick log settings e now db = (db', Ok n) -> good_db db'.
Proof.
  intros Hdb H. unfold project_event in H. apply bind_ok in H as (db1 & k & H1 & H).
  assert (H1' : good_db db1).
  { unfold on_tables in H1. destruct (_ (md_tables db)) as [m' r] eqn:E. injection H1 as <- ->.
    unfold good_db. simpl.
    destruct (String.eqb _ "price_tick"); [by eapply tick_agree|].
    destruct (String.eqb _ "condition_event").
    - unfold _process_condition_event in E.
      apply bind_ok in E as (m1 & c & [_ ->]%of_res_ok & E).
      destruct (_event_store_times _ _ _ _). apply bind_ok in E as (m1 & m0 & [= <- <-] & E).
      apply bind_ok in E as (m1 & [] & Es & E).
      destruct (condition_signals _ !! _); [done|]. injection Es as <-.
      apply bind_ok in E as (m1 & [] & [= <-] & [= <- _]). by apply (same_bars_agree _ (md_tables db)).
    - unfold _process_tr_response in E.
      apply bind_ok in E as (m1 & r & [_ ->]%of_res_ok & E).
      destruct (_event_store_times _ _ _ _) as [a b].
      apply bind_ok in E as (m1 & [] & Er & E).
      apply bind_ok in E as (m2 & ticks & [_ ->]%of_res_ok & E).
      apply bind_ok in E as (m2 & j & Es & [= <- _]).
      eapply synthetics_agree; [|exact Es].
      pose proof (tr_rows_same e r a b (tp_rows r) (md_tables db)) as Hs. rewrite Er in Hs.
      by eapply same_bars_agree. }
  apply bind_ok in H as (db2 & db0 & [= <- <-] & H).
  apply bind_ok in H as (db3 & [] & H2 & [= <- _]).
  assert (Hsafe : forall c : SE market_db unit, safe c -> c db1 = (db3, Ok tt) -> good_db db3).
  { intros c Hc E. exact (Hc db1 db3 (Ok tt) H1' E). }
  revert H2. destruct (_projection_error_message _ _); apply Hsafe.
  - apply safe_progress.
  - apply safe_market_bind; [|intros []]; apply safe_progress.
Qed.

Lemma safe_process e now : safe (process_gateway_event py_repr pick settings true e now).
Proof.
  intros db db' r Hdb. unfold process_gateway_event. destruct (negb _); [by intros [= <- <-]|].
  destruct (negb _); [by intros [= <- <-]|]. unfold bind at 1, get.
  destruct (_projection_exists _ _ _).
  { intros E. revert E. apply (triple_weaken good_db good_db) with (Q' := fun _ => good_db) (E' := good_db);
      [|done..|exact Hdb]. apply safe_market_bind; [apply safe_progress|intros []].
    apply safe_market_bind; [apply safe_progress|intros []]. apply safe_ret. }
  cbn [negb]. unfold rolled_back.
  destruct (bind _ _ db) as [db1 [a|exc]] eqn:E.
  - intros [= <- <-]. apply bind_ok in E as (db2 & n & H1 & [= <- _]). by eapply project_good.
  - apply (fun (H : safe _) => H db db' r Hdb). apply safe_market_bind; [apply safe_error|intros []].
    apply safe_market_bind; [apply safe_progress|intros []]. apply safe_ret.
Qed.

Lemma safe_receive e now : safe (receive py_repr pick settings e now).
Proof.
  apply safe_market_bind; [apply safe_market_get|intros db]. cbv zeta.
  destruct (find_event _ _); [apply safe_ret|].
  apply safe_market_bind; [apply safe_market_of_res|intros [status m]].
  apply safe_market_bind; [apply safe_progress|intros []].
  destruct (_ && _); [|apply safe_ret].
  apply safe_market_bind; [apply safe_process|intros r]. apply safe_ret.
Qed.

Lemma empty_tables_agree : bars_agree settings empty_tables.
Proof.
  split; [done|done|]. intros c x t i _ H. simpl in H. by rewrite lookup_empty in H.
Qed.

Lemma safe_replay now n rows : safe (replay py_repr pick settings now n rows).
Proof.
  revert n. induction rows as [|row rows IH]; intros n; simpl; [apply safe_ret|].
  apply safe_market_bind; [apply safe_market_of_res|intros e]. apply safe_market_bind; [apply safe_process|intros r].
  apply safe_market_bind; [apply IH|intros rs]. apply safe_ret.
Qed.

Lemma safe_rebuild clear require incremental limit now :
  safe (rebuild_market_data_projection py_repr pick settings clear require incremental limit now).
Proof.
  unfold rebuild_market_data_projection. destruct (_ && _); [apply safe_raise|].
  destruct (_ && _); [apply safe_raise|].
  apply safe_market_bind.
  - destruct clear; [|apply safe_ret]. apply safe_market_bind; [|intros []; apply safe_progress].
    intros db db' r _ [= <- <-]. apply empty_tables_agree.
  - intros []. apply safe_market_bind; [apply safe_market_get|intros db].
    apply safe_market_bind; [apply safe_replay|intros rs]. apply safe_market_bind; [apply safe_market_get|intros db'].
    apply safe_ret.
Qed.
End Safe.

(** ** Reachable states *)

Inductive reachable (py_repr : json -> string) (pick : list Z -> option Z) (settings : market_settings)
    : market_db -> Prop :=
| R_start : reachable py_repr pick settings empty_market_db
| R_receive db e now db' r :
    reachable py_repr pick settings db ->
    receive py_repr pick settings e now db = (db', r) -> reachable py_repr pick settings db'
| R_rebuild db clear require incremental limit now db' r :
    reachable py_repr pick settings db ->
    rebuild_market_data_projection py_repr pick settings clear require incremental limit now db = (db', r) ->
    reachable py_repr pick settings db'.

Lemma reachable_good py_repr pick settings db :
  NoDup (market_data_bar_intervals_sec settings) ->
  reachable py_repr pick settings db -> bars_agree settings (md_tables db).
Proof.
  intros Hn. induction 1 as [|db e now db' r _ IH H|db c q i l now db' r _ IH H].
  - apply empty_tables_agree.
  - pose proof (safe_receive py_repr pick settings Hn e now db db' r IH H). by destruct r.
  - pose proof (safe_rebuild py_repr pick settings Hn c q i l now db db' r IH H). by destruct r.
Qed.

(** C19. The bars tell the day's volume: in every state the route and the rebuilds
    reach, late ticks, redeliveries, rejected ticks and failed events included,
    every bar is well formed, the bars of any two configured intervals add up to the
    same volume over the same number of ticks, and that volume is not below the
    cumulative volume of the latest tick. *)
Theorem bars_tell_the_volume py_repr pick settings db code exchange i j :
  NoDup (market_data_bar_intervals_sec settings) ->
  i ∈ market_data_bar_intervals_sec settings -> j ∈ market_data_bar_intervals_sec settings ->
  reachable py_repr pick settings db ->
  map_Forall (fun _ b => bar_ok b) (minute_bars (md_tables db)) /\
  bar_volume code exchange i (md_tables db) = bar_volume code exchange j (md_tables db) /\
  bar_ticks code exchange i (md_tables db) = bar_ticks code exchange j (md_tables db) /\
  (forall t, ticks_latest (md_tables db) !! (code, exchange) = Some t ->
     0 <= lt_cumulative_volume t <= bar_volume code exchange i (md_tables db)).
Proof.
  intros Hn Hi Hj Hr. destruct (reachable_good _ _ _ _ Hn Hr) as [H1 H2 H3].
  destruct (H2 code exchange i j Hi Hj). split_and!; [done..|]. intros t Ht. by apply (H3 code exchange).
Qed.

(** [normalize_interval_list] makes the settings of these theorems. *)
Lemma normalized_intervals l ivs :
  normalize_interval_list l = Ok ivs -> NoDup ivs /\ Forall (fun i => 60 <= i /\ i mod 60 = 0) ivs.
Proof.
  unfold normalize_interval_list.
  assert (Hn : NoDup (stable_sort Z.leb (dedupe l))) by (rewrite stable_sort_perm; apply NoDup_dedupe).
  destruct (stable_sort Z.leb (dedupe l)) as [|i0 n']; [done|].
  revert Hn. generalize (i0 :: n') as n. clear l i0 n'. intros n Hn.
  destruct (existsb (fun i => i <=? 0) n) eqn:Ep; [done|].
  destruct (existsb (fun i => negb (i mod 60 =? 0)) n) eqn:Ea; [done|]. intros [= <-]. split; [done|].
  apply list.Forall_forall. intros i Hi%list_elem_of_In.
  assert (Hpos : (i <=? 0) = false).
  { apply not_true_iff_false. intros H. apply not_true_iff_false in Ep. apply Ep, existsb_exists. eauto. }
  assert (Hmod : (i mod 60 =? 0) = true).
  { apply not_false_iff_true. intros H. apply not_true_iff_false in Ea. apply Ea, existsb_exists.
    exists i. by rewrite H. }
  apply Z.eqb_eq in Hmod. apply Z.leb_gt in Hpos. split; [|done].
  pose proof (Z.div_mod i 60). lia.
Qed.

(** A bar is where its tick is: the bucket of an interval starts at a multiple
    of the interval and contains the trade time, for every time after 1970 a
    float of seconds still tells apart. *)
Theorem bucket_contains_tick t i b :
  0 <= t < 2 ^ 52 -> bucket_start_for t i = Ok b ->
  0 < i /\ b <= t < b + seconds i /\ b mod seconds i = 0.
Proof.
  intros Ht. unfold bucket_start_for. destruct (Z.leb_spec i 0) as [|Hi]; [done|].
  destruct (int_truediv_floor t usec Ht) as (q & -> & Hq); [by unfold usec|]. simpl.
  assert (Hq' : f_trunc q = Ok (t / usec)).
  { destruct q as [s|s| |s m e]; simpl in *; try done. destruct (0 <=? e) eqn:He; [done|].
    injection Hq as Hq. rewrite <- Hq. f_equal. apply Z.quot_div_nonneg.
    - destruct s; [|simpl; lia]. exfalso. simpl in Hq.
      assert (0 <= t / usec) by (apply Z.div_pos; unfold usec; lia).
      assert (Z.neg m / 2 ^ (- e) < 0); [|lia].
      apply Z.div_lt_upper_bound; [|lia]. apply Z.pow_pos_nonneg; lia.
    - apply Z.pow_pos_nonneg; lia. }
  rewrite Hq'. simpl. destruct (is_datetime _); [|done]. intros [= <-]. split; [done|].
  unfold seconds. set (s := t / usec).
  assert (Hs : s * usec <= t < s * usec + usec).
  { unfold s. pose proof (Z.mul_div_le t usec). pose proof (Z.mul_succ_div_gt t usec).
    unfold usec in *. lia. }
  pose proof (Z.mod_pos_bound s i Hi). pose proof (Z.div_mod s i).
  split; [unfold usec in *; nia|].
  replace (s - s mod i) with (i * (s / i)) by lia.
  replace (i * (s / i) * usec) with (s / i * (i * usec)) by ring.
  apply Z.mod_mul. unfold usec. lia.
Qed.
