(* ===== verification/MarketReplay.v ===== *)
(** * Replay of the event log

    [rebuild_market_data_projection] with [clear_projection] against the route that
    projects each event as it comes: the tables are the same.  Two runs are compared
    step by step; they may read different clocks, and the log of the live run is
    shorter. *)
From stdpp Require Import pretty.
From S2P Require Import Prelude PyFloat FloatRound BrokerUtils WireTime GatewayModels LiveSimModels BrokerMessages EventStore ProjectionWatermarks MarketData MarketHistory.
Local Open Scope Z_scope.

(** ** The clock *)

Definition with_ts (ts : Z) (t : BrokerPriceTick) : BrokerPriceTick :=
  {| bt_code := bt_code t; bt_name := bt_name t; bt_price := bt_price t;
     bt_change_rate := bt_change_rate t; bt_volume := bt_volume t; bt_trade_value := bt_trade_value t;
     bt_execution_strength := bt_execution_strength t; bt_best_bid := bt_best_bid t;
     bt_best_ask := bt_best_ask t; bt_spread_ticks := bt_spread_ticks t;
     bt_day_high := bt_day_high t; bt_day_low := bt_day_low t; bt_trade_time := bt_trade_time t;
     bt_ts := ts |}.

(** A message that carries no timestamp gets the clock's; nothing else of it
    depends on the clock. *)
Lemma tick_now now now' d :
  BrokerPriceTick_from_dict now' d = BrokerPriceTick_from_dict now d \/
  BrokerPriceTick_from_dict now' d =
    (let* t := BrokerPriceTick_from_dict now d in Ok (with_ts now' t)).
Proof.
  unfold BrokerPriceTick_from_dict. destruct (require_mapping _ _) as [m|]; [|by left]. simpl.
  destruct (require_fields _ _ _); [|by left]. simpl.
  destruct (parse_timestamp _ _); [|by left]. simpl. unfold ts_field.
  destruct (jget "ts" m) as [v|]; [by left|right]. simpl.
  repeat (match goal with |- context [res_bind ?x _] => destruct x; [simpl|done] end).
  unfold tick_consistent. simpl. by repeat case_match.
Qed.

(** The same fields are read, in the same order, by both. *)
Ltac same_parse :=
  destruct (require_mapping _ _) as [m|]; [|done]; simpl;
  destruct (jget "ts" m);
  repeat (match goal with |- context [res_bind ?x _] => destruct x; simpl; [|done] end);
  split_and?; done.

Lemma condition_now now now' d :
  match BrokerConditionEvent_from_dict now d, BrokerConditionEvent_from_dict now' d with
  | Ok c, Ok c' => bc_condition_id c' = bc_condition_id c /\ bc_condition_name c' = bc_condition_name c /\
      bc_code c' = bc_code c /\ bc_name c' = bc_name c /\ bc_action c' = bc_action c /\
      bc_price c' = bc_price c /\ bc_metadata c' = bc_metadata c
  | Err e, Err e' => e = e'
  | _, _ => False
  end.
Proof. unfold BrokerConditionEvent_from_dict, ts_field. same_parse. Qed.

Lemma response_now now now' d :
  match BrokerTrResponse_from_dict now d, BrokerTrResponse_from_dict now' d with
  | Ok r, Ok r' => tp_request_id r' = tp_request_id r /\ tp_tr_code r' = tp_tr_code r /\
      tp_request_name r' = tp_request_name r /\ tp_rows r' = tp_rows r
  | Err e, Err e' => e = e'
  | _, _ => False
  end.
Proof. unfold BrokerTrResponse_from_dict, ts_field. same_parse. Qed.

(** ** One event, two runs *)

Section TwoRuns.
Context (py_repr : json -> string) (pick : list Z -> option Z) (settings : market_settings).
Context (log log' : list logged_event).

(** The event has the same stored times in both logs, whatever the clock. *)
Definition stable (e : GatewayEvent) : Prop :=
  forall now now', _event_store_times py_repr log now e = _event_store_times py_repr log' now' e.

Lemma older_stable e now now' m :
  stable e ->
  _is_older_than_latest_price_tick py_repr log now e m =
  _is_older_than_latest_price_tick py_repr log' now' e m.
Proof. intros H. unfold _is_older_than_latest_price_tick. by rewrite (H now now'). Qed.

Lemma upsert_bars_ts t ts exchange session dv dt ivs m :
  upsert_bars (with_ts ts t) exchange session dv dt ivs m = upsert_bars t exchange session dv dt ivs m.
Proof.
  revert m. induction ivs as [|i ivs IH]; intros m; [done|]. cbn [upsert_bars]. unfold bind.
  change (_upsert_minute_bar (with_ts ts t)) with (_upsert_minute_bar t).
  destruct (_upsert_minute_bar _ _ _ _ _ _ m) as [m1 [[]|]]; [apply IH|done].
Qed.

Lemma store_tick_ts lg now e t ts exchange session q m :
  store_tick py_repr pick lg now settings e (with_ts ts t) exchange session q m =
  store_tick py_repr pick lg now settings e t exchange session q m.
Proof.
  unfold store_tick. destruct (_event_store_times _ _ _ _) as [a b].
  unfold bind, get, of_res, write, ret.
  destruct (_is_older_than_latest_price_tick _ _ _ _ _) as [older|]; [|done].
  change (bt_trade_value (with_ts ts t)) with (bt_trade_value t).
  destruct (float_of_int _) as [value|]; [|done].
  change (tick_deltas (with_ts ts t)) with (tick_deltas t).
  change (bt_code (with_ts ts t)) with (bt_code t).
  destruct (tick_deltas _ _ _) as [dv dt].
  destruct (tick_samples m !! _); [done|]. destruct older; [done|].
  rewrite upsert_bars_ts. reflexivity.
Qed.

Lemma store_tick_stable e now now' t exchange session q m :
  stable e ->
  store_tick py_repr pick log now settings e t exchange session q m =
  store_tick py_repr pick log' now' settings e t exchange session q m.
Proof.
  intros H. unfold store_tick. rewrite (H now now').
  destruct (_event_store_times py_repr log' now' e) as [a b]. unfold bind at 1, get.
  unfold bind at 1 2. by rewrite (older_stable e now now' m H).
Qed.

(** The rest of the handler of a tick, once it is read. *)
Definition tick_body (lg : list logged_event) (now : Z) (e : GatewayEvent) (t : BrokerPriceTick)
    : SE market_tables Z :=
  let! exchange := of_res (_price_tick_payload_exchange py_repr (ge_payload e)) in
  let! session := of_res (market_session_for_tick py_repr (bt_trade_time t) exchange) in
  let quality := assess_price_tick_quality t in
  let reasons := invalid_reasons py_repr (ge_payload e) in
  if match reasons with [] => bool_decide (quality = QS.INVALID) | _ => true end then
    let what := match reasons with [] => QS.value quality | _ => String.concat "," reasons end in
    let! _ := _record_projection_error py_repr e ("INVALID_PRICE_TICK:" +:+ what) in ret 0
  else store_tick py_repr pick lg now settings e t exchange session quality.

Lemma tick_body_ts lg now e t ts m :
  tick_body lg now e (with_ts ts t) m = tick_body lg now e t m.
Proof.
  unfold tick_body, bind at 1 4, of_res. destruct (_price_tick_payload_exchange _ _); [|done].
  unfold bind. simpl bt_trade_time. destruct (market_session_for_tick _ _ _); [|done].
  change (assess_price_tick_quality (with_ts ts t)) with (assess_price_tick_quality t).
  destruct (match invalid_reasons _ _ with [] => _ | _ => true end); [done|]. apply store_tick_ts.
Qed.

Lemma tick_body_stable e now now' t m :
  stable e -> tick_body log now e t m = tick_body log' now' e t m.
Proof.
  intros H. unfold tick_body, bind at 1 4, of_res. destruct (_price_tick_payload_exchange _ _); [|done].
  unfold bind. destruct (market_session_for_tick _ _ _); [|done].
  destruct (match invalid_reasons _ _ with [] => _ | _ => true end); [done|].
  by apply store_tick_stable.
Qed.

Lemma price_tick_stable e now now' m :
  stable e ->
  _process_price_tick py_repr pick log now settings e m =
  _process_price_tick py_repr pick log' now' settings e m.
Proof.
  intros H. unfold _process_price_tick. destruct (mem _ _); [done|].
  change (bind (of_res (BrokerPriceTick_from_dict now (JObj (ge_payload e)))) (tick_body log now e) m =
          bind (of_res (BrokerPriceTick_from_dict now' (JObj (ge_payload e)))) (tick_body log' now' e) m).
  unfold bind, of_res. destruct (tick_now now now' (JObj (ge_payload e))) as [-> | ->];
    destruct (BrokerPriceTick_from_dict now _) as [t|]; simpl; [|done| |done].
  - by apply tick_body_stable.
  - rewrite tick_body_ts. by apply tick_body_stable.
Qed.

Lemma condition_stable e now now' m :
  stable e ->
  _process_condition_event py_repr log now e m = _process_condition_event py_repr log' now' e m.
Proof.
  intros H. unfold _process_condition_event, bind, of_res, get, write, ret.
  pose proof (condition_now now now' (JObj (ge_payload e))) as Hc.
  destruct (BrokerConditionEvent_from_dict now _) as [c|], (BrokerConditionEvent_from_dict now' _) as [c'|];
    [|done|done|by subst].
  destruct Hc as (-> & -> & -> & -> & -> & -> & ->). by rewrite (H now now').
Qed.

Lemma insert_tr_rows_same e r r' a b rows m :
  tp_request_id r' = tp_request_id r -> tp_tr_code r' = tp_tr_code r ->
  tp_request_name r' = tp_request_name r ->
  insert_tr_rows e r' a b rows m = insert_tr_rows e r a b rows m.
Proof.
  intros H1 H2 H3. revert m. induction rows as [|row rows IH]; intros m; [done|].
  cbn [insert_tr_rows]. unfold bind, write. rewrite H1, H2, H3. apply IH.
Qed.

(** The ids of the synthetic children are not in the logs. *)
Definition children_stable (e : GatewayEvent) : Prop :=
  forall r i code exchange child tick ts ev,
    _synthetic_price_tick_event_id py_repr (ge_event_id e) i code exchange = Ok child ->
    GatewayEvent_post_init
      {| ge_event_type := "price_tick";
         ge_payload := _with_synthetic_price_tick_metadata tick e r i;
         ge_event_id := child; ge_source := ge_source e; ge_ts := ts;
         ge_command_id := ge_command_id e; ge_idempotency_key := ge_idempotency_key e |} = Ok ev ->
    stable ev.

Lemma synthetic_stable e now now' r r' event_ts i tick m :
  children_stable e -> tp_tr_code r' = tp_tr_code r -> tp_request_name r' = tp_request_name r ->
  process_synthetic py_repr pick log now settings e r event_ts i tick m =
  process_synthetic py_repr pick log' now' settings e r' event_ts i tick m.
Proof.
  intros Hc H2 H3. unfold process_synthetic.
  assert (Hsplit : forall (k : BrokerPriceTick -> SE market_tables Z) (k' : BrokerPriceTick -> SE market_tables Z),
    (forall t, k t m = k' t m) -> (forall t ts, k' (with_ts ts t) m = k' t m) ->
    bind (of_res (BrokerPriceTick_from_dict now (JObj tick))) k m =
    bind (of_res (BrokerPriceTick_from_dict now' (JObj tick))) k' m).
  { intros k k' Hk Hts. unfold bind, of_res.
    destruct (tick_now now now' (JObj tick)) as [-> | ->];
      destruct (BrokerPriceTick_from_dict now _) as [t|]; simpl; [|done| |done].
    - apply Hk.
    - by rewrite Hts. }
  apply Hsplit; [|done]. clear Hsplit. intros t. unfold bind, of_res, get.
  destruct (_price_tick_payload_exchange _ _) as [x|]; [|done].
  destruct (_synthetic_price_tick_event_id _ _ _ _ _) as [child|] eqn:Echild; [|done].
  destruct (_projection_exists _ _ _); [done|].
  destruct (parse_timestamp _ _) as [ts|]; [|done].
  assert (_with_synthetic_price_tick_metadata tick e r' i = _with_synthetic_price_tick_metadata tick e r i) as ->.
  { unfold _with_synthetic_price_tick_metadata. by rewrite H2, H3. }
  destruct (GatewayEvent_post_init _) as [ev|] eqn:Eev; [|done].
  apply price_tick_stable. by eapply Hc.
Qed.

Lemma synthetics_stable e now now' r r' event_ts ticks m :
  children_stable e -> tp_tr_code r' = tp_tr_code r -> tp_request_name r' = tp_request_name r ->
  process_synthetics py_repr pick log now settings e r event_ts ticks m =
  process_synthetics py_repr pick log' now' settings e r' event_ts ticks m.
Proof.
  intros Hc H2 H3. revert m. induction ticks as [|[i tick] ticks IH]; intros m; [done|].
  cbn [process_synthetics]. unfold bind.
  rewrite (synthetic_stable e now now' r r' event_ts i tick m Hc H2 H3).
  destruct (process_synthetic py_repr pick log' now' settings e r' event_ts i tick m) as [m1 [n|]]; [|done].
  by rewrite IH.
Qed.

Lemma tr_response_stable e now now' m :
  stable e -> children_stable e ->
  _process_tr_response py_repr pick log now settings e m =
  _process_tr_response py_repr pick log' now' settings e m.
Proof.
  intros H Hc. unfold _process_tr_response.
  pose proof (response_now now now' (JObj (ge_payload e))) as Hr. unfold bind, of_res, ret.
  destruct (BrokerTrResponse_from_dict now _) as [r|], (BrokerTrResponse_from_dict now' _) as [r'|];
    [|done|done|by subst].
  destruct Hr as (H1 & H2 & H3 & H4). rewrite (H now now').
  destruct (_event_store_times py_repr log' now' e) as [a b]. rewrite H4.
  rewrite (insert_tr_rows_same e r r' a b _ m H1 H2 H3).
  destruct (insert_tr_rows e r a b (tp_rows r) m) as [m1 [[]|]]; [|done].
  destruct (_candidate_quote_refresh_tick_payloads_with_row_index _ _ _) as [ticks|]; [|done].
  by rewrite (synthetics_stable e now now' r r' a ticks m1 Hc H2 H3).
Qed.

(** *** The databases of the two runs *)

Definition R (db db' : market_db) : Prop :=
  md_tables db = md_tables db' /\ pr_log (md_projections db) = log /\
  pr_log (md_projections db') = log'.

(** The same result, and related databases. *)
Definition sim {A} (c c' : SE market_db A) : Prop :=
  forall db db', R db db' -> (c db).2 = (c' db').2 /\ R (c db).1 (c' db').1.

Lemma sim_ret {A} (a : A) : sim (ret a) (ret a).
Proof. by intros db db' H. Qed.

Lemma sim_bind {A B} (c c' : SE market_db A) (k k' : A -> SE market_db B) :
  sim c c' -> (forall a, sim (k a) (k' a)) -> sim (bind c k) (bind c' k').
Proof.
  intros Hc Hk db db' H. unfold bind. destruct (Hc db db' H) as [Hr Hdb].
  destruct (c db) as [db1 [a|]], (c' db') as [db1' [a'|]]; simpl in *; try done; injection Hr as <-.
  - by apply Hk.
  - by split.
Qed.

Lemma sim_get {A} (k k' : market_db -> SE market_db A) :
  (forall db db', R db db' -> sim (k db) (k' db')) -> sim (bind get k) (bind get k').
Proof. intros Hk db db' H. unfold bind, get. by apply Hk. Qed.

Lemma sim_on_tables {A} (c c' : SE market_tables A) :
  (forall m, c m = c' m) -> sim (on_tables c) (on_tables c').
Proof.
  intros Hc db db' (Ht & H1 & H2). unfold on_tables. rewrite Ht, Hc.
  by destruct (c' (md_tables db')) as [m r].
Qed.

Lemma sim_rolled_back {A} (c c' : SE market_db A) h h' :
  sim c c' -> (forall e, sim (h e) (h' e)) -> sim (rolled_back c h) (rolled_back c' h').
Proof.
  intros Hc Hh db db' H. unfold rolled_back. destruct (Hc db db' H) as [Hr Hdb].
  destruct (c db) as [db1 [a|]], (c' db') as [db1' [a'|]]; simpl in *; try done; injection Hr as <-.
  by apply Hh.
Qed.

(** Progress that succeeds or fails alike, and keeps the log. *)
Lemma sim_progress f f' :
  (forall p p', pr_log p = log -> pr_log p' = log' ->
     match f p, f' p' with
     | Ok q, Ok q' => pr_log q = log /\ pr_log q' = log'
     | Err e, Err e' => e = e'
     | _, _ => False
     end) -> sim (progress f) (progress f').
Proof.
  intros H db db' (Ht & H1 & H2). specialize (H _ _ H1 H2). unfold progress.
  destruct (f _), (f' _); simpl; [|done|done|by subst]. split; [done|].
  destruct H. by split_and!.
Qed.

(** Whether recording a result raises does not depend on what is recorded
    already. *)
Lemma sim_record c now now' :
  rc_event_rowid c = None -> rc_event_type c = None ->
  (forall id, _require_non_empty (rc_event_id c) "event_id" = Ok id ->
     is_Some (find_event id log) /\ is_Some (find_event id log')) ->
  sim (progress (record_projection_event_result c now))
      (progress (record_projection_event_result c now')).
Proof.
  intros Hr Ht Hfind. apply sim_progress. intros p p' Hl Hl'.
  destruct (record_projection_event_result c now p) as [q|] eqn:Eq;
    destruct (record_projection_event_result c now' p') as [q'|] eqn:Eq'.
  1:{ apply record_log in Eq, Eq'. split; congruence. }
  all: revert Eq Eq'; unfold record_projection_event_result;
    destruct (_normalize_projection_name (rc_projection_name c)) as [n|] eqn:En; simpl; [|congruence];
    destruct (_require_non_empty (rc_event_id c) "event_id") as [id|]; simpl; [|congruence];
    destruct (_require_non_empty (rc_outcome c) "outcome") as [o|]; simpl; [|congruence];
    destruct (Hfind id eq_refl) as [[row He] [row' He']];
    unfold _resolve_event_position; rewrite Hr, Ht, Hl, Hl'; simpl; rewrite He, He';
    apply projection_name_idem in En;
    destruct (given _); destruct (rc_status c); simpl;
    unfold advance_projection_watermark, advance_projection_error_watermark; rewrite ?En; simpl;
    try (destruct (str_true _)); simpl; congruence.
Qed.

Lemma sim_advance e now now' :
  sim (progress (_advance_market_data_watermark_for_event e now))
      (progress (_advance_market_data_watermark_for_event e now')).
Proof.
  apply sim_progress. intros p p' Hl Hl'. unfold _advance_market_data_watermark_for_event.
  destruct (negb _); [done|]. rewrite Hl, Hl'. by destruct (find_event _ log), (find_event _ log').
Qed.

Lemma sim_if {A} (b : bool) (c1 c1' c2 c2' : SE market_db A) :
  sim c1 c1' -> sim c2 c2' -> sim (if b then c1 else c2) (if b then c1' else c2').
Proof. by destruct b. Qed.

(** The log has the event, under the id it gives. *)
Definition logged (e : GatewayEvent) : Prop :=
  require_non_empty (ge_event_id e) "event_id" = Ok (ge_event_id e) /\
  is_Some (find_event (ge_event_id e) log) /\ is_Some (find_event (ge_event_id e) log').

Lemma sim_result e status outcome error now now' :
  logged e ->
  sim (progress (record_projection_event_result (result_of e status outcome error) now))
      (progress (record_projection_event_result (result_of e status outcome error) now')).
Proof.
  intros (Hid & H). apply sim_record; [done|done|]. simpl. unfold _require_non_empty.
  rewrite Hid. by intros id [= <-].
Qed.

Lemma sim_project e now now' :
  logged e -> stable e -> children_stable e ->
  sim (project_event py_repr pick log settings e now) (project_event py_repr pick log' settings e now').
Proof.
  intros Hl Hs Hc. unfold project_event. apply sim_bind.
  { apply sim_on_tables. intros m. destruct (String.eqb _ "price_tick"); [by apply price_tick_stable|].
    destruct (String.eqb _ "condition_event"); [by apply condition_stable|by apply tr_response_stable]. }
  intros applied. apply sim_get. intros db db' (-> & _ & _).
  apply sim_bind; [|intros []; apply sim_ret].
  destruct (_projection_error_message _ _); [by apply sim_result|].
  apply sim_bind; [by apply sim_result|intros []; apply sim_advance].
Qed.

Lemma sim_process e now now' :
  logged e -> stable e -> children_stable e ->
  sim (process_gateway_event py_repr pick settings true e now)
      (process_gateway_event py_repr pick settings true e now').
Proof.
  intros Hl Hs Hc. unfold process_gateway_event. destruct (negb _); [apply sim_ret|].
  destruct (negb _); [apply sim_ret|]. apply sim_get. intros db db' (Ht & H1 & H2).
  rewrite Ht, H1, H2. apply sim_if.
  - apply sim_bind; [by apply sim_result|intros []]. apply sim_bind; [apply sim_advance|intros []].
    apply sim_ret.
  - cbn [negb]. apply sim_rolled_back.
    + apply sim_bind; [by apply sim_project|intros n; apply sim_ret].
    + intros exc. apply sim_bind; [by apply sim_on_tables|intros []].
      apply sim_bind; [by apply sim_result|intros []]. apply sim_ret.
Qed.
End TwoRuns.

(** ** The event a row gives back *)

Definition normalized (e : GatewayEvent) : GatewayEvent :=
  {| ge_event_type := py_lower (py_strip (ge_event_type e)); ge_payload := ge_payload e;
     ge_event_id := ge_event_id e; ge_source := ge_source e; ge_ts := ge_ts e;
     ge_command_id := ge_command_id e; ge_idempotency_key := ge_idempotency_key e |}.

Lemma type_normalized e :
  py_lower (py_strip (ge_event_type (normalized e))) = py_lower (py_strip (ge_event_type e)).
Proof. simpl. by rewrite py_strip_lower, py_strip_idem, py_lower_idem. Qed.

Lemma error_normalized py_repr e text :
  _record_projection_error py_repr (normalized e) text = _record_projection_error py_repr e text.
Proof. unfold _record_projection_error. by rewrite type_normalized. Qed.

Lemma tick_normalized py_repr pick lg now settings e m :
  _process_price_tick py_repr pick lg now settings (normalized e) m =
  _process_price_tick py_repr pick lg now settings e m.
Proof.
  unfold _process_price_tick. simpl ge_payload. destruct (mem _ _); [done|].
  unfold bind, of_res. destruct (BrokerPriceTick_from_dict _ _) as [t|]; [|done].
  destruct (_price_tick_payload_exchange _ _); [|done].
  destruct (market_session_for_tick _ _ _); [|done]. rewrite error_normalized. reflexivity.
Qed.

Lemma tr_rows_normalized e r a b rows m :
  insert_tr_rows (normalized e) r a b rows m = insert_tr_rows e r a b rows m.
Proof. revert m. induction rows as [|row rows IH]; intros m; [done|]. apply IH. Qed.

Lemma synthetics_normalized py_repr pick lg now settings e r event_ts ticks m :
  process_synthetics py_repr pick lg now settings (normalized e) r event_ts ticks m =
  process_synthetics py_repr pick lg now settings e r event_ts ticks m.
Proof.
  revert m. induction ticks as [|[i tick] ticks IH]; intros m; [done|]. cbn [process_synthetics].
  unfold bind. change (process_synthetic py_repr pick lg now settings (normalized e) r event_ts i tick m)
    with (process_synthetic py_repr pick lg now settings e r event_ts i tick m).
  destruct (process_synthetic _ _ _ _ _ _ _ _ _ _ m) as [m1 [n|]]; [|done]. by rewrite IH.
Qed.

Lemma tr_normalized py_repr pick lg now settings e m :
  _process_tr_response py_repr pick lg now settings (normalized e) m =
  _process_tr_response py_repr pick lg now settings e m.
Proof.
  unfold _process_tr_response, bind, of_res. simpl ge_payload.
  destruct (BrokerTrResponse_from_dict _ _) as [r|]; [|done].
  change (_event_store_times py_repr lg now (normalized e)) with (_event_store_times py_repr lg now e).
  destruct (_event_store_times _ _ _ _) as [a b]. rewrite tr_rows_normalized.
  destruct (insert_tr_rows _ _ _ _ _ _) as [m1 [[]|]]; [|done].
  destruct (_candidate_quote_refresh_tick_payloads_with_row_index _ _ _) as [ticks|]; [|done].
  by rewrite synthetics_normalized.
Qed.

Lemma result_normalized e status outcome error :
  result_of (normalized e) status outcome error = result_of e status outcome error.
Proof. unfold result_of. by rewrite type_normalized. Qed.

Lemma advance_normalized e now p :
  _advance_market_data_watermark_for_event (normalized e) now p =
  _advance_market_data_watermark_for_event e now p.
Proof. unfold _advance_market_data_watermark_for_event. by rewrite type_normalized. Qed.

Lemma project_normalized py_repr pick lg settings e now db :
  project_event py_repr pick lg settings (normalized e) now db =
  project_event py_repr pick lg settings e now db.
Proof.
  unfold project_event. rewrite type_normalized. unfold bind at 1 5, on_tables.
  assert (forall m,
    (if String.eqb (py_lower (py_strip (ge_event_type e))) "price_tick"
     then _process_price_tick py_repr pick lg now settings (normalized e)
     else if String.eqb (py_lower (py_strip (ge_event_type e))) "condition_event"
          then _process_condition_event py_repr lg now (normalized e)
          else _process_tr_response py_repr pick lg now settings (normalized e)) m =
    (if String.eqb (py_lower (py_strip (ge_event_type e))) "price_tick"
     then _process_price_tick py_repr pick lg now settings e
     else if String.eqb (py_lower (py_strip (ge_event_type e))) "condition_event"
          then _process_condition_event py_repr lg now e
          else _process_tr_response py_repr pick lg now settings e) m) as E.
  { intros m. destruct (String.eqb _ "price_tick"); [apply tick_normalized|].
    destruct (String.eqb _ "condition_event"); [reflexivity|apply tr_normalized]. }
  rewrite E. destruct (_ (md_tables db)) as [m1 [n|]]; [|done]. clear E.
  unfold bind, get. simpl md_tables. change (ge_event_id (normalized e)) with (ge_event_id e).
  destruct (_projection_error_message _ _); unfold progress; simpl md_projections;
    rewrite result_normalized; destruct (record_projection_event_result _ _ _) as [p|]; try done.
  simpl. by rewrite advance_normalized.
Qed.

Lemma process_normalized py_repr pick settings e now db :
  process_gateway_event py_repr pick settings true (normalized e) now db =
  process_gateway_event py_repr pick settings true e now db.
Proof.
  unfold process_gateway_event. rewrite type_normalized. destruct (market_data_enabled settings); [|done].
  destruct (mem _ MARKET_DATA_EVENT_TYPES); [|done]. cbn [negb].
  unfold bind, get. cbv beta iota. change (ge_event_id (normalized e)) with (ge_event_id e).
  destruct (_projection_exists _ _ _).
  { unfold _with_market_data_watermark, bind, progress. rewrite result_normalized.
    destruct (record_projection_event_result _ _ _) as [p|]; [|done]. simpl.
    by rewrite advance_normalized. }
  unfold rolled_back. rewrite project_normalized.
  destruct (project_event _ _ _ _ _ _ db) as [db1 [n|exc]]; [done|].
  rewrite error_normalized. unfold progress. by rewrite result_normalized.
Qed.

(** ** The logs *)

Lemma find_event_app id l l' :
  find_event id (l ++ l') = match find_event id l with Some r => Some r | None => find_event id l' end.
Proof. induction l as [|r l IH]; simpl; [done|]. by destruct (String.eqb _ _). Qed.

Lemma stable_of_find py_repr l rest e row :
  find_event (ge_event_id e) l = Some row -> stable py_repr l (l ++ rest) e.
Proof. intros H now now'. unfold _event_store_times. by rewrite find_event_app, H. Qed.

Lemma jget_app k a b : jget k (a ++ b) = match jget k b with Some v => Some v | None => jget k a end.
Proof.
  induction a as [|[k' v] a IH]; simpl; [by destruct (jget k b)|]. rewrite IH.
  destruct (jget k b); [done|]. done.
Qed.

Definition SYNTHETIC : string := ":synthetic_price_tick:".

Lemma contains_prefix t s : str_contains t (t +:+ s) = true.
Proof.
  assert (String.prefix t (t +:+ s) = true) as H.
  { induction t as [|c t IH]; [by destruct s|]. rewrite append_cons. simpl.
    destruct (ascii_dec c c); [exact IH|done]. }
  revert H. generalize (t +:+ s). intros u Hu. by destruct u; cbn [str_contains]; rewrite Hu.
Qed.

Lemma contains_app t a s : str_contains t (a +:+ (t +:+ s)) = true.
Proof.
  induction a as [|c a IH]; [rewrite append_nil; apply contains_prefix|].
  rewrite append_cons. simpl. rewrite IH. apply orb_true_r.
Qed.

(** An id as [GatewayEvent] keeps it. *)
Definition clean (s : string) : Prop := py_strip s = s /\ s <> EmptyString.

Lemma clean_lstrip s : clean s -> exists c r, s = String c r /\ ascii_space c = false.
Proof.
  intros [H Hne]. destruct s as [|c r]; [done|]. exists c, r. split; [done|].
  destruct (ascii_space c) eqn:E; [|done]. exfalso.
  assert (Hl : forall u, (String.length (py_lstrip u) <= String.length u)%nat).
  { induction u as [|d u IH]; simpl; [lia|]. destruct (ascii_space d); simpl; lia. }
  assert (Hr : forall u, (String.length (py_rstrip u) <= String.length u)%nat).
  { induction u as [|d u IH]; simpl; [lia|]. destruct (py_rstrip u); [destruct (ascii_space d)|]; simpl in *; lia. }
  assert (Hlt : (String.length (py_strip (String c r)) < String.length (String c r))%nat).
  { unfold py_strip. cbn [py_rstrip]. destruct (py_rstrip r) as [|d t] eqn:Er.
    - rewrite E. simpl. lia.
    - cbn [py_lstrip]. rewrite E. pose proof (Hl (py_rstrip r)). rewrite Er in H0.
      pose proof (Hr r). rewrite Er in H1. simpl in *. lia. }
  rewrite H in Hlt. lia.
Qed.

Lemma strip_app a b : clean a -> py_rstrip b = b -> b <> EmptyString -> py_strip (a +:+ b) = a +:+ b.
Proof.
  intros (c & r & -> & Hc)%clean_lstrip Hb Hne. unfold py_strip. rewrite py_rstrip_app by done.
  rewrite append_cons. by apply py_lstrip_space_free.
Qed.

Lemma exchange_rstrip py_repr v x :
  normalize_market_data_exchange py_repr v = Ok x -> py_rstrip x = x /\ x <> EmptyString.
Proof.
  unfold normalize_market_data_exchange, normalize_market_data_exchange_filter.
  set (text := py_upper _). clearbody text.
  destruct (List.find _ exchange_aliases) as [[k y]|] eqn:E; [|done]. simpl. intros [= <-].
  apply List.find_some in E as [E _]. unfold exchange_aliases in E. simpl in E.
  repeat (destruct E as [[= <- <-]|E]; [by vm_compute|]). done.
Qed.

(** The children's ids are found in no log without synthetic ids, and the times of
    their parent are in both. *)
Lemma children_of_find py_repr l rest e row :
  clean (ge_event_id e) -> find_event (ge_event_id e) l = Some row ->
  Forall (fun r => str_contains SYNTHETIC (le_event_id r) = false) (l ++ rest) ->
  children_stable py_repr l (l ++ rest) e.
Proof.
  intros Hid Hf Hno r i code exchange child tick ts ev Hchild Hev.
  assert (Hnone : forall l0, Forall (fun r => str_contains SYNTHETIC (le_event_id r) = false) l0 ->
            find_event child l0 = None).
  { intros l0 H0. unfold find_event. destruct (List.find _ l0) as [r0|] eqn:E; [|done].
    apply List.find_some in E as [Hin%list_elem_of_In Heq%String.eqb_eq].
    rewrite list.Forall_forall in H0. specialize (H0 _ Hin). rewrite Heq in H0.
    unfold _synthetic_price_tick_event_id in Hchild. res_inv Hchild. injection Hchild as <-.
    by rewrite contains_app in H0. }
  assert (Hstrip : py_strip child = child).
  { unfold _synthetic_price_tick_event_id in Hchild. res_inv Hchild. injection Hchild as <-.
    apply exchange_rstrip in Ha0 as [Hx Hxne].
    apply strip_app; [done| |done].
    rewrite <- !append_assoc. apply py_rstrip_app; done. }
  assert (Hevid : ge_event_id ev = child /\
    ge_payload ev = _with_synthetic_price_tick_metadata tick e r i).
  { unfold GatewayEvent_post_init in Hev. res_inv Hev. injection Hev as <-. simpl in *.
    unfold require_non_empty in Ha. rewrite Hstrip in Ha. destruct (str_true child); [|done].
    injection Ha as <-. done. }
  destruct Hevid as [E1 E2]. intros now now'. unfold _event_store_times. rewrite E1, E2.
  rewrite (Hnone l), (Hnone (l ++ rest)) by (done || by apply list.Forall_app in Hno as [? _]).
  set (updates := [("parent_event_id", JStr (ge_event_id e));
    ("parent_command_id", opt_text (ge_command_id e)); ("parent_tr_code", JStr (tp_tr_code r));
    ("parent_request_name", JStr (tp_request_name r)); ("synthetic_event", JBool true);
    ("row_index", JInt i)]).
  assert (Hm : metadata_of (_with_synthetic_price_tick_metadata tick e r i) =
               Some (dict_update (default [] (metadata_of tick)) updates)).
  { unfold metadata_of at 1, _with_synthetic_price_tick_metadata, dict_update at 1.
    by rewrite jget_app. }
  rewrite Hm. unfold dict_update. rewrite jget_app.
  change (jget "parent_event_id" updates) with (Some (JStr (ge_event_id e))).
  cbn [jtrue py_str]. rewrite find_event_app, Hf. by destruct (str_true _) eqn:E; [|destruct Hid; destruct (ge_event_id e)].
Qed.

(** ** The log of a run *)

Definition keeps_log {A} (c : SE market_db A) : Prop :=
  forall db, pr_log (md_projections (c db).1) = pr_log (md_projections db).

Lemma keeps_log_ret {A} (a : A) : keeps_log (ret a).
Proof. done. Qed.
Lemma keeps_log_bind {A B} (c : SE market_db A) (k : A -> SE market_db B) :
  keeps_log c -> (forall a, keeps_log (k a)) -> keeps_log (bind c k).
Proof.
  intros Hc Hk db. unfold bind. specialize (Hc db). destruct (c db) as [db1 [a|]]; [|done].
  by rewrite (Hk a db1).
Qed.
Lemma keeps_get {A} (k : market_db -> SE market_db A) : (forall db, keeps_log (k db)) -> keeps_log (bind get k).
Proof. intros Hk db. apply Hk. Qed.
Lemma keeps_on_tables {A} (c : SE market_tables A) : keeps_log (on_tables c).
Proof. intros db. unfold on_tables. by destruct (c _). Qed.
Lemma keeps_record c now : keeps_log (progress (record_projection_event_result c now)).
Proof.
  intros db. unfold progress. destruct (record_projection_event_result _ _ _) eqn:E; [|done].
  by apply record_log in E.
Qed.
Lemma keeps_advance e now : keeps_log (progress (_advance_market_data_watermark_for_event e now)).
Proof.
  intros db. unfold progress, _advance_market_data_watermark_for_event. destruct (negb _); [done|].
  by destruct (find_event _ _).
Qed.

Lemma keeps_process py_repr pick settings e now :
  keeps_log (process_gateway_event py_repr pick settings true e now).
Proof.
  unfold process_gateway_event. destruct (market_data_enabled settings); [|apply keeps_log_ret].
  destruct (mem _ MARKET_DATA_EVENT_TYPES); [|apply keeps_log_ret]. apply keeps_get. intros db.
  cbn [negb]. destruct (_projection_exists _ _ _).
  - apply keeps_log_bind; [apply keeps_record|intros []]. apply keeps_log_bind; [apply keeps_advance|intros []].
    apply keeps_log_ret.
  - intros db0. unfold rolled_back. match goal with |- context [match ?c db0 with _ => _ end] =>
      assert (Hc : keeps_log c) end.
    { apply keeps_log_bind; [|intros n; apply keeps_log_ret]. apply keeps_log_bind; [apply keeps_on_tables|intros n].
      apply keeps_get. intros db1. apply keeps_log_bind; [|intros []; apply keeps_log_ret].
      destruct (_projection_error_message _ _); [apply keeps_record|].
      apply keeps_log_bind; [apply keeps_record|intros []; apply keeps_advance]. }
    specialize (Hc db0). destruct (bind _ _ db0) as [db1 [r|exc]]; [done|].
    apply (fun H : keeps_log _ => H db0). apply keeps_log_bind; [apply keeps_on_tables|intros []].
    apply keeps_log_bind; [apply keeps_record|intros []]. apply keeps_log_ret.
Qed.

Section Replay.
Context (py_repr : json -> string) (pick : list Z -> option Z) (settings : market_settings).

(** One event: already there, or appended and, when it is replayable, processed. *)
Lemma receive_cases e now db db' :
  receive py_repr pick settings e now db = (db', Ok tt) ->
  let log := pr_log (md_projections db) in
  (db' = db /\ is_Some (find_event (ge_event_id e) log)) \/
  exists status db1,
    let row := log_row e (Z.of_nat (length log) + 1) now status in
    find_event (ge_event_id e) log = None /\
    md_tables db1 = md_tables db /\ pr_log (md_projections db1) = log ++ [row] /\
    if String.eqb status "ACCEPTED" && mem (le_event_type row) MARKET_DATA_EVENT_TYPES
    then exists r, process_gateway_event py_repr pick settings true e now db1 = (db', Ok r)
    else db' = db1.
Proof.
  intros H log. unfold receive in H. apply bind_ok in H as (db0 & db0' & [= <- <-] & H).
  fold log in H. destruct (find_event _ log) eqn:Ef; [left; by injection H as <-|right].
  apply bind_ok in H as (db0 & [status message] & [_ ->]%of_res_ok & H).
  apply bind_ok in H as (db1 & [] & [= <-] & H). exists status.
  exists {| md_tables := md_tables db; md_projections :=
    {| pr_log := log ++ [log_row e (Z.of_nat (length log) + 1) now status];
       pr_watermarks := pr_watermarks (md_projections db);
       pr_results := pr_results (md_projections db) |} |}.
  split_and!; [done..|]. simpl le_event_type. destruct (_ && _); [|by injection H as <-].
  apply bind_ok in H as (db2 & r & H & [= <-]). by exists r.
Qed.

Lemma log_grows events db db' :
  receive_all py_repr pick settings events db = (db', Ok tt) ->
  exists rest, pr_log (md_projections db') = pr_log (md_projections db) ++ rest.
Proof.
  revert db. induction events as [|[e now] events IH]; intros db; simpl.
  { intros [= <-]. exists []. by rewrite app_nil_r. }
  intros H. apply bind_ok in H as (db1 & [] & H1 & H). destruct (IH db1 H) as [rest ->].
  apply receive_cases in H1 as [[-> _]|(status & dba & _ & _ & Hl & Hp)]; [by exists rest|].
  destruct (_ && _).
  - destruct Hp as [r Hp]. pose proof (keeps_process py_repr pick settings e now dba) as Hk.
    rewrite Hp in Hk. simpl in Hk. rewrite Hk, Hl, <- app_assoc. eauto.
  - subst. rewrite Hl, <- app_assoc. eauto.
Qed.

(** An event as [GatewayEvent.from_dict] leaves it. *)
Definition valid_event (e : GatewayEvent) : Prop :=
  GatewayEvent_post_init e = Ok e /\ is_datetime (ge_ts e) = true.

Lemma require_clean s f : require_non_empty s f = Ok s -> clean s.
Proof.
  unfold require_non_empty. destruct (str_true (py_strip s)) eqn:E; [|done]. intros [= H].
  split; [done|]. intros ->. done.
Qed.

Lemma valid_parts e :
  valid_event e ->
  require_non_empty (ge_event_id e) "event_id" = Ok (ge_event_id e) /\
  require_non_empty (ge_event_type e) "event_type" = Ok (ge_event_type e) /\
  event_of_row (log_row e 0 0 EmptyString) = Ok (normalized e).
Proof.
  intros [H Ht]. unfold GatewayEvent_post_init in H.
  apply res_bind_ok in H as (a & Ha & H). apply res_bind_ok in H as (b & Hb & H).
  apply res_bind_ok in H as (c & Hc & H). apply res_bind_ok in H as (d & Hd & H).
  apply res_bind_ok in H as (k & Hk & H). injection H as H.
  assert (a = ge_event_id e) as -> by (by rewrite <- H).
  assert (b = ge_event_type e) as -> by (by rewrite <- H).
  assert (c = ge_source e) as -> by (by rewrite <- H).
  assert (d = ge_command_id e) as -> by (by rewrite <- H).
  assert (k = ge_idempotency_key e) as -> by (by rewrite <- H).
  split_and!; [done..|]. unfold event_of_row.
  change (le_event_ts (log_row e 0 0 EmptyString)) with (datetime_to_wire (ge_ts e)).
  rewrite parse_wire by done. simpl.
  unfold GatewayEvent_post_init. simpl. rewrite Ha. simpl.
  unfold require_non_empty at 1. rewrite py_strip_lower, py_strip_idem.
  replace (str_true (py_lower (py_strip (ge_event_type e)))) with true.
  { simpl. rewrite Hc. simpl. rewrite Hd. simpl. rewrite Hk. done. }
  unfold require_non_empty in Hb. destruct (py_strip (ge_event_type e)); [done|]. done.
Qed.

Lemma replayable_cons row rows :
  0 < le_rowid row ->
  _list_replayable_gateway_events None 0 (row :: rows) =
  (if String.eqb (le_status row) "ACCEPTED" && mem (le_event_type row) MARKET_DATA_EVENT_TYPES
   then [row] else []) ++ _list_replayable_gateway_events None 0 rows.
Proof.
  intros H. unfold _list_replayable_gateway_events. change (Z.max 0 0) with 0. cbn [List.filter].
  apply Z.ltb_lt in H. rewrite H, andb_true_r. by destruct (_ && _).
Qed.

Lemma replay_follows events now n db db' dbr :
  Forall (fun x => valid_event x.1) events ->
  Forall (fun r => str_contains SYNTHETIC (le_event_id r) = false) (pr_log (md_projections db')) ->
  receive_all py_repr pick settings events db = (db', Ok tt) ->
  md_tables dbr = md_tables db -> pr_log (md_projections dbr) = pr_log (md_projections db') ->
  exists rest rs dbr',
    pr_log (md_projections db') = pr_log (md_projections db) ++ rest /\
    replay py_repr pick settings now n (_list_replayable_gateway_events None 0 rest) dbr = (dbr', Ok rs) /\
    md_tables dbr' = md_tables db'.
Proof.
  intros Hv Hno. revert n db dbr. induction Hv as [|[e t] events He _ IH]; intros n db dbr; cbn [receive_all].
  { intros [= <-] Ht Hl. exists [], [], dbr. by rewrite app_nil_r. }
  intros H Ht Hl. apply bind_ok in H as (db1 & [] & H1 & H).
  apply receive_cases in H1 as [[-> _]|(status & dba & Hf & Hta & Hla & Hp)].
  { by apply IH. }
  set (row := log_row e _ t status) in *. destruct (log_grows events db1 db' H) as [rest Hrest].
  assert (Hl1 : pr_log (md_projections db1) = pr_log (md_projections db) ++ [row]).
  { clear -Hp Hla. revert Hp.
    destruct (String.eqb status "ACCEPTED" && mem (le_event_type row) MARKET_DATA_EVENT_TYPES);
      [intros [r Hp]|by intros ->].
    pose proof (keeps_process py_repr pick settings e t dba) as Hk. rewrite Hp in Hk. simpl in Hk.
    by rewrite Hk. }
  rewrite Hl1 in Hrest.
  assert (Hrow : 0 < le_rowid row) by (cbn; lia).
  destruct (String.eqb status "ACCEPTED" && mem (le_event_type row) MARKET_DATA_EVENT_TYPES) eqn:Ea.
  - destruct Hp as [r Hp]. destruct (valid_parts e He) as (Hid & _ & Hev).
    assert (Hfind : find_event (ge_event_id e) (pr_log (md_projections db) ++ [row]) = Some row).
    { rewrite find_event_app, Hf. simpl. by rewrite String.eqb_refl. }
    assert (Hsim : sim (pr_log (md_projections db) ++ [row]) ((pr_log (md_projections db) ++ [row]) ++ rest)
      (process_gateway_event py_repr pick settings true e t)
      (process_gateway_event py_repr pick settings true e (now n))).
    { apply sim_process.
      - split_and!; [done|by exists row|]. rewrite find_event_app, Hfind. by exists row.
      - by eapply stable_of_find.
      - eapply children_of_find; [by apply require_clean with "event_id"|done|]. by rewrite <- Hrest. }
    destruct (Hsim dba dbr) as [Hr (Ht1 & _ & Hlr)].
    { split_and!; [congruence|done|congruence]. }
    rewrite Hp in Hr, Ht1. simpl in Hr, Ht1.
    destruct (process_gateway_event py_repr pick settings true e (now n) dbr) as [dbr1 r1] eqn:Er.
    cbn [fst snd] in *. subst r1.
    destruct (IH (S n) db1 dbr1 H) as (rest' & rs & dbr' & Hr' & Hrep & Ht'); [congruence|congruence|].
    assert (rest' = rest) as -> by (apply (app_inv_head (pr_log (md_projections db) ++ [row])); congruence).
    exists (row :: rest), (r :: rs), dbr'. split; [by rewrite Hrest, <- app_assoc|]. split; [|done].
    rewrite replayable_cons by done. change (le_status row) with status. rewrite Ea. cbn [app replay].
    change (event_of_row row) with (event_of_row (log_row e 0 0 EmptyString)). rewrite Hev.
    unfold bind, of_res. rewrite process_normalized, Er. by rewrite Hrep.
  - subst dba. destruct (IH n db1 dbr H) as (rest' & rs & dbr' & Hr' & Hrep & Ht'); [congruence|done|].
    assert (rest' = rest) as -> by (apply (app_inv_head (pr_log (md_projections db) ++ [row])); congruence).
    exists (row :: rest), rs, dbr'. split; [by rewrite Hrest, <- app_assoc|]. split; [|done].
    rewrite replayable_cons by done. change (le_status row) with status. by rewrite Ea.
Qed.
End Replay.

(** The database after [clear_market_data_projection]. *)
Definition cleared (db : market_db) : market_db :=
  {| md_tables := empty_tables;
     md_projections :=
       {| pr_log := pr_log (md_projections db);
          pr_watermarks := base.delete "market_data" (pr_watermarks (md_projections db));
          pr_results := filter (fun kv => kv.1.1 <> "market_data") (pr_results (md_projections db)) |} |}.

Lemma clear_clears db : clear_market_data_projection db = (cleared db, Ok tt).
Proof. reflexivity. Qed.

(** C16. The event log is the whole truth: whatever events the route received, in
    whatever order, with ticks late, repeated, rejected or failing and answers whose
    quotes become ticks of their own, clearing the projection and replaying the log
    succeeds and gives back exactly the tables the events were projected into as
    they came. *)
Theorem rebuild_reproduces py_repr pick settings events db now :
  Forall (fun x => valid_event x.1) events ->
  Forall (fun r => str_contains SYNTHETIC (le_event_id r) = false) (pr_log (md_projections db)) ->
  receive_all py_repr pick settings events empty_market_db = (db, Ok tt) ->
  exists result db',
    rebuild_market_data_projection py_repr pick settings true true false None now db = (db', Ok result) /\
    md_tables db' = md_tables db.
Proof.
  intros Hv Hno H.
  destruct (replay_follows py_repr pick settings events now 0 empty_market_db db (cleared db) Hv Hno H)
    as (rest & rs & db' & Hl & Hr & Ht); [done|done|].
  simpl in Hl. subst rest. eexists _, db'. split; [|exact Ht].
  unfold rebuild_market_data_projection. cbn [andb negb].
  unfold bind at 1. rewrite clear_clears. unfold bind, get.
  change (pr_log (md_projections (cleared db))) with (pr_log (md_projections db)).
  cbv beta iota zeta. rewrite Hr. reflexivity.
Qed.

(** ** A morning *)

Definition morning_settings : market_settings :=
  {| market_data_enabled := true; market_data_bar_intervals_sec := [60; 180; 300];
     market_data_premarket_snapshot_enabled := true |}.

(** Monday, 5 January 2026, in Seoul. *)
Definition monday (h m s : Z) : Z := seconds (1767538800 + h * 3600 + m * 60 + s).

Definition morning_event (id etype : string) (ts : Z) (p : payload) : GatewayEvent :=
  {| ge_event_type := etype; ge_payload := p; ge_event_id := id; ge_source := "kiwoom";
     ge_ts := ts; ge_command_id := None; ge_idempotency_key := None |}.

Definition tick_payload (exchange : string) (price volume : Z) (at' : Z) : payload :=
  [("code", JStr "005930"); ("name", JStr "Samsung"); ("price", JInt price);
   ("change_rate", JFloat f_zero); ("volume", JInt volume); ("trade_value", JInt (price * volume));
   ("execution_strength", JInt 100); ("best_bid", JInt price); ("best_ask", JInt (price + 100));
   ("spread_ticks", JInt 1); ("day_high", JInt (price + 500)); ("day_low", JInt (Z.max 1 (price - 500)));
   ("trade_time", JStr (datetime_to_wire at')); ("exchange", JStr exchange)].

Definition quote_refresh : payload :=
  [("request_id", JStr "candidate_quote_refresh:2026-01-05:000660:1"); ("tr_code", JStr "opt10001");
   ("request_name", JStr "refresh"); ("success", JBool true);
   ("rows", JList [JObj [("종목코드", JStr "A000660"); ("현재가", JStr "+201,500");
                         ("거래량", JStr "1000")]])].

Definition morning : list (GatewayEvent * Z) :=
  [(morning_event "evt1" "price_tick" (monday 8 30 0) (tick_payload "NXT" 70000 10 (monday 8 30 0)),
    monday 8 30 1);
   (morning_event "evt2" "Price_Tick" (monday 9 0 5) (tick_payload "KRX" 70100 500 (monday 9 0 5)),
    monday 9 0 6);
   (morning_event "evt4" "price_tick" (monday 9 1 5) (tick_payload "KRX" 70300 900 (monday 9 1 5)),
    monday 9 1 6);
   (morning_event "evt3" "price_tick" (monday 9 0 9) (tick_payload "KRX" 70200 700 (monday 9 0 9)),
    monday 9 1 7);
   (morning_event "evt4" "price_tick" (monday 9 1 5) (tick_payload "KRX" 70300 900 (monday 9 1 5)),
    monday 9 1 8);
   (morning_event "evt5" "price_tick" (monday 9 1 9) (tick_payload "KRX" 1 950 (monday 9 1 9)),
    monday 9 1 9);
   (morning_event "evt6" "tr_response" (monday 9 2 0) quote_refresh, monday 9 2 1)].

Definition first_row (l : list Z) : option Z := match l with x :: _ => Some x | [] => None end.

Definition morning_run : market_db * res unit :=
  receive_all (fun _ => EmptyString) first_row morning_settings morning empty_market_db.

Example morning_tables :
  let m := md_tables morning_run.1 in
  morning_run.2 = Ok tt /\
  (lt_price <$> ticks_latest m !! ("005930", "KRX")) = Some 70300 /\
  (lt_price <$> ticks_latest m !! ("000660", "KRX")) = Some 201500 /\
  bar_volume "005930" "KRX" 60 m = 900 /\ bar_volume "005930" "KRX" 300 m = 900 /\
  bar_ticks "005930" "KRX" 180 m = 2 /\
  length (projection_errors m) = 1%nat /\ size (tick_samples m) = 5%nat /\
  (ps_volume <$> premarket_snapshots m !! ("2026-01-05", "005930")) = Some 10.
Proof. vm_compute. repeat split. Qed.

Lemma morning_valid : Forall (fun x => valid_event x.1) morning.
Proof. unfold morning. repeat (apply Forall_cons_2; [split; vm_compute; reflexivity|]). apply Forall_nil_2. Qed.

Lemma morning_received : morning_run.2 = Ok tt.
Proof. vm_compute. reflexivity. Qed.

Lemma morning_log_clean :
  Forall (fun r => str_contains SYNTHETIC (le_event_id r) = false)
    (pr_log (md_projections morning_run.1)).
Proof. apply (bool_decide_unpack _). vm_compute. exact I. Qed.

Lemma rebuild_reproduces_witness :
  morning_run.2 = Ok tt /\
  exists result db',
    rebuild_market_data_projection (fun _ => EmptyString) first_row morning_settings true true false
      None (fun n => monday 18 0 (Z.of_nat n)) morning_run.1 = (db', Ok result) /\
    md_tables db' = md_tables morning_run.1.
Proof.
  split; [exact morning_received|].
  apply (rebuild_reproduces (fun _ => EmptyString) first_row morning_settings morning morning_run.1);
    [exact morning_valid|exact morning_log_clean|].
  rewrite <- morning_received. apply surjective_pairing.
Defined.

Lemma receive_all_reachable py_repr pick settings events : forall db,
  reachable py_repr pick settings db ->
  reachable py_repr pick settings (receive_all py_repr pick settings events db).1.
Proof.
  induction events as [|[e t] events IH]; intros db H; [exact H|].
  cbn [receive_all]. unfold bind.
  destruct (receive py_repr pick settings e t db) as [db1 [u|exc]] eqn:E;
    [apply IH|simpl]; eapply R_receive; eassumption.
Qed.

Lemma morning_reachable : reachable (fun _ => EmptyString) first_row morning_settings morning_run.1.
Proof. apply receive_all_reachable. constructor. Qed.

Lemma bars_tell_the_volume_witness :
  reachable (fun _ => EmptyString) first_row morning_settings morning_run.1 /\
  bar_volume "005930" "KRX" 60 (md_tables morning_run.1) =
  bar_volume "005930" "KRX" 300 (md_tables morning_run.1).
Proof.
  split; [exact morning_reachable|].
  destruct (bars_tell_the_volume (fun _ => EmptyString) first_row morning_settings morning_run.1
              "005930" "KRX" 60 300) as (_ & H & _);
    [|set_solver|set_solver|exact morning_reachable|exact H].
  apply (bool_decide_unpack _). vm_compute. exact I.
Defined.

Lemma bucket_contains_tick_witness :
  bucket_start_for (monday 9 1 5) 180 = Ok (monday 9 0 0) /\
  monday 9 0 0 <= monday 9 1 5 < monday 9 0 0 + seconds 180.
Proof.
  assert (E : bucket_start_for (monday 9 1 5) 180 = Ok (monday 9 0 0)) by (vm_compute; reflexivity).
  split; [exact E|].
  apply (bucket_contains_tick (monday 9 1 5) 180 (monday 9 0 0)); [vm_compute; split; [discriminate|reflexivity]|exact E].
Defined.

(** The first tick of a day is compared with the last cumulative volume of the day
    before, so the volume of the opening is not counted. *)
Example opening_volume_lost :
  let tuesday h m s := monday (24 + h) m s in
  let run := receive_all (fun _ => EmptyString) first_row morning_settings
    (morning ++
     [(morning_event "evt7" "price_tick" (tuesday 9 0 1) (tick_payload "KRX" 71000 300 (tuesday 9 0 1)),
       tuesday 9 0 2)]) empty_market_db in
  run.2 = Ok tt /\
  (mb_volume_delta <$> minute_bars (md_tables run.1) !!
     ("005930", "KRX", "REGULAR", 60, "2026-01-06T00:00:00Z")) = Some 0.
Proof. vm_compute. split; reflexivity. Qed.

(** A replay that does not clear calls a rejected tick a duplicate, and its error a
    success. *)
Example rejected_tick_becomes_success :
  let db := morning_run.1 in
  let db' := (rebuild_market_data_projection (fun _ => EmptyString) first_row morning_settings
                false false false None (fun _ => monday 18 0 0) db).1 in
  (er_status <$> pr_results (md_projections db) !! ("market_data", "evt5")) = Some ResultStatus.ERROR /\
  (er_status <$> pr_results (md_projections db') !! ("market_data", "evt5")) = Some ResultStatus.SUCCESS /\
  tick_samples (md_tables db') !! "evt5" = None.
Proof. vm_compute. repeat split. Qed.
