(* ===== verification/Subscription.v ===== *)
(** * Real-time subscriptions ([services/realtime_subscription/service.py])

    The broker streams ticks for a limited number of codes.  The planner collects
    the codes worth watching (anchors, manual seeds, recent condition entries,
    active candidates, members of the leading themes), gives each a priority, and
    compares them with the codes the gateway says it streams: what to register
    within the limit, what to keep, and what has gone stale and may be removed.
    [run_once] enqueues one command a target.

    The rows of conditions and ticks are those of [MarketData], the candidates
    those of [CandidateStore].  Left out: the evidence a target copies from its
    rows ([details]), the constants [metadata] and [warnings], and [counts], which
    are lengths of the lists.  A row among those that tie in an [ORDER BY] comes in
    the order of the table. *)
From S2P Require Import Prelude PyFloat Orderings BrokerUtils WireTime GatewayModels Candidate CandidateStore.
From S2P Require Import OrderBoundary CommandStore ExitPolicy BrokerMessages MarketData.
From Stdlib Require Import SpecFloat.
From stdpp Require Import pretty.
Local Open Scope Z_scope.

Definition REALTIME_SUBSCRIPTION_SOURCE : string := "realtime_subscription_planner".
Definition _REGISTER_ACTION : string := "register".
Definition _REMOVE_ACTION : string := "remove".
Definition _ALLOWED_ACTIONS : list string := [_REGISTER_ACTION; _REMOVE_ACTION].
Definition _ACTIVE_CANDIDATE_STATES : list CS.t := [CS.WATCHING; CS.CONTEXT_READY; CS.DATA_WAIT].
Definition state_value (s : CS.t) : string :=
  match s with
  | CS.DETECTED => "DETECTED" | CS.HYDRATING => "HYDRATING" | CS.WATCHING => "WATCHING"
  | CS.CONTEXT_READY => "CONTEXT_READY" | CS.DATA_WAIT => "DATA_WAIT"
  | CS.BLOCKED_OBSERVATION => "BLOCKED_OBSERVATION" | CS.STALE => "STALE" | CS.COOLDOWN => "COOLDOWN"
  | CS.CLOSED => "CLOSED"
  end.
Definition _THEME_STATE_PRIORITY : list (string * Z) :=
  [("LEADING", 0); ("SPREADING", 1); ("LEADER_ONLY", 2); ("WATCH", 3); ("DATA_WAIT", 4); ("WEAK", 5);
   ("FADING", 6)].
Definition _THEME_ROLE_PRIORITY : list (string * Z) :=
  [("LEADER_CANDIDATE", 0); ("CO_LEADER_CANDIDATE", 1); ("FOLLOWER_CANDIDATE", 2); ("LEADER", 0);
   ("CO_LEADER", 1); ("FOLLOWER", 2); ("UNKNOWN", 5); ("STALE", 9)].

(** [d.get(key, default)]. *)
Definition rank_of (table : list (string * Z)) (key : string) (d : Z) : Z :=
  match find (fun kv => String.eqb (fst kv) key) table with Some (_, n) => n | None => d end.

Record SubscriptionSettings := {
  realtime_subscription_enabled : bool;
  realtime_subscription_queue_commands : bool;
  realtime_subscription_max_total : Z;
  realtime_subscription_max_per_theme : Z;
  realtime_subscription_anchor_codes : list string;
  realtime_subscription_stale_sec : Z;
  realtime_subscription_remove_stale_after_sec : Z;
  realtime_subscription_allow_remove : bool;
  realtime_subscription_exchange : string;
  theme_leadership_top_theme_count : Z;
  candidate_condition_action_enter : string
}.

(** ** Tables *)

(** A row of [theme_latest_snapshots]. *)
Record theme_snapshot := {
  tl_theme_id : string;
  tl_snapshot_id : string;
  tl_theme_name : string;
  tl_state : string;
  tl_leading_code : option string;
  tl_fresh_coverage_ratio : float;
  tl_scan_coverage_ratio : float;
  tl_flow_score : float;
  tl_total_trade_value : float
}.

(** A row of [theme_snapshot_members]. *)
Record theme_member := {
  tm_snapshot_id : string;
  tm_code : string;
  tm_name : string;
  tm_readiness_status : string;
  tm_member_role : string;
  tm_change_rate : option float
}.

(** What the planner reads; [tick_updated_at] is the column [updated_at] of the
    latest ticks, [membership] the column [metadata_json] of [theme_members]. *)
Record subscription_tables := {
  sb_market : market_tables;
  tick_updated_at : gmap (string * string) string;
  sb_candidates : list candidate_row;
  theme_snapshots : list theme_snapshot;
  theme_snapshot_members : list theme_member;
  membership : gmap (string * string) string;
  sb_gateway_status : gmap string string
}.

(** ** Values *)

(** [_dedupe]: upper-cased, first occurrences. *)
Definition upper_dedupe (values : list string) : list string := dedupe (map py_upper values).

(** [_safe_code]. *)
Definition _safe_code (value : json) : res (option string) :=
  match validate_stock_code value "code" with
  | Ok c => Ok (Some c)
  | Err (ValueError _) => Ok None
  | Err e => Err e
  end.

(** [list(map(f, l))] for a function that may raise. *)
Fixpoint try_map {A B} (f : A -> res B) (l : list A) : res (list B) :=
  match l with
  | [] => Ok []
  | a :: l => let* b := f a in let* bs := try_map f l in Ok (b :: bs)
  end.

Definition _normalize_codes (values : list json) : res (list string) :=
  let* codes := try_map _safe_code values in
  Ok (omap id codes).

(** [s.split(",")]. *)
Fixpoint split_commas (s : string) : list string :=
  match s with
  | EmptyString => [EmptyString]
  | String c s =>
      if Ascii.eqb c "," then EmptyString :: split_commas s
      else match split_commas s with
           | [] => [String c EmptyString]
           | t :: ts => String c t :: ts
           end
  end.

Section Values.
Context (json_loads : string -> res json).

(** A status value is a text. *)
Definition _parse_code_list_value (value : option string) : res (list string) :=
  match value with
  | None => Ok []
  | Some v =>
      let stripped := py_strip v in
      if negb (str_true stripped) then Ok [] else
      let* loaded :=
        match json_loads stripped with
        | Err (ValueError _) => Ok (JList (map JStr (split_commas stripped)))
        | r => r
        end in
      _normalize_codes
        match loaded with
        | JList items => items
        | JObj fields => map (fun kv => JStr (fst kv)) fields
        | v => [v]
        end
  end.

Definition _registered_codes_from_gateway_status (t : subscription_tables) : res (list string) :=
  _parse_code_list_value (sb_gateway_status t !! "realtime_registered_codes").

(** The age of a time in seconds; none where it is no time. *)
Definition _age_seconds (value : option string) (now : Z) : res (option float) :=
  match value with
  | None => Ok None
  | Some v =>
      match parse_timestamp (JStr v) "timestamp" with
      | Ok t => let* age := total_seconds (now - t) in Ok (Some (f_max age f_zero))
      | Err (ValueError _) => Ok None
      | Err e => Err e
      end
  end.

(** The first of two ranks that is a positive int; 999,999 if none is. *)
Fixpoint first_rank (values : list json) : res Z :=
  match values with
  | [] => Ok 999999
  | v :: values =>
      match py_int v with
      | Ok n => if 0 <? n then Ok n else first_rank values
      | Err (ValueError _) => first_rank values
      | Err (OtherError "TypeError") => first_rank values
      | Err e => Err e
      end
  end.

Definition _membership_rank (raw_metadata : option string) : res Z :=
  let text := match raw_metadata with Some s => if str_true s then s else "{}" | None => "{}" end in
  match json_loads text with
  | Err (ValueError _) => Ok 999999
  | Err e => Err e
  | Ok (JObj metadata) =>
      first_rank
        [default JNull (jget "rank" metadata);
         match jget "raw" metadata with
         | Some (JObj raw) => default JNull (jget "naver_member_rank" raw)
         | _ => JNull
         end]
  | Ok _ => Err (OtherError "AttributeError")
  end.

(** ** What is worth watching *)

Record condition_item := { ci_code : string; ci_name : string }.
Record candidate_item := { ca_code : string; ca_name : string; ca_state : string }.
Record theme_item := {
  ti_code : string;
  ti_name : string;
  ti_theme_name : string;
  ti_membership_rank : Z;
  ti_priority : float;
  ti_reason_codes : list string
}.

(** [row["name"] or code]. *)
Definition name_or (name code : string) : string := if str_true name then name else code.

(** [ORDER BY event_ts DESC, condition_id, code]. *)
Definition condition_order (a b : condition_signal) : comparison :=
  then_by (String.compare (cs_event_ts b) (cs_event_ts a))
  (then_by (String.compare (cs_condition_id a) (cs_condition_id b))
           (String.compare (cs_code a) (cs_code b))).

Definition condition_item_of (s : SubscriptionSettings) (now : Z) (row : condition_signal)
    : res (option condition_item) :=
  let* code := _safe_code (JStr (cs_code row)) in
  match code with
  | None => Ok None
  | Some code =>
      let* age := _age_seconds (Some (cs_event_ts row)) now in
      Ok (if match age with Some a => f_gtZ a (realtime_subscription_stale_sec s) | None => false end
          then None
          else Some {| ci_code := code; ci_name := name_or (cs_name row) code |})
  end.

Definition _recent_condition_enter_items (t : subscription_tables) (s : SubscriptionSettings) (now : Z)
    : res (list condition_item) :=
  let rows := stable_sort (cmp_le condition_order)
    (List.filter (fun r => String.eqb (ConditionEventAction.value (cs_action r))
                             (candidate_condition_action_enter s))
       (map snd (map_to_list (condition_latest (sb_market t))))) in
  let* items := try_map (condition_item_of s now) rows in
  Ok (omap id items).

(** [ORDER BY last_seen_at DESC, candidate_instance_id]. *)
Definition candidate_order (a b : candidate_row) : comparison :=
  then_by (wire_key (c_last_seen_at b) ?= wire_key (c_last_seen_at a))
          (String.compare (c_candidate_instance_id a) (c_candidate_instance_id b)).

Definition candidate_item_of (row : candidate_row) : res (option candidate_item) :=
  let* code := _safe_code (JStr (c_code row)) in
  Ok (option_map (fun code => {| ca_code := code; ca_name := name_or (c_name row) code;
                                 ca_state := py_upper (state_value (c_state row)) |}) code).

Definition _active_candidate_items (t : subscription_tables) (trade_date : string)
    : res (list candidate_item) :=
  let rows := stable_sort (cmp_le candidate_order)
    (List.filter (fun r => String.eqb (c_trade_date r) trade_date &&
                           bool_decide (c_state r ∈ _ACTIVE_CANDIDATE_STATES))
       (sb_candidates t)) in
  let* items := try_map candidate_item_of rows in
  Ok (omap id items).

(** ** Themes *)

(** The row of a join: a theme, a member of its snapshot, the membership's metadata. *)
Definition theme_row : Type := theme_snapshot * theme_member * option string.

(** [ORDER BY state, flow_score DESC, ..., theme_name, code]. *)
Definition theme_row_order (a b : theme_row) : comparison :=
  let '(s, m, _) := a in
  let '(s', m', _) := b in
  then_by (rank_of _THEME_STATE_PRIORITY (tl_state s) 9 ?= rank_of _THEME_STATE_PRIORITY (tl_state s') 9)
  (then_by (f_order (tl_flow_score s') (tl_flow_score s))
  (then_by (f_order (tl_total_trade_value s') (tl_total_trade_value s))
  (then_by (f_order (tl_scan_coverage_ratio s') (tl_scan_coverage_ratio s))
  (then_by (f_order (tl_fresh_coverage_ratio s') (tl_fresh_coverage_ratio s))
  (then_by (String.compare (tl_theme_name s) (tl_theme_name s'))
           (String.compare (tm_code m) (tm_code m'))))))).

Definition theme_rows (t : subscription_tables) : list theme_row :=
  stable_sort (cmp_le theme_row_order)
    (concat (map (fun s =>
       map (fun m => (s, m, membership t !! (tl_theme_id s, tm_code m)))
         (List.filter (fun m => String.eqb (tm_snapshot_id m) (tl_snapshot_id s))
            (theme_snapshot_members t)))
       (theme_snapshots t))).

(** A member its theme has no room for. *)
Record theme_near_miss := {
  tn_code : string;
  tn_name : string;
  tn_theme_id : string;
  tn_reason_codes : list string
}.

(** The variables of the loop; [theme_order] lists the themes in the order they came. *)
Record theme_scan := {
  sc_items : list theme_item;
  sc_near_miss : list theme_near_miss;
  selected_per_theme : gmap string Z;
  theme_order : list string
}.

Fixpoint index_of (key : string) (l : list string) : Z :=
  match l with [] => 0 | k :: l => if String.eqb k key then 0 else 1 + index_of key l end.

Definition theme_priority (state role : string) (place : Z) (change_rate : option float) : float :=
  f_add (f_of_Z (6000 - rank_of _THEME_STATE_PRIORITY state 9 * 100 - place -
                 rank_of _THEME_ROLE_PRIORITY role 6 * 5))
    (default f_zero change_rate).

(** The item of a row that is selected. *)
Definition theme_item_of (row : theme_row) (code : string) (place : Z) : res theme_item :=
  let '(s, m, metadata) := row in
  let state := py_upper (name_or (tl_state s) "UNKNOWN") in
  let role := py_upper (name_or (tm_member_role m) "UNKNOWN") in
  let readiness := py_upper (name_or (tm_readiness_status m) "UNKNOWN") in
  let* leading := match tl_leading_code s with
                  | Some c => _safe_code (JStr c)
                  | None => _safe_code JNull
                  end in
  let* rank := _membership_rank metadata in
  Ok {| ti_code := code; ti_name := name_or (tm_name m) code; ti_theme_name := tl_theme_name s;
        ti_membership_rank := rank;
        ti_priority := theme_priority state role place (tm_change_rate m);
        ti_reason_codes := upper_dedupe
          (["THEME_WATCHSET"; "THEME_" +:+ state; "THEME_MEMBER_" +:+ readiness] ++
           (if f_gtZ (tl_flow_score s) 0 then ["THEME_FLOW_SCORE"] else []) ++
           (if String.eqb state "DATA_WAIT" then ["THEME_DATA_COVERAGE"] else []) ++
           (if bool_decide (leading = Some code) then ["THEME_LEADING_CODE"] else [])) |}.

Definition scan_theme_row (registered desired : list string) (max_per_theme max_theme_count : Z)
    (sc : theme_scan) (row : theme_row) : res theme_scan :=
  let '(s, m, _) := row in
  let* code := _safe_code (JStr (tm_code m)) in
  match code with
  | None => Ok sc
  | Some code =>
      let theme_id := tl_theme_id s in
      let known := mem theme_id (theme_order sc) in
      if negb known && (max_theme_count <=? Z.of_nat (length (theme_order sc))) then Ok sc else
      let order := if known then theme_order sc else theme_order sc ++ [theme_id] in
      let selected := default 0 (selected_per_theme sc !! theme_id) in
      let fresh := negb (mem code registered) && negb (mem code desired) in
      if fresh && (max_per_theme <=? selected) then
        Ok {| sc_items := sc_items sc;
              sc_near_miss := sc_near_miss sc ++
                [{| tn_code := code; tn_name := name_or (tm_name m) code; tn_theme_id := theme_id;
                    tn_reason_codes := ["MAX_PER_THEME_REACHED"] |}];
              selected_per_theme := selected_per_theme sc; theme_order := order |}
      else
        let* item := theme_item_of row code (index_of theme_id order) in
        Ok {| sc_items := sc_items sc ++ [item]; sc_near_miss := sc_near_miss sc;
              selected_per_theme :=
                if fresh then <[theme_id := selected + 1]> (selected_per_theme sc)
                else selected_per_theme sc;
              theme_order := order |}
  end.

(** [for x in l: state = f(state, x)]. *)
Fixpoint try_fold {A S} (f : S -> A -> res S) (st : S) (l : list A) : res S :=
  match l with
  | [] => Ok st
  | a :: l => let* st := f st a in try_fold f st l
  end.

(** [key=lambda item: (-priority, membership_rank, theme_name, code)]. *)
Definition theme_item_order (a b : theme_item) : comparison :=
  then_by (f_order (ti_priority b) (ti_priority a))
  (then_by (ti_membership_rank a ?= ti_membership_rank b)
  (then_by (String.compare (ti_theme_name a) (ti_theme_name b))
           (String.compare (ti_code a) (ti_code b)))).

Definition _theme_subscription_items (t : subscription_tables) (registered desired : list string)
    (max_per_theme max_theme_count : Z) : res (list theme_item * list theme_near_miss) :=
  let* sc := try_fold (scan_theme_row registered desired max_per_theme max_theme_count)
               {| sc_items := []; sc_near_miss := []; selected_per_theme := ∅; theme_order := [] |}
               (theme_rows t) in
  Ok (stable_sort (cmp_le theme_item_order) (sc_items sc), sc_near_miss sc).
End Values.

(** ** Targets *)

Record target := {
  tg_code : string;
  tg_name : string;
  tg_priority : float;
  tg_source_types : list string;
  tg_reason_codes : list string
}.

(** The targets in the order they came, and the reasons [reason_counter] was told. *)
Record collection := { desired : list target; counted : list string }.

Definition desired_codes (c : collection) : list string := map tg_code (desired c).
Definition find_target (code : string) (l : list target) : option target :=
  find (fun g => String.eqb (tg_code g) code) l.

Definition append_new (x : string) (l : list string) : list string := if mem x l then l else l ++ [x].

(** [item.get("priority") or 0.0]. *)
Definition or_zero (x : float) : float := if f_is_zero x then f_zero else x.

(** What [add_target] does to the item of the code. *)
Definition merge_target (name : option string) (priority : float) (source_type : string)
    (reason_codes : list string) (g : target) : target :=
  {| tg_code := tg_code g;
     tg_name := match name with
                | Some n => if str_true n && String.eqb (tg_name g) (tg_code g) then n else tg_name g
                | None => tg_name g
                end;
     tg_priority := f_max (or_zero (tg_priority g)) priority;
     tg_source_types := append_new source_type (tg_source_types g);
     tg_reason_codes := fold_left (fun l r => append_new (py_upper r) l) reason_codes (tg_reason_codes g) |}.

Definition new_target (code : string) (name : option string) (priority : float) : target :=
  {| tg_code := code; tg_name := match name with Some n => name_or n code | None => code end;
     tg_priority := priority; tg_source_types := []; tg_reason_codes := [] |}.

Definition add_target (code : string) (name : option string) (priority : float) (source_type : string)
    (reason_codes : list string) (c : collection) : collection :=
  let items := match find_target code (desired c) with
               | Some _ => desired c
               | None => desired c ++ [new_target code name priority]
               end in
  {| desired := map (fun g => if String.eqb (tg_code g) code
                              then merge_target name priority source_type reason_codes g else g) items;
     counted := counted c ++ map py_upper reason_codes |}.

Definition add_all {A} (add : A -> collection -> collection) (l : list A) (c : collection) : collection :=
  fold_left (fun c a => add a c) l c.

Definition add_anchor (code : string) : collection -> collection :=
  add_target code None (f_of_Z 10000) "ANCHOR" ["ANCHOR_CODE"].
Definition add_manual_seed (code : string) : collection -> collection :=
  add_target code None (f_of_Z 9800) "MANUAL_SEED" ["MANUAL_SEED"].
Definition add_condition (i : condition_item) : collection -> collection :=
  add_target (ci_code i) (Some (ci_name i)) (f_of_Z 9000) "CONDITION_ENTER"
    ["CONDITION_ENTER"; "RECENT_CONDITION_ENTER"].
Definition add_candidate (i : candidate_item) : collection -> collection :=
  add_target (ca_code i) (Some (ca_name i)) (f_of_Z 8000) "ACTIVE_CANDIDATE"
    ["ACTIVE_CANDIDATE"; "CANDIDATE_" +:+ ca_state i].
Definition add_theme_item (i : theme_item) : collection -> collection :=
  add_target (ti_code i) (Some (ti_name i)) (ti_priority i) "THEME_WATCHSET" (ti_reason_codes i).

(** [key=lambda item: (-priority, code)]. *)
Definition target_order (a b : target) : comparison :=
  then_by (f_order (tg_priority b) (tg_priority a)) (String.compare (tg_code a) (tg_code b)).

(** ** What is kept, stale, registered *)

Record keep_target := {
  kt_code : string;
  kt_name : string;
  kt_source_types : list string;
  kt_reason_codes : list string;
  kt_priority : float
}.

Definition _keep_targets (registered : list string) (wanted : list target) : list keep_target :=
  map (fun code =>
    match find_target code wanted with
    | Some g =>
        {| kt_code := code; kt_name := name_or (tg_name g) code;
           kt_source_types := match tg_source_types g with [] => ["CURRENT_REGISTRATION"] | l => l end;
           kt_reason_codes := upper_dedupe (tg_reason_codes g ++ ["ALREADY_REGISTERED"]);
           kt_priority := tg_priority g |}
    | None =>
        {| kt_code := code; kt_name := code; kt_source_types := ["CURRENT_REGISTRATION"];
           kt_reason_codes := upper_dedupe ["REGISTERED_NOT_SELECTED"]; kt_priority := f_zero |}
    end) registered.

(** A registered code without a recent tick. *)
Record stale_code := {
  sl_code : string;
  sl_name : string;
  sl_event_ts : option string;
  sl_age_sec : option float;
  sl_quality_status : string;
  sl_reason_codes : list string;
  sl_command_allowed : bool
}.

(** [WHERE code = ? AND (? = 'ALL' OR exchange = ?) ORDER BY updated_at DESC LIMIT 1]. *)
Definition latest_tick_of (t : subscription_tables) (code exchange : string) : option latest_tick :=
  let updated (k : string * string) := default EmptyString (tick_updated_at t !! k) in
  option_map snd (head
    (stable_sort (cmp_le (fun a b => String.compare (updated (fst b)) (updated (fst a))))
       (List.filter (fun kv => String.eqb (fst (fst kv)) code &&
                               (String.eqb exchange "ALL" || String.eqb (snd (fst kv)) exchange))
          (map_to_list (ticks_latest (sb_market t)))))).

(** The item of a registered code, if it is stale. *)
Definition stale_code_of (t : subscription_tables) (wanted anchors : list string)
    (s : SubscriptionSettings) (now : Z) (code : string) : res (option stale_code) :=
  let row := latest_tick_of t code (realtime_subscription_exchange s) in
  let reference_ts := option_map lt_event_ts row in
  let* age := _age_seconds reference_ts now in
  let stale := match row, age with
               | Some _, Some a => f_gtZ a (realtime_subscription_remove_stale_after_sec s)
               | _, _ => true
               end in
  Ok (if negb stale then None else
      Some {| sl_code := code; sl_name := match row with Some r => lt_name r | None => code end;
              sl_event_ts := reference_ts; sl_age_sec := age;
              sl_quality_status := match row with Some r => QS.value (lt_quality_status r) | None => "MISSING" end;
              sl_reason_codes := upper_dedupe
                [match row with Some _ => "REGISTERED_TICK_STALE" | None => "REGISTERED_TICK_MISSING" end;
                 if mem code anchors then "ANCHOR_STALE_KEEP"
                 else if mem code wanted then "DESIRED_STALE_KEEP"
                 else "STALE_REGISTERED_REMOVE_CANDIDATE"];
              sl_command_allowed := realtime_subscription_allow_remove s |}).

Definition _stale_registered_codes (t : subscription_tables) (registered wanted anchors : list string)
    (s : SubscriptionSettings) (now : Z) : res (list stale_code) :=
  let* items := try_map (stale_code_of t wanted anchors s now) registered in
  Ok (omap id items).

Definition is_remove_candidate (v : stale_code) : bool :=
  mem "STALE_REGISTERED_REMOVE_CANDIDATE" (sl_reason_codes v).

(** The item is the same object in both lists. *)
Definition remove_disabled (v : stale_code) : stale_code :=
  {| sl_code := sl_code v; sl_name := sl_name v; sl_event_ts := sl_event_ts v; sl_age_sec := sl_age_sec v;
     sl_quality_status := sl_quality_status v;
     sl_reason_codes := upper_dedupe (sl_reason_codes v ++ ["REMOVE_COMMAND_DISABLED"]);
     sl_command_allowed := false |}.

Record target_view := {
  tv_code : string;
  tv_name : string;
  tv_action : string;
  tv_exchange : string;
  tv_source_types : list string;
  tv_reason_codes : list string;
  tv_priority : float
}.

Definition _target_view (g : target) (action exchange : string) (extra_reasons : list string)
    : target_view :=
  {| tv_code := tg_code g; tv_name := name_or (tg_name g) (tg_code g); tv_action := action;
     tv_exchange := exchange; tv_source_types := tg_source_types g;
     tv_reason_codes := upper_dedupe (tg_reason_codes g ++ extra_reasons);
     tv_priority := tg_priority g |}.

(** The loop over the targets: what is registered, what there is no room for, and
    the reasons that are counted. *)
Record selection := {
  sn_register : list target_view;
  sn_near_miss : list target_view;
  sn_counted : list string
}.

Definition select_target (registered : list string) (capacity : Z) (exchange : string)
    (sn : selection) (g : target) : selection :=
  if mem (tg_code g) registered then
    {| sn_register := sn_register sn; sn_near_miss := sn_near_miss sn;
       sn_counted := sn_counted sn ++ ["ALREADY_REGISTERED"] |}
  else if capacity <=? Z.of_nat (length (sn_register sn)) then
    {| sn_register := sn_register sn;
       sn_near_miss := sn_near_miss sn ++
         [_target_view g _REGISTER_ACTION exchange ["MAX_TOTAL_REACHED"]];
       sn_counted := sn_counted sn ++ ["MAX_TOTAL_REACHED"] |}
  else
    {| sn_register := sn_register sn ++ [_target_view g _REGISTER_ACTION exchange []];
       sn_near_miss := sn_near_miss sn; sn_counted := sn_counted sn |}.

Record missing_candidate := {
  mc_item : candidate_item;
  mc_selected_for_register : bool;
  mc_reason_codes : list string
}.

(** [Counter]: how often each reason was told, in the order of their first. *)
Definition count_reasons (l : list string) : list (string * Z) :=
  map (fun r => (r, Z.of_nat (length (List.filter (String.eqb r) l)))) (dedupe l).

(** ** The plan *)

Record command_result := {
  cr_code : string;
  cr_action : string;
  cr_result : EnqueueCommandResult
}.

Record RealtimeSubscriptionPlan := {
  sp_status : string;
  sp_trade_date : string;
  sp_exchange : string;
  sp_registered : list string;
  sp_anchors : list string;
  sp_register : list target_view;
  sp_remove : list stale_code;
  sp_keep : list keep_target;
  sp_theme_near_miss : list theme_near_miss;
  sp_near_miss : list target_view;
  sp_stale : list stale_code;
  sp_missing : list missing_candidate;
  sp_reason_summary : list (string * Z);
  sp_command_results : list command_result;
  sp_command_count : Z;
  sp_queue_commands : bool
}.

(** The targets, collected in the order of the sources, and the themes' near misses. *)
Definition collect_targets (json_loads : string -> res json) (t : subscription_tables)
    (s : SubscriptionSettings) (trade_date : string) (anchors manual_seeds registered : list string)
    (now : Z) : res (collection * list candidate_item * list theme_near_miss) :=
  let c := add_all add_manual_seed manual_seeds
             (add_all add_anchor anchors {| desired := []; counted := [] |}) in
  let* condition_items := _recent_condition_enter_items t s now in
  let c := add_all add_condition condition_items c in
  let* candidate_items := _active_candidate_items t trade_date in
  let c := add_all add_candidate candidate_items c in
  let* themes := _theme_subscription_items json_loads t registered (desired_codes c)
                   (realtime_subscription_max_per_theme s) (theme_leadership_top_theme_count s) in
  let '(theme_items, near_miss) := themes in
  let c := {| desired := desired c;
              counted := counted c ++ map py_upper (concat (map tn_reason_codes near_miss)) |} in
  Ok (add_all add_theme_item theme_items c, candidate_items, near_miss).

Definition disabled_plan (trade_date exchange : string) (registered anchors : list string)
    (queue_requested : bool) : RealtimeSubscriptionPlan :=
  {| sp_status := "DISABLED"; sp_trade_date := trade_date; sp_exchange := exchange;
     sp_registered := registered; sp_anchors := anchors; sp_register := []; sp_remove := [];
     sp_keep := []; sp_theme_near_miss := []; sp_near_miss := []; sp_stale := []; sp_missing := [];
     sp_reason_summary := count_reasons ["REALTIME_SUBSCRIPTION_DISABLED"]; sp_command_results := [];
     sp_command_count := 0; sp_queue_commands := queue_requested |}.

(** The plan of an enabled planner. *)
Definition enabled_plan (json_loads : string -> res json) (t : subscription_tables)
    (s : SubscriptionSettings) (trade_date : string) (anchors manual_seeds registered : list string)
    (queue_requested : bool) (now : Z) : res RealtimeSubscriptionPlan :=
  let exchange := realtime_subscription_exchange s in
  let* collected := collect_targets json_loads t s trade_date anchors manual_seeds registered now in
  let '(c, candidate_items, theme_near) := collected in
  let desired_items := stable_sort (cmp_le target_order) (desired c) in
  let* stale := _stale_registered_codes t registered (desired_codes c) anchors s now in
  let disabled := negb (realtime_subscription_allow_remove s) in
  let stale := map (fun v => if is_remove_candidate v && disabled then remove_disabled v else v) stale in
  let remove_targets := List.filter is_remove_candidate stale in
  let counted := counted c ++
    (if disabled then map (fun _ => "REMOVE_COMMAND_DISABLED") remove_targets else []) in
  let capacity := Z.max (realtime_subscription_max_total s - Z.of_nat (length registered)) 0 in
  let sn := fold_left (select_target registered capacity exchange) desired_items
              {| sn_register := []; sn_near_miss := []; sn_counted := counted |} in
  let missing :=
    map (fun i => {| mc_item := i;
                     mc_selected_for_register := mem (ca_code i) (map tv_code (sn_register sn));
                     mc_reason_codes := ["MISSING_CANDIDATE_SUBSCRIPTION"; "CANDIDATE_" +:+ ca_state i] |})
      (List.filter (fun i => negb (mem (ca_code i) registered)) candidate_items) in
  Ok {| sp_status :=
          match sn_register sn, remove_targets with
          | [], [] => "NOOP"
          | _ :: _, _ => if queue_requested then "PLAN_READY" else "PLAN_ONLY"
          | [], _ :: _ => "PLAN_READY"
          end;
        sp_trade_date := trade_date; sp_exchange := exchange; sp_registered := registered;
        sp_anchors := anchors; sp_register := sn_register sn; sp_remove := remove_targets;
        sp_keep := _keep_targets registered (desired c); sp_theme_near_miss := theme_near;
        sp_near_miss := sn_near_miss sn; sp_stale := stale; sp_missing := missing;
        sp_reason_summary := count_reasons
          (sn_counted sn ++ map (fun _ => "MISSING_CANDIDATE_SUBSCRIPTION") missing);
        sp_command_results := []; sp_command_count := 0; sp_queue_commands := queue_requested |}.

(** [plan]; [today] is the date of the configured time zone. *)
Definition plan_subscriptions (json_loads : string -> res json) (t : subscription_tables)
    (s : SubscriptionSettings) (today : string) (trade_date : option string)
    (registered_codes manual_seed_codes : option (list json)) (queue_commands : option bool) (now : Z)
    : res RealtimeSubscriptionPlan :=
  let trade_date := match trade_date with Some d => name_or d today | None => today end in
  let queue_requested := default (realtime_subscription_queue_commands s) queue_commands in
  let* anchors := _normalize_codes (map JStr (realtime_subscription_anchor_codes s)) in
  let anchors := upper_dedupe anchors in
  let* seeds := _normalize_codes (default [] manual_seed_codes) in
  let seeds := upper_dedupe seeds in
  let* registered := match registered_codes with
                     | Some codes => _normalize_codes codes
                     | None => _registered_codes_from_gateway_status json_loads t
                     end in
  let registered := upper_dedupe registered in
  if negb (realtime_subscription_enabled s)
  then Ok (disabled_plan trade_date (realtime_subscription_exchange s) registered anchors queue_requested)
  else enabled_plan json_loads t s trade_date anchors seeds registered queue_requested now.

(** ** The commands *)

(** The command store and the serial of fresh identifiers. *)
Record planner_world := { pw_store : store; pw_serial : nat }.

Section Queueing.
Context (new_message_id : string -> nat -> string) (py_repr : json -> string)
  (hash_payload : payload -> string) (json_loads : string -> res json).

Definition _EXCHANGE_SCHEMA_STATUS : string :=
  "MarketData projection is exchange/session-aware; KRX and NXT ticks/bars are stored separately by (code, exchange).".

(** What a command is made for. *)
Record command_target := {
  ct_code : string;
  ct_reason_codes : list string;
  ct_source_types : list string
}.

Definition subscription_payload (code action trade_date exchange : string) (g : command_target) : payload :=
  [("code", JStr code); ("codes", JList [JStr code]); ("exchange", JStr exchange);
   ("source", JStr REALTIME_SUBSCRIPTION_SOURCE); ("purpose", JStr "observe_realtime_subscription");
   ("observe_only", JBool true); ("not_order_signal", JBool true); ("no_order_side_effects", JBool true);
   ("reason_codes", JList (map JStr (ct_reason_codes g)));
   ("metadata", JObj
     [("trade_date", JStr trade_date); ("action", JStr action);
      ("source_types", JList (map JStr (ct_source_types g)));
      ("market_data_schema_status", JStr _EXCHANGE_SCHEMA_STATUS);
      ("preopen_nxt_observe_supported", JBool (mem exchange ["NXT"; "ALL"]));
      ("preopen_nxt_not_order_signal", JBool true)])].

Definition subscription_key (trade_date exchange action code : string) : string :=
  String.concat ":" [REALTIME_SUBSCRIPTION_SOURCE; trade_date; exchange; action; code].

Definition _queue_subscription_command (action : string) (g : command_target)
    (trade_date exchange : string) (now : Z) : SE planner_world command_result :=
  let! _ := require (mem action _ALLOWED_ACTIONS)
              ("unsupported realtime subscription action: " +:+ action) in
  let! code := of_res (validate_stock_code (JStr (ct_code g)) "code") in
  let! w := get in
  let! _ := (fun w => ({| pw_store := pw_store w; pw_serial := S (pw_serial w) |}, Ok tt)) in
  let! c := of_res (GatewayCommand_post_init
    {| command_type := if String.eqb action _REGISTER_ACTION then "register_realtime" else "remove_realtime";
       source := REALTIME_SUBSCRIPTION_SOURCE;
       payload_of := subscription_payload code action trade_date exchange g;
       command_id := new_message_id "cmd" (pw_serial w); ts := now;
       idempotency_key := Some (subscription_key trade_date exchange action code) |}) in
  fun w =>
    let '(st, r) := enqueue_command py_repr hash_payload (pw_store w) c (Some (now + seconds 120)) now now in
    ({| pw_store := st; pw_serial := pw_serial w |},
     Ok {| cr_code := ct_code g; cr_action := action; cr_result := r |}).

Fixpoint queue_all (action : string) (targets : list command_target) (trade_date exchange : string)
    (now : Z) : SE planner_world (list command_result) :=
  match targets with
  | [] => ret []
  | g :: targets =>
      let! r := _queue_subscription_command action g trade_date exchange now in
      let! rs := queue_all action targets trade_date exchange now in
      ret (r :: rs)
  end.

Definition register_command (v : target_view) : command_target :=
  {| ct_code := tv_code v; ct_reason_codes := tv_reason_codes v; ct_source_types := tv_source_types v |}.
(** A stale code has no [source_types]. *)
Definition remove_command (v : stale_code) : command_target :=
  {| ct_code := sl_code v; ct_reason_codes := sl_reason_codes v; ct_source_types := [] |}.

Definition with_commands (p : RealtimeSubscriptionPlan) (results : list command_result)
    : RealtimeSubscriptionPlan :=
  let n := Z.of_nat (length (List.filter (fun r => er_accepted (cr_result r)) results)) in
  {| sp_status := if n =? 0 then sp_status p else "QUEUED"; sp_trade_date := sp_trade_date p;
     sp_exchange := sp_exchange p; sp_registered := sp_registered p; sp_anchors := sp_anchors p;
     sp_register := sp_register p; sp_remove := sp_remove p; sp_keep := sp_keep p;
     sp_theme_near_miss := sp_theme_near_miss p; sp_near_miss := sp_near_miss p; sp_stale := sp_stale p;
     sp_missing := sp_missing p; sp_reason_summary := sp_reason_summary p;
     sp_command_results := results; sp_command_count := n; sp_queue_commands := sp_queue_commands p |}.

(** [run_once], once the plan is made. *)
Definition queue_plan (p : RealtimeSubscriptionPlan) (s : SubscriptionSettings) (now : Z)
    : SE planner_world RealtimeSubscriptionPlan :=
  if negb (sp_queue_commands p) || String.eqb (sp_status p) "DISABLED" then ret p else
  let! registered := queue_all _REGISTER_ACTION (map register_command (sp_register p))
                       (sp_trade_date p) (sp_exchange p) now in
  let! removed := if realtime_subscription_allow_remove s
                  then queue_all _REMOVE_ACTION (map remove_command (sp_remove p))
                         (sp_trade_date p) (sp_exchange p) now
                  else ret [] in
  ret (with_commands p (registered ++ removed)).

Definition run_once (t : subscription_tables) (s : SubscriptionSettings) (today : string)
    (trade_date : option string) (registered_codes manual_seed_codes : option (list json))
    (queue_commands : option bool) (now : Z) : SE planner_world RealtimeSubscriptionPlan :=
  let! p := of_res (plan_subscriptions json_loads t s today trade_date registered_codes
                      manual_seed_codes queue_commands now) in
  queue_plan p s now.
End Queueing.

(** * Facts *)

Set Default Proof Using "Type".

(** ** Lists *)

Lemma try_map_Forall2 {A B} (f : A -> res B) l bs :
  try_map f l = Ok bs <-> Forall2 (fun a b => f a = Ok b) l bs.
Proof.
  revert bs. induction l as [|a l IH]; intros bs; cbn [try_map].
  { split; [by intros [= <-]|by intros ->%Forall2_nil_inv_l]. }
  split.
  - intros H. res_inv H. injection H as <-. constructor; [done|by apply IH].
  - intros (b & bs' & Hb & Hbs & ->)%Forall2_cons_inv_l. rewrite Hb. cbn [res_bind].
    by rewrite (proj2 (IH bs') Hbs).
Qed.

Lemma elem_of_try_map {A B} (f : A -> res B) l bs b :
  try_map f l = Ok bs -> b ∈ bs <-> exists a, a ∈ l /\ f a = Ok b.
Proof.
  intros H%try_map_Forall2. induction H as [|a b' l bs Hb _ IH].
  { split; [by intros ?%not_elem_of_nil|by intros (a & ?%not_elem_of_nil & _)]. }
  rewrite elem_of_cons, IH. setoid_rewrite elem_of_cons. split.
  - intros [->|(x & Hx & Hf)]; eauto.
  - intros (x & [->|Hx] & Hf); [left; congruence|eauto].
Qed.

Lemma NoDup_upper_dedupe l : NoDup (upper_dedupe l).
Proof. apply NoDup_dedupe. Qed.

Lemma elem_of_append_new x y l : y ∈ append_new x l <-> y ∈ l \/ y = x.
Proof. unfold append_new. destruct (mem x l) eqn:E; [apply mem_spec in E|]; set_solver. Qed.

Lemma NoDup_append_new x l : NoDup l -> NoDup (append_new x l).
Proof.
  intros H. unfold append_new. destruct (mem x l) eqn:E; [done|].
  apply NoDup_app. split_and!; [done| |apply NoDup_singleton].
  intros y Hy ->%list_elem_of_singleton. apply mem_spec in Hy. congruence.
Qed.

(** ** Collecting the targets *)

Lemma find_target_None code l : find_target code l = None <-> code ∉ map tg_code l.
Proof.
  unfold find_target. induction l as [|g l IH]; simpl; [set_solver|].
  destruct (String.eqb_spec (tg_code g) code); set_solver.
Qed.

(** A target is added for its code: a code that is known stays where it is, and
    a new one comes last. *)
Lemma desired_codes_add code name pr src rs c :
  desired_codes (add_target code name pr src rs c) = append_new code (desired_codes c).
Proof.
  unfold desired_codes, add_target, append_new. cbn [desired].
  assert (Hmap : forall l, map tg_code (map (fun g => if String.eqb (tg_code g) code
      then merge_target name pr src rs g else g) l) = map tg_code l).
  { intros l. rewrite map_map. apply map_ext. intros g. by destruct (String.eqb _ _). }
  rewrite Hmap. destruct (find_target code (desired c)) eqn:E.
  - destruct (mem code _) eqn:Em; [done|].
    assert (find_target code (desired c) = None) by (apply find_target_None; by intros ?%mem_spec; congruence).
    congruence.
  - apply find_target_None in E. destruct (mem code _) eqn:Em; [by apply mem_spec in Em|].
    by rewrite map_app.
Qed.

(** A priority at least [k], before and after a merge. *)
Lemma f_max_keeps k p q : f_le k p = true -> f_le k (f_max (or_zero p) q) = true.
Proof.
  intros H. assert (Hz : f_le k (or_zero p) = true).
  { unfold or_zero. destruct (f_is_zero p) eqn:E; [|done]. unfold f_is_zero in E.
    by destruct p as [[]| | |]. }
  unfold f_max. destruct (f_lt _ q) eqn:E; [|done]. eapply f_le_trans; [done|]. by apply f_lt_le.
Qed.
Lemma f_max_reaches p q : f_nan p = false -> f_nan q = false -> f_le q (f_max (or_zero p) q) = true.
Proof.
  intros Hp Hq. apply f_max_ub; [|done]. unfold or_zero. by destruct (f_is_zero p).
Qed.

(** The code is wanted, with at least this priority. *)
Definition wanted_at (code : string) (k : float) (c : collection) : Prop :=
  exists g, g ∈ desired c /\ tg_code g = code /\ f_le k (tg_priority g) = true.

Lemma wanted_at_kept code k code' name pr src rs c :
  wanted_at code k c -> wanted_at code k (add_target code' name pr src rs c).
Proof.
  intros (g & Hg & Hc & Hk). unfold wanted_at, add_target. cbn [desired].
  exists (if String.eqb (tg_code g) code' then merge_target name pr src rs g else g).
  split_and!; [|by destruct (String.eqb _ _)|destruct (String.eqb _ _); [by apply f_max_keeps|done]].
  apply list_elem_of_fmap. exists g. split; [done|].
  destruct (find_target _ _); [done|]. apply elem_of_app. by left.
Qed.

(** Every priority is a number. *)
Definition priced (c : collection) : Prop := Forall (fun g => f_nan (tg_priority g) = false) (desired c).

Lemma priced_add code name pr src rs c :
  f_nan pr = false -> priced c -> priced (add_target code name pr src rs c).
Proof.
  unfold priced, add_target. intros Hp Hc. cbn [desired]. apply Forall_fmap.
  assert (H : Forall (fun g => f_nan (tg_priority g) = false)
                (match find_target code (desired c) with
                 | Some _ => desired c | None => desired c ++ [new_target code name pr] end)).
  { destruct (find_target _ _); [done|]. apply Forall_app. by split; [|constructor]. }
  eapply Forall_impl; [exact H|]. intros g Hg. unfold compose. destruct (String.eqb _ _); [|done].
  cbn [merge_target tg_priority]. apply f_max_nan; [|done]. unfold or_zero. by destruct (f_is_zero _).
Qed.

Lemma wanted_at_added code name pr src rs c :
  f_nan pr = false -> priced c -> wanted_at code pr (add_target code name pr src rs c).
Proof.
  intros Hp Hc. unfold wanted_at, add_target. cbn [desired].
  assert (Hg : exists g, g ∈ match find_target code (desired c) with
                 | Some _ => desired c | None => desired c ++ [new_target code name pr] end /\
               tg_code g = code /\ f_nan (tg_priority g) = false).
  { destruct (find_target code (desired c)) as [g|] eqn:E.
    - exists g. apply find_some in E as [Hin He%String.eqb_eq]. apply list_elem_of_In in Hin.
      split_and!; [done..|]. unfold priced in Hc. rewrite list.Forall_forall in Hc. by apply Hc.
    - exists (new_target code name pr). split_and!; [|done..]. set_solver. }
  destruct Hg as (g & Hin & Hcode & Hn). exists (merge_target name pr src rs g).
  split_and!; [|done|by apply f_max_reaches].
  apply list_elem_of_fmap. exists g. by rewrite Hcode, String.eqb_refl.
Qed.

(** ** A group of targets

    [adder key prio add]: [add a] adds the target of [key a], of priority [prio a]. *)
Definition adder {A} (key : A -> string) (prio : A -> float) (add : A -> collection -> collection) : Prop :=
  forall a, exists name src rs, add a = add_target (key a) name (prio a) src rs.

Lemma anchor_adder : adder id (fun _ => f_of_Z 10000) add_anchor.
Proof. intros a. by do 3 eexists. Qed.
Lemma seed_adder : adder id (fun _ => f_of_Z 9800) add_manual_seed.
Proof. intros a. by do 3 eexists. Qed.
Lemma condition_adder : adder ci_code (fun _ => f_of_Z 9000) add_condition.
Proof. intros a. by do 3 eexists. Qed.
Lemma candidate_adder : adder ca_code (fun _ => f_of_Z 8000) add_candidate.
Proof. intros a. by do 3 eexists. Qed.
Lemma theme_adder : adder ti_code ti_priority add_theme_item.
Proof. intros a. by do 3 eexists. Qed.

Section Groups.
Context {A : Type} (key : A -> string) (prio : A -> float) (add : A -> collection -> collection)
  (Hadd : adder key prio add).

Lemma desired_codes_all l c x :
  x ∈ desired_codes (add_all add l c) <-> x ∈ desired_codes c \/ x ∈ map key l.
Proof using Hadd.
  revert c. induction l as [|a l IH]; intros c; cbn [add_all fold_left map]; [set_solver|].
  unfold add_all in IH. rewrite IH. destruct (Hadd a) as (n & s & r & ->).
  rewrite desired_codes_add, elem_of_append_new, elem_of_cons. tauto.
Qed.

Lemma NoDup_desired_all l c :
  NoDup (desired_codes c) -> NoDup (desired_codes (add_all add l c)).
Proof using Hadd.
  revert c. induction l as [|a l IH]; intros c Hc; [done|]. apply IH.
  destruct (Hadd a) as (n & s & r & ->). rewrite desired_codes_add. by apply NoDup_append_new.
Qed.

Lemma wanted_at_all_kept code k l c : wanted_at code k c -> wanted_at code k (add_all add l c).
Proof using Hadd.
  revert c. induction l as [|a l IH]; intros c Hc; [done|]. apply IH.
  destruct (Hadd a) as (n & s & r & ->). by apply wanted_at_kept.
Qed.

Context (Hprio : forall a, f_nan (prio a) = false).

Lemma priced_all l c : priced c -> priced (add_all add l c).
Proof using Hadd Hprio.
  revert c. induction l as [|a l IH]; intros c Hc; [done|]. apply IH.
  destruct (Hadd a) as (n & s & r & ->). by apply priced_add.
Qed.

Lemma wanted_at_all a l c : priced c -> a ∈ l -> wanted_at (key a) (prio a) (add_all add l c).
Proof using Hadd Hprio.
  intros Hc Ha. revert c Hc. induction Ha as [a l|a b l _ IH]; intros c Hc; cbn [add_all fold_left].
  - apply wanted_at_all_kept. destruct (Hadd a) as (n & s & r & ->). by apply wanted_at_added.
  - apply IH. destruct (Hadd b) as (n & s & r & ->). by apply priced_add.
Qed.
End Groups.

(** ** Codes

    Every code the planner handles is one of six digits. *)
Abbreviation stock := (fun c : string => is_stock_code c = true).

Lemma safe_code_stock v c : _safe_code v = Ok (Some c) -> is_stock_code c = true.
Proof.
  unfold _safe_code. destruct (validate_stock_code v "code") as [c'|[]] eqn:E; try done.
  intros [= <-]. unfold validate_stock_code in E. apply res_bind_ok in E as (s & _ & E).
  by eapply validate_code_ok.
Qed.

(** The items of a list of rows, some of which give none. *)
Lemma omap_try_map {A B} (P : B -> Prop) (f : A -> res (option B)) l os :
  (forall a b, f a = Ok (Some b) -> P b) -> try_map f l = Ok os -> Forall P (omap id os).
Proof.
  intros Hf H. apply list.Forall_forall. intros b (o & Ho & Hb)%list_elem_of_omap.
  apply (elem_of_try_map _ _ _ _ H) in Ho as (a & _ & Ha). unfold id in Hb. subst o. by eapply Hf.
Qed.

Lemma normalize_stock l cs : _normalize_codes l = Ok cs -> Forall stock cs.
Proof.
  unfold _normalize_codes. intros (os & Ho & <-%res_ok_inj)%res_bind_ok.
  eapply omap_try_map; [|exact Ho]. intros a b. apply safe_code_stock.
Qed.

Lemma upper_dedupe_stock l : Forall stock l -> Forall stock (upper_dedupe l).
Proof.
  rewrite !list.Forall_forall. intros H c Hc. unfold upper_dedupe in Hc.
  apply elem_of_dedupe, list_elem_of_fmap in Hc as (x & -> & Hx). pose proof (H x Hx) as Hs.
  cbn. apply andb_true_iff in Hs as [? ?]. rewrite digits_upper by done. by apply andb_true_iff.
Qed.

Lemma parse_code_list_stock json_loads v cs : _parse_code_list_value json_loads v = Ok cs -> Forall stock cs.
Proof.
  unfold _parse_code_list_value. destruct v as [v|]; [|intros <-%res_ok_inj; constructor].
  destruct (negb _); [intros <-%res_ok_inj; constructor|]. intros (x & _ & H)%res_bind_ok.
  by apply normalize_stock in H.
Qed.

Lemma condition_items_stock t s now l :
  _recent_condition_enter_items t s now = Ok l -> Forall (fun i => stock (ci_code i)) l.
Proof.
  unfold _recent_condition_enter_items. intros (os & Ho & <-%res_ok_inj)%res_bind_ok.
  eapply omap_try_map; [|exact Ho]. intros a b Hb. unfold condition_item_of in Hb.
  apply res_bind_ok in Hb as ([c|] & Hc & Hb); [|done]. apply res_bind_ok in Hb as (age & _ & Hb).
  apply safe_code_stock in Hc. apply res_ok_inj in Hb. destruct (match age with Some _ => _ | None => _ end); [done|].
  by injection Hb as <-.
Qed.

Lemma candidate_items_stock t d l :
  _active_candidate_items t d = Ok l -> Forall (fun i => stock (ca_code i)) l.
Proof.
  unfold _active_candidate_items. intros (os & Ho & <-%res_ok_inj)%res_bind_ok.
  eapply omap_try_map; [|exact Ho]. intros a b Hb. unfold candidate_item_of in Hb.
  apply res_bind_ok in Hb as ([c|] & Hc & Hb%res_ok_inj); [|done]. apply safe_code_stock in Hc.
  by injection Hb as <-.
Qed.

Lemma try_fold_inv {A S} (P : S -> Prop) (f : S -> A -> res S) l st st' :
  (forall st a st', P st -> f st a = Ok st' -> P st') -> P st -> try_fold f st l = Ok st' -> P st'.
Proof.
  intros Hf. revert st. induction l as [|a l IH]; intros st Hst; cbn [try_fold]; [by intros <-%res_ok_inj|].
  intros (st1 & H1 & H)%res_bind_ok. eapply IH; [|exact H]. by eapply Hf.
Qed.

Lemma theme_items_stock json_loads t registered desired m n l near :
  _theme_subscription_items json_loads t registered desired m n = Ok (l, near) ->
  Forall (fun i => stock (ti_code i)) l.
Proof.
  unfold _theme_subscription_items. intros (sc & Hsc & H)%res_bind_ok. apply res_ok_inj in H.
  apply pair_equal_spec in H as [<- _]. rewrite stable_sort_perm.
  eapply (try_fold_inv (fun sc => Forall (fun i => stock (ti_code i)) (sc_items sc))); [| |exact Hsc]; [|constructor].
  clear. intros sc [[th m'] md] sc' Hsc H. unfold scan_theme_row in H.
  apply res_bind_ok in H as ([code|] & Hcode & H); [|by apply res_ok_inj in H as <-].
  apply safe_code_stock in Hcode. cbv zeta in H.
  destruct (_ && _) in H; [by apply res_ok_inj in H as <-|].
  destruct (_ && _) in H; [by apply res_ok_inj in H as <-|].
  apply res_bind_ok in H as (item & Hitem & <-%res_ok_inj). cbn [sc_items]. apply Forall_app. split; [done|].
  constructor; [|constructor]. unfold theme_item_of in Hitem. apply res_bind_ok in Hitem as (ld & _ & Hitem).
  apply res_bind_ok in Hitem as (rk & _ & <-%res_ok_inj). exact Hcode.
Qed.

Lemma collected_stock json_loads t s d anchors seeds registered now c cands near :
  Forall stock anchors -> Forall stock seeds ->
  collect_targets json_loads t s d anchors seeds registered now = Ok (c, cands, near) ->
  Forall stock (desired_codes c).
Proof.
  unfold collect_targets. intros Hanchors Hseeds H. res_inv H. rename a into conds, a0 into cands'.
  destruct a1 as [items near']. apply res_ok_inj in H.
  apply pair_equal_spec in H as [[<- _]%pair_equal_spec _].
  apply condition_items_stock in Ha. apply candidate_items_stock in Ha0. apply theme_items_stock in Ha1.
  apply list.Forall_forall. intros x Hx.
  apply (desired_codes_all _ _ _ theme_adder) in Hx as [Hx|Hx];
    [|revert x Hx; apply list.Forall_forall; by apply Forall_fmap].
  apply (desired_codes_all _ _ _ candidate_adder) in Hx as [Hx|Hx];
    [|revert x Hx; apply list.Forall_forall; by apply Forall_fmap].
  apply (desired_codes_all _ _ _ condition_adder) in Hx as [Hx|Hx];
    [|revert x Hx; apply list.Forall_forall; by apply Forall_fmap].
  rewrite list.Forall_forall in Hanchors, Hseeds.
  apply (desired_codes_all _ _ _ seed_adder) in Hx as [Hx|Hx]; [|rewrite map_id in Hx; by apply Hseeds].
  apply (desired_codes_all _ _ _ anchor_adder) in Hx as [Hx|Hx]; [|rewrite map_id in Hx; by apply Hanchors].
  by apply not_elem_of_nil in Hx.
Qed.

(** What the sources gave, and what is wanted because of them. *)
Lemma collect_targets_spec json_loads t s d anchors seeds registered now c cands near :
  collect_targets json_loads t s d anchors seeds registered now = Ok (c, cands, near) ->
  NoDup (desired_codes c) /\
  (forall a, a ∈ anchors -> wanted_at a (f_of_Z 10000) c) /\
  (forall a, a ∈ seeds -> wanted_at a (f_of_Z 9800) c) /\
  (forall i, i ∈ cands -> wanted_at (ca_code i) (f_of_Z 8000) c).
Proof.
  unfold collect_targets. intros H. res_inv H. rename a into conds, a0 into cands'.
  destruct a1 as [items near']. apply res_ok_inj in H.
  apply pair_equal_spec in H as [[<- <-]%pair_equal_spec <-].
  set (c0 := {| desired := []; counted := [] |}).
  set (c1 := add_all add_manual_seed seeds (add_all add_anchor anchors c0)).
  set (c2 := add_all add_candidate cands' (add_all add_condition conds c1)).
  assert (Hp0 : priced (add_all add_anchor anchors c0)) by (by apply (priced_all _ _ _ anchor_adder); [|constructor]).
  assert (Hp1 : priced c1) by by apply (priced_all _ _ _ seed_adder).
  assert (Hp2 : priced (add_all add_condition conds c1)) by by apply (priced_all _ _ _ condition_adder).
  assert (Hlast : forall code k, wanted_at code k c2 ->
    wanted_at code k (add_all add_theme_item items
      {| desired := desired c2; counted := counted c2 ++ map py_upper (concat (map tn_reason_codes near')) |})).
  { intros code k Hk. by apply (wanted_at_all_kept _ _ _ theme_adder). }
  assert (Hmid : forall code k, wanted_at code k c1 -> wanted_at code k c2).
  { intros code k Hk. unfold c2. apply (wanted_at_all_kept _ _ _ candidate_adder).
    by apply (wanted_at_all_kept _ _ _ condition_adder). }
  split_and!.
  - apply (NoDup_desired_all _ _ _ theme_adder). change (NoDup (desired_codes c2)).
    apply (NoDup_desired_all _ _ _ candidate_adder), (NoDup_desired_all _ _ _ condition_adder).
    apply (NoDup_desired_all _ _ _ seed_adder), (NoDup_desired_all _ _ _ anchor_adder), NoDup_nil_2.
  - intros x Hx. apply Hlast, Hmid. apply (wanted_at_all_kept _ _ _ seed_adder).
    by apply (wanted_at_all id _ _ anchor_adder); [| constructor |].
  - intros x Hx. apply Hlast, Hmid. by apply (wanted_at_all id _ _ seed_adder).
  - intros x Hx. apply Hlast. by apply (wanted_at_all _ _ _ candidate_adder).
Qed.

(** ** The selection *)

Definition waiting (registered : list string) (l : list target) : list target :=
  List.filter (fun g => negb (mem (tg_code g) registered)) l.

Definition register_view (exchange : string) (g : target) : target_view :=
  _target_view g _REGISTER_ACTION exchange [].
Definition near_view (exchange : string) (g : target) : target_view :=
  _target_view g _REGISTER_ACTION exchange ["MAX_TOTAL_REACHED"].

(** The loop takes the first targets that wait, as many as there is room for. *)
Lemma select_targets registered capacity exchange l sn :
  let sn' := fold_left (select_target registered capacity exchange) l sn in
  let room := (Z.to_nat capacity - length (sn_register sn))%nat in
  let w := waiting registered l in
  sn_register sn' = sn_register sn ++ map (register_view exchange) (take room w) /\
  sn_near_miss sn' = sn_near_miss sn ++ map (near_view exchange) (drop room w).
Proof.
  cbv zeta. revert sn. induction l as [|g l IH]; intros sn.
  { cbn [fold_left waiting List.filter]. rewrite take_nil, drop_nil. by rewrite !app_nil_r. }
  cbn [fold_left waiting List.filter]. destruct (IH (select_target registered capacity exchange sn g)) as [-> ->].
  unfold select_target. destruct (mem (tg_code g) registered); [done|]. cbn [negb].
  destruct (Z.leb_spec capacity (Z.of_nat (length (sn_register sn)))) as [Hc|Hc]; cbn [sn_register sn_near_miss].
  - replace (Z.to_nat capacity - length (sn_register sn))%nat with 0%nat by lia.
    rewrite !take_0, !drop_0. cbn [map]. by rewrite <- app_assoc.
  - replace (Z.to_nat capacity - length (sn_register sn))%nat
      with (S (Z.to_nat capacity - length (sn_register sn ++ [register_view exchange g])))
      by (rewrite length_app; cbn [length]; lia).
    cbn [firstn skipn map]. by rewrite <- app_assoc.
Qed.

Lemma elem_of_waiting registered l g :
  g ∈ waiting registered l <-> g ∈ l /\ tg_code g ∉ registered.
Proof.
  unfold waiting. rewrite <- mem_spec, not_true_iff_false, !list_elem_of_In, filter_In.
  by rewrite negb_true_iff.
Qed.

#[export] Instance target_ordering : Ordering target_order.
Proof.
  unfold target_order.
  pose proof (ordering_desc _ (Ordering0 := ordering_key tg_priority f_order)).
  pose proof (ordering_key tg_code String.compare). exact (ordering_then _ _).
Qed.

(** ** Stale codes *)

(** There is a tick of the code that is young enough. *)
Definition tick_fresh (t : subscription_tables) (s : SubscriptionSettings) (now : Z) (code : string) : Prop :=
  exists row age, latest_tick_of t code (realtime_subscription_exchange s) = Some row /\
    _age_seconds (Some (lt_event_ts row)) now = Ok (Some age) /\
    f_gtZ age (realtime_subscription_remove_stale_after_sec s) = false.

(** What the reasons of an item say. *)
Lemma removal_reason first code wanted anchors :
  first = "REGISTERED_TICK_STALE" \/ first = "REGISTERED_TICK_MISSING" ->
  mem "STALE_REGISTERED_REMOVE_CANDIDATE" (upper_dedupe
    [first; if mem code anchors then "ANCHOR_STALE_KEEP" else if mem code wanted then "DESIRED_STALE_KEEP"
            else "STALE_REGISTERED_REMOVE_CANDIDATE"]) = true <-> ((code ∉ anchors) /\ (code ∉ wanted)).
Proof.
  rewrite <- !mem_spec.
  by destruct (mem code anchors), (mem code wanted); intros [-> | ->]; split; intros; destruct_and?; vm_compute in *.
Qed.

(** A registered code has an item exactly when it has no fresh tick, and the item
    says whether it may be removed. *)
Lemma stale_code_of_spec t wanted anchors s now code r :
  stale_code_of t wanted anchors s now code = Ok r ->
  match r with
  | None => tick_fresh t s now code
  | Some v => sl_code v = code /\ ~ tick_fresh t s now code /\
      (is_remove_candidate v = true <-> ((code ∉ anchors) /\ (code ∉ wanted)))
  end.
Proof.
  unfold stale_code_of, tick_fresh. intros H. res_inv H. injection H as <-. rename a into age.
  destruct (latest_tick_of t code _) as [row|] eqn:Er; cbn [option_map] in *.
  - destruct age as [age|].
    + destruct (f_gtZ age _) eqn:Eg; cbn [negb]; [|by exists row, age].
      split_and!; [done| |apply removal_reason; auto].
      intros (row' & age' & [= <-] & Ha' & Hf). congruence.
    + cbn [negb]. split_and!; [done| |apply removal_reason; auto].
      intros (row' & age' & [= <-] & Ha' & Hf). congruence.
  - cbn [negb]. split_and!; [done| |apply removal_reason; auto]. by intros (row' & age' & ? & _).
Qed.

Lemma remove_disabled_stays v : is_remove_candidate v = true -> is_remove_candidate (remove_disabled v) = true.
Proof.
  unfold is_remove_candidate, remove_disabled, upper_dedupe. cbn [sl_reason_codes].
  rewrite !mem_spec, elem_of_dedupe, map_app, elem_of_app. intros H. left.
  apply list_elem_of_fmap. by exists "STALE_REGISTERED_REMOVE_CANDIDATE".
Qed.

(** Disabling the removal changes what an item says, not which items there are. *)
Lemma removals_disabled disabled l :
  map sl_code (List.filter is_remove_candidate
    (map (fun v => if is_remove_candidate v && disabled then remove_disabled v else v) l)) =
  map sl_code (List.filter is_remove_candidate l).
Proof.
  induction l as [|v l IH]; [done|]. cbn [map List.filter].
  destruct (is_remove_candidate v) eqn:E; cbn [andb].
  - destruct disabled; [rewrite (remove_disabled_stays v E)|rewrite E]; cbn [map]; by rewrite IH.
  - by rewrite E.
Qed.

Lemma removals_exact t registered wanted anchors s now l :
  _stale_registered_codes t registered wanted anchors s now = Ok l ->
  forall code, code ∈ map sl_code (List.filter is_remove_candidate l) <->
    code ∈ registered /\ (code ∉ anchors) /\ (code ∉ wanted) /\ ~ tick_fresh t s now code.
Proof.
  unfold _stale_registered_codes. intros (items & Hi & <-%res_ok_inj)%res_bind_ok code.
  rewrite list_elem_of_fmap. setoid_rewrite list_elem_of_In. setoid_rewrite filter_In.
  setoid_rewrite <- list_elem_of_In. setoid_rewrite list_elem_of_omap. split.
  - intros (v & -> & (o & Ho & Hv) & Hr). unfold id in Hv. subst o.
    apply (elem_of_try_map _ _ _ _ Hi) in Ho as (a & Ha & Hf%stale_code_of_spec).
    cbn in Hf. destruct Hf as (-> & Hfr & Hex). apply Hex in Hr as [? ?]. done.
  - intros (Hreg & Ha & Hw & Hfr).
    apply try_map_Forall2 in Hi. apply list_elem_of_lookup in Hreg as (n & Hn).
    destruct (Forall2_lookup_l _ _ _ _ _ Hi Hn) as (o & Ho & Hf). pose proof (stale_code_of_spec _ _ _ _ _ _ _ Hf) as Hs.
    destruct o as [v|]; [|done]. destruct Hs as (Hc & _ & Hex).
    exists v. split_and!; [done|exists (Some v); split; [by eapply list_elem_of_lookup_2|done]|by apply Hex].
Qed.

(** ** The plan *)

(** What the plan of an enabled planner consists of. *)
Lemma plan_parts json_loads t s today d regs seeds q now p :
  realtime_subscription_enabled s = true ->
  plan_subscriptions json_loads t s today d regs seeds q now = Ok p ->
  exists c cands near sds stale,
    collect_targets json_loads t s (sp_trade_date p) (sp_anchors p) sds (sp_registered p) now
      = Ok (c, cands, near) /\
    _stale_registered_codes t (sp_registered p) (desired_codes c) (sp_anchors p) s now = Ok stale /\
    let exchange := realtime_subscription_exchange s in
    let w := waiting (sp_registered p) (stable_sort (cmp_le target_order) (desired c)) in
    let room := Z.to_nat (realtime_subscription_max_total s - Z.of_nat (length (sp_registered p))) in
    sp_exchange p = exchange /\
    sp_register p = map (register_view exchange) (take room w) /\
    sp_near_miss p = map (near_view exchange) (drop room w) /\
    map sl_code (sp_remove p) = map sl_code (List.filter is_remove_candidate stale) /\
    map kt_code (sp_keep p) = sp_registered p /\ NoDup (sp_registered p) /\
    Forall stock (sp_registered p) /\ Forall stock (sp_anchors p) /\ Forall stock sds.
Proof.
  unfold plan_subscriptions. intros Hen H. rewrite Hen in H. cbn [negb] in H.
  apply res_bind_ok in H as (anchors & Ha%normalize_stock & H).
  apply res_bind_ok in H as (sds & Hs%normalize_stock & H). apply res_bind_ok in H as (registered & Hr & H).
  assert (Hr' : Forall stock registered).
  { destruct regs; [by eapply normalize_stock|by eapply parse_code_list_stock]. } unfold enabled_plan in H.
  apply res_bind_ok in H as ([[c cands] near] & Hc & H). apply res_bind_ok in H as (stale & Hst & H).
  apply res_ok_inj in H as <-. exists c, cands, near, (upper_dedupe sds), stale.
  split; [exact Hc|]. split; [exact Hst|]. cbv zeta. cbn [sp_registered sp_register sp_near_miss sp_remove sp_keep sp_exchange sp_anchors].
  match goal with |- context [fold_left ?f ?l ?sn] =>
    destruct (select_targets (upper_dedupe registered) (Z.max (realtime_subscription_max_total s - Z.of_nat (length (upper_dedupe registered))) 0) (realtime_subscription_exchange s) l sn) as [-> ->] end.
  cbn [sn_register sn_near_miss length]. rewrite Nat.sub_0_r. cbn [app].
  replace (Z.to_nat (Z.max _ 0)) with (Z.to_nat (realtime_subscription_max_total s - Z.of_nat (length (upper_dedupe registered)))) by lia.
  split_and!; [done|done|done|apply removals_disabled| |apply NoDup_upper_dedupe|by apply upper_dedupe_stock..].
  unfold _keep_targets. rewrite map_map. rewrite <- (map_id (upper_dedupe registered)) at 2.
  apply map_ext. intros code. by destruct (find_target _ _).
Qed.

(** What comes first in the order has at least the priority. *)
Lemma target_order_priority g g' :
  cmp_le target_order g g' = true ->
  f_lt (tg_priority g) (tg_priority g') = false /\
  (forall k, f_le k (tg_priority g') = true -> f_le k (tg_priority g) = true).
Proof.
  unfold cmp_le, target_order. intros H.
  assert (Hn : f_order (tg_priority g') (tg_priority g) <> Gt) by (intros E; by rewrite E in H).
  clear H. split.
  - destruct (f_lt _ _) eqn:E; [|done]. destruct Hn. destruct (f_lt_num _ _ E) as [Hg Hg'].
    rewrite (cmp_opp (cmp := f_order) (tg_priority g)). by rewrite (proj2 (f_order_lt _ _ Hg Hg') E).
  - intros k Hk. destruct (f_le_num _ _ Hk) as [_ Hnum]. eapply f_le_trans; [exact Hk|].
    destruct (f_nan (tg_priority g)) eqn:En.
    + destruct Hn. unfold f_order. apply f_nan_key in Hnum as [x ->].
      destruct (f_key (tg_priority g)) as [y|] eqn:Ey; [|done].
      assert (f_nan (tg_priority g) = false) by (apply f_nan_key; eauto). congruence.
    + apply f_lt_false; [done..|]. destruct (f_lt _ _) eqn:E; [|done]. destruct Hn.
      rewrite (cmp_opp (cmp := f_order) (tg_priority g)). by rewrite (proj2 (f_order_lt _ _ En Hnum) E).
Qed.

Lemma sorted_take_drop {A} (R : A -> A -> Prop) n l x y :
  StronglySorted R l -> x ∈ take n l -> y ∈ drop n l -> R x y.
Proof.
  intros H. revert n. induction H as [|a l _ IH Ha]; intros [|n]; cbn [firstn skipn];
    try (intros []%not_elem_of_nil).
  intros [->|Hx]%elem_of_cons Hy; [|by eapply IH].
  rewrite list.Forall_forall in Ha. apply Ha. rewrite <- (take_drop n l). apply elem_of_app. by right.
Qed.

Lemma waiting_sorted registered l :
  StronglySorted (fun a b => cmp_le target_order a b = true)
    (waiting registered (stable_sort (cmp_le target_order) l)).
Proof.
  pose proof (cmp_sorted target_order l) as H. unfold waiting.
  induction H as [|a l' _ IH Ha]; cbn [List.filter]; [constructor|].
  destruct (negb _); [|done]. constructor; [done|]. rewrite list.Forall_forall in Ha |- *.
  intros b Hb. apply Ha. apply list_elem_of_In, filter_In in Hb as [Hb _]. by apply list_elem_of_In.
Qed.

Lemma disabled_plan_parts json_loads t s today d regs seeds q now p :
  realtime_subscription_enabled s = false ->
  plan_subscriptions json_loads t s today d regs seeds q now = Ok p ->
  sp_register p = [] /\ sp_remove p = [] /\ NoDup (sp_registered p).
Proof.
  unfold plan_subscriptions. intros Hen H. rewrite Hen in H. cbn [negb] in H. res_inv H.
  apply res_ok_inj in H as <-. cbn. split_and!; [done|done|apply NoDup_upper_dedupe].
Qed.

Lemma codes_of_views exchange n l :
  map tv_code (map (register_view exchange) (take n l)) = take n (map tg_code l).
Proof. by rewrite map_map, <- firstn_map. Qed.

Lemma NoDup_waiting_codes registered l :
  NoDup (map tg_code l) ->
  NoDup (map tg_code (waiting registered (stable_sort (cmp_le target_order) l))).
Proof.
  intros H. assert (Hs : NoDup (map tg_code (stable_sort (cmp_le target_order) l))).
  { erewrite Permutation_map by apply stable_sort_perm. exact H. }
  revert Hs. generalize (stable_sort (cmp_le target_order) l). intros l'.
  unfold waiting. induction l' as [|g l' IH]; [done|]. cbn [map List.filter].
  intros [Hg Hl]%NoDup_cons. destruct (negb _); [|by apply IH]. cbn [map]. constructor; [|by apply IH].
  intros (x & Hx & Hin)%list_elem_of_fmap. apply Hg. apply list_elem_of_fmap. exists x.
  split; [done|]. apply list_elem_of_In, filter_In in Hin as [Hin _]. by apply list_elem_of_In.
Qed.

Lemma elem_of_take_any {A} n (l : list A) x : x ∈ take n l -> x ∈ l.
Proof. intros H. rewrite <- (take_drop n l). apply elem_of_app. by left. Qed.
Lemma elem_of_drop {A} n (l : list A) x : x ∈ drop n l -> x ∈ l.
Proof. intros H. rewrite <- (take_drop n l). apply elem_of_app. by right. Qed.

Lemma same_target l g g' :
  NoDup (map tg_code l) -> g ∈ l -> g' ∈ l -> tg_code g = tg_code g' -> g = g'.
Proof.
  induction l as [|x l IH]; cbn [map]; [by intros _ ?%not_elem_of_nil|].
  intros [Hx Hl]%NoDup_cons [->|Hg]%elem_of_cons [->|Hg']%elem_of_cons E; [done| | |by apply IH].
  - destruct Hx. rewrite E. by apply list_elem_of_fmap_2.
  - destruct Hx. rewrite <- E. by apply list_elem_of_fmap_2.
Qed.

(** What a plan registers or removes is a stock code. *)
Lemma planned_codes json_loads t s today d regs seeds q now p :
  plan_subscriptions json_loads t s today d regs seeds q now = Ok p ->
  Forall (fun v => stock (tv_code v)) (sp_register p) /\ Forall (fun v => stock (sl_code v)) (sp_remove p).
Proof.
  intros H. destruct (realtime_subscription_enabled s) eqn:Hen.
  - destruct (plan_parts _ _ _ _ _ _ _ _ _ _ Hen H) as (c & cands & near & sds & stale & Hc & Hst & Hp).
    cbv zeta in Hp. destruct Hp as (_ & Hreg & _ & Hrem & _ & _ & Hsr & Hsa & Hss).
    pose proof (collected_stock _ _ _ _ _ _ _ _ _ _ _ Hsa Hss Hc) as Hcodes.
    rewrite list.Forall_forall in Hcodes, Hsr. split.
    + rewrite Hreg. apply list.Forall_forall. intros v (g & -> & Hg)%list_elem_of_fmap.
      apply elem_of_take_any, elem_of_waiting in Hg as [Hg _]. rewrite elem_of_stable_sort in Hg.
      change (is_stock_code (tg_code g) = true). apply Hcodes. by apply (list_elem_of_fmap_2 tg_code).
    + apply list.Forall_forall. intros v Hv. apply Hsr.
      apply (list_elem_of_fmap_2 sl_code) in Hv. change (sl_code v ∈ map sl_code (sp_remove p)) in Hv.
      rewrite Hrem in Hv. by apply (removals_exact _ _ _ _ _ _ _ Hst) in Hv as [? _].
  - by destruct (disabled_plan_parts _ _ _ _ _ _ _ _ _ _ Hen H) as (-> & -> & _).
Qed.

(** C22. The codes that are streamed once the plan is carried out are distinct and
    no more than the limit, unless more were streamed before; what is to be removed
    was streamed and is neither an anchor nor to be registered, and no tick of it is
    young enough. *)
Theorem plan_within_limit json_loads t s today d regs seeds q now p :
  plan_subscriptions json_loads t s today d regs seeds q now = Ok p ->
  let streamed := sp_registered p ++ map tv_code (sp_register p) in
  NoDup streamed /\
  Z.of_nat (length streamed) <=
    Z.max (realtime_subscription_max_total s) (Z.of_nat (length (sp_registered p))) /\
  (forall code, code ∈ map sl_code (sp_remove p) ->
     code ∈ sp_registered p /\ (code ∉ sp_anchors p) /\ (code ∉ map tv_code (sp_register p)) /\
     ~ tick_fresh t s now code).
Proof.
  intros H. cbv zeta. destruct (realtime_subscription_enabled s) eqn:Hen.
  - destruct (plan_parts _ _ _ _ _ _ _ _ _ _ Hen H) as (c & cands & near & sds & stale & Hc & Hst & Hp).
    cbv zeta in Hp. destruct Hp as (_ & Hreg & _ & Hrem & _ & Hnd & _).
    destruct (collect_targets_spec _ _ _ _ _ _ _ _ _ _ _ Hc) as (Hcodes & _).
    pose proof (NoDup_waiting_codes (sp_registered p) _ Hcodes) as Hw.
    rewrite Hreg, codes_of_views, Hrem.
    set (w := waiting _ _) in *. set (room := Z.to_nat _) in *.
    assert (Hfresh : forall code, code ∈ take room (map tg_code w) -> code ∉ sp_registered p).
    { intros code Hin. assert (Hin' : code ∈ map tg_code w) by (rewrite <- (take_drop room); apply elem_of_app; by left).
      apply list_elem_of_fmap in Hin' as (g & -> & [_ ?]%elem_of_waiting). done. }
    split_and!.
    + apply NoDup_app. split_and!; [done|intros x Hx Hx'; by apply (Hfresh x)|].
      rewrite <- (take_drop room) in Hw. by apply NoDup_app in Hw as (? & _).
    + rewrite length_app, length_take. lia.
    + intros code Hin. apply (removals_exact _ _ _ _ _ _ _ Hst) in Hin as (Hr & Ha & _ & Hf).
      split_and!; [done..| |done]. intros Hx. by apply (Hfresh code).
  - destruct (disabled_plan_parts _ _ _ _ _ _ _ _ _ _ Hen H) as (-> & -> & Hnd).
    cbn [map]. rewrite app_nil_r. split_and!; [done|lia|]. by intros code ?%not_elem_of_nil.
Qed.

(** C21. An enabled planner wants the targets of its sources, each with the highest
    priority a source gave it; it registers the best of those that are not streamed,
    as many as there is room for, and reports the others as near misses: none of
    these has a higher priority than one that is registered, and an anchor is left
    out only for targets of priority 10,000 or more.  It removes exactly the streamed
    codes nothing wants whose latest tick is missing or too old. *)
Theorem plan_registers_best json_loads t s today d regs seeds q now p :
  realtime_subscription_enabled s = true ->
  plan_subscriptions json_loads t s today d regs seeds q now = Ok p ->
  exists c cands near sds,
    collect_targets json_loads t s (sp_trade_date p) (sp_anchors p) sds (sp_registered p) now
      = Ok (c, cands, near) /\
    let exchange := realtime_subscription_exchange s in
    let w := waiting (sp_registered p) (stable_sort (cmp_le target_order) (desired c)) in
    let room := Z.to_nat (realtime_subscription_max_total s - Z.of_nat (length (sp_registered p))) in
    sp_register p = map (register_view exchange) (take room w) /\
    sp_near_miss p = map (near_view exchange) (drop room w) /\
    (forall r n, r ∈ sp_register p -> n ∈ sp_near_miss p ->
       f_lt (tv_priority r) (tv_priority n) = false /\
       (tv_code n ∈ sp_anchors p -> f_le (f_of_Z 10000) (tv_priority r) = true)) /\
    (forall code, code ∈ map sl_code (sp_remove p) <->
       code ∈ sp_registered p /\ (code ∉ desired_codes c) /\ ~ tick_fresh t s now code).
Proof.
  intros Hen H. destruct (plan_parts _ _ _ _ _ _ _ _ _ _ Hen H) as (c & cands & near & sds & stale & Hc & Hst & Hp).
  cbv zeta in Hp. destruct Hp as (_ & Hreg & Hnear & Hrem & _).
  destruct (collect_targets_spec _ _ _ _ _ _ _ _ _ _ _ Hc) as (Hcodes & Hanchor & _).
  exists c, cands, near, sds. split; [exact Hc|]. cbv zeta. split_and!; [exact Hreg|exact Hnear| |].
  - rewrite Hreg, Hnear. intros r n (g & -> & Hg)%list_elem_of_fmap (g' & -> & Hg')%list_elem_of_fmap.
    cbn [register_view near_view _target_view tv_priority tv_code].
    destruct (target_order_priority g g') as [Hlt Hge].
    { exact (sorted_take_drop _ _ _ _ _ (waiting_sorted _ _) Hg Hg'). }
    split; [done|]. intros Ha. apply Hge. destruct (Hanchor _ Ha) as (g2 & Hg2 & Hcode & Hk).
    assert (Hin : g' ∈ desired c).
    { apply (elem_of_stable_sort (cmp_le target_order)).
      apply (elem_of_waiting (sp_registered p)). eapply elem_of_drop. exact Hg'. }
    by rewrite (same_target _ _ _ Hcodes Hin Hg2 (eq_sym Hcode)).
  - intros code. rewrite Hrem, (removals_exact _ _ _ _ _ _ _ Hst). split; [tauto|].
    intros (Hr & Hw & Hf). split_and!; [done| |done..]. intros Ha. apply Hw.
    destruct (Hanchor _ Ha) as (g & Hg & <- & _). by apply list_elem_of_fmap_2.
Qed.

(** ** A session

    Three codes may be streamed and two are: one has no tick, the other a tick of
    ten seconds ago.  The anchor takes the room that is left; the leader of a theme
    and a candidate, whose priorities are lower, wait. *)
Definition session_settings : SubscriptionSettings :=
  {| realtime_subscription_enabled := true; realtime_subscription_queue_commands := true;
     realtime_subscription_max_total := 3; realtime_subscription_max_per_theme := 2;
     realtime_subscription_anchor_codes := ["069500"]; realtime_subscription_stale_sec := 180;
     realtime_subscription_remove_stale_after_sec := 900; realtime_subscription_allow_remove := true;
     realtime_subscription_exchange := "KRX"; theme_leadership_top_theme_count := 3;
     candidate_condition_action_enter := "ENTER" |}.

Definition session_now : Z := 1767229210 * usec.
Definition session_tick : latest_tick :=
  {| lt_session := "REGULAR"; lt_name := "Samsung Electronics"; lt_price := 70000; lt_change_rate := f_zero;
     lt_cumulative_volume := 100; lt_cumulative_trade_value := f_of_Z 7000000; lt_execution_strength := f_zero;
     lt_best_bid := 69900; lt_best_ask := 70000; lt_spread_ticks := 1; lt_day_high := 70000;
     lt_day_low := 70000; lt_trade_time := "2026-01-01T01:00:00Z"; lt_event_ts := "2026-01-01T01:00:00Z";
     lt_received_at := "2026-01-01T01:00:00Z"; lt_source := "kiwoom_gateway"; lt_event_id := "evt_1";
     lt_quality_status := QS.FRESH |}.
Definition session_candidate : candidate_row :=
  {| c_candidate_instance_id := "cand_1"; c_trade_date := "2026-01-01"; c_code := "035720"; c_name := "Kakao";
     c_generation := 1; c_state := CS.WATCHING; c_previous_state := None; c_detected_at := 0;
     c_last_seen_at := 0; c_state_updated_at := 0; c_closed_at := None;
     c_primary_source_type := CST.CONDITION_ENTER; c_primary_source_id := "7"; c_source_count := 1;
     c_active_source_count := 1; c_theme_id := None; c_theme_name := None; c_theme_state := None;
     c_theme_role := None; c_market_readiness_status := None; c_tick_age_sec := None;
     c_vwap_ready := false; c_bar_1m_ready := false; c_bar_3m_ready := false; c_bar_5m_ready := false;
     c_reason_codes := [] |}.
Definition session_tables : subscription_tables :=
  {| sb_market := put_latest ("005930", "KRX") session_tick empty_tables;
     tick_updated_at := {[ ("005930", "KRX") := "2026-01-01T01:00:00Z" ]};
     sb_candidates := [session_candidate];
     theme_snapshots :=
       [{| tl_theme_id := "t1"; tl_snapshot_id := "s1"; tl_theme_name := "Memory"; tl_state := "LEADING";
           tl_leading_code := Some "042700"; tl_fresh_coverage_ratio := f_of_Z 1;
           tl_scan_coverage_ratio := f_of_Z 1; tl_flow_score := f_of_Z 5;
           tl_total_trade_value := f_of_Z 1000 |}];
     theme_snapshot_members :=
       [{| tm_snapshot_id := "s1"; tm_code := "042700"; tm_name := "Hanmi"; tm_readiness_status := "READY";
           tm_member_role := "LEADER"; tm_change_rate := Some (f_of_Z 12) |}];
     membership := ∅; sb_gateway_status := {[ "realtime_registered_codes" := "005930,000660" ]} |}.
Definition session_loads (s : string) : res json :=
  if String.eqb s "{}" then Ok (JObj []) else Err (ValueError "not JSON").

Definition session_plan : res RealtimeSubscriptionPlan :=
  plan_subscriptions session_loads session_tables session_settings "2026-01-01" None None None None session_now.
Definition plan_codes (p : RealtimeSubscriptionPlan) : list (list string) :=
  [map tv_code (sp_register p); map tv_code (sp_near_miss p); map sl_code (sp_remove p);
   map kt_code (sp_keep p)].

Example session_plan_codes :
  (let* p := session_plan in Ok (plan_codes p)) = Ok [["069500"]; ["035720"; "042700"]; ["000660"]; ["005930"; "000660"]].
Proof. vm_compute. reflexivity. Qed.

Lemma session_planned : exists p, session_plan = Ok p /\
  plan_codes p = [["069500"]; ["035720"; "042700"]; ["000660"]; ["005930"; "000660"]].
Proof.
  pose proof session_plan_codes as H. apply res_bind_ok in H as (p & Hp & H%res_ok_inj).
  exact (ex_intro _ p (conj Hp H)).
Qed.

Lemma plan_within_limit_witness : exists p,
  session_plan = Ok p /\
  plan_codes p = [["069500"]; ["035720"; "042700"]; ["000660"]; ["005930"; "000660"]] /\
  Z.of_nat (length (sp_registered p ++ map tv_code (sp_register p))) <=
    Z.max 3 (Z.of_nat (length (sp_registered p))) /\
  ~ tick_fresh session_tables session_settings session_now "000660".
Proof.
  destruct session_planned as (p & Hp & Hcodes). pose proof Hp as H. unfold session_plan in H.
  destruct (plan_within_limit _ _ _ _ _ _ _ _ _ _ H) as (_ & Hlen & Hrem).
  exists p. split_and!; [exact Hp|exact Hcodes|exact Hlen|].
  apply Hrem. injection Hcodes as _ _ -> _. apply list_elem_of_here.
Defined.

Lemma plan_registers_best_witness : exists p,
  session_plan = Ok p /\
  plan_codes p = [["069500"]; ["035720"; "042700"]; ["000660"]; ["005930"; "000660"]] /\
  (forall r n, r ∈ sp_register p -> n ∈ sp_near_miss p -> f_lt (tv_priority r) (tv_priority n) = false).
Proof.
  destruct session_planned as (p & Hp & Hcodes). pose proof Hp as H. unfold session_plan in H.
  destruct (plan_registers_best _ _ session_settings _ _ _ _ _ _ _ eq_refl H) as (_ & _ & _ & _ & _ & _ & _ & Hbest & _).
  exists p. split_and!; [exact Hp|exact Hcodes|]. intros r n Hr Hn. exact (proj1 (Hbest r n Hr Hn)).
Defined.
