(* ===== verification/SubscriptionRuns.v ===== *)
(** * Commands of the subscription planner ([services/realtime_subscription/service.py])

    What [run_once] does with the plan of [Subscription]: one command a target, and
    nothing else of the store changes; the planner queues no order. *)
From S2P Require Import Prelude BrokerUtils GatewayModels.
From S2P Require Import OrderBoundary CommandStore CommandHistory MarketData LiveSimModels Subscription.
From stdpp Require Import pretty.
Local Open Scope Z_scope.
Set Default Proof Using "Type".

(** ** A store that gains commands

    [n] commands that satisfy [P] are added, the others and the boundaries stay. *)
Record gains (P : command_row -> Prop) (n : nat) (s s' : store) : Prop := {
  gains_kept : commands s ⊆ commands s';
  gains_new : forall cid row, commands s' !! cid = Some row -> commands s !! cid = None -> P row;
  gains_count : size (commands s') = (size (commands s) + n)%nat;
  gains_boundaries : boundaries s' = boundaries s
}.

Lemma gains_refl P s : gains P 0 s s.
Proof. split; [done|congruence|lia|done]. Qed.

Lemma gains_trans P n m s1 s2 s3 : gains P n s1 s2 -> gains P m s2 s3 -> gains P (n + m) s1 s3.
Proof.
  intros [K1 N1 C1 B1] [K2 N2 C2 B2]. split; [by etrans| |lia|congruence].
  intros cid row H3 H1. destruct (commands s2 !! cid) as [row2|] eqn:E; [|by eapply N2].
  assert (row2 = row) as -> by (pose proof (lookup_weaken _ _ _ _ E K2); congruence). by eapply N1.
Qed.

Lemma gains_impl (P Q : command_row -> Prop) n s s' :
  (forall row, P row -> Q row) -> gains P n s s' -> gains Q n s s'.
Proof. intros H [K N C B]. split; [done| |done|done]. intros cid row H1 H2. by eapply H, N. Qed.

Definition accepted (r : command_result) : nat := if er_accepted (cr_result r) then 1 else 0.

(** What [enqueue_command] adds is the command's row. *)
Lemma enqueue_gains py_repr hash_payload s c e now now' :
  let r := enqueue_command py_repr hash_payload s c e now now' in
  gains (fun row => row = queued_row c (_normalize_command_type (command_type c)) e)
    (if er_accepted r.2 then 1 else 0) s r.1.
Proof.
  cbv zeta. destruct (enqueue_exact py_repr hash_payload s c e now now') as (Hacc & Hc & _ & Hb).
  destruct (er_accepted _).
  - symmetry in Hacc. apply andb_true_iff in Hacc as [Hacc _].
    apply andb_true_iff in Hacc as [_ Hnew%bool_decide_eq_true].
    split; [rewrite Hc; by apply insert_subseteq| | |done].
    + intros cid row. rewrite Hc. destruct (decide (command_id c = cid)) as [<-|Hne].
      * rewrite lookup_insert_eq. congruence.
      * rewrite lookup_insert_ne by done. congruence.
    + rewrite Hc, map_size_insert_None by done. lia.
  - split; rewrite ?Hc; [done|congruence|lia|done].
Qed.

(** ** One command *)

Section Queueing.
Context (new_message_id : string -> nat -> string) (py_repr : json -> string)
  (hash_payload : payload -> string) (json_loads : string -> res json)
  (fresh_text : forall prefix n, str_true (py_strip (new_message_id prefix n)) = true).

Definition command_type_of (action : string) : string :=
  if String.eqb action _REGISTER_ACTION then "register_realtime" else "remove_realtime".

(** The row of a command for a code: it is for this code only, says that it is no
    order, and has the key of the day and two minutes to live. *)
Record subscribes (action : string) (now : Z) (trade_date exchange code : string) (row : command_row) : Prop := {
  sub_type : gc_command_type row = command_type_of action;
  sub_status : gc_status row = GS.QUEUED;
  sub_code : jget "code" (gc_payload row) = Some (JStr code);
  sub_codes : jget "codes" (gc_payload row) = Some (JList [JStr code]);
  sub_exchange : jget "exchange" (gc_payload row) = Some (JStr exchange);
  sub_observe : jget "observe_only" (gc_payload row) = Some (JBool true);
  sub_no_order : jget "no_order_side_effects" (gc_payload row) = Some (JBool true);
  sub_key : gc_idempotency_key row = Some (subscription_key trade_date exchange action code);
  sub_expiry : gc_expires_at row = Some (now + seconds 120)
}.

Definition ends_clean (s : string) : Prop := py_rstrip s = s /\ s <> EmptyString.
Lemma ends_clean_app a b : ends_clean b -> ends_clean (a +:+ b).
Proof. intros [Hb Hne]. split; [by apply py_rstrip_app|]. by destruct a. Qed.
Lemma stock_ends_clean c : is_stock_code c = true -> ends_clean c.
Proof. intros [Hl Hd]%andb_true_iff. split; [by apply digits_rstrip|by destruct c]. Qed.

Lemma key_text trade_date exchange action code f :
  is_stock_code code = true ->
  require_non_empty (subscription_key trade_date exchange action code) f =
  Ok (subscription_key trade_date exchange action code).
Proof.
  intros Hs%stock_ends_clean. apply require_non_empty_ok. split; [|done].
  assert (Hk : ends_clean (subscription_key trade_date exchange action code)).
  { unfold subscription_key. cbn [String.concat]. by repeat apply ends_clean_app. }
  unfold py_strip. by rewrite (proj1 Hk).
Qed.

Lemma made_command action p id code trade_date exchange now :
  is_stock_code code = true -> str_true (py_strip id) = true ->
  GatewayCommand_post_init
    {| command_type := command_type_of action; source := REALTIME_SUBSCRIPTION_SOURCE; payload_of := p;
       command_id := id; ts := now;
       idempotency_key := Some (subscription_key trade_date exchange action code) |} =
  Ok {| command_type := command_type_of action; source := REALTIME_SUBSCRIPTION_SOURCE; payload_of := p;
        command_id := py_strip id; ts := now;
        idempotency_key := Some (subscription_key trade_date exchange action code) |}.
Proof.
  intros Hs Hid. unfold GatewayCommand_post_init.
  cbn [command_id command_type source idempotency_key payload_of ts].
  rewrite (proj2 (require_non_empty_ok id "command_id" _) (conj eq_refl Hid)). cbn [res_bind].
  assert (Ht : require_non_empty (command_type_of action) "command_type" = Ok (command_type_of action)).
  { unfold command_type_of. by destruct (String.eqb _ _). }
  rewrite Ht, key_text by done. done.
Qed.

Lemma queue_one action g trade_date exchange now w :
  mem action _ALLOWED_ACTIONS = true -> is_stock_code (ct_code g) = true ->
  exists w' r,
    _queue_subscription_command new_message_id py_repr hash_payload action g trade_date exchange now w = (w', Ok r) /\
    cr_code r = ct_code g /\ cr_action r = action /\
    gains (subscribes action now trade_date exchange (ct_code g)) (accepted r) (pw_store w) (pw_store w').
Proof using fresh_text.
  intros Hact Hcode.
  assert (Hval : validate_stock_code (JStr (ct_code g)) "code" = Ok (ct_code g)) by by apply code_field_again.
  unfold _queue_subscription_command. unfold bind at 1. rewrite Hact. cbn [require ret].
  unfold bind at 1. rewrite Hval. cbn [of_res]. unfold bind at 1. cbn [get].
  unfold bind at 1. cbn [pw_store pw_serial].
  fold (command_type_of action). rewrite made_command by done.
  unfold bind at 1. cbn [of_res pw_store].
  match goal with |- context [enqueue_command ?a ?b ?c ?d ?e ?f ?h] =>
    pose proof (enqueue_gains a b c d e f h) as Hg; destruct (enqueue_command a b c d e f h) as [st r] end.
  cbn [fst snd] in Hg. eexists _, _. split; [done|]. split_and!; [done..|].
  eapply gains_impl; [|exact Hg]. intros row ->.
  unfold mem in Hact. cbn in Hact.
  destruct (String.eqb_spec action _REGISTER_ACTION) as [->|]; [by split|].
  destruct (String.eqb_spec action _REMOVE_ACTION) as [->|]; [by split|done].
Qed.

(** ** All commands *)

(** Whom the results are for. *)
Definition result_target (r : command_result) : string * string := (cr_action r, cr_code r).
Definition acceptances (rs : list command_result) : nat := list_sum (map accepted rs).

Lemma acceptances_length rs :
  acceptances rs = length (List.filter (fun r => er_accepted (cr_result r)) rs).
Proof.
  unfold acceptances, list_sum, accepted. induction rs as [|r rs IH]; [done|]. cbn [map foldr List.filter].
  rewrite IH. by destruct (er_accepted _).
Qed.

Lemma queue_targets action gs trade_date exchange now w :
  mem action _ALLOWED_ACTIONS = true -> Forall (fun g => is_stock_code (ct_code g) = true) gs ->
  exists w' rs,
    queue_all new_message_id py_repr hash_payload action gs trade_date exchange now w = (w', Ok rs) /\
    map result_target rs = map (fun g => (action, ct_code g)) gs /\
    gains (fun row => exists g, g ∈ gs /\ subscribes action now trade_date exchange (ct_code g) row)
      (acceptances rs) (pw_store w) (pw_store w').
Proof using fresh_text.
  intros Hact Hgs. revert w. induction Hgs as [|g gs Hg _ IH]; intros w.
  { eexists _, _. split; [done|]. split; [done|]. apply gains_refl. }
  destruct (queue_one action g trade_date exchange now w Hact Hg) as (w1 & r & E1 & Hc & Ha & G1).
  destruct (IH w1) as (w2 & rs & E2 & Hrs & G2). exists w2, (r :: rs). cbn [queue_all].
  unfold bind at 1. rewrite E1. unfold bind at 1. rewrite E2. split; [done|]. split.
  - cbn [map]. rewrite Hrs. unfold result_target at 1. by rewrite Hc, Ha.
  - change (acceptances (r :: rs)) with (accepted r + acceptances rs)%nat. eapply gains_trans.
    + eapply gains_impl; [|exact G1]. intros row Hrow. exists g. split; [apply list_elem_of_here|done].
    + eapply gains_impl; [|exact G2]. intros row (g' & Hg' & Hrow). exists g'.
      split; [by apply list_elem_of_further|done].
Qed.

(** What one run asks for: to register the codes of the plan, and to remove its
    stale ones where that is allowed. *)
Definition asked (s : SubscriptionSettings) (p : RealtimeSubscriptionPlan) : list (string * string) :=
  map (fun v => (_REGISTER_ACTION, tv_code v)) (sp_register p) ++
  (if realtime_subscription_allow_remove s
   then map (fun v => (_REMOVE_ACTION, sl_code v)) (sp_remove p) else []).

(** C23. A run never fails once the plan is made.  If it is to queue commands, it asks
    for one command a target of the plan, first the registrations and then, only where
    it is allowed, the removals; every command it adds to the store is for one of
    these targets, says that it is no order and has two minutes to live; the plan
    counts them; the other commands and the order boundaries stay as they are. *)
Theorem run_once_queues_plan t s today d regs seeds q now w p :
  plan_subscriptions json_loads t s today d regs seeds q now = Ok p ->
  exists w' p',
    run_once new_message_id py_repr hash_payload json_loads t s today d regs seeds q now w = (w', Ok p') /\
    if sp_queue_commands p && negb (String.eqb (sp_status p) "DISABLED")
    then map result_target (sp_command_results p') = asked s p /\
         gains (fun row => exists action code, (action, code) ∈ asked s p /\
                  subscribes action now (sp_trade_date p) (sp_exchange p) code row)
           (Z.to_nat (sp_command_count p')) (pw_store w) (pw_store w')
    else w' = w /\ p' = p.
Proof using fresh_text.
  intros H. destruct (planned_codes _ _ _ _ _ _ _ _ _ _ H) as [Hreg Hrem].
  unfold run_once, bind at 1. rewrite H. cbn [of_res]. unfold queue_plan.
  replace (negb (sp_queue_commands p) || _)
    with (negb (sp_queue_commands p && negb (String.eqb (sp_status p) "DISABLED")))
    by (by destruct (sp_queue_commands p), (String.eqb _ _)).
  destruct (sp_queue_commands p && _); cbn [negb]; [|by eexists _, _].
  destruct (queue_targets _REGISTER_ACTION (map register_command (sp_register p)) (sp_trade_date p) (sp_exchange p)
    now w eq_refl) as (w1 & rs1 & E1 & H1 & G1); [by apply Forall_fmap|].
  unfold bind at 1. rewrite E1. unfold bind at 1, asked.
  set (removal := if realtime_subscription_allow_remove s then map remove_command (sp_remove p) else []).
  assert (Hrem' : Forall (fun g => is_stock_code (ct_code g) = true) removal).
  { unfold removal. destruct (realtime_subscription_allow_remove s); [by apply Forall_fmap|constructor]. }
  destruct (queue_targets _REMOVE_ACTION removal (sp_trade_date p) (sp_exchange p) now w1 eq_refl Hrem')
    as (w2 & rs2 & E2 & H2 & G2).
  exists w2, (with_commands p (rs1 ++ rs2)). split.
  { unfold removal in E2. destruct (realtime_subscription_allow_remove s); [by rewrite E2|].
    cbn in E2. injection E2 as <- <-. done. }
  split.
  - cbn [with_commands sp_command_results]. rewrite map_app, H1, H2, !map_map. f_equal.
    unfold removal. destruct (realtime_subscription_allow_remove s); [by rewrite map_map|done].
  - cbn [with_commands sp_command_count]. rewrite Nat2Z.id, <- acceptances_length.
    unfold acceptances. rewrite map_app, list_sum_app. eapply gains_trans.
    + eapply gains_impl; [|exact G1]. intros row (g & (v & -> & Hv)%list_elem_of_fmap & Hrow).
      exists _REGISTER_ACTION, (tv_code v). split; [|exact Hrow]. apply elem_of_app. left.
      by apply (list_elem_of_fmap_2 (fun v => (_REGISTER_ACTION, tv_code v))).
    + eapply gains_impl; [|exact G2]. intros row (g & Hg & Hrow). unfold removal in Hg.
      destruct (realtime_subscription_allow_remove s); [|by apply not_elem_of_nil in Hg].
      apply list_elem_of_fmap in Hg as (v & -> & Hv). exists _REMOVE_ACTION, (sl_code v).
      split; [|exact Hrow]. apply elem_of_app. right.
      by apply (list_elem_of_fmap_2 (fun v => (_REMOVE_ACTION, sl_code v))).
Qed.
End Queueing.

(** ** The session's commands *)

Definition session_id (prefix : string) (n : nat) : string := "m" +:+ (prefix +:+ (pretty n +:+ "_")).
Lemma session_id_text prefix n : str_true (py_strip (session_id prefix n)) = true.
Proof.
  assert (H : ends_clean (session_id prefix n)) by (unfold session_id; by repeat apply ends_clean_app).
  unfold py_strip. by rewrite (proj1 H).
Qed.

Definition session_world : planner_world := {| pw_store := empty_store; pw_serial := 0 |}.
Definition session_run : planner_world * res RealtimeSubscriptionPlan :=
  run_once session_id (fun _ => "?") (fun _ => "sha") session_loads session_tables session_settings
    "2026-01-01" None None None None session_now session_world.

Example session_run_counts :
  match session_run.2 with Ok p => Some (sp_status p, sp_command_count p) | Err _ => None end =
  Some ("QUEUED", 2).
Proof. vm_compute. reflexivity. Qed.
Example session_asked :
  (let* p := session_plan in Ok (sp_queue_commands p, sp_status p, asked session_settings p)) =
  Ok (true, "PLAN_READY", [("register", "069500"); ("remove", "000660")]).
Proof. vm_compute. reflexivity. Qed.

Lemma run_once_queues_plan_witness : exists w' p',
  session_run = (w', Ok p') /\
  map result_target (sp_command_results p') = [("register", "069500"); ("remove", "000660")] /\
  size (commands (pw_store w')) = 2%nat.
Proof.
  pose proof session_asked as Ha. apply res_bind_ok in Ha as (p & Hp & Ha%res_ok_inj).
  apply pair_equal_spec in Ha as [[Hq Hs]%pair_equal_spec Ha]. unfold session_plan in Hp.
  destruct (run_once_queues_plan session_id (fun _ => "?") (fun _ => "sha") session_loads session_id_text
    _ _ _ _ _ _ _ _ session_world _ Hp) as (w' & p' & Hrun & H).
  rewrite Hq, Hs in H. cbn [andb negb String.eqb] in H. destruct H as [Hres Hg].
  pose proof session_run_counts as Hc. unfold session_run in *. rewrite Hrun in Hc. cbn [snd] in Hc.
  injection Hc as _ Hn. exists w', p'. split; [exact Hrun|]. split; [by rewrite Hres|].
  rewrite (gains_count _ _ _ _ Hg), Hn. reflexivity.
Defined.
